(* ===== verification/_CoqProject ===== *)
-Q . S2P
Prelude.v
Net.v
Marks.v
PathSelection.v
TunnelHealth.v
HubHealth.v
LocalFailover.v
RouteResolver.v
Enrollment.v
Json.v
Model.v
ModelValidate.v
ModelParse.v
CoreTopology.v
TopologyFacts.v
EdgeAgent.v
EdgeAgentFacts.v
FailoverRuntime.v
FailoverFacts.v
DestinationModels.v
DesiredState.v
DesiredFacts.v
DesiredApply.v
Underlay.v
Inventory.v
Controller.v
ControllerFacts.v
ForwardingFacts.v
Sql.v
PolicyStore.v
PolicyStoreFacts.v
StoreHistory.v
ZtpStore.v
ZtpFacts.v
DynamicInventory.v
InventoryFacts.v
IntentCompiler.v
CompilerFacts.v
PolicyService.v
ServiceFacts.v
PolicyHttp.v
PolicyHttpFacts.v
Lifecycle.v
LifecycleFacts.v
SqlConnection.v
ZtpService.v
ZtpThreads.v
LivePlan.v
LivePlanFacts.v
SiteProfile.v
ContainernetRuntime.v
ContainernetFacts.v
TopologyControl.v
ManagementAuth.v
ManagementAuthFacts.v
AuditStore.v
AuditStoreFacts.v
Evidence.v
EdgeBootstrap.v
EdgeBootstrapFacts.v
EdgeService.v
DependencyGraph.v
DependencyGraphFacts.v
RuntimeProbe.v
PolicyRouting.v
RouteEvidence.v
FlowCollector.v
EvidenceRendering.v
EvidenceRenderingFacts.v
EvidencePlanner.v
EvidencePlannerFacts.v
ManagementApi.v
ManagementApiFacts.v
ManagementViews.v
McpServer.v
McpServerFacts.v
ManagementRoutes.v
AgentRunner.v
