(* ===== verification/Prelude.v ===== *)
(** * SD-WAN v5: a verification development

    The repository is a laboratory SD-WAN: branch edges and two hubs joined by
    WireGuard tunnels over three provider networks, a Ryu controller that
    programs the provider switches, a policy service that owns the intended
    state, a provisioning service that admits devices, and a management plane
    that drives the two services.  This library models the Python code of those
    parts as executable definitions and proves what makes them correct.  A
    second group of files does the same for the laboratory the parts run in: the
    physical topology, its control channel, and the management plane's access
    control and records.

    ** Parts, files and sources (all under src/sdwan/)

    Foundations
    - Prelude: results with the exception classes the code raises, the state
      and exception monad [M], lemmas and tactics shared by all files.
    - Net: the part of Python's ipaddress in use.  Json: parsed YAML and JSON
      values with the conversions Python applies to them.  Sql: tables and
      transactions (persistence/base.py).  SqlConnection: the same transactions
      statement by statement on a connection that threads share, and the
      migrations (persistence/base.py, migrate.py).

    The topology
    - Model, ModelValidate, ModelParse: records, derived addresses and names,
      [validate_config], [config_from_mapping] (common/model.py).
      CoreTopology: the shipped topology.core.yaml as data, accepted by the
      reader.  TopologyFacts: disjoint addressing, distinct ports, every other
      component starts on a validated topology.

    The edge
    - Marks (common/marks.py): packet marks.  PathSelection
      (common/path_selection.py): metric windows, the SLA hysteresis automaton
      and the selector's memory.  TunnelHealth, HubHealth, LocalFailover,
      RouteResolver (files of the same names).  Each file holds its facts.
    - EdgeAgent, EdgeAgentFacts (edge_agent_v5.py): reconciliation and policy
      installation as commands issued to an oracle.  PolicyRouting: the kernel
      rules those commands leave, and the table a packet mark selects.
    - EdgeBootstrap, EdgeBootstrapFacts (edge_bootstrap.py, ztp_client.py,
      https_client.py, identity_store.py): enrolment, registration and the pass
      that fetches, applies and acknowledges.  EdgeService composes that pass
      with PolicyHttp: edge and service over one exchange.
    - FailoverRuntime, FailoverFacts (edge_failover_runtime.py): one monitoring
      round and any number of them; a refinement of LocalFailover.

    The policy side
    - DestinationModels (common/destination_models.py), DesiredState and
      DesiredFacts (desired_state_v5.py); DesiredApply runs EdgeAgent on what
      DesiredState computes.
    - PolicyStore, PolicyStoreFacts, StoreHistory (persistence/policy_store.py,
      route_ownership.py): every operation on the tables, and the invariant and
      order of all histories of calls.
    - Inventory, DynamicInventory, InventoryFacts, IntentCompiler,
      CompilerFacts (dynamic_control.py): allocation, the lifecycle table,
      intents, and the compiler from inventory to desired states.
    - PolicyService, ServiceFacts (policy_service_v5.py): the service as the
      composition of the above; hub-first activation over all histories.
    - PolicyHttp, PolicyHttpFacts (policy_http.py, device_inventory.py): the
      GET and POST handlers and the authority of each request.

    Provisioning and lifecycle
    - ZtpStore, ZtpFacts (persistence/ztp_store.py): single-use claims.
    - ZtpService (ztp_service_v5.py, identity_ca.py): the CA
      over OpenSSL's commands, the application and the handlers of the
      enrolment service.  ZtpThreads: a claim consumed by threads that share a
      connection.
    - Enrollment (enrollment_state.py): the enrolment transition table.
    - Lifecycle, LifecycleFacts (management/lifecycle.py): creation and deletion
      of a branch over both databases and an arbitrary topology runtime
      ([Class LabRuntime]).
    - SiteProfile (dynamic_profile.py, runtime_restore.py):
      inventory records an edge or a restarted topology receives as documents,
      overlaid on the configured topology; the restoration of branches.

    The laboratory
    - LivePlan, LivePlanFacts (topology_v5.py): the plan of switches,
      containers, links and base routes, its validation, and the commands that
      configure it.
    - ContainernetRuntime, ContainernetFacts (containernet_runtime.py): creation
      and removal of one branch while the network runs.
    - TopologyControl (lab_runtime.py): requests on the
      control socket, from the client's call to the runtime's operations.

    The management plane
    - ManagementAuth, ManagementAuthFacts (management/auth.py, the guards of
      admin_api.py): roles, scopes, tokens and agent contexts.
    - AuditStore, AuditStoreFacts (management/repository.py, the chat routes of
      app.py): audit events, chat sessions and evidence bundles.
    - ManagementApi, ManagementApiFacts (management/admin_api.py, the writing
      operations of management/service.py, the guards and the middleware of
      app.py): administrative requests and their audit trail, over Lifecycle,
      PolicyService, ManagementAuth and AuditStore.
    - DependencyGraph, DependencyGraphFacts (management/graph.py, the graph
      queries and endpoint names of service.py): the graph and its searches.
    - RuntimeProbe (management/runtime.py): probes of the running containers,
      the marks in conntrack's listing, the parser of wg show.
    - RouteEvidence (management/service.py): route
      summaries and decisions, observed flows, and their documents.
    - FlowCollector (hub_flow_collector.py,
      classifier_event_collector.py, the flow queries of service.py).
    - Evidence (management/evidence.py,
      sdwan_mcp/models/answers.py): when an answer is accepted.
      EvidenceRendering, EvidenceRenderingFacts: the Markdown it is shown as.
    - EvidencePlanner, EvidencePlannerFacts (management/evidence_planner.py,
      sdwan_mcp/models/common.py, [execute] of app.py): endpoints named in a
      question, the evidence prepared for it, and the turn of the chat.
    - ManagementViews (management/service.py): the queries over the databases,
      the topology, the controller's published state and the probes, as the
      documents they return.  ManagementRoutes (config.py, the GET routes of
      app.py): the settings, each query with its path, scope and answer, over
      ManagementViews, with the guard and the middleware of ManagementApi.
    - McpServer, McpServerFacts (sdwan_mcp/server.py): the tools a language
      model may call, over the same queries and the operations of
      ManagementApi; each result joins the bundle of its message.
    - AgentRunner (management/agent.py, the attempts of [execute] in app.py):
      the process of the language model, its output and bounds, and the chat
      turn that waits for it, over EvidencePlanner.

    The underlay
    - Underlay (underlay_l3.py): attachment bindings and forwarding tables.
    - Controller, ControllerFacts, ForwardingFacts (controller_v5.py): the
      OpenFlow handlers, a switch that executes their messages, and what the
      programmed switches let through.

    ** How code becomes definitions

    - A handler or method is one definition over explicit state, with the
      guards and early returns of the source in their order.  [M S A] is
      [S → result A * S]: an exception keeps the state reached so far, except
      inside [transaction], which restores the state it started from.
    - Exceptions carry their class and message; the text of messages that
      Python or SQLite generates (KeyError, IntegrityError) is shortened.
    - Python integers are unbounded and so are ours ([Z]); marks, ports,
      addresses and prefixes have their ranges as checks, as in the code.
    - Floats are rationals [Q]: rounding, infinities and NaN are not modelled.
    - Dictionaries whose order matters are association lists in insertion
      order with distinct keys; dataclass annotations are taken at their word.
    - Addresses and networks are IPv4; IPv6 text is refused by the model.
    - Documents written as canonical JSON are compared as values with sorted
      keys ([canonical]); their SHA-256 digest is a parameter.
    - Random values, UUIDs, PBKDF2, token signing and key generation are
      arguments; OpenSSL is an oracle from its commands to their output.  The
      clock is read once per operation and given as an argument or a tick
      counter; ISO time texts of the provisioning database are instants.
    - Linux commands are an oracle from the history of commands to an error
      text; what a probe or a switch handler observes is an [Env] record;
      docker is a function from a container and a command to what it printed.
    - JSON's printer and parser, pydantic's check of a graph fact, and the
      order in which Python walks a set are arguments; no law of them is
      assumed unless a theorem names it.
    - Locks make the operations they protect atomic steps.  Where the code has
      no lock (the connection of the provisioning database, the connections of
      the audit store) the interleavings are modelled: SqlConnection, ZtpThreads,
      AuditStore.  Elsewhere one handler sees one inventory reading.  The TLS
      subject of a request is an argument.
    - Containernet's calls and container commands may fail at any point: an
      oracle from the history of calls decides, and what was done stays done.
    - UNIQUE, CHECK and FOREIGN KEY constraints of the SQL migrations that an
      operation can meet are written out as checks of the insertions.

    ** Bounds

    No definition needs fuel beyond the structure of its data, with these
    exceptions: the longest path through the lifecycle table has 13 steps, the
    walk used in [lifecycle_progress] takes 14; error texts are cut at 1000
    characters as in the code; the controller's endless reconcile loop and the
    monitor's serve loop are modelled by one round and by lists of rounds; the
    restoration's endless retries take fuel, and [restoration_serves_in_order]
    shows that some fuel serves every target.

    ** What the theorems show

    - Reading a topology: [accepted_addressing], [accepted_document],
      [validated_components_start]; and [port_allocation_collision_free].
    - Safety of the control plane: [hub_first], [service_history],
      [store_history], [request_authority], [get_answers], [allocation_safe],
      [registration_onboards], [publish_acknowledge], with [compile_settles] for
      the convergence of the compiler.
    - Provisioning and lifecycle: [enrollment_authority] (what each request to
      the enrolment service may change), [claims_single_use],
      [consume_claim_spec], [coordinator_truthful], [deletion_revokes],
      [lifecycle_progress].
    - Storage: [exclusive_transactions_serial] (threads that take turns refine
      the atomic transactions of Sql), [migrations_apply_once].
    - The underlay: [underlay_isolation], [fib_reachability].
    - The laboratory: [plan_matches_registry] (the ports of the physical plan
      are those the controller admits), [configured_interfaces],
      [branch_created], [control_runs_typed_commands], [channel_transparent],
      [delivered_profile_overlays], [restoration_serves_in_order].
    - The edge: [reconcile_spec], [reconcile_never_goes_back],
      [reconcile_idempotent], [spoke_state_applies], [direct_routes_confined],
      [marks_select_tables] and [hub_marks_select_tables] (what the installed
      rules do to a marked packet), [edge_reports_truthfully],
      [edge_and_service_agree] (the pass and the service's handlers composed),
      [connmark_chain], [rounds_refine_manager], [slot_moves_safely],
      [class_steering], and the facts of the selector, the health machine, the
      resolver and the marks.
    - The management plane: [no_escalation], [login_gives_role],
      [administration_accounted] (the audit trail says exactly what happened),
      [queries_confined] (what reading can change, and for whom it is
      answered), [underlay_reads_back] (a view against the controller that
      published the state), [viewer_agent_confined] (an agent never exceeds the
      role of its user), [agent_turn_ends].
    - Observation: [find_path_shortest], [report_names_selected_rule] and
      [installed_rules_reported] (the service names the rule the kernel uses),
      [transit_flows_recorded], [flows_written_once], [classifier_log_bounded],
      [private_keys_ignored].
    - Answers: [evidence_sealed], [answers_bound_to_evidence],
      [tables_intact] (no reported text adds a cell or a row),
      [prepared_answer_verified] (a route question the server can prepare is
      answered from its evidence and from nothing else).
    The manifest lists the main ones as properties; the others are library
    theorems of their files.  Lemmas named in the findings of the manifest show
    where the code does not do what it means to; they run the modelled code on
    concrete inputs.

    ** Not modelled, and why

    - Sockets, TLS, file permissions, process start-up and SQLite itself, with
      its backups: no logic of the program.
    - topology_visualization.py draws the topology.  In topology_v5.py, starting
      the network and its workloads and waiting for them ([launch_live]).
    - The HTML page and the unguarded health check of the web application, the
      bound of its event queues, the protocol of the MCP server and its four
      fixed resource texts.  What the language model's process prints is an
      argument of AgentRunner.
    - The C classifier (its mark contract is [MarkLayout]), the workload
      generators, which only make test traffic, shell scripts and unit tests.
    - Of a request, the JSON text of the body and the types of its fields: FastAPI and
      pydantic check them before a route runs.  Requests to the management
      server run one at a time in ManagementApi; the interleavings of its stores
      are in AuditStoreFacts and SqlConnection. *)
From stdpp Require Export base option gmap sets list strings pretty.
From Stdlib Require Export QArith Lqa Sorted.

(** stdpp's tactics assume goals are focused; keep plain defaults here. *)
#[export] Set Default Goal Selector "1".

Declare Scope py_scope.
Delimit Scope py_scope with py.

(** [needle in text] *)
Definition contains (needle text : string) : bool :=
  match String.index 0 needle text with Some _ => true | None => false end.

(** ** Python exceptions and fallible results

    A Python call either returns or raises.  [exn_class] lists the exception
    classes the modelled modules raise; the message is the literal text of the
    [raise] statement (interpolated values are appended where the code does). *)
Inductive exn_class :=
  | ValueError | KeyError | LookupError | RuntimeError | TypeError | IndexError
  | ZeroDivisionError | PermissionError | StopIteration
  | ConfigurationError | DestinationPolicyError | InventoryError
  | StaleRouteVersion | StaleMeasurement | InvalidEnrollmentTransition
  | CommandError | VersionConflict | ClaimRejected | IntegrityError
  | IdentityStoreError | MigrationError | AddressValueError | AttributeError | CertificateError | OperationalError
  | BootstrapError | HTTPSClientError | FileNotFoundError.

#[export] Instance exn_class_eq_dec : EqDecision exn_class.
Proof. solve_decision. Defined.

Record exn := Exn { exn_cls : exn_class; exn_msg : string }.

#[export] Instance exn_eq_dec : EqDecision exn.
Proof. solve_decision. Defined.

Inductive result (A : Type) :=
  | Ok (a : A)
  | Err (e : exn).
Arguments Ok {A} a.
Arguments Err {A} e.

#[export] Instance result_ret : MRet result := λ A a, Ok a.
#[export] Instance result_bind : MBind result := λ A B k m,
  match m with Ok a => k a | Err e => Err e end.
#[export] Instance result_fmap : FMap result := λ A B f m,
  match m with Ok a => Ok (f a) | Err e => Err e end.

#[export] Instance result_eq_dec `{EqDecision A} : EqDecision (result A).
Proof. solve_decision. Defined.

Definition raise {A} (c : exn_class) (msg : string) : result A := Err (Exn c msg).

(** [if bad: raise c(msg)] *)
Definition raise_if (bad : bool) (c : exn_class) (msg : string) : result unit :=
  if bad then raise c msg else Ok tt.

Definition is_ok {A} (r : result A) : bool :=
  match r with Ok _ => true | Err _ => false end.

Definition of_option {A} (o : option A) (c : exn_class) (msg : string) : result A :=
  match o with Some a => Ok a | None => raise c msg end.

(** A [for] loop whose body may raise. *)
Fixpoint mapM_result {A B} (f : A → result B) (l : list A) : result (list B) :=
  match l with
  | [] => Ok []
  | x :: l' => y ← f x; ys ← mapM_result f l'; Ok (y :: ys)
  end.

Fixpoint iterM {A} (f : A → result unit) (l : list A) : result unit :=
  match l with
  | [] => Ok tt
  | x :: l' => _ ← f x; iterM f l'
  end.

Fixpoint foldM {A S} (f : S → A → result S) (s : S) (l : list A) : result S :=
  match l with
  | [] => Ok s
  | x :: l' => s' ← f s x; foldM f s' l'
  end.

(** ** State and exceptions together

    Python keeps the mutations made before a [raise]; the state component is
    therefore returned in both cases. *)
Definition M (S A : Type) : Type := S → result A * S.

#[export] Instance M_ret {S} : MRet (M S) := λ A a s, (Ok a, s).
#[export] Instance M_bind {S} : MBind (M S) := λ A B k m s,
  match m s with
  | (Ok a, s') => k a s'
  | (Err e, s') => (Err e, s')
  end.

Definition get {S} : M S S := λ s, (Ok s, s).
Definition put {S} (s : S) : M S unit := λ _, (Ok tt, s).
Definition lift {S A} (r : result A) : M S A := λ s, (r, s).

Fixpoint forM {S A} (f : A → M S unit) (l : list A) : M S unit :=
  match l with
  | [] => mret tt
  | x :: l' => _ ← f x; forM f l'
  end.

Fixpoint mapMS {S A B} (f : A → M S B) (l : list A) : M S (list B) :=
  match l with
  | [] => mret []
  | x :: l' => y ← f x; ys ← mapMS f l'; mret (y :: ys)
  end.

(** A loop with an accumulator. *)
Fixpoint foldMS {S A B} (f : B → A → M S B) (acc : B) (l : list A) : M S B :=
  match l with
  | [] => mret acc
  | x :: l' => acc ← f acc x; foldMS f acc l'
  end.

(** ** Tactics *)

(** Invert one layer of a successful computation. *)
Ltac inv_ok :=
  repeat match goal with
  | H : Ok _ = Ok _ |- _ => injection H as H; try subst
  | H : Err _ = Err _ |- _ => injection H as H; try subst
  | H : Ok _ = Err _ |- _ => discriminate H
  | H : Err _ = Ok _ |- _ => discriminate H
  | H : mret _ = Ok _ |- _ => unfold mret, result_ret in H
  | H : raise _ _ = Ok _ |- _ => discriminate H
  | H : raise_if ?b _ _ = Ok _ |- _ =>
      unfold raise_if in H; destruct b eqn:?; [discriminate H|clear H]
  | H : (_ ≫= _) = Ok _ |- _ => unfold mbind, result_bind in H
  | H : match ?r with Ok _ => _ | Err _ => Err _ end = Ok _ |- _ =>
      destruct r eqn:?; [|discriminate H]
  | H : (if ?b then raise _ _ else _) = Ok _ |- _ =>
      destruct b eqn:?; [discriminate H|]
  end.

(** Boolean hypotheses to propositions, in one pass. *)
Ltac btrue :=
  repeat match goal with
  | H : (_ && _) = true |- _ => apply andb_true_iff in H as [? ?]
  | H : (_ || _) = false |- _ => apply orb_false_iff in H as [? ?]
  | H : negb _ = true |- _ => apply negb_true_iff in H
  | H : negb _ = false |- _ => apply negb_false_iff in H
  | H : bool_decide _ = true |- _ => apply bool_decide_eq_true in H
  | H : bool_decide _ = false |- _ => apply bool_decide_eq_false in H
  end.

Lemma mapM_result_Forall2 {A B} (f : A → result B) l ys :
  mapM_result f l = Ok ys ↔ Forall2 (λ x y, f x = Ok y) l ys.
Proof.
  revert ys. induction l as [|x l IH]; intros ys; simpl; split; intros H.
  - inv_ok. constructor.
  - inversion H; done.
  - inv_ok. constructor; [done|]. by apply IH.
  - inversion H as [|? y ? ys' Hy Hys]; subst. unfold mbind, result_bind.
    rewrite Hy. apply IH in Hys. by rewrite Hys.
Qed.

Lemma iterM_ok {A} (f : A → result unit) l :
  iterM f l = Ok tt ↔ Forall (λ x, f x = Ok tt) l.
Proof.
  induction l as [|x l IH]; simpl; split; intros H; try done.
  - inv_ok. destruct a. constructor; [done|by apply IH].
  - inversion H as [|? ? Hx Hl]; subst. unfold mbind, result_bind.
    rewrite Hx. by apply IH.
Qed.

(** ** Membership and uniqueness tests ([x in xs], [len(xs) != len(set(xs))]) *)

Definition inb {A} `{EqDecision A} (x : A) (l : list A) : bool :=
  existsb (λ y, bool_decide (x = y)) l.

Fixpoint uniqueb {A} `{EqDecision A} (l : list A) : bool :=
  match l with
  | [] => true
  | x :: l' => negb (inb x l') && uniqueb l'
  end.

(** [set(a) <= set(b)] and [set(a) == set(b)]. *)
Definition subsetb {A} `{EqDecision A} (a b : list A) : bool := forallb (λ x, inb x b) a.
Definition same_setb {A} `{EqDecision A} (a b : list A) : bool := subsetb a b && subsetb b a.

Section membership.
Context {A : Type} `{EqDecision A}.
Implicit Types (x : A) (l : list A).

Lemma inb_true x l : inb x l = true ↔ x ∈ l.
Proof.
  unfold inb. rewrite existsb_exists. split.
  - intros (y & Hy & E). apply bool_decide_eq_true in E. subst. by apply list_elem_of_In.
  - intros Hx. exists x. split; [by apply list_elem_of_In|by apply bool_decide_eq_true].
Qed.

Lemma inb_false x l : inb x l = false ↔ x ∉ l.
Proof. rewrite <- inb_true. destruct (inb x l); naive_solver. Qed.

Lemma uniqueb_true l : uniqueb l = true ↔ NoDup l.
Proof.
  induction l as [|x l IH]; simpl; [split; [constructor|done]|].
  rewrite andb_true_iff, negb_true_iff, inb_false, IH, NoDup_cons. done.
Qed.

Lemma subsetb_true l k : subsetb l k = true ↔ l ⊆ k.
Proof.
  unfold subsetb. rewrite forallb_forall. split.
  - intros H x Hx. apply inb_true, H. by apply list_elem_of_In.
  - intros H x Hx. apply inb_true, H. by apply list_elem_of_In.
Qed.

Lemma same_setb_true l k : same_setb l k = true ↔ (∀ x, x ∈ l ↔ x ∈ k).
Proof.
  unfold same_setb. rewrite andb_true_iff, !subsetb_true. unfold subseteq, list_subseteq.
  naive_solver.
Qed.
End membership.

#[export] Hint Rewrite @inb_true @inb_false @uniqueb_true @subsetb_true @same_setb_true
  @existsb_exists @forallb_forall : pybool.

(** ** Insertion-ordered dictionaries

    A Python [dict] iterates in insertion order; assigning an existing key
    keeps its position.  Keys are unique by construction ([dict_wf]). *)
Definition dict (K V : Type) : Type := list (K * V).

Section dict.
Context {K V : Type} `{EqDecision K}.
Implicit Types (d : dict K V) (k : K) (v : V).

Fixpoint dget d k : option V :=
  match d with
  | [] => None
  | (k', v) :: d' => if decide (k = k') then Some v else dget d' k
  end.

Fixpoint dset d k v : dict K V :=
  match d with
  | [] => [(k, v)]
  | (k', v') :: d' => if decide (k = k') then (k', v) :: d' else (k', v') :: dset d' k v
  end.

Fixpoint ddel d k : dict K V :=
  match d with
  | [] => []
  | (k', v') :: d' => if decide (k = k') then ddel d' k else (k', v') :: ddel d' k
  end.
Definition dkeys d : list K := map fst d.
Definition dvals d : list V := map snd d.
Definition dmem d k : bool := match dget d k with Some _ => true | None => false end.
Definition dict_wf d : Prop := NoDup (dkeys d).

(** [d[k]], raising [KeyError]. *)
Definition dgetitem d k : result V := of_option (dget d k) KeyError "key".

Lemma dget_In d k v : dget d k = Some v → (k, v) ∈ d.
Proof.
  induction d as [|[k' v'] d IH]; simpl; [done|]. intros H.
  case_decide; [injection H as ->; subst; constructor|].
  constructor. by apply IH.
Qed.

Lemma dget_None d k : dget d k = None ↔ k ∉ dkeys d.
Proof.
  induction d as [|[k' v'] d IH]; simpl; [split; [intros _; by apply not_elem_of_nil|done]|].
  rewrite not_elem_of_cons. case_decide; naive_solver.
Qed.

Lemma dget_dset d k v k' :
  dget (dset d k v) k' = if decide (k' = k) then Some v else dget d k'.
Proof.
  induction d as [|[k0 v0] d IH]; simpl.
  - case_decide; done.
  - destruct (decide (k = k0)) as [->|Hne]; simpl; repeat case_decide; naive_solver.
Qed.

Lemma dget_dset_eq d k v : dget (dset d k v) k = Some v.
Proof. rewrite dget_dset. by case_decide. Qed.

Lemma dget_dset_ne d k v k' : k' ≠ k → dget (dset d k v) k' = dget d k'.
Proof. intros. rewrite dget_dset. by case_decide. Qed.

Lemma dkeys_dset_in d k v : k ∈ dkeys d → dkeys (dset d k v) = dkeys d.
Proof.
  induction d as [|[k0 v0] d IH]; simpl; [by intros ?%elem_of_nil|].
  intros [->|Hk]%elem_of_cons; [by rewrite decide_True|].
  case_decide; simpl; [done|]. f_equal. by apply IH.
Qed.

Lemma dkeys_dset_notin d k v : k ∉ dkeys d → dkeys (dset d k v) = dkeys d ++ [k].
Proof.
  induction d as [|[k0 v0] d IH]; simpl; [done|].
  rewrite not_elem_of_cons. intros [Hne Hk]. rewrite decide_False by done. simpl.
  f_equal. by apply IH.
Qed.

Lemma dset_wf d k v : dict_wf d → dict_wf (dset d k v).
Proof.
  unfold dict_wf. intros Hwf. destruct (decide (k ∈ dkeys d)).
  - by rewrite dkeys_dset_in.
  - rewrite dkeys_dset_notin by done. apply NoDup_app. split_and!; [done| |apply NoDup_singleton].
    intros x Hx ->%list_elem_of_singleton. done.
Qed.

Lemma dget_wf_In d k v : dict_wf d → (k, v) ∈ d → dget d k = Some v.
Proof.
  unfold dict_wf. induction d as [|[k0 v0] d IH]; simpl; [by intros _ ?%elem_of_nil|].
  rewrite NoDup_cons. intros [Hk0 Hd] [[= -> ->]|Hin]%elem_of_cons.
  - by rewrite decide_True.
  - case_decide as E; [|by apply IH]. subst k0. exfalso. apply Hk0.
    unfold dkeys. apply list_elem_of_In, in_map_iff. exists (k, v). split; [done|].
    by apply list_elem_of_In.
Qed.

Lemma dget_ddel d k k' :
  dget (ddel d k) k' = if decide (k' = k) then None else dget d k'.
Proof.
  induction d as [|[k0 v0] d IH]; simpl; [by case_decide|].
  destruct (decide (k = k0)) as [->|]; simpl; rewrite ?IH; repeat case_decide; naive_solver.
Qed.

Lemma dget_ddel_eq d k : dget (ddel d k) k = None.
Proof. rewrite dget_ddel. by case_decide. Qed.

Lemma dget_ddel_ne d k k' : k' ≠ k → dget (ddel d k) k' = dget d k'.
Proof. intros. rewrite dget_ddel. by case_decide. Qed.

(** [dict(pairs)]: later pairs win, first positions are kept. *)
Definition dict_of (l : list (K * V)) : dict K V :=
  fold_left (λ d p, dset d p.1 p.2) l [].

Lemma dict_of_wf l : dict_wf (dict_of l).
Proof.
  unfold dict_of. assert (Hnil : dict_wf []) by constructor.
  revert Hnil. generalize (@nil (K * V)). induction l as [|p l IH]; intros d Hd; simpl; [done|].
  apply IH. by apply dset_wf.
Qed.
End dict.

#[export] Hint Resolve dset_wf dict_of_wf : pydict.
#[export] Hint Rewrite @dget_dset_eq @dget_ddel_eq : pydict.

Definition dmap {K V W} (f : V → W) (d : dict K V) : dict K W := map (λ p, (p.1, f p.2)) d.

Lemma dkeys_dmap {K V W} (f : V → W) (d : dict K V) : dkeys (dmap f d) = dkeys d.
Proof. unfold dkeys, dmap. rewrite map_map. done. Qed.

Lemma dget_dmap {K V W} `{EqDecision K} (f : V → W) (d : dict K V) k :
  dget (dmap f d) k = f <$> dget d k.
Proof. induction d as [|[k0 v0] d IH]; simpl; [done|]. by case_decide. Qed.

(** ** Binary64 metrics as rationals

    Python floats are represented by [Q]: every comparison and arithmetic
    operation the code performs is the exact one, so rounding, infinities and
    NaN are outside the model (the code never creates a NaN from finite
    configuration and measurement inputs). *)
Definition Qltb (a b : Q) : bool := negb (Qle_bool b a).
Definition Qleb (a b : Q) : bool := Qle_bool a b.
Definition Qeqb (a b : Q) : bool := Qeq_bool a b.

(** [max(a, b)] and [min(a, b)]: the first argument wins ties. *)
Definition py_max (a b : Q) : Q := if Qltb a b then b else a.
Definition py_min (a b : Q) : Q := if Qltb b a then b else a.
Definition py_abs (a : Q) : Q := if Qltb a 0 then - a else a.

Lemma Qltb_spec a b : reflect (a < b)%Q (Qltb a b).
Proof.
  unfold Qltb. destruct (Qle_bool b a) eqn:E; constructor.
  - apply Qle_bool_iff in E. lra.
  - destruct (Qlt_le_dec a b) as [?|H]; [done|]. apply Qle_bool_iff in H. congruence.
Qed.

Lemma Qleb_spec a b : reflect (a <= b)%Q (Qleb a b).
Proof.
  unfold Qleb. destruct (Qle_bool a b) eqn:E; constructor.
  - by apply Qle_bool_iff.
  - intros H. apply Qle_bool_iff in H. congruence.
Qed.

Lemma Qeqb_spec a b : reflect (a == b)%Q (Qeqb a b).
Proof.
  unfold Qeqb. destruct (Qeq_bool a b) eqn:E; constructor.
  - by apply Qeq_bool_iff.
  - intros H. apply Qeq_bool_iff in H. congruence.
Qed.

Lemma Qltb_true a b : Qltb a b = true ↔ (a < b)%Q.
Proof. destruct (Qltb_spec a b); naive_solver. Qed.
Lemma Qltb_false a b : Qltb a b = false ↔ (b <= a)%Q.
Proof. destruct (Qltb_spec a b); split; intros; try done; lra. Qed.
Lemma Qleb_true a b : Qleb a b = true ↔ (a <= b)%Q.
Proof. destruct (Qleb_spec a b); naive_solver. Qed.
Lemma Qleb_false a b : Qleb a b = false ↔ (b < a)%Q.
Proof. destruct (Qleb_spec a b); split; intros; try done; lra. Qed.

#[export] Hint Rewrite Qltb_true Qltb_false Qleb_true Qleb_false : pybool.

Lemma py_max_spec a b : (a <= py_max a b)%Q ∧ (b <= py_max a b)%Q ∧ (py_max a b = a ∨ py_max a b = b).
Proof. unfold py_max. destruct (Qltb_spec a b); split_and!; try lra; auto. Qed.

Lemma py_min_spec a b : (py_min a b <= a)%Q ∧ (py_min a b <= b)%Q ∧ (py_min a b = a ∨ py_min a b = b).
Proof. unfold py_min. destruct (Qltb_spec b a); split_and!; try lra; auto. Qed.

Lemma py_abs_nonneg a : (0 <= py_abs a)%Q.
Proof. unfold py_abs. destruct (Qltb_spec a 0); lra. Qed.

Definition Qsum (l : list Q) : Q := fold_left Qplus l 0%Q.

Lemma Qsum_acc l a : (fold_left Qplus l a == a + fold_left Qplus l 0)%Q.
Proof.
  revert a. induction l as [|x l IH]; intros a; simpl; [lra|].
  rewrite (IH (a + x)%Q), (IH (0 + x)%Q). lra.
Qed.

Lemma inject_Z_S n : (inject_Z (Z.of_nat (S n)) == 1 + inject_Z (Z.of_nat n))%Q.
Proof. rewrite Nat2Z.inj_succ, <- Z.add_1_l, inject_Z_plus. reflexivity. Qed.

(** Sums of values in an interval lie in the scaled interval. *)
Lemma Qsum_bounds lo hi l :
  Forall (λ x, lo <= x ∧ x <= hi)%Q l →
  (inject_Z (Z.of_nat (length l)) * lo <= Qsum l ∧ Qsum l <= inject_Z (Z.of_nat (length l)) * hi)%Q.
Proof.
  unfold Qsum. induction 1 as [|x l [Hlo Hhi] Hl [IH1 IH2]].
  - change (inject_Z (Z.of_nat (length []))) with 0%Q. cbn [fold_left]. split; lra.
  - change (length (x :: l)) with (S (length l)). cbn [fold_left].
    rewrite Qsum_acc, inject_Z_S. split; lra.
Qed.

Lemma Qdiv_bounds (a n lo hi : Q) :
  (0 < n)%Q → (n * lo <= a)%Q → (a <= n * hi)%Q → (lo <= a / n ∧ a / n <= hi)%Q.
Proof.
  intros Hn Hl Hh. split.
  - apply Qle_shift_div_l; lra.
  - apply Qle_shift_div_r; lra.
Qed.

(** [alpha * x + (1 - alpha) * y] stays in every interval holding [x] and [y]. *)
Lemma Qmix_bounds (al x y lo hi : Q) :
  (0 < al)%Q → (al <= 1)%Q → (lo <= x <= hi)%Q → (lo <= y <= hi)%Q →
  (lo <= al * x + (1 - al) * y ∧ al * x + (1 - al) * y <= hi)%Q.
Proof. intros. split; nra. Qed.

(** [l[-n:]] for [n >= 1]. *)
Definition lastn {A} (n : nat) (l : list A) : list A := drop (length l - n) l.

Lemma lastn_length {A} n (l : list A) : length (lastn n l) = (length l `min` n)%nat.
Proof. unfold lastn. rewrite length_drop. lia. Qed.

Lemma lastn_suffix {A} n (l : list A) : lastn n l `suffix_of` l.
Proof. exists (take (length l - n) l). unfold lastn. by rewrite take_drop. Qed.

Lemma lastn_Forall {A} (P : A → Prop) n l : Forall P l → Forall P (lastn n l).
Proof. apply Forall_drop. Qed.

(** ** Stable sorting ([sorted(key=...)])

    Insertion sort with a boolean preorder; elements with equal keys keep
    their order, as Python's sort guarantees. *)
Class TotalPre {A} (le : A → A → bool) : Prop := {
  total_pre : ∀ x y, le x y = true ∨ le y x = true;
  trans_pre : ∀ x y z, le x y = true → le y z = true → le x z = true
}.

Section sort.
Context {A : Type} (le : A → A → bool).

Fixpoint insert_by (x : A) (l : list A) : list A :=
  match l with
  | [] => [x]
  | y :: l' => if le x y then x :: y :: l' else y :: insert_by x l'
  end.

Definition sort_by (l : list A) : list A := foldr insert_by [] l.

Lemma insert_by_perm x l : insert_by x l ≡ₚ x :: l.
Proof.
  induction l as [|y l IH]; simpl; [done|]. destruct (le x y); [done|].
  rewrite IH. by rewrite Permutation_swap.
Qed.

Lemma sort_by_perm l : sort_by l ≡ₚ l.
Proof. induction l as [|x l IH]; simpl; [done|]. by rewrite insert_by_perm, IH. Qed.

Lemma sort_by_elem x l : x ∈ sort_by l ↔ x ∈ l.
Proof. by rewrite sort_by_perm. Qed.

Lemma sort_by_nil l : sort_by l = [] ↔ l = [].
Proof.
  split; [|by intros ->]. intros H. apply Permutation_nil. rewrite <- H. symmetry.
  by rewrite sort_by_perm.
Qed.

Context `{!TotalPre le}.

Lemma insert_by_sorted x l :
  StronglySorted (λ a b, le a b = true) l → StronglySorted (λ a b, le a b = true) (insert_by x l).
Proof.
  induction 1 as [|y l Hs IH Hall]; simpl; [by repeat constructor|].
  destruct (le x y) eqn:E.
  - constructor; [by constructor|]. constructor; [done|].
    eapply Forall_impl; [exact Hall|]. intros z Hz. by eapply trans_pre.
  - constructor; [done|]. rewrite insert_by_perm. constructor; [|done].
    destruct (total_pre x y); congruence.
Qed.

Lemma sort_by_sorted l : StronglySorted (λ a b, le a b = true) (sort_by l).
Proof. induction l as [|x l IH]; simpl; [constructor|]. by apply insert_by_sorted. Qed.

(** The head of the sorted list is a minimum of the input. *)
Lemma sort_by_head l x l' :
  sort_by l = x :: l' → x ∈ l ∧ ∀ y, y ∈ l → le x y = true.
Proof.
  intros E. split.
  - apply sort_by_elem. rewrite E. constructor.
  - intros y Hy%sort_by_elem. pose proof (sort_by_sorted l) as Hs. rewrite E in Hs, Hy.
    apply elem_of_cons in Hy as [->|Hy].
    + destruct (total_pre x x); done.
    + inversion Hs as [|? ? ? Hall]; subst. rewrite Forall_forall in Hall. by apply Hall.
Qed.
End sort.

(** Lexicographic combination of keys, and the orders the code sorts by. *)
Definition lexb {A} (le1 le2 : A → A → bool) (x y : A) : bool :=
  le1 x y && (negb (le1 y x) || le2 x y).

#[export] Instance lexb_total_pre {A} (le1 le2 : A → A → bool) :
  TotalPre le1 → TotalPre le2 → TotalPre (lexb le1 le2).
Proof.
  intros [T1 R1] [T2 R2]. unfold lexb. split.
  - intros x y. specialize (T1 x y). specialize (T2 x y).
    destruct (le1 x y), (le1 y x), (le2 x y), (le2 y x); simpl in *; tauto.
  - intros x y z [Hxy Oxy]%andb_true_iff [Hyz Oyz]%andb_true_iff.
    apply andb_true_iff. split; [by eapply R1|].
    apply orb_true_iff in Oxy, Oyz. apply orb_true_iff.
    destruct (le1 z x) eqn:E; [right|by left].
    assert (le1 y x = true) by eauto. assert (le1 z y = true) by eauto.
    destruct Oxy as [Oxy|Oxy]; [apply negb_true_iff in Oxy; congruence|].
    destruct Oyz as [Oyz|Oyz]; [apply negb_true_iff in Oyz; congruence|]. by eapply R2.
Qed.

#[export] Instance preimage_total_pre {A B} (f : A → B) (le : B → B → bool) :
  TotalPre le → TotalPre (λ x y, le (f x) (f y)).
Proof. intros [T R]. split; intros; eauto. Qed.

#[export] Instance Qleb_total_pre : TotalPre Qleb.
Proof.
  split.
  - intros x y. rewrite !Qleb_true. lra.
  - intros x y z. rewrite !Qleb_true. lra.
Qed.

#[export] Instance Zleb_total_pre : TotalPre Z.leb.
Proof. split; intros; lia. Qed.

Lemma string_leb_trans s1 s2 s3 :
  String.leb s1 s2 = true → String.leb s2 s3 = true → String.leb s1 s3 = true.
Proof.
  revert s2 s3. induction s1 as [|a s1 IH]; intros s2 s3; [by destruct s3|].
  destruct s2 as [|b s2]; [done|]. destruct s3 as [|c s3]; [by destruct s2|].
  unfold String.leb. simpl. unfold Ascii.compare.
  destruct (N.compare_spec (Ascii.N_of_ascii a) (Ascii.N_of_ascii b)) as [E1|?|?],
           (N.compare_spec (Ascii.N_of_ascii b) (Ascii.N_of_ascii c)) as [E2|?|?],
           (N.compare_spec (Ascii.N_of_ascii a) (Ascii.N_of_ascii c)) as [E3|?|?]; try done; try lia.
  intros. by apply (IH s2 s3).
Qed.

#[export] Instance string_leb_total_pre : TotalPre String.leb.
Proof. split; [apply String.leb_total|intros ? ? ?; apply string_leb_trans]. Qed.

(** ** Text *)

Definition str_Z (z : Z) : string := pretty z.

Definition join (sep : string) (l : list string) : string := String.concat sep l.

(** [hex(n)] for [n >= 0]. *)
Definition hex_digit (n : Z) : string :=
  nth (Z.to_nat n) ["0";"1";"2";"3";"4";"5";"6";"7";"8";"9";"a";"b";"c";"d";"e";"f"]%string "0"%string.

Fixpoint hex_go (fuel : nat) (n : Z) (acc : string) : string :=
  match fuel with
  | O => acc
  | S f => if (n <? 16)%Z then (hex_digit n +:+ acc)
           else hex_go f (n / 16) (hex_digit (n mod 16) +:+ acc)
  end.

Definition py_hex (n : Z) : string := ("0x" +:+ hex_go (S (Z.to_nat (Z.log2 n))) n "")%string.

Definition nonempty (s : string) : bool := negb (String.eqb s "").

Lemma nonempty_true s : nonempty s = true ↔ s ≠ ""%string.
Proof. unfold nonempty. rewrite negb_true_iff. apply String.eqb_neq. Qed.

(** Keep the integer comparisons folded when simplifying. *)
#[global] Arguments Z.eqb : simpl never.
#[global] Arguments Z.leb : simpl never.
#[global] Arguments Z.ltb : simpl never.
#[global] Arguments Z.land : simpl never.
#[global] Arguments Z.lor : simpl never.

(** ** Reasoning about stateful loops *)

Lemma M_bind_ok {S A B} (m : M S A) (k : A → M S B) s b s' :
  mbind k m s = (Ok b, s') ↔ ∃ a s1, m s = (Ok a, s1) ∧ k a s1 = (Ok b, s').
Proof.
  unfold mbind, M_bind. destruct (m s) as [[a|e] s1]; split; intros H.
  - by exists a, s1.
  - destruct H as (? & ? & [= -> ->] & ?). done.
  - done.
  - by destruct H as (? & ? & ? & ?).
Qed.

(** An invariant of the loop body carries through, with its results. *)
Lemma mapMS_Forall2 {S A B} (I : S → Prop) (R : A → B → Prop) (f : A → M S B) l s ys s' :
  (∀ x y s1 s2, x ∈ l → I s1 → f x s1 = (Ok y, s2) → I s2 ∧ R x y) →
  I s → mapMS f l s = (Ok ys, s') → I s' ∧ Forall2 R l ys.
Proof.
  revert s ys. induction l as [|x l IH]; intros s ys Hf HI; simpl.
  - intros [= <- <-]. split; [done|constructor].
  - intros (y & s1 & Hx & (ys' & s2 & Hl & Hr)%M_bind_ok)%M_bind_ok. injection Hr as <- <-.
    destruct (Hf x y s s1) as [HI1 HR]; [constructor|done|done|].
    destruct (IH s1 ys') as [? ?]; [|done|done|split; [done|by constructor]].
    intros. apply (Hf x0 y0 s0 s3); [by constructor|done|done].
Qed.

(** A loop splits at any element. *)
Lemma mapMS_split {S A B} (f : A → M S B) l1 x l2 s ys s' :
  mapMS f (l1 ++ x :: l2) s = (Ok ys, s') →
  ∃ ys1 s1 y s2 ys2, mapMS f l1 s = (Ok ys1, s1) ∧ f x s1 = (Ok y, s2) ∧
    mapMS f l2 s2 = (Ok ys2, s') ∧ ys = ys1 ++ y :: ys2.
Proof.
  revert s ys. induction l1 as [|z l1 IH]; intros s ys; simpl;
    intros (y & s1 & Hx & (ys' & s2 & Hl & Hr)%M_bind_ok)%M_bind_ok; injection Hr as <- <-.
  - by exists [], s, y, s1, ys'.
  - destruct (IH _ _ Hl) as (zs1 & q1 & y1 & q2 & zs2 & H1 & H2 & H3 & ->).
    exists (y :: zs1), q1, y1, q2, zs2. split_and!; try done.
    unfold mbind, M_bind. by rewrite Hx, H1.
Qed.

Lemma elem_of_map {A B} (f : A → B) l y : y ∈ map f l ↔ ∃ x, y = f x ∧ x ∈ l.
Proof. rewrite list_elem_of_In, in_map_iff. setoid_rewrite list_elem_of_In. naive_solver. Qed.

Lemma elem_of_concat {A} (ls : list (list A)) x : x ∈ concat ls ↔ ∃ l, l ∈ ls ∧ x ∈ l.
Proof. rewrite list_elem_of_In, in_concat. setoid_rewrite list_elem_of_In. done. Qed.

Lemma NoDup_map {A B} (f : A → B) l :
  (∀ x y, x ∈ l → y ∈ l → f x = f y → x = y) → NoDup l → NoDup (map f l).
Proof.
  intros Hf. induction 1 as [|x l Hx Hl IH]; simpl; [constructor|]. apply NoDup_cons. split.
  - intros (y & E & Hy)%elem_of_map. apply Hx. rewrite (Hf x y); [done|constructor|by constructor|done].
  - apply IH. intros. apply Hf; by try constructor.
Qed.

Lemma NoDup_map_inj {A B} (f : A → B) l x y :
  NoDup (map f l) → x ∈ l → y ∈ l → f x = f y → x = y.
Proof.
  induction l as [|z l IH]; simpl; [by intros _ ?%elem_of_nil|].
  rewrite NoDup_cons, !elem_of_cons. intros [Hz Hl] [->|Hx] [->|Hy] E; [done|..|by apply IH].
  - destruct Hz. rewrite E. apply list_elem_of_In, in_map. by apply list_elem_of_In.
  - destruct Hz. rewrite <- E. apply list_elem_of_In, in_map. by apply list_elem_of_In.
Qed.

(** A loop whose body never raises does not raise. *)
Lemma mapMS_total {S A B} (I : S → Prop) (f : A → M S B) l s :
  (∀ x s1, x ∈ l → I s1 → ∃ y s2, f x s1 = (Ok y, s2) ∧ I s2) → I s →
  ∃ ys s', mapMS f l s = (Ok ys, s') ∧ I s'.
Proof.
  revert s. induction l as [|x l IH]; intros s Hf HI; simpl.
  - by exists [], s.
  - destruct (Hf x s) as (y & s1 & Hx & HI1); [constructor|done|].
    destruct (IH s1) as (ys & s2 & Hl & HI2); [|done|].
    + intros. apply Hf; [by constructor|done].
    + exists (y :: ys), s2. split; [|done]. unfold mbind, M_bind. by rewrite Hx, Hl.
Qed.

Lemma Forall2_elem_r {A B} (R : A → B → Prop) l k y :
  Forall2 R l k → y ∈ k → ∃ x, x ∈ l ∧ R x y.
Proof.
  induction 1 as [|x y' l k Hxy _ IH]; [by intros ?%elem_of_nil|].
  intros [->|Hy]%elem_of_cons; [exists x; split; [constructor|done]|].
  destruct (IH Hy) as (x' & ? & ?). exists x'. split; [by constructor|done].
Qed.

Lemma find_elem {A} (f : A → bool) l x : find f l = Some x → x ∈ l ∧ f x = true.
Proof. intros [Hin Hf]%find_some. split; [by apply list_elem_of_In|done]. Qed.

Lemma filter_elem {A} (f : A → bool) l x : x ∈ List.filter f l ↔ x ∈ l ∧ f x = true.
Proof. rewrite !list_elem_of_In. apply filter_In. Qed.

(** ** Runs of equal booleans *)

Local Open Scope nat_scope.

(** Length of the leading run of [b]. *)
Fixpoint lead (b : bool) (l : list bool) : nat :=
  match l with
  | [] => 0
  | x :: l' => if Bool.eqb x b then S (lead b l') else 0
  end.

Lemma lead_prefix b n l : replicate n b `prefix_of` l ↔ n ≤ lead b l.
Proof.
  revert l. induction n as [|n IH]; intros l; simpl.
  - split; [lia|intros _; apply prefix_nil].
  - destruct l as [|x l]; simpl.
    + split; [by intros ?%prefix_nil_not|lia].
    + destruct (Bool.eqb_spec x b) as [->|Hne].
      * rewrite <- Nat.succ_le_mono, <- IH. split; [apply prefix_cons_inv_2|apply prefix_cons].
      * split; [|lia]. intros ?%prefix_cons_inv_1. congruence.
Qed.

Lemma lead_app b l x : lead b (l ++ negb b :: x) = lead b l.
Proof. induction l as [|y l IH]; simpl; [by destruct b|]. by rewrite IH. Qed.

(** [n] consecutive [b] somewhere in [l]. *)
Definition has_run (n : nat) (b : bool) (l : list bool) : Prop :=
  ∃ l1 l2, l = l1 ++ replicate n b ++ l2.

Lemma has_run_cons n b x l :
  has_run n b (x :: l) ↔ replicate n b `prefix_of` x :: l ∨ has_run n b l.
Proof.
  split.
  - intros ([|y l1] & l2 & E); simpl in E.
    + left. exists l2. done.
    + injection E as -> ->. right. by exists l1, l2.
  - intros [[l2 E]|(l1 & l2 & ->)]; [exists [], l2; done|exists (x :: l1), l2; done].
Qed.

Lemma has_run_rev n b l : has_run n b (reverse l) ↔ has_run n b l.
Proof.
  assert (∀ l, has_run n b l → has_run n b (reverse l)) as H.
  { intros k (l1 & l2 & ->). exists (reverse l2), (reverse l1).
    by rewrite !reverse_app, reverse_replicate, (assoc_L (++)). }
  split; [|apply H]. intros Hr%H. by rewrite reverse_involutive in Hr.
Qed.

(** A trailing-run automaton, read on the reversed history: the last run of [n]
    [true]s is not followed by a run of [m] [false]s. *)
Definition latched (n m : nat) (r : list bool) : Prop :=
  ∃ h2 h1, r = h2 ++ replicate n true ++ h1 ∧ ¬ has_run m false h2.

Section latched.
Context (n m : nat) (Hn : 0 < n) (Hm : 0 < m).

Lemma latched_nil : ¬ latched n m [].
Proof. intros (h2 & h1 & E & _). destruct h2, n; simpl in E; done || lia. Qed.

Lemma latched_true r : latched n m (true :: r) ↔ n ≤ S (lead true r) ∨ latched n m r.
Proof.
  split.
  - intros ([|x h2] & h1 & E & Hr); simpl in E.
    + left. change (S (lead true r)) with (lead true (true :: r)). apply lead_prefix. by exists h1.
    + injection E as <- ->. right. exists h2, h1. split; [done|]. intros ?. apply Hr.
      apply has_run_cons. by right.
  - intros [Hle|(h2 & h1 & -> & Hr)].
    + change (S (lead true r)) with (lead true (true :: r)) in Hle.
      apply lead_prefix in Hle as [h1 ->]. exists [], h1. split; [done|].
      intros (l1 & l2 & E). destruct l1, m; simpl in E; done || lia.
    + exists (true :: h2), h1. split; [done|]. rewrite has_run_cons, lead_prefix. simpl.
      intros [?|?]; [lia|done].
Qed.

Lemma latched_false r : latched n m (false :: r) ↔ latched n m r ∧ S (lead false r) < m.
Proof.
  split.
  - intros ([|x h2] & h1 & E & Hr); simpl in E; [destruct n; simpl in E; [lia|done]|].
    injection E as <- ->. rewrite has_run_cons, lead_prefix in Hr. simpl in Hr.
    split; [exists h2, h1; split; [done|tauto]|].
    destruct n as [|n']; [lia|]. simpl. rewrite (lead_app false). lia.
  - intros [(h2 & h1 & -> & Hr) Hlt]. exists (false :: h2), h1. split; [done|].
    rewrite has_run_cons, lead_prefix. simpl. intros [Hle|?]; [|done].
    destruct n as [|n']; [lia|]. simpl in Hlt. rewrite (lead_app false) in Hlt. lia.
Qed.
End latched.

Lemma latched_forward n m r :
  latched n m (reverse r) ↔ ∃ h1 h2, r = h1 ++ replicate n true ++ h2 ∧ ¬ has_run m false h2.
Proof.
  split.
  - intros (h2 & h1 & E & Hr). exists (reverse h1), (reverse h2). split; [|by rewrite has_run_rev].
    rewrite <- (reverse_involutive r), E, !reverse_app, reverse_replicate.
    by rewrite (assoc_L (++)).
  - intros (h1 & h2 & -> & Hr). exists (reverse h2), (reverse h1). split; [|by rewrite has_run_rev].
    by rewrite !reverse_app, reverse_replicate, (assoc_L (++)).
Qed.

(** ** Inverting successful runs *)

(** Invariants of [foldM] loops. *)
Lemma foldM_inv {A S} (I : S → Prop) (f : S → A → result S) l s s' :
  (∀ s x s', I s → f s x = Ok s' → I s') → I s → foldM f s l = Ok s' → I s'.
Proof.
  intros Hf. revert s. induction l as [|x l IH]; intros s Hs; simpl; [by intros [= <-]|].
  intros Hx. inv_ok. eapply IH; [|done]. by eapply Hf.
Qed.

Lemma dvals_dset_Forall {K V} `{EqDecision K} (P : V → Prop) (d : dict K V) k v :
  Forall P (dvals d) → P v → Forall P (dvals (dset d k v)).
Proof.
  intros Hd Hv. induction d as [|[k0 v0] d IH]; simpl in *; [by apply Forall_singleton|].
  apply Forall_cons in Hd as [H0 Hd]. case_decide; simpl; apply Forall_cons; auto.
Qed.

Lemma elem_dset {K V} `{EqDecision K} (d : dict K V) k v q w : (q, w) ∈ dset d k v → (q, w) = (k, v) ∨ (q, w) ∈ d.
Proof.
  induction d as [|[k' v'] d IH]; simpl.
  - intros ?%list_elem_of_singleton. by left.
  - destruct (decide _) as [->|]; rewrite !elem_of_cons; intros [E|Hin]; auto.
    destruct (IH Hin) as [E|Hd]; auto.
Qed.

Lemma dget_dvals {K V} `{EqDecision K} (d : dict K V) k v : dget d k = Some v → v ∈ dvals d.
Proof. intros Hk%dget_In. unfold dvals. apply list_elem_of_In, in_map_iff. exists (k, v). split; [done|by apply list_elem_of_In]. Qed.

Lemma bind_unit_ok {A} (m : result unit) (k : unit → result A) x :
  (m ≫= k) = Ok x ↔ m = Ok tt ∧ k tt = Ok x.
Proof. unfold mbind, result_bind. destruct m as [[]|]; naive_solver. Qed.

(** Injectivity without computing the payload. *)
Lemma Ok_inj {A} (x y : A) : Ok x = Ok y → x = y.
Proof. by intros [= ->]. Qed.

Lemma raise_if_ok b c msg : raise_if b c msg = Ok tt ↔ b = false.
Proof. unfold raise_if. by destruct b. Qed.

Lemma bind_Ok {A B} (m : result A) (k : A → result B) x :
  (m ≫= k) = Ok x ↔ ∃ y, m = Ok y ∧ k y = Ok x.
Proof. unfold mbind, result_bind. destruct m as [y|]; naive_solver. Qed.

Lemma mapM_result_inj {A B} (f : A → result B) l ys x y a :
  mapM_result f l = Ok ys → NoDup ys → x ∈ l → y ∈ l → f x = Ok a → f y = Ok a → x = y.
Proof.
  intros Hm%mapM_result_Forall2 Hnd Hx Hy Hfx Hfy.
  apply list_elem_of_lookup in Hx as [i Hi]. apply list_elem_of_lookup in Hy as [j Hj].
  destruct (Forall2_lookup_l _ _ _ _ _ Hm Hi) as (a1 & Ha1 & E1).
  destruct (Forall2_lookup_l _ _ _ _ _ Hm Hj) as (a2 & Ha2 & E2).
  assert (a1 = a) as -> by congruence. assert (a2 = a) as -> by congruence.
  assert (i = j) as -> by by eapply NoDup_lookup. congruence.
Qed.

Lemma mapM_result_elem {A B} (f : A → result B) l ys x :
  mapM_result f l = Ok ys → x ∈ l → ∃ a, f x = Ok a ∧ a ∈ ys.
Proof.
  intros Hm%mapM_result_Forall2 [i Hi]%list_elem_of_lookup.
  destruct (Forall2_lookup_l _ _ _ _ _ Hm Hi) as (a & Ha & E). exists a. split; [done|].
  by eapply list_elem_of_lookup_2.
Qed.

Lemma mapM_result_det {A B} (f : A → result B) (g : A → B) l ys :
  (∀ x y, x ∈ l → f x = Ok y → y = g x) → mapM_result f l = Ok ys → ys = map g l.
Proof.
  intros Hg Hm%mapM_result_Forall2. induction Hm as [|x y l ys Hx _ IH]; [done|]. simpl. f_equal.
  - apply Hg; [constructor|done].
  - apply IH. intros. apply Hg; [by constructor|done].
Qed.

Lemma mapM_result_map {A B C} (f : B → result C) (h : A → B) l :
  mapM_result f (map h l) = mapM_result (λ x, f (h x)) l.
Proof. induction l as [|x l IH]; simpl; [done|]. by rewrite IH. Qed.

Lemma mapM_result_compose {A B C} (f : A → result B) (g : B → result C) l ys zs :
  mapM_result f l = Ok ys → mapM_result g ys = Ok zs → mapM_result (λ x, y ← f x; g y) l = Ok zs.
Proof.
  rewrite !mapM_result_Forall2. intros Hf. revert zs.
  induction Hf as [|x y l ys Hx _ IH]; intros zs Hg; inversion Hg; subst; constructor; [|by apply IH].
  unfold mbind, result_bind. by rewrite Hx.
Qed.

Lemma dmem_true {K V} `{EqDecision K} (d : dict K V) k : dmem d k = true ↔ k ∈ dkeys d.
Proof.
  unfold dmem. destruct (dget d k) eqn:E.
  - split; [intros _|done]. apply dget_In in E. unfold dkeys. apply list_elem_of_In, in_map_iff.
    eexists. split; [|by apply list_elem_of_In]. done.
  - by apply dget_None in E.
Qed.

Lemma mapM_result_then {A B C} (f : A → result B) (g : B → result C) l ys :
  mapM_result f l = Ok ys → mapM_result g ys = mapM_result (λ x, y ← f x; g y) l.
Proof.
  rewrite mapM_result_Forall2. induction 1 as [|x y l ys Hx _ IH]; simpl; [done|].
  rewrite Hx, IH. done.
Qed.

Lemma mapM_result_total {A B} (f : A → result B) (P : A → B → Prop) l :
  (∀ x, x ∈ l → ∃ y, f x = Ok y ∧ P x y) → ∃ ys, mapM_result f l = Ok ys ∧ Forall2 P l ys.
Proof.
  induction l as [|x l IH]; intros Hf; simpl; [by exists []|].
  destruct (Hf x) as (y & Hy & HP); [constructor|]. destruct IH as (ys & Hys & HPs); [intros z Hz; apply Hf; by constructor|].
  exists (y :: ys). rewrite Hy. unfold mbind, result_bind. rewrite Hys. split; [done|by constructor].
Qed.

Lemma Forall2_map_eq {A B C} (P : A → B → Prop) (f : A → C) (g : B → C) l k :
  (∀ x y, P x y → g y = f x) → Forall2 P l k → map g k = map f l.
Proof. intros Hf. induction 1 as [|x y l k Hxy _ IH]; simpl; [done|]. by rewrite IH, (Hf x y). Qed.

Lemma remove_dups_id `{EqDecision A} (l : list A) : NoDup l → remove_dups l = l.
Proof. induction 1 as [|x l Hx _ IH]; simpl; [done|]. destruct (decide_rel _ _ _); [done|]. by rewrite IH. Qed.

(** Split a successful sequence of calls into its steps. *)
Ltac inv_bind :=
  repeat match goal with
  | H : (_ ≫= _) = Ok _ |- _ => apply bind_Ok in H as (? & ? & H)
  | H : Ok _ = Ok _ |- _ => injection H as ?; subst
  | H : Err _ = Ok _ |- _ => discriminate H
  end.

Lemma bind_run {S A B} (m : M S A) (k : A → M S B) s r s' :
  (m ≫= k) s = (Ok r, s') → ∃ x s1, m s = (Ok x, s1) ∧ k x s1 = (Ok r, s').
Proof. unfold mbind, M_bind. destruct (m s) as [[x|e] s1]; naive_solver. Qed.

Lemma lift_bind_run {S A B} (m : result A) (k : A → M S B) s r s' :
  (lift m ≫= k) s = (Ok r, s') → ∃ x, m = Ok x ∧ k x s = (Ok r, s').
Proof. unfold mbind, M_bind, lift. destruct m as [x|e]; naive_solver. Qed.

(** A call that returned or raised, step by step. *)
Lemma bind_cases {S A B} (m : M S A) (k : A → M S B) s r s' : (m ≫= k) s = (r, s') →
  (∃ e, m s = (Err e, s') ∧ r = Err e) ∨ ∃ x s1, m s = (Ok x, s1) ∧ k x s1 = (r, s').
Proof. unfold mbind, M_bind. destruct (m s) as [[x|e] s1]; [eauto|]. intros [= <- <-]. eauto. Qed.

Lemma lift_cases {S A B} (m : result A) (k : A → M S B) s r s' : (lift m ≫= k) s = (r, s') →
  (∃ e, m = Err e ∧ r = Err e ∧ s' = s) ∨ ∃ x, m = Ok x ∧ k x s = (r, s').
Proof. destruct m as [x|e]; [right; by exists x|]. intros [= <- <-]. left. by exists e. Qed.

(** ** What a computation may do to the state *)

(** Whether it returns or raises, [m] moves the state along [R]. *)
Definition moves {S A} (R : relation S) (m : M S A) : Prop := ∀ s, R s (m s).2.

Section moves.
Context {S : Type} (R : relation S) `{!PreOrder R}.

Lemma moves_ret {A} (x : A) : moves R (mret x).
Proof. by intros s. Qed.

Lemma moves_lift {A} (r : result A) : moves R (lift r).
Proof. by intros s. Qed.

Lemma moves_bind {A B} (m : M S A) (k : A → M S B) : moves R m → (∀ x, moves R (k x)) → moves R (m ≫= k).
Proof.
  intros Hm Hk s. specialize (Hm s). unfold mbind, M_bind. destruct (m s) as [[x|e] s1]; [|done].
  etrans; [done|apply Hk].
Qed.

Lemma moves_lift_bind {A B} (r : result A) (k : A → M S B) :
  (∀ x, r = Ok x → moves R (k x)) → moves R (lift r ≫= k).
Proof. intros Hk s. unfold mbind, M_bind, lift. destruct r as [x|e]; [by apply Hk|done]. Qed.

Lemma moves_get_bind {B} (k : S → M S B) : (∀ s, moves R (k s)) → moves R (get ≫= k).
Proof. intros Hk s. apply Hk. Qed.

Lemma moves_forM {A} (f : A → M S unit) l : (∀ x, x ∈ l → moves R (f x)) → moves R (forM f l).
Proof.
  induction l as [|x l IH]; intros Hf; simpl; [apply moves_ret|].
  apply moves_bind; [apply Hf; constructor|]. intros _. apply IH. intros y Hy. apply Hf. by constructor.
Qed.

Lemma moves_foldMS {A B} (f : B → A → M S B) acc l :
  (∀ acc x, x ∈ l → moves R (f acc x)) → moves R (foldMS f acc l).
Proof.
  revert acc. induction l as [|x l IH]; intros acc Hf; simpl; [apply moves_ret|].
  apply moves_bind; [apply Hf; constructor|]. intros y. apply IH. intros z w Hw. apply Hf. by constructor.
Qed.
End moves.

Lemma moves_impl {S A} (R R' : relation S) (m : M S A) : (∀ s s', R s s' → R' s s') → moves R m → moves R' m.
Proof. intros HR Hm s. apply HR, Hm. Qed.

(** Keeping a part of the state. *)
Definition keeps {S X} (proj : S → X) : relation S := λ s s', proj s' = proj s.
#[export] Instance keeps_preorder {S X} (proj : S → X) : PreOrder (keeps proj).
Proof. split; unfold keeps; [done|congruence]. Qed.

(** Decompose an operation into its elementary steps. *)
Ltac moves_step :=
  lazymatch goal with
  | |- moves _ (mret _) => refine (moves_ret _ _)
  | |- moves _ (lift _) => refine (moves_lift _ _)
  | |- moves _ (lift _ ≫= _) => refine (moves_lift_bind _ _ _ _); intros ? ?
  | |- moves _ (get ≫= _) => refine (moves_get_bind _ _ _); intros ?
  | |- moves _ (_ ≫= _) => refine (moves_bind _ _ _ _ _); [|intros ?]
  | |- moves _ (forM _ _) => refine (moves_forM _ _ _ _); intros ? ?
  | |- moves _ (foldMS _ _ _) => refine (moves_foldMS _ _ _ _ _); intros ? ? ?
  | |- moves _ (if ?b then _ else _) => destruct b eqn:?
  | |- moves _ (match ?x with _ => _ end) => destruct x eqn:?
  end.
