(* ===== verification/Net.v ===== *)
(** * IPv4 addresses and networks

    The part of Python's [ipaddress] module the program uses: addresses are
    integers below 2^32, networks are a base address and a prefix length.
    Only the IPv4 text forms are accepted (IPv6 text is outside the model). *)
From Stdlib Require Import Ascii.
From S2P Require Import Prelude.
Local Open Scope string_scope.
Local Open Scope list_scope.
Local Open Scope Z_scope.

Definition addr := Z.

Record network := Network { net_addr : addr; prefixlen : Z }.

#[export] Instance network_eq_dec : EqDecision network.
Proof. solve_decision. Defined.

Definition all_ones : Z := 2 ^ 32 - 1.

(** [IPv4Address(n)] *)
Definition IPv4Address (n : Z) : result addr :=
  if (0 <=? n) && (n <=? all_ones) then Ok n else raise AddressValueError "not an IPv4 address".

Definition hostbits (n : network) : Z := 32 - prefixlen n.
Definition netmask (n : network) : Z := Z.shiftl (Z.ones (prefixlen n)) (hostbits n).
Definition hostmask (n : network) : Z := Z.ones (hostbits n).
Definition network_address (n : network) : addr := net_addr n.
Definition broadcast_address (n : network) : addr := Z.lor (net_addr n) (hostmask n).

(** [address in network] *)
Definition in_network (a : addr) (n : network) : bool := Z.land a (netmask n) =? net_addr n.

(** [self.overlaps(other)] *)
Definition overlaps (self other : network) : bool :=
  in_network (network_address other) self || (in_network (broadcast_address other) self
  || (in_network (network_address self) other || in_network (broadcast_address self) other)).

(** [a.subnet_of(b)] *)
Definition subnet_of (a b : network) : bool :=
  (network_address b <=? network_address a) && (broadcast_address a <=? broadcast_address b).

(** [address in {network.network_address, network.broadcast_address}] *)
Definition is_edge_address (a : addr) (n : network) : bool :=
  (a =? network_address n) || (a =? broadcast_address n).

Record network_wf (n : network) : Prop := {
  wf_len : 0 <= prefixlen n <= 32;
  wf_base : 0 <= net_addr n <= all_ones;
  wf_aligned : net_addr n mod 2 ^ hostbits n = 0
}.

(** ** Text forms *)

Definition octet (a : addr) (i : Z) : Z := Z.land (Z.shiftr a (8 * i)) 255.

Definition addr_str (a : addr) : string :=
  join "." [str_Z (octet a 3); str_Z (octet a 2); str_Z (octet a 1); str_Z (octet a 0)].

Definition network_str (n : network) : string := addr_str (net_addr n) +:+ "/" +:+ str_Z (prefixlen n).

(** [s.split(c)] *)
Fixpoint split_on (c : Ascii.ascii) (s : string) : list string :=
  match s with
  | EmptyString => [EmptyString]
  | String a s' =>
      if Ascii.eqb a c then EmptyString :: split_on c s'
      else match split_on c s' with
           | w :: ws => String a w :: ws
           | [] => [String a EmptyString]
           end
  end.

Definition digit_of (a : Ascii.ascii) : option Z :=
  let n := Z.of_N (Ascii.N_of_ascii a) in
  if (48 <=? n) && (n <=? 57) then Some (n - 48) else None.

(** A nonempty run of decimal digits. *)
Fixpoint digits_go (s : string) (acc : Z) : option Z :=
  match s with
  | EmptyString => Some acc
  | String a s' => match digit_of a with Some d => digits_go s' (10 * acc + d) | None => None end
  end.

Definition parse_digits (s : string) : option Z :=
  match s with EmptyString => None | _ => digits_go s 0 end.

Definition parse_octet (s : string) : option Z :=
  match parse_digits s with
  | None => None
  | Some n =>
      if (3 <? String.length s)%nat then None
      else if negb (String.eqb s "0") && (match s with String a _ => Ascii.eqb a "0"%char | _ => false end)
      then None
      else if 255 <? n then None else Some n
  end.

Definition parse_addr (s : string) : option addr :=
  match split_on "."%char s with
  | [a; b; c; d] =>
      match parse_octet a, parse_octet b, parse_octet c, parse_octet d with
      | Some a, Some b, Some c, Some d => Some (((a * 256 + b) * 256 + c) * 256 + d)
      | _, _, _, _ => None
      end
  | _ => None
  end.

(** A mask whose set bits are a prefix: [_prefix_from_ip_int]. *)
Definition prefix_from_mask (m : Z) : option Z :=
  find (λ p, Z.shiftl (Z.ones p) (32 - p) =? m) (seqZ 0 33).

Definition parse_prefixlen (s : string) : option Z :=
  match parse_digits s with
  | Some n => if n <=? 32 then Some n else None
  | None =>
      match parse_addr s with
      | None => None
      | Some m =>
          match prefix_from_mask m with
          | Some p => Some p
          | None => prefix_from_mask (Z.lxor m all_ones)
          end
      end
  end.

(** [ip_address(text)] and [ip_network(text, strict=True)] *)
Definition ip_address (s : string) : result addr :=
  of_option (parse_addr s) ValueError "does not appear to be an IPv4 or IPv6 address".

Definition ip_network (s : string) : result network :=
  let bad := raise ValueError "does not appear to be an IPv4 or IPv6 network" in
  match split_on "/"%char s with
  | [a] => match parse_addr a with Some n => Ok (Network n 32) | None => bad end
  | [a; p] =>
      match parse_addr a, parse_prefixlen p with
      | Some n, Some p =>
          if Z.land n (netmask (Network n p)) =? n then Ok (Network n p)
          else raise ValueError "has host bits set"
      | _, _ => bad
      end
  | _ => bad
  end.

(** [ip_interface(text)]: the address and its (non-strict) network. *)
Definition ip_interface (s : string) : result (addr * network) :=
  let bad := raise ValueError "does not appear to be an IPv4 or IPv6 interface" in
  let mk a p := Ok (a, Network (Z.land a (netmask (Network a p))) p) in
  match split_on "/"%char s with
  | [a] => match parse_addr a with Some n => mk n 32 | None => bad end
  | [a; p] =>
      match parse_addr a, parse_prefixlen p with
      | Some n, Some p => mk n p
      | _, _ => bad
      end
  | _ => bad
  end.

(** ** Facts *)

Lemma ones_shift_land a p :
  0 <= a <= all_ones → 0 <= p <= 32 →
  Z.land a (Z.shiftl (Z.ones p) (32 - p)) = a - a mod 2 ^ (32 - p).
Proof.
  intros Ha Hp. assert (a - a mod 2 ^ (32 - p) = Z.shiftl (Z.shiftr a (32 - p)) (32 - p)) as ->.
  { rewrite Z.shiftl_mul_pow2, Z.shiftr_div_pow2 by lia.
    pose proof (Z.div_mod a (2 ^ (32 - p)) ltac:(lia)). lia. }
  apply Z.bits_inj'. intros i Hi.
  rewrite Z.land_spec, !Z.shiftl_spec by lia.
  destruct (Z_lt_le_dec (i - (32 - p)) 0) as [H|H].
  - rewrite !(Z.testbit_neg_r _ (i - (32 - p))) by lia. apply andb_false_r.
  - rewrite Z.shiftr_spec by lia. replace (i - (32 - p) + (32 - p)) with i by lia.
    destruct (Z_lt_le_dec (i - (32 - p)) p).
    + rewrite Z.ones_spec_low by lia. apply andb_true_r.
    + rewrite Z.ones_spec_high by lia. rewrite andb_false_r. symmetry.
      apply (Z.bits_above_log2 a i); [lia|].
      destruct (Z.eq_dec a 0) as [->|]; [simpl; lia|].
      apply Z.log2_lt_pow2; [lia|]. unfold all_ones in Ha.
      apply Z.lt_le_trans with (2 ^ 32); [lia|]. apply Z.pow_le_mono_r; lia.
Qed.

Lemma broadcast_eq n : network_wf n → broadcast_address n = net_addr n + 2 ^ hostbits n - 1.
Proof.
  intros [Hl Hb Ha]. unfold broadcast_address, hostmask.
  assert (0 <= hostbits n) by (unfold hostbits; lia).
  assert (Z.land (net_addr n) (Z.ones (hostbits n)) = 0) by (rewrite Z.land_ones by lia; done).
  rewrite <- Z.lxor_lor, <- Z.add_nocarry_lxor by done. rewrite Z.ones_equiv. lia.
Qed.

Lemma in_network_range a n :
  network_wf n → 0 <= a <= all_ones →
  in_network a n = true ↔ net_addr n <= a <= broadcast_address n.
Proof.
  intros Hwf Ha. rewrite (broadcast_eq n Hwf). destruct Hwf as [Hl Hb Hal].
  unfold in_network, netmask. rewrite Z.eqb_eq.
  change (hostbits n) with (32 - prefixlen n) in *. rewrite ones_shift_land by lia.
  assert (0 < 2 ^ (32 - prefixlen n)) by lia.
  pose proof (Z.mod_pos_bound a (2 ^ (32 - prefixlen n)) ltac:(lia)).
  split; [lia|]. intros Hr.
  apply Z.mod_divide in Hal as [q Hq]; [|lia]. rewrite Hq in *.
  rewrite (Z.mod_eq a) by lia.
  assert (a / 2 ^ (32 - prefixlen n) = q) as -> by (symmetry; apply (Z.div_unique_pos a _ q (a - q * 2 ^ (32 - prefixlen n))); lia).
  lia.
Qed.

Lemma broadcast_range n : network_wf n → net_addr n <= broadcast_address n <= all_ones.
Proof.
  intros Hwf. rewrite (broadcast_eq n Hwf). destruct Hwf as [Hl Hb Hal].
  assert (0 < 2 ^ hostbits n) by (unfold hostbits; lia). split; [lia|].
  apply Z.mod_divide in Hal as [q Hq]; [|lia].
  assert (2 ^ 32 = 2 ^ prefixlen n * 2 ^ hostbits n) as E.
  { rewrite <- Z.pow_add_r by (unfold hostbits; lia). f_equal. unfold hostbits. lia. }
  unfold all_ones in *. rewrite Hq, E in *. generalize dependent (2 ^ hostbits n). intros h.
  generalize (2 ^ prefixlen n). intros p **. assert (q < p) by nia. nia.
Qed.

(** Two well-formed networks overlap exactly when they share an address. *)
Lemma overlaps_iff n m :
  network_wf n → network_wf m →
  overlaps n m = true ↔ ∃ a, 0 <= a <= all_ones ∧ in_network a n = true ∧ in_network a m = true.
Proof.
  intros Hn Hm. pose proof (broadcast_range n Hn). pose proof (broadcast_range m Hm).
  destruct (wf_base _ Hn), (wf_base _ Hm). unfold overlaps, network_address.
  rewrite !orb_true_iff, !in_network_range by (done || lia). split.
  - intros Hr. exists (Z.max (net_addr n) (net_addr m)).
    rewrite !in_network_range by (done || lia). lia.
  - intros (a & Ha & Hin). rewrite !in_network_range in Hin by (done || lia). lia.
Qed.

Lemma overlaps_false n m a :
  network_wf n → network_wf m → 0 <= a <= all_ones →
  overlaps n m = false → in_network a n = true → in_network a m = false.
Proof.
  intros Hn Hm Ha Ho Hin. destruct (in_network a m) eqn:E; [|done].
  assert (overlaps n m = true) by (apply overlaps_iff; eauto). congruence.
Qed.

Example parse_ex : ip_network "10.1.0.0/24" = Ok (Network 167837696 24).
Proof. vm_compute. reflexivity. Qed.
Example parse_mask_ex : ip_network "10.1.0.0/255.255.255.0" = Ok (Network 167837696 24).
Proof. vm_compute. reflexivity. Qed.
Example parse_bad_ex : is_ok (ip_network "10.1.0.1/24") = false.
Proof. vm_compute. reflexivity. Qed.
Example print_ex : network_str (Network 167837696 24) = "10.1.0.0/24".
Proof. vm_compute. reflexivity. Qed.

(** ** Printing and parsing back *)

Fixpoint has_char (c : Ascii.ascii) (s : string) : bool :=
  match s with EmptyString => false | String a s' => Ascii.eqb a c || has_char c s' end.

Lemma has_char_app c s t : has_char c (s +:+ t) = has_char c s || has_char c t.
Proof. induction s as [|a s IH]; simpl; [done|]. by rewrite IH, orb_assoc. Qed.

Lemma split_on_free c s : has_char c s = false → split_on c s = [s].
Proof. induction s as [|a s IH]; simpl; [done|]. intros [-> Hs]%orb_false_iff. by rewrite IH. Qed.

Lemma split_on_app c s t : has_char c s = false → split_on c (s +:+ String c EmptyString +:+ t) = s :: split_on c t.
Proof.
  induction s as [|a s IH]; simpl; [by rewrite Ascii.eqb_refl|]. intros [-> Hs]%orb_false_iff. by rewrite IH.
Qed.

Definition byte_ok (n : Z) : bool :=
  bool_decide (parse_octet (str_Z n) = Some n) && bool_decide (parse_digits (str_Z n) = Some n) &&
  negb (has_char "."%char (str_Z n)) && negb (has_char "/"%char (str_Z n)).

Lemma byte_text n : 0 <= n <= 255 → parse_octet (str_Z n) = Some n ∧ parse_digits (str_Z n) = Some n ∧
  has_char "."%char (str_Z n) = false ∧ has_char "/"%char (str_Z n) = false.
Proof.
  intros Hn. assert (H : forallb byte_ok (seqZ 0 256) = true) by (vm_compute; reflexivity).
  rewrite forallb_forall in H. specialize (H n). rewrite <- list_elem_of_In, elem_of_seqZ in H.
  specialize (H ltac:(lia)). unfold byte_ok in H.
  rewrite !andb_true_iff, !bool_decide_eq_true, !negb_true_iff in H. naive_solver.
Qed.

Lemma octet_range a i : 0 <= octet a i <= 255.
Proof.
  unfold octet. change 255 with (Z.ones 8). rewrite Z.land_ones by lia.
  pose proof (Z.mod_pos_bound (Z.shiftr a (8 * i)) (2 ^ 8)). change (Z.ones 8) with 255. lia.
Qed.

Lemma octets_sum a : 0 <= a <= all_ones →
  ((octet a 3 * 256 + octet a 2) * 256 + octet a 1) * 256 + octet a 0 = a.
Proof.
  intros Ha. unfold octet, all_ones in *. change 255 with (Z.ones 8). rewrite !Z.land_ones, !Z.shiftr_div_pow2 by lia.
  change (2 ^ (8 * 3)) with (256 * 256 * 256). change (2 ^ (8 * 2)) with (256 * 256).
  change (2 ^ (8 * 1)) with 256. change (2 ^ (8 * 0)) with 1. change (2 ^ 8) with 256.
  rewrite Z.div_1_r, <- !Z.div_div by lia. change (2 ^ 32 - 1) with 4294967295 in Ha.
  pose proof (Z.div_mod a 256 ltac:(lia)). pose proof (Z.div_mod (a / 256) 256 ltac:(lia)).
  pose proof (Z.div_mod (a / 256 / 256) 256 ltac:(lia)).
  assert ((a / 256 / 256 / 256) mod 256 = a / 256 / 256 / 256) as ->.
  { apply Z.mod_small. rewrite !Z.div_div by lia. split; [apply Z.div_pos; lia|]. apply Z.div_lt_upper_bound; lia. }
  lia.
Qed.

Lemma parse_addr_str a : 0 <= a <= all_ones → parse_addr (addr_str a) = Some a ∧ has_char "/"%char (addr_str a) = false.
Proof.
  intros Ha. pose proof (byte_text _ (octet_range a 3)) as (P3 & _ & D3 & S3).
  pose proof (byte_text _ (octet_range a 2)) as (P2 & _ & D2 & S2).
  pose proof (byte_text _ (octet_range a 1)) as (P1 & _ & D1 & S1).
  pose proof (byte_text _ (octet_range a 0)) as (P0 & _ & D0 & S0).
  unfold addr_str, join. cbn [String.concat]. split.
  - unfold parse_addr. rewrite !split_on_app, split_on_free by done. rewrite P3, P2, P1, P0. f_equal. by apply octets_sum.
  - rewrite !has_char_app. by rewrite S3, S2, S1, S0.
Qed.

(** Every well-formed network is read back from its text. *)
Lemma ip_network_str n : network_wf n → ip_network (network_str n) = Ok n.
Proof.
  intros [Hl Hb Ha]. destruct (parse_addr_str _ Hb) as [Hp Hs].
  destruct (byte_text (prefixlen n) ltac:(lia)) as (_ & Hd & _ & Hf).
  unfold ip_network, network_str. rewrite split_on_app, split_on_free by done. rewrite Hp. unfold parse_prefixlen. rewrite Hd.
  destruct (Z.leb_spec (prefixlen n) 32); [|lia]. unfold netmask. simpl.
  unfold hostbits in *. simpl. rewrite ones_shift_land by done. rewrite Ha, Z.sub_0_r, Z.eqb_refl. by destruct n.
Qed.
