(* ===== verification/Marks.v ===== *)
(** * Packet and conntrack marks ([common/marks.py])

    The mark layout, its validation, and the encoder/decoder of the transport
    slot, inspection stage, hub affinity and egress fields.  Python integers
    are unbounded, so marks are [Z] and [~mask] is [Z.lnot]. *)
From S2P Require Import Prelude.
Local Open Scope string_scope.
Local Open Scope list_scope.
Local Open Scope Z_scope.

Inductive FlowMarkStage := UNKNOWN | PROVISIONAL | TERMINAL.
Inductive EgressMode := HUB_OVERLAY | DIRECT_INTERNET | CLOUD_GATEWAY.

#[export] Instance FlowMarkStage_eq_dec : EqDecision FlowMarkStage.
Proof. solve_decision. Defined.
#[export] Instance EgressMode_eq_dec : EqDecision EgressMode.
Proof. solve_decision. Defined.

Definition egress_value (e : EgressMode) : string :=
  match e with
  | HUB_OVERLAY => "HUB_OVERLAY"
  | DIRECT_INTERNET => "DIRECT_INTERNET"
  | CLOUD_GATEWAY => "CLOUD_GATEWAY"
  end.

(** [EgressMode(text)] *)
Definition egress_of_value (s : string) : option EgressMode :=
  find (λ e, String.eqb (egress_value e) s) [HUB_OVERLAY; DIRECT_INTERNET; CLOUD_GATEWAY].

Record MarkLayout := {
  route_mask : Z; terminal_bit : Z; provisional_bit : Z; emergency_bit : Z;
  target_hub_mask : Z; hub1_bit : Z; hub2_bit : Z;
  egress_mask : Z; direct_internet_bit : Z; cloud_gateway_bit : Z
}.

(** The dataclass defaults. *)
Definition default_layout : MarkLayout := {|
  route_mask := 0x000000FF; terminal_bit := 0x00000100; provisional_bit := 0x00000200;
  emergency_bit := 0x00000400; target_hub_mask := 0x00003000; hub1_bit := 0x00001000;
  hub2_bit := 0x00002000; egress_mask := 0x0000C000; direct_internet_bit := 0x00004000;
  cloud_gateway_bit := 0x00008000 |}.

Definition state_mask (l : MarkLayout) : Z :=
  Z.lor (Z.lor (terminal_bit l) (provisional_bit l)) (emergency_bit l).

Definition connection_mask (l : MarkLayout) : Z :=
  Z.lor (Z.lor (Z.lor (route_mask l) (state_mask l)) (target_hub_mask l)) (egress_mask l).

Definition affinity_mask (l : MarkLayout) : Z :=
  Z.lor (Z.lor (route_mask l) (target_hub_mask l)) (egress_mask l).

Definition truthy (z : Z) : bool := negb (z =? 0).

(** Outside the route mask: [value <= 0 or value & ~route_mask]. *)
Definition bad_transport (l : MarkLayout) (v : Z) : bool :=
  (v <=? 0) || truthy (Z.land v (Z.lnot (route_mask l))).

Definition not_single_bit (b : Z) : bool := (b <=? 0) || truthy (Z.land b (b - 1)).

(** [any(left & right for index, left in enumerate(fields) for right in fields[index+1:])] *)
Fixpoint any_overlap (fields : list Z) : bool :=
  match fields with
  | [] => false
  | lhs :: rest => existsb (λ rhs, truthy (Z.land lhs rhs)) rest || any_overlap rest
  end.

Definition validate (l : MarkLayout) (path_marks : dict string Z) : result unit :=
  let values := dvals path_marks in
  _ ← raise_if (bool_decide (values = []) || negb (uniqueb values)) ValueError
        "transport marks must be nonempty and unique";
  _ ← raise_if (existsb (bad_transport l) values) ValueError
        "transport marks must fit entirely in the v4 low-byte route mask";
  let bits := [terminal_bit l; provisional_bit l; emergency_bit l; hub1_bit l; hub2_bit l;
               direct_internet_bit l; cloud_gateway_bit l] in
  _ ← raise_if (existsb not_single_bit bits || negb (uniqueb bits)) ValueError
        "state, hub, and egress values must be distinct single bits";
  let fields := [route_mask l; state_mask l; target_hub_mask l; egress_mask l] in
  _ ← raise_if (any_overlap fields) ValueError
        "route, state, target-hub, and egress mark fields must not overlap";
  _ ← raise_if (negb (target_hub_mask l =? Z.lor (hub1_bit l) (hub2_bit l))) ValueError
        "target_hub_mask must contain exactly hub1 and hub2 bits";
  raise_if (negb (egress_mask l =? Z.lor (direct_internet_bit l) (cloud_gateway_bit l))) ValueError
        "egress_mask must contain exactly direct and cloud bits".

Definition transport (l : MarkLayout) (mark : Z) : Z := Z.land mark (route_mask l).

Definition stage (l : MarkLayout) (mark : Z) : FlowMarkStage :=
  if truthy (Z.land mark (terminal_bit l)) then TERMINAL
  else if truthy (Z.land mark (provisional_bit l)) then PROVISIONAL
  else UNKNOWN.

Definition target_hub (l : MarkLayout) (mark : Z) : result (option string) :=
  let value := Z.land mark (target_hub_mask l) in
  if value =? hub1_bit l then Ok (Some "hub1")
  else if value =? hub2_bit l then Ok (Some "hub2")
  else if truthy value then raise ValueError "invalid multi-hub affinity mark"
  else Ok None.

Definition egress_mode (l : MarkLayout) (mark : Z) : result EgressMode :=
  let value := Z.land mark (egress_mask l) in
  if value =? 0 then Ok HUB_OVERLAY
  else if value =? direct_internet_bit l then Ok DIRECT_INTERNET
  else if value =? cloud_gateway_bit l then Ok CLOUD_GATEWAY
  else raise ValueError "invalid multi-egress mark".

Definition encode (l : MarkLayout) (transport_mark : Z) (st : FlowMarkStage)
    (emergency : bool) (hub : option string) (egress : EgressMode) : result Z :=
  if bad_transport l transport_mark then raise ValueError "transport mark is outside the v4 route mask"
  else
    let value := transport_mark in
    let value := match st with
                 | TERMINAL => Z.lor value (terminal_bit l)
                 | PROVISIONAL => Z.lor value (provisional_bit l)
                 | UNKNOWN => value
                 end in
    let value := if emergency then Z.lor value (emergency_bit l) else value in
    value ← match hub with
            | None => Ok value
            | Some h =>
                if String.eqb h "hub1" then Ok (Z.lor value (hub1_bit l))
                else if String.eqb h "hub2" then Ok (Z.lor value (hub2_bit l))
                else raise ValueError "hub must be hub1, hub2, or None"
            end;
    Ok match egress with
       | DIRECT_INTERNET => Z.lor value (direct_internet_bit l)
       | CLOUD_GATEWAY => Z.lor value (cloud_gateway_bit l)
       | HUB_OVERLAY => value
       end.

(** ** Bit facts *)

Lemma truthy_false z : truthy z = false ↔ z = 0.
Proof. unfold truthy. rewrite negb_false_iff. apply Z.eqb_eq. Qed.
Lemma truthy_true z : truthy z = true ↔ z ≠ 0.
Proof. unfold truthy. rewrite negb_true_iff. apply Z.eqb_neq. Qed.

(** [a] lies inside mask [m]. *)
Definition within (a m : Z) : Prop := Z.land a m = a.

Lemma within_disjoint a m m' : within a m → Z.land m m' = 0 → Z.land a m' = 0.
Proof. unfold within. intros <- H. by rewrite <- Z.land_assoc, H, Z.land_0_r. Qed.

Lemma within_lor_l a b : within a (Z.lor a b).
Proof. unfold within. apply Z.bits_inj'. intros n _. rewrite Z.land_spec, Z.lor_spec. by destruct (Z.testbit a n), (Z.testbit b n). Qed.

Lemma within_lor_r a b : within b (Z.lor a b).
Proof. rewrite Z.lor_comm. apply within_lor_l. Qed.

Lemma within_trans a m m' : within a m → within m m' → within a m'.
Proof. unfold within. intros H1 H2. rewrite <- H1 at 1. by rewrite <- Z.land_assoc, H2. Qed.

Lemma within_0 m : within 0 m.
Proof. apply Z.land_0_l. Qed.

Lemma within_lor a b m : within a m → within b m → within (Z.lor a b) m.
Proof. unfold within. intros Ha Hb. by rewrite Z.land_lor_distr_l, Ha, Hb. Qed.

Lemma single_bit_pow2 b : not_single_bit b = false → ∃ k, 0 <= k ∧ b = 2 ^ k.
Proof.
  unfold not_single_bit. intros [Hp%Z.leb_gt Hl%truthy_false]%orb_false_iff.
  exists (Z.log2 b). split; [apply Z.log2_nonneg|].
  destruct (Z.log2_spec b Hp) as [Hlo Hhi].
  destruct (Z.eq_dec b (2 ^ Z.log2 b)) as [|Hne]; [done|exfalso].
  assert (Hb : Z.testbit b (Z.log2 b) = true) by by apply Z.bit_log2.
  assert (Hlg : Z.log2 (b - 1) = Z.log2 b).
  { apply Z.log2_unique; [apply Z.log2_nonneg|lia]. }
  assert (Hb' : Z.testbit (b - 1) (Z.log2 b) = true).
  { rewrite <- Hlg. apply Z.bit_log2. pose proof (Z.pow_pos_nonneg 2 (Z.log2 b)).
    pose proof (Z.log2_nonneg b). lia. }
  assert (Z.testbit (Z.land b (b - 1)) (Z.log2 b) = true) as Hc by by rewrite Z.land_spec, Hb, Hb'.
  rewrite Hl, Z.testbit_0_l in Hc. done.
Qed.

Lemma single_bits_disjoint a b :
  not_single_bit a = false → not_single_bit b = false → a ≠ b → Z.land a b = 0.
Proof.
  intros (i & Hi & ->)%single_bit_pow2 (j & Hj & ->)%single_bit_pow2 Hne.
  apply Z.bits_inj'. intros n Hn. rewrite Z.land_spec, Z.testbit_0_l, !Z.pow2_bits_eqb by lia.
  destruct (Z.eqb_spec i n), (Z.eqb_spec j n); try done. subst. done.
Qed.

(** ** What a validated layout guarantees *)

Record layout_ok (l : MarkLayout) : Prop := {
  lo_route_state : Z.land (route_mask l) (state_mask l) = 0;
  lo_route_hub : Z.land (route_mask l) (target_hub_mask l) = 0;
  lo_route_egress : Z.land (route_mask l) (egress_mask l) = 0;
  lo_state_hub : Z.land (state_mask l) (target_hub_mask l) = 0;
  lo_state_egress : Z.land (state_mask l) (egress_mask l) = 0;
  lo_hub_egress : Z.land (target_hub_mask l) (egress_mask l) = 0;
  lo_hub : target_hub_mask l = Z.lor (hub1_bit l) (hub2_bit l);
  lo_egress : egress_mask l = Z.lor (direct_internet_bit l) (cloud_gateway_bit l);
  lo_pos : Forall (λ b, 0 < b) [terminal_bit l; provisional_bit l; emergency_bit l; hub1_bit l;
                                hub2_bit l; direct_internet_bit l; cloud_gateway_bit l];
  lo_term_prov : Z.land (terminal_bit l) (provisional_bit l) = 0;
  lo_term_emer : Z.land (terminal_bit l) (emergency_bit l) = 0;
  lo_prov_emer : Z.land (provisional_bit l) (emergency_bit l) = 0;
  lo_hub_ne : hub1_bit l ≠ hub2_bit l;
  lo_egress_ne : direct_internet_bit l ≠ cloud_gateway_bit l
}.

Lemma validate_layout_ok l marks : validate l marks = Ok tt → layout_ok l.
Proof.
  unfold validate. intros H. inv_ok.
  repeat match goal with
  | Hx : _ || _ = false |- _ => apply orb_false_iff in Hx as [? ?]
  | Hx : negb _ = false |- _ => apply negb_false_iff in Hx
  end.
  match goal with Hx : uniqueb [terminal_bit l; _; _; _; _; _; _] = true |- _ =>
    apply uniqueb_true in Hx; repeat (apply NoDup_cons in Hx as [? Hx]) end.
  match goal with Hx : existsb not_single_bit _ = false |- _ =>
    cbn [existsb] in Hx; repeat (apply orb_false_iff in Hx as [? Hx]) end.
  match goal with Hx : any_overlap _ = false |- _ =>
    cbn [any_overlap existsb] in Hx end.
  repeat match goal with
  | Hx : _ || _ = false |- _ => apply orb_false_iff in Hx as [? ?]
  | Hx : truthy _ = false |- _ => apply truthy_false in Hx
  | Hx : _ =? _ = true |- _ => apply Z.eqb_eq in Hx
  | Hx : _ ∉ _ :: _ |- _ => apply not_elem_of_cons in Hx as [? ?]
  end.
  split; try done; try (apply single_bits_disjoint; done).
  repeat constructor;
    match goal with |- 0 < ?b => match goal with Hx : not_single_bit b = false |- _ =>
      apply orb_false_iff in Hx as [Hx%Z.leb_gt _]; exact Hx end end.
Qed.

(** ** Field-wise view of an encoded mark *)

Definition stage_part (l : MarkLayout) (st : FlowMarkStage) : Z :=
  match st with TERMINAL => terminal_bit l | PROVISIONAL => provisional_bit l | UNKNOWN => 0 end.
Definition emergency_part (l : MarkLayout) (em : bool) : Z := if em then emergency_bit l else 0.
Definition hub_part (l : MarkLayout) (hub : option string) : Z :=
  match hub with
  | Some h => if String.eqb h "hub1" then hub1_bit l else if String.eqb h "hub2" then hub2_bit l else 0
  | None => 0
  end.
Definition egress_part (l : MarkLayout) (e : EgressMode) : Z :=
  match e with DIRECT_INTERNET => direct_internet_bit l | CLOUD_GATEWAY => cloud_gateway_bit l | HUB_OVERLAY => 0 end.

Definition known_hub (hub : option string) : Prop :=
  hub = None ∨ hub = Some "hub1" ∨ hub = Some "hub2".

Lemma encode_parts l t st em hub eg v :
  encode l t st em hub eg = Ok v ↔
  bad_transport l t = false ∧ known_hub hub ∧
  v = Z.lor (Z.lor (Z.lor (Z.lor t (stage_part l st)) (emergency_part l em)) (hub_part l hub))
        (egress_part l eg).
Proof.
  unfold encode, known_hub, stage_part, emergency_part, hub_part, egress_part.
  destruct (bad_transport l t); [split; [done|naive_solver]|].
  destruct hub as [h|]; [destruct (String.eqb_spec h "hub1") as [->|]; [|destruct (String.eqb_spec h "hub2") as [->|]]|];
    destruct st, em, eg; cbn; rewrite ?Z.lor_0_r; naive_solver.
Qed.

Section fields.
Context (l : MarkLayout) (Hl : layout_ok l).

Lemma stage_part_within st : within (stage_part l st) (state_mask l).
Proof.
  destruct st; [apply within_0| |]; unfold state_mask; simpl.
  - eapply within_trans; [apply within_lor_r|apply within_lor_l].
  - eapply within_trans; [apply within_lor_l|apply within_lor_l].
Qed.

Lemma emergency_part_within em : within (emergency_part l em) (state_mask l).
Proof. destruct em; [apply within_lor_r|apply within_0]. Qed.

Lemma hub_part_within hub : within (hub_part l hub) (target_hub_mask l).
Proof.
  rewrite (lo_hub l Hl). destruct hub as [h|]; simpl; [|apply within_0].
  repeat case_match; [apply within_lor_l|apply within_lor_r|apply within_0].
Qed.

Lemma egress_part_within e : within (egress_part l e) (egress_mask l).
Proof.
  rewrite (lo_egress l Hl). destruct e; simpl;
    [apply within_0|apply within_lor_l|apply within_lor_r].
Qed.

Lemma transport_within t : bad_transport l t = false → within t (route_mask l).
Proof.
  intros [_ Ht%truthy_false]%orb_false_iff. unfold within. apply Z.bits_inj'. intros n Hn.
  pose proof (f_equal (λ z, Z.testbit z n) Ht) as E. simpl in E.
  rewrite Z.land_spec, Z.lnot_spec, Z.testbit_0_l in E by done. rewrite Z.land_spec.
  destruct (Z.testbit t n), (Z.testbit (route_mask l) n); done.
Qed.

(** Masking a mark built from parts of the four fields returns the part. *)
Lemma mask_fields t s h g :
  within t (route_mask l) → within s (state_mask l) →
  within h (target_hub_mask l) → within g (egress_mask l) →
  let v := Z.lor (Z.lor (Z.lor t s) h) g in
  Z.land v (route_mask l) = t ∧ Z.land v (state_mask l) = s ∧
  Z.land v (target_hub_mask l) = h ∧ Z.land v (egress_mask l) = g.
Proof.
  intros Ht Hs Hh Hg v. unfold v. rewrite !Z.land_lor_distr_l.
  pose proof (lo_route_state l Hl) as RS. pose proof (lo_route_hub l Hl) as RH.
  pose proof (lo_route_egress l Hl) as RE. pose proof (lo_state_hub l Hl) as SH.
  pose proof (lo_state_egress l Hl) as SE. pose proof (lo_hub_egress l Hl) as HE.
  pose proof RS as SR. pose proof RH as HR. pose proof RE as ER. pose proof SH as HS.
  pose proof SE as ES. pose proof HE as EH. rewrite Z.land_comm in SR, HR, ER, HS, ES, EH.
  rewrite (within_disjoint s _ _ Hs SR), (within_disjoint h _ _ Hh HR), (within_disjoint g _ _ Hg ER).
  rewrite (within_disjoint t _ _ Ht RS), (within_disjoint h _ _ Hh HS), (within_disjoint g _ _ Hg ES).
  rewrite (within_disjoint t _ _ Ht RH), (within_disjoint s _ _ Hs SH), (within_disjoint g _ _ Hg EH).
  rewrite (within_disjoint t _ _ Ht RE), (within_disjoint s _ _ Hs SE), (within_disjoint h _ _ Hh HE).
  rewrite !Z.lor_0_r, !Z.lor_0_l. split_and!; assumption.
Qed.

Lemma state_bits_inv st em :
  let s := Z.lor (stage_part l st) (emergency_part l em) in
  stage l s = st ∧ truthy (Z.land s (emergency_bit l)) = em.
Proof.
  intros s. unfold s, stage. pose proof (lo_term_prov l Hl) as TP. pose proof (lo_term_emer l Hl) as TE.
  pose proof (lo_prov_emer l Hl) as PE. pose proof TP as PT. pose proof TE as ET. pose proof PE as EP.
  rewrite Z.land_comm in PT, ET, EP. pose proof (lo_pos l Hl) as P.
  repeat (apply Forall_cons in P as [? P]).
  destruct st, em; simpl; rewrite ?Z.lor_0_r, ?Z.lor_0_l, ?Z.land_lor_distr_l, ?Z.land_diag, ?Z.land_0_l,
    ?TP, ?TE, ?PE, ?PT, ?ET, ?EP, ?Z.lor_0_r, ?Z.lor_0_l; unfold truthy;
    repeat match goal with |- context [?b =? 0] => destruct (Z.eqb_spec b 0); [lia|] end; done.
Qed.

(** A bit of the state field is read from the state part alone. *)
Lemma state_bit_read v s b :
  Z.land v (state_mask l) = s → within b (state_mask l) → Z.land v b = Z.land s b.
Proof. unfold within. intros <- Hb. rewrite <- Z.land_assoc. f_equal. by rewrite Z.land_comm, Hb. Qed.

Lemma stage_read v s : Z.land v (state_mask l) = s → stage l v = stage l s.
Proof.
  intros E. unfold stage.
  rewrite (state_bit_read v s (terminal_bit l) E (stage_part_within TERMINAL)),
    (state_bit_read v s (provisional_bit l) E (stage_part_within PROVISIONAL)). done.
Qed.

Lemma target_hub_read v hub :
  known_hub hub → Z.land v (target_hub_mask l) = hub_part l hub → target_hub l v = Ok hub.
Proof.
  intros Hk E. unfold target_hub. rewrite E. pose proof (lo_hub_ne l Hl).
  pose proof (lo_pos l Hl) as P. repeat (apply Forall_cons in P as [? P]).
  destruct Hk as [->|[->| ->]]; simpl; unfold truthy;
    repeat match goal with |- context [?a =? ?b] => destruct (Z.eqb_spec a b) end; done || lia.
Qed.

Lemma egress_read v eg :
  Z.land v (egress_mask l) = egress_part l eg → egress_mode l v = Ok eg.
Proof.
  intros E. unfold egress_mode. rewrite E. pose proof (lo_egress_ne l Hl).
  pose proof (lo_pos l Hl) as P. repeat (apply Forall_cons in P as [? P]).
  destruct eg; simpl; repeat match goal with |- context [?a =? ?b] => destruct (Z.eqb_spec a b) end;
    done || lia.
Qed.
End fields.

Lemma decode_encode l path_marks t st em hub eg v :
  validate l path_marks = Ok tt → encode l t st em hub eg = Ok v →
  transport l v = t ∧ stage l v = st ∧ target_hub l v = Ok hub ∧ egress_mode l v = Ok eg ∧
  truthy (Z.land v (emergency_bit l)) = em ∧ Z.land v (connection_mask l) = v.
Proof.
  intros Hv (Ht & Hk & ->)%encode_parts. pose proof (validate_layout_ok _ _ Hv) as Hl.
  set (s := Z.lor (stage_part l st) (emergency_part l em)).
  assert (Hs : within s (state_mask l))
    by (apply within_lor; [by apply stage_part_within|by apply emergency_part_within]).
  rewrite <- (Z.lor_assoc t). fold s.
  destruct (mask_fields l Hl t s (hub_part l hub) (egress_part l eg)) as (E1 & E2 & E3 & E4);
    [by apply transport_within|done|by apply hub_part_within|by apply egress_part_within|].
  destruct (state_bits_inv l Hl st em) as [S1 S2].
  split_and!; [done|by rewrite (stage_read l _ _ E2)|by apply target_hub_read|by apply egress_read| |].
  - rewrite (state_bit_read l _ _ (emergency_bit l) E2 (emergency_part_within l true)). done.
  - unfold connection_mask. rewrite !Z.land_lor_distr_r, E1, E2, E3, E4. done.
Qed.

(** round trip of the mark encoder.  For every layout that [validate]
    accepts, decoding an encoded mark returns exactly the transport slot, the
    inspection stage, the hub affinity, the egress mode and the emergency flag
    it was built from, and the mark sets no bit outside the connection mask
    that CONNMARK saves and restores. *)
Theorem encode_decode l path_marks t st em hub eg v :
  validate l path_marks = Ok tt → encode l t st em hub eg = Ok v →
  transport l v = t ∧ stage l v = st ∧ target_hub l v = Ok hub ∧ egress_mode l v = Ok eg ∧
  truthy (Z.land v (emergency_bit l)) = em ∧ Z.land v (connection_mask l) = v.
Proof. apply decode_encode. Qed.

Definition core_path_marks : dict string Z := [("mpls", 1); ("bb", 2); ("lte", 3)].

Lemma encode_decode_witness :
  validate default_layout core_path_marks = Ok tt ∧
  encode default_layout 3 TERMINAL false (Some "hub2") HUB_OVERLAY = Ok 0x2103 ∧
  target_hub default_layout 0x2103 = Ok (Some "hub2").
Proof.
  split; [vm_compute; reflexivity|]. split; [vm_compute; reflexivity|].
  refine (proj1 (proj2 (proj2 (encode_decode default_layout core_path_marks 3 TERMINAL false
    (Some "hub2") HUB_OVERLAY 0x2103 _ _)))); vm_compute; reflexivity.
Defined.
