(* ===== verification/PathSelection.v ===== *)
(** * SLA-aware path measurement and selection ([common/path_selection.py])

    [MetricWindow] turns probe results into EWMA metrics, [PathSelector] scores
    the measured paths of one application class and destination and chooses one
    under SLA hysteresis, hold-down and a minimum improvement. *)
From Stdlib Require Import Ascii.
From S2P Require Import Prelude Net Marks.
Local Open Scope string_scope.
Local Open Scope list_scope.
Local Open Scope Q_scope.

Inductive ApplicationClass := REALTIME_RTP | CENTRAL_BACKUP | SAAS_INTERACTIVE | SAAS_FILE_TRANSFER.
Inductive NoEligibleAction := BEST_EFFORT | FAIL_CLOSED.

#[export] Instance ApplicationClass_eq_dec : EqDecision ApplicationClass.
Proof. solve_decision. Defined.
#[export] Instance NoEligibleAction_eq_dec : EqDecision NoEligibleAction.
Proof. solve_decision. Defined.

Definition class_value (c : ApplicationClass) : string :=
  match c with
  | REALTIME_RTP => "REALTIME_RTP"
  | CENTRAL_BACKUP => "CENTRAL_BACKUP"
  | SAAS_INTERACTIVE => "SAAS_INTERACTIVE"
  | SAAS_FILE_TRANSFER => "SAAS_FILE_TRANSFER"
  end.

Definition no_eligible_value (a : NoEligibleAction) : string :=
  match a with BEST_EFFORT => "BEST_EFFORT" | FAIL_CLOSED => "FAIL_CLOSED" end.

Record ApplicationSLA := {
  max_rtt_ms : option Q; max_jitter_ms : option Q; max_loss_pct : option Q;
  min_estimated_available_bandwidth_mbps : option Q;
  no_eligible_action : NoEligibleAction
}.

Record ScoreWeights := {
  w_rtt : Q; w_jitter : Q; w_loss : Q; w_available_bandwidth : Q; w_transport_cost : Q
}.

Definition weight_values (w : ScoreWeights) : list Q :=
  [w_rtt w; w_jitter w; w_loss w; w_available_bandwidth w; w_transport_cost w].

Definition weights_validate (w : ScoreWeights) : result unit :=
  raise_if (existsb (λ v, Qltb v 0) (weight_values w) || Qleb (Qsum (weight_values w)) 0)
    ValueError "path score weights must be non-negative and have a positive sum".

Record SelectionTuning := {
  bad_samples_before_degraded : Z; good_samples_before_recovered : Z;
  minimum_improvement_percent : Q; hold_down_seconds : Q
}.

Definition selection_tuning_validate (t : SelectionTuning) : result unit :=
  _ ← raise_if (bad_samples_before_degraded t <? 1)%Z ValueError
        "bad_samples_before_degraded must be at least 1";
  _ ← raise_if (good_samples_before_recovered t <? 1)%Z ValueError
        "good_samples_before_recovered must be at least 1";
  _ ← raise_if (Qltb (minimum_improvement_percent t) 0) ValueError
        "minimum_improvement_percent must be non-negative";
  raise_if (Qltb (hold_down_seconds t) 0) ValueError "hold_down_seconds must be non-negative".

Record MeasurementTuning := {
  interval_seconds : Q; ewma_alpha : Q; stale_after_seconds : Q; loss_window_samples : Z
}.

Definition measurement_tuning_validate (t : MeasurementTuning) : result unit :=
  _ ← raise_if (Qleb (interval_seconds t) 0) ValueError "measurement interval must be positive";
  _ ← raise_if (negb (Qltb 0 (ewma_alpha t) && Qleb (ewma_alpha t) 1)) ValueError
        "ewma_alpha must be in (0, 1]";
  _ ← raise_if (Qleb (stale_after_seconds t) 0) ValueError "stale_after_seconds must be positive";
  raise_if (loss_window_samples t <? 1)%Z ValueError "loss_window_samples must be at least 1".

Record PathMeasurement := {
  path_id : string; pm_transport : string; pm_egress_mode : EgressMode; hub : option string;
  interface : string; configured_capacity_mbps : Q; transport_cost : Q;
  measured_at_monotonic : Q; administratively_enabled : bool; operationally_reachable : bool;
  rtt_ms : option Q; jitter_ms : option Q; loss_pct : option Q;
  estimated_available_bandwidth_mbps : option Q
}.

Definition is_stale (m : PathMeasurement) (now stale_after : Q) : bool :=
  Qltb stale_after (now - measured_at_monotonic m).

Record ScoredPath := {
  measurement : PathMeasurement; score : Q; rejection_reasons : list string;
  sla_violations : list string; sla_state : string; bad_samples : Z; good_samples : Z
}.

Record PathDecision := {
  application_class : ApplicationClass; pd_source : string; pd_destination : string;
  destination_policy : string; allowed_egress : list EgressMode;
  candidate_transports : list string; candidates : list ScoredPath;
  selected_path : option PathMeasurement; selection_reason : string; changed : bool;
  previous_path_id : option string; timestamp_monotonic : Q; timestamp : string
}.

Definition no_rejections (c : ScoredPath) : bool := bool_decide (rejection_reasons c = []).
Definition eligible_paths (d : PathDecision) : list ScoredPath :=
  List.filter no_rejections (candidates d).
Definition rejected_paths (d : PathDecision) : list ScoredPath :=
  List.filter (λ c, negb (no_rejections c)) (candidates d).

(** ** [MetricWindow] *)

Record MetricWindow := {
  mw_tuning : MeasurementTuning; capacity_mbps : Q;
  mw_rtt_ms : option Q; mw_jitter_ms : option Q; available_mbps : option Q;
  previous_rtt_sample : option Q; loss_samples : list Q; last_counter : option (Q * Z)
}.

Definition MetricWindow_init (t : MeasurementTuning) (capacity : Q) : result MetricWindow :=
  _ ← measurement_tuning_validate t;
  _ ← raise_if (Qleb capacity 0) ValueError "configured capacity must be positive";
  Ok {| mw_tuning := t; capacity_mbps := capacity; mw_rtt_ms := None; mw_jitter_ms := None;
        available_mbps := None; previous_rtt_sample := None; loss_samples := [];
        last_counter := None |}.

(** The keyword arguments of [update]. *)
Record Sample := {
  successful : bool; s_rtt_ms : option Q; counter_timestamp : option Q;
  interface_bytes : option Z; loss_pct_sample : option Q;
  transmitted_packets : option Z; received_packets : option Z
}.

(** [alpha * x + (1 - alpha) * prev], or [x] for the first sample. *)
Definition ewma (alpha x : Q) (prev : option Q) : Q :=
  match prev with None => x | Some p => alpha * x + (1 - alpha) * p end.

Definition update_rtt (w : MetricWindow) (s : Sample) : MetricWindow :=
  match successful s, s_rtt_ms s with
  | true, Some rtt =>
      let alpha := ewma_alpha (mw_tuning w) in
      let variation := match previous_rtt_sample w with
                       | None => 0 | Some p => py_abs (rtt - p) end in
      {| mw_tuning := mw_tuning w; capacity_mbps := capacity_mbps w;
         mw_rtt_ms := Some (ewma alpha rtt (mw_rtt_ms w));
         mw_jitter_ms := Some (ewma alpha variation (mw_jitter_ms w));
         available_mbps := available_mbps w; previous_rtt_sample := Some rtt;
         loss_samples := loss_samples w; last_counter := last_counter w |}
  | _, _ => w
  end.

Definition new_loss_samples (s : Sample) : list Q :=
  match transmitted_packets s with
  | Some tx =>
      let transmitted := Z.max 0 tx in
      let received := Z.max 0 (Z.min transmitted (default 0%Z (received_packets s))) in
      replicate (Z.to_nat received) 0 ++ replicate (Z.to_nat (transmitted - received)) 100
  | None =>
      let sample_loss := match loss_pct_sample s with
                         | Some v => v
                         | None => if successful s then 0 else 100 end in
      [py_min 100 (py_max 0 sample_loss)]
  end.

Definition update_loss (w : MetricWindow) (s : Sample) : MetricWindow :=
  {| mw_tuning := mw_tuning w; capacity_mbps := capacity_mbps w;
     mw_rtt_ms := mw_rtt_ms w; mw_jitter_ms := mw_jitter_ms w;
     available_mbps := available_mbps w; previous_rtt_sample := previous_rtt_sample w;
     loss_samples := lastn (Z.to_nat (loss_window_samples (mw_tuning w)))
                       (loss_samples w ++ new_loss_samples s);
     last_counter := last_counter w |}.

Definition window_loss_pct (w : MetricWindow) : Q :=
  if bool_decide (loss_samples w = []) then 100
  else Qsum (loss_samples w) / inject_Z (Z.of_nat (length (loss_samples w))).

Definition update_bandwidth (w : MetricWindow) (s : Sample) : MetricWindow :=
  match counter_timestamp s, interface_bytes s with
  | Some ts, Some bytes =>
      let alpha := ewma_alpha (mw_tuning w) in
      let available :=
        match last_counter w with
        | None => Some (capacity_mbps w)
        | Some (ts0, bytes0) =>
            let elapsed := ts - ts0 in
            let delta := (bytes - bytes0)%Z in
            if Qltb 0 elapsed && (0 <=? delta)%Z then
              let used := inject_Z delta * 8 / elapsed / 1000000 in
              Some (ewma alpha (py_max 0 (capacity_mbps w - used)) (available_mbps w))
            else available_mbps w
        end in
      {| mw_tuning := mw_tuning w; capacity_mbps := capacity_mbps w;
         mw_rtt_ms := mw_rtt_ms w; mw_jitter_ms := mw_jitter_ms w;
         available_mbps := available; previous_rtt_sample := previous_rtt_sample w;
         loss_samples := loss_samples w; last_counter := Some (ts, bytes) |}
  | _, _ => w
  end.

(** [update]: the new window and the returned (rtt, jitter, loss, available). *)
Definition update (w : MetricWindow) (s : Sample)
    : MetricWindow * (option Q * option Q * Q * option Q) :=
  let w := update_loss (update_rtt w s) s in
  let loss := window_loss_pct w in
  let w := update_bandwidth w s in
  (w, (mw_rtt_ms w, mw_jitter_ms w, loss, available_mbps w)).

(** ** [PathSelector] *)

Definition selection_key : Type := string * string * string.

(** [(degraded, bad, good, previous_violations)] *)
Record SlaState := {
  degraded : bool; bad : Z; good : Z; previous_violations : list string
}.

Definition initial_sla_state : SlaState :=
  {| degraded := false; bad := 0; good := 0; previous_violations := [] |}.

(** [(path id, score, switched_at)] *)
Record Selection := { sel_path_id : string; sel_score : Q; switched_at : Q }.

Record PathSelector := {
  ps_tuning : SelectionTuning;
  ps_stale_after : Q;
  ps_selection : gmap selection_key Selection;
  ps_sla_state : gmap (selection_key * string) SlaState
}.

Definition PathSelector_init (t : SelectionTuning) (stale_after : Q) : result PathSelector :=
  _ ← selection_tuning_validate t;
  _ ← raise_if (Qleb stale_after 0) ValueError "stale_after_seconds must be positive";
  Ok {| ps_tuning := t; ps_stale_after := stale_after; ps_selection := ∅; ps_sla_state := ∅ |}.

Definition set_sla_state (k : selection_key * string) (st : SlaState) (p : PathSelector) : PathSelector :=
  {| ps_tuning := ps_tuning p; ps_stale_after := ps_stale_after p;
     ps_selection := ps_selection p; ps_sla_state := <[k := st]> (ps_sla_state p) |}.

Definition set_selection (k : selection_key) (s : Selection) (p : PathSelector) : PathSelector :=
  {| ps_tuning := ps_tuning p; ps_stale_after := ps_stale_after p;
     ps_selection := <[k := s]> (ps_selection p); ps_sla_state := ps_sla_state p |}.

Definition HARD_REJECTIONS : list string :=
  ["EGRESS_NOT_ALLOWED"; "TRANSPORT_NOT_CANDIDATE"; "ADMINISTRATIVELY_DISABLED"; "PATH_DOWN";
   "MEASUREMENT_STALE"].

(** One row of [checks]: limit, value, reason, comparison. *)
Definition violation (limit value : option Q) (reason : string) (compare : Q → Q → bool) : list string :=
  match limit with
  | None => []
  | Some l =>
      match value with
      | None => ["MEASUREMENT_UNAVAILABLE_" +:+ List.last (split_on "_"%char reason) ""]
      | Some v => if compare v l then [reason] else []
      end
  end.

Definition mandatory_violations (item : PathMeasurement) (sla : ApplicationSLA) : list string :=
  let above v limit := Qltb limit v in
  let below v limit := Qltb v limit in
  violation (max_rtt_ms sla) (rtt_ms item) "SLA_VIOLATION_RTT" above ++
  violation (max_jitter_ms sla) (jitter_ms item) "SLA_VIOLATION_JITTER" above ++
  violation (max_loss_pct sla) (loss_pct item) "SLA_VIOLATION_LOSS" above ++
  violation (min_estimated_available_bandwidth_mbps sla) (estimated_available_bandwidth_mbps item)
    "SLA_VIOLATION_BANDWIDTH" below.

Definition ratio (value reference : option Q) (fallback : Q) : Q :=
  match value with
  | None => 2
  | Some v =>
      let denominator := match reference with
                         | Some r => if Qltb 0 r then r else fallback
                         | None => fallback end in
      py_max 0 (v / denominator)
  end.

(** [sla.min_... or item.configured_capacity_mbps]: [0.0] is falsy. *)
Definition bandwidth_reference (item : PathMeasurement) (sla : ApplicationSLA) : Q :=
  match min_estimated_available_bandwidth_mbps sla with
  | Some m => if Qeqb m 0 then configured_capacity_mbps item else m
  | None => configured_capacity_mbps item
  end.

Definition path_score (item : PathMeasurement) (sla : ApplicationSLA) (w : ScoreWeights) : result Q :=
  _ ← weights_validate w;
  let bandwidth_ratio :=
    ratio (Some (bandwidth_reference item sla)) (estimated_available_bandwidth_mbps item) 1 in
  let weighted :=
    w_rtt w * ratio (rtt_ms item) (max_rtt_ms sla) 100
    + w_jitter w * ratio (jitter_ms item) (max_jitter_ms sla) 20
    + w_loss w * ratio (loss_pct item) (max_loss_pct sla) 1
    + w_available_bandwidth w * bandwidth_ratio
    + w_transport_cost w * py_max 0 (transport_cost item) in
  Ok (weighted / Qsum (weight_values w)).

(** The [immediate] rejections of [_evaluate_candidate]. *)
Definition immediate_rejections (p : PathSelector) (item : PathMeasurement)
    (allowed : list EgressMode) (transports : list string) (now : Q) : list string :=
  (if inb (pm_egress_mode item) allowed then [] else ["EGRESS_NOT_ALLOWED"]) ++
  (if inb (pm_transport item) transports then [] else ["TRANSPORT_NOT_CANDIDATE"]) ++
  (if administratively_enabled item then [] else ["ADMINISTRATIVELY_DISABLED"]) ++
  (if operationally_reachable item then [] else ["PATH_DOWN"]) ++
  (if is_stale item now (ps_stale_after p) then ["MEASUREMENT_STALE"] else []).

(** The hysteresis update of one stored [_sla_state] entry. *)
Definition sla_transition (t : SelectionTuning) (violations : list string) (st : SlaState) : SlaState :=
  match violations with
  | _ :: _ =>
      let bad' := (bad st + 1)%Z in
      {| degraded := degraded st || (bad_samples_before_degraded t <=? bad')%Z;
         bad := bad'; good := 0; previous_violations := violations |}
  | [] =>
      if degraded st then
        let good' := (good st + 1)%Z in
        if (good_samples_before_recovered t <=? good')%Z
        then {| degraded := false; bad := 0; good := 0; previous_violations := [] |}
        else {| degraded := true; bad := 0; good := good';
                previous_violations := previous_violations st |}
      else {| degraded := false; bad := 0;
              good := Z.min (good st + 1) (good_samples_before_recovered t);
              previous_violations := [] |}
  end.

Record Evaluation := {
  ev_rejections : list string; ev_violations : list string; ev_state : string;
  ev_bad : Z; ev_good : Z
}.

(** The verdict once the entry has been updated. *)
Definition sla_verdict (st : SlaState) (violations : list string) (is_current : bool) : Evaluation :=
  let ev r v s := {| ev_rejections := r; ev_violations := v; ev_state := s;
                     ev_bad := bad st; ev_good := good st |} in
  if degraded st then
    let reasons := match violations, previous_violations st with
                   | _ :: _, _ => violations
                   | [], _ :: _ => previous_violations st
                   | [], [] => ["RECOVERY_HYSTERESIS"] end in
    ev reasons violations (if bool_decide (violations = []) then "PENDING_RECOVERY" else "DEGRADED")
  else match violations with
       | _ :: _ => if is_current then ev [] violations "PENDING_DEGRADATION"
                   else ev violations violations "SLA_INELIGIBLE"
       | [] => ev [] [] "ELIGIBLE"
       end.

Definition evaluate_candidate (key : selection_key) (item : PathMeasurement) (sla : ApplicationSLA)
    (allowed : list EgressMode) (transports : list string) (now : Q) (is_current : bool)
    : M PathSelector Evaluation :=
  p ← get;
  match immediate_rejections p item allowed transports now with
  | (_ :: _) as immediate =>
      mret {| ev_rejections := immediate; ev_violations := []; ev_state := "UNAVAILABLE";
              ev_bad := 0; ev_good := 0 |}
  | [] =>
      let violations := mandatory_violations item sla in
      let state_key := (key, path_id item) in
      let st := sla_transition (ps_tuning p) violations
                  (default initial_sla_state (ps_sla_state p !! state_key)) in
      _ ← put (set_sla_state state_key st p);
      mret (sla_verdict st violations is_current)
  end.

Definition rejection_priority : list string :=
  ["PATH_DOWN"; "ADMINISTRATIVELY_DISABLED"; "MEASUREMENT_STALE"; "SLA_VIOLATION_JITTER";
   "SLA_VIOLATION_LOSS"; "SLA_VIOLATION_RTT"; "SLA_VIOLATION_BANDWIDTH";
   "MEASUREMENT_UNAVAILABLE_JITTER"; "MEASUREMENT_UNAVAILABLE_LOSS"; "MEASUREMENT_UNAVAILABLE_RTT";
   "MEASUREMENT_UNAVAILABLE_BANDWIDTH"; "RECOVERY_HYSTERESIS"; "EGRESS_NOT_ALLOWED";
   "TRANSPORT_NOT_CANDIDATE"].

Definition reason_from_rejections (rejections : list string) : string :=
  match find (λ r, inb r rejections) rejection_priority with
  | Some reason => reason
  | None => match rejections with r :: _ => r | [] => "BETTER_SLA_SCORE" end
  end.

Definition score_le : ScoredPath → ScoredPath → bool :=
  lexb (λ a b, Qleb (score a) (score b))
       (λ a b, String.leb (path_id (measurement a)) (path_id (measurement b))).

Definition has_id (pid : string) (c : ScoredPath) : bool := String.eqb (path_id (measurement c)) pid.

Definition is_hard (c : ScoredPath) : bool :=
  existsb (λ r, inb r HARD_REJECTIONS) (rejection_reasons c).

(** One round of the loop over [measurements]. *)
Definition score_candidate (key : selection_key) (sla : ApplicationSLA) (w : ScoreWeights)
    (allowed : list EgressMode) (transports : list string) (now : Q) (previous_id : option string)
    (item : PathMeasurement) : M PathSelector ScoredPath :=
  ev ← evaluate_candidate key item sla allowed transports now
         (bool_decide (Some (path_id item) = previous_id));
  s ← lift (path_score item sla w);
  mret {| measurement := item; score := s; rejection_reasons := ev_rejections ev;
          sla_violations := ev_violations ev; sla_state := ev_state ev;
          bad_samples := ev_bad ev; good_samples := ev_good ev |}.

(** The sorted eligible list and [fallback_used]. *)
Definition eligible_candidates (sla : ApplicationSLA) (cands : list ScoredPath) : list ScoredPath * bool :=
  let eligible := sort_by score_le (List.filter no_rejections cands) in
  if bool_decide (eligible = []) && bool_decide (no_eligible_action sla = BEST_EFFORT) then
    let fallback := sort_by score_le (List.filter (λ c, negb (is_hard c)) cands) in
    (fallback, negb (bool_decide (fallback = [])))
  else (eligible, false).

Definition improvement_percent (cur best : ScoredPath) : Q :=
  if Qleb (score cur) 0 then 100 else 100 * (score cur - score best) / score cur.

(** The choice among [eligible = best :: _] when a path was selected before. *)
Definition choose_with_previous (t : SelectionTuning) (w : ScoreWeights) (now : Q) (prev : Selection)
    (cands eligible : list ScoredPath) (best : ScoredPath) (fallback_used : bool) : ScoredPath * string :=
  let current_candidate := find (has_id (sel_path_id prev)) cands in
  match find (has_id (sel_path_id prev)) eligible with
  | Some current =>
      if String.eqb (sla_state current) "PENDING_DEGRADATION" then
        (current, (match sla_violations current with v :: _ => v | [] => "SLA_VIOLATION" end)
                    +:+ "_PENDING_HYSTERESIS")
      else if has_id (sel_path_id prev) best then (current, "RETAIN_CURRENT_PATH")
      else if Qltb (now - switched_at prev) (hold_down_seconds t) then (current, "HOLD_DOWN_RETAINED")
      else if Qltb (improvement_percent current best) (minimum_improvement_percent t)
      then (current, "MINIMUM_IMPROVEMENT_NOT_MET")
      else (best, if Qleb (py_max (py_max (w_rtt w) (w_jitter w)) (w_loss w)) (w_available_bandwidth w)
                  then "HIGHER_AVAILABLE_BANDWIDTH" else "BETTER_SLA_SCORE")
  | None =>
      (best, if fallback_used then "NO_ELIGIBLE_PATH_BEST_EFFORT"
             else reason_from_rejections (match current_candidate with
                                          | Some c => rejection_reasons c
                                          | None => ["PATH_DOWN"] end))
  end.

Definition choose (t : SelectionTuning) (w : ScoreWeights) (now : Q) (previous : option Selection)
    (cands eligible : list ScoredPath) (best : ScoredPath) (fallback_used : bool) : ScoredPath * string :=
  match previous with
  | None => (best, if fallback_used then "NO_ELIGIBLE_PATH_BEST_EFFORT" else "INITIAL_BEST_ELIGIBLE")
  | Some prev => choose_with_previous t w now prev cands eligible best fallback_used
  end.

(** The arguments of [select]. *)
Record Request := {
  rq_class : ApplicationClass; rq_source : string; rq_destination : string; rq_policy : string;
  rq_allowed : list EgressMode; rq_transports : list string; rq_measurements : list PathMeasurement;
  rq_sla : ApplicationSLA; rq_weights : ScoreWeights; rq_now : Q; rq_timestamp : string
}.

Definition rq_key (r : Request) : selection_key :=
  (class_value (rq_class r), rq_source r, rq_destination r).

Definition mk_decision (r : Request) (cands : list ScoredPath) (sel : option PathMeasurement)
    (reason : string) (chg : bool) (prev : option string) : PathDecision :=
  {| application_class := rq_class r; pd_source := rq_source r; pd_destination := rq_destination r;
     destination_policy := rq_policy r; allowed_egress := rq_allowed r;
     candidate_transports := rq_transports r; candidates := cands; selected_path := sel;
     selection_reason := reason; changed := chg; previous_path_id := prev;
     timestamp_monotonic := rq_now r; timestamp := rq_timestamp r |}.

Definition select (r : Request) : M PathSelector PathDecision :=
  _ ← lift (raise_if (bool_decide (rq_allowed r = []) || bool_decide (rq_transports r = []))
              ValueError "destination policy must provide allowed egress and candidate transports");
  p ← get;
  let key := rq_key r in
  let previous := ps_selection p !! key in
  let previous_id := sel_path_id <$> previous in
  cands ← mapMS (score_candidate key (rq_sla r) (rq_weights r) (rq_allowed r) (rq_transports r)
                   (rq_now r) previous_id) (rq_measurements r);
  let '(eligible, fallback_used) := eligible_candidates (rq_sla r) cands in
  match eligible with
  | [] => mret (mk_decision r cands None "NO_ELIGIBLE_PATH" (bool_decide (is_Some previous_id)) previous_id)
  | best :: _ =>
      let '(selected, reason) :=
        choose (ps_tuning p) (rq_weights r) (rq_now r) previous cands eligible best fallback_used in
      let pid := path_id (measurement selected) in
      let chg := match previous_id with Some old => negb (String.eqb old pid) | None => false end in
      let at_ := match previous with
                 | Some prev => if chg then rq_now r else switched_at prev
                 | None => rq_now r end in
      p' ← get;
      _ ← put (set_selection key {| sel_path_id := pid; sel_score := score selected; switched_at := at_ |} p');
      mret (mk_decision r cands (Some (measurement selected)) reason chg previous_id)
  end.

(** ** Lemmas on the measurement window *)

Definition in_range (lo hi : Q) (o : option Q) : Prop :=
  match o with None => True | Some v => lo <= v ∧ v <= hi end.

(** Well-formed windows: what [__init__] establishes and [update] preserves. *)
Record window_wf (w : MetricWindow) : Prop := {
  wf_tuning : measurement_tuning_validate (mw_tuning w) = Ok tt;
  wf_capacity : 0 < capacity_mbps w;
  wf_losses : Forall (λ v, 0 <= v ∧ v <= 100) (loss_samples w);
  wf_window : (Z.of_nat (length (loss_samples w)) <= loss_window_samples (mw_tuning w))%Z;
  wf_available : in_range 0 (capacity_mbps w) (available_mbps w)
}.

Lemma tuning_bounds t :
  measurement_tuning_validate t = Ok tt ↔
  0 < interval_seconds t ∧ 0 < ewma_alpha t ∧ ewma_alpha t <= 1 ∧ 0 < stale_after_seconds t ∧
  (1 <= loss_window_samples t)%Z.
Proof.
  unfold measurement_tuning_validate, raise_if, raise, mbind, result_bind. split.
  - repeat case_match; try discriminate. btrue. intros _.
    repeat match goal with
    | H : Qltb _ _ = true |- _ => apply Qltb_true in H | H : Qleb _ _ = true |- _ => apply Qleb_true in H
    | H : Qleb _ _ = false |- _ => apply Qleb_false in H end. split_and!; done || lia.
  - intros (H1 & H2 & H3 & H4 & H5).
    apply Qleb_false in H1, H4. apply Qltb_true in H2. apply Qleb_true in H3.
    rewrite H1, H2, H3, H4. simpl. by rewrite (proj2 (Z.ltb_ge _ _) H5).
Qed.

Lemma ewma_range alpha x p lo hi :
  0 < alpha → alpha <= 1 → lo <= x ∧ x <= hi → in_range lo hi p →
  lo <= ewma alpha x p ∧ ewma alpha x p <= hi.
Proof. intros. destruct p; simpl in *; [by apply Qmix_bounds|done]. Qed.

Lemma new_loss_samples_range s : Forall (λ v, 0 <= v ∧ v <= 100) (new_loss_samples s).
Proof.
  unfold new_loss_samples. destruct (transmitted_packets s).
  - apply Forall_app. split; apply Forall_replicate; split; lra.
  - apply Forall_singleton.
    generalize (match loss_pct_sample s with Some v => v | None => if successful s then 0 else 100 end).
    intros q. destruct (py_min_spec 100 (py_max 0 q)) as (? & ? & [E|E]);
      destruct (py_max_spec 0 q) as (? & ? & _); rewrite E in *; split; lra.
Qed.

Lemma MetricWindow_init_wf t cap w : MetricWindow_init t cap = Ok w → window_wf w.
Proof.
  unfold MetricWindow_init, raise_if. unfold mbind at 1, result_bind at 1.
  destruct (measurement_tuning_validate t) as [[]|] eqn:Ht; [|done].
  destruct (Qleb cap 0) eqn:Hc; [done|]. intros [= <-]. apply Qleb_false in Hc.
  pose proof (proj1 (tuning_bounds _) Ht) as (_ & _ & _ & _ & ?).
  split; simpl; try done; try lia; constructor.
Qed.

Lemma update_rtt_wf w s : window_wf w → window_wf (update_rtt w s).
Proof. intros []. unfold update_rtt. repeat case_match; split; done. Qed.

Lemma update_loss_wf w s : window_wf w → window_wf (update_loss w s).
Proof.
  intros [Ht ? ? ? ?]. pose proof (proj1 (tuning_bounds _) Ht) as (_ & _ & _ & _ & ?).
  split; simpl; try done.
  - apply lastn_Forall, Forall_app. split; [done|apply new_loss_samples_range].
  - rewrite lastn_length. lia.
Qed.

Lemma update_bandwidth_wf w s : window_wf w → window_wf (update_bandwidth w s).
Proof.
  intros [Ht Hc ? ? Ha]. pose proof (proj1 (tuning_bounds _) Ht) as (_ & ? & ? & _ & _).
  unfold update_bandwidth. destruct (counter_timestamp s) as [ts|]; [|by split].
  destruct (interface_bytes s) as [bytes|]; [|by split]. split; simpl; try done.
  destruct (last_counter w) as [[ts0 b0]|]; [|simpl; split; lra].
  destruct (Qltb 0 (ts - ts0)) eqn:E1; [|done]. destruct (0 <=? bytes - b0)%Z eqn:E2; [|done]. simpl.
  apply Qltb_true in E1. apply Z.leb_le in E2. apply ewma_range; try done.
  assert (Hu : 0 <= inject_Z (bytes - b0) * 8 / (ts - ts0) / 1000000).
  { apply Qle_shift_div_l; [lra|]. rewrite Qmult_0_l. apply Qle_shift_div_l; [done|].
    rewrite Qmult_0_l. rewrite Zle_Qle in E2. change (inject_Z 0) with 0 in E2. lra. }
  revert Hu. generalize (inject_Z (bytes - b0) * 8 / (ts - ts0) / 1000000). intros used Hu.
  destruct (py_max_spec 0 (capacity_mbps w - used)) as (? & ? & [Em|Em]); rewrite Em in *; split; lra.
Qed.

Lemma window_loss_range w :
  Forall (λ v, 0 <= v ∧ v <= 100) (loss_samples w) → 0 <= window_loss_pct w ∧ window_loss_pct w <= 100.
Proof.
  intros H. unfold window_loss_pct. case_bool_decide as E; [split; lra|].
  destruct (Qsum_bounds 0 100 _ H).
  apply Qdiv_bounds; try done. destruct (loss_samples w); [done|]. simpl.
  unfold Qlt, inject_Z. simpl. lia.
Qed.

Lemma update_wf w s : window_wf w → window_wf (update w s).1.
Proof. intros. by apply update_bandwidth_wf, update_loss_wf, update_rtt_wf. Qed.

Definition run_updates (w : MetricWindow) (ss : list Sample) : MetricWindow :=
  foldl (λ w s, (update w s).1) w ss.

Lemma run_updates_wf w ss : window_wf w → window_wf (run_updates w ss).
Proof. revert w. induction ss as [|s ss IH]; intros w Hw; simpl; [done|]. by apply IH, update_wf. Qed.

(** ** Lemmas on one candidate *)

(** What the destination policy and the operational state demand of a path. *)
Record permitted (allowed : list EgressMode) (transports : list string) (now stale_after : Q)
    (m : PathMeasurement) : Prop := {
  pm_egress_ok : pm_egress_mode m ∈ allowed;
  pm_transport_ok : pm_transport m ∈ transports;
  pm_enabled : administratively_enabled m = true;
  pm_reachable : operationally_reachable m = true;
  pm_fresh : now - measured_at_monotonic m <= stale_after
}.

Lemma immediate_nil p m allowed transports now :
  immediate_rejections p m allowed transports now = [] ↔
  permitted allowed transports now (ps_stale_after p) m.
Proof.
  unfold immediate_rejections, is_stale.
  destruct (inb (pm_egress_mode m) allowed) eqn:E1; simpl;
    [apply inb_true in E1|apply inb_false in E1; split; [done|by intros []]].
  destruct (inb (pm_transport m) transports) eqn:E2; simpl;
    [apply inb_true in E2|apply inb_false in E2; split; [done|by intros []]].
  destruct (administratively_enabled m) eqn:E3; simpl; [|split; [done|intros []; congruence]].
  destruct (operationally_reachable m) eqn:E4; simpl; [|split; [done|intros []; congruence]].
  destruct (Qltb_spec (ps_stale_after p) (now - measured_at_monotonic m)) as [|H].
  - split; [done|]. intros [? ? ? ? F]. lra.
  - split; [|done]. split; try done. lra.
Qed.

Lemma immediate_hard p m allowed transports now r :
  r ∈ immediate_rejections p m allowed transports now → r ∈ HARD_REJECTIONS.
Proof.
  unfold immediate_rejections. rewrite !elem_of_app. unfold HARD_REJECTIONS.
  intros [H|[H|[H|[H|H]]]]; case_match; try (by apply elem_of_nil in H);
    apply list_elem_of_singleton in H as ->; rewrite !elem_of_cons; tauto.
Qed.

(** The frame of one evaluation: only the [_sla_state] entry may change. *)
Definition same_frame (p p' : PathSelector) : Prop :=
  ps_tuning p' = ps_tuning p ∧ ps_stale_after p' = ps_stale_after p ∧ ps_selection p' = ps_selection p.

#[export] Instance same_frame_preorder : PreOrder same_frame.
Proof. split; unfold same_frame; [done|]. intros ? ? ? (-> & -> & ->) (-> & -> & ->). done. Qed.

Lemma evaluate_candidate_total key item sla allowed transports now cur p :
  ∃ ev p', evaluate_candidate key item sla allowed transports now cur p = (Ok ev, p') ∧ same_frame p p'.
Proof.
  unfold evaluate_candidate, mbind, M_bind, get, put, mret, M_ret.
  destruct (immediate_rejections p item allowed transports now); eexists _, _; split; done.
Qed.

Lemma evaluate_candidate_rejected key item sla allowed transports now cur p ev p' :
  evaluate_candidate key item sla allowed transports now cur p = (Ok ev, p') →
  permitted allowed transports now (ps_stale_after p) item ∨
  ev_rejections ev ≠ [] ∧ ∀ r, r ∈ ev_rejections ev → r ∈ HARD_REJECTIONS.
Proof.
  unfold evaluate_candidate, mbind, M_bind, get, put, mret, M_ret.
  destruct (immediate_rejections p item allowed transports now) as [|r0 rs] eqn:E.
  - intros _. left. by apply immediate_nil in E.
  - intros [= <- _]. right. simpl. split; [done|]. intros r. rewrite <- E. apply immediate_hard.
Qed.

(** What [score_candidate] returns, relative to the selector it started from. *)
Definition scored (r : Request) (stale_after : Q) (item : PathMeasurement) (c : ScoredPath) : Prop :=
  measurement c = item ∧ path_score item (rq_sla r) (rq_weights r) = Ok (score c) ∧
  (permitted (rq_allowed r) (rq_transports r) (rq_now r) stale_after item ∨
   rejection_reasons c ≠ [] ∧ is_hard c = true).

Lemma score_candidate_spec r key prev p0 item c p1 p2 :
  same_frame p0 p1 →
  score_candidate key (rq_sla r) (rq_weights r) (rq_allowed r) (rq_transports r) (rq_now r) prev item p1
    = (Ok c, p2) →
  same_frame p0 p2 ∧ scored r (ps_stale_after p0) item c.
Proof.
  intros Hf (ev & p' & He & (s & p'' & Hs & Hr)%M_bind_ok)%M_bind_ok.
  unfold lift in Hs. injection Hs as Hs <-. injection Hr as <- <-.
  edestruct evaluate_candidate_total as (ev' & q & He' & Hfr). rewrite He in He'.
  injection He' as <- <-. split; [by etrans|].
  destruct (evaluate_candidate_rejected _ _ _ _ _ _ _ _ _ _ He) as [Hp|[Hne Hh]].
  - split_and!; try done. left. destruct Hf as (_ & Hst & _). by rewrite <- Hst.
  - split_and!; try done. right. simpl. split; [done|]. unfold is_hard. simpl.
    destruct (ev_rejections ev) as [|r0 rs]; [done|]. apply existsb_exists. exists r0.
    split; [by left|]. apply (proj2 (inb_true r0 HARD_REJECTIONS)), Hh. constructor.
Qed.

Lemma scored_no_rejections r sa item c :
  scored r sa item c → no_rejections c = true → permitted (rq_allowed r) (rq_transports r) (rq_now r) sa item.
Proof. intros (_ & _ & [?|[? _]]) Hc%bool_decide_eq_true; done. Qed.

Lemma scored_not_hard r sa item c :
  scored r sa item c → negb (is_hard c) = true → permitted (rq_allowed r) (rq_transports r) (rq_now r) sa item.
Proof. intros (_ & _ & [?|[_ H]]) Hc%negb_true_iff; congruence. Qed.

(** ** Lemmas on one selection round *)

Lemma eligible_elem sla cands el fb c :
  eligible_candidates sla cands = (el, fb) → c ∈ el →
  c ∈ cands ∧ (no_rejections c = true ∨ fb = true ∧ negb (is_hard c) = true).
Proof.
  unfold eligible_candidates. intros E Hc. case_match eqn:Hcase; injection E as <- <-.
  - apply sort_by_elem, filter_elem in Hc as [? Hh]. split; [done|]. right. split; [|done].
    rewrite negb_true_iff, bool_decide_eq_false. intros Hnil%sort_by_nil.
    assert (c ∈ List.filter (λ c, negb (is_hard c)) cands) as Hin by by apply filter_elem.
    rewrite Hnil in Hin. by apply elem_of_nil in Hin.
  - apply sort_by_elem, filter_elem in Hc as [? ?]. split; [done|by left].
Qed.

Lemma eligible_head sla cands best rest fb c :
  eligible_candidates sla cands = (best :: rest, fb) → c ∈ best :: rest → score_le best c = true.
Proof.
  unfold eligible_candidates. intros E Hc. case_match; injection E as E <-;
    (apply sort_by_head with (le := score_le) in E as Hh; [|typeclasses eauto]);
    rewrite <- E in Hc; apply sort_by_elem in Hc; by apply Hh.
Qed.

(** Every candidate with no rejection survives into the eligible list. *)
Lemma eligible_contains sla cands el fb c :
  eligible_candidates sla cands = (el, fb) → c ∈ cands → no_rejections c = true → c ∈ el ∧ fb = false.
Proof.
  intros E Hc Hn. unfold eligible_candidates in E.
  assert (Hin : c ∈ sort_by score_le (List.filter no_rejections cands)) by by apply sort_by_elem, filter_elem.
  rewrite bool_decide_false in E; [|by intros Hnil; rewrite Hnil in Hin; apply elem_of_nil in Hin].
  simpl in E. injection E as <- <-. done.
Qed.

Lemma eligible_empty sla cands fb :
  eligible_candidates sla cands = ([], fb) ↔
  fb = false ∧ Forall (λ c, no_rejections c = false) cands ∧
  (no_eligible_action sla = BEST_EFFORT → Forall (λ c, is_hard c = true) cands).
Proof.
  assert (Hf : ∀ f : ScoredPath → bool, List.filter f cands = [] ↔ Forall (λ c, f c = false) cands).
  { intros f. rewrite Forall_forall. split.
    - intros E c Hc. destruct (f c) eqn:Ef; [|done].
      assert (c ∈ List.filter f cands) as Hin by by apply filter_elem. rewrite E in Hin.
      by apply elem_of_nil in Hin.
    - intros H. destruct (List.filter f cands) as [|c l] eqn:E; [done|].
      assert (c ∈ List.filter f cands) as [Hc Hfc]%filter_elem by (rewrite E; constructor).
      by rewrite H in Hfc. }
  unfold eligible_candidates. destruct (bool_decide_reflect (sort_by score_le (List.filter no_rejections cands) = [])) as [E|E]; simpl.
  - case_bool_decide as Hb.
    + split.
      * intros [= E1 <-]. rewrite bool_decide_true by done. split; [done|].
        apply sort_by_nil, Hf in E. apply sort_by_nil, Hf in E1. split; [done|]. intros _.
        eapply Forall_impl; [exact E1|]. by intros c Hc%negb_false_iff.
      * intros (-> & H1 & H2). rewrite (proj2 (sort_by_nil _ _)); [by rewrite bool_decide_true|].
        apply Hf. eapply Forall_impl; [exact (H2 Hb)|]. by intros c ->.
    + split; [|by intros (-> & _); rewrite E]. intros [= _ <-].
      apply sort_by_nil, Hf in E. done.
  - split; [by intros [= ? _]|]. intros (_ & H & _). apply Hf in H. by rewrite H in E.
Qed.

Lemma choose_elem t w now prev cands best rest fb c reason :
  choose t w now prev cands (best :: rest) best fb = (c, reason) → c ∈ best :: rest.
Proof.
  unfold choose, choose_with_previous. destruct prev as [prev|]; [|intros [= <- _]; constructor].
  destruct (find (has_id (sel_path_id prev)) (best :: rest)) as [cur|] eqn:E;
    [|intros [= <- _]; constructor].
  apply find_elem in E as [Hin _].
  repeat case_match; intros [= <- _]; done || constructor.
Qed.

(** The evaluation loop of [select], for a selector whose memory is [p]'s. *)
Definition score_all (r : Request) (p : PathSelector) (ms : list PathMeasurement)
    : M PathSelector (list ScoredPath) :=
  mapMS (score_candidate (rq_key r) (rq_sla r) (rq_weights r) (rq_allowed r) (rq_transports r)
           (rq_now r) (sel_path_id <$> ps_selection p !! rq_key r)) ms.

(** One round, opened up. *)
Lemma select_inv r p d p' :
  select r p = (Ok d, p') →
  ∃ cands pm el fb,
    rq_allowed r ≠ [] ∧ rq_transports r ≠ [] ∧ score_all r p (rq_measurements r) p = (Ok cands, pm) ∧
    Forall2 (scored r (ps_stale_after p)) (rq_measurements r) cands ∧ same_frame p pm ∧
    eligible_candidates (rq_sla r) cands = (el, fb) ∧
    match el with
    | [] => p' = pm ∧
        d = mk_decision r cands None "NO_ELIGIBLE_PATH"
              (bool_decide (is_Some (sel_path_id <$> ps_selection p !! rq_key r)))
              (sel_path_id <$> ps_selection p !! rq_key r)
    | best :: _ => ∃ c reason chg,
        choose (ps_tuning p) (rq_weights r) (rq_now r) (ps_selection p !! rq_key r) cands el best fb
          = (c, reason) ∧
        chg = match ps_selection p !! rq_key r with
              | Some prev => negb (has_id (sel_path_id prev) c) | None => false end ∧
        d = mk_decision r cands (Some (measurement c)) reason chg
              (sel_path_id <$> ps_selection p !! rq_key r) ∧
        p' = set_selection (rq_key r)
               {| sel_path_id := path_id (measurement c); sel_score := score c;
                  switched_at := match ps_selection p !! rq_key r with
                                 | Some prev => if chg then rq_now r else switched_at prev
                                 | None => rq_now r end |} pm
    end.
Proof.
  unfold select. intros (u & p0 & Hr & H)%M_bind_ok. unfold lift, raise_if in Hr.
  destruct (bool_decide (rq_allowed r = []) || bool_decide (rq_transports r = [])) eqn:Hb; [done|].
  btrue. injection Hr as _ <-.
  apply M_bind_ok in H as (p1 & p2 & Hg & (cands & pm & Hm & H)%M_bind_ok). injection Hg as <- <-.
  destruct (mapMS_Forall2 (same_frame p) (scored r (ps_stale_after p)) _ _ _ _ _
    (λ x y s1 s2 _ HI Hx, score_candidate_spec r _ _ p x y s1 s2 HI Hx) (reflexivity p) Hm) as [Hfr Hall].
  destruct (eligible_candidates (rq_sla r) cands) as [el fb] eqn:He.
  exists cands, pm, el, fb. split_and!; try done. clear Hm. destruct el as [|best rest].
  { by injection H as <- <-. }
  destruct (choose _ _ _ _ _ _ _ _) as [c reason] eqn:Hc.
  apply M_bind_ok in H as (q & q' & Hg & (u' & q'' & Hp & H)%M_bind_ok).
  injection Hg as <- <-. injection Hp as _ <-. injection H as <- <-.
  exists c, reason. eexists. split; [done|]. split; [done|].
  destruct (ps_selection p !! rq_key r); simpl; [|done].
  unfold has_id. rewrite (String.eqb_sym (path_id (measurement c))). done.
Qed.

Lemma path_score_ok item sla w : weights_validate w = Ok tt → ∃ s, path_score item sla w = Ok s.
Proof. intros H. unfold path_score, mbind, result_bind. rewrite H. eauto. Qed.

Lemma path_score_err item sla w e : weights_validate w = Err e → path_score item sla w = Err e.
Proof. intros H. unfold path_score, mbind, result_bind. by rewrite H. Qed.

(** ** The stored hysteresis entry of one path *)

Lemma score_candidate_other r prev item p c p' k :
  score_candidate (rq_key r) (rq_sla r) (rq_weights r) (rq_allowed r) (rq_transports r) (rq_now r) prev
    item p = (Ok c, p') →
  k ≠ (rq_key r, path_id item) → ps_sla_state p' !! k = ps_sla_state p !! k.
Proof.
  intros (ev & q & He & (s & q' & Hs & Hr)%M_bind_ok)%M_bind_ok Hk.
  injection Hs as _ <-. injection Hr as _ <-. revert He.
  unfold evaluate_candidate, mbind, M_bind, get, put, mret, M_ret.
  destruct (immediate_rejections _ _ _ _ _); intros [= _ <-]; simpl; [|done].
  by apply lookup_insert_ne.
Qed.

Lemma score_all_other r p0 ms p cs p' k :
  (∀ item, item ∈ ms → k ≠ (rq_key r, path_id item)) →
  score_all r p0 ms p = (Ok cs, p') →
  ps_sla_state p' !! k = ps_sla_state p !! k ∧ same_frame p p'.
Proof.
  intros Hk H. unfold score_all in H.
  refine (proj1 (mapMS_Forall2 (λ q, ps_sla_state q !! k = ps_sla_state p !! k ∧ same_frame p q)
    (λ _ _, True) _ ms p cs p' _ _ H)); [|done].
  intros item c q1 q2 Hin [E Hf] Hc. split; [|done].
  split; [rewrite <- E; eapply score_candidate_other; [exact Hc|by apply Hk]|].
  by apply (score_candidate_spec _ _ _ _ _ _ _ _ Hf Hc).
Qed.

Definition stored (p : PathSelector) (k : selection_key * string) : SlaState :=
  default initial_sla_state (ps_sla_state p !! k).

Definition verdict_of (c : ScoredPath) : Evaluation :=
  {| ev_rejections := rejection_reasons c; ev_violations := sla_violations c;
     ev_state := sla_state c; ev_bad := bad_samples c; ev_good := good_samples c |}.

(** What a completed evaluation did to the entry of [item]'s path. *)
Definition entry_step (r : Request) (p : PathSelector) (item : PathMeasurement) (c : ScoredPath)
    (p' : PathSelector) : Prop :=
  let k := (rq_key r, path_id item) in
  match immediate_rejections p item (rq_allowed r) (rq_transports r) (rq_now r) with
  | [] =>
      let violations := mandatory_violations item (rq_sla r) in
      let st := sla_transition (ps_tuning p) violations (stored p k) in
      ps_sla_state p' !! k = Some st ∧
      verdict_of c = sla_verdict st violations
        (bool_decide (Some (path_id item) = sel_path_id <$> ps_selection p !! rq_key r))
  | rs => ps_sla_state p' !! k = ps_sla_state p !! k ∧ rejection_reasons c = rs ∧
          sla_state c = "UNAVAILABLE"
  end.

Lemma score_candidate_entry r p0 item p c p' :
  same_frame p0 p → ps_sla_state p !! (rq_key r, path_id item) = ps_sla_state p0 !! (rq_key r, path_id item) →
  score_candidate (rq_key r) (rq_sla r) (rq_weights r) (rq_allowed r) (rq_transports r) (rq_now r)
    (sel_path_id <$> ps_selection p0 !! rq_key r) item p = (Ok c, p') →
  measurement c = item ∧ entry_step r p0 item c p'.
Proof.
  intros (Ht & Hs & _) He (ev & q & Hev & (s & q' & Hsc & Hr)%M_bind_ok)%M_bind_ok.
  injection Hsc as _ <-. injection Hr as <- <-. split; [done|]. revert Hev.
  assert (Hi : immediate_rejections p item = immediate_rejections p0 item).
  { unfold immediate_rejections. by rewrite Hs. }
  unfold entry_step, evaluate_candidate, mbind, M_bind, get, put, mret, M_ret, stored. rewrite Hi, Ht, He.
  destruct (immediate_rejections p0 item _ _ _); intros [= <- <-]; simpl; [|by rewrite He].
  rewrite lookup_insert_eq. split; [done|]. unfold verdict_of. simpl. 
  unfold sla_verdict. repeat case_match; done.
Qed.

Lemma scored_ids (r : Request) sa ms cs :
  Forall2 (scored r sa) ms cs → map (λ c, path_id (measurement c)) cs = map path_id ms.
Proof. induction 1 as [|m c ms cs (Hm & _) _ IH]; simpl; [done|]. by rewrite IH, Hm. Qed.

Lemma select_candidate r p d p' item :
  select r p = (Ok d, p') → NoDup (map path_id (rq_measurements r)) → item ∈ rq_measurements r →
  ∃ c, c ∈ candidates d ∧ measurement c = item ∧ entry_step r p item c p' ∧
       ∀ c', c' ∈ candidates d → path_id (measurement c') = path_id item → c' = c.
Proof.
  intros H Hnd Hin.
  destruct (select_inv _ _ _ _ H) as (cands & pm & el & fb & _ & _ & Hall & Hsc & _ & _ & Hel).
  assert (Hd : candidates d = cands ∧ ps_sla_state p' = ps_sla_state pm).
  { destruct el; [destruct Hel as (-> & ->); done|].
    destruct Hel as (c & reason & chg & _ & _ & -> & ->). done. }
  destruct Hd as [-> Hp']. apply list_elem_of_split in Hin as (l1 & l2 & Hms). rewrite Hms in *.
  destruct (mapMS_split _ _ _ _ _ _ _ Hall) as (c1 & q1 & c & q2 & c2 & H1 & Hc & H2 & ->).
  pose proof Hnd as Hnd'. rewrite map_app in Hnd'. simpl in Hnd'.
  apply NoDup_app in Hnd' as (_ & Hl1 & [Hl2 _]%NoDup_cons).
  assert (Hne : ∀ l, path_id item ∉ map path_id l → ∀ x, x ∈ l →
    (rq_key r, path_id item) ≠ (rq_key r, path_id x)).
  { intros l Hl x Hx [= E]. apply Hl. rewrite E. apply list_elem_of_In, in_map. by apply list_elem_of_In. }
  destruct (score_all_other r p l1 p c1 q1 (rq_key r, path_id item)) as [E1 F1]; [|done|].
  { apply Hne. intros Hx%Hl1. apply Hx. constructor. }
  destruct (score_all_other r p l2 q2 c2 pm (rq_key r, path_id item)) as [E2 _]; [by apply Hne|done|].
  destruct (score_candidate_entry _ _ _ _ _ _ F1 E1 Hc) as [Hm Hstep].
  exists c. split; [apply elem_of_app; right; constructor|]. split; [done|]. split.
  - unfold entry_step in *. rewrite Hp'. simpl in *. rewrite E2. done.
  - intros c' Hc' Eid. rewrite <- (scored_ids _ _ _ _ Hsc) in Hnd.
    eapply (NoDup_map_inj (λ c, path_id (measurement c))); [done|done| |by rewrite Hm].
    apply elem_of_app. right. constructor.
Qed.

(** ** The hysteresis automaton on a history of samples *)

Definition is_bad (violations : list string) : bool := negb (bool_decide (violations = [])).

(** Counters against the reversed history (most recent sample first). *)
Record counters_ok (t : SelectionTuning) (r : list bool) (st : SlaState) : Prop := {
  co_bad : bad st = Z.of_nat (lead true r);
  co_good : degraded st = true → good st = Z.of_nat (lead false r);
  co_pending : degraded st = true → (good st < good_samples_before_recovered t)%Z;
  co_degraded : degraded st = true ↔
    latched (Z.to_nat (bad_samples_before_degraded t)) (Z.to_nat (good_samples_before_recovered t)) r
}.

Section automaton.
Context (t : SelectionTuning).
Context (HN : (1 <= bad_samples_before_degraded t)%Z) (HM : (1 <= good_samples_before_recovered t)%Z).

Lemma counters_initial : counters_ok t [] initial_sla_state.
Proof.
  split; simpl; try done. split; [done|]. intros Hl. exfalso. revert Hl.
  apply latched_nil; lia.
Qed.

Lemma counters_step v r st : counters_ok t r st → counters_ok t (is_bad v :: r) (sla_transition t v st).
Proof.
  intros [Hb Hg Hp Hd]. unfold is_bad, sla_transition.
  destruct v as [|v vs]; simpl.
  - destruct (degraded st) eqn:E.
    + specialize (Hg eq_refl). specialize (Hp eq_refl). pose proof (proj1 Hd eq_refl) as Hl.
      destruct (Z.leb_spec (good_samples_before_recovered t) (good st + 1)); split; simpl; try done; try lia;
        rewrite latched_false by lia.
      * split; [done|]. intros [_ ?]. lia.
      * split; [intros _; split; [done|lia]|done].
    + split; simpl; try done. rewrite latched_false by lia. split; [done|]. by intros [?%Hd _].
  - split; simpl; try done; [lia| |].
    + intros. lia.
    + rewrite orb_true_iff, Z.leb_le, latched_true, <- Hd by lia. split; intros [?|?]; try tauto; try (left; lia).
      right. lia.
Qed.
End automaton.

Lemma selection_tuning_bounds t :
  selection_tuning_validate t = Ok tt ↔
  (1 <= bad_samples_before_degraded t)%Z ∧ (1 <= good_samples_before_recovered t)%Z ∧
  0 <= minimum_improvement_percent t ∧ 0 <= hold_down_seconds t.
Proof.
  unfold selection_tuning_validate, raise_if, raise, mbind, result_bind. split.
  - repeat case_match; try discriminate. intros _.
    repeat match goal with H : Qltb _ _ = false |- _ => apply Qltb_false in H end.
    split_and!; done || lia.
  - intros (H1 & H2 & H3 & H4). apply Qltb_false in H3, H4. apply Z.ltb_ge in H1, H2.
    by rewrite H1, H2, H3, H4.
Qed.

(** What one round observes about a path: nothing while it is unavailable,
    otherwise whether its measurement violates a mandatory threshold. *)
Definition observation (stale_after : Q) (r : Request) (item : PathMeasurement) : list bool :=
  let probe := {| ps_tuning := {| bad_samples_before_degraded := 1; good_samples_before_recovered := 1;
                                  minimum_improvement_percent := 0; hold_down_seconds := 0 |};
                  ps_stale_after := stale_after; ps_selection := ∅; ps_sla_state := ∅ |} in
  if bool_decide (immediate_rejections probe item (rq_allowed r) (rq_transports r) (rq_now r) = [])
  then [is_bad (mandatory_violations item (rq_sla r))] else [].

Definition history (stale_after : Q) (rounds : list (Request * PathMeasurement)) : list bool :=
  concat (map (λ x, observation stale_after x.1 x.2) rounds).

(** Successive [select] calls for one key, each measuring the path once. *)
Definition round_for (key : selection_key) (pid : string) (x : Request * PathMeasurement) : Prop :=
  rq_key x.1 = key ∧ path_id x.2 = pid ∧ x.2 ∈ rq_measurements x.1 ∧
  NoDup (map path_id (rq_measurements x.1)).

Definition run_rounds (rounds : list (Request * PathMeasurement)) : M PathSelector (list PathDecision) :=
  mapMS (λ x, select x.1) rounds.

Lemma select_frame r p d p' :
  select r p = (Ok d, p') → ps_tuning p' = ps_tuning p ∧ ps_stale_after p' = ps_stale_after p.
Proof.
  intros (cands & pm & el & fb & _ & _ & _ & _ & (Ht & Hs & _) & _ & H)%select_inv.
  destruct el; [destruct H as [-> _]; done|]. by destruct H as (? & ? & ? & _ & _ & _ & ->).
Qed.

Lemma run_rounds_counters key pid rounds p ds p' r0 :
  Forall (round_for key pid) rounds →
  (1 <= bad_samples_before_degraded (ps_tuning p))%Z →
  (1 <= good_samples_before_recovered (ps_tuning p))%Z →
  counters_ok (ps_tuning p) r0 (stored p (key, pid)) →
  run_rounds rounds p = (Ok ds, p') →
  counters_ok (ps_tuning p) (reverse (history (ps_stale_after p) rounds) ++ r0) (stored p' (key, pid)).
Proof.
  intros Hall HN HM. revert p ds r0 HN HM.
  induction Hall as [|[r item] rounds (Hk & Hid & Hin & Hnd) Hall IH]; intros p ds r0 HN HM Hc H; simpl in *.
  { by injection H as _ <-. }
  unfold run_rounds in H. simpl in H.
  apply M_bind_ok in H as (d & p1 & Hd & (ds' & p2 & Hl & Hr)%M_bind_ok). injection Hr as _ ->.
  destruct (select_frame _ _ _ _ Hd) as [Ht Hs].
  destruct (select_candidate _ _ _ _ _ Hd Hnd Hin) as (c & _ & _ & He & _).
  unfold history. simpl. fold (history (ps_stale_after p) rounds). rewrite reverse_app, <- (assoc_L (++)), <- Hs, <- Ht.
  apply (IH p1 ds'); rewrite ?Ht; try done. subst key pid.
  unfold entry_step in He. unfold observation. rewrite Hs.
  change (immediate_rejections _ item) with (immediate_rejections p item).
  destruct (immediate_rejections p item _ _ _); simpl.
  - destruct He as [He _]. unfold stored at 1. rewrite He. simpl. by apply counters_step.
  - destruct He as [He _]. unfold stored. by rewrite He.
Qed.

(** A round with a policy and valid weights (or nothing to score) decides. *)
Lemma select_total r p :
  rq_allowed r ≠ [] → rq_transports r ≠ [] →
  rq_measurements r = [] ∨ weights_validate (rq_weights r) = Ok tt → is_ok (select r p).1 = true.
Proof.
  intros Ha Ht Hw.
  assert (Hb : bool_decide (rq_allowed r = []) || bool_decide (rq_transports r = []) = false)
    by by rewrite !bool_decide_false.
  unfold select, mbind, M_bind, lift, raise_if, get. rewrite Hb.
  destruct (mapMS_total (λ _, True) (score_candidate (rq_key r) (rq_sla r) (rq_weights r)
    (rq_allowed r) (rq_transports r) (rq_now r) (sel_path_id <$> ps_selection p !! rq_key r))
    (rq_measurements r) p) as (cands & pm & Hm & _).
  + intros item p1 Hin _. destruct Hw as [Hw|Hw]; [rewrite Hw in Hin; by apply elem_of_nil in Hin|].
    destruct (path_score_ok item (rq_sla r) _ Hw) as [s Hs].
    unfold score_candidate. edestruct evaluate_candidate_total as (ev & p2 & Hev & _).
    unfold mbind, M_bind. rewrite Hev. unfold lift. rewrite Hs. by eexists _, _.
  + done.
  + simpl in Hm |- *. rewrite Hm. destruct (eligible_candidates _ _) as [[|best rest] fb]; [done|].
    by destruct (choose _ _ _ _ _ _ _ _).
Qed.

(** ** Properties *)

(** Whichever branch chose it (initial choice, retained current path,
    hold-down, better score or BEST_EFFORT fallback), a selected path is one of
    the measured paths, uses an egress mode and a transport the destination
    policy allows, is administratively enabled and reachable, and its
    measurement is not stale. *)
Theorem select_respects_policy r p d p' m :
  select r p = (Ok d, p') → selected_path d = Some m →
  m ∈ rq_measurements r ∧
  permitted (rq_allowed r) (rq_transports r) (rq_now r) (ps_stale_after p) m.
Proof.
  intros (cands & pm & el & fb & _ & _ & _ & Hsc & _ & He & Hel)%select_inv Hs.
  destruct el as [|best rest]; [by destruct Hel as (_ & ->)|].
  destruct Hel as (c & reason & chg & Hc & _ & -> & _). injection Hs as <-.
  pose proof (choose_elem _ _ _ _ _ _ _ _ _ _ Hc) as Hin.
  destruct (eligible_elem _ _ _ _ _ He Hin) as [Hcand Hok].
  apply (Forall2_elem_r _ _ _ _ Hsc) in Hcand as (item & Hitem & Hscored).
  assert (measurement c = item) as -> by apply Hscored. split; [done|].
  destruct Hok as [?|[_ ?]]; [by eapply scored_no_rejections|by eapply scored_not_hard].
Qed.

(** [select] raises exactly when the destination policy gives no egress mode
    or no transport, or when some path is scored with invalid weights; every
    other round returns a decision. *)
Theorem select_ok_iff r p :
  is_ok (select r p).1 = true ↔
  rq_allowed r ≠ [] ∧ rq_transports r ≠ [] ∧
  (rq_measurements r = [] ∨ weights_validate (rq_weights r) = Ok tt).
Proof.
  destruct (bool_decide (rq_allowed r = []) || bool_decide (rq_transports r = [])) eqn:Hb.
  { unfold select, mbind at 1, M_bind at 1, lift, raise_if. rewrite Hb. simpl.
    split; [done|]. intros (? & ? & _). apply orb_true_iff in Hb as [Hb|Hb];
      apply bool_decide_eq_true in Hb; done. }
  pose proof Hb as [Ha%bool_decide_eq_false Ht%bool_decide_eq_false]%orb_false_iff. split.
  - intros Hok. split_and!; try done. destruct (select r p) as [[d|] p'] eqn:Hsel; [|done].
    destruct (select_inv _ _ _ _ Hsel) as (cands & _ & _ & _ & _ & _ & _ & Hsc & _).
    inversion Hsc as [|item c ms cs (_ & Hs & _)]; [by left|right].
    destruct (weights_validate (rq_weights r)) as [[]|e] eqn:Hw; [done|].
    by rewrite (path_score_err _ _ _ _ Hw) in Hs.
  - intros (_ & _ & Hw). by apply select_total.
Qed.

(** no path is selected exactly when every candidate was rejected and, under
    BEST_EFFORT, every candidate was rejected for a hard reason (policy,
    administrative, reachability or staleness); the selector's memory of the
    chosen path is then left untouched, so the decision is reported as changed
    on every such round while a previous path is remembered. *)
Theorem select_no_eligible r p d p' :
  select r p = (Ok d, p') →
  (selected_path d = None ↔
    Forall (λ c, rejection_reasons c ≠ []) (candidates d) ∧
    (no_eligible_action (rq_sla r) = BEST_EFFORT → Forall (λ c, is_hard c = true) (candidates d))) ∧
  (selected_path d = None →
    selection_reason d = "NO_ELIGIBLE_PATH" ∧ ps_selection p' = ps_selection p ∧
    (changed d = true ↔ is_Some (ps_selection p !! rq_key r))).
Proof.
  intros (cands & pm & el & fb & _ & _ & _ & _ & Hf & He & Hel)%select_inv.
  assert (Hiff : el = [] ↔ Forall (λ c, rejection_reasons c ≠ []) cands ∧
    (no_eligible_action (rq_sla r) = BEST_EFFORT → Forall (λ c, is_hard c = true) cands)).
  { assert (∀ k, Forall (λ c, no_rejections c = false) k ↔ Forall (λ c, rejection_reasons c ≠ []) k) as Hn.
    { intros k. apply Forall_proper; [|done]. intros c. unfold no_rejections. by rewrite bool_decide_eq_false. }
    rewrite <- Hn. split.
    - intros ->. apply eligible_empty in He as (_ & ? & ?). done.
    - intros [H1 H2]. assert (eligible_candidates (rq_sla r) cands = ([], false)) as E
        by (apply eligible_empty; done). congruence. }
  destruct el as [|best rest].
  - destruct Hel as (-> & ->). simpl. split; [by rewrite <- Hiff|]. intros _.
    destruct Hf as (_ & _ & ->). split_and!; [done|done|].
    rewrite bool_decide_eq_true. by rewrite fmap_is_Some.
  - destruct Hel as (c & reason & chg & _ & _ & -> & _). simpl. rewrite <- Hiff. by split.
Qed.

(** the first selection for a destination is the candidate of least score
    among the eligible ones, ties broken by path id; it is not reported as a
    change and is remembered with the time of the round. *)
Theorem initial_selection_is_best r p d p' m :
  select r p = (Ok d, p') → ps_selection p !! rq_key r = None → selected_path d = Some m →
  changed d = false ∧
  ∃ best, best ∈ candidates d ∧ measurement best = m ∧
    ps_selection p' !! rq_key r =
      Some {| sel_path_id := path_id m; sel_score := score best; switched_at := rq_now r |} ∧
    ∀ c, c ∈ candidates d → rejection_reasons c = [] → score_le best c = true.
Proof.
  intros (cands & pm & el & fb & _ & _ & _ & Hsc & _ & He & Hel)%select_inv Hp Hs.
  destruct el as [|best rest]; [by destruct Hel as (_ & ->)|].
  destruct Hel as (c & reason & chg & Hc & Hchg & -> & ->). injection Hs as <-.
  rewrite Hp in Hc, Hchg |- *. subst chg. injection Hc as <- _. split; [done|].
  assert (best ∈ best :: rest) as Hin by constructor.
  exists best. split_and!; [by apply (eligible_elem _ _ _ _ _ He Hin)|done|by simpl; rewrite lookup_insert_eq|].
  intros c Hc Hr. apply (eligible_head _ _ _ _ _ _ He).
  apply (eligible_contains _ _ _ _ _ He Hc). by apply bool_decide_eq_true.
Qed.

Lemma choose_current t w now prev cands el best fb cur :
  find (has_id (sel_path_id prev)) el = Some cur →
  sla_state cur = "PENDING_DEGRADATION" →
  (choose t w now (Some prev) cands el best fb).1 = cur.
Proof. intros Hf Hs. simpl. unfold choose_with_previous. by rewrite Hf, Hs. Qed.

Lemma find_unique (l : list ScoredPath) pid cur :
  cur ∈ l → path_id (measurement cur) = pid →
  (∀ c, c ∈ l → path_id (measurement c) = pid → c = cur) → find (has_id pid) l = Some cur.
Proof.
  intros Hin Hid Hu. destruct (find (has_id pid) l) as [c|] eqn:E.
  - apply find_elem in E as [Hc Hp%String.eqb_eq]. by rewrite (Hu c).
  - exfalso. pose proof (find_none _ _ E cur) as Hn. rewrite <- list_elem_of_In in Hn.
    specialize (Hn Hin). unfold has_id in Hn. apply String.eqb_neq in Hn. done.
Qed.

(** The current path, when it has no rejection, is found in the eligible list. *)
Lemma current_in_eligible r p d p' cur pid el fb :
  select r p = (Ok d, p') → NoDup (map path_id (rq_measurements r)) →
  eligible_candidates (rq_sla r) (candidates d) = (el, fb) →
  cur ∈ candidates d → rejection_reasons cur = [] → path_id (measurement cur) = pid →
  find (has_id pid) el = Some cur ∧ fb = false.
Proof.
  intros H Hnd He Hin Hr Hid. pose proof H as (cands & pm & el' & fb' & _ & _ & _ & Hsc & _ & _ & Hel)%select_inv.
  assert (candidates d = cands) as Hc.
  { destruct el'; [by destruct Hel as (_ & ->)|]. by destruct Hel as (? & ? & ? & _ & _ & -> & _). }
  rewrite Hc in *. destruct (eligible_contains _ _ _ _ _ He Hin) as [Hel' ->];
    [by apply bool_decide_eq_true|]. split; [|done].
  apply find_unique; [done|done|]. intros c Hcel Hcid.
  destruct (eligible_elem _ _ _ _ _ He Hcel) as [Hcin _]. rewrite <- (scored_ids _ _ _ _ Hsc) in Hnd.
  apply (NoDup_map_inj (λ c, path_id (measurement c)) _ _ _ Hnd Hcin Hin). by rewrite Hcid, Hid.
Qed.

(** SLA hysteresis of the current path.  While the path selected before is
    still permitted and has fewer than the configured number of consecutive bad
    samples (this one included), a round in which it violates its mandatory
    thresholds keeps it and reports no change. *)
Theorem bad_sample_retains_current r p d p' prev item :
  select r p = (Ok d, p') →
  ps_selection p !! rq_key r = Some prev →
  NoDup (map path_id (rq_measurements r)) →
  item ∈ rq_measurements r → path_id item = sel_path_id prev →
  permitted (rq_allowed r) (rq_transports r) (rq_now r) (ps_stale_after p) item →
  mandatory_violations item (rq_sla r) ≠ [] →
  degraded (stored p (rq_key r, path_id item)) = false →
  (bad (stored p (rq_key r, path_id item)) + 1 < bad_samples_before_degraded (ps_tuning p))%Z →
  selected_path d = Some item ∧ changed d = false ∧ switched_at <$> (ps_selection p' !! rq_key r) = Some (switched_at prev).
Proof.
  intros H Hprev Hnd Hin Hid Hperm Hv Hdeg Hbad.
  destruct (select_candidate _ _ _ _ _ H Hnd Hin) as (c & Hc & Hm & He & _).
  unfold entry_step in He. rewrite (proj2 (immediate_nil _ _ _ _ _) Hperm) in He. destruct He as [_ He].
  rewrite Hprev, (bool_decide_true (Some _ = _)) in He by (simpl; by rewrite Hid).
  assert (Hpend : sla_verdict (sla_transition (ps_tuning p) (mandatory_violations item (rq_sla r))
      (stored p (rq_key r, path_id item))) (mandatory_violations item (rq_sla r)) true =
      {| ev_rejections := []; ev_violations := mandatory_violations item (rq_sla r);
         ev_state := "PENDING_DEGRADATION"; ev_bad := (bad (stored p (rq_key r, path_id item)) + 1)%Z;
         ev_good := 0 |}).
  { unfold sla_verdict, sla_transition. destruct (mandatory_violations item (rq_sla r)) as [|v vs]; [done|].
    simpl. rewrite Hdeg. by rewrite (proj2 (Z.leb_gt _ _)) by lia. }
  rewrite Hpend in He. unfold verdict_of in He. injection He as Hr _ Hst _ _.
  pose proof H as (cands & pm & el & fb & _ & _ & _ & Hsc & _ & Hel & Hbr)%select_inv.
  assert (candidates d = cands) as Hcs.
  { destruct el; [by destruct Hbr as (_ & ->)|]. by destruct Hbr as (? & ? & ? & _ & _ & -> & _). }
  rewrite <- Hcs in Hel.
  destruct (current_in_eligible _ _ _ _ c (sel_path_id prev) _ _ H Hnd Hel Hc Hr) as [Hfind ->];
    [by rewrite Hm|].
  destruct el as [|best rest]; [done|]. destruct Hbr as (c' & reason & chg & Hch & -> & -> & ->).
  pose proof (choose_current (ps_tuning p) (rq_weights r) (rq_now r) prev cands _ best false c Hfind Hst) as E.
  rewrite Hprev in Hch |- *. rewrite Hch in E. simpl in E. subst c'. unfold has_id.
  rewrite Hm, Hid, String.eqb_refl. simpl. by rewrite lookup_insert_eq.
Qed.

(** Anti-flap.  When the previous path is still eligible, moving to another
    path requires that it is not inside a pending degradation, that the
    hold-down since the last switch has elapsed, and that the new path's score
    improves on the current one by the configured percentage. *)
Theorem switch_is_damped r p d p' prev cur m :
  select r p = (Ok d, p') →
  ps_selection p !! rq_key r = Some prev →
  NoDup (map path_id (rq_measurements r)) →
  cur ∈ candidates d → path_id (measurement cur) = sel_path_id prev → rejection_reasons cur = [] →
  selected_path d = Some m → path_id m ≠ sel_path_id prev →
  sla_state cur ≠ "PENDING_DEGRADATION" ∧
  hold_down_seconds (ps_tuning p) <= rq_now r - switched_at prev ∧
  (∃ best, best ∈ candidates d ∧ measurement best = m ∧ score_le best cur = true ∧
     minimum_improvement_percent (ps_tuning p) <= improvement_percent cur best) ∧
  changed d = true ∧ switched_at <$> (ps_selection p' !! rq_key r) = Some (rq_now r).
Proof.
  intros H Hprev Hnd Hcin Hcid Hr Hsel Hne.
  pose proof H as (cands & pm & el & fb & _ & _ & _ & Hsc & _ & Hel & Hbr)%select_inv.
  assert (candidates d = cands) as Hcs.
  { destruct el; [by destruct Hbr as (_ & ->)|]. by destruct Hbr as (? & ? & ? & _ & _ & -> & _). }
  rewrite <- Hcs in Hel.
  destruct (current_in_eligible _ _ _ _ cur _ _ _ H Hnd Hel Hcin Hr Hcid) as [Hfind ->].
  destruct el as [|best rest]; [done|]. destruct Hbr as (c' & reason & chg & Hch & Hchg & -> & ->).
  injection Hsel as Hm. rewrite Hprev in *. subst chg. unfold has_id. rewrite Hm.
  rewrite (proj2 (String.eqb_neq _ _) Hne). simpl. rewrite lookup_insert_eq. simpl.
  unfold choose, choose_with_previous in Hch. rewrite Hfind in Hch.
  destruct (String.eqb_spec (sla_state cur) "PENDING_DEGRADATION"); [injection Hch as <- _; congruence|].
  destruct (has_id (sel_path_id prev) best); [injection Hch as <- _; congruence|].
  destruct (Qltb _ (hold_down_seconds _)) eqn:E1; [injection Hch as <- _; congruence|].
  destruct (Qltb _ (minimum_improvement_percent _)) eqn:E2; [injection Hch as <- _; congruence|].
  injection Hch as -> _. apply Qltb_false in E1, E2. split_and!; try done.
  exists c'. assert (c' ∈ c' :: rest) as Hin by constructor.
  split_and!; [by apply (eligible_elem _ _ _ _ _ Hel Hin)|done| |done].
  apply (eligible_head _ _ _ _ _ _ Hel). by apply find_elem in Hfind as [? _].
Qed.


(** bounds of the measurement window.  After any sequence of updates of a
    freshly built window, the window holds at most [loss_window_samples] losses,
    the reported loss lies in [0, 100], and the estimated available bandwidth,
    once known, lies between zero and the configured capacity. *)
Theorem window_bounds t capacity w samples s w' rtt jitter loss available :
  MetricWindow_init t capacity = Ok w →
  update (run_updates w samples) s = (w', (rtt, jitter, loss, available)) →
  (Z.of_nat (length (loss_samples w')) <= loss_window_samples t)%Z ∧
  0 <= loss ∧ loss <= 100 ∧ in_range 0 capacity available.
Proof.
  intros Hi Hu. pose proof (MetricWindow_init_wf _ _ _ Hi) as Hw.
  pose proof (run_updates_wf _ samples Hw) as Hr.
  assert (Hk : ∀ ss w0, mw_tuning (run_updates w0 ss) = mw_tuning w0 ∧
                        capacity_mbps (run_updates w0 ss) = capacity_mbps w0).
  { induction ss as [|s0 ss IH]; intros w0; simpl; [done|].
    destruct (IH (update_bandwidth (update_loss (update_rtt w0 s0) s0) s0)) as [-> ->].
    unfold update_bandwidth, update_loss, update_rtt. repeat case_match; done. }
  destruct (Hk samples w) as [Ht Hc].
  assert (mw_tuning w = t ∧ capacity_mbps w = capacity) as [Ht0 Hc0].
  { revert Hi. unfold MetricWindow_init, mbind, result_bind. repeat case_match; try done. by intros [= <-]. }
  assert (w' = (update (run_updates w samples) s).1) as Hw' by by rewrite Hu.
  pose proof (update_wf _ s Hr) as Hwf. rewrite <- Hw' in Hwf.
  unfold update in Hu. injection Hu as Hu _ _ <- <-.
  destruct (Hk [s] (run_updates w samples)) as [Ht1 Hc1]. simpl in Ht1, Hc1.
  rewrite <- Hu in Hwf |- *.
  destruct (window_loss_range (update_loss (update_rtt (run_updates w samples) s) s)) as [? ?].
  { apply update_loss_wf, update_rtt_wf, Hr. }
  destruct Hwf as [_ _ _ Hl Ha]. rewrite Hc1, Hc, Hc0 in Ha. rewrite Ht1, Ht, Ht0 in Hl. done.
Qed.

(** ** Concrete rounds: the witnesses of the properties above *)

Module Examples.
Definition tuning : SelectionTuning :=
  {| bad_samples_before_degraded := 3; good_samples_before_recovered := 5;
     minimum_improvement_percent := 15; hold_down_seconds := 10 |}.
Definition sla : ApplicationSLA :=
  {| max_rtt_ms := Some 150; max_jitter_ms := Some 30; max_loss_pct := Some 1;
     min_estimated_available_bandwidth_mbps := Some 2; no_eligible_action := FAIL_CLOSED |}.
Definition weights : ScoreWeights :=
  {| w_rtt := 30; w_jitter := 35; w_loss := 25; w_available_bandwidth := 5; w_transport_cost := 5 |}.
Definition path (pid transport : string) (at_ rtt jitter loss : Q) : PathMeasurement :=
  {| path_id := pid; pm_transport := transport; pm_egress_mode := HUB_OVERLAY; hub := Some "hub1";
     interface := "wg-" +:+ transport; configured_capacity_mbps := 50; transport_cost := 1;
     measured_at_monotonic := at_; administratively_enabled := true; operationally_reachable := true;
     rtt_ms := Some rtt; jitter_ms := Some jitter; loss_pct := Some loss;
     estimated_available_bandwidth_mbps := Some 40 |}.
Definition request (ms : list PathMeasurement) (now : Q) : Request :=
  {| rq_class := REALTIME_RTP; rq_source := "site1"; rq_destination := "10.10.20.5"; rq_policy := "hq";
     rq_allowed := [HUB_OVERLAY]; rq_transports := ["mpls"; "broadband"]; rq_measurements := ms;
     rq_sla := sla; rq_weights := weights; rq_now := now; rq_timestamp := "t" |}.
Definition fresh : PathSelector :=
  {| ps_tuning := tuning; ps_stale_after := 6; ps_selection := ∅; ps_sla_state := ∅ |}.
Definition decision (r : Request) (p : PathSelector) : PathDecision :=
  match (select r p).1 with Ok d => d | Err _ => mk_decision r [] None "" false None end.

Definition mpls (at_ rtt : Q) : PathMeasurement := path "mpls@hub1" "mpls" at_ rtt 2 0.
Definition bb (at_ rtt : Q) : PathMeasurement := path "bb@hub1" "broadband" at_ rtt 4 0.
Definition r0 : Request := request [bb 99 40; mpls 99 20] 100.
(** The current path turns bad two seconds later. *)
Definition r1 : Request := request [bb 101 40; mpls 101 200] 102.
(** Much later the other path is clearly better. *)
Definition r2 : Request := request [bb 119 10; mpls 119 90] 120.
Definition lossy : Request := request [mpls 101 200] 102.

(** The decisions and selector states of these rounds, evaluated. *)
Definition d0 : PathDecision := Eval vm_compute in decision r0 fresh.
Definition p1 : PathSelector := Eval vm_compute in (select r0 fresh).2.
Definition d1 : PathDecision := Eval vm_compute in decision r1 p1.
Definition p2 : PathSelector := Eval vm_compute in (select r1 p1).2.
Definition d2 : PathDecision := Eval vm_compute in decision r2 p1.
Definition p3 : PathSelector := Eval vm_compute in (select r2 p1).2.
Definition d_lossy : PathDecision := Eval vm_compute in decision lossy fresh.
Definition p_lossy : PathSelector := Eval vm_compute in (select lossy fresh).2.
Definition prev1 : Selection := Eval vm_compute in
  default {| sel_path_id := ""; sel_score := 0; switched_at := 0 |} (ps_selection p1 !! rq_key r0).

Lemma round0 : select r0 fresh = (Ok d0, p1).
Proof. vm_cast_no_check (eq_refl (Ok d0, p1)). Qed.
Lemma round1 : select r1 p1 = (Ok d1, p2).
Proof. vm_cast_no_check (eq_refl (Ok d1, p2)). Qed.
Lemma round2 : select r2 p1 = (Ok d2, p3).
Proof. vm_cast_no_check (eq_refl (Ok d2, p3)). Qed.
Lemma round_lossy : select lossy fresh = (Ok d_lossy, p_lossy).
Proof. vm_cast_no_check (eq_refl (Ok d_lossy, p_lossy)). Qed.
Lemma remembered1 : ps_selection p1 !! rq_key r0 = Some prev1.
Proof. vm_cast_no_check (eq_refl (Some prev1)). Qed.
End Examples.
Import Examples.

Lemma select_respects_policy_witness :
  selected_path d0 = Some (mpls 99 20) ∧
  permitted [HUB_OVERLAY] ["mpls"; "broadband"] 100 6 (mpls 99 20).
Proof.
  split; [reflexivity|].
  exact (proj2 (select_respects_policy r0 fresh d0 p1 (mpls 99 20) round0 eq_refl)).
Defined.

Lemma select_no_eligible_witness :
  selected_path d_lossy = None ∧ changed d_lossy = false ∧ ps_selection p_lossy = ∅.
Proof.
  destruct (select_no_eligible lossy fresh d_lossy p_lossy round_lossy) as [_ Hn].
  destruct (Hn eq_refl) as (_ & Hm & _). split; [reflexivity|]. split; [reflexivity|exact Hm].
Defined.

Lemma initial_selection_is_best_witness :
  changed d0 = false ∧ ∃ best, best ∈ candidates d0 ∧ measurement best = mpls 99 20.
Proof.
  destruct (initial_selection_is_best r0 fresh d0 p1 (mpls 99 20) round0)
    as (H1 & best & H2 & H3 & _); [reflexivity..|].
  split; [exact H1|]. exists best. split; assumption.
Defined.

Lemma bad_sample_retains_current_witness :
  selected_path d1 = Some (mpls 101 200) ∧ changed d1 = false.
Proof.
  destruct (bad_sample_retains_current r1 p1 d1 p2 prev1 (mpls 101 200) round1 remembered1)
    as (H1 & H2 & _).
  - apply uniqueb_true. reflexivity.
  - apply list_elem_of_In. right. left. reflexivity.
  - reflexivity.
  - apply (immediate_nil p1). vm_compute; reflexivity.
  - vm_compute. discriminate.
  - vm_cast_no_check (eq_refl false).
  - vm_cast_no_check (eq_refl Lt).
  - split; assumption.
Defined.

Lemma switch_is_damped_witness :
  selected_path d2 = Some (bb 119 10) ∧ changed d2 = true.
Proof.
  split; [reflexivity|].
  apply (switch_is_damped r2 p1 d2 p3 prev1
    (List.last (candidates d2)
       {| measurement := mpls 0 0; score := 0; rejection_reasons := []; sla_violations := [];
          sla_state := ""; bad_samples := 0; good_samples := 0 |}) (bb 119 10) round2 remembered1).
  - apply uniqueb_true. reflexivity.
  - apply list_elem_of_In. right. left. reflexivity.
  - reflexivity.
  - reflexivity.
  - reflexivity.
  - vm_compute. discriminate.
Defined.

(** Three bad samples in a row, then two good ones: still degraded. *)
Definition sample (now rtt : Q) : Request * PathMeasurement := (request [mpls now rtt] now, mpls now rtt).
Definition flapping : list (Request * PathMeasurement) :=
  [sample 0 20; sample 2 200; sample 4 200; sample 6 200; sample 8 20; sample 10 20].

Definition flapped : result (list PathDecision) * PathSelector := Eval vm_compute in
  run_rounds flapping fresh.
Definition flap_decisions : list PathDecision := match flapped.1 with Ok ds => ds | Err _ => [] end.
Lemma flapping_runs : run_rounds flapping fresh = (Ok flap_decisions, flapped.2).
Proof. vm_cast_no_check (eq_refl (Ok flap_decisions, flapped.2)). Qed.


Definition tuning_m : MeasurementTuning :=
  {| interval_seconds := 2; ewma_alpha := 3 # 10; stale_after_seconds := 6; loss_window_samples := 10 |}.
Definition probe_sample (tx rx : Z) (ts : Q) (bytes : Z) : Sample :=
  {| successful := true; s_rtt_ms := Some 20; counter_timestamp := Some ts; interface_bytes := Some bytes;
     loss_pct_sample := None; transmitted_packets := Some tx; received_packets := Some rx |}.
Definition window0 : MetricWindow :=
  {| mw_tuning := tuning_m; capacity_mbps := 50; mw_rtt_ms := None; mw_jitter_ms := None;
     available_mbps := None; previous_rtt_sample := None; loss_samples := []; last_counter := None |}.

Lemma window_bounds_witness :
  let w := run_updates window0 [probe_sample 3 3 0 0; probe_sample 3 1 2 1000000] in
  let u := update w (probe_sample 8 8 4 1000000) in
  window_loss_pct u.1 == 20 ∧ in_range 0 50 (available_mbps u.1).
Proof.
  split; [vm_compute; reflexivity|].
  refine (proj2 (proj2 (proj2 (window_bounds tuning_m 50 window0
    [probe_sample 3 3 0 0; probe_sample 3 1 2 1000000] (probe_sample 8 8 4 1000000) _ _ _ _ _ _ _)))).
  - vm_compute; reflexivity.
  - reflexivity.
Defined.

(** A tie at score zero counts as a 100% improvement: with the same, perfect
    score the selection still moves to the lexicographically smaller path. *)
Definition loss_only : ScoreWeights :=
  {| w_rtt := 0; w_jitter := 0; w_loss := 1; w_available_bandwidth := 0; w_transport_cost := 0 |}.
Definition tie_request (ms : list PathMeasurement) (now : Q) : Request :=
  {| rq_class := REALTIME_RTP; rq_source := "site1"; rq_destination := "10.10.20.5"; rq_policy := "hq";
     rq_allowed := [HUB_OVERLAY]; rq_transports := ["mpls"; "broadband"]; rq_measurements := ms;
     rq_sla := sla; rq_weights := loss_only; rq_now := now; rq_timestamp := "t" |}.

Lemma zero_score_tie_switches :
  let p := (select (tie_request [mpls 0 20] 0) fresh).2 in
  let d := decision (tie_request [mpls 20 20; bb 20 20] 20) p in
  selected_path d = Some (bb 20 20) ∧ changed d = true ∧
  forallb (λ c, Qeqb (score c) 0) (candidates d) = true.
Proof. vm_compute. split_and!; reflexivity. Qed.
