(* ===== verification/TunnelHealth.v ===== *)
(** * Tunnel health ([tunnel_health.py])

    [TunnelHealthMachine.observe] as a state-and-exception computation, and what
    the history of accepted probe samples says about the reported state. *)
From S2P Require Import Prelude.
Local Open Scope string_scope.
Local Open Scope list_scope.
Local Open Scope Q_scope.

Module TunnelState.
Inductive t := UNKNOWN | HEALTHY | SUSPECT | FAILED | RECOVERING.
#[export] Instance t_eq_dec : EqDecision t.
Proof. solve_decision. Defined.
End TunnelState.
#[export] Existing Instance TunnelState.t_eq_dec.

Record TunnelSample := {
  ts_site : string; ts_hub : string; ts_transport : string; ts_interface : string;
  wall_timestamp : Q; monotonic_timestamp : Q; probe_sequence : Z; ts_source : string;
  link_up : bool; underlay_reachable : bool; wireguard_up : bool; overlay_reachable : bool;
  handshake_age_s : option Q; ts_rtt_ms : option Q; ts_jitter_ms : option Q; ts_loss_pct : option Q
}.

Definition usable (s : TunnelSample) : bool :=
  link_up s && underlay_reachable s && wireguard_up s && overlay_reachable s.

Record TunnelHealth := {
  state : TunnelState.t; successes : Z; failures : Z; last_sequence : Z; last_reason : string;
  hold_down_until : Q; last_success_monotonic : option Q
}.

Record TunnelHealthMachine := {
  suspect_failures : Z; failed_failures : Z; recovery_successes : Z;
  hold_down_s : Q; stale_after_s : Q; health : TunnelHealth
}.

Definition thresholds_ok (suspect failed recovery : Z) (hold stale : Q) : bool :=
  (0 <? suspect)%Z && (suspect <? failed)%Z && (0 <? recovery)%Z && Qleb 0 hold && Qltb 0 stale.

Definition initial_health : TunnelHealth :=
  {| state := TunnelState.UNKNOWN; successes := 0; failures := 0; last_sequence := -1;
     last_reason := "not measured"; hold_down_until := 0; last_success_monotonic := None |}.

Definition TunnelHealthMachine_init (suspect failed recovery : Z) (hold stale : Q)
    : result TunnelHealthMachine :=
  _ ← raise_if (negb (thresholds_ok suspect failed recovery hold stale)) ValueError
        "invalid health thresholds";
  Ok {| suspect_failures := suspect; failed_failures := failed; recovery_successes := recovery;
        hold_down_s := hold; stale_after_s := stale; health := initial_health |}.

Definition set_health (m : TunnelHealthMachine) (h : TunnelHealth) : TunnelHealthMachine :=
  {| suspect_failures := suspect_failures m; failed_failures := failed_failures m;
     recovery_successes := recovery_successes m; hold_down_s := hold_down_s m;
     stale_after_s := stale_after_s m; health := h |}.

(** The state and reason after a usable sample. *)
Definition usable_next (m : TunnelHealthMachine) (succ : Z) (now : Q) : TunnelState.t * string :=
  let old := health m in
  match state old with
  | TunnelState.FAILED => (TunnelState.RECOVERING, "first usable probe after failure")
  | TunnelState.RECOVERING =>
      if (recovery_successes m <=? succ)%Z && Qleb (hold_down_until old) now
      then (TunnelState.HEALTHY, "recovery threshold and hold-down complete")
      else (TunnelState.RECOVERING, "awaiting recovery threshold or hold-down")
  | _ => (TunnelState.HEALTHY, "usable active overlay probe")
  end.

(** The state and reason after an unusable sample. *)
Definition unusable_next (m : TunnelHealthMachine) (fails : Z) : TunnelState.t * string :=
  if (failed_failures m <=? fails)%Z then (TunnelState.FAILED, "consecutive failure threshold reached")
  else if (suspect_failures m <=? fails)%Z then (TunnelState.SUSPECT, "consecutive suspect threshold reached")
  else (state (health m), "single failed observation").

Definition observe (s : TunnelSample) (now : Q) : M TunnelHealthMachine TunnelHealth :=
  m ← get;
  let old := health m in
  _ ← lift (raise_if (probe_sequence s <=? last_sequence old)%Z StaleMeasurement
              "duplicate or out-of-order probe sequence");
  _ ← lift (raise_if (Qltb (stale_after_s m) (now - monotonic_timestamp s)) StaleMeasurement
              "stale probe sample");
  let h :=
    if usable s then
      let succ := (successes old + 1)%Z in
      let '(st, reason) := usable_next m succ now in
      {| state := st; successes := succ; failures := 0; last_sequence := probe_sequence s;
         last_reason := reason; hold_down_until := hold_down_until old;
         last_success_monotonic := Some (monotonic_timestamp s) |}
    else
      let fails := (failures old + 1)%Z in
      let hold := py_max (hold_down_until old) (now + hold_down_s m) in
      let '(st, reason) := unusable_next m fails in
      {| state := st; successes := 0; failures := fails; last_sequence := probe_sequence s;
         last_reason := reason; hold_down_until := hold;
         last_success_monotonic := last_success_monotonic old |} in
  _ ← put (set_health m h);
  mret h.


(** ** The effect of one observation *)

Definition rejected (m : TunnelHealthMachine) (s : TunnelSample) (now : Q) : bool :=
  (probe_sequence s <=? last_sequence (health m))%Z ||
  Qltb (stale_after_s m) (now - monotonic_timestamp s).

Lemma observe_rejected m s now :
  rejected m s now = true → ∃ msg, observe s now m = (Err (Exn StaleMeasurement msg), m).
Proof.
  unfold rejected, observe, mbind, M_bind, get, lift, raise_if.
  destruct (probe_sequence s <=? last_sequence (health m))%Z; [by eexists|]. simpl.
  intros ->. by eexists.
Qed.

(** An accepted observation, by cases on the sample. *)
Lemma observe_accepted m s now :
  rejected m s now = false →
  ∃ h, observe s now m = (Ok h, set_health m h) ∧ last_sequence h = probe_sequence s ∧
    if usable s then
      successes h = (successes (health m) + 1)%Z ∧ failures h = 0%Z ∧
      state h = (usable_next m (successes (health m) + 1) now).1 ∧
      hold_down_until h = hold_down_until (health m)
    else
      successes h = 0%Z ∧ failures h = (failures (health m) + 1)%Z ∧
      state h = (unusable_next m (failures (health m) + 1)).1 ∧
      hold_down_until h = py_max (hold_down_until (health m)) (now + hold_down_s m).
Proof.
  unfold rejected. intros [Hs Ht]%orb_false_iff.
  unfold observe, mbind, M_bind, get, put, lift, mret, M_ret, raise_if. rewrite Hs, Ht.
  destruct (usable s).
  - destruct (usable_next _ _ _) as [st reason]. eexists. split_and!; reflexivity.
  - destruct (unusable_next _ _) as [st reason]. eexists. split_and!; reflexivity.
Qed.

(** ** Monitoring: a sequence of probes, rejected ones leave the machine alone *)

Definition probe : Type := TunnelSample * Q.

Definition step (m : TunnelHealthMachine) (x : probe) : TunnelHealthMachine := (observe x.1 x.2 m).2.

Definition monitor (m : TunnelHealthMachine) (xs : list probe) : TunnelHealthMachine := foldl step m xs.

(** Usability of the accepted probes, in order. *)
Fixpoint outcomes (m : TunnelHealthMachine) (xs : list probe) : list bool :=
  match xs with
  | [] => []
  | x :: xs' => (if rejected m x.1 x.2 then [] else [usable x.1]) ++ outcomes (step m x) xs'
  end.

Record monitored (m0 m : TunnelHealthMachine) (r : list bool) : Prop := {
  mo_thresholds : ∃ h, m = set_health m0 h;
  mo_failures : failures (health m) = Z.of_nat (lead false r);
  mo_successes : successes (health m) = Z.of_nat (lead true r);
  mo_failed : state (health m) = TunnelState.FAILED ↔ (failed_failures m0 <= failures (health m))%Z;
  mo_suspect : state (health m) = TunnelState.SUSPECT ↔
    (suspect_failures m0 <= failures (health m) < failed_failures m0)%Z
}.

Section monitoring.
Context (m0 : TunnelHealthMachine).
Context (Hthr : thresholds_ok (suspect_failures m0) (failed_failures m0) (recovery_successes m0)
                  (hold_down_s m0) (stale_after_s m0) = true).

Lemma thresholds : (0 < suspect_failures m0 < failed_failures m0)%Z ∧ (0 < recovery_successes m0)%Z.
Proof. clear - Hthr. unfold thresholds_ok in Hthr. btrue. lia. Qed.

Lemma monitored_step m x r :
  monitored m0 m r → monitored m0 (step m x) (reverse (if rejected m x.1 x.2 then [] else [usable x.1]) ++ r).
Proof.
  intros [[h ->] Hf Hs HF HS]. destruct thresholds as [Ht Hr]. destruct x as [s now]. unfold step. simpl.
  destruct (rejected (set_health m0 h) s now) eqn:E.
  - destruct (observe_rejected _ _ _ E) as [msg ->]. split; try done. by exists h.
  - destruct (observe_accepted _ _ _ E) as (h' & -> & _ & Hcase). simpl in *.
    destruct (usable s); destruct Hcase as (Hsu & Hfa & Hst & _); simpl in *.
    + split; simpl; try lia; [by exists h'| |].
      * rewrite Hst, Hfa. unfold usable_next. simpl. split; [|lia].
        destruct (state h); simpl; repeat case_match; done.
      * rewrite Hst, Hfa. unfold usable_next. simpl. split; [|lia].
        destruct (state h); simpl; repeat case_match; done.
    + split; simpl; try lia; [by exists h'| |]; rewrite Hst, Hfa; unfold unusable_next; simpl;
        destruct (Z.leb_spec (failed_failures m0) (failures h + 1)); simpl; try (split; done || lia);
        destruct (Z.leb_spec (suspect_failures m0) (failures h + 1)); simpl;
        first [rewrite HF; split; lia|rewrite HS; split; lia|split; done || lia].
Qed.

Lemma monitor_monitored xs m r :
  monitored m0 m r → monitored m0 (monitor m xs) (reverse (outcomes m xs) ++ r).
Proof.
  revert m r. induction xs as [|x xs IH]; intros m r Hm; simpl; [done|].
  rewrite reverse_app, <- (assoc_L (++)). by apply IH, monitored_step.
Qed.
End monitoring.

Lemma initial_monitored su fa re ho st m :
  TunnelHealthMachine_init su fa re ho st = Ok m →
  thresholds_ok (suspect_failures m) (failed_failures m) (recovery_successes m)
    (hold_down_s m) (stale_after_s m) = true ∧
  failed_failures m = fa ∧ suspect_failures m = su ∧ recovery_successes m = re ∧ monitored m m [].
Proof.
  unfold TunnelHealthMachine_init, raise_if, mbind, result_bind.
  destruct (thresholds_ok su fa re ho st) eqn:E; simpl; [|done]. intros [= <-]. simpl.
  split_and!; try done. unfold thresholds_ok in E. btrue.
  split; simpl; try done; [by exists initial_health|split; [done|lia]|split; [done|lia]].
Qed.

(** ** Properties *)

(** acceptance of probes.  [observe] raises [StaleMeasurement] exactly for
    a duplicate or out-of-order sequence number or a too old sample, and then
    changes nothing; otherwise it returns the health it stores, whose last
    sequence is the sample's, so accepted sequence numbers strictly increase,
    and the hold-down deadline never moves back. *)
Theorem observe_accepts m s now :
  match observe s now m with
  | (Err e, m') => rejected m s now = true ∧ exn_cls e = StaleMeasurement ∧ m' = m
  | (Ok h, m') =>
      rejected m s now = false ∧ m' = set_health m h ∧ last_sequence h = probe_sequence s ∧
      (last_sequence (health m) < last_sequence h)%Z ∧
      hold_down_until (health m) <= hold_down_until h
  end.
Proof.
  destruct (rejected m s now) eqn:E.
  - by destruct (observe_rejected _ _ _ E) as [msg ->].
  - destruct (observe_accepted _ _ _ E) as (h & -> & Hl & Hcase). split_and!; try done.
    + rewrite Hl. unfold rejected in E. apply orb_false_iff in E as [E _]. lia.
    + destruct (usable s); destruct Hcase as (_ & _ & _ & ->); [lra|].
      apply py_max_spec.
Qed.

(** Trace specification of failure detection.  After any sequence of
    probes of a freshly built machine, it is FAILED exactly when at least
    [failed_failures] most recent accepted probes were all unusable, and SUSPECT
    exactly when the trailing run of unusable probes is at least
    [suspect_failures] but shorter than that. *)
Theorem failure_detection su fa re ho st m xs :
  TunnelHealthMachine_init su fa re ho st = Ok m →
  (state (health (monitor m xs)) = TunnelState.FAILED ↔
     ∃ h, outcomes m xs = h ++ replicate (Z.to_nat fa) false) ∧
  (state (health (monitor m xs)) = TunnelState.SUSPECT ↔
     (∃ h, outcomes m xs = h ++ replicate (Z.to_nat su) false) ∧
     ¬ ∃ h, outcomes m xs = h ++ replicate (Z.to_nat fa) false).
Proof.
  intros (Hthr & <- & <- & <- & H0)%initial_monitored.
  assert (Hsuf : ∀ n, (∃ h, outcomes m xs = h ++ replicate n false) ↔
                      (n <= lead false (reverse (outcomes m xs)))%nat).
  { intros n. rewrite <- lead_prefix. split.
    - intros [h ->]. rewrite reverse_app, reverse_replicate. by exists (reverse h).
    - intros [h E]. exists (reverse h). apply (f_equal reverse) in E.
      by rewrite reverse_involutive, reverse_app, reverse_replicate in E. }
  destruct (thresholds _ Hthr) as [Ht _].
  destruct (monitor_monitored m Hthr xs m [] H0) as [_ Hf _ HF HS]. rewrite app_nil_r in Hf.
  rewrite !Hsuf, HF, HS. split; lia.
Qed.

(** recovery guard.  Observed from FAILED or RECOVERING, the machine can
    report HEALTHY only from RECOVERING, for a usable probe, once
    [recovery_successes] consecutive usable probes (this one included) have been
    accepted and the hold-down deadline has passed. *)
Theorem recovery_guard m s now h m' :
  observe s now m = (Ok h, m') →
  state (health m) = TunnelState.FAILED ∨ state (health m) = TunnelState.RECOVERING →
  state h = TunnelState.HEALTHY →
  state (health m) = TunnelState.RECOVERING ∧ usable s = true ∧
  (recovery_successes m <= successes (health m) + 1)%Z ∧ hold_down_until (health m) <= now.
Proof.
  intros H Hst Hh. pose proof (observe_accepts m s now) as Ha. rewrite H in Ha.
  destruct Ha as (E & _). destruct (observe_accepted _ _ _ E) as (h' & H' & _ & Hcase).
  rewrite H in H'. injection H' as <- ->. destruct (usable s); destruct Hcase as (_ & _ & Hs & _);
    rewrite Hh in Hs; unfold usable_next, unusable_next in Hs.
  - destruct Hst as [Hst|Hst]; rewrite Hst in Hs; [done|]. split; [done|]. split; [done|].
    destruct (recovery_successes m <=? successes (health m) + 1)%Z eqn:E1; [|done].
    destruct (Qleb (hold_down_until (health m)) now) eqn:E2; [|done].
    split; [lia|by apply Qleb_true].
  - repeat case_match; try done. simpl in Hs. destruct Hst; congruence.
Qed.

(** ** Concrete traces *)

Module Examples.
Definition sample (seq : Z) (up : bool) : TunnelSample :=
  {| ts_site := "site1"; ts_hub := "hub1"; ts_transport := "mpls"; ts_interface := "wg-h1-mpls";
     wall_timestamp := 0; monotonic_timestamp := inject_Z seq; probe_sequence := seq;
     ts_source := "probe"; link_up := true; underlay_reachable := true; wireguard_up := true;
     overlay_reachable := up; handshake_age_s := None; ts_rtt_ms := Some 20; ts_jitter_ms := Some 1;
     ts_loss_pct := Some 0 |}.
Definition machine : TunnelHealthMachine :=
  {| suspect_failures := 2; failed_failures := 4; recovery_successes := 5; hold_down_s := 30;
     stale_after_s := 6; health := initial_health |}.
(** One probe per second. *)
Definition trace (ups : list bool) : list probe :=
  imap (λ i up, (sample (Z.of_nat i) up, inject_Z (Z.of_nat i))) ups.
Definition state_after (ups : list bool) : TunnelState.t := state (health (monitor machine (trace ups))).
End Examples.
Import Examples.

Lemma failure_detection_witness :
  state (health (monitor machine (trace [true; false; false; false; false]))) = TunnelState.FAILED.
Proof.
  apply (failure_detection 2 4 5 30 6 machine); [vm_compute; reflexivity|].
  exists [true]. vm_compute. reflexivity.
Defined.

Lemma recovery_guard_witness :
  let m := set_health machine {| state := TunnelState.RECOVERING; successes := 4; failures := 0;
             last_sequence := 8; last_reason := ""; hold_down_until := 38; last_success_monotonic := None |} in
  (recovery_successes m <= 5)%Z ∧ state (health (step m (sample 40 true, 40))) = TunnelState.HEALTHY.
Proof.
  split; [|vm_compute; reflexivity].
  refine (proj1 (proj2 (proj2 (recovery_guard
    (set_health machine {| state := TunnelState.RECOVERING; successes := 4; failures := 0;
       last_sequence := 8; last_reason := ""; hold_down_until := 38; last_success_monotonic := None |})
    (sample 40 true) 40 _ _ _ _ _)))); [vm_compute; reflexivity|right; vm_compute; reflexivity|vm_compute; reflexivity].
Defined.

(** The guard protects RECOVERING only: two bad probes while recovering lead to
    SUSPECT, from which a single usable probe is HEALTHY again, one second later
    and long before the hold-down deadline. *)
Lemma recovery_bypass :
  state_after [false; false; false; false; true] = TunnelState.RECOVERING ∧
  state_after [false; false; false; false; true; false; false] = TunnelState.SUSPECT ∧
  state_after [false; false; false; false; true; false; false; true] = TunnelState.HEALTHY ∧
  Qltb 7 (hold_down_until (health (monitor machine
    (trace [false; false; false; false; true; false; false; true])))) = true.
Proof. vm_compute. split_and!; reflexivity. Qed.
