(* ===== verification/HubHealth.v ===== *)
(** * Hub aggregation ([hub_health.py])

    The health of a hub as seen from one spoke: a count of its tunnels' states,
    which never equates one failed tunnel with a lost hub. *)
From S2P Require Import Prelude TunnelHealth.
Local Open Scope string_scope.
Local Open Scope list_scope.
Local Open Scope nat_scope.

Module HubState.
Inductive t := UNKNOWN | HEALTHY | DEGRADED | UNREACHABLE | RECOVERING.
#[export] Instance t_eq_dec : EqDecision t.
Proof. solve_decision. Defined.
End HubState.
#[export] Existing Instance HubState.t_eq_dec.

Record HubHealth := {
  hh_hub : string; hub_state : HubState.t; healthy_tunnels : nat; failed_tunnels : nat;
  recovering_tunnels : nat; hh_reason : string
}.

Definition count_state (s : TunnelState.t) (l : list TunnelState.t) : nat :=
  length (List.filter (λ x, bool_decide (x = s)) l).

Definition aggregate_hub (hub : string) (tunnels : dict string TunnelHealth) : HubHealth :=
  let mk st h f r reason :=
    {| hh_hub := hub; hub_state := st; healthy_tunnels := h; failed_tunnels := f;
       recovering_tunnels := r; hh_reason := reason |} in
  if bool_decide (tunnels = []) then mk HubState.UNKNOWN 0 0 0 "no tunnel measurements"
  else
    let states := map state (dvals tunnels) in
    let healthy := count_state TunnelState.HEALTHY states in
    let failed := count_state TunnelState.FAILED states in
    let recovering := count_state TunnelState.RECOVERING states in
    if Nat.eqb failed (length states)
    then mk HubState.UNREACHABLE healthy failed recovering "all spoke-to-hub tunnels failed"
    else if negb (Nat.eqb recovering 0) && Nat.eqb healthy 0
    then mk HubState.RECOVERING healthy failed recovering "only recovering tunnels are usable candidates"
    else if Nat.eqb healthy (length states)
    then mk HubState.HEALTHY healthy failed recovering "all monitored tunnels healthy"
    else mk HubState.DEGRADED healthy failed recovering "one or more but not all tunnels are impaired".

(** ** Counting *)

Lemma count_state_all s l : count_state s l = length l ↔ Forall (λ x, x = s) l.
Proof.
  induction l as [|x l IH]; simpl; [split; [constructor|done]|].
  unfold count_state in *. simpl. case_bool_decide as E; simpl.
  - rewrite Forall_cons, <- IH. split; [intros [= ->]; done|intros [_ ->]; done].
  - split; [|by rewrite Forall_cons; intros []]. intros Hl.
    pose proof (List.filter_length_le (λ x, bool_decide (x = s)) l). lia.
Qed.

Lemma count_state_none s l : count_state s l = 0 ↔ s ∉ l.
Proof.
  induction l as [|x l IH]; simpl; [split; [intros _; apply not_elem_of_nil|done]|].
  unfold count_state in *. simpl. rewrite not_elem_of_cons. case_bool_decide as E; simpl.
  - split; [done|]. intros [? _]. congruence.
  - rewrite IH. naive_solver.
Qed.

Definition tunnel_states (tunnels : dict string TunnelHealth) : list TunnelState.t :=
  map state (dvals tunnels).

Lemma tunnel_states_nil tunnels : tunnel_states tunnels = [] ↔ tunnels = [].
Proof. unfold tunnel_states, dvals. by destruct tunnels. Qed.

(** aggregation never equates one failed tunnel with a lost hub.  A hub is
    UNREACHABLE exactly when it has tunnels and all of them failed, HEALTHY
    exactly when it has tunnels and all are healthy, RECOVERING exactly when
    none is healthy, some is recovering (not all failed), UNKNOWN exactly when
    nothing is measured, and DEGRADED in every other case. *)
Theorem aggregate_hub_spec hub tunnels :
  let st := hub_state (aggregate_hub hub tunnels) in
  let states := tunnel_states tunnels in
  (st = HubState.UNKNOWN ↔ states = []) ∧
  (st = HubState.UNREACHABLE ↔ states ≠ [] ∧ Forall (λ s, s = TunnelState.FAILED) states) ∧
  (st = HubState.HEALTHY ↔ states ≠ [] ∧ Forall (λ s, s = TunnelState.HEALTHY) states) ∧
  (st = HubState.RECOVERING ↔ TunnelState.RECOVERING ∈ states ∧ TunnelState.HEALTHY ∉ states) ∧
  (st = HubState.DEGRADED ↔
     states ≠ [] ∧ ¬ Forall (λ s, s = TunnelState.FAILED) states ∧
     ¬ Forall (λ s, s = TunnelState.HEALTHY) states ∧
     (TunnelState.RECOVERING ∈ states → TunnelState.HEALTHY ∈ states)).
Proof.
  intros st states. unfold st, aggregate_hub. clear st.
  destruct (bool_decide_reflect (tunnels = [])) as [E|E]; simpl.
  { apply tunnel_states_nil in E. unfold states. rewrite E.
    pose proof (not_elem_of_nil TunnelState.RECOVERING). naive_solver. }
  assert (Hne : states ≠ []) by (unfold states; by rewrite tunnel_states_nil).
  change (map state (dvals tunnels)) with states. clearbody states.
  destruct (Nat.eqb_spec (count_state TunnelState.FAILED states) (length states)) as [F|F];
    rewrite count_state_all in F.
  { assert (TunnelState.HEALTHY ∉ states ∧ TunnelState.RECOVERING ∉ states) as [H1 H2].
    { rewrite Forall_forall in F. split; intros H%F; done. }
    assert (¬ Forall (λ s, s = TunnelState.HEALTHY) states).
    { intros G. destruct states as [|s l]; [done|]. apply H1. inversion G; subst. constructor. }
    simpl. naive_solver. }
  destruct (Nat.eqb_spec (count_state TunnelState.RECOVERING states) 0) as [R|R];
    rewrite count_state_none in R; simpl.
  - destruct (Nat.eqb_spec (count_state TunnelState.HEALTHY states) (length states)) as [H|H];
      rewrite count_state_all in H; simpl; naive_solver.
  - destruct (Nat.eqb_spec (count_state TunnelState.HEALTHY states) 0) as [H0|H0];
      rewrite count_state_none in H0; simpl.
    + assert (TunnelState.RECOVERING ∈ states) by (by destruct (decide (TunnelState.RECOVERING ∈ states))).
      assert (¬ Forall (λ s, s = TunnelState.HEALTHY) states).
      { intros G. rewrite Forall_forall in G. by apply G in H. }
      naive_solver.
    + assert (TunnelState.RECOVERING ∈ states) by (by destruct (decide (TunnelState.RECOVERING ∈ states))).
      assert (TunnelState.HEALTHY ∈ states) by (by destruct (decide (TunnelState.HEALTHY ∈ states))).
      destruct (Nat.eqb_spec (count_state TunnelState.HEALTHY states) (length states)) as [H'|H'];
        rewrite count_state_all in H'; simpl; [|naive_solver].
      rewrite Forall_forall in H'. by apply H' in H.
Qed.
