(* ===== verification/LocalFailover.v ===== *)
(** * Local emergency route transitions ([local_failover.py])

    The versioned route slots of one edge: emergency remapping of a slot,
    drain-bounded recovery to the confirmed target, and the event log that makes
    remapping idempotent.  The lock serialises the operations, so each one is an
    atomic step on the manager's state. *)
From S2P Require Import Prelude.
Local Open Scope string_scope.
Local Open Scope list_scope.
Local Open Scope Q_scope.

Record SlotTarget := { st_hub : string; st_transport : string; st_interface : string; route_table : Z }.
#[export] Instance SlotTarget_eq_dec : EqDecision SlotTarget.
Proof. solve_decision. Defined.

Record LocalFailoverEvent := {
  event_id : string; ev_site : string; ev_slot : string; old_target : SlotTarget;
  new_target : SlotTarget; ev_reason : string; local_route_version : Z; ev_monotonic_timestamp : Q
}.

Record SlotState := {
  current : SlotTarget; previous_confirmed : SlotTarget; emergency : bool; drain_deadline : option Q
}.

Record LocalFailoverManager := {
  site : string; slots : dict string SlotState; drain_timeout_s : Q; route_version : Z;
  events : dict string LocalFailoverEvent
}.

Definition initial_slot (t : SlotTarget) : SlotState :=
  {| current := t; previous_confirmed := t; emergency := false; drain_deadline := None |}.

Definition LocalFailoverManager_init (site : string) (targets : dict string SlotTarget) (drain : Q)
    : result LocalFailoverManager :=
  _ ← raise_if (Qleb drain 0) ValueError "drain timeout must be positive";
  Ok {| site := site; slots := dmap initial_slot targets; drain_timeout_s := drain;
        route_version := 0; events := [] |}.

Definition slot_state (m : LocalFailoverManager) (slot : string) : result SlotState :=
  of_option (dget (slots m) slot) KeyError slot.

Definition target (m : LocalFailoverManager) (slot : string) : result SlotTarget :=
  current <$> slot_state m slot.
Definition slot_names (m : LocalFailoverManager) : list string := dkeys (slots m).
Definition is_emergency (m : LocalFailoverManager) (slot : string) : result bool :=
  emergency <$> slot_state m slot.
Definition previous_target (m : LocalFailoverManager) (slot : string) : result SlotTarget :=
  previous_confirmed <$> slot_state m slot.

Definition set_slot (m : LocalFailoverManager) (slot : string) (s : SlotState) : LocalFailoverManager :=
  {| site := site m; slots := dset (slots m) slot s; drain_timeout_s := drain_timeout_s m;
     route_version := route_version m; events := events m |}.

Definition bump_version (m : LocalFailoverManager) : LocalFailoverManager :=
  {| site := site m; slots := slots m; drain_timeout_s := drain_timeout_s m;
     route_version := route_version m + 1; events := events m |}.

Definition log_event (m : LocalFailoverManager) (e : LocalFailoverEvent) : LocalFailoverManager :=
  {| site := site m; slots := slots m; drain_timeout_s := drain_timeout_s m;
     route_version := route_version m; events := dset (events m) (event_id e) e |}.

Definition emergency_remap (eid slot : string) (replacement : SlotTarget) (reason : string)
    (expected_version : option Z) (now : Q) : M LocalFailoverManager LocalFailoverEvent :=
  m ← get;
  match dget (events m) eid with
  | Some e => mret e
  | None =>
      _ ← lift (raise_if (match expected_version with
                          | Some v => negb (v =? route_version m)%Z
                          | None => false end)
                  StaleRouteVersion "local route version changed before emergency transaction");
      st ← lift (slot_state m slot);
      _ ← lift (raise_if (bool_decide (current st = replacement)) ValueError
                  "emergency replacement must change target");
      let old := current st in
      let m := bump_version (set_slot m slot
                 {| current := replacement; previous_confirmed := old; emergency := true;
                    drain_deadline := None |}) in
      let e := {| event_id := eid; ev_site := site m; ev_slot := slot; old_target := old;
                  new_target := replacement; ev_reason := reason;
                  local_route_version := route_version m; ev_monotonic_timestamp := now |} in
      _ ← put (log_event m e);
      mret e
  end.

Definition begin_recovery (slot : string) (now : Q) : M LocalFailoverManager unit :=
  m ← get;
  st ← lift (slot_state m slot);
  if emergency st then
    put (set_slot m slot {| current := current st; previous_confirmed := previous_confirmed st;
                            emergency := true; drain_deadline := Some (now + drain_timeout_s m) |})
  else mret tt.

Definition complete_recovery (slot : string) (active_flows : Z) (now : Q)
    : M LocalFailoverManager (option SlotTarget) :=
  m ← get;
  st ← lift (slot_state m slot);
  match emergency st, drain_deadline st with
  | true, Some deadline =>
      if (0 <? active_flows)%Z && Qltb now deadline then mret None
      else
        let restored := previous_confirmed st in
        _ ← put (bump_version (set_slot m slot
                   {| current := restored; previous_confirmed := restored; emergency := false;
                      drain_deadline := None |}));
        mret (Some restored)
  | _, _ => mret None
  end.

(** ** Any interleaving of serialised calls *)

Inductive op :=
  | Remap (eid slot : string) (replacement : SlotTarget) (reason : string)
          (expected : option Z) (now : Q)
  | Begin (slot : string) (now : Q)
  | Complete (slot : string) (flows : Z) (now : Q).

(** The state a call leaves behind, whether it returns or raises. *)
Definition exec (m : LocalFailoverManager) (o : op) : LocalFailoverManager :=
  match o with
  | Remap eid slot r reason expected now => (emergency_remap eid slot r reason expected now m).2
  | Begin slot now => (begin_recovery slot now m).2
  | Complete slot flows now => (complete_recovery slot flows now m).2
  end.

Definition exec_all (m : LocalFailoverManager) (os : list op) : LocalFailoverManager := foldl exec m os.

(** ** Invariant *)

Definition slot_wf (s : SlotState) : Prop :=
  if emergency s then current s ≠ previous_confirmed s
  else current s = previous_confirmed s ∧ drain_deadline s = None.

(** Versions in the event log strictly increase in log order. *)
Fixpoint versions_below (bound : Z) (es : list LocalFailoverEvent) : Prop :=
  match es with
  | [] => True
  | e :: es' => (0 < local_route_version e <= bound)%Z ∧ old_target e ≠ new_target e ∧
                Forall (λ e', local_route_version e < local_route_version e')%Z es' ∧
                versions_below bound es'
  end.

Record manager_wf (m : LocalFailoverManager) : Prop := {
  wf_slots : ∀ k s, dget (slots m) k = Some s → slot_wf s;
  wf_version : (0 <= route_version m)%Z;
  wf_events : versions_below (route_version m) (dvals (events m));
  wf_ids : ∀ k e, dget (events m) k = Some e → event_id e = k
}.

Lemma versions_below_mono b b' es : (b <= b')%Z → versions_below b es → versions_below b' es.
Proof. intros Hb. induction es as [|e es IH]; simpl; [done|]. intros (? & ? & ? & ?). split_and!; try lia; auto. Qed.

Lemma versions_below_snoc b es e :
  versions_below b es → (0 <= b)%Z → local_route_version e = (b + 1)%Z → old_target e ≠ new_target e →
  versions_below (b + 1) (es ++ [e]).
Proof.
  intros H Hb Hv Hne. induction es as [|e' es IH]; simpl in *.
  - split_and!; try done; lia || constructor.
  - destruct H as (? & ? & Hall & Hes). split_and!; try done; try lia; [|by apply IH].
    apply Forall_app. split; [done|]. apply Forall_singleton. lia.
Qed.

Lemma dvals_dset_new {V} (d : dict string V) k v : dget d k = None → dvals (dset d k v) = dvals d ++ [v].
Proof.
  induction d as [|[k' v'] d IH]; simpl; [done|]. case_decide; [done|]. intros Hn. simpl. by rewrite IH.
Qed.

(** Replacing one slot by a well-formed state. *)
Lemma set_slot_wf m slot s (bump : bool) :
  manager_wf m → slot_wf s → manager_wf ((if bump then bump_version else λ x, x) (set_slot m slot s)).
Proof.
  intros [Hs Hv He Hi] Hw.
  assert (H : ∀ k s', dget (dset (slots m) slot s) k = Some s' → slot_wf s').
  { intros k s'. rewrite dget_dset. case_decide; [by intros [= <-]|apply Hs]. }
  destruct bump; split; simpl; try done; [lia|]. eapply versions_below_mono; [|done]. lia.
Qed.

(** The remap branch that changes the slot. *)
Lemma remap_inv eid slot r reason expected now m e m' :
  emergency_remap eid slot r reason expected now m = (Ok e, m') →
  dget (events m) eid = Some e ∧ m' = m ∨
  ∃ st, dget (events m) eid = None ∧ dget (slots m) slot = Some st ∧ current st ≠ r ∧
    (∀ v, expected = Some v → v = route_version m) ∧
    e = {| event_id := eid; ev_site := site m; ev_slot := slot; old_target := current st;
           new_target := r; ev_reason := reason; local_route_version := route_version m + 1;
           ev_monotonic_timestamp := now |} ∧
    m' = log_event (bump_version (set_slot m slot
           {| current := r; previous_confirmed := current st; emergency := true;
              drain_deadline := None |})) e.
Proof.
  unfold emergency_remap, mbind, M_bind, get, put, lift, mret, M_ret, raise_if, slot_state, of_option.
  destruct (dget (events m) eid) as [e0|] eqn:E; [intros [= <- <-]; by left|].
  destruct (match expected with Some v => _ | None => _ end) eqn:Ev; [done|].
  destruct (dget (slots m) slot) as [st|] eqn:Es; [|done].
  case_bool_decide as Ec; [done|]. intros [= <- <-]. right. exists st. split_and!; try done.
  intros v ->. apply negb_false_iff in Ev. lia.
Qed.

Lemma remap_err eid slot r reason expected now m e m' :
  emergency_remap eid slot r reason expected now m = (Err e, m') → m' = m.
Proof.
  unfold emergency_remap, mbind, M_bind, get, put, lift, mret, M_ret, raise_if, slot_state, of_option.
  repeat case_match; naive_solver.
Qed.

Lemma begin_inv slot now m :
  (begin_recovery slot now m).2 = m ∨
  ∃ st, dget (slots m) slot = Some st ∧ emergency st = true ∧
    (begin_recovery slot now m).2 =
      set_slot m slot {| current := current st; previous_confirmed := previous_confirmed st;
                         emergency := true; drain_deadline := Some (now + drain_timeout_s m) |}.
Proof.
  unfold begin_recovery, mbind, M_bind, get, put, lift, mret, M_ret, slot_state, of_option.
  destruct (dget (slots m) slot) as [st|]; [|by left]. destruct (emergency st) eqn:E; [right|by left].
  by exists st.
Qed.

Lemma complete_inv slot flows now m :
  (complete_recovery slot flows now m).2 = m ∨
  ∃ st deadline, dget (slots m) slot = Some st ∧ emergency st = true ∧
    drain_deadline st = Some deadline ∧ ((flows <= 0)%Z ∨ deadline <= now) ∧
    complete_recovery slot flows now m =
      (Ok (Some (previous_confirmed st)), bump_version (set_slot m slot (initial_slot (previous_confirmed st)))).
Proof.
  unfold complete_recovery, mbind, M_bind, get, put, lift, mret, M_ret, slot_state, of_option.
  destruct (dget (slots m) slot) as [st|]; [|by left]. simpl. destruct (emergency st) eqn:E; [|by left].
  destruct (drain_deadline st) as [dl|] eqn:Ed; [|by left].
  destruct ((0 <? flows)%Z && Qltb now dl) eqn:Eb; [by left|]. right. exists st, dl. split_and!; try done.
  apply andb_false_iff in Eb as [Eb|Eb]; [left; lia|right; by apply Qltb_false].
Qed.

Lemma exec_wf m o : manager_wf m → manager_wf (exec m o).
Proof.
  intros Hm. destruct o as [eid slot r reason expected now|slot now|slot flows now]; simpl.
  - destruct (emergency_remap eid slot r reason expected now m) as [[e|e] m'] eqn:E; simpl.
    + destruct (remap_inv _ _ _ _ _ _ _ _ _ E) as [[_ ->]|(st & Hn & Hs & Hc & _ & -> & ->)]; [done|].
      destruct (set_slot_wf m slot {| current := r; previous_confirmed := current st; emergency := true;
        drain_deadline := None |} true Hm) as [W1 W2 W3 W4]; [by intros ?%eq_sym|].
      destruct Hm as [_ Hv He Hi]. split; simpl in *; try done.
      * rewrite dvals_dset_new by done. by apply versions_below_snoc.
      * intros k e. rewrite dget_dset. case_decide; [by intros [= <-]|apply Hi].
    + by apply remap_err in E as ->.
  - destruct (begin_inv slot now m) as [->|(st & Hs & He & ->)]; [done|].
    apply (set_slot_wf m slot _ false Hm). pose proof (wf_slots _ Hm _ _ Hs) as Hw.
    unfold slot_wf in *. simpl. by rewrite He in Hw.
  - destruct (complete_inv slot flows now m) as [->|(st & dl & Hs & He & Hd & _ & ->)]; [done|].
    by apply (set_slot_wf m slot (initial_slot _) true Hm).
Qed.

Lemma exec_all_wf os m : manager_wf m → manager_wf (exec_all m os).
Proof. revert m. induction os as [|o os IH]; intros m Hm; simpl; [done|]. by apply IH, exec_wf. Qed.

Lemma init_wf site targets drain m : LocalFailoverManager_init site targets drain = Ok m → manager_wf m.
Proof.
  unfold LocalFailoverManager_init, raise_if, mbind, result_bind. destruct (Qleb drain 0); [done|].
  intros [= <-]. split; simpl; try done. intros k s. rewrite dget_dmap.
  destruct (dget targets k); simpl; [|done]. by intros [= <-].
Qed.

(** ** Properties *)

(** in every state reachable by any sequence of remap, begin and complete
    calls (returning or raising), a slot outside an emergency serves its
    confirmed target with no drain pending, a slot in an emergency serves a
    different target, and the event log records only real changes, with
    versions strictly increasing and never above the current route version. *)
Theorem failover_invariant site targets drain m os :
  LocalFailoverManager_init site targets drain = Ok m → manager_wf (exec_all m os).
Proof. intros H%init_wf. by apply exec_all_wf. Qed.

(** emergency remapping.  A call either replays a logged event and changes
    nothing, or raises and changes nothing, or moves exactly the named slot to
    the replacement under emergency, remembers the target it replaced as the one
    to restore, increments the route version once, and logs the event under its
    id, so that repeating the call with the same id returns the same event. *)
Theorem emergency_remap_spec eid slot r reason expected now m e m' :
  emergency_remap eid slot r reason expected now m = (Ok e, m') →
  (dget (events m) eid = Some e ∧ m' = m) ∨
  (dget (events m) eid = None ∧ (∀ v, expected = Some v → v = route_version m) ∧
   (∃ st, dget (slots m) slot = Some st ∧ old_target e = current st ∧ current st ≠ r ∧
      dget (slots m') slot = Some {| current := r; previous_confirmed := current st;
                                     emergency := true; drain_deadline := None |}) ∧
   (∀ k, k ≠ slot → dget (slots m') k = dget (slots m) k) ∧
   route_version m' = (route_version m + 1)%Z ∧ local_route_version e = route_version m' ∧
   ∀ slot' r' reason' expected' now',
     emergency_remap eid slot' r' reason' expected' now' m' = (Ok e, m')).
Proof.
  intros [?|(st & Hn & Hs & Hc & Hv & -> & ->)]%remap_inv; [by left|right].
  split_and!; try done.
  - exists st. simpl. by rewrite dget_dset_eq.
  - intros k Hk. simpl. by rewrite dget_dset_ne.
  - intros. unfold emergency_remap, mbind, M_bind, get, mret, M_ret. simpl. by rewrite dget_dset_eq.
Qed.

(** failback round trip.  From a slot outside an emergency, an emergency
    remap followed by the start and, once the flows are drained or the drain
    deadline has passed, the completion of the recovery restores the slot
    exactly as it was, returns the confirmed target, and has raised the route
    version twice; completing earlier changes nothing. *)
Theorem failback_restores eid slot r reason now t0 t1 flows m e m1 m2 st :
  manager_wf m → dget (slots m) slot = Some st → emergency st = false →
  dget (events m) eid = None →
  emergency_remap eid slot r reason None now m = (Ok e, m1) →
  begin_recovery slot t0 m1 = (Ok tt, m2) →
  if (0 <? flows)%Z && Qltb t1 (t0 + drain_timeout_s m)
  then complete_recovery slot flows t1 m2 = (Ok None, m2)
  else ∃ m3, complete_recovery slot flows t1 m2 = (Ok (Some (current st)), m3) ∧
         dget (slots m3) slot = Some st ∧ (∀ k, k ≠ slot → dget (slots m3) k = dget (slots m) k) ∧
         route_version m3 = (route_version m + 2)%Z.
Proof.
  intros Hwf Hst Hem Hnew [[? _]|(st' & _ & Hs & Hc & _ & -> & ->)]%remap_inv; [congruence|].
  rewrite Hst in Hs. injection Hs as <-.
  unfold begin_recovery, complete_recovery, mbind, M_bind, get, put, lift, mret, M_ret, slot_state, of_option.
  cbn [slots log_event bump_version set_slot]. rewrite dget_dset_eq. cbn. intros [= <-].
  cbn [slots log_event bump_version set_slot]. rewrite dget_dset_eq. cbn.
  destruct ((0 <? flows)%Z && Qltb t1 (t0 + drain_timeout_s m)); [done|]. eexists. split; [done|].
  cbn. rewrite dget_dset_eq. split_and!; [|intros k Hk; by rewrite !dget_dset_ne|lia].
  pose proof (wf_slots _ Hwf _ _ Hst) as Hw. unfold slot_wf in Hw. rewrite Hem in Hw.
  destruct st; simpl in *. destruct Hw as [<- ->]. by rewrite Hem.
Qed.

(** ** Concrete runs *)

Module Examples.
Definition h1 : SlotTarget := {| st_hub := "hub1"; st_transport := "mpls"; st_interface := "wg-h1-mpls"; route_table := 101 |}.
Definition h2 : SlotTarget := {| st_hub := "hub2"; st_transport := "mpls"; st_interface := "wg-h2-mpls"; route_table := 101 |}.
Definition h3 : SlotTarget := {| st_hub := "hub2"; st_transport := "lte"; st_interface := "wg-h2-lte"; route_table := 101 |}.
Definition manager : LocalFailoverManager :=
  {| site := "site1"; slots := [("mpls", initial_slot h1)]; drain_timeout_s := 30; route_version := 0; events := [] |}.
Definition remapped : LocalFailoverManager := exec manager (Remap "e1" "mpls" h2 "down" None 100).
Definition draining : LocalFailoverManager := exec remapped (Begin "mpls" 130).
End Examples.
Import Examples.

Lemma failover_invariant_witness : manager_wf draining ∧ route_version draining = 1%Z.
Proof.
  split; [|vm_compute; reflexivity].
  apply (failover_invariant "site1" [("mpls", h1)] 30 manager
           [Remap "e1" "mpls" h2 "down" None 100; Begin "mpls" 130]).
  vm_compute. reflexivity.
Defined.

Lemma emergency_remap_spec_witness :
  ∃ e, emergency_remap "e1" "mpls" h2 "down" (Some 0%Z) 100 manager = (Ok e, remapped) ∧
       emergency_remap "e1" "lte" h1 "again" (Some 9%Z) 500 remapped = (Ok e, remapped).
Proof.
  eexists. split; [vm_compute; reflexivity|].
  refine (match emergency_remap_spec "e1" "mpls" h2 "down" (Some 0%Z) 100 manager _ remapped _ with
          | or_introl H => _ | or_intror H => _ end).
  - vm_compute; reflexivity.
  - exfalso. destruct H as [H _]. vm_compute in H. discriminate.
  - destruct H as (_ & _ & _ & _ & _ & _ & H). apply H.
Defined.

Lemma failback_restores_witness :
  ∃ m3, complete_recovery "mpls" 7 160 draining = (Ok (Some h1), m3) ∧ dget (slots m3) "mpls" = Some (initial_slot h1).
Proof.
  destruct (failback_restores "e1" "mpls" h2 "down" 100 130 160 7 manager
    {| event_id := "e1"; ev_site := "site1"; ev_slot := "mpls"; old_target := h1; new_target := h2;
       ev_reason := "down"; local_route_version := 1; ev_monotonic_timestamp := 100 |}
    remapped draining (initial_slot h1)) as (m3 & H1 & H2 & _).
  - apply (init_wf "site1" [("mpls", h1)] 30). vm_compute. reflexivity.
  - vm_compute; reflexivity.
  - reflexivity.
  - vm_compute; reflexivity.
  - vm_compute; reflexivity.
  - vm_compute; reflexivity.
  - exists m3. split; [exact H1|exact H2].
Defined.

(** A second remap during an emergency forgets the confirmed target: recovery
    then returns to the first backup, not to the baseline. *)
Lemma second_remap_loses_baseline :
  let m := exec_all manager [Remap "e1" "mpls" h2 "down" None 100; Remap "e2" "mpls" h3 "down" None 110;
                             Begin "mpls" 130; Complete "mpls" 0 131] in
  target m "mpls" = Ok h2 ∧ is_emergency m "mpls" = Ok false.
Proof. vm_compute. split; reflexivity. Qed.
