(* ===== verification/RouteResolver.v ===== *)
(** * Edge-local target resolution ([route_resolver.py])

    [resolve] picks the first healthy target in policy order; [resolve_sla]
    hands the measured targets to the SLA selector and maps its choice back to a
    target. *)
From S2P Require Import Prelude Marks PathSelection TunnelHealth HubHealth.
Local Open Scope string_scope.
Local Open Scope list_scope.
Local Open Scope Q_scope.

Record Target := {
  t_hub : option string; t_transport : string; t_interface : string; t_egress_mode : EgressMode;
  tunnel_state : TunnelState.t; t_hub_state : option HubState.t;
  t_rtt_ms : option Q; t_jitter_ms : option Q; t_loss_pct : option Q; available_mbps : option Q;
  t_enabled : bool; t_measured_at : Q; t_capacity : Q; cost : Q
}.

#[export] Instance Q_eq_dec : EqDecision Q.
Proof. solve_decision. Defined.
#[export] Instance Target_eq_dec : EqDecision Target.
Proof. solve_decision. Defined.

Definition healthy (t : Target) : bool :=
  if decide (t_egress_mode t = HUB_OVERLAY) then
    bool_decide (tunnel_state t = TunnelState.HEALTHY) &&
    (bool_decide (t_hub_state t = Some HubState.HEALTHY) || bool_decide (t_hub_state t = Some HubState.DEGRADED))
  else bool_decide (tunnel_state t = TunnelState.HEALTHY).

Record Resolution := { r_slot : string; r_target : Target; r_reason : string }.
Record SLAResolution := { resolution : option Resolution; decision : PathDecision }.

(** [float("inf")] for a missing metric: [None] is above every rational. *)
Definition inf_leb (a b : option Q) : bool :=
  match a, b with
  | _, None => true
  | None, Some _ => false
  | Some x, Some y => Qleb x y
  end.

#[export] Instance inf_leb_total_pre : TotalPre inf_leb.
Proof.
  split.
  - intros [x|] [y|]; simpl; auto. apply total_pre.
  - intros [x|] [y|] [z|]; simpl; try done. apply trans_pre.
Qed.

Definition hub_rank (preferred standby : string) (t : Target) : Z :=
  if bool_decide (t_hub t = Some preferred) then 0%Z
  else if bool_decide (t_hub t = Some standby) then 1%Z else 2%Z.

(** The sort key of [resolve]. *)
Definition target_le (preferred standby : string) : Target → Target → bool :=
  lexb (λ a b, Z.leb (hub_rank preferred standby a) (hub_rank preferred standby b))
  (lexb (λ a b, Qleb (default 101 (t_loss_pct a)) (default 101 (t_loss_pct b)))
  (lexb (λ a b, inf_leb (t_jitter_ms a) (t_jitter_ms b))
  (lexb (λ a b, inf_leb (t_rtt_ms a) (t_rtt_ms b))
  (lexb (λ a b, Qleb (- default 0 (available_mbps a)) (- default 0 (available_mbps b)))
  (lexb (λ a b, Qleb (cost a) (cost b))
        (λ a b, String.leb (t_interface a) (t_interface b))))))).

(** [item.egress_mode is egress and item.transport == transport and item.healthy] *)
Definition matches (egress : EgressMode) (transport : string) (t : Target) : bool :=
  bool_decide (t_egress_mode t = egress) && String.eqb (t_transport t) transport && healthy t.

Definition best_for (preferred standby : string) (targets : list Target)
    (pair : EgressMode * string) : option Target :=
  head (sort_by (target_le preferred standby) (List.filter (matches pair.1 pair.2) targets)).

(** [for egress in allowed: for transport in ranked_transports] *)
Definition policy_order (allowed : list EgressMode) (ranked : list string) : list (EgressMode * string) :=
  flat_map (λ e, map (λ t, (e, t)) ranked) allowed.

Fixpoint first_some {A B} (f : A → option B) (l : list A) : option B :=
  match l with
  | [] => None
  | x :: l' => match f x with Some y => Some y | None => first_some f l' end
  end.

Definition retained (allowed : list EgressMode) (current : option Target) (hard_failure : bool) : option Target :=
  match current with
  | Some t => if healthy t && negb hard_failure && inb (t_egress_mode t) allowed then Some t else None
  | None => None
  end.

Definition resolve (slot : string) (ranked : list string) (allowed : list EgressMode)
    (preferred standby : string) (targets : list Target) (current : option Target)
    (hard_failure : bool) : result Resolution :=
  match retained allowed current hard_failure with
  | Some t => Ok {| r_slot := slot; r_target := t; r_reason := "retain healthy stable target" |}
  | None =>
      match first_some (best_for preferred standby targets) (policy_order allowed ranked) with
      | Some t => Ok {| r_slot := slot; r_target := t;
                        r_reason := "first locally healthy policy-eligible target" |}
      | None => raise LookupError ("no healthy target for route slot " +:+ slot)
      end
  end.

(** [x or y] on floats. *)
Definition or_else (x y : Q) : Q := if Qeqb x 0 then y else x.

Definition measurement_of (now : Q) (t : Target) : PathMeasurement := {|
  path_id := t_interface t; pm_transport := t_transport t; pm_egress_mode := t_egress_mode t;
  hub := t_hub t; interface := t_interface t;
  configured_capacity_mbps := or_else (t_capacity t) (py_max (default 0 (available_mbps t)) 1);
  transport_cost := cost t; measured_at_monotonic := or_else (t_measured_at t) now;
  administratively_enabled := t_enabled t; operationally_reachable := healthy t;
  rtt_ms := t_rtt_ms t; jitter_ms := t_jitter_ms t; loss_pct := t_loss_pct t;
  estimated_available_bandwidth_mbps := available_mbps t |}.

(** The selector request built from the arguments; [rq_measurements] is
    replaced by the targets' measurements. *)
Definition with_targets (r : Request) (targets : list Target) : Request :=
  {| rq_class := rq_class r; rq_source := rq_source r; rq_destination := rq_destination r;
     rq_policy := rq_policy r; rq_allowed := rq_allowed r; rq_transports := rq_transports r;
     rq_measurements := map (measurement_of (rq_now r)) targets; rq_sla := rq_sla r;
     rq_weights := rq_weights r; rq_now := rq_now r; rq_timestamp := rq_timestamp r |}.

Definition resolve_sla (r : Request) (targets : list Target) : M PathSelector SLAResolution :=
  d ← select (with_targets r targets);
  match selected_path d with
  | None => mret {| resolution := None; decision := d |}
  | Some p =>
      t ← lift (of_option
             (find (λ t, String.eqb (t_interface t) (interface p) &&
                         bool_decide (t_egress_mode t = pm_egress_mode p)) targets)
             StopIteration "");
      mret {| resolution := Some {| r_slot := class_value (rq_class r); r_target := t;
                                    r_reason := selection_reason d |};
              decision := d |}
  end.

(** ** Lemmas *)

Lemma first_some_spec {A B} (f : A → option B) l :
  match first_some f l with
  | Some y => ∃ l1 x l2, l = l1 ++ x :: l2 ∧ f x = Some y ∧ Forall (λ z, f z = None) l1
  | None => Forall (λ z, f z = None) l
  end.
Proof.
  induction l as [|x l IH]; simpl; [constructor|]. destruct (f x) as [y|] eqn:E.
  - exists [], x, l. by repeat split.
  - destruct (first_some f l) as [y|]; [|by constructor].
    destruct IH as (l1 & z & l2 & -> & Hz & Hl1). exists (x :: l1), z, l2. repeat split; try done.
    by constructor.
Qed.

Lemma policy_order_elem allowed ranked e t : (e, t) ∈ policy_order allowed ranked ↔ e ∈ allowed ∧ t ∈ ranked.
Proof.
  unfold policy_order. rewrite !list_elem_of_In, in_flat_map. split.
  - intros (e' & He & (t' & [= -> ->] & Ht)%in_map_iff). done.
  - intros [He Ht]. exists e. split; [done|]. apply in_map_iff. by exists t.
Qed.

Lemma matches_true e tr t : matches e tr t = true ↔ t_egress_mode t = e ∧ t_transport t = tr ∧ healthy t = true.
Proof.
  unfold matches. rewrite !andb_true_iff, bool_decide_eq_true, String.eqb_eq. tauto.
Qed.

Lemma best_for_spec preferred standby targets e tr :
  match best_for preferred standby targets (e, tr) with
  | Some t => t ∈ targets ∧ matches e tr t = true ∧
              ∀ t', t' ∈ targets → matches e tr t' = true → target_le preferred standby t t' = true
  | None => ∀ t, t ∈ targets → matches e tr t = false
  end.
Proof.
  unfold best_for. simpl. destruct (sort_by _ _) as [|t l] eqn:E; simpl.
  - apply sort_by_nil in E. intros t Ht. destruct (matches e tr t) eqn:Hm; [|done].
    assert (t ∈ List.filter (matches e tr) targets) as Hin by by apply filter_elem.
    rewrite E in Hin. by apply elem_of_nil in Hin.
  - apply sort_by_head in E as [Hin Hmin]; [|unfold target_le; typeclasses eauto].
    apply filter_elem in Hin as [? ?]. split_and!; try done. intros t' Ht' Hm. apply Hmin.
    by apply filter_elem.
Qed.

Definition serves (allowed : list EgressMode) (ranked : list string) (targets : list Target) (t : Target) : Prop :=
  t ∈ targets ∧ healthy t = true ∧ t_egress_mode t ∈ allowed ∧ t_transport t ∈ ranked.

(** ** Properties *)

(** [resolve] never sends traffic to an unhealthy or disallowed target, and
    fails only when it must.  It raises [LookupError] exactly when nothing can be
    retained and no target is healthy with an allowed egress mode and a ranked
    transport.  Otherwise it returns the healthy current target, or the best
    target (hub preference, then loss, jitter, RTT, bandwidth, cost, interface)
    of the first pair in policy order (egress first, then transport) that has
    any healthy target. *)
Theorem resolve_spec slot ranked allowed preferred standby targets current hard :
  match resolve slot ranked allowed preferred standby targets current hard with
  | Err e => exn_cls e = LookupError ∧ retained allowed current hard = None ∧
             ∀ t, ¬ serves allowed ranked targets t
  | Ok res =>
      r_slot res = slot ∧ healthy (r_target res) = true ∧ t_egress_mode (r_target res) ∈ allowed ∧
      (retained allowed current hard = Some (r_target res) ∨
       retained allowed current hard = None ∧ serves allowed ranked targets (r_target res) ∧
       (∀ t', t' ∈ targets → matches (t_egress_mode (r_target res)) (t_transport (r_target res)) t' = true →
          target_le preferred standby (r_target res) t' = true) ∧
       ∃ before after, policy_order allowed ranked =
           before ++ (t_egress_mode (r_target res), t_transport (r_target res)) :: after ∧
         ∀ e tr t', (e, tr) ∈ before → t' ∈ targets → matches e tr t' = false)
  end.
Proof.
  unfold resolve. destruct (retained allowed current hard) as [t|] eqn:Hr.
  - unfold retained in Hr. destruct current as [t'|]; [|done].
    destruct (healthy t') eqn:Hh; [|done]. destruct hard; [done|]. simpl in Hr.
    destruct (inb (t_egress_mode t') allowed) eqn:Ha; [|done]. injection Hr as <-. simpl.
    apply inb_true in Ha. split_and!; try done. by left.
  - pose proof (first_some_spec (best_for preferred standby targets) (policy_order allowed ranked)) as H.
    destruct (first_some _ _) as [t|]; simpl.
    + destruct H as (l1 & [e tr] & l2 & Ho & Hb & Hl1).
      pose proof (best_for_spec preferred standby targets e tr) as Hs. rewrite Hb in Hs.
      destruct Hs as (Hin & Hm & Hmin). pose proof Hm as (<- & <- & Hh)%matches_true.
      assert ((t_egress_mode t, t_transport t) ∈ policy_order allowed ranked) as Hpo
        by (rewrite Ho; apply elem_of_app; right; constructor).
      apply policy_order_elem in Hpo as [Ha Ht]. split_and!; try done. right. split_and!; try done.
      exists l1, l2. split; [done|]. intros e' tr' t' Hbef. rewrite Forall_forall in Hl1.
      specialize (Hl1 _ Hbef). pose proof (best_for_spec preferred standby targets e' tr') as Hs.
      rewrite Hl1 in Hs. apply Hs.
    + split_and!; try done. intros t (Hin & Hh & Ha & Ht). rewrite Forall_forall in H.
      specialize (H _ (proj2 (policy_order_elem _ _ _ _) (conj Ha Ht))).
      pose proof (best_for_spec preferred standby targets (t_egress_mode t) (t_transport t)) as Hs.
      rewrite H in Hs. specialize (Hs t Hin).
      assert (matches (t_egress_mode t) (t_transport t) t = true) by by apply matches_true. congruence.
Qed.

Lemma resolve_sla_sound r targets p d p' :
  select (with_targets r targets) p = (Ok d, p') → NoDup (map t_interface targets) →
  ∃ res, resolve_sla r targets p = (Ok res, p') ∧ decision res = d ∧
    match resolution res with
    | None => selected_path d = None
    | Some rr => selected_path d = Some (measurement_of (rq_now r) (r_target rr)) ∧
        serves (rq_allowed r) (rq_transports r) targets (r_target rr) ∧ t_enabled (r_target rr) = true
    end.
Proof.
  intros H Hnd. unfold resolve_sla, mbind, M_bind. rewrite H.
  destruct (selected_path d) as [m|] eqn:Hs; [|by eexists].
  pose proof (select_inv _ _ _ _ H) as (cands & pm & el & fb & _ & _ & _ & Hsc & _ & He & Hel).
  destruct el as [|best rest]; [by destruct Hel as (_ & ->)|].
  destruct Hel as (c & reason & chg & Hc & _ & -> & _). injection Hs as Hm.
  pose proof (choose_elem _ _ _ _ _ _ _ _ _ _ Hc) as Hin.
  destruct (eligible_elem _ _ _ _ _ He Hin) as [Hcand Hok].
  apply (Forall2_elem_r _ _ _ _ Hsc) in Hcand as (item & Hitem & Hscored).
  assert (permitted (rq_allowed r) (rq_transports r) (rq_now r) (ps_stale_after p) item) as [P1 P2 P3 P4 _].
  { destruct Hok as [?|[_ ?]];
      [by eapply (scored_no_rejections (with_targets r targets))|by eapply (scored_not_hard (with_targets r targets))]. }
  assert (item = m) as -> by (rewrite <- Hm; symmetry; apply Hscored).
  simpl in Hitem. apply list_elem_of_In, in_map_iff in Hitem as (t & Hmt & Ht).
  apply list_elem_of_In in Ht. subst m.
  destruct (find _ targets) as [t'|] eqn:Hf.
  - apply find_elem in Hf as [Ht' Hb]. btrue. rewrite <- Hmt in *. simpl in *.
    assert (t' = t) as ->.
    { apply (NoDup_map_inj t_interface targets); try done. by apply String.eqb_eq. }
    eexists. split; [reflexivity|]. split; [done|]. simpl. rewrite Hmt. split; [done|]. by repeat split.
  - pose proof (find_none _ _ Hf t) as Hn. rewrite <- list_elem_of_In in Hn. specialize (Hn Ht).
    rewrite <- Hmt in Hn. simpl in Hn. rewrite String.eqb_refl, bool_decide_true in Hn; done.
Qed.

(** [resolve_sla] composes the selector with the target list safely: when
    the selector decides, the look-up of its choice never runs off the end
    ([StopIteration]); with distinct interface names the resolved target is the
    very target behind the selected path, healthy, enabled and allowed by the
    destination policy, and no resolution is returned exactly when no path was
    selected. *)
Theorem resolve_sla_safe r targets p d p' :
  select (with_targets r targets) p = (Ok d, p') → NoDup (map t_interface targets) →
  ∃ res, resolve_sla r targets p = (Ok res, p') ∧ decision res = d ∧
    match resolution res with
    | None => selected_path d = None
    | Some rr => selected_path d = Some (measurement_of (rq_now r) (r_target rr)) ∧
        serves (rq_allowed r) (rq_transports r) targets (r_target rr) ∧ t_enabled (r_target rr) = true
    end.
Proof. apply resolve_sla_sound. Qed.

(** The target behind a returned resolution. *)
Lemma resolve_sla_served r targets p res v rr :
  NoDup (map t_interface targets) → resolve_sla r targets p = (Ok res, v) → resolution res = Some rr →
  serves (rq_allowed r) (rq_transports r) targets (r_target rr).
Proof.
  intros Hnd Hr Hrr. pose proof Hr as Hr0. unfold resolve_sla in Hr. apply bind_run in Hr as (d & p1 & Hd & _).
  destruct (resolve_sla_sound _ _ _ _ _ Hd Hnd) as (res' & Hr' & _ & Hs). rewrite Hr0 in Hr'.
  injection Hr' as <- _. rewrite Hrr in Hs. apply Hs.
Qed.

(** ** A concrete resolution *)

Module Examples.
Import PathSelection.Examples.
Definition tgt (ifname tr : string) (st : TunnelState.t) (rtt : Q) : Target := {|
  t_hub := Some "hub1"; t_transport := tr; t_interface := ifname; t_egress_mode := HUB_OVERLAY;
  tunnel_state := st; t_hub_state := Some HubState.DEGRADED; t_rtt_ms := Some rtt;
  t_jitter_ms := Some 2; t_loss_pct := Some 0; available_mbps := Some 40; t_enabled := true;
  t_measured_at := 99; t_capacity := 50; cost := 1 |}.
Definition targets : list Target :=
  [tgt "wg-mpls" "mpls" TunnelState.FAILED 10; tgt "wg-bb" "broadband" TunnelState.HEALTHY 30].
Definition req : Request := request [] 100.
Definition sel_decision : PathDecision := decision (with_targets req targets) fresh.
End Examples.

Lemma resolve_sla_safe_witness :
  ∃ res, (resolve_sla Examples.req Examples.targets PathSelection.Examples.fresh).1 = Ok res ∧
    r_target <$> resolution res = Some (Examples.tgt "wg-bb" "broadband" TunnelState.HEALTHY 30).
Proof.
  destruct (resolve_sla_safe Examples.req Examples.targets PathSelection.Examples.fresh
    Examples.sel_decision (select (with_targets Examples.req Examples.targets) PathSelection.Examples.fresh).2)
    as (res & H & _ & _).
  - vm_compute; reflexivity.
  - apply uniqueb_true. vm_compute; reflexivity.
  - exists res. rewrite H. split; [reflexivity|].
    apply (f_equal fst) in H. vm_compute in H. injection H as <-. vm_compute. reflexivity.
Defined.
