(* ===== verification/Enrollment.v ===== *)
(** * The zero-touch enrollment state machine ([enrollment_state.py])

    The transition table, the audited [transition] function, and what the table
    implies for histories of a device. *)
From S2P Require Import Prelude.
Local Open Scope string_scope.
Local Open Scope list_scope.

Inductive EnrollmentState :=
  | UNCLAIMED | BOOTSTRAP_NETWORK_READY | DISCOVERED | ENROLLING | AUTHENTICATED | SITE_ASSIGNED
  | HUBS_PREPARING | EDGE_CONFIGURING | VERIFYING | ACTIVE | RETRY_WAIT | PENDING_HUBS
  | PENDING_RECONCILIATION | QUARANTINED | FAILED | REVOKED.

#[export] Instance EnrollmentState_eq_dec : EqDecision EnrollmentState.
Proof. solve_decision. Defined.

Definition all_states : list EnrollmentState :=
  [UNCLAIMED; BOOTSTRAP_NETWORK_READY; DISCOVERED; ENROLLING; AUTHENTICATED; SITE_ASSIGNED;
   HUBS_PREPARING; EDGE_CONFIGURING; VERIFYING; ACTIVE; RETRY_WAIT; PENDING_HUBS;
   PENDING_RECONCILIATION; QUARANTINED; FAILED; REVOKED].

Definition state_value (s : EnrollmentState) : string :=
  match s with
  | UNCLAIMED => "UNCLAIMED" | BOOTSTRAP_NETWORK_READY => "BOOTSTRAP_NETWORK_READY"
  | DISCOVERED => "DISCOVERED" | ENROLLING => "ENROLLING" | AUTHENTICATED => "AUTHENTICATED"
  | SITE_ASSIGNED => "SITE_ASSIGNED" | HUBS_PREPARING => "HUBS_PREPARING"
  | EDGE_CONFIGURING => "EDGE_CONFIGURING" | VERIFYING => "VERIFYING" | ACTIVE => "ACTIVE"
  | RETRY_WAIT => "RETRY_WAIT" | PENDING_HUBS => "PENDING_HUBS"
  | PENDING_RECONCILIATION => "PENDING_RECONCILIATION" | QUARANTINED => "QUARANTINED"
  | FAILED => "FAILED" | REVOKED => "REVOKED"
  end.

(** [_TRANSITIONS] *)
Definition TRANSITIONS (s : EnrollmentState) : list EnrollmentState :=
  match s with
  | UNCLAIMED => [BOOTSTRAP_NETWORK_READY; QUARANTINED]
  | BOOTSTRAP_NETWORK_READY => [DISCOVERED; RETRY_WAIT; FAILED]
  | DISCOVERED => [ENROLLING; RETRY_WAIT; QUARANTINED]
  | ENROLLING => [AUTHENTICATED; RETRY_WAIT; FAILED; QUARANTINED]
  | AUTHENTICATED => [SITE_ASSIGNED; QUARANTINED]
  | SITE_ASSIGNED => [HUBS_PREPARING; PENDING_HUBS; FAILED]
  | HUBS_PREPARING => [EDGE_CONFIGURING; PENDING_HUBS; PENDING_RECONCILIATION; FAILED]
  | PENDING_HUBS => [HUBS_PREPARING; RETRY_WAIT; FAILED]
  | EDGE_CONFIGURING => [VERIFYING; RETRY_WAIT; FAILED]
  | VERIFYING => [ACTIVE; PENDING_RECONCILIATION; FAILED]
  | PENDING_RECONCILIATION => [VERIFYING; ACTIVE; RETRY_WAIT; FAILED]
  | RETRY_WAIT => [DISCOVERED; ENROLLING; HUBS_PREPARING; EDGE_CONFIGURING; FAILED]
  | ACTIVE => [PENDING_RECONCILIATION; REVOKED; FAILED]
  | FAILED => [RETRY_WAIT; QUARANTINED; REVOKED]
  | QUARANTINED => [REVOKED]
  | REVOKED => []
  end.

Record EnrollmentTransition := {
  device_id : string; et_site : option string; previous : EnrollmentState; current : EnrollmentState;
  et_reason : string; et_event_id : string; et_timestamp : string; desired_state_version : option Z
}.

Definition transition (device : string) (site : option string) (prev cur : EnrollmentState)
    (reason event_id timestamp : string) (version : option Z) : result EnrollmentTransition :=
  _ ← raise_if (negb (inb cur (TRANSITIONS prev))) InvalidEnrollmentTransition
        (state_value prev +:+ " -> " +:+ state_value cur +:+ " is invalid");
  _ ← raise_if (negb (nonempty reason) || negb (nonempty event_id)) InvalidEnrollmentTransition
        "every transition needs a reason and event identifier";
  Ok {| device_id := device; et_site := site; previous := prev; current := cur; et_reason := reason;
        et_event_id := event_id; et_timestamp := timestamp; desired_state_version := version |}.

(** ** Histories *)

Definition step (s s' : EnrollmentState) : Prop := s' ∈ TRANSITIONS s.
Definition reachable : EnrollmentState → EnrollmentState → Prop := rtc step.

(** A device's audit log: every entry was produced by [transition], each from
    the state the previous one left. *)
Inductive audited : EnrollmentState → list EnrollmentTransition → EnrollmentState → Prop :=
  | audited_nil s : audited s [] s
  | audited_cons device site s s1 reason eid ts v t l s2 :
      transition device site s s1 reason eid ts v = Ok t → audited s1 l s2 →
      audited s (t :: l) s2.

(** States reached from [seen] in one round, avoiding [bad]. *)
Definition expand (bad : EnrollmentState → bool) (seen : list EnrollmentState) : list EnrollmentState :=
  List.filter (λ s, inb s seen || existsb (λ p, inb s (TRANSITIONS p) && negb (bad s)) seen) all_states.

Fixpoint closure (fuel : nat) (bad : EnrollmentState → bool) (seen : list EnrollmentState)
    : list EnrollmentState :=
  match fuel with O => seen | S f => closure f bad (expand bad seen) end.

Lemma all_states_complete s : s ∈ all_states.
Proof. apply inb_true. by destruct s. Qed.

Lemma closure_sound fuel bad seen s :
  s ∈ closure fuel bad seen → ∃ s0, s0 ∈ seen ∧ rtc (λ a b, step a b ∧ bad b = false) s0 s.
Proof.
  revert seen. induction fuel as [|f IH]; intros seen; cbn [closure];
    [intros; exists s; split; [done|apply rtc_refl]|].
  intros (s1 & [_ H1]%filter_elem & Hr)%IH. apply orb_true_iff in H1 as [H1|H1].
  - exists s1. by apply inb_true in H1.
  - apply existsb_exists in H1 as (p & Hp & Hstep). btrue. exists p. split; [by apply list_elem_of_In|].
    eapply rtc_l; [|done]. split; [|done]. unfold step. by apply inb_true.
Qed.

Lemma closure_reachable fuel s0 s : s ∈ closure fuel (λ _, false) [s0] → reachable s0 s.
Proof.
  intros (s1 & ->%list_elem_of_singleton & Hr)%closure_sound.
  apply (rtc_subrel _ _ _ _ (λ a b H, proj1 H) Hr).
Qed.

Lemma transition_ok device site prev cur reason eid ts v t :
  transition device site prev cur reason eid ts v = Ok t ↔
  step prev cur ∧ reason ≠ "" ∧ eid ≠ "" ∧
  t = {| device_id := device; et_site := site; previous := prev; current := cur; et_reason := reason;
         et_event_id := eid; et_timestamp := ts; desired_state_version := v |}.
Proof.
  unfold transition, raise_if, mbind, result_bind, step. rewrite <- !nonempty_true, <- inb_true.
  destruct (inb cur (TRANSITIONS prev)); simpl; [|split; [done|by intros []]].
  destruct (nonempty reason), (nonempty eid); simpl; naive_solver.
Qed.

Lemma audited_reachable s l s' : audited s l s' → reachable s s'.
Proof.
  induction 1 as [s|device site s s1 reason eid ts v t l s2 Ht _ IH]; [apply rtc_refl|].
  eapply rtc_l; [|exact IH]. by apply transition_ok in Ht as [? _].
Qed.

(** ** Properties *)

(** [transition] returns exactly for a pair of the table with a reason and
    an event id, and returns the record of its arguments; every other call
    raises [InvalidEnrollmentTransition]. *)
Theorem transition_spec device site prev cur reason eid ts v :
  match transition device site prev cur reason eid ts v with
  | Ok t => cur ∈ TRANSITIONS prev ∧ reason ≠ "" ∧ eid ≠ "" ∧
      t = {| device_id := device; et_site := site; previous := prev; current := cur; et_reason := reason;
             et_event_id := eid; et_timestamp := ts; desired_state_version := v |}
  | Err e => exn_cls e = InvalidEnrollmentTransition ∧
      (cur ∉ TRANSITIONS prev ∨ reason = "" ∨ eid = "")
  end.
Proof.
  destruct (transition device site prev cur reason eid ts v) as [t|e] eqn:E.
  - by apply transition_ok in E.
  - revert E. unfold transition, raise_if, raise, mbind, result_bind.
    destruct (inb cur (TRANSITIONS prev)) eqn:Hi; simpl.
    + destruct (nonempty reason) eqn:Hr, (nonempty eid) eqn:He; simpl; try done; intros [= <-];
        (split; [done|right]); unfold nonempty in *; rewrite negb_false_iff, String.eqb_eq in *; auto.
    + intros [= <-]. split; [done|left]. by apply inb_false.
Qed.

(** enrollment histories.  Every audited history of a device ends in a state
    reachable in the table; REVOKED is final; ACTIVE is entered only from
    VERIFYING or PENDING_RECONCILIATION; a QUARANTINED device can only be
    revoked; and from every state the device can still be brought to REVOKED. *)
Theorem enrollment_lifecycle s l s' :
  audited s l s' →
  reachable s s' ∧
  (s = REVOKED → l = [] ∧ s' = REVOKED) ∧
  (s = QUARANTINED → s' = QUARANTINED ∨ s' = REVOKED) ∧
  (∀ t, t ∈ l → current t = ACTIVE → previous t = VERIFYING ∨ previous t = PENDING_RECONCILIATION) ∧
  reachable s' REVOKED.
Proof.
  intros H. split_and!.
  - by apply audited_reachable in H.
  - intros ->. inversion H as [|? ? ? ? ? ? ? ? ? ? ? Ht]; subst; [done|].
    apply transition_ok in Ht as [Hs _]. by apply elem_of_nil in Hs.
  - intros ->. apply audited_reachable in H.
    assert (Hr : ∀ x, reachable REVOKED x → x = REVOKED).
    { intros x Hx. inversion Hx as [|? ? ? Hs]; [done|]. by apply elem_of_nil in Hs. }
    inversion H as [|? y ? Hs Hy]; [by left|right]. apply Hr.
    apply list_elem_of_singleton in Hs. by subst.
  - intros t Ht Hc. clear -H Ht Hc. induction H as [|device site s s1 reason eid ts v t' l s2 Htr _ IH];
      [by apply elem_of_nil in Ht|]. apply elem_of_cons in Ht as [->|Ht]; [|by apply IH].
    apply transition_ok in Htr as (Hs & _ & _ & ->). simpl in *. subst.
    unfold step in Hs. destruct s; apply inb_true in Hs; vm_compute in Hs; (discriminate || auto).
  - assert (REVOKED ∈ closure 16 (λ _, false) [s']) as Hin by (apply inb_true; by destruct s').
    by apply closure_reachable in Hin.
Qed.

Lemma enrollment_lifecycle_witness :
  reachable UNCLAIMED DISCOVERED ∧ reachable DISCOVERED REVOKED.
Proof.
  destruct (enrollment_lifecycle UNCLAIMED
    [ {| device_id := "d"; et_site := None; previous := UNCLAIMED; current := BOOTSTRAP_NETWORK_READY;
         et_reason := "dhcp"; et_event_id := "e1"; et_timestamp := "t"; desired_state_version := None |};
      {| device_id := "d"; et_site := None; previous := BOOTSTRAP_NETWORK_READY; current := DISCOVERED;
         et_reason := "beacon"; et_event_id := "e2"; et_timestamp := "t"; desired_state_version := None |} ]
    DISCOVERED) as (H1 & _ & _ & _ & H2).
  - eapply (audited_cons "d" None _ BOOTSTRAP_NETWORK_READY "dhcp" "e1" "t" None); [reflexivity|].
    eapply (audited_cons "d" None _ DISCOVERED "beacon" "e2" "t" None); [reflexivity|]. constructor.
  - split; [exact H1|exact H2].
Defined.

(** The table lets a device become ACTIVE without ever being AUTHENTICATED:
    RETRY_WAIT, reachable before authentication, resumes directly at
    HUBS_PREPARING or EDGE_CONFIGURING. *)
Lemma active_without_authentication :
  RETRY_WAIT ∈ TRANSITIONS BOOTSTRAP_NETWORK_READY ∧
  rtc (λ a b, step a b ∧ b ≠ AUTHENTICATED) UNCLAIMED ACTIVE.
Proof.
  split; [apply inb_true; reflexivity|].
  assert (ACTIVE ∈ closure 16 (λ s, bool_decide (s = AUTHENTICATED)) [UNCLAIMED]) as Hin
    by (apply inb_true; vm_compute; reflexivity).
  apply closure_sound in Hin as (s0 & ->%list_elem_of_singleton & Hr).
  eapply rtc_subrel; [|exact Hr]. intros a b [Hs Hb%bool_decide_eq_false]. done.
Qed.
