(* ===== verification/Json.v ===== *)
(** * Parsed YAML and JSON documents

    The values the readers and services receive ([Any] in the source), with the
    Python conversions they apply to them.  Mappings have string keys.  The text
    Python prints for floats and containers is a parameter ([PyRepr]). *)
From Stdlib Require Import Ascii.
From S2P Require Import Prelude Net.
Local Open Scope string_scope.
Local Open Scope list_scope.
Local Open Scope Z_scope.

Inductive json :=
  | JNull
  | JBool (b : bool)
  | JInt (z : Z)
  | JFloat (q : Q)
  | JStr (s : string)
  | JList (l : list json)
  | JObj (d : list (string * json)).

Class PyRepr := { repr_float : Q → string; repr_container : json → string }.

(** [str(x)] *)
Definition py_str `{PyRepr} (j : json) : string :=
  match j with
  | JNull => "None"
  | JBool true => "True"
  | JBool false => "False"
  | JInt z => str_Z z
  | JFloat q => repr_float q
  | JStr s => s
  | JList _ | JObj _ => repr_container j
  end.

(** [bool(x)] *)
Definition py_truth (j : json) : bool :=
  match j with
  | JNull => false
  | JBool b => b
  | JInt z => negb (z =? 0)
  | JFloat q => negb (Qeqb q 0)
  | JStr s => nonempty s
  | JList l => negb (bool_decide (length l = 0%nat))
  | JObj d => negb (bool_decide (length d = 0%nat))
  end.

(** ** Numbers in text *)

Definition is_space (a : ascii) : bool :=
  let n := N_of_ascii a in ((9 <=? n) && (n <=? 13) || (28 <=? n) && (n <=? 32))%N.

Fixpoint lstrip (s : string) : string :=
  match s with
  | EmptyString => EmptyString
  | String a s' => if is_space a then lstrip s' else s
  end.

Fixpoint rev_string (s : string) (acc : string) : string :=
  match s with EmptyString => acc | String a s' => rev_string s' (String a acc) end.

Definition strip (s : string) : string := rev_string (lstrip (rev_string (lstrip s) "")) "".

(** Digits with single underscores between them. *)
Fixpoint digits_us (s : string) (acc : Z) (after_digit : bool) : option Z :=
  match s with
  | EmptyString => if after_digit then Some acc else None
  | String a s' =>
      match digit_of a with
      | Some d => digits_us s' (10 * acc + d) true
      | None => if Ascii.eqb a "_"%char && after_digit then digits_us s' acc false else None
      end
  end.

Definition signed {A} (parse : string → option A) (neg : A → A) (s : string) : option A :=
  match s with
  | String "-"%char s' => neg <$> parse s'
  | String "+"%char s' => parse s'
  | _ => parse s
  end.

Definition parse_int (s : string) : option Z :=
  signed (λ s, digits_us s 0 false) Z.opp (strip s).

Definition invalid_int {A} (s : string) : result A :=
  raise ValueError ("invalid literal for int() with base 10: '" +:+ s +:+ "'").

(** [int(q)]: towards zero. *)
Definition trunc (q : Q) : Z := Z.quot (Qnum q) (Zpos (Qden q)).

(** [int(x)] *)
Definition py_int (j : json) : result Z :=
  match j with
  | JInt z => Ok z
  | JBool b => Ok (if b then 1 else 0)
  | JFloat q => Ok (trunc q)
  | JStr s => match parse_int s with Some z => Ok z | None => invalid_int s end
  | JNull | JList _ | JObj _ =>
      raise TypeError "int() argument must be a string, a bytes-like object or a real number"
  end.

(** Decimal notation [12], [1.5], [.5], [2e-3]: mantissa digits and scale. *)
Fixpoint mantissa (s : string) (acc : Z) (scale : Z) (seen_dot seen_digit : bool)
    : option (Z * Z * string) :=
  match s with
  | EmptyString => if seen_digit then Some (acc, scale, "") else None
  | String a s' =>
      match digit_of a with
      | Some d => mantissa s' (10 * acc + d) (if seen_dot then scale + 1 else scale) seen_dot true
      | None =>
          if Ascii.eqb a "."%char && negb seen_dot then mantissa s' acc scale true seen_digit
          else if seen_digit then Some (acc, scale, s) else None
      end
  end.

Definition scaled (m e : Z) : Q :=
  if 0 <=? e then inject_Z (m * 10 ^ e) else Qmake m (Z.to_pos (10 ^ (- e))).

Definition parse_unsigned_float (s : string) : option Q :=
  match mantissa s 0 0 false false with
  | Some (m, sc, EmptyString) => Some (scaled m (- sc))
  | Some (m, sc, String a rest) =>
      if Ascii.eqb a "e"%char || Ascii.eqb a "E"%char then
        match signed parse_digits Z.opp rest with
        | Some e => Some (scaled m (e - sc))
        | None => None
        end
      else None
  | None => None
  end.

(** [float(text)] for finite decimal text ([inf] and [nan] have no rational). *)
Definition parse_float (s : string) : option Q := signed parse_unsigned_float Qopp (strip s).

(** [float(x)] *)
Definition py_float (j : json) : result Q :=
  match j with
  | JInt z => Ok (inject_Z z)
  | JBool b => Ok (if b then 1 else 0)%Q
  | JFloat q => Ok q
  | JStr s => of_option (parse_float s) ValueError ("could not convert string to float: '" +:+ s +:+ "'")
  | JNull | JList _ | JObj _ => raise TypeError "float() argument must be a string or a real number"
  end.

(** ** Mappings and lists *)

(** [isinstance(x, Mapping)] *)
Definition is_mapping (j : json) : bool := match j with JObj _ => true | _ => false end.
Definition is_list (j : json) : bool := match j with JList _ => true | _ => false end.

(** [dict(x)]; sequences of pairs standing for a mapping are outside the model. *)
Definition as_dict (j : json) : result (dict string json) :=
  match j with
  | JObj d => Ok d
  | JList [] | JStr "" => Ok []
  | _ => raise TypeError "object is not a mapping"
  end.

(** [x[key]] *)
Definition getitem (j : json) (k : string) : result json :=
  match j with
  | JObj d => of_option (dget d k) KeyError k
  | _ => raise TypeError "object is not subscriptable by a string"
  end.

(** [x.get(key)] and [x.get(key, default)] *)
Definition get_opt (j : json) (k : string) : result (option json) :=
  match j with
  | JObj d => Ok (dget d k)
  | _ => raise AttributeError "object has no attribute 'get'"
  end.

Definition get_default (j : json) (k : string) (default : json) : result json :=
  o ← get_opt j k; Ok (match o with Some v => v | None => default end).

(** Iterating a value: lists give their items, mappings their keys, strings
    their characters. *)
Fixpoint chars (s : string) : list json :=
  match s with EmptyString => [] | String a s' => JStr (String a EmptyString) :: chars s' end.

Definition items_of (j : json) : result (list json) :=
  match j with
  | JList l => Ok l
  | JObj d => Ok (map (λ p, JStr p.1) d)
  | JStr s => Ok (chars s)
  | _ => raise TypeError "object is not iterable"
  end.

Definition lower_char (a : ascii) : ascii :=
  let n := N_of_ascii a in
  if ((65 <=? n) && (n <=? 90))%N then ascii_of_N (n + 32) else a.

(** [s.lower()] on ASCII text *)
Fixpoint lower (s : string) : string :=
  match s with EmptyString => EmptyString | String a s' => String (lower_char a) (lower s') end.

(** ** Text of integers *)

Example int_ex : parse_int " -12_000" = Some (-12000) ∧ parse_int "1__0" = None ∧ parse_int "" = None.
Proof. by vm_compute. Qed.
Example float_ex : parse_float "2.5e-1" = Some (25 # 100)%Q ∧ parse_float "." = None.
Proof. by vm_compute. Qed.
