(* ===== verification/Model.v ===== *)
(** * The topology model ([common/model.py])

    The inventory records, the address, port and MAC derivations of
    [TopologyConfig], and [validate_config].  Field values have the types the
    dataclasses annotate; the YAML reader that builds them is in ModelParse. *)
From Stdlib Require Import Ascii.
From S2P Require Import Prelude Net Marks PathSelection.
Local Open Scope string_scope.
Local Open Scope list_scope.
Local Open Scope Z_scope.

Definition TRANSPORTS : list string := ["mpls"; "bb"; "lte"].
Definition HUBS : list string := ["hub1"; "hub2"].

Record Transport := {
  tr_name : string; tr_switch : string; dpid : Z; tr_network : network; bandwidth_mbps : Q;
  delay_ms : Q; tr_jitter_ms : Q; tr_loss_pct : Q; tr_cost : Q; internet_capable : bool;
  route_slot : Z; tr_route_table : Z
}.

Record TunnelTarget := {
  tt_hub : string; tt_transport : string; overlay_network : network; tt_route_table : Z
}.

Definition interface_name (t : TunnelTarget) : string :=
  "wg-" +:+ (if String.eqb (tt_hub t) "hub1" then "h1" else "h2") +:+ "-" +:+ tt_transport t.

Record Hub := { hub_name : string; hub_address_id : Z; hub_management_ip : addr }.

Record Site := {
  site_name : string; s_edge_node : string; address_id : Z; management_ip : addr;
  lan_network : network; lan_gateway : addr; lan_switch : string; lan_dpid : Z;
  host_name : string; host_ip : addr; preferred_hub : string; standby_hub : string;
  s_device_id : string; wireguard_index : Z; interface_suffix : string
}.

Record CloudVPC := {
  vpc_enabled : bool; vpc_switch : string; vpc_app_name : string; vpc_network : network;
  vpc_app_ip : addr; gateway_count : Z; gateway_names : list string;
  gateway_ips : dict string addr; gateway_management_ips : dict string addr;
  gateway_address_ids : dict string Z; transit_networks : dict string network
}.

Definition transit_network (v : CloudVPC) (hub gateway : string) : result network :=
  of_option (dget (transit_networks v) (hub +:+ "_" +:+ gateway)) ConfigurationError
    ("missing Cloud transit network for " +:+ hub +:+ "/" +:+ gateway).

Definition transit_ip (v : CloudVPC) (hub gateway endpoint : string) : result addr :=
  n ← transit_network v hub gateway;
  if String.eqb endpoint hub then IPv4Address (network_address n + 1)
  else if String.eqb endpoint gateway then IPv4Address (network_address n + 2)
  else raise ConfigurationError ("Cloud transit endpoint " +:+ endpoint +:+ " is not " +:+ hub
                                   +:+ " or " +:+ gateway).

Definition active_gateways (v : CloudVPC) : list string :=
  take (Z.to_nat (gateway_count v)) (gateway_names v).

Record Features := { f_data_center : bool; f_saas : bool; f_cloud_vpc : bool }.

Record Settings := {
  persistent_keepalive_s : Z; route_mark_mask : Z; terminal_mark_bit : Z; provisional_mark_bit : Z;
  emergency_mark_bit : Z; s_target_hub_mask : Z; s_hub1_bit : Z; s_hub2_bit : Z; s_egress_mask : Z;
  s_direct_internet_bit : Z; s_cloud_gateway_bit : Z; wireguard_port_start : Z; probe_interval_s : Q;
  s_suspect_failures : Z; s_failed_failures : Z; s_recovery_successes : Z; s_hold_down_s : Q;
  s_drain_timeout_s : Q; stale_measurement_s : Q; failback_mode : string
}.

Definition marks (s : Settings) : MarkLayout := {|
  route_mask := route_mark_mask s; terminal_bit := terminal_mark_bit s;
  provisional_bit := provisional_mark_bit s; emergency_bit := emergency_mark_bit s;
  target_hub_mask := s_target_hub_mask s; hub1_bit := s_hub1_bit s; hub2_bit := s_hub2_bit s;
  egress_mask := s_egress_mask s; direct_internet_bit := s_direct_internet_bit s;
  cloud_gateway_bit := s_cloud_gateway_bit s |}.

Record Controller := {
  openflow_host : string; openflow_port : Z; policy_port : Z; ztp_port : Z; edge_port : Z;
  management_address : string
}.

Record TopologyConfig := {
  cfg_source : string; edge_image : string; host_image : string; controller : Controller;
  management_network : network; management_switch : string;
  transports : dict string Transport; targets : dict (string * string) TunnelTarget;
  hubs : dict string Hub; sites : dict string Site; settings : Settings; features : Features;
  cfg_measurement : MeasurementTuning;
  application_slas : dict ApplicationClass ApplicationSLA;
  path_scoring : dict ApplicationClass ScoreWeights; path_selection : SelectionTuning;
  data_center_network : network; data_center_app_ip : addr; data_center_switch : string;
  data_center_app_name : string; data_center_hub_ips : dict string addr;
  saas_network : network; saas_ip : addr; saas_switch : string; saas_app_name : string;
  saas_gateway_name : string; saas_gateway_ip : addr; saas_transport_ips : dict string addr;
  cloud_vpc : CloudVPC; interhub_networks : dict string network
}.

Definition application_classes : list ApplicationClass :=
  [REALTIME_RTP; CENTRAL_BACKUP; SAAS_INTERACTIVE; SAAS_FILE_TRANSFER].

(** ** Accessors of [TopologyConfig] *)

Definition site_list (c : TopologyConfig) : list Site := dvals (sites c).
Definition transport_list (c : TopologyConfig) : list Transport := dvals (transports c).

Definition site_names (c : TopologyConfig) : list string := dkeys (hubs c) ++ dkeys (sites c).
Definition edge_nodes (c : TopologyConfig) : list string := map s_edge_node (site_list c).
Definition runtime_node_names (c : TopologyConfig) : list string := dkeys (hubs c) ++ edge_nodes c.

Definition logical_site (c : TopologyConfig) (value : string) : result string :=
  if dmem (sites c) value then Ok value
  else match map site_name (List.filter (λ s, String.eqb (s_edge_node s) value) (site_list c)) with
       | [name] => Ok name
       | _ => raise KeyError value
       end.

Definition get_site (c : TopologyConfig) (name : string) : result Site :=
  of_option (dget (sites c) name) KeyError name.
Definition get_transport (c : TopologyConfig) (name : string) : result Transport :=
  of_option (dget (transports c) name) KeyError name.

Definition edge_node (c : TopologyConfig) (site : string) : result string :=
  if dmem (hubs c) site then Ok site
  else name ← logical_site c site; s ← get_site c name; Ok (s_edge_node s).

Definition target (c : TopologyConfig) (hub transport : string) : result TunnelTarget :=
  of_option (dget (targets c) (hub, transport)) ConfigurationError
    ("missing target for " +:+ hub +:+ "/" +:+ transport).

(** [for hub in HUBS for transport in TRANSPORTS] *)
Definition hub_transport_pairs : list (string * string) :=
  flat_map (λ h, map (λ t, (h, t)) TRANSPORTS) HUBS.

Definition spoke_targets (c : TopologyConfig) (site : string) : result (list TunnelTarget) :=
  _ ← logical_site c site; mapM_result (λ p, target c p.1 p.2) hub_transport_pairs.

Definition transport_network (c : TopologyConfig) (transport : string) : result network :=
  tr_network <$> of_option (dget (transports c) transport) ConfigurationError
                   ("unknown transport: " +:+ transport).

Definition underlay_ip (c : TopologyConfig) (site transport : string) : result addr :=
  n ← transport_network c transport;
  id ← match dget (hubs c) site with
       | Some h => Ok (hub_address_id h)
       | None =>
           match dget (gateway_address_ids (cloud_vpc c)) site with
           | Some id => Ok id
           | None => name ← logical_site c site; s ← get_site c name; Ok (address_id s)
           end
       end;
  IPv4Address (network_address n + id).

Definition underlay_gateway_ip (c : TopologyConfig) (transport : string) : result addr :=
  n ← transport_network c transport; IPv4Address (broadcast_address n - 2).

Definition underlay_interface_cidr (c : TopologyConfig) (site transport : string) : result string :=
  a ← (if String.eqb site (saas_gateway_name c)
       then of_option (dget (saas_transport_ips c) transport) KeyError transport
       else underlay_ip c site transport);
  Ok (addr_str a +:+ "/32").

(** [f"{n:02x}"] for [n >= 0] *)
Definition hex2 (n : Z) : string :=
  if n <? 16 then "0" +:+ hex_digit n else hex_go (S (Z.to_nat (Z.log2 n))) n "".

Definition underlay_mac (c : TopologyConfig) (site transport : string) : result string :=
  identity ←
    (if String.eqb site (saas_gateway_name c) then
       a ← of_option (dget (saas_transport_ips c) transport) KeyError transport; Ok (Z.land a 0xffff)
     else match dget (hubs c) site with
          | Some h => Ok (hub_address_id h)
          | None => name ← logical_site c site; s ← get_site c name; Ok (address_id s)
          end);
  t ← get_transport c transport;
  Ok ("02:5a:" +:+ hex2 (route_slot t) +:+ ":" +:+ hex2 (Z.land (Z.shiftr identity 8) 0xff) +:+ ":"
        +:+ hex2 (Z.land identity 0xff) +:+ ":01").

Definition underlay_gateway_mac (c : TopologyConfig) (transport : string) : result string :=
  t ← get_transport c transport; Ok ("02:5a:ff:" +:+ hex2 (route_slot t) +:+ ":00:01").

Definition overlay_ip (c : TopologyConfig) (site hub transport : string) : result addr :=
  t ← target c hub transport;
  if dmem (hubs c) site then IPv4Address (network_address (overlay_network t) + 1)
  else name ← logical_site c site; s ← get_site c name;
       IPv4Address (network_address (overlay_network t) + address_id s).

(** [xs.index(x)], raising [ValueError]. *)
Fixpoint index_of (x : string) (l : list string) : result Z :=
  match l with
  | [] => raise ValueError "not in tuple"
  | y :: l' => if String.eqb x y then Ok 0 else Z.succ <$> index_of x l'
  end.

Definition wireguard_port (c : TopologyConfig) (site hub transport : string) : result Z :=
  if dmem (hubs c) site then
    h ← index_of site HUBS; t ← index_of transport TRANSPORTS;
    Ok (wireguard_port_start (settings c) + h * 64 + t)
  else
    name ← logical_site c site; s ← get_site c name;
    h ← index_of hub HUBS; t ← index_of transport TRANSPORTS;
    Ok (wireguard_port_start (settings c) + wireguard_index s * 64 + (h * 3 + t)).

Definition interhub_port (c : TopologyConfig) (hub transport : string) : result Z :=
  if negb (dmem (hubs c) hub) then raise KeyError hub
  else h ← index_of hub HUBS; t ← index_of transport TRANSPORTS;
       Ok (wireguard_port_start (settings c) + h * 64 + 3 + t).

Definition protected_private_prefixes (c : TopologyConfig) : list network :=
  map lan_network (site_list c) ++ [data_center_network c] ++
  (if vpc_enabled (cloud_vpc c) then [vpc_network (cloud_vpc c)] else []).
