(* ===== verification/ModelValidate.v ===== *)
(** * Topology validation ([validate_config] of [common/model.py])

    The checks in the order of the code, grouped by subject, each raising what
    the code raises; then what an accepted configuration guarantees to the
    components built from it. *)
From S2P Require Import Prelude Net Marks PathSelection Model.
Local Open Scope string_scope.
Local Open Scope list_scope.
Local Open Scope Z_scope.

Definition reject (bad : bool) (msg : string) : result unit := raise_if bad ConfigurationError msg.

(** [len({f(x) for x in xs}) != len(xs)] *)
Definition duplicated {A B} `{EqDecision B} (f : A → B) (l : list A) : bool := negb (uniqueb (map f l)).

Definition check_service_ports (c : TopologyConfig) : result unit :=
  _ ← reject (negb (nonempty (edge_image c)) || negb (nonempty (host_image c)))
        "edge and host Docker image names are required";
  let k := controller c in
  reject (existsb (λ p, (p <? 1) || (65535 <? p)) [openflow_port k; policy_port k; ztp_port k; edge_port k])
    "controller service ports must be between 1 and 65535".

Definition openflow_dpids (c : TopologyConfig) : list Z :=
  map dpid (transport_list c) ++ map lan_dpid (site_list c).
Definition openflow_switches (c : TopologyConfig) : list string :=
  map tr_switch (transport_list c) ++ map lan_switch (site_list c).
Definition bridge_switches (c : TopologyConfig) : list string :=
  [management_switch c; data_center_switch c; saas_switch c; vpc_switch (cloud_vpc c)].

Definition check_switches (c : TopologyConfig) : result unit :=
  _ ← reject (existsb (λ d, d <=? 0) (openflow_dpids c) || negb (uniqueb (openflow_dpids c)))
        "OpenFlow datapaths require unique positive DPIDs";
  _ ← reject (negb (uniqueb (openflow_switches c))) "OpenFlow switch names must be unique";
  reject (negb (forallb nonempty (bridge_switches c)) || negb (uniqueb (bridge_switches c))
          || existsb (λ s, inb s (openflow_switches c)) (bridge_switches c))
    "non-OpenFlow bridge names must be nonempty and distinct from OpenFlow switches".

Definition slot_marks (c : TopologyConfig) : dict string Z := dmap route_slot (transports c).

Definition check_transports (c : TopologyConfig) : result unit :=
  _ ← reject (negb (bool_decide (dkeys (transports c) = TRANSPORTS)))
        "transports must be mpls, bb, lte in deterministic order";
  _ ← reject (negb (bool_decide (dkeys (hubs c) = HUBS)) || bool_decide (sites c = []))
        "topology requires hub1/hub2 and at least one seed branch";
  _ ← reject (negb (same_setb (dkeys (targets c)) hub_transport_pairs))
        "every hub/transport target must be configured";
  _ ← validate (marks (settings c)) (slot_marks c);
  _ ← reject (negb (bool_decide (map route_slot (transport_list c) = [1; 2; 3])))
        "v4 transport ABI requires MPLS=1, Broadband=2, LTE=3";
  reject (negb (bool_decide (map tr_route_table (transport_list c) = [101; 102; 103])))
    "transport route tables must remain 101, 102, 103".

Definition check_settings (c : TopologyConfig) : result unit :=
  let s := settings c in
  let m := cfg_measurement c in
  let p := path_selection c in
  _ ← reject (negb (inb (failback_mode s) ["manual"; "after_drain"; "after_timeout"]))
        "baseline v5 supports manual, after_drain, or after_timeout failback";
  _ ← reject ((persistent_keepalive_s s <=? 0) || (wireguard_port_start s <=? 0)
              || Qleb (probe_interval_s s) 0 || (s_suspect_failures s <=? 0)
              || (s_failed_failures s <=? 0) || (s_recovery_successes s <=? 0)
              || Qleb (s_hold_down_s s) 0 || Qleb (s_drain_timeout_s s) 0 || Qleb (stale_measurement_s s) 0)
        "WireGuard, health, and recovery values must be positive";
  _ ← reject (s_failed_failures s <=? s_suspect_failures s)
        "suspect threshold must be lower than failed threshold";
  _ ← reject (negb (f_data_center (features c)) || negb (f_saas (features c)))
        "the core SD-WAN profile requires data_center and saas features";
  _ ← reject (negb (Qltb 0 (ewma_alpha m) && Qleb (ewma_alpha m) 1)) "measurement.ewma_alpha must be in (0, 1]";
  _ ← reject (Qleb (interval_seconds m) 0 || Qleb (stale_after_seconds m) (interval_seconds m)
              || (loss_window_samples m <? 2))
        "measurement interval/window/staleness values are invalid";
  reject ((bad_samples_before_degraded p <=? 0) || (good_samples_before_recovered p <=? 0)
          || Qltb (minimum_improvement_percent p) 0 || Qltb (hold_down_seconds p) 0)
    "path_selection hysteresis values are invalid".

(** [value is not None and test(value)] *)
Definition given (test : Q → bool) (o : option Q) : bool :=
  match o with Some v => test v | None => false end.

Definition check_class (c : TopologyConfig) (k : ApplicationClass) : result unit :=
  sla ← of_option (dget (application_slas c) k) KeyError (class_value k);
  _ ← reject (existsb (given (λ v, Qltb v 0))
                [max_rtt_ms sla; max_jitter_ms sla; max_loss_pct sla; min_estimated_available_bandwidth_mbps sla])
        ("negative SLA threshold for " +:+ class_value k);
  _ ← reject (given (λ v, Qltb 100 v) (max_loss_pct sla))
        ("loss SLA must be between 0 and 100 for " +:+ class_value k);
  _ ← reject (given (λ v, Qleb v 0) (min_estimated_available_bandwidth_mbps sla))
        ("bandwidth SLA must be positive for " +:+ class_value k);
  w ← of_option (dget (path_scoring c) k) KeyError (class_value k);
  weights_validate w.

Definition check_site (s : Site) : result unit :=
  _ ← reject (wireguard_index s <? 2) "branch WireGuard allocation indices must follow hub indices";
  _ ← reject (negb (in_network (lan_gateway s) (lan_network s)) || negb (in_network (host_ip s) (lan_network s)))
        "site LAN gateway and host must be in the LAN prefix";
  _ ← reject ((lan_gateway s =? host_ip s) || is_edge_address (host_ip s) (lan_network s))
        "site LAN host must be a distinct usable address";
  reject (negb (nonempty (lan_switch s)) || negb (nonempty (host_name s)))
    "every spoke requires a LAN switch and branch host name".

Definition check_sites (c : TopologyConfig) : result unit :=
  let ss := site_list c in
  _ ← reject (existsb (λ s, negb (dmem (hubs c) (preferred_hub s)) || negb (dmem (hubs c) (standby_hub s))
                            || String.eqb (preferred_hub s) (standby_hub s)) ss)
        "each spoke needs distinct known preferred and standby hubs";
  _ ← reject (duplicated s_edge_node ss) "physical WAN Edge node names must be unique";
  _ ← reject (existsb (λ s, negb (nonempty (s_edge_node s)) || dmem (hubs c) (s_edge_node s)) ss)
        "every logical site requires a distinct non-hub edge_node";
  _ ← reject (duplicated s_device_id ss) "device identities must be unique";
  _ ← reject (duplicated wireguard_index ss) "branch WireGuard allocation indices must be unique";
  _ ← iterM check_site ss;
  _ ← reject (duplicated host_name ss) "branch host names must be unique";
  reject (duplicated lan_switch ss) "branch LAN switch names must be unique".

Definition physical_names (c : TopologyConfig) : list string :=
  runtime_node_names c ++ map host_name (site_list c) ++
  [management_switch c; data_center_switch c; data_center_app_name c; saas_switch c; saas_app_name c;
   saas_gateway_name c; vpc_switch (cloud_vpc c); vpc_app_name (cloud_vpc c)] ++
  gateway_names (cloud_vpc c).

(** Inside the network and neither its first nor its last address. *)
Definition usable_in (n : network) (a : addr) : bool := in_network a n && negb (is_edge_address a n).

Definition check_endpoints (c : TopologyConfig) : result unit :=
  _ ← reject (negb (forallb nonempty (physical_names c)) || negb (uniqueb (physical_names c)))
        "physical node, application, and switch names must be nonempty and unique";
  _ ← reject (negb (usable_in (data_center_network c) (data_center_app_ip c))
              || negb (usable_in (saas_network c) (saas_ip c))
              || negb (usable_in (vpc_network (cloud_vpc c)) (vpc_app_ip (cloud_vpc c))))
        "application endpoints must be usable addresses in their configured network";
  _ ← reject (negb (usable_in (saas_network c) (saas_gateway_ip c)) || (saas_gateway_ip c =? saas_ip c))
        "Internet gateway public address must be a distinct usable address in the SaaS network";
  _ ← reject (negb (same_setb (dkeys (data_center_hub_ips c)) HUBS))
        "the Data Center LAN requires one configured address for each hub";
  let dc := dvals (data_center_hub_ips c) ++ [data_center_app_ip c] in
  _ ← reject (negb (uniqueb dc) || existsb (λ a, negb (usable_in (data_center_network c) a)) dc)
        "Data Center hub and application addresses must be unique usable addresses in the DC network";
  let internet := map fst (List.filter (λ p, internet_capable p.2) (transports c)) in
  _ ← reject (negb (same_setb (dkeys (saas_transport_ips c)) internet))
        "Internet gateway transport addresses must cover exactly the Internet-capable transports";
  iterM (λ p, t ← get_transport c p.1;
              reject (negb (usable_in (tr_network t) p.2))
                "Internet gateway transport addresses must be usable underlay addresses")
    (saas_transport_ips c).

Definition check_cloud (c : TopologyConfig) : result unit :=
  let v := cloud_vpc c in
  _ ← reject (negb (inb (gateway_count v) [1; 2])) "cloud gateway count must be one or two";
  _ ← reject (negb (Nat.eqb (length (gateway_names v)) 2) || negb (uniqueb (gateway_names v)))
        "cloud gateway inventory must define two unique gateway names";
  _ ← reject (negb (same_setb (dkeys (gateway_ips v)) (gateway_names v))
              || negb (same_setb (dkeys (gateway_management_ips v)) (gateway_names v))
              || negb (same_setb (dkeys (gateway_address_ids v)) (gateway_names v)))
        "cloud gateway address mappings must match the gateway inventory";
  let expected := flat_map (λ h, map (λ g, h +:+ "_" +:+ g) (gateway_names v)) HUBS in
  _ ← reject (negb (same_setb (dkeys (transit_networks v)) expected))
        "Cloud VPC requires exactly one dedicated transit network per hub/gateway pair";
  _ ← reject (existsb (λ n, negb (prefixlen n =? 30)) (dvals (transit_networks v)))
        "Cloud hub/gateway transit networks must be /30 point-to-point prefixes";
  let ips := dvals (gateway_ips v) ++ [vpc_app_ip v] in
  reject (negb (uniqueb ips) || existsb (λ a, negb (usable_in (vpc_network v) a)) ips)
    "Cloud VPC gateway and application addresses must be unique usable addresses in the VPC network".

Definition address_ids (c : TopologyConfig) : list Z :=
  map hub_address_id (dvals (hubs c)) ++ map address_id (site_list c) ++
  dvals (gateway_address_ids (cloud_vpc c)).

(** The loop body of the underlay check for one transport. *)
Definition check_underlay (c : TopologyConfig) (p : string * Transport) : result unit :=
  let '(name, t) := p in
  ips ← mapM_result (λ s, underlay_ip c s name) (site_names c);
  extra ← (if internet_capable t
           then a ← of_option (dget (saas_transport_ips c) name) KeyError name; Ok [a] else Ok []);
  gw ← underlay_gateway_ip c name;
  let addresses := ips ++ extra in
  _ ← reject (negb (uniqueb addresses) || existsb (λ a, negb (usable_in (tr_network t) a)) addresses)
        ("underlay addresses for " +:+ name +:+ " must be unique usable addresses");
  reject (inb gw addresses || is_edge_address gw (tr_network t))
    ("provider gateway address for " +:+ name +:+ " must be a unique usable underlay address").

Definition all_networks (c : TopologyConfig) : list network :=
  [management_network c; data_center_network c; saas_network c; vpc_network (cloud_vpc c)] ++
  map tr_network (transport_list c) ++ map overlay_network (dvals (targets c)) ++
  dvals (interhub_networks c) ++ map lan_network (site_list c) ++ dvals (transit_networks (cloud_vpc c)).

(** [for index, left in enumerate(ns): for right in ns[index + 1:]] *)
Fixpoint check_disjoint (ns : list network) : result unit :=
  match ns with
  | [] => Ok tt
  | l :: rest =>
      _ ← iterM (λ r, reject (overlaps l r)
                   ("address spaces overlap: " +:+ network_str l +:+ " and " +:+ network_str r)) rest;
      check_disjoint rest
  end.

Definition check_addresses (c : TopologyConfig) : result unit :=
  _ ← reject (existsb (λ v, v <=? 0) (address_ids c) || negb (uniqueb (address_ids c)))
        "hub, spoke, and cloud gateway address IDs must be unique and positive";
  _ ← iterM (check_underlay c) (transports c);
  _ ← reject (negb (same_setb (dkeys (interhub_networks c)) TRANSPORTS))
        "every inter-hub transport must have a network";
  check_disjoint (all_networks c).

Definition check_management (c : TopologyConfig) : result unit :=
  ci ← match ip_interface (management_address (controller c)) with
       | Ok i => Ok i
       | Err _ => raise ConfigurationError "controller management address is invalid"
       end;
  let all := map hub_management_ip (dvals (hubs c)) ++ map management_ip (site_list c) ++
             dvals (gateway_management_ips (cloud_vpc c)) ++ [fst ci] in
  reject (negb (uniqueb all) || existsb (λ a, negb (usable_in (management_network c) a)) all
          || negb (bool_decide (snd ci = management_network c)))
    "management addresses must be unique usable addresses in the configured management network".

(** [[port(site, target...) for site in sites for target in spoke_targets(site)]] *)
Definition site_ports (c : TopologyConfig) (site : string) : result (list Z) :=
  ts ← spoke_targets c site; mapM_result (λ t, wireguard_port c site (tt_hub t) (tt_transport t)) ts.

Definition wireguard_ports (c : TopologyConfig) : result (list Z) :=
  spokes ← mapM_result (site_ports c) (dkeys (sites c));
  at_hubs ← mapM_result (λ p, wireguard_port c p.1 p.1 p.2) hub_transport_pairs;
  between ← mapM_result (λ p, interhub_port c p.1 p.2) hub_transport_pairs;
  Ok (concat spokes ++ at_hubs ++ between).

Definition check_wireguard (c : TopologyConfig) : result unit :=
  ports ← wireguard_ports c;
  _ ← reject (negb (uniqueb ports) || existsb (λ p, 65535 <? p) ports)
        "WireGuard listen ports must be valid and unique per node/interface";
  _ ← reject (negb (uniqueb (map tt_route_table (dvals (targets c)))))
        "hub-specific route tables must be unique";
  m ← get_transport c "mpls";
  reject (internet_capable m) "MPLS is not Internet-capable in the baseline experiment".

Definition validate_config (c : TopologyConfig) : result unit :=
  _ ← check_service_ports c;
  _ ← check_switches c;
  _ ← check_transports c;
  _ ← check_settings c;
  _ ← iterM (check_class c) application_classes;
  _ ← check_sites c;
  _ ← check_endpoints c;
  _ ← check_cloud c;
  _ ← check_addresses c;
  _ ← check_management c;
  check_wireguard c.

(** [TopologyConfig.with_sites] *)
Definition replace_sites (c : TopologyConfig) (ss : dict string Site) : TopologyConfig := {|
  cfg_source := cfg_source c; edge_image := edge_image c; host_image := host_image c;
  controller := controller c; management_network := management_network c;
  management_switch := management_switch c; transports := transports c; targets := targets c;
  hubs := hubs c; sites := ss; settings := settings c; features := features c;
  cfg_measurement := cfg_measurement c; application_slas := application_slas c;
  path_scoring := path_scoring c; path_selection := path_selection c;
  data_center_network := data_center_network c; data_center_app_ip := data_center_app_ip c;
  data_center_switch := data_center_switch c; data_center_app_name := data_center_app_name c;
  data_center_hub_ips := data_center_hub_ips c; saas_network := saas_network c; saas_ip := saas_ip c;
  saas_switch := saas_switch c; saas_app_name := saas_app_name c;
  saas_gateway_name := saas_gateway_name c; saas_gateway_ip := saas_gateway_ip c;
  saas_transport_ips := saas_transport_ips c; cloud_vpc := cloud_vpc c;
  interhub_networks := interhub_networks c |}.

Definition with_sites (c : TopologyConfig) (ss : dict string Site) : result TopologyConfig :=
  let candidate := replace_sites c ss in
  _ ← validate_config candidate; Ok candidate.
