(* ===== verification/ModelParse.v ===== *)
(** * Reading a topology document ([config_from_mapping] of [common/model.py])

    From the parsed YAML mapping to a validated [TopologyConfig].  Dataclass
    annotations are taken at their word: where the source passes an unconverted
    value ([Settings], [Controller]), a value of another type is a [TypeError]
    at construction. *)
From S2P Require Import Prelude Net Marks PathSelection Model ModelValidate Json.
Local Open Scope string_scope.
Local Open Scope list_scope.
Local Open Scope Z_scope.

Section parse.
Context `{PyRepr}.

Definition f_str (j : json) (k : string) : result string := v ← getitem j k; Ok (py_str v).
Definition f_int (j : json) (k : string) : result Z := v ← getitem j k; py_int v.
Definition f_float (j : json) (k : string) : result Q := v ← getitem j k; py_float v.
Definition f_bool (j : json) (k : string) : result bool := v ← getitem j k; Ok (py_truth v).

(** [_network] and [_address]: a [ValueError] becomes a [ConfigurationError]. *)
Definition network_of (v : json) (field : string) : result network :=
  match ip_network (py_str v) with
  | Ok n => Ok n
  | Err _ => raise ConfigurationError ("invalid " +:+ field +:+ ": " +:+ py_str v)
  end.

Definition address_of (v : json) (field : string) : result addr :=
  match ip_address (py_str v) with
  | Ok a => Ok a
  | Err _ => raise ConfigurationError ("invalid " +:+ field +:+ ": " +:+ py_str v)
  end.

Definition f_net (j : json) (k field : string) : result network := v ← getitem j k; network_of v field.
Definition f_addr (j : json) (k field : string) : result addr := v ← getitem j k; address_of v field.

(** [{str(name): f(name, value) for name, value in dict(j).items()}] *)
Definition dict_comp {V} (f : string → json → result V) (j : json) : result (dict string V) :=
  d ← as_dict j; mapM_result (λ p, v ← f p.1 p.2; Ok (p.1, v)) d.

(** [Cls( **mapping )]: the keywords are exactly the fields. *)
Definition keywords (fields : list string) (j : json) : result json :=
  d ← as_dict j;
  if same_setb (dkeys d) fields then Ok (JObj d) else raise TypeError "unexpected keyword argument".

Definition typed_int (j : json) (k : string) : result Z :=
  v ← getitem j k; match v with JInt z => Ok z | _ => raise TypeError k end.
Definition typed_str (j : json) (k : string) : result string :=
  v ← getitem j k; match v with JStr s => Ok s | _ => raise TypeError k end.
Definition typed_num (j : json) (k : string) : result Q :=
  v ← getitem j k; match v with JInt z => Ok (inject_Z z) | JFloat q => Ok q | _ => raise TypeError k end.

Definition read_controller (j : json) : result Controller :=
  j ← keywords ["openflow_host"; "openflow_port"; "policy_port"; "ztp_port"; "edge_port"; "management_address"] j;
  h ← typed_str j "openflow_host"; p1 ← typed_int j "openflow_port"; p2 ← typed_int j "policy_port";
  p3 ← typed_int j "ztp_port"; p4 ← typed_int j "edge_port"; a ← typed_str j "management_address";
  Ok {| openflow_host := h; openflow_port := p1; policy_port := p2; ztp_port := p3; edge_port := p4;
        management_address := a |}.

Definition settings_fields : list string :=
  ["persistent_keepalive_s"; "route_mark_mask"; "terminal_mark_bit"; "provisional_mark_bit";
   "emergency_mark_bit"; "target_hub_mask"; "hub1_bit"; "hub2_bit"; "egress_mask"; "direct_internet_bit";
   "cloud_gateway_bit"; "wireguard_port_start"; "probe_interval_s"; "suspect_failures"; "failed_failures";
   "recovery_successes"; "hold_down_s"; "drain_timeout_s"; "stale_measurement_s"; "failback_mode"].

Definition read_settings (j : json) : result Settings :=
  j ← keywords settings_fields j;
  ka ← typed_int j "persistent_keepalive_s"; rm ← typed_int j "route_mark_mask";
  tb ← typed_int j "terminal_mark_bit"; pb ← typed_int j "provisional_mark_bit";
  eb ← typed_int j "emergency_mark_bit"; hm ← typed_int j "target_hub_mask";
  b1 ← typed_int j "hub1_bit"; b2 ← typed_int j "hub2_bit"; em ← typed_int j "egress_mask";
  di ← typed_int j "direct_internet_bit"; cg ← typed_int j "cloud_gateway_bit";
  wp ← typed_int j "wireguard_port_start"; pi ← typed_num j "probe_interval_s";
  su ← typed_int j "suspect_failures"; fa ← typed_int j "failed_failures";
  re ← typed_int j "recovery_successes"; hd ← typed_num j "hold_down_s";
  dt ← typed_num j "drain_timeout_s"; sm ← typed_num j "stale_measurement_s";
  fm ← typed_str j "failback_mode";
  Ok {| persistent_keepalive_s := ka; route_mark_mask := rm; terminal_mark_bit := tb;
        provisional_mark_bit := pb; emergency_mark_bit := eb; s_target_hub_mask := hm; s_hub1_bit := b1;
        s_hub2_bit := b2; s_egress_mask := em; s_direct_internet_bit := di; s_cloud_gateway_bit := cg;
        wireguard_port_start := wp; probe_interval_s := pi; s_suspect_failures := su;
        s_failed_failures := fa; s_recovery_successes := re; s_hold_down_s := hd;
        s_drain_timeout_s := dt; stale_measurement_s := sm; failback_mode := fm |}.

Definition read_transport (name : string) (item : json) : result Transport :=
  sw ← f_str item "switch"; dp ← f_int item "dpid";
  n ← f_net item "network" ("transports." +:+ name +:+ ".network");
  bw ← f_float item "bandwidth_mbps"; de ← f_float item "delay_ms"; ji ← f_float item "jitter_ms";
  lo ← f_float item "loss_pct"; co ← f_float item "cost"; ic ← f_bool item "internet_capable";
  rs ← f_int item "route_slot"; rt ← f_int item "route_table";
  Ok {| tr_name := name; tr_switch := sw; dpid := dp; tr_network := n; bandwidth_mbps := bw;
        delay_ms := de; tr_jitter_ms := ji; tr_loss_pct := lo; tr_cost := co; internet_capable := ic;
        route_slot := rs; tr_route_table := rt |}.

Definition read_target (hub transport : string) (item : json) : result TunnelTarget :=
  n ← f_net item "overlay_network" ("hub_targets." +:+ hub +:+ "." +:+ transport +:+ ".overlay_network");
  rt ← f_int item "route_table";
  Ok {| tt_hub := hub; tt_transport := transport; overlay_network := n; tt_route_table := rt |}.

(** The two nested loops filling [targets]. *)
Definition read_targets (j : json) : result (dict (string * string) TunnelTarget) :=
  outer ← as_dict j;
  foldM (λ acc hub,
    inner ← as_dict hub.2;
    foldM (λ acc p, t ← read_target hub.1 p.1 p.2; Ok (dset acc (hub.1, p.1) t)) acc inner) [] outer.

Definition read_hub (name : string) (item : json) : result Hub :=
  id ← f_int item "address_id"; ip ← f_addr item "management_ip" ("hubs." +:+ name +:+ ".management_ip");
  Ok {| hub_name := name; hub_address_id := id; hub_management_ip := ip |}.

Definition read_site (index : Z) (name : string) (item : json) : result Site :=
  let at_ k := ("spokes." +:+ name +:+ "." +:+ k)%string in
  en ← get_default item "edge_node" (JStr name); id ← f_int item "address_id";
  mi ← f_addr item "management_ip" (at_ "management_ip"); ln ← f_net item "lan_network" (at_ "lan_network");
  lg ← f_addr item "lan_gateway" (at_ "lan_gateway"); ls ← f_str item "lan_switch";
  ld ← f_int item "lan_dpid"; hn ← f_str item "host_name"; hi ← f_addr item "host_ip" (at_ "host_ip");
  ph ← f_str item "preferred_hub"; sh ← f_str item "standby_hub"; di ← f_str item "device_id";
  wi ← get_default item "wireguard_index" (JInt (2 + index)); wi ← py_int wi;
  sf ← get_default item "interface_suffix" (JStr ("n" +:+ str_Z (index + 1)));
  Ok {| site_name := name; s_edge_node := py_str en; address_id := id; management_ip := mi;
        lan_network := ln; lan_gateway := lg; lan_switch := ls; lan_dpid := ld; host_name := hn;
        host_ip := hi; preferred_hub := ph; standby_hub := sh; s_device_id := di;
        wireguard_index := wi; interface_suffix := py_str sf |}.

Definition read_sites (j : json) : result (dict string Site) :=
  d ← as_dict j;
  mapM_result (λ x, s ← read_site (fst x) (snd x).1 (snd x).2; Ok ((snd x).1, s)) (imap (λ i p, (Z.of_nat i, p)) d).

(** [float(d.get(k, default))] and [int(d.get(k, default))] *)
Definition d_float (d : json) (k : string) (default : Q) : result Q :=
  v ← get_default d k (JFloat default); py_float v.
Definition d_int (d : json) (k : string) (default : Z) : result Z :=
  v ← get_default d k (JInt default); py_int v.

(** [float(item[k]) if item.get(k) is not None else None] *)
Definition o_float (d : json) (k : string) : result (option Q) :=
  v ← get_opt d k;
  match v with None | Some JNull => Ok None | Some x => q ← py_float x; Ok (Some q) end.

Definition no_eligible_of (s : string) : result NoEligibleAction :=
  of_option (find (λ a, String.eqb (no_eligible_value a) s) [BEST_EFFORT; FAIL_CLOSED]) ValueError
    ("'" +:+ s +:+ "' is not a valid NoEligibleAction").

Definition read_sla (j : json) : result ApplicationSLA :=
  d ← as_dict j; let item := JObj d in
  r ← o_float item "max_rtt_ms"; ji ← o_float item "max_jitter_ms"; l ← o_float item "max_loss_pct";
  b ← o_float item "min_estimated_available_bandwidth_mbps";
  a ← f_str item "no_eligible_action"; a ← no_eligible_of a;
  Ok {| max_rtt_ms := r; max_jitter_ms := ji; max_loss_pct := l;
        min_estimated_available_bandwidth_mbps := b; no_eligible_action := a |}.

Definition read_weights (j : json) : result ScoreWeights :=
  d ← as_dict j; let item := JObj d in
  r ← d_float item "rtt" 0; ji ← d_float item "jitter" 0; l ← d_float item "loss" 0;
  b ← d_float item "available_bandwidth" 0; t ← d_float item "transport_cost" 0;
  Ok {| w_rtt := r; w_jitter := ji; w_loss := l; w_available_bandwidth := b; w_transport_cost := t |}.

(** The loop over [ApplicationClass]. *)
Definition read_classes (sla_raw score_raw : json)
    : result (dict ApplicationClass ApplicationSLA * dict ApplicationClass ScoreWeights) :=
  foldM (λ acc k,
    match get_opt sla_raw (class_value k), get_opt score_raw (class_value k) with
    | Ok (Some s), Ok (Some w) =>
        sla ← read_sla s; weights ← read_weights w;
        Ok (dset acc.1 k sla, dset acc.2 k weights)
    | _, _ => raise ConfigurationError ("missing SLA or scoring configuration for " +:+ class_value k)
    end) ([], []) application_classes.

Definition read_features (j cloud_raw : json) : result Features :=
  d ← as_dict j; let raw := JObj d in
  dc ← get_default raw "data_center" (JBool true); sa ← get_default raw "saas" (JBool true);
  en ← getitem cloud_raw "enabled"; cl ← get_default raw "cloud_vpc" en;
  Ok {| f_data_center := py_truth dc; f_saas := py_truth sa; f_cloud_vpc := py_truth cl |}.

Definition read_measurement (j : json) (s : Settings) : result MeasurementTuning :=
  d ← as_dict j; let raw := JObj d in
  i ← d_float raw "interval_seconds" (probe_interval_s s); al ← d_float raw "ewma_alpha" (3 # 10);
  st ← d_float raw "stale_after_seconds" (stale_measurement_s s); lw ← d_int raw "loss_window_samples" 10;
  Ok {| interval_seconds := i; ewma_alpha := al; stale_after_seconds := st; loss_window_samples := lw |}.

Definition read_selection (j : json) (s : Settings) : result SelectionTuning :=
  d ← as_dict j; let raw := JObj d in
  b ← d_int raw "bad_samples_before_degraded" (s_failed_failures s);
  g ← d_int raw "good_samples_before_recovered" (s_recovery_successes s);
  m ← d_float raw "minimum_improvement_percent" 15; hd ← d_float raw "hold_down_seconds" (s_hold_down_s s);
  Ok {| bad_samples_before_degraded := b; good_samples_before_recovered := g;
        minimum_improvement_percent := m; hold_down_seconds := hd |}.

Definition addr_dict (prefix : string) (j : json) : result (dict string addr) :=
  dict_comp (λ name v, address_of v (prefix +:+ name)) j.
Definition net_dict (prefix : string) (j : json) : result (dict string network) :=
  dict_comp (λ name v, network_of v (prefix +:+ name)) j.

Definition read_cloud (f : Features) (cloud : json) : result CloudVPC :=
  en ← (if f_cloud_vpc f then f_bool cloud "enabled" else Ok false);
  sw ← f_str cloud "switch"; an ← f_str cloud "app_name"; n ← f_net cloud "network" "cloud_vpc.network";
  ai ← f_addr cloud "app_ip" "cloud_vpc.app_ip"; gc ← f_int cloud "gateway_count";
  gn ← getitem cloud "gateway_names"; gn ← items_of gn;
  gi ← getitem cloud "gateway_ips"; gi ← addr_dict "cloud_vpc.gateway_ips." gi;
  gm ← getitem cloud "gateway_management_ips"; gm ← addr_dict "cloud_vpc.gateway_management_ips." gm;
  ga ← getitem cloud "gateway_address_ids"; ga ← dict_comp (λ _ v, py_int v) ga;
  tn ← getitem cloud "transit_networks"; tn ← net_dict "cloud_vpc.transit_networks." tn;
  Ok {| vpc_enabled := en; vpc_switch := sw; vpc_app_name := an; vpc_network := n; vpc_app_ip := ai;
        gateway_count := gc; gateway_names := map py_str gn; gateway_ips := gi;
        gateway_management_ips := gm; gateway_address_ids := ga; transit_networks := tn |}.

(** ** Sensitive values *)

Definition sensitive_keys : list string :=
  ["private_key"; "private_key_pem"; "claim_secret"; "shared_token"; "password"].

Fixpoint visit (path : string) (j : json) : result unit :=
  match j with
  | JObj d =>
      (fix go (d : list (string * json)) : result unit :=
         match d with
         | [] => Ok tt
         | (key, item) :: d' =>
             _ ← reject (inb (lower key) sensitive_keys)
                   ("plaintext sensitive value is forbidden in configuration: " +:+ path +:+ key);
             _ ← visit (path +:+ key +:+ ".") item; go d'
         end) d
  | JList l =>
      (fix go (l : list json) : result unit :=
         match l with [] => Ok tt | item :: l' => _ ← visit path item; go l' end) l
  | _ => Ok tt
  end.

Definition reject_plaintext_sensitive_values (raw : json) : result unit := visit "" raw.

(** ** The whole document *)

(** Sorted, as the message lists them. *)
Definition required_sections : list string :=
  ["cloud_vpc"; "controller"; "data_center"; "edge_image"; "host_image"; "hub_targets"; "hubs";
   "interhub_networks"; "management_network"; "management_switch"; "saas"; "schema_version";
   "settings"; "spokes"; "transports"].

Definition sub_dict (raw : json) (k : string) : result json :=
  v ← getitem raw k; d ← as_dict v; Ok (JObj d).
Definition sub_dict_default (raw : json) (k : string) : result json :=
  v ← get_default raw k (JObj []); d ← as_dict v; Ok (JObj d).

Definition parse_config (top : dict string json) (source : string) : result TopologyConfig :=
  let raw := JObj top in
  c ← (v ← getitem raw "controller"; read_controller v);
  s ← (v ← getitem raw "settings"; read_settings v);
  trs ← (v ← getitem raw "transports"; dict_comp read_transport v);
  tgs ← (v ← getitem raw "hub_targets"; read_targets v);
  hs ← (v ← getitem raw "hubs"; dict_comp read_hub v);
  ss ← (v ← getitem raw "spokes"; read_sites v);
  dc ← sub_dict raw "data_center"; sa ← sub_dict raw "saas"; cl ← sub_dict raw "cloud_vpc";
  fr ← sub_dict_default raw "features"; f ← read_features fr cl;
  me ← sub_dict_default raw "measurement"; me ← read_measurement me s;
  sla_raw ← get_default raw "application_slas" (JObj []);
  score_raw ← get_default raw "path_scoring" (JObj []);
  _ ← reject (negb (is_mapping sla_raw) || negb (is_mapping score_raw))
        "application_slas and path_scoring must be mappings";
  cls ← read_classes sla_raw score_raw;
  ps ← sub_dict_default raw "path_selection"; ps ← read_selection ps s;
  ei ← f_str raw "edge_image"; hi ← f_str raw "host_image";
  mn ← f_net raw "management_network" "management_network"; ms ← f_str raw "management_switch";
  dsw ← f_str dc "switch"; dan ← f_str dc "app_name"; ssw ← f_str sa "switch"; san ← f_str sa "app_name";
  sgn ← f_str sa "gateway_name"; sgi ← f_addr sa "gateway_ip" "saas.gateway_ip";
  sti ← (v ← getitem sa "transport_ips"; addr_dict "saas.transport_ips." v);
  dhi ← (v ← getitem dc "hub_ips"; addr_dict "data_center.hub_ips." v);
  dn ← f_net dc "network" "data_center.network"; dai ← f_addr dc "app_ip" "data_center.app_ip";
  sn ← f_net sa "network" "saas.network"; sip ← f_addr sa "app_ip" "saas.app_ip";
  vpc ← read_cloud f cl;
  ih ← (v ← getitem raw "interhub_networks"; net_dict "interhub_networks." v);
  Ok {| cfg_source := source; edge_image := ei; host_image := hi; controller := c;
        management_network := mn; management_switch := ms; transports := trs; targets := tgs; hubs := hs;
        sites := ss; settings := s; features := f; cfg_measurement := me; application_slas := cls.1;
        path_scoring := cls.2; path_selection := ps; data_center_network := dn; data_center_app_ip := dai;
        data_center_switch := dsw; data_center_app_name := dan; data_center_hub_ips := dhi;
        saas_network := sn; saas_ip := sip; saas_switch := ssw; saas_app_name := san;
        saas_gateway_name := sgn; saas_gateway_ip := sgi; saas_transport_ips := sti; cloud_vpc := vpc;
        interhub_networks := ih |}.

Definition config_from_mapping (raw : dict string json) (source : string) : result TopologyConfig :=
  let missing := List.filter (λ k, negb (dmem raw k)) required_sections in
  _ ← reject (negb (bool_decide (missing = []))) ("topology is missing: " +:+ join ", " missing);
  v ← f_int (JObj raw) "schema_version";
  _ ← reject (negb (v =? 5)) "topology schema_version must be 5";
  _ ← reject_plaintext_sensitive_values (JObj raw);
  config ← parse_config raw source;
  _ ← validate_config config;
  Ok config.
End parse.
