(* ===== verification/CoreTopology.v ===== *)
(** * The repository's core topology ([config/topology.core.yaml])

    The document as the YAML loader returns it, and the configuration the reader
    makes of it: the concrete input of the witnesses.  The shipped file is
    accepted by the modelled reader and validator. *)
From S2P Require Import Prelude Net Marks PathSelection Model ModelValidate Json ModelParse.
Local Open Scope string_scope.
Local Open Scope list_scope.
Local Open Scope Z_scope.

(** Float and container texts, which no field of this document needs. *)
#[export] Instance plain_repr : PyRepr :=
  {| repr_float := λ q, str_Z (trunc q) +:+ ".0"; repr_container := λ _, "[...]" |}.

Definition core_raw : dict string json :=
  [ ("schema_version", JInt 5);
    ("features", JObj [("data_center", JBool true); ("saas", JBool true); ("cloud_vpc", JBool false)]);
    ("edge_image", JStr "containernet-sdwan-edge-v5:latest");
    ("host_image", JStr "containernet-sdwan-host-v5:latest");
    ("controller", JObj [ ("openflow_host", JStr "127.0.0.1"); ("openflow_port", JInt 6633);
      ("policy_port", JInt 8080); ("ztp_port", JInt 8443); ("edge_port", JInt 8081);
      ("management_address", JStr "172.30.0.254/24") ]);
    ("management_network", JStr "172.30.0.0/24"); ("management_switch", JStr "mgmtbr");
    ("settings", JObj [ ("persistent_keepalive_s", JInt 10); ("route_mark_mask", JInt 255);
      ("terminal_mark_bit", JInt 256); ("provisional_mark_bit", JInt 512);
      ("emergency_mark_bit", JInt 1024); ("target_hub_mask", JInt 12288);
      ("hub1_bit", JInt 4096); ("hub2_bit", JInt 8192); ("egress_mask", JInt 49152);
      ("direct_internet_bit", JInt 16384); ("cloud_gateway_bit", JInt 32768);
      ("wireguard_port_start", JInt 52000); ("probe_interval_s", JInt 2);
      ("suspect_failures", JInt 2); ("failed_failures", JInt 3);
      ("recovery_successes", JInt 5); ("hold_down_s", JInt 10); ("drain_timeout_s", JInt 120);
      ("stale_measurement_s", JInt 6); ("failback_mode", JStr "after_drain") ]);
    ("measurement", JObj [ ("interval_seconds", JInt 2); ("ewma_alpha", JFloat (3 # 10));
      ("stale_after_seconds", JInt 6); ("loss_window_samples", JInt 100) ]);
    ("application_slas", JObj [ ("REALTIME_RTP", JObj [ ("max_rtt_ms", JInt 100); ("max_jitter_ms", JInt 20); ("max_loss_pct", JFloat (1 # 1));
        ("no_eligible_action", JStr "BEST_EFFORT") ]);
      ("CENTRAL_BACKUP", JObj [ ("min_estimated_available_bandwidth_mbps", JInt 10); ("max_loss_pct", JFloat (2 # 1));
        ("no_eligible_action", JStr "BEST_EFFORT") ]);
      ("SAAS_INTERACTIVE", JObj [ ("max_rtt_ms", JInt 120); ("max_loss_pct", JFloat (2 # 1));
        ("no_eligible_action", JStr "FAIL_CLOSED") ]);
      ("SAAS_FILE_TRANSFER", JObj [ ("min_estimated_available_bandwidth_mbps", JInt 5); ("max_loss_pct", JFloat (3 # 1));
        ("no_eligible_action", JStr "BEST_EFFORT") ]) ]);
    ("path_scoring", JObj [ ("REALTIME_RTP", JObj [ ("rtt", JFloat (1 # 5)); ("jitter", JFloat (9 # 20)); ("loss", JFloat (7 # 20)) ]);
      ("CENTRAL_BACKUP", JObj [ ("available_bandwidth", JFloat (7 # 10)); ("loss", JFloat (1 # 5));
        ("rtt", JFloat (1 # 10)) ]);
      ("SAAS_INTERACTIVE", JObj [ ("rtt", JFloat (7 # 10)); ("loss", JFloat (1 # 5)); ("jitter", JFloat (1 # 10)) ]);
      ("SAAS_FILE_TRANSFER", JObj [ ("available_bandwidth", JFloat (7 # 10)); ("loss", JFloat (1 # 5));
        ("rtt", JFloat (1 # 10)) ]) ]);
    ("path_selection", JObj [ ("bad_samples_before_degraded", JInt 3); ("good_samples_before_recovered", JInt 5);
      ("minimum_improvement_percent", JInt 15); ("hold_down_seconds", JInt 10) ]);
    ("transports", JObj [ ("mpls", JObj [ ("switch", JStr "s_mpls"); ("dpid", JInt 1); ("network", JStr "192.168.10.0/24");
        ("bandwidth_mbps", JInt 20); ("delay_ms", JInt 4); ("jitter_ms", JFloat (1 # 2));
        ("loss_pct", JInt 0); ("cost", JFloat (4 # 5)); ("internet_capable", JBool false);
        ("route_slot", JInt 1); ("route_table", JInt 101) ]);
      ("bb", JObj [ ("switch", JStr "s_bb"); ("dpid", JInt 2); ("network", JStr "192.168.20.0/24");
        ("bandwidth_mbps", JInt 50); ("delay_ms", JInt 25); ("jitter_ms", JInt 5);
        ("loss_pct", JInt 1); ("cost", JFloat (1 # 5)); ("internet_capable", JBool true);
        ("route_slot", JInt 2); ("route_table", JInt 102) ]);
      ("lte", JObj [ ("switch", JStr "s_lte"); ("dpid", JInt 3); ("network", JStr "192.168.30.0/24");
        ("bandwidth_mbps", JInt 8); ("delay_ms", JInt 60); ("jitter_ms", JInt 15);
        ("loss_pct", JInt 2); ("cost", JFloat (1 # 1)); ("internet_capable", JBool true);
        ("route_slot", JInt 3); ("route_table", JInt 103) ]) ]);
    ("hub_targets", JObj [ ("hub1", JObj [ ("mpls", JObj [("overlay_network", JStr "172.31.10.0/24"); ("route_table", JInt 1101)]);
        ("bb", JObj [("overlay_network", JStr "172.31.20.0/24"); ("route_table", JInt 1102)]);
        ("lte", JObj [("overlay_network", JStr "172.31.30.0/24"); ("route_table", JInt 1103)]) ]);
      ("hub2", JObj [ ("mpls", JObj [("overlay_network", JStr "172.31.110.0/24"); ("route_table", JInt 1201)]);
        ("bb", JObj [("overlay_network", JStr "172.31.120.0/24"); ("route_table", JInt 1202)]);
        ("lte", JObj [("overlay_network", JStr "172.31.130.0/24"); ("route_table", JInt 1203)]) ]) ]);
    ("interhub_networks", JObj [ ("mpls", JStr "172.31.210.0/24"); ("bb", JStr "172.31.220.0/24");
      ("lte", JStr "172.31.230.0/24") ]);
    ("hubs", JObj [ ("hub1", JObj [("address_id", JInt 1); ("management_ip", JStr "172.30.0.1")]);
      ("hub2", JObj [("address_id", JInt 2); ("management_ip", JStr "172.30.0.2")]) ]);
    ("spokes", JObj [ ("site1", JObj [ ("edge_node", JStr "node1"); ("address_id", JInt 11);
        ("management_ip", JStr "172.30.0.11"); ("lan_network", JStr "10.1.0.0/24");
        ("lan_gateway", JStr "10.1.0.1"); ("lan_switch", JStr "lsw1"); ("lan_dpid", JInt 101);
        ("host_name", JStr "node1_host"); ("host_ip", JStr "10.1.0.10");
        ("preferred_hub", JStr "hub1"); ("standby_hub", JStr "hub2");
        ("device_id", JStr "edge-node1-2d67aa8b") ]);
      ("site2", JObj [ ("edge_node", JStr "node2"); ("address_id", JInt 12);
        ("management_ip", JStr "172.30.0.12"); ("lan_network", JStr "10.2.0.0/24");
        ("lan_gateway", JStr "10.2.0.1"); ("lan_switch", JStr "lsw2"); ("lan_dpid", JInt 102);
        ("host_name", JStr "node2_host"); ("host_ip", JStr "10.2.0.10");
        ("preferred_hub", JStr "hub1"); ("standby_hub", JStr "hub2");
        ("device_id", JStr "edge-node2-65b9e182") ]);
      ("site3", JObj [ ("edge_node", JStr "node3"); ("address_id", JInt 13);
        ("management_ip", JStr "172.30.0.13"); ("lan_network", JStr "10.3.0.0/24");
        ("lan_gateway", JStr "10.3.0.1"); ("lan_switch", JStr "lsw3"); ("lan_dpid", JInt 103);
        ("host_name", JStr "node3_host"); ("host_ip", JStr "10.3.0.10");
        ("preferred_hub", JStr "hub1"); ("standby_hub", JStr "hub2");
        ("device_id", JStr "edge-node3-89844fd0") ]);
      ("site4", JObj [ ("edge_node", JStr "node4"); ("address_id", JInt 14);
        ("management_ip", JStr "172.30.0.14"); ("lan_network", JStr "10.4.0.0/24");
        ("lan_gateway", JStr "10.4.0.1"); ("lan_switch", JStr "lsw4"); ("lan_dpid", JInt 104);
        ("host_name", JStr "node4_host"); ("host_ip", JStr "10.4.0.10");
        ("preferred_hub", JStr "hub2"); ("standby_hub", JStr "hub1");
        ("device_id", JStr "edge-node4-bc91a233") ]);
      ("site5", JObj [ ("edge_node", JStr "node5"); ("address_id", JInt 15);
        ("management_ip", JStr "172.30.0.15"); ("lan_network", JStr "10.5.0.0/24");
        ("lan_gateway", JStr "10.5.0.1"); ("lan_switch", JStr "lsw5"); ("lan_dpid", JInt 105);
        ("host_name", JStr "node5_host"); ("host_ip", JStr "10.5.0.10");
        ("preferred_hub", JStr "hub2"); ("standby_hub", JStr "hub1");
        ("device_id", JStr "edge-node5-4cb64b0a") ]) ]);
    ("data_center", JObj [ ("switch", JStr "dcbr"); ("app_name", JStr "dc_app"); ("network", JStr "10.100.0.0/24");
      ("app_ip", JStr "10.100.0.10");
      ("hub_ips", JObj [("hub1", JStr "10.100.0.1"); ("hub2", JStr "10.100.0.2")]) ]);
    ("saas", JObj [ ("switch", JStr "inetbr"); ("app_name", JStr "public_saas");
      ("network", JStr "198.18.0.0/24"); ("app_ip", JStr "198.18.0.10");
      ("gateway_name", JStr "inet_gw"); ("gateway_ip", JStr "198.18.0.1");
      ("transport_ips", JObj [("bb", JStr "192.168.20.254"); ("lte", JStr "192.168.30.254")]) ]);
    ("cloud_vpc", JObj [ ("enabled", JBool false); ("switch", JStr "cloudbr"); ("app_name", JStr "cloud_app");
      ("network", JStr "10.200.0.0/24"); ("app_ip", JStr "10.200.0.10");
      ("gateway_count", JInt 2); ("gateway_names", JList [JStr "cloud_gw1"; JStr "cloud_gw2"]);
      ("gateway_ips", JObj [("cloud_gw1", JStr "10.200.0.1"); ("cloud_gw2", JStr "10.200.0.2")]);
      ("gateway_management_ips", JObj [("cloud_gw1", JStr "172.30.0.21"); ("cloud_gw2", JStr "172.30.0.22")]);
      ("gateway_address_ids", JObj [("cloud_gw1", JInt 21); ("cloud_gw2", JInt 22)]);
      ("transit_networks", JObj [ ("hub1_cloud_gw1", JStr "172.20.1.0/30"); ("hub1_cloud_gw2", JStr "172.20.2.0/30");
        ("hub2_cloud_gw1", JStr "172.20.3.0/30"); ("hub2_cloud_gw2", JStr "172.20.4.0/30") ]) ]) ].

Definition core_result : result TopologyConfig := Eval vm_compute in
  config_from_mapping core_raw "topology.core.yaml".

Definition core_config : TopologyConfig := Eval vm_compute in
  match core_result as r return is_ok r = true → TopologyConfig with
  | Ok c => λ _, c
  | Err _ => λ H, False_rect _ (Bool.diff_false_true H)
  end eq_refl.

Lemma core_accepted : config_from_mapping core_raw "topology.core.yaml" = Ok core_config.
Proof. vm_cast_no_check (eq_refl (Ok core_config)). Qed.
