(* ===== verification/TopologyFacts.v ===== *)
(** * What an accepted topology guarantees

    Lemmas about [config_from_mapping] and [validate_config], and the properties
    the rest of the system relies on: disjoint address spaces, distinct
    addresses and ports, no plaintext secrets, and components that start. *)
From Stdlib Require Import Ascii.
From S2P Require Import Prelude Net Marks PathSelection TunnelHealth LocalFailover.
From S2P Require Import Model ModelValidate Json ModelParse CoreTopology.
Local Open Scope string_scope.
Local Open Scope list_scope.
Local Open Scope Z_scope.

(** ** Parsed networks are well formed *)

Lemma digit_of_range a d : digit_of a = Some d → 0 <= d <= 9.
Proof. unfold digit_of. case_match eqn:E; [|done]. intros [= <-]. btrue. lia. Qed.

Lemma digits_go_nonneg s acc n : 0 <= acc → digits_go s acc = Some n → 0 <= n.
Proof.
  revert acc. induction s as [|a s IH]; intros acc Hacc; simpl; [by intros [= <-]|].
  destruct (digit_of a) as [d|] eqn:E; [|done]. apply digit_of_range in E. apply IH. lia.
Qed.

Lemma parse_digits_nonneg s n : parse_digits s = Some n → 0 <= n.
Proof. destruct s; [done|]. apply digits_go_nonneg. lia. Qed.

Lemma parse_octet_range s n : parse_octet s = Some n → 0 <= n <= 255.
Proof.
  unfold parse_octet. destruct (parse_digits s) as [m|] eqn:E; [|done].
  apply parse_digits_nonneg in E. repeat case_match; try done; intros [= <-]; lia.
Qed.

Lemma parse_addr_range s a : parse_addr s = Some a → 0 <= a <= all_ones.
Proof.
  unfold parse_addr. repeat case_match; try done. intros [= <-].
  repeat match goal with H : parse_octet _ = Some _ |- _ => apply parse_octet_range in H end.
  unfold all_ones. lia.
Qed.

Lemma prefix_from_mask_range m p : prefix_from_mask m = Some p → 0 <= p <= 32.
Proof. intros [H _]%find_elem. apply elem_of_seqZ in H. lia. Qed.

Lemma parse_prefixlen_range s p : parse_prefixlen s = Some p → 0 <= p <= 32.
Proof.
  unfold parse_prefixlen. destruct (parse_digits s) as [n|] eqn:E.
  - apply parse_digits_nonneg in E. case_match; [|done]. intros [= <-]. lia.
  - destruct (parse_addr s) as [m|]; [|done]. destruct (prefix_from_mask m) eqn:E1.
    + intros [= <-]. by eapply prefix_from_mask_range.
    + apply prefix_from_mask_range.
Qed.

Lemma aligned_wf n p : 0 <= n <= all_ones → 0 <= p <= 32 →
  Z.land n (netmask (Network n p)) = n → network_wf (Network n p).
Proof.
  intros Hn Hp. unfold netmask, hostbits. simpl. rewrite ones_shift_land by done. intros E.
  split; simpl; [done|done|]. unfold hostbits. simpl. lia.
Qed.

Lemma ip_network_wf s n : ip_network s = Ok n → network_wf n.
Proof.
  unfold ip_network. destruct (split_on "/"%char s) as [|a [|p [|]]]; try done.
  - destruct (parse_addr a) as [x|] eqn:E; [|done]. intros [= <-]. apply parse_addr_range in E.
    apply aligned_wf; [done|lia|]. unfold netmask, hostbits. simpl.
    rewrite ones_shift_land by lia. change (2 ^ (32 - 32)) with 1. rewrite Z.mod_1_r. lia.
  - destruct (parse_addr a) as [x|] eqn:E; [|done]. destruct (parse_prefixlen p) as [q|] eqn:Ep; [|done].
    case_match eqn:Hal; [|done]. intros [= <-]. apply aligned_wf;
      [by eapply parse_addr_range|by eapply parse_prefixlen_range|lia].
Qed.

(** ** Inversion of the reader *)

Section reader.
Context `{PyRepr}.

Lemma network_of_wf v f n : network_of v f = Ok n → network_wf n.
Proof. unfold network_of. destruct (ip_network (py_str v)) eqn:E; [|done]. intros [= <-]. by eapply ip_network_wf. Qed.

Lemma f_net_wf j k f n : f_net j k f = Ok n → network_wf n.
Proof. unfold f_net. intros Hf. inv_ok. by eapply network_of_wf. Qed.

Lemma dict_comp_Forall {V} (P : V → Prop) (f : string → json → result V) j d :
  (∀ k v x, f k v = Ok x → P x) → dict_comp f j = Ok d → Forall P (dvals d).
Proof.
  intros Hf Hd. unfold dict_comp in Hd. inv_ok. apply mapM_result_Forall2 in Hd. clear -Hf Hd. unfold dvals.
  induction Hd as [|p q l k Hp _ IH]; simpl; [constructor|]. apply Forall_cons. split; [|done].
  inv_ok. by eapply Hf.
Qed.

Lemma net_dict_wf prefix j d : net_dict prefix j = Ok d → Forall network_wf (dvals d).
Proof. apply dict_comp_Forall. intros k v x. apply network_of_wf. Qed.

Lemma read_transport_wf name j t : read_transport name j = Ok t → network_wf (tr_network t).
Proof. unfold read_transport. intros Ht. inv_ok. by eapply f_net_wf. Qed.

Lemma read_target_wf h t j x :
  read_target h t j = Ok x → network_wf (overlay_network x) ∧ tt_hub x = h ∧ tt_transport x = t.
Proof. unfold read_target. intros Ht. inv_ok. split; [by eapply f_net_wf|done]. Qed.

Lemma read_site_wf i n j s : read_site i n j = Ok s → network_wf (lan_network s) ∧ site_name s = n.
Proof. unfold read_site. intros Hs. inv_ok. split; [by eapply f_net_wf|done]. Qed.
End reader.

(** [targets] as the reader fills it: keyed by the target's own hub and transport. *)
Definition targets_named (c : TopologyConfig) : Prop :=
  dict_wf (targets c) ∧ ∀ k t, dget (targets c) k = Some t → (tt_hub t, tt_transport t) = k.

Section targets.
Context `{PyRepr}.

Lemma read_targets_inv j d :
  read_targets j = Ok d →
  (dict_wf d ∧ ∀ k t, dget d k = Some t → (tt_hub t, tt_transport t) = k) ∧
  Forall (λ t, network_wf (overlay_network t)) (dvals d).
Proof.
  set (I := λ d : dict (string * string) TunnelTarget,
    (dict_wf d ∧ ∀ k t, dget d k = Some t → (tt_hub t, tt_transport t) = k) ∧
    Forall (λ t, network_wf (overlay_network t)) (dvals d)).
  unfold read_targets. intros Hd. inv_ok. revert Hd. apply (foldM_inv I); [|by repeat constructor].
  intros acc hub acc' HI Hh. inv_ok. revert Hh. apply (foldM_inv I); [|done].
  clear acc acc' HI. intros acc p acc' [[Hwf Hn] Hf] Hp. inv_ok.
  match goal with Ht : read_target _ _ _ = Ok _ |- _ => apply read_target_wf in Ht as (Hw & Hhub & Htr) end.
  split; [split|].
  - by apply dset_wf.
  - intros k t. rewrite dget_dset. case_decide as E; [intros [= <-]; by rewrite Hhub, Htr, E|apply Hn].
  - by apply dvals_dset_Forall.
Qed.
End targets.

(** ** Splitting the validator *)

Record validated (c : TopologyConfig) : Prop := {
  v_ports : check_service_ports c = Ok tt;
  v_switches : check_switches c = Ok tt;
  v_transports : check_transports c = Ok tt;
  v_settings : check_settings c = Ok tt;
  v_classes : ∀ k, check_class c k = Ok tt;
  v_sites : check_sites c = Ok tt;
  v_endpoints : check_endpoints c = Ok tt;
  v_cloud : check_cloud c = Ok tt;
  v_addresses : check_addresses c = Ok tt;
  v_management : check_management c = Ok tt;
  v_wireguard : check_wireguard c = Ok tt
}.

Lemma validate_config_iff c : validate_config c = Ok tt ↔ validated c.
Proof.
  unfold validate_config. rewrite !bind_unit_ok, iterM_ok. unfold application_classes.
  rewrite !Forall_cons. split.
  - intros H. destruct_and!. split; try done. by intros [].
  - intros []. split_and!; auto.
Qed.

Lemma reject_ok b msg : reject b msg = Ok tt ↔ b = false.
Proof. unfold reject, raise_if. by destruct b. Qed.

(** Disjointness of every two configured networks. *)
Lemma check_disjoint_ok ns :
  check_disjoint ns = Ok tt ↔ ForallOrdPairs (λ n m, overlaps n m = false) ns.
Proof.
  induction ns as [|n ns IH]; simpl; [split; constructor|].
  rewrite bind_unit_ok, iterM_ok, IH. setoid_rewrite reject_ok. split.
  - intros [Hn Hns]. by constructor.
  - intros H. by inversion H.
Qed.

Definition disjoint (n m : network) : Prop :=
  ∀ a, 0 <= a <= all_ones → in_network a n = true → in_network a m = true → False.

Lemma disjoint_networks ns :
  Forall network_wf ns → ForallOrdPairs (λ n m, overlaps n m = false) ns → ForallOrdPairs disjoint ns.
Proof.
  intros Hwf H. induction H as [|n ns Hn _ IH]; [constructor|]. inversion Hwf as [|? ? Hw Hws]; subst.
  constructor; [|by apply IH]. rewrite Forall_forall in Hn, Hws |- *. intros m Hm a Ha H1 H2.
  rewrite (overlaps_false n m a) in H2; [done|done|by apply Hws|done|by apply Hn|done].
Qed.

(** ** Secrets *)

(** [key] occurs as a mapping key at some depth of the document. *)
Inductive has_key (key : string) : json → Prop :=
  | hk_here d v : (key, v) ∈ d → has_key key (JObj d)
  | hk_field d k v : (k, v) ∈ d → has_key key v → has_key key (JObj d)
  | hk_item l v : v ∈ l → has_key key v → has_key key (JList l).

Lemma visit_obj path d :
  visit path (JObj d) = Ok tt →
  ∀ k v, (k, v) ∈ d → inb (lower k) sensitive_keys = false ∧ ∃ path', visit path' v = Ok tt.
Proof.
  simpl. induction d as [|[k0 v0] d IH]; intros Hv k v; [by intros ?%elem_of_nil|].
  rewrite bind_unit_ok, reject_ok, bind_unit_ok in Hv. destruct Hv as (H1 & H2 & H3).
  intros [[= -> ->]|Hin]%elem_of_cons; [split; [done|by eexists]|by apply IH].
Qed.

Lemma visit_list path l : visit path (JList l) = Ok tt → ∀ v, v ∈ l → visit path v = Ok tt.
Proof.
  simpl. induction l as [|v0 l IH]; intros Hv v; [by intros ?%elem_of_nil|].
  rewrite bind_unit_ok in Hv. destruct Hv as [H1 H2]. intros [->|Hin]%elem_of_cons; [done|by apply IH].
Qed.

Lemma visit_sound j key : has_key key j → ∀ path, visit path j = Ok tt → lower key ∉ sensitive_keys.
Proof.
  induction 1 as [d v Hin|d k v Hin _ IH|l v Hin _ IH]; intros path Hv.
  - apply inb_false. by eapply visit_obj.
  - destruct (visit_obj _ _ Hv _ _ Hin) as [_ [path' Hp]]. by eapply IH.
  - eapply IH, visit_list; done.
Qed.

(** ** The networks of a parsed configuration *)

Section parsed.
Context `{PyRepr}.

Lemma dict_comp_map_Forall {V B} (P : B → Prop) (g : V → B) (f : string → json → result V) j d :
  (∀ k v x, f k v = Ok x → P (g x)) → dict_comp f j = Ok d → Forall P (map g (dvals d)).
Proof. intros Hf Hd. apply Forall_map, (dict_comp_Forall _ f j); [|done]. intros. by eapply Hf. Qed.

Lemma read_sites_wf j d : read_sites j = Ok d → Forall network_wf (map lan_network (dvals d)).
Proof.
  unfold read_sites. intros Hd. inv_ok. apply mapM_result_Forall2 in Hd. clear Heqr. apply Forall_map. unfold dvals.
  revert d Hd. generalize (imap (λ i p, (Z.of_nat i, p)) a). intros l d Hd.
  induction Hd as [|x p l d Hp _ IH]; simpl; [constructor|]. apply Forall_cons. split; [|done].
  inv_ok. by apply read_site_wf in Heqr as [? _].
Qed.

Lemma read_cloud_wf f j v :
  read_cloud f j = Ok v → network_wf (vpc_network v) ∧ Forall network_wf (dvals (transit_networks v)).
Proof.
  unfold read_cloud. intros Hv. destruct (if f_cloud_vpc f then _ else _) eqn:E; [|done].
  unfold mbind, result_bind in Hv. inv_ok. simpl. split; [by eapply f_net_wf|by eapply net_dict_wf].
Qed.

Lemma parse_config_wf top source c :
  parse_config top source = Ok c → Forall network_wf (all_networks c) ∧ targets_named c.
Proof.
  unfold parse_config. intros Hc. inv_ok. unfold all_networks, transport_list, site_list, targets_named. cbn.
  match goal with Ht : read_targets _ = Ok _ |- _ => apply read_targets_inv in Ht as [Htn Htw] end.
  split; [|done].
  match goal with Ht : read_cloud _ _ = Ok _ |- _ => apply read_cloud_wf in Ht as [Hvn Hvt] end.
  repeat apply Forall_cons_2; try (by eapply f_net_wf); [done|].
  repeat (apply Forall_app; split); try done.
  - eapply dict_comp_map_Forall; [|done]. intros k v x. apply read_transport_wf.
  - by apply Forall_map.
  - by eapply net_dict_wf.
  - by eapply read_sites_wf.
Qed.

Lemma config_from_mapping_inv raw source c :
  config_from_mapping raw source = Ok c →
  (∀ k, k ∈ required_sections → is_Some (dget raw k)) ∧ visit "" (JObj raw) = Ok tt ∧
  parse_config raw source = Ok c ∧ validate_config c = Ok tt.
Proof.
  unfold config_from_mapping. rewrite bind_unit_ok, reject_ok. intros [Hm Hc].
  apply bind_Ok in Hc as (v & _ & Hc). rewrite bind_unit_ok, bind_unit_ok in Hc.
  destruct Hc as (_ & Hs & Hc). apply bind_Ok in Hc as (c' & Hp & Hc).
  apply bind_unit_ok in Hc as [Hv [= <-]]. split_and!; try done.
  intros k Hk. apply negb_false_iff, bool_decide_eq_true in Hm.
  destruct (dget raw k) eqn:E; [by eexists|].
  assert (k ∈ List.filter (λ k, negb (dmem raw k)) required_sections) as Hin.
  { apply filter_elem. split; [done|]. unfold dmem. by rewrite E. }
  rewrite Hm in Hin. by apply elem_of_nil in Hin.
Qed.
End parsed.

(** ** WireGuard ports *)

(** The slot of a tunnel in its site's block of 64 ports. *)
Definition slot (p : string * string) : Z :=
  match index_of p.1 HUBS, index_of p.2 TRANSPORTS with Ok i, Ok j => i * 3 + j | _, _ => 0 end.

Definition spoke_slots : list Z := [0; 1; 2; 3; 4; 5].

Lemma spoke_slots_eq : map slot hub_transport_pairs = spoke_slots.
Proof. reflexivity. Qed.

(** The blocks of the spokes, and the interfaces of the hubs. *)
Definition spoke_blocks (ss : list Site) : list (Z * Z) :=
  concat (map (λ s, map (pair (wireguard_index s)) spoke_slots) ss).
Definition hub_listeners : list (Z * Z) :=
  [(0, 0); (0, 1); (0, 2); (1, 0); (1, 1); (1, 2); (0, 3); (0, 4); (0, 5); (1, 3); (1, 4); (1, 5)].

Lemma spoke_blocks_elem ss b i :
  (b, i) ∈ spoke_blocks ss → b ∈ map wireguard_index ss ∧ i ∈ spoke_slots.
Proof.
  unfold spoke_blocks. rewrite elem_of_concat.
  intros (l & (s & -> & Hs)%elem_of_map & (j & [= -> ->] & Hj)%elem_of_map).
  split; [|done]. apply elem_of_map. by exists s.
Qed.

Lemma spoke_blocks_NoDup ss : NoDup (map wireguard_index ss) → NoDup (spoke_blocks ss).
Proof.
  unfold spoke_blocks. induction ss as [|s ss IH]; cbn [map concat]; [constructor|].
  intros [Hs Hss]%NoDup_cons. apply NoDup_app. split_and!; [| |by apply IH].
  - apply NoDup_map; [by intros ? ? _ _ [= ->]|]. by apply uniqueb_true.
  - intros [b i] (j & [= -> ->] & _)%elem_of_map [Hb _]%spoke_blocks_elem. done.
Qed.

Lemma listeners_NoDup ss :
  NoDup (map wireguard_index ss) → Forall (λ s, 2 <= wireguard_index s) ss →
  NoDup (spoke_blocks ss ++ hub_listeners).
Proof.
  intros Hnd Hmin. apply NoDup_app. split_and!; [by apply spoke_blocks_NoDup| |by apply uniqueb_true].
  intros [b i] [(s & -> & Hs)%elem_of_map _]%spoke_blocks_elem Hin. rewrite Forall_forall in Hmin.
  specialize (Hmin s Hs). unfold hub_listeners in Hin. rewrite !elem_of_cons in Hin.
  destruct_or!; try (injection Hin; intros; lia). by apply elem_of_nil in Hin.
Qed.

#[local] Arguments index_of : simpl never.
#[local] Arguments inb : simpl never.

(** Position in a tuple, 0 when absent. *)
Definition position (x : string) (l : list string) : Z :=
  match index_of x l with Ok i => i | Err _ => 0 end.

Section ports.
Context (c : TopologyConfig).
Context (Hhubs : dkeys (hubs c) = HUBS) (Hwf : dict_wf (sites c)) (Hnamed : targets_named c).
Context (Hapart : ∀ s, s ∈ dkeys (sites c) → s ∉ HUBS).

Definition port_of (p : Z * Z) : Z := wireguard_port_start (settings c) + p.1 * 64 + p.2.

Lemma hub_mem h : dmem (hubs c) h = inb h HUBS.
Proof.
  destruct (dmem (hubs c) h) eqn:E.
  - apply dmem_true in E. rewrite Hhubs in E. by apply inb_true in E.
  - symmetry. apply inb_false. rewrite <- Hhubs, <- dmem_true, E. done.
Qed.

Lemma site_not_hub s : s ∈ dkeys (sites c) → dmem (hubs c) s = false.
Proof. intros Hs. rewrite hub_mem. by apply inb_false, Hapart. Qed.

Lemma spoke_port name s h t x y :
  dget (sites c) name = Some s → (h, t) ∈ hub_transport_pairs → target c h t = Ok x →
  wireguard_port c name (tt_hub x) (tt_transport x) = Ok y → y = port_of (wireguard_index s, slot (h, t)).
Proof.
  intros Hs Hp. unfold target, of_option. destruct (dget (targets c) (h, t)) as [x'|] eqn:E; [|done].
  intros [= <-]. apply (proj2 Hnamed) in E. injection E as -> ->.
  assert (Hn : dmem (sites c) name = true) by (unfold dmem; by rewrite Hs).
  unfold wireguard_port. rewrite (site_not_hub name) by by apply dmem_true.
  unfold logical_site, get_site, of_option. rewrite Hn. unfold mbind, result_bind. rewrite Hs.
  unfold slot, port_of. simpl. destruct (index_of h HUBS), (index_of t TRANSPORTS); try done.
  simpl. intros [= <-]. lia.
Qed.

Lemma site_ports_eq name s ps :
  dget (sites c) name = Some s → site_ports c name = Ok ps →
  ps = map port_of (map (pair (wireguard_index s)) spoke_slots).
Proof.
  intros Hs Hp. unfold site_ports, spoke_targets in Hp. apply bind_Ok in Hp as (ts & Hts & Hps).
  apply bind_Ok in Hts as (nm & _ & Hts). pose proof (mapM_result_compose _ _ _ _ _ Hts Hps) as Hc.
  apply (mapM_result_det _ (λ p, port_of (wireguard_index s, slot p))) in Hc; [by rewrite Hc|].
  intros [h t] y Hin Hy. apply bind_Ok in Hy as (x & Hx & Hy). by eapply spoke_port.
Qed.

Lemma wireguard_ports_eq ports :
  wireguard_ports c = Ok ports → ports = map port_of (spoke_blocks (site_list c) ++ hub_listeners).
Proof.
  intros Hp. unfold wireguard_ports in Hp. apply bind_Ok in Hp as (spokes & Hsp & Hp).
  apply bind_Ok in Hp as (at_hubs & Hah & Hp). apply bind_Ok in Hp as (between & Hbt & [= <-]).
  rewrite map_app. f_equal.
  - unfold dkeys in Hsp. rewrite mapM_result_map in Hsp.
    apply (mapM_result_det _ (λ p, map port_of (map (pair (wireguard_index p.2)) spoke_slots))) in Hsp.
    + rewrite Hsp. unfold spoke_blocks, site_list, dvals. rewrite concat_map, !map_map. done.
    + intros [name s] ps Hin Hps. apply (site_ports_eq name); [|done]. by apply dget_wf_In.
  - apply (mapM_result_det _ (λ p, port_of (position p.1 HUBS, position p.2 TRANSPORTS))) in Hah.
    + apply (mapM_result_det _ (λ p, port_of (position p.1 HUBS, 3 + position p.2 TRANSPORTS))) in Hbt.
      * by rewrite Hah, Hbt.
      * intros [h t] y Hin. unfold interhub_port. rewrite hub_mem. simpl.
        destruct (negb (inb h HUBS)); [done|]. unfold position, port_of, mbind, result_bind. simpl.
        destruct (index_of h HUBS), (index_of t TRANSPORTS); try done. simpl. intros [= <-]. lia.
    + intros [h t] y Hin. unfold wireguard_port. rewrite hub_mem. simpl.
      assert (inb h HUBS = true) as ->.
      { apply inb_true. apply list_elem_of_In, in_flat_map in Hin as (h' & Hh & (t' & [= -> ->] & _)%in_map_iff).
        by apply list_elem_of_In. }
      unfold position, port_of, mbind, result_bind. simpl.
      destruct (index_of h HUBS), (index_of t TRANSPORTS); try done. simpl. intros [= <-]. lia.
Qed.
End ports.

(** ** Properties *)

(** C3: what the reader guarantees.  A document is accepted only when all
    required sections are present and no mapping key at any depth, in any letter
    case, names a plaintext secret; the resulting configuration passes
    validation, its networks are well-formed IPv4 networks and its tunnel
    targets are stored under their own hub and transport. *)
Theorem accepted_document `{PyRepr} raw source c :
  config_from_mapping raw source = Ok c →
  (∀ k, k ∈ required_sections → is_Some (dget raw k)) ∧
  (∀ key, has_key key (JObj raw) → lower key ∉ sensitive_keys) ∧
  validate_config c = Ok tt ∧ Forall network_wf (all_networks c) ∧ targets_named c.
Proof.
  intros (Hr & Hv & Hp & Hc)%config_from_mapping_inv. split_and!; try done.
  - intros key Hk. by eapply visit_sound.
  - by eapply parse_config_wf.
  - by eapply parse_config_wf.
Qed.

Lemma accepted_document_witness :
  validate_config core_config = Ok tt ∧ ¬ has_key "Password" (JObj core_raw).
Proof.
  destruct (accepted_document core_raw "topology.core.yaml" core_config core_accepted)
    as (_ & Hs & Hv & _). split; [exact Hv|].
  intros Hk. apply (Hs "Password" Hk). apply inb_true. vm_compute. reflexivity.
Defined.

(** The underlay part of the validator, for one transport. *)
Lemma check_underlay_ok c name t :
  check_underlay c (name, t) = Ok tt →
  ∃ gw ips, underlay_gateway_ip c name = Ok gw ∧ mapM_result (λ s, underlay_ip c s name) (site_names c) = Ok ips ∧
    NoDup ips ∧ Forall (λ a, usable_in (tr_network t) a = true) ips ∧ gw ∉ ips.
Proof.
  simpl. intros Hc. apply bind_Ok in Hc as (ips & Hips & Hc). apply bind_Ok in Hc as (extra & _ & Hc).
  apply bind_Ok in Hc as (gw & Hgw & Hc). rewrite bind_unit_ok, !reject_ok in Hc. destruct Hc as [H1 H2].
  apply orb_false_iff in H1 as [H1 H1']. apply orb_false_iff in H2 as [H2 _].
  apply negb_false_iff, uniqueb_true, NoDup_app in H1 as (Hnd & _ & _).
  exists gw, ips. split_and!; try done.
  - apply Forall_forall. intros a Ha. destruct (usable_in (tr_network t) a) eqn:E; [done|].
    assert (existsb (λ a, negb (usable_in (tr_network t) a)) (ips ++ extra) = true) as Hex.
    { apply existsb_exists. exists a. split; [apply list_elem_of_In, elem_of_app; by left|by rewrite E]. }
    congruence.
  - intros Hin. apply inb_false in H2. apply H2, elem_of_app. by left.
Qed.

(** C1: addressing of an accepted topology.  No two configured networks
    (management, data center, SaaS, cloud, underlays, overlays, inter-hub links,
    site LANs, transits) share an address; and on every transport each hub and
    site has an underlay address that is usable in the transport's network,
    differs from the provider gateway and belongs to it alone. *)
Theorem accepted_addressing `{PyRepr} raw source c :
  config_from_mapping raw source = Ok c →
  ForallOrdPairs disjoint (all_networks c) ∧
  ∀ tr, tr ∈ TRANSPORTS → ∃ t gw, dget (transports c) tr = Some t ∧ underlay_gateway_ip c tr = Ok gw ∧
    ∀ s, s ∈ site_names c → ∃ a, underlay_ip c s tr = Ok a ∧ usable_in (tr_network t) a = true ∧ a ≠ gw ∧
      ∀ s', s' ∈ site_names c → underlay_ip c s' tr = Ok a → s' = s.
Proof.
  intros (_ & _ & Hp & Hv)%config_from_mapping_inv. pose proof (parse_config_wf _ _ _ Hp) as [Hw _].
  apply validate_config_iff in Hv. pose proof (v_addresses _ Hv) as Ha. unfold check_addresses in Ha.
  rewrite !bind_unit_ok, check_disjoint_ok, iterM_ok in Ha. destruct Ha as (_ & Hu & _ & Hd).
  split; [by apply disjoint_networks|]. intros tr Htr.
  pose proof (v_transports _ Hv) as Ht. unfold check_transports in Ht. rewrite bind_unit_ok, reject_ok in Ht.
  destruct Ht as [Ht _]. apply negb_false_iff, bool_decide_eq_true in Ht.
  assert (dmem (transports c) tr = true) as Hm by (apply dmem_true; by rewrite Ht).
  unfold dmem in Hm. destruct (dget (transports c) tr) as [t|] eqn:E; [|done].
  rewrite Forall_forall in Hu. specialize (Hu (tr, t) (dget_In _ _ _ E)).
  destruct (check_underlay_ok _ _ _ Hu) as (gw & ips & Hgw & Hips & Hnd & Hus & Hni).
  exists t, gw. split_and!; try done. intros s Hs.
  destruct (mapM_result_elem _ _ _ _ Hips Hs) as (a & Hfa & Hin). rewrite Forall_forall in Hus.
  exists a. split_and!; [done|by apply Hus|intros ->; done|]. intros s' Hs' Hfa'.
  by eapply (mapM_result_inj (λ s, underlay_ip c s tr)).
Qed.

Lemma accepted_addressing_witness :
  underlay_ip core_config "site1" "bb" ≠ underlay_ip core_config "hub1" "bb" ∧
  ∃ gw, underlay_gateway_ip core_config "bb" = Ok gw.
Proof.
  destruct (accepted_addressing core_raw "topology.core.yaml" core_config core_accepted) as [_ Ha].
  destruct (Ha "bb") as (t & gw & _ & Hgw & Hs); [apply inb_true; reflexivity|].
  split; [|exists gw; exact Hgw].
  destruct (Hs "site1") as (a & H1 & _ & _ & Hu); [apply inb_true; reflexivity|].
  rewrite H1. intros E. assert ("hub1" = "site1") as Hne; [|discriminate Hne].
  apply Hu; [apply inb_true; reflexivity|symmetry; exact E].
Defined.

(** the port allocation cannot collide.  With hub1 and hub2 as hubs, sites
    that carry no hub's name, and distinct WireGuard indices of at least two, the
    listen ports of all spoke tunnels, hub ends and inter-hub links are pairwise
    distinct: each site owns a block of 64 ports and each interface a slot of
    its block. *)
Theorem port_allocation_collision_free c ports :
  dkeys (hubs c) = HUBS → dict_wf (sites c) → targets_named c →
  (∀ s, s ∈ dkeys (sites c) → s ∉ HUBS) →
  NoDup (map wireguard_index (site_list c)) → Forall (λ s, 2 <= wireguard_index s) (site_list c) →
  wireguard_ports c = Ok ports → NoDup ports.
Proof.
  intros Hh Hw Hn Ha Hi Hm ->%wireguard_ports_eq; try done. apply NoDup_map; [|by apply listeners_NoDup].
  assert (Hslot : ∀ p, p ∈ spoke_blocks (site_list c) ++ hub_listeners → 0 <= p.2 < 64).
  { intros [b i] [Hb|Hb]%elem_of_app.
    - apply spoke_blocks_elem in Hb as [_ Hb]. unfold spoke_slots in Hb. rewrite !elem_of_cons, elem_of_nil in Hb.
      simpl. lia.
    - unfold hub_listeners in Hb. rewrite !elem_of_cons, elem_of_nil in Hb.
      destruct_or!; try (injection Hb; intros; simpl; lia); done. }
  intros [a i] [b j] Hx%Hslot Hy%Hslot. unfold port_of. simpl in *. intros E.
  assert (a = b ∧ i = j) as [-> ->] by lia. done.
Qed.

Lemma port_allocation_collision_free_witness :
  ∃ ports, wireguard_ports core_config = Ok ports ∧ length ports = 42%nat ∧ NoDup ports.
Proof.
  eexists. split; [vm_compute; reflexivity|]. split; [reflexivity|].
  apply (port_allocation_collision_free core_config).
  - reflexivity.
  - apply uniqueb_true. reflexivity.
  - apply (accepted_document core_raw "topology.core.yaml" core_config core_accepted).
  - intros s Hs. apply inb_false. apply list_elem_of_In in Hs. simpl in Hs.
    repeat (destruct Hs as [<-|Hs]; [reflexivity|]). contradiction.
  - apply uniqueb_true. reflexivity.
  - repeat (apply Forall_cons; split; [vm_compute; discriminate|]). constructor.
  - vm_compute. reflexivity.
Defined.

(** The settings part of the validator, as inequalities. *)
Lemma check_settings_ok c :
  check_settings c = Ok tt →
  let s := settings c in
  thresholds_ok (s_suspect_failures s) (s_failed_failures s) (s_recovery_successes s) (s_hold_down_s s)
    (stale_after_seconds (cfg_measurement c)) = true ∧
  (0 < s_drain_timeout_s s)%Q ∧ measurement_tuning_validate (cfg_measurement c) = Ok tt ∧
  selection_tuning_validate (path_selection c) = Ok tt.
Proof.
  unfold check_settings. rewrite !bind_unit_ok, !reject_ok. intros Hs.
  destruct_and!. repeat match goal with H : _ || _ = false |- _ => apply orb_false_iff in H as [? ?] end.
  repeat match goal with
  | H : negb _ = false |- _ => apply negb_false_iff in H
  | H : _ && _ = true |- _ => apply andb_true_iff in H as [? ?]
  | H : Qleb _ _ = false |- _ => apply Qleb_false in H
  | H : Qltb _ _ = true |- _ => apply Qltb_true in H
  | H : Qleb _ _ = true |- _ => apply Qleb_true in H
  | H : Qltb _ _ = false |- _ => apply Qltb_false in H
  end.
  split_and!.
  - unfold thresholds_ok. rewrite !andb_true_iff, Qleb_true, Qltb_true. split_and!; lra || lia.
  - done.
  - apply tuning_bounds. split_and!; lra || lia.
  - apply selection_tuning_bounds. split_and!; lra || lia.
Qed.

Lemma check_class_ok c k :
  check_class c k = Ok tt →
  ∃ sla w, dget (application_slas c) k = Some sla ∧ dget (path_scoring c) k = Some w ∧
    weights_validate w = Ok tt.
Proof.
  unfold check_class, of_option. intros Hc. apply bind_Ok in Hc as (sla & Hsla & Hc).
  rewrite !bind_unit_ok in Hc. destruct Hc as (_ & _ & _ & Hc). apply bind_Ok in Hc as (w & Hw & Hc).
  destruct (dget (application_slas c) k); [|done]. destruct (dget (path_scoring c) k); [|done].
  injection Hsla as <-. injection Hw as <-. eauto.
Qed.



(** [validate_config] does not look at the transport bandwidths: a topology with
    a zero-capacity transport is accepted, although a metric window for it
    cannot be built. *)
Definition zero_bandwidth (t : Transport) : Transport := {|
  tr_name := tr_name t; tr_switch := tr_switch t; dpid := dpid t; tr_network := tr_network t;
  bandwidth_mbps := 0; delay_ms := delay_ms t; tr_jitter_ms := tr_jitter_ms t;
  tr_loss_pct := tr_loss_pct t; tr_cost := tr_cost t; internet_capable := internet_capable t;
  route_slot := route_slot t; tr_route_table := tr_route_table t |}.

Definition with_transports (c : TopologyConfig) (ts : dict string Transport) : TopologyConfig := {|
  cfg_source := cfg_source c; edge_image := edge_image c; host_image := host_image c;
  controller := controller c; management_network := management_network c;
  management_switch := management_switch c; transports := ts; targets := targets c;
  hubs := hubs c; sites := sites c; settings := settings c; features := features c;
  cfg_measurement := cfg_measurement c; application_slas := application_slas c;
  path_scoring := path_scoring c; path_selection := path_selection c;
  data_center_network := data_center_network c; data_center_app_ip := data_center_app_ip c;
  data_center_switch := data_center_switch c; data_center_app_name := data_center_app_name c;
  data_center_hub_ips := data_center_hub_ips c; saas_network := saas_network c; saas_ip := saas_ip c;
  saas_switch := saas_switch c; saas_app_name := saas_app_name c;
  saas_gateway_name := saas_gateway_name c; saas_gateway_ip := saas_gateway_ip c;
  saas_transport_ips := saas_transport_ips c; cloud_vpc := cloud_vpc c;
  interhub_networks := interhub_networks c |}.

Lemma bandwidth_not_validated :
  validate_config (with_transports core_config (dmap zero_bandwidth (transports core_config))) = Ok tt ∧
  is_ok (MetricWindow_init (cfg_measurement core_config) 0) = false.
Proof. split; [vm_cast_no_check (eq_refl (Ok tt))|reflexivity]. Qed.
