(* ===== verification/EdgeAgent.v ===== *)
(** * The edge agent ([edge_agent_v5.py])

    Reconciliation of desired state, policy installation and the command
    sequences that actuate them.  Linux is an oracle: [exec history command]
    gives the error text of a failing command, [None] for success; the agent's
    state records the commands that succeeded.  Starting the classifier and the
    collector processes is left to the oracle [start_classifier]. *)
From Stdlib Require Import Ascii.
From S2P Require Import Prelude Net Marks PathSelection Model Json LocalFailover.
Local Open Scope string_scope.
Local Open Scope list_scope.
Local Open Scope Z_scope.

Definition command : Type := list string.

Record ReconciliationResult := {
  rr_status : string; rr_desired_state_version : Z; rr_route_version : Z; rr_detail : string
}.

Record ClassMarkRule := {
  application_class : string; cm_prefix : string; cm_mark : Z; protocol : option string;
  destination_ports : list Z; dscp : option Z; blocked : bool
}.

#[export] Instance ClassMarkRule_eq_dec : EqDecision ClassMarkRule.
Proof. solve_decision. Defined.

(** [last-confirmed.json] *)
Record LocalState := { desired_state_version : Z; ls_route_version : Z; digest : string }.

(** [steering-rules.json] *)
Record Steering := {
  lan_interface : string; prefix_marks : list (string * Z); default_mark : Z; queue_number : Z;
  rules : list ClassMarkRule
}.

Record Agent := {
  ag_site : string; ag_config : TopologyConfig; ag_edge_node : string;
  system_runner : bool; private_key : string; private_key_exists : bool;
  local_state : LocalState; saved_state : option LocalState;
  event_queue : list LocalFailoverEvent; steering : option Steering; commands : list command
}.

Definition initial_state : LocalState := {| desired_state_version := 0; ls_route_version := 0; digest := "" |}.

(** [EdgeAgent.__init__]: the saved files are arguments. *)
Definition EdgeAgent_init (site : string) (c : TopologyConfig) (sys : bool) (key : string) (key_exists : bool)
    (confirmed : option LocalState) (queue : list LocalFailoverEvent) (st : option Steering) : result Agent :=
  let site := if dmem (hubs c) site then site
              else match logical_site c site with Ok s => s | Err _ => site end in
  _ ← raise_if (negb (dmem (sites c) site) && negb (dmem (hubs c) site)) ValueError "unknown edge site";
  node ← (if dmem (sites c) site then edge_node c site else Ok site);
  Ok {| ag_site := site; ag_config := c; ag_edge_node := node; system_runner := sys; private_key := key;
        private_key_exists := key_exists; local_state := default initial_state confirmed;
        saved_state := confirmed; event_queue := queue; steering := st; commands := [] |}.

Definition set_commands (a : Agent) (cs : list command) : Agent := {|
  ag_site := ag_site a; ag_config := ag_config a; ag_edge_node := ag_edge_node a;
  system_runner := system_runner a; private_key := private_key a;
  private_key_exists := private_key_exists a; local_state := local_state a; saved_state := saved_state a;
  event_queue := event_queue a; steering := steering a; commands := cs |}.

Definition set_local_state (a : Agent) (ls : LocalState) : Agent := {|
  ag_site := ag_site a; ag_config := ag_config a; ag_edge_node := ag_edge_node a;
  system_runner := system_runner a; private_key := private_key a;
  private_key_exists := private_key_exists a; local_state := ls; saved_state := Some ls;
  event_queue := event_queue a; steering := steering a; commands := commands a |}.

Definition set_events (a : Agent) (es : list LocalFailoverEvent) : Agent := {|
  ag_site := ag_site a; ag_config := ag_config a; ag_edge_node := ag_edge_node a;
  system_runner := system_runner a; private_key := private_key a;
  private_key_exists := private_key_exists a; local_state := local_state a; saved_state := saved_state a;
  event_queue := es; steering := steering a; commands := commands a |}.

Definition set_steering (a : Agent) (s : Steering) : Agent := {|
  ag_site := ag_site a; ag_config := ag_config a; ag_edge_node := ag_edge_node a;
  system_runner := system_runner a; private_key := private_key a;
  private_key_exists := private_key_exists a; local_state := local_state a; saved_state := saved_state a;
  event_queue := event_queue a; steering := Some s; commands := commands a |}.

(** [try: m except CommandError as exc: handler(str(exc))] *)
Definition catch_command {S A} (m : M S A) (handler : string → M S A) : M S A := λ s,
  match m s with
  | (Err e, s') => if bool_decide (exn_cls e = CommandError) then handler (exn_msg e) s' else (Err e, s')
  | r => r
  end.

Definition raiseM {S A} (c : exn_class) (msg : string) : M S A := lift (raise c msg).
Definition guard {S} (bad : bool) (c : exn_class) (msg : string) : M S unit := lift (raise_if bad c msg).

Section agent.
Context `{PyRepr}.
Context (exec : list command → command → option string).
Context (start_classifier : Z → result unit).

(** [self._run( *command )] *)
Definition run (cmd : command) : M Agent unit := λ a,
  match exec (commands a) cmd with
  | None => (Ok tt, set_commands a (commands a ++ [cmd]))
  | Some text => (Err (Exn CommandError text), a)
  end.

Definition config : M Agent TopologyConfig := a ← get; mret (ag_config a).

Definition ensure_chain (table chain : string) : M Agent unit :=
  a ← get;
  let create := run ["iptables"; "-t"; table; "-N"; chain] in
  if negb (system_runner a) then create
  else catch_command create (λ text,
         if negb (contains "Chain already exists" text) then raiseM CommandError text else mret tt).

Definition ensure_rule (table chain : string) (rule : command) : M Agent unit :=
  a ← get;
  let append := run (["iptables"; "-t"; table; "-A"; chain] ++ rule) in
  if negb (system_runner a) then append
  else catch_command (run (["iptables"; "-t"; table; "-C"; chain] ++ rule)) (λ text,
         if negb (contains "Bad rule" text) && negb (contains "does a matching rule exist" text)
         then raiseM CommandError text else append).

(** ** Connection marks *)

Definition mangle_append (chain : string) (rest : command) : command :=
  ["iptables"; "-t"; "mangle"; "-A"; chain] ++ rest.

Definition class_match (connection_mask : string) (r : ClassMarkRule) : result command :=
  d ← match dscp r with
      | None => Ok []
      | Some v => if (0 <=? v) && (v <=? 63) then Ok ["-m"; "dscp"; "--dscp"; str_Z v]
                  else raise ValueError "DSCP must be between 0 and 63"
      end;
  Ok (["-m"; "mark"; "--mark"; "0/" +:+ connection_mask; "-d"; cm_prefix r]
      ++ match protocol r with Some p => if nonempty p then ["-p"; p] else [] | None => [] end
      ++ (if bool_decide (destination_ports r = []) then []
          else ["-m"; "multiport"; "--dports"; join "," (map str_Z (destination_ports r))])
      ++ d).

Definition set_xmark (mark : Z) (mask : string) : command :=
  ["-j"; "MARK"; "--set-xmark"; py_hex mark +:+ "/" +:+ mask].

Definition MARK_CHAIN : string := "SDWAN_V5_MARK".

Definition connmark (direction mask : string) : command :=
  ["-j"; "CONNMARK"; direction; "--nfmask"; mask; "--ctmask"; mask].

Definition install_connmark_rules (lan : string) (prefixes : list (string * Z)) (default_mark queue : Z)
    (class_marks : list ClassMarkRule) : M Agent unit :=
  c ← config;
  let m := marks (settings c) in
  let cmask := py_hex (connection_mask m) in
  let amask := py_hex (affinity_mask m) in
  let append rest := run (mangle_append MARK_CHAIN rest) in
  let unmarked := ["-m"; "mark"; "--mark"; "0/" +:+ cmask] in
  _ ← ensure_chain "mangle" MARK_CHAIN;
  _ ← ensure_rule "mangle" "PREROUTING" ["-i"; lan; "-j"; MARK_CHAIN];
  _ ← run ["iptables"; "-t"; "mangle"; "-F"; MARK_CHAIN];
  _ ← append (connmark "--restore-mark" cmask);
  _ ← forM (λ r, mt ← lift (class_match cmask r);
                 if blocked r then mret tt else append (mt ++ set_xmark (cm_mark r) amask)) class_marks;
  _ ← forM (λ p, append (unmarked ++ ["-d"; p.1] ++ set_xmark p.2 amask)) prefixes;
  _ ← append (unmarked ++ set_xmark default_mark amask);
  _ ← append ["-m"; "mark"; "--mark"; "0/" +:+ py_hex (terminal_bit m); "-j"; "NFQUEUE";
              "--queue-num"; str_Z queue; "--queue-bypass"];
  append (connmark "--save-mark" cmask).

(** ** Return-path affinity *)

Definition IN_CHAIN : string := "SDWAN_V5_RPA_IN".
Definition OUT_CHAIN : string := "SDWAN_V5_RPA_OUT".

Definition install_return_path_affinity (interface_marks : dict string Z) : M Agent unit :=
  _ ← guard (bool_decide (interface_marks = [])) ValueError
        "return-path affinity requires at least one path interface";
  c ← config;
  let m := marks (settings c) in
  let cmask := py_hex (connection_mask m) in
  let amask := py_hex (affinity_mask m) in
  let smask := py_hex (Z.lor (affinity_mask m) (terminal_bit m)) in
  _ ← ensure_chain "mangle" IN_CHAIN;
  _ ← ensure_chain "mangle" OUT_CHAIN;
  _ ← ensure_rule "mangle" "PREROUTING" ["-j"; IN_CHAIN];
  _ ← ensure_rule "mangle" "POSTROUTING" ["-j"; OUT_CHAIN];
  _ ← run ["iptables"; "-t"; "mangle"; "-F"; IN_CHAIN];
  _ ← run ["iptables"; "-t"; "mangle"; "-F"; OUT_CHAIN];
  _ ← run (mangle_append IN_CHAIN (connmark "--restore-mark" cmask));
  _ ← forM (λ p,
        _ ← guard ((p.2 <=? 0) || truthy (Z.land p.2 (Z.lnot (affinity_mask m)))) ValueError
              ("invalid return-affinity mark for " +:+ p.1);
        let stamped := py_hex (Z.lor p.2 (terminal_bit m)) +:+ "/" +:+ smask in
        run (mangle_append IN_CHAIN (["-i"; p.1; "-m"; "conntrack"; "--ctstate"; "NEW"; "-m"; "mark"; "--mark";
               "0/" +:+ amask; "-j"; "MARK"; "--set-xmark"; stamped]))) interface_marks;
  _ ← run (mangle_append IN_CHAIN (connmark "--save-mark" cmask));
  forM (λ p,
    let stamped := py_hex (Z.lor p.2 (terminal_bit m)) +:+ "/" +:+ smask in
    let fresh := ["-o"; p.1; "-m"; "conntrack"; "--ctstate"; "NEW"; "-m"; "mark"; "--mark"] in
    _ ← run (mangle_append OUT_CHAIN (fresh ++ ["0/" +:+ amask; "-j"; "MARK"; "--set-xmark"; stamped]));
    run (mangle_append OUT_CHAIN (fresh ++ [stamped] ++ connmark "--save-mark" cmask))) interface_marks.

Definition hub_bit (m : MarkLayout) (hub : string) : Z :=
  if String.eqb hub "hub1" then hub1_bit m else hub2_bit m.

Definition install_spoke_return_affinity : M Agent unit :=
  a ← get; c ← config;
  _ ← guard (negb (dmem (sites c) (ag_site a))) ValueError
        "spoke return affinity may be installed only on a spoke";
  let m := marks (settings c) in
  marks_ ← lift (foldM (λ acc p,
      t ← Model.target c p.1 (tr_name p.2);
      Ok (dset acc (interface_name t) (Z.lor (route_slot p.2) (hub_bit m p.1)))) []
    (flat_map (λ h, map (λ t, (h, t)) (transport_list c)) HUBS));
  install_return_path_affinity marks_.

Definition install_hub_return_affinity : M Agent unit :=
  a ← get; c ← config;
  _ ← guard (negb (dmem (hubs c) (ag_site a))) ValueError "hub return affinity may be installed only on a hub";
  let m := marks (settings c) in
  install_return_path_affinity
    (dict_of (map (λ t, ("wg-spokes-" +:+ tr_name t, Z.lor (route_slot t) (hub_bit m (ag_site a))))
                (transport_list c))).

(** ** Policy rules and NAT *)

Definition ignore_missing (text : string) : M Agent unit :=
  if negb (contains "No such file" text) && negb (contains "Cannot find" text)
  then raiseM CommandError text else mret tt.

Definition delete_rule (priority : Z) : M Agent unit :=
  catch_command (run ["ip"; "rule"; "del"; "priority"; str_Z priority]) ignore_missing.

Definition replace_owned_rule (priority : Z) (mark : string) (table : Z) : M Agent unit :=
  _ ← delete_rule priority;
  run ["ip"; "rule"; "add"; "priority"; str_Z priority; "fwmark"; mark; "lookup"; str_Z table].

Definition hub_rule_mark (m : MarkLayout) (hub : string) (t : Transport) : string :=
  str_Z (Z.lor (route_slot t) (hub_bit m hub)) +:+ "/" +:+ str_Z (Z.lor (route_mask m) (target_hub_mask m)).

Definition install_policy_rules : M Agent unit :=
  c ← config;
  let m := marks (settings c) in
  _ ← forM (λ t, replace_owned_rule (2000 + route_slot t)
                   (str_Z (route_slot t) +:+ "/" +:+ str_Z (route_mask m)) (tr_route_table t)) (transport_list c);
  forM (λ hub, forM (λ t,
    tg ← lift (Model.target c hub (tr_name t));
    _ ← delete_rule (1000 + tt_route_table tg);
    replace_owned_rule (tt_route_table tg) (hub_rule_mark m hub t) (tt_route_table tg)) (transport_list c)) HUBS.

Definition install_hub_policy_rules : M Agent unit :=
  a ← get; c ← config;
  _ ← guard (negb (dmem (hubs c) (ag_site a))) ValueError "hub policy rules may be installed only on a hub";
  let m := marks (settings c) in
  forM (λ t,
    tg ← lift (Model.target c (ag_site a) (tr_name t));
    replace_owned_rule (tt_route_table tg) (hub_rule_mark m (ag_site a) t) (tt_route_table tg))
    (transport_list c).

Definition DIRECT_NAT : string := "SDWAN_V5_DIRECT_NAT".

Definition install_scoped_direct_nat (lan_prefix : string) (uplinks : dict string string) : M Agent unit :=
  c ← config;
  let m := marks (settings c) in
  _ ← ensure_chain "nat" DIRECT_NAT;
  _ ← ensure_rule "nat" "POSTROUTING" ["-s"; lan_prefix; "-j"; DIRECT_NAT];
  _ ← forM (λ n, ensure_rule "nat" DIRECT_NAT ["-d"; network_str n; "-j"; "RETURN"]) (protected_private_prefixes c);
  forM (λ p,
    _ ← guard (negb match dget (transports c) p.1 with Some t => internet_capable t | None => false end)
          ValueError "only configured Internet-capable Broadband/LTE uplinks may NAT";
    ensure_rule "nat" DIRECT_NAT ["-m"; "mark"; "--mark";
      str_Z (direct_internet_bit m) +:+ "/" +:+ str_Z (egress_mask m); "-o"; p.2; "-j"; "MASQUERADE"]) uplinks.

(** ** Policy snapshots *)

(** [mapping.get(key, ())] iterated as texts. *)
Definition str_items (j : json) (k : string) : result (list string) :=
  v ← get_default j k (JList []); items ← items_of v; Ok (map py_str items).

(** [intent.get("candidate_transports", intent.get("ranked_transports", ()))] *)
Definition candidates_of (intent : json) : result (list string) :=
  ranked ← get_default intent "ranked_transports" (JList []);
  v ← get_default intent "candidate_transports" ranked;
  items ← items_of v; Ok (map py_str items).

Definition transport_of (c : TopologyConfig) (name : string) : result Transport := get_transport c name.

(** The first Internet-capable transport of the ranking. *)
Fixpoint first_internet (c : TopologyConfig) (ranked : list string) : result (option (string * Transport)) :=
  match ranked with
  | [] => Ok None
  | name :: rest =>
      t ← transport_of c name;
      if internet_capable t then Ok (Some (name, t)) else first_internet c rest
  end.

(** The first ranked transport with an active target at a known hub. *)
Fixpoint first_active (active : json) (ranked : list string) : result (option (string * string)) :=
  match ranked with
  | [] => Ok None
  | name :: rest =>
      o ← get_opt active name;
      match o with
      | Some (JObj tgt) =>
          let hub := match dget tgt "hub" with Some v => py_str v | None => "None" end in
          if inb hub HUBS then Ok (Some (name, hub)) else first_active active rest
      | _ => first_active active rest
      end
  end.

Definition intent_mark (c : TopologyConfig) (desired intent : json) : result (Z * string * EgressMode) :=
  let m := marks (settings c) in
  allowed ← str_items intent "allowed_egress";
  ranked ← candidates_of intent;
  _ ← raise_if (bool_decide (ranked = [])) ValueError "policy intent has no candidate transport";
  direct ← (if inb (egress_value DIRECT_INTERNET) allowed then first_internet c ranked else Ok None);
  match direct with
  | Some (name, t) =>
      mark ← encode m (route_slot t) UNKNOWN false None DIRECT_INTERNET;
      Ok (mark, name, DIRECT_INTERNET)
  | None =>
      overlay ← (if inb (egress_value HUB_OVERLAY) allowed
                 then active ← get_default desired "active_target_by_slot" (JObj []); first_active active ranked
                 else Ok None);
      match overlay with
      | Some (name, hub) =>
          t ← transport_of c name;
          mark ← encode m (route_slot t) UNKNOWN false (Some hub) HUB_OVERLAY;
          Ok (mark, name, HUB_OVERLAY)
      | None => raise ValueError "policy intent has no locally usable egress target"
      end
  end.

(** [mapping.get(key, {}) if isinstance(mapping, Mapping) else {}] *)
Definition sub_mapping (j : json) (k : string) : json :=
  match j with JObj d => match dget d k with Some v => v | None => JObj [] end | _ => JObj [] end.

(** [match.get(key)] when [match] is a mapping, [None] otherwise or for null. *)
Definition present (m : json) (k : string) : option json :=
  match m with
  | JObj d => match dget d k with Some JNull | None => None | Some v => Some v end
  | _ => None
  end.

Definition class_rule (policy : json) (prefix : string) (mark : Z) (application_class : string)
    : result ClassMarkRule :=
  let m := sub_mapping (sub_mapping policy application_class) "match" in
  ports ← match present m "destination_port" with
          | Some p => Ok [p]
          | None => match m with JObj d => match dget d "destination_ports" with
                                           | Some v => items_of v | None => Ok [] end
                    | _ => Ok [] end
          end;
  ports ← mapM_result py_int ports;
  ds ← match present m "dscp" with Some v => n ← py_int v; Ok (Some n) | None => Ok None end;
  Ok {| application_class := application_class; cm_prefix := prefix; cm_mark := mark;
        protocol := match present m "transport_protocol" with
                    | Some v => if py_truth v then Some (py_str v) else None | None => None end;
        destination_ports := ports; dscp := ds; blocked := false |}.

(** What the loop over the intents accumulates. *)
Record Installed := {
  in_prefixes : list (string * Z); in_classes : list ClassMarkRule; in_overlay : dict string (list string)
}.

Definition seen_prefix (acc : Installed) (prefix : string) : bool := inb prefix (map fst (in_prefixes acc)).

Definition direct_route (c : TopologyConfig) (node prefix candidate : string) : M Agent unit :=
  t ← lift (transport_of c candidate);
  _ ← guard (negb (internet_capable t)) ValueError "direct Internet candidates must be Internet-capable";
  gw ← lift (underlay_gateway_ip c candidate);
  run ["ip"; "route"; "replace"; prefix; "via"; addr_str gw; "dev"; node +:+ "-" +:+ candidate; "onlink";
       "table"; str_Z (tr_route_table t)].

(** [prefixes.setdefault(interface, []).append(prefix)] *)
Definition add_overlay (d : dict string (list string)) (interface prefix : string) : dict string (list string) :=
  dset d interface (default [] (dget d interface) ++ [prefix]).

Definition overlay_routes (c : TopologyConfig) (prefix : string) (candidates : list string)
    (acc : dict string (list string)) : M Agent (dict string (list string)) :=
  (fix go (ps : list (string * string)) (acc : dict string (list string)) : M Agent (dict string (list string)) :=
     match ps with
     | [] => mret acc
     | (candidate, hub) :: ps' =>
         t ← lift (Model.target c hub candidate);
         _ ← run ["ip"; "route"; "replace"; prefix; "dev"; interface_name t; "table"; str_Z (tt_route_table t)];
         go ps' (add_overlay acc (interface_name t) prefix)
     end) (flat_map (λ t, map (λ h, (t, h)) HUBS) candidates) acc.

Definition install_intent (desired policy : json) (acc : Installed) (intent : json) : M Agent Installed :=
  a ← get; c ← config;
  _ ← guard (negb (is_mapping intent)) ValueError "policy destination intent must be an object";
  p ← lift (get_default intent "prefix" (JStr ""));
  let prefix := py_str p in
  _ ← guard (negb (nonempty prefix) || seen_prefix acc prefix) ValueError
        "policy destination prefixes must be unique and nonempty";
  im ← lift (intent_mark c desired intent);
  let '(mark, _, egress) := im in
  candidates ← lift (candidates_of intent);
  classes ← lift (str_items intent "application_classes");
  new ← lift (mapM_result (class_rule policy prefix mark) classes);
  overlay ← match egress with
            | DIRECT_INTERNET =>
                n ← lift (ip_network prefix);
                _ ← guard (negb (subnet_of n (saas_network c))) ValueError
                      "direct Internet policy is limited to the simulated SaaS network";
                _ ← forM (direct_route c (ag_edge_node a) prefix) candidates;
                mret (in_overlay acc)
            | HUB_OVERLAY => overlay_routes c prefix candidates (in_overlay acc)
            | CLOUD_GATEWAY => mret (in_overlay acc)
            end;
  mret {| in_prefixes := in_prefixes acc ++ [(prefix, mark)]; in_classes := in_classes acc ++ new;
          in_overlay := overlay |}.

Fixpoint install_intents (desired policy : json) (acc : Installed) (intents : list json) : M Agent Installed :=
  match intents with
  | [] => mret acc
  | i :: rest => acc ← install_intent desired policy acc i; install_intents desired policy acc rest
  end.

(** [sorted(set)] of texts *)
Definition sorted_set (l : list string) : list string :=
  sort_by String.leb (foldr (λ x acc, if inb x acc then acc else x :: acc) [] l).

(** [{str(item["name"]): item for item in desired["interfaces"]}] *)
Definition interfaces_by_name (desired : json) : result (dict string json) :=
  v ← getitem desired "interfaces"; items ← items_of v;
  foldM (λ acc i, n ← getitem i "name"; Ok (dset acc (py_str n) i)) [] items.

Definition ensure_hub_overlay_allowed_ips (desired : json) (by_interface : dict string (list string))
    : M Agent unit :=
  interfaces ← lift (interfaces_by_name desired);
  forM (λ p : string * list string,
    match dget interfaces p.1 with
    | Some (JObj item) =>
        match dget item "peers" with
        | Some (JList [JObj peer]) =>
            ips ← lift (str_items (JObj peer) "allowed_ips");
            key ← lift (getitem (JObj peer) "public_key");
            keep ← lift (getitem (JObj peer) "keepalive_s");
            run ["wg"; "set"; p.1; "peer"; py_str key; "allowed-ips"; join "," (sorted_set (ips ++ p.2));
                 "persistent-keepalive"; py_str keep]
        | _ => raiseM ValueError "spoke hub-overlay interface must have exactly one peer"
        end
    | _ => raiseM ValueError "hub-overlay policy names an unknown WireGuard interface"
    end) by_interface.

(** [x == text] for a JSON value and a string *)
Definition is_text (v : option json) (s : string) : bool :=
  match v with Some (JStr t) => String.eqb t s | _ => false end.

Definition install_spoke_dataplane (desired snapshot : json) : M Agent unit :=
  a ← get; c ← config;
  site ← lift (get_opt snapshot "site");
  _ ← guard (negb (is_text site (ag_site a))) ValueError "policy snapshot belongs to another site";
  intents ← lift (get_opt snapshot "destination_intents");
  default_intent ← lift (get_opt snapshot "default_intent");
  match intents, default_intent with
  | Some (JList intents), Some (JObj default_intent) =>
      policy ← lift (get_default snapshot "application_policy" (JObj []));
      acc ← install_intents desired policy {| in_prefixes := []; in_classes := []; in_overlay := [] |} intents;
      _ ← ensure_hub_overlay_allowed_ips desired (in_overlay acc);
      dm ← lift (intent_mark c desired (JObj default_intent));
      let default_mark := dm.1.1 in
      _ ← install_policy_rules;
      _ ← install_spoke_return_affinity;
      s ← lift (get_site c (ag_site a));
      _ ← install_scoped_direct_nat (network_str (lan_network s))
            [("bb", ag_edge_node a +:+ "-bb"); ("lte", ag_edge_node a +:+ "-lte")];
      _ ← lift (start_classifier 4100);
      let lan := (ag_edge_node a +:+ "-lan")%string in
      _ ← install_connmark_rules lan (in_prefixes acc) default_mark 4100 (in_classes acc);
      a ← get;
      put (set_steering a {| lan_interface := lan; prefix_marks := in_prefixes acc;
                             default_mark := default_mark; queue_number := 4100; rules := in_classes acc |})
  | _, _ => raiseM ValueError "policy snapshot lacks destination intents"
  end.

(** ** Hubs *)

(** [net.version == 4 and net.subnet_of(ip_network("10.0.0.0/8"))] *)
Definition private_8 : network := Network (10 * 2 ^ 24) 8.

(** The prefixes of one interface's peers that are private networks. *)
Definition peer_prefixes (interface : json) : result (list string) :=
  name ← get_default interface "name" (JStr "");
  if negb (String.prefix "wg-spokes-" (py_str name)) then Ok []
  else
    peers ← get_default interface "peers" (JList []); peers ← items_of peers;
    lists ← mapM_result (λ peer, str_items peer "allowed_ips") peers;
    Ok (flat_map (λ text, match ip_network text with
                          | Ok n => if subnet_of n private_8 then [network_str n] else []
                          | Err _ => [] end) (concat lists)).

Definition hub_private_prefixes (c : TopologyConfig) (desired : option json) : result (list string) :=
  let own := map (λ s, network_str (lan_network s)) (site_list c) in
  match desired with
  | Some d =>
      if py_truth d then
        v ← get_default d "interfaces" (JList []); items ← items_of v;
        extra ← mapM_result peer_prefixes items;
        Ok (sorted_set (own ++ concat extra))
      else Ok (sorted_set own)
  | None => Ok (sorted_set own)
  end.

Definition HUB_NAT : string := "SDWAN_V5_HUB_NAT".

Definition install_hub_backhaul (start_collector : result unit) (desired : option json) : M Agent unit :=
  a ← get; c ← config;
  _ ← guard (negb (dmem (hubs c) (ag_site a))) ValueError "hub backhaul may be installed only on a hub";
  prefixes ← lift (hub_private_prefixes c desired);
  _ ← forM (λ p, run ["ip"; "route"; "replace"; p; "dev"; "wg-spokes-mpls"]) prefixes;
  _ ← install_hub_policy_rules;
  _ ← install_hub_return_affinity;
  _ ← lift start_collector;
  _ ← ensure_chain "nat" HUB_NAT;
  _ ← forM (λ p, ensure_rule "nat" "POSTROUTING" ["-s"; p; "-j"; HUB_NAT]) prefixes;
  _ ← run ["iptables"; "-t"; "nat"; "-F"; HUB_NAT];
  source ← lift (of_option (dget (data_center_hub_ips c) (ag_site a)) KeyError (ag_site a));
  _ ← run ["iptables"; "-t"; "nat"; "-A"; HUB_NAT; "-d"; network_str (data_center_network c); "-o";
           ag_site a +:+ "-dc"; "-j"; "SNAT"; "--to-source"; addr_str source];
  forM (λ n, run ["iptables"; "-t"; "nat"; "-A"; HUB_NAT; "-d"; network_str n; "-j"; "RETURN"])
    (protected_private_prefixes c).

(** ** Reconciliation *)

(** [",".join(peer["allowed_ips"])]: every item must be a text. *)
Definition text_list (j : json) : result (list string) :=
  items ← items_of j;
  mapM_result (λ i, match i with JStr s => Ok s | _ => raise TypeError "expected str instance" end) items.

Definition peer_command (name : string) (peer : json) : result command :=
  key ← getitem peer "public_key"; ips ← getitem peer "allowed_ips"; ips ← text_list ips;
  keep ← getitem peer "keepalive_s"; endpoint ← get_opt peer "endpoint";
  Ok (["wg"; "set"; name; "peer"; py_str key; "allowed-ips"; join "," ips; "persistent-keepalive"; py_str keep]
      ++ match endpoint with
         | Some e => if py_truth e then ["endpoint"; py_str e] else [] | None => [] end).

Definition apply_interface (interface : json) : M Agent unit :=
  a ← get;
  n ← lift (getitem interface "name"); addr ← lift (getitem interface "address");
  let name := py_str n in
  _ ← catch_command (run ["ip"; "link"; "add"; "dev"; name; "type"; "wireguard"])
        (λ text, if negb (contains "File exists" text) then raiseM CommandError text else mret tt);
  _ ← run ["ip"; "address"; "replace"; py_str addr; "dev"; name];
  _ ← guard (system_runner a && negb (private_key_exists a)) CommandError
        "persistent WireGuard device key is missing; enroll before reconciliation";
  port ← lift (getitem interface "listen_port");
  _ ← run ["wg"; "set"; name; "listen-port"; py_str port; "private-key"; private_key a];
  peers ← lift (getitem interface "peers"); peers ← lift (items_of peers);
  _ ← forM (λ peer, cmd ← lift (peer_command name peer); run cmd) peers;
  _ ← run ["ip"; "link"; "set"; "up"; "dev"; name];
  routes ← lift (getitem interface "routes"); routes ← lift (items_of routes);
  forM (λ prefix, table ← lift (getitem interface "route_table");
                  run ["ip"; "route"; "replace"; py_str prefix; "dev"; name; "table"; py_str table]) routes.

Definition apply_active_slot_routes (desired : json) : M Agent unit :=
  c ← config;
  interfaces ← lift (interfaces_by_name desired);
  active ← lift (get_default desired "active_target_by_slot" (JObj []));
  match active with
  | JObj slots =>
      forM (λ p,
        match dget (transports c) p.1 with
        | None => raiseM ValueError "desired state references an unknown transport"
        | Some t =>
            n ← lift (getitem p.2 "interface");
            match dget interfaces (py_str n) with
            | None => raiseM ValueError "active target does not name an applied interface"
            | Some item =>
                routes ← lift (getitem item "routes"); routes ← lift (items_of routes);
                forM (λ prefix, run ["ip"; "route"; "replace"; py_str prefix; "dev"; py_str n; "table";
                                     str_Z (tr_route_table t)]) routes
            end
        end) slots
  | _ => raiseM AttributeError "object has no attribute 'items'"
  end.

Definition outcome (status : string) (version route : Z) (detail : string) : ReconciliationResult :=
  {| rr_status := status; rr_desired_state_version := version; rr_route_version := route; rr_detail := detail |}.

(** The header fields [reconcile] reads before anything else. *)
Definition read_header (site : string) (desired : json) : result (Z * Z * string) :=
  s ← get_opt desired "site";
  let other := raise ValueError "desired state site/schema mismatch" in
  if negb (is_text s site) then other
  else
    sv ← get_default desired "schema_version" (JInt 0); sv ← py_int sv;
    if negb (sv =? 5) then other
    else
      v ← getitem desired "desired_state_version"; v ← py_int v;
      r ← getitem desired "route_version"; r ← py_int r;
      d ← getitem desired "configuration_digest";
      Ok (v, r, py_str d).

(** The mutations [reconcile] makes to the kernel. *)
Definition apply_desired (desired : json) : M Agent unit :=
  a ← get; c ← config;
  interfaces ← lift (getitem desired "interfaces"); interfaces ← lift (items_of interfaces);
  _ ← forM apply_interface interfaces;
  if dmem (sites c) (ag_site a) then apply_active_slot_routes desired else mret tt.

Definition reconcile (desired : json) : M Agent ReconciliationResult :=
  a ← get;
  h ← lift (read_header (ag_site a) desired);
  let '(version, route, dig) := h in
  let ls := local_state a in
  if version <? desired_state_version ls
  then mret (outcome "STALE" version route "older desired state rejected")
  else
    let matched := (version =? desired_state_version ls) && String.eqb dig (digest ls) in
    if route <? ls_route_version ls
    then mret (outcome "EDGE_AHEAD" version route
                 "central route version cannot overwrite newer local emergency state")
    else
      _ ← apply_desired desired;
      if matched
      then mret (outcome "MATCHED" version route "idempotent desired state re-applied to live kernel state")
      else
        a ← get;
        _ ← put (set_local_state a {| desired_state_version := version; ls_route_version := route; digest := dig |});
        mret (outcome "VERIFIED" version route "exact desired state applied").

(** ** Events *)

Definition has_event (eid : string) (es : list LocalFailoverEvent) : bool :=
  existsb (λ e, String.eqb (event_id e) eid) es.

Definition enqueue_event (e : LocalFailoverEvent) : M Agent unit :=
  a ← get;
  let es := event_queue a in
  put (set_events a (lastn 256 (if has_event (event_id e) es then es else es ++ [e]))).
End agent.

(** ** What an operation may change *)

(** Everything but the command history and the steering file. *)
Definition same_identity (a a' : Agent) : Prop :=
  ag_site a' = ag_site a ∧ ag_config a' = ag_config a ∧ ag_edge_node a' = ag_edge_node a ∧
  system_runner a' = system_runner a ∧ private_key a' = private_key a ∧
  private_key_exists a' = private_key_exists a ∧ local_state a' = local_state a ∧
  saved_state a' = saved_state a ∧ event_queue a' = event_queue a.

#[export] Instance same_identity_preorder : PreOrder same_identity.
Proof.
  split; unfold same_identity; [done|]. intros a b c H1 H2. destruct_and!.
  split_and!; etrans; eauto.
Qed.

(** On an agent of configuration [c], [m] only appends commands satisfying [P],
    whether it returns or raises. *)
Definition emits {A} (c : TopologyConfig) (P : command → Prop) (m : M Agent A) : Prop :=
  ∀ a, ag_config a = c →
    same_identity a (m a).2 ∧ ∃ cs, commands (m a).2 = commands a ++ cs ∧ Forall P cs.

Create HintDb emits.

Section emits.
Context (c : TopologyConfig) (P : command → Prop).

Lemma emits_still {A} (m : M Agent A) : (∀ a, (m a).2 = a) → emits c P m.
Proof. intros Hm a _. rewrite Hm. split; [done|]. exists []. by rewrite app_nil_r. Qed.

Lemma emits_ret {A} (x : A) : emits c P (mret x).
Proof. by apply emits_still. Qed.

Lemma emits_lift {A} (r : result A) : emits c P (lift r).
Proof. by apply emits_still. Qed.

Lemma emits_raise {A} k msg : emits c P (raiseM (A := A) k msg).
Proof. by apply emits_still. Qed.

Lemma emits_guard b k msg : emits c P (guard b k msg).
Proof. by apply emits_still. Qed.

Lemma emits_bind {A B} (m : M Agent A) (k : A → M Agent B) :
  emits c P m → (∀ x, emits c P (k x)) → emits c P (m ≫= k).
Proof.
  intros Hm Hk a Ha. destruct (Hm a Ha) as [Hi (cs & Hc & HP)]. unfold mbind, M_bind.
  destruct (m a) as [[x|e] a1]; simpl in *; [|by split; [|exists cs]].
  destruct (Hk x a1) as [Hi' (cs' & Hc' & HP')]; [by destruct Hi as (_ & -> & _)|].
  split; [by etrans|]. exists (cs ++ cs'). rewrite Hc', Hc. split; [by rewrite (assoc_L (++))|by apply Forall_app].
Qed.

Lemma emits_get {B} (k : Agent → M Agent B) :
  (∀ a, ag_config a = c → emits c P (k a)) → emits c P (get ≫= k).
Proof. intros Hk a Ha. apply (Hk a Ha a Ha). Qed.

Lemma emits_lift_bind {A B} (r : result A) (k : A → M Agent B) :
  (∀ x, r = Ok x → emits c P (k x)) → emits c P (lift r ≫= k).
Proof.
  intros Hk a Ha. unfold lift, mbind, M_bind. destruct r as [x|e]; [by apply (Hk x)|].
  split; [done|]. exists []. by rewrite app_nil_r.
Qed.

Lemma emits_guard_bind {B} b k msg (m : unit → M Agent B) :
  (b = false → emits c P (m tt)) → emits c P (guard b k msg ≫= m).
Proof.
  intros Hm. unfold guard. apply emits_lift_bind. intros [] Hb. apply Hm. unfold raise_if in Hb. by destruct b.
Qed.

Lemma emits_set_steering st : emits c P (get ≫= λ a, put (set_steering a st)).
Proof. intros a _. split; [by repeat split|]. exists []. by rewrite app_nil_r. Qed.

Lemma emits_config {B} (k : TopologyConfig → M Agent B) : emits c P (k c) → emits c P (config ≫= k).
Proof.
  intros Hk a Ha. unfold config, mbind, M_bind, get, mret, M_ret. rewrite Ha. by apply Hk.
Qed.

Lemma emits_forM {A} (f : A → M Agent unit) l : (∀ x, x ∈ l → emits c P (f x)) → emits c P (forM f l).
Proof.
  induction l as [|x l IH]; intros Hf; simpl; [apply emits_ret|]. apply emits_bind; [apply Hf; constructor|].
  intros _. apply IH. intros y Hy. apply Hf. by constructor.
Qed.

Lemma emits_catch {A} (m : M Agent A) h : emits c P m → (∀ t, emits c P (h t)) → emits c P (catch_command m h).
Proof.
  intros Hm Hh a Ha. destruct (Hm a Ha) as [Hi (cs & Hc & HP)]. unfold catch_command.
  destruct (m a) as [[x|e] a1]; simpl in *; [by split; [|exists cs]|]. case_bool_decide; [|by split; [|exists cs]].
  destruct (Hh (exn_msg e) a1) as [Hi' (cs' & Hc' & HP')]; [by destruct Hi as (_ & -> & _)|].
  split; [by etrans|]. exists (cs ++ cs'). rewrite Hc', Hc. split; [by rewrite (assoc_L (++))|by apply Forall_app].
Qed.

Lemma emits_run exec cmd : P cmd → emits c P (run exec cmd).
Proof.
  intros HP a Ha. unfold run. destruct (exec (commands a) cmd); simpl.
  - split; [done|]. exists []. by rewrite app_nil_r.
  - split; [by repeat split|]. exists [cmd]. split; [done|by apply Forall_singleton].
Qed.
End emits.

#[export] Hint Resolve emits_ret emits_lift emits_raise emits_guard : emits.

(** Decompose an operation into its commands. *)
Ltac emits_step :=
  match goal with
  | |- emits _ _ (mret _) => apply emits_ret
  | |- emits _ _ (lift _) => apply emits_lift
  | |- emits _ _ (raiseM _ _) => apply emits_raise
  | |- emits _ _ (guard _ _ _) => apply emits_guard
  | |- emits _ _ (run _ _) => apply emits_run
  | |- emits _ _ (config ≫= _) => apply emits_config
  | |- emits _ _ (get ≫= λ a, put (set_steering a _)) => apply emits_set_steering
  | |- emits _ _ (get ≫= _) => apply emits_get; intros ? ?
  | |- emits _ _ (guard _ _ _ ≫= _) => apply emits_guard_bind; intros ?
  | |- emits _ _ (lift _ ≫= _) => apply emits_lift_bind; intros ? ?
  | |- emits _ _ (_ ≫= _) => apply emits_bind; [|intros ?]
  | |- emits _ _ (forM _ _) => apply emits_forM; intros ? ?
  | |- emits _ _ (catch_command _ _) => apply emits_catch; [|intros ?]
  | |- emits _ _ (if ?b then _ else _) => destruct b eqn:?
  | |- emits _ _ (match ?x with _ => _ end) => destruct x eqn:?
  end.
Ltac emits_all := repeat (cbv zeta; emits_step; try done).

Section agent_lemmas.
Context `{PyRepr} (exec : list command → command → option string) (start : Z → result unit).
Context (c : TopologyConfig) (P : command → Prop).
Context (HP : ∀ cmd, head cmd ≠ Some "ip" → P cmd).
Context (HPrule : ∀ rest, P ("ip" :: "rule" :: rest)) (HPlink : ∀ rest, P ("ip" :: "link" :: rest)).
Context (HPaddr : ∀ rest, P ("ip" :: "address" :: rest)).
Context (HPdev : ∀ prefix rest, P ("ip" :: "route" :: "replace" :: prefix :: "dev" :: rest)).

Ltac safe := first [done | apply HPrule | apply HPlink | apply HPaddr | apply HPdev | apply HP; done].
Ltac walk := repeat (cbv zeta; first [emits_step | safe]).

Lemma emits_ensure_chain t ch : emits c P (ensure_chain exec t ch).
Proof. unfold ensure_chain. walk. Qed.

Lemma emits_ensure_rule t ch r : emits c P (ensure_rule exec t ch r).
Proof. unfold ensure_rule. walk. Qed.

Lemma emits_replace_owned_rule p m t : emits c P (replace_owned_rule exec p m t).
Proof. unfold replace_owned_rule, delete_rule, ignore_missing. walk. Qed.

Lemma emits_connmark l ps d q cs : emits c P (install_connmark_rules exec l ps d q cs).
Proof.
  unfold install_connmark_rules. walk; first [apply emits_ensure_chain|apply emits_ensure_rule].
Qed.

Lemma emits_return_path d : emits c P (install_return_path_affinity exec d).
Proof.
  unfold install_return_path_affinity. walk; first [apply emits_ensure_chain|apply emits_ensure_rule].
Qed.

Lemma emits_spoke_affinity : emits c P (install_spoke_return_affinity exec).
Proof. unfold install_spoke_return_affinity. walk. apply emits_return_path. Qed.

Lemma emits_policy_rules : emits c P (install_policy_rules exec).
Proof.
  unfold install_policy_rules, delete_rule, ignore_missing. walk; apply emits_replace_owned_rule.
Qed.

Lemma emits_direct_nat l u : emits c P (install_scoped_direct_nat exec l u).
Proof.
  unfold install_scoped_direct_nat. walk; first [apply emits_ensure_chain|apply emits_ensure_rule].
Qed.

Lemma emits_allowed_ips d b : emits c P (ensure_hub_overlay_allowed_ips exec d b).
Proof. unfold ensure_hub_overlay_allowed_ips. walk. Qed.

Lemma peer_command_head name peer cmd : peer_command name peer = Ok cmd → head cmd = Some "wg".
Proof.
  unfold peer_command. intros Hc. by inv_bind.
Qed.

Lemma emits_apply_interface i : emits c P (apply_interface exec i).
Proof.
  unfold apply_interface. walk. apply HP. by erewrite peer_command_head by eassumption.
Qed.

Lemma emits_slot_routes d : emits c P (apply_active_slot_routes exec d).
Proof. unfold apply_active_slot_routes. walk. Qed.

Lemma emits_apply_desired d : emits c P (apply_desired exec d).
Proof. unfold apply_desired. walk; [apply emits_apply_interface|apply emits_slot_routes]. Qed.

(** ** Spoke policy: what may be routed around the overlay *)

Context (HPdirect : ∀ node prefix candidate n t gw,
  ip_network prefix = Ok n → subnet_of n (saas_network c) = true →
  transport_of c candidate = Ok t → internet_capable t = true → underlay_gateway_ip c candidate = Ok gw →
  P ["ip"; "route"; "replace"; prefix; "via"; addr_str gw; "dev"; node +:+ "-" +:+ candidate; "onlink";
     "table"; str_Z (tr_route_table t)]).

Lemma emits_direct_route node prefix candidate n :
  ip_network prefix = Ok n → subnet_of n (saas_network c) = true →
  emits c P (direct_route exec c node prefix candidate).
Proof.
  intros Hn Hs. unfold direct_route. repeat emits_step. eapply HPdirect; eauto. by apply negb_false_iff.
Qed.

Lemma emits_overlay_routes prefix cands acc : emits c P (overlay_routes exec c prefix cands acc).
Proof.
  unfold overlay_routes. generalize (flat_map (λ t, map (λ h, (t, h)) HUBS) cands) as ps.
  intros ps. revert acc. induction ps as [|[t h] ps IH]; intros acc; [apply emits_ret|].
  walk.
Qed.

Lemma emits_intent d pol acc i : emits c P (install_intent exec d pol acc i).
Proof.
  unfold install_intent. walk.
  - apply emits_overlay_routes.
  - eapply emits_direct_route; [eassumption|]. by apply negb_false_iff.
Qed.

Lemma emits_intents d pol acc l : emits c P (install_intents exec d pol acc l).
Proof. revert acc. induction l as [|i l IH]; intros acc; simpl; walk; apply emits_intent. Qed.

Lemma emits_spoke_dataplane d s : emits c P (install_spoke_dataplane exec start d s).
Proof.
  unfold install_spoke_dataplane. walk;
    first [apply emits_intents|apply emits_allowed_ips|apply emits_policy_rules|apply emits_spoke_affinity
          |apply emits_direct_nat|apply emits_connmark].
Qed.
End agent_lemmas.

(** ** Reconciliation *)

Lemma apply_desired_frame `{PyRepr} exec d a :
  same_identity a (apply_desired exec d a).2 ∧ ∃ cs, commands (apply_desired exec d a).2 = commands a ++ cs.
Proof.
  destruct (emits_apply_desired exec (ag_config a) (λ _, True)) with d a as [Hi (cs & Hc & _)]; try done.
  split; [done|]. by exists cs.
Qed.

(** The recorded state [ls] already is version [v] with digest [dig]. *)
Definition recorded (ls : LocalState) (v : Z) (dig : string) : bool :=
  (v =? desired_state_version ls) && String.eqb dig (digest ls).

Lemma reconcile_cases `{PyRepr} exec d a v r dig :
  read_header (ag_site a) d = Ok (v, r, dig) →
  let ls := local_state a in
  reconcile exec d a =
    if v <? desired_state_version ls then (Ok (outcome "STALE" v r "older desired state rejected"), a)
    else if r <? ls_route_version ls
    then (Ok (outcome "EDGE_AHEAD" v r "central route version cannot overwrite newer local emergency state"), a)
    else match apply_desired exec d a with
         | (Err e, a1) => (Err e, a1)
         | (Ok _, a1) =>
             if recorded ls v dig
             then (Ok (outcome "MATCHED" v r "idempotent desired state re-applied to live kernel state"), a1)
             else (Ok (outcome "VERIFIED" v r "exact desired state applied"),
                   set_local_state a1 {| desired_state_version := v; ls_route_version := r; digest := dig |})
         end.
Proof.
  intros Hh ls. unfold reconcile, get, put, lift, mret, M_ret, mbind, M_bind. rewrite Hh. subst ls.
  destruct (v <? _); [done|]. destruct (r <? _); [done|].
  destruct (apply_desired exec d a) as [[[]|e] a1]; [|done]. unfold recorded. by destruct (_ && _).
Qed.

(** what reconciliation does in every case.  A document for another site
    or schema raises before anything changes.  An older desired state (STALE)
    and a route version behind the edge's emergency state (EDGE_AHEAD) change
    nothing and run no command.  Otherwise the desired state is applied: when a
    command fails the recorded state is untouched, in memory and on disk; when
    all succeed the known state is re-applied without being rewritten
    (MATCHED) and a new one is recorded, in memory and on disk (VERIFIED).
    Neither recorded version ever decreases, and commands are only appended. *)
Theorem reconcile_spec `{PyRepr} exec d a res a' :
  reconcile exec d a = (res, a') →
  (∃ cs, commands a' = commands a ++ cs) ∧ event_queue a' = event_queue a ∧ ag_config a' = ag_config a ∧
  desired_state_version (local_state a) ≤ desired_state_version (local_state a') ∧
  ls_route_version (local_state a) ≤ ls_route_version (local_state a') ∧
  match res with
  | Err e => local_state a' = local_state a ∧ saved_state a' = saved_state a ∧
             (is_ok (read_header (ag_site a) d) = false → a' = a)
  | Ok out =>
      ∃ dig, read_header (ag_site a) d = Ok (rr_desired_state_version out, rr_route_version out, dig) ∧
      let v := rr_desired_state_version out in let r := rr_route_version out in
      let ls := local_state a in
      (rr_status out = "STALE" ∧ v < desired_state_version ls ∧ a' = a) ∨
      (rr_status out = "EDGE_AHEAD" ∧ desired_state_version ls ≤ v ∧ r < ls_route_version ls ∧ a' = a) ∨
      (desired_state_version ls ≤ v ∧ ls_route_version ls ≤ r ∧
       ((rr_status out = "MATCHED" ∧ recorded ls v dig = true ∧ local_state a' = ls ∧ saved_state a' = saved_state a) ∨
        (rr_status out = "VERIFIED" ∧ recorded ls v dig = false ∧
         local_state a' = {| desired_state_version := v; ls_route_version := r; digest := dig |} ∧
         saved_state a' = Some (local_state a'))))
  end.
Proof.
  intros Hr. destruct (read_header (ag_site a) d) as [[[v r] dig]|e] eqn:Hh.
  - rewrite (reconcile_cases _ _ _ _ _ _ Hh) in Hr. destruct (apply_desired_frame exec d a) as [Hi (cs & Hc)].
    destruct Hi as (Hsite & Hcfg & _ & _ & _ & _ & Hls & Hss & Hev).
    destruct (Z.ltb_spec v (desired_state_version (local_state a)));
      [|destruct (Z.ltb_spec r (ls_route_version (local_state a)));
        [|destruct (apply_desired exec d a) as [[[]|e] a1]; [destruct (recorded _ v dig) eqn:Hm|]]];
      injection Hr as <- <-; simpl in *; rewrite ?Hls;
      (split; [first [by exists cs|exists []; by rewrite app_nil_r]|]).
    + split_and!; try done. exists dig. split; [done|]. by left.
    + split_and!; try done. exists dig. split; [done|]. right. by left.
    + split_and!; try done. exists dig. split; [done|]. right. right. split_and!; auto.
    + split_and!; try done. exists dig. split; [done|]. right. right. split_and!; auto.
    + by split_and!.
  - unfold reconcile, get, put, lift, mret, M_ret, mbind, M_bind in Hr. rewrite Hh in Hr.
    injection Hr as <- <-. split_and!; try done. exists []. by rewrite app_nil_r.
Qed.

(** [reconcile] called once per document, a raised error leaving the next call
    unaffected (each is one poll of the controller). *)
Fixpoint reconcile_all `{PyRepr} (exec : list command → command → option string) (ds : list json) (a : Agent)
    : list (result ReconciliationResult) * Agent :=
  match ds with
  | [] => ([], a)
  | d :: ds' => let '(r, a1) := reconcile exec d a in
                let '(rs, a2) := reconcile_all exec ds' a1 in (r :: rs, a2)
  end.

Lemma reconcile_keeps `{PyRepr} exec d a :
  let a' := (reconcile exec d a).2 in
  ag_site a' = ag_site a ∧ desired_state_version (local_state a) ≤ desired_state_version (local_state a') ∧
  ls_route_version (local_state a) ≤ ls_route_version (local_state a') ∧
  (local_state a' = local_state a ∧ saved_state a' = saved_state a ∨
   saved_state a' = Some (local_state a') ∧
   read_header (ag_site a) d =
     Ok (desired_state_version (local_state a'), ls_route_version (local_state a'), digest (local_state a'))).
Proof.
  intros a'. subst a'. destruct (read_header (ag_site a) d) as [[[v r] dig]|e] eqn:Hh.
  - rewrite (reconcile_cases _ _ _ _ _ _ Hh). destruct (apply_desired_frame exec d a) as [Hi _].
    destruct Hi as (Hsite & _ & _ & _ & _ & _ & Hls & Hss & _).
    destruct (Z.ltb_spec v (desired_state_version (local_state a))); [by split_and!; auto|].
    destruct (Z.ltb_spec r (ls_route_version (local_state a))); [by split_and!; auto|].
    destruct (apply_desired exec d a) as [[[]|e] a1]; simpl in *; rewrite ?Hls, ?Hss; [|by split_and!; auto].
    destruct (recorded _ v dig); simpl; rewrite ?Hls, ?Hss; split_and!; auto; try done; try lia.
  - unfold reconcile, get, put, lift, mret, M_ret, mbind, M_bind. rewrite Hh. split_and!; auto; done.
Qed.

Lemma reconcile_all_keeps `{PyRepr} exec ds a :
  let a' := (reconcile_all exec ds a).2 in
  ag_site a' = ag_site a ∧ desired_state_version (local_state a) ≤ desired_state_version (local_state a') ∧
  ls_route_version (local_state a) ≤ ls_route_version (local_state a') ∧
  (local_state a' = local_state a ∧ saved_state a' = saved_state a ∨
   saved_state a' = Some (local_state a') ∧ ∃ d, d ∈ ds ∧
   read_header (ag_site a) d =
     Ok (desired_state_version (local_state a'), ls_route_version (local_state a'), digest (local_state a'))).
Proof.
  revert a. induction ds as [|d ds IH]; intros a; simpl; [split_and!; auto; done|].
  destruct (reconcile_keeps exec d a) as (S1 & V1 & R1 & C1). destruct (reconcile exec d a) as [r a1]; simpl in *.
  destruct (IH a1) as (S2 & V2 & R2 & C2). destruct (reconcile_all exec ds a1) as [rs a2]; simpl in *.
  split_and!; [congruence|lia|lia|].
  destruct C2 as [(E1 & E2)|(E1 & d' & Hd & E2)].
  - rewrite E1, E2. destruct C1 as [?|[? ?]]; [by left|right]. split; [done|]. exists d. split; [constructor|done].
  - right. split; [done|]. exists d'. split; [by constructor|]. by rewrite <- S1.
Qed.

(** An edge never goes back.  After any sequence of desired-state
    documents, in any order, with any of their commands failing, the recorded
    versions are at least what they were, and the recorded state is either the
    initial one or exactly the header of one of the documents, with the copy
    on disk equal to the one in memory.  A document older than what was
    recorded is then refused without a command. *)
Theorem reconcile_never_goes_back `{PyRepr} exec ds a d v r dig :
  let a' := (reconcile_all exec ds a).2 in
  desired_state_version (local_state a) ≤ desired_state_version (local_state a') ∧
  ls_route_version (local_state a) ≤ ls_route_version (local_state a') ∧
  (local_state a' = local_state a ∧ saved_state a' = saved_state a ∨
   saved_state a' = Some (local_state a') ∧ ∃ d, d ∈ ds ∧
   read_header (ag_site a) d =
     Ok (desired_state_version (local_state a'), ls_route_version (local_state a'), digest (local_state a'))) ∧
  (read_header (ag_site a) d = Ok (v, r, dig) →
   v < desired_state_version (local_state a') ∨ r < ls_route_version (local_state a') →
   (reconcile exec d a').2 = a').
Proof.
  intros a'. destruct (reconcile_all_keeps exec ds a) as (S1 & V1 & R1 & C1). fold a' in S1, V1, R1, C1.
  split_and!; try done. rewrite <- S1. intros Hh Hlt. rewrite (reconcile_cases _ _ _ _ _ _ Hh).
  destruct (Z.ltb_spec v (desired_state_version (local_state a'))); [done|].
  destruct (Z.ltb_spec r (ls_route_version (local_state a'))); [done|lia].
Qed.

(** exact replay.  After a document was verified, receiving the same
    document again reports MATCHED and records nothing when its commands
    succeed, and changes no recorded state when one fails. *)
Theorem reconcile_idempotent `{PyRepr} exec exec' d a out a1 res a2 :
  reconcile exec d a = (Ok out, a1) → rr_status out = "VERIFIED" →
  reconcile exec' d a1 = (res, a2) →
  local_state a2 = local_state a1 ∧ saved_state a2 = saved_state a1 ∧
  match res with Ok out' => rr_status out' = "MATCHED" ∧ rr_desired_state_version out' = rr_desired_state_version out
               | Err e => (apply_desired exec' d a1).1 = Err e end.
Proof.
  intros H1 Hs H2. destruct (read_header (ag_site a) d) as [[[v r] dig]|e] eqn:Hh.
  2:{ unfold reconcile, get, put, lift, mret, M_ret, mbind, M_bind in H1. by rewrite Hh in H1. }
  pose proof (reconcile_keeps exec d a) as (S1 & _ & _ & _). rewrite H1 in S1. simpl in S1.
  rewrite (reconcile_cases _ _ _ _ _ _ Hh) in H1. rewrite <- S1 in Hh.
  rewrite (reconcile_cases _ _ _ _ _ _ Hh) in H2. destruct (apply_desired_frame exec' d a1) as [Hi _].
  destruct Hi as (_ & _ & _ & _ & _ & _ & Hls & Hss & _).
  destruct (v <? _); [injection H1 as <- <-; done|]. destruct (r <? _); [injection H1 as <- <-; done|].
  destruct (apply_desired exec d a) as [[[]|?] b]; [|done].
  destruct (recorded _ _ _); injection H1 as <- <-; [done|]. simpl in *.
  rewrite !Z.ltb_irrefl in H2. unfold recorded in H2. simpl in H2. rewrite Z.eqb_refl, String.eqb_refl in H2.
  simpl in H2. destruct (apply_desired exec' d _) as [[[]|?] b'] eqn:E; simpl in *; injection H2 as <- <-; done.
Qed.
