(* ===== verification/EdgeAgentFacts.v ===== *)
(** * The edge agent's policy installation

    What a policy snapshot can make an edge do: the marks it gives to flows, the
    rule list it installs, and the traffic it may route around the overlay; with
    the concrete runs of the agent's properties on the shipped topology. *)
From Stdlib Require Import Ascii.
From S2P Require Import Prelude Net Marks PathSelection Model Json CoreTopology EdgeAgent.
Local Open Scope string_scope.
Local Open Scope list_scope.
Local Open Scope Z_scope.

#[local] Arguments inb : simpl never.

(** ** Marks *)

Lemma first_internet_some c ranked name t :
  first_internet c ranked = Ok (Some (name, t)) →
  name ∈ ranked ∧ get_transport c name = Ok t ∧ internet_capable t = true.
Proof.
  induction ranked as [|n ranked IH]; simpl; [done|]. intros Hf. inv_bind.
  match goal with Ht : transport_of _ _ = Ok ?x |- _ => destruct (internet_capable x) eqn:E end.
  - injection Hf as -> ->. split_and!; [constructor|done|done].
  - destruct (IH Hf) as (Hin & ? & ?). split_and!; [by constructor|done|done].
Qed.

Lemma first_internet_none c ranked :
  first_internet c ranked = Ok None →
  ∀ name, name ∈ ranked → ∃ t, get_transport c name = Ok t ∧ internet_capable t = false.
Proof.
  induction ranked as [|n ranked IH]; simpl; intros Hf name Hn; [by inversion Hn|]. inv_bind.
  match goal with Ht : transport_of _ _ = Ok ?x |- _ => destruct (internet_capable x) eqn:E end; [done|].
  apply elem_of_cons in Hn as [->|Hn]; [eauto|by apply IH].
Qed.

Lemma first_active_some `{PyRepr} active ranked name hub :
  first_active active ranked = Ok (Some (name, hub)) →
  name ∈ ranked ∧ hub ∈ HUBS ∧
  ∃ tgt v, get_opt active name = Ok (Some (JObj tgt)) ∧ dget tgt "hub" = Some v ∧ py_str v = hub.
Proof.
  induction ranked as [|n ranked IH]; simpl; [done|]. intros Hf.
  apply bind_Ok in Hf as (o & Ho & Hf).
  assert (Hrec : first_active active ranked = Ok (Some (name, hub)) →
    name ∈ n :: ranked ∧ hub ∈ HUBS ∧
    ∃ tgt v, get_opt active name = Ok (Some (JObj tgt)) ∧ dget tgt "hub" = Some v ∧ py_str v = hub).
  { intros Hr. destruct (IH Hr) as (Hin & Hrest). split; [by constructor|done]. }
  destruct o as [[]|]; try by apply Hrec.
  destruct (inb _ HUBS) eqn:E; [|by apply Hrec]. apply inb_true in E. injection Hf as -> Hh.
  split_and!; [constructor|by rewrite <- Hh|]. destruct (dget d "hub") as [v|] eqn:Hv.
  - eauto 10.
  - exfalso. by vm_compute in E; repeat (apply elem_of_cons in E as [E|E]; [done|]); inversion E.
Qed.

(** the mark of a policy intent.  For every layout the validator accepts,
    decoding the mark chosen for an intent gives back the route slot of a
    ranked transport and the chosen egress mode, which the intent allows; the
    flow is still unclassified, carries no emergency flag and stays inside the
    connection mask.  Direct Internet is chosen only for an Internet-capable
    transport and pins no hub; the overlay is chosen only towards the hub the
    slot's active target names, and only when direct Internet is not allowed or
    no ranked transport can reach the Internet. *)
Theorem intent_mark_sound `{PyRepr} c desired intent pm mark name eg :
  let m := marks (settings c) in
  validate m pm = Ok tt → intent_mark c desired intent = Ok (mark, name, eg) →
  ∃ allowed ranked t,
    str_items intent "allowed_egress" = Ok allowed ∧ candidates_of intent = Ok ranked ∧
    name ∈ ranked ∧ egress_value eg ∈ allowed ∧ get_transport c name = Ok t ∧
    transport m mark = route_slot t ∧ egress_mode m mark = Ok eg ∧ stage m mark = UNKNOWN ∧
    truthy (Z.land mark (emergency_bit m)) = false ∧ Z.land mark (connection_mask m) = mark ∧
    match eg with
    | DIRECT_INTERNET => internet_capable t = true ∧ target_hub m mark = Ok None
    | HUB_OVERLAY =>
        (∃ active hub tgt v, get_default desired "active_target_by_slot" (JObj []) = Ok active ∧
           get_opt active name = Ok (Some (JObj tgt)) ∧ dget tgt "hub" = Some v ∧ py_str v = hub ∧
           hub ∈ HUBS ∧ target_hub m mark = Ok (Some hub)) ∧
        (egress_value DIRECT_INTERNET ∈ allowed →
         ∀ n, n ∈ ranked → ∃ t, get_transport c n = Ok t ∧ internet_capable t = false)
    | CLOUD_GATEWAY => False
    end.
Proof.
  intros m Hm. unfold intent_mark. fold m. intros Hi.
  apply bind_Ok in Hi as (allowed & Ha & Hi). apply bind_Ok in Hi as (ranked & Hr & Hi).
  apply bind_Ok in Hi as ([] & _ & Hi). apply bind_Ok in Hi as (direct & Hd & Hi).
  exists allowed, ranked. destruct direct as [[n t]|].
  - destruct (inb _ allowed) eqn:Hin; [|done]. apply inb_true in Hin.
    apply first_internet_some in Hd as (Hn & Ht & Hc). apply bind_Ok in Hi as (mk & Hmk & Hi).
    injection Hi as <- <- <-. destruct (decode_encode _ _ _ _ _ _ _ _ Hm Hmk) as (? & ? & ? & ? & ? & ?).
    exists t. split_and!; done.
  - apply bind_Ok in Hi as (o & Ho & Hi). destruct o as [[n hub]|]; [|done].
    destruct (inb (egress_value HUB_OVERLAY) allowed) eqn:Hin; [|done]. apply inb_true in Hin.
    apply bind_Ok in Ho as (active & Hact & Ho). apply first_active_some in Ho as (Hn & Hh & tgt & v & Hg & Hv & Hp).
    apply bind_Ok in Hi as (t & Ht & Hi). apply bind_Ok in Hi as (mk & Hmk & Hi).
    injection Hi as <- <- <-. destruct (decode_encode _ _ _ _ _ _ _ _ Hm Hmk) as (? & ? & ? & ? & ? & ?).
    exists t. split_and!; try done.
    + exists active, hub, tgt, v. by split_and!.
    + intros Hda. destruct (inb (egress_value DIRECT_INTERNET) allowed) eqn:E.
      * by apply first_internet_none.
      * by apply inb_true in Hda; rewrite Hda in E.
Qed.

(** ** Direct Internet *)

(** split tunnelling stays inside the SaaS network.  Whatever desired
    state and policy snapshot a spoke receives, and whichever commands fail,
    every gateway route ([ip route replace PREFIX via ...]) it runs while
    installing the policy is for a prefix inside the simulated SaaS network, and
    leaves through the gateway of an Internet-capable transport, on that
    transport's own device and table.  The agent's recorded state, its event
    queue and its identity are untouched. *)
Theorem direct_routes_confined `{PyRepr} exec start desired snapshot a :
  let a' := (install_spoke_dataplane exec start desired snapshot a).2 in
  let c := ag_config a in
  same_identity a a' ∧ ∃ cs, commands a' = commands a ++ cs ∧
  ∀ prefix rest, "ip" :: "route" :: "replace" :: prefix :: "via" :: rest ∈ cs →
  ∃ n candidate t gw node,
    ip_network prefix = Ok n ∧ subnet_of n (saas_network c) = true ∧
    get_transport c candidate = Ok t ∧ internet_capable t = true ∧
    underlay_gateway_ip c candidate = Ok gw ∧
    rest = [addr_str gw; "dev"; node +:+ "-" +:+ candidate; "onlink"; "table"; str_Z (tr_route_table t)].
Proof.
  intros a' c.
  set (P := λ cmd : command, ∀ prefix rest, cmd = "ip" :: "route" :: "replace" :: prefix :: "via" :: rest →
    ∃ n candidate t gw node, ip_network prefix = Ok n ∧ subnet_of n (saas_network c) = true ∧
      get_transport c candidate = Ok t ∧ internet_capable t = true ∧ underlay_gateway_ip c candidate = Ok gw ∧
      rest = [addr_str gw; "dev"; node +:+ "-" +:+ candidate; "onlink"; "table"; str_Z (tr_route_table t)]).
  destruct (emits_spoke_dataplane exec start c P) with desired snapshot a as [Hi (cs & Hc & HP)];
    unfold P; try done.
  - intros cmd Hh prefix rest ->. done.
  - intros node prefix candidate n t gw ????? p rest [= -> <-]. exists n, candidate, t, gw, node. by split_and!.
  - split; [done|]. exists cs. split; [done|]. intros prefix rest Hin.
    rewrite Forall_forall in HP. by apply (HP _ Hin).
Qed.

(** ** The mangle chain *)

Lemma run_ok exec cmd a a' : run exec cmd a = (Ok tt, a') → a' = set_commands a (commands a ++ [cmd]).
Proof. unfold run. destruct (exec _ _); naive_solver. Qed.

Lemma forM_run {A} exec (f : A → command) l a a' :
  forM (λ x, run exec (f x)) l a = (Ok tt, a') → a' = set_commands a (commands a ++ map f l).
Proof.
  revert a. induction l as [|x l IH]; intros a; simpl.
  - intros [= <-]. rewrite app_nil_r. by destruct a.
  - intros Hf. apply bind_run in Hf as ([] & a1 & H1 & H2). apply run_ok in H1 as ->. apply IH in H2 as ->.
    simpl. rewrite <- (assoc_L (++)). done.
Qed.

(** Chain and rule creation: nothing is appended to the classification chain. *)
Definition outside_mark_chain (cmd : command) : Prop := take 5 cmd ≠ mangle_append MARK_CHAIN [].

Lemma outside_one cmd : take 5 cmd ≠ mangle_append MARK_CHAIN [] → Forall outside_mark_chain [cmd].
Proof. intros Hc. by apply Forall_singleton. Qed.

Lemma ensure_chain_run exec t ch a a' : ensure_chain exec t ch a = (Ok tt, a') →
  ∃ pre, a' = set_commands a (commands a ++ pre) ∧ Forall outside_mark_chain pre.
Proof.
  unfold ensure_chain. intros Hc. apply bind_run in Hc as (b & a1 & [= <- <-] & Hc).
  destruct (negb _); [apply run_ok in Hc as ->; eexists; split; [done|apply outside_one; done]|].
  unfold catch_command in Hc. destruct (run exec _ a) as [[[]|e] a1] eqn:Hr.
  - injection Hc as <-. apply run_ok in Hr as ->. eexists. split; [done|by apply outside_one].
  - case_bool_decide; [|done]. destruct (negb _); [done|]. injection Hc as <-.
    exists []. rewrite app_nil_r. split; [|done]. unfold run in Hr. destruct (exec _ _); [|done].
    injection Hr as _ <-. by destruct a.
Qed.

Lemma ensure_rule_run exec t ch r a a' : ch ≠ MARK_CHAIN → ensure_rule exec t ch r a = (Ok tt, a') →
  ∃ pre, a' = set_commands a (commands a ++ pre) ∧ Forall outside_mark_chain pre.
Proof.
  intros Hch. unfold ensure_rule. intros Hc. apply bind_run in Hc as (b & a1 & [= <- <-] & Hc).
  assert (Hout : ∀ flag, take 5 ("iptables" :: "-t" :: t :: flag :: ch :: r) ≠ mangle_append MARK_CHAIN []).
  { intros flag. unfold mangle_append. simpl. by intros [= _ _ ?]. }
  destruct (negb _); [apply run_ok in Hc as ->; eexists; split; [done|apply outside_one, Hout]|].
  unfold catch_command in Hc. destruct (run exec _ a) as [[[]|e] a1] eqn:Hr.
  - injection Hc as <-. apply run_ok in Hr as ->. eexists. split; [done|apply outside_one, Hout].
  - case_bool_decide; [|done]. destruct (_ && _); [done|]. apply run_ok in Hc as ->.
    unfold run in Hr. destruct (exec _ _); [|done]. injection Hr as _ <-.
    eexists. split; [done|apply outside_one, Hout].
Qed.

(** The rules of a classification chain, in order. *)
Definition unmarked (m : MarkLayout) : command := ["-m"; "mark"; "--mark"; "0/" +:+ py_hex (connection_mask m)].

Definition class_lines (m : MarkLayout) (rs : list (ClassMarkRule * command)) : list command :=
  map (λ p, p.2 ++ set_xmark (cm_mark p.1) (py_hex (affinity_mask m))) (filter (λ p, blocked p.1 = false) rs).

Definition chain_lines (m : MarkLayout) (rs : list (ClassMarkRule * command)) (prefixes : list (string * Z))
    (default_mark queue : Z) : list command :=
  let cmask := py_hex (connection_mask m) in
  let amask := py_hex (affinity_mask m) in
  [connmark "--restore-mark" cmask] ++ class_lines m rs ++
  map (λ p, unmarked m ++ ["-d"; p.1] ++ set_xmark p.2 amask) prefixes ++
  [unmarked m ++ set_xmark default_mark amask;
   ["-m"; "mark"; "--mark"; "0/" +:+ py_hex (terminal_bit m); "-j"; "NFQUEUE"; "--queue-num"; str_Z queue;
    "--queue-bypass"];
   connmark "--save-mark" cmask].

Lemma class_loop_run exec m rs a a' :
  forM (λ r, mt ← lift (class_match (py_hex (connection_mask m)) r);
             if blocked r then mret tt
             else run exec (mangle_append MARK_CHAIN (mt ++ set_xmark (cm_mark r) (py_hex (affinity_mask m))))) rs a
    = (Ok tt, a') →
  ∃ ms, mapM_result (class_match (py_hex (connection_mask m))) rs = Ok ms ∧
        a' = set_commands a (commands a ++ map (mangle_append MARK_CHAIN) (class_lines m (zip rs ms))).
Proof.
  revert a. induction rs as [|r rs IH]; intros a; simpl.
  - intros [= <-]. exists []. rewrite app_nil_r. by destruct a.
  - intros Hf. apply bind_run in Hf as ([] & a1 & H1 & H2). apply bind_run in H1 as (mt & a2 & H0 & H1).
    unfold lift in H0. injection H0 as Hmt <-. apply IH in H2 as (ms & Hms & ->).
    exists (mt :: ms). unfold mbind, result_bind. rewrite Hmt, Hms. split; [done|].
    unfold class_lines. simpl. rewrite filter_cons. simpl. destruct (blocked r).
    + injection H1 as <-. by destruct a.
    + apply run_ok in H1 as ->. simpl. by rewrite <- (assoc_L (++)).
Qed.

(** the classification chain an edge ends up with.  When the installation
    succeeds, on a host or in a dry run, every class rule could be rendered
    (its DSCP value is in range), and the chain was emptied and refilled with
    exactly: restoring the connection's mark, one rule per class that is not
    blocked, one per prefix, the default mark, the classifier queue and saving
    the mark, in this order; nothing is appended to the chain before it is
    emptied, and nothing else of the agent changes. *)
Theorem connmark_chain exec lan prefixes default_mark queue rs a a' :
  install_connmark_rules exec lan prefixes default_mark queue rs a = (Ok tt, a') →
  let m := marks (settings (ag_config a)) in
  ∃ ms pre,
    mapM_result (class_match (py_hex (connection_mask m))) rs = Ok ms ∧ Forall outside_mark_chain pre ∧
    a' = set_commands a (commands a ++ pre ++ ["iptables"; "-t"; "mangle"; "-F"; MARK_CHAIN] ::
           map (mangle_append MARK_CHAIN) (chain_lines m (zip rs ms) prefixes default_mark queue)).
Proof.
  intros Hi m. unfold install_connmark_rules in Hi. cbv zeta in Hi.
  apply bind_run in Hi as (c & a0 & [= <- <-] & Hi). fold m in Hi.
  apply bind_run in Hi as ([] & a1 & (p1 & -> & F1)%ensure_chain_run & Hi).
  apply bind_run in Hi as ([] & a2 & (p2 & -> & F2)%ensure_rule_run & Hi); [|done].
  apply bind_run in Hi as ([] & a3 & ->%run_ok & Hi). apply bind_run in Hi as ([] & a4 & ->%run_ok & Hi).
  apply bind_run in Hi as ([] & a5 & (ms & Hms & ->)%class_loop_run & Hi).
  apply bind_run in Hi as ([] & a6 & ->%forM_run & Hi).
  apply bind_run in Hi as ([] & a7 & ->%run_ok & Hi). apply bind_run in Hi as ([] & a8 & ->%run_ok & Hi).
  apply run_ok in Hi as ->. exists ms, (p1 ++ p2). split_and!; [done|by apply Forall_app|].
  unfold chain_lines. simpl. rewrite !map_app, map_map. simpl. by rewrite <- !(assoc_L (++)).
Qed.

(** A blocked class gets no rule: its packets fall through to the prefix and
    default marks like any other. *)
Lemma blocked_rule_installs_nothing m rs1 r mt rs2 :
  blocked r = true → class_lines m (rs1 ++ (r, mt) :: rs2) = class_lines m (rs1 ++ rs2).
Proof. intros Hb. unfold class_lines. rewrite !filter_app, filter_cons. simpl. by rewrite Hb. Qed.

(** ** Concrete runs: the edge of [site1] on the shipped topology *)

Module Examples.
Definition no_failure : list command → command → option string := λ _ _, None.
(** Every [wg] command fails. *)
Definition no_wireguard : list command → command → option string := λ _ cmd,
  match cmd with "wg" :: _ => Some "wg: command failed" | _ => None end.
Definition starts : Z → result unit := λ _, Ok tt.

Definition agent : Agent := {|
  ag_site := "site1"; ag_config := core_config; ag_edge_node := "node1"; system_runner := false;
  private_key := "identity/wireguard.key"; private_key_exists := true; local_state := initial_state;
  saved_state := None; event_queue := []; steering := None; commands := [] |}.

Definition interface_doc : json := JObj
  [("name", JStr "wg-hub1-bb"); ("address", JStr "172.31.20.11/24"); ("listen_port", JInt 52001);
   ("peers", JList [JObj [("public_key", JStr "KEY"); ("allowed_ips", JList [JStr "10.100.0.0/24"]);
                          ("keepalive_s", JInt 10); ("endpoint", JStr "192.168.20.1:52385")]]);
   ("routes", JList [JStr "10.100.0.0/24"]); ("route_table", JInt 1102)].

Definition desired (version route : Z) (dig : string) : json := JObj
  [("site", JStr "site1"); ("schema_version", JInt 5); ("desired_state_version", JInt version);
   ("route_version", JInt route); ("configuration_digest", JStr dig); ("interfaces", JList [interface_doc]);
   ("active_target_by_slot", JObj [("bb", JObj [("interface", JStr "wg-hub1-bb"); ("hub", JStr "hub1")])])].

Definition snapshot : json := JObj
  [("site", JStr "site1");
   ("destination_intents", JList [
      JObj [("prefix", JStr "198.18.0.0/24"); ("allowed_egress", JList [JStr "DIRECT_INTERNET"]);
            ("candidate_transports", JList [JStr "bb"; JStr "lte"]);
            ("application_classes", JList [JStr "SAAS_INTERACTIVE"])]]);
   ("default_intent", JObj [("allowed_egress", JList [JStr "HUB_OVERLAY"]); ("ranked_transports", JList [JStr "bb"])]);
   ("application_policy", JObj [("SAAS_INTERACTIVE", JObj [("match", JObj [("transport_protocol", JStr "tcp");
      ("destination_port", JInt 443)])])])].

Definition verified_run : result ReconciliationResult * Agent := Eval vm_compute in reconcile no_failure (desired 3 2 "d") agent.
Definition verified : Agent := Eval vm_compute in verified_run.2.

Lemma verified_eq : reconcile no_failure (desired 3 2 "d") agent = (Ok (outcome "VERIFIED" 3 2 "exact desired state applied"), verified).
Proof. vm_cast_no_check (eq_refl verified_run). Qed.

Example verified_state :
  local_state verified = {| desired_state_version := 3; ls_route_version := 2; digest := "d" |} ∧
  length (commands verified) = 7%nat ∧ last (commands verified) =
    Some ["ip"; "route"; "replace"; "10.100.0.0/24"; "dev"; "wg-hub1-bb"; "table"; "102"].
Proof. by vm_compute. Qed.

(** Refused, matched and failing documents after that run. *)
Example later_documents :
  map (λ p, match (reconcile p.1 p.2 verified).1 with Ok o => rr_status o | Err e => exn_msg e end)
    [(no_failure, desired 2 9 "d"); (no_failure, desired 4 1 "e"); (no_failure, desired 3 2 "d");
     (no_wireguard, desired 4 2 "e"); (no_failure, desired 4 3 "e")]
  = ["STALE"; "EDGE_AHEAD"; "MATCHED"; "wg: command failed"; "VERIFIED"].
Proof. by vm_compute. Qed.

Definition dataplane_run : result unit * Agent := Eval vm_compute in
  install_spoke_dataplane no_failure starts (desired 3 2 "d") snapshot agent.

Lemma dataplane_eq : install_spoke_dataplane no_failure starts (desired 3 2 "d") snapshot agent = dataplane_run.
Proof. vm_cast_no_check (eq_refl dataplane_run). Qed.

Example dataplane_ok : dataplane_run.1 = Ok tt ∧ length (commands dataplane_run.2) = 71%nat.
Proof. by vm_compute. Qed.

Example snapshot_class : mapM_result (class_match "0xf7ff") (default [] (rules <$> steering dataplane_run.2)) =
  Ok [["-m"; "mark"; "--mark"; "0/0xf7ff"; "-d"; "198.18.0.0/24"; "-p"; "tcp"; "-m"; "multiport"; "--dports"; "443"]].
Proof. by vm_compute. Qed.

Definition class_rules : list ClassMarkRule := Eval vm_compute in default [] (rules <$> steering dataplane_run.2).
Definition chain_run : result unit * Agent := Eval vm_compute in
  install_connmark_rules no_failure "node1-lan" [("198.18.0.0/24", 16386)] 4098 4100 class_rules agent.

Lemma chain_eq : install_connmark_rules no_failure "node1-lan" [("198.18.0.0/24", 16386)] 4098 4100 class_rules agent
  = (Ok tt, chain_run.2).
Proof. vm_cast_no_check (eq_refl chain_run). Qed.

Definition intent : json := JObj [("allowed_egress", JList [JStr "DIRECT_INTERNET"; JStr "HUB_OVERLAY"]);
  ("ranked_transports", JList [JStr "mpls"; JStr "bb"])].

Lemma intent_eq : intent_mark core_config (desired 3 2 "d") intent = Ok (16386, "bb", DIRECT_INTERNET).
Proof. vm_cast_no_check (eq_refl (Ok (A := Z * string * EgressMode) (16386, "bb", DIRECT_INTERNET))). Qed.

Lemma core_layout_eq : validate (marks (settings core_config)) core_path_marks = Ok tt.
Proof. vm_cast_no_check (eq_refl (Ok tt)). Qed.
End Examples.

Import Examples.

Lemma reconcile_spec_witness :
  desired_state_version (local_state agent) ≤ desired_state_version (local_state verified).
Proof.
  destruct (reconcile_spec no_failure (desired 3 2 "d") agent (Ok (outcome "VERIFIED" 3 2 "exact desired state applied"))
    verified verified_eq) as (_ & _ & _ & Hv & _). exact Hv.
Defined.

Lemma reconcile_never_goes_back_witness : (reconcile no_failure (desired 2 9 "old") verified).2 = verified.
Proof.
  destruct (reconcile_never_goes_back no_failure [] verified (desired 2 9 "old") 2 9 "old") as (_ & _ & _ & Hr).
  apply Hr; [reflexivity|left; reflexivity].
Defined.

Lemma reconcile_idempotent_witness :
  local_state (reconcile no_wireguard (desired 3 2 "d") verified).2 = local_state verified.
Proof.
  exact (proj1 (reconcile_idempotent no_failure no_wireguard (desired 3 2 "d") agent _ verified _ _
    verified_eq eq_refl (surjective_pairing _))).
Defined.

Lemma intent_mark_sound_witness :
  ∃ allowed ranked t, str_items intent "allowed_egress" = Ok allowed ∧ candidates_of intent = Ok ranked ∧
    "bb" ∈ ranked ∧ egress_value DIRECT_INTERNET ∈ allowed ∧ get_transport core_config "bb" = Ok t ∧
    transport (marks (settings core_config)) 16386 = route_slot t.
Proof.
  destruct (intent_mark_sound core_config (desired 3 2 "d") intent core_path_marks 16386 "bb" DIRECT_INTERNET
    core_layout_eq intent_eq) as (al & ra & t & H1 & H2 & H3 & H4 & H5 & H6 & _).
  exists al, ra, t. repeat (split; [assumption|]). assumption.
Defined.

Lemma direct_routes_confined_witness :
  ∃ cs, commands dataplane_run.2 = commands agent ++ cs ∧
  ∃ n candidate t, ip_network "198.18.0.0/24" = Ok n ∧ subnet_of n (saas_network core_config) = true ∧
    get_transport core_config candidate = Ok t ∧ internet_capable t = true.
Proof.
  destruct (direct_routes_confined no_failure starts (desired 3 2 "d") snapshot agent) as (_ & cs & Hc & Hr).
  rewrite dataplane_eq in Hc. exists cs. split; [exact Hc|].
  destruct (Hr "198.18.0.0/24" ["192.168.20.253"; "dev"; "node1-bb"; "onlink"; "table"; "102"])
    as (n & cand & t & gw & node & H1 & H2 & H3 & H4 & _).
  - simpl in Hc. rewrite <- Hc. constructor.
  - exists n, cand, t. repeat (split; [assumption|]). assumption.
Defined.

Lemma connmark_chain_witness :
  ∃ ms, mapM_result (class_match (py_hex (connection_mask (marks (settings core_config))))) class_rules = Ok ms.
Proof.
  destruct (connmark_chain no_failure "node1-lan" [("198.18.0.0/24", 16386)] 4098 4100 class_rules agent _ chain_eq)
    as (ms & pre & Hm & _). exists ms. exact Hm.
Defined.
