(* ===== verification/FailoverRuntime.v ===== *)
(** * The edge's failover monitor ([edge_failover_runtime.py])

    One round of [LocalFailoverRuntime]: probing every path, classifying the
    tunnels, SLA steering of the classes and the emergency state machine of
    every route slot.  What the round observes outside the process is the
    environment [Env]: exit statuses of commands, the figures [ping] prints,
    handshake times, byte counters, clocks and fresh identifiers.  The probes of
    a round run in a thread pool; [schedule] is the order in which they take
    their sequence number and record their measurement. *)
From S2P Require Import Prelude Net Marks PathSelection TunnelHealth HubHealth LocalFailover RouteResolver.
From S2P Require Import Json Model EdgeAgent.
Local Open Scope string_scope.
Local Open Scope list_scope.
Local Open Scope Z_scope.

(** ** Environment *)

(** The groups of the three patterns [_parse_ping] searches in ping's output. *)
Record PingReport := { g_rtt : option Q; g_loss : option Q; g_packets : option (Z * Z) }.

Record Env := {
  check : command → bool;                        (* exit status 0 *)
  report : command → PingReport;
  handshakes : string → list Z;                  (* latest-handshakes lines, as numbers *)
  counters : string → option Z;                  (* busiest-direction byte counter *)
  flow_lines : command → Z;                      (* non-empty lines conntrack prints *)
  mono : string → string → Q;                    (* monotonic clock at a named reading *)
  wall : string → Q;
  stamp : string → string;
  uuid4 : string → string
}.

(** ** State *)

Record MetricRecord := {
  mr_path_id : string; mr_interface : string; mr_hub : option string; mr_transport : string;
  mr_egress_mode : EgressMode; mr_reachable : bool; mr_rtt : option Q; mr_jitter : option Q;
  mr_loss : Q; mr_capacity : Q; mr_available : option Q; mr_cost : Q; mr_measured_at : Q
}.

(** One entry of [path-events.json]. *)
Record SwitchEvent := {
  sw_class : string; sw_source : string; sw_destination : string; sw_policy : string;
  sw_old_path : option string; sw_new_path : option string; sw_reason : string; sw_timestamp : string
}.

Record StatusRecord := { sr_state : string; sr_detail : string; sr_route_version : Z; sr_updated : Q }.

(** What stays fixed after [__init__]. *)
Record Fixed := {
  fx_site : string; fx_config : TopologyConfig; fx_interfaces : dict string json;
  fx_transport : dict string string; fx_snapshot : option json
}.

Record Runtime := {
  agent : Agent; manager : LocalFailoverManager; health_machines : dict string TunnelHealthMachine;
  selector : PathSelector; windows : dict string MetricWindow; measurements : dict string MetricRecord;
  decisions : dict string PathDecision; sequence : Z; recovery_started : list string;
  last_status : dict string (string * string * Z); status_file : dict string StatusRecord;
  path_events : list SwitchEvent; metrics_file : option (list MetricRecord);
  decisions_file : option (list PathDecision)
}.

Definition set_agent v '(Build_Runtime _ mg he se wi me de sq re ls st pe mf df) := Build_Runtime v mg he se wi me de sq re ls st pe mf df.
Definition set_manager v '(Build_Runtime ag _ he se wi me de sq re ls st pe mf df) := Build_Runtime ag v he se wi me de sq re ls st pe mf df.
Definition set_health_machines v '(Build_Runtime ag mg _ se wi me de sq re ls st pe mf df) := Build_Runtime ag mg v se wi me de sq re ls st pe mf df.
Definition set_selector v '(Build_Runtime ag mg he _ wi me de sq re ls st pe mf df) := Build_Runtime ag mg he v wi me de sq re ls st pe mf df.
Definition set_windows v '(Build_Runtime ag mg he se _ me de sq re ls st pe mf df) := Build_Runtime ag mg he se v me de sq re ls st pe mf df.
Definition set_measurements v '(Build_Runtime ag mg he se wi _ de sq re ls st pe mf df) := Build_Runtime ag mg he se wi v de sq re ls st pe mf df.
Definition set_decisions v '(Build_Runtime ag mg he se wi me _ sq re ls st pe mf df) := Build_Runtime ag mg he se wi me v sq re ls st pe mf df.
Definition set_sequence v '(Build_Runtime ag mg he se wi me de _ re ls st pe mf df) := Build_Runtime ag mg he se wi me de v re ls st pe mf df.
Definition set_recovery_started v '(Build_Runtime ag mg he se wi me de sq _ ls st pe mf df) := Build_Runtime ag mg he se wi me de sq v ls st pe mf df.
Definition set_last_status v '(Build_Runtime ag mg he se wi me de sq re _ st pe mf df) := Build_Runtime ag mg he se wi me de sq re v st pe mf df.
Definition set_status_file v '(Build_Runtime ag mg he se wi me de sq re ls _ pe mf df) := Build_Runtime ag mg he se wi me de sq re ls v pe mf df.
Definition set_path_events v '(Build_Runtime ag mg he se wi me de sq re ls st _ mf df) := Build_Runtime ag mg he se wi me de sq re ls st v mf df.
Definition set_metrics_file v '(Build_Runtime ag mg he se wi me de sq re ls st pe _ df) := Build_Runtime ag mg he se wi me de sq re ls st pe v df.
Definition set_decisions_file v '(Build_Runtime ag mg he se wi me de sq re ls st pe mf _) := Build_Runtime ag mg he se wi me de sq re ls st pe mf v.

(** A computation on one component of the state. *)
Definition on {X A} (proj : Runtime → X) (set : X → Runtime → Runtime) (m : M X A) : M Runtime A := λ r,
  match m (proj r) with
  | (Ok x, v) => (Ok x, set v r)
  | (Err e, v) => (Err e, set v r)
  end.

Definition modify (f : Runtime → Runtime) : M Runtime unit := λ r, (Ok tt, f r).

(** ** [__init__] *)

Definition DIRECT_TRANSPORTS : list string := ["bb"; "lte"].

(** The overlay interfaces' transports, by their slot. *)
Definition slot_transport (c : TopologyConfig) (item : json) : result string :=
  v ← getitem item "transport_slot"; slot ← py_int v;
  of_option (fst <$> find (λ p, route_slot p.2 =? slot) (transports c)) StopIteration "".

Definition interface_transports (c : TopologyConfig) (ifs : dict string json) : result (dict string string) :=
  foldM (λ acc p, t ← slot_transport c p.2; Ok (dset acc p.1 t)) [] ifs.

Definition slot_target `{PyRepr} (c : TopologyConfig) (by_if : dict string string) (slot : string) (value : json)
    : result SlotTarget :=
  n ← getitem value "interface"; let name := py_str n in
  h ← getitem value "hub";
  t ← of_option (dget by_if name) KeyError name;
  profile ← get_transport c slot;
  Ok {| st_hub := py_str h; st_transport := t; st_interface := name; route_table := tr_route_table profile |}.

Definition slot_targets `{PyRepr} (c : TopologyConfig) (by_if : dict string string) (desired : json)
    : result (dict string SlotTarget) :=
  active ← get_default desired "active_target_by_slot" (JObj []);
  match active with
  | JObj slots => foldM (λ acc p, t ← slot_target c by_if p.1 p.2; Ok (dset acc p.1 t)) [] slots
  | _ => raise AttributeError "object has no attribute 'items'"
  end.

Definition new_window (c : TopologyConfig) (transport : string) : result MetricWindow :=
  t ← get_transport c transport; MetricWindow_init (cfg_measurement c) (bandwidth_mbps t).

Definition direct_transports (c : TopologyConfig) : result (list string) :=
  foldM (λ acc t, p ← get_transport c t; Ok (if internet_capable p then acc ++ [t] else acc)) [] DIRECT_TRANSPORTS.

Definition metric_windows (c : TopologyConfig) (by_if : dict string string) : result (dict string MetricWindow) :=
  overlay ← foldM (λ acc p, w ← new_window c p.2; Ok (dset acc p.1 w)) [] by_if;
  direct ← direct_transports c;
  foldM (λ acc t, w ← new_window c t; Ok (dset acc ("direct-" +:+ t) w)) overlay direct.

Definition new_machine (c : TopologyConfig) : result TunnelHealthMachine :=
  let s := settings c in
  TunnelHealthMachine_init (s_suspect_failures s) (s_failed_failures s) (s_recovery_successes s)
    (s_hold_down_s s) (stale_after_seconds (cfg_measurement c)).

Definition LocalFailoverRuntime_init `{PyRepr} (site : string) (c : TopologyConfig) (desired : json)
    (snapshot : option json) (a : result Agent) : result (Fixed * Runtime) :=
  a ← a;
  ifs ← interfaces_by_name desired;
  by_if ← interface_transports c ifs;
  tgts ← slot_targets c by_if desired;
  mg ← LocalFailoverManager_init site tgts (s_drain_timeout_s (settings c));
  machines ← foldM (λ acc p, m ← new_machine c; Ok (dset acc p.1 m)) [] ifs;
  sel ← PathSelector_init (path_selection c) (stale_after_seconds (cfg_measurement c));
  ws ← metric_windows c by_if;
  Ok ({| fx_site := site; fx_config := c; fx_interfaces := ifs; fx_transport := by_if; fx_snapshot := snapshot |},
      {| agent := a; manager := mg; health_machines := machines; selector := sel; windows := ws;
         measurements := []; decisions := []; sequence := 0; recovery_started := []; last_status := [];
         status_file := []; path_events := []; metrics_file := None; decisions_file := None |}).

Section round.
Context `{PyRepr}.
Context (exec : list command → command → option string) (fx : Fixed) (e : Env).
Let c : TopologyConfig := fx_config fx.
Let site : string := fx_site fx.

(** ** Probing *)

(** The groups of the patterns as the numbers the window is updated with. *)
Definition parse_ping (g : PingReport) (successful : bool) : option Q * Q * option Z * option Z :=
  (g_rtt g, match g_loss g with Some l => l | None => if successful then 0%Q else 100%Q end,
   fst <$> g_packets g, snd <$> g_packets g).

Definition device (transport : string) : string := site +:+ "-" +:+ transport.

Definition ping_command (interface destination : string) (fwmark : option Z) : command :=
  ["ping"; "-I"; interface] ++ match fwmark with Some m => ["-m"; str_Z m] | None => [] end
  ++ ["-c"; "10"; "-i"; "0.1"; "-W"; "1"; "-q"; destination].

Definition measure (path_id interface destination : string) (hub : option string) (transport : string)
    (egress : EgressMode) (fwmark : option Z) : M Runtime MetricRecord :=
  let cmd := ping_command interface destination fwmark in
  let successful := check e cmd in
  let now := mono e "measure" path_id in
  let '(rtt, loss, tx, rx) := parse_ping (report e cmd) successful in
  r ← get;
  w ← lift (of_option (dget (windows r) path_id) KeyError path_id);
  let '(w', (rtt, jitter, loss, available)) :=
    update w {| successful := successful; s_rtt_ms := rtt; counter_timestamp := Some now;
                interface_bytes := counters e (device transport); loss_pct_sample := Some loss;
                transmitted_packets := tx; received_packets := rx |} in
  _ ← modify (set_windows (dset (windows r) path_id w'));
  t ← lift (get_transport c transport);
  let record := {|
    mr_path_id := path_id; mr_interface := interface; mr_hub := hub; mr_transport := transport;
    mr_egress_mode := egress; mr_reachable := successful; mr_rtt := rtt; mr_jitter := jitter; mr_loss := loss;
    mr_capacity := bandwidth_mbps t; mr_available := available; mr_cost := tr_cost t; mr_measured_at := now |} in
  _ ← modify (λ r, set_measurements (dset (measurements r) path_id record) r);
  mret record.

Definition next_sequence : M Runtime Z :=
  _ ← modify (λ r, set_sequence (sequence r + 1) r); r ← get; mret (sequence r).

Definition zmax (l : list Z) : Z := match l with [] => 0 | x :: l => foldl Z.max x l end.

(** Seconds since the latest handshake, when [wg] shows one. *)
Definition handshake_age (now_wall : Q) (shown : bool) (ts : list Z) : option Q :=
  if shown && negb (bool_decide (ts = [])) && negb (zmax ts =? 0) then Some (now_wall - inject_Z (zmax ts))%Q else None.

Definition underlay_command (transport : string) (a : addr) : command :=
  ["ping"; "-I"; device transport; "-c"; "1"; "-W"; "1"; addr_str a].

Definition probe (name : string) : M Runtime TunnelSample :=
  item ← lift (of_option (dget (fx_interfaces fx) name) KeyError name);
  h ← lift (getitem item "hub"); let hub := py_str h in
  transport ← lift (of_option (dget (fx_transport fx) name) KeyError name);
  seq ← next_sequence;
  let up := check e ["ip"; "link"; "show"; "dev"; name; "up"] in
  u ← lift (underlay_ip c hub transport);
  let under := check e (underlay_command transport u) in
  o ← lift (overlay_ip c hub hub transport);
  m ← measure name name (addr_str o) (Some hub) transport HUB_OVERLAY None;
  let shown := check e ["wg"; "show"; name; "latest-handshakes"] in
  mret {| ts_site := site; ts_hub := hub; ts_transport := transport; ts_interface := name;
          wall_timestamp := wall e name; monotonic_timestamp := mono e "probe" name; probe_sequence := seq;
          ts_source := "edge-local-active-probe"; link_up := up; underlay_reachable := under;
          wireguard_up := up; overlay_reachable := mr_reachable m;
          handshake_age_s := handshake_age (wall e name) shown (handshakes e name);
          ts_rtt_ms := mr_rtt m; ts_jitter_ms := mr_jitter m; ts_loss_pct := Some (mr_loss m) |}.

(** The fields a target takes from its measurement. *)
Definition metric_target (hub : option string) (transport interface : string) (egress : EgressMode)
    (st : TunnelState.t) (hs : option HubState.t) (m : MetricRecord) (t : Transport) : Target := {|
  t_hub := hub; t_transport := transport; t_interface := interface; t_egress_mode := egress; tunnel_state := st;
  t_hub_state := hs; t_rtt_ms := mr_rtt m; t_jitter_ms := mr_jitter m; t_loss_pct := Some (mr_loss m);
  available_mbps := mr_available m; t_enabled := true; t_measured_at := mr_measured_at m;
  t_capacity := bandwidth_mbps t; cost := tr_cost t |}.

Definition direct_target (transport : string) : M Runtime Target :=
  t ← lift (get_transport c transport);
  mark ← lift (encode (marks (settings c)) (route_slot t) UNKNOWN false None DIRECT_INTERNET);
  m ← measure ("direct-" +:+ transport) (device transport) (addr_str (saas_ip c)) None transport
        DIRECT_INTERNET (Some mark);
  mret (metric_target None transport (device transport) DIRECT_INTERNET
          (if mr_reachable m then TunnelState.HEALTHY else TunnelState.FAILED) None m t).

Definition hub_tunnels (health : dict string TunnelHealth) (hub : string) : result (dict string TunnelHealth) :=
  foldM (λ acc p, h ← getitem p.2 "hub";
           if String.eqb (py_str h) hub
           then v ← of_option (dget health p.1) KeyError p.1; Ok (dset acc p.1 v)
           else if inb (py_str h) HUBS then Ok acc else raise KeyError (py_str h)) [] (fx_interfaces fx).

(** [_targets]: the overlay targets with the hubs' aggregated health. *)
Definition overlay_targets (health : dict string TunnelHealth) (ms : dict string MetricRecord) : result (list Target) :=
  h1 ← hub_tunnels health "hub1"; h2 ← hub_tunnels health "hub2";
  let hub_state_of h := if String.eqb h "hub1" then hub_state (aggregate_hub "hub1" h1)
                        else hub_state (aggregate_hub "hub2" h2) in
  mapM_result (λ p,
    tr ← of_option (dget (fx_transport fx) p.1) KeyError p.1;
    m ← of_option (dget ms p.1) KeyError p.1;
    h ← getitem p.2 "hub"; let hub := py_str h in
    hs ← (if inb hub HUBS then Ok (hub_state_of hub) else raise KeyError hub);
    th ← of_option (dget health p.1) KeyError p.1;
    t ← get_transport c tr;
    Ok (metric_target (Some hub) tr p.1 HUB_OVERLAY (state th) (Some hs) m t)) (fx_interfaces fx).

Inductive job := Overlay (name : string) | Direct (transport : string).

(** The pool: every job's result by its name, in the order the jobs took effect. *)
Definition run_jobs (schedule : list job) : M Runtime (dict string TunnelSample * dict string Target) :=
  foldMS (λ acc j, match j with
    | Overlay n => s ← probe n; mret (dset acc.1 n s, acc.2)
    | Direct t => d ← direct_target t; mret (acc.1, dset acc.2 t d)
    end) ([], []) schedule.

(** [machine.observe(...)], a stale sample keeping the machine's health. *)
Definition observe_one (samples : dict string TunnelSample) (acc : dict string TunnelHealth)
    (p : string * TunnelHealthMachine) : M Runtime (dict string TunnelHealth) :=
  s ← lift (of_option (dget samples p.1) KeyError p.1);
  match observe s (mono e "observe" p.1) p.2 with
  | (Ok h, m') => _ ← modify (λ r, set_health_machines (dset (health_machines r) p.1 m') r); mret (dset acc p.1 h)
  | (Err x, _) => if bool_decide (exn_cls x = StaleMeasurement) then mret (dset acc p.1 (health p.2)) else lift (Err x)
  end.

Definition observe_all (samples : dict string TunnelSample) : M Runtime (dict string TunnelHealth) :=
  r ← get; foldMS (observe_one samples) [] (health_machines r).

(** ** SLA steering *)

Definition selection_mark (t : Target) : result Z :=
  tr ← get_transport c (t_transport t);
  let m := marks (settings c) in
  if decide (t_egress_mode t = DIRECT_INTERNET)
  then encode m (route_slot tr) UNKNOWN false None DIRECT_INTERNET
  else encode m (route_slot tr) UNKNOWN false (t_hub t) HUB_OVERLAY.

(** Agent operations leave their mutations behind also when they raise. *)
Definition on_agent {A} (m : M Agent A) : M Runtime A := on agent set_agent m.

Definition apply_class_marks (s : Steering) (rs : list ClassMarkRule) : M Runtime unit :=
  on_agent (install_connmark_rules exec (lan_interface s) (prefix_marks s) (default_mark s) (queue_number s) rs).

Definition resteer_rtp (mark : Z) : M Runtime unit :=
  s ← lift (get_site c site);
  on_agent (catch_command
    (run exec ["conntrack"; "-U"; "-p"; "udp"; "--orig-src"; addr_str (host_ip s); "--dport"; "5004"; "--mark";
               str_Z mark +:+ "/" +:+ str_Z (affinity_mask (marks (settings c)))])
    (λ _, mret tt)).

Definition record_switch_event (d : PathDecision) (previous : option PathDecision) : M Runtime unit :=
  modify (λ r, set_path_events (lastn 200 (path_events r ++ [{|
    sw_class := class_value (PathSelection.application_class d); sw_source := pd_source d; sw_destination := pd_destination d;
    sw_policy := destination_policy d;
    sw_old_path := p ← previous; m ← selected_path p; Some (path_id m);
    sw_new_path := path_id <$> selected_path d;
    sw_reason := selection_reason d; sw_timestamp := timestamp d |}])) r).

Definition with_mark (rule : ClassMarkRule) (mark : Z) (b : bool) : ClassMarkRule := {|
  EdgeAgent.application_class := EdgeAgent.application_class rule; cm_prefix := cm_prefix rule; cm_mark := mark;
  protocol := protocol rule; destination_ports := destination_ports rule; dscp := dscp rule; blocked := b |}.

(** [rule.application_class == app_class.value and rule.prefix == str(intent["prefix"])] *)
Definition rule_matches (cls prefix : string) (rule : ClassMarkRule) : bool :=
  String.eqb (EdgeAgent.application_class rule) cls && String.eqb (cm_prefix rule) prefix.

(** The rules after a class's decision, and whether any changed. *)
Definition steer (cls prefix : string) (act : NoEligibleAction) (choice : option Z) (rule : ClassMarkRule) : ClassMarkRule :=
  if negb (rule_matches cls prefix rule) then rule
  else match choice with
       | None => if bool_decide (act = FAIL_CLOSED) then with_mark rule (cm_mark rule) true else rule
       | Some mark => with_mark rule mark false
       end.

Definition steer_all (cls prefix : string) (act : NoEligibleAction) (choice : option Z)
    (acc : list ClassMarkRule * bool) : list ClassMarkRule * bool :=
  let new := map (steer cls prefix act choice) acc.1 in (new, acc.2 || negb (bool_decide (new = acc.1))).

Definition class_of_value (name : string) : option ApplicationClass :=
  find (λ k, String.eqb (class_value k) name) application_classes.

Definition egress_list (j : json) : result (list EgressMode) :=
  v ← get_default j "allowed_egress" (JList []); items ← items_of v;
  mapM_result (λ i, of_option (match i with JStr s => egress_of_value s | _ => None end) ValueError
                      "is not a valid EgressMode") items.

(** One class of one intent. *)
Definition sla_class (targets : list Target) (allowed : list EgressMode) (ts : list string) (intent : json)
    (acc : list ClassMarkRule * bool) (name : json) : M Runtime (list ClassMarkRule * bool) :=
  match class_of_value (py_str name) with
  | None => mret acc
  | Some k =>
      p ← lift (getitem intent "prefix"); let prefix := py_str p in
      pol ← lift (getitem intent "policy_id");
      sla ← lift (of_option (dget (application_slas c) k) KeyError (class_value k));
      w ← lift (of_option (dget (path_scoring c) k) KeyError (class_value k));
      let key := (class_value k +:+ ":" +:+ prefix)%string in
      res ← on selector set_selector (resolve_sla
        {| rq_class := k; rq_source := site; rq_destination := prefix; rq_policy := py_str pol; rq_allowed := allowed;
           rq_transports := ts; rq_measurements := []; rq_sla := sla; rq_weights := w;
           rq_now := mono e "select" key; rq_timestamp := stamp e key |} targets);
      let d := decision res in
      r ← get;
      let previous := dget (decisions r) key in
      _ ← modify (set_decisions (dset (decisions r) key d));
      _ ← (if changed d then record_switch_event d previous else mret tt);
      match resolution res with
      | None => mret (steer_all (class_value k) prefix (no_eligible_action sla) None acc)
      | Some rr =>
          mark ← lift (selection_mark (r_target rr));
          let acc := steer_all (class_value k) prefix (no_eligible_action sla) (Some mark) acc in
          _ ← (if decide (k = REALTIME_RTP) then if changed d then resteer_rtp mark else mret tt else mret tt);
          mret acc
      end
  end.

Definition sla_intent (targets : list Target) (acc : list ClassMarkRule * bool) (intent : json)
    : M Runtime (list ClassMarkRule * bool) :=
  allowed ← lift (egress_list intent);
  ts ← lift (candidates_of intent);
  v ← lift (get_default intent "application_classes" (JList [])); names ← lift (items_of v);
  foldMS (sla_class targets allowed ts intent) acc names.

(** [item.get("protocol")] keeps an empty text as no protocol. *)
Definition reload_rule (r : ClassMarkRule) : ClassMarkRule := {|
  EdgeAgent.application_class := EdgeAgent.application_class r; cm_prefix := cm_prefix r; cm_mark := cm_mark r;
  protocol := match protocol r with Some p => if nonempty p then Some p else None | None => None end;
  destination_ports := destination_ports r; dscp := dscp r; blocked := blocked r |}.

Definition run_sla_selection (targets : list Target) : M Runtime unit :=
  r ← get;
  match fx_snapshot fx, steering (agent r) with
  | Some snapshot, Some s =>
      if negb (py_truth snapshot) then mret tt
      else
        v ← lift (get_default snapshot "destination_intents" (JList [])); intents ← lift (items_of v);
        out ← foldMS (sla_intent targets) (map reload_rule (rules s), false) intents;
        _ ← (if out.2 : bool then
               _ ← apply_class_marks s out.1;
               modify (λ r, set_agent (set_steering (agent r)
                 {| lan_interface := lan_interface s; prefix_marks := prefix_marks s; default_mark := default_mark s;
                    queue_number := queue_number s; rules := out.1 |}) r)
             else mret tt);
        modify (λ r, set_decisions_file (Some (dvals (decisions r)))
                       (set_metrics_file (Some (dvals (measurements r))) r))
  | _, _ => mret tt
  end.

(** ** Route slots *)

Definition repoint (slot interface : string) : M Runtime unit :=
  item ← lift (of_option (dget (fx_interfaces fx) interface) KeyError interface);
  t ← lift (get_transport c slot);
  routes ← lift (getitem item "routes"); routes ← lift (items_of routes);
  forM (λ p, if String.eqb (py_str p) (network_str (saas_network c)) then mret tt
             else on_agent (run exec ["ip"; "route"; "replace"; py_str p; "dev"; interface; "table";
                                      str_Z (tr_route_table t)])) routes.

Definition persist_status (slot state detail : string) : M Runtime unit :=
  r ← get;
  let v := route_version (manager r) in
  if decide (dget (last_status r) slot = Some (state, detail, v)) then mret tt
  else
    modify (λ r, set_last_status (dset (last_status r) slot (state, detail, v))
      (set_status_file (dset (status_file r) slot
         {| sr_state := state; sr_detail := detail; sr_route_version := v; sr_updated := mono e "status" slot |}) r)).

(** [machine.state.value] *)
Definition state_value (s : TunnelState.t) : string :=
  match s with
  | TunnelState.UNKNOWN => "UNKNOWN" | TunnelState.HEALTHY => "HEALTHY" | TunnelState.SUSPECT => "SUSPECT"
  | TunnelState.FAILED => "FAILED" | TunnelState.RECOVERING => "RECOVERING"
  end.

Definition active_flow_count (slot : string) : result Z :=
  t ← get_transport c slot;
  let cmd := ["conntrack"; "-L"; "-o"; "extended"; "--mark";
              str_Z (route_slot t) +:+ "/" +:+ str_Z (route_mask (marks (settings c)))] in
  Ok (if check e cmd then flow_lines e cmd else 0).

Definition on_manager {A} (m : M LocalFailoverManager A) : M Runtime A := on manager set_manager m.

Definition discard (slot : string) (l : list string) : list string := List.filter (λ s, negb (String.eqb s slot)) l.
Definition add (slot : string) (l : list string) : list string := if inb slot l then l else l ++ [slot].

(** The current target's tunnel has failed: move the slot to a healthy overlay
    target when there is another one. *)
Definition fail_over (candidates : list Target) (profile : Site) (slot : string) (current : SlotTarget) : M Runtime unit :=
  cur ← lift (of_option (find (λ t, String.eqb (t_interface t) (st_interface current)) candidates) StopIteration "");
  let ranked := slot :: List.filter (λ n, negb (String.eqb n slot)) (dkeys (transports c)) in
  match resolve slot ranked [HUB_OVERLAY] (preferred_hub profile) (standby_hub profile) candidates (Some cur) true with
  | Err x => if bool_decide (exn_cls x = LookupError)
             then persist_status slot "DEGRADED" "no healthy local overlay replacement" else lift (Err x)
  | Ok res =>
      let t := r_target res in
      tr ← lift (get_transport c slot);
      let replacement := {| st_hub := match t_hub t with Some h => h | None => "None" end;
                            st_transport := t_transport t; st_interface := t_interface t;
                            route_table := tr_route_table tr |} in
      if String.eqb (st_interface replacement) (st_interface current) then mret tt
      else
        ev ← on_manager (emergency_remap (uuid4 e slot) slot replacement (r_reason res) None (mono e "remap" slot));
        _ ← repoint slot (st_interface replacement);
        _ ← on_agent (enqueue_event ev);
        persist_status slot "FAILOVER" (ev_reason ev)
  end.

Definition health_of (observed : dict string TunnelHealth) (interface : string) : result TunnelHealth :=
  of_option (dget observed interface) KeyError interface.

(** The slot is in an emergency and its current tunnel has not failed. *)
Definition recover (observed : dict string TunnelHealth) (slot : string) : M Runtime unit :=
  r ← get;
  previous ← lift (previous_target (manager r) slot);
  h ← lift (health_of observed (st_interface previous));
  if negb (bool_decide (state h = TunnelState.HEALTHY)) then
    _ ← modify (set_recovery_started (discard slot (recovery_started r)));
    persist_status slot "DEGRADED" "previous target has not recovered"
  else if negb (inb slot (recovery_started r)) then
    _ ← on_manager (begin_recovery slot (mono e "begin" slot));
    _ ← modify (λ r, set_recovery_started (add slot (recovery_started r)) r);
    persist_status slot "RECOVERING" "previous target met health threshold; waiting for drain"
  else
    flows ← lift (active_flow_count slot);
    o ← on_manager (complete_recovery slot flows (mono e "complete" slot));
    match o with
    | None => mret tt
    | Some restored =>
        _ ← repoint slot (st_interface restored);
        _ ← modify (λ r, set_recovery_started (discard slot (recovery_started r)) r);
        persist_status slot "FAILBACK" "drain completed; restored prior target"
    end.

Definition run_slot (observed : dict string TunnelHealth) (candidates : list Target) (profile : Site)
    (slot : string) : M Runtime unit :=
  r ← get;
  current ← lift (LocalFailover.target (manager r) slot);
  h ← lift (health_of observed (st_interface current));
  if decide (state h = TunnelState.FAILED) then fail_over candidates profile slot current
  else
    em ← lift (is_emergency (manager r) slot);
    if negb em then persist_status slot (state_value (state h)) ("active target " +:+ st_interface current)
    else recover observed slot.

Definition run_once (schedule : list job) : M Runtime unit :=
  direct ← lift (direct_transports c);
  results ← run_jobs schedule;
  observed ← observe_all results.1;
  directs ← lift (mapM_result (λ t, of_option (dget results.2 t) KeyError t) direct);
  r ← get;
  overlay ← lift (overlay_targets observed (measurements r));
  let candidates := overlay ++ directs in
  _ ← run_sla_selection candidates;
  profile ← lift (get_site c site);
  r ← get;
  forM (run_slot observed candidates profile) (slot_names (manager r)).
End round.
