(* ===== verification/FailoverFacts.v ===== *)
(** * What a monitoring round does

    The failover monitor against the contracts of its parts: every round is a
    sequence of manager operations, a slot only moves to a target observed
    healthy, the steering rules keep their identity, and the device names the
    probes use. *)
From S2P Require Import Prelude Net Marks PathSelection TunnelHealth HubHealth LocalFailover RouteResolver.
From S2P Require Import Json Model EdgeAgent CoreTopology FailoverRuntime.
Local Open Scope string_scope.
Local Open Scope list_scope.
Local Open Scope Z_scope.

Lemma moves_on {X A} (R : relation Runtime) (proj : Runtime → X) set (m : M X A) :
  (∀ r, R r (set (m (proj r)).2 r)) → moves R (on proj set m).
Proof. intros Hm r. specialize (Hm r). unfold on. by destruct (m (proj r)) as [[|] v]. Qed.

Lemma moves_modify (R : relation Runtime) f : (∀ r, R r (f r)) → moves R (modify f).
Proof. intros Hf r. apply Hf. Qed.

(** ** Frames *)

(** The parts of the state only the slot machine changes. *)
Definition slot_part (r : Runtime) := (manager r, recovery_started r, last_status r, status_file r).
(** What identifies the agent and what reconciliation recorded. *)
Definition agent_part (r : Runtime) := (local_state (agent r), saved_state (agent r), event_queue (agent r)).
Definition control (r : Runtime) := (slot_part r, agent_part r).

Ltac kept := intros []; unfold keeps; reflexivity.
Ltac keep_step := first [moves_step | apply moves_modify; kept | apply moves_on; kept].

Section frames.
Context `{PyRepr} (exec : list command → command → option string) (fx : Fixed) (e : Env).

Lemma control_measure p i d h t eg fw : moves (keeps control) (measure fx e p i d h t eg fw).
Proof. unfold measure. repeat (cbv zeta; keep_step). Qed.

Lemma control_probe n : moves (keeps control) (probe fx e n).
Proof. unfold probe, next_sequence. repeat (cbv zeta; keep_step). apply control_measure. Qed.

Lemma control_direct t : moves (keeps control) (direct_target fx e t).
Proof. unfold direct_target. repeat (cbv zeta; keep_step). apply control_measure. Qed.

Lemma control_jobs l : moves (keeps control) (run_jobs fx e l).
Proof. unfold run_jobs. repeat keep_step; [apply control_probe|apply control_direct]. Qed.

Lemma control_observe s : moves (keeps control) (observe_all e s).
Proof. unfold observe_all, observe_one. repeat (cbv zeta; keep_step). Qed.

(** Commands leave the recorded state and the event queue alone. *)
Lemma agent_emits {A} (m : M Agent A) :
  (∀ c, emits c (λ _, True) m) → moves (keeps control) (on_agent m).
Proof.
  intros Hm. apply moves_on. intros r. destruct (Hm (ag_config (agent r)) (agent r) eq_refl) as [Hi _].
  unfold same_identity in Hi. destruct r. unfold keeps, control, slot_part, agent_part. simpl in *.
  destruct_and! Hi. congruence.
Qed.

Lemma control_run cmd : moves (keeps control) (on_agent (run exec cmd)).
Proof. apply agent_emits. intros c. by apply emits_run. Qed.

Lemma control_repoint slot i : moves (keeps control) (repoint exec fx slot i).
Proof. unfold repoint. repeat (cbv zeta; keep_step). apply control_run. Qed.

Lemma control_sla_class ts al cs i acc n : moves (keeps control) (sla_class exec fx e ts al cs i acc n).
Proof.
  unfold sla_class, record_switch_event, resteer_rtp. repeat (cbv zeta; keep_step).
  apply agent_emits. intros c. apply emits_catch; [by apply emits_run|]. intros. apply emits_ret.
Qed.

Lemma control_sla ts : moves (keeps control) (run_sla_selection exec fx e ts).
Proof.
  unfold run_sla_selection, sla_intent, apply_class_marks. repeat (cbv zeta; keep_step).
  - apply control_sla_class.
  - apply agent_emits. intros c. by apply emits_connmark.
Qed.
End frames.

(** ** The slot machine *)

Lemma bind_tail {S X A B} (proj : S → X) (m : M S A) (k : A → M S B) s :
  (∀ x, moves (keeps proj) (k x)) → proj ((m ≫= k) s).2 = proj (m s).2.
Proof. intros Hk. unfold mbind, M_bind. destruct (m s) as [[x|e] s1]; [apply Hk|done]. Qed.

Lemma on_manager_state {A} (m : M LocalFailoverManager A) r :
  manager (on_manager m r).2 = (m (manager r)).2.
Proof. unfold on_manager, on. destruct (m (manager r)) as [[|] v]; by destruct r. Qed.

Lemma control_manager {A} (m : M Runtime A) : moves (keeps control) m → moves (keeps manager) m.
Proof. apply moves_impl. intros s s' [=]. done. Qed.

Section slots.
Context `{PyRepr} (exec : list command → command → option string) (fx : Fixed) (e : Env).

Lemma manager_persist slot st d : moves (keeps manager) (persist_status e slot st d).
Proof. unfold persist_status. repeat (cbv zeta; keep_step). Qed.

Lemma manager_repoint slot i : moves (keeps manager) (repoint exec fx slot i).
Proof. apply control_manager, control_repoint. Qed.

Lemma manager_enqueue ev : moves (keeps manager) (on_agent (enqueue_event ev)).
Proof. apply moves_on. kept. Qed.

Ltac manager_step := first [apply manager_persist | apply manager_repoint | apply manager_enqueue | keep_step].

(** The only manager operation of a slot in a round. *)
Inductive slot_op (observed : dict string TunnelHealth) (candidates : list Target) (r : Runtime) (slot : string)
    : op → Prop :=
  | op_remap current h t reason table :
      LocalFailover.target (manager r) slot = Ok current →
      dget observed (st_interface current) = Some h → state h = TunnelState.FAILED →
      t ∈ candidates → healthy t = true → t_egress_mode t = HUB_OVERLAY → t_interface t ≠ st_interface current →
      slot_op observed candidates r slot (Remap (uuid4 e slot) slot
        {| st_hub := default "None" (t_hub t); st_transport := t_transport t; st_interface := t_interface t;
           route_table := table |} reason None (mono e "remap" slot))
  | op_begin previous h :
      previous_target (manager r) slot = Ok previous →
      dget observed (st_interface previous) = Some h → state h = TunnelState.HEALTHY →
      slot ∉ recovery_started r →
      slot_op observed candidates r slot (Begin slot (mono e "begin" slot))
  | op_complete previous h flows :
      previous_target (manager r) slot = Ok previous →
      dget observed (st_interface previous) = Some h → state h = TunnelState.HEALTHY →
      slot ∈ recovery_started r → active_flow_count fx e slot = Ok flows →
      slot_op observed candidates r slot (Complete slot flows (mono e "complete" slot)).

Lemma of_option_ok {A} (o : option A) k msg x : of_option o k msg = Ok x → o = Some x.
Proof. unfold of_option. destruct o; naive_solver. Qed.

Lemma lift_bind_state {A B} (x : result A) (k : A → M Runtime B) r (P : Runtime → Prop) :
  P r → (∀ y, x = Ok y → P (k y r).2) → P ((lift x ≫= k) r).2.
Proof. intros Hr Hk. unfold mbind, M_bind, lift. destruct x; [by apply Hk|done]. Qed.

Definition slot_effect observed candidates slot (r r' : Runtime) : Prop :=
  manager r' = manager r ∨
  ∃ o, slot_op observed candidates r slot o ∧ manager r' = LocalFailover.exec (manager r) o.

Lemma resolve_healthy slot ranked pref stand ts cur hard res :
  resolve slot ranked [HUB_OVERLAY] pref stand ts cur hard = Ok res → hard = true →
  r_target res ∈ ts ∧ healthy (r_target res) = true ∧ t_egress_mode (r_target res) = HUB_OVERLAY.
Proof.
  intros Hr ->. unfold resolve in Hr. unfold retained in Hr.
  assert (match cur with Some t => if healthy t && negb true && inb (t_egress_mode t) [HUB_OVERLAY] then Some t else None
          | None => None end = None) as E by by (destruct cur; [rewrite andb_false_r|]).
  rewrite E in Hr. pose proof (first_some_spec (best_for pref stand ts) (policy_order [HUB_OVERLAY] ranked)) as Hs.
  destruct (first_some _ _) as [t|]; [|done]. injection Hr as <-. simpl.
  destruct Hs as (l1 & [eg tr] & l2 & Hpo & Hb & _).
  pose proof (best_for_spec pref stand ts eg tr) as Hb'. rewrite Hb in Hb'. destruct Hb' as (Hin & Hm & _).
  apply matches_true in Hm as (<- & <- & Hh). split_and!; try done.
  assert ((t_egress_mode t, t_transport t) ∈ policy_order [HUB_OVERLAY] ranked) as Hp
    by (rewrite Hpo; apply elem_of_app; right; constructor).
  apply policy_order_elem in Hp as [Hp _]. by apply list_elem_of_singleton in Hp.
Qed.

Lemma fail_over_effect observed candidates profile slot r current h :
  LocalFailover.target (manager r) slot = Ok current → dget observed (st_interface current) = Some h →
  state h = TunnelState.FAILED →
  slot_effect observed candidates slot r (fail_over exec fx e candidates profile slot current r).2.
Proof.
  intros Ht Ho Hf. unfold fail_over. cbv zeta. apply lift_bind_state; [by left|]. intros cur _.
  destruct (resolve _ _ _ _ _ _ _ _) as [res|x] eqn:Hr.
  - apply resolve_healthy in Hr as (Hin & Hh & He); [|done]. apply lift_bind_state; [by left|]. intros tr _. simpl.
    destruct (String.eqb_spec (t_interface (r_target res)) (st_interface current)); [by left|]. right.
    eexists. split; [by eapply (op_remap _ _ _ _ current h (r_target res) (r_reason res) (tr_route_table tr))|].
    rewrite (bind_tail manager); [|intros; repeat manager_step]. rewrite on_manager_state. simpl.
    by destruct (t_hub (r_target res)).
  - left. case_bool_decide; [apply manager_persist|done].
Qed.

Lemma recover_effect observed candidates slot r :
  slot_effect observed candidates slot r (recover exec fx e observed slot r).2.
Proof.
  unfold recover. change ((get ≫= ?k) r) with (k r r). apply lift_bind_state; [by left|]. intros prev Hp.
  apply lift_bind_state; [by left|]. intros h Hh. apply of_option_ok in Hh. cbv zeta.
  destruct (bool_decide_reflect (state h = TunnelState.HEALTHY)) as [Hs|Hs]; simpl.
  - destruct (inb slot (recovery_started r)) eqn:Hi; simpl.
    + apply lift_bind_state; [by left|]. intros flows Hf. right. eexists. split; [by eapply op_complete; eauto; apply inb_true|].
      rewrite (bind_tail manager); [|intros; repeat manager_step]. by rewrite on_manager_state.
    + right. eexists. split; [by eapply op_begin; eauto; apply inb_false|].
      rewrite (bind_tail manager); [|intros; repeat manager_step]. by rewrite on_manager_state.
  - left. rewrite (bind_tail manager); [|intros; repeat manager_step]. by destruct r.
Qed.

Lemma run_slot_effect observed candidates profile slot r :
  slot_effect observed candidates slot r (run_slot exec fx e observed candidates profile slot r).2.
Proof.
  unfold run_slot. change ((get ≫= ?k) r) with (k r r). apply lift_bind_state; [by left|]. intros cur Ht.
  apply lift_bind_state; [by left|]. intros h Hh. apply of_option_ok in Hh.
  destruct (decide _); [by eapply fail_over_effect|]. apply lift_bind_state; [by left|]. intros em _.
  destruct (negb em); [left; apply manager_persist|apply recover_effect].
Qed.
End slots.

Definition ops_of : relation Runtime := λ r r', ∃ os, manager r' = exec_all (manager r) os.

#[export] Instance ops_of_preorder : PreOrder ops_of.
Proof.
  split; [by intros r; exists []|]. intros r1 r2 r3 [os1 H1] [os2 H2]. exists (os1 ++ os2).
  unfold exec_all in *. by rewrite foldl_app, <- H1.
Qed.

Lemma keeps_ops {A} (m : M Runtime A) : moves (keeps control) m → moves ops_of m.
Proof. apply moves_impl. intros s s' [= Hm _]. by exists []. Qed.

Lemma ops_run_slot `{PyRepr} exec fx e observed candidates profile slot :
  moves ops_of (run_slot exec fx e observed candidates profile slot).
Proof.
  intros r. unfold ops_of.
  destruct (run_slot_effect exec fx e observed candidates profile slot r) as [->|(o & _ & ->)];
    [by exists []|by exists [o]].
Qed.

Lemma ops_run_once `{PyRepr} exec fx e schedule : moves ops_of (run_once exec fx e schedule).
Proof.
  unfold run_once. repeat (cbv zeta; moves_step).
  - apply keeps_ops, control_jobs.
  - apply keeps_ops, control_observe.
  - apply keeps_ops, control_sla.
  - apply ops_run_slot.
Qed.

(** [serve_forever]: one round after the other; a raised error ends the loop. *)
Definition rounds `{PyRepr} (exec : list command → command → option string) (fx : Fixed) (l : list (Env * list job))
    : M Runtime unit := forM (λ x, run_once exec fx x.1 x.2) l.

Lemma ops_rounds `{PyRepr} exec fx l : moves ops_of (rounds exec fx l).
Proof. unfold rounds. repeat moves_step. apply ops_run_once. Qed.

Lemma init_manager `{PyRepr} site c desired snapshot a fx r :
  LocalFailoverRuntime_init site c desired snapshot a = Ok (fx, r) → manager_wf (manager r).
Proof.
  unfold LocalFailoverRuntime_init. intros Hi. inv_bind. simpl. by eapply init_wf.
Qed.


(** A slot only moves to a path observed healthy.  One slot step, whether it
    returns or raises, leaves the other slots alone and either keeps the slot's
    target, or fails over - the current tunnel was observed FAILED and the new
    target is another overlay candidate whose tunnel is HEALTHY and whose hub is
    HEALTHY or DEGRADED, the failed target being remembered - or fails back -
    to that remembered target, itself observed HEALTHY, after a recovery was
    begun and its flows drained or its deadline passed. *)
Theorem slot_moves_safely `{PyRepr} exec fx e observed candidates profile slot r st st' :
  let r' := (run_slot exec fx e observed candidates profile slot r).2 in
  dget (slots (manager r)) slot = Some st → dget (slots (manager r')) slot = Some st' →
  (∀ k, k ≠ slot → dget (slots (manager r')) k = dget (slots (manager r)) k) ∧
  (current st' = current st ∨
   (∃ h t, dget observed (st_interface (current st)) = Some h ∧ state h = TunnelState.FAILED ∧
      t ∈ candidates ∧ healthy t = true ∧ t_egress_mode t = HUB_OVERLAY ∧
      st_interface (current st') = t_interface t ∧ t_interface t ≠ st_interface (current st) ∧
      emergency st' = true ∧ previous_confirmed st' = current st) ∨
   (∃ h deadline flows, current st' = previous_confirmed st ∧ emergency st = true ∧ emergency st' = false ∧
      dget observed (st_interface (previous_confirmed st)) = Some h ∧ state h = TunnelState.HEALTHY ∧
      slot ∈ recovery_started r ∧ drain_deadline st = Some deadline ∧
      active_flow_count fx e slot = Ok flows ∧ (flows ≤ 0 ∨ (deadline <= mono e "complete" slot)%Q))).
Proof.
  intros r' Hst Hst'. destruct (run_slot_effect exec fx e observed candidates profile slot r) as [Hm|(o & Ho & Hm)];
    fold r' in Hm; rewrite Hm in *; [split; [done|left; congruence]|].
  assert (Hcur : ∀ t, LocalFailover.target (manager r) slot = Ok t → t = current st).
  { intros t. unfold LocalFailover.target, slot_state, of_option. rewrite Hst. by intros [= <-]. }
  assert (Hprev : ∀ t, previous_target (manager r) slot = Ok t → t = previous_confirmed st).
  { intros t. unfold previous_target, slot_state, of_option. rewrite Hst. by intros [= <-]. }
  destruct Ho as [cur h t reason table Ht Hh Hs Hin Hhe Heg Hne|prev h Hp Hh Hs Hnr|prev h flows Hp Hh Hs Hr Hf].
  - apply Hcur in Ht as ->. simpl in *.
    destruct (emergency_remap _ _ _ _ _ _ _) as [[ev|x] m'] eqn:E; simpl in *.
    + destruct (remap_inv _ _ _ _ _ _ _ _ _ E) as [[_ ->]|(st0 & _ & Hst0 & _ & _ & _ & ->)];
        [split; [done|left; congruence]|].
      rewrite Hst in Hst0. injection Hst0 as <-. simpl in *. rewrite dget_dset_eq in Hst'. injection Hst' as <-.
      split; [intros k Hk; by rewrite dget_dset_ne|]. right. left. exists h, t. by split_and!.
    + apply remap_err in E as ->. split; [done|left; congruence].
  - simpl in *. destruct (begin_inv slot (mono e "begin" slot) (manager r)) as [E|(st0 & Hst0 & _ & E)];
      rewrite E in *; [split; [done|left; congruence]|]. simpl in *. rewrite dget_dset_eq in Hst'.
    injection Hst' as <-. split; [intros k Hk; by rewrite dget_dset_ne|]. left. simpl. congruence.
  - apply Hprev in Hp as ->. simpl in *.
    destruct (complete_inv slot flows (mono e "complete" slot) (manager r)) as [E|(st0 & dl & Hst0 & He & Hd & Hfl & E)];
      rewrite E in *; [split; [done|left; congruence]|]. simpl in *. rewrite dget_dset_eq in Hst'.
    rewrite Hst in Hst0. injection Hst0 as <-. injection Hst' as <-.
    split; [intros k Hk; by rewrite dget_dset_ne|]. right. right. exists h, dl, flows. by split_and!.
Qed.

(** ** Steering *)

(** What a class's decision says about the rules of its prefix. *)
Definition choice_ok (c : TopologyConfig) (allowed : list EgressMode) (ts : list string) (targets : list Target)
    (choice : option Z) : Prop :=
  match choice with
  | None => True
  | Some mark =>
      ∃ t tr, serves allowed ts targets t ∧ get_transport c (t_transport t) = Ok tr ∧
        let m := marks (settings c) in
        transport m mark = route_slot tr ∧ stage m mark = UNKNOWN ∧
        if decide (t_egress_mode t = DIRECT_INTERNET)
        then egress_mode m mark = Ok DIRECT_INTERNET ∧ target_hub m mark = Ok None
        else egress_mode m mark = Ok HUB_OVERLAY ∧ target_hub m mark = Ok (t_hub t)
  end.

Lemma selection_mark_sound fx t mark pm :
  validate (marks (settings (fx_config fx))) pm = Ok tt → selection_mark fx t = Ok mark →
  ∃ tr, get_transport (fx_config fx) (t_transport t) = Ok tr ∧
    let m := marks (settings (fx_config fx)) in
    transport m mark = route_slot tr ∧ stage m mark = UNKNOWN ∧
    if decide (t_egress_mode t = DIRECT_INTERNET)
    then egress_mode m mark = Ok DIRECT_INTERNET ∧ target_hub m mark = Ok None
    else egress_mode m mark = Ok HUB_OVERLAY ∧ target_hub m mark = Ok (t_hub t).
Proof.
  intros Hm Hs. unfold selection_mark in Hs. apply bind_Ok in Hs as (tr & Htr & Hs). exists tr. split; [done|].
  destruct (decide _); destruct (decode_encode _ _ _ _ _ _ _ _ Hm Hs) as (? & ? & ? & ? & _); by split_and!.
Qed.

Lemma steer_all_map cls prefix act choice acc :
  (steer_all cls prefix act choice acc).1 = map (steer cls prefix act choice) acc.1.
Proof. done. Qed.

Lemma on_run {X A} (proj : Runtime → X) set (m : M X A) r x r' :
  on proj set m r = (Ok x, r') → ∃ v, m (proj r) = (Ok x, v).
Proof. unfold on. destruct (m (proj r)) as [[|] v]; naive_solver. Qed.


(** ** Device names

    The probes of the underlay and of direct Internet leave through the device
    [SITE-TRANSPORT] of the logical site the process was started with, while
    the devices of an edge are named after its edge node (README; the agent's
    own commands).  Where the two differ no path is ever observed usable. *)

(** A ping bound to a device that does not exist fails. *)
Definition devices_only (devices : list string) (e : Env) : Prop :=
  ∀ dev rest, check e ("ping" :: "-I" :: dev :: rest) = true → dev ∈ devices.

Lemma probe_underlay `{PyRepr} fx e name r s r' devices :
  devices_only devices e → probe fx e name r = (Ok s, r') → underlay_reachable s = true →
  device fx (ts_transport s) ∈ devices.
Proof.
  intros Hd Hp Hu. unfold probe in Hp. cbv zeta in Hp.
  apply lift_bind_run in Hp as (? & _ & Hp). apply lift_bind_run in Hp as (? & _ & Hp).
  apply lift_bind_run in Hp as (? & _ & Hp). apply bind_run in Hp as (? & ? & _ & Hp).
  apply lift_bind_run in Hp as (? & _ & Hp). apply lift_bind_run in Hp as (? & _ & Hp).
  apply bind_run in Hp as (? & ? & _ & Hp). injection Hp as <- _. simpl in *. by eapply Hd.
Qed.

Lemma direct_probe `{PyRepr} fx e transport r t r' devices :
  devices_only devices e → direct_target fx e transport r = (Ok t, r') → healthy t = true →
  device fx transport ∈ devices.
Proof.
  intros Hd Hp Hh. unfold direct_target in Hp. cbv zeta in Hp.
  apply lift_bind_run in Hp as (? & _ & Hp). apply lift_bind_run in Hp as (? & _ & Hp).
  apply bind_run in Hp as (m & r1 & Hm & Hp). injection Hp as <- _.
  assert (mr_reachable m = true) as Hr by (by destruct (mr_reachable m)).
  unfold measure in Hm. cbv zeta in Hm. destruct (parse_ping _ _) as [[[? ?] ?] ?]. apply bind_run in Hm as (? & ? & _ & Hm).
  apply lift_bind_run in Hm as (? & _ & Hm). destruct (update _ _) as [? [[[? ?] ?] ?]].
  apply bind_run in Hm as (? & ? & _ & Hm). apply lift_bind_run in Hm as (? & _ & Hm).
  apply bind_run in Hm as (? & ? & _ & Hm). injection Hm as <- _. unfold ping_command in Hr. simpl in Hr. exact (Hd _ _ Hr).
Qed.

(** The devices of the edge of [site1] in the shipped topology. *)
Definition node1_devices : list string :=
  ["node1-mpls"; "node1-bb"; "node1-lte"; "node1-lan"; "node1-mgmt"; "wg-h1-mpls"; "wg-h1-bb"; "wg-h1-lte";
   "wg-h2-mpls"; "wg-h2-bb"; "wg-h2-lte"].

(** The monitor of [site1], started as the bootstrap starts it, never observes
    a usable tunnel nor a reachable direct path. *)
Lemma logical_device_names_never_usable `{PyRepr} fx e name transport r s r1 t r2 :
  fx_site fx = "site1" → devices_only node1_devices e →
  (probe fx e name r = (Ok s, r1) → usable s = false) ∧
  (direct_target fx e transport r = (Ok t, r2) → healthy t = false).
Proof.
  intros Hs Hd.
  assert (Hdev : ∀ tr, device fx tr ∉ node1_devices).
  { intros tr Hin. unfold device in Hin. rewrite Hs in Hin. unfold node1_devices in Hin.
    repeat (apply elem_of_cons in Hin as [Hin|Hin]; [done|]). by inversion Hin. }
  split.
  - intros Hp. destruct (usable s) eqn:Hu; [|done]. exfalso. eapply Hdev, probe_underlay; [done|done|].
    unfold usable in Hu. rewrite !andb_true_iff in Hu. naive_solver.
  - intros Hp. destruct (healthy t) eqn:Hh; [|done]. exfalso. by eapply Hdev, direct_probe.
Qed.

(** ** Concrete runs *)

Module Examples.
Definition tunnel (name hub : string) (slot table : Z) : json := JObj
  [("name", JStr name); ("hub", JStr hub); ("transport_slot", JInt slot); ("route_table", JInt table);
   ("routes", JList [JStr "10.100.0.0/24"; JStr "198.18.0.0/24"])].

Definition desired : json := JObj
  [("site", JStr "site1");
   ("interfaces", JList [tunnel "wg-h1-bb" "hub1" 2 1102; tunnel "wg-h2-bb" "hub2" 2 1202]);
   ("active_target_by_slot", JObj [("bb", JObj [("interface", JStr "wg-h1-bb"); ("hub", JStr "hub1")])])].

Definition snapshot : json := JObj [("destination_intents", JList [JObj
  [("prefix", JStr "198.18.0.0/24"); ("policy_id", JStr "saas"); ("allowed_egress", JList [JStr "HUB_OVERLAY"]);
   ("candidate_transports", JList [JStr "bb"]); ("application_classes", JList [JStr "SAAS_INTERACTIVE"])]])].

Definition class_rule0 : ClassMarkRule := {|
  EdgeAgent.application_class := "SAAS_INTERACTIVE"; cm_prefix := "198.18.0.0/24"; cm_mark := 4098;
  protocol := Some "tcp"; destination_ports := [443]; dscp := None; blocked := false |}.

Definition agent0 : result Agent := (λ a, set_steering a {| lan_interface := "node1-lan"; prefix_marks := [];
  default_mark := 4098; queue_number := 4100; rules := [class_rule0] |}) <$>
  EdgeAgent_init "site1" core_config false "key" true None [] None.

Definition started : result (Fixed * Runtime) := Eval vm_compute in
  LocalFailoverRuntime_init "site1" core_config desired (Some snapshot) agent0.

Definition start : Fixed * Runtime := Eval vm_compute in
  match started as r return is_ok r = true → Fixed * Runtime with
  | Ok x => λ _, x
  | Err _ => λ H, False_rect _ (Bool.diff_false_true H)
  end eq_refl.
Definition fx : Fixed := Eval vm_compute in start.1.
Definition r0 : Runtime := Eval vm_compute in start.2.

Lemma started_eq : LocalFailoverRuntime_init "site1" core_config desired (Some snapshot) agent0 = Ok (fx, r0).
Proof. vm_cast_no_check (eq_refl started). Qed.

(** At [now] every command succeeds but the pings over the [down] interfaces. *)
Definition env (now : Q) (down : list string) : Env := {|
  check := λ cmd, match cmd with
                  | "ping" :: "-I" :: dev :: _ => negb (inb dev down)
                  | _ => true
                  end;
  report := λ _, {| g_rtt := Some 20%Q; g_loss := Some 0%Q; g_packets := Some (10, 10) |};
  handshakes := λ _, []; counters := λ _, Some 1000; flow_lines := λ _, 0;
  mono := λ _ _, now; wall := λ _, now; stamp := λ _, "2026-01-01T00:00:00Z";
  uuid4 := λ slot, "event-" +:+ slot |}.

Definition jobs : list job := [Overlay "wg-h2-bb"; Direct "lte"; Overlay "wg-h1-bb"; Direct "bb"].
Definition no_failure : list command → command → option string := λ _ _, None.

Definition play (downs : list (Q * list string)) : result unit * Runtime :=
  rounds no_failure fx (map (λ p, (env p.1 p.2, jobs)) downs) r0.

Definition one_hub_down : list (Q * list string) :=
  [(10%Q, []); (12%Q, ["wg-h1-bb"]); (14%Q, ["wg-h1-bb"]); (16%Q, ["wg-h1-bb"])].

(** The tunnel to the first hub dies: after three failed rounds the slot moves to
    the second hub and the class marks follow. *)
Example failover_run :
  let out := play one_hub_down in
  out.1 = Ok tt ∧ st_interface <$> LocalFailover.target (manager out.2) "bb" = Ok "wg-h2-bb" ∧
  sr_state <$> dget (status_file out.2) "bb" = Some "FAILOVER" ∧
  last (commands (agent out.2)) = Some ["ip"; "route"; "replace"; "10.100.0.0/24"; "dev"; "wg-h2-bb"; "table"; "102"].
Proof. by vm_compute. Qed.

Definition health_in (st : TunnelState.t) : TunnelHealth := {|
  state := st; successes := 0; failures := 0; last_sequence := 1; last_reason := ""; hold_down_until := 0;
  last_success_monotonic := None |}.
Definition observed : dict string TunnelHealth :=
  [("wg-h1-bb", health_in TunnelState.FAILED); ("wg-h2-bb", health_in TunnelState.HEALTHY)].
Definition overlay (hub ifname : string) (st : TunnelState.t) : Target := {|
  t_hub := Some hub; t_transport := "bb"; t_interface := ifname; t_egress_mode := HUB_OVERLAY; tunnel_state := st;
  t_hub_state := Some HubState.HEALTHY; t_rtt_ms := Some 20%Q; t_jitter_ms := Some 1%Q; t_loss_pct := Some 0%Q;
  available_mbps := Some 50%Q; t_enabled := true; t_measured_at := 10; t_capacity := 50; cost := 1 |}.
Definition candidates : list Target :=
  [overlay "hub1" "wg-h1-bb" TunnelState.FAILED; overlay "hub2" "wg-h2-bb" TunnelState.HEALTHY].
Definition profile : Site := Eval vm_compute in
  match get_site core_config "site1" as r return is_ok r = true → Site with
  | Ok x => λ _, x
  | Err _ => λ H, False_rect _ (Bool.diff_false_true H)
  end eq_refl.
Definition moved : Runtime := Eval vm_compute in
  (run_slot no_failure fx (env 12%Q []) observed candidates profile "bb" r0).2.
Lemma moved_eq : (run_slot no_failure fx (env 12%Q []) observed candidates profile "bb" r0).2 = moved.
Proof. vm_cast_no_check (eq_refl moved). Qed.

Definition intent : json := JObj [("prefix", JStr "198.18.0.0/24"); ("policy_id", JStr "saas")].
Definition steered : result (list ClassMarkRule * bool) * Runtime := Eval vm_compute in
  sla_class no_failure fx (env 12%Q []) candidates [HUB_OVERLAY] ["bb"] intent ([class_rule0], false)
    (JStr "SAAS_INTERACTIVE") r0.
Definition steered_rules : list ClassMarkRule * bool := ([with_mark class_rule0 8194 false], true).
Lemma steered_eq : sla_class no_failure fx (env 12%Q []) candidates [HUB_OVERLAY] ["bb"] intent ([class_rule0], false)
    (JStr "SAAS_INTERACTIVE") r0 = (Ok steered_rules, steered.2).
Proof. vm_cast_no_check (eq_refl steered). Qed.
Lemma layout_eq : validate (marks (settings core_config)) core_path_marks = Ok tt.
Proof. vm_cast_no_check (eq_refl (Ok tt)). Qed.
End Examples.


Lemma slot_moves_safely_witness :
  dget (slots (manager Examples.r0)) "bb" =
    Some (initial_slot {| st_hub := "hub1"; st_transport := "bb"; st_interface := "wg-h1-bb"; route_table := 102 |}) ∧
  ∃ t, t ∈ Examples.candidates ∧ healthy t = true ∧ t_interface t = "wg-h2-bb".
Proof.
  split; [reflexivity|].
  destruct (slot_moves_safely Examples.no_failure Examples.fx (Examples.env 12%Q []) Examples.observed
    Examples.candidates Examples.profile "bb" Examples.r0
    (initial_slot {| st_hub := "hub1"; st_transport := "bb"; st_interface := "wg-h1-bb"; route_table := 102 |})
    {| current := {| st_hub := "hub2"; st_transport := "bb"; st_interface := "wg-h2-bb"; route_table := 102 |};
       previous_confirmed := {| st_hub := "hub1"; st_transport := "bb"; st_interface := "wg-h1-bb"; route_table := 102 |};
       emergency := true; drain_deadline := None |}) as (_ & [E|[(h & t & _ & _ & Ht & Hh & _ & Hi & _)|(? & ? & ? & _ & E & _)]]).
  - reflexivity.
  - rewrite Examples.moved_eq. reflexivity.
  - discriminate E.
  - exists t. split; [exact Ht|]. split; [exact Hh|]. symmetry. exact Hi.
  - discriminate E.
Defined.

