(* ===== verification/DestinationModels.v ===== *)
(** * Destination policies ([common/destination_models.py])

    Reading and validating the destination policy document, its serialised form
    and the lookup of the policy of a prefix. *)
From S2P Require Import Prelude Net Marks PathSelection Model Json CoreTopology TopologyFacts.
Local Open Scope string_scope.
Local Open Scope list_scope.
Local Open Scope Z_scope.

Module DestinationType.
Inductive t := BRANCH_PRIVATE | DATA_CENTER | CLOUD_VPC | SAAS | UNKNOWN.
#[export] Instance t_eq_dec : EqDecision t.
Proof. solve_decision. Defined.
Definition value (d : t) : string :=
  match d with
  | BRANCH_PRIVATE => "BRANCH_PRIVATE" | DATA_CENTER => "DATA_CENTER" | CLOUD_VPC => "CLOUD_VPC"
  | SAAS => "SAAS" | UNKNOWN => "UNKNOWN"
  end.
Definition members : list t := [BRANCH_PRIVATE; DATA_CENTER; CLOUD_VPC; SAAS; UNKNOWN].
End DestinationType.
#[export] Existing Instance DestinationType.t_eq_dec.

Module TrustClass.
Inductive t := TRUSTED | SENSITIVE | UNKNOWN.
Definition value (d : t) : string :=
  match d with TRUSTED => "TRUSTED" | SENSITIVE => "SENSITIVE" | UNKNOWN => "UNKNOWN" end.
Definition members : list t := [TRUSTED; SENSITIVE; UNKNOWN].
End TrustClass.

Module FailureAction.
Inductive t := HUB_FALLBACK | FAIL_CLOSED.
#[export] Instance t_eq_dec : EqDecision t.
Proof. solve_decision. Defined.
Definition value (d : t) : string := match d with HUB_FALLBACK => "HUB_FALLBACK" | FAIL_CLOSED => "FAIL_CLOSED" end.
Definition members : list t := [HUB_FALLBACK; FAIL_CLOSED].
End FailureAction.
#[export] Existing Instance FailureAction.t_eq_dec.

Record DestinationPolicy := {
  policy_id : string; priority : Z; dp_prefix : option network; destination_type : DestinationType.t;
  trust_class : option TrustClass.t; dp_allowed : list EgressMode; dp_candidates : list string;
  failure_action : FailureAction.t; cloud_gateway_preferences : dict string (list string);
  application_matchers : list string; dp_classes : list string
}.

Record DestinationPolicyDocument := {
  schema_version : Z; policies : list DestinationPolicy; default_policy : DestinationPolicy
}.

(** ** Serialised form *)

Definition texts (l : list string) : json := JList (map JStr l).

Definition to_intent (p : DestinationPolicy) : dict string json :=
  [("policy_id", JStr (policy_id p)); ("priority", JInt (priority p));
   ("destination_type", JStr (DestinationType.value (destination_type p)));
   ("allowed_egress", texts (map egress_value (dp_allowed p)));
   ("candidate_transports", texts (dp_candidates p)); ("ranked_transports", texts (dp_candidates p));
   ("failure_action", JStr (FailureAction.value (failure_action p)));
   ("application_matchers", texts (application_matchers p)); ("application_classes", texts (dp_classes p))]
  ++ match trust_class p with Some t => [("trust_class", JStr (TrustClass.value t))] | None => [] end
  ++ match dp_prefix p with Some n => [("prefix", JStr (network_str n))] | None => [] end
  ++ (if bool_decide (cloud_gateway_preferences p = []) then []
      else [("cloud_gateway_preferences", JObj (dmap texts (cloud_gateway_preferences p)))]).

Definition to_mapping (d : DestinationPolicyDocument) : dict string json :=
  [("schema_version", JInt (schema_version d));
   ("policies", JList (map (λ p, JObj (to_intent p)) (policies d)));
   ("default_policy", JObj (to_intent (default_policy d)))].

Definition policy_for_prefix (d : DestinationPolicyDocument) (n : network) : DestinationPolicy :=
  default (default_policy d) (find (λ p, bool_decide (dp_prefix p = Some n)) (policies d)).

(** ** Reading *)

Definition bad {A} (msg : string) : result A := raise DestinationPolicyError msg.
Definition bad_if (b : bool) (msg : string) : result unit := raise_if b DestinationPolicyError msg.

(** [enum(str(value))] *)
Definition enum_of {E} (members : list E) (value_of : E → string) (text field : string) : result E :=
  of_option (find (λ m, String.eqb (value_of m) text) members) DestinationPolicyError
    ("invalid " +:+ field +:+ ": expected one of " +:+ join ", " (map value_of members)).

Definition egress_members : list EgressMode := [HUB_OVERLAY; DIRECT_INTERNET; CLOUD_GATEWAY].

Section policies.
Context `{PyRepr} (c : TopologyConfig).

(** [_prefix(raw.get("prefix"), "prefix", allow_none=...)]: without the flag a
    missing prefix is the text ["None"], which is no network. *)
Definition read_prefix (value : option json) (allow_none : bool) : result (option network) :=
  let parse text := match ip_network text with
                    | Ok n => Ok (Some n)
                    | Err _ => bad ("invalid prefix: " +:+ text)
                    end in
  match value with
  | None | Some JNull => if allow_none then Ok None else parse "None"
  | Some v => parse (py_str v)
  end.

(** [tuple(str(item) for item in raw.get(key, ()))] *)
Definition read_texts (raw : dict string json) (key : string) : result (list string) :=
  items ← items_of (default (JList []) (dget raw key)); Ok (map py_str items).

Definition required_keys : list string :=
  ["allowed_egress"; "destination_type"; "failure_action"; "policy_id"; "priority"].

Definition missing_keys (raw : dict string json) : list string :=
  List.filter (λ k, negb (dmem raw k)) required_keys.

Definition item (raw : dict string json) (key : string) : result json := of_option (dget raw key) KeyError key.

(** [config.transports[name].internet_capable] *)
Definition capable (name : string) : result bool := t ← get_transport c name; Ok (internet_capable t).

Fixpoint any_capable (names : list string) : result bool :=
  match names with [] => Ok false | n :: rest => b ← capable n; if b : bool then Ok true else any_capable rest end.
Fixpoint any_incapable (names : list string) : result bool :=
  match names with [] => Ok false | n :: rest => b ← capable n; if negb b then Ok true else any_incapable rest end.

Definition host_network (a : addr) : network := Network a 32.

Definition gateways_ok (gateways : list string) : bool :=
  match gateways with
  | [g1; g2] => negb (String.eqb g1 g2) && same_setb gateways (gateway_names (cloud_vpc c))
  | _ => false
  end.

Definition is_set_of_one (m : EgressMode) (allowed : list EgressMode) : bool := same_setb allowed [m].

Definition check_direct (p : DestinationPolicy) : result unit :=
  if inb DIRECT_INTERNET (dp_allowed p) then
    some ← any_capable (dp_candidates p);
    _ ← bad_if (negb some) "direct Internet policy has no Internet-capable transport";
    not_all ← any_incapable (dp_candidates p);
    bad_if not_all "direct Internet candidates must all be Internet-capable"
  else Ok tt.

Definition check_cloud (p : DestinationPolicy) : result unit :=
  let direct := inb DIRECT_INTERNET (dp_allowed p) in
  let hub := inb HUB_OVERLAY (dp_allowed p) in
  let cloud := inb CLOUD_GATEWAY (dp_allowed p) in
  if bool_decide (destination_type p = DestinationType.CLOUD_VPC) then
    _ ← bad_if (direct || cloud || negb hub) "CLOUD_VPC must use spoke HUB_OVERLAY only";
    _ ← bad_if (negb (bool_decide (dp_prefix p = Some (vpc_network (cloud_vpc c)))))
          "Cloud VPC policy prefix must equal the configured Cloud VPC network";
    _ ← bad_if (negb (same_setb (dkeys (cloud_gateway_preferences p)) HUBS))
          "Cloud VPC requires preferences for hub1 and hub2";
    iterM (λ q : string * list string, bad_if (negb (gateways_ok q.2)) ("Cloud VPC " +:+ q.1
             +:+ " gateway preference must contain both distinct configured gateways")) (cloud_gateway_preferences p)
  else bad_if (cloud || negb (bool_decide (cloud_gateway_preferences p = [])))
         "CLOUD_GATEWAY is a hub-only Cloud VPC egress, not a spoke destination egress".

Definition fail_closed (p : DestinationPolicy) : bool := bool_decide (failure_action p = FailureAction.FAIL_CLOSED).

(** [policy.prefix is not None and policy.prefix != ip_network(address/32)] *)
Definition not_host (p : DestinationPolicy) (a : addr) : bool :=
  match dp_prefix p with Some n => negb (bool_decide (n = host_network a)) | None => false end.

Definition check_saas (p : DestinationPolicy) : result unit :=
  if bool_decide (destination_type p = DestinationType.SAAS) then
    _ ← bad_if (negb (is_set_of_one DIRECT_INTERNET (dp_allowed p)) || negb (fail_closed p))
          "public SaaS must use DIRECT_INTERNET only and FAIL_CLOSED";
    _ ← bad_if (not_host p (saas_ip c)) "public SaaS prefix must identify the configured SaaS endpoint";
    bad_if (bool_decide (dp_classes p = []) || negb (subsetb (dp_classes p) ["SAAS_INTERACTIVE"; "SAAS_FILE_TRANSFER"]))
      "public SaaS requires only SaaS application classes"
  else Ok tt.

Definition check_data_center (p : DestinationPolicy) : result unit :=
  if bool_decide (destination_type p = DestinationType.DATA_CENTER) then
    _ ← bad_if (negb (is_set_of_one HUB_OVERLAY (dp_allowed p)) || negb (fail_closed p))
          "Data Center must use HUB_OVERLAY only and FAIL_CLOSED";
    _ ← bad_if (not_host p (data_center_app_ip c)) "Data Center policy must identify the configured backup endpoint";
    bad_if (negb (bool_decide (dp_classes p = ["CENTRAL_BACKUP"]))) "Data Center policy requires CENTRAL_BACKUP"
  else Ok tt.

Definition check_branch (p : DestinationPolicy) : result unit :=
  if bool_decide (destination_type p = DestinationType.BRANCH_PRIVATE) then
    _ ← bad_if (negb (is_set_of_one HUB_OVERLAY (dp_allowed p)) || negb (fail_closed p))
          "branch-private traffic must use HUB_OVERLAY only and FAIL_CLOSED";
    bad_if (negb (bool_decide (dp_classes p = ["REALTIME_RTP"]))) "branch-private policy requires REALTIME_RTP"
  else Ok tt.

Definition check_default (p : DestinationPolicy) (is_default : bool) : result unit :=
  bad_if (is_default && (negb (bool_decide (destination_type p = DestinationType.UNKNOWN))
            || inb DIRECT_INTERNET (dp_allowed p) || negb (inb HUB_OVERLAY (dp_allowed p)) || negb (fail_closed p)))
    "default policy must be conservative Unknown HUB_OVERLAY FAIL_CLOSED".

Definition validate_policy (p : DestinationPolicy) (is_default : bool) : result unit :=
  _ ← bad_if (negb (nonempty (policy_id p)) || (priority p <? 0)) "policy_id must be nonempty and priority non-negative";
  _ ← check_direct p;
  _ ← check_cloud p;
  _ ← check_saas p;
  _ ← check_data_center p;
  _ ← check_branch p;
  check_default p is_default.

(** [{str(hub): tuple(str(g) for g in gateways) ...}] *)
Definition read_preferences (raw : dict string json) : result (dict string (list string)) :=
  match default (JObj []) (dget raw "cloud_gateway_preferences") with
  | JObj d => foldM (λ acc p, gs ← items_of p.2; Ok (dset acc p.1 (map py_str gs))) [] d
  | _ => bad "cloud_gateway_preferences must be a mapping"
  end.

Definition read_transports (raw : dict string json) : result (list string) :=
  match (match dget raw "candidate_transports" with Some v => Some v | None => dget raw "ranked_transports" end) with
  | Some (JList l) => Ok (map py_str l)
  | _ => bad "candidate_transports must be a list"
  end.

Definition read_policy (raw : dict string json) (is_default : bool) : result DestinationPolicy :=
  _ ← bad_if (negb (bool_decide (missing_keys raw = [])))
        ("destination policy is missing: " +:+ join ", " (missing_keys raw));
  prefix ← read_prefix (dget raw "prefix") is_default;
  eg ← item raw "allowed_egress"; eg ← items_of eg;
  allowed ← mapM_result (λ i, enum_of egress_members egress_value (py_str i) "allowed_egress") eg;
  candidates ← read_transports raw;
  matchers ← read_texts raw "application_matchers";
  classes ← read_texts raw "application_classes";
  _ ← bad_if (bool_decide (allowed = []) || negb (uniqueb allowed)) "allowed_egress must contain unique values";
  _ ← bad_if (bool_decide (candidates = []) || negb (uniqueb candidates)
              || existsb (λ n, negb (dmem (transports c) n)) candidates)
        "candidate_transports must contain unique configured transports";
  _ ← bad_if (negb (uniqueb matchers)) "application_matchers must be unique";
  _ ← bad_if (negb (uniqueb classes)) "application_classes must be unique";
  preferences ← read_preferences raw;
  trust ← match dget raw "trust_class" with
          | Some v => t ← enum_of TrustClass.members TrustClass.value (py_str v) "trust_class"; Ok (Some t)
          | None => Ok None
          end;
  pid ← item raw "policy_id"; pr ← item raw "priority"; pr ← py_int pr;
  dt ← item raw "destination_type";
  dt ← enum_of DestinationType.members DestinationType.value (py_str dt) "destination_type";
  fa ← item raw "failure_action";
  fa ← enum_of FailureAction.members FailureAction.value (py_str fa) "failure_action";
  let p := {| policy_id := py_str pid; priority := pr; dp_prefix := prefix; destination_type := dt; trust_class := trust;
              dp_allowed := allowed; dp_candidates := candidates; failure_action := fa;
              cloud_gateway_preferences := preferences; application_matchers := matchers; dp_classes := classes |} in
  _ ← validate_policy p is_default;
  Ok p.

Fixpoint check_overlaps (ps : list DestinationPolicy) : result unit :=
  match ps with
  | [] => Ok tt
  | l :: rest =>
      _ ← iterM (λ r, bad_if (match dp_prefix l, dp_prefix r with
                              | Some n, Some m => overlaps n m | _, _ => false end)
                        "overlapping destination prefixes are ambiguous") rest;
      check_overlaps rest
  end.

Definition priority_le (p q : DestinationPolicy) : bool := priority p <=? priority q.

Definition document_from_mapping (raw : dict string json) : result DestinationPolicyDocument :=
  v ← py_int (default (JInt 0) (dget raw "schema_version"));
  _ ← bad_if (negb (v =? 5)) "destination policy schema_version must be 5";
  match dget raw "policies", dget raw "default_policy" with
  | Some (JList entries), Some (JObj dflt) =>
      ps ← mapM_result (λ d, read_policy d false) (omap (λ j, match j with JObj d => Some d | _ => None end) entries);
      _ ← bad_if (negb (Nat.eqb (length ps) (length entries))) "every destination policy must be a mapping";
      dp ← read_policy dflt true;
      _ ← bad_if (negb (uniqueb (map policy_id ps)) || negb (uniqueb (map dp_prefix ps)) || negb (uniqueb (map priority ps)))
            "destination policy IDs, prefixes, and priorities must be unique";
      _ ← check_overlaps ps;
      Ok {| schema_version := 5; policies := sort_by priority_le ps; default_policy := dp |}
  | _, _ => bad "destination policy requires policies and default_policy"
  end.
End policies.

(** ** What reading establishes *)

Lemma bad_if_ok b msg : bad_if b msg = Ok tt ↔ b = false.
Proof. unfold bad_if, raise_if. by destruct b. Qed.

Lemma enum_of_value {E} (members : list E) value_of field m :
  Forall (λ x, Forall (λ y, value_of x = value_of y → x = y) members) members → m ∈ members →
  enum_of members value_of (value_of m) field = Ok m.
Proof.
  intros Hinj Hm. unfold enum_of. destruct (find _ members) as [x|] eqn:Hf; simpl.
  - apply find_elem in Hf as [Hx Hv]. apply String.eqb_eq in Hv. rewrite Forall_forall in Hinj.
    specialize (Hinj x Hx). rewrite Forall_forall in Hinj. by rewrite (Hinj m Hm Hv).
  - pose proof (find_none _ _ Hf m) as Hn. rewrite <- list_elem_of_In in Hn. specialize (Hn Hm).
    by rewrite String.eqb_refl in Hn.
Qed.

Ltac enum_inj := repeat (constructor; [repeat (constructor; [by vm_compute|]); constructor|]); constructor.

Section facts.
Context `{PyRepr} (c : TopologyConfig).

Lemma any_capable_true names : any_capable c names = Ok true → ∃ n t, n ∈ names ∧ get_transport c n = Ok t ∧ internet_capable t = true.
Proof.
  induction names as [|n names IH]; simpl; [done|]. intros Hb. apply bind_Ok in Hb as (b & Hc & Hb).
  unfold capable in Hc. inv_bind. destruct (internet_capable _) eqn:E.
  - eexists n, _. split_and!; [constructor|done|done].
  - destruct (IH Hb) as (m & t & Hm & ? & ?). exists m, t. split_and!; [by constructor|done|done].
Qed.

Lemma any_incapable_false names : any_incapable c names = Ok false →
  ∀ n, n ∈ names → ∃ t, get_transport c n = Ok t ∧ internet_capable t = true.
Proof.
  induction names as [|n names IH]; simpl; intros Hb m Hm; [by inversion Hm|].
  apply bind_Ok in Hb as (b & Hc & Hb). unfold capable in Hc. inv_bind.
  destruct (internet_capable _) eqn:E; [|done]. apply elem_of_cons in Hm as [->|Hm]; [eauto|by apply IH].
Qed.

(** What the edge may rely on for one accepted policy. *)
Record policy_safe (is_default : bool) (p : DestinationPolicy) : Prop := {
  sf_allowed : dp_allowed p ≠ [] ∧ NoDup (dp_allowed p) ∧ CLOUD_GATEWAY ∉ dp_allowed p;
  sf_candidates : dp_candidates p ≠ [] ∧ NoDup (dp_candidates p) ∧ ∀ n, n ∈ dp_candidates p → n ∈ dkeys (transports c);
  sf_direct : DIRECT_INTERNET ∈ dp_allowed p → ∀ n, n ∈ dp_candidates p →
    ∃ t, get_transport c n = Ok t ∧ internet_capable t = true;
  sf_private : destination_type p = DestinationType.DATA_CENTER ∨ destination_type p = DestinationType.BRANCH_PRIVATE ∨
    destination_type p = DestinationType.CLOUD_VPC → ∀ e, e ∈ dp_allowed p → e = HUB_OVERLAY;
  sf_saas : destination_type p = DestinationType.SAAS →
    (∀ e, e ∈ dp_allowed p → e = DIRECT_INTERNET) ∧ failure_action p = FailureAction.FAIL_CLOSED ∧
    (dp_prefix p = None ∨ dp_prefix p = Some (host_network (saas_ip c)));
  sf_default : is_default = true → destination_type p = DestinationType.UNKNOWN ∧ HUB_OVERLAY ∈ dp_allowed p ∧
    DIRECT_INTERNET ∉ dp_allowed p ∧ failure_action p = FailureAction.FAIL_CLOSED;
  sf_prefix : is_default = false → dp_prefix p ≠ None;
  sf_network : ∀ n, dp_prefix p = Some n → network_wf n;
  sf_preferences : dict_wf (cloud_gateway_preferences p)
}.

Lemma set_of_one m allowed : is_set_of_one m allowed = true → ∀ e, e ∈ allowed → e = m.
Proof. unfold is_set_of_one. rewrite same_setb_true. intros Hs e He. by apply Hs, list_elem_of_singleton in He. Qed.

Lemma check_direct_ok p : check_direct c p = Ok tt →
  DIRECT_INTERNET ∈ dp_allowed p → ∀ n, n ∈ dp_candidates p → ∃ t, get_transport c n = Ok t ∧ internet_capable t = true.
Proof.
  unfold check_direct. intros Hc Hd. rewrite (proj2 (inb_true _ _) Hd) in Hc.
  apply bind_Ok in Hc as (b & _ & Hc). apply bind_unit_ok in Hc as [_ Hc]. apply bind_Ok in Hc as (b' & Hb & Hc).
  apply bad_if_ok in Hc as ->. by apply any_incapable_false.
Qed.

Lemma check_cloud_ok p : check_cloud c p = Ok tt →
  CLOUD_GATEWAY ∉ dp_allowed p ∧ (destination_type p = DestinationType.CLOUD_VPC → ∀ e, e ∈ dp_allowed p → e = HUB_OVERLAY).
Proof.
  unfold check_cloud. intros Hc. case_bool_decide as Ht.
  - apply bind_unit_ok in Hc as [Hc _]. apply bad_if_ok in Hc. rewrite !orb_false_iff, !inb_false in Hc.
    destruct Hc as [[Hd Hg] _]. split; [done|]. intros _ [] He; done.
  - apply bad_if_ok in Hc. rewrite orb_false_iff, inb_false in Hc. by destruct Hc.
Qed.

Lemma validate_policy_ok p d : validate_policy c p d = Ok tt →
  check_direct c p = Ok tt ∧ check_cloud c p = Ok tt ∧ check_saas c p = Ok tt ∧ check_data_center c p = Ok tt ∧
  check_branch p = Ok tt ∧ check_default p d = Ok tt.
Proof. unfold validate_policy. rewrite !bind_unit_ok. naive_solver. Qed.

Lemma read_prefix_ok v d o : read_prefix v d = Ok o →
  (d = false → o ≠ None) ∧ ∀ n, o = Some n → network_wf n.
Proof.
  unfold read_prefix. intros Hr.
  assert (Hp : ∀ t, match ip_network t with Ok n => Ok (Some n) | Err _ => bad ("invalid prefix: " +:+ t) end = Ok o →
    o ≠ None ∧ ∀ n, o = Some n → network_wf n).
  { intros t. destruct (ip_network t) eqn:E; [|done]. intros [= <-]. split; [done|].
    intros n [= <-]. by eapply ip_network_wf. }
  destruct v as [[]|], d; try (injection Hr as <-); try (by split); by apply Hp in Hr as [? ?].
Qed.

Lemma read_preferences_wf raw ps : read_preferences raw = Ok ps → dict_wf ps.
Proof.
  unfold read_preferences. destruct (default _ _); try done. apply foldM_inv; [|constructor].
  intros s x s' Hs Hx. inv_bind. by apply dset_wf.
Qed.

(** The steps of a successful reading. *)
Record read_steps (raw : dict string json) (d : bool) (p : DestinationPolicy) : Prop := {
  rs_prefix : read_prefix (dget raw "prefix") d = Ok (dp_prefix p);
  rs_allowed : dp_allowed p ≠ [] ∧ NoDup (dp_allowed p);
  rs_candidates : dp_candidates p ≠ [] ∧ NoDup (dp_candidates p) ∧ ∀ n, n ∈ dp_candidates p → dmem (transports c) n = true;
  rs_matchers : NoDup (application_matchers p);
  rs_classes : NoDup (dp_classes p);
  rs_preferences : dict_wf (cloud_gateway_preferences p);
  rs_valid : validate_policy c p d = Ok tt
}.

Lemma read_policy_steps raw d p : read_policy c raw d = Ok p → read_steps raw d p.
Proof.
  unfold read_policy. intros Hr. apply bind_unit_ok in Hr as [_ Hr]. apply bind_Ok in Hr as (prefix & Hp & Hr).
  apply bind_Ok in Hr as (eg & _ & Hr). apply bind_Ok in Hr as (eg' & _ & Hr). apply bind_Ok in Hr as (al & _ & Hr).
  apply bind_Ok in Hr as (cs & _ & Hr). apply bind_Ok in Hr as (ms & _ & Hr). apply bind_Ok in Hr as (ks & _ & Hr).
  apply bind_unit_ok in Hr as [B1 Hr]. apply bind_unit_ok in Hr as [B2 Hr]. apply bind_unit_ok in Hr as [B3 Hr].
  apply bind_unit_ok in Hr as [B4 Hr]. apply bind_Ok in Hr as (prefs & Hprefs & Hr).
  apply bind_Ok in Hr as (tr & _ & Hr). do 7 (apply bind_Ok in Hr as (? & _ & Hr)). cbv zeta in Hr.
  apply bind_unit_ok in Hr as [Hv Hr]. injection Hr as <-.
  apply bad_if_ok in B1, B2, B3, B4. rewrite !orb_false_iff, !negb_false_iff, !bool_decide_eq_false in *.
  destruct B1 as [B0 B1], B2 as [[Hc Hu] He]. apply uniqueb_true in B1, Hu, B3, B4.
  split; simpl; try done; [|by eapply read_preferences_wf]. split_and!; [done|done|]. intros n Hn. destruct (dmem (transports c) n) eqn:E; [done|].
  assert (existsb (λ n, negb (dmem (transports c) n)) cs = true) as Hex by
    (apply existsb_exists; exists n; split; [by apply list_elem_of_In|by rewrite E]). congruence.
Qed.

Lemma read_policy_safe raw d p : read_policy c raw d = Ok p → policy_safe d p.
Proof.
  intros [Hp Ha (Hc1 & Hc2 & Hc3) _ _ Hpref Hv]%read_policy_steps.
  apply validate_policy_ok in Hv as (Vd & Vc & Vs & Vdc & Vb & Vdef).
  apply check_cloud_ok in Vc as [Hcl Hcv]. destruct (read_prefix_ok _ _ _ Hp) as [Hpre Hwf].
  split; try done.
  - split_and!; try done; apply Ha.
  - split_and!; try done. intros n Hn. by apply dmem_true, Hc3.
  - by apply check_direct_ok.
  - intros [Ht|[Ht|Ht]]; [| |by apply Hcv].
    + unfold check_data_center in Vdc. rewrite bool_decide_true in Vdc by done. apply bind_unit_ok in Vdc as [Vdc _].
      apply bad_if_ok in Vdc. rewrite orb_false_iff, !negb_false_iff in Vdc. apply set_of_one, Vdc.
    + unfold check_branch in Vb. rewrite bool_decide_true in Vb by done. apply bind_unit_ok in Vb as [Vb _].
      apply bad_if_ok in Vb. rewrite orb_false_iff, !negb_false_iff in Vb. apply set_of_one, Vb.
  - intros Ht. unfold check_saas in Vs. rewrite bool_decide_true in Vs by done. apply bind_unit_ok in Vs as [V1 Vs].
    apply bind_unit_ok in Vs as [V2 _]. apply bad_if_ok in V1, V2. rewrite orb_false_iff, !negb_false_iff in V1.
    destruct V1 as [V1 V3]. unfold fail_closed in V3. rewrite bool_decide_eq_true in V3.
    split_and!; [by apply set_of_one|done|]. unfold not_host in V2. destruct (dp_prefix p); [|by left].
    apply negb_false_iff, bool_decide_eq_true in V2 as ->. by right.
  - intros ->. unfold check_default in Vdef. apply bad_if_ok in Vdef. simpl in Vdef. unfold fail_closed in Vdef.
    rewrite !orb_false_iff, !negb_false_iff, !bool_decide_eq_true, inb_true, inb_false in Vdef. naive_solver.
Qed.

Lemma check_overlaps_ok ps : check_overlaps ps = Ok tt ↔
  ForallOrdPairs (λ p q, ∀ n m, dp_prefix p = Some n → dp_prefix q = Some m → overlaps n m = false) ps.
Proof.
  induction ps as [|p ps IH]; simpl; [split; constructor|]. rewrite bind_unit_ok, iterM_ok, IH. split.
  - intros [Hp Hps]. constructor; [|done]. eapply Forall_impl; [done|]. intros q Hq n m En Em.
    apply bad_if_ok in Hq. by rewrite En, Em in Hq.
  - intros Hf. inversion Hf as [|? ? Hp Hps]; subst. split; [|done]. eapply Forall_impl; [done|]. intros q Hq.
    apply bad_if_ok. destruct (dp_prefix p) as [n|], (dp_prefix q) as [m|]; try done. by apply Hq.
Qed.

(** The steps of reading a document. *)
Lemma document_inv raw doc : document_from_mapping c raw = Ok doc →
  schema_version doc = 5 ∧ (∃ r, read_policy c r true = Ok (default_policy doc)) ∧
  ∃ ps, policies doc = sort_by priority_le ps ∧ (∀ p, p ∈ ps → ∃ r, read_policy c r false = Ok p) ∧
    NoDup (map policy_id ps) ∧ NoDup (map dp_prefix ps) ∧ NoDup (map priority ps) ∧ check_overlaps ps = Ok tt.
Proof.
  unfold document_from_mapping. intros Hd. apply bind_Ok in Hd as (v & _ & Hd). apply bind_unit_ok in Hd as [_ Hd].
  destruct (dget raw "policies") as [[| | | | |entries|]|]; try done.
  destruct (dget raw "default_policy") as [[| | | | | |dflt]|]; try done.
  apply bind_Ok in Hd as (ps & Hps & Hd). apply bind_unit_ok in Hd as [_ Hd]. apply bind_Ok in Hd as (dp & Hdp & Hd).
  apply bind_unit_ok in Hd as [Hu Hd]. apply bind_unit_ok in Hd as [Ho Hd]. injection Hd as <-. simpl.
  apply bad_if_ok in Hu. rewrite !orb_false_iff, !negb_false_iff, !uniqueb_true in Hu. destruct Hu as [[? ?] ?].
  split_and!; [done|by eexists|]. exists ps. split_and!; try done. intros p Hp.
  apply mapM_result_Forall2 in Hps. destruct (Forall2_elem_r _ _ _ _ Hps Hp) as (r & _ & Hr). by exists r.
Qed.
End facts.

(** ** Reading back what was written *)

Lemma map_py_str `{PyRepr} l : map py_str (map JStr l) = l.
Proof. induction l as [|x l IH]; simpl; [done|]. by rewrite IH. Qed.

Lemma mapM_value `{PyRepr} {E} (f : string → result E) (value_of : E → string) l :
  (∀ m, m ∈ l → f (value_of m) = Ok m) → mapM_result (λ i, f (py_str i)) (map JStr (map value_of l)) = Ok l.
Proof.
  intros Hf. rewrite !mapM_result_map. simpl. induction l as [|m l IH]; simpl; [done|].
  rewrite (Hf m) by constructor. unfold mbind, result_bind. rewrite IH; [done|]. intros k Hk. apply Hf. by constructor.
Qed.

Lemma dset_new {K V} `{EqDecision K} (d : dict K V) k v : k ∉ dkeys d → dset d k v = d ++ [(k, v)].
Proof.
  induction d as [|[k0 v0] d IH]; simpl; [done|]. rewrite not_elem_of_cons. intros [Hn Hk].
  rewrite decide_False by done. by rewrite IH.
Qed.

Lemma read_preferences_back `{PyRepr} (prefs acc : dict string (list string)) :
  NoDup (dkeys (acc ++ prefs)) →
  foldM (λ acc p, gs ← items_of p.2; Ok (dset acc p.1 (map py_str gs))) acc (dmap texts prefs) = Ok (acc ++ prefs).
Proof.
  revert acc. induction prefs as [|[k l] prefs IH]; intros acc Hnd; simpl; [by rewrite app_nil_r|].
  change ((items_of (texts l) ≫= ?k)) with (k (map JStr l)). cbn beta. rewrite map_py_str.
  assert (k ∉ dkeys acc) as Hk.
  { unfold dkeys in Hnd. rewrite map_app in Hnd. apply NoDup_app in Hnd as (_ & Hd & _). intros Hin.
    apply (Hd k Hin). constructor. }
  rewrite dset_new by done. unfold mbind, result_bind. rewrite IH; rewrite <- (assoc_L (++)); [done|exact Hnd].
Qed.

Lemma bad_if_false msg : bad_if false msg = Ok tt.
Proof. done. Qed.

Lemma read_texts_back `{PyRepr} raw key l : dget raw key = Some (texts l) → read_texts raw key = Ok l.
Proof. intros Hg. unfold read_texts. rewrite Hg. cbn. by rewrite map_py_str. Qed.

Section back.
Context `{PyRepr} (c : TopologyConfig).

Lemma read_policy_back raw d p : read_policy c raw d = Ok p → read_policy c (to_intent p) d = Ok p.
Proof.
  intros Hr. pose proof (read_policy_safe _ _ _ _ Hr) as Hsafe. apply read_policy_steps in Hr as [_ [Ha1 Ha2] (Hc1 & Hc2 & Hc3) Hm Hk Hp Hv].
  unfold read_policy.
  assert (Hkeys : missing_keys (to_intent p) = []) by reflexivity. rewrite Hkeys.
  assert (Hpre : read_prefix (dget (to_intent p) "prefix") d = Ok (dp_prefix p)).
  { destruct (dp_prefix p) as [n|] eqn:En.
    - assert (dget (to_intent p) "prefix" = Some (JStr (network_str n))) as ->.
      { unfold to_intent. rewrite En. by destruct (trust_class p). }
      unfold read_prefix. cbn [py_str]. rewrite ip_network_str; [done|]. by eapply sf_network.
    - assert (dget (to_intent p) "prefix" = None) as ->.
      { unfold to_intent. rewrite En. by destruct (trust_class p), (bool_decide _). }
      destruct d; [done|]. by destruct (sf_prefix _ _ _ Hsafe eq_refl). }
  assert (Htr : match dget (to_intent p) "trust_class" with
          | Some v => t ← enum_of TrustClass.members TrustClass.value (py_str v) "trust_class"; Ok (Some t)
          | None => Ok None end = Ok (trust_class p)).
  { unfold to_intent. destruct (trust_class p) as [[]|]; simpl; [done..|].
    by destruct (dp_prefix p), (bool_decide _). }
  assert (Hpr : read_preferences (to_intent p) = Ok (cloud_gateway_preferences p)).
  { unfold read_preferences. assert (dget (to_intent p) "cloud_gateway_preferences" =
      if bool_decide (cloud_gateway_preferences p = []) then None else Some (JObj (dmap texts (cloud_gateway_preferences p)))) as ->.
    { unfold to_intent. by destruct (trust_class p), (dp_prefix p), (bool_decide _). }
    case_bool_decide as E; simpl; [by rewrite E|]. by apply (read_preferences_back _ []). }
  rewrite Hpre, (read_texts_back _ "application_matchers" (application_matchers p)) by done.
  rewrite (read_texts_back _ "application_classes" (dp_classes p)) by done. unfold read_transports, item.
  change (dget (to_intent p) "allowed_egress") with (Some (texts (map egress_value (dp_allowed p)))).
  change (dget (to_intent p) "candidate_transports") with (Some (texts (dp_candidates p))).
  change (dget (to_intent p) "policy_id") with (Some (JStr (policy_id p))).
  change (dget (to_intent p) "priority") with (Some (JInt (priority p))).
  change (dget (to_intent p) "destination_type") with (Some (JStr (DestinationType.value (destination_type p)))).
  change (dget (to_intent p) "failure_action") with (Some (JStr (FailureAction.value (failure_action p)))).
  rewrite bool_decide_true by done. cbn [negb default of_option texts items_of mbind result_bind].
  rewrite bad_if_false. cbn [mbind result_bind].
  rewrite (mapM_value (λ t, enum_of egress_members egress_value t "allowed_egress") egress_value)
    by (intros m _; by destruct m).
  cbn [mbind result_bind]. rewrite !map_py_str, !bool_decide_false by done.
  rewrite !(proj2 (uniqueb_true _)) by done. cbn [negb orb].
  assert (existsb (λ n, negb (dmem (transports c) n)) (dp_candidates p) = false) as ->.
  { destruct (existsb _ _) eqn:E; [|done]. apply existsb_exists in E as (n & Hn%list_elem_of_In & E).
    by rewrite Hc3 in E. }
  rewrite !bad_if_false, Hpr, Htr. cbn [mbind result_bind].
  assert (enum_of DestinationType.members DestinationType.value (DestinationType.value (destination_type p)) "destination_type"
    = Ok (destination_type p)) as Hdt by (by destruct (destination_type p)).
  assert (enum_of FailureAction.members FailureAction.value (FailureAction.value (failure_action p)) "failure_action"
    = Ok (failure_action p)) as Hfa by (by destruct (failure_action p)).
  cbn [py_str py_int]. cbn [mbind result_bind]. rewrite Hdt. cbn [mbind result_bind]. rewrite Hfa. cbn [mbind result_bind].
  destruct p. cbn in *. unfold mbind, result_bind. by rewrite Hv.
Qed.
End back.

(** ** Properties *)

#[export] Instance priority_le_total : TotalPre priority_le.
Proof. split; unfold priority_le; intros; lia. Qed.

Lemma sort_by_id {A} (le : A → A → bool) l : StronglySorted (λ a b, le a b = true) l → sort_by le l = l.
Proof.
  induction 1 as [|x l Hs IH Hx]; simpl; [done|]. rewrite IH. destruct l as [|y l]; simpl; [done|].
  apply Forall_cons in Hx as [-> _]. done.
Qed.

Lemma FOP_perm {A} (R : A → A → Prop) l l' : Symmetric R → l ≡ₚ l' → ForallOrdPairs R l → ForallOrdPairs R l'.
Proof.
  intros Hsym Hp. induction Hp as [|x l l' Hp IH|x y l|l1 l2 l3 _ IH1 _ IH2]; intros Hf; [done| | |by apply IH2, IH1].
  - inversion Hf as [|? ? Hx Hl]; subst. constructor; [by rewrite <- Hp|by apply IH].
  - inversion Hf as [|? ? Hy Hl]; subst. inversion Hl as [|? ? Hx Hl']; subst.
    apply Forall_cons in Hy as [Hyx Hy]. repeat constructor; try done.
Qed.

Section properties.
Context `{PyRepr} (c : TopologyConfig).

Definition separate (p q : DestinationPolicy) : Prop :=
  ∀ n m, dp_prefix p = Some n → dp_prefix q = Some m → overlaps n m = false.

Lemma separate_sym : Symmetric separate.
Proof.
  intros p q Hs n m Hn Hm. specialize (Hs m n Hm Hn). unfold overlaps in *.
  rewrite !orb_false_iff in *. naive_solver.
Qed.

Lemma document_policies raw doc : document_from_mapping c raw = Ok doc →
  (∀ p, p ∈ policies doc → ∃ r, read_policy c r false = Ok p) ∧
  NoDup (map policy_id (policies doc)) ∧ NoDup (map dp_prefix (policies doc)) ∧ NoDup (map priority (policies doc)) ∧
  ForallOrdPairs separate (policies doc) ∧ StronglySorted (λ p q, priority_le p q = true) (policies doc).
Proof.
  intros (_ & _ & ps & -> & Hps & N1 & N2 & N3 & Ho)%document_inv. pose proof (sort_by_perm priority_le ps) as Hperm.
  split_and!; try (by rewrite (Permutation_map _ Hperm)).
  - intros p Hp. apply Hps. by rewrite <- Hperm.
  - apply (FOP_perm _ ps); [apply separate_sym|by symmetry|]. by apply check_overlaps_ok.
  - refine (sort_by_sorted _ _).
Qed.

(** What an accepted destination policy document guarantees.  Every policy
    names egress modes and configured transports without repetition and never
    the cloud gateway; direct Internet is offered only over Internet-capable
    transports; data center, branch and cloud destinations use the hub overlay
    only; SaaS uses direct Internet only, fails closed and, where it names a
    prefix, names exactly the SaaS endpoint; the default policy is an unknown
    destination over the hub overlay that fails closed.  Policies are in
    strictly increasing priority and their prefixes share no address, so at most
    one policy speaks for an address, and the lookup of a policy's prefix
    returns that policy. *)
Theorem policy_document_safe raw doc : document_from_mapping c raw = Ok doc →
  policy_safe c true (default_policy doc) ∧ (∀ p, p ∈ policies doc → policy_safe c false p) ∧
  StronglySorted (λ p q, priority p < priority q) (policies doc) ∧
  (∀ p q n m a, p ∈ policies doc → q ∈ policies doc → dp_prefix p = Some n → dp_prefix q = Some m →
     0 <= a <= all_ones → in_network a n = true → in_network a m = true → p = q) ∧
  (∀ p n, p ∈ policies doc → dp_prefix p = Some n → policy_for_prefix doc n = p).
Proof.
  intros Hd. pose proof (document_inv _ _ _ Hd) as (_ & [rd Hrd] & _).
  pose proof (document_policies _ _ Hd) as (Hps & _ & N2 & N3 & Hsep & Hsort).
  assert (Hsafe : ∀ p, p ∈ policies doc → policy_safe c false p).
  { intros p [r Hr]%Hps. by eapply read_policy_safe. }
  split_and!; [by eapply read_policy_safe|done| | |].
  - clear -Hsort N3. induction Hsort as [|p l Hs IH Hp]; [constructor|]. apply NoDup_cons in N3 as [Hn N3].
    constructor; [by apply IH|]. rewrite Forall_forall in Hp |- *. intros q Hq. specialize (Hp q Hq).
    unfold priority_le in Hp. assert (priority p ≠ priority q); [|lia]. intros E. apply Hn. rewrite E.
    by apply list_elem_of_fmap_2.
  - intros p q n m a Hp Hq Hn Hm Ha Hin Him.
    pose proof (sf_network _ _ _ (Hsafe p Hp) n Hn) as Wn. pose proof (sf_network _ _ _ (Hsafe q Hq) m Hm) as Wm.
    assert (overlaps n m = true) as Ho by (apply overlaps_iff; eauto).
    destruct (ForallOrdPairs_In Hsep p q) as [->|[Hs|Hs]]; [by apply list_elem_of_In..|done| |].
    + by rewrite (Hs n m) in Ho.
    + apply separate_sym in Hs. by rewrite (Hs n m) in Ho.
  - intros p n Hp Hn. unfold policy_for_prefix. destruct (find _ _) as [q|] eqn:Hf; simpl.
    + apply find_elem in Hf as [Hq Hb]. apply bool_decide_eq_true in Hb.
      apply (NoDup_map_inj dp_prefix (policies doc)); [done|done|done|congruence].
    + pose proof (find_none _ _ Hf p) as Hb. rewrite <- list_elem_of_In in Hb. specialize (Hb Hp).
      by rewrite bool_decide_true in Hb.
Qed.

(** round trip of the policy document.  Serialising an accepted document
    and reading the result back gives the same document. *)
Theorem policy_document_roundtrip raw doc :
  document_from_mapping c raw = Ok doc → document_from_mapping c (to_mapping doc) = Ok doc.
Proof.
  intros Hd. pose proof (document_inv _ _ _ Hd) as (Hv & [rd Hrd] & _).
  pose proof (document_policies _ _ Hd) as (Hps & N1 & N2 & N3 & Hsep & Hsort).
  assert (Hom : omap (λ j, match j with JObj d => Some d | _ => None end) (map (λ p, JObj (to_intent p)) (policies doc))
    = map to_intent (policies doc)).
  { generalize (policies doc). intros l. induction l as [|x l IH]; [done|]. simpl. f_equal. exact IH. }
  assert (Hm : mapM_result (λ d, read_policy c d false) (map to_intent (policies doc)) = Ok (policies doc)).
  { rewrite mapM_result_map. apply mapM_result_Forall2.
    apply Forall_Forall2_diag, Forall_forall. intros p [r Hr]%Hps. by eapply read_policy_back. }
  unfold document_from_mapping.
  change (dget (to_mapping doc) "schema_version") with (Some (JInt (schema_version doc))).
  change (dget (to_mapping doc) "policies") with (Some (JList (map (λ p, JObj (to_intent p)) (policies doc)))).
  change (dget (to_mapping doc) "default_policy") with (Some (JObj (to_intent (default_policy doc)))).
  cbn [default from_option id py_int mbind result_bind]. rewrite Hv, Hom, Hm. cbn [negb Z.eqb Pos.eqb].
  rewrite bad_if_false. cbn [mbind result_bind]. rewrite length_map, Nat.eqb_refl, (read_policy_back _ _ _ _ Hrd).
  rewrite !(proj2 (uniqueb_true _)) by done. cbn [mbind result_bind bad_if raise_if negb orb].
  rewrite (proj2 (check_overlaps_ok _)) by done. cbn [mbind result_bind].
  rewrite sort_by_id by done. destruct doc; simpl in *. by rewrite Hv.
Qed.
End properties.

(** ** The shipped document ([config/destination_policy.yaml]) *)

Module Examples.
Definition core_policy (pid : string) (pr : Z) (prefix : option string) (dt : string) (eg cs cl ms : list string)
    : dict string json :=
  [("policy_id", JStr pid); ("priority", JInt pr)]
  ++ match prefix with Some p => [("prefix", JStr p)] | None => [] end
  ++ [("destination_type", JStr dt); ("allowed_egress", texts eg); ("candidate_transports", texts cs);
      ("failure_action", JStr "FAIL_CLOSED"); ("application_classes", texts cl); ("application_matchers", texts ms)].

Definition core_document : dict string json :=
  [("schema_version", JInt 5);
   ("policies", JList [
     JObj (core_policy "private_dc_backup" 10 (Some "10.100.0.10/32") "DATA_CENTER" ["HUB_OVERLAY"] ["bb"; "mpls"; "lte"]
             ["CENTRAL_BACKUP"] ["HTTPS"; "HTTP"]);
     JObj (core_policy "public_saas" 20 (Some "198.18.0.10/32") "SAAS" ["DIRECT_INTERNET"] ["bb"; "lte"]
             ["SAAS_INTERACTIVE"; "SAAS_FILE_TRANSFER"] ["HTTPS"; "TLS"; "HTTP"])]);
   ("default_policy", JObj (core_policy "default_unknown" 1000 None "UNKNOWN" ["HUB_OVERLAY"] ["mpls"; "bb"; "lte"] [] []))].

Definition core_policies_result : result DestinationPolicyDocument := Eval vm_compute in
  document_from_mapping core_config core_document.
Definition core_policies : DestinationPolicyDocument := Eval vm_compute in
  match core_policies_result as r return is_ok r = true → DestinationPolicyDocument with
  | Ok d => λ _, d
  | Err _ => λ H, False_rect _ (Bool.diff_false_true H)
  end eq_refl.
Lemma core_policies_accepted : document_from_mapping core_config core_document = Ok core_policies.
Proof. vm_cast_no_check (eq_refl (Ok core_policies)). Qed.
End Examples.

Lemma policy_document_safe_witness :
  policy_for_prefix Examples.core_policies (host_network (saas_ip core_config)) =
    nth 1 (policies Examples.core_policies) (default_policy Examples.core_policies).
Proof.
  destruct (policy_document_safe core_config Examples.core_document Examples.core_policies
    Examples.core_policies_accepted) as (_ & _ & _ & _ & Hl).
  apply Hl; [apply list_elem_of_lookup; exists 1%nat; reflexivity|reflexivity].
Defined.

Lemma policy_document_roundtrip_witness :
  document_from_mapping core_config (to_mapping Examples.core_policies) = Ok Examples.core_policies.
Proof.
  exact (policy_document_roundtrip core_config Examples.core_document Examples.core_policies
    Examples.core_policies_accepted).
Defined.
