(* ===== verification/DesiredState.v ===== *)
(** * Desired states ([desired_state_v5.py])

    The WireGuard configuration the controller computes for a spoke or a hub
    from the topology, its validation, and its JSON form.  The SHA-256 digest of
    the canonical JSON text is a parameter. *)
From S2P Require Import Prelude Net Marks PathSelection Model Json.
Local Open Scope string_scope.
Local Open Scope list_scope.
Local Open Scope Z_scope.

Record Peer := {
  peer_id : string; public_key : string; endpoint : option string; allowed_ips : list string; keepalive_s : Z
}.

Record WireGuardInterface := {
  wi_name : string; wi_address : string; listen_port : Z; wi_route_table : Z; transport_slot : Z;
  wi_hub : option string; peers : list Peer; wi_routes : list string
}.

Record DesiredState := {
  ds_schema_version : Z; ds_site : string; generation : string; ds_version : Z; ds_route_version : Z;
  ownership_epoch : Z; ds_preferred_hub : option string; ds_standby_hub : option string;
  active_target_by_slot : dict string (dict string string); interfaces : list WireGuardInterface;
  route_ownership : list (dict string json); private_prefixes : list string
}.

(** ** JSON form ([asdict]) *)

Definition opt_text (o : option string) : json := match o with Some s => JStr s | None => JNull end.
Definition text_list_json (l : list string) : json := JList (map JStr l).

Definition peer_json (p : Peer) : json := JObj
  [("peer_id", JStr (peer_id p)); ("public_key", JStr (public_key p)); ("endpoint", opt_text (endpoint p));
   ("allowed_ips", text_list_json (allowed_ips p)); ("keepalive_s", JInt (keepalive_s p))].

Definition interface_json (i : WireGuardInterface) : json := JObj
  [("name", JStr (wi_name i)); ("address", JStr (wi_address i)); ("listen_port", JInt (listen_port i));
   ("route_table", JInt (wi_route_table i)); ("transport_slot", JInt (transport_slot i)); ("hub", opt_text (wi_hub i));
   ("peers", JList (map peer_json (peers i))); ("routes", text_list_json (wi_routes i))].

Definition asdict (s : DesiredState) : dict string json :=
  [("schema_version", JInt (ds_schema_version s)); ("site", JStr (ds_site s)); ("generation", JStr (generation s));
   ("desired_state_version", JInt (ds_version s)); ("route_version", JInt (ds_route_version s));
   ("ownership_epoch", JInt (ownership_epoch s)); ("preferred_hub", opt_text (ds_preferred_hub s));
   ("standby_hub", opt_text (ds_standby_hub s));
   ("active_target_by_slot", JObj (dmap (λ d, JObj (dmap JStr d)) (active_target_by_slot s)));
   ("interfaces", JList (map interface_json (interfaces s)));
   ("route_ownership", JList (map JObj (route_ownership s)));
   ("egress_policy", JObj [("private_prefixes", text_list_json (private_prefixes s))])].

Definition to_dict (canonical_digest : dict string json → string) (s : DesiredState) : dict string json :=
  let result := asdict s in dset result "configuration_digest" (JStr (canonical_digest result)).

(** ** Validation *)

Definition must (b : bool) (msg : string) : result unit := raise_if (negb b) ValueError msg.

(** [{f"wg-h{number}-{transport}" for number in (1, 2) for transport in TRANSPORTS}] *)
Definition required_names : list string :=
  flat_map (λ n, map (λ t, "wg-h" +:+ n +:+ "-" +:+ t) TRANSPORTS) ["1"; "2"].

(** The texts in the allowed list of some later peer. *)
Definition collides (i : WireGuardInterface) : list Peer → result unit :=
  fix go (ps : list Peer) : result unit :=
    match ps with
    | [] => Ok tt
    | p :: rest =>
        _ ← iterM (λ a, iterM (λ other, must (negb (inb a (allowed_ips other)))
                     ("AllowedIPs collision on " +:+ wi_name i +:+ ": " +:+ a)) rest) (allowed_ips p);
        go rest
    end.

Definition validate_desired_state (s : DesiredState) (c : TopologyConfig) : result unit :=
  _ ← must (ds_schema_version s =? 5) "desired state schema must be 5";
  let names := map wi_name (interfaces s) in
  _ ← must (uniqueb names) "desired-state interface names must be unique";
  _ ← must (uniqueb (map listen_port (interfaces s))) "desired-state listen ports must be unique";
  _ ← (if dmem (sites c) (ds_site s) then
         _ ← must (same_setb names required_names) "a spoke must have exactly six hub-facing interfaces";
         _ ← must (Nat.eqb (length (remove_dups (map wi_address (interfaces s)))) 6)
               "spoke tunnel addresses must be unique";
         must (same_setb (dkeys (active_target_by_slot s)) TRANSPORTS) "every transport slot needs an active target"
       else Ok tt);
  iterM (λ i, collides i (peers i)) (interfaces s).

(** ** Construction *)

Definition sort_texts (l : list string) : list string := sort_by String.leb l.

Definition all_remote_prefixes (c : TopologyConfig) (site : string) : list string :=
  sort_texts (map (λ p, network_str (lan_network p.2)) (List.filter (λ p, negb (String.eqb p.1 site)) (sites c))
              ++ [network_str (data_center_network c)]
              ++ (if vpc_enabled (cloud_vpc c) then [network_str (vpc_network (cloud_vpc c))] else [])).

(** [try: site = config.logical_site(site) except KeyError: pass] *)
Definition resolve_site (c : TopologyConfig) (site : string) : string :=
  match logical_site c site with Ok s => s | Err _ => site end.

Definition port_endpoint (a : addr) (port : Z) : string := addr_str a +:+ ":" +:+ str_Z port.

Definition spoke_interface (c : TopologyConfig) (site : string) (keys : dict string string) (routes : list string)
    (t : TunnelTarget) : result WireGuardInterface :=
  o ← overlay_ip c (tt_hub t) (tt_hub t) (tt_transport t);
  u ← underlay_ip c (tt_hub t) (tt_transport t);
  port ← wireguard_port c (tt_hub t) (tt_hub t) (tt_transport t);
  key ← of_option (dget keys (tt_hub t)) KeyError (tt_hub t);
  own ← overlay_ip c site (tt_hub t) (tt_transport t);
  listen ← wireguard_port c site (tt_hub t) (tt_transport t);
  tr ← get_transport c (tt_transport t);
  Ok {| wi_name := interface_name t;
        wi_address := addr_str own +:+ "/" +:+ str_Z (prefixlen (overlay_network t));
        listen_port := listen; wi_route_table := tt_route_table t; transport_slot := route_slot tr;
        wi_hub := Some (tt_hub t);
        peers := [{| peer_id := tt_hub t; public_key := key; endpoint := Some (port_endpoint u port);
                     allowed_ips := sort_texts ((addr_str o +:+ "/32") :: routes);
                     keepalive_s := persistent_keepalive_s (settings c) |}];
        wi_routes := routes |}.

(** The preferred hub's interface of every slot. *)
Definition default_active (c : TopologyConfig) (profile : Site) : result (dict string (dict string string)) :=
  foldM (λ acc tr, t ← target c (preferred_hub profile) tr;
           Ok (dset acc tr [("hub", preferred_hub profile); ("interface", interface_name t)])) [] TRANSPORTS.

Definition build_spoke_desired_state (c : TopologyConfig) (site : string) (keys : dict string string)
    (gen : string) (version route epoch : Z) (active : option (dict string (dict string string)))
    : result DesiredState :=
  let site := resolve_site c site in
  _ ← must (dmem (sites c) site) "not a spoke";
  profile ← get_site c site;
  let missing := List.filter (λ h, negb (dmem keys h)) HUBS in
  _ ← must (bool_decide (missing = [])) ("missing hub public keys: " +:+ join ", " missing);
  let routes := all_remote_prefixes c site in
  ts ← spoke_targets c site;
  ifs ← mapM_result (spoke_interface c site keys routes) ts;
  act ← match active with
        | Some ((_ :: _) as a) => Ok a
        | _ => default_active c profile
        end;
  let state := {| ds_schema_version := 5; ds_site := site; generation := gen; ds_version := version;
                  ds_route_version := route; ownership_epoch := epoch; ds_preferred_hub := Some (preferred_hub profile);
                  ds_standby_hub := Some (standby_hub profile); active_target_by_slot := act; interfaces := ifs;
                  route_ownership := []; private_prefixes := map network_str (protected_private_prefixes c) |} in
  _ ← validate_desired_state state c;
  Ok state.

(** [next(item for item in HUBS if item != hub)] *)
Definition opposite_hub (hub : string) : result string :=
  of_option (find (λ h, negb (String.eqb h hub)) HUBS) StopIteration "".

Definition hub_peer (c : TopologyConfig) (hub transport : string) (keys : dict string string) (p : string * Site)
    : result (list Peer) :=
  match dget keys p.1 with
  | None => Ok []
  | Some key =>
      o ← overlay_ip c p.1 hub transport;
      Ok [{| peer_id := p.1; public_key := key; endpoint := None;
             allowed_ips := [addr_str o +:+ "/32"; network_str (lan_network p.2)];
             keepalive_s := persistent_keepalive_s (settings c) |}]
  end.

(** [IPv4Address + n] of a network's base *)
Definition nth_address (n : network) (i : Z) : result addr := IPv4Address (network_address n + i).

Definition hub_interfaces (c : TopologyConfig) (hub other : string) (keys : dict string string) (transport : string)
    : result (list WireGuardInterface) :=
  ps ← mapM_result (hub_peer c hub transport keys) (sites c);
  o ← overlay_ip c hub hub transport;
  t ← target c hub transport;
  port ← wireguard_port c hub hub transport;
  tr ← get_transport c transport;
  n ← of_option (dget (interhub_networks c) transport) KeyError transport;
  key ← of_option (dget keys other) KeyError other;
  u ← underlay_ip c other transport;
  ohp ← interhub_port c other transport;
  far ← nth_address n (if String.eqb hub "hub1" then 2 else 1);
  near ← nth_address n (if String.eqb hub "hub1" then 1 else 2);
  ihp ← interhub_port c hub transport;
  h ← index_of hub HUBS; ti ← index_of transport TRANSPORTS;
  Ok [{| wi_name := "wg-spokes-" +:+ transport;
         wi_address := addr_str o +:+ "/" +:+ str_Z (prefixlen (overlay_network t));
         listen_port := port; wi_route_table := tt_route_table t; transport_slot := route_slot tr; wi_hub := Some hub;
         peers := concat ps; wi_routes := map (λ s, network_str (lan_network s)) (site_list c) |};
      {| wi_name := "wg-ih-" +:+ transport; wi_address := addr_str near +:+ "/" +:+ str_Z (prefixlen n);
         listen_port := ihp; wi_route_table := 2000 + h * 10 + ti; transport_slot := route_slot tr; wi_hub := Some other;
         peers := [{| peer_id := other; public_key := key; endpoint := Some (port_endpoint u ohp);
                      allowed_ips := [addr_str far +:+ "/32"]; keepalive_s := persistent_keepalive_s (settings c) |}];
         wi_routes := [] |}].

Definition build_hub_desired_state (c : TopologyConfig) (hub : string) (keys : dict string string)
    (ownership : dict string (dict string json)) (gen : string) (version route epoch : Z) : result DesiredState :=
  _ ← must (dmem (hubs c) hub) "not a hub";
  other ← opposite_hub hub;
  _ ← must (dmem keys other) "missing opposite-hub public key";
  ifs ← mapM_result (hub_interfaces c hub other keys) TRANSPORTS;
  let state := {| ds_schema_version := 5; ds_site := hub; generation := gen; ds_version := version;
                  ds_route_version := route; ownership_epoch := epoch; ds_preferred_hub := None; ds_standby_hub := None;
                  active_target_by_slot := []; interfaces := concat ifs; route_ownership := dvals ownership;
                  private_prefixes := map network_str (protected_private_prefixes c) |} in
  _ ← validate_desired_state state c;
  Ok state.
