(* ===== verification/DesiredFacts.v ===== *)
(** * Desired states of accepted topologies

    What a computed desired state contains, that an accepted topology always
    yields one, and that an edge can apply it. *)
From Stdlib Require Import Ascii.
From S2P Require Import Prelude Net Marks PathSelection Model ModelValidate Json ModelParse CoreTopology TopologyFacts.
From S2P Require Import DesiredState.
Local Open Scope string_scope.
Local Open Scope list_scope.
Local Open Scope Z_scope.

Lemma index_ok x l : x ∈ l → index_of x l = Ok (position x l).
Proof.
  intros Hx. unfold position. induction l as [|y l IH]; [by inversion Hx|]. simpl.
  destruct (String.eqb_spec x y) as [->|Hn]; [done|]. apply elem_of_cons in Hx as [->|Hx]; [done|].
  specialize (IH Hx). by destruct (index_of x l); [reflexivity|discriminate IH].
Qed.

#[local] Arguments index_of : simpl never.
#[local] Arguments inb : simpl never.
#[local] Arguments str_Z : simpl never.
#[local] Arguments network_str : simpl never.

Lemma must_ok b msg : must b msg = Ok tt ↔ b = true.
Proof. unfold must, raise_if. by destruct b. Qed.

Lemma FOP_NoDup {A B} (R : A → A → Prop) (f : A → B) l :
  (∀ x y, x ∈ l → y ∈ l → R x y → f x ≠ f y) → ForallOrdPairs R l → NoDup (map f l).
Proof.
  intros Hf H. induction H as [|x l Hx _ IH]; simpl; [constructor|]. apply NoDup_cons. split.
  - intros (y & Hy & Hin)%elem_of_map. rewrite Forall_forall in Hx.
    apply (Hf x y); [constructor|by constructor|by apply Hx|done].
  - apply IH. intros y z Hy Hz. apply Hf; by constructor.
Qed.

Lemma FOP_app_r {A} (R : A → A → Prop) l k : ForallOrdPairs R (l ++ k) → ForallOrdPairs R k.
Proof. induction l as [|x l IH]; simpl; [done|]. intros H. inversion H; subst. by apply IH. Qed.

Lemma FOP_app_l {A} (R : A → A → Prop) l k : ForallOrdPairs R (l ++ k) → ForallOrdPairs R l.
Proof.
  induction l as [|x l IH]; simpl; [constructor|]. intros H. inversion H as [|? ? Hx Hl]; subst.
  constructor; [by apply Forall_app in Hx as [? _]|by apply IH].
Qed.

Lemma addr_str_inj a b : 0 <= a <= all_ones → 0 <= b <= all_ones → addr_str a = addr_str b → a = b.
Proof.
  intros [Ha _]%parse_addr_str [Hb _]%parse_addr_str E. rewrite E, Hb in Ha. by injection Ha.
Qed.

(** Texts [address/length] determine the address. *)
Lemma cidr_inj a b p q : 0 <= a <= all_ones → 0 <= b <= all_ones →
  addr_str a +:+ "/" +:+ p = addr_str b +:+ "/" +:+ q → a = b.
Proof.
  intros Ha Hb E. apply (f_equal (split_on "/"%char)) in E.
  rewrite !split_on_app in E by (by apply parse_addr_str). injection E as E _. by apply addr_str_inj.
Qed.

(** ** A spoke of an accepted topology *)

Section spoke.
Context `{PyRepr} (raw : dict string json) (source : string) (c : TopologyConfig).
Context (Hacc : config_from_mapping raw source = Ok c).

(** Room for [n] addresses above the base of every overlay network. *)
Definition overlay_room (n : Z) : Prop :=
  ∀ k t, dget (targets c) k = Some t → net_addr (overlay_network t) + n <= all_ones.

Lemma acc_validated : validated c.
Proof. apply config_from_mapping_inv in Hacc as (_ & _ & _ & Hv). by apply validate_config_iff. Qed.

Lemma acc_named : targets_named c.
Proof. apply config_from_mapping_inv in Hacc as (_ & _ & Hp & _). by eapply parse_config_wf. Qed.

Lemma acc_shape : dkeys (transports c) = TRANSPORTS ∧ dkeys (hubs c) = HUBS ∧
  ∀ k, k ∈ dkeys (targets c) ↔ k ∈ hub_transport_pairs.
Proof.
  pose proof (v_transports _ acc_validated) as Ht. unfold check_transports in Ht.
  rewrite !bind_unit_ok, !reject_ok in Ht. destruct Ht as (H1 & H2 & H3 & _).
  apply orb_false_iff in H2 as [H2 _]. rewrite negb_false_iff in H1, H2, H3.
  rewrite bool_decide_eq_true in H1, H2. by rewrite same_setb_true in H3.
Qed.

Lemma acc_target h tr : (h, tr) ∈ hub_transport_pairs →
  ∃ t, dget (targets c) (h, tr) = Some t ∧ target c h tr = Ok t ∧ tt_hub t = h ∧ tt_transport t = tr.
Proof.
  intros Hp. destruct acc_shape as (_ & _ & Hk). apply Hk, dmem_true in Hp. unfold dmem in Hp.
  destruct (dget (targets c) (h, tr)) as [t|] eqn:E; [|done]. exists t.
  destruct acc_named as [_ Hn]. pose proof (Hn _ _ E) as [= E1 E2].
  split_and!; [done| |done|done]. unfold target. by rewrite E.
Qed.

Lemma pair_parts h tr : (h, tr) ∈ hub_transport_pairs ↔ h ∈ HUBS ∧ tr ∈ TRANSPORTS.
Proof.
  unfold hub_transport_pairs. rewrite list_elem_of_In, in_flat_map. split.
  - intros (h' & Hh & (t' & [= -> ->] & Ht)%in_map_iff). by rewrite !list_elem_of_In.
  - intros [Hh Ht]. exists h. rewrite <- list_elem_of_In. split; [done|]. apply in_map_iff. exists tr.
    split; [done|by apply list_elem_of_In].
Qed.

Lemma acc_transport tr : tr ∈ TRANSPORTS → ∃ t, get_transport c tr = Ok t ∧ dget (transports c) tr = Some t.
Proof.
  intros Ht. destruct acc_shape as (Hk & _). rewrite <- Hk in Ht. apply dmem_true in Ht. unfold dmem in Ht.
  unfold get_transport, of_option. destruct (dget (transports c) tr) as [t|]; [|done]. by exists t.
Qed.

Lemma acc_hub_underlay h tr : h ∈ HUBS → tr ∈ TRANSPORTS → ∃ a, underlay_ip c h tr = Ok a.
Proof.
  intros Hh Htr. pose proof (v_addresses _ acc_validated) as Ha. unfold check_addresses in Ha.
  rewrite !bind_unit_ok, iterM_ok in Ha. destruct Ha as (_ & Hu & _).
  destruct (acc_transport tr Htr) as (t & _ & E). rewrite Forall_forall in Hu.
  specialize (Hu (tr, t) (dget_In _ _ _ E)). destruct (check_underlay_ok _ _ _ Hu) as (gw & ips & _ & Hips & _).
  destruct (mapM_result_elem _ _ _ h Hips) as (a & Ha & _); [|by exists a].
  unfold site_names. apply elem_of_app. left. destruct acc_shape as (_ & -> & _). done.
Qed.

Lemma acc_hub h : h ∈ HUBS → dmem (hubs c) h = true.
Proof. intros Hh. apply dmem_true. by destruct acc_shape as (_ & -> & _). Qed.

Lemma acc_hub_port h tr : h ∈ HUBS → tr ∈ TRANSPORTS → ∃ p, wireguard_port c h h tr = Ok p.
Proof.
  intros Hh Htr. unfold wireguard_port. rewrite acc_hub, !index_ok by done. by eexists.
Qed.

Context (site : string) (s : Site) (Hs : dget (sites c) site = Some s) (Hnh : site ∉ HUBS).
Context (Hroom1 : overlay_room 1) (Hrooms : overlay_room (address_id s)).

Lemma acc_site : dmem (sites c) site = true.
Proof. unfold dmem. by rewrite Hs. Qed.

Lemma acc_not_hub : dmem (hubs c) site = false.
Proof.
  destruct (dmem (hubs c) site) eqn:E; [|done]. apply dmem_true in E. destruct acc_shape as (_ & Hh & _).
  by rewrite Hh in E.
Qed.

Lemma acc_id_pos : 0 < address_id s.
Proof.
  pose proof (v_addresses _ acc_validated) as Ha. unfold check_addresses in Ha. rewrite bind_unit_ok, reject_ok in Ha.
  destruct Ha as [Ha _]. apply orb_false_iff in Ha as [Ha _].
  destruct (Z.ltb_spec 0 (address_id s)); [done|].
  assert (existsb (λ v, v <=? 0) (address_ids c) = true) as Hex; [|congruence].
  apply existsb_exists. exists (address_id s). split; [|lia]. apply list_elem_of_In. unfold address_ids.
  apply elem_of_app. right. apply elem_of_app. left. apply elem_of_map. exists s. split; [done|]. by eapply dget_dvals.
Qed.

Lemma acc_overlay_wf k t : dget (targets c) k = Some t → network_wf (overlay_network t).
Proof.
  intros Ht. apply config_from_mapping_inv in Hacc as (_ & _ & Hp & _). apply parse_config_wf in Hp as [Hw _].
  unfold all_networks in Hw. rewrite !Forall_app in Hw. destruct_and! Hw.
  match goal with Hx : Forall network_wf (map overlay_network _) |- _ => rewrite Forall_forall in Hx; apply Hx end.
  apply elem_of_map. exists t. split; [done|by eapply dget_dvals].
Qed.

Lemma IPv4_ok n : 0 <= n <= all_ones → IPv4Address n = Ok n.
Proof. intros Hn. unfold IPv4Address. by destruct (Z.leb_spec 0 n), (Z.leb_spec n all_ones); simpl; try lia. Qed.

Lemma acc_hub_overlay h tr t : dget (targets c) (h, tr) = Some t → h ∈ HUBS →
  overlay_ip c h h tr = Ok (net_addr (overlay_network t) + 1).
Proof.
  intros Ht Hh. unfold overlay_ip, target. rewrite Ht. cbn [of_option mbind result_bind]. rewrite acc_hub by done.
  pose proof (wf_base _ (acc_overlay_wf _ _ Ht)). pose proof (Hroom1 _ _ Ht). apply IPv4_ok. unfold network_address. lia.
Qed.

Lemma acc_own_overlay h tr t : dget (targets c) (h, tr) = Some t →
  overlay_ip c site h tr = Ok (net_addr (overlay_network t) + address_id s).
Proof.
  intros Ht. unfold overlay_ip, target. rewrite Ht. cbn [of_option mbind result_bind]. rewrite acc_not_hub.
  unfold logical_site, get_site. rewrite acc_site. cbn [mbind result_bind]. rewrite Hs. cbn [of_option mbind result_bind].
  pose proof (wf_base _ (acc_overlay_wf _ _ Ht)). pose proof (Hrooms _ _ Ht). pose proof acc_id_pos.
  apply IPv4_ok. unfold network_address. lia.
Qed.

Lemma acc_own_port h tr t : dget (targets c) (h, tr) = Some t → h ∈ HUBS → tr ∈ TRANSPORTS →
  wireguard_port c site h tr = Ok (port_of c (wireguard_index s, slot (h, tr))).
Proof.
  intros Ht Hh Htr. unfold wireguard_port. rewrite acc_not_hub. unfold logical_site, get_site. rewrite acc_site.
  cbn [mbind result_bind]. rewrite Hs, !index_ok by done. cbn [of_option mbind result_bind].
  unfold port_of, slot. cbn [fst snd]. rewrite !index_ok by done. f_equal; lia.
Qed.

(** The interface computed towards one hub over one transport. *)
Record interface_spec (keys : dict string string) (routes : list string) (p : string * string) (i : WireGuardInterface) : Prop := {
  is_target : ∃ t, dget (targets c) p = Some t ∧ wi_name i = interface_name t ∧ wi_route_table i = tt_route_table t ∧
    wi_address i = addr_str (net_addr (overlay_network t) + address_id s) +:+ "/" +:+ str_Z (prefixlen (overlay_network t)) ∧
    ∃ key port u, dget keys p.1 = Some key ∧ wireguard_port c p.1 p.1 p.2 = Ok port ∧ underlay_ip c p.1 p.2 = Ok u ∧
      peers i = [{| peer_id := p.1; public_key := key; endpoint := Some (port_endpoint u port);
                    allowed_ips := sort_texts ((addr_str (net_addr (overlay_network t) + 1) +:+ "/32") :: routes);
                    keepalive_s := persistent_keepalive_s (settings c) |}];
  is_port : listen_port i = port_of c (wireguard_index s, slot p);
  is_hub : wi_hub i = Some p.1;
  is_routes : wi_routes i = routes
}.

Lemma spoke_interface_ok keys routes p : p ∈ hub_transport_pairs → p.1 ∈ dkeys keys →
  ∃ i, (t ← target c p.1 p.2; spoke_interface c site keys routes t) = Ok i ∧ interface_spec keys routes p i.
Proof.
  destruct p as [h tr]. cbn [fst snd]. intros Hp Hk. destruct (acc_target _ _ Hp) as (t & Ht & -> & Eh & Et).
  apply pair_parts in Hp as [Hh Htr]. destruct (acc_transport _ Htr) as (x & Hx & _).
  destruct (acc_hub_underlay _ _ Hh Htr) as (u & Hu). destruct (acc_hub_port _ _ Hh Htr) as (port & Hport).
  apply dmem_true in Hk. unfold dmem in Hk. destruct (dget keys h) as [key|] eqn:Hkey; [|done].
  eexists. unfold spoke_interface. cbn [mbind result_bind]. rewrite Eh, Et.
  rewrite (acc_hub_overlay _ _ _ Ht Hh). cbn [mbind result_bind]. rewrite Hu. cbn [mbind result_bind].
  rewrite Hport. cbn [mbind result_bind]. rewrite Hkey. cbn [of_option mbind result_bind].
  rewrite (acc_own_overlay _ _ _ Ht). cbn [mbind result_bind]. rewrite (acc_own_port _ _ _ Ht Hh Htr).
  cbn [mbind result_bind]. rewrite Hx. cbn [mbind result_bind]. split; [reflexivity|].
  split; [|done..]. exists t. split_and!; try done. exists key, port, u. by split_and!.
Qed.

Definition pair_name (p : string * string) : string :=
  "wg-" +:+ (if String.eqb p.1 "hub1" then "h1" else "h2") +:+ "-" +:+ p.2.

Lemma pair_names : map pair_name hub_transport_pairs = required_names.
Proof. vm_compute. reflexivity. Qed.

Lemma spec_name keys routes p i : interface_spec keys routes p i → wi_name i = pair_name p.
Proof.
  intros [(t & Ht & -> & _) _ _ _]. destruct acc_named as [_ Hn]. rewrite <- (Hn _ _ Ht). done.
Qed.

(** The overlay networks of distinct targets start at distinct addresses. *)
Lemma overlay_bases k k' t t' : dget (targets c) k = Some t → dget (targets c) k' = Some t' →
  net_addr (overlay_network t) = net_addr (overlay_network t') → k = k'.
Proof.
  intros Ht Ht' E. pose proof (v_addresses _ acc_validated) as Ha. unfold check_addresses in Ha.
  rewrite !bind_unit_ok, check_disjoint_ok in Ha. destruct Ha as (_ & _ & _ & Hd). unfold all_networks in Hd.
  do 2 apply FOP_app_r in Hd. apply FOP_app_l in Hd.
  assert (NoDup (map net_addr (map overlay_network (dvals (targets c))))) as Hnd.
  { eapply FOP_NoDup; [|exact Hd]. intros n m (x & -> & Hx)%elem_of_map (y & -> & Hy)%elem_of_map Ho En.
    unfold overlaps in Ho. apply orb_false_iff in Ho as [Ho _]. unfold in_network in Ho.
    apply list_elem_of_In in Hx. unfold dvals in Hx. apply in_map_iff in Hx as ([kx x'] & <- & Hx).
    apply list_elem_of_In in Hx. assert (dget (targets c) kx = Some x') as Gx by (apply dget_wf_In; [apply acc_named|done]).
    pose proof (acc_overlay_wf _ _ Gx) as [Hl Hb Hal]. unfold network_address, netmask, hostbits in *. cbn [snd] in *.
    rewrite <- En, ones_shift_land, Hal, Z.sub_0_r, Z.eqb_refl in Ho by done. done. }
  rewrite map_map in Hnd. unfold dvals in Hnd. rewrite map_map in Hnd.
  assert ((k, t) = (k', t')) as [= -> _]; [|done].
  apply (NoDup_map_inj _ _ _ _ Hnd); [by apply dget_In|by apply dget_In|exact E].
Qed.

(** The tunnel address towards one hub over one transport. *)
Definition pair_address (p : string * string) : string :=
  match dget (targets c) p with
  | Some t => addr_str (net_addr (overlay_network t) + address_id s) +:+ "/" +:+ str_Z (prefixlen (overlay_network t))
  | None => ""
  end.

Lemma spec_address keys routes p i : interface_spec keys routes p i → wi_address i = pair_address p.
Proof. intros [(t & Ht & _ & _ & Ha & _) _ _ _]. unfold pair_address. by rewrite Ht. Qed.

Lemma pair_addresses : NoDup (map pair_address hub_transport_pairs).
Proof.
  apply NoDup_map; [|apply uniqueb_true; reflexivity]. intros [h tr] [h' tr'] Hp Hp' E.
  destruct (acc_target _ _ Hp) as (t & Ht & _). destruct (acc_target _ _ Hp') as (t' & Ht' & _).
  unfold pair_address in E. rewrite Ht, Ht' in E. pose proof acc_id_pos.
  pose proof (wf_base _ (acc_overlay_wf _ _ Ht)). pose proof (wf_base _ (acc_overlay_wf _ _ Ht')).
  pose proof (Hrooms _ _ Ht). pose proof (Hrooms _ _ Ht'). apply cidr_inj in E; [|lia|lia].
  apply (overlay_bases _ _ _ _ Ht Ht'). lia.
Qed.

Lemma pair_ports : NoDup (map (λ p, port_of c (wireguard_index s, slot p)) hub_transport_pairs).
Proof.
  apply NoDup_map; [|apply uniqueb_true; reflexivity]. intros p q Hp Hq E. unfold port_of in E. cbn [fst snd] in E.
  assert (slot p = slot q) as Es by lia. apply (NoDup_map_inj slot hub_transport_pairs); try done.
  rewrite spoke_slots_eq. apply uniqueb_true. reflexivity.
Qed.

Lemma single_peer i p : peers i = [p] → collides i (peers i) = Ok tt.
Proof.
  intros ->. simpl. apply bind_unit_ok. split; [|done]. apply iterM_ok. by apply Forall_forall.
Qed.

Lemma preferred_hub_ok : preferred_hub s ∈ HUBS.
Proof.
  pose proof (v_sites _ acc_validated) as Hc. unfold check_sites in Hc. rewrite bind_unit_ok, reject_ok in Hc.
  destruct Hc as [Hc _]. destruct (dmem (hubs c) (preferred_hub s)) eqn:E.
  - apply dmem_true in E. destruct acc_shape as (_ & Hh & _). by rewrite Hh in E.
  - assert (existsb (λ s, negb (dmem (hubs c) (preferred_hub s)) || negb (dmem (hubs c) (standby_hub s))
                            || String.eqb (preferred_hub s) (standby_hub s)) (site_list c) = true) as Hex; [|congruence].
    apply existsb_exists. exists s. split; [apply list_elem_of_In; by eapply dget_dvals|by rewrite E].
Qed.

Lemma default_active_ok : ∃ act, default_active c s = Ok act ∧ dkeys act = TRANSPORTS ∧
  ∀ tr, tr ∈ TRANSPORTS → ∃ t, dget (targets c) (preferred_hub s, tr) = Some t ∧
    dget act tr = Some [("hub", preferred_hub s); ("interface", interface_name t)].
Proof.
  assert (Ht : ∀ tr, tr ∈ TRANSPORTS → ∃ t, dget (targets c) (preferred_hub s, tr) = Some t ∧ target c (preferred_hub s) tr = Ok t).
  { intros tr Htr. destruct (acc_target (preferred_hub s) tr) as (t & ? & ? & _); [|by exists t].
    apply pair_parts. split; [apply preferred_hub_ok|done]. }
  destruct (Ht "mpls") as (t1 & G1 & E1); [by apply inb_true|]. destruct (Ht "bb") as (t2 & G2 & E2); [by apply inb_true|].
  destruct (Ht "lte") as (t3 & G3 & E3); [by apply inb_true|].
  eexists. unfold default_active, TRANSPORTS. cbn [foldM]. rewrite E1. cbn [mbind result_bind]. rewrite E2.
  cbn [mbind result_bind]. rewrite E3. split; [reflexivity|]. split; [reflexivity|].
  intros tr Htr. rewrite !elem_of_cons, elem_of_nil in Htr. destruct Htr as [->|[->|[->|[]]]]; by eexists.
Qed.

Lemma build_spoke_ok keys gen version route epoch :
  (∀ h, h ∈ HUBS → h ∈ dkeys keys) →
  ∃ st, build_spoke_desired_state c site keys gen version route epoch None = Ok st ∧
    validate_desired_state st c = Ok tt ∧ ds_schema_version st = 5 ∧ ds_site st = site ∧
    ds_version st = version ∧ ds_route_version st = route ∧ map wi_name (interfaces st) = required_names ∧
    NoDup (map listen_port (interfaces st)) ∧ NoDup (map wi_address (interfaces st)) ∧
    Forall2 (interface_spec keys (all_remote_prefixes c site)) hub_transport_pairs (interfaces st) ∧
    dkeys (active_target_by_slot st) = TRANSPORTS ∧
    ∀ tr, tr ∈ TRANSPORTS → ∃ t, dget (targets c) (preferred_hub s, tr) = Some t ∧
      dget (active_target_by_slot st) tr = Some [("hub", preferred_hub s); ("interface", interface_name t)].
Proof.
  intros Hkeys. set (routes := all_remote_prefixes c site).
  destruct (mapM_result_total (λ p, t ← target c p.1 p.2; spoke_interface c site keys routes t)
    (interface_spec keys routes) hub_transport_pairs) as (ifs & Hifs & Hspec).
  { intros p Hp. apply spoke_interface_ok; [done|]. destruct p as [h tr]. by apply Hkeys, (pair_parts h tr). }
  destruct (mapM_result_total (λ p, target c p.1 p.2) (λ p t, dget (targets c) p = Some t) hub_transport_pairs)
    as (ts & Hts & Htspec).
  { intros [h tr] Hp. destruct (acc_target _ _ Hp) as (t & ? & ? & _). by exists t. }
  rewrite <- (mapM_result_then _ _ _ _ Hts) in Hifs.
  pose proof (Forall2_map_eq _ pair_name wi_name _ _ (spec_name _ _) Hspec) as Hnames. rewrite pair_names in Hnames.
  pose proof (Forall2_map_eq _ _ listen_port _ _ (λ p i, is_port _ _ p i) Hspec) as Hports.
  pose proof (Forall2_map_eq _ _ wi_address _ _ (spec_address _ _) Hspec) as Haddrs.
  destruct default_active_ok as (act & Hact & Hkact & Htact).
  eexists {| ds_schema_version := 5; ds_site := site; ds_version := version; ds_route_version := route; interfaces := ifs; active_target_by_slot := act |}.
  match goal with |- _ ∧ ?V = Ok tt ∧ _ => assert (Hvalid : V = Ok tt) end.
  { unfold validate_desired_state. cbn [ds_schema_version ds_site interfaces active_target_by_slot].
    rewrite Hnames, Hports, Haddrs, Hkact, acc_site, !bind_unit_ok, !must_ok, iterM_ok.
    rewrite (remove_dups_id _ pair_addresses), length_map. split_and!; try done.
    - by apply uniqueb_true, pair_ports.
    - apply Forall_forall. intros i Hi. apply (Forall2_elem_r _ _ _ _ Hspec) in Hi as (p & _ & [(t & _ & _ & _ & _ & ? & ? & ? & _ & _ & _ & Hpe) _ _ _]).
      by eapply single_peer. }
  split_and!; [|exact Hvalid|done|done|done|done|done| | |exact Hspec|done|done]; cbn [interfaces].
  - unfold build_spoke_desired_state, resolve_site, logical_site, get_site. rewrite acc_site. cbv zeta. rewrite acc_site.
    cbn [must raise_if negb mbind result_bind]. rewrite Hs. cbn [of_option mbind result_bind].
    assert (List.filter (λ h, negb (dmem keys h)) HUBS = []) as ->.
    { unfold HUBS. simpl. by rewrite !(proj2 (dmem_true keys _)) by (apply Hkeys, inb_true; reflexivity). }
    cbn [must raise_if negb bool_decide mbind result_bind]. unfold spoke_targets, logical_site. rewrite acc_site.
    cbn [mbind result_bind]. rewrite Hts. cbn [mbind result_bind]. fold routes. rewrite Hifs. cbn [mbind result_bind].
    rewrite Hact. cbn [mbind result_bind]. by rewrite Hvalid.
  - rewrite Hports. apply pair_ports.
  - rewrite Haddrs. apply pair_addresses.
Qed.
End spoke.

(** Every accepted topology yields a desired state for every spoke.  With
    the public keys of both hubs, and overlay networks large enough for the
    site's address, building the spoke's desired state succeeds; the state
    passes its own validation and has exactly one interface per hub and
    transport, each with the right name, its own listen port and tunnel address
    and a single peer: that hub, by its key, at its underlay address and listen
    port; every transport's active target is the preferred hub's interface. *)
Theorem spoke_desired_state_total `{PyRepr} raw source c site s keys gen version route epoch :
  config_from_mapping raw source = Ok c → dget (sites c) site = Some s → site ∉ HUBS →
  overlay_room c 1 → overlay_room c (address_id s) →
  (∀ h, h ∈ HUBS → h ∈ dkeys keys) →
  ∃ st, build_spoke_desired_state c site keys gen version route epoch None = Ok st ∧
    validate_desired_state st c = Ok tt ∧ ds_schema_version st = 5 ∧ ds_site st = site ∧
    ds_version st = version ∧ ds_route_version st = route ∧ map wi_name (interfaces st) = required_names ∧
    NoDup (map listen_port (interfaces st)) ∧ NoDup (map wi_address (interfaces st)) ∧
    Forall2 (interface_spec c s keys (all_remote_prefixes c site)) hub_transport_pairs (interfaces st) ∧
    dkeys (active_target_by_slot st) = TRANSPORTS ∧
    ∀ tr, tr ∈ TRANSPORTS → ∃ t, dget (targets c) (preferred_hub s, tr) = Some t ∧
      dget (active_target_by_slot st) tr = Some [("hub", preferred_hub s); ("interface", interface_name t)].
Proof. intros. by eapply build_spoke_ok. Qed.

Lemma overlay_room_check c n :
  forallb (λ t, net_addr (overlay_network t) + n <=? all_ones) (dvals (targets c)) = true → overlay_room c n.
Proof.
  intros Hf k t Ht. rewrite forallb_forall in Hf. apply Z.leb_le, Hf, list_elem_of_In. by eapply dget_dvals.
Qed.

Module Examples.
Definition hub_keys : dict string string := [("hub1", "HUB1KEY="); ("hub2", "HUB2KEY=")].
Definition site1 : Site := Eval vm_compute in
  match dget (sites core_config) "site1" with
  | Some s => s
  | None => Build_Site "" "" 0 0 {| net_addr := 0; prefixlen := 0 |} 0 "" 0 "" 0 "" "" "" 0 ""
  end.

Lemma site1_eq : dget (sites core_config) "site1" = Some site1.
Proof. vm_cast_no_check (eq_refl (Some site1)). Qed.

Lemma room_1 : overlay_room core_config 1.
Proof. apply overlay_room_check. vm_cast_no_check (eq_refl true). Qed.

Lemma room_site1 : overlay_room core_config (address_id site1).
Proof. apply overlay_room_check. vm_cast_no_check (eq_refl true). Qed.

Lemma site1_not_hub : "site1" ∉ HUBS.
Proof. intros Hh. apply inb_true in Hh. discriminate Hh. Qed.

Lemma keyed h : h ∈ HUBS → h ∈ dkeys hub_keys.
Proof. done. Qed.
End Examples.
Import Examples.

Lemma spoke_desired_state_total_witness : ∃ st,
  build_spoke_desired_state core_config "site1" hub_keys "2026-01-01T00:00:00Z" 3 2 1 None = Ok st ∧
  ds_site st = "site1" ∧ map wi_name (interfaces st) = required_names.
Proof.
  destruct (spoke_desired_state_total core_raw "topology.core.yaml" core_config "site1" site1 hub_keys
    "2026-01-01T00:00:00Z" 3 2 1 core_accepted site1_eq site1_not_hub room_1 room_site1 keyed) as (st & E & _ & _ & ? & _ & _ & ? & _).
  by exists st.
Defined.

(** [validate_config] never compares a site's overlay address with the size of
    the overlay network: with two-address overlays an accepted topology gives
    its sites tunnel addresses outside the network. *)
Definition narrow_overlays (c : TopologyConfig) : TopologyConfig := {|
  cfg_source := cfg_source c; edge_image := edge_image c; host_image := host_image c;
  controller := controller c; management_network := management_network c;
  management_switch := management_switch c; transports := transports c;
  targets := dmap (λ t, {| tt_hub := tt_hub t; tt_transport := tt_transport t;
    overlay_network := {| net_addr := net_addr (overlay_network t); prefixlen := 30 |};
    tt_route_table := tt_route_table t |}) (targets c);
  hubs := hubs c; sites := sites c; settings := settings c; features := features c;
  cfg_measurement := cfg_measurement c; application_slas := application_slas c;
  path_scoring := path_scoring c; path_selection := path_selection c;
  data_center_network := data_center_network c; data_center_app_ip := data_center_app_ip c;
  data_center_switch := data_center_switch c; data_center_app_name := data_center_app_name c;
  data_center_hub_ips := data_center_hub_ips c; saas_network := saas_network c; saas_ip := saas_ip c;
  saas_switch := saas_switch c; saas_app_name := saas_app_name c;
  saas_gateway_name := saas_gateway_name c; saas_gateway_ip := saas_gateway_ip c;
  saas_transport_ips := saas_transport_ips c; cloud_vpc := cloud_vpc c;
  interhub_networks := interhub_networks c |}.

Lemma overlay_addresses_not_validated :
  validate_config (narrow_overlays core_config) = Ok tt ∧
  (a ← overlay_ip (narrow_overlays core_config) "site1" "hub1" "bb"; t ← target (narrow_overlays core_config) "hub1" "bb";
   Ok (in_network a (overlay_network t))) = Ok false.
Proof. split; [vm_cast_no_check (eq_refl (Ok tt : result unit))|reflexivity]. Qed.
