(* ===== verification/DesiredApply.v ===== *)
(** * The edge applies what the controller computes

    The agent's reconciliation run on the JSON form of a computed desired state:
    with every command succeeding, the exact commands it runs and the state it
    records. *)
From Stdlib Require Import Ascii.
From S2P Require Import Prelude Net Marks PathSelection Model ModelValidate Json ModelParse CoreTopology TopologyFacts.
From S2P Require Import EdgeAgent DesiredState DesiredFacts.
Import DesiredFacts.Examples.
Local Open Scope string_scope.
Local Open Scope list_scope.
Local Open Scope Z_scope.

(** ** Runs in which every command succeeds *)

Definition all_succeed (exec : list command → command → option string) : Prop := ∀ h cmd, exec h cmd = None.

(** On [a], [m] returns and only appends the commands [cs]. *)
Definition does (m : M Agent unit) (a : Agent) (cs : list command) : Prop :=
  m a = (Ok tt, set_commands a (commands a ++ cs)).

Lemma set_commands_twice a cs ds : set_commands (set_commands a cs) ds = set_commands a ds.
Proof. done. Qed.

Lemma does_ret a : does (mret tt) a [].
Proof. unfold does. rewrite app_nil_r. by destruct a. Qed.

(** [m] does the same on every agent that differs only in its commands. *)
Definition does_all (m : M Agent unit) (a : Agent) (cs : list command) : Prop :=
  ∀ ds, does m (set_commands a ds) cs.

Lemma does_all_here m a cs : does_all m a cs → does m a cs.
Proof. intros Hm. specialize (Hm (commands a)). by destruct a. Qed.

Lemma does_bind (m k : M Agent unit) a cs ds :
  does_all m a cs → does_all k a ds → does_all (m ≫= λ _, k) a (cs ++ ds).
Proof.
  intros Hm Hk l. unfold does, mbind, M_bind. rewrite (Hm l), set_commands_twice. simpl.
  rewrite (Hk (l ++ cs)). unfold does. simpl. by rewrite (assoc_L (++)).
Qed.

Lemma does_lift {A} (r : result A) (x : A) (k : A → M Agent unit) a cs :
  r = Ok x → does_all (k x) a cs → does_all (lift r ≫= k) a cs.
Proof. intros -> Hk. exact Hk. Qed.

Lemma does_get (k : Agent → M Agent unit) a cs :
  (∀ ds, k (set_commands a ds) = k a) → does_all (k a) a cs → does_all (get ≫= k) a cs.
Proof. intros Hk Hd ds. unfold does. change ((get ≫= k) ?b) with (k b b). rewrite Hk. apply Hd. Qed.

Lemma does_config (k : TopologyConfig → M Agent unit) a cs :
  does_all (k (ag_config a)) a cs → does_all (config ≫= k) a cs.
Proof. intros Hd ds. apply Hd. Qed.

Lemma does_forM {A B} (f : B → M Agent unit) (h : A → B) (g : A → list command) l a :
  (∀ x, x ∈ l → does_all (f (h x)) a (g x)) → does_all (forM f (map h l)) a (flat_map g l).
Proof.
  induction l as [|x l IH]; intros Hf; simpl; [intros ds; apply does_ret|].
  apply does_bind; [apply Hf; constructor|]. apply IH. intros y Hy. apply Hf. by constructor.
Qed.

Section apply.
Context `{PyRepr} (exec : list command → command → option string) (Hexec : all_succeed exec).

Lemma does_run cmd a : does_all (run exec cmd) a [cmd].
Proof. intros ds. unfold does, run. by rewrite Hexec. Qed.

Lemma does_catch cmd h a : does_all (catch_command (run exec cmd) h) a [cmd].
Proof. intros ds. unfold does, catch_command. by rewrite (does_run cmd a ds). Qed.

(** ** One interface *)

Definition peer_cmd (name : string) (p : Peer) : command :=
  ["wg"; "set"; name; "peer"; public_key p; "allowed-ips"; join "," (allowed_ips p); "persistent-keepalive";
   str_Z (keepalive_s p)]
  ++ match endpoint p with Some e => if nonempty e then ["endpoint"; e] else [] | None => [] end.

Definition interface_cmds (key : string) (i : WireGuardInterface) : list command :=
  [["ip"; "link"; "add"; "dev"; wi_name i; "type"; "wireguard"];
   ["ip"; "address"; "replace"; wi_address i; "dev"; wi_name i];
   ["wg"; "set"; wi_name i; "listen-port"; str_Z (listen_port i); "private-key"; key]]
  ++ flat_map (λ p, [peer_cmd (wi_name i) p]) (peers i)
  ++ [["ip"; "link"; "set"; "up"; "dev"; wi_name i]]
  ++ flat_map (λ r, [["ip"; "route"; "replace"; r; "dev"; wi_name i; "table"; str_Z (wi_route_table i)]]) (wi_routes i).

Lemma text_list_texts l : text_list (text_list_json l) = Ok l.
Proof.
  unfold text_list, text_list_json. cbn [items_of mbind result_bind]. rewrite mapM_result_map.
  induction l as [|x l IH]; simpl; [done|]. by rewrite IH.
Qed.

Lemma peer_command_json name p : peer_command name (peer_json p) = Ok (peer_cmd name p).
Proof.
  unfold peer_command, peer_json. cbn [getitem get_opt dget of_option decide mbind result_bind].
  simpl. unfold mbind, result_bind. rewrite text_list_texts. unfold peer_cmd. by destruct (endpoint p).
Qed.

Lemma does_interface i a : (system_runner a && negb (private_key_exists a)) = false →
  does_all (apply_interface exec (interface_json i)) a (interface_cmds (private_key a) i).
Proof.
  intros Hkey. unfold apply_interface, interface_cmds. apply does_get; [done|]. unfold guard. rewrite Hkey.
  cbv zeta. eapply does_lift; [reflexivity|]. eapply does_lift; [reflexivity|].
  apply (does_bind _ _ _ [_]); [apply does_catch|]. apply (does_bind _ _ _ [_]); [apply does_run|].
  eapply does_lift; [reflexivity|]. eapply does_lift; [reflexivity|].
  apply (does_bind _ _ _ [_]); [apply does_run|].
  eapply does_lift; [reflexivity|]. eapply does_lift; [reflexivity|].
  apply does_bind.
  { apply does_forM. intros p _. eapply does_lift; [apply peer_command_json|]. apply does_run. }
  apply (does_bind _ _ _ [_]); [apply does_run|].
  eapply does_lift; [reflexivity|]. eapply does_lift; [reflexivity|].
  apply does_forM. intros r _. eapply does_lift; [reflexivity|]. apply does_run.
Qed.

(** ** The active targets *)

Definition slot_cmds (c : TopologyConfig) (ifs : list WireGuardInterface) (p : string * dict string string) : list command :=
  match dget (transports c) p.1, dget p.2 "interface" with
  | Some t, Some name =>
      match find (λ i, String.eqb (wi_name i) name) ifs with
      | Some i => flat_map (λ r, [["ip"; "route"; "replace"; r; "dev"; name; "table"; str_Z (tr_route_table t)]]) (wi_routes i)
      | None => []
      end
  | _, _ => []
  end.

(** Every active target names a transport and an interface of the state. *)
Definition active_ok (c : TopologyConfig) (s : DesiredState) : Prop :=
  ∀ slot tgt, (slot, tgt) ∈ active_target_by_slot s → is_Some (dget (transports c) slot) ∧
    ∃ i, i ∈ interfaces s ∧ dget tgt "interface" = Some (wi_name i).

Lemma interfaces_of_json (f : dict string json → string) s : NoDup (map wi_name (interfaces s)) →
  ∃ d, interfaces_by_name (JObj (to_dict f s)) = Ok d ∧
    ∀ i, i ∈ interfaces s → dget d (wi_name i) = Some (interface_json i).
Proof.
  intros Hnd. unfold interfaces_by_name.
  change (getitem (JObj (to_dict f s)) "interfaces") with (Ok (JList (map interface_json (interfaces s)))).
  cbn [mbind result_bind items_of]. 
  assert (Hgen : ∀ acc, (∀ i, i ∈ interfaces s → wi_name i ∉ dkeys acc) →
    ∃ d, foldM (λ acc j, n ← getitem j "name"; Ok (dset acc (py_str n) j)) acc (map interface_json (interfaces s)) = Ok d ∧
      (∀ i, i ∈ interfaces s → dget d (wi_name i) = Some (interface_json i)) ∧
      ∀ k, k ∉ map wi_name (interfaces s) → dget d k = dget acc k).
  { induction (interfaces s) as [|i ifs IH]; intros acc Hacc; simpl.
    - exists acc. split_and!; [done| |done]. intros i Hi. by inversion Hi.
    - apply NoDup_cons in Hnd as [Hni Hnd].
      destruct (IH Hnd (dset acc (wi_name i) (interface_json i))) as (d & Hd & Hin & Hout).
      { intros j Hj Hk. apply dmem_true in Hk. unfold dmem in Hk. rewrite dget_dset in Hk. case_decide as E.
        - apply Hni. apply elem_of_map. exists j. split; congruence || done.
        - apply (Hacc j); [by constructor|]. apply dmem_true. unfold dmem. done. }
      exists d. split_and!; [exact Hd| |].
      + intros j [->|Hj]%elem_of_cons; [|by apply Hin]. rewrite Hout by done. by rewrite dget_dset_eq.
      + intros k Hk. apply not_elem_of_cons in Hk as [Hk1 Hk2]. rewrite Hout by done. by rewrite dget_dset_ne. }
  destruct (Hgen []) as (d & Hd & Hin & _); [intros i _ Hk; by inversion Hk|]. exists d. by split.
Qed.

Lemma find_name ifs (i : WireGuardInterface) : NoDup (map wi_name ifs) → i ∈ ifs → find (λ j, String.eqb (wi_name j) (wi_name i)) ifs = Some i.
Proof.
  intros Hnd Hi. destruct (find _ ifs) as [j|] eqn:Hf.
  - apply find_elem in Hf as [Hj Hn]. apply String.eqb_eq in Hn. f_equal. apply (NoDup_map_inj wi_name ifs); done.
  - pose proof (find_none _ _ Hf i) as Hn. rewrite <- list_elem_of_In in Hn. specialize (Hn Hi). by rewrite String.eqb_refl in Hn.
Qed.

Lemma does_slots (f : dict string json → string) s a :
  NoDup (map wi_name (interfaces s)) → active_ok (ag_config a) s →
  does_all (apply_active_slot_routes exec (JObj (to_dict f s))) a
    (flat_map (slot_cmds (ag_config a) (interfaces s)) (active_target_by_slot s)).
Proof.
  intros Hnd Hact. unfold apply_active_slot_routes. apply does_config.
  destruct (interfaces_of_json f s Hnd) as (d & Hd & Hin). eapply does_lift; [exact Hd|].
  eapply does_lift; [reflexivity|]. cbn beta iota.
  apply does_forM. intros [slot o] Hj. cbn [fst snd]. destruct (Hact _ _ Hj) as [[t Ht] (i & Hi & Hn)]. rewrite Ht.
  assert (Hget : dget (dmap JStr o) "interface" = Some (JStr (wi_name i))) by (by rewrite dget_dmap, Hn).
  eapply does_lift; [unfold getitem; by rewrite Hget|]. cbn [py_str]. rewrite (Hin i Hi).
  eapply does_lift; [reflexivity|]. eapply does_lift; [reflexivity|]. unfold slot_cmds. cbn [fst snd].
  rewrite Ht, Hn, find_name by done. apply does_forM. intros r _. apply does_run.
Qed.

(** ** The whole state *)

Definition state_cmds (key : string) (c : TopologyConfig) (s : DesiredState) : list command :=
  flat_map (interface_cmds key) (interfaces s) ++
  (if dmem (sites c) (ds_site s) then flat_map (slot_cmds c (interfaces s)) (active_target_by_slot s) else []).

Lemma does_apply (f : dict string json → string) s a :
  (system_runner a && negb (private_key_exists a)) = false → ag_site a = ds_site s →
  NoDup (map wi_name (interfaces s)) → (dmem (sites (ag_config a)) (ds_site s) = true → active_ok (ag_config a) s) →
  does_all (apply_desired exec (JObj (to_dict f s))) a (state_cmds (private_key a) (ag_config a) s).
Proof.
  intros Hkey Hsite Hnd Hact. unfold apply_desired, state_cmds. apply does_get; [done|]. apply does_config.
  eapply does_lift; [reflexivity|]. eapply does_lift; [reflexivity|]. apply does_bind;
    [apply does_forM; intros i _; by apply does_interface|].
  rewrite Hsite. destruct (dmem _ _); [|intros ds; apply does_ret]. by apply does_slots, Hact.
Qed.
End apply.

(** ** A computed state on the edge it was computed for *)

Lemma Forall2_elem_l {A B} (R : A → B → Prop) l k x : Forall2 R l k → x ∈ l → ∃ y, y ∈ k ∧ R x y.
Proof. intros H%Forall2_flip. by apply (Forall2_elem_r _ _ _ _ H). Qed.

Lemma spec_active c s keys routes st :
  Forall2 (interface_spec c s keys routes) hub_transport_pairs (interfaces st) → preferred_hub s ∈ HUBS →
  dkeys (transports c) = TRANSPORTS → dkeys (active_target_by_slot st) = TRANSPORTS →
  (∀ tr, tr ∈ TRANSPORTS → ∃ t, dget (targets c) (preferred_hub s, tr) = Some t ∧
      dget (active_target_by_slot st) tr = Some [("hub", preferred_hub s); ("interface", interface_name t)]) →
  active_ok c st.
Proof.
  intros Hspec Hhub Htr Hkeys Hact slot tgt Hin.
  assert (Hslot : slot ∈ TRANSPORTS) by (rewrite <- Hkeys; apply elem_of_map; by exists (slot, tgt)).
  split. { rewrite <- Htr in Hslot. apply dmem_true in Hslot. unfold dmem in Hslot. by destruct (dget _ _). }
  destruct (Hact slot Hslot) as (t & Ht & Ha).
  assert (dget (active_target_by_slot st) slot = Some tgt) as E.
  { apply dget_wf_In; [|done]. unfold dict_wf. rewrite Hkeys. apply uniqueb_true. reflexivity. }
  rewrite Ha in E. injection E as <-.
  assert ((preferred_hub s, slot) ∈ hub_transport_pairs) as Hp by by apply pair_parts.
  apply (Forall2_elem_l _ _ _ _ Hspec) in Hp as (i & Hi & [(t' & Ht' & Hn & _) _ _ _]). exists i. split; [done|].
  rewrite Ht in Ht'. injection Ht' as <-. by rewrite Hn.
Qed.

(** C36: an edge applies what the controller computes.  For a spoke of an
    accepted topology, the controller's desired state, sent as JSON to the
    agent of that site, is accepted: when every command succeeds and the
    document's versions are newer, the agent reports VERIFIED, runs exactly the
    commands of the state (each interface created, addressed, keyed, peered
    and routed in order, then the active interface's routes in each
    transport's table) and records the document's versions and digest in
    memory and on disk.  Sent again, the same document is MATCHED. *)
Theorem spoke_state_applies `{PyRepr} exec canonical_digest raw source c site s keys gen version route epoch a :
  all_succeed exec → config_from_mapping raw source = Ok c → dget (sites c) site = Some s → site ∉ HUBS →
  overlay_room c 1 → overlay_room c (address_id s) → (∀ h, h ∈ HUBS → h ∈ dkeys keys) →
  ag_site a = site → ag_config a = c → (system_runner a = true → private_key_exists a = true) →
  desired_state_version (local_state a) < version → ls_route_version (local_state a) ≤ route →
  ∃ st, build_spoke_desired_state c site keys gen version route epoch None = Ok st ∧
    let doc := JObj (to_dict canonical_digest st) in
    let cs := state_cmds (private_key a) c st in
    let a1 := set_local_state (set_commands a (commands a ++ cs))
                {| desired_state_version := version; ls_route_version := route;
                   digest := canonical_digest (asdict st) |} in
    reconcile exec doc a = (Ok (outcome "VERIFIED" version route "exact desired state applied"), a1) ∧
    reconcile exec doc a1 =
      (Ok (outcome "MATCHED" version route "idempotent desired state re-applied to live kernel state"),
       set_commands a1 (commands a1 ++ cs)).
Proof.
  intros Hexec Hacc Hs Hnh Hr1 Hrs Hkeys Hsite Hcfg Hkey Hv Hr.
  destruct (build_spoke_ok raw source c Hacc site s Hs Hnh Hr1 Hrs keys gen version route epoch Hkeys)
    as (st & Hst & _ & Hschema & Hds & Hver & Hroute & Hnames & _ & _ & Hspec & Hka & Hact).
  exists st. split; [done|]. intros doc cs a1.
  assert (Hhead : read_header site doc = Ok (version, route, canonical_digest (asdict st))).
  { rewrite <- Hver, <- Hroute, <- Hds. subst doc. unfold read_header. simpl. unfold is_text.
    rewrite String.eqb_refl. cbn [negb]. by rewrite Hschema. }
  assert (Hdoes : ∀ b, ag_site b = site → ag_config b = c → private_key b = private_key a →
    system_runner b = system_runner a → private_key_exists b = private_key_exists a → does_all (apply_desired exec doc) b cs).
  { intros b Hb1 Hb2 Hb3 Hb4 Hb5. subst doc cs. rewrite <- Hb2, <- Hb3. apply does_apply; [done| |congruence| |].
    - rewrite Hb4, Hb5. destruct (system_runner a); [by rewrite Hkey|done].
    - rewrite Hnames. apply uniqueb_true. reflexivity.
    - intros _. rewrite Hb2. eapply spec_active; try done.
      + by eapply preferred_hub_ok.
      + by eapply acc_shape. }
  rewrite <- Hsite in Hhead. split.
  - rewrite (reconcile_cases _ _ _ _ _ _ Hhead).
    destruct (Z.ltb_spec version (desired_state_version (local_state a))); [lia|].
    destruct (Z.ltb_spec route (ls_route_version (local_state a))); [lia|].
    rewrite (does_all_here _ _ _ (Hdoes a Hsite Hcfg eq_refl eq_refl eq_refl)). unfold recorded.
    by destruct (Z.eqb_spec version (desired_state_version (local_state a))); [lia|].
  - rewrite (reconcile_cases _ _ a1 version route (canonical_digest (asdict st)) Hhead).
    rewrite (does_all_here _ _ _ (Hdoes a1 Hsite Hcfg eq_refl eq_refl eq_refl)).
    subst a1. unfold recorded. cbn [set_local_state local_state desired_state_version ls_route_version digest].
    by rewrite !Z.ltb_irrefl, Z.eqb_refl, String.eqb_refl.
Qed.

Module Examples.
Definition no_failure : list command → command → option string := λ _ _, None.
(** A stand-in for the SHA-256 digest. *)
Definition sample_digest (d : dict string json) : string := "sha256:" +:+ str_Z (Z.of_nat (length d)).

Definition agent : Agent := {|
  ag_site := "site1"; ag_config := core_config; ag_edge_node := "node1"; system_runner := true;
  private_key := "/etc/sdwan/wireguard.key"; private_key_exists := true; local_state := initial_state;
  saved_state := None; event_queue := []; steering := None; commands := [] |}.
End Examples.
Import Examples.

Lemma spoke_state_applies_witness : ∃ st,
  build_spoke_desired_state core_config "site1" hub_keys "2026-01-01T00:00:00Z" 3 2 1 None = Ok st ∧
  (reconcile no_failure (JObj (to_dict sample_digest st)) agent).1 =
    Ok (outcome "VERIFIED" 3 2 "exact desired state applied").
Proof.
  destruct (spoke_state_applies no_failure sample_digest core_raw "topology.core.yaml" core_config "site1" site1 hub_keys
    "2026-01-01T00:00:00Z" 3 2 1 agent (λ _ _, eq_refl) core_accepted site1_eq site1_not_hub room_1 room_site1 keyed
    eq_refl eq_refl (λ _, eq_refl) eq_refl ltac:(discriminate)) as (st & E & H1 & _).
  exists st. split; [exact E|by rewrite H1].
Defined.
