(* ===== verification/Underlay.v ===== *)
(** * The provider underlay: attachments and forwarding policy ([underlay_l3.py])

    The attachment bindings and the forwarding table the controller realises,
    compiled from the topology and the set of authorised nodes. *)
From S2P Require Import Prelude Net Marks PathSelection Model.
Local Open Scope string_scope.
Local Open Scope list_scope.
Local Open Scope Z_scope.

Inductive UnderlayMode := DISABLED | AUDIT | ENFORCE.

#[export] Instance UnderlayMode_eq_dec : EqDecision UnderlayMode.
Proof. solve_decision. Defined.

Definition mode_value (m : UnderlayMode) : string :=
  match m with DISABLED => "DISABLED" | AUDIT => "AUDIT" | ENFORCE => "ENFORCE" end.

Inductive ServiceType := PRIVATE | INTERNET.

Record UnderlayServiceProfile := { sp_transport : string; service_type : ServiceType; internet_access : bool }.

Record UnderlayAttachment := {
  at_site : string; at_transport : string; at_switch : string; port_name : string; at_address : addr;
  expected_mac : string; role : string; authorized : bool
}.

Record FibRoute := {
  fr_transport : string; source_site : string; destination : network; egress_site : string; fr_reason : string
}.

Definition service_profiles (c : TopologyConfig) : dict string UnderlayServiceProfile :=
  map (λ p : string * Transport, (p.1,
    {| sp_transport := p.1; service_type := if internet_capable p.2 then INTERNET else PRIVATE;
       internet_access := internet_capable p.2 |})) (transports c).

Definition short_attachment_name (c : TopologyConfig) (site : string) : result string :=
  if String.eqb site "hub1" then Ok "h1"
  else if String.eqb site "hub2" then Ok "h2"
  else if String.eqb site (saas_gateway_name c) then Ok "inet"
  else
    name ← logical_site c site;
    match dget (sites c) name with
    | None => raise ValueError ("unknown underlay attachment site: " +:+ site)
    | Some profile => Ok (interface_suffix profile)
    end.

Record UnderlayRegistry := { reg_config : TopologyConfig; authorized_sites : list string }.

Definition UnderlayRegistry_init (c : TopologyConfig) (authorized : option (list string)) : UnderlayRegistry :=
  {| reg_config := c; authorized_sites := default (runtime_node_names c) authorized |}.

(** [IPv4Network(f"{address}/32")] *)
Definition host_route (a : addr) : network := {| net_addr := a; prefixlen := 32 |}.

Definition allowed_endpoint (p : UnderlayServiceProfile) (source target : UnderlayAttachment) : bool :=
  match service_type p with
  | INTERNET =>
      if String.eqb (role source) "spoke" then inb (role target) ["hub"; "internet_gateway"]
      else if String.eqb (role source) "hub" then inb (role target) ["spoke"; "hub"; "internet_gateway"]
      else inb (role target) ["spoke"; "hub"]
  | PRIVATE =>
      if String.eqb (role source) "spoke" then String.eqb (role target) "hub"
      else if String.eqb (role source) "hub" then inb (role target) ["spoke"; "hub"]
      else false
  end.

Section registry.
Context (r : UnderlayRegistry).
Let c := reg_config r.

Definition node_attachment (transport : string) (item : Transport) (site : string) : result UnderlayAttachment :=
  short ← short_attachment_name c site;
  a ← underlay_ip c site transport;
  mac ← underlay_mac c site transport;
  Ok {| at_site := site; at_transport := transport; at_switch := tr_switch item;
        port_name := tr_switch item +:+ "-" +:+ short; at_address := a; expected_mac := mac;
        role := if dmem (hubs c) site then "hub" else "spoke"; authorized := inb site (authorized_sites r) |}.

Definition gateway_attachment (transport : string) (item : Transport) : result UnderlayAttachment :=
  let gateway := saas_gateway_name c in
  a ← of_option (dget (saas_transport_ips c) transport) KeyError transport;
  mac ← underlay_mac c gateway transport;
  Ok {| at_site := gateway; at_transport := transport; at_switch := tr_switch item;
        port_name := tr_switch item +:+ "-inet"; at_address := a; expected_mac := mac;
        role := "internet_gateway"; authorized := true |}.

Definition attachments (transport : string) : result (list UnderlayAttachment) :=
  item ← get_transport c transport;
  nodes ← mapM_result (node_attachment transport item) (runtime_node_names c);
  if internet_capable item then g ← gateway_attachment transport item; Ok (nodes ++ [g])
  else Ok nodes.

(** [self.config.sites[self.config.logical_site(site)].lan_network] *)
Definition branch_lan (site : string) : result network :=
  name ← logical_site c site; s ← get_site c name; Ok (lan_network s).

Definition source_networks (a : UnderlayAttachment) : result (list network) :=
  lan ← (if String.eqb (role a) "spoke" then n ← branch_lan (at_site a); Ok [n] else Ok []);
  Ok (host_route (at_address a) :: lan
      ++ (if String.eqb (role a) "internet_gateway" then [saas_network c] else [])).

Definition attachment (transport site : string) : result UnderlayAttachment :=
  items ← attachments transport;
  of_option (find (λ i, String.eqb (at_site i) site) items) KeyError site.

Definition attachment_by_port (transport name : string) : result (option UnderlayAttachment) :=
  items ← attachments transport;
  Ok (find (λ i, String.eqb (port_name i) name) items).

(** The routes the inner loop adds for one pair. *)
Definition pair_routes (p : UnderlayServiceProfile) (transport : string) (source target : UnderlayAttachment)
    : result (list FibRoute) :=
  if String.eqb (at_site source) (at_site target) then Ok []
  else if allowed_endpoint p source target then
    back ← (if internet_access p && String.eqb (role source) "internet_gateway" && String.eqb (role target) "spoke"
            then lan ← branch_lan (at_site target);
                 Ok [{| fr_transport := transport; source_site := at_site source; destination := lan;
                        egress_site := at_site target; fr_reason := "DIRECT_INTERNET_RETURN" |}]
            else Ok []);
    Ok ({| fr_transport := transport; source_site := at_site source; destination := host_route (at_address target);
           egress_site := at_site target;
           fr_reason := match service_type p with
                        | PRIVATE => "PRIVATE_HUB_REACHABILITY"
                        | INTERNET => "INTERNET_PROVIDER_REACHABILITY"
                        end |} :: back)
  else Ok [].

Definition source_routes (p : UnderlayServiceProfile) (transport : string) (live : list UnderlayAttachment)
    (source : UnderlayAttachment) : result (list FibRoute) :=
  rs ← mapM_result (pair_routes p transport source) live;
  Ok (concat rs ++
      (if internet_access p && negb (String.eqb (role source) "internet_gateway")
       then [{| fr_transport := transport; source_site := at_site source; destination := saas_network c;
                egress_site := saas_gateway_name c; fr_reason := "DIRECT_INTERNET_BREAKOUT" |}]
       else [])).

Definition fib (transport : string) : result (list FibRoute) :=
  p ← of_option (dget (service_profiles c) transport) KeyError transport;
  items ← attachments transport;
  let live := List.filter authorized items in
  rs ← mapM_result (source_routes p transport live) live;
  Ok (concat rs).
End registry.

Definition matching_fib_routes (routes : list FibRoute) (site : string) (dst : addr) : list FibRoute :=
  List.filter (λ i, String.eqb (source_site i) site && in_network dst (destination i)) routes.
