(* ===== verification/Inventory.v ===== *)
(** * Inventory records and inventory-backed topologies
      ([InventorySite], [InventorySnapshot])

    The site inventory is owned by the policy service; other services read it
    and rebuild the topology from it. *)
From S2P Require Import Prelude Net Marks PathSelection Model ModelValidate.
Local Open Scope string_scope.
Local Open Scope list_scope.
Local Open Scope Z_scope.

Record InventorySite := {
  iv_site : string; iv_edge_node : string; iv_device_id : string; lifecycle : string; iv_address_id : Z;
  iv_wireguard_index : Z; iv_management_ip : string; iv_lan_prefix : string; iv_lan_gateway : string;
  iv_lan_switch : string; iv_lan_dpid : Z; iv_host_name : string; iv_host_ip : string;
  iv_interface_suffix : string; iv_preferred_hub : string; iv_standby_hub : string; runtime_status : string;
  last_error : option string; failure_stage : option string; recoverable : Z; created_at : string;
  updated_at : string; deleted_at : option string
}.

#[export] Instance InventorySite_eq_dec : EqDecision InventorySite.
Proof. solve_decision. Defined.

Definition to_site (i : InventorySite) : result Site :=
  mip ← ip_address (iv_management_ip i);
  lan ← ip_network (iv_lan_prefix i);
  gw ← ip_address (iv_lan_gateway i);
  host ← ip_address (iv_host_ip i);
  Ok {| site_name := iv_site i; s_edge_node := iv_edge_node i; address_id := iv_address_id i;
        management_ip := mip; lan_network := lan; lan_gateway := gw; lan_switch := iv_lan_switch i;
        lan_dpid := iv_lan_dpid i; host_name := iv_host_name i; host_ip := host;
        preferred_hub := iv_preferred_hub i; standby_hub := iv_standby_hub i; s_device_id := iv_device_id i;
        wireguard_index := iv_wireguard_index i; interface_suffix := iv_interface_suffix i |}.

(** ** The controller's read-only projection *)

Definition AUTHORIZED_LIFECYCLES : list string :=
  ["ZTP_STAGED"; "ENROLLING"; "ENROLLED"; "REGISTERING"; "PROVISIONING"; "PENDING_HUBS"; "RECONCILING"; "ACTIVE"].

(** What the database answers: nothing when the file is missing or unreadable,
    otherwise its rows, [None] for a row [InventorySite] does not accept. *)
Definition inventory_rows : Type := option (list (option InventorySite)).

Definition load_row (acc : dict string Site * list string) (row : option InventorySite)
    : result (dict string Site * list string) :=
  match row with
  | None => Ok acc
  | Some i =>
      if inb (lifecycle i) AUTHORIZED_LIFECYCLES
      then s ← to_site i; Ok (dset acc.1 (iv_site i) s, acc.2 ++ [iv_edge_node i])
      else Ok acc
  end.

(** [InventorySnapshot.load] *)
Definition load (base : TopologyConfig) (rows : inventory_rows) : result (TopologyConfig * list string) :=
  match rows with
  | None => Ok (base, runtime_node_names base)
  | Some rows =>
      r ← foldM load_row ([], dkeys (hubs base)) rows;
      let '(ss, auth) := r in
      let '(ss, auth) := match ss with
                         | [] => (sites base, auth ++ map s_edge_node (site_list base))
                         | _ => (ss, auth)
                         end in
      c ← with_sites base ss;
      Ok (c, auth)
  end.
