(* ===== verification/Controller.v ===== *)
(** * The underlay controller ([controller_v5.py])

    The OpenFlow handlers of the Ryu application over its own state, with the
    messages it sends to the switches.  One handler reads the inventory, the
    clocks and the disk through an [Env]; the inventory does not change during
    a handler.  Ryu's packet parser is replaced by the parsed frame. *)
From Stdlib Require Import Ascii.
From S2P Require Import Prelude Net Marks PathSelection Model ModelValidate Json Underlay Inventory.
Local Open Scope string_scope.
Local Open Scope list_scope.
Local Open Scope Z_scope.

(** ** OpenFlow messages *)

Definition ETH_TYPE_IP : Z := 0x0800.
Definition ETH_TYPE_ARP : Z := 0x0806.
Definition ETH_TYPE_LLDP : Z := 0x88cc.
Definition OFPP_MAX : Z := 0xffffff00.
Definition ARP_REQUEST : Z := 1.

(** A match: absent fields match anything; addresses carry their mask. *)
Record OFPMatch := {
  m_in_port : option Z; m_eth_type : option Z; m_eth_src : option string; m_eth_dst : option string;
  m_ipv4_src : option (addr * Z); m_ipv4_dst : option (addr * Z)
}.

#[export] Instance OFPMatch_eq_dec : EqDecision OFPMatch.
Proof. solve_decision. Defined.

Definition match_any : OFPMatch := {|
  m_in_port := None; m_eth_type := None; m_eth_src := None; m_eth_dst := None; m_ipv4_src := None; m_ipv4_dst := None |}.
Definition match_port (p t : Z) : OFPMatch := {|
  m_in_port := Some p; m_eth_type := Some t; m_eth_src := None; m_eth_dst := None; m_ipv4_src := None; m_ipv4_dst := None |}.

Inductive action :=
  | Output (port : Z) | OutputController | OutputFlood
  | DecNwTtl | SetEthSrc (mac : string) | SetEthDst (mac : string).

Record FlowMod := {
  fm_table : Z; fm_priority : Z; fm_match : OFPMatch; fm_actions : list action; fm_goto : option Z;
  fm_idle_timeout : Z
}.

Record ArpPacket := { opcode : Z; src_mac : string; src_ip : string; dst_mac : string; dst_ip : string }.

Inductive message :=
  | AddFlow (f : FlowMod)
  | DeleteOwned                                   (* every flow with the controller's cookie, in all tables *)
  | PortDescStatsRequest
  | PacketOut (in_port : Z) (acts : list action)  (* the received data, unchanged *)
  | ArpReply (port : Z) (eth_src : string) (reply : ArpPacket).

Definition add_flow_msg (table priority : Z) (m : OFPMatch) (acts : list action) (goto : option Z) : message :=
  AddFlow {| fm_table := table; fm_priority := priority; fm_match := m; fm_actions := acts; fm_goto := goto;
             fm_idle_timeout := 0 |}.

(** ** State *)

(** The structure whose JSON text is the fingerprint. *)
Record Fingerprint := {
  fp_mode : string; fp_transport : string; fp_ports : list (string * Z);
  fp_attachments : list (list string); fp_routes : list (list string)
}.

#[export] Instance Fingerprint_eq_dec : EqDecision Fingerprint.
Proof. solve_decision. Defined.

Record UnderlayController := {
  uc_base : TopologyConfig; uc_mode : UnderlayMode; datapaths : dict Z unit;
  port_names : dict Z (dict string Z); lan_mac_to_port : dict Z (dict string Z);
  underlay_events : list (dict string json); drop_counters : dict string Z; last_drop : dict (Z * string) Q;
  programmed : dict Z Fingerprint; state_file : option json; sent : list (Z * message)
}.

Record Env := { rows : inventory_rows; wall : Q; monotonic : Q; disk_ok : bool }.

Section setters.
Context (u : UnderlayController).
Definition set_datapaths v := {| uc_base := uc_base u; uc_mode := uc_mode u; datapaths := v; port_names := port_names u;
  lan_mac_to_port := lan_mac_to_port u; underlay_events := underlay_events u; drop_counters := drop_counters u;
  last_drop := last_drop u; programmed := programmed u; state_file := state_file u; sent := sent u |}.
Definition set_port_names v := {| uc_base := uc_base u; uc_mode := uc_mode u; datapaths := datapaths u; port_names := v;
  lan_mac_to_port := lan_mac_to_port u; underlay_events := underlay_events u; drop_counters := drop_counters u;
  last_drop := last_drop u; programmed := programmed u; state_file := state_file u; sent := sent u |}.
Definition set_lan v := {| uc_base := uc_base u; uc_mode := uc_mode u; datapaths := datapaths u;
  port_names := port_names u; lan_mac_to_port := v; underlay_events := underlay_events u;
  drop_counters := drop_counters u; last_drop := last_drop u; programmed := programmed u;
  state_file := state_file u; sent := sent u |}.
Definition set_events v := {| uc_base := uc_base u; uc_mode := uc_mode u; datapaths := datapaths u;
  port_names := port_names u; lan_mac_to_port := lan_mac_to_port u; underlay_events := v;
  drop_counters := drop_counters u; last_drop := last_drop u; programmed := programmed u;
  state_file := state_file u; sent := sent u |}.
Definition set_drops d l := {| uc_base := uc_base u; uc_mode := uc_mode u; datapaths := datapaths u;
  port_names := port_names u; lan_mac_to_port := lan_mac_to_port u; underlay_events := underlay_events u;
  drop_counters := d; last_drop := l; programmed := programmed u; state_file := state_file u; sent := sent u |}.
Definition set_programmed v := {| uc_base := uc_base u; uc_mode := uc_mode u; datapaths := datapaths u;
  port_names := port_names u; lan_mac_to_port := lan_mac_to_port u; underlay_events := underlay_events u;
  drop_counters := drop_counters u; last_drop := last_drop u; programmed := v; state_file := state_file u;
  sent := sent u |}.
Definition set_state_file v := {| uc_base := uc_base u; uc_mode := uc_mode u; datapaths := datapaths u;
  port_names := port_names u; lan_mac_to_port := lan_mac_to_port u; underlay_events := underlay_events u;
  drop_counters := drop_counters u; last_drop := last_drop u; programmed := programmed u; state_file := v;
  sent := sent u |}.
Definition set_sent v := {| uc_base := uc_base u; uc_mode := uc_mode u; datapaths := datapaths u;
  port_names := port_names u; lan_mac_to_port := lan_mac_to_port u; underlay_events := underlay_events u;
  drop_counters := drop_counters u; last_drop := last_drop u; programmed := programmed u;
  state_file := state_file u; sent := v |}.
End setters.

Definition modify (f : UnderlayController → UnderlayController) : M UnderlayController unit := u ← get; put (f u).
Definition send (dp : Z) (m : message) : M UnderlayController unit := modify (λ u, set_sent u (sent u ++ [(dp, m)])).

(** ** Lookups and the fingerprint *)

Definition transport_of (dp : Z) (c : TopologyConfig) : option string :=
  fst <$> find (λ p, dpid p.2 =? dp) (transports c).
Definition lan_site (dp : Z) (c : TopologyConfig) : option string :=
  fst <$> find (λ p, lan_dpid p.2 =? dp) (sites c).

(** Python's order on tuples of texts. *)
Fixpoint texts_le (a b : list string) : bool :=
  match a, b with
  | [], _ => true
  | _ :: _, [] => false
  | x :: a', y :: b' => if String.eqb x y then texts_le a' b' else String.leb x y
  end.

Definition attachment_key (r : UnderlayRegistry) (a : UnderlayAttachment) : result (list string) :=
  nets ← source_networks r a;
  Ok ([at_site a; Underlay.port_name a; addr_str (at_address a); expected_mac a;
       (if authorized a then "1" else "0"); role a] ++ map network_str nets).

Definition route_key (f : FibRoute) : list string :=
  [source_site f; egress_site f; network_str (destination f); fr_transport f].

(** The attachments whose port the switch has. *)
Definition attached (ports : dict string Z) (items : list UnderlayAttachment) : list UnderlayAttachment :=
  List.filter (λ i, dmem ports (Underlay.port_name i)) items.

Definition programming_fingerprint (m : UnderlayMode) (transport : string) (r : UnderlayRegistry) (ports : dict string Z)
    : result Fingerprint :=
  items ← attachments r transport;
  keys ← mapM_result (attachment_key r) (attached ports items);
  routes ← fib r transport;
  Ok {| fp_mode := mode_value m; fp_transport := transport;
        fp_ports := sort_by (λ a b : string * Z, String.leb a.1 b.1) ports;
        fp_attachments := sort_by texts_le keys; fp_routes := sort_by texts_le (map route_key routes) |}.

(** ** Handlers *)

Section handlers.
Context (e : Env).

Definition topology : M UnderlayController (TopologyConfig * UnderlayRegistry) :=
  u ← get;
  p ← lift (load (uc_base u) (rows e));
  mret (p.1, UnderlayRegistry_init p.1 (Some p.2)).

Definition record_event (event_type : string) (fields : dict string json) : M UnderlayController unit :=
  modify (λ u, set_events u (lastn 200 (underlay_events u ++
    [("timestamp", JFloat (wall e)) :: ("event", JStr event_type) :: fields]))).

Definition drop_counter (reason : string) : string :=
  if String.eqb reason "UNAUTHORIZED_ATTACHMENT" then "unauthorized_attachment_drops"
  else if String.eqb reason "SOURCE_BINDING_MISMATCH" then "source_validation_drops"
  else if String.eqb reason "REACHABILITY_DENIED" then "reachability_policy_drops"
  else "unknown_endpoint_drops".

Definition record_drop (dp in_port : Z) (reason : string) : M UnderlayController unit :=
  u ← get;
  let now := monotonic e in
  if Qltb (now - default 0%Q (dget (last_drop u) (dp, reason)))%Q 1 then mret tt
  else
    let counter := drop_counter reason in
    n ← lift (of_option (dget (drop_counters u) counter) KeyError counter);
    _ ← put (set_drops u (dset (drop_counters u) counter (n + 1)) (dset (last_drop u) (dp, reason) now));
    record_event "UNDERLAY_DROP" [("datapath", JInt dp); ("port", JInt in_port); ("reason", JStr reason)].

Definition attachment_json (a : UnderlayAttachment) : json := JObj
  [("site", JStr (at_site a)); ("port", JStr (Underlay.port_name a)); ("address", JStr (addr_str (at_address a)));
   ("expected_mac", JStr (expected_mac a)); ("authorized", JBool (authorized a)); ("role", JStr (role a))].

Definition state_json (u : UnderlayController) (c : TopologyConfig) (r : UnderlayRegistry) : result json :=
  ats ← mapM_result (λ t, items ← attachments r t; Ok (t, JList (map attachment_json items))) (dkeys (transports c));
  fwd ← mapM_result (λ t, routes ← fib r t; Ok (t, JInt (Z.of_nat (length routes)))) (dkeys (transports c));
  Ok (JObj [("mode", JStr (mode_value (uc_mode u)));
            ("datapaths", JObj (dmap (λ t, JObj [("dpid", JInt (dpid t)); ("connected", JBool (dmem (datapaths u) (dpid t)))])
                                  (transports c)));
            ("attachments", JObj ats); ("forwarding", JObj fwd);
            ("security_counters", JObj (dmap JInt (drop_counters u))); ("events", JList (map JObj (underlay_events u)))]).

Definition write_state : M UnderlayController unit :=
  t ← topology; u ← get;
  s ← lift (state_json u t.1 t.2);
  if disk_ok e then put (set_state_file u (Some s)) else mret tt.

Definition add_flow (dp table priority : Z) (m : OFPMatch) (acts : list action) (goto : option Z) : M UnderlayController unit :=
  send dp (add_flow_msg table priority m acts goto).

Definition install_default_drop (dp : Z) : M UnderlayController unit :=
  forM (λ table, add_flow dp table 0 match_any [OutputController] None) [0; 10; 20; 30].

Definition validation_match (m : UnderlayMode) (in_port : Z) (a : UnderlayAttachment) (n : network) : OFPMatch := {|
  m_in_port := Some in_port; m_eth_type := Some ETH_TYPE_IP;
  m_eth_src := if bool_decide (m = ENFORCE) then Some (expected_mac a) else None; m_eth_dst := None;
  m_ipv4_src := Some (network_address n, netmask n); m_ipv4_dst := None |}.

Definition destination_match (in_port : Z) (n : network) : OFPMatch := {|
  m_in_port := Some in_port; m_eth_type := Some ETH_TYPE_IP; m_eth_src := None; m_eth_dst := None;
  m_ipv4_src := None; m_ipv4_dst := Some (network_address n, netmask n) |}.

(** One pass of [for attachment in attachments]. *)
Definition admit_attachment (dp : Z) (m : UnderlayMode) (r : UnderlayRegistry) (ports : dict string Z) (a : UnderlayAttachment)
    : M UnderlayController unit :=
  in_port ← lift (of_option (dget ports (Underlay.port_name a)) KeyError (Underlay.port_name a));
  if negb (authorized a) then mret tt
  else
    _ ← add_flow dp 0 400 (match_port in_port ETH_TYPE_ARP) [OutputController] None;
    _ ← add_flow dp 0 400 (match_port in_port ETH_TYPE_IP) [] (Some 10);
    nets ← lift (source_networks r a);
    forM (λ n, add_flow dp 10 400 (validation_match m in_port a n) [] (Some 20)) nets.

(** One pass of [for route in registry.fib(transport)], with the route count. *)
Definition install_route (dp : Z) (c : TopologyConfig) (transport : string) (ports : dict string Z)
    (by_site : dict string UnderlayAttachment) (count : Z) (f : FibRoute) : M UnderlayController Z :=
  match dget by_site (source_site f), dget by_site (egress_site f) with
  | Some source, Some target =>
      in_port ← lift (of_option (dget ports (Underlay.port_name source)) KeyError (Underlay.port_name source));
      out_port ← lift (of_option (dget ports (Underlay.port_name target)) KeyError (Underlay.port_name target));
      let m := destination_match in_port (destination f) in
      _ ← add_flow dp 20 300 m [] (Some 30);
      mac ← lift (underlay_gateway_mac c transport);
      _ ← add_flow dp 30 300 m [DecNwTtl; SetEthSrc mac; SetEthDst (expected_mac target); Output out_port] None;
      mret (count + 1)
  | _, _ => mret count
  end.

Definition forget_program (dp : Z) : M UnderlayController unit := modify (λ u, set_programmed u (ddel (programmed u) dp)).

(** Replace the flows of one switch; the numbers of attachments and routes. *)
Definition install_program (dp : Z) (c : TopologyConfig) (r : UnderlayRegistry) (transport : string) (m : UnderlayMode)
    (ports : dict string Z) : M UnderlayController (Z * Z) :=
  items ← lift (attachments r transport);
  let items := attached ports items in
  let by_site := dict_of (map (λ i, (at_site i, i)) items) in
  _ ← send dp DeleteOwned;
  _ ← install_default_drop dp;
  _ ← forM (admit_attachment dp m r ports) items;
  routes ← lift (fib r transport);
  count ← foldMS (install_route dp c transport ports by_site) 0 routes;
  mret (Z.of_nat (length items), count).

Definition reconcile_transport (dp : Z) (c : TopologyConfig) (r : UnderlayRegistry) (transport : string)
    : M UnderlayController unit :=
  u ← get;
  let m := uc_mode u in
  if bool_decide (m = DISABLED) then
    _ ← (if dmem (programmed u) dp then
           _ ← forget_program dp; _ ← send dp DeleteOwned;
           record_event "RECONCILE" [("transport", JStr transport); ("mode", JStr "DISABLED"); ("added", JInt 0); ("removed", JInt 0)]
         else mret tt);
    write_state
  else
    let ports := default [] (dget (port_names u) dp) in
    fingerprint ← lift (programming_fingerprint m transport r ports);
    if bool_decide (dget (programmed u) dp = Some fingerprint) then write_state
    else
      counts ← install_program dp c r transport m ports;
      _ ← modify (λ u, set_programmed u (dset (programmed u) dp fingerprint));
      _ ← record_event "RECONCILE" [("transport", JStr transport); ("mode", JStr (mode_value m));
            ("attachments", JInt counts.1); ("routes", JInt counts.2)];
      write_state.

Definition reconcile_datapath (dp : Z) : M UnderlayController unit :=
  t ← topology;
  match transport_of dp t.1 with
  | None => mret tt
  | Some transport => reconcile_transport dp t.1 t.2 transport
  end.

(** One round of the reconcile loop: the first error ends the round and is only
    logged. *)
Definition reconcile_round : M UnderlayController unit := λ u,
  match forM reconcile_datapath (dkeys (datapaths u)) u with
  | (Ok _, u') => (Ok tt, u')
  | (Err _, u') => (Ok tt, u')
  end.

Definition install_lan_table_miss (dp : Z) : M UnderlayController unit :=
  add_flow dp 0 0 match_any [OutputController] None.

Definition switch_features (dp : Z) : M UnderlayController unit :=
  _ ← modify (λ u, set_datapaths u (dset (datapaths u) dp tt));
  _ ← forget_program dp;
  t ← topology;
  match lan_site dp t.1 with
  | Some site =>
      _ ← install_lan_table_miss dp;
      record_event "LAN_DATAPATH_STATE" [("datapath", JInt dp); ("site", JStr site); ("state", JStr "CONNECTED")]
  | None =>
      _ ← send dp PortDescStatsRequest;
      record_event "DATAPATH_STATE" [("datapath", JInt dp); ("state", JStr "CONNECTED")]
  end.

Definition port_desc_reply (dp : Z) (body : list (string * Z)) : M UnderlayController unit :=
  _ ← modify (λ u, set_datapaths u (dset (datapaths u) dp tt));
  _ ← forget_program dp;
  _ ← modify (λ u, set_port_names u (dset (port_names u) dp (dict_of (List.filter (λ p, p.2 <? OFPP_MAX) body))));
  reconcile_datapath dp.

Definition port_status (dp port_no reason : Z) : M UnderlayController unit :=
  _ ← forget_program dp;
  _ ← record_event "PORT_STATE" [("datapath", JInt dp); ("port", JInt port_no); ("reason", JInt reason)];
  send dp PortDescStatsRequest.

Definition datapath_dead (dp : Z) : M UnderlayController unit :=
  _ ← modify (λ u, set_datapaths u (ddel (datapaths u) dp));
  _ ← modify (λ u, set_port_names u (ddel (port_names u) dp));
  _ ← forget_program dp;
  _ ← record_event "DATAPATH_STATE" [("datapath", JInt dp); ("state", JStr "DISCONNECTED")];
  write_state.

(** ** Packet-in *)

Record Frame := { fr_src : string; fr_dst : string; fr_ethertype : Z }.

Definition learn_lan_packet (dp in_port : Z) (frame : option Frame) : M UnderlayController unit :=
  match frame with
  | None => mret tt
  | Some f =>
      if fr_ethertype f =? ETH_TYPE_LLDP then mret tt
      else
        u ← get;
        let table := dset (default [] (dget (lan_mac_to_port u) dp)) (fr_src f) in_port in
        _ ← put (set_lan u (dset (lan_mac_to_port u) dp table));
        match dget table (fr_dst f) with
        | Some out =>
            _ ← send dp (AddFlow {| fm_table := 0; fm_priority := 100;
                  fm_match := {| m_in_port := Some in_port; m_eth_type := None; m_eth_src := Some (fr_src f);
                                 m_eth_dst := Some (fr_dst f); m_ipv4_src := None; m_ipv4_dst := None |};
                  fm_actions := [Output out]; fm_goto := None; fm_idle_timeout := 120 |});
            send dp (PacketOut in_port [Output out])
        | None => send dp (PacketOut in_port [OutputFlood])
        end
  end.

(** The reply the provider gateway sends to an accepted ARP request. *)
Definition arp_reply (gateway_mac gateway_ip : string) (q : ArpPacket) : ArpPacket := {|
  opcode := 2; src_mac := gateway_mac; src_ip := gateway_ip; dst_mac := src_mac q; dst_ip := src_ip q |}.

Definition packet_in (dp in_port table_id : Z) (frame : option Frame) (request : option ArpPacket) : M UnderlayController unit :=
  t ← topology;
  let '(c, r) := t in
  match transport_of dp c with
  | None => if is_Some_dec (lan_site dp c) then learn_lan_packet dp in_port frame else mret tt
  | Some transport =>
      u ← get;
      let name := default "" (fst <$> find (λ p, p.2 =? in_port) (default [] (dget (port_names u) dp))) in
      found ← lift (attachment_by_port r transport name);
      match found with
      | None => record_drop dp in_port "UNAUTHORIZED_ATTACHMENT"
      | Some a =>
          if negb (authorized a) then record_drop dp in_port "UNAUTHORIZED_ATTACHMENT"
          else match frame, request with
          | None, _ => record_drop dp in_port "UNKNOWN_ENDPOINT"
          | Some _, None =>
              record_drop dp in_port
                (if table_id =? 10 then "SOURCE_BINDING_MISMATCH"
                 else if table_id =? 20 then "REACHABILITY_DENIED" else "UNKNOWN_ENDPOINT")
          | Some _, Some q =>
              known ← (if negb (opcode q =? ARP_REQUEST) then mret false
                       else gw ← lift (underlay_gateway_ip c transport); mret (String.eqb (dst_ip q) (addr_str gw)));
              if negb known then record_drop dp in_port "UNKNOWN_ENDPOINT"
              else if negb (String.eqb (src_ip q) (addr_str (at_address a)))
                      || negb (String.eqb (lower (src_mac q)) (lower (expected_mac a)))
              then record_drop dp in_port "SOURCE_BINDING_MISMATCH"
              else
                mac ← lift (underlay_gateway_mac c transport);
                gw ← lift (underlay_gateway_ip c transport);
                send dp (ArpReply in_port mac (arp_reply mac (addr_str gw) q))
          end
      end
  end.
End handlers.

Definition UnderlayController_init (e : Env) (base : TopologyConfig) (m : UnderlayMode) : UnderlayController :=
  (record_event e "CONTROLLER_MODE" [("mode", JStr (mode_value m))]
     {| uc_base := base; uc_mode := m; datapaths := []; port_names := []; lan_mac_to_port := []; underlay_events := [];
        drop_counters := [("unauthorized_attachment_drops", 0); ("source_validation_drops", 0);
                          ("reachability_policy_drops", 0); ("unknown_endpoint_drops", 0)];
        last_drop := []; programmed := []; state_file := None; sent := [] |}).2.
