(* ===== verification/ControllerFacts.v ===== *)
(** * The controller and its switches

    An OpenFlow switch as the protocol describes it (flow tables, priorities,
    goto, packet rewriting), the program one reconciliation installs, and the
    invariant that every reachable controller state is in step with the
    switches it programmed. *)
From Stdlib Require Import Ascii.
From S2P Require Import Prelude Net Marks PathSelection Model ModelValidate Json ModelParse CoreTopology TopologyFacts.
From S2P Require Import Underlay Inventory Controller.
Local Open Scope string_scope.
Local Open Scope list_scope.
Local Open Scope Z_scope.

(** ** The switch *)

(** An added flow replaces the one with its table, priority and match. *)
Definition same_entry (f g : FlowMod) : bool :=
  (fm_table f =? fm_table g) && (fm_priority f =? fm_priority g) && bool_decide (fm_match f = fm_match g).

Definition flow_add (tbl : list FlowMod) (f : FlowMod) : list FlowMod :=
  List.filter (λ g, negb (same_entry f g)) tbl ++ [f].

Definition switch_step (tbl : list FlowMod) (m : message) : list FlowMod :=
  match m with
  | AddFlow f => flow_add tbl f
  | DeleteOwned => []
  | _ => tbl
  end.

(** The flow tables of switch [dp] after the messages sent so far. *)
Definition switch_tables (dp : Z) (ms : list (Z * message)) : list FlowMod :=
  fold_left (λ tbl p, if p.1 =? dp then switch_step tbl p.2 else tbl) ms [].

Record Packet := {
  pk_in : Z; pk_type : Z; pk_src_mac : string; pk_dst_mac : string; pk_src : addr; pk_dst : addr; pk_ttl : Z
}.

Definition holds {A} (test : A → bool) (o : option A) : bool := match o with Some x => test x | None => true end.
Definition masked (a : addr) (m : addr * Z) : bool := Z.land a m.2 =? Z.land m.1 m.2.

(** Address fields are only looked at in IP packets. *)
Definition matches (m : OFPMatch) (p : Packet) : bool :=
  holds (Z.eqb (pk_in p)) (m_in_port m) && holds (Z.eqb (pk_type p)) (m_eth_type m)
  && holds (String.eqb (pk_src_mac p)) (m_eth_src m) && holds (String.eqb (pk_dst_mac p)) (m_eth_dst m)
  && holds (masked (pk_src p)) (m_ipv4_src m) && holds (masked (pk_dst p)) (m_ipv4_dst m).

(** The switch may choose any matching entry of the highest priority. *)
Definition best (tbl : list FlowMod) (t : Z) (p : Packet) (f : FlowMod) : Prop :=
  f ∈ tbl ∧ fm_table f = t ∧ matches (fm_match f) p = true ∧
  ∀ g, g ∈ tbl → fm_table g = t → matches (fm_match g) p = true → fm_priority g <= fm_priority f.

Definition set_ttl (p : Packet) (n : Z) : Packet := {|
  pk_in := pk_in p; pk_type := pk_type p; pk_src_mac := pk_src_mac p; pk_dst_mac := pk_dst_mac p;
  pk_src := pk_src p; pk_dst := pk_dst p; pk_ttl := n |}.
Definition set_macs (p : Packet) (src dst : string) : Packet := {|
  pk_in := pk_in p; pk_type := pk_type p; pk_src_mac := src; pk_dst_mac := dst;
  pk_src := pk_src p; pk_dst := pk_dst p; pk_ttl := pk_ttl p |}.

(** Packets emitted by an action list, and the packet that continues; a packet
    whose TTL expires stops there. *)
Fixpoint run_actions (acts : list action) (p : Packet) : list (action * Packet) * option Packet :=
  match acts with
  | [] => ([], Some p)
  | DecNwTtl :: rest => if pk_ttl p <=? 1 then ([], None) else run_actions rest (set_ttl p (pk_ttl p - 1))
  | SetEthSrc m :: rest => run_actions rest (set_macs p m (pk_dst_mac p))
  | SetEthDst m :: rest => run_actions rest (set_macs p (pk_src_mac p) m)
  | a :: rest => let r := run_actions rest p in ((a, p) :: r.1, r.2)
  end.

(** [forwards tbl t p a q]: from table [t], packet [p] may leave by output [a]
    as [q]. *)
Inductive forwards (tbl : list FlowMod) : Z → Packet → action → Packet → Prop :=
  | forwards_here t p f a q :
      best tbl t p f → (a, q) ∈ (run_actions (fm_actions f) p).1 → forwards tbl t p a q
  | forwards_goto t p f n p' a q :
      best tbl t p f → fm_goto f = Some n → (run_actions (fm_actions f) p).2 = Some p' →
      forwards tbl n p' a q → forwards tbl t p a q.

Lemma same_entry_true f g :
  same_entry f g = true ↔ fm_table f = fm_table g ∧ fm_priority f = fm_priority g ∧ fm_match f = fm_match g.
Proof. unfold same_entry. rewrite !andb_true_iff, !Z.eqb_eq, bool_decide_eq_true. tauto. Qed.

Lemma flow_adds_incl fl : ∀ tbl f, f ∈ fold_left flow_add fl tbl → f ∈ tbl ∨ f ∈ fl.
Proof.
  induction fl as [|g fl IH]; intros tbl f Hf; simpl in Hf; [by left|].
  apply IH in Hf as [Hf|Hf]; [|right; by constructor]. unfold flow_add in Hf.
  apply elem_of_app in Hf as [Hf|Hf%list_elem_of_singleton]; [|subst; right; constructor].
  apply filter_elem in Hf as [Hf _]. by left.
Qed.

Lemma flow_adds_keep fl : ∀ tbl f, f ∈ fl ∨ f ∈ tbl → ∃ g, g ∈ fold_left flow_add fl tbl ∧ same_entry f g = true.
Proof.
  induction fl as [|h fl IH]; intros tbl f Hf; simpl.
  - destruct Hf as [Hf|Hf]; [by inversion Hf|]. exists f. split; [done|]. by apply same_entry_true.
  - destruct (same_entry f h) eqn:E.
    + destruct (IH (flow_add tbl h) h) as (g & Hg & Hs).
      { right. unfold flow_add. apply elem_of_app. right. by apply list_elem_of_singleton. }
      exists g. split; [done|]. apply same_entry_true in E as (E1 & E2 & E3). apply same_entry_true in Hs as (S1 & S2 & S3).
      apply same_entry_true. split_and!; congruence.
    + apply IH. destruct Hf as [Hf|Hf].
      * apply elem_of_cons in Hf as [->|Hf]; [|by left]. exfalso.
        assert (same_entry h h = true) by (by apply same_entry_true). congruence.
      * right. unfold flow_add. apply elem_of_app. left. apply list_elem_of_In, filter_In. split; [by apply list_elem_of_In|].
        apply negb_true_iff. destruct (same_entry h f) eqn:E'; [|done]. apply same_entry_true in E' as (E1 & E2 & E3).
        assert (same_entry f h = true) by (apply same_entry_true; by split_and!). congruence.
Qed.

Lemma maximal {A} (m : A → Z) (l : list A) x : x ∈ l → ∃ g, g ∈ l ∧ ∀ h, h ∈ l → m h <= m g.
Proof.
  revert x. induction l as [|y l IH]; intros x Hx; [by inversion Hx|]. destruct l as [|z l].
  - exists y. split; [constructor|]. intros h [->|Hh]%elem_of_cons; [lia|by inversion Hh].
  - destruct (IH z) as (g & Hg & Hmax); [constructor|]. destruct (Z.le_gt_cases (m y) (m g)).
    + exists g. split; [by constructor|]. intros h [->|Hh]%elem_of_cons; [lia|by apply Hmax].
    + exists y. split; [constructor|]. intros h [->|Hh]%elem_of_cons; [lia|]. specialize (Hmax h Hh). lia.
Qed.

(** Where something matches, there is a best match at least as good. *)
Lemma best_exists tbl t p f :
  f ∈ tbl → fm_table f = t → matches (fm_match f) p = true →
  ∃ g, best tbl t p g ∧ fm_priority f <= fm_priority g.
Proof.
  intros Hf Ht Hm. set (here := λ h, (fm_table h =? t) && matches (fm_match h) p).
  assert (Hhere : ∀ h, h ∈ List.filter here tbl ↔ h ∈ tbl ∧ fm_table h = t ∧ matches (fm_match h) p = true).
  { intros h. rewrite list_elem_of_In, filter_In, <- list_elem_of_In. unfold here. by rewrite andb_true_iff, Z.eqb_eq. }
  destruct (maximal fm_priority (List.filter here tbl) f) as (g & Hg & Hmax); [by apply Hhere|].
  exists g. split; [|by apply Hmax, Hhere]. apply Hhere in Hg as (? & ? & ?). split_and!; try done.
  intros h ? ? ?. by apply Hmax, Hhere.
Qed.

(** ** The program of one reconciliation *)

(** [m] returns [x] and sends [dp] exactly the flows [fl]. *)
Definition sends {A} (dp : Z) (m : M UnderlayController A) (fl : list FlowMod) (x : A) : Prop :=
  ∀ u, m u = (Ok x, set_sent u (sent u ++ map (λ f, (dp, AddFlow f)) fl)).

Lemma sends_ret {A} dp (x : A) : sends dp (mret x) [] x.
Proof. intros u. unfold mret, M_ret. simpl. rewrite app_nil_r. by destruct u. Qed.

Lemma sends_bind {A B} dp (m : M UnderlayController A) (k : A → M UnderlayController B) fl gl x y :
  sends dp m fl x → sends dp (k x) gl y → sends dp (m ≫= k) (fl ++ gl) y.
Proof.
  intros Hm Hk u. unfold mbind, M_bind. rewrite (Hm u), (Hk _). unfold set_sent. simpl.
  by rewrite map_app, (assoc_L (++)).
Qed.

Lemma sends_lift {A B} dp (r : result A) (k : A → M UnderlayController B) fl x y :
  r = Ok x → sends dp (k x) fl y → sends dp (lift r ≫= k) fl y.
Proof. intros -> Hk. exact Hk. Qed.

Lemma sends_forM {A} dp (f : A → M UnderlayController unit) (g : A → list FlowMod) l :
  (∀ x, x ∈ l → sends dp (f x) (g x) tt) → sends dp (forM f l) (flat_map g l) tt.
Proof.
  induction l as [|x l IH]; intros Hf; simpl; [apply sends_ret|].
  eapply sends_bind; [apply Hf; constructor|]. apply IH. intros y Hy. apply Hf. by constructor.
Qed.

Lemma sends_foldMS {A} dp (f : Z → A → M UnderlayController Z) (g : A → list FlowMod) l :
  (∀ n x, x ∈ l → ∃ n', sends dp (f n x) (g x) n') → ∀ n, ∃ n', sends dp (foldMS f n l) (flat_map g l) n'.
Proof.
  induction l as [|x l IH]; intros Hf n; simpl; [exists n; apply sends_ret|].
  destruct (Hf n x) as (n1 & H1); [constructor|]. destruct IH with n1 as (n2 & H2).
  { intros k y Hy. apply Hf. by constructor. }
  exists n2. by eapply sends_bind.
Qed.

Definition flow (table priority : Z) (m : OFPMatch) (acts : list action) (goto : option Z) : FlowMod := {|
  fm_table := table; fm_priority := priority; fm_match := m; fm_actions := acts; fm_goto := goto; fm_idle_timeout := 0 |}.

Lemma sends_flow dp t p m acts g : sends dp (add_flow dp t p m acts g) [flow t p m acts g] tt.
Proof. by intros u. Qed.

Definition default_flows : list FlowMod := map (λ t, flow t 0 match_any [OutputController] None) [0; 10; 20; 30].

Definition admit_flows (m : UnderlayMode) (r : UnderlayRegistry) (ports : dict string Z) (a : UnderlayAttachment)
    : list FlowMod :=
  match dget ports (Underlay.port_name a), source_networks r a with
  | Some i, Ok nets =>
      if authorized a then
        flow 0 400 (match_port i ETH_TYPE_ARP) [OutputController] None
        :: flow 0 400 (match_port i ETH_TYPE_IP) [] (Some 10)
        :: map (λ n, flow 10 400 (validation_match m i a n) [] (Some 20)) nets
      else []
  | _, _ => []
  end.

Definition route_flows (mac : string) (ports : dict string Z) (by_site : dict string UnderlayAttachment) (f : FibRoute)
    : list FlowMod :=
  match dget by_site (source_site f), dget by_site (egress_site f) with
  | Some s, Some t =>
      match dget ports (Underlay.port_name s), dget ports (Underlay.port_name t) with
      | Some i, Some o =>
          [flow 20 300 (destination_match i (destination f)) [] (Some 30);
           flow 30 300 (destination_match i (destination f)) [DecNwTtl; SetEthSrc mac; SetEthDst (expected_mac t); Output o] None]
      | _, _ => []
      end
  | _, _ => []
  end.

Definition by_site (items : list UnderlayAttachment) : dict string UnderlayAttachment :=
  dict_of (map (λ i, (at_site i, i)) items).

Definition program (m : UnderlayMode) (r : UnderlayRegistry) (ports : dict string Z) (mac : string)
    (items : list UnderlayAttachment) (routes : list FibRoute) : list FlowMod :=
  default_flows ++ flat_map (admit_flows m r ports) items ++ flat_map (route_flows mac ports (by_site items)) routes.

Lemma dget_dict_of_elem {V} (f : V → string) l k x :
  dget (dict_of (map (λ i, (f i, i)) l)) k = Some x → x ∈ l ∧ f x = k.
Proof.
  unfold dict_of. rewrite <- (rev_involutive l). generalize (rev l). clear l. intros l.
  induction l as [|y l IH]; simpl; [done|]. rewrite map_app, fold_left_app. simpl.
  rewrite dget_dset. case_decide as E.
  - intros [= <-]. split; [|by subst]. apply elem_of_app. right. by apply list_elem_of_singleton.
  - intros [Hx Hk]%IH. split; [|done]. apply elem_of_app. by left.
Qed.

Lemma attached_elem ports items a : a ∈ attached ports items ↔ a ∈ items ∧ ∃ i, dget ports (Underlay.port_name a) = Some i.
Proof.
  unfold attached. rewrite list_elem_of_In, filter_In, <- list_elem_of_In. unfold dmem.
  destruct (dget ports (Underlay.port_name a)) as [i|]; split; intros [? Hi]; split_and?; try done.
  - by exists i.
  - by destruct Hi.
Qed.

Lemma sends_admit dp m r ports a : is_Some (dget ports (Underlay.port_name a)) → is_ok (source_networks r a) = true →
  sends dp (admit_attachment dp m r ports a) (admit_flows m r ports a) tt.
Proof.
  intros [i Hi] Hn. revert Hn. unfold admit_attachment, admit_flows. rewrite Hi. destruct (source_networks r a) as [nets|]; intros Hn; [|discriminate Hn].
  eapply sends_lift; [reflexivity|]. destruct (authorized a); cbn [negb]; [|apply sends_ret].
  apply (sends_bind _ _ _ [_] _ tt); [apply sends_flow|]. apply (sends_bind _ _ _ [_] _ tt); [apply sends_flow|].
  eapply sends_lift; [reflexivity|]. 
  assert (map (λ n, flow 10 400 (validation_match m i a n) [] (Some 20)) nets =
    flat_map (λ n, [flow 10 400 (validation_match m i a n) [] (Some 20)]) nets) as ->.
  { induction nets as [|n nets IH]; simpl; [done|]. by rewrite IH. }
  apply sends_forM. intros n _. apply sends_flow.
Qed.

Lemma sends_route dp c transport ports items mac n f :
  underlay_gateway_mac c transport = Ok mac →
  ∃ n', sends dp (install_route dp c transport ports (by_site (attached ports items)) n f)
          (route_flows mac ports (by_site (attached ports items)) f) n'.
Proof.
  intros Hmac. unfold install_route, route_flows.
  destruct (dget (by_site _) (source_site f)) as [s|] eqn:Hs; [|by exists n; apply sends_ret].
  destruct (dget (by_site _) (egress_site f)) as [t|] eqn:Ht; [|by exists n; apply sends_ret].
  apply dget_dict_of_elem in Hs as [(_ & i & Hi)%attached_elem _]. apply dget_dict_of_elem in Ht as [(_ & o & Ho)%attached_elem _].
  rewrite Hi, Ho. exists (n + 1). eapply sends_lift; [reflexivity|]. eapply sends_lift; [reflexivity|].
  apply (sends_bind _ _ _ [_] [_] tt); [apply sends_flow|]. eapply sends_lift; [exact Hmac|].
  apply (sends_bind _ _ _ [_] [] tt); [apply sends_flow|]. apply sends_ret.
Qed.

(** ** One reconciliation *)

(** What the recording operations leave alone. *)
Definition dataplane (u : UnderlayController) :=
  (uc_base u, uc_mode u, port_names u, programmed u, sent u).

Lemma record_event_keeps e t fs : moves (keeps dataplane) (record_event e t fs).
Proof. by intros u. Qed.

Lemma write_state_keeps e : moves (keeps dataplane) (write_state e).
Proof.
  intros u. unfold keeps, write_state, topology, get, put, lift, mret, M_ret, mbind, M_bind.
  destruct (load _ _) as [[c auth]|]; [|done]. simpl. destruct (state_json _ _ _); [|done]. by destruct (disk_ok e).
Qed.

Lemma record_drop_keeps e dp i r : moves (keeps dataplane) (record_drop e dp i r).
Proof.
  intros u. unfold keeps, record_drop, get, put, lift, mret, M_ret, mbind, M_bind.
  destruct (Qltb _ _); [done|]. by destruct (dget (drop_counters u) _).
Qed.

Definition ports_of (u : UnderlayController) (dp : Z) : dict string Z := default [] (dget (port_names u) dp).

(** The registry a reading of the inventory gives. *)
Definition view (base : TopologyConfig) (rs : inventory_rows) (c : TopologyConfig) (r : UnderlayRegistry) : Prop :=
  ∃ auth, load base rs = Ok (c, auth) ∧ r = UnderlayRegistry_init c (Some auth).

(** [fl] programs what the inventory [rs] says for switch [dp], with fingerprint [fp]. *)
Inductive compiled (base : TopologyConfig) (m : UnderlayMode) (rs : inventory_rows) (dp : Z) (ports : dict string Z)
    : Fingerprint → list FlowMod → Prop :=
  | compiled_intro c r transport items routes mac fp :
      view base rs c r → transport_of dp c = Some transport →
      attachments r transport = Ok items → fib r transport = Ok routes →
      underlay_gateway_mac c transport = Ok mac → m ≠ DISABLED →
      programming_fingerprint m transport r ports = Ok fp →
      compiled base m rs dp ports fp (program m r ports mac (attached ports items) routes).

Lemma load_transports base rs c auth : load base rs = Ok (c, auth) → transports c = transports base.
Proof.
  unfold load. destruct rs as [rs|]; [|by intros [= <- _]]. intros H.
  apply bind_Ok in H as ([ss au] & _ & H). destruct ss as [|? ?]; apply bind_Ok in H as (c' & Hc & [= <- _]);
    unfold with_sites in Hc; apply bind_Ok in Hc as ([] & _ & [= <-]); done.
Qed.

Lemma transport_of_mac dp c transport : transport_of dp c = Some transport →
  transport ∈ dkeys (transports c) ∧ ∃ mac, underlay_gateway_mac c transport = Ok mac.
Proof.
  unfold transport_of. destruct (find _ (transports c)) as [[n t]|] eqn:Hf; [|done]. intros [= <-].
  apply find_elem in Hf as [Hin _]. assert (n ∈ dkeys (transports c)) as Hk by (apply elem_of_map; by exists (n, t)).
  split; [done|]. unfold underlay_gateway_mac, get_transport. apply dmem_true in Hk. unfold dmem in Hk.
  destruct (dget (transports c) n) as [t'|]; [|done]. by eexists.
Qed.

Lemma sends_defaults dp : sends dp (install_default_drop dp) default_flows tt.
Proof.
  change default_flows with (flat_map (λ t, [flow t 0 match_any [OutputController] None]) [0; 10; 20; 30]).
  apply sends_forM. intros t _. apply sends_flow.
Qed.

Lemma attachment_nets m t r ports fp items :
  programming_fingerprint m t r ports = Ok fp → attachments r t = Ok items →
  ∀ a, a ∈ attached ports items → ∃ k nets, attachment_key r a = Ok k ∧ source_networks r a = Ok nets.
Proof.
  unfold programming_fingerprint. intros Hfp Hi a Ha. rewrite Hi in Hfp. cbn [mbind result_bind] in Hfp.
  apply bind_Ok in Hfp as (keys & Hkeys & _). destruct (mapM_result_elem _ _ _ a Hkeys) as (k & Hk & _); [done|].
  exists k. unfold attachment_key in Hk. pose proof Hk as Hk'. apply bind_Ok in Hk' as (nets & Hn & _). by exists nets.
Qed.

(** The messages of one reprogramming. *)
Lemma install_run m dp c r t ports fp items routes mac :
  programming_fingerprint m t r ports = Ok fp → attachments r t = Ok items → fib r t = Ok routes →
  underlay_gateway_mac c t = Ok mac →
  ∃ counts, ∀ u, install_program dp c r t m ports u =
    (Ok counts, set_sent u (sent u ++ (dp, DeleteOwned)
       :: map (λ f, (dp, AddFlow f)) (program m r ports mac (attached ports items) routes))).
Proof.
  intros Hfp Hi Hf Hmac.
  destruct (sends_foldMS dp (install_route dp c t ports (by_site (attached ports items)))
    (route_flows mac ports (by_site (attached ports items))) routes) with 0 as (count & Hroutes).
  { intros n f _. by apply sends_route. }
  assert (sends dp (_ ← install_default_drop dp; _ ← forM (admit_attachment dp m r ports) (attached ports items);
    routes ← lift (fib r t); count ← foldMS (install_route dp c t ports (by_site (attached ports items))) 0 routes;
    mret (Z.of_nat (length (attached ports items)), count))
    (program m r ports mac (attached ports items) routes) (Z.of_nat (length (attached ports items)), count)) as Hall.
  { unfold program. eapply sends_bind; [apply sends_defaults|]. eapply sends_bind.
    { apply sends_forM. intros a Ha. destruct (attachment_nets _ _ _ _ _ _ Hfp Hi a Ha) as (_ & nets & _ & Hn).
      apply attached_elem in Ha as [_ [i Hp]]. apply sends_admit; [by eexists|by rewrite Hn]. }
    eapply sends_lift; [exact Hf|]. rewrite <- (app_nil_r (flat_map _ routes)). eapply sends_bind; [exact Hroutes|apply sends_ret]. }
  eexists. intros u. unfold install_program. rewrite Hi.
  etrans; [exact (Hall (set_sent u (sent u ++ [(dp, DeleteOwned)])))|]. unfold set_sent. simpl.
  by rewrite <- (assoc_L (++)).
Qed.

(** After one reconciliation the data plane is unchanged, erased (mode
    DISABLED), or the switch holds the program of the inventory just read and
    its fingerprint is recorded; a normal return means the recorded fingerprint
    is the current one. *)
Lemma reconcile_run e dp u :
  let res := (reconcile_datapath e dp u).1 in let u' := (reconcile_datapath e dp u).2 in
  (dataplane u' = dataplane u ∧
   ((∃ x, res = Err x) ∨ (∃ c auth, load (uc_base u) (rows e) = Ok (c, auth) ∧ transport_of dp c = None) ∨
    uc_mode u = DISABLED ∧ dget (programmed u) dp = None ∨
    ∃ fp fl, compiled (uc_base u) (uc_mode u) (rows e) dp (ports_of u dp) fp fl ∧ dget (programmed u) dp = Some fp)) ∨
  (uc_mode u = DISABLED ∧ dataplane u' =
     dataplane (set_sent (set_programmed u (ddel (programmed u) dp)) (sent u ++ [(dp, DeleteOwned)]))) ∨
  (∃ fp fl, compiled (uc_base u) (uc_mode u) (rows e) dp (ports_of u dp) fp fl ∧ dataplane u' =
     dataplane (set_sent (set_programmed u (dset (programmed u) dp fp))
                  (sent u ++ (dp, DeleteOwned) :: map (λ f, (dp, AddFlow f)) fl))).
Proof.
  intros res u'. subst res u'. destruct (load (uc_base u) (rows e)) as [[c auth]|x] eqn:Hload.
  2: { assert (reconcile_datapath e dp u = (Err x, u)) as -> by (unfold reconcile_datapath, topology; cbv [mbind M_bind get lift]; by rewrite Hload).
       left. split; [done|]. left. by exists x. }
  set (r := UnderlayRegistry_init c (Some auth)).
  assert (reconcile_datapath e dp u = match transport_of dp c with
    | None => (Ok tt, u) | Some t => reconcile_transport e dp c r t u end) as ->.
  { unfold reconcile_datapath, topology. cbv [mbind M_bind get lift]. rewrite Hload. simpl. by destruct (transport_of dp c). }
  destruct (transport_of dp c) as [t|] eqn:Ht.
  2: { left. split; [done|]. right. left. by exists c, auth. }
  unfold reconcile_transport. cbv [mbind M_bind get]. case_bool_decide as Hd.
  - destruct (dmem (programmed u) dp) eqn:Hmem.
    + right. left. split; [done|]. pose proof (write_state_keeps e (record_event e "RECONCILE" [("transport", JStr t); ("mode", JStr "DISABLED"); ("added", JInt 0); ("removed", JInt 0)]
         (set_sent (set_programmed u (ddel (programmed u) dp)) (sent u ++ [(dp, DeleteOwned)]))).2) as Hk.
      unfold keeps in Hk. exact Hk.
    + left. split; [exact (write_state_keeps e u)|]. right. right. left. split; [done|].
      unfold dmem in Hmem. by destruct (dget (programmed u) dp).
  - destruct (programming_fingerprint (uc_mode u) t r (default [] (dget (port_names u) dp))) as [fp|x] eqn:Hfp.
    2: { left. split; [done|]. left. by exists x. }
    pose proof Hfp as Hfp'. unfold programming_fingerprint in Hfp'. apply bind_Ok in Hfp' as (items & Hi & Hfp').
    apply bind_Ok in Hfp' as (keys & _ & Hfp'). apply bind_Ok in Hfp' as (routes & Hf & _).
    destruct (transport_of_mac _ _ _ Ht) as [_ (mac & Hmac)].
    assert (compiled (uc_base u) (uc_mode u) (rows e) dp (ports_of u dp) fp
      (program (uc_mode u) r (ports_of u dp) mac (attached (ports_of u dp) items) routes)) as Hc.
    { econstructor; try done. by exists auth. }
    cbv [lift]. cbn beta iota zeta. destruct (decide (dget (programmed u) dp = Some fp)) as [Hp|Hp].
    + rewrite (bool_decide_eq_true_2 _ Hp). left. split; [exact (write_state_keeps e u)|]. right. right. right. by eexists _, _.
    + rewrite (bool_decide_eq_false_2 _ Hp). right. right. eexists _, _. split; [exact Hc|].
      destruct (install_run _ dp c r t _ fp items routes mac Hfp Hi Hf Hmac) as (counts & Hrun). rewrite (Hrun u).
      cbv [modify get put mbind M_bind]. cbn beta iota zeta.
      match goal with |- context [record_event e "RECONCILE" ?fs ?u0] =>
        pose proof (write_state_keeps e (record_event e "RECONCILE" fs u0).2) as Hk end.
      exact Hk.
Qed.

(** ** The controller and its switches stay in step *)

(** Every switch with a recorded fingerprint holds a program with that
    fingerprint, compiled for the ports the switch has. *)
Definition synced (u : UnderlayController) : Prop :=
  ∀ dp fp, dget (programmed u) dp = Some fp →
    ∃ rs fl, compiled (uc_base u) (uc_mode u) rs dp (ports_of u dp) fp fl ∧
      switch_tables dp (sent u) = fold_left flow_add fl [].

(** One handler, with any environment and arguments. *)
Inductive step : UnderlayController → UnderlayController → Prop :=
  | step_reconcile e dp u : step u (reconcile_datapath e dp u).2
  | step_round e u : step u (reconcile_round e u).2
  | step_features e dp u : step u (switch_features e dp u).2
  | step_port_desc e dp body u : step u (port_desc_reply e dp body u).2
  | step_port_status e dp n why u : step u (port_status e dp n why u).2
  | step_dead e dp u : step u (datapath_dead e dp u).2
  | step_packet e dp i t f q u : step u (packet_in e dp i t f q u).2.

Inductive reachable (base : TopologyConfig) (m : UnderlayMode) : UnderlayController → Prop :=
  | reachable_init e : reachable base m (UnderlayController_init e base m)
  | reachable_step u u' : reachable base m u → step u u' → reachable base m u'.

Lemma switch_tables_app dp ms ms' :
  switch_tables dp (ms ++ ms') = fold_left (λ tbl p, if p.1 =? dp then switch_step tbl p.2 else tbl) ms' (switch_tables dp ms).
Proof. apply fold_left_app. Qed.

Lemma switch_tables_other dp dp' ms ms' : dp' ≠ dp → switch_tables dp' (ms ++ map (pair dp) ms') = switch_tables dp' ms.
Proof.
  intros Hd. rewrite switch_tables_app. generalize (switch_tables dp' ms). induction ms' as [|m ms' IH]; intros t; simpl; [done|].
  destruct (Z.eqb_spec dp dp'); [congruence|apply IH].
Qed.

Lemma switch_tables_program dp ms fl :
  switch_tables dp (ms ++ (dp, DeleteOwned) :: map (λ f, (dp, AddFlow f)) fl) = fold_left flow_add fl [].
Proof.
  rewrite switch_tables_app. simpl. rewrite Z.eqb_refl. generalize (@nil FlowMod).
  induction fl as [|f fl IH]; intros t; simpl; [done|]. rewrite Z.eqb_refl. apply IH.
Qed.

(** Changes that concern one switch only. *)
Record about (dp : Z) (u u' : UnderlayController) : Prop := {
  ab_base : uc_base u' = uc_base u; ab_mode : uc_mode u' = uc_mode u;
  ab_programmed : ∀ d, d ≠ dp → dget (programmed u') d = dget (programmed u) d;
  ab_ports : ∀ d, d ≠ dp → ports_of u' d = ports_of u d;
  ab_sent : ∃ ms, sent u' = sent u ++ map (pair dp) ms;
  ab_forgotten : dget (programmed u) dp = None → dget (programmed u') dp = None
}.

#[export] Instance about_preorder dp : PreOrder (about dp).
Proof.
  split.
  - intros u. split; try done. exists []. by rewrite app_nil_r.
  - intros u v w [B1 M1 P1 O1 (ms & S1) F1] [B2 M2 P2 O2 (ms' & S2) F2]. split; try congruence; auto.
    + intros d Hd. by rewrite P2, P1.
    + intros d Hd. by rewrite O2, O1.
    + exists (ms ++ ms'). by rewrite S2, S1, map_app, (assoc_L (++)).
Qed.

Lemma about_dataplane dp u u' : dataplane u' = dataplane u → about dp u u'.
Proof.
  unfold dataplane. intros [= B M P Q S]. split; [done|done|intros d _; by rewrite Q| | |by rewrite Q].
  - intros d _. unfold ports_of. by rewrite P.
  - exists []. by rewrite S, app_nil_r.
Qed.

Lemma about_keeps {A} dp (m : M UnderlayController A) : moves (keeps dataplane) m → moves (about dp) m.
Proof. intros Hm u. apply about_dataplane, Hm. Qed.

Lemma about_send dp m : moves (about dp) (send dp m).
Proof. intros u. split; try done. by exists [m]. Qed.

Lemma about_forget dp : moves (about dp) (forget_program dp).
Proof.
  intros u. split; try done.
  - intros d Hd. by apply dget_ddel_ne.
  - exists []. by rewrite app_nil_r.
  - intros _. apply dget_ddel_eq.
Qed.

Lemma about_topology e dp : moves (about dp) (topology e).
Proof. intros u. apply about_dataplane. unfold topology. cbv [mbind M_bind get lift]. by destruct (load _ _). Qed.

Lemma about_modify dp f : (∀ u, about dp u (f u)) → moves (about dp) (modify f).
Proof. intros Hf u. apply Hf. Qed.

Lemma synced_about dp u u' : synced u → about dp u u' → dget (programmed u') dp = None → synced u'.
Proof.
  intros Hs [B M P O (ms & S) _] Hn d fp Hd. destruct (decide (d = dp)) as [->|Hne]; [congruence|].
  rewrite P in Hd by done. destruct (Hs d fp Hd) as (rs & fl & Hc & Ht). exists rs, fl.
  rewrite B, M, O, S, switch_tables_other by done. done.
Qed.

Lemma synced_dataplane u u' : dataplane u' = dataplane u → synced u → synced u'.
Proof.
  unfold dataplane, synced, ports_of. intros [= B M P Q S] Hs dp fp. rewrite B, M, P, Q, S. apply Hs.
Qed.

(** Once a switch is forgotten, the rest of its handler keeps it so. *)
Lemma forgotten_after {A} dp (m : M UnderlayController A) u u0 :
  u = (forget_program dp u0).2 → moves (about dp) m → dget (programmed (m u).2) dp = None.
Proof. intros -> Hm. apply (ab_forgotten _ _ _ (Hm _)). apply dget_ddel_eq. Qed.

Lemma synced_reconcile e dp u : synced u → synced (reconcile_datapath e dp u).2.
Proof.
  intros Hs. destruct (reconcile_run e dp u) as [[Hk _]|[[_ Hk]|(fp & fl & Hc & Hk)]].
  - by apply (synced_dataplane u).
  - eapply synced_dataplane; [exact Hk|]. apply (synced_about dp u); [done| |apply dget_ddel_eq].
    split; try done; [intros d Hd; by apply dget_ddel_ne|by exists [DeleteOwned]|intros _; apply dget_ddel_eq].
  - eapply synced_dataplane; [exact Hk|]. intros d fp' Hd. cbn [programmed set_programmed set_sent] in Hd.
    rewrite dget_dset in Hd. cbn [sent set_programmed set_sent uc_base uc_mode]. case_decide as E.
    + injection Hd as <-. subst d. exists (rows e), fl. split; [exact Hc|]. apply switch_tables_program.
    + destruct (Hs d fp' Hd) as (rs & gl & Hc' & Ht). exists rs, gl. split; [exact Hc'|].
      rewrite <- Ht. assert ((dp, DeleteOwned) :: map (λ f, (dp, AddFlow f)) fl = map (pair dp) (DeleteOwned :: map AddFlow fl)) as ->.
      { simpl. by rewrite map_map. }
      by apply switch_tables_other.
Qed.

Lemma round_preserves e : ∀ ds u, synced u → synced (forM (reconcile_datapath e) ds u).2.
Proof.
  induction ds as [|dp ds IH]; intros u Hs; simpl; [done|]. cbv [mbind M_bind].
  pose proof (synced_reconcile e dp u Hs) as H1. destruct (reconcile_datapath e dp u) as [[[]|x] u1]; [by apply IH|done].
Qed.

(** Handlers that forget the program first. *)
Lemma forget_first {A} dp (pre : M UnderlayController unit) (k : unit → M UnderlayController A) u :
  moves (about dp) pre → (∀ u, ∃ u', pre u = (Ok tt, u')) → moves (about dp) (k tt) → synced u →
  synced ((_ ← pre; x ← forget_program dp; k x) u).2.
Proof.
  intros Hpre Hok Hk Hs. cbv [mbind M_bind]. pose proof (Hpre u) as H1. destruct (Hok u) as (u1 & E). rewrite E in *.
  change (forget_program dp u1) with (Ok tt, (forget_program dp u1).2). cbn beta iota.
  apply (synced_about dp u); [done| |by eapply forgotten_after].
  etrans; [exact H1|]. etrans; [apply (about_forget dp u1)|apply Hk].
Qed.

Lemma about_lan dp i f : moves (about dp) (learn_lan_packet dp i f).
Proof.
  intros u. destruct f as [f|]; simpl; [|done]. destruct (fr_ethertype f =? ETH_TYPE_LLDP); [done|].
  cbv [mbind M_bind get put]. destruct (dget _ (fr_dst f)) as [o|]; cbv [mbind M_bind].
  - split; try done. eexists [_; _]. unfold send, modify. cbv [mbind M_bind get put]. cbn. by rewrite <- app_assoc.
  - split; try done. by eexists [_].
Qed.

Lemma compiled_transport base m rs dp ports fp fl : compiled base m rs dp ports fp fl → is_Some (transport_of dp base).
Proof.
  intros [c r t items routes mac fp' (auth & Hl & _) Ht _ _ _ _ _]. apply load_transports in Hl.
  unfold transport_of in *. by rewrite <- Hl, Ht.
Qed.

(** A packet-in is answered, counted or learned; it programs nothing on a
    provider switch. *)
Lemma packet_in_run e dp i t f q u :
  let u' := (packet_in e dp i t f q u).2 in
  dataplane u' = dataplane u ∨
  (∃ p mac a, dataplane u' = dataplane (set_sent u (sent u ++ [(dp, ArpReply p mac a)]))) ∨
  (transport_of dp (uc_base u) = None ∧ about dp u u').
Proof.
  intros u'. subst u'. destruct (load (uc_base u) (rows e)) as [[c auth]|x] eqn:Hload.
  2: { left. unfold packet_in, topology. cbv [mbind M_bind get lift]. by rewrite Hload. }
  unfold packet_in, topology. cbv [mbind M_bind get lift]. rewrite Hload. cbv [mret M_ret]. cbn beta iota zeta delta [fst snd].
  destruct (transport_of dp c) as [tr|] eqn:Ht.
  - destruct (attachment_by_port _ tr _) as [[a|]|x]; [|left; apply record_drop_keeps|by left].
    destruct (authorized a); cbn [negb]; [|left; apply record_drop_keeps].
    destruct f as [f|]; [|left; apply record_drop_keeps]. destruct q as [q|]; [|left; apply record_drop_keeps].
    destruct (opcode q =? ARP_REQUEST); cbn [negb]; [|left; apply record_drop_keeps].
    destruct (underlay_gateway_ip c tr) as [gw|x]; [|by left].
    destruct (String.eqb (dst_ip q) (addr_str gw)); cbn [negb]; [|left; apply record_drop_keeps].
    destruct (_ || _); [left; apply record_drop_keeps|]. destruct (underlay_gateway_mac c tr) as [mac|x]; [|by left].
    right. left. by eexists _, _, _.
  - right. right. split.
    + unfold transport_of in *. by rewrite <- (load_transports _ _ _ _ Hload).
    + destruct (is_Some_dec _); [apply about_lan|done].
Qed.

Lemma step_synced u u' : synced u → step u u' → synced u'.
Proof.
  intros Hs Hstep. destruct Hstep.
  - by apply synced_reconcile.
  - unfold reconcile_round. pose proof (round_preserves e (dkeys (datapaths u)) u Hs) as Hr.
    by destruct (forM _ _ u) as [[[]|x] u'].
  - unfold switch_features. apply (forget_first dp).
    + apply about_modify. intros v. by apply about_dataplane.
    + by eexists.
    + refine (moves_bind _ _ _ (about_topology _ _) _). intros tp. destruct (lan_site dp tp.1).
      * refine (moves_bind _ _ _ (about_send _ _) _). intros _. apply about_keeps, record_event_keeps.
      * refine (moves_bind _ _ _ (about_send _ _) _). intros _. apply about_keeps, record_event_keeps.
    + done.
  - unfold port_desc_reply. cbv [mbind M_bind]. simpl. apply synced_reconcile, (synced_about dp u); [done| |apply dget_ddel_eq].
    split; try done.
    + intros d Hd. by apply dget_ddel_ne.
    + intros d Hd. unfold ports_of. simpl. by rewrite dget_dset_ne.
    + exists []. by rewrite app_nil_r.
    + intros _. apply dget_ddel_eq.
  - unfold port_status. apply (synced_about dp u); [done| |].
    + refine (moves_bind _ _ _ (about_forget _) _ u). intros _.
      refine (moves_bind _ _ _ (about_keeps _ _ (record_event_keeps _ _ _)) _). intros _. apply about_send.
    + apply dget_ddel_eq.
  - set (u1 := set_port_names (set_datapaths u (ddel (datapaths u) dp)) (ddel (port_names u) dp)).
    assert (moves (about dp) (_ ← record_event e "DATAPATH_STATE" [("datapath", JInt dp); ("state", JStr "DISCONNECTED")];
      write_state e)) as Htail.
    { refine (moves_bind _ _ _ (about_keeps _ _ (record_event_keeps _ _ _)) _). intros _. apply about_keeps, write_state_keeps. }
    apply (synced_about dp u); [done| |exact (forgotten_after dp _ _ u1 eq_refl Htail)].
    etrans; [|exact (Htail (forget_program dp u1).2)]. etrans; [|apply about_forget]. split; try done.
    + intros d Hd. unfold ports_of. simpl. by rewrite dget_ddel_ne.
    + exists []. by rewrite app_nil_r.
  - destruct (packet_in_run e dp i t f q u) as [Hk|[(p & mac & a & Hk)|[Hn Ha]]].
    + by apply (synced_dataplane u).
    + eapply synced_dataplane; [exact Hk|]. intros d fp Hd. destruct (Hs d fp Hd) as (rs & fl & Hc & Ht).
      exists rs, fl. split; [exact Hc|]. cbn [sent set_sent]. rewrite switch_tables_app. simpl.
      by destruct (dp =? d).
    + apply (synced_about dp u); [done|done|]. apply (ab_forgotten _ _ _ Ha).
      destruct (dget (programmed u) dp) as [fp|] eqn:Hp; [|done].
      destruct (Hs dp fp Hp) as (rs & fl & Hc & _). apply compiled_transport in Hc. rewrite Hn in Hc. by destruct Hc.
Qed.

(** The topology and the mode never change. *)
Definition same_base : relation UnderlayController := keeps (λ u, (uc_base u, uc_mode u)).

Lemma same_base_about dp u u' : about dp u u' → same_base u u'.
Proof. intros [B M _ _ _ _]. unfold same_base, keeps. by rewrite B, M. Qed.

Lemma same_base_dataplane u u' : dataplane u' = dataplane u → same_base u u'.
Proof. intros Hd. by eapply same_base_about, (about_dataplane 0). Qed.

Lemma same_base_reconcile e dp u : same_base u (reconcile_datapath e dp u).2.
Proof.
  destruct (reconcile_run e dp u) as [[Hk _]|[[_ Hk]|(fp & fl & _ & Hk)]]; apply same_base_dataplane in Hk; exact Hk.
Qed.

Lemma same_base_round e : ∀ ds u, same_base u (forM (reconcile_datapath e) ds u).2.
Proof.
  induction ds as [|dp ds IH]; intros u; simpl; [done|]. cbv [mbind M_bind].
  pose proof (same_base_reconcile e dp u) as H1. destruct (reconcile_datapath e dp u) as [[[]|x] u1]; [|done].
  etrans; [exact H1|apply IH].
Qed.

Lemma same_base_quick {A} (m : M UnderlayController A) u :
  moves (keeps dataplane) m → same_base u (m u).2.
Proof. intros Hm. apply same_base_dataplane, Hm. Qed.

Lemma step_base u u' : step u u' → same_base u u'.
Proof.
  intros Hstep. destruct Hstep.
  - apply same_base_reconcile.
  - unfold reconcile_round. pose proof (same_base_round e (dkeys (datapaths u)) u) as Hr.
    by destruct (forM _ _ u) as [[[]|x] u'].
  - unfold switch_features, topology. cbv [mbind M_bind mret M_ret modify get put lift forget_program].
    cbn beta iota. destruct (load _ _) as [[c auth]|]; [|done].
    match goal with |- context [lan_site ?a ?b] => by destruct (lan_site a b) end.
  - unfold port_desc_reply. cbv [mbind M_bind modify get put forget_program]. cbn beta iota.
    match goal with |- same_base u (reconcile_datapath e dp ?v).2 => exact (same_base_reconcile e dp v) end.
  - done.
  - unfold datapath_dead. cbv [mbind M_bind modify get put forget_program]. cbn beta iota.
    match goal with |- context [record_event e ?k ?fs ?v] => exact (same_base_quick (write_state e) (record_event e k fs v).2 (write_state_keeps e)) end.
  - destruct (packet_in_run e dp i t f q u) as [Hk|[(p & mac & a & Hk)|[_ Ha]]].
    + by apply same_base_dataplane.
    + apply same_base_dataplane in Hk. exact Hk.
    + by eapply same_base_about.
Qed.

Lemma reachable_synced base m u : reachable base m u → uc_base u = base ∧ uc_mode u = m ∧ synced u.
Proof.
  induction 1 as [e|u u' _ (Hb & Hm & Hs) Hstep]; [split_and!; [done..|]; intros dp fp Hd; discriminate Hd|].
  pose proof (step_base _ _ Hstep) as E. injection E as -> ->. split_and!; [done..|by eapply step_synced].
Qed.
