(* ===== verification/ForwardingFacts.v ===== *)
(** * What the provider underlay forwards

    The forwarding policy of the registry, and the packets the programmed
    switches let through: exactly those of the policy, from the port, the
    source addresses and the MAC of an authorised attachment. *)
From Stdlib Require Import Ascii.
From S2P Require Import Prelude Net Marks PathSelection Model ModelValidate Json ModelParse CoreTopology TopologyFacts.
From S2P Require Import Underlay Inventory Controller ControllerFacts.
Local Open Scope string_scope.
Local Open Scope list_scope.
Local Open Scope Z_scope.

(** ** What the registry says *)

Definition in_range (a : addr) : Prop := 0 <= a <= all_ones.

Record clean (c : TopologyConfig) : Prop := {
  cl_saas : network_wf (saas_network c);
  cl_lans : Forall network_wf (map lan_network (site_list c));
  cl_ips : Forall in_range (dvals (saas_transport_ips c));
  cl_names : NoDup (runtime_node_names c ++ [saas_gateway_name c])
}.

Lemma validated_names c : validated c → NoDup (runtime_node_names c ++ [saas_gateway_name c]).
Proof.
  intros Hv. pose proof (v_endpoints _ Hv) as He. unfold check_endpoints in He. rewrite bind_unit_ok, reject_ok in He.
  destruct He as [He _]. apply orb_false_iff in He as [_ He]. apply negb_false_iff, uniqueb_true in He.
  unfold physical_names in He. apply NoDup_app in He as (H1 & H2 & H3). apply NoDup_app. split_and!; [done| |].
  - intros x Hx ->%list_elem_of_singleton. apply (H2 _ Hx). apply elem_of_app. right. simpl. set_solver.
  - apply NoDup_singleton.
Qed.

Lemma IPv4Address_range n a : IPv4Address n = Ok a → in_range a.
Proof.
  unfold IPv4Address, raise_if, raise, in_range. destruct (Z.leb_spec 0 n), (Z.leb_spec n all_ones); simpl; try done.
  intros [= <-]. lia.
Qed.

Lemma to_site_wf i s : to_site i = Ok s → network_wf (lan_network s).
Proof.
  unfold to_site. intros H. apply bind_Ok in H as (? & _ & H). apply bind_Ok in H as (lan & Hl & H).
  apply bind_Ok in H as (? & _ & H). apply bind_Ok in H as (? & _ & [= <-]). by eapply ip_network_wf.
Qed.

Lemma load_clean base rs c auth : load base rs = Ok (c, auth) → clean base → clean c.
Proof.
  intros Hl [B1 B2 B3 B4]. unfold load in Hl. destruct rs as [rs|]; [|by injection Hl as <- _].
  apply bind_Ok in Hl as ([ss au] & Hss & Hl).
  assert (Forall network_wf (map lan_network (dvals ss))) as Hw.
  { apply Forall_map. refine (foldM_inv (λ p : dict string Site * list string, Forall (λ s, network_wf (lan_network s)) (dvals p.1)) _ _ _ _ _ _ Hss);
      [|constructor].
    intros [d l] row [d' l'] Hd Hrow. cbn [fst] in *. unfold load_row in Hrow. destruct row as [i|]; [|by injection Hrow as <- <-].
    destruct (inb _ _); [|by injection Hrow as <- <-]. apply bind_Ok in Hrow as (s & Hs & [= <- _]).
    apply dvals_dset_Forall; [done|by eapply to_site_wf]. }
  assert (∃ ss', with_sites base ss' = Ok c ∧ Forall network_wf (map lan_network (dvals ss'))) as (ss' & Hc & Hw').
  { destruct ss as [|p ss]; apply bind_Ok in Hl as (c' & Hc & [= <- _]); by eexists. }
  unfold with_sites in Hc. apply bind_Ok in Hc as ([] & Hv & [= <-]). split; try done.
  by apply validated_names, validate_config_iff.
Qed.

Lemma address_of_range `{PyRepr} v f a : address_of v f = Ok a → in_range a.
Proof.
  unfold address_of, ip_address. destruct (parse_addr _) as [b|] eqn:Hp; [|done]. simpl. intros [= <-].
  by eapply parse_addr_range.
Qed.

Lemma accepted_clean `{PyRepr} raw source c : config_from_mapping raw source = Ok c → clean c.
Proof.
  intros Hc. apply config_from_mapping_inv in Hc as (_ & _ & Hp & Hv).
  pose proof (proj1 (parse_config_wf _ _ _ Hp)) as Hw. unfold all_networks in Hw. rewrite !Forall_app in Hw.
  destruct Hw as (Hn & _ & _ & _ & Hl & _). split; [by inversion Hn as [|? ? _ [|? ? _ [|? ? ? _]]]|exact Hl| |].
  - unfold parse_config in Hp. inv_ok. cbn [saas_transport_ips].
    match goal with Ht : addr_dict _ _ = Ok ?d |- Forall _ (dvals ?d) => refine (dict_comp_Forall _ _ _ _ _ Ht) end.
    intros k v x. apply address_of_range.
  - by apply validated_names, validate_config_iff.
Qed.

Section view.
Context (c : TopologyConfig) (auth : list string) (t : string) (Hclean : clean c).
Let r := UnderlayRegistry_init c (Some auth).

Lemma host_route_wf a : in_range a → network_wf (host_route a).
Proof. intros Ha. split; simpl; [lia|done|]. apply Z.mod_1_r. Qed.

Lemma attachments_inv items a : attachments r t = Ok items → a ∈ items →
  in_range (at_address a) ∧ (dmem (hubs c) (at_site a) = true ∧ role a = "hub" ∨
    dmem (hubs c) (at_site a) = false ∧ role a = "spoke" ∨
    role a = "internet_gateway" ∧ at_site a = saas_gateway_name c ∧ authorized a = true).
Proof.
  unfold attachments. intros Hi Ha. apply bind_Ok in Hi as (item & _ & Hi). apply bind_Ok in Hi as (nodes & Hn & Hi).
  assert (∀ b, b ∈ nodes → in_range (at_address b) ∧ (dmem (hubs c) (at_site b) = true ∧ role b = "hub" ∨
    dmem (hubs c) (at_site b) = false ∧ role b = "spoke")) as Hnode.
  { intros b Hb. apply mapM_result_Forall2 in Hn. apply (Forall2_elem_r _ _ _ _ Hn) in Hb as (site & _ & Hb).
    unfold node_attachment in Hb. apply bind_Ok in Hb as (sh & _ & Hb). apply bind_Ok in Hb as (ip & Hip & Hb).
    apply bind_Ok in Hb as (mac & _ & [= <-]). cbn. split.
    - unfold underlay_ip in Hip. apply bind_Ok in Hip as (? & _ & Hip). apply bind_Ok in Hip as (? & _ & Hip).
      by eapply IPv4Address_range.
    - destruct (dmem _ site); auto. }
  destruct (internet_capable item).
  - apply bind_Ok in Hi as (g & Hg & [= <-]). apply elem_of_app in Ha as [Ha|Ha%list_elem_of_singleton]; [by destruct (Hnode a Ha) as [? [?|?]]; auto|].
    subst a. unfold gateway_attachment in Hg. apply bind_Ok in Hg as (ip & Hip & Hg). apply bind_Ok in Hg as (mac & _ & [= <-]).
    cbn. split; [|by auto]. unfold of_option in Hip. destruct (dget (saas_transport_ips _) t) eqn:E; [|done]. injection Hip as <-.
    pose proof (cl_ips _ Hclean) as Hr. rewrite Forall_forall in Hr. apply Hr. by eapply dget_dvals.
  - injection Hi as <-. by destruct (Hnode a Ha) as [? [?|?]]; auto.
Qed.

Lemma node_sites item l nodes : mapM_result (node_attachment r t item) l = Ok nodes → map at_site nodes = l.
Proof.
  intros Hn. apply mapM_result_Forall2 in Hn. induction Hn as [|x y l k Hx _ IH]; simpl; [done|].
  unfold node_attachment in Hx. apply bind_Ok in Hx as (sh & _ & Hx). apply bind_Ok in Hx as (ip & _ & Hx).
  apply bind_Ok in Hx as (mac & _ & Hx). injection Hx as <-. cbn. by rewrite IH.
Qed.

Lemma attachment_sites items : attachments r t = Ok items →
  map at_site items = runtime_node_names c ∨ map at_site items = runtime_node_names c ++ [saas_gateway_name c].
Proof.
  unfold attachments. intros Hi. apply bind_Ok in Hi as (item & _ & Hi). apply bind_Ok in Hi as (nodes & Hn & Hi).
  pose proof (node_sites _ _ _ Hn) as Hs.
  destruct (internet_capable item); [right|left; by injection Hi as <-].
  apply bind_Ok in Hi as (g & Hg & [= <-]). rewrite map_app, Hs. unfold gateway_attachment in Hg.
  apply bind_Ok in Hg as (ip & _ & Hg). apply bind_Ok in Hg as (mac & _ & Hg). by injection Hg as <-.
Qed.

Lemma attachment_sites_NoDup items : attachments r t = Ok items → NoDup (map at_site items).
Proof.
  pose proof (cl_names _ Hclean) as Hn. intros [->| ->]%attachment_sites; [|done]. by apply NoDup_app in Hn as [? _].
Qed.

Lemma branch_lan_wf site n : branch_lan r site = Ok n → network_wf n.
Proof.
  unfold branch_lan, get_site. intros Hb. apply bind_Ok in Hb as (name & _ & Hb). apply bind_Ok in Hb as (s & Hs & [= <-]).
  unfold of_option in Hs. destruct (dget (sites _) name) eqn:E; [|done]. injection Hs as ->.
  pose proof (cl_lans _ Hclean) as Hl. rewrite Forall_forall in Hl. apply Hl, elem_of_map. exists s. split; [done|]. by eapply dget_dvals.
Qed.

Lemma source_networks_wf items a nets : attachments r t = Ok items → a ∈ items → source_networks r a = Ok nets →
  Forall network_wf nets.
Proof.
  intros Hi Ha Hn. destruct (attachments_inv _ _ Hi Ha) as [Hr _]. unfold source_networks in Hn.
  apply bind_Ok in Hn as (lan & Hlan & [= <-]). apply Forall_cons. split; [by apply host_route_wf|]. apply Forall_app. split.
  - destruct (String.eqb (role a) "spoke"); [|by injection Hlan as <-]. apply bind_Ok in Hlan as (n & Hn & [= <-]).
    apply Forall_singleton. by eapply branch_lan_wf.
  - destruct (String.eqb (role a) "internet_gateway"); [|done]. apply Forall_singleton, Hclean.
Qed.
End view.

(** What a forwarding entry of source [s] can be. *)
Definition fib_entry (r : UnderlayRegistry) (p : UnderlayServiceProfile) (items : list UnderlayAttachment) (f : FibRoute)
    (s : UnderlayAttachment) : Prop :=
  s ∈ items ∧ authorized s = true ∧ source_site f = at_site s ∧
  ((∃ tgt, tgt ∈ items ∧ authorized tgt = true ∧ at_site s ≠ at_site tgt ∧ egress_site f = at_site tgt ∧
      allowed_endpoint p s tgt = true ∧
      (destination f = host_route (at_address tgt) ∨
       internet_access p = true ∧ role s = "internet_gateway" ∧ role tgt = "spoke" ∧
       branch_lan r (at_site tgt) = Ok (destination f))) ∨
   (internet_access p = true ∧ role s ≠ "internet_gateway" ∧ destination f = saas_network (reg_config r) ∧
    egress_site f = saas_gateway_name (reg_config r))).

Lemma mapM_concat_elem {A B} (f : A → result (list B)) l ls x :
  mapM_result f l = Ok ls → x ∈ concat ls → ∃ a ys, a ∈ l ∧ f a = Ok ys ∧ x ∈ ys.
Proof.
  intros H%mapM_result_Forall2 (ys & Hys & Hx)%elem_of_concat.
  apply (Forall2_elem_r _ _ _ _ H) in Hys as (a & Ha & E). by exists a, ys.
Qed.

Lemma fib_inv r t items routes f :
  attachments r t = Ok items → fib r t = Ok routes → f ∈ routes →
  ∃ p s, dget (service_profiles (reg_config r)) t = Some p ∧ fib_entry r p items f s.
Proof.
  unfold fib. intros Hi Hf Hin. apply bind_Ok in Hf as (p & Hp & Hf). rewrite Hi in Hf. cbn [mbind result_bind] in Hf.
  apply bind_Ok in Hf as (rs & Hrs & [= <-]). unfold of_option in Hp.
  destruct (dget (service_profiles (reg_config r)) t) as [p'|]; [|done]. injection Hp as ->. exists p.
  apply (mapM_concat_elem _ _ _ _ Hrs) in Hin as (s & ys & Hs & Hys & Hin). exists s. split; [done|].
  apply filter_elem in Hs as [Hs Ha]. unfold source_routes in Hys. apply bind_Ok in Hys as (per & Hper & [= <-]).
  apply elem_of_app in Hin as [Hin|Hin].
  - apply (mapM_concat_elem _ _ _ _ Hper) in Hin as (tgt & ys & Ht & Hys & Hin). apply filter_elem in Ht as [Ht Hta].
    unfold pair_routes in Hys. destruct (String.eqb_spec (at_site s) (at_site tgt)) as [|Hne]; [injection Hys as <-; by inversion Hin|].
    destruct (allowed_endpoint p s tgt) eqn:Hal; [|injection Hys as <-; by inversion Hin].
    apply bind_Ok in Hys as (back & Hback & [= <-]). apply elem_of_cons in Hin as [->|Hin].
    + split_and!; try done. left. exists tgt. split_and!; try done. by left.
    + destruct (internet_access p) eqn:Hia; [|injection Hback as <-; by inversion Hin].
      destruct (String.eqb_spec (role s) "internet_gateway") as [Hr1|]; [|injection Hback as <-; by inversion Hin].
      destruct (String.eqb_spec (role tgt) "spoke") as [Hr2|]; [|injection Hback as <-; by inversion Hin].
      apply bind_Ok in Hback as (lan & Hlan & [= <-]). apply list_elem_of_singleton in Hin as ->.
      split_and!; try done. left. exists tgt. split_and!; try done. right. by split_and!.
  - destruct (internet_access p) eqn:Hia; [|by inversion Hin].
    destruct (String.eqb_spec (role s) "internet_gateway") as [|Hr1]; [by inversion Hin|].
    apply list_elem_of_singleton in Hin as ->. split_and!; try done. right. by split_and!.
Qed.

Lemma fib_wf c auth t items routes f : clean c →
  attachments (UnderlayRegistry_init c (Some auth)) t = Ok items → fib (UnderlayRegistry_init c (Some auth)) t = Ok routes →
  f ∈ routes → network_wf (destination f).
Proof.
  intros Hc Hi Hf Hin. destruct (fib_inv _ _ _ _ _ Hi Hf Hin) as (p & s & _ & _ & _ & _ & Ht).
  destruct Ht as [(tgt & Htgt & _ & _ & _ & _ & [->|(_ & _ & _ & Hl)])|(_ & _ & -> & _)].
  - apply host_route_wf. by eapply attachments_inv.
  - by eapply branch_lan_wf.
  - apply Hc.
Qed.

(** ** Registries with the same fingerprint *)

Lemma network_str_inj n m : network_wf n → network_wf m → network_str n = network_str m → n = m.
Proof. intros Hn%ip_network_str Hm%ip_network_str E. rewrite E, Hm in Hn. by injection Hn. Qed.

Lemma networks_inj l k : Forall network_wf l → Forall network_wf k → map network_str l = map network_str k → l = k.
Proof.
  revert k. induction l as [|n l IH]; intros [|m k] Hl Hk E; try done. simpl in E. injection E as E1 E2.
  apply Forall_cons in Hl as [? ?], Hk as [? ?]. f_equal; [by apply network_str_inj|by apply IH].
Qed.

Lemma sorted_same {A B} (f : A → B) (le : B → B → bool) l k x :
  sort_by le (map f l) = sort_by le (map f k) → x ∈ l → ∃ y, y ∈ k ∧ f x = f y.
Proof.
  intros E Hx. assert (f x ∈ sort_by le (map f l)) as H by (apply sort_by_elem, elem_of_map; by exists x).
  rewrite E, sort_by_elem, elem_of_map in H. destruct H as (y & ? & ?). by exists y.
Qed.

(** What the fingerprint of an attachment fixes. *)
Definition same_attachment (r r' : UnderlayRegistry) (a a' : UnderlayAttachment) : Prop :=
  at_site a = at_site a' ∧ Underlay.port_name a = Underlay.port_name a' ∧ expected_mac a = expected_mac a' ∧
  authorized a = authorized a' ∧ role a = role a' ∧
  ∃ nets, source_networks r a = Ok nets ∧ source_networks r' a' = Ok nets.

Definition same_route (f f' : FibRoute) : Prop :=
  source_site f = source_site f' ∧ egress_site f = egress_site f' ∧ destination f = destination f'.

Lemma fingerprint_parts fp m0 t0 r0 ports0 items0 routes0 :
  programming_fingerprint m0 t0 r0 ports0 = Ok fp → attachments r0 t0 = Ok items0 → fib r0 t0 = Ok routes0 →
  ∃ keys, mapM_result (attachment_key r0) (attached ports0 items0) = Ok keys ∧ fp_transport fp = t0 ∧
    fp_attachments fp = sort_by texts_le keys ∧ fp_routes fp = sort_by texts_le (map route_key routes0).
Proof.
  unfold programming_fingerprint. intros H Hi0 Hf0. rewrite Hi0, Hf0 in H. cbn [mbind result_bind] in H.
  apply bind_Ok in H as (keys & Hk & [= <-]). by exists keys.
Qed.

Section transfer.
Context (c c' : TopologyConfig) (auth auth' : list string) (m : UnderlayMode) (t t' : string) (ports ports' : dict string Z).
Context (fp : Fingerprint) (items items' : list UnderlayAttachment) (routes routes' : list FibRoute).
Context (Hc : clean c) (Hc' : clean c').
Let r := UnderlayRegistry_init c (Some auth).
Let r' := UnderlayRegistry_init c' (Some auth').
Context (Hi : attachments r t = Ok items) (Hi' : attachments r' t' = Ok items').
Context (Hf : fib r t = Ok routes) (Hf' : fib r' t' = Ok routes').
Context (Hfp : programming_fingerprint m t r ports = Ok fp) (Hfp' : programming_fingerprint m t' r' ports' = Ok fp).

Lemma same_transport : t = t'.
Proof.
  destruct (fingerprint_parts _ _ _ _ _ _ _ Hfp Hi Hf) as (_ & _ & <- & _).
  by destruct (fingerprint_parts _ _ _ _ _ _ _ Hfp' Hi' Hf') as (_ & _ & <- & _).
Qed.

Lemma transfer_route f : f ∈ routes → ∃ f', f' ∈ routes' ∧ same_route f f'.
Proof.
  intros Hin. destruct (fingerprint_parts _ _ _ _ _ _ _ Hfp Hi Hf) as (_ & _ & _ & _ & E).
  destruct (fingerprint_parts _ _ _ _ _ _ _ Hfp' Hi' Hf') as (_ & _ & _ & _ & E'). rewrite E in E'.
  destruct (sorted_same _ _ _ _ _ E' Hin) as (f' & Hin' & Hk). exists f'. split; [done|].
  unfold route_key in Hk. injection Hk as E1 E2 E3 _. split_and!; [done|done|].
  apply network_str_inj; [exact (fib_wf c auth t items routes f Hc Hi Hf Hin)|exact (fib_wf c' auth' t' items' routes' f' Hc' Hi' Hf' Hin')|done].
Qed.

Lemma transfer_attachment a : a ∈ attached ports items → ∃ a', a' ∈ attached ports' items' ∧ same_attachment r r' a a'.
Proof.
  intros Ha. destruct (fingerprint_parts _ _ _ _ _ _ _ Hfp Hi Hf) as (keys & Hk & _ & E & _).
  destruct (fingerprint_parts _ _ _ _ _ _ _ Hfp' Hi' Hf') as (keys' & Hk' & _ & E' & _). rewrite E in E'.
  destruct (mapM_result_elem _ _ _ a Hk Ha) as (k & Hka & Hin).
  assert (k ∈ keys') as Hin' by (apply (sort_by_elem texts_le); rewrite <- E'; by apply sort_by_elem).
  apply mapM_result_Forall2 in Hk'. apply (Forall2_elem_r _ _ _ _ Hk') in Hin' as (a' & Ha' & Hka').
  exists a'. split; [done|]. unfold attachment_key in Hka, Hka'.
  apply bind_Ok in Hka as (nets & Hn & [= <-]). apply bind_Ok in Hka' as (nets' & Hn' & Hka').
  injection Hka' as E1 E2 E3 E4 E5 E6 E7. symmetry in E7.
  assert (nets = nets') as ->.
  { apply attached_elem in Ha as [Ha _], Ha' as [Ha' _].
    apply networks_inj; [exact (source_networks_wf c auth t Hc items a nets Hi Ha Hn)
                        |exact (source_networks_wf c' auth' t' Hc' items' a' nets' Hi' Ha' Hn')|done]. }
  split_and!; try done; [by destruct (authorized a), (authorized a')|by exists nets'].
Qed.
End transfer.

(** ** Packets through one program *)

Lemma masked_network a n : network_wf n → masked a (network_address n, netmask n) = in_network a n.
Proof.
  intros [Hl Hb Hal]. unfold masked, in_network, network_address, netmask, hostbits in *. cbn [fst snd].
  by rewrite (ones_shift_land (net_addr n)), Hal, Z.sub_0_r by lia.
Qed.

Lemma matches_port i ty p : matches (match_port i ty) p = true ↔ pk_in p = i ∧ pk_type p = ty.
Proof. unfold matches, holds. cbn. rewrite !andb_true_r, andb_true_iff, !Z.eqb_eq. done. Qed.

Lemma matches_destination i n p : network_wf n →
  matches (destination_match i n) p = true ↔ pk_in p = i ∧ pk_type p = ETH_TYPE_IP ∧ in_network (pk_dst p) n = true.
Proof.
  intros Hn. unfold matches, holds. cbn [destination_match m_in_port m_eth_type m_eth_src m_eth_dst m_ipv4_src m_ipv4_dst].
  rewrite (masked_network _ _ Hn), !andb_true_r, !andb_true_iff, !Z.eqb_eq. tauto.
Qed.

Lemma matches_validation m i a n p : network_wf n →
  matches (validation_match m i a n) p = true ↔
  pk_in p = i ∧ pk_type p = ETH_TYPE_IP ∧ (m = ENFORCE → pk_src_mac p = expected_mac a) ∧ in_network (pk_src p) n = true.
Proof.
  intros Hn. unfold matches, holds.
  cbn [validation_match m_in_port m_eth_type m_eth_src m_eth_dst m_ipv4_src m_ipv4_dst].
  rewrite (masked_network _ _ Hn), !andb_true_r, !andb_true_iff, !Z.eqb_eq. case_bool_decide as E.
  - rewrite String.eqb_eq. tauto.
  - tauto.
Qed.

(** The packet comes from the port, an address and (enforcing) the MAC of [s]. *)
Definition passes (r : UnderlayRegistry) (m : UnderlayMode) (ports : dict string Z) (p : Packet) (s : UnderlayAttachment) : Prop :=
  authorized s = true ∧ dget ports (Underlay.port_name s) = Some (pk_in p) ∧
  (m = ENFORCE → pk_src_mac p = expected_mac s) ∧
  ∃ nets n, source_networks r s = Ok nets ∧ n ∈ nets ∧ in_network (pk_src p) n = true.

(** Route [f] takes it from the port of [s] to the port of [tgt]. *)
Definition routed (ports : dict string Z) (p : Packet) (f : FibRoute) (s tgt : UnderlayAttachment) (out : Z) : Prop :=
  source_site f = at_site s ∧ egress_site f = at_site tgt ∧ dget ports (Underlay.port_name s) = Some (pk_in p) ∧
  dget ports (Underlay.port_name tgt) = Some out ∧ in_network (pk_dst p) (destination f) = true.

(** The packet as the provider gateway sends it on. *)
Definition relayed (p : Packet) (mac : string) (tgt : UnderlayAttachment) : Packet :=
  set_macs (set_ttl p (pk_ttl p - 1)) mac (expected_mac tgt).

Section program.
Context (r : UnderlayRegistry) (m : UnderlayMode) (ports : dict string Z) (mac : string).
Context (items : list UnderlayAttachment) (routes : list FibRoute).
Context (Hnets : ∀ a nets, a ∈ items → source_networks r a = Ok nets → Forall network_wf nets).
Context (Hdest : ∀ f, f ∈ routes → network_wf (destination f)).
Let flows := program m r ports mac items routes.
Let tables := fold_left flow_add flows [].

(** Every entry, by the loop that made it. *)
Lemma program_elem g : g ∈ flows →
  (∃ t, t ∈ [0; 10; 20; 30] ∧ g = flow t 0 match_any [OutputController] None) ∨
  (∃ a i nets, a ∈ items ∧ dget ports (Underlay.port_name a) = Some i ∧ authorized a = true ∧ source_networks r a = Ok nets ∧
     (g = flow 0 400 (match_port i ETH_TYPE_ARP) [OutputController] None ∨
      g = flow 0 400 (match_port i ETH_TYPE_IP) [] (Some 10) ∨
      ∃ n, n ∈ nets ∧ g = flow 10 400 (validation_match m i a n) [] (Some 20))) ∨
  (∃ f s tgt i o, f ∈ routes ∧ dget (by_site items) (source_site f) = Some s ∧ dget (by_site items) (egress_site f) = Some tgt ∧
     dget ports (Underlay.port_name s) = Some i ∧ dget ports (Underlay.port_name tgt) = Some o ∧
     (g = flow 20 300 (destination_match i (destination f)) [] (Some 30) ∨
      g = flow 30 300 (destination_match i (destination f)) [DecNwTtl; SetEthSrc mac; SetEthDst (expected_mac tgt); Output o] None)).
Proof.
  unfold flows, program. rewrite !elem_of_app. intros [Hg|[Hg|Hg]].
  - left. unfold default_flows in Hg. apply elem_of_map in Hg as (t & -> & Ht). by exists t.
  - right. left. apply list_elem_of_In, in_flat_map in Hg as (a & Ha%list_elem_of_In & Hg%list_elem_of_In).
    unfold admit_flows in Hg. destruct (dget ports (Underlay.port_name a)) as [i|] eqn:Hi; [|by inversion Hg].
    destruct (source_networks r a) as [nets|] eqn:Hn; [|by inversion Hg]. destruct (authorized a) eqn:Hau; [|by inversion Hg].
    exists a, i, nets. split_and!; try done. apply elem_of_cons in Hg as [->|Hg]; [by left|].
    apply elem_of_cons in Hg as [->|Hg]; [by right; left|]. apply elem_of_map in Hg as (n & -> & Hin). right. right. by exists n.
  - right. right. apply list_elem_of_In, in_flat_map in Hg as (f & Hf%list_elem_of_In & Hg%list_elem_of_In).
    unfold route_flows in Hg. destruct (dget (by_site items) (source_site f)) as [s|] eqn:Hs; [|by inversion Hg].
    destruct (dget (by_site items) (egress_site f)) as [tgt|] eqn:Ht; [|by inversion Hg].
    destruct (dget ports (Underlay.port_name s)) as [i|] eqn:Hi; [|by inversion Hg].
    destruct (dget ports (Underlay.port_name tgt)) as [o|] eqn:Ho; [|by inversion Hg].
    exists f, s, tgt, i, o. split_and!; try done. apply elem_of_cons in Hg as [->|Hg]; [by left|].
    apply list_elem_of_singleton in Hg as ->. by right.
Qed.

Lemma tables_elem g : g ∈ tables → g ∈ flows.
Proof. intros [Hg|Hg]%flow_adds_incl; [by inversion Hg|done]. Qed.

Lemma dget_by_site s : NoDup (map at_site items) → s ∈ items → dget (by_site items) (at_site s) = Some s.
Proof.
  intros Hnd Hs. assert (is_Some (dget (by_site items) (at_site s))) as [s' Hs'].
  { unfold by_site, dict_of. clear - Hs. rewrite <- (rev_involutive items) in *.
    induction (rev items) as [|y l IH]; simpl in *; [by inversion Hs|]. rewrite map_app, fold_left_app. simpl.
    rewrite dget_dset. case_decide as E; [done|]. apply elem_of_app in Hs as [Hs|Hs%list_elem_of_singleton]; [by apply IH|].
    by subst. }
  rewrite Hs'. f_equal. apply (dget_dict_of_elem at_site) in Hs' as [Hin E]. by apply (NoDup_map_inj at_site items).
Qed.

(** The best matches of a packet, table by table. *)
Lemma stage_0 p g : best tables 0 p g →
  (fm_goto g = None ∧ fm_actions g = [OutputController] ∧ (fm_priority g = 0 ∨ pk_type p = ETH_TYPE_ARP)) ∨
  (pk_type p = ETH_TYPE_IP ∧ fm_goto g = Some 10 ∧ fm_actions g = []).
Proof.
  intros (Hg & Ht & Hm & _). apply tables_elem, program_elem in Hg.
  destruct Hg as [(t & _ & ->)|[(a & i & nets & _ & _ & _ & _ & [->|[->|(n & _ & ->)]])|(f & s & tgt & i & o & _ & _ & _ & _ & _ & [->| ->])]];
    try discriminate Ht; [by left; split_and!; [..|left]| |].
  - apply matches_port in Hm as [_ ?]. left. split_and!; [done..|by right].
  - right. apply matches_port in Hm as [_ ?]. done.
Qed.

Lemma stage_10 p g : best tables 10 p g →
  (fm_goto g = None ∧ fm_actions g = [OutputController] ∧ fm_priority g = 0) ∨
  (fm_goto g = Some 20 ∧ fm_actions g = [] ∧ pk_type p = ETH_TYPE_IP ∧ ∃ s, s ∈ items ∧ passes r m ports p s).
Proof.
  intros (Hg & Ht & Hm & _). apply tables_elem, program_elem in Hg.
  destruct Hg as [(t & _ & ->)|[(a & i & nets & Ha & Hi & Hau & Hn & [->|[->|(n & Hin & ->)]])|(f & s & tgt & i & o & _ & _ & _ & _ & _ & [->| ->])]];
    try discriminate Ht; [by left|].
  right. apply matches_validation in Hm as (<- & ? & ? & ?).
  - split_and!; try done. exists a. split; [done|]. split_and!; try done. by exists nets, n.
  - pose proof (Hnets _ _ Ha Hn) as Hw. rewrite Forall_forall in Hw. by apply Hw.
Qed.

Lemma stage_20 p g : best tables 20 p g →
  (fm_goto g = None ∧ fm_actions g = [OutputController] ∧ fm_priority g = 0) ∨ (fm_goto g = Some 30 ∧ fm_actions g = []).
Proof.
  intros (Hg & Ht & Hm & _). apply tables_elem, program_elem in Hg.
  destruct Hg as [(t & _ & ->)|[(a & i & nets & _ & _ & _ & _ & [->|[->|(n & _ & ->)]])|(f & s & tgt & i & o & _ & _ & _ & _ & _ & [->| ->])]];
    try discriminate Ht; [by left|by right].
Qed.

Lemma by_site_elem k s : dget (by_site items) k = Some s → s ∈ items ∧ at_site s = k.
Proof. apply (dget_dict_of_elem at_site). Qed.

Lemma stage_30 p g : best tables 30 p g →
  fm_goto g = None ∧
  (fm_actions g = [OutputController] ∧ fm_priority g = 0 ∨
   ∃ f s tgt out, f ∈ routes ∧ s ∈ items ∧ tgt ∈ items ∧ routed ports p f s tgt out ∧
     fm_actions g = [DecNwTtl; SetEthSrc mac; SetEthDst (expected_mac tgt); Output out]).
Proof.
  intros (Hg & Ht & Hm & _). apply tables_elem, program_elem in Hg.
  destruct Hg as [(t & _ & ->)|[(a & i & nets & _ & _ & _ & _ & [->|[->|(n & _ & ->)]])|(f & s & tgt & i & o & Hf & Hs & Htg & Hi & Ho & [->| ->])]];
    try discriminate Ht; [by split; [|left]|].
  split; [done|]. right. apply by_site_elem in Hs as [Hs Es], Htg as [Htg Et].
  apply matches_destination in Hm as (<- & _ & ?); [|by apply Hdest].
  exists f, s, tgt, o. by split_and!.
Qed.

(** Only packets the policy allows leave the switch, rewritten for the target. *)
Lemma program_sound p a q : forwards tables 0 p a q → a = OutputController ∨
  ∃ s f s' tgt out, s ∈ items ∧ s' ∈ items ∧ tgt ∈ items ∧ f ∈ routes ∧ passes r m ports p s ∧
    routed ports p f s' tgt out ∧ pk_type p = ETH_TYPE_IP ∧ 1 < pk_ttl p ∧ a = Output out ∧ q = relayed p mac tgt.
Proof.
  assert (Hctl : ∀ (p0 q0 : Packet) a0, (a0, q0) ∈ (run_actions [OutputController] p0).1 → a0 = OutputController).
  { intros p0 q0 a0 H. simpl in H. apply list_elem_of_singleton in H. by injection H as ->. }
  assert (Hnone : ∀ (p0 q0 : Packet) a0, ¬ (a0, q0) ∈ (run_actions [] p0).1).
  { intros p0 q0 a0 H. by inversion H. }
  intros H0. inversion H0 as [? ? g ? ? Hb Hin|? ? g n p1 ? ? Hb Hgo Hp H1]; subst; clear H0.
  { apply stage_0 in Hb as [(_ & E & _)|(_ & _ & E)]; rewrite E in Hin; [left; by eapply Hctl|by apply Hnone in Hin]. }
  apply stage_0 in Hb as [(E & _)|(_ & E1 & E2)]; [congruence|]. rewrite E1 in Hgo. injection Hgo as <-.
  rewrite E2 in Hp. injection Hp as <-. clear g E1 E2.
  inversion H1 as [? ? g ? ? Hb Hin|? ? g n p1 ? ? Hb Hgo Hp H2]; subst; clear H1.
  { apply stage_10 in Hb as [(_ & E & _)|(_ & E & _)]; rewrite E in Hin; [left; by eapply Hctl|by apply Hnone in Hin]. }
  apply stage_10 in Hb as [(E & _)|(E1 & E2 & Hty & s & Hs & Hpass)]; [congruence|]. rewrite E1 in Hgo. injection Hgo as <-.
  rewrite E2 in Hp. injection Hp as <-. clear g E1 E2.
  inversion H2 as [? ? g ? ? Hb Hin|? ? g n p1 ? ? Hb Hgo Hp H3]; subst; clear H2.
  { apply stage_20 in Hb as [(_ & E & _)|[_ E]]; rewrite E in Hin; [left; by eapply Hctl|by apply Hnone in Hin]. }
  apply stage_20 in Hb as [(E & _)|[E1 E2]]; [congruence|]. rewrite E1 in Hgo. injection Hgo as <-.
  rewrite E2 in Hp. injection Hp as <-. clear g E1 E2.
  inversion H3 as [? ? g ? ? Hb Hin|? ? g n p1 ? ? Hb Hgo Hp H4]; subst; clear H3.
  - apply stage_30 in Hb as [_ [[E _]|(f & s' & tgt & out & Hf & Hs' & Ht & Hr & E)]]; rewrite E in Hin; [left; by eapply Hctl|].
    right. cbn [run_actions] in Hin. destruct (Z.leb_spec (pk_ttl p) 1); [by inversion Hin|].
    apply list_elem_of_singleton in Hin. injection Hin as -> ->. by exists s, f, s', tgt, out.
  - apply stage_30 in Hb as [E _]. congruence.
Qed.

Lemma tables_match t p g : g ∈ flows → fm_table g = t → matches (fm_match g) p = true →
  ∃ h, best tables t p h ∧ fm_priority g <= fm_priority h.
Proof.
  intros Hg Ht Hm. destruct (flow_adds_keep flows [] g (or_introl Hg)) as (g' & Hg' & E).
  apply same_entry_true in E as (E1 & E2 & E3).
  destruct (best_exists tables t p g') as (h & Hh & Hp); [done|congruence|by rewrite <- E3|]. exists h. split; [done|lia].
Qed.

(** Every packet the policy allows does leave the switch. *)
Lemma program_complete p s f tgt out : NoDup (map at_site items) →
  s ∈ items → tgt ∈ items → f ∈ routes → passes r m ports p s → routed ports p f s tgt out →
  pk_type p = ETH_TYPE_IP → 1 < pk_ttl p → ∃ out' q, forwards tables 0 p (Output out') q.
Proof.
  intros Hnd Hs Htg Hf (Hau & Hport & Hmac & nets & n & Hn & Hin & Hsrc) (R1 & R2 & R3 & R4 & R5) Hty Httl.
  assert (Hadm : ∀ g, g ∈ admit_flows m r ports s → g ∈ flows).
  { intros g Hg. unfold flows, program. rewrite !elem_of_app. right. left.
    apply list_elem_of_In, in_flat_map. exists s. split; by apply list_elem_of_In. }
  assert (Hrt : ∀ g, g ∈ route_flows mac ports (by_site items) f → g ∈ flows).
  { intros g Hg. unfold flows, program. rewrite !elem_of_app. right. right.
    apply list_elem_of_In, in_flat_map. exists f. split; by apply list_elem_of_In. }
  unfold admit_flows in Hadm. rewrite Hport, Hn, Hau in Hadm.
  unfold route_flows in Hrt. rewrite R1, R2, !dget_by_site, R3, R4 in Hrt by done.
  destruct (tables_match 30 p _ (Hrt _ (list_elem_of_further _ _ _ (list_elem_of_here _ _)))) as (g3 & B3 & P3); [done|by apply matches_destination; [apply Hdest|]|].
  pose proof (stage_30 _ _ B3) as [_ [[_ E]|(f' & s' & tgt' & out' & _ & _ & _ & _ & A3)]]; [simpl in P3; lia|].
  destruct (tables_match 20 p _ (Hrt _ (list_elem_of_here _ _))) as (g2 & B2 & P2); [done|by apply matches_destination; [apply Hdest|]|].
  pose proof (stage_20 _ _ B2) as [(_ & _ & E)|[G2 A2]]; [simpl in P2; lia|].
  assert (flow 10 400 (validation_match m (pk_in p) s n) [] (Some 20) ∈ flows) as Hval.
  { apply Hadm. do 2 right. apply elem_of_map. by exists n. }
  destruct (tables_match 10 p _ Hval) as (g1 & B1 & P1); [done| |].
  { apply matches_validation; [|done]. pose proof (Hnets _ _ Hs Hn) as Hw. rewrite Forall_forall in Hw. by apply Hw. }
  pose proof (stage_10 _ _ B1) as [(_ & _ & E)|(G1 & A1 & _)]; [simpl in P1; lia|].
  assert (flow 0 400 (match_port (pk_in p) ETH_TYPE_IP) [] (Some 10) ∈ flows) as Hip by (apply Hadm; right; left).
  destruct (tables_match 0 p _ Hip) as (g0 & B0 & P0); [done|by apply matches_port|].
  pose proof (stage_0 _ _ B0) as [(_ & _ & [E|E])|(_ & G0 & A0)]; [simpl in P0; lia|rewrite Hty in E; discriminate E|].
  exists out', (relayed p mac tgt').
  eapply forwards_goto; [exact B0|exact G0|by rewrite A0|]. eapply forwards_goto; [exact B1|exact G1|by rewrite A1|].
  eapply forwards_goto; [exact B2|exact G2|by rewrite A2|]. eapply forwards_here; [exact B3|]. rewrite A3. cbn [run_actions].
  destruct (Z.leb_spec (pk_ttl p) 1); [lia|]. simpl. by left.
Qed.
End program.

(** ** The switches of a reachable controller *)

Lemma NoDup_map_filter {A B} (f : A → B) (b : A → bool) l : NoDup (map f l) → NoDup (map f (List.filter b l)).
Proof.
  induction l as [|x l IH]; simpl; [done|]. intros [Hx Hl]%NoDup_cons. destruct (b x); simpl; [|by apply IH].
  apply NoDup_cons. split; [|by apply IH]. intros (y & E & [Hy _]%filter_elem)%elem_of_map. apply Hx.
  apply elem_of_map. by exists y.
Qed.


(** [q] leaves by [out]: an IP packet of an authorised attachment, from its
    port, one of its addresses and (enforcing) its MAC, taken by a route of the
    policy to the port of the route's egress, as the gateway sends it on. *)
Definition permitted (r : UnderlayRegistry) (m : UnderlayMode) (ports : dict string Z) (items : list UnderlayAttachment)
    (routes : list FibRoute) (mac : string) (p : Packet) (out : Z) (q : Packet) : Prop :=
  ∃ s f tgt, s ∈ items ∧ tgt ∈ items ∧ f ∈ routes ∧ passes r m ports p s ∧ routed ports p f s tgt out ∧
    pk_type p = ETH_TYPE_IP ∧ 1 < pk_ttl p ∧ q = relayed p mac tgt.

Lemma same_passes r r' m ports p a a' : same_attachment r r' a a' → passes r m ports p a → passes r' m ports p a'.
Proof.
  intros (E1 & E2 & E3 & E4 & E5 & nets & Hn & Hn') (P1 & P2 & P3 & nets' & n & Hn2 & Hin & Hs).
  rewrite Hn in Hn2. injection Hn2 as <-. split_and!; [congruence|congruence|by rewrite <- E3|by exists nets, n].
Qed.

Lemma same_routed r r' ports p f f' s s' tgt tgt' out :
  same_route f f' → same_attachment r r' s s' → same_attachment r r' tgt tgt' →
  routed ports p f s tgt out → routed ports p f' s' tgt' out.
Proof.
  intros (F1 & F2 & F3) (E1 & E2 & _) (T1 & T2 & _) (R1 & R2 & R3 & R4 & R5). split_and!; congruence.
Qed.

Lemma routed_attached ports p f s tgt out items : s ∈ items → tgt ∈ items → routed ports p f s tgt out →
  s ∈ attached ports items ∧ tgt ∈ attached ports items.
Proof.
  intros Hs Ht (_ & _ & R3 & R4 & _). split; apply attached_elem; (split; [done|by eexists]).
Qed.

(** Attachments on the same port are the same attachment. *)
Lemma same_port (ports : dict string Z) items s s' i : NoDup (dvals ports) → NoDup (map Underlay.port_name items) → s ∈ items → s' ∈ items →
  dget ports (Underlay.port_name s) = Some i → dget ports (Underlay.port_name s') = Some i → s = s'.
Proof.
  intros Hv Hn Hs Hs' E%dget_In E'%dget_In. apply (NoDup_map_inj Underlay.port_name items); try done.
  pose proof (NoDup_map_inj snd ports _ _ Hv E E' eq_refl) as Ep. by injection Ep.
Qed.

Lemma reconciled base m e dp u u' c r t : reachable base m u → m ≠ DISABLED →
  reconcile_datapath e dp u = (Ok tt, u') → view base (rows e) c r → transport_of dp c = Some t →
  ports_of u' dp = ports_of u dp ∧
  ∃ fp fl rs fl', compiled base m (rows e) dp (ports_of u dp) fp fl ∧ compiled base m rs dp (ports_of u dp) fp fl' ∧
    switch_tables dp (sent u') = fold_left flow_add fl' [].
Proof.
  intros Hreach Hm Hrun (auth & Hload & _) Ht. apply reachable_synced in Hreach as (Hb & Hmode & Hsync).
  pose proof (reconcile_run e dp u) as Hcases. rewrite Hrun in Hcases. cbn [fst snd] in Hcases. rewrite Hb, Hmode in Hcases.
  destruct Hcases as [[Hk Hwhy]|[[Hd _]|(fp & fl & Hc & Hk)]]; [|done|].
  - unfold dataplane in Hk. injection Hk as _ _ Hp _ Hse. split; [unfold ports_of; by rewrite Hp|].
    destruct Hwhy as [[x E]|[(c' & auth' & Hl & Hn)|[[Hd _]|(fp & fl & Hc & Hp')]]]; [done| |done|].
    + rewrite Hload in Hl. injection Hl as <- _. congruence.
    + destruct (Hsync dp fp Hp') as (rs & fl' & Hc' & Htab). rewrite Hb, Hmode in Hc'. exists fp, fl, rs, fl'.
      by rewrite Hse.
  - unfold dataplane in Hk. injection Hk as _ _ Hp _ Hse. split; [unfold ports_of; by rewrite Hp|].
    exists fp, fl, (rows e), fl. split_and!; try done. rewrite Hse. cbn [sent set_sent]. apply switch_tables_program.
Qed.

Lemma view_clean base rs c r : clean base → view base rs c r → clean c ∧ ∃ auth, r = UnderlayRegistry_init c (Some auth).
Proof. intros Hb (auth & Hl & ->). split; [by eapply load_clean|by exists auth]. Qed.

Lemma gateway_mac_base base rs c r t : view base rs c r → underlay_gateway_mac c t = underlay_gateway_mac base t.
Proof. intros (auth & Hl & _). unfold underlay_gateway_mac, get_transport. by rewrite (load_transports _ _ _ _ Hl). Qed.

(** C22: the provider underlay isolates the sites.  In any state the controller
    can reach, after it has reconciled a provider switch, the switch lets a
    packet out exactly when the policy of the inventory just read permits it:
    an IP packet from the port, a source address and (in ENFORCE mode) the MAC
    of an authorised attachment, along a route of that attachment, leaving by
    the port of the route's egress with the MAC of the egress and one less TTL.
    Anything else is dropped or mirrored to the controller.  This holds whether
    the switch was programmed now or left alone because the fingerprint of its
    earlier program is the current one.  (Port names and port numbers are taken
    to be distinct.) *)
Theorem underlay_isolation `{PyRepr} raw source base m u e dp u' c r t items routes :
  config_from_mapping raw source = Ok base → reachable base m u → m ≠ DISABLED →
  reconcile_datapath e dp u = (Ok tt, u') → view base (rows e) c r → transport_of dp c = Some t →
  attachments r t = Ok items → fib r t = Ok routes →
  NoDup (map Underlay.port_name items) → NoDup (dvals (ports_of u' dp)) →
  let allowed := permitted r m (ports_of u' dp) items routes in
  let out_of := forwards (switch_tables dp (sent u')) 0 in
  ∃ mac, underlay_gateway_mac c t = Ok mac ∧ ∀ p,
    (∀ a q, out_of p a q → a = OutputController ∨ ∃ out, a = Output out ∧ allowed mac p out q) ∧
    (∀ out q, allowed mac p out q → ∃ out' q', out_of p (Output out') q').
Proof.
  intros Hacc Hreach Hm Hrun Hview Ht Hi Hf Hnames Hnums allowed out_of. subst allowed out_of.
  destruct (reconciled _ _ _ _ _ _ _ _ _ Hreach Hm Hrun Hview Ht) as (Hports & fp & fl & rs & fl' & Hc1 & Hc2 & ->).
  apply accepted_clean in Hacc. destruct Hc1 as [c1 r1 t1 items1 routes1 mac1 fp V1 T1 I1 F1 M1 _ P1].
  assert (c1 = c ∧ r1 = r) as [-> ->].
  { destruct Hview as (auth & Hl & ->), V1 as (auth1 & Hl1 & ->). rewrite Hl in Hl1. by injection Hl1 as -> ->. }
  rewrite Ht in T1. injection T1 as <-. rewrite Hi in I1. injection I1 as <-. rewrite Hf in F1. injection F1 as <-.
  rewrite Hports in *. set (ports := ports_of u dp) in *.
  remember fp as fp' eqn:Efp in Hc2. destruct Hc2 as [c2 r2 t2 items2 routes2 mac2 fp' V2 T2 I2 F2 M2 _ P2]. subst fp'.
  destruct (view_clean _ _ _ _ Hacc Hview) as (C1 & auth1 & ->). destruct (view_clean _ _ _ _ Hacc V2) as (C2 & auth2 & ->).
  assert (t2 = t) as -> by (by eapply (same_transport c2 c)).
  rewrite (gateway_mac_base _ _ _ _ _ Hview), <- (gateway_mac_base _ _ _ _ _ V2) in M1. rewrite M2 in M1. injection M1 as ->.
  exists mac1. split; [by rewrite (gateway_mac_base _ _ _ _ _ Hview), <- (gateway_mac_base _ _ _ _ _ V2)|]. intros p.
  assert (Hnets : ∀ a nets, a ∈ attached ports items2 → source_networks (UnderlayRegistry_init c2 (Some auth2)) a = Ok nets → Forall network_wf nets).
  { intros a nets [Ha _]%attached_elem. by apply (source_networks_wf c2 auth2 t C2 items2). }
  assert (Hdest : ∀ f, f ∈ routes2 → network_wf (destination f)).
  { intros f. by apply (fib_wf c2 auth2 t items2). }
  split.
  - intros a q Hfw. apply (program_sound _ _ _ _ _ _ Hnets Hdest) in Hfw as [->|Hfw]; [by left|right].
    destruct Hfw as (s & f & s' & tgt & out & Hs & Hs' & Htg & Hfr & Hp & Hr & Hty & Httl & -> & ->). exists out. split; [done|].
    destruct (transfer_attachment c2 c _ _ _ _ _ _ _ _ _ _ _ _ C2 C1 I2 Hi F2 Hf P2 P1 s Hs) as (s1 & Hs1 & E1).
    destruct (transfer_attachment c2 c _ _ _ _ _ _ _ _ _ _ _ _ C2 C1 I2 Hi F2 Hf P2 P1 s' Hs') as (s2 & Hs2 & E2).
    destruct (transfer_attachment c2 c _ _ _ _ _ _ _ _ _ _ _ _ C2 C1 I2 Hi F2 Hf P2 P1 tgt Htg) as (t1 & Ht1 & E3).
    destruct (transfer_route c2 c _ _ _ _ _ _ _ _ _ _ _ _ C2 C1 I2 Hi F2 Hf P2 P1 f Hfr) as (f1 & Hf1 & E4).
    apply attached_elem in Hs1 as [Hs1 _], Hs2 as [Hs2 _], Ht1 as [Ht1 _].
    apply (same_passes _ _ _ _ _ _ _ E1) in Hp. apply (same_routed _ _ _ _ _ _ _ _ _ _ _ E4 E2 E3) in Hr.
    assert (s1 = s2) as <-.
    { destruct Hp as (_ & Hp & _), Hr as (_ & _ & Hr & _). by apply (same_port ports items s1 s2 (pk_in p)). }
    exists s1, f1, t1. split_and!; try done. unfold relayed. by destruct E3 as (_ & _ & -> & _).
  - intros out q (s & f & tgt & Hs & Htg & Hfr & Hp & Hr & Hty & Httl & ->).
    destruct (routed_attached _ _ _ _ _ _ _ Hs Htg Hr) as [Hs' Htg'].
    destruct (transfer_attachment c c2 _ _ _ _ _ _ _ _ _ _ _ _ C1 C2 Hi I2 Hf F2 P1 P2 s Hs') as (s1 & Hs1 & E1).
    destruct (transfer_attachment c c2 _ _ _ _ _ _ _ _ _ _ _ _ C1 C2 Hi I2 Hf F2 P1 P2 tgt Htg') as (t1 & Ht1 & E3).
    destruct (transfer_route c c2 _ _ _ _ _ _ _ _ _ _ _ _ C1 C2 Hi I2 Hf F2 P1 P2 f Hfr) as (f1 & Hf1 & E4).
    eapply (program_complete _ _ _ _ _ _ Hnets Hdest p s1 f1 t1 out); try done.
    + unfold attached. apply NoDup_map_filter. by apply (attachment_sites_NoDup c2 auth2 t).
    + by apply (same_passes _ _ _ _ _ _ _ E1).
    + by apply (same_routed _ _ _ _ _ _ _ _ _ _ _ E4 E1 E3).
Qed.

(** ** Who may reach whom *)

Lemma mapM_concat_in {A B} (f : A → result (list B)) l ls a ys x :
  mapM_result f l = Ok ls → a ∈ l → f a = Ok ys → x ∈ ys → x ∈ concat ls.
Proof.
  intros H Ha Hf Hx. destruct (mapM_result_elem _ _ _ a H Ha) as (ys' & Hf' & Hin). rewrite Hf in Hf'. injection Hf' as <-.
  apply elem_of_concat. by exists ys.
Qed.

(** A pair the policy allows has its host route. *)
Lemma fib_has r t p items routes s tgt :
  dget (service_profiles (reg_config r)) t = Some p → attachments r t = Ok items → fib r t = Ok routes →
  s ∈ items → tgt ∈ items → authorized s = true → authorized tgt = true → at_site s ≠ at_site tgt →
  allowed_endpoint p s tgt = true →
  ∃ f, f ∈ routes ∧ source_site f = at_site s ∧ egress_site f = at_site tgt ∧ destination f = host_route (at_address tgt).
Proof.
  intros Hp Hi Hf Hs Ht As At Hne Hal. unfold fib in Hf. rewrite Hp, Hi in Hf. cbn [of_option mbind result_bind] in Hf.
  apply bind_Ok in Hf as (rs & Hrs & [= <-]).
  assert (s ∈ List.filter authorized items ∧ tgt ∈ List.filter authorized items) as [Ls Lt].
  { split; apply list_elem_of_In, filter_In; (split; [by apply list_elem_of_In|done]). }
  destruct (mapM_result_elem _ _ _ s Hrs Ls) as (ys & Hys & _). pose proof Hys as Hys'.
  unfold source_routes in Hys'. apply bind_Ok in Hys' as (per & Hper & [= E]).
  destruct (mapM_result_elem _ _ _ tgt Hper Lt) as (zs & Hzs & _). pose proof Hzs as Hzs'.
  unfold pair_routes in Hzs'. destruct (String.eqb_spec (at_site s) (at_site tgt)); [done|]. rewrite Hal in Hzs'.
  apply bind_Ok in Hzs' as (back & _ & [= E']). subst zs.
  eexists. split.
  - eapply (mapM_concat_in _ _ _ _ _ _ Hrs Ls Hys). rewrite <- E. apply elem_of_app. left.
    eapply (mapM_concat_in _ _ _ _ _ _ Hper Lt Hzs). left.
  - done.
Qed.

(** C23: the reachability policy of a provider network.  Every route starts at
    an authorised attachment and ends at a different authorised one (or at the
    Internet gateway), for its own address, the LAN behind a spoke on the way
    back from the Internet, or the SaaS network.  A spoke never has a route to
    another spoke, and a provider without Internet access routes to and from
    no Internet gateway.  Conversely every authorised spoke and hub have host
    routes to each other on every provider. *)
Theorem fib_reachability c auth t tr items routes :
  let r := UnderlayRegistry_init c (Some auth) in
  clean c → dget (transports c) t = Some tr → attachments r t = Ok items → fib r t = Ok routes →
  (∀ f, f ∈ routes → ∃ s, s ∈ items ∧ authorized s = true ∧ source_site f = at_site s ∧
     (internet_capable tr = false → role s ≠ "internet_gateway") ∧
     ((∃ tgt, tgt ∈ items ∧ authorized tgt = true ∧ at_site tgt ≠ at_site s ∧ egress_site f = at_site tgt ∧
         ¬ (role s = "spoke" ∧ role tgt = "spoke") ∧ (internet_capable tr = false → role tgt ≠ "internet_gateway") ∧
         (destination f = host_route (at_address tgt) ∨
          role s = "internet_gateway" ∧ role tgt = "spoke" ∧ branch_lan r (at_site tgt) = Ok (destination f))) ∨
      (internet_capable tr = true ∧ role s ≠ "internet_gateway" ∧ egress_site f = saas_gateway_name c ∧
       destination f = saas_network c))) ∧
  (∀ s h, s ∈ items → h ∈ items → authorized s = true → authorized h = true → role s = "spoke" → role h = "hub" →
     ∃ f g, f ∈ routes ∧ g ∈ routes ∧
       source_site f = at_site s ∧ egress_site f = at_site h ∧ destination f = host_route (at_address h) ∧
       source_site g = at_site h ∧ egress_site g = at_site s ∧ destination g = host_route (at_address s)).
Proof.
  intros r Hc Ht Hi Hf.
  assert (Hprof : dget (service_profiles c) t = Some {| sp_transport := t;
    service_type := if internet_capable tr then INTERNET else PRIVATE; internet_access := internet_capable tr |}).
  { unfold service_profiles. clear - Ht. induction (transports c) as [|[k x] l IH]; simpl in *; [done|].
    destruct (decide (t = k)) as [->|]; [by injection Ht as ->|by apply IH]. }
  split.
  - intros f Hin. destruct (fib_inv _ _ _ _ _ Hi Hf Hin) as (p & s & Hp & Hs & Has & Esrc & Hcases).
    change (reg_config r) with c in *. rewrite Hprof in Hp. injection Hp as <-. exists s. split_and!; try done.
    + intros Hpriv. rewrite Hpriv in Hcases. destruct Hcases as [(tgt & _ & _ & _ & _ & Hal & _)|(? & _)]; [|done].
      unfold allowed_endpoint in Hal. cbn in Hal. intros E. by rewrite E in Hal.
    + destruct Hcases as [(tgt & Htg & Hat & Hne & Eeg & Hal & Hd)|(H1 & H2 & H3 & H4)]; [left|right; by split_and!].
      exists tgt. split_and!; try done.
      * intros [E1 E2]. unfold allowed_endpoint in Hal. rewrite E1, E2 in Hal. cbn in Hal. by destruct (internet_capable tr).
      * intros Hpriv E. unfold allowed_endpoint in Hal. rewrite Hpriv, E in Hal. cbn in Hal.
        destruct (String.eqb (role s) "spoke"); [done|]. by destruct (String.eqb (role s) "hub").
      * destruct Hd as [?|(_ & ? & ? & ?)]; [by left|right; by split_and!].
  - intros s h Hs Hh As Ah Rs Rh.
    assert (at_site s ≠ at_site h) as Hne.
    { destruct (attachments_inv c auth t Hc _ _ Hi Hs) as [_ [[_ E]|[[E _]|[E _]]]]; try (rewrite E in Rs; discriminate Rs).
      destruct (attachments_inv c auth t Hc _ _ Hi Hh) as [_ [[E' _]|[[_ E']|[E' _]]]]; try (rewrite E' in Rh; discriminate Rh).
      intros Es. rewrite Es, E' in E. discriminate E. }
    destruct (fib_has r t _ items routes s h Hprof Hi Hf) as (f & F1 & F2 & F3 & F4); try done.
    { unfold allowed_endpoint. rewrite Rs, Rh. by destruct (internet_capable tr). }
    destruct (fib_has r t _ items routes h s Hprof Hi Hf) as (g & G1 & G2 & G3 & G4); try done; [| by exists f, g].
    unfold allowed_endpoint. rewrite Rs, Rh. by destruct (internet_capable tr).
Qed.

(** ** Concrete switches *)

Module Examples.
Definition env : Env := {| rows := None; wall := 0; monotonic := 10; disk_ok := true |}.

(** The broadband switch connects and reports its ports. *)
Definition bb_ports : list (string * Z) :=
  [("s_bb-h1", 1); ("s_bb-h2", 2); ("s_bb-n1", 3); ("s_bb-n2", 4); ("s_bb-inet", 5)].
Definition ready : UnderlayController := Eval vm_compute in
  (port_desc_reply env 2 bb_ports (switch_features env 2 (UnderlayController_init env core_config ENFORCE)).2).2.

Lemma ready_reachable : reachable core_config ENFORCE ready.
Proof.
  assert ((port_desc_reply env 2 bb_ports (switch_features env 2 (UnderlayController_init env core_config ENFORCE)).2).2 = ready)
    as <- by (vm_cast_no_check (eq_refl ready)).
  eapply reachable_step; [|exact (step_port_desc env 2 bb_ports _)].
  eapply reachable_step; [exact (reachable_init core_config ENFORCE env)|exact (step_features env 2 _)].
Qed.

Definition again : result unit * UnderlayController := Eval vm_compute in reconcile_datapath env 2 ready.

Lemma again_eq : reconcile_datapath env 2 ready = (Ok tt, again.2).
Proof. vm_cast_no_check (eq_refl again). Qed.

Definition authorized_nodes : list string := Eval vm_compute in runtime_node_names core_config.
Definition registry : UnderlayRegistry := UnderlayRegistry_init core_config (Some authorized_nodes).

Lemma registry_view : view core_config (rows env) core_config registry.
Proof. exists authorized_nodes. split; [vm_cast_no_check (eq_refl (load core_config None))|done]. Qed.

Definition bb_items : list UnderlayAttachment := Eval vm_compute in
  match attachments registry "bb" with Ok l => l | Err _ => [] end.
Definition bb_routes : list FibRoute := Eval vm_compute in match fib registry "bb" with Ok l => l | Err _ => [] end.

Lemma bb_items_eq : attachments registry "bb" = Ok bb_items.
Proof. vm_cast_no_check (eq_refl (Ok bb_items)). Qed.
Lemma bb_routes_eq : fib registry "bb" = Ok bb_routes.
Proof. vm_cast_no_check (eq_refl (Ok bb_routes)). Qed.

Definition bb_names_unique : bool := uniqueb (map Underlay.port_name bb_items).
Lemma bb_names : NoDup (map Underlay.port_name bb_items).
Proof. apply uniqueb_true. vm_cast_no_check (eq_refl true). Qed.
Lemma bb_numbers : NoDup (dvals (ports_of again.2 2)).
Proof. apply uniqueb_true. vm_cast_no_check (eq_refl true). Qed.

(** A packet of node1's tunnel endpoint to hub1. *)
Definition to_hub1 : Packet := {|
  pk_in := 3; pk_type := ETH_TYPE_IP; pk_src_mac := "02:5a:02:00:0b:01"; pk_dst_mac := "02:5a:ff:02:00:01";
  pk_src := 3232240651; pk_dst := 3232240641; pk_ttl := 64 |}.

Definition nth_item (n : nat) : UnderlayAttachment := Eval vm_compute in
  default (Build_UnderlayAttachment "" "" "" "" 0 "" "" false) (bb_items !! n).
Definition node1 : UnderlayAttachment := Eval vm_compute in nth_item 2.
Definition hub1 : UnderlayAttachment := Eval vm_compute in nth_item 0.
Definition node1_hub1 : FibRoute := Eval vm_compute in
  default (Build_FibRoute "" "" {| net_addr := 0; prefixlen := 32 |} "" "")
    (find (λ f, String.eqb (source_site f) "node1" && String.eqb (egress_site f) "hub1") bb_routes).

Lemma to_hub1_permitted :
  permitted registry ENFORCE (ports_of again.2 2) bb_items bb_routes "02:5a:ff:02:00:01" to_hub1 1
    (relayed to_hub1 "02:5a:ff:02:00:01" hub1).
Proof.
  exists node1, node1_hub1, hub1. split; [do 2 right; left|]. split; [left|]. split.
  { apply (find_elem (λ f, String.eqb (source_site f) "node1" && String.eqb (egress_site f) "hub1")).
    vm_cast_no_check (eq_refl (Some node1_hub1)). }
  split; [|by vm_compute]. split_and!; [done|vm_cast_no_check (eq_refl (Some 3))|done|].
  exists [host_route 3232240651; {| net_addr := 167837696; prefixlen := 24 |}], (host_route 3232240651).
  split_and!; [vm_cast_no_check (eq_refl (Ok [host_route 3232240651; {| net_addr := 167837696; prefixlen := 24 |}]))|left|by vm_compute].
Qed.
End Examples.
Import Examples.

Lemma underlay_isolation_witness : ∃ out q, forwards (switch_tables 2 (sent again.2)) 0 to_hub1 (Output out) q.
Proof.
  destruct (underlay_isolation core_raw "topology.core.yaml" core_config ENFORCE ready env 2 again.2 core_config registry "bb"
    bb_items bb_routes core_accepted ready_reachable ltac:(discriminate) again_eq registry_view eq_refl bb_items_eq bb_routes_eq
    bb_names bb_numbers) as (mac & Hmac & Hall).
  destruct (Hall to_hub1) as [_ Hout].
  assert (mac = "02:5a:ff:02:00:01") as -> by (vm_compute in Hmac; congruence).
  exact (Hout _ _ to_hub1_permitted).
Defined.

Lemma fib_reachability_witness : ∃ f, f ∈ bb_routes ∧ source_site f = "node1" ∧ egress_site f = "hub1".
Proof.
  destruct (fib_reachability core_config authorized_nodes "bb" _ bb_items bb_routes
    (accepted_clean _ _ _ core_accepted) eq_refl bb_items_eq bb_routes_eq) as [_ Hboth].
  destruct (Hboth node1 hub1 ltac:(do 2 right; left) ltac:(left) eq_refl eq_refl eq_refl eq_refl)
    as (f & _ & Hf & _ & E1 & E2 & _).
  by exists f.
Defined.

(** Node names are not compared with logical site names: a topology whose first
    site runs on a node called "site2" is accepted, and the attachments of that
    node and of the second site then have the same port, address and MAC. *)
Definition renamed_edge (s : Site) : Site := {|
  site_name := site_name s; s_edge_node := "site2"; address_id := address_id s; management_ip := management_ip s;
  lan_network := lan_network s; lan_gateway := lan_gateway s; lan_switch := lan_switch s; lan_dpid := lan_dpid s;
  host_name := host_name s; host_ip := host_ip s; preferred_hub := preferred_hub s; standby_hub := standby_hub s;
  s_device_id := s_device_id s; wireguard_index := wireguard_index s; interface_suffix := interface_suffix s |}.

Definition node_called_site2 : TopologyConfig := replace_sites core_config
  (match sites core_config with (k, s) :: ss => (k, renamed_edge s) :: ss | [] => [] end).

Lemma node_named_after_site :
  validate_config node_called_site2 = Ok tt ∧
  (items ← attachments (UnderlayRegistry_init node_called_site2 None) "bb";
   Ok (map (λ i, (Underlay.port_name i, at_address i, expected_mac i))
         (List.filter (λ i, inb (at_site i) ["site2"; "node2"]) items)))
  = Ok [("s_bb-n2", 3232240652, "02:5a:02:00:0c:01"); ("s_bb-n2", 3232240652, "02:5a:02:00:0c:01")].
Proof. split; [vm_cast_no_check (eq_refl (Ok tt : result unit))|by vm_compute]. Qed.
