(* ===== verification/Sql.v ===== *)
(** * Transactions and tables ([persistence/base.py])

    The pieces of SQLite the stores rely on: a table is its list of rows, a
    statement that breaks a constraint raises, and a transaction that raises
    leaves the database as it was.  The clock is an argument of the operations
    ([utc_now]). *)
From S2P Require Import Prelude.
Local Open Scope string_scope.
Local Open Scope list_scope.
Local Open Scope Z_scope.

(** [with self.transaction() as connection] *)
Definition transaction {S A} (m : M S A) : M S A := λ s,
  match m s with
  | (Ok x, s') => (Ok x, s')
  | (Err e, _) => (Err e, s)
  end.

(** ** Statements *)

Definition query {S A} (f : S → A) : M S A := s ← get; mret (f s).
Definition execute {S} (f : S → S) : M S unit := s ← get; put (f s).
(** A statement that may break a constraint of one table. *)
Definition execute_checked {S A} (table : S → list A) (set : S → list A → S) (f : list A → result (list A)) : M S unit :=
  s ← get; rows ← lift (f (table s)); put (set s rows).

Definition constraint_failed {A} : result A := raise IntegrityError "UNIQUE constraint failed".

(** INSERT into a table whose unique keys are compared by [clash]. *)
Definition insert_row {A} (clash : A → A → bool) (x : A) (rows : list A) : result (list A) :=
  if existsb (clash x) rows then constraint_failed else Ok (rows ++ [x]).

(** UPDATE of the rows [p], no unique key changed. *)
Definition update_rows {A} (p : A → bool) (f : A → A) (rows : list A) : list A :=
  map (λ r, if p r then f r else r) rows.

(** UPDATE that may break a unique key, row by row. *)
Fixpoint update_checked {A} (clash : A → A → bool) (p : A → bool) (f : A → A) (pre rows : list A) : result (list A) :=
  match rows with
  | [] => Ok pre
  | r :: rest =>
      if p r then
        if existsb (clash (f r)) (pre ++ rest) then constraint_failed
        else update_checked clash p f (pre ++ [f r]) rest
      else update_checked clash p f (pre ++ [r]) rest
  end.

(** ORDER BY key DESC LIMIT 1 *)
Fixpoint latest_by {A} (key : A → Z) (rows : list A) : option A :=
  match rows with
  | [] => None
  | r :: rest => match latest_by key rest with
                 | Some s => if key s <? key r then Some r else Some s
                 | None => Some r
                 end
  end.

(** COALESCE(MAX(key), 0) *)
Definition max_key {A} (key : A → Z) (rows : list A) : Z := match latest_by key rows with Some r => key r | None => 0 end.

(** No two rows of a table clash. *)
Fixpoint no_clash {A} (clash : A → A → bool) (rows : list A) : Prop :=
  match rows with
  | [] => True
  | r :: rest => (∀ s, s ∈ rest → clash r s = false ∧ clash s r = false) ∧ no_clash clash rest
  end.

(** ** Lemmas *)

Lemma transaction_ok {S A} (m : M S A) s x s' : transaction m s = (Ok x, s') ↔ m s = (Ok x, s').
Proof. unfold transaction. by destruct (m s) as [[y|e] s1]. Qed.

Lemma transaction_err {S A} (m : M S A) s e s' : transaction m s = (Err e, s') → s' = s.
Proof. unfold transaction. by destruct (m s) as [[y|e'] s1]; [|intros [= _ <-]]. Qed.

(** An invariant kept by the body when it returns is kept by the transaction. *)
Lemma transaction_inv {S A} (I : S → Prop) (m : M S A) s :
  I s → (∀ x s', m s = (Ok x, s') → I s') → I (transaction m s).2.
Proof. intros Hs Hm. unfold transaction. destruct (m s) as [[x|e] s'] eqn:E; [by eapply Hm|done]. Qed.

Lemma insert_row_ok {A} (clash : A → A → bool) x rows rows' :
  insert_row clash x rows = Ok rows' → rows' = rows ++ [x] ∧ ∀ r, r ∈ rows → clash x r = false.
Proof.
  unfold insert_row. destruct (existsb _ _) eqn:E; [done|]. intros [= <-]. split; [done|]. intros r Hr.
  destruct (clash x r) eqn:Ec; [|done]. assert (existsb (clash x) rows = true) as Hex; [|congruence].
  apply existsb_exists. exists r. split; [by apply list_elem_of_In|done].
Qed.

Lemma update_rows_elem {A} (p : A → bool) f rows r : r ∈ update_rows p f rows ↔
  ∃ s, s ∈ rows ∧ r = (if p s then f s else s).
Proof. unfold update_rows. rewrite elem_of_map. split; intros (s & ? & ?); by exists s. Qed.

Lemma update_rows_map {A B} (g : A → B) (p : A → bool) f rows : (∀ r, g (f r) = g r) → map g (update_rows p f rows) = map g rows.
Proof.
  intros Hg. unfold update_rows. rewrite map_map. apply map_ext. intros r. by destruct (p r).
Qed.

Lemma latest_by_elem {A} (key : A → Z) rows r : latest_by key rows = Some r → r ∈ rows ∧ ∀ s, s ∈ rows → key s <= key r.
Proof.
  revert r. induction rows as [|x rows IH]; intros r; simpl; [done|].
  destruct (latest_by key rows) as [s|] eqn:E.
  - destruct (IH s eq_refl) as [Hs Hmax]. destruct (Z.ltb_spec (key s) (key x)); intros [= <-]; (split; [by constructor|]);
      intros y [->|Hy]%elem_of_cons; try lia; specialize (Hmax y Hy); lia.
  - intros [= <-]. split; [constructor|]. intros y [->|Hy]%elem_of_cons; [lia|].
    destruct rows as [|z rows]; [by inversion Hy|]. simpl in E. by destruct (latest_by key rows); [case_match|].
Qed.

Lemma latest_by_none {A} (key : A → Z) rows : latest_by key rows = None ↔ rows = [].
Proof. destruct rows as [|x rows]; simpl; [done|]. destruct (latest_by key rows); [case_match|]; done. Qed.

Lemma latest_by_some {A} (key : A → Z) rows x : x ∈ rows → is_Some (latest_by key rows).
Proof. intros Hx. destruct (latest_by key rows) eqn:E; [by eexists|]. apply latest_by_none in E. subst. by inversion Hx. Qed.

Lemma max_key_bound {A} (key : A → Z) rows r : r ∈ rows → key r <= max_key key rows.
Proof.
  intros Hr. unfold max_key. destruct (latest_by_some key rows r Hr) as [s Hs]. rewrite Hs.
  apply latest_by_elem in Hs as [_ Hmax]. by apply Hmax.
Qed.

Lemma existsb_false_elem {A} (f : A → bool) l x : existsb f l = false → x ∈ l → f x = false.
Proof.
  intros Hf Hx. destruct (f x) eqn:E; [|done]. assert (existsb f l = true); [|congruence].
  apply existsb_exists. exists x. split; [by apply list_elem_of_In|done].
Qed.

Lemma existsb_all_false {A} (f : A → bool) l : (∀ x, x ∈ l → f x = false) → existsb f l = false.
Proof.
  intros Hf. apply not_true_iff_false. intros (x & Hx%list_elem_of_In & E)%existsb_exists. by rewrite Hf in E.
Qed.

(** ** Tables without clashes *)

Class Symmetrical {A} (clash : A → A → bool) : Prop := clash_sym : ∀ a b, clash a b = clash b a.

Lemma no_clash_perm {A} (clash : A → A → bool) l k : l ≡ₚ k → no_clash clash l → no_clash clash k.
Proof.
  induction 1 as [|x l k Hp IH|x y l|l k m _ IH1 _ IH2]; simpl; [done| | |auto].
  - intros [Hx Hl]. split; [|by apply IH]. intros s Hs. apply Hx. by rewrite Hp.
  - intros [Hy [Hx Hl]]. split; [|split; [|done]].
    + intros s [->|Hs]%elem_of_cons; [|by apply Hx]. destruct (Hy x) as [? ?]; [constructor|done].
    + intros s Hs. apply Hy. by constructor.
Qed.

Lemma no_clash_add {A} (clash : A → A → bool) `{!Symmetrical clash} x pre rest :
  no_clash clash (pre ++ rest) → existsb (clash x) (pre ++ rest) = false → no_clash clash ((pre ++ [x]) ++ rest).
Proof.
  intros Hn Hx. eapply (no_clash_perm _ (x :: pre ++ rest)).
  - rewrite <- app_assoc. apply (Permutation_middle pre rest x).
  - split; [|done]. intros s Hs. pose proof (existsb_false_elem _ _ _ Hx Hs) as E. split; [done|by rewrite clash_sym].
Qed.

Lemma no_clash_drop {A} (clash : A → A → bool) x pre rest : no_clash clash (pre ++ x :: rest) → no_clash clash (pre ++ rest).
Proof.
  intros Hn. assert (no_clash clash (x :: pre ++ rest)) as [_ H]; [|done].
  eapply no_clash_perm; [|exact Hn]. symmetry. apply Permutation_middle.
Qed.

Lemma insert_no_clash {A} (clash : A → A → bool) `{!Symmetrical clash} x rows rows' :
  no_clash clash rows → insert_row clash x rows = Ok rows' → no_clash clash rows'.
Proof.
  unfold insert_row. destruct (existsb (clash x) rows) eqn:E; [done|]. intros Hn [= <-].
  rewrite <- (app_nil_r (rows ++ [x])). apply no_clash_add; [done|by rewrite app_nil_r|by rewrite app_nil_r].
Qed.

Lemma update_checked_ok {A} (clash : A → A → bool) p f rows : ∀ pre rows',
  update_checked clash p f pre rows = Ok rows' → rows' = pre ++ update_rows p f rows.
Proof.
  induction rows as [|r rows IH]; intros pre rows'; simpl; [intros [= <-]; by rewrite app_nil_r|].
  destruct (p r); [destruct (existsb _ _); [done|]|]; intros H%IH; rewrite H, <- app_assoc; done.
Qed.

Lemma update_checked_no_clash {A} (clash : A → A → bool) `{!Symmetrical clash} p f rows : ∀ pre rows',
  no_clash clash (pre ++ rows) → update_checked clash p f pre rows = Ok rows' → no_clash clash rows'.
Proof.
  induction rows as [|r rows IH]; intros pre rows' Hn; simpl; [intros [= <-]; by rewrite app_nil_r in Hn|].
  destruct (p r).
  - destruct (existsb (clash (f r)) (pre ++ rows)) eqn:E; [done|]. apply IH.
    apply no_clash_add; [done|by apply no_clash_drop in Hn|done].
  - apply IH. by rewrite <- app_assoc.
Qed.

(** Rows updated without touching what [clash] looks at. *)
Lemma update_rows_no_clash {A} (clash : A → A → bool) p f rows :
  (∀ a b, clash (f a) b = clash a b) → (∀ a b, clash b (f a) = clash b a) → no_clash clash rows →
  no_clash clash (update_rows p f rows).
Proof.
  intros H1 H2. induction rows as [|r rows IH]; simpl; [done|]. intros [Hr Hn]. split; [|by apply IH].
  intros s (s' & Hs' & ->)%update_rows_elem. specialize (Hr s' Hs'). by destruct (p r), (p s'); rewrite ?H1, ?H2, ?H1.
Qed.

Lemma no_clash_elem {A} (clash : A → A → bool) l x y : no_clash clash l → x ∈ l → y ∈ l → clash x y = true → x = y.
Proof.
  induction l as [|z l IH]; simpl; [by intros _ ?%elem_of_nil|].
  intros [Hz Hl] [->|Hx]%elem_of_cons [->|Hy]%elem_of_cons E; [done|..|by apply IH].
  - destruct (Hz y Hy) as [E1 _]. congruence.
  - destruct (Hz x Hx) as [_ E1]. congruence.
Qed.

(** ** Keys compared pairwise, prefixes, searches *)

Lemma eqb_swap {A} (f : A → string) a b : String.eqb (f a) (f b) = String.eqb (f b) (f a).
Proof. apply String.eqb_sym. Qed.

Lemma zeqb_swap {A} (f : A → Z) a b : (f a =? f b) = (f b =? f a).
Proof. apply Z.eqb_sym. Qed.

Lemma prefix_map {A B} (f : A → B) l k : l `prefix_of` k → map f l `prefix_of` map f k.
Proof. intros [m ->]. exists (map f m). apply map_app. Qed.

Lemma insert_prefix {A} clash (x : A) rows rows' : insert_row clash x rows = Ok rows' → rows `prefix_of` rows'.
Proof. intros [-> _]%insert_row_ok. by exists [x]. Qed.

Lemma map_update_rows {A B} (g : A → B) p f rows : (∀ r, g (f r) = g r) → map g rows `prefix_of` map g (update_rows p f rows).
Proof. intros Hg. by rewrite update_rows_map. Qed.

Lemma update_rows_none {A} (p : A → bool) f rows : find p rows = None → update_rows p f rows = rows.
Proof.
  intros Hf. induction rows as [|r rows IH]; simpl in *; [done|]. destruct (p r); [done|]. by rewrite IH.
Qed.

Lemma update_if_no_clash {A} (clash : A → A → bool) p f rows :
  (∀ a b, p a = true → clash (f a) b = clash a b ∧ clash b (f a) = clash b a) → no_clash clash rows →
  no_clash clash (update_rows p f rows).
Proof.
  intros H. induction rows as [|r rows IH]; simpl; [done|]. intros [Hr Hn]. split; [|by apply IH].
  intros s (s' & Hs' & ->)%update_rows_elem. destruct (Hr s' Hs') as [H1 H2].
  destruct (p r) eqn:Er, (p s') eqn:Es; try done.
  - by rewrite (proj1 (H r (f s') Er)), (proj2 (H s' r Es)), (proj1 (H s' (f r) Es)), (proj2 (H r s' Er)).
  - by rewrite (proj1 (H r s' Er)), (proj2 (H r s' Er)).
  - by rewrite (proj1 (H s' r Es)), (proj2 (H s' r Es)).
Qed.

Lemma find_update_hit {A} (p : A → bool) f rows x : find p rows = Some x → (∀ y, p (f y) = p y) →
  find p (update_rows p f rows) = Some (f x).
Proof.
  intros Hx Hf. induction rows as [|r rows IH]; simpl in *; [done|].
  destruct (p r) eqn:Er; [|rewrite Er; by apply IH]. injection Hx as ->. by rewrite Hf, Er.
Qed.

Lemma find_update_other {A} (p q : A → bool) f rows : (∀ y, q y = true → p y = false ∧ p (f y) = false) →
  find p (update_rows q f rows) = find p rows.
Proof.
  intros Hf. induction rows as [|r rows IH]; simpl; [done|]. destruct (q r) eqn:Eq; [|by rewrite IH].
  destruct (Hf r Eq) as [-> ->]. apply IH.
Qed.
