(* ===== verification/PolicyStore.v ===== *)
(** * The policy database ([persistence/policy_store.py])

    The tables of the policy service and the operations of [PolicyStore], each a
    transaction over the whole database.  Documents are stored as the value
    their canonical JSON text denotes; SHA-256 of the text is the parameter
    [sha256] of the operations.  Tables written only by the dynamic inventory
    are declared here and used in DynamicInventory. *)
From Stdlib Require Import Ascii.
From S2P Require Import Prelude Net Marks PathSelection Model ModelValidate Json Inventory Sql.
Local Open Scope string_scope.
Local Open Scope list_scope.
Local Open Scope Z_scope.

(** ** Rows *)

Record KeyRow := {
  k_site : string; k_generation : Z; k_public_key : string; k_fingerprint : string; k_status : string; k_created : string
}.

Record DesiredRow := {
  dr_site : string; dr_version : Z; dr_digest : string; dr_schema : Z; dr_generation : string; dr_route_version : Z;
  dr_epoch : Z; dr_contents : dict string json; dr_created : string; dr_created_by : string;
  dr_delivery : string; dr_applied : string; dr_verification : string; dr_superseded_by : option Z
}.

Record AckRow := {
  ak_site : string; ak_version : Z; ak_digest : string; ak_route_version : Z; ak_status : string; ak_detail : string;
  ak_at : string
}.

(** [OwnershipRecord], with the column [updated_at] of its table. *)
Record OwnershipRecord := {
  prefix : string; spoke : string; preferred_hub : string; standby_hub : string; current_owner_hub : string;
  previous_owner_hub : option string; owner_epoch : Z; policy_version : Z; route_version : Z; state : string;
  reason : string; pending_reconciliation : bool; valid_until : option string
}.

Record OwnerRow := { ow_record : OwnershipRecord; ow_updated : string }.

Record PendingRow := { pn_site : string; pn_epoch : Z; pn_reason : string; pn_created : string; pn_resolved : option string }.

Record PolicyVersionRow := {
  pv_version : Z; pv_digest : string; pv_contents : dict string json; pv_created : string; pv_created_by : string
}.
Record ActivationRow := { ac_version : Z; ac_at : string; ac_by : string }.
Record DeliveryRow := {
  de_site : string; de_policy : Z; de_desired : Z; de_applied : string; de_observed : string; de_updated : string
}.

Record AddressLease := {
  al_address : string; al_owner : string; al_hub : string; al_transport : string; al_interface : string; al_created : string
}.
Record PortLease := { pl_node : string; pl_port : Z; pl_owner : string; pl_interface : string; pl_created : string }.

Record AuditRow := {
  au_actor : string; au_action : string; au_target : string; au_reason : string; au_result : string;
  au_before : option Z; au_after : option Z; au_at : string
}.

Record SiteRow := {
  sr_site : string; sr_device : string; sr_lan : string; sr_preferred : string; sr_standby : string; sr_status : string;
  sr_created : string; sr_updated : string
}.

Record IntentRow := {
  in_id : string; in_type : string; in_target : string; in_contents : dict string json; in_digest : string;
  in_status : string; in_created_by : string; in_created : string; in_updated : string
}.
Record EventRow := {
  ev_id : Z; ev_type : string; ev_subject : string; ev_payload : dict string json; ev_created : string;
  ev_consumed : option string
}.
Record InputRow := { ip_key : string; ip_value : dict string json; ip_digest : string; ip_source : string; ip_updated : string }.
Record CompilationRow := {
  co_trigger : option Z; co_input : string; co_output : string; co_changed : bool; co_detail : dict string json; co_created : string
}.
Record OperationRow := {
  op_id : string; op_site : string; op_type : string; op_state : string; op_failure_stage : option string;
  op_failure_reason : option string; op_recoverable : bool; op_created : string; op_updated : string; op_completed : option string
}.

Record Db := {
  key_rows : list KeyRow; desired_rows : list DesiredRow; ack_rows : list AckRow; owner_rows : list OwnerRow;
  pending_rows : list PendingRow; policy_rows : list PolicyVersionRow; activation_rows : list ActivationRow;
  delivery_rows : list DeliveryRow; address_rows : list AddressLease; port_rows : list PortLease; audit_rows : list
  AuditRow; site_rows : list SiteRow; inventory_rows : list InventorySite; intent_rows : list IntentRow; event_rows
  : list EventRow; input_rows : list InputRow; compilation_rows : list CompilationRow; operation_rows : list
  OperationRow
}.

Definition empty_db : Db := {| key_rows := []; desired_rows := []; ack_rows := []; owner_rows := []; pending_rows :=
  []; policy_rows := []; activation_rows := []; delivery_rows := []; address_rows := []; port_rows := []; audit_rows
  := []; site_rows := []; inventory_rows := []; intent_rows := []; event_rows := []; input_rows := [];
  compilation_rows := []; operation_rows := [] |}.

Section setters.
Context (d : Db).
Definition set_key_rows v := {| key_rows := v; desired_rows := desired_rows d; ack_rows := ack_rows d; owner_rows :=
  owner_rows d; pending_rows := pending_rows d; policy_rows := policy_rows d; activation_rows := activation_rows d;
  delivery_rows := delivery_rows d; address_rows := address_rows d; port_rows := port_rows d; audit_rows :=
  audit_rows d; site_rows := site_rows d; inventory_rows := inventory_rows d; intent_rows := intent_rows d;
  event_rows := event_rows d; input_rows := input_rows d; compilation_rows := compilation_rows d; operation_rows :=
  operation_rows d |}.
Definition set_desired_rows v := {| key_rows := key_rows d; desired_rows := v; ack_rows := ack_rows d; owner_rows :=
  owner_rows d; pending_rows := pending_rows d; policy_rows := policy_rows d; activation_rows := activation_rows d;
  delivery_rows := delivery_rows d; address_rows := address_rows d; port_rows := port_rows d; audit_rows :=
  audit_rows d; site_rows := site_rows d; inventory_rows := inventory_rows d; intent_rows := intent_rows d;
  event_rows := event_rows d; input_rows := input_rows d; compilation_rows := compilation_rows d; operation_rows :=
  operation_rows d |}.
Definition set_ack_rows v := {| key_rows := key_rows d; desired_rows := desired_rows d; ack_rows := v; owner_rows :=
  owner_rows d; pending_rows := pending_rows d; policy_rows := policy_rows d; activation_rows := activation_rows d;
  delivery_rows := delivery_rows d; address_rows := address_rows d; port_rows := port_rows d; audit_rows :=
  audit_rows d; site_rows := site_rows d; inventory_rows := inventory_rows d; intent_rows := intent_rows d;
  event_rows := event_rows d; input_rows := input_rows d; compilation_rows := compilation_rows d; operation_rows :=
  operation_rows d |}.
Definition set_owner_rows v := {| key_rows := key_rows d; desired_rows := desired_rows d; ack_rows := ack_rows d;
  owner_rows := v; pending_rows := pending_rows d; policy_rows := policy_rows d; activation_rows := activation_rows
  d; delivery_rows := delivery_rows d; address_rows := address_rows d; port_rows := port_rows d; audit_rows :=
  audit_rows d; site_rows := site_rows d; inventory_rows := inventory_rows d; intent_rows := intent_rows d;
  event_rows := event_rows d; input_rows := input_rows d; compilation_rows := compilation_rows d; operation_rows :=
  operation_rows d |}.
Definition set_pending_rows v := {| key_rows := key_rows d; desired_rows := desired_rows d; ack_rows := ack_rows d;
  owner_rows := owner_rows d; pending_rows := v; policy_rows := policy_rows d; activation_rows := activation_rows d;
  delivery_rows := delivery_rows d; address_rows := address_rows d; port_rows := port_rows d; audit_rows :=
  audit_rows d; site_rows := site_rows d; inventory_rows := inventory_rows d; intent_rows := intent_rows d;
  event_rows := event_rows d; input_rows := input_rows d; compilation_rows := compilation_rows d; operation_rows :=
  operation_rows d |}.
Definition set_policy_rows v := {| key_rows := key_rows d; desired_rows := desired_rows d; ack_rows := ack_rows d;
  owner_rows := owner_rows d; pending_rows := pending_rows d; policy_rows := v; activation_rows := activation_rows
  d; delivery_rows := delivery_rows d; address_rows := address_rows d; port_rows := port_rows d; audit_rows :=
  audit_rows d; site_rows := site_rows d; inventory_rows := inventory_rows d; intent_rows := intent_rows d;
  event_rows := event_rows d; input_rows := input_rows d; compilation_rows := compilation_rows d; operation_rows :=
  operation_rows d |}.
Definition set_activation_rows v := {| key_rows := key_rows d; desired_rows := desired_rows d; ack_rows := ack_rows
  d; owner_rows := owner_rows d; pending_rows := pending_rows d; policy_rows := policy_rows d; activation_rows := v;
  delivery_rows := delivery_rows d; address_rows := address_rows d; port_rows := port_rows d; audit_rows :=
  audit_rows d; site_rows := site_rows d; inventory_rows := inventory_rows d; intent_rows := intent_rows d;
  event_rows := event_rows d; input_rows := input_rows d; compilation_rows := compilation_rows d; operation_rows :=
  operation_rows d |}.
Definition set_delivery_rows v := {| key_rows := key_rows d; desired_rows := desired_rows d; ack_rows := ack_rows d;
  owner_rows := owner_rows d; pending_rows := pending_rows d; policy_rows := policy_rows d; activation_rows :=
  activation_rows d; delivery_rows := v; address_rows := address_rows d; port_rows := port_rows d; audit_rows :=
  audit_rows d; site_rows := site_rows d; inventory_rows := inventory_rows d; intent_rows := intent_rows d;
  event_rows := event_rows d; input_rows := input_rows d; compilation_rows := compilation_rows d; operation_rows :=
  operation_rows d |}.
Definition set_address_rows v := {| key_rows := key_rows d; desired_rows := desired_rows d; ack_rows := ack_rows d;
  owner_rows := owner_rows d; pending_rows := pending_rows d; policy_rows := policy_rows d; activation_rows :=
  activation_rows d; delivery_rows := delivery_rows d; address_rows := v; port_rows := port_rows d; audit_rows :=
  audit_rows d; site_rows := site_rows d; inventory_rows := inventory_rows d; intent_rows := intent_rows d;
  event_rows := event_rows d; input_rows := input_rows d; compilation_rows := compilation_rows d; operation_rows :=
  operation_rows d |}.
Definition set_port_rows v := {| key_rows := key_rows d; desired_rows := desired_rows d; ack_rows := ack_rows d;
  owner_rows := owner_rows d; pending_rows := pending_rows d; policy_rows := policy_rows d; activation_rows :=
  activation_rows d; delivery_rows := delivery_rows d; address_rows := address_rows d; port_rows := v; audit_rows :=
  audit_rows d; site_rows := site_rows d; inventory_rows := inventory_rows d; intent_rows := intent_rows d;
  event_rows := event_rows d; input_rows := input_rows d; compilation_rows := compilation_rows d; operation_rows :=
  operation_rows d |}.
Definition set_audit_rows v := {| key_rows := key_rows d; desired_rows := desired_rows d; ack_rows := ack_rows d;
  owner_rows := owner_rows d; pending_rows := pending_rows d; policy_rows := policy_rows d; activation_rows :=
  activation_rows d; delivery_rows := delivery_rows d; address_rows := address_rows d; port_rows := port_rows d;
  audit_rows := v; site_rows := site_rows d; inventory_rows := inventory_rows d; intent_rows := intent_rows d;
  event_rows := event_rows d; input_rows := input_rows d; compilation_rows := compilation_rows d; operation_rows :=
  operation_rows d |}.
Definition set_site_rows v := {| key_rows := key_rows d; desired_rows := desired_rows d; ack_rows := ack_rows d;
  owner_rows := owner_rows d; pending_rows := pending_rows d; policy_rows := policy_rows d; activation_rows :=
  activation_rows d; delivery_rows := delivery_rows d; address_rows := address_rows d; port_rows := port_rows d;
  audit_rows := audit_rows d; site_rows := v; inventory_rows := inventory_rows d; intent_rows := intent_rows d;
  event_rows := event_rows d; input_rows := input_rows d; compilation_rows := compilation_rows d; operation_rows :=
  operation_rows d |}.
Definition set_inventory_rows v := {| key_rows := key_rows d; desired_rows := desired_rows d; ack_rows := ack_rows
  d; owner_rows := owner_rows d; pending_rows := pending_rows d; policy_rows := policy_rows d; activation_rows :=
  activation_rows d; delivery_rows := delivery_rows d; address_rows := address_rows d; port_rows := port_rows d;
  audit_rows := audit_rows d; site_rows := site_rows d; inventory_rows := v; intent_rows := intent_rows d;
  event_rows := event_rows d; input_rows := input_rows d; compilation_rows := compilation_rows d; operation_rows :=
  operation_rows d |}.
Definition set_intent_rows v := {| key_rows := key_rows d; desired_rows := desired_rows d; ack_rows := ack_rows d;
  owner_rows := owner_rows d; pending_rows := pending_rows d; policy_rows := policy_rows d; activation_rows :=
  activation_rows d; delivery_rows := delivery_rows d; address_rows := address_rows d; port_rows := port_rows d;
  audit_rows := audit_rows d; site_rows := site_rows d; inventory_rows := inventory_rows d; intent_rows := v;
  event_rows := event_rows d; input_rows := input_rows d; compilation_rows := compilation_rows d; operation_rows :=
  operation_rows d |}.
Definition set_event_rows v := {| key_rows := key_rows d; desired_rows := desired_rows d; ack_rows := ack_rows d;
  owner_rows := owner_rows d; pending_rows := pending_rows d; policy_rows := policy_rows d; activation_rows :=
  activation_rows d; delivery_rows := delivery_rows d; address_rows := address_rows d; port_rows := port_rows d;
  audit_rows := audit_rows d; site_rows := site_rows d; inventory_rows := inventory_rows d; intent_rows :=
  intent_rows d; event_rows := v; input_rows := input_rows d; compilation_rows := compilation_rows d; operation_rows
  := operation_rows d |}.
Definition set_input_rows v := {| key_rows := key_rows d; desired_rows := desired_rows d; ack_rows := ack_rows d;
  owner_rows := owner_rows d; pending_rows := pending_rows d; policy_rows := policy_rows d; activation_rows :=
  activation_rows d; delivery_rows := delivery_rows d; address_rows := address_rows d; port_rows := port_rows d;
  audit_rows := audit_rows d; site_rows := site_rows d; inventory_rows := inventory_rows d; intent_rows :=
  intent_rows d; event_rows := event_rows d; input_rows := v; compilation_rows := compilation_rows d; operation_rows
  := operation_rows d |}.
Definition set_compilation_rows v := {| key_rows := key_rows d; desired_rows := desired_rows d; ack_rows := ack_rows
  d; owner_rows := owner_rows d; pending_rows := pending_rows d; policy_rows := policy_rows d; activation_rows :=
  activation_rows d; delivery_rows := delivery_rows d; address_rows := address_rows d; port_rows := port_rows d;
  audit_rows := audit_rows d; site_rows := site_rows d; inventory_rows := inventory_rows d; intent_rows :=
  intent_rows d; event_rows := event_rows d; input_rows := input_rows d; compilation_rows := v; operation_rows :=
  operation_rows d |}.
Definition set_operation_rows v := {| key_rows := key_rows d; desired_rows := desired_rows d; ack_rows := ack_rows
  d; owner_rows := owner_rows d; pending_rows := pending_rows d; policy_rows := policy_rows d; activation_rows :=
  activation_rows d; delivery_rows := delivery_rows d; address_rows := address_rows d; port_rows := port_rows d;
  audit_rows := audit_rows d; site_rows := site_rows d; inventory_rows := inventory_rows d; intent_rows :=
  intent_rows d; event_rows := event_rows d; input_rows := input_rows d; compilation_rows := compilation_rows d;
  operation_rows := v |}.
End setters.

Definition same_text (a b : string) : bool := String.eqb a b.

(** ** Operations *)

Section store.
Context `{PyRepr} (sha256 : dict string json → string) (key_hash : string → string) (now : string).

Definition audit (actor action target reason result : string) (before after : option Z) : M Db unit :=
  execute (λ d, set_audit_rows d (audit_rows d ++
    [{| au_actor := actor; au_action := action; au_target := target; au_reason := reason; au_result := result;
        au_before := before; au_after := after; au_at := now |}])).

Definition site_clash (a b : SiteRow) : bool :=
  same_text (sr_site a) (sr_site b) || same_text (sr_device a) (sr_device b) || same_text (sr_lan a) (sr_lan b).

Definition stage_site (site device_id lan_prefix preferred standby actor : string) : M Db unit :=
  _ ← lift (raise_if (same_text preferred standby) ValueError "preferred and standby hub must differ");
  transaction (
    row ← query (λ d, find (λ r, same_text (sr_site r) site) (site_rows d));
    _ ← lift (raise_if (match row with
                        | Some r => negb (same_text (sr_device r) device_id) || negb (same_text (sr_lan r) lan_prefix)
                        | None => false
                        end) VersionConflict "site inventory identity is immutable outside replacement workflow");
    _ ← match row with
        | Some _ => execute (λ d, set_site_rows d (update_rows (λ r, same_text (sr_site r) site) (λ r,
              {| sr_site := sr_site r; sr_device := sr_device r; sr_lan := sr_lan r; sr_preferred := preferred;
                 sr_standby := standby; sr_status := sr_status r; sr_created := sr_created r; sr_updated := now |}) (site_rows d)))
        | None => execute_checked site_rows set_site_rows (insert_row site_clash
              {| sr_site := site; sr_device := device_id; sr_lan := lan_prefix; sr_preferred := preferred;
                 sr_standby := standby; sr_status := "STAGED"; sr_created := now; sr_updated := now |})
        end;
    audit actor "STAGE_SITE" site "inventory" "ok" None None).

(** PRIMARY KEY (site, interface, generation), UNIQUE (site, interface, status);
    the interface is always wg-device. *)
Definition key_clash (a b : KeyRow) : bool :=
  same_text (k_site a) (k_site b) && ((k_generation a =? k_generation b) || same_text (k_status a) (k_status b)).

Definition active_key (site : string) (r : KeyRow) : bool := same_text (k_site r) site && same_text (k_status r) "ACTIVE".

Definition retired (r : KeyRow) : KeyRow := {|
  k_site := k_site r; k_generation := k_generation r; k_public_key := k_public_key r; k_fingerprint := k_fingerprint r;
  k_status := "RETIRED"; k_created := k_created r |}.

Definition is_ascii (s : string) : bool := forallb (λ a, (N_of_ascii a <? 128)%N) (String.list_ascii_of_string s).

Definition register_wireguard_public_key (site public_key actor : string) : M Db bool :=
  _ ← lift (raise_if (negb (nonempty public_key) || (256 <? Z.of_nat (String.length public_key))) ValueError
              "invalid WireGuard public key");
  _ ← lift (raise_if (negb (is_ascii public_key)) ValueError "'ascii' codec can't encode character");
  transaction (
    current ← query (λ d, find (active_key site) (key_rows d));
    if match current with Some r => same_text (k_public_key r) public_key | None => false end then mret true
    else
      let generation := match current with Some r => k_generation r + 1 | None => 1 end in
      _ ← match current with
          | Some _ => execute_checked key_rows set_key_rows (update_checked key_clash (active_key site) retired [])
          | None => mret tt
          end;
      _ ← execute_checked key_rows set_key_rows (insert_row key_clash
            {| k_site := site; k_generation := generation; k_public_key := public_key; k_fingerprint := key_hash public_key;
               k_status := "ACTIVE"; k_created := now |});
      _ ← audit actor "REGISTER_WIREGUARD_KEY" site "device-key" "ok" None (Some generation);
      mret false).

Definition active_wireguard_public_keys (d : Db) : dict string string :=
  dict_of (map (λ r, (k_site r, k_public_key r)) (List.filter (λ r, same_text (k_status r) "ACTIVE") (key_rows d))).

Definition states_of (site : string) (d : Db) : list DesiredRow :=
  List.filter (λ r, same_text (dr_site r) site) (desired_rows d).

Definition next_desired_state_version (d : Db) (site : string) : Z := max_key dr_version (states_of site d) + 1.

Definition latest_desired_state (d : Db) (site : string) : option (dict string json) :=
  dr_contents <$> latest_by dr_version (states_of site d).

Definition latest_desired_state_is_verified (d : Db) (site : string) : bool :=
  match latest_by dr_version (states_of site d) with
  | Some r => match find (λ a, same_text (ak_site a) (dr_site r) && (ak_version a =? dr_version r)) (ack_rows d) with
              | Some a => same_text (ak_status a) "VERIFIED"
              | None => false
              end
  | None => false
  end.

Definition activate_destination_policy (document : dict string json) (actor : string) : M Db (Z * bool) :=
  let dig := sha256 document in
  transaction (
    row ← query (λ d, find (λ r, same_text (pv_digest r) dig) (policy_rows d));
    vc ← match row with
         | Some r => mret (pv_version r, false)
         | None =>
             version ← query (λ d, max_key pv_version (policy_rows d) + 1);
             _ ← execute (λ d, set_policy_rows d (policy_rows d ++
                   [{| pv_version := version; pv_digest := dig; pv_contents := document; pv_created := now; pv_created_by := actor |}]));
             mret (version, true)
         end;
    let '(version, changed) := vc in
    active ← query (λ d, head (activation_rows d));
    changed ← (if match active with Some a => negb (ac_version a =? version) | None => true end then
                 _ ← execute (λ d, set_activation_rows d [{| ac_version := version; ac_at := now; ac_by := actor |}]);
                 mret true
               else mret changed);
    _ ← audit actor "ACTIVATE_DESTINATION_POLICY" "destination-policy" "configured-intent" "ok" None (Some version);
    mret (version, negb changed)).

Definition active_destination_policy (d : Db) : option (Z * dict string json) :=
  match head (activation_rows d) with
  | Some a => match find (λ r, pv_version r =? ac_version a) (policy_rows d) with
              | Some r => Some (pv_version r, pv_contents r)
              | None => None
              end
  | None => None
  end.

(** FOREIGN KEY on the policy version; upsert on (site, policy_version). *)
Definition record_destination_policy_delivery (site : string) (policy desired : Z) (applied observed : string) : M Db unit :=
  transaction (
    let row := {| de_site := site; de_policy := policy; de_desired := desired; de_applied := applied;
                  de_observed := observed; de_updated := now |} in
    let mine := λ r, same_text (de_site r) site && (de_policy r =? policy) in
    known ← query (λ d, existsb (λ r, pv_version r =? policy) (policy_rows d));
    present ← query (λ d, existsb mine (delivery_rows d));
    if negb known then lift (raise IntegrityError "FOREIGN KEY constraint failed")
    else if present : bool then execute (λ d, set_delivery_rows d (update_rows mine (λ _, row) (delivery_rows d)))
    else execute (λ d, set_delivery_rows d (delivery_rows d ++ [row]))).

Definition address_clash (a b : AddressLease) : bool :=
  same_text (al_address a) (al_address b) ||
  (same_text (al_owner a) (al_owner b) && same_text (al_hub a) (al_hub b) && same_text (al_transport a) (al_transport b)
   && same_text (al_interface a) (al_interface b)).
Definition port_clash (a b : PortLease) : bool :=
  (same_text (pl_node a) (pl_node b) && (pl_port a =? pl_port b)) ||
  (same_text (pl_owner a) (pl_owner b) && same_text (pl_interface a) (pl_interface b)).

Definition reserve_resources (site : string) (addresses : list (string * string * string * string))
    (ports : list (string * Z * string)) (actor : string) : M Db unit :=
  transaction (
    _ ← forM (λ '(address, hub, transport, name), execute_checked address_rows set_address_rows (insert_row address_clash
          {| al_address := address; al_owner := site; al_hub := hub; al_transport := transport; al_interface := name;
             al_created := now |})) addresses;
    _ ← forM (λ '(node, port, name), execute_checked port_rows set_port_rows (insert_row port_clash
          {| pl_node := node; pl_port := port; pl_owner := site; pl_interface := name; pl_created := now |})) ports;
    audit actor "RESERVE_RESOURCES" site "lease" "ok" None None).

(** PRIMARY KEY (site, version), UNIQUE (site, digest). *)
Definition desired_clash (a b : DesiredRow) : bool :=
  same_text (dr_site a) (dr_site b) && ((dr_version a =? dr_version b) || same_text (dr_digest a) (dr_digest b)).

Definition superseded (version : Z) (r : DesiredRow) : DesiredRow := {|
  dr_site := dr_site r; dr_version := dr_version r; dr_digest := dr_digest r; dr_schema := dr_schema r;
  dr_generation := dr_generation r; dr_route_version := dr_route_version r; dr_epoch := dr_epoch r;
  dr_contents := dr_contents r; dr_created := dr_created r; dr_created_by := dr_created_by r; dr_delivery := dr_delivery r;
  dr_applied := dr_applied r; dr_verification := dr_verification r; dr_superseded_by := Some version |}.

Definition is_state (site : string) (version : Z) (r : DesiredRow) : bool := same_text (dr_site r) site && (dr_version r =? version).

Definition int_field (s : dict string json) (k : string) : result Z := v ← of_option (dget s k) KeyError k; py_int v.
Definition text_field (s : dict string json) (k : string) : result string := v ← of_option (dget s k) KeyError k; Ok (py_str v).

Definition put_desired_state (s : dict string json) (actor : string) : M Db (string * bool) :=
  site ← lift (text_field s "site"); version ← lift (int_field s "desired_state_version");
  let dig := sha256 (List.filter (λ p, negb (same_text p.1 "configuration_digest")) s) in
  _ ← lift (raise_if (match default JNull (dget s "configuration_digest") with
                      | JNull => false
                      | v => negb (same_text (py_str v) dig)
                      end) VersionConflict "desired-state configuration digest is invalid");
  transaction (
    latest ← query (λ d, latest_by dr_version (states_of site d));
    _ ← lift (raise_if (match latest with Some r => version <? dr_version r | None => false end) VersionConflict
                "stale desired state");
    existing ← query (λ d, find (is_state site version) (desired_rows d));
    match existing with
    | Some r =>
        if negb (same_text (dr_digest r) dig) then lift (raise VersionConflict "same desired-state version has different content")
        else mret (dig, true)
    | None =>
        _ ← match latest with
            | Some l => execute (λ d, set_desired_rows d
                          (update_rows (is_state site (dr_version l)) (superseded version) (desired_rows d)))
            | None => mret tt
            end;
        schema ← lift (int_field s "schema_version"); gen ← lift (text_field s "generation");
        route ← lift (int_field s "route_version"); epoch ← lift (int_field s "ownership_epoch");
        _ ← execute_checked desired_rows set_desired_rows (insert_row desired_clash
              {| dr_site := site; dr_version := version; dr_digest := dig; dr_schema := schema; dr_generation := gen;
                 dr_route_version := route; dr_epoch := epoch; dr_contents := s; dr_created := now; dr_created_by := actor;
                 dr_delivery := "PENDING"; dr_applied := "PENDING"; dr_verification := "UNVERIFIED"; dr_superseded_by := None |});
        _ ← audit actor "PUT_DESIRED_STATE" site "version" "ok" None (Some version);
        mret (dig, false)
    end).

Definition verified (r : DesiredRow) : DesiredRow := {|
  dr_site := dr_site r; dr_version := dr_version r; dr_digest := dr_digest r; dr_schema := dr_schema r;
  dr_generation := dr_generation r; dr_route_version := dr_route_version r; dr_epoch := dr_epoch r;
  dr_contents := dr_contents r; dr_created := dr_created r; dr_created_by := dr_created_by r; dr_delivery := dr_delivery r;
  dr_applied := "APPLIED"; dr_verification := "VERIFIED"; dr_superseded_by := dr_superseded_by r |}.

Definition ack_desired_state (site : string) (version : Z) (dig : string) (route : Z) (status detail : string) : M Db unit :=
  transaction (
    row ← query (λ d, find (is_state site version) (desired_rows d));
    _ ← lift (raise_if (match row with Some r => negb (same_text (dr_digest r) dig) | None => true end) VersionConflict
                "ack does not match desired state");
    let ack := {| ak_site := site; ak_version := version; ak_digest := dig; ak_route_version := route; ak_status := status;
                  ak_detail := detail; ak_at := now |} in
    let mine := λ a, same_text (ak_site a) site && (ak_version a =? version) in
    _ ← execute (λ d, set_ack_rows d (if existsb mine (ack_rows d) then update_rows mine (λ _, ack) (ack_rows d)
                                      else ack_rows d ++ [ack]));
    if same_text status "VERIFIED" then
      execute (λ d, set_desired_rows d (update_rows (is_state site version) verified (desired_rows d)))
    else mret tt).

Definition owner_of (p : string) (r : OwnerRow) : bool := same_text (prefix (ow_record r)) p.
(** PRIMARY KEY prefix, UNIQUE spoke *)
Definition owner_clash (a b : OwnerRow) : bool :=
  same_text (prefix (ow_record a)) (prefix (ow_record b)) || same_text (spoke (ow_record a)) (spoke (ow_record b)).

(** The upsert keeps the spoke of an existing row. *)
Definition updated_owner (new : OwnershipRecord) (r : OwnerRow) : OwnerRow := {|
  ow_record := {| prefix := prefix (ow_record r); spoke := spoke (ow_record r); preferred_hub := preferred_hub new;
    standby_hub := standby_hub new; current_owner_hub := current_owner_hub new; previous_owner_hub := previous_owner_hub new;
    owner_epoch := owner_epoch new; policy_version := policy_version new; route_version := route_version new;
    state := state new; reason := reason new; pending_reconciliation := pending_reconciliation new; valid_until := valid_until new |};
  ow_updated := now |}.

Definition pending_of (new : OwnershipRecord) (p : PendingRow) : bool :=
  same_text (pn_site p) (spoke new) && (pn_epoch p =? owner_epoch new) && same_text (pn_reason p) (reason new).

(** Both callers pass every required key; [OwnershipRecord] is that dict. *)
Definition transfer_ownership (new : OwnershipRecord) (actor : string) : M Db bool :=
  transaction (
    current ← query (λ d, find (owner_of (prefix new)) (owner_rows d));
    let current := owner_epoch ∘ ow_record <$> current in
    _ ← lift (raise_if (match current with Some n => owner_epoch new <? n | None => false end) VersionConflict "stale ownership epoch");
    if match current with Some n => owner_epoch new =? n | None => false end then mret true
    else
      _ ← match current with
          | Some _ => execute (λ d, set_owner_rows d (update_rows (owner_of (prefix new)) (updated_owner new) (owner_rows d)))
          | None => execute_checked owner_rows set_owner_rows (insert_row owner_clash {| ow_record := new; ow_updated := now |})
          end;
      _ ← (if pending_reconciliation new then
             execute (λ d, if existsb (pending_of new) (pending_rows d) then d
                           else set_pending_rows d (pending_rows d ++
                                  [{| pn_site := spoke new; pn_epoch := owner_epoch new; pn_reason := reason new;
                                      pn_created := now; pn_resolved := None |}]))
           else mret tt);
      _ ← audit actor "TRANSFER_OWNERSHIP" (prefix new) "epoch" "ok" None (Some (owner_epoch new));
      mret false).

Definition route_owner (d : Db) (p : string) : option OwnerRow := find (owner_of p) (owner_rows d).
End store.

(** ** The ownership coordinator ([route_ownership.py]) *)

Definition transfer (now : string) (current : OwnershipRecord) (new_owner : string) (new_owner_usable old_owner_reachable : bool)
    (actor why : string) : M Db OwnershipRecord :=
  if negb (inb new_owner [preferred_hub current; standby_hub current])
  then lift (raise ValueError "new owner is not a site-assigned hub")
  else if negb new_owner_usable then lift (raise RuntimeError "standby/new owner is not safe to receive traffic")
  else if String.eqb new_owner (current_owner_hub current) then mret current
  else
    let next := {| prefix := prefix current; spoke := spoke current; preferred_hub := preferred_hub current;
      standby_hub := standby_hub current; current_owner_hub := new_owner; previous_owner_hub := Some (current_owner_hub current);
      owner_epoch := owner_epoch current + 1; policy_version := policy_version current; route_version := route_version current + 1;
      state := "COMMITTED"; reason := why; pending_reconciliation := negb old_owner_reachable; valid_until := None |} in
    _ ← transfer_ownership now next actor;
    mret next.
