(* ===== verification/PolicyStoreFacts.v ===== *)
(** * What the policy database guarantees

    The effect of each operation on every branch, and the invariant and the
    order that any sequence of operations keeps. *)
From Stdlib Require Import Ascii.
From S2P Require Import Prelude Net Marks PathSelection Model ModelValidate Json Inventory Sql PolicyStore.
Local Open Scope string_scope.
Local Open Scope list_scope.
Local Open Scope Z_scope.

(** Unfold one operation to its branches. *)
Ltac run_store :=
  cbv [transaction query execute execute_checked audit mbind M_bind mret M_ret get put lift raise_if];
  cbn beta iota zeta.

Section ops.
Context `{PyRepr} (sha256 : dict string json → string) (key_hash : string → string) (now : string).

(** ** Effects *)

Definition new_row (s : dict string json) (actor site dig gen : string) (version schema route epoch : Z) : DesiredRow := {|
  dr_site := site; dr_version := version; dr_digest := dig; dr_schema := schema; dr_generation := gen;
  dr_route_version := route; dr_epoch := epoch; dr_contents := s; dr_created := now; dr_created_by := actor;
  dr_delivery := "PENDING"; dr_applied := "PENDING"; dr_verification := "UNVERIFIED"; dr_superseded_by := None |}.

Definition supersede (site : string) (version : Z) (rows : list DesiredRow) : list DesiredRow :=
  match latest_by dr_version (List.filter (λ r, same_text (dr_site r) site) rows) with
  | Some l => update_rows (is_state site (dr_version l)) (superseded version) rows
  | None => rows
  end.

Definition identity (r : DesiredRow) := (dr_site r, dr_version r, dr_digest r, dr_contents r).

Lemma supersede_identity site version rows : map identity (supersede site version rows) = map identity rows.
Proof. unfold supersede. destruct (latest_by _ _); [|done]. by apply update_rows_map. Qed.

Lemma supersede_elem site version rows r : r ∈ rows → ∃ r', r' ∈ supersede site version rows ∧ identity r' = identity r.
Proof.
  intros Hr. assert (identity r ∈ map identity (supersede site version rows)) as Hm.
  { rewrite supersede_identity. apply elem_of_map. by exists r. }
  apply elem_of_map in Hm as (r' & E & Hr'). by exists r'.
Qed.

Lemma fresh_digest s actor site dig gen version schema route epoch rows r :
  (∀ x, x ∈ supersede site version rows → desired_clash (new_row s actor site dig gen version schema route epoch) x = false) →
  r ∈ rows → dr_site r = site → dr_digest r ≠ dig.
Proof.
  intros Hc Hr Hs Hd. destruct (supersede_elem site version rows r Hr) as (r' & Hr' & [= E1 E2 E3 E4]).
  specialize (Hc r' Hr'). unfold desired_clash, same_text in Hc. cbn in Hc.
  rewrite E1, E3, Hs, Hd, !String.eqb_refl, orb_true_r in Hc. done.
Qed.

(** [put_desired_state] changes nothing, or adds a row of a version above every
    version of its site and marks the previous latest as superseded by it. *)
Lemma put_effect s actor d :
  let res := put_desired_state sha256 now s actor d in
  (res.2 = d ∧ ∀ dig b, res.1 = Ok (dig, b) → b = true ∧ ∃ r, r ∈ desired_rows d ∧ dr_digest r = dig ∧
     text_field s "site" = Ok (dr_site r) ∧ int_field s "desired_state_version" = Ok (dr_version r) ∧
     ∀ x, x ∈ desired_rows d → dr_site x = dr_site r → dr_version x <= dr_version r) ∨
  ∃ site version dig gen schema route epoch,
    let row := new_row s actor site dig gen version schema route epoch in
    text_field s "site" = Ok site ∧ int_field s "desired_state_version" = Ok version ∧ res.1 = Ok (dig, false) ∧
    (∀ r, r ∈ desired_rows d → dr_site r = site → dr_version r < version ∧ dr_digest r ≠ dig) ∧
    desired_rows res.2 = supersede site version (desired_rows d) ++ [row] ∧
    ∃ audits, res.2 = set_audit_rows (set_desired_rows d (supersede site version (desired_rows d) ++ [row])) (audit_rows d ++ audits).
Proof.
  cbv zeta. unfold put_desired_state. run_store.
  destruct (text_field s "site") as [site|] eqn:Hsite; [|by left].
  destruct (int_field s "desired_state_version") as [version|] eqn:Hver; [|by left].
  set (dig := sha256 _). destruct (match default JNull _ with JNull => false | _ => _ end); [by left|].
  change (states_of site d) with (List.filter (λ r, same_text (dr_site r) site) (desired_rows d)).
  set (mine := List.filter (λ r, same_text (dr_site r) site) (desired_rows d)).
  destruct (match latest_by dr_version mine with Some r => version <? dr_version r | None => false end) eqn:Hstale; [by left|].
  assert (Hatmost : ∀ r, r ∈ desired_rows d → dr_site r = site → dr_version r <= version).
  { intros r Hr Hs. assert (Hm : r ∈ mine) by (apply list_elem_of_In, filter_In; split; [by apply list_elem_of_In|by apply String.eqb_eq]).
    destruct (latest_by_some dr_version mine r Hm) as [l Hl]. rewrite Hl in Hstale.
    apply latest_by_elem in Hl as [_ Hmax]. specialize (Hmax r Hm). apply Z.ltb_ge in Hstale. lia. }
  destruct (find (is_state site version) (desired_rows d)) as [r|] eqn:Hfind.
  { apply find_elem in Hfind as [Hin Hr]. unfold is_state in Hr. apply andb_true_iff in Hr as [Hr1 Hr2].
    unfold same_text in *. apply String.eqb_eq in Hr1. apply Z.eqb_eq in Hr2. left.
    destruct (String.eqb_spec (dr_digest r) dig) as [Hd|]; cbn; [|by split]. split; [done|].
    intros dig' b [= <- <-]. split; [done|]. exists r. split_and!; try congruence.
    intros x Hx Ex. rewrite Hr2. apply Hatmost; [done|congruence]. }
  assert (Hbelow : ∀ r, r ∈ desired_rows d → dr_site r = site → dr_version r < version).
  { intros r Hr Hs. specialize (Hatmost r Hr Hs).
    destruct (Z.eq_dec (dr_version r) version) as [E|]; [|lia].
    pose proof (find_none _ _ Hfind r) as Hn. rewrite <- list_elem_of_In in Hn. specialize (Hn Hr).
    unfold is_state, same_text in Hn. by rewrite Hs, E, String.eqb_refl, Z.eqb_refl in Hn. }
  set (d1 := match latest_by dr_version mine with
    | Some l => set_desired_rows d (update_rows (is_state site (dr_version l)) (superseded version) (desired_rows d))
    | None => d end).
  assert (Hd1 : desired_rows d1 = supersede site version (desired_rows d) ∧ ∀ v, set_desired_rows d1 v = set_desired_rows d v).
  { unfold d1, supersede. fold mine. by destruct (latest_by dr_version mine). }
  destruct Hd1 as [E1 E2].
  destruct (latest_by dr_version mine) as [l|]; cbn beta iota zeta; fold d1;
    (destruct (int_field s "schema_version") as [schema|]; [|by left]);
    (destruct (text_field s "generation") as [gen|]; [|by left]);
    (destruct (int_field s "route_version") as [route|]; [|by left]);
    (destruct (int_field s "ownership_epoch") as [epoch|]; [|by left]);
    rewrite E1; fold (new_row s actor site dig gen version schema route epoch);
    (destruct (insert_row desired_clash _ _) as [rows|x] eqn:Hins; cbn beta iota; [|by left]);
    apply insert_row_ok in Hins as [-> Hclash]; right;
    exists site, version, dig, gen, schema, route, epoch; cbv zeta; split_and!; try done.
  - intros r Hr Hs. split; [by apply Hbelow|]. eapply fresh_digest; [exact Hclash|done|done].
  - rewrite E2. simpl. by eexists.
  - change d1 with d in E1. rewrite <- !E1. intros r Hr Hs. split; [by apply Hbelow|]. eapply fresh_digest; [exact Hclash|done|done].
  - change d1 with d in E1. by rewrite <- !E1.
  - change d1 with d in E1. rewrite <- !E1. simpl. by eexists.
Qed.

(** The acknowledgement of a stored state replaces the earlier one; [VERIFIED]
    marks the state. *)
Definition ack_row (site : string) (version : Z) (dig : string) (route : Z) (status detail : string) : AckRow := {|
  ak_site := site; ak_version := version; ak_digest := dig; ak_route_version := route; ak_status := status;
  ak_detail := detail; ak_at := now |}.

Definition is_ack (site : string) (version : Z) (a : AckRow) : bool := same_text (ak_site a) site && (ak_version a =? version).

Definition put_ack (a : AckRow) (rows : list AckRow) : list AckRow :=
  if existsb (is_ack (ak_site a) (ak_version a)) rows then update_rows (is_ack (ak_site a) (ak_version a)) (λ _, a) rows else rows ++ [a].

Lemma ack_effect site version dig route status detail d :
  let res := ack_desired_state now site version dig route status detail d in
  (res.2 = d ∧ is_ok res.1 = false ∧ ¬ ∃ r, find (is_state site version) (desired_rows d) = Some r ∧ dr_digest r = dig) ∨
  (res.1 = Ok tt ∧ (∃ r, find (is_state site version) (desired_rows d) = Some r ∧ dr_digest r = dig) ∧
   let d' := set_ack_rows d (put_ack (ack_row site version dig route status detail) (ack_rows d)) in
   res.2 = if same_text status "VERIFIED" then set_desired_rows d' (update_rows (is_state site version) verified (desired_rows d)) else d').
Proof.
  cbv zeta. unfold ack_desired_state. run_store.
  destruct (find _ _) as [r|] eqn:Hfind; [|left; split_and!; try done; by intros (? & ? & ?)].
  change (same_text (dr_digest r) dig) with (String.eqb (dr_digest r) dig).
  destruct (String.eqb_spec (dr_digest r) dig) as [Hd|Hd]; cbn.
  - right. destruct (same_text status "VERIFIED"); (split; [done|split; [by exists r|done]]).
  - left. split_and!; try done. by intros (? & [= <-] & ?).
Qed.

Lemma pending_added new rows : ∃ p, p ∈ (if existsb (pending_of new) rows then rows else rows ++
    [{| pn_site := spoke new; pn_epoch := owner_epoch new; pn_reason := reason new; pn_created := now; pn_resolved := None |}])
  ∧ pending_of new p = true.
Proof.
  destruct (existsb (pending_of new) rows) eqn:E.
  - apply existsb_exists in E as (p & Hp%list_elem_of_In & Hq). by exists p.
  - eexists. split; [apply elem_of_app; right; constructor|]. unfold pending_of, same_text. cbn.
    by rewrite !String.eqb_refl, Z.eqb_refl.
Qed.

Lemma transfer_effect new actor d :
  let res := transfer_ownership now new actor d in
  let cur := find (owner_of (prefix new)) (owner_rows d) in
  (res.2 = d ∧ (res.1 = Ok true ↔ ∃ r, cur = Some r ∧ owner_epoch (ow_record r) = owner_epoch new) ∧ res.1 ≠ Ok false) ∨
  (res.1 = Ok false ∧ (∀ r, cur = Some r → owner_epoch (ow_record r) < owner_epoch new) ∧
   ∃ owners pending audits, res.2 = set_audit_rows (set_pending_rows (set_owner_rows d owners) pending) (audit_rows d ++ audits) ∧
   (pending_reconciliation new = true → ∃ p, p ∈ pending ∧ pending_of new p = true) ∧
   match cur with
   | Some _ => owners = update_rows (owner_of (prefix new)) (updated_owner now new) (owner_rows d)
   | None => insert_row owner_clash {| ow_record := new; ow_updated := now |} (owner_rows d) = Ok owners
   end).
Proof.
  cbv zeta. unfold transfer_ownership. run_store.
  destruct (find _ _) as [r|] eqn:Hfind; cbn.
  - destruct (Z.ltb_spec (owner_epoch new) (owner_epoch (ow_record r))) as [Hlt|Hge]; cbn.
    { left. split; [done|]. split; [split; [done|]|done]. intros (? & [= <-] & ?). lia. }
    destruct (Z.eqb_spec (owner_epoch new) (owner_epoch (ow_record r))) as [He|Hne]; cbn.
    { left. split; [done|]. split; [split; [|done]|done]. intros _. by exists r. }
    right. destruct (pending_reconciliation new); cbn; [destruct (existsb _ _) eqn:He; cbn in He |- *|];
      (split; [done|]; split; [intros ? [= <-]; lia|]); eexists _, _, _; (split; [cbn; reflexivity|]); split; try done; intros _; generalize (pending_added new (pending_rows d)); by rewrite He.
  - destruct (insert_row _ _ _) as [rows|] eqn:Hins; cbn; [|left; split; [done|]; split; [split; [done|by intros (? & ? & ?)]|done]].
    right. destruct (pending_reconciliation new); cbn; [destruct (existsb _ _) eqn:He; cbn in He |- *|];
      (split; [done|]; split; [done|]); eexists _, _, _; (split; [cbn; reflexivity|]); split; try done; intros _; generalize (pending_added new (pending_rows d)); by rewrite He.
Qed.
End ops.
