(* ===== verification/StoreHistory.v ===== *)
(** * Histories of the policy database

    [store_step] is one call of a [PolicyStore] operation; [store_ok] is the
    invariant every history keeps, [grows] the order in which it moves. *)
From stdpp Require Import relations.
From S2P Require Import Prelude Net Marks PathSelection Model ModelValidate Json CoreTopology Inventory Sql PolicyStore PolicyStoreFacts.
Local Open Scope string_scope.
Local Open Scope list_scope.
Local Open Scope Z_scope.

(** ** The invariant *)

Definition key_current (rows : list KeyRow) (r : KeyRow) : Prop := ∃ a, a ∈ rows ∧
  k_site a = k_site r ∧ k_status a = "ACTIVE" ∧ k_generation r <= k_generation a ∧
  (k_status r = "ACTIVE" → a = r).

(** A state points at the next version of its site; the latest points nowhere. *)
Definition chained (rows : list DesiredRow) (r : DesiredRow) : Prop :=
  match dr_superseded_by r with
  | None => ∀ s, s ∈ rows → dr_site s = dr_site r → dr_version s <= dr_version r
  | Some v => dr_version r < v ∧ (∃ s, s ∈ rows ∧ dr_site s = dr_site r ∧ dr_version s = v) ∧
              ∀ s, s ∈ rows → dr_site s = dr_site r → dr_version s <= dr_version r ∨ v <= dr_version s
  end.

Definition acked (rows : list DesiredRow) (a : AckRow) : Prop := ∃ r, r ∈ rows ∧
  dr_site r = ak_site a ∧ dr_version r = ak_version a ∧ dr_digest r = ak_digest a ∧
  (ak_status a = "VERIFIED" → dr_applied r = "APPLIED" ∧ dr_verification r = "VERIFIED").

Definition ack_clash (a b : AckRow) : bool := same_text (ak_site a) (ak_site b) && (ak_version a =? ak_version b).
Definition delivery_clash (a b : DeliveryRow) : bool := same_text (de_site a) (de_site b) && (de_policy a =? de_policy b).
Definition version_clash (a b : PolicyVersionRow) : bool := (pv_version a =? pv_version b) || same_text (pv_digest a) (pv_digest b).

Record store_ok (d : Db) : Prop := {
  ok_sites : no_clash site_clash (site_rows d);
  ok_keys : no_clash key_clash (key_rows d);
  ok_current : ∀ r, r ∈ key_rows d → key_current (key_rows d) r;
  ok_states : no_clash desired_clash (desired_rows d);
  ok_chain : ∀ r, r ∈ desired_rows d → chained (desired_rows d) r;
  ok_acks : no_clash ack_clash (ack_rows d);
  ok_acked : ∀ a, a ∈ ack_rows d → acked (desired_rows d) a;
  ok_owners : no_clash owner_clash (owner_rows d);
  ok_versions : no_clash version_clash (policy_rows d);
  ok_activation : (length (activation_rows d) ≤ 1)%nat ∧
    ∀ a, a ∈ activation_rows d → ∃ r, r ∈ policy_rows d ∧ pv_version r = ac_version a;
  ok_deliveries : no_clash delivery_clash (delivery_rows d);
  ok_delivered : ∀ r, r ∈ delivery_rows d → ∃ v, v ∈ policy_rows d ∧ pv_version v = de_policy r;
  ok_addresses : no_clash address_clash (address_rows d);
  ok_ports : no_clash port_clash (port_rows d)
}.

(** ** The order *)

Definition owners_grow (l k : list OwnerRow) : Prop := ∀ r, r ∈ l → ∃ r', r' ∈ k ∧
  prefix (ow_record r') = prefix (ow_record r) ∧ spoke (ow_record r') = spoke (ow_record r) ∧
  (r' = r ∨ owner_epoch (ow_record r) < owner_epoch (ow_record r')).

Record grows (d d' : Db) : Prop := {
  grow_states : map identity (desired_rows d) `prefix_of` map identity (desired_rows d');
  grow_policies : policy_rows d `prefix_of` policy_rows d';
  grow_audit : audit_rows d `prefix_of` audit_rows d';
  grow_sites : map (λ r, (sr_site r, sr_device r, sr_lan r)) (site_rows d) `prefix_of`
               map (λ r, (sr_site r, sr_device r, sr_lan r)) (site_rows d');
  grow_keys : map (λ r, (k_site r, k_generation r, k_public_key r)) (key_rows d) `prefix_of`
              map (λ r, (k_site r, k_generation r, k_public_key r)) (key_rows d');
  grow_owners : owners_grow (owner_rows d) (owner_rows d');
  grow_addresses : address_rows d `prefix_of` address_rows d';
  grow_ports : port_rows d `prefix_of` port_rows d'
}.

#[export] Instance owners_grow_preorder : PreOrder owners_grow.
Proof.
  split.
  - intros l r Hr. exists r. naive_solver.
  - intros l k m H1 H2 r Hr. destruct (H1 r Hr) as (r1 & Hr1 & E1 & E2 & E3).
    destruct (H2 r1 Hr1) as (r2 & Hr2 & F1 & F2 & F3). exists r2. split_and!; [done|congruence|congruence|].
    destruct E3 as [->|E3], F3 as [->|F3]; auto; right; lia.
Qed.

#[export] Instance grows_preorder : PreOrder grows.
Proof.
  split.
  - intros d. by split.
  - intros a b c H1 H2. destruct H1, H2. split; etrans; eassumption.
Qed.

(** What every step does. *)
Definition advances (d d' : Db) : Prop := store_ok d → store_ok d' ∧ grows d d'.

#[export] Instance advances_preorder : PreOrder advances.
Proof.
  split.
  - intros d Hd. by split.
  - intros a b c H1 H2 Ha. destruct (H1 Ha) as [Hb G1]. destruct (H2 Hb) as [Hc G2]. split; [done|by etrans].
Qed.

#[export] Instance site_clash_sym : Symmetrical site_clash.
Proof. intros a b. unfold site_clash, same_text. by rewrite (eqb_swap sr_site a b), (eqb_swap sr_device a b), (eqb_swap sr_lan a b). Qed.
#[export] Instance key_clash_sym : Symmetrical key_clash.
Proof. intros a b. unfold key_clash, same_text. by rewrite (eqb_swap k_site a b), (zeqb_swap k_generation a b), (eqb_swap k_status a b). Qed.
#[export] Instance desired_clash_sym : Symmetrical desired_clash.
Proof. intros a b. unfold desired_clash, same_text. by rewrite (eqb_swap dr_site a b), (zeqb_swap dr_version a b), (eqb_swap dr_digest a b). Qed.
#[export] Instance ack_clash_sym : Symmetrical ack_clash.
Proof. intros a b. unfold ack_clash, same_text. by rewrite (eqb_swap ak_site a b), (zeqb_swap ak_version a b). Qed.
#[export] Instance delivery_clash_sym : Symmetrical delivery_clash.
Proof. intros a b. unfold delivery_clash, same_text. by rewrite (eqb_swap de_site a b), (zeqb_swap de_policy a b). Qed.
#[export] Instance version_clash_sym : Symmetrical version_clash.
Proof. intros a b. unfold version_clash, same_text. by rewrite (zeqb_swap pv_version a b), (eqb_swap pv_digest a b). Qed.
#[export] Instance owner_clash_sym : Symmetrical owner_clash.
Proof.
  intros a b. unfold owner_clash, same_text.
  by rewrite (eqb_swap (λ r, prefix (ow_record r)) a b), (eqb_swap (λ r, spoke (ow_record r)) a b).
Qed.
#[export] Instance address_clash_sym : Symmetrical address_clash.
Proof.
  intros a b. unfold address_clash, same_text.
  by rewrite (eqb_swap al_address a b), (eqb_swap al_owner a b), (eqb_swap al_hub a b), (eqb_swap al_transport a b), (eqb_swap al_interface a b).
Qed.
#[export] Instance port_clash_sym : Symmetrical port_clash.
Proof.
  intros a b. unfold port_clash, same_text.
  by rewrite (eqb_swap pl_node a b), (zeqb_swap pl_port a b), (eqb_swap pl_owner a b), (eqb_swap pl_interface a b).
Qed.

(** ** Moves of single tables *)

#[local] Ltac solve_advance := intros []; split; [split; cbn; auto|split; cbn; auto; try reflexivity; try (by eexists)].

Lemma advance_audit d l : advances d (set_audit_rows d (audit_rows d ++ l)).
Proof. solve_advance. Qed.

Lemma advance_pending d l : advances d (set_pending_rows d l).
Proof. solve_advance. Qed.

Lemma moves_transaction {A} (m : M Db A) : moves advances m → moves advances (transaction m).
Proof. intros Hm d. specialize (Hm d). unfold transaction. by destruct (m d) as [[x|e] d']. Qed.

Lemma moves_audit now actor action target why res b a : moves advances (audit now actor action target why res b a).
Proof. intros d. apply (advance_audit d [_]). Qed.

Lemma advance_addresses d x rows : insert_row address_clash x (address_rows d) = Ok rows → advances d (set_address_rows d rows).
Proof.
  intros Hi. pose proof (λ H, insert_no_clash _ _ _ _ H Hi) as Hn. pose proof (insert_prefix _ _ _ _ Hi). solve_advance.
Qed.

Lemma advance_ports d x rows : insert_row port_clash x (port_rows d) = Ok rows → advances d (set_port_rows d rows).
Proof.
  intros Hi. pose proof (λ H, insert_no_clash _ _ _ _ H Hi) as Hn. pose proof (insert_prefix _ _ _ _ Hi). solve_advance.
Qed.

Lemma advance_site_added d x rows : insert_row site_clash x (site_rows d) = Ok rows → advances d (set_site_rows d rows).
Proof.
  intros Hi. pose proof (λ H, insert_no_clash _ _ _ _ H Hi) as Hn. pose proof (insert_prefix _ _ _ _ Hi).
  solve_advance. by apply prefix_map.
Qed.

Lemma moves_insert {A} (table : Db → list A) set clash x :
  (∀ d rows, insert_row clash x (table d) = Ok rows → advances d (set d rows)) →
  moves advances (execute_checked table set (insert_row clash x)).
Proof.
  intros Hi d. unfold execute_checked, get, put, lift, mbind, M_bind. simpl.
  destruct (insert_row clash x (table d)) as [rows|e] eqn:E; [by apply Hi|done].
Qed.

Lemma reserve_moves now site addresses ports actor : moves advances (reserve_resources now site addresses ports actor).
Proof.
  apply moves_transaction. repeat (moves_step || apply moves_audit).
  - apply moves_insert. intros d rows. apply advance_addresses.
  - apply moves_insert. intros d rows. apply advance_ports.
Qed.

Lemma moves_query {A} (f : Db → A) : moves advances (query f).
Proof. by intros d. Qed.

Lemma stage_moves now site dev lan p s actor : moves advances (stage_site now site dev lan p s actor).
Proof.
  unfold stage_site. moves_step. apply moves_transaction.
  apply (moves_bind _); [apply moves_query|intros row]. moves_step.
  apply (moves_bind _); [destruct row as [r|]|intros ?; apply moves_audit].
  - intros d. solve_advance; [by apply update_rows_no_clash|by apply map_update_rows].
  - apply moves_insert. intros d rows. apply advance_site_added.
Qed.

(** ** Keys *)

Definition new_key (now : string) (hash : string → string) (site key : string) (generation : Z) : KeyRow := {|
  k_site := site; k_generation := generation; k_public_key := key; k_fingerprint := hash key; k_status := "ACTIVE"; k_created := now |}.

(** Registration does nothing, or appends the next generation as the site's
    only active key. *)
Lemma register_effect hash now site key actor d :
  let res := register_wireguard_public_key hash now site key actor d in
  (res.2 = d ∧ ∀ b, res.1 = Ok b → b = true ∧ ∃ r, r ∈ key_rows d ∧ active_key site r = true ∧ k_public_key r = key) ∨
  ∃ rows g, res = (Ok false, set_audit_rows (set_key_rows d (rows ++ [new_key now hash site key g]))
              (audit_rows d ++ [{| au_actor := actor; au_action := "REGISTER_WIREGUARD_KEY"; au_target := site;
                 au_reason := "device-key"; au_result := "ok"; au_before := None; au_after := Some g; au_at := now |}])) ∧
    insert_row key_clash (new_key now hash site key g) rows = Ok (rows ++ [new_key now hash site key g]) ∧
    match find (active_key site) (key_rows d) with
    | Some r => g = k_generation r + 1 ∧ update_checked key_clash (active_key site) retired [] (key_rows d) = Ok rows
    | None => g = 1 ∧ rows = key_rows d
    end.
Proof.
  cbv zeta. unfold register_wireguard_public_key. run_store.
  destruct (negb (nonempty key) || _); [by left|]. destruct (negb (is_ascii key)); [by left|].
  destruct (find (active_key site) (key_rows d)) as [r|] eqn:Hf; cbn beta iota zeta.
  - change (same_text (k_public_key r) key) with (String.eqb (k_public_key r) key).
    destruct (String.eqb_spec (k_public_key r) key) as [Hk|Hk]; cbn beta iota zeta.
    + apply find_elem in Hf as [Hin Ha]. left. split; [done|]. intros b [= <-]. split; [done|]. by exists r.
    + destruct (update_checked _ _ _ _ _) as [rows|] eqn:Hu; cbn; [|by left].
      fold (new_key now hash site key (k_generation r + 1)).
      destruct (insert_row _ _ rows) as [rows'|] eqn:Hi; cbn; [|by left].
      pose proof (insert_row_ok _ _ _ _ Hi) as [-> _]. right. by exists rows, (k_generation r + 1).
  - fold (new_key now hash site key 1).
    destruct (insert_row _ _ (key_rows d)) as [rows'|] eqn:Hi; cbn; [|by left].
    pose proof (insert_row_ok _ _ _ _ Hi) as [-> _]. right. by exists (key_rows d), 1.
Qed.

Lemma active_key_iff site r : active_key site r = true ↔ k_site r = site ∧ k_status r = "ACTIVE".
Proof. unfold active_key, same_text. by rewrite andb_true_iff, !String.eqb_eq. Qed.

Lemma active_unique rows a b :
  no_clash key_clash rows → a ∈ rows → b ∈ rows → k_site a = k_site b → k_status a = "ACTIVE" → k_status b = "ACTIVE" → a = b.
Proof.
  intros Hn Ha Hb Hs Hta Htb. eapply no_clash_elem; [done|done|done|]. unfold key_clash, same_text.
  by rewrite Hs, Hta, Htb, !String.eqb_refl, orb_true_r.
Qed.

(** Rotating the active key of a site, or adding its first. *)
Lemma rotate_current rows site key hash now g :
  no_clash key_clash rows → (∀ r, r ∈ rows → key_current rows r) →
  match find (active_key site) rows with Some r => g = k_generation r + 1 | None => True end →
  ∀ x, x ∈ update_rows (active_key site) retired rows ++ [new_key now hash site key g] →
    key_current (update_rows (active_key site) retired rows ++ [new_key now hash site key g]) x.
Proof.
  intros Hn Hcur Hg x [Hx|Hx]%elem_of_app; [apply update_rows_elem in Hx as (y & Hy & ->)|apply list_elem_of_singleton in Hx as ->].
  2: { exists (new_key now hash site key g). split_and!; try done; apply elem_of_app; right; constructor. }
  destruct (Hcur y Hy) as (a & Ha & Hs & Hact & Hge & Huniq).
  destruct (String.eqb_spec (k_site y) site) as [Hys|Hys].
  - assert (active_key site a = true) as Haa by (apply active_key_iff; split; congruence).
    destruct (find (active_key site) rows) as [r|] eqn:Hf; [|by rewrite (find_none _ _ Hf a) in Haa; [|apply list_elem_of_In]].
    apply find_elem in Hf as [Hr Hra]. apply active_key_iff in Hra as [Hrs Hrt].
    assert (a = r) as <- by (apply (active_unique rows); congruence).
    exists (new_key now hash site key g). split_and!; try done.
    + apply elem_of_app. right. constructor.
    + by destruct (active_key site y).
    + destruct (active_key site y); cbn; lia.
    + destruct (active_key site y) eqn:Ey; [done|]. intros Hty.
      assert (active_key site y = true) by (by apply active_key_iff). congruence.
  - assert (active_key site y = false) as Ey by (apply not_true_iff_false; by intros [? _]%active_key_iff).
    rewrite Ey. exists a. split_and!; try done. apply elem_of_app. left. apply update_rows_elem. exists a. split; [done|].
    destruct (active_key site a) eqn:Eaa; [|done]. apply active_key_iff in Eaa as [? _]. congruence.
Qed.

Lemma register_moves hash now site key actor : moves advances (register_wireguard_public_key hash now site key actor).
Proof.
  intros d. destruct (register_effect hash now site key actor d) as [[-> _]|(rows & g & -> & Hi & Hf)]; [done|]. cbn [snd].
  etrans; [|apply (advance_audit (set_key_rows d _) [_])]. intros Hok.
  assert (rows = update_rows (active_key site) retired (key_rows d) ∧ no_clash key_clash rows ∧
    match find (active_key site) (key_rows d) with Some r => g = k_generation r + 1 | None => True end) as (E & Hn & Hg).
  { destruct (find _ _) as [r|] eqn:Hfind.
    - destruct Hf as [-> Hu]. split_and!; [by apply update_checked_ok in Hu| |done].
      eapply update_checked_no_clash; [apply _| |done]. apply Hok.
    - destruct Hf as [-> ->]. split_and!; [by rewrite update_rows_none|apply Hok|done]. }
  pose proof (insert_no_clash _ _ _ _ Hn Hi) as Hn'. rewrite E in *.
  destruct Hok as []. split; [split; cbn; auto|split; cbn; auto; try reflexivity].
  - by apply rotate_current.
  - rewrite map_app, update_rows_map by done. by eexists.
Qed.

(** ** Destination policies *)

Definition with_policy (sha256 : dict string json → string) (now : string) (document : dict string json) (actor : string)
    (rows : list PolicyVersionRow) : Z * list PolicyVersionRow :=
  match find (λ r, same_text (pv_digest r) (sha256 document)) rows with
  | Some r => (pv_version r, rows)
  | None => let v := max_key pv_version rows + 1 in
      (v, rows ++ [{| pv_version := v; pv_digest := sha256 document; pv_contents := document; pv_created := now; pv_created_by := actor |}])
  end.

Definition with_activation (now : string) (v : Z) (actor : string) (rows : list ActivationRow) : list ActivationRow :=
  match head rows with
  | Some a => if ac_version a =? v then rows else [{| ac_version := v; ac_at := now; ac_by := actor |}]
  | None => [{| ac_version := v; ac_at := now; ac_by := actor |}]
  end.

Lemma activate_effect sha256 now document actor d :
  let '(v, rows) := with_policy sha256 now document actor (policy_rows d) in
  ∃ b audits, activate_destination_policy sha256 now document actor d =
    (Ok (v, b), set_audit_rows (set_activation_rows (set_policy_rows d rows) (with_activation now v actor (activation_rows d)))
                  (audit_rows d ++ audits)) ∧
    (b = true ↔ rows = policy_rows d ∧ with_activation now v actor (activation_rows d) = activation_rows d ∧ activation_rows d ≠ []).
Proof.
  unfold activate_destination_policy, with_policy, with_activation. run_store.
  destruct (find _ _) as [r|] eqn:Hf; cbn.
  - destruct (activation_rows d) as [|a l] eqn:Ha; cbn.
    + eexists _, _. split; [reflexivity|]. cbn. naive_solver.
    + destruct (Z.eqb_spec (ac_version a) (pv_version r)) as [E|E]; cbn; eexists _, _; (split; [rewrite <- ?Ha; reflexivity|]); cbn.
      * naive_solver.
      * split; [done|]. intros (_ & [= <- _] & _). done.
  - destruct (activation_rows d) as [|a l] eqn:Ha; cbn.
    + eexists _, _. split; [reflexivity|]. cbn. naive_solver.
    + destruct (Z.eqb_spec (ac_version a) (max_key pv_version (policy_rows d) + 1)) as [E|E]; cbn;
        eexists _, _; (split; [rewrite <- ?Ha; reflexivity|]); cbn; (split; [done|]);
        intros (Hl & _); apply (f_equal length) in Hl; rewrite length_app in Hl; cbn in Hl; lia.
Qed.

Lemma with_policy_spec sha256 now document actor rows v rows' :
  with_policy sha256 now document actor rows = (v, rows') → rows `prefix_of` rows' ∧
  (no_clash version_clash rows → no_clash version_clash rows') ∧ ∃ r, r ∈ rows' ∧ pv_version r = v ∧ pv_digest r = sha256 document.
Proof.
  unfold with_policy. destruct (find _ _) as [r|] eqn:Hf; intros [= <- <-].
  - apply find_elem in Hf as [Hr Hd]. apply String.eqb_eq in Hd. split_and!; [done|done|by exists r].
  - split_and!; [by eexists| |eexists; split_and!; [apply elem_of_app; right; constructor|done|done]].
    intros Hn. rewrite <- (app_nil_r (rows ++ [_])). apply no_clash_add; [apply _|by rewrite app_nil_r|]. rewrite app_nil_r.
    apply not_true_iff_false. intros (s & Hs%list_elem_of_In & Hc)%existsb_exists.
    unfold version_clash in Hc. cbn in Hc. apply orb_true_iff in Hc as [Hc|Hc].
    + apply Z.eqb_eq in Hc. pose proof (max_key_bound pv_version rows s Hs). lia.
    + pose proof (find_none _ _ Hf s) as Hx. rewrite <- list_elem_of_In in Hx. specialize (Hx Hs). cbn in Hx.
      unfold same_text in *. rewrite String.eqb_sym in Hc. congruence.
Qed.

Lemma activate_moves sha256 now document actor : moves advances (activate_destination_policy sha256 now document actor).
Proof.
  intros d. pose proof (activate_effect sha256 now document actor d) as He.
  destruct (with_policy sha256 now document actor (policy_rows d)) as [v rows] eqn:Hw.
  destruct He as (b & audits & -> & _). cbn [snd]. apply with_policy_spec in Hw as (Hp & Hn & r & Hr & Hv & _).
  assert (Hold : ∀ w, (∃ x, x ∈ policy_rows d ∧ pv_version x = w) → ∃ x, x ∈ rows ∧ pv_version x = w).
  { intros w (x & Hx & E). exists x. split; [|done]. destruct Hp as [k ->]. apply elem_of_app. by left. }
  solve_advance. destruct ok_activation0 as [Hlen Hin]. unfold with_activation.
  destruct (activation_rows d) as [|a l] eqn:Ha; cbn.
  - split; [lia|]. intros a ->%list_elem_of_singleton. by exists r.
  - destruct (_ =? _); (split; [cbn in *; lia|]).
    + intros y Hy. apply Hold, Hin, Hy.
    + intros y ->%list_elem_of_singleton. by exists r.
Qed.

Lemma delivery_moves now site policy desired applied observed :
  moves advances (record_destination_policy_delivery now site policy desired applied observed).
Proof.
  apply moves_transaction. intros d. run_store.
  set (mine := λ r, same_text (de_site r) site && (de_policy r =? policy)).
  destruct (existsb (λ r, pv_version r =? policy) (policy_rows d)) eqn:Hk; cbn; [|done].
  apply existsb_exists in Hk as (v & Hv%list_elem_of_In & Ev%Z.eqb_eq).
  destruct (existsb mine (delivery_rows d)) eqn:He; cbn; solve_advance.
  - apply update_if_no_clash; [|done]. intros a b [Es%String.eqb_eq Ep%Z.eqb_eq]%andb_true_iff.
    unfold delivery_clash. cbn. by rewrite Es, Ep.
  - intros r (s & Hs & ->)%update_rows_elem. destruct (mine s); [by exists v|by apply ok_delivered0].
  - rewrite <- (app_nil_r (_ ++ _)). apply no_clash_add; [apply _|by rewrite app_nil_r|]. rewrite app_nil_r.
    apply not_true_iff_false. intros (s & Hs & Hc)%existsb_exists. apply not_true_iff_false in He. apply He.
    apply existsb_exists. exists s. split; [done|]. unfold mine. unfold delivery_clash, same_text in *. cbn in Hc.
    by rewrite String.eqb_sym, Z.eqb_sym.
  - intros r [Hr|Hr]%elem_of_app; [by apply ok_delivered0|]. apply list_elem_of_singleton in Hr as ->. by exists v.
Qed.

(** ** Desired states *)

Definition place (r : DesiredRow) := (dr_site r, dr_version r).

(** [chained] only looks at the sites and versions of the other rows. *)
Lemma chained_ext rows rows' r r' : map place rows = map place rows' → place r' = place r →
  dr_superseded_by r' = dr_superseded_by r → chained rows r → chained rows' r'.
Proof.
  intros Hp [= E1 E2] E3. unfold chained. rewrite E1, E2, E3.
  assert (H1 : ∀ s, s ∈ rows' → ∃ t, t ∈ rows ∧ dr_site t = dr_site s ∧ dr_version t = dr_version s).
  { intros s Hs. assert (place s ∈ map place rows) as (t & [= Ea Eb] & Ht)%elem_of_map by (rewrite Hp; apply elem_of_map; by exists s).
    by exists t. }
  assert (H2 : ∀ s, s ∈ rows → ∃ t, t ∈ rows' ∧ dr_site t = dr_site s ∧ dr_version t = dr_version s).
  { intros s Hs. assert (place s ∈ map place rows') as (t & [= Ea Eb] & Ht)%elem_of_map by (rewrite <- Hp; apply elem_of_map; by exists s).
    by exists t. }
  destruct (dr_superseded_by r) as [v|].
  - intros (Hlt & (s & Hs & Ea & Eb) & Hall). split; [done|]. split.
    + destruct (H2 s Hs) as (t & Ht & Fa & Fb). exists t. split_and!; congruence.
    + intros t Ht Et. destruct (H1 t Ht) as (u & Hu & Fa & Fb). rewrite <- Fb. apply Hall; congruence.
  - intros Hall t Ht Et. destruct (H1 t Ht) as (u & Hu & Fa & Fb). rewrite <- Fb. apply Hall; congruence.
Qed.

Lemma verified_place site version rows : map place (update_rows (is_state site version) verified rows) = map place rows.
Proof. by apply update_rows_map. Qed.

Lemma is_state_iff site version r : is_state site version r = true ↔ dr_site r = site ∧ dr_version r = version.
Proof. unfold is_state, same_text. by rewrite andb_true_iff, String.eqb_eq, Z.eqb_eq. Qed.

Lemma put_ack_elem a rows x : x ∈ put_ack a rows → x = a ∨ (x ∈ rows ∧ is_ack (ak_site a) (ak_version a) x = false).
Proof.
  unfold put_ack. destruct (existsb _ rows) eqn:He.
  - intros (s & Hs & ->)%update_rows_elem. destruct (is_ack _ _ s) eqn:E; auto.
  - intros [Hx|Hx]%elem_of_app; [right|left; by apply list_elem_of_singleton]. split; [done|].
    by eapply existsb_false_elem.
Qed.

Lemma put_ack_no_clash a rows : no_clash ack_clash rows → no_clash ack_clash (put_ack a rows).
Proof.
  intros Hn. unfold put_ack. destruct (existsb _ rows) eqn:He.
  - apply update_if_no_clash; [|done]. intros x y [Es%String.eqb_eq Ep%Z.eqb_eq]%andb_true_iff.
    unfold ack_clash. by rewrite Es, Ep.
  - rewrite <- (app_nil_r (_ ++ _)). apply no_clash_add; [apply _|by rewrite app_nil_r|]. rewrite app_nil_r.
    apply not_true_iff_false. intros (s & Hs%list_elem_of_In & Hc)%existsb_exists.
    pose proof (existsb_false_elem _ _ _ He Hs) as E. unfold ack_clash, is_ack, same_text in *.
    by rewrite String.eqb_sym, Z.eqb_sym, Hc in E.
Qed.

Lemma ack_moves now site version dig route status detail :
  moves advances (ack_desired_state now site version dig route status detail).
Proof.
  intros d. destruct (ack_effect now site version dig route status detail d) as [[-> _]|(_ & (r & Hf & Hd) & ->)]; [done|].
  apply find_elem in Hf as [Hr Hrs]. apply is_state_iff in Hrs as [Hs Hv]. set (a := ack_row now site version dig route status detail).
  unfold same_text. destruct (String.eqb_spec status "VERIFIED") as [Hst|Hst]; solve_advance.
  - by apply update_rows_no_clash.
  - intros x (y & Hy & ->)%update_rows_elem. eapply chained_ext; [symmetry; apply verified_place| | |by apply (ok_chain0 y)];
      by destruct (is_state site version y).
  - by apply put_ack_no_clash.
  - intros x [->|[Hx Ha]]%put_ack_elem.
    + exists (verified r). split_and!; try done. apply update_rows_elem. exists r. split; [done|].
      by rewrite (proj2 (is_state_iff _ _ _)).
    + destruct (ok_acked0 x Hx) as (t & Ht & E1 & E2 & E3 & E4). exists t. split_and!; try done.
      apply update_rows_elem. exists t. split; [done|]. destruct (is_state site version t) eqn:Et; [|done].
      apply is_state_iff in Et as [F1 F2]. unfold is_ack, same_text in Ha. cbn in Ha.
      by rewrite <- E1, <- E2, F1, F2, String.eqb_refl, Z.eqb_refl in Ha.
  - by apply map_update_rows.
  - by apply put_ack_no_clash.
  - intros x [->|[Hx Ha]]%put_ack_elem; [|by apply ok_acked0]. exists r. split_and!; try done.
Qed.

Section put.
Context (site : string) (version : Z) (rows : list DesiredRow) (row : DesiredRow).
Context (Hsite : dr_site row = site) (Hversion : dr_version row = version) (Hfresh : dr_superseded_by row = None).
Context (Habove : ∀ r, r ∈ rows → dr_site r = site → dr_version r < version ∧ dr_digest r ≠ dr_digest row).
Let rows' := supersede site version rows ++ [row].

Lemma supersede_cases x : x ∈ supersede site version rows → ∃ y, y ∈ rows ∧
  ((x = y ∧ (dr_site y = site → ∃ z, z ∈ rows ∧ dr_site z = site ∧ dr_version y < dr_version z)) ∨
   (x = superseded version y ∧ dr_site y = site ∧ ∀ z, z ∈ rows → dr_site z = site → dr_version z <= dr_version y)).
Proof.
  unfold supersede. destruct (latest_by _ _) as [l|] eqn:Hl.
  - apply latest_by_elem in Hl as [Hin Hmax]. apply filter_elem in Hin as [Hin Hs%String.eqb_eq].
    intros (y & Hy & ->)%update_rows_elem. exists y. split; [done|].
    assert (Hle : ∀ z, z ∈ rows → dr_site z = site → dr_version z <= dr_version l).
    { intros z Hz Ez. apply Hmax, filter_elem. split; [done|by apply String.eqb_eq]. }
    destruct (is_state site (dr_version l) y) eqn:Ey.
    + apply is_state_iff in Ey as [E1 E2]. right. split_and!; [done|done|]. by rewrite E2.
    + left. split; [done|]. intros E1. exists l. split_and!; [done|done|]. specialize (Hle y Hy E1).
      destruct (Z.eq_dec (dr_version y) (dr_version l)); [|lia].
      assert (is_state site (dr_version l) y = true) by (by apply is_state_iff). congruence.
  - intros Hx. apply latest_by_none in Hl. exists x. split; [done|]. left. split; [done|]. intros Es.
    assert (x ∈ List.filter (λ r, same_text (dr_site r) site) rows) as Hf by (apply filter_elem; split; [done|by apply String.eqb_eq]).
    rewrite Hl in Hf. by apply elem_of_nil in Hf.
Qed.

Lemma supersede_place x : x ∈ supersede site version rows → ∃ y, y ∈ rows ∧ identity y = identity x.
Proof. intros (y & Hy & [[-> _]|[-> _]])%supersede_cases; by exists y. Qed.

Lemma put_elem s : s ∈ rows' → s = row ∨ ∃ t, t ∈ rows ∧ identity t = identity s.
Proof. intros [Hs%supersede_place|Hs%list_elem_of_singleton]%elem_of_app; [by right|by left]. Qed.

Lemma put_old t : t ∈ rows → ∃ s, s ∈ rows' ∧ identity s = identity t.
Proof. intros (s & Hs & E)%(supersede_elem site version). exists s. split; [|done]. apply elem_of_app. by left. Qed.

Lemma put_chained x : (∀ r, r ∈ rows → chained rows r) → x ∈ rows' → chained rows' x.
Proof.
  intros Hc [(y & Hy & Hcase)%supersede_cases|Hx%list_elem_of_singleton]%elem_of_app.
  2: { subst x. unfold chained. rewrite Hfresh. intros s [->|(t & Ht & [= E1 E2 _ _])]%put_elem Es; [lia|].
       rewrite <- E2, Hversion. enough (dr_version t < version); [lia|]. apply Habove; [done|congruence]. }
  destruct Hcase as [[-> Hlow]|(-> & Hys & Hmax)].
  - specialize (Hc y Hy). unfold chained in *. destruct (dr_superseded_by y) as [v|].
    + destruct Hc as (Hlt & (s & Hs & E1 & E2) & Hall). split; [done|]. split.
      * destruct (put_old s Hs) as (t & Ht & [= F1 F2 _ _]). exists t. split_and!; congruence.
      * intros t [->|(u & Hu & [= F1 F2 _ _])]%put_elem Et; [|rewrite <- F2; apply Hall; congruence].
        right. rewrite Hversion. rewrite <- E2. enough (dr_version s < version); [lia|]. apply Habove; [done|congruence].
    + intros t [->|(u & Hu & [= F1 F2 _ _])]%put_elem Et; [|rewrite <- F2; apply Hc; congruence].
      destruct Hlow as (z & Hz & E1 & E2); [congruence|]. specialize (Hc z Hz). rewrite E1 in Hc. exfalso.
      enough (dr_version z <= dr_version y) by lia. apply Hc. congruence.
  - unfold chained. cbn. split; [by apply Habove|]. split.
    + exists row. split_and!; [apply elem_of_app; right; constructor|congruence|done].
    + intros t [->|(u & Hu & [= F1 F2 _ _])]%put_elem Et; [right; lia|left]. rewrite <- F2. apply Hmax; congruence.
Qed.

Lemma put_no_clash : no_clash desired_clash rows → no_clash desired_clash rows'.
Proof.
  intros Hn. unfold rows'. rewrite <- (app_nil_r (_ ++ _)).
  apply no_clash_add; [apply _|rewrite app_nil_r|rewrite app_nil_r].
  - unfold supersede. destruct (latest_by _ _); [by apply update_rows_no_clash|done].
  - apply not_true_iff_false. intros (s & Hs%list_elem_of_In & Hc)%existsb_exists.
    apply supersede_place in Hs as (t & Ht & [= E1 E2 E3 _]). unfold desired_clash, same_text in Hc.
    apply andb_true_iff in Hc as [Hc1%String.eqb_eq Hc2].
    destruct (Habove t Ht) as [Hlt Hne]; [congruence|].
    apply orb_true_iff in Hc2 as [Hc2%Z.eqb_eq|Hc2%String.eqb_eq]; [lia|congruence].
Qed.

Lemma put_acked a : acked rows a → acked rows' a.
Proof.
  intros (r & Hr & E1 & E2 & E3 & E4). unfold rows', supersede.
  destruct (latest_by _ _) as [l|]; [|exists r; split_and!; try done; apply elem_of_app; by left].
  exists (if is_state site (dr_version l) r then superseded version r else r).
  split_and!; [apply elem_of_app; left; apply update_rows_elem; by exists r|..]; by destruct (is_state _ _ r).
Qed.
End put.

Lemma put_moves `{PyRepr} sha256 now s actor : moves advances (put_desired_state sha256 now s actor).
Proof.
  intros d. destruct (put_effect sha256 now s actor d) as [[-> _]|(site & version & dig & gen & schema & route & epoch & Heff)]; [done|].
  destruct Heff as (_ & _ & _ & Habove & _ & audits & ->).
  set (row := new_row now s actor site dig gen version schema route epoch) in *.
  etrans; [|apply (advance_audit (set_desired_rows d _) audits)]. solve_advance.
  - by apply put_no_clash.
  - intros r Hr. by apply (put_chained site version).
  - intros a Ha. by apply put_acked, ok_acked0.
  - rewrite map_app, supersede_identity. by eexists.
Qed.

(** ** Ownership *)

Lemma transfer_moves now new actor : moves advances (transfer_ownership now new actor).
Proof.
  intros d. destruct (transfer_effect now new actor d) as [[-> _]|(_ & Hlt & owners & pending & audits & -> & _ & How)]; [done|].
  etrans; [|apply (advance_audit (set_pending_rows (set_owner_rows d owners) pending) audits)].
  etrans; [|apply (advance_pending (set_owner_rows d owners))]. revert Hlt How.
  destruct (find (owner_of (prefix new)) (owner_rows d)) as [r|] eqn:Hf; intros Hlt How.
  - subst owners. apply find_elem in Hf as [Hr Hp]. solve_advance.
    + apply update_if_no_clash; [|done]. done.
    + intros x Hx. exists (if owner_of (prefix new) x then updated_owner now new x else x).
      split; [apply update_rows_elem; by exists x|]. destruct (owner_of (prefix new) x) eqn:Ex; [|by auto].
      split_and!; try done. right. cbn. apply Hlt. f_equal. symmetry. apply (no_clash_elem owner_clash (owner_rows d)); [done|done|done|].
      unfold owner_of, owner_clash, same_text in *. apply String.eqb_eq in Ex, Hp. by rewrite Ex, Hp, String.eqb_refl.
  - pose proof (λ H, insert_no_clash _ _ _ _ H How) as Hn. apply insert_row_ok in How as [-> _]. solve_advance.
    intros x Hx. exists x. split; [apply elem_of_app; by left|]. auto.
Qed.

(** ** Histories *)

Section histories.
Context `{PyRepr} (sha256 : dict string json → string) (key_hash : string → string).

(** One call of the store, at any time, with any arguments. *)
Inductive store_step (d : Db) : Db → Prop :=
  | step_stage now site dev lan p s actor : store_step d (stage_site now site dev lan p s actor d).2
  | step_register now site key actor : store_step d (register_wireguard_public_key key_hash now site key actor d).2
  | step_activate now document actor : store_step d (activate_destination_policy sha256 now document actor d).2
  | step_delivery now site policy desired a o : store_step d (record_destination_policy_delivery now site policy desired a o d).2
  | step_reserve now site addresses ports actor : store_step d (reserve_resources now site addresses ports actor d).2
  | step_put now s actor : store_step d (put_desired_state sha256 now s actor d).2
  | step_ack now site version dig route status detail :
      store_step d (ack_desired_state now site version dig route status detail d).2
  | step_owner now new actor : store_step d (transfer_ownership now new actor d).2
  | step_transfer now current owner usable reachable actor why :
      store_step d (transfer now current owner usable reachable actor why d).2.

Lemma store_step_advances d d' : store_step d d' → advances d d'.
Proof.
  destruct 1.
  - apply stage_moves.
  - apply register_moves.
  - apply activate_moves.
  - apply delivery_moves.
  - apply reserve_moves.
  - apply put_moves.
  - apply ack_moves.
  - apply transfer_moves.
  - revert d. change (moves advances (transfer now current owner usable reachable actor why)).
    unfold transfer. repeat (moves_step || apply transfer_moves).
Qed.

Lemma history_advances d d' : rtc store_step d d' → advances d d'.
Proof. induction 1 as [|d d1 d2 Hs _ IH]; [done|]. etrans; [by apply store_step_advances|done]. Qed.

Lemma empty_ok : store_ok empty_db.
Proof. split; cbn; auto; try (by intros ? ?%elem_of_nil). split; [lia|by intros ? ?%elem_of_nil]. Qed.

(** C6: every history of store calls keeps the database consistent (unique
    keys, at most one active device key per site and it is the newest, each
    desired state pointing at the next version of its site, acknowledgements
    and deliveries and the active policy referring to stored versions) and only
    ever extends it: no state, policy version, key or audit row is rewritten
    and no ownership epoch goes back. *)
Theorem store_history d d' :
  rtc store_step empty_db d → rtc store_step d d' → store_ok d' ∧ grows d d'.
Proof.
  intros H0 H1. apply (history_advances d d' H1). by apply (history_advances _ _ H0), empty_ok.
Qed.

End histories.

(** handing a prefix over: a hub the site does not have, or one that is not
    usable, is refused and nothing is written; otherwise the prefix belongs to
    the new hub at the next epoch, a former owner that cannot be reached is
    recorded for reconciliation, and no other prefix changes. *)
Theorem ownership_transfer now current r new_owner usable reachable actor why d :
  route_owner d (prefix current) = Some r → ow_record r = current →
  let '(res, d') := transfer now current new_owner usable reachable actor why d in
  let assigned := inb new_owner [preferred_hub current; standby_hub current] in
  (∀ p, p ≠ prefix current → route_owner d' p = route_owner d p) ∧
  match res with
  | Ok next => assigned = true ∧ usable = true ∧ ow_record <$> route_owner d' (prefix current) = Some next ∧
      current_owner_hub next = new_owner ∧
      (if String.eqb new_owner (current_owner_hub current) then next = current ∧ d' = d
       else owner_epoch next = owner_epoch current + 1 ∧ route_version next = route_version current + 1 ∧
            previous_owner_hub next = Some (current_owner_hub current) ∧
            (reachable = false → ∃ p, p ∈ pending_rows d' ∧ pending_of next p = true))
  | Err e => d' = d ∧ exn_cls e = (if assigned then RuntimeError else ValueError) ∧ (assigned && usable = false)
  end.
Proof.
  intros Hr <-. unfold transfer. set (cur := ow_record r) in *.
  destruct (inb new_owner _) eqn:Ha; cbn; [|done]. destruct usable; cbn; [|done].
  destruct (String.eqb_spec new_owner (current_owner_hub cur)) as [->|Hne]; cbn; [by rewrite Hr|].
  set (next := {| current_owner_hub := new_owner |}).
  pose proof (transfer_effect now next actor d) as [(_ & Ht & Hf)|(E1 & Hlt & owners & pending & audits & E2 & Hpen & How)]; cbv zeta in *.
  - exfalso. unfold transfer_ownership in Hf, Ht. revert Ht Hf. run_store. cbn [prefix next].
    change (find (owner_of (prefix cur)) (owner_rows d)) with (route_owner d (prefix cur)). rewrite Hr. cbn.
    destruct (Z.ltb_spec (owner_epoch cur + 1) (owner_epoch (ow_record r))) as [H1|H1]; [unfold cur in H1; lia|].
    destruct (Z.eqb_spec (owner_epoch cur + 1) (owner_epoch (ow_record r))) as [H2|H2]; [unfold cur in H2; lia|].
    destruct reachable; cbn; intros _ []; done.
  - unfold mbind, M_bind. destruct (transfer_ownership now next actor d) as [[b|e] d'']; [|done]. cbn in E1, E2 |- *. subst d''.
    revert How. change (find (owner_of (prefix next)) (owner_rows d)) with (route_owner d (prefix cur)). rewrite Hr. intros ->.
    split; [|split_and!; try done].
    + intros p Hp. unfold route_owner. cbn. apply find_update_other. intros x. unfold owner_of, same_text. cbn.
      intros Ex%String.eqb_eq. rewrite Ex. split; by apply String.eqb_neq, not_eq_sym.
    + unfold route_owner in *. cbn. by rewrite find_update_hit with (x := r).
    + intros ->. by apply Hpen.
Qed.

(** ** Publication and acknowledgement *)

Lemma latest_by_is {A} (key : A → Z) rows r : r ∈ rows → (∀ s, s ∈ rows → s = r ∨ key s < key r) → latest_by key rows = Some r.
Proof.
  intros Hr Hmax. destruct (latest_by_some key rows r Hr) as [s Hs]. rewrite Hs. apply latest_by_elem in Hs as [Hin Hge].
  destruct (Hmax s Hin) as [->|Hlt]; [done|]. specialize (Hge r Hr). lia.
Qed.

Lemma states_elem site d r : r ∈ states_of site d ↔ r ∈ desired_rows d ∧ dr_site r = site.
Proof. unfold states_of. by rewrite filter_elem, <- (String.eqb_eq (dr_site r) site). Qed.

(** The latest state of a site is the one no other has reached. *)
Lemma latest_state site d r : no_clash desired_clash (desired_rows d) → r ∈ desired_rows d → dr_site r = site →
  (∀ s, s ∈ desired_rows d → dr_site s = site → dr_version s <= dr_version r) → latest_by dr_version (states_of site d) = Some r.
Proof.
  intros Hn Hr Hs Hmax. apply latest_by_is; [by apply states_elem|]. intros s [Hin Es]%states_elem.
  destruct (Z.eq_dec (dr_version s) (dr_version r)) as [E|]; [left|right; specialize (Hmax s Hin Es); lia].
  eapply no_clash_elem; [done|done|done|]. unfold desired_clash, same_text. by rewrite Es, Hs, E, String.eqb_refl, Z.eqb_refl.
Qed.

Lemma find_state site d r : no_clash desired_clash (desired_rows d) → r ∈ desired_rows d → dr_site r = site →
  find (is_state site (dr_version r)) (desired_rows d) = Some r.
Proof.
  intros Hn Hr Hs. destruct (find _ _) as [s|] eqn:Hf.
  - apply find_elem in Hf as [Hin [E1 E2]%is_state_iff]. f_equal. eapply no_clash_elem; [done|done|done|].
    unfold desired_clash, same_text. by rewrite E1, E2, Hs, String.eqb_refl, Z.eqb_refl.
  - pose proof (find_none _ _ Hf r) as Hx. rewrite <- list_elem_of_In in Hx. specialize (Hx Hr).
    by rewrite (proj2 (is_state_iff _ _ _)) in Hx.
Qed.

Lemma find_put_ack site version dig route status detail now rows :
  let a := ack_row now site version dig route status detail in
  find (is_ack site version) (put_ack a rows) = Some a.
Proof.
  intros a. assert (Ha : is_ack site version a = true) by (unfold is_ack, same_text; cbn; by rewrite String.eqb_refl, Z.eqb_refl).
  unfold put_ack. cbn. destruct (existsb _ rows) eqn:He; induction rows as [|x rows IH]; simpl in *; [done|..].
  - destruct (is_ack site version x) eqn:Ex; simpl; [by rewrite Ha|]. rewrite Ex. by apply IH.
  - by rewrite Ha.
  - apply orb_false_iff in He as [E1 E2]. rewrite E1. by apply IH.
Qed.

Lemma put_row `{PyRepr} sha256 now s actor d dig known d' site version :
  text_field s "site" = Ok site → int_field s "desired_state_version" = Ok version →
  put_desired_state sha256 now s actor d = (Ok (dig, known), d') →
  (∃ r, r ∈ desired_rows d' ∧ dr_site r = site ∧ dr_version r = version ∧ dr_digest r = dig ∧
     (known = false → dr_contents r = s ∧ ack_rows d' = ack_rows d ∧ ∀ x, x ∈ desired_rows d → dr_site x = site → dr_version x < version) ∧
     ∀ x, x ∈ desired_rows d' → dr_site x = site → dr_version x <= version) ∧ (known = true → d' = d).
Proof.
  intros Hsite Hver Hput. pose proof (put_effect sha256 now s actor d) as He. rewrite Hput in He. cbn in He.
  destruct He as [(-> & He)|(site' & version' & dig' & gen & schema & route & epoch & E1 & E2 & [= -> ->] & Habove & Hrows & audits & ->)].
  - destruct (He dig known eq_refl) as [-> (r & Hr & Hd & E1 & E2 & Hmax)].
    rewrite Hsite in E1. rewrite Hver in E2. injection E1 as ->. injection E2 as ->.
    split; [|done]. exists r. by split_and!.
  - rewrite Hsite in E1. rewrite Hver in E2. injection E1 as ->. injection E2 as ->. split; [|done].
    set (row := new_row _ _ _ _ _ _ _ _ _ _) in *. exists row. cbn [desired_rows set_audit_rows set_desired_rows].
    split_and!; try done; [apply elem_of_app; right; constructor|intros _; split_and!; try done; by apply Habove|].
    intros x [->|(y & Hy & [= F1 F2 _ _])]%put_elem Hx; [cbn; lia|]. rewrite <- F2. enough (dr_version y < version') by lia.
    apply Habove; [done|congruence].
Qed.

Lemma no_ack site version d : store_ok d → (∀ x, x ∈ desired_rows d → dr_site x = site → dr_version x < version) →
  find (is_ack site version) (ack_rows d) = None.
Proof.
  intros Hok Hlt. destruct (find _ _) as [a|] eqn:Hf; [|done]. apply find_elem in Hf as [Ha E].
  apply andb_true_iff in E as [E1%String.eqb_eq E2%Z.eqb_eq]. destruct (ok_acked d Hok a Ha) as (r & Hr & F1 & F2 & _).
  specialize (Hlt r Hr). rewrite F1, F2, E1, E2 in Hlt. specialize (Hlt eq_refl). lia.
Qed.

(** the publication cycle of a site. A state accepted as new is the site's
    latest, is not yet verified, and the next one gets the next version;
    publishing it again changes nothing. An acknowledgement with its version
    and digest is taken, and the site counts as verified exactly if it says
    VERIFIED; one with another digest is refused and changes nothing. *)
Theorem publish_acknowledge `{PyRepr} sha256 now s actor d dig known d' site version :
  store_ok d → text_field s "site" = Ok site → int_field s "desired_state_version" = Ok version →
  put_desired_state sha256 now s actor d = (Ok (dig, known), d') →
  (known = true → d' = d) ∧
  (known = false → latest_desired_state d' site = Some s ∧ next_desired_state_version d' site = version + 1 ∧
                   latest_desired_state_is_verified d' site = false) ∧
  (∀ now' route status detail, let '(res, d'') := ack_desired_state now' site version dig route status detail d' in
     res = Ok tt ∧ latest_desired_state_is_verified d'' site = same_text status "VERIFIED" ∧
     latest_desired_state d'' site = latest_desired_state d' site) ∧
  (∀ now' other route status detail, other ≠ dig →
     ∃ e, ack_desired_state now' site version other route status detail d' = (Err e, d')).
Proof.
  intros Hok Hsite Hver Hput. pose proof (put_moves sha256 now s actor d Hok) as [Hok' _]. rewrite Hput in Hok'. cbn in Hok'.
  destruct (put_row _ _ _ _ _ _ _ _ _ _ Hsite Hver Hput) as [(r & Hr & Es & Ev & Ed & Hnew & Hmax) Hsame].
  rewrite <- Ev in Hmax. pose proof (latest_state site d' r (ok_states _ Hok') Hr Es Hmax) as Hl.
  pose proof (find_state site d' r (ok_states _ Hok') Hr Es) as Hfind. rewrite Ev in Hfind.
  split; [done|]. split; [|split].
  - intros ->. destruct (Hnew eq_refl) as (Ec & Ea & Hbelow). split_and!.
    + unfold latest_desired_state. rewrite Hl. cbn. by rewrite Ec.
    + unfold next_desired_state_version, max_key. by rewrite Hl, Ev.
    + unfold latest_desired_state_is_verified. rewrite Hl, Ea, Es, Ev.
      change (λ a, same_text (ak_site a) site && (ak_version a =? version)) with (is_ack site version). by rewrite no_ack.
  - intros now' route status detail. pose proof (ack_moves now' site version dig route status detail d' Hok') as [Hok'' _].
    destruct (ack_effect now' site version dig route status detail d') as [(_ & _ & [])|(E1 & _ & E2)]; [by exists r|].
    destruct (ack_desired_state _ _ _ _ _ _ _ _) as [res d'']. cbn in E1, E2, Hok''. subst res. split; [done|].
    assert (∃ r'', latest_by dr_version (states_of site d'') = Some r'' ∧ place r'' = place r ∧ dr_contents r'' = dr_contents r
            ∧ ack_rows d'' = put_ack (ack_row now' site version dig route status detail) (ack_rows d')) as (r'' & H1 & [= H2 H3] & H4 & H5).
    { destruct (same_text status "VERIFIED"); subst d''; [|by exists r]. exists (verified r). split_and!; try done.
      apply latest_state; [apply Hok''|apply update_rows_elem; exists r; split; [done|by rewrite (proj2 (is_state_iff _ _ _))]|done|].
      intros x (y & Hy & ->)%update_rows_elem. destruct (is_state site version y); apply (Hmax y Hy). }
    unfold latest_desired_state_is_verified, latest_desired_state. rewrite H1, Hl, H2, H3, Es, Ev, H5. split; [|by cbn; rewrite H4].
    change (λ a, same_text (ak_site a) site && (ak_version a =? version)) with (is_ack site version).
    by rewrite (find_put_ack site version dig route status detail now' (ack_rows d')).
  - intros now' other route status detail Hne.
    destruct (ack_effect now' site version other route status detail d') as [(E1 & E2 & _)|(_ & (x & Hx & E) & _)]; [|congruence].
    destruct (ack_desired_state _ _ _ _ _ _ _ _) as [[u|e] d'']; cbn in *; [done|]. exists e. by subst.
Qed.

(** ** Concrete histories *)
Definition text_hash (d : dict string json) : string := String.concat "," (map (λ p, p.1 +:+ "=" +:+ py_str p.2) d).
Definition plain_hash (s : string) : string := "h:" +:+ s.

Definition state_document (version : Z) (gen : string) : dict string json :=
  [("site", JStr "branch1"); ("desired_state_version", JInt version); ("schema_version", JInt 5); ("generation", JStr gen);
   ("route_version", JInt version); ("ownership_epoch", JInt 1)].

Definition owner_document : OwnershipRecord := {|
  prefix := "10.1.0.0/24"; spoke := "branch1"; preferred_hub := "hub1"; standby_hub := "hub2"; current_owner_hub := "hub1";
  previous_owner_hub := None; owner_epoch := 1; policy_version := 1; route_version := 1; state := "COMMITTED";
  reason := "initial"; pending_reconciliation := false; valid_until := None |}.

Definition db1 : Db := (register_wireguard_public_key plain_hash "t1" "branch1" "key-one" "ztp" empty_db).2.
Definition db2 : Db := (put_desired_state text_hash "t2" (state_document 1 "g1") "policy" db1).2.
Definition db3 : Db := (transfer_ownership "t3" owner_document "policy" db2).2.
Definition db4 : Db := (register_wireguard_public_key plain_hash "t4" "branch1" "key-two" "ztp" db3).2.
Definition db5 : Db := (put_desired_state text_hash "t5" (state_document 2 "g2") "policy" db4).2.

Lemma db3_history : rtc (store_step text_hash plain_hash) empty_db db3.
Proof.
  apply rtc_l with db1; [exact (step_register _ _ _ "t1" "branch1" "key-one" "ztp")|].
  apply rtc_l with db2; [exact (step_put _ _ _ "t2" (state_document 1 "g1") "policy")|].
  apply rtc_l with db3; [exact (step_owner _ _ _ "t3" owner_document "policy")|apply rtc_refl].
Qed.

Lemma db5_history : rtc (store_step text_hash plain_hash) db3 db5.
Proof.
  apply rtc_l with db4; [exact (step_register _ _ _ "t4" "branch1" "key-two" "ztp")|].
  apply rtc_l with db5; [exact (step_put _ _ _ "t5" (state_document 2 "g2") "policy")|apply rtc_refl].
Qed.

Lemma store_history_witness :
  length (desired_rows db5) = 2%nat ∧ length (key_rows db5) = 2%nat ∧ store_ok db5 ∧ grows db3 db5.
Proof.
  split; [vm_compute; reflexivity|]. split; [vm_compute; reflexivity|].
  exact (store_history text_hash plain_hash db3 db5 db3_history db5_history).
Defined.

Lemma publish_acknowledge_witness :
  latest_desired_state db2 "branch1" = Some (state_document 1 "g1") ∧
  latest_desired_state_is_verified (ack_desired_state "t6" "branch1" 1 (text_hash (state_document 1 "g1")) 1 "VERIFIED" "" db2).2
    "branch1" = true.
Proof.
  destruct (publish_acknowledge text_hash "t2" (state_document 1 "g1") "policy" db1 (text_hash (state_document 1 "g1")) false db2
              "branch1" 1) as (_ & Hnew & Hack & _).
  - exact (proj1 (register_moves plain_hash "t1" "branch1" "key-one" "ztp" empty_db empty_ok)).
  - reflexivity.
  - reflexivity.
  - vm_compute; reflexivity.
  - split; [apply (Hnew eq_refl)|]. specialize (Hack "t6" 1 "VERIFIED" "").
    destruct (ack_desired_state _ _ _ _ _ _ _ _) as [res d'']. apply Hack.
Defined.

Lemma ownership_transfer_witness :
  let '(res, d') := transfer "t6" owner_document "hub2" true false "operator" "hub1 down" db3 in
  is_ok res = true ∧ (current_owner_hub ∘ ow_record <$> route_owner d' "10.1.0.0/24") = Some "hub2".
Proof.
  destruct (route_owner db3 "10.1.0.0/24") as [r|] eqn:Hr; [|vm_compute in Hr; discriminate].
  assert (ow_record r = owner_document) as Ho by (vm_compute in Hr; injection Hr as <-; reflexivity).
  pose proof (ownership_transfer "t6" owner_document r "hub2" true false "operator" "hub1 down" db3 Hr Ho) as H.
  destruct (transfer _ _ _ _ _ _ _ db3) as [[next|e] d']; destruct H as [_ H].
  - destruct H as (_ & _ & H & E & _). split; [reflexivity|]. destruct (route_owner d' "10.1.0.0/24") as [q|] eqn:Hq;
      change (route_owner d' (prefix owner_document)) with (route_owner d' "10.1.0.0/24") in H; rewrite Hq in H; [|discriminate].
    injection H as <-. cbn. by rewrite E.
  - destruct H as (_ & _ & H). discriminate.
Defined.

(** The table's uniqueness of (site, interface, status) also holds for retired
    keys, so a device can rotate its key only once: retiring the second key
    clashes with the first. *)
Lemma third_key_rejected : register_wireguard_public_key plain_hash "t6" "branch1" "key-three" "ztp" db5 =
  (constraint_failed, db5).
Proof. vm_compute. reflexivity. Qed.
