(* ===== verification/ZtpStore.v ===== *)
(** * The zero-touch-provisioning database ([persistence/ztp_store.py])

    Devices, single-use claims, certificates and the attempts to enrol, as the
    tables of the ZTP service with their unique keys; each operation is a
    transaction.  Times are instants, which the code writes and reads back as
    ISO text.  PBKDF2 and the nonce fingerprint are parameters, and so are the
    random values: the claim's identifier, its secret and the salt. *)
From Stdlib Require Import Ascii.
From S2P Require Import Prelude Net Sql.
Local Open Scope string_scope.
Local Open Scope list_scope.
Local Open Scope Z_scope.

(** ** Rows *)

Record DeviceRow := {
  dv_id : string; dv_site : string; dv_status : string; dv_fingerprint : option string; dv_created : Z; dv_updated : Z
}.
Record ClaimRow := {
  cl_id : string; cl_hash : string; cl_device : string; cl_site : string; cl_created : Z; cl_expires : Z; cl_maximum : Z;
  cl_uses : Z; cl_status : string; cl_consumed : option Z; cl_by : string
}.
Record CertificateRow := {
  ce_serial : string; ce_fingerprint : string; ce_device : string; ce_site : string; ce_not_before : string;
  ce_not_after : string; ce_status : string; ce_pem : string
}.
Record RevocationRow := { rv_serial : string; rv_reason : string; rv_at : Z; rv_actor : string }.
Record SessionRow := { se_device : string; se_nonce : string; se_state : string; se_updated : Z }.
Record AttemptRow := {
  at_device : string; at_claim : option string; at_nonce : string; at_result : string; at_reason : string; at_created : Z
}.
Record ZtpAuditRow := {
  za_actor : string; za_action : string; za_target : string; za_request : string; za_result : string; za_reason : string;
  za_at : Z
}.

Record Ztp := {
  devices : list DeviceRow; claims : list ClaimRow; certificates : list CertificateRow; revocations : list RevocationRow;
  sessions : list SessionRow; attempts : list AttemptRow; ztp_audits : list ZtpAuditRow
}.

Definition empty_ztp : Ztp := {| devices := []; claims := []; certificates := []; revocations := []; sessions := [];
  attempts := []; ztp_audits := [] |}.

Definition set_devices (d : Ztp) v := {| devices := v; claims := claims d; certificates := certificates d;
  revocations := revocations d; sessions := sessions d; attempts := attempts d; ztp_audits := ztp_audits d |}.
Definition set_claims (d : Ztp) v := {| devices := devices d; claims := v; certificates := certificates d;
  revocations := revocations d; sessions := sessions d; attempts := attempts d; ztp_audits := ztp_audits d |}.
Definition set_certificates (d : Ztp) v := {| devices := devices d; claims := claims d; certificates := v;
  revocations := revocations d; sessions := sessions d; attempts := attempts d; ztp_audits := ztp_audits d |}.
Definition set_revocations (d : Ztp) v := {| devices := devices d; claims := claims d; certificates := certificates d;
  revocations := v; sessions := sessions d; attempts := attempts d; ztp_audits := ztp_audits d |}.
Definition set_sessions (d : Ztp) v := {| devices := devices d; claims := claims d; certificates := certificates d;
  revocations := revocations d; sessions := v; attempts := attempts d; ztp_audits := ztp_audits d |}.
Definition set_attempts (d : Ztp) v := {| devices := devices d; claims := claims d; certificates := certificates d;
  revocations := revocations d; sessions := sessions d; attempts := v; ztp_audits := ztp_audits d |}.
Definition set_ztp_audits (d : Ztp) v := {| devices := devices d; claims := claims d; certificates := certificates d;
  revocations := revocations d; sessions := sessions d; attempts := attempts d; ztp_audits := v |}.

(** Unique keys; a NULL fingerprint clashes with nothing. *)
Definition same_fingerprint (a b : option string) : bool :=
  match a, b with Some x, Some y => String.eqb x y | _, _ => false end.
Definition device_clash (a b : DeviceRow) : bool :=
  String.eqb (dv_id a) (dv_id b) || String.eqb (dv_site a) (dv_site b) || same_fingerprint (dv_fingerprint a) (dv_fingerprint b).
Definition claim_clash (a b : ClaimRow) : bool := String.eqb (cl_id a) (cl_id b).
Definition certificate_clash (a b : CertificateRow) : bool :=
  String.eqb (ce_serial a) (ce_serial b) || String.eqb (ce_fingerprint a) (ce_fingerprint b).
Definition session_clash (a b : SessionRow) : bool :=
  String.eqb (se_device a) (se_device b) && String.eqb (se_nonce a) (se_nonce b).

Definition is_device (id : string) (r : DeviceRow) : bool := String.eqb (dv_id r) id.
Definition is_claim (id : string) (r : ClaimRow) : bool := String.eqb (cl_id r) id.
Definition is_certificate (serial : string) (r : CertificateRow) : bool := String.eqb (ce_serial r) serial.

(** ** Operations *)

Section ztp.
(** PBKDF2-HMAC-SHA256 with 200000 rounds, of a secret under a salt, both in
    hexadecimal; SHA-256 of the nonce. *)
Context (pbkdf2 : string → string → string) (nonce_fingerprint : string → string) (now : Z).

Definition hash_secret (secret salt : string) : string := "pbkdf2_sha256$200000$" +:+ salt +:+ "$" +:+ pbkdf2 secret salt.

Definition verify_secret (secret stored : string) : result bool :=
  match split_on "$"%char stored with
  | algorithm :: iterations :: salt :: d :: rest =>
      if negb (String.eqb algorithm "pbkdf2_sha256") || negb (String.eqb iterations "200000") then Ok false
      else Ok (String.eqb (pbkdf2 secret salt) (String.concat "$" (d :: rest)))
  | _ => raise ValueError "not enough values to unpack"
  end.

Definition ztp_audit (actor action target result status reason : string) : M Ztp unit :=
  execute (λ d, set_ztp_audits d (ztp_audits d ++
    [{| za_actor := actor; za_action := action; za_target := target; za_request := status; za_result := result;
        za_reason := reason; za_at := now |}])).

Definition stage_device (device_id site actor : string) : M Ztp unit :=
  transaction (
    row ← query (λ d, find (is_device device_id) (devices d));
    _ ← lift (raise_if (match row with Some r => negb (String.eqb (dv_site r) site) | None => false end) ClaimRejected
                "device is already staged for a different site");
    _ ← match row with
        | Some _ => mret tt
        | None => execute_checked devices set_devices (insert_row device_clash
            {| dv_id := device_id; dv_site := site; dv_status := "STAGED"; dv_fingerprint := None; dv_created := now;
               dv_updated := now |})
        end;
    ztp_audit actor "STAGE_DEVICE" device_id "staged" "ok" "").

(** [claim_id], [secret] and [salt] are the random values drawn. *)
Definition create_claim (claim_id secret salt device_id site : string) (lifetime_s : Z) (actor : string) (maximum_uses : Z)
    : M Ztp (string * string) :=
  _ ← lift (raise_if ((lifetime_s <=? 0) || negb (maximum_uses =? 1)) ValueError
              "baseline claims must be single-use with a positive lifetime");
  transaction (
    staged ← query (λ d, find (is_device device_id) (devices d));
    _ ← lift (raise_if (match staged with
                        | Some r => negb (String.eqb (dv_site r) site) || negb (inb (dv_status r) ["STAGED"; "REPLACED"])
                        | None => true
                        end) ClaimRejected "device is not staged for this site");
    _ ← execute_checked claims set_claims (insert_row claim_clash
          {| cl_id := claim_id; cl_hash := hash_secret secret salt; cl_device := device_id; cl_site := site; cl_created := now;
             cl_expires := now + lifetime_s * 1000000; cl_maximum := maximum_uses; cl_uses := 0; cl_status := "ACTIVE";
             cl_consumed := None; cl_by := actor |});
    _ ← ztp_audit actor "CREATE_CLAIM" claim_id "created" "ok" site;
    mret (claim_id, secret)).

Definition with_claim_status (status : string) (r : ClaimRow) : ClaimRow := {|
  cl_id := cl_id r; cl_hash := cl_hash r; cl_device := cl_device r; cl_site := cl_site r; cl_created := cl_created r;
  cl_expires := cl_expires r; cl_maximum := cl_maximum r; cl_uses := cl_uses r; cl_status := status;
  cl_consumed := cl_consumed r; cl_by := cl_by r |}.

Definition consumed_claim (r : ClaimRow) : ClaimRow := {|
  cl_id := cl_id r; cl_hash := cl_hash r; cl_device := cl_device r; cl_site := cl_site r; cl_created := cl_created r;
  cl_expires := cl_expires r; cl_maximum := cl_maximum r; cl_uses := cl_uses r + 1; cl_status := "CONSUMED";
  cl_consumed := Some now; cl_by := cl_by r |}.

Definition active_claim (id : string) (r : ClaimRow) : bool := is_claim id r && String.eqb (cl_status r) "ACTIVE".

Definition cancel_claim (claim_id actor reason : string) : M Ztp unit :=
  transaction (
    changed ← query (λ d, length (List.filter (active_claim claim_id) (claims d)));
    _ ← execute (λ d, set_claims d (update_rows (active_claim claim_id) (with_claim_status "CANCELLED") (claims d)));
    _ ← lift (raise_if (negb (Nat.eqb changed 1)) ClaimRejected "only active claims can be cancelled");
    ztp_audit actor "CANCEL_CLAIM" claim_id "cancelled" "ok" reason).

Definition record_attempt (device_id : string) (claim_id : option string) (nonce_hash result reason : string) : M Ztp unit :=
  transaction (execute (λ d, set_attempts d (attempts d ++
    [{| at_device := device_id; at_claim := claim_id; at_nonce := nonce_hash; at_result := result; at_reason := reason;
        at_created := now |}]))).

(** (serial, fingerprint, not_before, not_after, certificate_pem) *)
Definition issued : Type := string * string * string * string * string.
Definition enrolled : Type := string * string * string * string.

Definition activated_device (fingerprint : string) (r : DeviceRow) : DeviceRow := {|
  dv_id := dv_id r; dv_site := dv_site r; dv_status := "ACTIVE"; dv_fingerprint := Some fingerprint;
  dv_created := dv_created r; dv_updated := now |}.

(** The checks of the transaction, in the order of the code. *)
Definition check_claim (claim : option ClaimRow) (claim_id secret device_id nonce : string) : M Ztp ClaimRow :=
  claim ← lift (of_option claim ClaimRejected "unknown claim");
  _ ← lift (raise_if (negb (String.eqb (cl_device claim) device_id)) ClaimRejected "claim device mismatch");
  _ ← lift (raise_if (negb (String.eqb (cl_status claim) "ACTIVE") || (cl_maximum claim <=? cl_uses claim)) ClaimRejected
              "claim is not reusable");
  _ ← (if cl_expires claim <=? now then
         _ ← execute (λ d, set_claims d (update_rows (is_claim claim_id) (with_claim_status "EXPIRED") (claims d)));
         lift (raise ClaimRejected "claim expired")
       else mret tt);
  valid ← lift (verify_secret secret (cl_hash claim));
  _ ← lift (raise_if (negb valid) ClaimRejected "claim secret rejected");
  duplicate ← query (λ d, existsb (λ s, String.eqb (se_device s) device_id && String.eqb (se_nonce s) nonce) (sessions d));
  _ ← lift (raise_if duplicate ClaimRejected "enrollment nonce replay");
  mret claim.

Definition consume_transaction (claim_id secret device_id nonce : string) (issue_certificate : string → result issued)
    (request_id : string) : M Ztp enrolled :=
  transaction (
    row ← query (λ d, find (is_claim claim_id) (claims d));
    claim ← check_claim row claim_id secret device_id nonce;
    certificate ← lift (issue_certificate (cl_site claim));
    let '(serial, fingerprint, not_before, not_after, certificate_pem) := certificate in
    _ ← execute_checked sessions set_sessions (insert_row session_clash
          {| se_device := device_id; se_nonce := nonce; se_state := "AUTHENTICATED"; se_updated := now |});
    (* FOREIGN KEY of the certificate *)
    known ← query (λ d, existsb (is_device device_id) (devices d));
    _ ← lift (raise_if (negb known) IntegrityError "FOREIGN KEY constraint failed");
    _ ← execute_checked certificates set_certificates (insert_row certificate_clash
          {| ce_serial := serial; ce_fingerprint := fingerprint; ce_device := device_id; ce_site := cl_site claim;
             ce_not_before := not_before; ce_not_after := not_after; ce_status := "ACTIVE"; ce_pem := certificate_pem |});
    _ ← execute (λ d, set_claims d (update_rows (is_claim claim_id) consumed_claim (claims d)));
    _ ← execute_checked devices set_devices (update_checked device_clash (is_device device_id) (activated_device fingerprint) []);
    _ ← execute (λ d, set_attempts d (attempts d ++
          [{| at_device := device_id; at_claim := Some claim_id; at_nonce := nonce_fingerprint nonce; at_result := "ACCEPTED";
              at_reason := "claim consumed"; at_created := now |}]));
    _ ← ztp_audit device_id "ENROLL" device_id "accepted" "ok" request_id;
    mret (cl_site claim, serial, fingerprint, certificate_pem)).

(** [try ... except ClaimRejected as exc: record the attempt; raise] *)
Definition consume_claim (claim_id secret device_id nonce : string) (issue_certificate : string → result issued)
    (request_id : string) : M Ztp enrolled := λ d,
  match consume_transaction claim_id secret device_id nonce issue_certificate request_id d with
  | (Ok x, d') => (Ok x, d')
  | (Err e, d') =>
      if bool_decide (exn_cls e = ClaimRejected) then
        (_ ← record_attempt device_id (Some claim_id) (nonce_fingerprint nonce) "REJECTED" (exn_msg e); lift (Err e)) d'
      else (Err e, d')
  end.

Definition revoked_certificate (r : CertificateRow) : CertificateRow := {|
  ce_serial := ce_serial r; ce_fingerprint := ce_fingerprint r; ce_device := ce_device r; ce_site := ce_site r;
  ce_not_before := ce_not_before r; ce_not_after := ce_not_after r; ce_status := "REVOKED"; ce_pem := ce_pem r |}.

Definition revoked_device (r : DeviceRow) : DeviceRow := {|
  dv_id := dv_id r; dv_site := dv_site r; dv_status := "REVOKED"; dv_fingerprint := dv_fingerprint r;
  dv_created := dv_created r; dv_updated := now |}.

Definition revoke_certificate (serial actor reason : string) : M Ztp unit :=
  transaction (
    row ← query (λ d, find (is_certificate serial) (certificates d));
    certificate ← lift (of_option row ClaimRejected "unknown certificate");
    _ ← execute (λ d, set_certificates d (update_rows (is_certificate serial) revoked_certificate (certificates d)));
    _ ← execute (λ d, set_revocations d (List.filter (λ r, negb (String.eqb (rv_serial r) serial)) (revocations d) ++
          [{| rv_serial := serial; rv_reason := reason; rv_at := now; rv_actor := actor |}]));
    _ ← execute (λ d, set_devices d (update_rows (is_device (ce_device certificate)) revoked_device (devices d)));
    ztp_audit actor "REVOKE_CERTIFICATE" serial "revoked" "ok" reason).

Definition certificate_is_active (d : Ztp) (serial site : string) : bool :=
  match find (is_certificate serial) (certificates d) with
  | Some r => String.eqb (ce_status r) "ACTIVE" && String.eqb (ce_site r) site
  | None => false
  end.
End ztp.
