(* ===== verification/ZtpFacts.v ===== *)
(** * What the provisioning database guarantees

    A claim is used at most once, whatever the order of the calls; the outcome
    of an enrolment on every branch; and what a revocation does not undo. *)
From stdpp Require Import relations.
From Stdlib Require Import Ascii.
From S2P Require Import Prelude Net Sql ZtpStore.
Local Open Scope string_scope.
Local Open Scope list_scope.
Local Open Scope Z_scope.

(** ** The invariant *)

Definition accepted (id : string) (a : AttemptRow) : bool :=
  String.eqb (at_result a) "ACCEPTED" && bool_decide (at_claim a = Some id).

Definition all_accepted (l : list AttemptRow) : list AttemptRow := List.filter (λ a, String.eqb (at_result a) "ACCEPTED") l.

Definition claim_ok (c : ClaimRow) : Prop :=
  cl_maximum c = 1 ∧
  (cl_uses c = 0 ∧ (cl_status c = "ACTIVE" ∨ cl_status c = "CANCELLED") ∨ cl_uses c = 1 ∧ cl_status c = "CONSUMED").

Definition staged (l : list DeviceRow) (id site : string) : Prop := ∃ v, v ∈ l ∧ dv_id v = id ∧ dv_site v = site.

Record ztp_ok (d : Ztp) : Prop := {
  z_devices : no_clash device_clash (devices d);
  z_claims : no_clash claim_clash (claims d);
  z_certificates : no_clash certificate_clash (certificates d);
  z_sessions : no_clash session_clash (sessions d);
  z_claim : ∀ c, c ∈ claims d → claim_ok c ∧ staged (devices d) (cl_device c) (cl_site c);
  z_uses : ∀ c, c ∈ claims d → Z.of_nat (length (List.filter (accepted (cl_id c)) (attempts d))) = cl_uses c;
  z_known : ∀ a, a ∈ attempts d → at_result a = "ACCEPTED" → ∃ c, c ∈ claims d ∧ at_claim a = Some (cl_id c);
  z_bound : ∀ x, x ∈ certificates d → staged (devices d) (ce_device x) (ce_site x);
  z_count : length (certificates d) = length (all_accepted (attempts d)) ∧
            length (certificates d) = length (List.filter (λ c, String.eqb (cl_status c) "CONSUMED") (claims d))
}.

(** ** The order *)

Definition claim_key (c : ClaimRow) := (cl_id c, cl_hash c, cl_device c, cl_site c, cl_expires c).

(** A claim that is no longer active keeps its row. *)
Definition claims_settle (l k : list ClaimRow) : Prop :=
  ∀ c, c ∈ l → ∃ c', c' ∈ k ∧ claim_key c' = claim_key c ∧ (c' = c ∨ cl_status c = "ACTIVE").

Definition certificate_key (x : CertificateRow) := (ce_serial x, ce_fingerprint x, ce_device x, ce_site x).
Definition revocations_stay (l k : list CertificateRow) : Prop :=
  ∀ x, x ∈ l → ∃ x', x' ∈ k ∧ certificate_key x' = certificate_key x ∧ (x' = x ∨ ce_status x' = "REVOKED").

Record ztp_grows (d d' : Ztp) : Prop := {
  zg_claims : map claim_key (claims d) `prefix_of` map claim_key (claims d');
  zg_settled : claims_settle (claims d) (claims d');
  zg_certificates : map certificate_key (certificates d) `prefix_of` map certificate_key (certificates d');
  zg_revoked : revocations_stay (certificates d) (certificates d');
  zg_attempts : attempts d `prefix_of` attempts d';
  zg_audits : ztp_audits d `prefix_of` ztp_audits d';
  zg_devices : map (λ v, (dv_id v, dv_site v)) (devices d) `prefix_of` map (λ v, (dv_id v, dv_site v)) (devices d')
}.

#[export] Instance claims_settle_preorder : PreOrder claims_settle.
Proof.
  split; [intros l c Hc; exists c; auto|]. intros l k m H1 H2 c Hc.
  destruct (H1 c Hc) as (c1 & Hc1 & E1 & F1), (H2 c1 Hc1) as (c2 & Hc2 & E2 & F2).
  exists c2. split_and!; [done|congruence|]. destruct F1 as [->|F1]; auto.
Qed.

#[export] Instance revocations_stay_preorder : PreOrder revocations_stay.
Proof.
  split; [intros l c Hc; exists c; auto|]. intros l k m H1 H2 c Hc.
  destruct (H1 c Hc) as (c1 & Hc1 & E1 & F1), (H2 c1 Hc1) as (c2 & Hc2 & E2 & F2).
  exists c2. split_and!; [done|congruence|]. destruct F2 as [->|F2]; [done|by right].
Qed.

#[export] Instance ztp_grows_preorder : PreOrder ztp_grows.
Proof. split; [by split|]. intros a b c H1 H2. destruct H1, H2. split; etrans; eassumption. Qed.

Definition ztp_advances (d d' : Ztp) : Prop := ztp_ok d → ztp_ok d' ∧ ztp_grows d d'.

#[export] Instance ztp_advances_preorder : PreOrder ztp_advances.
Proof.
  split; [by split|]. intros a b c H1 H2 Ha. destruct (H1 Ha) as [Hb G1]. destruct (H2 Hb) as [Hc G2].
  split; [done|by etrans].
Qed.

#[export] Instance device_clash_sym : Symmetrical device_clash.
Proof.
  intros a b. unfold device_clash, same_fingerprint. rewrite (eqb_swap dv_id a b), (eqb_swap dv_site a b). f_equal.
  destruct (dv_fingerprint a), (dv_fingerprint b); try done. apply String.eqb_sym.
Qed.
#[export] Instance claim_clash_sym : Symmetrical claim_clash.
Proof. intros a b. apply (eqb_swap cl_id). Qed.
#[export] Instance certificate_clash_sym : Symmetrical certificate_clash.
Proof. intros a b. unfold certificate_clash. by rewrite (eqb_swap ce_serial a b), (eqb_swap ce_fingerprint a b). Qed.
#[export] Instance session_clash_sym : Symmetrical session_clash.
Proof. intros a b. unfold session_clash. by rewrite (eqb_swap se_device a b), (eqb_swap se_nonce a b). Qed.

(** ** Effects *)

#[local] Ltac run_ztp :=
  cbv [transaction query execute execute_checked ztp_audit mbind M_bind mret M_ret get put lift raise_if of_option raise];
  cbn beta iota zeta.

Section effects.
Context (pbkdf2 : string → string → string) (nonce_fingerprint : string → string) (now : Z).

(** What an accepted enrolment requires. *)
Record presented (d : Ztp) (claim_id secret device_id nonce : string) (c : ClaimRow) : Prop := {
  pr_found : find (is_claim claim_id) (claims d) = Some c;
  pr_device : cl_device c = device_id;
  pr_active : cl_status c = "ACTIVE";
  pr_unused : cl_uses c < cl_maximum c;
  pr_fresh : now < cl_expires c;
  pr_secret : verify_secret pbkdf2 secret (cl_hash c) = Ok true;
  pr_nonce : existsb (λ s, String.eqb (se_device s) device_id && String.eqb (se_nonce s) nonce) (sessions d) = false
}.

Lemma check_claim_ok row claim_id secret device_id nonce d c d' :
  row = find (is_claim claim_id) (claims d) →
  check_claim pbkdf2 now row claim_id secret device_id nonce d = (Ok c, d') ↔
  d' = d ∧ presented d claim_id secret device_id nonce c.
Proof.
  intros Hrow. unfold check_claim. destruct row as [x|]; run_ztp.
  2: { split; [done|]. intros [_ []]. congruence. }
  split.
  - destruct (String.eqb_spec (cl_device x) device_id) as [Hd|]; cbn; [|done].
    destruct (String.eqb_spec (cl_status x) "ACTIVE") as [Ha|]; cbn; [|done].
    destruct (Z.leb_spec (cl_maximum x) (cl_uses x)); [done|].
    destruct (Z.leb_spec (cl_expires x) now); cbn; [done|].
    destruct (verify_secret pbkdf2 secret (cl_hash x)) as [[]|] eqn:Hv; cbn; try done.
    destruct (existsb _ _) eqn:He; cbn; [done|]. intros [= <- <-]. split; [done|]. by split.
  - intros [-> [Hf Hd Ha Hu He Hs Hn]]. rewrite Hf in Hrow. injection Hrow as ->.
    rewrite Hd, Ha, String.eqb_refl, Hs. cbn.
    rewrite (proj2 (Z.leb_gt _ _) Hu), (proj2 (Z.leb_gt _ _) He). cbn. by rewrite Hn.
Qed.

Definition accepted_state (d : Ztp) (claim_id device_id nonce request_id : string) (c : ClaimRow) (devs : list DeviceRow)
    (cert : CertificateRow) : Ztp := {|
  devices := devs; claims := update_rows (is_claim claim_id) (consumed_claim now) (claims d);
  certificates := certificates d ++ [cert]; revocations := revocations d;
  sessions := sessions d ++ [{| se_device := device_id; se_nonce := nonce; se_state := "AUTHENTICATED"; se_updated := now |}];
  attempts := attempts d ++ [{| at_device := device_id; at_claim := Some claim_id; at_nonce := nonce_fingerprint nonce;
    at_result := "ACCEPTED"; at_reason := "claim consumed"; at_created := now |}];
  ztp_audits := ztp_audits d ++ [{| za_actor := device_id; za_action := "ENROLL"; za_target := device_id;
    za_request := "ok"; za_result := "accepted"; za_reason := request_id; za_at := now |}] |}.

Definition issued_certificate (c : ClaimRow) (i : issued) : CertificateRow :=
  let '(serial, fingerprint, not_before, not_after, pem) := i in
  {| ce_serial := serial; ce_fingerprint := fingerprint; ce_device := cl_device c; ce_site := cl_site c;
     ce_not_before := not_before; ce_not_after := not_after; ce_status := "ACTIVE"; ce_pem := pem |}.

Lemma consume_effect claim_id secret device_id nonce issue request_id d res d' :
  consume_transaction pbkdf2 nonce_fingerprint now claim_id secret device_id nonce issue request_id d = (res, d') →
  match res with
  | Err _ => d' = d
  | Ok x => ∃ c i devs, presented d claim_id secret device_id nonce c ∧ issue (cl_site c) = Ok i ∧
      (∀ r, r ∈ certificates d → certificate_clash (issued_certificate c i) r = false) ∧
      existsb (is_device device_id) (devices d) = true ∧
      update_checked device_clash (is_device device_id) (activated_device now (ce_fingerprint (issued_certificate c i))) []
        (devices d) = Ok devs ∧
      x = (cl_site c, ce_serial (issued_certificate c i), ce_fingerprint (issued_certificate c i), ce_pem (issued_certificate c i)) ∧
      d' = accepted_state d claim_id device_id nonce request_id c devs (issued_certificate c i)
  end.
Proof.
  unfold consume_transaction. run_ztp.
  destruct (check_claim pbkdf2 now (find (is_claim claim_id) (claims d)) claim_id secret device_id nonce d) as [[c|e] d1] eqn:Hc;
    [|by intros [= <- <-]].
  apply check_claim_ok in Hc as [-> Hp]; [|done].
  destruct (issue (cl_site c)) as [[[[[serial fp] nb] na] pem]|e] eqn:Hi; cbn; [|by intros [= <- <-]].
  destruct (insert_row session_clash _ _) as [ss|e] eqn:Hs; cbn; [|by intros [= <- <-]].
  destruct (existsb (is_device device_id) (devices d)) eqn:Hk; cbn; [|by intros [= <- <-]].
  destruct (insert_row certificate_clash _ _) as [cs|e] eqn:Hcs; cbn; [|by intros [= <- <-]].
  destruct (update_checked _ _ _ _ _) as [devs|e] eqn:Hd; cbn; intros [= <- <-]; [|done].
  apply insert_row_ok in Hs as [-> Hs]. apply insert_row_ok in Hcs as [-> Hcs].
  pose proof (pr_device _ _ _ _ _ _ Hp) as <-.
  exists c, (serial, fp, nb, na, pem), devs. cbn. split_and!; try done.
Qed.
End effects.

(** ** The steps keep the invariant *)

#[local] Ltac solve_ztp := intros []; split; [split; cbn; auto|split; cbn; auto; try reflexivity; try (by eexists)].

Lemma staged_more l k id site : l `prefix_of` k → staged l id site → staged k id site.
Proof. intros [m ->] (v & Hv & E). exists v. split; [apply elem_of_app; by left|done]. Qed.

Lemma staged_update p f l id site : (∀ v, dv_id (f v) = dv_id v ∧ dv_site (f v) = dv_site v) → staged l id site →
  staged (update_rows p f l) id site.
Proof.
  intros Hf (v & Hv & E1 & E2). exists (if p v then f v else v). split; [apply update_rows_elem; by exists v|].
  destruct (p v); [|done]. destruct (Hf v). split; congruence.
Qed.

Lemma audit_row d l : ztp_advances d (set_ztp_audits d (ztp_audits d ++ l)).
Proof. solve_ztp. Qed.

Lemma advance_ztp_audit now actor action target res status why : moves ztp_advances (ztp_audit now actor action target res status why).
Proof. intros d. apply (audit_row d [_]). Qed.

Lemma ztp_transaction {A} (m : M Ztp A) : moves ztp_advances m → moves ztp_advances (transaction m).
Proof. intros Hm d. specialize (Hm d). unfold transaction. by destruct (m d) as [[x|e] d']. Qed.

Lemma ztp_query {A} (f : Ztp → A) : moves ztp_advances (query f).
Proof. by intros d. Qed.

Lemma settle_refl l : claims_settle l l.
Proof. reflexivity. Qed.

Lemma stage_device_moves now id site actor : moves ztp_advances (stage_device now id site actor).
Proof.
  apply ztp_transaction. apply (moves_bind _); [apply ztp_query|intros row]. moves_step.
  apply (moves_bind _); [|intros ?; apply advance_ztp_audit]. destruct row as [r|]; [moves_step|].
  intros d. unfold execute_checked, get, put, lift, mbind, M_bind. simpl.
  destruct (insert_row device_clash _ (devices d)) as [rows|e] eqn:E; [|done].
  pose proof (λ H, insert_no_clash _ _ _ _ H E) as Hn. pose proof (insert_prefix _ _ _ _ E) as Hp. solve_ztp.
  - intros c Hc. destruct (z_claim0 c Hc). split; [done|by eapply staged_more].
  - intros y Hy. by eapply staged_more, z_bound0.
  - by apply prefix_map.
Qed.

Lemma filter_none {A} (f : A → bool) l : (∀ x, x ∈ l → f x = false) → List.filter f l = [].
Proof.
  intros Hf. induction l as [|x l IH]; simpl; [done|]. rewrite (Hf x) by constructor. apply IH. intros y Hy. apply Hf. by constructor.
Qed.

Lemma create_claim_moves pbkdf2 now id secret salt device site life actor uses :
  moves ztp_advances (create_claim pbkdf2 now id secret salt device site life actor uses).
Proof.
  unfold create_claim. apply (moves_lift_bind _). intros u Hguard.
  assert (uses = 1) as ->.
  { unfold raise_if in Hguard. destruct (_ || _) eqn:E in Hguard; [done|]. apply orb_false_iff in E as [_ E].
    by apply negb_false_iff, Z.eqb_eq in E. }
  intros d. run_ztp. destruct (find (is_device device) (devices d)) as [r|] eqn:Hf; [|done].
  destruct (String.eqb_spec (dv_site r) site) as [Hs|]; [|done]. destruct (negb (inb _ _)); [done|]. cbn [negb orb].
  destruct (insert_row claim_clash _ (claims d)) as [rows|e] eqn:E; [|done].
  etrans; [|apply (audit_row (set_claims d rows) [_])].
  pose proof (λ H, insert_no_clash _ _ _ _ H E) as Hn. apply insert_row_ok in E as [-> Hfresh].
  apply find_elem in Hf as [Hr Hid%String.eqb_eq]. solve_ztp.
  - intros c [Hc|Hc]%elem_of_app; [by apply z_claim0|]. apply list_elem_of_singleton in Hc as ->.
    split; [split; [done|left; cbn; auto]|by exists r].
  - intros c [Hc|Hc]%elem_of_app; [by apply z_uses0|]. apply list_elem_of_singleton in Hc as ->. cbn.
    rewrite filter_none; [done|]. intros a Ha. apply not_true_iff_false. intros [Hacc%String.eqb_eq Hcl%bool_decide_eq_true]%andb_true_iff.
    destruct (z_known0 a Ha Hacc) as (c & Hc & Ec). specialize (Hfresh c Hc). unfold claim_clash in Hfresh. cbn in Hfresh.
    apply String.eqb_neq in Hfresh. congruence.
  - intros a Ha Hacc. destruct (z_known0 a Ha Hacc) as (c & Hc & Ec). exists c. split; [apply elem_of_app; by left|done].
  - destruct z_count0 as [E1 E2]. split; [done|]. rewrite List.filter_app, length_app. cbn. lia.
  - rewrite map_app. by eexists.
  - intros c Hc. exists c. split; [apply elem_of_app; by left|auto].
Qed.

Lemma cancel_claim_moves now id actor why : moves ztp_advances (cancel_claim now id actor why).
Proof.
  apply ztp_transaction. apply (moves_bind _); [apply ztp_query|intros n].
  apply (moves_bind _); [|intros ?; moves_step; apply advance_ztp_audit].
  intros d. unfold execute, get, put, mbind, M_bind. simpl. solve_ztp.
  - by apply update_rows_no_clash.
  - intros c (b & Hb & ->)%update_rows_elem. destruct (z_claim0 b Hb) as [[E [[H1 H2]|[H1 H2]]] Hst]; destruct (active_claim id b) eqn:Ea;
      (split; [|done]); (split; [done|]); cbn; auto.
    unfold active_claim in Ea. rewrite H2 in Ea. by rewrite andb_false_r in Ea.
  - intros c (b & Hb & ->)%update_rows_elem. specialize (z_uses0 b Hb). by destruct (active_claim id b).
  - intros a Ha Hacc. destruct (z_known0 a Ha Hacc) as (c & Hc & Ec).
    exists (if active_claim id c then with_claim_status "CANCELLED" c else c).
    split; [apply update_rows_elem; by exists c|by destruct (active_claim id c)].
  - destruct z_count0 as [-> E]. split; [done|]. rewrite E. f_equal. clear. induction (claims d) as [|c l IH]; simpl; [done|].
    destruct (active_claim id c) eqn:Ea; cbn; [|destruct (String.eqb (cl_status c) "CONSUMED"); cbn; by rewrite IH].
    unfold active_claim in Ea. apply andb_true_iff in Ea as [_ Ea%String.eqb_eq]. by rewrite Ea.
  - by apply map_update_rows.
  - intros c Hc. exists (if active_claim id c then with_claim_status "CANCELLED" c else c).
    split; [apply update_rows_elem; by exists c|]. destruct (active_claim id c) eqn:Ea; [|auto]. split; [done|right].
    unfold active_claim in Ea. by apply andb_true_iff in Ea as [_ Ea%String.eqb_eq].
Qed.

Lemma revoke_moves now serial actor why : moves ztp_advances (revoke_certificate now serial actor why).
Proof.
  apply ztp_transaction. apply (moves_bind _); [apply ztp_query|intros row]. moves_step.
  apply (moves_bind _).
  { intros d. unfold execute, get, put, mbind, M_bind. simpl. solve_ztp.
    - by apply update_rows_no_clash.
    - intros y (b & Hb & ->)%update_rows_elem. specialize (z_bound0 b Hb). by destruct (is_certificate serial b).
    - unfold update_rows. by rewrite length_map.
    - by apply map_update_rows.
    - intros y Hy. exists (if is_certificate serial y then revoked_certificate y else y).
      split; [apply update_rows_elem; by exists y|]. destruct (is_certificate serial y); auto. }
  intros ?. apply (moves_bind _).
  { intros d. unfold execute, get, put, mbind, M_bind. simpl. solve_ztp. }
  intros ?. apply (moves_bind _); [|intros ?; apply advance_ztp_audit].
  intros d. unfold execute, get, put, mbind, M_bind. simpl. solve_ztp.
  - by apply update_rows_no_clash.
  - intros c Hc. destruct (z_claim0 c Hc). split; [done|by apply staged_update].
  - intros y Hy. by apply staged_update, z_bound0.
  - by apply map_update_rows.
Qed.

(** ** Enrolment *)

Lemma claim_unique l a b : no_clash claim_clash l → a ∈ l → b ∈ l → cl_id a = cl_id b → a = b.
Proof. intros Hn Ha Hb E. eapply no_clash_elem; [done|done|done|]. unfold claim_clash. by rewrite E, String.eqb_refl. Qed.

(** Consuming the one claim found. *)
Lemma consumed_count now id l c : no_clash claim_clash l → find (is_claim id) l = Some c → cl_status c = "ACTIVE" →
  length (List.filter (λ c, String.eqb (cl_status c) "CONSUMED") (update_rows (is_claim id) (consumed_claim now) l)) =
  S (length (List.filter (λ c, String.eqb (cl_status c) "CONSUMED") l)).
Proof.
  induction l as [|x l IH]; simpl; [done|]. intros [Hx Hn] Hf Ha. destruct (is_claim id x) eqn:Ex.
  - injection Hf as ->. rewrite Ha. cbn. f_equal. rewrite update_rows_none; [done|].
    destruct (find (is_claim id) l) as [y|] eqn:Hy; [|done]. apply find_elem in Hy as [Hin Hy].
    destruct (Hx y Hin) as [E _]. unfold claim_clash, is_claim in *. apply String.eqb_eq in Ex, Hy.
    by rewrite Ex, Hy, String.eqb_refl in E.
  - destruct (String.eqb (cl_status x) "CONSUMED"); cbn; by rewrite (IH Hn Hf Ha).
Qed.

Lemma accepted_advances pbkdf2 fp now d id secret device nonce request c i devs :
  presented pbkdf2 now d id secret device nonce c →
  (∀ r, r ∈ certificates d → certificate_clash (issued_certificate c i) r = false) →
  update_checked device_clash (is_device device) (activated_device now (ce_fingerprint (issued_certificate c i))) [] (devices d) = Ok devs →
  ztp_advances d (accepted_state fp now d id device nonce request c devs (issued_certificate c i)).
Proof.
  intros [Hf Hd Ha Hu He Hs Hnonce] Hcert Hdev. set (cert := issued_certificate c i) in *.
  assert (Hcd : ce_device cert = cl_device c ∧ ce_site cert = cl_site c) by (unfold cert; by destruct i as [[[[? ?] ?] ?] ?]).
  pose proof (λ H, update_checked_no_clash _ _ _ _ [] _ H Hdev) as Hdn. apply update_checked_ok in Hdev as ->. cbn [app] in *.
  pose proof (find_elem _ _ _ Hf) as [Hc Hid%String.eqb_eq].
  intros []. destruct (z_claim0 c Hc) as [[Hmax Hst] Hstaged].
  assert (Huse : cl_uses c = 0) by (destruct Hst as [[? _]|[? _]]; lia).
  assert (Hother : ∀ b, b ∈ claims d → is_claim id b = true → b = c).
  { intros b Hb E%String.eqb_eq. apply (claim_unique (claims d)); congruence. }
  split; [split; cbn; auto|split; cbn; auto].
  - by apply update_rows_no_clash.
  - rewrite <- (app_nil_r (_ ++ _)). apply no_clash_add; [apply _|by rewrite app_nil_r|]. rewrite app_nil_r.
    apply not_true_iff_false. intros (r & Hr%list_elem_of_In & E)%existsb_exists. by rewrite Hcert in E.
  - rewrite <- (app_nil_r (_ ++ _)). apply no_clash_add; [apply _|by rewrite app_nil_r|]. rewrite app_nil_r.
    apply not_true_iff_false. intros (r & Hr%list_elem_of_In & E)%existsb_exists.
    pose proof (existsb_false_elem _ _ _ Hnonce Hr) as Hno. unfold session_clash in E. cbn in E, Hno.
    by rewrite (String.eqb_sym device), (String.eqb_sym nonce), Hno in E.
  - intros y (b & Hb & ->)%update_rows_elem. destruct (z_claim0 b Hb) as [Hok Hb2].
    destruct (is_claim id b) eqn:Eb; (split; [|by apply staged_update]); [|done].
    rewrite (Hother b Hb Eb). split; [done|right]. cbn. split; [lia|done].
  - intros y (b & Hb & ->)%update_rows_elem. specialize (z_uses0 b Hb). rewrite List.filter_app, length_app, Nat2Z.inj_add. cbn.
    destruct (is_claim id b) eqn:Eb.
    + rewrite (Hother b Hb Eb) in *. cbn. rewrite z_uses0, bool_decide_true by congruence. done.
    + rewrite bool_decide_false, z_uses0; [cbn; lia|]. intros [= E]. unfold is_claim in Eb. by rewrite E, String.eqb_refl in Eb.
  - intros a [Hin|Hin]%elem_of_app Hacc.
    + destruct (z_known0 a Hin Hacc) as (b & Hb & Eb). exists (if is_claim id b then consumed_claim now b else b).
      split; [apply update_rows_elem; by exists b|by destruct (is_claim id b)].
    + apply list_elem_of_singleton in Hin as ->. exists (consumed_claim now c). cbn. split; [|congruence].
      apply update_rows_elem. exists c. split; [done|]. unfold is_claim. by rewrite Hid, String.eqb_refl.
  - intros y [Hy|Hy]%elem_of_app; [by apply staged_update, z_bound0|]. apply list_elem_of_singleton in Hy as ->.
    destruct Hcd as [-> ->]. by apply staged_update.
  - destruct z_count0 as [E1 E2]. unfold all_accepted. rewrite List.filter_app, !length_app, consumed_count with (c := c) by done.
    cbn. unfold all_accepted in E1. lia.
  - by apply map_update_rows.
  - intros b Hb. exists (if is_claim id b then consumed_claim now b else b). split; [apply update_rows_elem; by exists b|].
    destruct (is_claim id b) eqn:Eb; [|auto]. split; [done|right]. by rewrite (Hother b Hb Eb).
  - rewrite map_app. by eexists.
  - intros y Hy. exists y. split; [apply elem_of_app; by left|auto].
  - by eexists.
  - by eexists.
  - by apply map_update_rows.
Qed.

Definition rejection (fp : string → string) (now : Z) (id device nonce : string) (e : exn) : AttemptRow := {|
  at_device := device; at_claim := Some id; at_nonce := fp nonce; at_result := "REJECTED"; at_reason := exn_msg e;
  at_created := now |}.

Lemma rejected_advances fp now d id device nonce e : ztp_advances d (set_attempts d (attempts d ++ [rejection fp now id device nonce e])).
Proof.
  solve_ztp.
  - intros c Hc. rewrite List.filter_app. cbn. by rewrite app_nil_r, z_uses0.
  - intros a [Ha|Ha]%elem_of_app Hacc; [by apply z_known0|]. by apply list_elem_of_singleton in Ha as ->.
  - unfold all_accepted in *. rewrite List.filter_app. cbn. by rewrite app_nil_r.
Qed.

Lemma consume_moves pbkdf2 fp now id secret device nonce issue request :
  moves ztp_advances (consume_claim pbkdf2 fp now id secret device nonce issue request).
Proof.
  intros d. unfold consume_claim.
  destruct (consume_transaction _ _ _ _ _ _ _ _ _ d) as [[x|e] d'] eqn:E; apply consume_effect in E.
  - destruct E as (c & i & devs & Hp & _ & Hcert & _ & Hdev & _ & ->). by eapply accepted_advances.
  - subst d'. case_bool_decide; [apply rejected_advances|done].
Qed.

Lemma fresh_session pbkdf2 now d id secret device nonce c : presented pbkdf2 now d id secret device nonce c →
  existsb (session_clash {| se_device := device; se_nonce := nonce; se_state := "AUTHENTICATED"; se_updated := now |}) (sessions d)
  = false.
Proof.
  intros Hp. apply existsb_all_false. intros r Hr. pose proof (existsb_false_elem _ _ _ (pr_nonce _ _ _ _ _ _ _ _ Hp) Hr) as E.
  cbn in E. unfold session_clash. cbn. by rewrite (String.eqb_sym device), (String.eqb_sym nonce).
Qed.

Lemma known_device pbkdf2 now d id secret device nonce c : ztp_ok d → presented pbkdf2 now d id secret device nonce c →
  existsb (is_device device) (devices d) = true.
Proof.
  intros Hok Hp. pose proof (find_elem _ _ _ (pr_found _ _ _ _ _ _ _ _ Hp)) as [Hc _].
  destruct (z_claim _ Hok c Hc) as [_ (v & Hv & E & _)]. apply existsb_exists. exists v.
  split; [by apply list_elem_of_In|]. unfold is_device. rewrite E, (pr_device _ _ _ _ _ _ _ _ Hp). apply String.eqb_refl.
Qed.

(** ** Histories *)

Section histories.
Context (pbkdf2 : string → string → string) (nonce_fingerprint : string → string).

(** One call of the store, at any time, with any arguments; the certificate
    authority may answer anything. *)
Inductive ztp_step (d : Ztp) : Ztp → Prop :=
  | step_device now id site actor : ztp_step d (stage_device now id site actor d).2
  | step_claim now id secret salt device site life actor uses :
      ztp_step d (create_claim pbkdf2 now id secret salt device site life actor uses d).2
  | step_cancel now id actor why : ztp_step d (cancel_claim now id actor why d).2
  | step_consume now id secret device nonce issue request :
      ztp_step d (consume_claim pbkdf2 nonce_fingerprint now id secret device nonce issue request d).2
  | step_revoke now serial actor why : ztp_step d (revoke_certificate now serial actor why d).2.

Lemma ztp_history_advances d d' : rtc ztp_step d d' → ztp_advances d d'.
Proof.
  induction 1 as [|d d1 d2 Hs _ IH]; [done|]. etrans; [|done]. destruct Hs.
  - apply stage_device_moves.
  - apply create_claim_moves.
  - apply cancel_claim_moves.
  - apply consume_moves.
  - apply revoke_moves.
Qed.

Lemma empty_ztp_ok : ztp_ok empty_ztp.
Proof. split; cbn; auto; by intros ? ?%elem_of_nil. Qed.

Lemma accepted_at_most_once d c : ztp_ok d → c ∈ claims d → (length (List.filter (accepted (cl_id c)) (attempts d)) ≤ 1)%nat.
Proof.
  intros Hok Hc. pose proof (z_uses _ Hok c Hc) as Hu. destruct (z_claim _ Hok c Hc) as [[_ [[E _]|[E _]]] _]; lia.
Qed.

(** C9: whatever calls are made, in whatever order, no claim admits more than
    one enrolment, every certificate stems from one claim consumed by the device
    it was made for and carries the site that device was staged for, and the
    histories only extend: a used or cancelled claim keeps its row, a revoked
    certificate stays revoked, no attempt or audit row is lost. *)
Theorem claims_single_use d d' :
  rtc ztp_step empty_ztp d → rtc ztp_step d d' →
  ztp_ok d' ∧ ztp_grows d d' ∧
  ∀ c, c ∈ claims d' → (length (List.filter (accepted (cl_id c)) (attempts d')) ≤ 1)%nat.
Proof.
  intros H0 H1. destruct (ztp_history_advances d d' H1) as [Hok Hg].
  { by apply (ztp_history_advances _ _ H0), empty_ztp_ok. }
  split_and!; [done|done|]. intros c Hc. by apply accepted_at_most_once.
Qed.

(** The first certificate with a fresh serial is the one found. *)
Lemma fresh_certificate_found l cert : (∀ r, r ∈ l → certificate_clash cert r = false) →
  find (is_certificate (ce_serial cert)) (l ++ [cert]) = Some cert.
Proof.
  intros Hf. induction l as [|r l IH]; simpl.
  - unfold is_certificate. by rewrite String.eqb_refl.
  - assert (is_certificate (ce_serial cert) r = false) as ->.
    { specialize (Hf r ltac:(constructor)). apply orb_false_iff in Hf as [Hf _]. unfold is_certificate. by rewrite String.eqb_sym. }
    apply IH. intros x Hx. apply Hf. by constructor.
Qed.

(** C39: an enrolment request, on every branch.  It is accepted only with the
    secret of an active, unexpired claim made for the device and an unused
    nonce, and only if the authority issues a certificate for the claim's site;
    that certificate is then active for the site and the claim is consumed.  A
    rejected request adds one REJECTED attempt and changes nothing else; any
    other failure changes nothing.  With everything in order and a fresh serial
    and fingerprint the request is accepted. *)
Theorem consume_claim_spec now id secret device nonce issue request d : ztp_ok d →
  let '(res, d') := consume_claim pbkdf2 nonce_fingerprint now id secret device nonce issue request d in
  match res with
  | Ok (site, serial, fingerprint, pem) => ∃ c,
      presented pbkdf2 now d id secret device nonce c ∧ site = cl_site c ∧
      (∃ nb na, issue site = Ok (serial, fingerprint, nb, na, pem)) ∧
      certificate_is_active d' serial site = true ∧ find (is_claim id) (claims d') = Some (consumed_claim now c) ∧
      (∀ other, other ≠ id → find (is_claim other) (claims d') = find (is_claim other) (claims d))
  | Err e => d' = (if bool_decide (exn_cls e = ClaimRejected)
                   then set_attempts d (attempts d ++ [rejection nonce_fingerprint now id device nonce e]) else d)
  end ∧
  ∀ c i, presented pbkdf2 now d id secret device nonce c → issue (cl_site c) = Ok i →
    (∀ r, r ∈ certificates d → certificate_clash (issued_certificate c i) r = false) →
    is_ok (update_checked device_clash (is_device device) (activated_device now (ce_fingerprint (issued_certificate c i))) []
             (devices d)) = true →
    is_ok res = true.
Proof.
  intros Hok. unfold consume_claim.
  destruct (consume_transaction _ _ _ _ _ _ _ _ _ d) as [[x|e] d'] eqn:E; pose proof (consume_effect _ _ _ _ _ _ _ _ _ _ _ _ E) as He;
    cbn beta iota in He.
  - destruct He as (c & i & devs & Hp & Hi & Hcert & _ & _ & -> & ->). split; [|done].
    destruct i as [[[[serial f] nb] na] pem]. exists c. split; [done|]. split; [done|]. split; [by exists nb, na|].
    pose proof (fresh_certificate_found _ _ Hcert) as Hfc. cbn in Hfc. unfold certificate_is_active. cbn. rewrite Hfc. cbn.
    rewrite String.eqb_refl. split; [done|]. split.
    + by apply find_update_hit; [apply Hp|].
    + intros other Ho. apply find_update_other. intros y Ey%String.eqb_eq. unfold is_claim. cbn. rewrite Ey.
      by split; apply String.eqb_neq, not_eq_sym.
  - subst d'. assert (Hno : ∀ c i, presented pbkdf2 now d id secret device nonce c → issue (cl_site c) = Ok i →
      (∀ r, r ∈ certificates d → certificate_clash (issued_certificate c i) r = false) →
      is_ok (update_checked device_clash (is_device device) (activated_device now (ce_fingerprint (issued_certificate c i))) []
             (devices d)) = true → False).
    { intros c [[[[serial f] nb] na] pem] Hp Hi Hcert Hdev. revert E. unfold consume_transaction. run_ztp.
      rewrite (proj2 (check_claim_ok pbkdf2 now _ id secret device nonce d c d eq_refl) (conj eq_refl Hp)). rewrite Hi. cbn in Hcert, Hdev |- *.
      rewrite (pr_device _ _ _ _ _ _ _ _ Hp) in Hcert.
      unfold insert_row at 1. rewrite (fresh_session pbkdf2 now d id secret device nonce c Hp). cbn.
      rewrite (known_device pbkdf2 now d id secret device nonce c Hok Hp). cbn. unfold insert_row at 1.
      rewrite (existsb_all_false _ _ (λ r Hr, Hcert r Hr)). cbn. revert Hdev.
      destruct (update_checked _ _ _ _ _); cbn; [intros _ E; discriminate E|discriminate]. }
    destruct (bool_decide (exn_cls e = ClaimRejected)) eqn:Hc; [unfold record_attempt; run_ztp|]; rewrite ?Hc;
      (split; [done|]); intros c i Hp Hi Hcert Hdev; by destruct (Hno c i Hp Hi Hcert Hdev).
Qed.
End histories.

(** ** Concrete histories *)

Definition kdf (secret salt : string) : string := "k-" +:+ secret.
Definition print (nonce : string) : string := "n-" +:+ nonce.
Definition ca (serial site : string) : result issued := Ok (serial, "fp-" +:+ serial, "2026", "2027", "pem " +:+ site).

Definition ztp1 : Ztp := (stage_device 10 "dev-1" "site1" "admin" empty_ztp).2.
Definition ztp2 : Ztp := (create_claim kdf 20 "c1" "s1" "00" "dev-1" "site1" 900 "admin" 1 ztp1).2.
Definition ztp3 : Ztp := (create_claim kdf 21 "c2" "s2" "01" "dev-1" "site1" 900 "admin" 1 ztp2).2.
Definition ztp4 : Ztp := (consume_claim kdf print 30 "c1" "s1" "dev-1" "nonce-1" (ca "serial-1") "r1" ztp3).2.
Definition ztp5 : Ztp := (revoke_certificate 40 "serial-1" "admin" "stolen" ztp4).2.
Definition ztp6 : Ztp := (consume_claim kdf print 50 "c2" "s2" "dev-1" "nonce-2" (ca "serial-2") "r2" ztp5).2.

Lemma ztp4_history : rtc (ztp_step kdf print) empty_ztp ztp4.
Proof.
  apply rtc_l with ztp1; [exact (step_device _ _ _ 10 "dev-1" "site1" "admin")|].
  apply rtc_l with ztp2; [exact (step_claim _ _ _ 20 "c1" "s1" "00" "dev-1" "site1" 900 "admin" 1)|].
  apply rtc_l with ztp3; [exact (step_claim _ _ _ 21 "c2" "s2" "01" "dev-1" "site1" 900 "admin" 1)|].
  apply rtc_l with ztp4; [exact (step_consume _ _ _ 30 "c1" "s1" "dev-1" "nonce-1" (ca "serial-1") "r1")|apply rtc_refl].
Qed.

Lemma ztp5_history : rtc (ztp_step kdf print) ztp4 ztp5.
Proof. apply rtc_once. exact (step_revoke _ _ _ 40 "serial-1" "admin" "stolen"). Qed.

Lemma claims_single_use_witness :
  length (claims ztp5) = 2%nat ∧ length (certificates ztp5) = 1%nat ∧ ztp_ok ztp5 ∧ ztp_grows ztp4 ztp5.
Proof.
  destruct (claims_single_use kdf print ztp4 ztp5 ztp4_history ztp5_history) as (Hok & Hg & _).
  split; [vm_compute; reflexivity|]. split; [vm_compute; reflexivity|]. exact (conj Hok Hg).
Defined.

Lemma ztp3_ok : ztp_ok ztp3.
Proof.
  apply (ztp_history_advances kdf print empty_ztp); [|apply empty_ztp_ok].
  apply rtc_l with ztp1; [exact (step_device _ _ _ 10 "dev-1" "site1" "admin")|].
  apply rtc_l with ztp2; [exact (step_claim _ _ _ 20 "c1" "s1" "00" "dev-1" "site1" 900 "admin" 1)|].
  apply rtc_once. exact (step_claim _ _ _ 21 "c2" "s2" "01" "dev-1" "site1" 900 "admin" 1).
Qed.

Lemma consume_claim_spec_witness :
  certificate_is_active ztp4 "serial-1" "site1" = true ∧
  (consume_claim kdf print 30 "c1" "wrong" "dev-1" "nonce-1" (ca "serial-1") "r1" ztp3).2 =
    set_attempts ztp3 (attempts ztp3 ++ [rejection print 30 "c1" "dev-1" "nonce-1" (Exn ClaimRejected "claim secret rejected")]).
Proof.
  pose proof (consume_claim_spec kdf print 30 "c1" "s1" "dev-1" "nonce-1" (ca "serial-1") "r1" ztp3 ztp3_ok) as H1.
  pose proof (consume_claim_spec kdf print 30 "c1" "wrong" "dev-1" "nonce-1" (ca "serial-1") "r1" ztp3 ztp3_ok) as H2.
  split.
  - assert (Hr : (consume_claim kdf print 30 "c1" "s1" "dev-1" "nonce-1" (ca "serial-1") "r1" ztp3) =
      (Ok ("site1", "serial-1", "fp-serial-1", "pem site1"), ztp4)) by (vm_compute; reflexivity).
    rewrite Hr in H1. destruct H1 as [(c & _ & _ & _ & Hact & _) _]. exact Hact.
  - assert (Hr : (consume_claim kdf print 30 "c1" "wrong" "dev-1" "nonce-1" (ca "serial-1") "r1" ztp3).1 =
      raise ClaimRejected "claim secret rejected") by (vm_compute; reflexivity).
    destruct (consume_claim kdf print 30 "c1" "wrong" "dev-1" "nonce-1" (ca "serial-1") "r1" ztp3) as [res d'].
    cbn [fst] in Hr. rewrite Hr in H2. destruct H2 as [H2 _]. exact H2.
Defined.

(** ** What the code does not do *)

(** The EXPIRED mark is written in the transaction that the rejection rolls
    back: an expired claim stays ACTIVE. *)
Lemma expired_claim_stays_active :
  let d' := (consume_claim kdf print 900000021 "c1" "s1" "dev-1" "nonce-1" (ca "serial-1") "r1" ztp3).2 in
  claims d' = claims ztp3 ∧ map at_reason (attempts d') = ["claim expired"] ∧
  forallb (λ c, String.eqb (cl_status c) "ACTIVE" && (cl_expires c <=? 900000021)) (claims d') = true.
Proof. vm_compute. by split_and!. Qed.

(** Revoking a device's certificate neither cancels its other claim nor is its
    status looked at when that claim is presented: the revoked device is ACTIVE
    again, with a new certificate. *)
Lemma revoked_device_enrols_again :
  map dv_status (devices ztp5) = ["REVOKED"] ∧ map dv_status (devices ztp6) = ["ACTIVE"] ∧
  certificate_is_active ztp6 "serial-2" "site1" = true.
Proof. vm_compute. by split_and!. Qed.
