(* ===== verification/DynamicInventory.v ===== *)
(** * The dynamic inventory and the intent compiler ([dynamic_control.py])

    The policy service's site inventory (allocation of addresses, lifecycle,
    operations), its administrative intents and network-state inputs, and the
    compiler that turns inventory, keys and ownership into desired states.  All
    of it lives in the policy database (PolicyStore). *)
From Stdlib Require Import Ascii.
From S2P Require Import Prelude Net Marks PathSelection Model ModelValidate Json DesiredState Inventory Sql PolicyStore.
Local Open Scope string_scope.
Local Open Scope list_scope.
Local Open Scope Z_scope.

(** ** Names *)

Definition between_chars (lo hi a : ascii) : bool := ((N_of_ascii lo <=? N_of_ascii a) && (N_of_ascii a <=? N_of_ascii hi))%N.

(** [re.fullmatch(pre + "([1-9][0-9]*)", s)], the number *)
Definition numbered (pre s : string) : option Z :=
  if String.prefix pre s then
    match String.substring (String.length pre) (String.length s - String.length pre) s with
    | String a _ as digits => if between_chars "1"%char "9"%char a then parse_digits digits else None
    | EmptyString => None
    end
  else None.

(** [_SITE_NAME.fullmatch] *)
Definition site_name_ok (s : string) : bool :=
  match s with
  | String a rest =>
      between_chars "a"%char "z"%char a && (String.length rest <=? 31)%nat &&
      forallb (λ b, between_chars "a"%char "z"%char b || between_chars "0"%char "9"%char b || Ascii.eqb b "-"%char)
        (String.list_ascii_of_string rest)
  | EmptyString => false
  end.

Definition ACTIVE_CONFIGURATION_STATES : list string :=
  ["TOPOLOGY_CREATED"; "ZTP_STAGED"; "ENROLLING"; "ENROLLED"; "REGISTERING"; "PROVISIONING"; "PENDING_HUBS"; "RECONCILING"; "ACTIVE"].

Definition TRANSITIONS : dict string (list string) :=
  [ ("ALLOCATING", ["TOPOLOGY_CREATED"; "FAILED"; "DELETING"]);
    ("TOPOLOGY_CREATED", ["ZTP_STAGED"; "FAILED"; "DELETING"]);
    ("ZTP_STAGED", ["ENROLLING"; "FAILED"; "DELETING"]);
    ("ENROLLING", ["ENROLLED"; "FAILED"; "DELETING"]);
    ("ENROLLED", ["REGISTERING"; "FAILED"; "DELETING"]);
    ("REGISTERING", ["PROVISIONING"; "FAILED"; "DELETING"]);
    ("PROVISIONING", ["PENDING_HUBS"; "RECONCILING"; "ACTIVE"; "FAILED"; "DELETING"]);
    ("PENDING_HUBS", ["RECONCILING"; "FAILED"; "DELETING"]);
    ("RECONCILING", ["ACTIVE"; "PENDING_HUBS"; "FAILED"; "DELETING"]);
    ("ACTIVE", ["DELETING"; "FAILED"]);
    ("FAILED", ["TOPOLOGY_CREATED"; "PROVISIONING"; "RECONCILING"; "DELETING"]);
    ("DELETING", ["DELETED"; "FAILED"]);
    ("DELETED", ["ALLOCATING"]);
    ("REQUESTED", ["ALLOCATING"; "FAILED"]);
    ("ALLOCATED", ["TOPOLOGY_CREATED"; "ZTP_STAGED"; "FAILED"; "DELETING"]);
    ("DECOMMISSIONING", ["REVOKED"; "DELETED"; "FAILED"]);
    ("REVOKED", ["DELETED"]) ].

(** ** Rows *)

(** The unique columns of [site_inventory]. *)
Definition inventory_clash (a b : InventorySite) : bool :=
  same_text (iv_site a) (iv_site b) || same_text (iv_device_id a) (iv_device_id b) || (iv_address_id a =? iv_address_id b)
  || (iv_wireguard_index a =? iv_wireguard_index b) || same_text (iv_management_ip a) (iv_management_ip b)
  || same_text (iv_lan_prefix a) (iv_lan_prefix b) || same_text (iv_lan_gateway a) (iv_lan_gateway b)
  || same_text (iv_lan_switch a) (iv_lan_switch b) || (iv_lan_dpid a =? iv_lan_dpid b)
  || same_text (iv_host_name a) (iv_host_name b) || same_text (iv_host_ip a) (iv_host_ip b)
  || same_text (iv_interface_suffix a) (iv_interface_suffix b) || same_text (iv_edge_node a) (iv_edge_node b).

Definition is_site (site : string) (i : InventorySite) : bool := same_text (iv_site i) site.

(** The columns an update may change. *)
Definition with_lifecycle (i : InventorySite) (cycle runtime : string) (error stage : option string) (rec : Z)
    (updated : string) (deleted : option string) : InventorySite := {|
  iv_site := iv_site i; iv_edge_node := iv_edge_node i; iv_device_id := iv_device_id i; lifecycle := cycle;
  iv_address_id := iv_address_id i; iv_wireguard_index := iv_wireguard_index i; iv_management_ip := iv_management_ip i;
  iv_lan_prefix := iv_lan_prefix i; iv_lan_gateway := iv_lan_gateway i; iv_lan_switch := iv_lan_switch i;
  iv_lan_dpid := iv_lan_dpid i; iv_host_name := iv_host_name i; iv_host_ip := iv_host_ip i;
  iv_interface_suffix := iv_interface_suffix i; iv_preferred_hub := iv_preferred_hub i;
  iv_standby_hub := iv_standby_hub i; runtime_status := runtime; last_error := error; failure_stage := stage;
  recoverable := rec; created_at := created_at i; updated_at := updated; deleted_at := deleted |}.

Definition int_bool (b : bool) : Z := if b then 1 else 0.

(** ** The inventory *)

Definition list_sites (include_deleted : bool) (d : Db) : list InventorySite :=
  sort_by (λ a b, String.leb (iv_site a) (iv_site b))
    (List.filter (λ i, include_deleted || negb (same_text (lifecycle i) "DELETED")) (inventory_rows d)).

Definition get_site_row (site : string) (d : Db) : option InventorySite := find (is_site site) (inventory_rows d).

(** [self.get(site) or raise InventoryError(...)] *)
Definition get_or_fail (site msg : string) : M Db InventorySite :=
  row ← query (get_site_row site); lift (of_option row InventoryError msg).

Section inventory.
Context `{PyRepr} (sha256 : dict string json → string) (now : string).

Definition event (event_type subject : string) (payload : dict string json) : M Db unit :=
  execute (λ d, set_event_rows d (event_rows d ++
    [{| ev_id := max_key ev_id (event_rows d) + 1; ev_type := event_type; ev_subject := subject; ev_payload := payload;
        ev_created := now; ev_consumed := None |}])).

Definition new_site (site edge device cycle : string) (address wireguard : Z) (mgmt lan gateway switch : string) (dpid : Z)
    (host host_ip suffix preferred standby runtime : string) : InventorySite := {|
  iv_site := site; iv_edge_node := edge; iv_device_id := device; lifecycle := cycle; iv_address_id := address;
  iv_wireguard_index := wireguard; iv_management_ip := mgmt; iv_lan_prefix := lan; iv_lan_gateway := gateway;
  iv_lan_switch := switch; iv_lan_dpid := dpid; iv_host_name := host; iv_host_ip := host_ip; iv_interface_suffix := suffix;
  iv_preferred_hub := preferred; iv_standby_hub := standby; runtime_status := runtime; last_error := None;
  failure_stage := None; recoverable := 1; created_at := now; updated_at := now; deleted_at := None |}.

Definition site_row (site device lan preferred standby status : string) : SiteRow := {|
  sr_site := site; sr_device := device; sr_lan := lan; sr_preferred := preferred; sr_standby := standby; sr_status := status;
  sr_created := now; sr_updated := now |}.

Definition seed_record (s : Site) : InventorySite :=
  new_site (site_name s) (s_edge_node s) (s_device_id s) "ZTP_STAGED" (address_id s) (wireguard_index s)
    (addr_str (management_ip s)) (network_str (lan_network s)) (addr_str (lan_gateway s)) (lan_switch s) (lan_dpid s)
    (host_name s) (addr_str (host_ip s))
    (if nonempty (interface_suffix s) then interface_suffix s else "n" +:+ str_Z (address_id s))
    (Model.preferred_hub s) (Model.standby_hub s) "SEED".

Definition seed_from_config (c : TopologyConfig) (actor : string) : M Db unit :=
  transaction (forM (λ s,
    existing ← query (get_site_row (site_name s));
    match existing with
    | Some _ => mret tt
    | None =>
        _ ← execute_checked inventory_rows set_inventory_rows (insert_row inventory_clash (seed_record s));
        known ← query (λ d, existsb (λ r, same_text (sr_site r) (site_name s)) (site_rows d));
        _ ← (if known : bool then mret tt
             else execute_checked site_rows set_site_rows (insert_row site_clash
                    (site_row (site_name s) (s_device_id s) (network_str (lan_network s)) (Model.preferred_hub s) (Model.standby_hub s) "STAGED")));
        audit now actor "SEED_SITE_INVENTORY" (site_name s) "topology-seed" "ok" None None
    end) (site_list c)).

Definition topology (base : TopologyConfig) (d : Db) : result TopologyConfig :=
  ss ← foldM (λ acc i, if inb (lifecycle i) ACTIVE_CONFIGURATION_STATES
                       then s ← to_site i; Ok (dset acc (iv_site i) s) else Ok acc) [] (list_sites false d);
  with_sites base (match ss with [] => sites base | _ => ss end).

Definition range (lo hi : Z) : list Z := seqZ lo (hi - lo).

(** [next((value for value in range(lo, hi) if value not in used), None)] *)
Definition first_free (lo hi : Z) (used : list Z) : option Z := find (λ v, negb (inb v used)) (range lo hi).

Definition lan_octet_of (i : InventorySite) : result Z :=
  part ← of_option (split_on "."%char (iv_lan_prefix i) !! 1%nat) IndexError "list index out of range";
  of_option (parse_int part) ValueError ("invalid literal for int() with base 10: '" +:+ part +:+ "'").

(** [max([m, *values])] *)
Definition max_from (m : Z) (l : list Z) : Z := foldl Z.max m l.

Definition allocated_record (site device preferred standby : string) (address octet wireguard dpid : Z) : InventorySite :=
  let edge := "node" +:+ str_Z octet in
  new_site site edge device "ALLOCATING" address wireguard ("172.30.0." +:+ str_Z address)
    ("10." +:+ str_Z octet +:+ ".0.0/24") ("10." +:+ str_Z octet +:+ ".0.1") ("lsw" +:+ str_Z address) dpid
    (edge +:+ "_host") ("10." +:+ str_Z octet +:+ ".0.10") ("n" +:+ str_Z address) preferred standby "NOT_REQUESTED".

(** The checks on the arguments, before the transaction. *)
Definition check_request (site device preferred standby : string) : result unit :=
  let bad := λ b msg, raise_if b InventoryError msg in
  _ ← bad (bool_decide (is_Some (numbered "node" site)))
        "logical site IDs must use siteN; nodeN is reserved for the Containernet WAN Edge";
  _ ← bad (negb (site_name_ok site)) "site must be a lowercase DNS-style identifier";
  _ ← bad (10 <? Z.of_nat (String.length site))
        "site name must be at most 32 characters; Linux interface names derive from edge_node";
  _ ← bad (inb site HUBS || inb site ["public-saas"; "dc-app"; "cloud-app"]) "site name is reserved";
  _ ← bad (negb (nonempty device) || (128 <? Z.of_nat (String.length device)))
        "device_id is required and must be at most 128 characters";
  bad (negb (inb preferred HUBS) || negb (inb standby HUBS) || String.eqb preferred standby)
    "preferred_hub and standby_hub must be distinct known hubs".

(** The numbers for a new site, from the rows of the table. *)
Definition choose_numbers (site : string) (rows : list InventorySite) : result (Z * Z * Z * Z) :=
  let address := first_free 11 254 (map iv_address_id rows) in
  used ← mapM_result lan_octet_of rows;
  octet ← (match numbered "site" site with
           | Some n => _ ← raise_if ((254 <=? n) || inb n used) InventoryError "requested logical site number is unavailable";
                       Ok (Some n)
           | None => Ok (first_free 1 254 used)
           end);
  match address, octet with
  | Some a, Some o => Ok (a, o, max_from (Z.of_nat (length HUBS) - 1) (map iv_wireguard_index rows) + 1,
                         max_from 100 (map iv_lan_dpid rows) + 1)
  | _, _ => raise InventoryError "the configured IPv4 branch allocation pool is exhausted"
  end.

Definition allocate (site device_id preferred standby actor : string) : M Db InventorySite :=
  let site := lower (strip site) in
  _ ← lift (check_request site device_id preferred standby);
  r ← transaction (
    by_device ← query (λ d, find (λ i, same_text (iv_device_id i) device_id) (inventory_rows d));
    _ ← lift (raise_if (match by_device with Some i => negb (same_text (iv_site i) site) | None => false end) InventoryError
                "device_id is already assigned");
    rows ← query inventory_rows;
    numbers ← lift (choose_numbers site rows);
    let '(address, octet, wireguard, dpid) := numbers in
    existing ← query (get_site_row site);
    match existing with
    | Some i =>
        _ ← lift (raise_if (negb (same_text (iv_device_id i) device_id)) InventoryError
                    "site name is already bound to another device_id");
        if negb (same_text (lifecycle i) "DELETED") then i ← get_or_fail site "existing site disappeared"; mret (Some i)
        else
          _ ← execute (λ d, set_inventory_rows d (update_rows (is_site site)
                (λ i, with_lifecycle i "ALLOCATING" "NOT_REQUESTED" None None 1 now None) (inventory_rows d)));
          _ ← execute (λ d, set_site_rows d (update_rows (λ r, same_text (sr_site r) site) (λ r,
                {| sr_site := sr_site r; sr_device := sr_device r; sr_lan := sr_lan r; sr_preferred := sr_preferred r;
                   sr_standby := sr_standby r; sr_status := "ALLOCATING"; sr_created := sr_created r; sr_updated := now |})
                (site_rows d)));
          _ ← event "SITE_REALLOCATED" site [("site", JStr site); ("device_id", JStr device_id)];
          i ← get_or_fail site "reallocated site disappeared"; mret (Some i)
    | None =>
        let record := allocated_record site device_id preferred standby address octet wireguard dpid in
        _ ← execute_checked inventory_rows set_inventory_rows (insert_row inventory_clash record);
        _ ← execute_checked site_rows set_site_rows (insert_row site_clash
              (site_row site device_id (iv_lan_prefix record) preferred standby "ALLOCATED"));
        _ ← audit now actor "CREATE_SITE" site "administrative-intent" "ok" None None;
        _ ← event "SITE_ALLOCATED" site [("site", JStr site); ("device_id", JStr device_id)];
        mret None
    end);
  match r with
  | Some i => mret i
  | None => get_or_fail site "allocated site disappeared"
  end.

Definition opt_json (o : option string) : json := match o with Some s => JStr s | None => JNull end.

Definition transition (site cycle actor : string) (error operation_id stage : option string) (rec : bool) : M Db InventorySite :=
  _ ← lift (raise_if (negb (dmem TRANSITIONS cycle)) InventoryError "unknown lifecycle state");
  r ← transaction (
    row ← query (get_site_row site);
    row ← lift (of_option row InventoryError "unknown site");
    let current := lifecycle row in
    if same_text current cycle then i ← get_or_fail site "site disappeared"; mret (Some i)
    else
      allowed ← lift (of_option (dget TRANSITIONS current) KeyError current);
      _ ← lift (raise_if (negb (inb cycle allowed)) InventoryError
                  ("invalid lifecycle transition " +:+ current +:+ " -> " +:+ cycle));
      _ ← execute (λ d, set_inventory_rows d (update_rows (is_site site)
            (λ i, with_lifecycle i cycle (runtime_status i) error stage (int_bool rec) now
                    (if same_text cycle "DELETED" then Some now else deleted_at i)) (inventory_rows d)));
      _ ← execute (λ d, set_site_rows d (update_rows (λ r, same_text (sr_site r) site) (λ r,
            {| sr_site := sr_site r; sr_device := sr_device r; sr_lan := sr_lan r; sr_preferred := sr_preferred r;
               sr_standby := sr_standby r; sr_status := cycle; sr_created := sr_created r; sr_updated := now |}) (site_rows d)));
      _ ← audit now actor "SITE_LIFECYCLE" site (current +:+ "->" +:+ cycle) "ok" None None;
      _ ← event "SITE_LIFECYCLE" site [("from", JStr current); ("to", JStr cycle); ("error", opt_json error);
            ("failure_stage", opt_json stage); ("recoverable", JBool rec); ("operation_id", opt_json operation_id)];
      mret None);
  match r with
  | Some i => mret i
  | None => get_or_fail site "site disappeared"
  end.

Definition set_runtime_status (site status actor : string) (error : option string) : M Db unit :=
  transaction (
    row ← query (get_site_row site);
    _ ← lift (raise_if (bool_decide (row = None)) InventoryError "unknown site");
    _ ← execute (λ d, set_inventory_rows d (update_rows (is_site site)
          (λ i, with_lifecycle i (lifecycle i) status error (failure_stage i) (recoverable i) now (deleted_at i)) (inventory_rows d)));
    audit now actor "SITE_RUNTIME" site status "ok" None None).

(** INSERT OR IGNORE, with CHECK(operation_type IN ('CREATE','DELETE')). *)
Definition create_operation (id site operation_type : string) : M Db unit :=
  transaction (execute (λ d,
    if existsb (λ o, same_text (op_id o) id) (operation_rows d) || negb (inb operation_type ["CREATE"; "DELETE"]) then d
    else set_operation_rows d (operation_rows d ++
      [{| op_id := id; op_site := site; op_type := operation_type; op_state := "RUNNING"; op_failure_stage := None;
          op_failure_reason := None; op_recoverable := true; op_created := now; op_updated := now; op_completed := None |}]))).

Definition update_operation (id state : string) (stage why : option string) (rec : bool) : M Db unit :=
  transaction (execute (λ d, set_operation_rows d (update_rows (λ o, same_text (op_id o) id) (λ o,
    {| op_id := op_id o; op_site := op_site o; op_type := op_type o; op_state := state; op_failure_stage := stage;
       op_failure_reason := why; op_recoverable := rec; op_created := op_created o; op_updated := now;
       op_completed := if inb state ["SUCCEEDED"; "FAILED"] then Some now else op_completed o |}) (operation_rows d)))).

Definition operation (id : string) (d : Db) : option OperationRow := find (λ o, same_text (op_id o) id) (operation_rows d).

Definition put_network_state (key : string) (value : dict string json) (source : string) : M Db bool :=
  _ ← lift (raise_if (negb (nonempty key) || (128 <? Z.of_nat (String.length key))) InventoryError "network-state key is invalid");
  let row := {| ip_key := key; ip_value := value; ip_digest := sha256 value; ip_source := source; ip_updated := now |} in
  let mine := λ r, same_text (ip_key r) key in
  transaction (
    current ← query (λ d, find mine (input_rows d));
    match current with
    | Some r =>
        if same_text (ip_digest r) (sha256 value) then mret false
        else
          _ ← execute (λ d, set_input_rows d (update_rows mine (λ _, row) (input_rows d)));
          _ ← event "NETWORK_STATE" key [("source", JStr source); ("digest", JStr (sha256 value))];
          mret true
    | None =>
        _ ← execute (λ d, set_input_rows d (input_rows d ++ [row]));
        _ ← event "NETWORK_STATE" key [("source", JStr source); ("digest", JStr (sha256 value))];
        mret true
    end).

(** PRIMARY KEY intent_id, UNIQUE digest *)
Definition intent_clash (a b : IntentRow) : bool := same_text (in_id a) (in_id b) || same_text (in_digest a) (in_digest b).

Definition upsert_intent (id intent_type target : string) (contents : dict string json) (actor : string) : M Db bool :=
  _ ← lift (raise_if (negb (inb intent_type ["destination_policy"; "site_policy"; "routing_preference"])) InventoryError
              "intent type is not supported");
  _ ← lift (raise_if (existsb (λ k, inb k ["command"; "shell"; "docker"; "iptables"; "ip_route"; "exec"]) (dkeys contents))
              InventoryError "administrative intent cannot contain raw host commands");
  let document := [("intent_type", JStr intent_type); ("target", JStr target); ("contents", JObj contents)] in
  let dig := sha256 document in
  let mine := λ r, same_text (in_id r) id in
  transaction (
    current ← query (λ d, find mine (intent_rows d));
    if match current with Some r => same_text (in_digest r) dig | None => false end then mret false
    else
      _ ← match current with
          | Some _ => execute_checked intent_rows set_intent_rows (update_checked intent_clash mine (λ r,
              {| in_id := in_id r; in_type := intent_type; in_target := target; in_contents := contents; in_digest := dig;
                 in_status := "ACTIVE"; in_created_by := actor; in_created := in_created r; in_updated := now |}) [])
          | None => execute_checked intent_rows set_intent_rows (insert_row intent_clash
              {| in_id := id; in_type := intent_type; in_target := target; in_contents := contents; in_digest := dig;
                 in_status := "ACTIVE"; in_created_by := actor; in_created := now; in_updated := now |})
          end;
      _ ← audit now actor "UPSERT_INTENT" id intent_type "ok" None None;
      _ ← event "ADMINISTRATIVE_INTENT" id document;
      mret true).

Definition active_intent (id : string) (r : IntentRow) : bool := same_text (in_id r) id && same_text (in_status r) "ACTIVE".

Definition delete_intent (id actor : string) : M Db bool :=
  transaction (
    changed ← query (λ d, existsb (active_intent id) (intent_rows d));
    _ ← execute (λ d, set_intent_rows d (update_rows (active_intent id) (λ r,
          {| in_id := in_id r; in_type := in_type r; in_target := in_target r; in_contents := in_contents r;
             in_digest := in_digest r; in_status := "DELETED"; in_created_by := in_created_by r; in_created := in_created r;
             in_updated := now |}) (intent_rows d)));
    _ ← (if changed : bool then
           _ ← audit now actor "DELETE_INTENT" id "administrative-intent" "ok" None None;
           event "ADMINISTRATIVE_INTENT_DELETED" id [("intent_id", JStr id)]
         else mret tt);
    mret changed).

Definition intents (d : Db) : list IntentRow :=
  sort_by (λ a b, String.leb (in_id a) (in_id b)) (List.filter (λ r, same_text (in_status r) "ACTIVE") (intent_rows d)).

Definition network_state (d : Db) : list InputRow := sort_by (λ a b, String.leb (ip_key a) (ip_key b)) (input_rows d).
End inventory.
