(* ===== verification/InventoryFacts.v ===== *)
(** * What the dynamic inventory guarantees

    Allocation gives a new site numbers and addresses no other site has, and the
    lifecycle has no dead end. *)
From Stdlib Require Import Ascii.
From S2P Require Import Prelude Net Marks PathSelection Model ModelValidate Json DesiredState Inventory Sql PolicyStore.
From S2P Require Import DynamicInventory.
Local Open Scope string_scope.
Local Open Scope list_scope.
Local Open Scope Z_scope.

#[local] Ltac run_db :=
  cbv [transaction query execute execute_checked audit event get_or_fail mbind M_bind mret M_ret get put lift raise_if of_option raise];
  cbn beta iota zeta.

#[export] Instance inventory_clash_sym : Symmetrical inventory_clash.
Proof.
  intros a b. unfold inventory_clash, same_text.
  rewrite (eqb_swap iv_site a b), (eqb_swap iv_device_id a b), (zeqb_swap iv_address_id a b), (zeqb_swap iv_wireguard_index a b),
    (eqb_swap iv_management_ip a b), (eqb_swap iv_lan_prefix a b), (eqb_swap iv_lan_gateway a b), (eqb_swap iv_lan_switch a b),
    (zeqb_swap iv_lan_dpid a b), (eqb_swap iv_host_name a b), (eqb_swap iv_host_ip a b), (eqb_swap iv_interface_suffix a b).
  by rewrite (eqb_swap iv_edge_node a b).
Qed.

(** ** The numbers of a new site *)

Lemma range_elem lo hi v : v ∈ range lo hi ↔ lo <= v < hi.
Proof. unfold range. rewrite elem_of_seqZ. lia. Qed.

Lemma first_free_some lo hi used v : first_free lo hi used = Some v → lo <= v < hi ∧ v ∉ used.
Proof. intros [Hv Hn]%find_elem. apply range_elem in Hv. split; [done|]. by apply negb_true_iff, inb_false in Hn. Qed.

Lemma first_free_none lo hi used v : first_free lo hi used = None → lo <= v < hi → v ∈ used.
Proof.
  intros Hf Hv. pose proof (find_none _ _ Hf v) as Hn. rewrite <- list_elem_of_In, range_elem in Hn.
  apply inb_true. specialize (Hn Hv). by apply negb_false_iff in Hn.
Qed.

Lemma max_from_bound m l : m <= max_from m l ∧ ∀ v, v ∈ l → v <= max_from m l.
Proof.
  unfold max_from. revert m. induction l as [|x l IH]; intros m; simpl; [split; [lia|by intros ? ?%elem_of_nil]|].
  destruct (IH (Z.max m x)) as [H1 H2]. split; [lia|]. intros v [->|Hv]%elem_of_cons; [lia|by apply H2].
Qed.

Lemma numbered_positive pre s n : numbered pre s = Some n → 1 <= n.
Proof.
  unfold numbered. destruct (String.prefix pre s); [|done]. destruct (String.substring _ _ s) as [|a r]; [done|].
  destruct (between_chars "1" "9" a) eqn:E; [|done]. unfold parse_digits. simpl.
  unfold between_chars in E. apply andb_true_iff in E as [E1%N.leb_le E2%N.leb_le].
  change (N_of_ascii "1") with 49%N in E1. change (N_of_ascii "9") with 57%N in E2.
  assert (digit_of a = Some (Z.of_N (N_of_ascii a) - 48)) as ->.
  { unfold digit_of. rewrite (proj2 (Z.leb_le _ _)), (proj2 (Z.leb_le _ _)) by lia. done. }
  assert (Hgo : ∀ s acc, 1 <= acc → ∀ n, digits_go s acc = Some n → 1 <= n).
  { induction s0 as [|b s0 IH]; intros acc Hacc m; simpl; [intros [= <-]; done|].
    destruct (digit_of b) as [d|] eqn:Ed; [|done]. apply IH. unfold digit_of in Ed.
    destruct ((48 <=? _) && _) eqn:Eb in Ed; [|done]. injection Ed as <-. lia. }
  apply Hgo. lia.
Qed.

Lemma choose_numbers_ok site rows a o w p : choose_numbers site rows = Ok (a, o, w, p) →
  11 <= a < 254 ∧ 1 <= o < 254 ∧ 2 <= w ∧ (∀ n, numbered "site" site = Some n → o = n) ∧
  ∀ i, i ∈ rows → iv_address_id i ≠ a ∧ iv_wireguard_index i < w ∧ iv_lan_dpid i < p ∧
    ∃ o', lan_octet_of i = Ok o' ∧ o' ≠ o.
Proof.
  unfold choose_numbers. intros (used & Hu & (oc & Ho & Hr)%bind_Ok)%bind_Ok.
  destruct (first_free 11 254 _) as [a'|] eqn:Ha; [|by destruct oc]. destruct oc as [o'|]; [|done].
  injection Hr as <- <- <- <-. apply first_free_some in Ha as [Ha1 Ha2].
  assert (Hoct : 1 <= o' < 254 ∧ (o' ∉ used) ∧ ∀ n, numbered "site" site = Some n → o' = n).
  { destruct (numbered "site" site) as [n|] eqn:Hn.
    - apply bind_unit_ok in Ho as [Hb [= ->]]. unfold raise_if in Hb. destruct (_ || _) eqn:E in Hb; [done|].
      apply orb_false_iff in E as [E1%Z.leb_gt E2%inb_false]. pose proof (numbered_positive _ _ _ Hn).
      split_and!; [lia|lia|done|congruence].
    - injection Ho as Ho. apply first_free_some in Ho as [? ?]. split_and!; [lia|lia|done|done]. }
  destruct Hoct as (Ho1 & Ho2 & Ho3). split_and!; [lia|lia|lia|lia| |done|].
  { pose proof (proj1 (max_from_bound (Z.of_nat (length HUBS) - 1) (map iv_wireguard_index rows))) as Hm. cbn in Hm |- *. lia. }
  intros i Hi. split_and!.
  - intros E. apply Ha2, elem_of_map. by exists i.
  - refine (proj2 (Z.lt_succ_r _ _) _). apply max_from_bound, elem_of_map. by exists i.
  - refine (proj2 (Z.lt_succ_r _ _) _). apply max_from_bound, elem_of_map. by exists i.
  - destruct (mapM_result_elem _ _ _ i Hu Hi) as (x & Hx & Hin). exists x. split; [done|]. by intros ->.
Qed.

(** ** Allocation *)

Definition reallocated (now : string) (i : InventorySite) : InventorySite :=
  with_lifecycle i "ALLOCATING" "NOT_REQUESTED" None None 1 now None.

Lemma find_app_last {A} (p : A → bool) l x : find p l = None → p x = true → find p (l ++ [x]) = Some x.
Proof. induction l as [|y l IH]; simpl; [by intros _ ->|]. by destruct (p y). Qed.

Lemma get_updated s f d old X : inventory_rows X = update_rows (is_site s) f (inventory_rows d) → get_site_row s d = Some old →
  (∀ y, iv_site (f y) = iv_site y) → get_site_row s X = Some (f old).
Proof.
  intros E Hold Hf. unfold get_site_row in *. rewrite E. apply find_update_hit; [done|]. intros y. unfold is_site. by rewrite Hf.
Qed.

Lemma get_added s x d X : inventory_rows X = inventory_rows d ++ [x] → get_site_row s d = None → is_site s x = true →
  get_site_row s X = Some x.
Proof. intros E Hn Hx. unfold get_site_row in *. rewrite E. by apply find_app_last. Qed.

Lemma allocate_cases now site device preferred standby actor d res d' :
  allocate now site device preferred standby actor d = (res, d') →
  let site := lower (strip site) in
  match res with
  | Err _ => d' = d
  | Ok i => check_request site device preferred standby = Ok tt ∧
      (∀ j, find (λ i, same_text (iv_device_id i) device) (inventory_rows d) = Some j → iv_site j = site) ∧
      match get_site_row site d with
      | Some old => iv_device_id old = device ∧
          (if same_text (lifecycle old) "DELETED"
           then i = reallocated now old ∧ inventory_rows d' = update_rows (is_site site) (reallocated now) (inventory_rows d)
           else i = old ∧ d' = d)
      | None => ∃ a o w p, choose_numbers site (inventory_rows d) = Ok (a, o, w, p) ∧
          i = allocated_record now site device preferred standby a o w p ∧
          insert_row inventory_clash i (inventory_rows d) = Ok (inventory_rows d') ∧ inventory_rows d' = inventory_rows d ++ [i]
      end
  end.
Proof.
  cbv zeta. set (s := lower (strip site)). unfold allocate. fold s.
  destruct (check_request s device preferred standby) as [[]|e] eqn:Hreq; [|by run_db; intros [= <- <-]]. run_db.
  destruct (match find _ _ with Some i => negb (same_text (iv_site i) s) | None => false end) eqn:Hdev; [by intros [= <- <-]|].
  assert (Hdev' : ∀ j, find (λ i, same_text (iv_device_id i) device) (inventory_rows d) = Some j → iv_site j = s).
  { intros j Hj. rewrite Hj in Hdev. by apply negb_false_iff, String.eqb_eq in Hdev. }
  destruct (choose_numbers s (inventory_rows d)) as [[[[a o] w] p]|e] eqn:Hnum; [|by intros [= <- <-]].
  destruct (get_site_row s d) as [old|] eqn:Hold.
  - change (same_text (iv_device_id old) device) with (String.eqb (iv_device_id old) device).
    destruct (String.eqb_spec (iv_device_id old) device) as [Hd|Hd]; cbn beta iota zeta delta [negb]; [|by intros [= <- <-]].
    destruct (same_text (lifecycle old) "DELETED") eqn:Hdel; cbn beta iota zeta delta [negb].
    + erewrite get_updated; [|reflexivity|exact Hold|done]. cbn. by intros [= <- <-].
    + rewrite Hold. by intros [= <- <-].
  - destruct (insert_row inventory_clash _ (inventory_rows d)) as [rows|e] eqn:Hins; [|by intros [= <- <-]].
    destruct (insert_row site_clash _ _) as [srows|e]; cbn beta iota zeta; [|by intros [= <- <-]].
    pose proof (insert_row_ok _ _ _ _ Hins) as [Hrows _].
    erewrite get_added; [|cbn; exact Hrows|exact Hold|unfold is_site, same_text; apply String.eqb_refl].
    intros [= <- <-]. split_and!; try done. by exists a, o, w, p.
Qed.

(** ** LAN texts and networks *)

Lemma text_app_assoc (s t u : string) : (s +:+ t) +:+ u = s +:+ (t +:+ u).
Proof. induction s as [|a s IH]; [done|]. exact (f_equal (String a) IH). Qed.

Lemma text_app_nil (s : string) : s +:+ "" = s.
Proof. induction s as [|a s IH]; [done|]. exact (f_equal (String a) IH). Qed.

Lemma split_on_two c s x y l : split_on c s = x :: y :: l →
  ∃ t, s = x +:+ String c EmptyString +:+ t ∧ split_on c t = y :: l ∧ has_char c x = false.
Proof.
  revert x. induction s as [|a s IH]; intros x; simpl; [done|]. destruct (Ascii.eqb_spec a c) as [->|Hne].
  - intros [= <- E]. by exists s.
  - destruct (split_on c s) as [|w ws] eqn:E; [done|]. intros [= <- ->].
    destruct (IH w eq_refl) as (t & -> & Ht & Hw). exists t. split_and!; [done|done|]. simpl.
    by rewrite (proj2 (Ascii.eqb_neq _ _) Hne).
Qed.

Lemma split_on_one c s x : split_on c s = [x] → s = x.
Proof.
  revert x. induction s as [|a s IH]; intros x; simpl; [by intros [= <-]|]. destruct (Ascii.eqb a c).
  - intros [= <- E]. by destruct s; simpl in E; [|destruct (Ascii.eqb _ _); [|destruct (split_on c s)]].
  - destruct (split_on c s) as [|w ws] eqn:E; [by destruct s; simpl in E; [|destruct (Ascii.eqb _ _); [|destruct (split_on c s)]]|].
    intros [= <- ->]. by rewrite (IH w eq_refl).
Qed.

Fixpoint all_digits (s : string) : bool :=
  match s with EmptyString => true | String a s' => match digit_of a with Some _ => all_digits s' | None => false end end.

Lemma digits_go_all s acc v : digits_go s acc = Some v → all_digits s = true ∧ ∀ b, s ≠ EmptyString ∨ b = true → digits_us s acc b = Some v.
Proof.
  revert acc. induction s as [|a s IH]; intros acc; simpl.
  - intros [= ->]. split; [done|]. intros b [?| ->]; done.
  - destruct (digit_of a) as [d|]; [|done]. intros [Hs Hu]%IH. split; [done|]. intros b _. apply Hu. by right.
Qed.

Lemma digit_not_space a d : digit_of a = Some d → is_space a = false.
Proof.
  unfold digit_of, is_space. destruct ((48 <=? _) && _) eqn:E; [|done]. apply andb_true_iff in E as [E1%Z.leb_le E2%Z.leb_le].
  intros _. rewrite !orb_false_iff, !andb_false_iff, !N.leb_gt. split; right; lia.
Qed.

Lemma rev_string_app s acc : rev_string s acc = rev_string s EmptyString +:+ acc.
Proof.
  revert acc. induction s as [|a s IH]; intros acc; simpl; [done|].
  rewrite IH, (IH (String a EmptyString)). by rewrite text_app_assoc.
Qed.

Lemma rev_string_rev s : rev_string (rev_string s EmptyString) EmptyString = s.
Proof.
  assert (H : ∀ s acc, rev_string (rev_string s acc) EmptyString = rev_string acc EmptyString +:+ s).
  { induction s0 as [|a s0 IH]; intros acc; simpl; [by rewrite text_app_nil|].
    rewrite IH. simpl. rewrite (rev_string_app acc (String a EmptyString)). by rewrite text_app_assoc. }
  apply (H s EmptyString).
Qed.

Lemma lstrip_digits s : all_digits s = true → lstrip s = s.
Proof. destruct s as [|a s]; simpl; [done|]. destruct (digit_of a) eqn:E; [|done]. by rewrite (digit_not_space _ _ E). Qed.

Lemma all_digits_app s t : all_digits (s +:+ t) = all_digits s && all_digits t.
Proof. induction s as [|a s IH]; simpl; [done|]. by destruct (digit_of a). Qed.

Lemma all_digits_rev s : all_digits (rev_string s EmptyString) = all_digits s.
Proof.
  induction s as [|a s IH]; simpl; [done|]. rewrite rev_string_app, all_digits_app, IH. simpl.
  destruct (digit_of a); by rewrite ?andb_true_r, ?andb_false_r.
Qed.

(** [int(text)] of a run of digits. *)
Lemma parse_int_digits s v : parse_digits s = Some v → parse_int s = Some v.
Proof.
  unfold parse_digits. destruct s as [|a s]; [done|]. set (t := String a s). intros Hg.
  destruct (digits_go_all _ _ _ Hg) as [Hd Hu]. unfold parse_int, strip. rewrite (lstrip_digits t Hd).
  rewrite lstrip_digits by (by rewrite all_digits_rev). rewrite rev_string_rev. unfold signed, t.
  assert (a ≠ "-"%char ∧ a ≠ "+"%char) as [H1 H2].
  { unfold t in Hd. simpl in Hd. by destruct (digit_of a) eqn:E; [split; intros ->|]. }
  destruct a as [[] [] [] [] [] [] [] []]; try done; apply Hu; by left.
Qed.

Lemma parse_octet_digits s v : parse_octet s = Some v → parse_digits s = Some v ∧ 0 <= v <= 255.
Proof.
  unfold parse_octet. destruct (parse_digits s) as [n|] eqn:E; [|done]. destruct (_ <? _)%nat; [done|].
  destruct (negb _ && _); [done|]. destruct (Z.ltb_spec 255 n); [done|]. intros [= <-]. split; [done|].
  split; [|done]. unfold parse_digits in E. destruct s as [|a s]; [done|].
  assert (Hgo : ∀ s acc n, 0 <= acc → digits_go s acc = Some n → 0 <= n).
  { induction s0 as [|b s0 IH]; intros acc m Hacc; simpl; [by intros [= <-]|].
    destruct (digit_of b) as [x|] eqn:Ex; [|done]. apply IH. unfold digit_of in Ex.
    destruct ((48 <=? _) && _) eqn:Eb in Ex; [|done]. injection Ex as <-. lia. }
  by eapply (Hgo (String a s) 0).
Qed.

(** The second octet of a LAN is the one the allocator reads off its text. *)
Lemma lan_second_octet i n : ip_network (iv_lan_prefix i) = Ok n →
  lan_octet_of i = Ok ((net_addr n / 65536) mod 256).
Proof.
  intros Hn. assert (∃ a rest, parse_addr a = Some (net_addr n) ∧ (iv_lan_prefix i = a ∨ iv_lan_prefix i = a +:+ "/" +:+ rest))
    as (a & rest & Ha & Hi).
  { unfold ip_network in Hn. destruct (split_on "/"%char (iv_lan_prefix i)) as [|a [|p [|]]] eqn:E; try done.
    - apply split_on_one in E. destruct (parse_addr a) eqn:Ea; [|done]. injection Hn as <-. exists a, "". split; [done|by left].
    - apply split_on_two in E as (t & E & Et & _). apply split_on_one in Et as ->.
      destruct (parse_addr a) eqn:Ea; [|done]. destruct (parse_prefixlen p); [|done].
      destruct (_ =? _) in Hn; [|done]. injection Hn as <-. exists a, p. split; [done|by right]. }
  unfold parse_addr in Ha. destruct (split_on "."%char a) as [|w [|x [|y [|z [|]]]]] eqn:E; try done.
  apply split_on_two in E as (t & -> & Et & Hw). apply split_on_two in Et as (u & -> & _ & Hx).
  destruct (parse_octet w) as [ow|] eqn:Ew; [|done]. destruct (parse_octet x) as [ox|] eqn:Ex; [|done].
  destruct (parse_octet y) as [oy|] eqn:Ey; [|done]. destruct (parse_octet z) as [oz|] eqn:Ez; [|done]. injection Ha as Ha.
  apply parse_octet_digits in Ew as [_ Hw']. apply parse_octet_digits in Ex as [Ex Hx'].
  apply parse_octet_digits in Ey as [_ Hy']. apply parse_octet_digits in Ez as [_ Hz'].
  assert (∃ v, iv_lan_prefix i = w +:+ "." +:+ x +:+ "." +:+ v) as [v Hv].
  { destruct Hi as [->| ->]; [by exists u|]. exists (u +:+ "/" +:+ rest). by rewrite !text_app_assoc. }
  unfold lan_octet_of. rewrite Hv, !split_on_app by done. cbn. unfold of_option. rewrite (parse_int_digits x ox Ex). f_equal.
  rewrite <- Ha. assert ((((ow * 256 + ox) * 256 + oy) * 256 + oz) / 65536 = ow * 256 + ox) as ->.
  { symmetry. apply (Z.div_unique _ _ _ (oy * 256 + oz)); lia. }
  rewrite Z.add_comm, Z.mod_add by lia. by rewrite Z.mod_small by lia.
Qed.

(** ** A new site *)

Definition octet_lan (o : Z) : network := Network (10 * 2 ^ 24 + o * 65536) 24.

Lemma octet_texts o : 1 <= o < 254 →
  ip_network ("10." +:+ str_Z o +:+ ".0.0/24") = Ok (octet_lan o) ∧
  ip_address ("10." +:+ str_Z o +:+ ".0.1") = Ok (net_addr (octet_lan o) + 1) ∧
  ip_address ("10." +:+ str_Z o +:+ ".0.10") = Ok (net_addr (octet_lan o) + 10).
Proof.
  intros Ho%range_elem.
  assert (forallb (λ o, bool_decide (ip_network ("10." +:+ str_Z o +:+ ".0.0/24") = Ok (octet_lan o) ∧
    ip_address ("10." +:+ str_Z o +:+ ".0.1") = Ok (net_addr (octet_lan o) + 1) ∧
    ip_address ("10." +:+ str_Z o +:+ ".0.10") = Ok (net_addr (octet_lan o) + 10))) (range 1 254) = true) as H
    by (vm_compute; reflexivity).
  rewrite forallb_forall in H. apply list_elem_of_In in Ho. specialize (H o Ho). by apply bool_decide_eq_true in H.
Qed.

Lemma management_text a : 11 <= a < 254 → ip_address ("172.30.0." +:+ str_Z a) = Ok (172 * 2 ^ 24 + 30 * 65536 + a).
Proof.
  intros Ha%range_elem.
  assert (forallb (λ a, bool_decide (ip_address ("172.30.0." +:+ str_Z a) = Ok (172 * 2 ^ 24 + 30 * 65536 + a))) (range 11 254) = true)
    as H by (vm_compute; reflexivity).
  rewrite forallb_forall in H. apply list_elem_of_In in Ha. specialize (H a Ha). by apply bool_decide_eq_true in H.
Qed.

Lemma octet_lan_site o : 1 <= o < 254 →
  in_network (net_addr (octet_lan o) + 1) (octet_lan o) = true ∧ in_network (net_addr (octet_lan o) + 10) (octet_lan o) = true ∧
  is_edge_address (net_addr (octet_lan o) + 10) (octet_lan o) = false.
Proof.
  intros Ho%range_elem.
  assert (forallb (λ o, in_network (net_addr (octet_lan o) + 1) (octet_lan o) &&
    in_network (net_addr (octet_lan o) + 10) (octet_lan o) && negb (is_edge_address (net_addr (octet_lan o) + 10) (octet_lan o)))
    (range 1 254) = true) as H by (vm_compute; reflexivity).
  rewrite forallb_forall in H. apply list_elem_of_In in Ho. specialize (H o Ho).
  apply andb_true_iff in H as [[H1 H2]%andb_true_iff H3%negb_true_iff]. done.
Qed.

(** A network of sixteen bits or more whose second octet is another shares no
    address with the LAN. *)
Lemma octet_lan_apart o n a : 1 <= o < 254 → 16 <= prefixlen n <= 32 → 0 <= net_addr n <= all_ones →
  (net_addr n / 65536) mod 256 ≠ o → 0 <= a <= all_ones → in_network a n = true → in_network a (octet_lan o) = true → False.
Proof.
  intros Ho Hp Hn Hne Ha Hin Hlan. unfold in_network, netmask, hostbits in Hin, Hlan. apply Z.eqb_eq in Hin, Hlan.
  rewrite ones_shift_land in Hin, Hlan by (cbn; lia). cbn [octet_lan net_addr prefixlen] in Hlan.
  assert (Hlow : ∀ p, 16 <= p <= 32 → (a - a mod 2 ^ (32 - p)) / 65536 = a / 65536).
  { intros p Hpp. assert (65536 = 2 ^ (32 - p) * 2 ^ (p - 16)) as E
      by (change 65536 with (2 ^ 16); rewrite <- Z.pow_add_r by lia; f_equal; lia).
    rewrite E. assert (0 < 2 ^ (32 - p)) by lia. assert (0 < 2 ^ (p - 16)) by lia.
    rewrite <- !Z.div_div by lia. f_equal. pose proof (Z.div_mod a (2 ^ (32 - p)) ltac:(lia)) as Hd.
    replace (a - a mod 2 ^ (32 - p)) with (a / 2 ^ (32 - p) * 2 ^ (32 - p)) by lia. by rewrite Z.div_mul by lia. }
  pose proof (Hlow 24 ltac:(lia)) as E1. rewrite Hlan in E1. pose proof (Hlow (prefixlen n) Hp) as E2. rewrite Hin in E2.
  apply Hne. rewrite E2, <- E1. rewrite Z.div_add by lia.
  assert (10 * 2 ^ 24 / 65536 = 10 * 256) as -> by reflexivity.
  rewrite Z.add_comm, Z.mod_add by lia. by rewrite Z.mod_small by lia.
Qed.



(** A site named by its number is looked up among the octets in use before its
    own row is considered: repeating the request, or asking for a deleted site
    again, is refused, while other names are idempotent. *)
Definition allocated (site : string) (d : Db) : result InventorySite * Db := allocate "t2" site "dev-1" "hub1" "hub2" "admin" d.

Lemma numbered_site_not_idempotent :
  let first := allocated "site1" empty_db in let other := allocated "branch-a" empty_db in
  is_ok first.1 = true ∧ (allocated "site1" first.2).1 = raise InventoryError "requested logical site number is unavailable" ∧
  is_ok other.1 = true ∧ allocated "branch-a" other.2 = other.
Proof. vm_compute. by split_and!. Qed.

(** ** The lifecycle *)

Definition moved (now cycle : string) (error stage : option string) (rec : bool) (i : InventorySite) : InventorySite :=
  with_lifecycle i cycle (runtime_status i) error stage (int_bool rec) now
    (if same_text cycle "DELETED" then Some now else deleted_at i).

(** A transition fails and leaves the database, or follows the table. *)
Lemma transition_cases now site cycle actor error op stage rec d res d' :
  transition now site cycle actor error op stage rec d = (res, d') →
  match res with
  | Err _ => d' = d
  | Ok i => ∃ old, get_site_row site d = Some old ∧ dmem TRANSITIONS cycle = true ∧
      if same_text (lifecycle old) cycle then i = old ∧ d' = d
      else (∃ allowed, dget TRANSITIONS (lifecycle old) = Some allowed ∧ inb cycle allowed = true) ∧
           i = moved now cycle error stage rec old ∧
           inventory_rows d' = update_rows (is_site site) (moved now cycle error stage rec) (inventory_rows d)
  end.
Proof.
  unfold transition. run_db. destruct (dmem TRANSITIONS cycle) eqn:Hm; cbn beta iota zeta delta [negb]; [|by intros [= <- <-]].
  destruct (get_site_row site d) as [old|] eqn:Hold; cbn beta iota zeta; [|by intros [= <- <-]].
  destruct (same_text (lifecycle old) cycle) eqn:Hsame.
  { rewrite Hold. intros [= <- <-]. exists old. by rewrite Hsame. }
  destruct (dget TRANSITIONS (lifecycle old)) as [allowed|] eqn:Hall; [|by intros [= <- <-]].
  destruct (inb cycle allowed) eqn:Hin; cbn beta iota zeta delta [negb]; [|by intros [= <- <-]].
  erewrite (get_updated site (moved now cycle error stage rec)); [|reflexivity|exact Hold|done].
  intros [= <- <-]. exists old. rewrite Hsame. split_and!; try done. by exists allowed.
Qed.

Lemma transition_runs now site cycle actor error op stage rec d old allowed :
  get_site_row site d = Some old → dget TRANSITIONS (lifecycle old) = Some allowed → inb cycle allowed = true →
  dmem TRANSITIONS cycle = true →
  ∃ i d', transition now site cycle actor error op stage rec d = (Ok i, d') ∧ get_site_row site d' = Some i ∧
    lifecycle i = cycle ∧ ∀ other, other ≠ site → get_site_row other d' = get_site_row other d.
Proof.
  intros Hold Hall Hin Hm. destruct (transition now site cycle actor error op stage rec d) as [[i|e] d'] eqn:E.
  - exists i, d'. split; [done|]. apply transition_cases in E as (old' & Hold' & _ & E). rewrite Hold in Hold'. injection Hold' as <-.
    destruct (same_text (lifecycle old) cycle) eqn:Hs.
    + destruct E as [-> ->]. apply String.eqb_eq in Hs. done.
    + destruct E as (_ & -> & Hrows). split; [by eapply get_updated|]. split; [done|]. intros other Hne.
      unfold get_site_row. rewrite Hrows. apply find_update_other. intros y Ey%String.eqb_eq.
      unfold is_site, same_text. cbn. rewrite Ey. split; by apply String.eqb_neq, not_eq_sym.
  - exfalso. revert E. unfold transition. run_db. rewrite Hm. cbn beta iota zeta delta [negb]. rewrite Hold. cbn beta iota zeta.
    destruct (same_text (lifecycle old) cycle); [by rewrite Hold|]. rewrite Hall, Hin. cbn beta iota zeta delta [negb].
    by erewrite (get_updated site (moved now cycle error stage rec)); [|reflexivity|exact Hold|done].
Qed.

(** The states of the lifecycle, each followed by one it may move to. *)
Definition life_cycle : list string :=
  ["ALLOCATING"; "TOPOLOGY_CREATED"; "ZTP_STAGED"; "ENROLLING"; "ENROLLED"; "REGISTERING"; "PROVISIONING"; "PENDING_HUBS";
   "RECONCILING"; "ACTIVE"; "FAILED"; "DELETING"; "DELETED"].

Definition onward (s : string) : string :=
  match index_of s life_cycle with
  | Ok n => default "ALLOCATING" (life_cycle !! S (Z.to_nat n))
  | Err _ => if String.eqb s "ALLOCATED" then "TOPOLOGY_CREATED" else if String.eqb s "REQUESTED" then "ALLOCATING" else "DELETED"
  end.

Fixpoint walk (fuel : nat) (s target : string) : list string :=
  match fuel with
  | O => []
  | S f => if String.eqb s target then [] else onward s :: walk f (onward s) target
  end.

Fixpoint follows (s : string) (path : list string) : bool :=
  match path with
  | [] => true
  | c :: path' => match dget TRANSITIONS s with
                  | Some allowed => inb c allowed && dmem TRANSITIONS c && follows c path'
                  | None => false
                  end
  end.

Lemma walk_follows s target : s ∈ dkeys TRANSITIONS → target ∈ life_cycle →
  follows s (walk 14 s target) = true ∧ List.last (walk 14 s target) s = target ∧ (length (walk 14 s target) ≤ 13)%nat.
Proof.
  intros Hs Ht.
  assert (forallb (λ s, forallb (λ t, follows s (walk 14 s t) && String.eqb (List.last (walk 14 s t) s) t
    && Nat.leb (length (walk 14 s t)) 13) life_cycle) (dkeys TRANSITIONS) = true) as H by (vm_compute; reflexivity).
  rewrite forallb_forall in H. apply list_elem_of_In in Hs, Ht. specialize (H s Hs). rewrite forallb_forall in H. specialize (H target Ht).
  by apply andb_true_iff in H as [[H1 H2%String.eqb_eq]%andb_true_iff H3%Nat.leb_le].
Qed.

Lemma last_default {A} (x : A) l a b : List.last (x :: l) a = List.last (x :: l) b.
Proof. revert x. induction l as [|y l IH]; intros x; [done|]. exact (IH y). Qed.

(** A caller that moves a site along a path. *)
Definition drive (now site actor : string) (path : list string) : M Db unit :=
  forM (λ c, _ ← transition now site c actor None None None true; mret tt) path.

Lemma drive_runs now site actor path : ∀ d old, get_site_row site d = Some old → follows (lifecycle old) path = true →
  ∃ d', drive now site actor path d = (Ok tt, d') ∧
    lifecycle <$> get_site_row site d' = Some (List.last path (lifecycle old)) ∧
    ∀ other, other ≠ site → get_site_row other d' = get_site_row other d.
Proof.
  induction path as [|c path IH]; intros d old Hold Hf.
  - exists d. rewrite Hold. done.
  - cbn [follows] in Hf. destruct (dget TRANSITIONS (lifecycle old)) as [allowed|] eqn:Hall; [|done].
    apply andb_true_iff in Hf as [[Hin Hm]%andb_true_iff Hf].
    destruct (transition_runs now site c actor None None None true d old allowed Hold Hall Hin Hm) as (i & d1 & E & Hi & Hc & Ho).
    rewrite <- Hc in Hf. destruct (IH d1 i Hi Hf) as (d2 & E2 & H2 & O2). exists d2. split_and!.
    + unfold drive. simpl. unfold mbind at 1, M_bind at 1. unfold mbind at 1, M_bind at 1. rewrite E. exact E2.
    + rewrite H2, Hc. f_equal. destruct path as [|x path]; [done|]. exact (last_default x path c (lifecycle old)).
    + intros other Hne. by rewrite O2, Ho.
Qed.

(** No lifecycle state is a dead end. Whatever state of the table a site is
    in, it can be taken to any state of its life (allocation, staging,
    enrolment, activation, failure, deletion, deleted) by at most thirteen
    transitions, each accepted by the code, and no other site changes. *)
Theorem lifecycle_progress now site actor d old target :
  get_site_row site d = Some old → lifecycle old ∈ dkeys TRANSITIONS → target ∈ life_cycle →
  ∃ path d', (length path ≤ 13)%nat ∧ drive now site actor path d = (Ok tt, d') ∧
    lifecycle <$> get_site_row site d' = Some target ∧
    ∀ other, other ≠ site → get_site_row other d' = get_site_row other d.
Proof.
  intros Hold Hk Ht. destruct (walk_follows _ _ Hk Ht) as (Hf & Hl & Hlen).
  destruct (drive_runs now site actor _ d old Hold Hf) as (d' & E & H1 & H2). exists (walk 14 (lifecycle old) target), d'.
  split_and!; try done. by rewrite H1, Hl.
Qed.

Lemma lifecycle_progress_witness :
  let d := (allocated "branch-a" empty_db).2 in
  ∃ path d', drive "t3" "branch-a" "admin" path d = (Ok tt, d') ∧ lifecycle <$> get_site_row "branch-a" d' = Some "ACTIVE".
Proof.
  intros d. destruct (get_site_row "branch-a" d) as [i|] eqn:Hi; [|vm_compute in Hi; discriminate Hi].
  destruct (lifecycle_progress "t3" "branch-a" "admin" d i "ACTIVE") as (path & d' & _ & Hrun & Hact & _).
  - exact Hi.
  - apply inb_true. vm_compute in Hi. injection Hi as <-. vm_compute. reflexivity.
  - apply inb_true. vm_compute. reflexivity.
  - exists path, d'. split; [exact Hrun|exact Hact].
Defined.

(** ** Intents *)

(** A deleted intent submitted again with the same contents is taken for an
    unchanged one and stays deleted. *)
Definition dig (d : dict string json) : string := String.concat "," (dkeys d).
Definition intent (d : Db) : result bool * Db :=
  upsert_intent dig "t1" "i1" "site_policy" "site1" [("prefer", JStr "hub1")] "admin" d.

Lemma deleted_intent_not_restored :
  let d1 := (intent empty_db).2 in let d2 := (delete_intent "t2" "i1" "admin" d1).2 in
  length (intents d1) = 1%nat ∧ intent d2 = (Ok false, d2) ∧ intents (intent d2).2 = [].
Proof. vm_compute. by split_and!. Qed.
