(* ===== verification/IntentCompiler.v ===== *)
(** * The intent compiler ([IntentCompiler] of [dynamic_control.py])

    One compilation: the hubs' and the active sites' desired states are built
    from the current inventory, keys and ownership, and a new version is stored
    where the effective content changed.  The canonical JSON text of a value is
    compared as the value with its keys sorted ([canonical]). *)
From S2P Require Import Prelude Net Marks PathSelection Model ModelValidate Json DesiredState Inventory Sql PolicyStore.
From S2P Require Import DynamicInventory.
Local Open Scope string_scope.
Local Open Scope list_scope.
Local Open Scope Z_scope.

(** ** Comparing contents *)

Definition key_le (p q : string * json) : bool := String.leb p.1 q.1.

(** [canonical_json]: keys sorted at every level *)
Fixpoint canonical (j : json) : json :=
  match j with
  | JObj d => JObj (sort_by key_le (map (λ p, (p.1, canonical p.2)) d))
  | JList l => JList (map canonical l)
  | _ => j
  end.

Fixpoint json_eqb (a b : json) : bool :=
  match a, b with
  | JNull, JNull => true
  | JBool x, JBool y => Bool.eqb x y
  | JInt x, JInt y => x =? y
  | JFloat x, JFloat y => (Qnum x =? Qnum y) && (Zpos (Qden x) =? Zpos (Qden y))
  | JStr x, JStr y => String.eqb x y
  | JList l, JList k =>
      (fix go l k := match l, k with
                     | [], [] => true
                     | x :: l, y :: k => json_eqb x y && go l k
                     | _, _ => false
                     end) l k
  | JObj d, JObj e =>
      (fix go d e := match d, e with
                     | [], [] => true
                     | (k, x) :: d, (m, y) :: e => String.eqb k m && json_eqb x y && go d e
                     | _, _ => false
                     end) d e
  | _, _ => false
  end.

Definition VOLATILE : list string :=
  ["configuration_digest"; "generation"; "desired_state_version"; "route_version"; "ownership_epoch"].

Definition kept (p : string * json) : bool := negb (inb p.1 VOLATILE).

(** [_effective] of a stored state, as [json.loads] returns it: lists are lists. *)
Fixpoint effective (j : json) : json :=
  match j with
  | JObj d => JObj (sort_by key_le (List.filter kept (map (λ p, (p.1, effective p.2)) d)))
  | JList l => JList (map effective l)
  | _ => j
  end.

(** [_effective] of a state just built ([to_dict]).  Its sequences are tuples,
    which [isinstance(state, list)] does not match: they are kept as they are.
    (The one list in it, of the private prefixes, holds texts.) *)
Fixpoint effective_fresh (j : json) : json :=
  match j with
  | JObj d => JObj (sort_by key_le (List.filter kept (map (λ p, (p.1, effective_fresh p.2)) d)))
  | _ => j
  end.

Section compiler.
Context `{PyRepr} (sha256 : dict string json → string).
(** The digest of inventory, intents and network state; recorded, never compared. *)
Context (input_digest : list InventorySite → list IntentRow → list InputRow → string).
Context (now : string).

Definition effective_changed (s : dict string json) (d : Db) : result bool :=
  site ← text_field s "site";
  Ok (match latest_desired_state d site with
      | None => true
      | Some latest => negb (json_eqb (canonical (effective (JObj latest))) (canonical (effective_fresh (JObj s))))
      end).

(** [dict(row)] of a [route_ownership] row *)
Definition owner_json (r : OwnerRow) : dict string json :=
  let o := ow_record r in
  [("prefix", JStr (prefix o)); ("spoke", JStr (spoke o)); ("preferred_hub", JStr (PolicyStore.preferred_hub o));
   ("standby_hub", JStr (PolicyStore.standby_hub o)); ("current_owner_hub", JStr (current_owner_hub o));
   ("previous_owner_hub", opt_json (previous_owner_hub o)); ("owner_epoch", JInt (owner_epoch o));
   ("policy_version", JInt (policy_version o)); ("route_version", JInt (PolicyStore.route_version o)); ("state", JStr (state o));
   ("reason", JStr (reason o)); ("updated_at", JStr (ow_updated r)); ("valid_until", opt_json (valid_until o));
   ("pending_reconciliation", JInt (int_bool (pending_reconciliation o)))].

Definition ownership_of (d : Db) : dict string (dict string json) :=
  dict_of (map (λ r, (prefix (ow_record r), owner_json r)) (owner_rows d)).

Definition compiler_generation (site : string) (version : Z) : string := "compiler-" +:+ site +:+ "-" +:+ str_Z version.

(** Publish the state [build generation version] of [site] if its effective
    content changed; the sites published so far are [changed]. *)
Definition publish (build : string → Z → result DesiredState) (site actor : string) (changed : list string) : M Db (list string) :=
  provisional ← lift (build "compiler" 1);
  d ← get;
  differs ← lift (effective_changed (to_dict sha256 provisional) d);
  if differs : bool then
    version ← query (λ d, next_desired_state_version d site);
    actual ← lift (build (compiler_generation site version) version);
    _ ← put_desired_state sha256 now (to_dict sha256 actual) actor;
    mret (changed ++ [site])
  else mret changed.

Definition hub_state (c : TopologyConfig) (keys : dict string string) (owners : dict string (dict string json)) (hub gen : string)
    (version : Z) : result DesiredState :=
  build_hub_desired_state c hub keys owners gen version version version.

Definition hub_keys (keys : dict string string) : result (dict string string) :=
  foldM (λ acc h, k ← of_option (dget keys h) KeyError h; Ok (dset acc h k)) [] HUBS.

Definition site_state (c : TopologyConfig) (keys : dict string string) (site gen : string) (version : Z) : result DesiredState :=
  hk ← hub_keys keys; build_spoke_desired_state c site hk gen version version version None.

Definition both_hubs (keys : dict string string) : bool := forallb (dmem keys) HUBS.

Definition compile_hubs (c : TopologyConfig) (keys : dict string string) (owners : dict string (dict string json)) (actor : string)
    : M Db (list string) :=
  if both_hubs keys then foldMS (λ changed hub, publish (hub_state c keys owners hub) hub actor changed) [] HUBS else mret [].

Definition compile_sites (c : TopologyConfig) (keys : dict string string) (actor : string) (items : list InventorySite)
    (changed : list string) : M Db (list string) :=
  foldMS (λ changed i,
    if negb (same_text (lifecycle i) "ACTIVE") || negb (dmem keys (iv_site i)) || negb (both_hubs keys) then mret changed
    else publish (site_state c keys (iv_site i)) (iv_site i) actor changed) changed items.

(** The latest states of the hubs and sites, by name. *)
Definition latest_states (c : TopologyConfig) (d : Db) : dict string json :=
  foldl (λ acc s, match latest_desired_state d s with Some v => dset acc s (JObj v) | None => acc end) []
    (HUBS ++ dkeys (sites c)).

Record compilation := { in_digest_of : string; out_digest_of : string; was_changed : bool; changed_sites : list string }.

Definition compile (base : TopologyConfig) (actor : string) (trigger : option Z) : M Db compilation :=
  d ← get;
  c ← lift (topology base d);
  let inputs := input_digest (list_sites true d) (intents d) (network_state d) in
  let keys := active_wireguard_public_keys d in
  let owners := ownership_of d in
  changed ← compile_hubs c keys owners actor;
  items ← query (list_sites false);
  changed ← compile_sites c keys actor items changed;
  output ← query (λ d, sha256 (latest_states c d));
  let was := negb (bool_decide (length changed = 0%nat)) in
  _ ← transaction (
    _ ← execute (λ d, set_compilation_rows d (compilation_rows d ++
          [{| co_trigger := trigger; co_input := inputs; co_output := output; co_changed := was;
              co_detail := [("changed_sites", JList (map JStr changed))]; co_created := now |}]));
    match trigger with
    | Some id => execute (λ d, set_event_rows d (update_rows (λ e, ev_id e =? id) (λ e,
        {| ev_id := ev_id e; ev_type := ev_type e; ev_subject := ev_subject e; ev_payload := ev_payload e;
           ev_created := ev_created e; ev_consumed := Some now |}) (event_rows d)))
    | None => mret tt
    end);
  mret {| in_digest_of := inputs; out_digest_of := output; was_changed := was; changed_sites := changed |}.
End compiler.
