(* ===== verification/CompilerFacts.v ===== *)
(** * What the intent compiler guarantees

    Compiling again with nothing changed publishes nothing, as long as no route
    ownership is recorded. *)
From S2P Require Import Prelude Net Marks PathSelection Model ModelValidate Json DesiredState Inventory Sql PolicyStore.
From S2P Require Import PolicyStoreFacts StoreHistory DynamicInventory InventoryFacts IntentCompiler CoreTopology.
Local Open Scope string_scope.
Local Open Scope list_scope.
Local Open Scope Z_scope.

(** ** Sorting by key *)

Lemma insert_by_map {A B} (le : A → A → bool) (le' : B → B → bool) (h : A → B) x l :
  (∀ a b, le' (h a) (h b) = le a b) → insert_by le' (h x) (map h l) = map h (insert_by le x l).
Proof. intros Hh. induction l as [|y l IH]; simpl; [done|]. rewrite Hh. destruct (le x y); simpl; by rewrite ?IH. Qed.

Lemma sort_by_map {A B} (le : A → A → bool) (le' : B → B → bool) (h : A → B) l :
  (∀ a b, le' (h a) (h b) = le a b) → sort_by le' (map h l) = map h (sort_by le l).
Proof. intros Hh. induction l as [|x l IH]; simpl; [done|]. rewrite IH. by apply insert_by_map. Qed.

Lemma sort_by_sorted_id {A} (le : A → A → bool) l : StronglySorted (λ a b, le a b = true) l → sort_by le l = l.
Proof.
  induction 1 as [|x l Hs IH Hx]; simpl; [done|]. rewrite IH. destruct l as [|y l]; [done|]. simpl.
  apply Forall_cons in Hx as [-> _]. done.
Qed.

#[export] Instance key_le_total : TotalPre key_le.
Proof. unfold key_le. apply (preimage_total_pre (λ p : string * json, p.1)). apply _. Qed.

Definition on_value (g : json → json) (p : string * json) : string * json := (p.1, g p.2).

Lemma sort_on_value g l : sort_by key_le (map (on_value g) (sort_by key_le l)) = sort_by key_le (map (on_value g) l).
Proof.
  rewrite !(sort_by_map key_le key_le (on_value g)) by done. f_equal. apply sort_by_sorted_id. apply (sort_by_sorted key_le).
Qed.

Lemma filter_on_value g l : List.filter kept (map (on_value g) l) = map (on_value g) (List.filter kept l).
Proof. induction l as [|p l IH]; simpl; [done|]. change (kept (on_value g p)) with (kept p). destruct (kept p); simpl; by rewrite IH. Qed.

(** ** Contents *)

Lemma json_nested_ind (P : json → Prop) :
  P JNull → (∀ b, P (JBool b)) → (∀ z, P (JInt z)) → (∀ q, P (JFloat q)) → (∀ s, P (JStr s)) →
  (∀ l, Forall P l → P (JList l)) → (∀ d, Forall (λ p, P p.2) d → P (JObj d)) → ∀ j, P j.
Proof.
  intros Hn Hb Hi Hf Hs Hl Ho. fix IH 1. intros [|b|z|q|s|l|d]; [exact Hn|apply Hb|apply Hi|apply Hf|apply Hs| |].
  - apply Hl. induction l as [|x l IHl]; constructor; [apply IH|exact IHl].
  - apply Ho. induction d as [|[k x] d IHd]; constructor; [apply IH|exact IHd].
Qed.

(** No volatile key at any level. *)
Fixpoint plain (j : json) : bool :=
  match j with
  | JObj d => forallb (λ p, kept p && plain p.2) d
  | JList l => forallb plain l
  | _ => true
  end.

Lemma canonical_effective_obj d : Forall (λ p, kept p = true → canonical (effective p.2) = canonical p.2) d →
  canonical (effective (JObj d)) = canonical (JObj (List.filter kept d)).
Proof.
  intros Hd. change (effective (JObj d)) with (JObj (sort_by key_le (List.filter kept (map (on_value effective) d)))).
  assert (Hc : ∀ l, canonical (JObj l) = JObj (sort_by key_le (map (on_value canonical) l))) by done.
  rewrite !Hc, sort_on_value. do 2 f_equal. rewrite filter_on_value, map_map. apply map_ext_in.
  intros p [Hp Hk]%filter_In. unfold on_value. simpl. f_equal. rewrite Forall_forall in Hd. apply Hd; [by apply list_elem_of_In|done].
Qed.

Lemma canonical_fresh_obj d : Forall (λ p, kept p = true → canonical (effective_fresh p.2) = canonical p.2) d →
  canonical (effective_fresh (JObj d)) = canonical (JObj (List.filter kept d)).
Proof.
  intros Hd. change (effective_fresh (JObj d)) with (JObj (sort_by key_le (List.filter kept (map (on_value effective_fresh) d)))).
  assert (Hc : ∀ l, canonical (JObj l) = JObj (sort_by key_le (map (on_value canonical) l))) by done.
  rewrite !Hc, sort_on_value. do 2 f_equal. rewrite filter_on_value, map_map. apply map_ext_in.
  intros p [Hp Hk]%filter_In. unfold on_value. simpl. f_equal. rewrite Forall_forall in Hd. apply Hd; [by apply list_elem_of_In|done].
Qed.

Lemma filter_all {A} (f : A → bool) l : (∀ x, x ∈ l → f x = true) → List.filter f l = l.
Proof.
  intros Hf. induction l as [|x l IH]; simpl; [done|]. rewrite (Hf x) by constructor. rewrite IH; [done|].
  intros y Hy. apply Hf. by constructor.
Qed.

Lemma plain_obj d : plain (JObj d) = true → (∀ p, p ∈ d → kept p = true ∧ plain p.2 = true).
Proof. intros H p Hp. simpl in H. rewrite forallb_forall in H. apply andb_true_iff, H. by apply list_elem_of_In. Qed.

Lemma plain_effective j : plain j = true → canonical (effective j) = canonical j.
Proof.
  induction j as [| | | | |l IH|d IH] using json_nested_ind; try done; intros Hp.
  - simpl. f_equal. rewrite map_map. apply map_ext_in. intros x Hx. rewrite Forall_forall in IH. simpl in Hp.
    rewrite forallb_forall in Hp. apply IH; [by apply list_elem_of_In|by apply Hp].
  - pose proof (plain_obj d Hp) as Hd. rewrite canonical_effective_obj.
    + rewrite filter_all; [done|]. intros p Hin. by apply Hd.
    + rewrite Forall_forall in *. intros p Hin _. apply IH; [done|]. by apply Hd.
Qed.

Lemma plain_fresh j : plain j = true → canonical (effective_fresh j) = canonical j.
Proof.
  induction j as [| | | | |l IH|d IH] using json_nested_ind; try done; intros Hp.
  pose proof (plain_obj d Hp) as Hd. rewrite canonical_fresh_obj.
  - rewrite filter_all; [done|]. intros p Hin. by apply Hd.
  - rewrite Forall_forall in *. intros p Hin _. apply IH; [done|]. by apply Hd.
Qed.

(** Two states that differ at most in the volatile fields. *)
Definition same_content (a b : DesiredState) : Prop :=
  ds_schema_version a = ds_schema_version b ∧ ds_site a = ds_site b ∧ ds_preferred_hub a = ds_preferred_hub b ∧
  ds_standby_hub a = ds_standby_hub b ∧ active_target_by_slot a = active_target_by_slot b ∧ interfaces a = interfaces b ∧
  route_ownership a = route_ownership b ∧ private_prefixes a = private_prefixes b.

(** The content that is compared. *)
Definition content (s : DesiredState) : dict string json :=
  [("schema_version", JInt (ds_schema_version s)); ("site", JStr (ds_site s));
   ("preferred_hub", opt_text (ds_preferred_hub s)); ("standby_hub", opt_text (ds_standby_hub s));
   ("active_target_by_slot", JObj (dmap (λ d, JObj (dmap JStr d)) (active_target_by_slot s)));
   ("interfaces", JList (map interface_json (interfaces s)));
   ("route_ownership", JList (map JObj (route_ownership s)));
   ("egress_policy", JObj [("private_prefixes", text_list_json (private_prefixes s))])].

Lemma to_dict_eq sha s : to_dict sha s = asdict s ++ [("configuration_digest", JStr (sha (asdict s)))].
Proof. reflexivity. Qed.

Lemma kept_to_dict sha s : List.filter kept (to_dict sha s) = content s.
Proof. rewrite to_dict_eq. reflexivity. Qed.

Lemma same_content_eq a b : same_content a b → content a = content b.
Proof. intros (E1 & E2 & E3 & E4 & E5 & E6 & E7 & E8). unfold content. by rewrite E1, E2, E3, E4, E5, E6, E7, E8. Qed.

(** What makes the comparison insensitive to tuples: no volatile key below the
    top, and no ownership row. *)
Definition stable (s : DesiredState) : Prop :=
  route_ownership s = [] ∧
  (∀ slot t, (slot, t) ∈ active_target_by_slot s → inb slot VOLATILE = false ∧ ∀ k v, (k, v) ∈ t → inb k VOLATILE = false).

Lemma plain_opt_text o : plain (opt_text o) = true.
Proof. by destruct o. Qed.

Lemma plain_texts l : plain (text_list_json l) = true.
Proof. simpl. apply forallb_forall. by intros x (s & <- & _)%in_map_iff. Qed.

Lemma plain_interface i : plain (interface_json i) = true.
Proof.
  assert (Hp : forallb plain (map peer_json (peers i)) = true).
  { apply forallb_forall. intros x (p & <- & _)%in_map_iff.
    change (plain (peer_json p)) with (plain (opt_text (endpoint p)) && (plain (text_list_json (allowed_ips p)) && true)).
    by rewrite plain_opt_text, plain_texts. }
  change (plain (interface_json i)) with
    (plain (opt_text (wi_hub i)) && (forallb plain (map peer_json (peers i)) && (plain (text_list_json (wi_routes i)) && true))).
  by rewrite plain_opt_text, plain_texts, Hp.
Qed.

Lemma plain_content s p : stable s → p ∈ content s → plain p.2 = true.
Proof.
  intros [Hr Ha] Hp. unfold content in Hp. rewrite !elem_of_cons, elem_of_nil in Hp.
  destruct_or!; subst; try done; simpl snd.
  - apply plain_opt_text.
  - apply plain_opt_text.
  - cbn [plain]. apply forallb_forall. intros q Hq. unfold dmap in Hq. apply in_map_iff in Hq as ([slot t] & <- & Hin).
    apply list_elem_of_In in Hin. destruct (Ha slot t Hin) as [Hs Ht]. unfold kept. cbn [fst snd]. rewrite Hs. cbn [negb andb plain].
    apply forallb_forall. intros q Hq. unfold dmap in Hq. apply in_map_iff in Hq as ([k v] & <- & Hkv).
    apply list_elem_of_In in Hkv. unfold kept. cbn [fst snd]. by rewrite (Ht k v Hkv).
  - cbn [plain]. apply forallb_forall. intros x (i & <- & _)%in_map_iff. apply plain_interface.
  - by rewrite Hr.
  - change (plain (text_list_json (private_prefixes s)) && true = true). by rewrite plain_texts.
Qed.

Lemma json_eqb_refl j : json_eqb j j = true.
Proof.
  induction j as [|b|z|q|s|l IH|d IH] using json_nested_ind; simpl; try done.
  - by destruct b.
  - apply Z.eqb_refl.
  - by rewrite !Z.eqb_refl.
  - apply String.eqb_refl.
  - induction IH as [|x l Hx _ IHl]; [done|]. by rewrite Hx, IHl.
  - induction IH as [|[k x] d Hx _ IHd]; [done|]. simpl in Hx. by rewrite String.eqb_refl, Hx, IHd.
Qed.

(** A stored state and a fresh one of the same content compare equal. *)
Lemma same_content_unchanged sha a b : same_content a b → stable a →
  json_eqb (canonical (effective (JObj (to_dict sha a)))) (canonical (effective_fresh (JObj (to_dict sha b)))) = true.
Proof.
  intros Hab Hs. assert (Hb : stable b).
  { destruct Hs as [Hr Ha], Hab as (_ & _ & _ & _ & E5 & _ & E7 & _). split; [congruence|]. by rewrite <- E5. }
  assert (Hin : ∀ s p, p ∈ to_dict sha s → kept p = true → p ∈ content s).
  { intros s p Hp Hk. rewrite <- (kept_to_dict sha). by apply filter_elem. }
  rewrite canonical_effective_obj, canonical_fresh_obj, !kept_to_dict, (same_content_eq a b Hab).
  - apply json_eqb_refl.
  - apply Forall_forall. intros p Hp Hk. by apply plain_fresh, (plain_content b), Hin.
  - apply Forall_forall. intros p Hp Hk. by apply plain_effective, (plain_content a), Hin.
Qed.

(** ** The builders *)

(** Advance two runs of the same computation together. *)
Ltac bind_both H1 H2 :=
  let x := fresh "x" in let y := fresh "y" in let E1 := fresh "E" in let E2 := fresh "E" in
  apply bind_Ok in H1 as (x & E1 & H1); apply bind_Ok in H2 as (y & E2 & H2);
  rewrite E1 in E2; injection E2 as <-.

Lemma spoke_same c site keys g v r e g' v' r' e' active a b :
  build_spoke_desired_state c site keys g v r e active = Ok a →
  build_spoke_desired_state c site keys g' v' r' e' active = Ok b → same_content a b.
Proof.
  unfold build_spoke_desired_state. cbv zeta. intros H1 H2.
  apply bind_unit_ok in H1 as [_ H1]. apply bind_unit_ok in H2 as [_ H2]. bind_both H1 H2.
  apply bind_unit_ok in H1 as [_ H1]. apply bind_unit_ok in H2 as [_ H2]. bind_both H1 H2. bind_both H1 H2. bind_both H1 H2.
  apply bind_unit_ok in H1 as [_ [= <-]]. apply bind_unit_ok in H2 as [_ [= <-]]. by split_and!.
Qed.

Lemma hub_same c hub keys owners g v r e g' v' r' e' a b :
  build_hub_desired_state c hub keys owners g v r e = Ok a →
  build_hub_desired_state c hub keys owners g' v' r' e' = Ok b → same_content a b.
Proof.
  unfold build_hub_desired_state. cbv zeta. intros H1 H2.
  apply bind_unit_ok in H1 as [_ H1]. apply bind_unit_ok in H2 as [_ H2]. bind_both H1 H2.
  apply bind_unit_ok in H1 as [_ H1]. apply bind_unit_ok in H2 as [_ H2]. bind_both H1 H2.
  apply bind_unit_ok in H1 as [_ [= <-]]. apply bind_unit_ok in H2 as [_ [= <-]]. by split_and!.
Qed.

Lemma hub_shape c hub keys owners g v r e a : build_hub_desired_state c hub keys owners g v r e = Ok a →
  ds_site a = hub ∧ ds_version a = v ∧ (owners = [] → stable a).
Proof.
  unfold build_hub_desired_state. cbv zeta. intros (_ & H)%bind_unit_ok. apply bind_Ok in H as (? & _ & H).
  apply bind_unit_ok in H as [_ H]. apply bind_Ok in H as (? & _ & H). apply bind_unit_ok in H as [_ [= <-]].
  split_and!; try done. intros ->. split; [done|]. by intros ? ? ?%elem_of_nil.
Qed.

Lemma foldM_inv_in {A S} (I : S → Prop) (f : S → A → result S) l s s' :
  (∀ s x s', x ∈ l → I s → f s x = Ok s' → I s') → I s → foldM f s l = Ok s' → I s'.
Proof.
  revert s. induction l as [|x l IH]; intros s Hf Hs; simpl; [by intros [= <-]|].
  intros (s1 & Hx & Hl)%bind_Ok. apply (IH s1); [|by apply (Hf s x); [constructor|..]|done].
  intros s2 y s3 Hy. apply Hf. by constructor.
Qed.

Lemma default_active_shape c profile act : default_active c profile = Ok act →
  ∀ slot t, (slot, t) ∈ act → inb slot VOLATILE = false ∧ ∀ k v, (k, v) ∈ t → inb k VOLATILE = false.
Proof.
  unfold default_active. intros Hact.
  refine (foldM_inv_in (λ acc, ∀ slot t, (slot, t) ∈ acc → inb slot VOLATILE = false ∧ ∀ k v, (k, v) ∈ t → inb k VOLATILE = false)
    _ TRANSPORTS [] act _ _ Hact).
  - intros acc tr acc' Htr Hacc (t & _ & [= <-])%bind_Ok slot u [E|Hin]%elem_dset; [|by apply Hacc]. injection E as -> ->. split.
    + assert (forallb (λ t, negb (inb t VOLATILE)) TRANSPORTS = true) as Ht by reflexivity.
      rewrite forallb_forall in Ht. by apply negb_true_iff, Ht, list_elem_of_In.
    + intros k w. rewrite !elem_of_cons, elem_of_nil. intros [E|[E|[]]]; by injection E as -> _.
  - by intros ? ? ?%elem_of_nil.
Qed.

Lemma spoke_shape c site keys g v r e a : build_spoke_desired_state c site keys g v r e None = Ok a →
  ds_site a = resolve_site c site ∧ ds_version a = v ∧ stable a.
Proof.
  unfold build_spoke_desired_state. cbv zeta. intros (_ & H)%bind_unit_ok. apply bind_Ok in H as (? & _ & H).
  apply bind_unit_ok in H as [_ H]. apply bind_Ok in H as (? & _ & H). apply bind_Ok in H as (? & _ & H).
  apply bind_Ok in H as (act & Hact & H). apply bind_unit_ok in H as [_ [= <-]].
  split_and!; try done. split; [done|]. by eapply default_active_shape.
Qed.

(** ** Publishing *)

(** Tables a compilation reads and does not write. *)
Definition same_inputs (d d' : Db) : Prop :=
  key_rows d' = key_rows d ∧ inventory_rows d' = inventory_rows d ∧ owner_rows d' = owner_rows d.

#[export] Instance same_inputs_preorder : PreOrder same_inputs.
Proof. split; unfold same_inputs; [done|]. intros a b c (? & ? & ?) (? & ? & ?). split_and!; congruence. Qed.

Section publishing.
Context `{PyRepr} (sha256 : dict string json → string).

(** The builder of one site's states. *)
Definition publishes_for (build : string → Z → result DesiredState) (site : string) : Prop :=
  (∀ g v a, build g v = Ok a → ds_site a = site ∧ ds_version a = v ∧ stable a) ∧
  (∀ g v g' v' a b, build g v = Ok a → build g' v' = Ok b → same_content a b).

Definition settled (build : string → Z → result DesiredState) (d : Db) : Prop :=
  ∃ p, build "compiler" 1 = Ok p ∧ effective_changed (to_dict sha256 p) d = Ok false.

Lemma changed_eq p d : effective_changed (to_dict sha256 p) d =
  Ok (match latest_desired_state d (ds_site p) with
      | None => true
      | Some latest => negb (json_eqb (canonical (effective (JObj latest))) (canonical (effective_fresh (JObj (to_dict sha256 p)))))
      end).
Proof. reflexivity. Qed.

Lemma settled_frame build site d d' : publishes_for build site → latest_desired_state d' site = latest_desired_state d site →
  settled build d → settled build d'.
Proof.
  intros [Hb _] Hl (p & Hp & Hc). exists p. split; [done|]. destruct (Hb _ _ _ Hp) as [Hs _].
  rewrite changed_eq, Hs in *. by rewrite Hl.
Qed.

Lemma settled_publish now build site actor ch d : settled build d → publish sha256 now build site actor ch d = (Ok ch, d).
Proof.
  intros (p & Hp & Hc). unfold publish, lift, get, mbind, M_bind. rewrite Hp. cbn beta iota. by rewrite Hc.
Qed.

(** A put leaves the other sites and the other tables alone. *)
Lemma put_frame now s actor d site : text_field s "site" = Ok site →
  let d' := (put_desired_state sha256 now s actor d).2 in
  same_inputs d d' ∧ ∀ other, other ≠ site → latest_desired_state d' other = latest_desired_state d other.
Proof.
  intros Hsite. cbv zeta. destruct (put_effect sha256 now s actor d) as [[-> _]|(site' & version & dig & gen & schema & route & epoch & Heff)]; [done|].
  destruct Heff as (Hs & _ & _ & _ & Hrows & audits & ->). rewrite Hsite in Hs. injection Hs as <-. split; [done|].
  intros other Hne. unfold latest_desired_state, states_of. cbn [desired_rows set_audit_rows set_desired_rows].
  rewrite List.filter_app. cbn [List.filter]. unfold same_text at 2. cbn [dr_site new_row].
  rewrite (proj2 (String.eqb_neq site other)) by done. rewrite app_nil_r. do 2 f_equal.
  unfold supersede. destruct (latest_by _ _) as [l|]; [|done]. clear Hrows. induction (desired_rows d) as [|r rows IH]; [done|].
  simpl. destruct (is_state site (dr_version l) r) eqn:Er.
  - apply is_state_iff in Er as [Er _]. cbn [dr_site superseded]. unfold same_text in *. rewrite Er.
    rewrite (proj2 (String.eqb_neq site other)) by done. exact IH.
  - destruct (same_text (dr_site r) other); [by rewrite IH|exact IH].
Qed.

Lemma publish_effect now build site actor ch d ch' d' :
  publishes_for build site → store_ok d → publish sha256 now build site actor ch d = (Ok ch', d') →
  store_ok d' ∧ same_inputs d d' ∧ settled build d' ∧
  ∀ other, other ≠ site → latest_desired_state d' other = latest_desired_state d other.
Proof.
  intros [Hb Hsame] Hok Hrun. unfold publish in Hrun. apply lift_bind_run in Hrun as (p & Hp & Hrun).
  destruct (Hb _ _ _ Hp) as (Hs & _ & _). apply bind_run in Hrun as (d0 & s0 & [= <- <-] & Hrun).
  apply lift_bind_run in Hrun as (differs & Hc & Hrun). destruct differs.
  2: { injection Hrun as <- <-. split_and!; try done. by exists p. }
  apply bind_run in Hrun as (v & s1 & Hv & Hrun). change (Ok (next_desired_state_version d site), d) with (query (λ d, next_desired_state_version d site) d) in Hv.
  injection Hv as <- <-. set (v := next_desired_state_version d site) in *.
  apply lift_bind_run in Hrun as (a & Ha & Hrun). destruct (Hb _ _ _ Ha) as (Hsa & Hva & Hst).
  apply bind_run in Hrun as ([dg known] & d1 & Hput & Hrun). injection Hrun as <- <-.
  assert (Hsite : text_field (to_dict sha256 a) "site" = Ok site) by (by rewrite <- Hsa).
  assert (Hver : int_field (to_dict sha256 a) "desired_state_version" = Ok v) by (by rewrite <- Hva).
  pose proof (put_frame now _ actor d site Hsite) as [Hin Hother]. rewrite Hput in Hin, Hother. cbn [snd] in Hin, Hother.
  pose proof (put_moves sha256 now (to_dict sha256 a) actor d Hok) as [Hok1 _]. rewrite Hput in Hok1. cbn [snd] in Hok1.
  split; [done|]. split; [done|]. split; [|done]. exists p. split; [done|]. rewrite changed_eq, Hs.
  destruct (put_row _ _ _ _ _ _ _ _ _ _ Hsite Hver Hput) as [(r & Hr & Er & Ev & _ & Hnew & Hmax) Hkn].
  assert (known = false) as ->.
  { destruct known; [|done]. rewrite (Hkn eq_refl) in Hr. exfalso.
    assert (dr_version r <= max_key dr_version (states_of site d)) by (by apply max_key_bound, states_elem).
    unfold v, next_desired_state_version in Ev. lia. }
  destruct (Hnew eq_refl) as (Hcont & _ & _). rewrite <- Ev in Hmax.
  assert (latest_desired_state d1 site = Some (to_dict sha256 a)) as ->.
  { unfold latest_desired_state. rewrite (latest_state site d1 r (ok_states _ Hok1) Hr Er Hmax). cbn. by rewrite Hcont. }
  rewrite same_content_unchanged; [done|by eapply Hsame|done].
Qed.

(** A loop that publishes the state of every item not skipped. *)
Section loop.
Context {X : Type} (name : X → string) (build : X → string → Z → result DesiredState) (skip : X → bool).

Definition publish_all (now actor : string) (ch : list string) (l : list X) : M Db (list string) :=
  foldMS (λ ch x, if skip x then mret ch else publish sha256 now (build x) (name x) actor ch) ch l.

Lemma publish_all_effect now actor l : ∀ ch d ch' d',
  NoDup (map name l) → (∀ x, x ∈ l → skip x = false → publishes_for (build x) (name x)) → store_ok d →
  publish_all now actor ch l d = (Ok ch', d') →
  store_ok d' ∧ same_inputs d d' ∧ (∀ x, x ∈ l → skip x = false → settled (build x) d') ∧
  ∀ other, other ∉ map name l → latest_desired_state d' other = latest_desired_state d other.
Proof.
  induction l as [|x l IH]; intros ch d ch' d' Hnd Hb Hok; unfold publish_all; simpl.
  - intros [= <- <-]. split_and!; try done. by intros ? ?%elem_of_nil.
  - apply NoDup_cons in Hnd as [Hx Hnd]. intros (ch1 & d1 & Hrun & Hrest)%bind_run.
    assert (Hbl : ∀ y, y ∈ l → skip y = false → publishes_for (build y) (name y)) by (intros y Hy; apply Hb; by constructor).
    assert (Hstep : store_ok d1 ∧ same_inputs d d1 ∧ (skip x = false → settled (build x) d1) ∧
      ∀ other, other ≠ name x → latest_desired_state d1 other = latest_desired_state d other).
    { destruct (skip x) eqn:Hs; [by injection Hrun as <- <-|].
      destruct (publish_effect _ _ _ _ _ _ _ _ (Hb x ltac:(constructor) Hs) Hok Hrun) as (? & ? & ? & ?). by split_and!. }
    destruct Hstep as (Hok1 & Hin1 & Hset1 & Hother1).
    destruct (IH ch1 d1 ch' d' Hnd Hbl Hok1 Hrest) as (Hok' & Hin' & Hset' & Hother').
    split; [done|]. split; [by etrans|]. split.
    + intros y [->|Hy]%elem_of_cons Hsk; [|by apply Hset'].
      eapply settled_frame; [by apply (Hb x); [constructor|]|by apply Hother'|by apply Hset1].
    + intros other Ho. cbn [map] in Ho. apply not_elem_of_cons in Ho as [Ho1 Ho2]. by rewrite Hother', Hother1.
Qed.

Lemma publish_all_settled now actor l ch d :
  (∀ x, x ∈ l → skip x = false → settled (build x) d) → publish_all now actor ch l d = (Ok ch, d).
Proof.
  induction l as [|x l IH]; intros Hs; [done|]. unfold publish_all. simpl. unfold mbind at 1, M_bind at 1.
  destruct (skip x) eqn:E; [|rewrite settled_publish by (by apply Hs; [constructor|])]; apply IH; intros y Hy; apply Hs; by constructor.
Qed.
End loop.

(** ** A whole compilation *)

Context (input_digest : list InventorySite → list IntentRow → list InputRow → string).

Lemma topology_sites base d c : topology base d = Ok c →
  ∀ i, i ∈ list_sites false d → lifecycle i = "ACTIVE" → dmem (sites c) (iv_site i) = true.
Proof.
  intros (ss & Hss & Hc)%bind_Ok i Hi Hact.
  assert (Hkey : ∀ l acc ss, foldM (λ acc i, if inb (lifecycle i) ACTIVE_CONFIGURATION_STATES
      then s ← to_site i; Ok (dset acc (iv_site i) s) else Ok acc) acc l = Ok ss →
    (∀ k, k ∈ dkeys acc → k ∈ dkeys ss) ∧ ∀ i, i ∈ l → lifecycle i = "ACTIVE" → iv_site i ∈ dkeys ss).
  { clear. induction l as [|j l IH]; intros acc ss; [intros [= <-]; split; [done|by intros ? ?%elem_of_nil]|].
    intros (acc1 & Hj & Hl)%bind_Ok. destruct (IH _ _ Hl) as [H1 H2].
    assert (Hacc : (∀ k, k ∈ dkeys acc → k ∈ dkeys acc1) ∧ (lifecycle j = "ACTIVE" → iv_site j ∈ dkeys acc1)).
    { destruct (inb (lifecycle j) _) eqn:E.
      - apply bind_Ok in Hj as (s & _ & [= <-]). split; [|intros _].
        + intros k Hk. apply dmem_true. unfold dmem. rewrite dget_dset. case_decide; [done|]. by apply dmem_true in Hk.
        + apply dmem_true. unfold dmem. by rewrite dget_dset_eq.
      - injection Hj as <-. split; [done|]. intros Ha. rewrite Ha in E. done. }
    destruct Hacc as [A1 A2]. split; [by intros k Hk; apply H1, A1|].
    intros i [->|Hi]%elem_of_cons Ha; [by apply H1, A2|by apply H2]. }
  destruct (Hkey _ _ _ Hss) as [_ Hin]. specialize (Hin i Hi Hact). unfold with_sites in Hc.
  apply bind_Ok in Hc as ([] & _ & [= <-]). apply dmem_true. cbn [sites replace_sites]. by destruct ss as [|p ss]; [apply elem_of_nil in Hin|].
Qed.

Lemma hub_publishes c keys hub : publishes_for (hub_state c keys [] hub) hub.
Proof.
  split.
  - intros g v a Ha. destruct (hub_shape _ _ _ _ _ _ _ _ _ Ha) as (? & ? & Hs). split_and!; try done. by apply Hs.
  - intros g v g' v' a b Ha Hb. eapply hub_same; [exact Ha|exact Hb].
Qed.

Lemma site_publishes c keys site : dmem (sites c) site = true → publishes_for (site_state c keys site) site.
Proof.
  intros Hm. split.
  - intros g v a (hk & _ & Ha)%bind_Ok. destruct (spoke_shape _ _ _ _ _ _ _ _ Ha) as (E & ? & ?). split_and!; try done.
    rewrite E. unfold resolve_site, logical_site. by rewrite Hm.
  - intros g v g' v' a b (hk & Hk & Ha)%bind_Ok (hk' & Hk' & Hb)%bind_Ok. rewrite Hk in Hk'. injection Hk' as <-.
    eapply spoke_same; [exact Ha|exact Hb].
Qed.

Definition site_skipped (keys : dict string string) (i : InventorySite) : bool :=
  negb (same_text (lifecycle i) "ACTIVE") || negb (dmem keys (iv_site i)) || negb (both_hubs keys).

Lemma compile_sites_eq now c keys actor items ch :
  compile_sites sha256 now c keys actor items ch =
  publish_all iv_site (λ i, site_state c keys (iv_site i)) (site_skipped keys) now actor ch items.
Proof. reflexivity. Qed.

Lemma compile_hubs_eq now c keys owners actor :
  compile_hubs sha256 now c keys owners actor =
  if both_hubs keys then publish_all (λ h, h) (hub_state c keys owners) (λ _, false) now actor [] HUBS else mret [].
Proof. reflexivity. Qed.

Lemma sites_distinct d : no_clash inventory_clash (inventory_rows d) → NoDup (map iv_site (list_sites false d)).
Proof.
  intros Hn. unfold list_sites. rewrite sort_by_perm.
  assert (Hu : NoDup (map iv_site (inventory_rows d))).
  { clear -Hn. induction (inventory_rows d) as [|i l IH]; [constructor|]. destruct Hn as [Hi Hn]. cbn [map]. constructor; [|by apply IH].
    intros (j & E & Hj)%elem_of_map. destruct (Hi j Hj) as [Hc _]. unfold inventory_clash, same_text in Hc.
    by rewrite E, String.eqb_refl in Hc. }
  clear Hn. induction (inventory_rows d) as [|i l IH]; [constructor|]. cbn [map] in Hu. apply NoDup_cons in Hu as [Hi Hu]. simpl.
  destruct (negb _); [|by apply IH]. cbn [map]. constructor; [|by apply IH]. intros (j & E & [Hj _]%filter_elem)%elem_of_map.
  apply Hi, elem_of_map. by exists j.
Qed.

(** The phases of a compilation; recording it touches none of what it reads. *)
Lemma compile_phases now base actor trigger d c keys owners r d' :
  keys = active_wireguard_public_keys d → owners = ownership_of d → topology base d = Ok c →
  compile sha256 input_digest now base actor trigger d = (r, d') →
  match compile_hubs sha256 now c keys owners actor d with
  | (Ok ch1, d1) => match compile_sites sha256 now c keys actor (list_sites false d1) ch1 d1 with
      | (Ok ch2, d2) => desired_rows d' = desired_rows d2 ∧ same_inputs d2 d' ∧
          ∃ x, r = Ok x ∧ changed_sites x = ch2 ∧ was_changed x = negb (bool_decide (length ch2 = 0%nat)) ∧
               out_digest_of x = sha256 (latest_states c d2)
      | (Err e, d2) => r = Err e
      end
  | (Err e, d1) => r = Err e
  end.
Proof.
  intros -> -> Hc. unfold compile. cbv [lift get put query execute transaction mbind M_bind mret M_ret]. rewrite Hc. cbn beta iota zeta.
  destruct (compile_hubs _ _ _ _ _ _ d) as [[ch1|e] d1]; [|by intros [= <- <-]].
  destruct (compile_sites _ _ _ _ _ _ _ d1) as [[ch2|e] d2]; [|by intros [= <- <-]].
  destruct trigger as [id|]; cbn beta iota zeta; intros [= <- <-]; (split; [done|]; split; [done|]); eexists; (split; [reflexivity|done]).
Qed.

Lemma topology_failed now base actor trigger d e r d' :
  topology base d = Err e → compile sha256 input_digest now base actor trigger d = (r, d') → r = Err e.
Proof.
  intros Hc. unfold compile. cbv [lift get mbind M_bind]. rewrite Hc. by intros [= <- <-].
Qed.

(** C18: compilation converges in one round.  As long as no route ownership is
    recorded, compiling again after a successful compilation, with the
    inventory and keys as they are, succeeds, publishes nothing and leaves every
    desired state as it is: the compiler's own writes never trigger another
    version. *)
Theorem compile_settles now base actor trigger d x d' now2 actor2 trigger2 :
  store_ok d → no_clash inventory_clash (inventory_rows d) → (∀ i, i ∈ inventory_rows d → iv_site i ∉ HUBS) → owner_rows d = [] →
  compile sha256 input_digest now base actor trigger d = (Ok x, d') →
  ∃ y d2, compile sha256 input_digest now2 base actor2 trigger2 d' = (Ok y, d2) ∧
    was_changed y = false ∧ changed_sites y = [] ∧ desired_rows d2 = desired_rows d' ∧ out_digest_of y = out_digest_of x.
Proof.
  intros Hok Hinv Hhubs Hown Hrun.
  destruct (topology base d) as [c|e] eqn:Hc; [|by pose proof (topology_failed _ _ _ _ _ _ _ _ Hc Hrun)].
  set (keys := active_wireguard_public_keys d). pose proof (compile_phases _ _ _ _ _ _ _ _ _ _ eq_refl eq_refl Hc Hrun) as Hph.
  assert (Ho : ownership_of d = []) by (unfold ownership_of; by rewrite Hown). rewrite Ho in Hph. fold keys in Hph.
  destruct (compile_hubs sha256 now c keys [] actor d) as [[ch1|] d1] eqn:Hh; [|done].
  destruct (compile_sites sha256 now c keys actor (list_sites false d1) ch1 d1) as [[ch2|] d2] eqn:Hs; [|done].
  destruct Hph as (Hdes & Hin2 & z & [= <-] & _ & _ & Hout).
  (* the hubs *)
  assert (H1 : store_ok d1 ∧ same_inputs d d1 ∧ (both_hubs keys = true → ∀ h, h ∈ HUBS → settled (hub_state c keys [] h) d1)).
  { rewrite compile_hubs_eq in Hh. destruct (both_hubs keys); [|injection Hh as <- <-; by split_and!].
    destruct (publish_all_effect (λ h, h) (hub_state c keys []) (λ _, false) now actor HUBS [] d ch1 d1) as (? & ? & ? & _); try done.
    - apply uniqueb_true. reflexivity.
    - intros h _ _. apply hub_publishes.
    - split_and!; auto. }
  destruct H1 as (Hok1 & Hin1 & Hset1).
  assert (Hrows1 : inventory_rows d1 = inventory_rows d) by apply Hin1.
  assert (Hitems : ∀ i, i ∈ list_sites false d → i ∈ inventory_rows d).
  { intros i Hi. unfold list_sites in Hi. apply sort_by_elem in Hi. by apply filter_elem in Hi as [? _]. }
  assert (Hl1 : list_sites false d1 = list_sites false d) by (unfold list_sites; by rewrite Hrows1).
  rewrite Hl1 in Hs. rewrite compile_sites_eq in Hs.
  destruct (publish_all_effect iv_site (λ i, site_state c keys (iv_site i)) (site_skipped keys) now actor (list_sites false d) ch1 d1 ch2 d2)
    as (Hok2 & Hin12 & Hset2 & Hoth2); try done.
  - by apply sites_distinct.
  - intros i Hi Hsk. apply site_publishes. apply (topology_sites base d c Hc i Hi). unfold site_skipped in Hsk.
    apply orb_false_iff in Hsk as [[Hsk _]%orb_false_iff _]. by apply negb_false_iff, String.eqb_eq in Hsk.
  - (* the second round *)
    assert (Hall : same_inputs d d') by (etrans; [exact Hin1|]; etrans; [exact Hin12|exact Hin2]).
    destruct Hall as (K & I' & O).
    assert (Hc' : topology base d' = Ok c) by (unfold topology, list_sites in *; by rewrite I').
    assert (Hkeys : active_wireguard_public_keys d' = keys) by (unfold keys, active_wireguard_public_keys; by rewrite K).
    assert (Hown' : ownership_of d' = []) by (unfold ownership_of; by rewrite O, Hown).
    assert (Hlat : ∀ s, latest_desired_state d' s = latest_desired_state d2 s) by (intros s; unfold latest_desired_state, states_of; by rewrite Hdes).
    destruct (compile sha256 input_digest now2 base actor2 trigger2 d') as [r2 d3] eqn:E2.
    pose proof (compile_phases _ _ _ _ _ _ _ _ _ _ eq_refl eq_refl Hc' E2) as Hph2. rewrite Hkeys, Hown' in Hph2.
    assert (Hhub2 : compile_hubs sha256 now2 c keys [] actor2 d' = (Ok [], d')).
    { rewrite compile_hubs_eq. destruct (both_hubs keys) eqn:Hb; [|done]. apply publish_all_settled. intros h Hh' _.
      eapply settled_frame; [apply hub_publishes| |by apply Hset1]. rewrite Hlat. apply Hoth2.
      intros (i & E & Hi)%elem_of_map. apply (Hhubs i); [by apply Hitems|by rewrite <- E]. }
    rewrite Hhub2 in Hph2. rewrite compile_sites_eq in Hph2.
    assert (Hl' : list_sites false d' = list_sites false d) by (unfold list_sites; by rewrite I'). rewrite Hl' in Hph2.
    rewrite publish_all_settled in Hph2.
    + destruct Hph2 as (Hd3 & _ & y & -> & E1 & E3 & E4). exists y, d3. split; [done|]. split; [by rewrite E3|]. split; [done|].
      split; [done|]. rewrite E4, Hout. do 1 f_equal. unfold latest_states.
      generalize (@nil (string * json)). induction (HUBS ++ dkeys (sites c)) as [|s l IHl]; intros acc; [done|]. simpl. rewrite Hlat. apply IHl.
    + intros i Hi Hsk. eapply settled_frame; [|by apply Hlat|by apply Hset2]. apply site_publishes, (topology_sites base d c Hc i Hi).
      unfold site_skipped in Hsk. apply orb_false_iff in Hsk as [[Hsk _]%orb_false_iff _]. by apply negb_false_iff, String.eqb_eq in Hsk.
Qed.
End publishing.

(** ** A concrete network *)

Lemma store_ok_inventory d l : store_ok d → store_ok (set_inventory_rows d l).
Proof. intros []. by split. Qed.

Definition inputs (l : list InventorySite) (k : list IntentRow) (m : list InputRow) : string := str_Z (Z.of_nat (length l)).

Definition keyed (site : string) (d : Db) : Db := (register_wireguard_public_key plain_hash "t0" site ("key-" +:+ site) "ztp" d).2.
Definition with_keys : Db := keyed "site1" (keyed "hub2" (keyed "hub1" empty_db)).

Definition active_items : list InventorySite :=
  map (λ s, let i := seed_record "t0" s in with_lifecycle i "ACTIVE" "RUNNING" None None 1 "t0" None) (site_list core_config).

Definition network : Db := set_inventory_rows with_keys active_items.

Definition compiled (now : string) (d : Db) : result compilation * Db :=
  compile text_hash inputs now core_config "compiler" None d.

Lemma network_ok : store_ok network.
Proof.
  apply store_ok_inventory. unfold with_keys, keyed.
  apply (register_moves plain_hash "t0" "site1" _ "ztp"), (register_moves plain_hash "t0" "hub2" _ "ztp"),
    (register_moves plain_hash "t0" "hub1" _ "ztp"), empty_ok.
Qed.

Fixpoint apart (l : list InventorySite) : bool :=
  match l with
  | [] => true
  | x :: l' => forallb (λ y, negb (inventory_clash x y) && negb (inventory_clash y x)) l' && apart l'
  end.

Lemma apart_ok l : apart l = true → no_clash inventory_clash l.
Proof.
  induction l as [|x l IH]; [done|]. cbn [apart no_clash]. intros [Hx Hl]%andb_true_iff. split; [|by apply IH].
  intros y Hy. rewrite forallb_forall in Hx. apply list_elem_of_In in Hy. specialize (Hx y Hy).
  by apply andb_true_iff in Hx as [?%negb_true_iff ?%negb_true_iff].
Qed.

Lemma first_round : (changed_sites <$> (compiled "t1" network).1) = Ok ["hub1"; "hub2"; "site1"].
Proof. vm_compute. reflexivity. Qed.

Lemma compile_settles_witness :
  changed_sites <$> (compiled "t1" network).1 = Ok ["hub1"; "hub2"; "site1"] ∧
  changed_sites <$> (compiled "t2" (compiled "t1" network).2).1 = Ok [].
Proof.
  split; [exact first_round|].
  destruct (compiled "t1" network) as [[x|e] d'] eqn:E; [|pose proof first_round as F; rewrite E in F; discriminate F].
  destruct (compile_settles text_hash inputs "t1" core_config "compiler" None network x d' "t2" "compiler" None network_ok)
    as (y & d2 & E2 & _ & Hy & _).
  - apply apart_ok. vm_compute. reflexivity.
  - intros i Hi. apply inb_false.
    assert (forallb (λ i, negb (inb (iv_site i) HUBS)) active_items = true) as H by (vm_compute; reflexivity).
    rewrite forallb_forall in H. apply negb_true_iff, H. by apply list_elem_of_In.
  - reflexivity.
  - exact E.
  - cbn [snd]. unfold compiled. rewrite E2. cbn. by rewrite Hy.
Defined.

(** With one ownership row recorded, the hubs' states never compare equal: the
    row's route_version is dropped from the stored list but not from the freshly
    built tuple, so every compilation publishes a new version for both hubs. *)
Definition owned : Db := (transfer_ownership "t0" owner_document "policy" network).2.

Lemma ownership_never_settles :
  let d1 := (compiled "t1" owned).2 in let d2 := (compiled "t2" d1).2 in
  changed_sites <$> (compiled "t2" d1).1 = Ok ["hub1"; "hub2"] ∧
  changed_sites <$> (compiled "t3" d2).1 = Ok ["hub1"; "hub2"].
Proof. vm_compute. by split. Qed.
