(* ===== verification/PolicyService.v ===== *)
(** * The policy service ([policy_service_v5.py])

    The service keeps the policy database and a topology derived from the
    inventory in it.  Its operations compose the store (PolicyStore), the
    inventory (DynamicInventory) and the compiler (IntentCompiler); each call of
    one of these reads the clock once. *)
From S2P Require Import Prelude Net Marks PathSelection Model ModelValidate Json DesiredState Inventory Sql PolicyStore.
From S2P Require Import DynamicInventory IntentCompiler.
Local Open Scope string_scope.
Local Open Scope list_scope.
Local Open Scope Z_scope.

Record ActivationResult := { ar_site : string; ar_state : string; ar_detail : string; ar_desired : option DesiredState }.

(** [store] and [config]; [ticks] counts the readings of the clock. *)
Record Service := { database : Db; config : TopologyConfig; ticks : nat }.

(** [record.__dict__.copy()] *)
Definition site_profile (i : InventorySite) : dict string json :=
  [("site", JStr (iv_site i)); ("edge_node", JStr (iv_edge_node i)); ("device_id", JStr (iv_device_id i));
   ("lifecycle", JStr (lifecycle i)); ("address_id", JInt (iv_address_id i)); ("wireguard_index", JInt (iv_wireguard_index i));
   ("management_ip", JStr (iv_management_ip i)); ("lan_prefix", JStr (iv_lan_prefix i)); ("lan_gateway", JStr (iv_lan_gateway i));
   ("lan_switch", JStr (iv_lan_switch i)); ("lan_dpid", JInt (iv_lan_dpid i)); ("host_name", JStr (iv_host_name i));
   ("host_ip", JStr (iv_host_ip i)); ("interface_suffix", JStr (iv_interface_suffix i));
   ("preferred_hub", JStr (iv_preferred_hub i)); ("standby_hub", JStr (iv_standby_hub i));
   ("runtime_status", JStr (runtime_status i)); ("last_error", opt_json (last_error i));
   ("failure_stage", opt_json (failure_stage i)); ("recoverable", JInt (recoverable i)); ("created_at", JStr (created_at i));
   ("updated_at", JStr (updated_at i)); ("deleted_at", opt_json (deleted_at i))].

Section service.
Context `{PyRepr} (sha256 : dict string json → string) (key_hash : string → string).
Context (input_digest : list InventorySite → list IntentRow → list InputRow → string).
(** The readings of the clock, and the configured topology ([base_config]). *)
Context (clock : nat → string) (base : TopologyConfig).

(** ** Access to the state *)

(** A call that writes the database at one time. *)
Definition on_db {A} (m : string → M Db A) : M Service A := λ s,
  let '(r, d) := m (clock (ticks s)) (database s) in
  (r, {| database := d; config := config s; ticks := S (ticks s) |}).

Definition ask {A} (f : Db → A) : M Service A := s ← get; mret (f (database s)).
Definition configured {A} (f : TopologyConfig → A) : M Service A := s ← get; mret (f (config s)).

(** [self.config = self.inventory.topology(self.base_config)] *)
Definition refresh_config : M Service unit :=
  s ← get; c ← lift (topology base (database s));
  put {| database := database s; config := c; ticks := ticks s |}.

Definition compile_now (actor : string) : M Service compilation := on_db (λ now, compile sha256 input_digest now base actor None).

(** ** Operations *)

Definition stage_inventory (actor : string) : M Service unit :=
  _ ← on_db (λ now, seed_from_config now base actor); refresh_config.

(** [PolicyService(config, database)] over the tables of an existing file. *)
Definition open_service (d : Db) : result unit * Service :=
  stage_inventory "policy-seed" {| database := d; config := base; ticks := 0 |}.

Definition create_site (site device_id preferred standby actor : string) : M Service InventorySite :=
  record ← on_db (λ now, allocate now site device_id preferred standby actor);
  _ ← refresh_config; _ ← compile_now "policy-compiler"; mret record.

Definition transition_site (site cycle actor : string) (error operation_id stage : option string) (rec : bool)
    : M Service InventorySite :=
  record ← on_db (λ now, transition now site cycle actor error operation_id stage rec);
  _ ← refresh_config; _ ← compile_now "policy-compiler"; mret record.

Definition compile_control_state (actor : string) : M Service compilation := _ ← refresh_config; compile_now actor.

(** [if record.lifecycle == was: self.transition_site(site, next, actor="policy"); record = self.inventory.get(site)] *)
Definition advance (site was next : string) (record : option InventorySite) : M Service (option InventorySite) :=
  match record with
  | Some i =>
      if same_text (lifecycle i) was then
        _ ← transition_site site next "policy" None None None true; ask (get_site_row site)
      else mret record
  | None => mret None
  end.

Record registration := { rg_site : string; rg_registration : string; rg_state : string }.

Definition register_edge_identity (site public_key actor : string) : M Service registration :=
  c ← configured (λ c, c);
  let site := if dmem (hubs c) site then site else resolve_site c site in
  _ ← lift (raise_if (negb (inb site (site_names c))) ValueError "unknown edge site");
  repeated ← on_db (λ now, register_wireguard_public_key key_hash now site public_key actor);
  _ ← stage_inventory "policy";
  record ← ask (get_site_row site);
  hub ← configured (λ c, dmem (hubs c) site);
  _ ← (if hub : bool then mret None
       else record ← advance site "ZTP_STAGED" "ENROLLING" record;
            record ← advance site "ENROLLING" "ENROLLED" record;
            record ← advance site "ENROLLED" "REGISTERING" record;
            advance site "REGISTERING" "PROVISIONING" record);
  _ ← compile_control_state "policy-compiler";
  hub ← configured (λ c, dmem (hubs c) site);
  mret {| rg_site := site; rg_registration := if repeated : bool then "IDEMPOTENT" else "RECORDED";
          rg_state := if hub : bool then "HUB_READY" else "PENDING_HUBS" |}.

Definition desired_state_for (site : string) (d : Db) : option (dict string json) :=
  match latest_desired_state d site, get_site_row site d with
  | Some state, Some i => Some (dset state "site_profile" (JObj (site_profile i)))
  | state, _ => state
  end.

Definition acknowledge_edge (site : string) (version : Z) (dig : string) (route : Z) (status detail : string) : M Service unit :=
  _ ← on_db (λ now, ack_desired_state now site version dig route status detail);
  record ← ask (get_site_row site);
  match record with
  | Some i => if same_text status "VERIFIED" && inb (lifecycle i) ["PROVISIONING"; "RECONCILING"]
              then _ ← transition_site site "ACTIVE" "policy" None None None true; mret tt
              else mret tt
  | None => mret tt
  end.

(** ** Activation *)

Definition address_of (c : TopologyConfig) (site : string) (t : TunnelTarget) : result (string * string * string * string) :=
  a ← overlay_ip c site (tt_hub t) (tt_transport t); Ok (addr_str a, tt_hub t, tt_transport t, interface_name t).

Definition port_of (c : TopologyConfig) (site : string) (t : TunnelTarget) : result (string * Z * string) :=
  p ← wireguard_port c site (tt_hub t) (tt_transport t); Ok (site, p, interface_name t).

Definition initial_ownership (site : string) (profile : Site) (existing : option OwnerRow) : OwnershipRecord :=
  let epoch := match existing with Some r => owner_epoch (ow_record r) + 1 | None => 1 end in {|
  prefix := network_str (lan_network profile); spoke := site; PolicyStore.preferred_hub := Model.preferred_hub profile;
  PolicyStore.standby_hub := Model.standby_hub profile; current_owner_hub := Model.preferred_hub profile;
  previous_owner_hub := match existing with Some r => Some (current_owner_hub (ow_record r)) | None => None end;
  owner_epoch := epoch; policy_version := epoch; PolicyStore.route_version := epoch; state := "PREPARED";
  reason := "hub-first initial activation"; pending_reconciliation := false; valid_until := None |}.

Definition policy_generation (site : string) (version : Z) : string := "policy-" +:+ site +:+ "-" +:+ str_Z version.

(** From the reservation on: ownership, then the spoke's desired state. *)
Definition publish_spoke (c : TopologyConfig) (site : string) (profile : Site) (keys : dict string string) (actor : string)
    : M Service DesiredState :=
  existing ← ask (λ d, route_owner d (network_str (lan_network profile)));
  let ownership := initial_ownership site profile existing in
  _ ← on_db (λ now, transfer_ownership now ownership actor);
  version ← ask (λ d, next_desired_state_version d site);
  hk ← lift (hub_keys keys);
  desired ← lift (build_spoke_desired_state c site hk (policy_generation site version) version
                    (PolicyStore.route_version ownership) (owner_epoch ownership) None);
  _ ← on_db (λ now, put_desired_state sha256 now (to_dict sha256 desired) actor);
  mret desired.

(** [try: reserve_resources(...) except Exception] *)
Definition try_reserve (site : string) (addresses : list (string * string * string * string)) (ports : list (string * Z * string))
    (actor : string) : M Service (option string) := λ s,
  match on_db (λ now, reserve_resources now site addresses ports actor) s with
  | (Ok _, s') => (Ok None, s')
  | (Err e, s') => (Ok (Some (exn_msg e)), s')
  end.

Definition pending (site state detail : string) : ActivationResult :=
  {| ar_site := site; ar_state := state; ar_detail := detail; ar_desired := None |}.

Definition activate_spoke (site actor : string) : M Service ActivationResult :=
  c ← configured (λ c, c);
  _ ← lift (raise_if (negb (dmem (sites c) site)) ValueError "only configured spokes can be activated");
  keys ← ask active_wireguard_public_keys;
  if negb (subsetb ["hub1"; "hub2"; site] (dkeys keys)) then
    mret (pending site "PENDING_HUBS" "spoke and both hub public keys are required") else
  verified ← ask (λ d, latest_desired_state_is_verified d "hub1" && latest_desired_state_is_verified d "hub2");
  if negb verified then mret (pending site "PENDING_HUBS" "both hubs must verify the current peer desired state") else
  existing ← ask (λ d, latest_desired_state d site);
  match existing with
  | Some _ => mret (pending site "EDGE_CONFIGURING" "existing spoke desired state is available for reconciliation")
  | None =>
      profile ← lift (get_site c site);
      targets ← lift (spoke_targets c site);
      addresses ← lift (mapM_result (address_of c site) targets);
      ports ← lift (mapM_result (port_of c site) targets);
      failed ← try_reserve site addresses ports actor;
      match failed with
      | Some why => mret (pending site "PENDING_RECONCILIATION" ("resource reservation failed: " +:+ why))
      | None =>
          desired ← publish_spoke c site profile keys actor;
          mret {| ar_site := site; ar_state := "EDGE_CONFIGURING";
                  ar_detail := "both hubs verified; spoke desired state published"; ar_desired := Some desired |}
      end
  end.

(** The callbacks may use the service. *)
Definition hub_first_activate (site : string) (public_keys : dict string string) (gen : string) (version epoch : Z)
    (prepare_hub : string → string → M Service bool) (apply_spoke : DesiredState → M Service bool) (actor : string)
    : M Service ActivationResult :=
  c ← configured (λ c, c);
  _ ← lift (raise_if (negb (dmem (sites c) site)) ValueError "site is not a staged spoke");
  failed ← foldMS (λ failed hub, match failed with
                                 | Some _ => mret failed
                                 | None => ready ← prepare_hub hub site; mret (if ready : bool then None else Some hub)
                                 end) None HUBS;
  match failed with
  | Some hub => mret (pending site "PENDING_HUBS" (hub +:+ " preparation/verification failed"))
  | None =>
      c ← configured (λ c, c);
      desired ← lift (build_spoke_desired_state c site public_keys gen version version epoch None);
      let payload := to_dict sha256 desired in
      _ ← on_db (λ now, put_desired_state sha256 now payload actor);
      applied ← apply_spoke desired;
      if negb applied then
        mret {| ar_site := site; ar_state := "PENDING_RECONCILIATION";
                ar_detail := "both hubs prepared; spoke apply/verify pending"; ar_desired := Some desired |}
      else
        dig ← lift (text_field payload "configuration_digest");
        _ ← on_db (λ now, ack_desired_state now site version dig version "VERIFIED" "six interfaces/peers verified");
        mret {| ar_site := site; ar_state := "ACTIVE"; ar_detail := "both hubs prepared and spoke verified";
                ar_desired := Some desired |}
  end.

Definition reconcile_edge_report (site : string) (desired_version route_version : Z) (status : string) (d : Db) : string :=
  match find (is_state site desired_version) (desired_rows d) with
  | None => "STALE"
  | Some r => if dr_route_version r <? route_version then "EDGE_AHEAD" else status
  end.
End service.
