(* ===== verification/ServiceFacts.v ===== *)
(** * What the policy service guarantees

    The invariant of the policy database under every operation of the service,
    and hub-first activation: a spoke's first desired state appears only in an
    activation that found both hubs verified. *)
From stdpp Require Import relations.
From S2P Require Import Prelude Net Marks PathSelection Model ModelValidate Json DesiredState CoreTopology Inventory Sql PolicyStore.
From S2P Require Import PolicyStoreFacts StoreHistory DynamicInventory InventoryFacts IntentCompiler CompilerFacts PolicyService.
Local Open Scope string_scope.
Local Open Scope list_scope.
Local Open Scope Z_scope.

(** ** The invariant *)

Definition has_state (d : Db) (site : string) : Prop := ∃ r, r ∈ desired_rows d ∧ dr_site r = site.

(** Only a site with a desired state is ACTIVE. *)
Definition live (d : Db) : Prop := ∀ i, i ∈ PolicyStore.inventory_rows d → lifecycle i = "ACTIVE" → has_state d (iv_site i).

Record service_ok (d : Db) : Prop := {
  sv_store : store_ok d;
  sv_unique : no_clash inventory_clash (PolicyStore.inventory_rows d);
  sv_live : live d
}.

(** How the database moves: desired states appear for hubs and for [P] only. *)
Definition evolves (P : string → Prop) (d d' : Db) : Prop :=
  service_ok d → service_ok d' ∧ grows d d' ∧ ∀ x, has_state d' x → x ∈ HUBS ∨ P x ∨ has_state d x.

#[export] Instance evolves_preorder P : PreOrder (evolves P).
Proof.
  split.
  - intros d Hd. split_and!; [done|done|by auto].
  - intros a b c H1 H2 Ha. destruct (H1 Ha) as (Hb & G1 & S1). destruct (H2 Hb) as (Hc & G2 & S2).
    split_and!; [done|by etrans|]. intros x [Hx|[Hx|Hx]]%S2; auto.
Qed.

(** [evolves] from a database that satisfies [Q]. *)
Definition evolves_if (P : string → Prop) (Q : Db → Prop) (d d' : Db) : Prop := Q d → evolves P d d'.

Lemma evolves_if_preorder P (Q : Db → Prop) : (∀ a b, grows a b → Q a → Q b) → PreOrder (evolves_if P Q).
Proof.
  intros HQ. split; unfold evolves_if; [by intros a _|]. intros a b c H1 H2 Ha Hok. destruct (H1 Ha Hok) as (Hb & G1 & S1).
  destruct (H2 (HQ _ _ G1 Ha) Hb) as (Hc & G2 & S2). split_and!; [done|by etrans|]. intros x [Hx|[Hx|Hx]]%S2; auto.
Qed.

Lemma evolves_implies P Q a b : evolves P a b → evolves_if P Q a b.
Proof. by intros ? ?. Qed.

Lemma grows_state d d' x : grows d d' → has_state d x → has_state d' x.
Proof.
  intros [Hg _ _ _ _ _ _ _] (r & Hr & Hx). destruct Hg as [k Hk].
  assert (identity r ∈ map identity (desired_rows d')) as (r' & [= E _ _ _] & Hr')%elem_of_map.
  { rewrite Hk. apply elem_of_app. left. apply elem_of_map. by exists r. }
  exists r'. split; [done|congruence].
Qed.

(** ** Single tables *)

Lemma evolves_advance P d d' : advances d d' → PolicyStore.inventory_rows d' = PolicyStore.inventory_rows d →
  (∀ x, has_state d' x → x ∈ HUBS ∨ P x ∨ has_state d x) → evolves P d d'.
Proof.
  intros Ha Hi Hs [Hok Hu Hl]. destruct (Ha Hok) as [Hok' Hg]. split_and!; try done. split; [done|by rewrite Hi|].
  intros i. rewrite Hi. intros Hin Hact. eapply grows_state; [done|by apply Hl].
Qed.

(** The part of the database [evolves] looks at. *)
Definition core (d : Db) :=
  ((key_rows d, desired_rows d, ack_rows d, owner_rows d, policy_rows d, activation_rows d, delivery_rows d),
   (address_rows d, port_rows d, audit_rows d, site_rows d, PolicyStore.inventory_rows d)).

Lemma evolves_core P d d' : core d' = core d → evolves P d d'.
Proof.
  intros [= E1 E2 E3 E4 E5 E6 E7 E8 E9 E10 E11 E12]. apply evolves_advance; [|done|].
  - intros []. split; [split; rewrite ?E1, ?E2, ?E3, ?E4, ?E5, ?E6, ?E7, ?E8, ?E9, ?E10, ?E11; auto|].
    split; rewrite ?E1, ?E2, ?E3, ?E4, ?E5, ?E6, ?E7, ?E8, ?E9, ?E10, ?E11; done.
  - intros x (r & Hr & Hx). rewrite E2 in Hr. right. right. by exists r.
Qed.

Lemma evolves_site_rows P d p f :
  (∀ r, sr_site (f r) = sr_site r ∧ sr_device (f r) = sr_device r ∧ sr_lan (f r) = sr_lan r) →
  evolves P d (set_site_rows d (update_rows p f (site_rows d))).
Proof.
  intros Hf. apply evolves_advance; [|done|by auto]. intros []. split; [split; cbn; auto|split; cbn; auto; try reflexivity].
  - apply update_rows_no_clash; [| |done]; intros a b; unfold site_clash; destruct (Hf a) as (-> & -> & ->); done.
  - apply map_update_rows. intros r. by destruct (Hf r) as (-> & -> & ->).
Qed.

Lemma evolves_inventory P d rows : no_clash inventory_clash rows →
  (∀ i, i ∈ rows → lifecycle i = "ACTIVE" → has_state d (iv_site i)) → evolves P d (set_inventory_rows d rows).
Proof.
  intros Hn Hl [[] Hu Hl0]. split_and!; [split; [by split|done|done]|by split; cbn|by auto].
Qed.

Lemma with_lifecycle_clash a b f : (∀ i, ∃ c r e s z u t, f i = with_lifecycle i c r e s z u t) →
  inventory_clash (f a) b = inventory_clash a b ∧ inventory_clash b (f a) = inventory_clash b a.
Proof. intros Hf. by destruct (Hf a) as (? & ? & ? & ? & ? & ? & ? & ->). Qed.

(** A lifecycle update; a site made ACTIVE must have a state. *)
Lemma evolves_lifecycle P d site f :
  (∀ i, ∃ c r e s z u t, f i = with_lifecycle i c r e s z u t) →
  (∀ i, i ∈ PolicyStore.inventory_rows d → iv_site i = site → lifecycle (f i) = "ACTIVE" → lifecycle i = "ACTIVE" ∨ has_state d site) →
  evolves P d (set_inventory_rows d (update_rows (is_site site) f (PolicyStore.inventory_rows d))).
Proof.
  intros Hf Hact Hok. pose proof Hok as [_ Hu Hl]. revert Hok. apply evolves_inventory.
  - apply update_rows_no_clash; [| |done]; intros a b; by apply with_lifecycle_clash.
  - intros i (j & Hj & ->)%update_rows_elem. destruct (is_site site j) eqn:Ej; [|by apply Hl].
    apply String.eqb_eq in Ej. assert (iv_site (f j) = iv_site j) as -> by (by destruct (Hf j) as (? & ? & ? & ? & ? & ? & ? & ->)).
    intros Ha. destruct (Hact j Hj Ej Ha) as [Hx|Hx]; [by apply Hl|by rewrite Ej].
Qed.

(** ** The operations of the inventory *)

Section operations.
Context (P : string → Prop).

Lemma transaction_moves (R : relation Db) `{!Reflexive R} {A} (m : M Db A) : moves R m → moves R (transaction m).
Proof. intros Hm d. specialize (Hm d). unfold transaction. by destruct (m d) as [[x|e] d']. Qed.

Lemma evolves_query {A} (f : Db → A) : moves (evolves P) (query f).
Proof. by intros d. Qed.

Lemma evolves_execute f : (∀ d, core (f d) = core d) → moves (evolves P) (execute f).
Proof. intros Hf d. apply evolves_core, Hf. Qed.

Lemma evolves_audit now actor action target why res b a : moves (evolves P) (audit now actor action target why res b a).
Proof. intros d. apply evolves_advance; [apply moves_audit|done|by auto]. Qed.

Lemma evolves_event now kind subject payload : moves (evolves P) (event now kind subject payload).
Proof. by apply evolves_execute. Qed.

Lemma evolves_get_or_fail site msg : moves (evolves P) (get_or_fail site msg).
Proof. intros d. unfold get_or_fail. run_store. by destruct (get_site_row site d). Qed.

Lemma evolves_add_site now site dev lan p s status :
  moves (evolves P) (execute_checked site_rows set_site_rows (insert_row site_clash (site_row now site dev lan p s status))).
Proof.
  intros d. unfold execute_checked. run_store. destruct (insert_row _ _ _) as [rows|e] eqn:E; [|done].
  apply evolves_advance; [by eapply advance_site_added|done|by auto].
Qed.

Lemma evolves_add_inventory i : lifecycle i ≠ "ACTIVE" →
  moves (evolves P) (execute_checked PolicyStore.inventory_rows set_inventory_rows (insert_row inventory_clash i)).
Proof.
  intros Ha d. unfold execute_checked. run_store. destruct (insert_row _ _ _) as [rows|e] eqn:E; [|done]. cbn [snd].
  intros Hok. pose proof Hok as [_ Hu Hl]. revert Hok. apply evolves_inventory; [by apply (insert_no_clash _ _ _ _ Hu E)|].
  apply insert_row_ok in E as [-> _]. intros j [Hj|Hj]%elem_of_app; [by apply Hl|]. by apply list_elem_of_singleton in Hj as ->.
Qed.

Lemma evolves_reallocate now site :
  moves (evolves P) (execute (λ d, set_inventory_rows d (update_rows (is_site site)
    (λ i, with_lifecycle i "ALLOCATING" "NOT_REQUESTED" None None 1 now None) (PolicyStore.inventory_rows d)))).
Proof. intros d. apply evolves_lifecycle; [by eexists _, _, _, _, _, _, _|done]. Qed.

Lemma evolves_site_status now site status :
  moves (evolves P) (execute (λ d, set_site_rows d (update_rows (λ r, same_text (sr_site r) site) (λ r,
    {| sr_site := sr_site r; sr_device := sr_device r; sr_lan := sr_lan r; sr_preferred := sr_preferred r;
       sr_standby := sr_standby r; sr_status := status; sr_created := sr_created r; sr_updated := now |}) (site_rows d)))).
Proof. intros d. by apply evolves_site_rows. Qed.

End operations.

#[local] Ltac evolve_step :=
  first [ moves_step | apply evolves_query | apply evolves_audit | apply evolves_event | apply evolves_get_or_fail
        | apply (transaction_moves _) | apply evolves_add_site | apply evolves_site_status | apply evolves_reallocate
        | apply evolves_add_inventory; done | apply evolves_execute; done ].

Section inventory.
Context (P : string → Prop) `{PyRepr}.

Lemma seed_evolves now c actor : moves (evolves P) (seed_from_config now c actor).
Proof. unfold seed_from_config. repeat evolve_step. Qed.

Lemma allocate_evolves now site dev p s actor : moves (evolves P) (allocate now site dev p s actor).
Proof. unfold allocate. cbv zeta. repeat evolve_step. Qed.

(** A transition to ACTIVE needs a desired state; the others need nothing. *)
Lemma transition_evolves now site cycle actor error op stage rec d :
  cycle ≠ "ACTIVE" ∨ has_state d site → evolves P d (transition now site cycle actor error op stage rec d).2.
Proof.
  intros Hc. enough (moves (evolves_if P (λ d, cycle ≠ "ACTIVE" ∨ has_state d site)) (transition now site cycle actor error op stage rec))
    as Hm by (by apply Hm).
  assert (Hstay : ∀ a b, grows a b → cycle ≠ "ACTIVE" ∨ has_state a site → cycle ≠ "ACTIVE" ∨ has_state b site).
  { intros a b Hg [?|Hs]; [by left|right]. by eapply grows_state. }
  pose proof (evolves_if_preorder P _ Hstay) as Hpre. unfold transition. cbv zeta.
  assert (Hleaf : ∀ A (m : M Db A), moves (evolves P) m →
    moves (evolves_if P (λ d, cycle ≠ "ACTIVE" ∨ has_state d site)) m) by (intros A m Hm d0 _; apply Hm).
  moves_step. apply (moves_bind _); [apply (transaction_moves _)|intros r; destruct r; apply Hleaf; evolve_step].
  apply (moves_bind _); [apply Hleaf, evolves_query|intros row]. moves_step. moves_step; [apply Hleaf; repeat evolve_step|].
  moves_step. moves_step. apply (moves_bind _); [|intros _; apply Hleaf; repeat evolve_step].
  intros d0 Hd0. apply evolves_lifecycle; [by eexists _, _, _, _, _, _, _|]. intros i Hi Es Ha. right. cbn in Ha.
  by destruct Hd0 as [Hd0|Hd0].
Qed.

Lemma runtime_evolves now site status actor error : moves (evolves P) (set_runtime_status now site status actor error).
Proof.
  unfold set_runtime_status. repeat evolve_step. intros d. apply evolves_lifecycle; [intros i; by eexists _, _, _, _, _, _, _|].
  intros i _ _ Ha. by left.
Qed.

Lemma create_operation_evolves now id site kind : moves (evolves P) (create_operation now id site kind).
Proof. apply (transaction_moves _), evolves_execute. intros d. by destruct (_ || _). Qed.

Lemma update_operation_evolves now id state stage why rec : moves (evolves P) (update_operation now id state stage why rec).
Proof. unfold update_operation. repeat evolve_step. Qed.
End inventory.

(** ** The operations of the store *)

(** An operation that advances the store and leaves the inventory alone. *)
Lemma store_evolves (P : string → Prop) {A} (m : M Db A) : moves advances m → moves (keeps PolicyStore.inventory_rows) m →
  (∀ d x, has_state (m d).2 x → x ∈ HUBS ∨ P x ∨ has_state d x) → moves (evolves P) m.
Proof. intros Ha Hi Hs d. apply evolves_advance; [apply Ha|apply Hi|apply Hs]. Qed.

(** ... and leaves the desired states alone, too. *)
Lemma store_evolves_same (P : string → Prop) {A} (m : M Db A) : moves advances m → moves (keeps PolicyStore.inventory_rows) m →
  moves (keeps desired_rows) m → moves (evolves P) m.
Proof.
  intros Ha Hi Hd. apply store_evolves; [done|done|]. intros d x (r & Hr & Hx). rewrite (Hd d) in Hr. right. right. by exists r.
Qed.

#[local] Ltac frame_step := first [ moves_step | apply (transaction_moves _) | by intros ? ].

Section store.
Context (P : string → Prop) `{PyRepr} (sha256 : dict string json → string) (key_hash : string → string) (now : string).

Lemma keeps_checked {X A} (proj : Db → X) (table : Db → list A) set f :
  (∀ d rows, proj (set d rows) = proj d) → moves (keeps proj) (execute_checked table set f).
Proof. intros Hs d. unfold execute_checked. run_store. destruct (f (table d)); [apply Hs|done]. Qed.

Lemma register_evolves site key actor : moves (evolves P) (register_wireguard_public_key key_hash now site key actor).
Proof.
  apply store_evolves_same; [apply register_moves|..]; intros d;
    destruct (register_effect key_hash now site key actor d) as [[E _]|(rows & g & -> & _)]; try done; red; by rewrite E.
Qed.

Lemma reserve_evolves site addresses ports actor : moves (evolves P) (reserve_resources now site addresses ports actor).
Proof.
  apply store_evolves_same; [apply reserve_moves|..]; unfold reserve_resources;
    repeat first [ moves_step | apply (transaction_moves _) | apply keeps_checked; done | by intros ? ].
Qed.

Lemma ack_evolves site version dig route status detail : moves (evolves P) (ack_desired_state now site version dig route status detail).
Proof.
  apply store_evolves; [apply ack_moves| |]; intros d;
    destruct (ack_effect now site version dig route status detail d) as [[-> _]|(_ & _ & ->)]; try done.
  - by destruct (same_text _ _).
  - auto.
  - destruct (same_text status "VERIFIED"); [|by auto]. intros x (r & Hr & Hx). cbn in Hr.
    apply update_rows_elem in Hr as (t & Ht & ->). right. right. exists t. split; [done|]. by destruct (is_state _ _ t).
Qed.

Lemma transfer_evolves new actor : moves (evolves P) (transfer_ownership now new actor).
Proof.
  apply store_evolves_same; [apply transfer_moves|..]; intros d;
    destruct (transfer_effect now new actor d) as [[E _]|(_ & _ & owners & pending & audits & E & _)]; red; by rewrite E.
Qed.

Lemma delivery_evolves site policy desired applied observed :
  moves (evolves P) (record_destination_policy_delivery now site policy desired applied observed).
Proof.
  apply store_evolves_same; [apply delivery_moves|..]; unfold record_destination_policy_delivery;
    repeat first [ moves_step | apply (transaction_moves _) | by intros ? ].
Qed.

Lemma activate_evolves document actor : moves (evolves P) (activate_destination_policy sha256 now document actor).
Proof.
  apply store_evolves_same; [apply activate_moves|..]; intros d; pose proof (activate_effect sha256 now document actor d) as He;
    destruct (with_policy _ _ _ _ _) as [v rows]; destruct He as (b & audits & -> & _); done.
Qed.

(** Publishing for the sites of [P], or for a hub. *)
Lemma put_evolves s actor : (∀ x, text_field s "site" = Ok x → x ∈ HUBS ∨ P x) →
  moves (evolves P) (put_desired_state sha256 now s actor).
Proof.
  intros Hs. apply store_evolves; [apply put_moves| |]; intros d;
    destruct (put_effect sha256 now s actor d) as [[E _]|(site & version & dig & gen & schema & route & epoch & Hsite & _ & _ & _ & Er & audits & E)].
  - red. by rewrite E.
  - red. by rewrite E.
  - rewrite E. auto.
  - intros x (r & Hr & Hx). rewrite Er in Hr. apply elem_of_app in Hr as [Hr|Hr].
    + right. right. apply supersede_place in Hr as (t & Ht & [= Et _ _ _]). exists t. split; [done|congruence].
    + apply list_elem_of_singleton in Hr as ->. cbn in Hx. subst x. destruct (Hs site Hsite); auto.
Qed.
End store.

(** ** The compiler *)

Section compiler.
Context `{PyRepr} (sha256 : dict string json → string).
Context (input_digest : list InventorySite → list IntentRow → list InputRow → string) (now : string).

(** A relation that every publication and every other row keeps is kept by a
    compilation; the sites are read back after the hubs. *)
Lemma compile_moves (R : relation Db) `{!PreOrder R} base actor trigger d c :
  (∀ a b, core b = core a → R a b) → topology base d = Ok c →
  (∀ hub ch, hub ∈ HUBS →
    moves R (publish sha256 now (hub_state c (active_wireguard_public_keys d) (ownership_of d) hub) hub actor ch)) →
  (∀ a i ch, R d a → i ∈ PolicyStore.inventory_rows a → lifecycle i = "ACTIVE" →
    moves R (publish sha256 now (site_state c (active_wireguard_public_keys d) (iv_site i)) (iv_site i) actor ch)) →
  R d (compile sha256 input_digest now base actor trigger d).2.
Proof.
  intros Hcore Hc Hhub Hsite. unfold compile. cbv [get lift query mbind M_bind mret M_ret]. rewrite Hc. cbn beta iota zeta.
  set (keys := active_wireguard_public_keys d) in *. set (owners := ownership_of d) in *.
  assert (H1 : R d (compile_hubs sha256 now c keys owners actor d).2).
  { unfold compile_hubs. destruct (both_hubs keys); [|done]. apply (moves_foldMS R). intros acc hub Hh. by apply Hhub. }
  destruct (compile_hubs _ _ _ _ _ _ d) as [[ch1|e] d1]; [|done]. cbn [snd] in H1.
  assert (H2 : R d1 (compile_sites sha256 now c keys actor (list_sites false d1) ch1 d1).2).
  { unfold compile_sites. apply (moves_foldMS R). intros acc i Hi. apply sort_by_elem, filter_elem in Hi as [Hi _].
    destruct (same_text (lifecycle i) "ACTIVE") eqn:Ha; cbn [negb orb]; [|by apply moves_ret].
    destruct (_ || _); [by apply moves_ret|]. by apply (Hsite d1); [..|by apply String.eqb_eq]. }
  destruct (compile_sites _ _ _ _ _ _ _ d1) as [[ch2|e] d2]; cbn [snd] in H2; [|by etrans].
  etrans; [exact H1|]. etrans; [exact H2|]. apply Hcore. unfold transaction, execute, get, put, mbind, M_bind. by destruct trigger.
Qed.

Lemma put_keeps_inventory s actor : moves (keeps PolicyStore.inventory_rows) (put_desired_state sha256 now s actor).
Proof.
  intros d. destruct (put_effect sha256 now s actor d) as [[-> _]|(? & ? & ? & ? & ? & ? & ? & _ & _ & _ & _ & _ & ? & ->)]; done.
Qed.

Lemma publish_evolves P build site actor ch :
  (∀ g v a, build g v = Ok a → ds_site a ∈ HUBS ∨ P (ds_site a)) → moves (evolves P) (publish sha256 now build site actor ch).
Proof.
  intros Hb. unfold publish. repeat first [moves_step | apply evolves_query]. apply put_evolves.
  intros y [= <-]. by eapply Hb.
Qed.

(** A built spoke state is of the site itself when the topology has it. *)
Lemma site_state_site c keys site g v a : dmem (sites c) site = true → site_state c keys site g v = Ok a → ds_site a = site.
Proof. intros Hm Ha. by destruct (site_publishes c keys site Hm) as [Hs _]; destruct (Hs g v a Ha). Qed.

Lemma resolve_member c site : dmem (sites c) site = true → resolve_site c site = site.
Proof. intros Hm. unfold resolve_site, logical_site. by rewrite Hm. Qed.

(** Compiling publishes for hubs and for sites that are ACTIVE, which have a
    state: it adds none. *)
Lemma compile_evolves P base actor trigger : moves (evolves P) (compile sha256 input_digest now base actor trigger).
Proof.
  intros d Hok. destruct (topology base d) as [c|e] eqn:Hc.
  2: { assert (compile sha256 input_digest now base actor trigger d = (Err e, d)) as ->; [|by apply evolves_preorder].
       unfold compile. cbv [get lift mbind M_bind]. by rewrite Hc. }
  set (R := λ a b, PolicyStore.inventory_rows b = PolicyStore.inventory_rows a ∧ evolves (has_state d) a b).
  assert (PreOrder R) as HR.
  { split; [by intros a; split|]. intros a b x [E1 H1] [E2 H2]. split; [congruence|by etrans]. }
  assert (Hpub : ∀ build site ch, (∀ g v a, build g v = Ok a → ds_site a ∈ HUBS ∨ has_state d (ds_site a)) →
    moves R (publish sha256 now build site actor ch)).
  { intros build site ch Hb a. split; [|by apply publish_evolves].
    unfold publish. revert a. change (moves (keeps PolicyStore.inventory_rows) (publish sha256 now build site actor ch)).
    unfold publish. repeat first [moves_step | by intros ? | apply put_keeps_inventory]. }
  destruct (compile_moves R base actor trigger d c) as [_ He]; [|done|..|].
  - intros a b Hab. split; [by injection Hab|by apply evolves_core].
  - intros hub ch Hh. apply Hpub. intros g v a Ha. left. by destruct (hub_shape _ _ _ _ _ _ _ _ _ Ha) as (-> & _).
  - intros a i ch [Ha _] Hi Hact. rewrite Ha in Hi. apply Hpub. intros g v b Hb. right.
    assert (Hl : i ∈ list_sites false d).
    { apply sort_by_elem, filter_elem. split; [done|]. by rewrite Hact. }
    rewrite (site_state_site c _ _ g v b (topology_sites base d c Hc i Hl Hact) Hb). by apply Hok.
  - destruct (He Hok) as (? & ? & Hs). split_and!; try done. intros x Hx. destruct (Hs x Hx) as [|[|]]; auto.
Qed.
End compiler.

(** ** The service *)

Section service.
Context `{PyRepr} (sha256 : dict string json → string) (key_hash : string → string).
Context (input_digest : list InventorySite → list IntentRow → list InputRow → string) (clock : nat → string) (base : TopologyConfig).

(** [evolves], seen by the service. *)
Definition serves (P : string → Prop) (s s' : Service) : Prop := evolves P (database s) (database s').

#[export] Instance serves_preorder P : PreOrder (serves P).
Proof. split; unfold serves; [by intros a|]. intros a b c H1 H2. by etrans. Qed.

(** One call of the service, or of the store and inventory operations other
    components reach through it, with any arguments. ACTIVE is set only by
    [acknowledge_edge]. *)
Inductive service_step (s : Service) : Service → Prop :=
  | svc_stage actor : service_step s (stage_inventory clock base actor s).2
  | svc_create site dev p t actor : service_step s (create_site sha256 input_digest clock base site dev p t actor s).2
  | svc_transition site cycle actor error op stage rec : cycle ≠ "ACTIVE" →
      service_step s (transition_site sha256 input_digest clock base site cycle actor error op stage rec s).2
  | svc_compile actor : service_step s (compile_control_state sha256 input_digest clock base actor s).2
  | svc_register site key actor : service_step s (register_edge_identity sha256 key_hash input_digest clock base site key actor s).2
  | svc_ack site version dig route status detail :
      service_step s (acknowledge_edge sha256 input_digest clock base site version dig route status detail s).2
  | svc_activate site actor : service_step s (activate_spoke sha256 clock site actor s).2
  | svc_deliver site policy desired a o :
      service_step s (on_db clock (λ now, record_destination_policy_delivery now site policy desired a o) s).2
  | svc_policy document actor : service_step s (on_db clock (λ now, activate_destination_policy sha256 now document actor) s).2
  | svc_runtime site status actor error : service_step s (on_db clock (λ now, set_runtime_status now site status actor error) s).2
  | svc_operation id site kind : service_step s (on_db clock (λ now, create_operation now id site kind) s).2
  | svc_update id state stage why rec : service_step s (on_db clock (λ now, update_operation now id state stage why rec) s).2.

Section moves.
Context (P : string → Prop).

Lemma serves_db {A} (m : string → M Db A) : (∀ now, moves (evolves P) (m now)) → moves (serves P) (on_db clock m).
Proof.
  intros Hm s. unfold serves, on_db. specialize (Hm (clock (ticks s)) (database s)). by destruct (m _ _) as [r d].
Qed.

Lemma serves_ask {A} (f : Db → A) : moves (serves P) (ask f).
Proof. by intros s. Qed.

Lemma serves_configured {A} (f : TopologyConfig → A) : moves (serves P) (configured f).
Proof. by intros s. Qed.

Lemma serves_refresh : moves (serves P) (refresh_config base).
Proof. intros s. unfold refresh_config, get, lift, put, mbind, M_bind, serves. by destruct (topology base (database s)). Qed.

Lemma serves_compile actor : moves (serves P) (compile_now sha256 input_digest clock base actor).
Proof. apply serves_db. intros now. apply compile_evolves. Qed.

#[local] Ltac serve_step :=
  first [ moves_step | apply serves_ask | apply serves_configured | apply serves_refresh | apply serves_compile
        | apply serves_db; intros ? ].

Lemma serves_stage actor : moves (serves P) (stage_inventory clock base actor).
Proof. unfold stage_inventory. repeat serve_step. apply seed_evolves. Qed.

Lemma serves_create site dev p t actor : moves (serves P) (create_site sha256 input_digest clock base site dev p t actor).
Proof. unfold create_site. repeat serve_step. apply allocate_evolves. Qed.

Lemma serves_transition site cycle actor error op stage rec s : cycle ≠ "ACTIVE" ∨ has_state (database s) site →
  serves P s (transition_site sha256 input_digest clock base site cycle actor error op stage rec s).2.
Proof.
  intros Hc. unfold transition_site, mbind, M_bind.
  pose proof (transition_evolves P (clock (ticks s)) site cycle actor error op stage rec (database s) Hc) as H1.
  unfold on_db at 1. destruct (transition _ _ _ _ _ _ _ _ (database s)) as [[i|e] d]; [|done]. cbn [snd] in H1.
  set (s1 := {| database := d; config := config s; ticks := S (ticks s) |}). etrans; [exact (H1 : serves P s s1)|].
  change (serves P s1 ((_ ← refresh_config base; _ ← compile_now sha256 input_digest clock base "policy-compiler"; mret i) s1).2).
  apply (moves_bind _); [apply serves_refresh|intros _]. apply (moves_bind _); [apply serves_compile|intros ?; apply (moves_ret _)].
Qed.

Lemma serves_advance site was next record : next ≠ "ACTIVE" →
  moves (serves P) (advance sha256 input_digest clock base site was next record).
Proof.
  intros Hn. unfold advance. repeat serve_step. intros s. apply serves_transition. by left.
Qed.

Lemma serves_register site key actor :
  moves (serves P) (register_edge_identity sha256 key_hash input_digest clock base site key actor).
Proof.
  unfold register_edge_identity, compile_control_state. cbv zeta.
  repeat first [serve_step | apply serves_stage | apply serves_advance; done]. apply register_evolves.
Qed.

(** An acknowledged state exists, so the site may become ACTIVE. *)
Lemma serves_ack site version dig route status detail :
  moves (serves P) (acknowledge_edge sha256 input_digest clock base site version dig route status detail).
Proof.
  intros s. unfold acknowledge_edge, mbind, M_bind. unfold on_db at 1.
  pose proof (ack_evolves P (clock (ticks s)) site version dig route status detail (database s)) as H1.
  pose proof (ack_effect (clock (ticks s)) site version dig route status detail (database s)) as He. cbv zeta in He.
  destruct (ack_desired_state _ _ _ _ _ _ _ (database s)) as [[u|e] d]; [|exact H1]. cbn [snd fst] in H1, He.
  set (s1 := {| database := d; config := config s; ticks := S (ticks s) |}). etrans; [exact (H1 : serves P s s1)|].
  unfold ask, get, mret, M_ret, mbind, M_bind. cbn beta iota.
  destruct (get_site_row site (database s1)) as [i|]; [|done]. destruct (_ && _); [|done].
  assert (Hs : has_state (database s1) site).
  { destruct He as [(_ & ? & _)|(_ & (r & [Hr Hrs]%find_elem & _) & ->)]; [done|]. apply is_state_iff in Hrs as [Hrs _].
    cbn [database s1]. destruct (same_text status "VERIFIED"); [|by exists r].
    exists (if is_state site version r then verified r else r).
    split; [cbn; apply update_rows_elem; by exists r|by destruct (is_state _ _ r)]. }
  pose proof (serves_transition site "ACTIVE" "policy" None None None true s1 (or_intror Hs)) as H2.
  by destruct (transition_site _ _ _ _ _ _ _ _ _ _ _ s1) as [[?|?] ?].
Qed.

Lemma serves_publish c site profile keys actor : dmem (sites c) site = true → P site →
  moves (serves P) (publish_spoke sha256 clock c site profile keys actor).
Proof.
  intros Hm HP. unfold publish_spoke. cbv zeta. repeat serve_step; [apply transfer_evolves|]. apply put_evolves.
  intros y [= <-]. right. match goal with H : build_spoke_desired_state _ _ _ _ _ _ _ _ = Ok _ |- _ =>
    destruct (spoke_shape _ _ _ _ _ _ _ _ H) as (E & _) end.
  by rewrite E, resolve_member.
Qed.

Lemma serves_reserve site addresses ports actor : moves (serves P) (try_reserve clock site addresses ports actor).
Proof.
  intros s. unfold try_reserve. pose proof (serves_db (λ now, reserve_resources now site addresses ports actor)
    ltac:(intros; apply reserve_evolves) s) as H1. by destruct (on_db _ _ s) as [[?|?] ?].
Qed.

Lemma serves_activate site actor : P site → moves (serves P) (activate_spoke sha256 clock site actor).
Proof.
  intros HP. unfold activate_spoke. repeat first [serve_step | apply serves_reserve].
  apply serves_publish; [|done].
  match goal with H : raise_if (negb (dmem (sites ?c) site)) _ _ = Ok _ |- _ => destruct (dmem (sites c) site); done end.
Qed.
End moves.

Lemma step_serves s s' : service_step s s' → ∃ P, serves P s s' ∧
  ((∀ x, ¬ P x) ∨ ∃ site actor, P = eq site ∧ s' = (activate_spoke sha256 clock site actor s).2).
Proof.
  intros Hs. destruct Hs;
    try (exists (λ _, False); split; [|left; by intros ? []];
         first [ apply serves_stage | apply serves_create | apply serves_transition; by left | apply serves_register
               | apply serves_ack | apply serves_db; intros ? ];
         first [ apply delivery_evolves | apply activate_evolves | apply runtime_evolves | apply create_operation_evolves
               | apply update_operation_evolves ]).
  - exists (λ _, False). split; [|left; by intros ? []].
    apply (moves_bind _); [apply serves_refresh|intros ?; apply serves_compile].
  - exists (eq site). split; [by apply serves_activate|]. right. by exists site, actor.
Qed.

Lemma open_ok d : service_ok d → service_ok (database (open_service clock base d).2).
Proof.
  intros Hd. by destruct (serves_stage (λ _, False) "policy-seed" {| database := d; config := base; ticks := 0 |} Hd).
Qed.

Lemma steps_ok s s' : rtc service_step s s' → service_ok (database s) → service_ok (database s') ∧ grows (database s) (database s').
Proof.
  induction 1 as [s|s s1 s2 Hs _ IH]; intros Hok; [by split|].
  destruct (step_serves _ _ Hs) as (P & Hp & _). destruct (Hp Hok) as (H1 & G1 & _). destruct (IH H1) as (H2 & G2).
  split; [done|by etrans].
Qed.

(** Calls that leave the desired states alone. *)
Lemma reserve_keeps_states site addresses ports actor s :
  desired_rows (database (try_reserve clock site addresses ports actor s).2) = desired_rows (database s) ∧
  config (try_reserve clock site addresses ports actor s).2 = config s ∧
  key_rows (database (try_reserve clock site addresses ports actor s).2) = key_rows (database s).
Proof.
  unfold try_reserve, on_db. set (now := clock (ticks s)).
  assert (moves (keeps (λ d, (desired_rows d, key_rows d))) (reserve_resources now site addresses ports actor)) as Hk.
  { unfold reserve_resources. repeat first [moves_step | apply (transaction_moves _) | apply keeps_checked; done | by intros ?]. }
  specialize (Hk (database s)). red in Hk. destruct (reserve_resources _ _ _ _ _ (database s)) as [[?|?] d]; by injection Hk.
Qed.

Lemma transfer_keeps_states now new actor : moves (keeps desired_rows) (transfer_ownership now new actor).
Proof.
  intros d. destruct (transfer_effect now new actor d) as [[E _]|(_ & _ & owners & pending & audits & E & _)]; red; by rewrite E.
Qed.

Lemma on_db_run {A} (m : string → M Db A) s : ∃ r d, m (clock (ticks s)) (database s) = (r, d) ∧
  on_db clock m s = (r, {| database := d; config := config s; ticks := S (ticks s) |}).
Proof. unfold on_db. destruct (m _ _) as [r d]. by exists r, d. Qed.

(** The publication of a spoke without a desired state. *)
Lemma publish_spoke_cases c site profile keys actor s r s' :
  dmem (sites c) site = true → publish_spoke sha256 clock c site profile keys actor s = (r, s') →
  (∀ x, x ∈ desired_rows (database s) → dr_site x ≠ site) →
  (∀ x, x ∈ desired_rows (database s') → dr_site x ≠ site) ∨
  ∃ hk epoch desired, hub_keys keys = Ok hk ∧
    build_spoke_desired_state c site hk (policy_generation site 1) 1 epoch epoch None = Ok desired ∧
    latest_desired_state (database s') site = Some (to_dict sha256 desired) ∧ r = Ok desired.
Proof.
  intros Hm Hrun Hno. unfold publish_spoke, ask in Hrun. cbv [get mret M_ret mbind M_bind lift] in Hrun. cbn beta iota zeta in Hrun.
  set (own := initial_ownership site profile _) in Hrun.
  destruct (on_db_run (λ now, transfer_ownership now own actor) s) as (r1 & d1 & E1 & E2). rewrite E2 in Hrun. clear E2.
  pose proof (transfer_keeps_states (clock (ticks s)) own actor (database s)) as Hk. rewrite E1 in Hk. red in Hk. cbn [snd] in Hk.
  assert (Hno1 : ∀ x, x ∈ desired_rows d1 → dr_site x ≠ site) by (intros x; rewrite Hk; apply Hno).
  destruct r1 as [b|e]; [|injection Hrun as _ <-; by left]. cbn [database config] in Hrun.
  assert (Hst : states_of site d1 = []).
  { unfold states_of. destruct (List.filter _ _) as [|x l] eqn:Ef; [done|]. exfalso.
    assert (x ∈ List.filter (λ r, same_text (dr_site r) site) (desired_rows d1)) as [Hx Hs]%filter_elem by (rewrite Ef; constructor).
    by apply (Hno1 x), String.eqb_eq. }
  unfold next_desired_state_version in Hrun. rewrite Hst in Hrun. change (max_key dr_version [] + 1) with 1 in Hrun.
  destruct (hub_keys keys) as [hk|e]; [|injection Hrun as _ <-; by left].
  destruct (build_spoke_desired_state _ _ _ _ _ _ _ _) as [desired|e] eqn:Hb; [|injection Hrun as _ <-; by left].
  set (s1 := {| database := d1 |}) in Hrun. unfold on_db in Hrun. cbn [database ticks config s1] in Hrun.
  destruct (put_desired_state _ _ _ _ d1) as [[[dg known]|e] d2] eqn:Hput; injection Hrun as <- <-; cbn [database].
  2: { left. destruct (put_effect sha256 (clock (S (ticks s))) (to_dict sha256 desired) actor d1)
         as [[E _]|(? & ? & ? & ? & ? & ? & ? & _ & _ & E & _)]; rewrite Hput in E; [|done]. cbn in E. by rewrite E. }
  right. exists hk, (owner_epoch own), desired. split_and!; try done.
  destruct (spoke_shape _ _ _ _ _ _ _ _ Hb) as (Hs & Hv & _). rewrite resolve_member in Hs by done.
  assert (Hsite : text_field (to_dict sha256 desired) "site" = Ok site) by (by rewrite <- Hs).
  assert (Hver : int_field (to_dict sha256 desired) "desired_state_version" = Ok 1) by (by rewrite <- Hv).
  destruct (put_effect sha256 (clock (S (ticks s))) (to_dict sha256 desired) actor d1)
    as [[_ E]|(y & v & dig & gen & schema & route & epoch & Hy & Hv' & _ & _ & E & _)]; rewrite Hput in E; cbn [fst snd] in E.
  - destruct (E dg known eq_refl) as (_ & x & Hx & _ & Ex & _). rewrite Hsite in Ex. injection Ex as Ex. by destruct (Hno1 x Hx).
  - rewrite Hsite in Hy. injection Hy as <-. unfold latest_desired_state, states_of. rewrite E, List.filter_app.
    assert (List.filter (λ r, same_text (dr_site r) site) (supersede site v (desired_rows d1)) = []) as ->.
    { destruct (List.filter _ _) as [|x l] eqn:Ef; [done|]. exfalso.
      assert (x ∈ List.filter (λ r, same_text (dr_site r) site) (supersede site v (desired_rows d1))) as [Hx Hsx]%filter_elem
        by (rewrite Ef; constructor).
      apply supersede_place in Hx as (t & Ht & [= Et _ _ _]). apply (Hno1 t Ht). rewrite Et. by apply String.eqb_eq. }
    cbn. unfold same_text. by rewrite String.eqb_refl.
Qed.

(** What an activation that published has seen and done. *)
Lemma activate_cases site actor s r s' : activate_spoke sha256 clock site actor s = (r, s') →
  ¬ has_state (database s) site → has_state (database s') site →
  (∀ x, x ∈ ["hub1"; "hub2"; site] → dmem (active_wireguard_public_keys (database s)) x = true) ∧
  (∀ hub, hub ∈ HUBS → latest_desired_state_is_verified (database s) hub = true) ∧
  ∃ hk epoch desired, hub_keys (active_wireguard_public_keys (database s)) = Ok hk ∧
    build_spoke_desired_state (config s) site hk (policy_generation site 1) 1 epoch epoch None = Ok desired ∧
    latest_desired_state (database s') site = Some (to_dict sha256 desired) ∧
    r = Ok {| ar_site := site; ar_state := "EDGE_CONFIGURING"; ar_detail := "both hubs verified; spoke desired state published";
              ar_desired := Some desired |}.
Proof.
  intros Hrun Hno Hyes. unfold activate_spoke, configured, ask in Hrun. cbv [get mret M_ret mbind M_bind lift] in Hrun.
  cbn beta iota zeta in Hrun.
  destruct (dmem (sites (config s)) site) eqn:Hm; cbn [negb raise_if raise] in Hrun; [|by injection Hrun as _ <-].
  destruct (subsetb _ _) eqn:Hkeys; cbn [negb] in Hrun; [|by injection Hrun as _ <-].
  destruct (latest_desired_state_is_verified (database s) "hub1") eqn:H1; cbn [andb negb] in Hrun; [|by injection Hrun as _ <-].
  destruct (latest_desired_state_is_verified (database s) "hub2") eqn:H2; cbn [negb] in Hrun; [|by injection Hrun as _ <-].
  destruct (latest_desired_state (database s) site); [by injection Hrun as _ <-|].
  destruct (get_site _ _) as [profile|]; [|by injection Hrun as _ <-].
  destruct (spoke_targets _ _) as [targets|]; [|by injection Hrun as _ <-].
  destruct (mapM_result (address_of _ _) _) as [addresses|]; [|by injection Hrun as _ <-].
  destruct (mapM_result (port_of _ _) _) as [ports|]; [|by injection Hrun as _ <-].
  destruct (reserve_keeps_states site addresses ports actor s) as (Hd & Hc & Hk).
  destruct (try_reserve _ _ _ _ _ s) as [[[why|]|e] s1]; cbn [snd] in Hd, Hc, Hk.
  1, 3: injection Hrun as _ <-; exfalso; apply Hno; unfold has_state in *; by rewrite Hd in Hyes.
  destruct (publish_spoke _ _ _ _ _ _ _ s1) as [r2 s2] eqn:Hpub.
  assert (database s2 = database s') as E by (destruct r2; by injection Hrun as _ <-).
  destruct (publish_spoke_cases _ _ _ _ _ _ _ _ Hm Hpub) as [Hnone|(hk & epoch & desired & Hhk & Hb & Hl & ->)].
  - intros x Hx Es. rewrite Hd in Hx. apply Hno. by exists x.
  - exfalso. destruct Hyes as (x & Hx & Es). rewrite <- E in Hx. by apply (Hnone x).
  - injection Hrun as <- <-. split_and!.
    + intros x Hx. apply subsetb_true in Hkeys. by apply dmem_true, Hkeys.
    + intros hub. unfold HUBS. rewrite !elem_of_cons, elem_of_nil. by intros [->|[->|[]]].
    + by exists hk, epoch, desired.
Qed.

(** ** Registration *)

Lemma compile_keeps base0 now actor trigger : moves (keeps (λ d, (key_rows d, PolicyStore.inventory_rows d)))
  (compile sha256 input_digest now base0 actor trigger).
Proof.
  set (R := keeps (λ d, (key_rows d, PolicyStore.inventory_rows d))).
  assert (Hpub : ∀ build site ch, moves R (publish sha256 now build site actor ch)).
  { intros build site ch. unfold publish. repeat first [moves_step | by intros ?]. intros d.
    match goal with |- R d (put_desired_state ?f ?n ?x ?a d).2 =>
      destruct (put_effect f n x a d) as [[-> _]|(? & ? & ? & ? & ? & ? & ? & _ & _ & _ & _ & _ & ? & ->)] end; done. }
  intros d. destruct (topology base0 d) as [c|e] eqn:Hc.
  - apply (compile_moves _ _ _ R _ _ _ _ c); [|done|..]; [|by intros..].
    intros a b [= E1 E2 E3 E4 E5 E6 E7 E8 E9 E10 E11 E12]. unfold R, keeps. congruence.
  - unfold compile, get, lift, mbind, M_bind. by rewrite Hc.
Qed.

(** A refresh and a compilation that succeed. *)
Lemma republish_run {A} (x : A) s r s' :
  (_ ← refresh_config base; _ ← compile_now sha256 input_digest clock base "policy-compiler"; mret x) s = (Ok r, s') →
  r = x ∧ key_rows (database s') = key_rows (database s) ∧ PolicyStore.inventory_rows (database s') = PolicyStore.inventory_rows (database s) ∧
  hubs (config s') = hubs base.
Proof.
  intros ([] & s1 & H1 & (comp & s2 & H2 & [= <- <-])%bind_run)%bind_run.
  apply bind_run in H1 as (t & ? & [= <- <-] & (c & Hc & [= <-])%lift_bind_run).
  unfold compile_now in H2. destruct (on_db_run (λ now, compile sha256 input_digest now base "policy-compiler" None)
    {| database := database s; config := c; ticks := ticks s |}) as (r1 & d & E1 & E2). rewrite E2 in H2. injection H2 as -> <-.
  pose proof (compile_keeps base (clock (ticks s)) "policy-compiler" None (database s)) as Hk. cbn [database ticks] in E1. rewrite E1 in Hk.
  injection Hk as Hk1 Hk2. split_and!; try done. cbn [config]. unfold topology, with_sites in Hc.
  apply bind_Ok in Hc as (ss & _ & Hc). by apply bind_unit_ok in Hc as [_ [= <-]].
Qed.

Lemma transition_site_run site cycle actor error op stage rec s i s' :
  transition_site sha256 input_digest clock base site cycle actor error op stage rec s = (Ok i, s') →
  (∃ j, get_site_row site (database s') = Some j ∧ lifecycle j = cycle) ∧ key_rows (database s') = key_rows (database s) ∧
  hubs (config s') = hubs base.
Proof.
  unfold transition_site. intros (x & s1 & H1 & Hrun)%bind_run.
  destruct (on_db_run (λ now, transition now site cycle actor error op stage rec) s) as (r & d & E1 & E2). rewrite E2 in H1.
  injection H1 as -> <-. apply republish_run in Hrun as (-> & Hk & Hi & Hh). cbn [database] in Hk, Hi.
  assert (Hkeep : moves (keeps key_rows) (transition (clock (ticks s)) site cycle actor error op stage rec)).
  { unfold transition. cbv zeta. repeat first [moves_step | apply (transaction_moves _) | by intros ?
      | intros d0; unfold get_or_fail; run_store; by destruct (get_site_row site d0)]. }
  pose proof (Hkeep (database s)) as Hkd. rewrite E1 in Hkd. red in Hkd. cbn [snd] in Hkd.
  split_and!; [|congruence|done].
  apply transition_cases in E1 as (old & Hold & _ & E1). unfold get_site_row in *. rewrite Hi.
  destruct (same_text (lifecycle old) cycle) eqn:Es.
  - destruct E1 as [_ ->]. exists old. split; [done|by apply String.eqb_eq].
  - destruct E1 as (_ & _ & ->). eexists. split; [by apply (find_update_hit _ _ _ old)|done].
Qed.

Lemma advance_run site was next j s x s' : get_site_row site (database s) = Some j → hubs (config s) = hubs base →
  advance sha256 input_digest clock base site was next (Some j) s = (Ok x, s') →
  ∃ j', x = Some j' ∧ get_site_row site (database s') = Some j' ∧ hubs (config s') = hubs base ∧
    key_rows (database s') = key_rows (database s) ∧ lifecycle j' = if same_text (lifecycle j) was then next else lifecycle j.
Proof.
  intros Hj Hh. unfold advance. destruct (same_text (lifecycle j) was).
  - intros (i & s1 & H1 & H2)%bind_run. apply transition_site_run in H1 as ((j' & Hj' & Hl) & Hk & Hh').
    unfold ask in H2. apply bind_run in H2 as (t & ? & [= <- <-] & [= <- <-]). by exists j'.
  - intros [= <- <-]. by exists j.
Qed.

(** Staging keeps the keys and the rows of the inventory. *)
Definition retains (d d' : Db) : Prop :=
  key_rows d' = key_rows d ∧ ∀ y i, get_site_row y d = Some i → get_site_row y d' = Some i.

#[export] Instance retains_preorder : PreOrder retains.
Proof. split; [by intros d|]. intros a b c [E1 H1] [E2 H2]. split; [congruence|auto]. Qed.

Lemma seed_retains now c actor : moves retains (seed_from_config now c actor).
Proof.
  unfold seed_from_config. repeat first [moves_step | apply (transaction_moves _) | by intros ?].
  - intros d. unfold execute_checked. run_store. destruct (insert_row _ _ _) as [rows|e] eqn:E; [|done].
    apply insert_row_ok in E as [-> _]. split; [done|]. intros y j. unfold get_site_row.
    change (find (is_site y) (PolicyStore.inventory_rows d) = Some j →
            find (is_site y) (PolicyStore.inventory_rows d ++ [seed_record now x]) = Some j).
    induction (PolicyStore.inventory_rows d) as [|z l IH]; [done|]. simpl. by destruct (is_site y z).
  - intros d. unfold execute_checked. run_store. by destruct (insert_row _ _ _).
Qed.

Lemma stage_run actor s s' : stage_inventory clock base actor s = (Ok tt, s') →
  retains (database s) (database s') ∧ hubs (config s') = hubs base.
Proof.
  unfold stage_inventory. intros ([] & s1 & H1 & H2)%bind_run.
  destruct (on_db_run (λ now, seed_from_config now base actor) s) as (r & d & E1 & E2). rewrite E2 in H1. injection H1 as -> <-.
  pose proof (seed_retains (clock (ticks s)) base actor (database s)) as Hr. rewrite E1 in Hr. cbn [snd] in Hr.
  apply bind_run in H2 as (t & ? & [= <- <-] & (c & Hc & [= <-])%lift_bind_run). split; [done|]. cbn [config].
  unfold topology, with_sites in Hc. apply bind_Ok in Hc as (ss & _ & Hc). by apply bind_unit_ok in Hc as [_ [= <-]].
Qed.

(** The lifecycle states a registration completes. *)
Definition ONBOARDING : list string := ["ZTP_STAGED"; "ENROLLING"; "ENROLLED"; "REGISTERING"].

Lemma onboarded_chain l :
  let step was next l := if same_text l was then next else l in
  step "REGISTERING" "PROVISIONING" (step "ENROLLED" "REGISTERING" (step "ENROLLING" "ENROLLED" (step "ZTP_STAGED" "ENROLLING" l))) =
  if inb l ONBOARDING then "PROVISIONING" else l.
Proof.
  cbv zeta beta. unfold same_text, ONBOARDING.
  destruct (String.eqb_spec l "ZTP_STAGED") as [->|N1]; [reflexivity|].
  destruct (String.eqb_spec l "ENROLLING") as [->|N2]; [reflexivity|].
  destruct (String.eqb_spec l "ENROLLED") as [->|N3]; [reflexivity|].
  destruct (String.eqb_spec l "REGISTERING") as [->|N4]; [reflexivity|].
  destruct (inb l _) eqn:E; [|done]. apply inb_true in E. rewrite !elem_of_cons, elem_of_nil in E. naive_solver.
Qed.

(** what a successful registration of an edge leaves: the key is the site's
    active key, an unchanged key is reported as such and any other as recorded;
    a spoke that was being onboarded is PROVISIONING, a spoke in any other state
    stays there, and it is told to wait for the hubs. *)
Theorem registration_onboards site key actor s g s' :
  register_edge_identity sha256 key_hash input_digest clock base site key actor s = (Ok g, s') →
  let name := rg_site g in
  inb name (site_names (config s)) = true ∧
  (∃ r, r ∈ key_rows (database s') ∧ active_key name r = true ∧ k_public_key r = key) ∧
  (rg_registration g = "IDEMPOTENT" ↔ key_rows (database s') = key_rows (database s)) ∧
  ∀ i, dmem (hubs base) name = false → get_site_row name (database s) = Some i →
    rg_state g = "PENDING_HUBS" ∧ ∃ j, get_site_row name (database s') = Some j ∧
    lifecycle j = if inb (lifecycle i) ONBOARDING then "PROVISIONING" else lifecycle i.
Proof.
  intros Hrun. unfold register_edge_identity in Hrun. apply bind_run in Hrun as (c & s0 & H0 & Hrun).
  apply bind_run in H0 as (t & ? & [= <- <-] & [= <- <-]). cbv zeta in Hrun.
  set (name := if dmem (hubs (config s)) site then site else resolve_site (config s) site) in *.
  apply lift_bind_run in Hrun as ([] & Hname & Hrun). apply bind_run in Hrun as (b & s1 & H1 & Hrun).
  destruct (on_db_run (λ now, register_wireguard_public_key key_hash now name key actor) s) as (r & d & E1 & E2). rewrite E2 in H1.
  injection H1 as -> <-. apply bind_run in Hrun as ([] & s2 & H2 & Hrun). apply stage_run in H2 as [[Hk2 Hi2] Hh2]. cbn [database] in Hk2, Hi2.
  apply bind_run in Hrun as (rec & s3 & [= <- <-] & Hrun). apply bind_run in Hrun as (hub & s3 & [= <- <-] & Hrun).
  apply bind_run in Hrun as (x & s3 & H3 & Hrun). apply bind_run in Hrun as (comp & s4 & H4 & Hrun).
  apply bind_run in Hrun as (hub & s5 & [= <- <-] & [= <- <-]). cbn [rg_site rg_registration rg_state].
  assert (H4' : key_rows (database s4) = key_rows (database s3) ∧ PolicyStore.inventory_rows (database s4) = PolicyStore.inventory_rows (database s3) ∧
    hubs (config s4) = hubs base).
  { destruct (republish_run comp s3 comp s4) as (_ & ? & ? & ?); [|done]. unfold compile_control_state in H4.
    apply bind_run in H4 as ([] & s6 & H5 & H6). unfold mbind, M_bind. rewrite H5. cbn beta iota. by rewrite H6. }
  destruct H4' as (Hk4 & Hi4 & Hh4).
  assert (H3' : key_rows (database s3) = key_rows (database s2) ∧
    ∀ i, dmem (hubs base) name = false → get_site_row name (database s2) = Some i →
      ∃ j, get_site_row name (database s3) = Some j ∧ lifecycle j = if inb (lifecycle i) ONBOARDING then "PROVISIONING" else lifecycle i).
  { rewrite Hh2 in H3. destruct (dmem (hubs base) name); [by injection H3 as _ <-|].
    destruct (get_site_row name (database s2)) as [i|] eqn:Hi.
    2: { split; [|done]. by injection H3 as _ <-. }
    apply bind_run in H3 as (y1 & t1 & A1 & H3). destruct (advance_run _ _ _ _ _ _ _ Hi Hh2 A1) as (j1 & -> & G1 & U1 & K1 & L1).
    apply bind_run in H3 as (y2 & t2 & A2 & H3). destruct (advance_run _ _ _ _ _ _ _ G1 U1 A2) as (j2 & -> & G2 & U2 & K2 & L2).
    apply bind_run in H3 as (y3 & t3 & A3 & H3). destruct (advance_run _ _ _ _ _ _ _ G2 U2 A3) as (j3 & -> & G3 & U3 & K3 & L3).
    destruct (advance_run _ _ _ _ _ _ _ G3 U3 H3) as (j4 & -> & G4 & U4 & K4 & L4). split; [congruence|].
    intros i' _ [= <-]. exists j4. split; [done|]. rewrite L4, L3, L2, L1. apply onboarded_chain. }
  destruct H3' as (Hk3 & Hl3). split_and!.
  - unfold raise_if in Hname. by destruct (inb name _).
  - rewrite Hk4, Hk3, Hk2. pose proof (register_effect key_hash (clock (ticks s)) name key actor (database s)) as He. rewrite E1 in He. cbn [fst snd] in He.
    destruct He as [[-> Hb]|(rows & g' & He & _ & _)].
    + by destruct (Hb b eq_refl) as (_ & r & Hr & Ha & Ek); exists r.
    + injection He as _ ->. exists (new_key (clock (ticks s)) key_hash name key g'). split_and!; [|by apply active_key_iff|done].
      cbn. apply elem_of_app. right. constructor.
  - rewrite Hk4, Hk3, Hk2. pose proof (register_effect key_hash (clock (ticks s)) name key actor (database s)) as He. rewrite E1 in He. cbn [fst snd] in He.
    destruct He as [[-> Hb]|(rows & g' & He & _ & Hf)].
    + by destruct (Hb b eq_refl) as (-> & _).
    + injection He as -> ->. split; [done|]. cbn. intros Hc. apply (f_equal length) in Hc. rewrite length_app in Hc. cbn in Hc.
      exfalso. destruct (find _ _); [|destruct Hf as [_ ->]; lia]. destruct Hf as [_ Hu]. apply update_checked_ok in Hu as ->. cbn [app] in Hc.
      unfold update_rows in Hc. rewrite length_map in Hc. lia.
  - intros i Hhub Hi. rewrite Hh4, Hhub. split; [done|]. unfold get_site_row. rewrite Hi4. apply Hl3; [done|]. apply Hi2.
    pose proof (register_effect key_hash (clock (ticks s)) name key actor (database s)) as He. rewrite E1 in He. cbn [fst snd] in He.
    destruct He as [[-> _]|(rows & g' & He & _)]; [done|]. by injection He as _ ->.
Qed.


(** C5: the policy database under the whole service.  Opened over any consistent
    database, every history of calls keeps the tables consistent, the inventory
    free of shared identifiers, and every ACTIVE site has a desired state; keys,
    states, policies, leases and the audit trail are only ever extended. *)
Theorem service_history d s s' :
  service_ok d → rtc service_step (open_service clock base d).2 s → rtc service_step s s' →
  service_ok (database s') ∧ grows (database s) (database s').
Proof. intros Hd H1 H2. apply (steps_ok s s' H2), (steps_ok _ s H1), open_ok, Hd. Qed.
End service.

Lemma empty_service_ok : service_ok empty_db.
Proof. split; [apply empty_ok|done|by intros ? ?%elem_of_nil]. Qed.

(** ** A bring-up: two hubs and the first site of the core topology *)

Definition ticking (n : nat) : string := "t" +:+ str_Z (Z.of_nat n).
Definition opened : Service := (open_service ticking core_config empty_db).2.
Definition registered (site : string) (s : Service) : Service :=
  (register_edge_identity text_hash plain_hash inputs ticking core_config site ("key-" +:+ site) "ztp" s).2.
Definition acknowledged (site : string) (s : Service) : Service :=
  match latest_by dr_version (states_of site (database s)) with
  | Some r => (acknowledge_edge text_hash inputs ticking core_config site (dr_version r) (dr_digest r) (dr_route_version r) "VERIFIED" "" s).2
  | None => s
  end.
Definition keyed_service : Service := registered "site1" (registered "hub2" (registered "hub1" opened)).
Definition ready : Service := acknowledged "hub2" (acknowledged "hub1" keyed_service).
Definition activated (s : Service) : result ActivationResult * Service := activate_spoke text_hash ticking "site1" "admin" s.

Definition in_service : relation Service := service_step text_hash plain_hash inputs ticking core_config.

Lemma acknowledged_steps site s : rtc in_service s (acknowledged site s).
Proof. unfold acknowledged. destruct (latest_by _ _) as [r|]; [|apply rtc_refl]. apply rtc_once, svc_ack. Qed.

Lemma keyed_steps : rtc in_service opened keyed_service.
Proof. unfold keyed_service, registered. repeat (eapply rtc_r; [|apply svc_register]). apply rtc_refl. Qed.

Lemma ready_steps : rtc in_service opened ready.
Proof. unfold ready. etrans; [apply keyed_steps|]. etrans; apply acknowledged_steps. Qed.

Definition stateful (site : string) (s : Service) : bool := existsb (λ r, same_text (dr_site r) site) (desired_rows (database s)).

Lemma stateful_iff site s : stateful site s = true ↔ has_state (database s) site.
Proof.
  unfold stateful, has_state. rewrite existsb_exists. split; intros (r & Hr & E); exists r.
  - split; [by apply list_elem_of_In|by apply String.eqb_eq].
  - split; [by apply list_elem_of_In|by apply String.eqb_eq].
Qed.

Definition life (site : string) (s : Service) : option string := lifecycle <$> get_site_row site (database s).

(** The site is registered, activated only once both hubs have verified, and
    ACTIVE once it has verified, too. *)
Lemma bring_up :
  life "site1" opened = Some "ZTP_STAGED" ∧ life "site1" keyed_service = Some "PROVISIONING" ∧
  (ar_state <$> (activated keyed_service).1) = Ok "PENDING_HUBS" ∧
  (ar_state <$> (activated ready).1) = Ok "EDGE_CONFIGURING" ∧
  life "site1" (acknowledged "site1" (activated ready).2) = Some "ACTIVE".
Proof. vm_compute. by split_and!. Qed.


Lemma service_history_witness :
  length (desired_rows (database ready)) = 4%nat ∧ store_ok (database ready) ∧
  map (λ r, dr_site r) (desired_rows (database keyed_service)) = ["hub1"; "hub2"; "hub1"; "hub2"].
Proof.
  split; [vm_compute; reflexivity|]. split; [|vm_compute; reflexivity].
  destruct (service_history text_hash plain_hash inputs ticking core_config empty_db opened ready empty_service_ok) as [[Hok _ _] _].
  - apply rtc_refl.
  - exact ready_steps.
  - exact Hok.
Defined.

Lemma registration_onboards_witness :
  let s := registered "hub2" (registered "hub1" opened) in
  ∃ j, get_site_row "site1" (database (registered "site1" s)) = Some j ∧ lifecycle j = "PROVISIONING".
Proof.
  intros s. destruct (register_edge_identity text_hash plain_hash inputs ticking core_config "site1" ("key-" +:+ "site1") "ztp" s)
    as [[g|e] s'] eqn:E; [|vm_compute in E; discriminate E].
  assert (Hg : rg_site g = "site1") by (vm_compute in E; injection E as <- _; reflexivity).
  destruct (registration_onboards text_hash plain_hash inputs ticking core_config "site1" _ "ztp" s g s' E) as (_ & _ & _ & Hl).
  rewrite Hg in Hl. destruct (get_site_row "site1" (database s)) as [i|] eqn:Hi; [|vm_compute in Hi; discriminate Hi].
  destruct (Hl i eq_refl eq_refl) as (_ & j & Hj & Hlife). exists j. unfold registered. rewrite E. split; [exact Hj|].
  rewrite Hlife. vm_compute in Hi. injection Hi as <-. reflexivity.
Defined.
