(* ===== verification/PolicyHttp.v ===== *)
(** * The policy service's HTTP boundary ([policy_http.py], [device_inventory.py])

    The application over the policy service: application classes, the devices
    that may speak for a site, the policy snapshot of a spoke, and the GET and
    POST handlers.  TLS is outside: a request carries the subject of the verified
    client certificate and the parsed body. *)
From S2P Require Import Prelude Net Marks PathSelection Model ModelValidate Json DesiredState DestinationModels Inventory Sql PolicyStore.
From S2P Require Import DynamicInventory IntentCompiler PolicyService.
Local Open Scope string_scope.
Local Open Scope list_scope.
Local Open Scope Z_scope.

(** ** Configuration documents *)

(** The classes [except ValueError] catches. *)
Definition is_value_error (e : exn) : bool :=
  inb (exn_cls e) [ValueError; ConfigurationError; DestinationPolicyError; InventoryError; StaleRouteVersion; StaleMeasurement;
                   InvalidEnrollmentTransition; AddressValueError].

Record ApplicationClass := {
  ac_sla_class : string; ac_allowed_egress : list string; ac_candidates : list string; ac_match : dict string json
}.

Record InventoryEntry := { ie_device : string; ie_role : string; ie_site : string }.

Section documents.
Context `{PyRepr}.

(** [not isinstance(raw, Mapping) or int(raw.get("schema_version", 0)) != 5 or
    not isinstance(raw.get(section), Mapping)] *)
Definition v5_section (raw : json) (name : string) (cls : exn_class) (msg : string) : result (dict string json) :=
  match raw with
  | JObj d =>
      v ← py_int (default (JInt 0) (dget d "schema_version"));
      match dget d name with
      | Some (JObj s) => if v =? 5 then Ok s else raise cls msg
      | _ => raise cls msg
      end
  | _ => raise cls msg
  end.

Definition application_class (c : TopologyConfig) (item : json) : result ApplicationClass :=
  eg ← getitem item "allowed_egress"; eg ← items_of eg; let egress := map py_str eg in
  tr ← getitem item "candidate_transports"; tr ← items_of tr; let names := map py_str tr in
  _ ← raise_if (existsb (λ e, negb (inb e (map egress_value egress_members))) egress) ValueError "unknown egress mode";
  _ ← raise_if (existsb (λ t, negb (dmem (transports c) t)) names) ValueError "unknown transport in application policy";
  let direct := inb (egress_value DIRECT_INTERNET) egress in
  _ ← (if direct then
         some ← any_capable c names;
         _ ← raise_if (negb some) ValueError "direct Internet policy has no Internet-capable transport";
         other ← any_incapable c names;
         raise_if other ValueError "direct Internet application candidates must all be Internet-capable"
       else Ok tt);
  m ← get_default item "match" (JObj []);
  m ← match m with JObj m => Ok m | _ => raise ValueError "application match must be a mapping" end;
  sla ← getitem item "sla_class";
  Ok {| ac_sla_class := py_str sla; ac_allowed_egress := egress; ac_candidates := names; ac_match := m |}.

Definition load_application_policy (raw : json) (c : TopologyConfig) : result (dict string ApplicationClass) :=
  classes ← v5_section raw "classes" ValueError "application policy must be a v5 classes mapping";
  foldM (λ acc p, a ← application_class c p.2; Ok (dset acc p.1 a)) [] classes.

Definition inventory_entry (acc : dict string InventoryEntry * list string) (p : string * json)
    : result (dict string InventoryEntry * list string) :=
  match p.2 with
  | JObj item =>
      let role := py_str (default JNull (dget item "role")) in
      let site := py_str (default JNull (dget item "assigned_site")) in
      _ ← raise_if (negb (inb role ["hub"; "spoke"; "cloud_gateway"]) || negb (nonempty site) || dmem acc.1 p.1 || inb site acc.2)
            InventoryError "duplicate or invalid inventory binding";
      Ok (dset acc.1 p.1 {| ie_device := p.1; ie_role := role; ie_site := site |}, site :: acc.2)
  | _ => raise InventoryError "inventory entries must be mappings"
  end.

Definition load_inventory (raw : json) : result (dict string InventoryEntry) :=
  devices ← v5_section raw "devices" InventoryError "inventory must be a v5 devices mapping";
  r ← foldM inventory_entry ([], []) devices; Ok r.1.
End documents.

(** ** The application *)

(** The service, and the application's own copy of its topology. *)
Record App := { service : Service; app_config : TopologyConfig }.

(** What the application reads once, when it starts. *)
Record Documents := {
  application_policy : dict string ApplicationClass; destination_policy : DestinationPolicyDocument;
  destination_policy_version : Z; staged : dict string InventoryEntry
}.

Section application.
Context `{PyRepr} (sha256 : dict string json → string) (key_hash : string → string).
Context (input_digest : list InventorySite → list IntentRow → list InputRow → string) (clock : nat → string) (base : TopologyConfig).

(** A call of the service. *)
Definition serve {A} (m : M Service A) : M App A := λ s,
  let '(r, s') := m (service s) in (r, {| service := s'; app_config := app_config s |}).

(** [PolicyApplication.__init__] over the tables of an existing database. *)
Definition open_application (app_policy inventory destination : json) (d : Db) : result Documents * App :=
  let '(opened, s0) := open_service clock base d in
  let start := {| service := s0; app_config := base |} in
  match opened with
  | Err e => (Err e, start)
  | Ok _ =>
      (classes ← lift (load_application_policy app_policy base);
       document ← lift (match destination with
                        | JObj raw => document_from_mapping base raw
                        | _ => raise DestinationPolicyError "destination policy must be a mapping"
                        end);
       activated ← serve (on_db clock (λ now, activate_destination_policy sha256 now (to_mapping document) "policy-config"));
       staged ← lift (load_inventory inventory);
       _ ← serve (stage_inventory clock base "admin");
       s ← get; _ ← put {| service := service s; app_config := config (service s) |};
       mret {| application_policy := classes; destination_policy := document; destination_policy_version := activated.1;
               staged := staged |}) start
  end.

Context (conf : Documents).

Definition refresh_inventory : M App unit :=
  _ ← serve (stage_inventory clock base "admin");
  s ← get; put {| service := service s; app_config := config (service s) |}.

Definition TERMINAL : list string := ["DELETING"; "DECOMMISSIONING"; "REVOKED"; "DELETED"].

(** The site of the first record of the device, the staged file otherwise. *)
Definition site_of_device (device : string) (d : Db) : result string :=
  match find (λ i, same_text (iv_device_id i) device) (list_sites false d) with
  | Some i =>
      _ ← raise_if (inb (lifecycle i) TERMINAL) PermissionError "operational certificate belongs to a terminal inventory record";
      _ ← raise_if (same_text (lifecycle i) "FAILED" && (recoverable i =? 0)) PermissionError
            "operational certificate belongs to a non-recoverable inventory record";
      Ok (iv_site i)
  | None => e ← of_option (dget (staged conf) device) PermissionError
                  "operational certificate is not assigned in authoritative inventory"; Ok (ie_site e)
  end.

Definition site_for_device (device : string) : M App string :=
  _ ← refresh_inventory; s ← get; lift (site_of_device device (database (service s))).

(** ** The snapshot of a spoke *)

Definition class_json (a : ApplicationClass) : json := JObj
  [("sla_class", JStr (ac_sla_class a)); ("allowed_egress", texts (ac_allowed_egress a));
   ("candidate_transports", texts (ac_candidates a)); ("ranked_transports", texts (ac_candidates a)); ("match", JObj (ac_match a))].

(** [_intent] *)
Definition intent_of (application : string) (prefix : option string) : result (dict string json) :=
  a ← of_option (dget (application_policy conf) application) ValueError ("application policy lacks required class " +:+ application);
  let intent := ("application", JStr application) :: match class_json a with JObj d => d | _ => [] end in
  Ok (match prefix with Some p => dset intent "prefix" (JStr p) | None => intent end).

(** The intent towards the LAN of another site, [index]th of the topology. *)
Definition branch_intent (realtime : ApplicationClass) (index : nat) (name : string) (item : Site) : json := JObj
  [("policy_id", JStr ("branch_private_" +:+ name)); ("priority", JInt (100 + Z.of_nat index));
   ("prefix", JStr (network_str (lan_network item))); ("destination_type", JStr "BRANCH_PRIVATE");
   ("application", JStr "REALTIME_RTP"); ("application_classes", texts ["REALTIME_RTP"]);
   ("allowed_egress", texts (ac_allowed_egress realtime)); ("candidate_transports", texts (ac_candidates realtime));
   ("ranked_transports", texts (ac_candidates realtime)); ("failure_action", JStr "FAIL_CLOSED");
   ("application_matchers", texts ["RTP"; "UDP/5004"])].

Fixpoint branch_intents (realtime : ApplicationClass) (site : string) (index : nat) (ss : dict string Site) : list json :=
  match ss with
  | [] => []
  | (name, item) :: rest =>
      (if same_text name site then [] else [branch_intent realtime index name item]) ++ branch_intents realtime site (S index) rest
  end.

Definition destination_intents (c : TopologyConfig) : list json :=
  omap (λ p, if bool_decide (destination_type p = DestinationType.CLOUD_VPC) && negb (vpc_enabled (cloud_vpc c))
             then None else Some (JObj (to_intent p))) (policies (destination_policy conf)).

Definition snapshot (site : string) : M App (dict string json) :=
  c ← (s ← get; mret (app_config s));
  let site := resolve_site c site in
  _ ← refresh_inventory;
  c ← (s ← get; mret (app_config s));
  _ ← lift (raise_if (negb (dmem (sites c) site)) ValueError "unknown edge site");
  profile ← lift (get_site c site);
  realtime ← lift (of_option (dget (application_policy conf) "REALTIME_RTP") KeyError "REALTIME_RTP");
  let intents := branch_intents realtime site 0 (sites c) ++ destination_intents c in
  s ← get;
  version ← lift (match desired_state_for site (database (service s)) with
                  | Some ((_ :: _) as desired) => int_field desired "desired_state_version"
                  | _ => Ok 0
                  end);
  _ ← serve (on_db clock (λ now, record_destination_policy_delivery now site (destination_policy_version conf) version
                                   "DELIVERED" "UNOBSERVED"));
  mret [("schema_version", JInt 5); ("site", JStr site); ("preferred_hub", JStr (Model.preferred_hub profile));
        ("standby_hub", JStr (Model.standby_hub profile)); ("policy_version", JInt (destination_policy_version conf));
        ("application_policy", JObj (dmap class_json (application_policy conf)));
        ("destination_intents", JList intents);
        ("default_intent", JObj (to_intent (default_policy (destination_policy conf))));
        ("transport_marks", JObj (dmap (λ t, JInt (route_slot t)) (transports c)));
        ("mark_connection_mask", JInt (connection_mask (marks (settings c))))].

(** ** Requests *)

(** [subject]: the relative distinguished names of the client certificate;
    [length]: the Content-Length header; [body]: what [json.loads] makes of it. *)
Record Request := { path : string; subject : list (list (string * string)); length_header : option string; body : result json }.

Definition OK : Z := 200.
Definition ACCEPTED : Z := 202.
Definition BAD_REQUEST : Z := 400.
Definition FORBIDDEN : Z := 403.
Definition NOT_FOUND : Z := 404.

Definition response : Type := Z * dict string json.
Definition error_body (msg : string) : dict string json := [("error", JStr msg)].
Definition no_route : response := (NOT_FOUND, error_body "not found").

Definition peer_common_name (r : Request) : result string :=
  p ← of_option (find (λ p, same_text p.1 "commonName") (concat (subject r))) PermissionError
        "mTLS client certificate common name is required";
  Ok p.2.

Definition edge_site (r : Request) : M App string := cn ← lift (peer_common_name r); site_for_device cn.

Definition admin_actor (r : Request) : result string :=
  cn ← peer_common_name r;
  _ ← raise_if (negb (same_text cn "sdwan-admin")) PermissionError "administrator mTLS certificate is required";
  Ok "mtls:sdwan-admin".

(** [_json] *)
Definition json_body (r : Request) : result (dict string json) :=
  length ← py_int (JStr (default "0" (length_header r)));
  _ ← raise_if (negb ((0 <? length) && (length <=? 256000))) ValueError "invalid request length";
  value ← body r;
  match value with JObj d => Ok d | _ => raise ValueError "JSON object required" end.

(** [self.path[len(prefix):]] *)
Definition after_prefix (prefix s : string) : string :=
  String.substring (String.length prefix) (String.length s - String.length prefix) s.

(** The [except] clauses of a handler; what is not caught ends the request
    without an answer. *)
Definition answered (catches : exn → bool) (m : M App response) : M App response := λ s,
  match m s with
  | (Err e, s') =>
      if bool_decide (exn_cls e = PermissionError) then (Ok (FORBIDDEN, error_body (exn_msg e)), s')
      else if catches e then (Ok (BAD_REQUEST, error_body (exn_msg e)), s')
      else (Err e, s')
  | r => r
  end.

(** [PRAGMA integrity_check] and the newest migration. *)
Context (integrity : result unit) (schema : Z).

Definition get_prefix : string := "/v1/edge/policy/".
Definition activate_prefix : string := "/v1/admin/activate/".

Definition do_GET (r : Request) : M App response := answered is_value_error (
  if same_text (path r) "/healthz" then
    _ ← lift integrity; mret (OK, [("status", JStr "ok"); ("schema_version", JInt schema)])
  else if same_text (path r) "/v1/edge/desired" then
    site ← edge_site r;
    s ← get;
    mret (match desired_state_for site (database (service s)) with
          | None => (ACCEPTED, [("site", JStr site); ("status", JStr "PENDING")])
          | Some desired => (OK, desired)
          end)
  else if String.prefix get_prefix (path r) then
    site ← edge_site r;
    _ ← lift (raise_if (negb (same_text (after_prefix get_prefix (path r)) site)) PermissionError
                "edge may read only its own policy snapshot");
    view ← snapshot site; mret (OK, view)
  else mret no_route).

Definition registration_json (g : registration) : dict string json :=
  [("site", JStr (rg_site g)); ("registration", JStr (rg_registration g)); ("state", JStr (rg_state g))].

Definition post_register (r : Request) (value : dict string json) : M App response :=
  site ← edge_site r;
  key ← lift (text_field value "wireguard_public_key"); cn ← lift (peer_common_name r);
  g ← serve (register_edge_identity sha256 key_hash input_digest clock base site key ("mtls:" +:+ cn));
  mret (OK, registration_json g).

Definition post_ack (r : Request) (value : dict string json) : M App response :=
  site ← edge_site r;
  version ← lift (int_field value "desired_state_version"); dig ← lift (text_field value "configuration_digest");
  route ← lift (int_field value "route_version"); status ← lift (text_field value "status");
  _ ← serve (acknowledge_edge sha256 input_digest clock base site version dig route status
               (py_str (default (JStr "") (dget value "detail"))));
  mret (OK, [("site", JStr site); ("status", JStr "recorded")]).

Definition post_activate (r : Request) : M App response :=
  actor ← lift (admin_actor r);
  a ← serve (activate_spoke sha256 clock (after_prefix activate_prefix (path r)) actor);
  mret (OK, [("site", JStr (ar_site a)); ("state", JStr (ar_state a)); ("detail", JStr (ar_detail a))]).

Definition post_event (r : Request) (value : dict string json) : M App response :=
  site ← edge_site r;
  version ← lift (int_field value "desired_state_version"); route ← lift (int_field value "route_version");
  status ← lift (text_field value "status");
  s ← get;
  mret (OK, [("reconciliation", JStr (reconcile_edge_report site version route status (database (service s))))]).

Definition do_POST (r : Request) : M App response :=
  answered (λ e, is_value_error e || bool_decide (exn_cls e = KeyError)) (
    value ← lift (json_body r);
    if same_text (path r) "/v1/edge/register" then post_register r value
    else if same_text (path r) "/v1/edge/ack" then post_ack r value
    else if String.prefix activate_prefix (path r) then post_activate r
    else if same_text (path r) "/v1/edge/event" then post_event r value
    else mret no_route).
End application.
