(* ===== verification/PolicyHttpFacts.v ===== *)
(** * What the policy service's HTTP boundary guarantees

    Every request is confined to the site its certificate speaks for; only the
    administrator's certificate activates a spoke. *)
From stdpp Require Import relations.
From S2P Require Import Prelude Net Marks PathSelection Model ModelValidate Json DesiredState DestinationModels CoreTopology Inventory Sql.
From S2P Require Import PolicyStore PolicyStoreFacts StoreHistory DynamicInventory InventoryFacts IntentCompiler CompilerFacts PolicyService.
From S2P Require Import ServiceFacts PolicyHttp.
Local Open Scope string_scope.
Local Open Scope list_scope.
Local Open Scope Z_scope.

(** ** What a site may touch *)

(** Keys, acknowledgements, deliveries and inventory rows change for the sites
    of [P] only; ownership, policies and leases do not change. *)
Record confined (P : string → Prop) (d d' : Db) : Prop := {
  cf_keys : ∀ r, ¬ P (k_site r) → (r ∈ key_rows d' ↔ r ∈ key_rows d);
  cf_acks : ∀ a, ¬ P (ak_site a) → (a ∈ ack_rows d' ↔ a ∈ ack_rows d);
  cf_deliveries : ∀ r, ¬ P (de_site r) → (r ∈ delivery_rows d' ↔ r ∈ delivery_rows d);
  cf_inventory : ∀ y i, ¬ P y → get_site_row y d = Some i → get_site_row y d' = Some i;
  cf_rest : (owner_rows d', policy_rows d', activation_rows d', address_rows d', port_rows d') =
            (owner_rows d, policy_rows d, activation_rows d, address_rows d, port_rows d)
}.

#[export] Instance confined_preorder P : PreOrder (confined P).
Proof.
  split.
  - by intros d.
  - intros a b c [A1 A2 A3 A4 A5] [B1 B2 B3 B4 B5]. split.
    + intros r Hr. by rewrite B1, A1.
    + intros r Hr. by rewrite B2, A2.
    + intros r Hr. by rewrite B3, A3.
    + auto.
    + congruence.
Qed.

(** The tables [confined] looks at. *)
Definition guarded (d : Db) :=
  ((key_rows d, ack_rows d, delivery_rows d, PolicyStore.inventory_rows d),
   (owner_rows d, policy_rows d, activation_rows d, address_rows d, port_rows d)).

Section confinement.
Context (P : string → Prop).

Lemma confined_guarded d d' : guarded d' = guarded d → confined P d d'.
Proof.
  intros [= E1 E2 E3 E4 E5 E6 E7 E8 E9]. split; rewrite ?E1, ?E2, ?E3, ?E5, ?E6, ?E7, ?E8, ?E9; try done.
  intros y i _. unfold get_site_row. by rewrite E4.
Qed.

Lemma confined_execute f : (∀ d, guarded (f d) = guarded d) → moves (confined P) (execute f).
Proof. intros Hf d. apply confined_guarded, Hf. Qed.

Lemma confined_checked {A} (table : Db → list A) set f :
  (∀ d rows, guarded (set d rows) = guarded d) → moves (confined P) (execute_checked table set f).
Proof. intros Hs d. unfold execute_checked. run_store. destruct (f (table d)); [apply confined_guarded, Hs|done]. Qed.

Lemma confined_query {A} (f : Db → A) : moves (confined P) (query f).
Proof. by intros d. Qed.

Lemma confined_audit now actor action target why res b a : moves (confined P) (audit now actor action target why res b a).
Proof. by apply confined_execute. Qed.

Lemma confined_event now kind subject payload : moves (confined P) (event now kind subject payload).
Proof. by apply confined_execute. Qed.

Lemma confined_get_or_fail site msg : moves (confined P) (get_or_fail site msg).
Proof. intros d. unfold get_or_fail. run_store. by destruct (get_site_row site d). Qed.

(** A new row of the inventory hides no other. *)
Lemma confined_add_inventory i :
  moves (confined P) (execute_checked PolicyStore.inventory_rows set_inventory_rows (insert_row inventory_clash i)).
Proof.
  intros d. unfold execute_checked. run_store. destruct (insert_row _ _ _) as [rows|e] eqn:E; [|done].
  apply insert_row_ok in E as [-> _]. split; try done. intros y j _. unfold get_site_row. cbn.
  induction (PolicyStore.inventory_rows d) as [|x l IH]; [done|]. simpl. by destruct (is_site y x).
Qed.

Lemma confined_site_update site f : P site → (∀ i, iv_site (f i) = iv_site i) →
  moves (confined P) (execute (λ d, set_inventory_rows d (update_rows (is_site site) f (PolicyStore.inventory_rows d)))).
Proof.
  intros HP Hf d. split; try done. intros y i Hy Hold. unfold get_site_row in *.
  change (find (is_site y) (update_rows (is_site site) f (PolicyStore.inventory_rows d)) = Some i).
  rewrite find_update_other; [done|]. intros j Ej%String.eqb_eq. unfold is_site, same_text. rewrite Hf, Ej.
  split; apply String.eqb_neq; congruence.
Qed.
End confinement.

#[local] Ltac confine_step :=
  first [ moves_step | apply confined_query | apply confined_audit | apply confined_event | apply confined_get_or_fail
        | apply (transaction_moves _) | apply confined_add_inventory | apply confined_checked; done | apply confined_execute; done ].

(** ** The operations a request reaches *)

Section operations.
Context (P : string → Prop) `{PyRepr} (sha256 : dict string json → string) (key_hash : string → string).
Context (input_digest : list InventorySite → list IntentRow → list InputRow → string) (now : string).

Lemma seed_confined c actor : moves (confined P) (seed_from_config now c actor).
Proof. unfold seed_from_config. repeat confine_step. Qed.

Lemma put_confined s actor : moves (confined P) (put_desired_state sha256 now s actor).
Proof.
  intros d. destruct (put_effect sha256 now s actor d) as [[-> _]|(? & ? & ? & ? & ? & ? & ? & _ & _ & _ & _ & _ & ? & ->)]; [done|].
  by apply confined_guarded.
Qed.

Lemma compile_confined base actor trigger : moves (confined P) (compile sha256 input_digest now base actor trigger).
Proof.
  assert (Hpub : ∀ build site ch, moves (confined P) (publish sha256 now build site actor ch)).
  { intros build site ch. unfold publish. repeat first [confine_step | apply put_confined]. }
  intros d. destruct (topology base d) as [c|e] eqn:Hc.
  - apply (compile_moves _ _ _ _ _ _ _ _ c); [|done|..]; [|by intros..].
    intros a b [= E1 E2 E3 E4 E5 E6 E7 E8 E9 E10 E11 E12]. apply confined_guarded. unfold guarded. congruence.
  - unfold compile, get, lift, mbind, M_bind. by rewrite Hc.
Qed.

Lemma transition_confined site cycle actor error op stage rec : P site →
  moves (confined P) (transition now site cycle actor error op stage rec).
Proof.
  intros HP. unfold transition. cbv zeta. repeat confine_step. apply confined_site_update; [done|done].
Qed.

(** Registration retires and adds keys of the site. *)
Lemma register_confined site key actor : P site → moves (confined P) (register_wireguard_public_key key_hash now site key actor).
Proof.
  intros HP d. destruct (register_effect key_hash now site key actor d) as [[-> _]|(rows & g & -> & _ & Hf)]; [done|].
  split; try done. intros r Hr. cbn [snd key_rows set_audit_rows set_key_rows]. rewrite elem_of_app, list_elem_of_singleton.
  assert (Hnew : r ≠ new_key now key_hash site key g) by (intros ->; by apply Hr).
  assert (Hrows : r ∈ rows ↔ r ∈ key_rows d); [|naive_solver].
  destruct (find _ _) as [x|]; [|by destruct Hf as [_ ->]]. destruct Hf as [_ Hu]. apply update_checked_ok in Hu as ->. cbn [app].
  rewrite update_rows_elem. split.
  - intros (y & Hy & ->). destruct (active_key site y) eqn:Ey; [|done]. apply active_key_iff in Ey as [Ey _].
    by destruct Hr; rewrite <- Ey in HP.
  - intros Hin. exists r. split; [done|]. destruct (active_key site r) eqn:Er; [|done]. apply active_key_iff in Er as [Er _].
    by destruct Hr; rewrite Er.
Qed.

Lemma ack_confined site version dig route status detail : P site →
  moves (confined P) (ack_desired_state now site version dig route status detail).
Proof.
  intros HP d. destruct (ack_effect now site version dig route status detail d) as [[-> _]|(_ & _ & ->)]; [done|].
  set (a := ack_row now site version dig route status detail).
  assert (Hack : ∀ x, ¬ P (ak_site x) → x ∈ put_ack a (ack_rows d) ↔ x ∈ ack_rows d).
  { intros x Hx. unfold put_ack. destruct (existsb _ _).
    - rewrite update_rows_elem. split.
      + intros (y & Hy & ->). destruct (is_ack _ _ y); [|done]. by destruct Hx.
      + intros Hin. exists x. split; [done|]. destruct (is_ack _ _ x) eqn:E; [|done].
        apply andb_true_iff in E as [E%String.eqb_eq _]. by destruct Hx; rewrite E.
    - rewrite elem_of_app, list_elem_of_singleton. split; [|by left]. intros [?| ->]; [done|]. by destruct Hx. }
  by destruct (same_text status "VERIFIED"); split.
Qed.

Lemma delivery_confined site policy desired applied observed : P site →
  moves (confined P) (record_destination_policy_delivery now site policy desired applied observed).
Proof.
  intros HP. apply (transaction_moves _). intros d. run_store.
  set (mine := λ r, same_text (de_site r) site && (de_policy r =? policy)).
  destruct (existsb (λ r, pv_version r =? policy) (policy_rows d)); cbn; [|done].
  destruct (existsb mine (delivery_rows d)); cbn; split; try done; cbn; intros r Hr.
  - rewrite update_rows_elem. split.
    + intros (y & Hy & ->). destruct (mine y); [|done]. by destruct Hr.
    + intros Hin. exists r. split; [done|]. destruct (mine r) eqn:E; [|done].
      apply andb_true_iff in E as [E%String.eqb_eq _]. by destruct Hr; rewrite E.
  - rewrite elem_of_app, list_elem_of_singleton. split; [|by left]. intros [?| ->]; [done|]. by destruct Hr.
Qed.
End operations.

(** ** Requests *)

Section requests.
Context `{PyRepr} (sha256 : dict string json → string) (key_hash : string → string).
Context (input_digest : list InventorySite → list IntentRow → list InputRow → string) (clock : nat → string) (base : TopologyConfig).

(** [confined], seen by the service and by the application. *)
Definition within (P : string → Prop) (s s' : Service) : Prop := confined P (database s) (database s').
Definition app_within (P : string → Prop) (s s' : App) : Prop := within P (service s) (service s').

#[export] Instance within_preorder P : PreOrder (within P).
Proof. split; unfold within; [by intros a|]. intros a b c H1 H2. by etrans. Qed.
#[export] Instance app_within_preorder P : PreOrder (app_within P).
Proof. split; unfold app_within; [by intros a|]. intros a b c H1 H2. by etrans. Qed.

Section moves.
Context (P : string → Prop).

Lemma within_db {A} (m : string → M Db A) : (∀ now, moves (confined P) (m now)) → moves (within P) (on_db clock m).
Proof.
  intros Hm s. unfold within, on_db. specialize (Hm (clock (ticks s)) (database s)). by destruct (m _ _) as [r d].
Qed.

Lemma within_ask {A} (f : Db → A) : moves (within P) (ask f).
Proof. by intros s. Qed.

Lemma within_configured {A} (f : TopologyConfig → A) : moves (within P) (configured f).
Proof. by intros s. Qed.

Lemma within_refresh : moves (within P) (refresh_config base).
Proof. intros s. unfold refresh_config, get, lift, put, mbind, M_bind, within. by destruct (topology base (database s)). Qed.

Lemma within_compile actor : moves (within P) (compile_now sha256 input_digest clock base actor).
Proof. apply within_db. intros now. apply compile_confined. Qed.

#[local] Ltac within_step :=
  first [ moves_step | apply within_ask | apply within_configured | apply within_refresh | apply within_compile
        | apply within_db; intros ? ].

Lemma within_stage actor : moves (within P) (stage_inventory clock base actor).
Proof. unfold stage_inventory. repeat within_step. apply seed_confined. Qed.

Lemma within_transition site cycle actor error op stage rec : P site →
  moves (within P) (transition_site sha256 input_digest clock base site cycle actor error op stage rec).
Proof. intros HP. unfold transition_site. repeat within_step. by apply transition_confined. Qed.

Lemma within_advance site was next record : P site → moves (within P) (advance sha256 input_digest clock base site was next record).
Proof. intros HP. unfold advance. repeat first [within_step | by apply within_transition]. Qed.

(** The name a registration of [site] is recorded under. *)
Lemma within_register site key actor s : P site → P (resolve_site (config s) site) →
  within P s (register_edge_identity sha256 key_hash input_digest clock base site key actor s).2.
Proof.
  intros H1 H2. unfold register_edge_identity, compile_control_state. cbv zeta.
  set (target := if dmem (hubs (config s)) site then site else resolve_site (config s) site).
  assert (HP : P target) by (by unfold target; destruct (dmem _ _)).
  match goal with |- within P s ((_ ≫= ?k) s).2 => change (within P s (k (config s) s).2) end. cbv beta. revert s H2 target HP.
  intros s _ target HP. fold target.
  match goal with |- within P s (?m s).2 => assert (moves (within P) m) as Hm; [|exact (Hm s)] end.
  repeat first [within_step | apply within_stage | by apply within_advance]. by apply register_confined.
Qed.

Lemma within_ack site version dig route status detail : P site →
  moves (within P) (acknowledge_edge sha256 input_digest clock base site version dig route status detail).
Proof.
  intros HP. unfold acknowledge_edge. repeat first [within_step | by apply within_transition]. by apply ack_confined.
Qed.

Lemma app_serve {A} (m : M Service A) : moves (within P) m → moves (app_within P) (serve m).
Proof. intros Hm s. unfold app_within, serve. specialize (Hm (service s)). by destruct (m (service s)) as [r s']. Qed.

Lemma app_answered catches m : moves (app_within P) m → moves (app_within P) (answered catches m).
Proof.
  intros Hm s. unfold answered. specialize (Hm s). destruct (m s) as [[x|e] s']; [done|].
  destruct (bool_decide _); [done|]. by destruct (catches e).
Qed.

Lemma within_app_refresh : moves (app_within P) (refresh_inventory clock base).
Proof. apply (moves_bind _); [apply app_serve, within_stage|]. by intros _ s. Qed.
End moves.

Context (conf : Documents) (integrity : result unit) (schema : Z).

(** The site the certificate of [r] stands for, and the state in which that was
    looked up. *)
Definition speaks (r : Request) (s : App) (site : string) (s1 : App) : Prop := edge_site clock base conf r s = (Ok site, s1).

(** The names a request may write under: that site, or the site the service
    resolves its name to. *)
Definition acting (r : Request) (s : App) (y : string) : Prop :=
  ∃ site s1, speaks r s site s1 ∧ (y = site ∨ y = resolve_site (config (service s1)) site).

Lemma edge_site_within P r : moves (app_within P) (edge_site clock base conf r).
Proof.
  unfold edge_site, site_for_device. repeat first [moves_step | apply within_app_refresh].
Qed.

(** A refresh leaves the application with the service's topology. *)
Lemma speaks_config r s site s1 : speaks r s site s1 → app_config s1 = config (service s1).
Proof.
  unfold speaks, edge_site, site_for_device, refresh_inventory. intros (cn & _ & Hrun)%lift_bind_run.
  apply bind_run in Hrun as ([] & s2 & Hr & Hrun). apply bind_run in Hrun as (s3 & s4 & [= <- <-] & Hrun).
  unfold lift in Hrun. injection Hrun as _ <-.
  apply bind_run in Hr as (u & s5 & _ & Hr). apply bind_run in Hr as (s6 & s7 & [= <- <-] & Hr). by injection Hr as <-.
Qed.

(** A handler for edges: the site first, then something confined to it. *)
Lemma edge_handler {A} r s (k : string → M App A) :
  (∀ site s1, speaks r s site s1 → app_within (acting r s) s1 (k site s1).2) →
  app_within (acting r s) s ((edge_site clock base conf r ≫= k) s).2.
Proof.
  intros Hk. unfold mbind, M_bind. pose proof (edge_site_within (acting r s) r s) as H1.
  destruct (edge_site clock base conf r s) as [[site|e] s1] eqn:E; [|exact H1]. etrans; [exact H1|]. by apply Hk.
Qed.

Lemma snapshot_within P site s : P (resolve_site (app_config s) site) →
  app_within P s (snapshot clock base conf site s).2.
Proof.
  intros HP. unfold snapshot. match goal with |- app_within P s ((_ ≫= ?k) s).2 => change (app_within P s (k (app_config s) s).2) end.
  cbv beta zeta. set (target := resolve_site (app_config s) site) in *. generalize target HP. clear target HP. intros target HP.
  match goal with |- app_within P s (?m s).2 => assert (moves (app_within P) m) as Hm; [|exact (Hm s)] end.
  repeat first [moves_step | apply within_app_refresh | apply app_serve, within_db; intros ?; by apply delivery_confined].
Qed.

Lemma answered_within P catches (m : M App response) s : app_within P s (m s).2 → app_within P s (answered catches m s).2.
Proof.
  intros Hm. unfold answered. destruct (m s) as [[x|e] s']; [done|]. destruct (bool_decide _); [done|]. by destruct (catches e).
Qed.

(** Computations that only decide what the next one is given. *)
Lemma lift_eq {A B} (x : result A) (k : A → M App B) s : (lift x ≫= k) s = match x with Ok v => k v s | Err e => (Err e, s) end.
Proof. by destruct x. Qed.

Lemma lift_within P {A B} (x : result A) (k : A → M App B) s : (∀ a, x = Ok a → app_within P s (k a s).2) → app_within P s ((lift x ≫= k) s).2.
Proof. intros Hk. rewrite lift_eq. destruct x as [a|e]; [by apply Hk|done]. Qed.

Lemma then_within P {A B} (m : M App A) (k : A → M App B) s :
  app_within P s (m s).2 → (∀ a s', app_within P s' (k a s').2) → app_within P s ((m ≫= k) s).2.
Proof. intros Hm Hk. unfold mbind, M_bind. destruct (m s) as [[a|e] s1]; [|done]. etrans; [exact Hm|apply Hk]. Qed.

Lemma get_within r s : app_within (acting r s) s (do_GET clock base conf integrity schema r s).2.
Proof.
  unfold do_GET. apply answered_within. destruct (same_text (path r) "/healthz"); [by apply (lift_within (acting r s))|].
  destruct (same_text (path r) "/v1/edge/desired"); [apply edge_handler; by intros|].
  destruct (String.prefix get_prefix (path r)); [|by intros].
  apply edge_handler. intros site s1 Hs. apply lift_within. intros [] _. apply then_within; [|by intros].
  apply snapshot_within. exists site, s1. split; [done|]. right. by rewrite (speaks_config r s site s1 Hs).
Qed.

Lemma served_within P {A B} (m : M Service A) (k : A → M App B) s :
  within P (service s) (m (service s)).2 → (∀ a s', app_within P s' (k a s').2) → app_within P s ((serve m ≫= k) s).2.
Proof.
  intros Hm. apply then_within. unfold app_within, serve. by destruct (m (service s)).
Qed.

Lemma post_within r s :
  app_within (acting r s) s (do_POST sha256 key_hash input_digest clock base conf r s).2 ∨
  (String.prefix activate_prefix (path r) = true ∧ admin_actor r = Ok "mtls:sdwan-admin" ∧
   service (do_POST sha256 key_hash input_digest clock base conf r s).2 =
     (activate_spoke sha256 clock (after_prefix activate_prefix (path r)) "mtls:sdwan-admin" (service s)).2).
Proof.
  unfold do_POST.
  match goal with |- context [answered ?c ?m s] => set (catches := c); set (body := m) end.
  assert (Hs : (answered catches body s).2 = (body s).2).
  { unfold answered. destruct (body s) as [[x|e] s']; [done|]. destruct (bool_decide _); [done|]. by destruct (catches e). }
  rewrite Hs. unfold body. rewrite lift_eq. destruct (json_body r) as [value|e]; [|by left].
  destruct (same_text (path r) "/v1/edge/register").
  { left. apply edge_handler. intros site s1 Hsite. apply lift_within. intros key _. apply lift_within. intros cn _.
    apply served_within; [|by intros]. apply within_register; (exists site, s1; auto). }
  destruct (same_text (path r) "/v1/edge/ack").
  { left. apply edge_handler. intros site s1 Hsite. do 4 (apply lift_within; intros ? _).
    apply served_within; [|by intros]. apply within_ack. exists site, s1. auto. }
  destruct (String.prefix activate_prefix (path r)).
  { unfold post_activate, lift, mbind, M_bind. destruct (admin_actor r) as [actor|e] eqn:Ha; [|by left]. right.
    assert (actor = "mtls:sdwan-admin") as ->.
    { unfold admin_actor in Ha. apply bind_Ok in Ha as (cn & _ & Ha). by apply bind_unit_ok in Ha as [_ [= <-]]. }
    split; [done|]. split; [done|]. unfold serve. by destruct (activate_spoke _ _ _ _ (service s)) as [[?|?] ?]. }
  destruct (same_text (path r) "/v1/edge/event"); [|by left].
  left. apply edge_handler. intros site s1 _. by do 3 (apply lift_within; intros ? _).
Qed.


(** what a request may read.  Apart from the health check, a successful GET
    answers only a certificate that stands for a site, and with what belongs to
    that site: its own desired state or its own policy snapshot. *)
Theorem get_answers r s code content s' :
  do_GET clock base conf integrity schema r s = (Ok (code, content), s') → code = OK ∨ code = ACCEPTED → path r ≠ "/healthz" →
  ∃ site s1, speaks r s site s1 ∧
    ((path r = "/v1/edge/desired" ∧ s' = s1 ∧
      match desired_state_for site (database (service s1)) with
      | Some state => code = OK ∧ content = state
      | None => code = ACCEPTED ∧ content = [("site", JStr site); ("status", JStr "PENDING")]
      end) ∨
     (code = OK ∧ String.prefix get_prefix (path r) = true ∧ after_prefix get_prefix (path r) = site ∧
      snapshot clock base conf site s1 = (Ok content, s'))).
Proof.
  unfold do_GET, answered. intros Hrun Hcode Hpath. set (m := if same_text (path r) "/healthz" then _ else _) in Hrun.
  assert (Hm : m s = (Ok (code, content), s')).
  { destruct (m s) as [[x|e] s2]; [done|]. exfalso. destruct (bool_decide _); [|destruct (is_value_error e); [|done]];
      injection Hrun as <- _ _; by destruct Hcode. }
  clear Hrun. unfold m in Hm. clear m. unfold same_text in Hm at 1. rewrite (proj2 (String.eqb_neq (path r) "/healthz") Hpath) in Hm.
  destruct (same_text (path r) "/v1/edge/desired") eqn:E1.
  { apply bind_run in Hm as (site & s1 & Hs & Hm). apply bind_run in Hm as (s2 & s3 & [= <- <-] & Hm).
    exists site, s1. split; [done|]. left. apply String.eqb_eq in E1. split; [done|].
    destruct (desired_state_for site _); by injection Hm as <- <- <-. }
  destruct (String.prefix get_prefix (path r)) eqn:E2.
  - apply bind_run in Hm as (site & s1 & Hs & Hm). apply lift_bind_run in Hm as ([] & Hown & Hm).
    apply bind_run in Hm as (view & s2 & Hv & [= <- <- <-]). exists site, s1. split; [done|]. right. split_and!; try done.
    unfold raise_if in Hown. destruct (same_text (after_prefix _ _) site) eqn:E3; [by apply String.eqb_eq|done].
  - injection Hm as <- <- _. by destruct Hcode.
Qed.
End requests.

(** ** The shipped documents *)

Module Examples.
Definition app_class (egress candidates : list string) : json := JObj
  [("sla_class", JStr "class"); ("allowed_egress", texts egress); ("candidate_transports", texts candidates);
   ("match", JObj [("transport_protocol", JStr "tcp")])].

(** [config/app_policy.yaml], with shorter [match] mappings. *)
Definition app_policy : json := JObj [("schema_version", JInt 5); ("classes", JObj
  [("REALTIME_RTP", app_class ["HUB_OVERLAY"] ["mpls"; "bb"; "lte"]); ("CENTRAL_BACKUP", app_class ["HUB_OVERLAY"] ["bb"; "mpls"; "lte"]);
   ("SAAS_INTERACTIVE", app_class ["DIRECT_INTERNET"] ["bb"; "lte"]); ("SAAS_FILE_TRANSFER", app_class ["DIRECT_INTERNET"] ["bb"; "lte"])])].

Definition device (role site : string) : json := JObj [("role", JStr role); ("assigned_site", JStr site)].

(** [config/site_inventory.yaml] *)
Definition site_inventory : json := JObj [("schema_version", JInt 5); ("devices", JObj
  [("edge-hub1", device "hub" "hub1"); ("edge-hub2", device "hub" "hub2"); ("edge-node1-2d67aa8b", device "spoke" "site1");
   ("edge-node2-65b9e182", device "spoke" "site2"); ("edge-node3-89844fd0", device "spoke" "site3");
   ("edge-node4-bc91a233", device "spoke" "site4"); ("edge-node5-4cb64b0a", device "spoke" "site5")])].

Definition start : result Documents * App :=
  open_application text_hash ticking core_config app_policy site_inventory (JObj DestinationModels.Examples.core_document) empty_db.

Definition documents : Documents := match start.1 with
  | Ok c => c
  | Err _ => {| application_policy := []; destination_policy := DestinationModels.Examples.core_policies;
                destination_policy_version := 0; staged := [] |}
  end.

Lemma starts : is_ok start.1 = true ∧ length (staged documents) = 7%nat ∧ destination_policy_version documents = 1.
Proof. vm_compute. by split_and!. Qed.

Definition request (cn path : string) (value : dict string json) : Request :=
  {| path := path; subject := [[("organizationName", "lab")]; [("commonName", cn)]]; length_header := Some "100"; body := Ok (JObj value) |}.

Definition posted (r : Request) (s : App) : result response * App :=
  do_POST text_hash plain_hash inputs ticking core_config documents r s.
Definition got (r : Request) (s : App) : result response * App := do_GET ticking core_config documents (Ok tt) 4 r s.

Definition register (cn key : string) : Request := request cn "/v1/edge/register" [("wireguard_public_key", JStr key)].
Definition activate (cn : string) : Request := request cn "/v1/admin/activate/site1" [].

Definition code (x : result response * App) : option Z := match x.1 with Ok (c, _) => Some c | Err _ => None end.

(** Registering is answered for a staged device and refused for an unknown one;
    activation is refused to a device. *)
Lemma requests_run :
  code (posted (register "edge-hub1" "key-hub1") start.2) = Some OK ∧
  code (posted (register "intruder" "key-x") start.2) = Some FORBIDDEN ∧
  code (posted (activate "edge-node1-2d67aa8b") start.2) = Some FORBIDDEN ∧
  code (posted (activate "sdwan-admin") start.2) = Some OK ∧
  code (got (request "edge-node1-2d67aa8b" "/v1/edge/policy/site1" []) start.2) = Some OK ∧
  code (got (request "edge-node1-2d67aa8b" "/v1/edge/policy/site2" []) start.2) = Some FORBIDDEN.
Proof. vm_compute. by split_and!. Qed.

(** The inventory is listed without its deleted sites, so the certificate of a
    deleted site's device is looked up in the staged file instead and admitted. *)
Definition with_life (cycle : string) (s : App) : App :=
  {| service := {| database := set_inventory_rows (database (service s))
                     (map (λ i, if is_site "site1" i then with_lifecycle i cycle "DELETED" None None 1 "t" (Some "t") else i)
                        (PolicyStore.inventory_rows (database (service s))));
                   config := config (service s); ticks := ticks (service s) |}; app_config := app_config s |}.

Lemma deleted_site_admitted :
  let who := request "edge-node1-2d67aa8b" "/v1/edge/policy/x" [] in
  (edge_site ticking core_config documents who (with_life "DELETING" start.2)).1 =
    raise PermissionError "operational certificate belongs to a terminal inventory record" ∧
  (edge_site ticking core_config documents who (with_life "DELETED" start.2)).1 = Ok "site1".
Proof. vm_compute. by split_and!. Qed.
End Examples.

Lemma get_answers_witness :
  ∃ site, after_prefix get_prefix "/v1/edge/policy/site1" = site ∧ Examples.code
    (Examples.got (Examples.request "edge-node1-2d67aa8b" "/v1/edge/policy/site1" []) Examples.start.2) = Some OK.
Proof.
  set (r := Examples.request "edge-node1-2d67aa8b" "/v1/edge/policy/site1" []).
  assert (E : Examples.code (Examples.got r Examples.start.2) = Some OK) by (vm_compute; reflexivity).
  destruct (Examples.got r Examples.start.2) as [[[c content]|e] s'] eqn:Hrun; [|discriminate E].
  injection E as ->.
  destruct (get_answers ticking core_config Examples.documents (Ok tt) 4 r Examples.start.2 OK content s' Hrun (or_introl eq_refl))
    as (site & s1 & _ & [(Hp & _)|(_ & _ & Hs & _)]).
  - discriminate.
  - discriminate Hp.
  - exists site. split; [exact Hs|reflexivity].
Defined.
