(* ===== verification/Lifecycle.v ===== *)
(** * The site lifecycle coordinator ([management/lifecycle.py])

    Creating and deleting a branch: the policy service, the provisioning
    database and the topology runtime in one sequence, with its resumption, its
    early returns and its failure handling.  The runtime ([LabRuntime]) is
    outside this module: it may act on the services while it runs, as the edges
    it starts do. *)
From Stdlib Require Import Ascii.
From S2P Require Import Prelude Net Marks PathSelection Model ModelValidate Json DesiredState Inventory Sql PolicyStore.
From S2P Require Import DynamicInventory IntentCompiler PolicyService ZtpStore.
Local Open Scope string_scope.
Local Open Scope list_scope.
Local Open Scope Z_scope.

(** ** Texts of errors *)

(** The last [n] characters, [value[-n:]] for a positive [n]. *)
Definition last_chars (n : nat) (s : string) : string := String.substring (String.length s - n) n s.

Definition newline : string := String (ascii_of_nat 10) EmptyString.
Definition marker : string := newline +:+ "... error truncated ..." +:+ newline.

(** [_bounded_error], for limits above the marker's length *)
Definition bounded_error (limit : nat) (value : string) : string :=
  let value := strip value in
  if (String.length value <=? limit)%nat then value
  else
    let head := (limit / 4)%nat in
    String.substring 0 head value +:+ marker +:+ last_chars (limit - head - String.length marker) value.

(** [exc.__class__.__name__] *)
Definition class_name (c : exn_class) : string :=
  match c with
  | ValueError => "ValueError" | KeyError => "KeyError" | LookupError => "LookupError" | RuntimeError => "RuntimeError"
  | TypeError => "TypeError" | IndexError => "IndexError" | ZeroDivisionError => "ZeroDivisionError"
  | PermissionError => "PermissionError" | StopIteration => "StopIteration" | ConfigurationError => "ConfigurationError"
  | DestinationPolicyError => "DestinationPolicyError" | InventoryError => "InventoryError"
  | StaleRouteVersion => "StaleRouteVersion" | StaleMeasurement => "StaleMeasurement"
  | InvalidEnrollmentTransition => "InvalidEnrollmentTransition" | CommandError => "CommandError"
  | VersionConflict => "VersionConflict" | ClaimRejected => "ClaimRejected" | IntegrityError => "IntegrityError"
  | IdentityStoreError => "IdentityStoreError" | MigrationError => "MigrationError" | AddressValueError => "AddressValueError"
  | AttributeError => "AttributeError" | CertificateError => "CertificateError" | OperationalError => "OperationalError"
  | BootstrapError => "BootstrapError" | HTTPSClientError => "HTTPSClientError" | FileNotFoundError => "FileNotFoundError"
  end.

(** [str(exc) or exc.__class__.__name__] *)
Definition error_text (e : exn) : string := if nonempty (exn_msg e) then exn_msg e else class_name (exn_cls e).

(** ** The world a request acts on *)

(** The policy service, the provisioning database, and how many times its clock
    was read and random values were drawn. *)
Record World := { policy : Service; ztp : Ztp; ztp_ticks : nat; drawn : nat }.

Definition at_policy {A} (m : M Service A) : M World A := λ w,
  let '(r, s) := m (policy w) in (r, {| policy := s; ztp := ztp w; ztp_ticks := ztp_ticks w; drawn := drawn w |}).

(** A reply of the runtime: a dictionary. *)
Definition reply : Type := dict string json.
Definition available (r : reply) : bool := py_truth (default JNull (dget r "available")).

(** [LabRuntime]: its calls run while the services are up. *)
Class LabRuntime := {
  rt_create_site : InventorySite → M World reply;
  rt_delete_site : InventorySite → M World reply;
  rt_bootstrap_site : InventorySite → dict string string → M World reply;
  rt_reconcile_site : string → dict string string → M World reply
}.

(** [UnavailableLabRuntime] *)
Definition unavailable : reply := [("available", JBool false); ("reason", JStr "no active Containernet control socket")].
Definition UnavailableLabRuntime : LabRuntime := {|
  rt_create_site := λ _, mret unavailable; rt_delete_site := λ _, mret unavailable;
  rt_bootstrap_site := λ _ _, mret unavailable; rt_reconcile_site := λ _ _, mret unavailable |}.

Section lifecycle.
Context `{PyRepr} (sha256 : dict string json → string).
Context (input_digest : list InventorySite → list IntentRow → list InputRow → string) (clock : nat → string) (base : TopologyConfig).
Context (pbkdf2 : string → string → string) (ztp_clock : nat → Z).
(** The [n]th drawn identifier, secret and salt. *)
Context (uuid_hex secret_of salt_of : nat → string).
Context `{LabRuntime}.

Definition at_ztp {A} (m : Z → M Ztp A) : M World A := λ w,
  let '(r, d) := m (ztp_clock (ztp_ticks w)) (ztp w) in
  (r, {| policy := policy w; ztp := d; ztp_ticks := S (ztp_ticks w); drawn := drawn w |}).

Definition draw : M World nat := λ w,
  (Ok (drawn w), {| policy := policy w; ztp := ztp w; ztp_ticks := ztp_ticks w; drawn := S (drawn w) |}).

(** [self.policy.inventory.get(site)] and the other uses of the inventory *)
Definition inventory_get (site : string) : M World (option InventorySite) := at_policy (ask (get_site_row site)).
Definition in_inventory {A} (m : string → M Db A) : M World A := at_policy (on_db clock m).

(** ** [LocalZTPProvisioner] *)

Definition stage_and_claim (i : InventorySite) (actor : string) : M World (dict string string) :=
  _ ← at_ztp (λ now, stage_device now (iv_device_id i) (iv_site i) actor);
  n ← draw;
  claim ← at_ztp (λ now, create_claim pbkdf2 now (uuid_hex n) (secret_of n) (salt_of n) (iv_device_id i) (iv_site i) 900 actor 1);
  mret [("claim_id", claim.1); ("claim_secret", claim.2); ("device_id", iv_device_id i); ("expires_in_seconds", "900")].

Definition claim_of_device (device : string) (r : ClaimRow) : bool := same_text (cl_device r) device && same_text (cl_status r) "ACTIVE".
Definition certificate_of_device (device : string) (r : CertificateRow) : bool :=
  same_text (ce_device r) device && same_text (ce_status r) "ACTIVE".

Definition revoke_serial (actor : string) (now : Z) (serial : string) : M Ztp unit :=
  _ ← execute (λ d, set_certificates d (update_rows (is_certificate serial) revoked_certificate (certificates d)));
  execute (λ d, set_revocations d (List.filter (λ r, negb (String.eqb (rv_serial r) serial)) (revocations d) ++
    [{| rv_serial := serial; rv_reason := "site decommissioned"; rv_at := now; rv_actor := actor |}])).

Definition revoke_site (i : InventorySite) (actor : string) (now : Z) : M Ztp unit :=
  let device := iv_device_id i in
  transaction (
    _ ← execute (λ d, set_claims d (update_rows (claim_of_device device) (with_claim_status "CANCELLED") (claims d)));
    serials ← query (λ d, map ce_serial (List.filter (certificate_of_device device) (certificates d)));
    _ ← forM (revoke_serial actor now) serials;
    _ ← execute (λ d, set_devices d (update_rows (is_device device) (revoked_device now) (devices d)));
    ztp_audit now actor "REVOKE_SITE" (iv_site i) "revoked" "ok" "site decommissioned").

(** ** [SiteLifecycleCoordinator] *)

(** The bootstrap CA's text, if the file is there. *)
Context (bootstrap_ca : option string) (ztp_url policy_url management_host : string).

Definition operation_of (site kind : string) : M World string :=
  n ← draw; let id := "site-op-" +:+ uuid_hex n in
  _ ← in_inventory (λ now, create_operation now id site kind); mret id.

Definition update (id state : string) (stage why : option string) (rec : bool) : M World unit :=
  in_inventory (λ now, update_operation now id state stage why rec).

Definition move_to (site cycle actor id : string) (error stage : option string) (rec : bool) : M World InventorySite :=
  record ← inventory_get site;
  record ← lift (of_option record InventoryError "unknown site");
  record ← (if same_text (lifecycle record) cycle then mret record
            else at_policy (transition_site sha256 input_digest clock base site cycle actor error (Some id) stage rec));
  _ ← update id cycle stage error rec;
  mret record.

Definition control_plane (claim : option (dict string string)) : result (dict string string) :=
  ca ← of_option bootstrap_ca RuntimeError "bootstrap CA is unavailable for Edge-side enrollment";
  let value := [("bootstrap_ca_pem", ca); ("policy_url", policy_url); ("management_host", management_host)] in
  match claim with
  | Some c =>
      id ← of_option (dget c "claim_id") KeyError "claim_id"; secret ← of_option (dget c "claim_secret") KeyError "claim_secret";
      Ok (value ++ [("claim_id", id); ("claim_secret", secret); ("ztp_url", ztp_url)])
  | None => Ok value
  end.

Definition site_json (r : option InventorySite) : json := match r with Some i => JObj (site_profile i) | None => JNull end.

(** [_failure] *)
Definition failure (site id stage : string) (e : exn) (actor : string) : M World reply :=
  let reason := bounded_error 1000 (error_text e) in
  record ← inventory_get site;
  record ← match record with
           | Some i =>
               if inb (lifecycle i) ["FAILED"; "DELETED"; "DELETING"] then mret record
               else λ w, match move_to site "FAILED" actor id (Some reason) (Some stage) true w with
                         | (Ok i, w') => (Ok (Some i), w')
                         | (Err e, w') => if bool_decide (exn_cls e = InventoryError) then (Ok record, w') else (Err e, w')
                         end
           | None => mret None
           end;
  _ ← update id "FAILED" (Some stage) (Some reason) true;
  mret [("site_id", JStr site); ("state", JStr "FAILED"); ("operation_id", JStr id); ("failure_stage", JStr stage);
        ("failure_reason", JStr reason); ("recoverable", JBool true); ("site", site_json record)].

(** The body of a [try], with the local variable [stage] of the handler. *)
Record Run := { world : World; stage : string }.
Definition run {A} (m : M World A) : M Run A := λ r, let '(x, w) := m (world r) in (x, {| world := w; stage := stage r |}).
Definition set_stage (s : string) : M Run unit := λ r, (Ok tt, {| world := world r; stage := s |}).

(** [if not reply.get("available"): raise RuntimeError(str(reply.get("reason", default)))] *)
Definition must_be_available (r : reply) (default_reason : string) : result unit :=
  raise_if (negb (available r)) RuntimeError (py_str (default (JStr default_reason) (dget r "reason"))).

(** [self.policy.inventory.get(record.site) or record] *)
Definition reread (i : InventorySite) : M Run InventorySite := r ← run (inventory_get (iv_site i)); mret (default i r).

Definition REGISTERED : list string := ["PROVISIONING"; "PENDING_HUBS"; "RECONCILING"; "ACTIVE"].

Section create.
Context (actor id : string).

Definition move (i : InventorySite) (cycle : string) : M Run InventorySite :=
  run (move_to (iv_site i) cycle actor id None None true).

(** Topology: created, and the lifecycle moved to where the request resumes. *)
Definition create_topology (record : InventorySite) : M Run InventorySite :=
  let resume := if same_text (lifecycle record) "FAILED" then failure_stage record else None in
  created ← run (rt_create_site record);
  _ ← lift (must_be_available created "topology creation unavailable");
  _ ← run (in_inventory (λ now, set_runtime_status now (iv_site record) "CREATED" actor None));
  if same_text (lifecycle record) "FAILED" && inb resume [Some "PROVISIONING"; Some "RECONCILING"] then move record "PROVISIONING"
  else if inb (lifecycle record) ["ALLOCATING"; "FAILED"] then move record "TOPOLOGY_CREATED"
  else reread record.

(** Enrolment: a claim when one is needed, and the edge's bootstrap. *)
Definition enrol (record : InventorySite) : M Run InventorySite :=
  p ← (if same_text (lifecycle record) "TOPOLOGY_CREATED" then
         _ ← set_stage "ZTP_STAGED"; claim ← run (stage_and_claim record actor); record ← move record "ZTP_STAGED";
         mret (record, Some claim)
       else mret (record, None));
  let '(record, claim) := p in
  p ← (if same_text (lifecycle record) "ZTP_STAGED" then
         _ ← set_stage "ENROLLING";
         claim ← match claim with Some c => mret c | None => run (stage_and_claim record actor) end;
         record ← move record "ENROLLING"; mret (record, Some claim)
       else mret (record, claim));
  let '(record, claim) := p in
  if same_text (lifecycle record) "ENROLLING" then
    claim ← match claim with Some c => mret c | None => run (stage_and_claim record actor) end;
    control ← lift (control_plane (Some claim));
    bootstrap ← run (rt_bootstrap_site record control);
    _ ← lift (must_be_available bootstrap "edge bootstrap unavailable");
    reread record
  else mret record.

Definition finished (record : InventorySite) (idempotent : bool) : reply :=
  [("site_id", JStr (iv_site record)); ("state", JStr "ACTIVE"); ("operation_id", JStr id); ("created_at", JStr (created_at record));
   ("site", JObj (site_profile record))] ++ (if idempotent then [("idempotent", JBool true)] else []).

(** Activation: the hubs first, then the spoke. *)
Definition activate_site (record : InventorySite) : M Run reply :=
  _ ← set_stage "PROVISIONING";
  control ← lift (control_plane None);
  _ ← forM (λ hub, r ← run (rt_reconcile_site hub control);
                   lift (must_be_available r (hub +:+ " reconciliation unavailable"))) ["hub1"; "hub2"];
  activation ← run (at_policy (activate_spoke sha256 clock (iv_site record) actor));
  if same_text (ar_state activation) "PENDING_HUBS" then
    record ← (if same_text (lifecycle record) "PENDING_HUBS" then mret record else move record "PENDING_HUBS");
    mret [("site_id", JStr (iv_site record)); ("state", JStr (lifecycle record)); ("operation_id", JStr id);
          ("created_at", JStr (created_at record)); ("site", JObj (site_profile record)); ("detail", JStr (ar_detail activation))]
  else
    _ ← lift (raise_if (negb (same_text (ar_state activation) "EDGE_CONFIGURING")) RuntimeError (ar_detail activation));
    _ ← set_stage "RECONCILING";
    record ← (if same_text (lifecycle record) "RECONCILING" then mret record else move record "RECONCILING");
    reconciled ← run (rt_reconcile_site (iv_edge_node record) control);
    _ ← lift (must_be_available reconciled "edge reconciliation unavailable");
    record ← reread record;
    _ ← lift (raise_if (negb (same_text (lifecycle record) "ACTIVE")) RuntimeError
                ("Edge reconciliation did not reach ACTIVE (current state: " +:+ lifecycle record +:+ ")"));
    _ ← run (in_inventory (λ now, set_runtime_status now (iv_site record) "OPERATIONAL" actor None));
    _ ← run (update id "SUCCEEDED" None None true);
    mret (finished record false).

Definition create_body (record : InventorySite) : M Run reply :=
  record ← create_topology record;
  record ← enrol record;
  _ ← lift (raise_if (negb (inb (lifecycle record) REGISTERED)) RuntimeError "Edge bootstrap completed without Policy registration");
  if same_text (lifecycle record) "ACTIVE" then
    _ ← run (update id "SUCCEEDED" None None true); mret (finished record true)
  else activate_site record.
End create.

(** [try: ... except Exception as exc: return self._failure(...)] *)
Definition guarded_run (site id first actor : string) (body : M Run reply) : M World reply := λ w,
  match body {| world := w; stage := first |} with
  | (Ok x, r) => (Ok x, world r)
  | (Err e, r) => failure site id (stage r) e actor (world r)
  end.

Definition create (site device_id preferred standby actor : string) : M World reply :=
  existing ← inventory_get site;
  _ ← lift (raise_if (match existing with Some i => negb (same_text (iv_device_id i) device_id) | None => false end) InventoryError
              "site name is already bound to another device_id");
  if match existing with Some i => same_text (lifecycle i) "ACTIVE" | None => false end then
    mret [("site_id", JStr site); ("state", JStr "ACTIVE"); ("operation_id", JNull); ("idempotent", JBool true);
          ("site", site_json existing)]
  else
    record ← at_policy (create_site sha256 input_digest clock base site device_id preferred standby actor);
    id ← operation_of (iv_site record) "CREATE";
    guarded_run (iv_site record) id "TOPOLOGY_CREATED" actor (create_body actor id record).

(** [UPDATE wireguard_public_keys SET status='RETIRED' ...] in a transaction of
    its own. *)
Definition retire_keys (site : string) : M Db unit :=
  transaction (execute_checked key_rows set_key_rows (update_checked key_clash (active_key site) retired [])).

Definition delete_body (site actor id : string) : M Run reply :=
  record ← run (move_to site "DELETING" actor id None None true);
  _ ← run (at_ztp (revoke_site record actor));
  _ ← run (at_policy (on_db clock (λ _, retire_keys site)));
  deleted ← run (rt_delete_site record);
  _ ← lift (must_be_available deleted "topology deletion unavailable");
  record ← run (move_to site "DELETED" actor id None None true);
  _ ← run (in_inventory (λ now, set_runtime_status now site "DELETED" actor None));
  _ ← run (update id "SUCCEEDED" None None true);
  mret [("site_id", JStr site); ("state", JStr "DELETED"); ("operation_id", JStr id); ("site", JObj (site_profile record))].

Definition delete (site actor : string) : M World reply :=
  record ← inventory_get site;
  record ← lift (of_option record InventoryError "unknown site");
  if same_text (lifecycle record) "DELETED" then
    mret [("site_id", JStr site); ("state", JStr "DELETED"); ("operation_id", JNull); ("idempotent", JBool true);
          ("site", JObj (site_profile record))]
  else
    id ← operation_of site "DELETE";
    guarded_run site id "DELETING" actor (delete_body site actor id).
End lifecycle.
