(* ===== verification/LifecycleFacts.v ===== *)
(** * What the lifecycle coordinator guarantees

    Its answers are true of the databases whatever the runtime does, and a
    deletion revokes what the site could still use. *)
From Stdlib Require Import Ascii.
From S2P Require Import Prelude Net Marks PathSelection Model ModelValidate Json DesiredState CoreTopology Inventory Sql PolicyStore.
From S2P Require Import PolicyStoreFacts StoreHistory DynamicInventory InventoryFacts IntentCompiler CompilerFacts PolicyService ServiceFacts.
From S2P Require Import ZtpStore ZtpFacts Lifecycle.
Local Open Scope string_scope.
Local Open Scope list_scope.
Local Open Scope Z_scope.

(** ** Bounded error texts *)

Lemma substring_length n m s : (String.length (String.substring n m s) ≤ m)%nat.
Proof.
  revert n m. induction s as [|a s IH]; intros [|n] [|m]; simpl; try lia.
  - specialize (IH 0%nat m). lia.
  - specialize (IH n 0%nat). lia.
  - specialize (IH n (S m)). lia.
Qed.

Lemma text_length_app (s t : string) : String.length (s +:+ t) = (String.length s + String.length t)%nat.
Proof. induction s as [|a s IH]; simpl; [done|]. by rewrite IH. Qed.

(** No reported reason is longer than the limit. *)
Lemma bounded_error_length limit value : (4 * String.length marker ≤ 3 * limit)%nat →
  (String.length (bounded_error limit value) ≤ limit)%nat.
Proof.
  intros Hl. unfold bounded_error. destruct (Nat.leb_spec (String.length (strip value)) limit) as [|_]; [done|].
  unfold last_chars. rewrite !text_length_app.
  pose proof (substring_length 0 (limit / 4) (strip value)).
  pose proof (substring_length (String.length (strip value) - (limit - limit / 4 - String.length marker))
    (limit - limit / 4 - String.length marker) (strip value)).
  assert (limit / 4 * 4 ≤ limit)%nat by (rewrite Nat.mul_comm; apply Nat.Div0.mul_div_le). lia.
Qed.

(** ** The steps of the coordinator *)

Section coordinator.
Context `{PyRepr} (sha256 : dict string json → string).
Context (input_digest : list InventorySite → list IntentRow → list InputRow → string) (clock : nat → string) (base : TopologyConfig).
Context (pbkdf2 : string → string → string) (ztp_clock : nat → Z) (uuid_hex secret_of salt_of : nat → string).
Context `{LabRuntime}.
Context (bootstrap_ca : option string) (ztp_url policy_url management_host : string).

Definition pdb (w : World) : Db := database (policy w).

(** The site's row has this lifecycle. *)
Definition in_state (site cycle : string) (w : World) : Prop := ∃ i, get_site_row site (pdb w) = Some i ∧ lifecycle i = cycle.

(** Every operation row of this identifier ended like this. *)
Definition ended (id state : string) (stage why : option string) (w : World) : Prop :=
  ∀ o, o ∈ operation_rows (pdb w) → op_id o = id →
    op_state o = state ∧ op_failure_stage o = stage ∧ op_failure_reason o = why ∧ is_Some (op_completed o).

Lemma at_policy_run {A} (m : M Service A) w x w' : at_policy m w = (Ok x, w') →
  m (policy w) = (Ok x, policy w') ∧ ztp w' = ztp w.
Proof. unfold at_policy. destruct (m (policy w)) as [r s]. by intros [= -> <-]. Qed.

Lemma in_inventory_run {A} (m : string → M Db A) w x w' : in_inventory clock m w = (Ok x, w') →
  m (clock (ticks (policy w))) (pdb w) = (Ok x, pdb w') ∧ ztp w' = ztp w.
Proof.
  unfold in_inventory. intros [Hm Hz]%at_policy_run. split; [|done]. unfold on_db in Hm. unfold pdb.
  destruct (m _ _) as [r d]. by injection Hm as -> <-.
Qed.

Lemma get_run site w i w' : inventory_get site w = (Ok i, w') → w' = w ∧ i = get_site_row site (pdb w).
Proof. unfold inventory_get, at_policy, ask, get, mret, M_ret, mbind, M_bind. intros [= <- <-]. by destruct w. Qed.

Lemma update_run id state stage why rec w x w' : Lifecycle.update clock id state stage why rec w = (Ok x, w') →
  inventory_rows (pdb w') = inventory_rows (pdb w) ∧ key_rows (pdb w') = key_rows (pdb w) ∧ ztp w' = ztp w ∧
  (inb state ["SUCCEEDED"; "FAILED"] = true → ended id state stage why w').
Proof.
  unfold Lifecycle.update. intros [Hu Hz]%in_inventory_run. unfold update_operation in Hu. revert Hu. run_store. intros [= _ E].
  rewrite <- E. split_and!; try done. intros Hs o. unfold ended. rewrite <- E. cbn [operation_rows set_operation_rows].
  intros (p & Hp & ->)%update_rows_elem. destruct (same_text (op_id p) id) eqn:Ep.
  - intros _. cbn [op_state op_failure_stage op_failure_reason op_completed]. unfold inb in Hs. cbn in Hs. rewrite Hs. by split_and!.
  - intros Eo. unfold same_text in Ep. by apply String.eqb_neq in Ep.
Qed.

Lemma status_run site status actor w x w' cycle :
  in_inventory clock (λ now, set_runtime_status now site status actor None) w = (Ok x, w') →
  (in_state site cycle w → in_state site cycle w') ∧ key_rows (pdb w') = key_rows (pdb w) ∧ ztp w' = ztp w ∧
  is_Some (get_site_row site (pdb w)) ∧ is_Some (get_site_row site (pdb w')).
Proof.
  intros [Hu Hz]%in_inventory_run. unfold set_runtime_status in Hu. revert Hu. run_store.
  destruct (get_site_row site (pdb w)) as [i|] eqn:Hi; cbn beta iota; [|done].
  rewrite bool_decide_false by done. intros [= _ E].
  assert (Hnew : ∃ j, get_site_row site (pdb w') = Some j ∧ lifecycle j = lifecycle i).
  { eexists. split; [eapply get_updated; [rewrite <- E; reflexivity|exact Hi|done]|done]. }
  destruct Hnew as (j & Hj & Hl). split_and!; [|by rewrite <- E|done|by exists i|by exists j].
  intros (i' & Hi' & Hc). unfold in_state. exists j. split; [done|]. rewrite Hi in Hi'. injection Hi' as <-. congruence.
Qed.

Lemma move_to_run site cycle actor id error stage rec w i w' :
  move_to sha256 input_digest clock base site cycle actor id error stage rec w = (Ok i, w') →
  in_state site cycle w' ∧ key_rows (pdb w') = key_rows (pdb w) ∧ ztp w' = ztp w ∧ iv_site i = site ∧ lifecycle i = cycle ∧
  (∃ old, get_site_row site (pdb w) = Some old ∧ iv_device_id i = iv_device_id old).
Proof.
  unfold move_to. intros (r & w0 & [-> ->]%get_run & (row & Hrow & Hrun)%lift_bind_run)%bind_run.
  destruct (get_site_row site (pdb w)) as [old|] eqn:Hold; [|done]. injection Hrow as <-.
  apply bind_run in Hrun as (j & w1 & Hj & (u & w2 & (Hi & Hk & Hz & _)%update_run & [= <- <-])%bind_run).
  assert (Hsite : iv_site old = site) by (apply find_elem in Hold as [_ Hs]; by apply String.eqb_eq in Hs).
  enough ((∃ x, get_site_row site (pdb w1) = Some x ∧ lifecycle x = cycle) ∧ key_rows (pdb w1) = key_rows (pdb w) ∧ ztp w1 = ztp w ∧
    iv_site j = site ∧ lifecycle j = cycle ∧ iv_device_id j = iv_device_id old) as ((x & Hx & Hl) & ? & ? & ? & ? & ?).
  { split_and!; try congruence; [|by exists old]. exists x. split; [|done]. unfold get_site_row in *. by rewrite Hi. }
  destruct (same_text (lifecycle old) cycle) eqn:Es.
  - injection Hj as <- <-. apply String.eqb_eq in Es. split_and!; try done. by exists old.
  - apply at_policy_run in Hj as [Hj Hz1]. pose proof Hj as Hj2. apply transition_site_run in Hj2 as (Hx & Hk1 & _).
    unfold transition_site in Hj. apply bind_run in Hj as (y & s1 & Hy & Hj). apply republish_run in Hj as (-> & _).
    unfold on_db in Hy. destruct (transition _ _ _ _ _ _ _ _ _) as [res d] eqn:Et. injection Hy as -> <-.
    apply transition_cases in Et as (old' & Hold' & _ & Et). change (database (policy w)) with (pdb w) in Hold'. rewrite Hold in Hold'.
    injection Hold' as <-. rewrite Es in Et. destruct Et as (_ & -> & _). by split_and!.
Qed.

(** ** The body of a creation *)

Lemma run_run {A} (m : M World A) r x r' : Lifecycle.run m r = (Ok x, r') → m (world r) = (Ok x, world r').
Proof. unfold Lifecycle.run. destruct (m (world r)) as [y w]. by intros [= -> <-]. Qed.

Lemma row_name site d i : get_site_row site d = Some i → iv_site i = site.
Proof. intros [_ Hs]%find_elem. by apply String.eqb_eq in Hs. Qed.

(** Reading a record again: the row as it is, or the record in hand. *)
Lemma reread_run i r j r' : reread i r = (Ok j, r') → world r' = world r ∧ iv_site j = iv_site i ∧
  match get_site_row (iv_site i) (pdb (world r)) with Some k => j = k | None => j = i end.
Proof.
  unfold reread. intros (o & r1 & [Hw ->]%run_run%get_run & [= <- <-])%bind_run. split; [done|].
  destruct (get_site_row _ _) as [k|] eqn:E; cbn; [|done]. by apply row_name in E.
Qed.

Lemma move_run actor id i cycle r j r' :
  Lifecycle.move sha256 input_digest clock base actor id i cycle r = (Ok j, r') →
  in_state (iv_site i) cycle (world r') ∧ iv_site j = iv_site i ∧ lifecycle j = cycle.
Proof. intros (H1 & _ & _ & H2 & H3 & _)%run_run%move_to_run. done. Qed.

Notation ACTIVE := "ACTIVE".

(** Known to be ACTIVE, when the record says so. *)
Definition current (i : InventorySite) (w : World) : Prop := lifecycle i = ACTIVE → in_state (iv_site i) ACTIVE w.

Lemma create_topology_run actor id record r i r' :
  create_topology sha256 input_digest clock base actor id record r = (Ok i, r') →
  iv_site i = iv_site record ∧ current i (world r').
Proof.
  unfold create_topology. cbv zeta. intros (created & r1 & _ & (u & _ & Hrun)%lift_bind_run)%bind_run.
  apply bind_run in Hrun as (v & r2 & Hst%run_run & Hrun).
  destruct (_ && _).
  { apply move_run in Hrun as (_ & Hs & Hl). split; [done|]. intros Ha. by rewrite Hl in Ha. }
  destruct (inb (lifecycle record) _).
  { apply move_run in Hrun as (_ & Hs & Hl). split; [done|]. intros Ha. by rewrite Hl in Ha. }
  apply (status_run _ _ _ _ _ _ ACTIVE) in Hst as (_ & _ & _ & _ & (k & Hk)).
  apply reread_run in Hrun as (Hw & Hs & Hrow). rewrite Hk in Hrow. subst k. split; [done|]. intros Ha. exists i. by rewrite Hw, Hs.
Qed.

(** Enrolment keeps the site; a record that says ACTIVE is still true. *)
Lemma enrol_run actor id record r i r' : current record (world r) →
  enrol sha256 input_digest clock base pbkdf2 ztp_clock uuid_hex secret_of salt_of bootstrap_ca ztp_url policy_url management_host
    actor id record r = (Ok i, r') →
  iv_site i = iv_site record ∧ current i (world r').
Proof.
  intros Hcur. unfold enrol. intros ([rec1 claim1] & r1 & H1 & Hrun)%bind_run.
  assert (iv_site rec1 = iv_site record ∧ current rec1 (world r1)) as [Hs1 Hc1].
  { destruct (same_text (lifecycle record) "TOPOLOGY_CREATED"); [|by injection H1 as <- _ <-].
    apply bind_run in H1 as (u & ? & _ & (c & ? & _ & H1)%bind_run).
    apply bind_run in H1 as (j & ? & (_ & Hs & Hl)%move_run & [= <- _ <-]). split; [done|]. intros Ha. by rewrite Hl in Ha. }
  apply bind_run in Hrun as ([rec2 claim2] & r2 & H2 & Hrun).
  assert (iv_site rec2 = iv_site record ∧ current rec2 (world r2)) as [Hs2 Hc2].
  { destruct (same_text (lifecycle rec1) "ZTP_STAGED"); [|by injection H2 as <- _ <-].
    apply bind_run in H2 as (u & ? & _ & (c & ? & _ & H2)%bind_run).
    apply bind_run in H2 as (j & ? & (_ & Hs & Hl)%move_run & [= <- _ <-]). split; [congruence|]. intros Ha. by rewrite Hl in Ha. }
  destruct (same_text (lifecycle rec2) "ENROLLING") eqn:E3; [|by injection Hrun as <- <-]. apply String.eqb_eq in E3.
  apply bind_run in Hrun as (c & ? & _ & (control & _ & Hrun)%lift_bind_run).
  apply bind_run in Hrun as (b & ? & _ & (u & _ & Hrun)%lift_bind_run).
  apply reread_run in Hrun as (Hw & Hs & Hrow). split; [congruence|]. intros Ha.
  destruct (get_site_row _ _) as [k|] eqn:Ek; subst i.
  - exists k. by rewrite Hw, Hs.
  - by rewrite E3 in Ha.
Qed.

(** ** Answers *)

(** What an answer says is so in the databases. *)
Inductive truthful (r : reply) (w : World) : Prop :=
  | truthful_active x : dget r "state" = Some (JStr ACTIVE) → dget r "site_id" = Some (JStr x) → in_state x ACTIVE w →
      (∀ id, dget r "operation_id" = Some (JStr id) → ended id "SUCCEEDED" None None w) → truthful r w
  | truthful_deleted x : dget r "state" = Some (JStr "DELETED") → dget r "site_id" = Some (JStr x) → in_state x "DELETED" w →
      (∀ id, dget r "operation_id" = Some (JStr id) → ended id "SUCCEEDED" None None w) → truthful r w
  | truthful_failed id stage why : dget r "state" = Some (JStr "FAILED") → dget r "operation_id" = Some (JStr id) →
      dget r "failure_stage" = Some (JStr stage) → dget r "failure_reason" = Some (JStr why) → (String.length why ≤ 1000)%nat →
      ended id "FAILED" (Some stage) (Some why) w → truthful r w
  | truthful_pending : dget r "state" = Some (JStr "PENDING_HUBS") → truthful r w.

Lemma finished_truthful id record idempotent w : in_state (iv_site record) ACTIVE w → ended id "SUCCEEDED" None None w →
  truthful (finished id record idempotent) w.
Proof.
  intros Hs He. apply (truthful_active _ _ (iv_site record)); try done. intros id'. by intros [= <-].
Qed.

Lemma update_keeps id state stage why rec w x w' site cycle :
  Lifecycle.update clock id state stage why rec w = (Ok x, w') → in_state site cycle w → in_state site cycle w'.
Proof. intros (Hi & _ & _ & _)%update_run (i & Hrow & Hl). exists i. split; [|done]. unfold get_site_row in *. by rewrite Hi. Qed.

Lemma activate_site_run actor id record r x r' :
  activate_site sha256 input_digest clock base bootstrap_ca ztp_url policy_url management_host actor id record r = (Ok x, r') →
  truthful x (world r').
Proof.
  unfold activate_site. intros (u & r1 & _ & (control & _ & Hrun)%lift_bind_run)%bind_run.
  apply bind_run in Hrun as (u2 & r2 & _ & (activation & r3 & _ & Hrun)%bind_run).
  destruct (same_text (ar_state activation) "PENDING_HUBS").
  { apply bind_run in Hrun as (j & r4 & Hj & [= <- <-]). apply truthful_pending.
    destruct (same_text (lifecycle record) "PENDING_HUBS") eqn:E.
    - injection Hj as <- _. apply String.eqb_eq in E. cbn. by rewrite E.
    - apply move_run in Hj as (_ & _ & Hl). cbn. by rewrite Hl. }
  apply lift_bind_run in Hrun as (u3 & _ & (u4 & r4 & _ & Hrun)%bind_run).
  apply bind_run in Hrun as (rec1 & r5 & _ & (reconciled & r6 & _ & Hrun)%bind_run).
  apply lift_bind_run in Hrun as (u5 & _ & (rec2 & r7 & Hre & Hrun)%bind_run).
  apply lift_bind_run in Hrun as (u6 & Hact & (u7 & r8 & Hst%run_run & Hrun)%bind_run).
  apply bind_run in Hrun as (u8 & r9 & Hup%run_run & [= <- <-]).
  assert (Hl : lifecycle rec2 = ACTIVE).
  { unfold raise_if in Hact. destruct (same_text (lifecycle rec2) ACTIVE) eqn:E; [by apply String.eqb_eq|done]. }
  apply reread_run in Hre as (Hw & Hs & Hrow).
  apply (status_run _ _ _ _ _ _ ACTIVE) in Hst as (Hkeep & _ & _ & (k & Hk) & _).
  apply finished_truthful; [|by apply update_run in Hup as (_ & _ & _ & He); apply He].
  eapply update_keeps; [exact Hup|]. apply Hkeep. rewrite Hs, <- Hw in *. rewrite Hk in Hrow. subst k. by exists rec2.
Qed.

Lemma create_body_run actor id record r x r' :
  create_body sha256 input_digest clock base pbkdf2 ztp_clock uuid_hex secret_of salt_of bootstrap_ca ztp_url policy_url management_host
    actor id record r = (Ok x, r') → truthful x (world r').
Proof.
  unfold create_body. intros (rec1 & r1 & (Hs1 & Hc1)%create_topology_run & Hrun)%bind_run.
  apply bind_run in Hrun as (rec2 & r2 & H2 & Hrun). apply enrol_run in H2 as (Hs2 & Hc2); [|done].
  apply lift_bind_run in Hrun as (u & _ & Hrun). destruct (same_text (lifecycle rec2) ACTIVE) eqn:E.
  - apply bind_run in Hrun as (u2 & r3 & Hup%run_run & [= <- <-]). apply String.eqb_eq in E.
    apply finished_truthful; [|by apply update_run in Hup as (_ & _ & _ & He); apply He].
    eapply update_keeps; [exact Hup|]. by apply Hc2.
  - by apply activate_site_run in Hrun.
Qed.

(** The handler of a failed request reports the operation it has closed. *)
Lemma failure_run site id stage e actor w x w' :
  failure sha256 input_digest clock base site id stage e actor w = (Ok x, w') → truthful x w'.
Proof.
  unfold failure. cbv zeta. intros (r & w0 & _ & (r2 & w1 & _ & (u & w2 & Hup & [= <- <-])%bind_run)%bind_run)%bind_run.
  apply update_run in Hup as (_ & _ & _ & He).
  apply (truthful_failed _ _ id stage (bounded_error 1000 (error_text e))); try done; [|by apply He].
  apply bounded_error_length. vm_compute. lia.
Qed.

Lemma guarded_run_truthful site id first actor body w x w' :
  (∀ r y r', body r = (Ok y, r') → truthful y (world r')) →
  guarded_run sha256 input_digest clock base site id first actor body w = (Ok x, w') → truthful x w'.
Proof.
  intros Hb. unfold guarded_run. destruct (body _) as [[y|e] r] eqn:E.
  - intros [= <- <-]. by apply Hb in E.
  - apply failure_run.
Qed.

Lemma delete_body_run site actor id r x r' :
  delete_body sha256 input_digest clock base ztp_clock site actor id r = (Ok x, r') → truthful x (world r').
Proof.
  unfold delete_body. intros (rec1 & r1 & _ & (u & r2 & _ & (u2 & r3 & _ & (deleted & r4 & _ & Hrun)%bind_run)%bind_run)%bind_run)%bind_run.
  apply lift_bind_run in Hrun as (u3 & _ & (rec2 & r5 & Hmove%run_run & Hrun)%bind_run).
  apply bind_run in Hrun as (u4 & r6 & Hst%run_run & (u5 & r7 & Hup%run_run & [= <- <-])%bind_run).
  apply move_to_run in Hmove as (Hin & _).
  apply (status_run _ _ _ _ _ _ "DELETED") in Hst as (Hkeep & _).
  apply (truthful_deleted _ _ site); try done.
  - eapply update_keeps; [exact Hup|]. by apply Hkeep.
  - intros id' [= <-]. apply update_run in Hup as (_ & _ & _ & He). by apply He.
Qed.

(** C20: the coordinator tells the truth.  Whatever the topology runtime answers
    and whatever it does to the services meanwhile, when a creation or deletion
    returns ACTIVE or DELETED the site's inventory row says so and the operation
    is closed as SUCCEEDED; when it returns FAILED the operation is closed as
    FAILED with the reported stage and a reason of at most 1000 characters; the
    only other answer is that the hubs are not ready. *)
Theorem coordinator_truthful site device preferred standby actor w x w' :
  create sha256 input_digest clock base pbkdf2 ztp_clock uuid_hex secret_of salt_of bootstrap_ca ztp_url policy_url management_host
    site device preferred standby actor w = (Ok x, w') ∨
  Lifecycle.delete sha256 input_digest clock base ztp_clock uuid_hex site actor w = (Ok x, w') →
  truthful x w'.
Proof.
  intros [Hrun|Hrun].
  - unfold create in Hrun. apply bind_run in Hrun as (existing & w0 & [-> ->]%get_run & (u & _ & Hrun)%lift_bind_run).
    destruct (get_site_row site (pdb w)) as [i|] eqn:Hi; [destruct (same_text (lifecycle i) ACTIVE) eqn:E|].
    { injection Hrun as <- <-. apply (truthful_active _ _ site); try done. exists i. split; [done|by apply String.eqb_eq]. }
    all: apply bind_run in Hrun as (record & w2 & _ & (id & w3 & _ & Hg)%bind_run); revert Hg; apply guarded_run_truthful;
      intros r y r'; apply create_body_run.
  - unfold Lifecycle.delete in Hrun. apply bind_run in Hrun as (existing & w0 & [-> ->]%get_run & (i & Hi & Hrun)%lift_bind_run).
    destruct (get_site_row site (pdb w)) as [j|] eqn:Hj; [injection Hi as ->|done].
    destruct (same_text (lifecycle i) "DELETED") eqn:E.
    + injection Hrun as <- <-. apply (truthful_deleted _ _ site); try done. exists i. split; [done|by apply String.eqb_eq].
    + apply bind_run in Hrun as (id & w1 & _ & Hg). revert Hg. apply guarded_run_truthful. intros r y r'. apply delete_body_run.
Qed.

(** ** What a deletion revokes *)

(** Revoking serials one after the other. *)
Lemma revoke_serials actor now l : ∀ d, ∃ d', forM (revoke_serial actor now) l d = (Ok tt, d') ∧
  claims d' = claims d ∧ devices d' = devices d ∧
  (∀ c', c' ∈ certificates d' → ∃ c, c ∈ certificates d ∧ ce_device c' = ce_device c ∧ ce_serial c' = ce_serial c ∧
     (ce_status c' = ce_status c ∧ ce_serial c ∉ l ∨ ce_status c' = "REVOKED")) ∧
  (∀ s, s ∈ l ∨ (∃ r, r ∈ revocations d ∧ rv_serial r = s) → ∃ r, r ∈ revocations d' ∧ rv_serial r = s).
Proof.
  induction l as [|s l IH]; intros d.
  - exists d. split; [done|]. split; [done|]. split; [done|]. split.
    + intros c Hc. exists c. split_and!; try done. left. split; [done|]. by intros ?%elem_of_nil.
    + intros s [?%elem_of_nil|?]; done.
  - set (d1 := (revoke_serial actor now s d).2).
    assert (E1 : revoke_serial actor now s d = (Ok tt, d1)) by done.
    destruct (IH d1) as (d' & E2 & Ec & Ed & Hcert & Hrev). exists d'. split.
    { simpl. unfold mbind, M_bind. rewrite E1. exact E2. }
    split; [done|]. split; [done|]. split.
    + intros c' Hc'. destruct (Hcert c' Hc') as (c1 & Hc1 & A1 & A2 & A3). unfold d1 in Hc1. cbn in Hc1.
      apply update_rows_elem in Hc1 as (c & Hc & ->). exists c. split; [done|].
      destruct (is_certificate s c) eqn:Es; cbn in A1, A2, A3.
      * split_and!; try done. right. by destruct A3 as [[A3 _]|A3].
      * split_and!; try done. destruct A3 as [[A3 A4]|A3]; [left|by right]. split; [done|]. rewrite not_elem_of_cons. split; [|done].
        intros Eq. unfold is_certificate in Es. by rewrite Eq, String.eqb_refl in Es.
    + intros t Ht. apply Hrev. destruct (decide (t = s)) as [->|Hne].
      * right. eexists. split; [unfold d1; cbn; apply elem_of_app; right; by constructor|done].
      * destruct Ht as [[?|Ht]%elem_of_cons|(r & Hr & Es)]; [done|by left|right]. exists r. split; [|done]. unfold d1. cbn.
        apply elem_of_app. left. apply filter_elem. split; [done|]. apply negb_true_iff, String.eqb_neq. congruence.
Qed.

(** What a decommissioned device can no longer use. *)
Record decommissioned (device : string) (before d : Ztp) : Prop := {
  no_claim : ∀ c, c ∈ claims d → cl_device c = device → cl_status c ≠ ACTIVE;
  no_certificate : ∀ c, c ∈ certificates d → ce_device c = device → ce_status c ≠ ACTIVE;
  listed : ∀ c, c ∈ certificates before → ce_device c = device → ce_status c = ACTIVE →
    ∃ r, r ∈ revocations d ∧ rv_serial r = ce_serial c;
  device_revoked : ∀ v, v ∈ devices d → dv_id v = device → dv_status v = "REVOKED"
}.

Lemma revoke_site_effect i actor now d x d' : revoke_site i actor now d = (Ok x, d') → decommissioned (iv_device_id i) d d'.
Proof.
  unfold revoke_site. cbv zeta. rewrite transaction_ok. set (dev := iv_device_id i).
  intros (u & d1 & [= _ <-] & (serials & d2 & [= <- <-] & Hrun)%bind_run)%bind_run.
  set (d1 := set_claims d _) in *. set (serials := map ce_serial _) in *.
  apply bind_run in Hrun as (u1 & d3 & Hf & (u2 & d4 & [= _ <-] & [= _ <-])%bind_run).
  destruct (revoke_serials actor now serials d1) as (d3' & E & Ec & Ed & Hcert & Hrev). rewrite E in Hf. injection Hf as _ <-.
  split.
  - intros c Hc. cbn in Hc. rewrite Ec in Hc. cbn in Hc. apply update_rows_elem in Hc as (c0 & Hc0 & ->).
    unfold claim_of_device, same_text. destruct (String.eqb_spec (cl_device c0) dev) as [E1|]; cbn; [|done].
    destruct (String.eqb_spec (cl_status c0) ACTIVE) as [E2|]; cbn; [|done]. done.
  - intros c' Hc' Ed'. cbn in Hc'. destruct (Hcert c' Hc') as (c & Hc & A1 & A2 & [[A3 A4]| ->]); [|done]. rewrite A3. intros Ha. apply A4.
    unfold serials. apply elem_of_map. exists c. split; [done|]. apply filter_elem. split; [done|].
    unfold certificate_of_device, same_text. rewrite Ha. change (iv_device_id i) with dev. rewrite <- A1, Ed'. by rewrite !String.eqb_refl.
  - intros c Hc Edev Ha. cbn. apply Hrev. left. unfold serials. apply elem_of_map. exists c. split; [done|]. apply filter_elem. split; [done|].
    unfold certificate_of_device, same_text. change (iv_device_id i) with dev. by rewrite Ha, Edev, !String.eqb_refl.
  - intros v Hv. cbn in Hv. rewrite Ed in Hv. cbn in Hv. apply update_rows_elem in Hv as (v0 & Hv0 & ->).
    unfold is_device. destruct (String.eqb_spec (dv_id v0) dev) as [E1|]; cbn; done.
Qed.

Lemma operation_of_run site kind w id w' : operation_of clock uuid_hex site kind w = (Ok id, w') →
  get_site_row site (pdb w') = get_site_row site (pdb w) ∧ key_rows (pdb w') = key_rows (pdb w) ∧ ztp w' = ztp w.
Proof.
  unfold operation_of. intros (n & w1 & [= <- <-] & (u & w2 & Hin & [= <- <-])%bind_run)%bind_run.
  apply in_inventory_run in Hin as [Hc Hz]. unfold create_operation in Hc. revert Hc. run_store. intros [= _ E].
  split_and!; [|by rewrite <- E; destruct (_ || _)|done]. unfold get_site_row. rewrite <- E. by destruct (_ || _).
Qed.

(** A failed request is not reported as a deletion. *)
Lemma failure_state site id stage e actor w x w' :
  failure sha256 input_digest clock base site id stage e actor w = (Ok x, w') → dget x "state" = Some (JStr "FAILED").
Proof.
  unfold failure. cbv zeta. intros (r & w0 & _ & (r2 & w1 & _ & (u & w2 & _ & [= <- <-])%bind_run)%bind_run)%bind_run. done.
Qed.

Lemma retire_run site d x d' : retire_keys site d = (Ok x, d') →
  ∀ k, k ∈ key_rows d' → k_site k = site → k_status k ≠ ACTIVE.
Proof.
  unfold retire_keys. rewrite transaction_ok. unfold execute_checked. run_store.
  destruct (update_checked _ _ _ _ _) as [rows|e] eqn:Hu; [|done]. intros [= _ <-] k. cbn.
  apply update_checked_ok in Hu as ->. cbn [app]. intros (k0 & Hk & ->)%update_rows_elem Hs.
  destruct (active_key site k0) eqn:Ea; [done|]. intros Hact.
  assert (active_key site k0 = true) by (by apply active_key_iff). congruence.
Qed.

Lemma at_ztp_run {A} (m : Z → M Ztp A) w x w' : at_ztp ztp_clock m w = (Ok x, w') →
  m (ztp_clock (ztp_ticks w)) (ztp w) = (Ok x, ztp w') ∧ policy w' = policy w.
Proof. unfold at_ztp. destruct (m _ (ztp w)) as [r d]. by intros [= -> <-]. Qed.

(** Taking a site's topology down registers no keys and enrols no device. *)
Definition quiet_deletion : Prop := ∀ i w, key_rows (pdb (rt_delete_site i w).2) = key_rows (pdb w) ∧ ztp (rt_delete_site i w).2 = ztp w.

End coordinator.

(** ** A branch from creation to deletion *)

Module Examples.
Definition up : reply := [("available", JBool true)].

Definition on_policy (f : Service → Service) (w : World) : World :=
  {| policy := f (policy w); ztp := ztp w; ztp_ticks := ztp_ticks w; drawn := drawn w |}.

Definition from (d : dict string string) (k : string) : string := default "" (dget d k).

(** A runtime whose edges enrol with their claim, register their key and verify
    what they are sent. *)
Definition lab : LabRuntime := {|
  rt_create_site := λ _, mret up;
  rt_delete_site := λ _, mret up;
  rt_bootstrap_site := λ i control w,
    let '(r, d) := consume_claim kdf print 100 (from control "claim_id") (from control "claim_secret") (iv_device_id i) "nonce"
                     (ca ("serial-" +:+ iv_site i)) "request" (ztp w) in
    match r with
    | Ok _ => (Ok up, on_policy (registered (iv_site i)) {| policy := policy w; ztp := d; ztp_ticks := ztp_ticks w; drawn := drawn w |})
    | Err e => (Err e, w)
    end;
  rt_reconcile_site := λ target _ w, (Ok up, on_policy (λ s, acknowledged (resolve_site (config s) target) s) w) |}.

Definition drawn_text (pre : string) (n : nat) : string := pre +:+ str_Z (Z.of_nat n).

Notation creating w :=
  (@create _ text_hash inputs ticking core_config kdf Z.of_nat (drawn_text "id") (drawn_text "secret") (drawn_text "salt") lab
    (Some "PEM") "https://ztp:8443" "https://policy:8080" "172.30.0.254" "branch-a" "dev-a" "hub1" "hub2" "admin" w).
Notation deleting w :=
  (@Lifecycle.delete _ text_hash inputs ticking core_config Z.of_nat (drawn_text "id") lab "branch-a" "admin" w).

(** Both hubs are registered and have verified. *)
Definition hubs_up : World :=
  {| policy := acknowledged "hub2" (acknowledged "hub1" (registered "hub2" (registered "hub1" opened))); ztp := empty_ztp;
     ztp_ticks := 0; drawn := 0 |}.
Definition built : World := (creating hubs_up).2.
Definition removed : World := (deleting built).2.

Definition state_of (x : result reply * World) : option json := match x.1 with Ok r => dget r "state" | Err _ => None end.
Definition reason_of (x : result reply * World) : option json := match x.1 with Ok r => dget r "failure_reason" | Err _ => None end.
Definition life_of (w : World) : option string := lifecycle <$> get_site_row "branch-a" (pdb w).

(** The same branch after its key was rotated once. *)
Definition rotated : World :=
  on_policy (λ s, (register_edge_identity text_hash plain_hash inputs ticking core_config "branch-a" "key-2" "ztp" s).2) built.

Lemma branch_life :
  state_of (creating hubs_up) = Some (JStr "ACTIVE") ∧ life_of built = Some "ACTIVE" ∧
  state_of (deleting built) = Some (JStr "DELETED") ∧ life_of removed = Some "DELETED".
Proof. vm_compute. by split_and!. Qed.

(** A deleted branch cannot come back: its device stays REVOKED, for which no
    claim is issued, and its retired key keeps generation 1 for itself. *)
Lemma deleted_site_never_returns :
  state_of (creating removed) = Some (JStr "FAILED") ∧
  reason_of (creating removed) = Some (JStr "device is not staged for this site") ∧
  (register_wireguard_public_key plain_hash "t" "branch-a" "new-key" "ztp" (pdb removed)).1 =
    raise IntegrityError "UNIQUE constraint failed".
Proof. vm_compute. by split_and!. Qed.

(** A branch whose key was rotated cannot be deleted: retiring the active key
    meets the retired one, and the site stays DELETING however often it is tried. *)
Lemma rotated_site_stays_deleting :
  state_of (deleting rotated) = Some (JStr "FAILED") ∧ life_of (deleting rotated).2 = Some "DELETING" ∧
  state_of (deleting (deleting rotated).2) = Some (JStr "FAILED") ∧ life_of (deleting (deleting rotated).2).2 = Some "DELETING".
Proof. vm_compute. by split_and!. Qed.

Lemma lab_quiet : @quiet_deletion lab.
Proof. by intros i w. Qed.
End Examples.

Lemma coordinator_truthful_witness :
  ∃ x w', Examples.creating Examples.hubs_up = (Ok x, w') ∧ dget x "state" = Some (JStr "ACTIVE") ∧ truthful x w'.
Proof.
  destruct (Examples.creating Examples.hubs_up) as [[x|e] w'] eqn:E.
  - exists x, w'. split; [reflexivity|]. split; [|].
    + assert (E1 : Examples.state_of (Examples.creating Examples.hubs_up) = Some (JStr "ACTIVE")) by (vm_compute; reflexivity).
      rewrite E in E1. exact E1.
    + apply (@coordinator_truthful _ text_hash inputs ticking core_config kdf Z.of_nat (Examples.drawn_text "id")
        (Examples.drawn_text "secret") (Examples.drawn_text "salt") Examples.lab (Some "PEM") "https://ztp:8443" "https://policy:8080"
        "172.30.0.254" "branch-a" "dev-a" "hub1" "hub2" "admin" Examples.hubs_up x w'). left. exact E.
  - assert (E1 : Examples.state_of (Examples.creating Examples.hubs_up) = Some (JStr "ACTIVE")) by (vm_compute; reflexivity).
    rewrite E in E1. discriminate E1.
Defined.

