(* ===== verification/SqlConnection.v ===== *)
(** * One SQLite connection ([persistence/base.py])

    [SQLiteStore.transaction] statement by statement on the connection the
    threads of a service share, and the migrations.  A thread is a [Stage] that
    [advance] moves by one statement; a schedule interleaves the threads.  Run
    one at a time the threads are the transactions of Sql; interleaved they
    need not be. *)
From stdpp Require Import relations.
From S2P Require Import Prelude Sql.
Local Open Scope string_scope.
Local Open Scope list_scope.
Local Open Scope Z_scope.

(** ** The connection *)

Section connection.
Context {S : Type}.

(** The durable tables, and the tables an open transaction works on. *)
Record Connection := { committed : S; pending : option S }.

Definition seen (c : Connection) : S := default (committed c) (pending c).

Definition begin_immediate (c : Connection) : result Connection :=
  match pending c with
  | Some _ => raise OperationalError "cannot start a transaction within a transaction"
  | None => Ok {| committed := committed c; pending := Some (committed c) |}
  end.

Definition rollback (c : Connection) : result Connection :=
  match pending c with
  | Some _ => Ok {| committed := committed c; pending := None |}
  | None => raise OperationalError "cannot rollback - no transaction is active"
  end.

Definition commit (c : Connection) : result Connection :=
  match pending c with
  | Some s => Ok {| committed := s; pending := None |}
  | None => raise OperationalError "cannot commit - no transaction is active"
  end.

(** Outside a transaction a statement is committed at once. *)
Definition statement (f : S → result S) (c : Connection) : result Connection :=
  s ← f (seen c);
  Ok (match pending c with
      | Some _ => {| committed := committed c; pending := Some s |}
      | None => {| committed := s; pending := None |}
      end).

(** ** The body of a transaction *)

(** One statement after the other; what follows a statement may depend on the
    tables it read. *)
Inductive Script (A : Type) : Type :=
  | Done (r : result A)
  | Exec (f : S → result S) (k : S → Script A).
Arguments Done {A} r.
Arguments Exec {A} f k.

Fixpoint denote {A} (p : Script A) : M S A :=
  match p with
  | Done r => lift r
  | Exec f k => s ← get; s' ← lift (f s); _ ← put s'; denote (k s)
  end.

(** ** A thread in [with self.transaction()] *)

Inductive Stage (A : Type) : Type :=
  | Starting (p : Script A)
  | Inside (p : Script A)
  | Undoing (e : exn)
  | Committing (x : A)
  | Finished (r : result A).
Arguments Starting {A} p.
Arguments Inside {A} p.
Arguments Undoing {A} e.
Arguments Committing {A} x.
Arguments Finished {A} r.

(** The next statement of the thread.  BEGIN stands inside the [try]: when it
    fails the handler rolls back too. *)
Definition advance {A} (c : Connection) (t : Stage A) : Connection * Stage A :=
  match t with
  | Starting p => match begin_immediate c with Ok c' => (c', Inside p) | Err e => (c, Undoing e) end
  | Inside (Exec f k) => match statement f c with Ok c' => (c', Inside (k (seen c))) | Err e => (c, Undoing e) end
  | Inside (Done (Ok x)) => (c, Committing x)
  | Inside (Done (Err e)) => (c, Undoing e)
  | Undoing e => match rollback c with Ok c' => (c', Finished (Err e)) | Err e' => (c, Finished (Err e')) end
  | Committing x => match commit c with Ok c' => (c', Finished (Ok x)) | Err e => (c, Finished (Err e)) end
  | Finished r => (c, Finished r)
  end.

(** ** The threads of a service *)

Definition Threads (A : Type) : Type := Connection * list (Stage A).

Definition run_thread {A} (i : nat) (s : Threads A) : Threads A :=
  match s.2 !! i with
  | Some t => let '(c, t') := advance s.1 t in (c, <[i := t']> s.2)
  | None => s
  end.

Definition run_schedule {A} (l : list nat) (s : Threads A) : Threads A := foldl (λ s i, run_thread i s) s l.

(** A thread may begin only while no transaction is open: what a lock around
    [transaction] would enforce. *)
Definition may_run {A} (i : nat) (s : Threads A) : bool :=
  match s.2 !! i with
  | Some (Starting _) => match pending s.1 with None => true | Some _ => false end
  | _ => true
  end.

Fixpoint exclusive {A} (l : list nat) (s : Threads A) : bool :=
  match l with
  | [] => true
  | i :: l' => may_run i s && exclusive l' (run_thread i s)
  end.

(** The transactions of [ps], in the order given, from [s]. *)
Inductive in_turn {A} (ps : list (Script A)) : list (nat * result A) → S → S → Prop :=
  | turn_none s : in_turn ps [] s s
  | turn_next order s s1 i p r s2 : in_turn ps order s s1 → ps !! i = Some p → transaction (denote p) s1 = (r, s2) →
      in_turn ps (order ++ [(i, r)]) s s2.

(** ** Migrations *)

(** A migration file: version, file name and what its statements do. *)
Record MigrationFile := { mf_version : Z; mf_name : string; mf_apply : S → result S }.

(** The tables and [schema_migrations]. *)
Record Schema := { tables : S; applied_versions : list (Z * string) }.

Definition max_version (l : list Z) : Z := foldr Z.max 0 l.

(** [executescript("BEGIN IMMEDIATE; ... INSERT INTO schema_migrations ...; COMMIT")] *)
Definition apply_migration (now : string) (f : MigrationFile) (d : Schema) : result Schema :=
  t ← mf_apply f (tables d);
  _ ← raise_if (inb (mf_version f) (map fst (applied_versions d))) IntegrityError
        "UNIQUE constraint failed: schema_migrations.version";
  Ok {| tables := t; applied_versions := applied_versions d ++ [(mf_version f, now)] |}.

(** [files] in the order of their names; [clock] the text of the time at each file. *)
Fixpoint migrate_files (clock : Z → string) (applied : list Z) (files : list MigrationFile) : M Schema unit :=
  match files with
  | [] => mret tt
  | f :: rest =>
      _ ← (if inb (mf_version f) applied then mret tt
           else λ d, match apply_migration (clock (mf_version f)) f d with
                     | Ok d' => (Ok tt, d')
                     | Err e => (raise MigrationError ("migration " +:+ mf_name f +:+ " failed: " +:+ exn_msg e), d)
                     end);
      migrate_files clock applied rest
  end.

Definition migrate (clock : Z → string) (files : list MigrationFile) : M Schema unit :=
  applied ← query (λ d, map fst (applied_versions d));
  _ ← lift (raise_if (match applied with [] => false | _ => max_version (map mf_version files) <? max_version applied end)
              MigrationError "database schema is newer than this running code");
  migrate_files clock applied files.

(** [schema_version] *)
Definition schema_version (d : Schema) : Z := max_version (map fst (applied_versions d)).
End connection.
Arguments Connection S : clear implicits.
Arguments Script S A : clear implicits.
Arguments Stage S A : clear implicits.
Arguments Threads S A : clear implicits.
Arguments Schema S : clear implicits.
Arguments MigrationFile S : clear implicits.
Arguments Done {S A} r.
Arguments Exec {S A} f k.
Arguments Starting {S A} p.
Arguments Inside {S A} p.
Arguments Undoing {S A} e.
Arguments Committing {S A} x.
Arguments Finished {S A} r.

(** ** Alone, a thread is a transaction *)

Section alone.
Context {S A : Type}.
Implicit Types (p : Script S A) (s t : S).

Lemma statement_inside (f : S → result S) s t : statement f {| committed := s; pending := Some t |} =
  match f t with Ok t' => Ok {| committed := s; pending := Some t' |} | Err e => Err e end.
Proof. done. Qed.

(** From inside the transaction: what the rest of the body does to the open
    tables decides between commit and rollback. *)
Fixpoint steps_left p : S → nat := λ t,
  match p with
  | Done _ => 2
  | Exec f k => match f t with Ok t' => 1 + steps_left (k t) t' | Err _ => 2 end
  end%nat.

Lemma inside_finishes p : ∀ s t, Nat.iter (steps_left p t) (λ ct, advance ct.1 ct.2)
  ({| committed := s; pending := Some t |}, Inside p) =
  ({| committed := match denote p t with (Ok _, t') => t' | (Err _, _) => s end; pending := None |}, Finished (denote p t).1).
Proof.
  induction p as [r|f k IH]; intros s t.
  - by destruct r.
  - cbn [steps_left denote]. unfold mbind, M_bind, get, lift, put. destruct (f t) as [t'|e] eqn:E.
    + rewrite Nat.add_1_l, Nat.iter_succ_r. cbn. rewrite statement_inside, E. apply IH.
    + cbn. by rewrite statement_inside, E.
Qed.

Lemma alone_is_transaction p s : ∃ n, Nat.iter n (λ ct, advance ct.1 ct.2) ({| committed := s; pending := None |}, Starting p) =
  ({| committed := (transaction (denote p) s).2; pending := None |}, Finished (transaction (denote p) s).1).
Proof.
  exists (Datatypes.S (steps_left p s)). rewrite Nat.iter_succ_r. cbn [advance fst snd begin_immediate pending committed].
  rewrite inside_finishes. unfold transaction. by destruct (denote p s) as [[x|e] t].
Qed.
End alone.

(** ** One at a time, the threads are serial *)

Section serial.
Context {S A : Type} (ps : list (Script S A)) (s0 : S).
Implicit Types (order : list (nat * result A)) (ts : list (Stage S A)).

(** A thread that has not begun, or has finished with its transaction's result. *)
Definition outside order (i : nat) (t : Stage S A) : Prop :=
  match t with
  | Starting p => ps !! i = Some p ∧ i ∉ order.*1
  | Finished r => (i, r) ∈ order
  | _ => False
  end.

(** A thread in the middle of the transaction [p] that began in [s]. *)
Definition underway (p : Script S A) (s u : S) (t : Stage S A) : Prop :=
  match t with
  | Inside q => denote q u = denote p s
  | Undoing e => (denote p s).1 = Err e
  | Committing x => denote p s = (Ok x, u)
  | _ => False
  end.

Inductive consistent : Threads S A → Prop :=
  | all_outside order s ts : in_turn ps order s0 s → NoDup order.*1 → (∀ i t, ts !! i = Some t → outside order i t) →
      consistent ({| committed := s; pending := None |}, ts)
  | one_inside order s u j p t ts : in_turn ps order s0 s → NoDup order.*1 → j ∉ order.*1 → ps !! j = Some p →
      ts !! j = Some t → underway p s u t → (∀ i t, i ≠ j → ts !! i = Some t → outside order i t) →
      consistent ({| committed := s; pending := Some u |}, ts).

Lemma start_consistent : consistent ({| committed := s0; pending := None |}, map Starting ps).
Proof.
  apply (all_outside []); [constructor|constructor|]. intros i t. rewrite list_lookup_fmap.
  destruct (ps !! i) eqn:E; [|done]. intros [= <-]. split; [done|]. by intros ?%elem_of_nil.
Qed.

(** The others stay outside when thread [j] finishes. *)
Lemma finish order s s' j p r ts : in_turn ps order s0 s → NoDup order.*1 → j ∉ order.*1 → ps !! j = Some p →
  transaction (denote p) s = (r, s') → (∀ i t, i ≠ j → ts !! i = Some t → outside order i t) →
  consistent ({| committed := s'; pending := None |}, <[j := Finished r]> ts).
Proof.
  intros Ho Hn Hj Hp Ht Hts. apply (all_outside (order ++ [(j, r)])).
  - by eapply turn_next.
  - rewrite fmap_app. apply NoDup_app. split_and!; [done| |apply NoDup_singleton]. intros x Hx ->%list_elem_of_singleton. done.
  - intros i t [(-> & <- & _)|[Hne%not_eq_sym Hi]]%list_lookup_insert_Some.
    + apply elem_of_app. right. by constructor.
    + specialize (Hts i t Hne Hi). destruct t; cbn in *; try done.
      * destruct Hts as [? Hno]. split; [done|]. rewrite fmap_app, elem_of_app. intros [?|E%list_elem_of_singleton]; done.
      * apply elem_of_app. by left.
Qed.

Lemma run_thread_consistent i st : consistent st → may_run i st = true → consistent (run_thread i st).
Proof.
  unfold may_run, run_thread. intros Hc Hm. destruct (st.2 !! i) as [t|] eqn:Hi; [|done].
  destruct Hc as [order s ts Ho Hn Hts|order s u j p tj ts Ho Hn Hj Hp Htj Hu Hts]; cbn [fst snd] in *.
  - specialize (Hts i t Hi) as Hout. destruct t; cbn in Hout; try done; cbn.
    + destruct Hout as [Hp Hno]. eapply (one_inside order s s i p (Inside p)); try done.
      * apply list_lookup_insert_eq. by eapply lookup_lt_Some.
      * intros k t Hk. rewrite list_lookup_insert_ne by done. apply Hts.
    + rewrite list_insert_id by done. by eapply all_outside.
  - destruct (decide (i = j)) as [->|Hne].
    + rewrite Htj in Hi. injection Hi as <-.
      assert (Hset : ∀ u' t', underway p s u' t' → consistent ({| committed := s; pending := Some u' |}, <[j := t']> ts)).
      { intros u' t' Hu'. eapply (one_inside order s u' j p t'); try done.
        - apply list_lookup_insert_eq. by eapply lookup_lt_Some.
        - intros k t Hk. rewrite list_lookup_insert_ne by done. by apply Hts. }
      destruct tj as [q|q|e|x|r]; cbn in Hu; try done; cbn.
      * destruct q as [r|f k]; cbn in Hu |- *.
        { destruct r as [x|e]; apply Hset; cbn; by rewrite <- Hu. }
        rewrite statement_inside. unfold mbind, M_bind, get, lift, put in Hu.
        destruct (f u) as [u'|e] eqn:E; rewrite ?E in Hu; cbn; apply Hset; cbn; [done|by rewrite <- Hu].
      * eapply finish; try done. unfold transaction. destruct (denote p s) as [r s']. cbn in Hu. by subst r.
      * eapply finish; try done. unfold transaction. by rewrite Hu.
    + specialize (Hts i t Hne Hi) as Hout. destruct t; cbn in Hout; try done.
      cbn. rewrite list_insert_id by done. by eapply one_inside.
Qed.

Lemma run_schedule_consistent l : ∀ st, consistent st → exclusive l st = true → consistent (run_schedule l st).
Proof.
  induction l as [|i l IH]; intros st Hc; simpl; [done|]. intros [Hm Hl]%andb_true_iff. apply IH; [|done].
  by apply run_thread_consistent.
Qed.
End serial.

(** C15: where no thread begins while a transaction is open, every interleaving is
    serial: when all threads have finished there is an order in which running
    their transactions one by one ([Sql.transaction]) gives the same tables and
    to each thread the result it got, and no transaction is left open. *)
Theorem exclusive_transactions_serial {S A} (ps : list (Script S A)) (s0 : S) (l : list nat) c ts :
  exclusive l ({| committed := s0; pending := None |}, map Starting ps) = true →
  run_schedule l ({| committed := s0; pending := None |}, map Starting ps) = (c, ts) →
  (∀ t, t ∈ ts → ∃ r, t = Finished r) →
  ∃ order, in_turn ps order s0 (committed c) ∧ NoDup order.*1 ∧ pending c = None ∧
    ∀ i r, ts !! i = Some (Finished r) → (i, r) ∈ order.
Proof.
  intros Hx Hr Hall. pose proof (run_schedule_consistent ps s0 l _ (start_consistent ps s0) Hx) as Hc. rewrite Hr in Hc.
  inversion Hc as [order s ts' Ho Hn Hts|order s u j p t ts' _ _ _ _ Htj Hu _]; subst.
  - exists order. cbn. split_and!; try done. intros i r Hi. apply (Hts i _ Hi).
  - destruct (Hall t) as [r ->]; [by eapply list_elem_of_lookup_2|done].
Qed.

(** ** Migrations apply once *)

Section migrations.
Context {S : Type} (clock : Z → string).
Implicit Types (files : list (MigrationFile S)) (d : Schema S).

Definition versions_of d : list Z := (applied_versions d).*1.

Lemma apply_migration_ok now (f : MigrationFile S) d d' : apply_migration now f d = Ok d' →
  versions_of d' = versions_of d ++ [mf_version f] ∧ mf_version f ∉ versions_of d.
Proof.
  unfold apply_migration, versions_of. destruct (mf_apply f (tables d)) as [t|e]; cbn; [|done].
  destruct (inb _ _) eqn:Hi; cbn; [done|]. intros [= <-]. cbn. rewrite fmap_app. split; [done|]. by apply inb_false in Hi.
Qed.

(** One pass over the files: those not applied before are applied in order,
    each once; a failing one is named and leaves what the earlier ones did. *)
Lemma migrate_files_run applied files : ∀ d r d', NoDup (map mf_version files) →
  (∀ v, v ∈ map mf_version files → v ∈ versions_of d → v ∈ applied) →
  migrate_files clock applied files d = (r, d') →
  match r with
  | Ok _ => versions_of d' = versions_of d ++ filter (λ v, v ∉ applied) (map mf_version files)
  | Err e => exn_cls e = MigrationError ∧ ∃ pre f rest, files = pre ++ f :: rest ∧ mf_version f ∉ applied ∧
      migrate_files clock applied pre d = (Ok tt, d') ∧ is_ok (mf_apply f (tables d')) = false
  end.
Proof.
  induction files as [|f files IH]; intros d r d' Hn Hold; cbn [migrate_files map filter].
  - intros [= <- <-]. by rewrite app_nil_r.
  - apply NoDup_cons in Hn as [Hf Hn]. intros H. apply bind_cases in H as [(e & H & ->)|([] & d1 & H & Hrest)].
    + destruct (inb (mf_version f) applied) eqn:Hi; [done|]. apply inb_false in Hi.
      destruct (apply_migration _ f d) as [d2|e2] eqn:Ha; [done|]. injection H as <- <-. split; [done|].
      exists [], f, files. split_and!; try done. unfold apply_migration in Ha. destruct (mf_apply f (tables d)) as [t|]; [|done].
      cbn in Ha. destruct (inb _ (map fst _)) eqn:Hv; [|done]. apply inb_true in Hv. destruct Hi. apply Hold; [constructor|done].
    + assert (Hd1 : versions_of d1 = versions_of d ++ filter (λ v, v ∉ applied) [mf_version f]).
      { destruct (inb (mf_version f) applied) eqn:Hi.
        - injection H as <-. apply inb_true in Hi. rewrite filter_cons_False by naive_solver. by rewrite app_nil_r.
        - apply inb_false in Hi. rewrite filter_cons_True by done. destruct (apply_migration _ f d) as [d2|e2] eqn:Ha; [|done].
          injection H as <-. by apply apply_migration_ok in Ha as [-> _]. }
      apply IH in Hrest; [|done|].
      * destruct r as [[]|e].
        { rewrite Hrest, Hd1, <- app_assoc. f_equal. symmetry. apply (filter_app _ [mf_version f]). }
        destruct Hrest as (? & pre & g & rest & -> & Hg & Hpre & Hbad). split; [done|]. exists (f :: pre), g, rest.
        split_and!; try done. cbn. unfold mbind, M_bind in *. by rewrite H.
      * intros v Hv. rewrite Hd1, elem_of_app. intros [Hvd|Hvf]; [apply Hold; [by constructor|done]|].
        apply list_elem_of_filter in Hvf as [_ ->%list_elem_of_singleton]. done.
Qed.

Lemma max_version_le l v : v ∈ l → v <= max_version l.
Proof. induction l as [|x l IH]; [by intros ?%elem_of_nil|].
  change (max_version (x :: l)) with (Z.max x (max_version l)). intros [->|Hv]%elem_of_cons; [lia|specialize (IH Hv); lia]. Qed.

Lemma max_version_bound l b : 0 <= b → (∀ v, v ∈ l → v <= b) → max_version l <= b.
Proof.
  intros Hb. induction l as [|x l IH]; [done|].
  change (max_version (x :: l)) with (Z.max x (max_version l)). intros H. pose proof (H x ltac:(constructor)).
  assert (max_version l <= b) by (apply IH; intros v Hv; apply H; by constructor). lia.
Qed.

Lemma max_version_nonneg l : 0 <= max_version l.
Proof. induction l as [|x l IH]; [done|]. change (max_version (x :: l)) with (Z.max x (max_version l)). lia. Qed.

Lemma max_version_elem l : 0 < max_version l → max_version l ∈ l.
Proof.
  induction l as [|x l IH]; [done|]. change (max_version (x :: l)) with (Z.max x (max_version l)). intros H.
  destruct (Z.max_spec_le x (max_version l)) as [[_ E]|[_ E]]; rewrite E in *; constructor. by apply IH.
Qed.

Lemma migrate_files_again files : ∀ d applied, map mf_version files ⊆ applied → migrate_files clock applied files d = (Ok tt, d).
Proof.
  induction files as [|f files IH]; intros d applied Hs; [done|]. cbn in Hs |- *.
  rewrite (proj2 (inb_true _ _)) by (apply Hs; constructor). cbn. apply IH. intros v Hv. apply Hs. by constructor.
Qed.

(** opening a database with the migration files of the running code: when it
    succeeds every file has been applied, the ones applied before are not run
    again, and opening it once more changes nothing; a database newer than the
    code is left alone; otherwise the first failing file is the only one whose
    statements are undone. *)
Theorem migrations_apply_once files d r d' : NoDup (map mf_version files) → migrate clock files d = (r, d') →
  match r with
  | Ok _ => versions_of d' = versions_of d ++ filter (λ v, v ∉ versions_of d) (map mf_version files) ∧
      migrate clock files d' = (Ok tt, d')
  | Err e => exn_cls e = MigrationError ∧
      ((d' = d ∧ ∃ v, v ∈ versions_of d ∧ ∀ f, f ∈ files → mf_version f < v) ∨
       ∃ pre f rest, files = pre ++ f :: rest ∧ mf_version f ∉ versions_of d ∧
         migrate_files clock (versions_of d) pre d = (Ok tt, d') ∧ is_ok (mf_apply f (tables d')) = false)
  end.
Proof.
  intros Hn. unfold migrate. change (query _ ≫= ?k) with (λ d : Schema S, k (versions_of d) d). cbn beta.
  intros H. apply lift_cases in H as [(e & Hg & -> & ->)|([] & Hg & H)].
  - unfold raise_if in Hg. destruct (versions_of d) as [|v0 l] eqn:Hv; [done|]. destruct (_ <? _) eqn:Hlt; [|done].
    injection Hg as <-. split; [done|]. left. split; [done|]. apply Z.ltb_lt in Hlt. rewrite <- Hv in *.
    pose proof (max_version_nonneg (map mf_version files)). exists (max_version (versions_of d)).
    split; [apply max_version_elem; lia|]. intros f Hf.
    pose proof (max_version_le (map mf_version files) (mf_version f) ltac:(apply elem_of_map; by exists f)). lia.
  - pose proof H as Hrun. apply migrate_files_run in H; [|done|done]. destruct r as [[]|e].
    2: { split; [apply H|]. right. apply H. }
    split; [done|]. change (query _ ≫= ?k) with (λ d : Schema S, k (versions_of d) d). cbn beta.
    assert (Hall : map mf_version files ⊆ versions_of d').
    { intros v Hv. rewrite H. apply elem_of_app. destruct (decide (v ∈ versions_of d)); [by left|right; by apply list_elem_of_filter]. }
    unfold raise_if in *. destruct (match versions_of d' with [] => _ | _ => _ end) eqn:Hnew; cbn.
    + exfalso. assert (max_version (map mf_version files) < max_version (versions_of d')) as Hlt.
      { destruct (versions_of d'); [done|]. by apply Z.ltb_lt. }
      assert (max_version (versions_of d') <= max_version (map mf_version files)); [|lia].
      apply max_version_bound; [apply max_version_nonneg|]. intros v. rewrite H, elem_of_app. intros [Hin|[_ Hin]%list_elem_of_filter].
      * destruct (versions_of d) eqn:Hv; [by apply elem_of_nil in Hin|]. rewrite <- Hv in *. destruct (_ <? _) eqn:Hlt2 in Hg; [done|].
        apply Z.ltb_ge in Hlt2. pose proof (max_version_le _ _ Hin). lia.
      * by apply max_version_le.
    + by apply migrate_files_again.
Qed.
End migrations.

(** ** Concrete runs *)

Module Examples.

(** Appends [x] after having read how many rows there are; refuses a second row
    with the same value. *)
Definition append_row (x : Z) : Script (list Z) nat :=
  Exec (λ rows, Ok rows) (λ rows, Exec (insert_row Z.eqb x) (λ _, Done (Ok (length rows)))).

Definition both : list (Script (list Z) nat) := [append_row 7; append_row 7; append_row 8].
Definition start : Threads (list Z) nat := ({| committed := []; pending := None |}, map Starting both).

(** Threads 1, 0 and 2, one after the other; the others wake up in between. *)
Definition fair : list nat := [1; 1; 1; 1; 1; 0; 0; 0; 0; 1; 2; 2; 2; 1; 2; 2]%nat.

Lemma exclusive_transactions_serial_witness :
  (run_schedule fair start).2 = [Finished constraint_failed; Finished (Ok 0%nat); Finished (Ok 1%nat)] ∧
  ∃ order, in_turn both order [] [7; 8] ∧ NoDup order.*1 ∧ (1%nat, Ok 0%nat) ∈ order.
Proof.
  split; [vm_compute; reflexivity|].
  destruct (exclusive_transactions_serial both [] fair (run_schedule fair start).1 (run_schedule fair start).2) as (order & H1 & H2 & _ & H3).
  - vm_compute. reflexivity.
  - vm_compute. reflexivity.
  - intros t Ht. vm_compute in Ht. repeat (apply elem_of_cons in Ht as [->|Ht]; [by eexists|]). by apply elem_of_nil in Ht.
  - exists order. split; [exact H1|]. split; [exact H2|]. apply H3. vm_compute. reflexivity.
Defined.

Definition files : list (MigrationFile (list Z)) := [
  {| mf_version := 1; mf_name := "001_initial.sql"; mf_apply := λ d, Ok (d ++ [1]) |};
  {| mf_version := 2; mf_name := "002_next.sql"; mf_apply := λ d, Ok (d ++ [2]) |}].
Definition first_only : Schema (list Z) := {| tables := [1]; applied_versions := [(1, "t")] |}.

Lemma migrations_apply_once_witness :
  tables (migrate str_Z files first_only).2 = [1; 2] ∧
  migrate str_Z files (migrate str_Z files first_only).2 = (Ok tt, (migrate str_Z files first_only).2).
Proof.
  split; [vm_compute; reflexivity|].
  assert (Hn : NoDup (map mf_version files)) by (apply uniqueb_true; vm_compute; reflexivity).
  pose proof (migrations_apply_once str_Z files first_only _ _ Hn (surjective_pairing _)) as H.
  assert (E : (migrate str_Z files first_only).1 = Ok tt) by (vm_compute; reflexivity).
  rewrite E in H. exact (proj2 H).
Defined.
End Examples.
