(* ===== verification/ZtpService.v ===== *)
(** * The enrollment service ([ztp_service_v5.py], [identity_ca.py])

    The laboratory CA over the OpenSSL commands it runs, the application over
    the provisioning database, and the HTTP handlers.  A request carries the
    text of the client certificate's subject, when TLS verified one. *)
From stdpp Require Import relations.
From Stdlib Require Import Ascii.
From S2P Require Import Prelude Net Json Sql ZtpStore ZtpFacts.
Local Open Scope string_scope.
Local Open Scope list_scope.
Local Open Scope Z_scope.

(** [s.replace(c, "")] for one character *)
Fixpoint remove_char (c : ascii) (s : string) : string :=
  match s with
  | EmptyString => EmptyString
  | String a s' => if Ascii.eqb a c then remove_char c s' else String a (remove_char c s')
  end.

(** [s.split("=", 1)[1]] *)
Fixpoint after_equals (s : string) : result string :=
  match s with
  | EmptyString => raise IndexError "list index out of range"
  | String a s' => if Ascii.eqb a "="%char then Ok s' else after_equals s'
  end.

(** ** The certificate authority *)

(** The OpenSSL commands; a command that fails raises [CertificateError]. *)
Class OpenSSL := {
  req_verify : string → result string;
  req_subject : string → result string;
  x509_sign : string → string → result string;
  x509_serial : string → result string;
  x509_fingerprint : string → result string;
  x509_startdate : string → result string;
  x509_enddate : string → result string
}.

Definition line (s : string) : string := s +:+ String (ascii_of_nat 10) EmptyString.

Definition extensions (site device_id : string) : string :=
  line "basicConstraints=critical,CA:FALSE" +:+ line "keyUsage=critical,digitalSignature" +:+
  line "extendedKeyUsage=clientAuth,serverAuth" +:+
  line ("subjectAltName=DNS:" +:+ site +:+ ",URI:urn:sdwan:device:" +:+ device_id).

Section service.
Context `{OpenSSL} (ca_initialize : result unit).

(** [LaboratoryCA.issue] *)
Definition issue (csr_pem device_id site : string) : result issued :=
  _ ← ca_initialize;
  _ ← req_verify csr_pem;
  subject ← req_subject csr_pem;
  _ ← raise_if (negb (contains ("CN = " +:+ device_id) subject) && negb (contains ("CN=" +:+ device_id) subject)) CertificateError
        "CSR common name does not match claimed device identity";
  certificate ← x509_sign csr_pem (extensions site device_id);
  serial ← x509_serial certificate; serial ← after_equals (strip serial);
  fingerprint ← x509_fingerprint certificate; fingerprint ← after_equals (strip fingerprint);
  not_before ← x509_startdate certificate; not_before ← after_equals (strip not_before);
  not_after ← x509_enddate certificate; not_after ← after_equals (strip not_after);
  Ok (serial, remove_char ":"%char fingerprint, not_before, not_after, certificate).

(** ** The application *)

Context `{PyRepr} (pbkdf2 : string → string → string) (nonce_fingerprint : string → string) (now : Z).
(** The identifier, the secret and the salt a new claim draws. *)
Context (claim_id secret salt : string).

Definition payload : Type := dict string json.

(** [str(payload[key])] *)
Definition text_of (p : payload) (key : string) : result string := v ← of_option (dget p key) KeyError key; Ok (py_str v).

Definition enroll_fields : list string := ["claim_id"; "claim_secret"; "device_id"; "nonce"; "csr_pem"; "request_id"].

Definition enroll (p : payload) : M Ztp (dict string json) :=
  _ ← lift (raise_if (negb (forallb (dmem p) enroll_fields)) ClaimRejected "enrollment request is incomplete");
  device ← lift (text_of p "device_id"); csr ← lift (text_of p "csr_pem");
  id ← lift (text_of p "claim_id"); secret ← lift (text_of p "claim_secret");
  nonce ← lift (text_of p "nonce"); request ← lift (text_of p "request_id");
  r ← consume_claim pbkdf2 nonce_fingerprint now id secret device nonce (issue csr device) request;
  let '(site, serial, fingerprint, pem) := r in
  mret [("site", JStr site); ("serial", JStr serial); ("fingerprint", JStr fingerprint); ("certificate_pem", JStr pem)].

Definition admin_stage (p : payload) (actor : string) : M Ztp unit :=
  device ← lift (text_of p "device_id"); site ← lift (text_of p "site");
  _ ← lift (raise_if (negb (nonempty device) || negb (nonempty site)) ValueError "device_id and site are required");
  stage_device now device site actor.

Definition admin_claim (p : payload) (actor : string) : M Ztp (dict string json) :=
  device ← lift (text_of p "device_id"); site ← lift (text_of p "site");
  lifetime ← lift (py_int (default (JInt 900) (dget p "lifetime_s")));
  c ← create_claim pbkdf2 now claim_id secret salt device site lifetime actor 1;
  mret [("claim_id", JStr c.1); ("claim_secret", JStr c.2)].

Definition admin_revoke (p : payload) (actor : string) : M Ztp unit :=
  serial ← lift (text_of p "serial"); why ← lift (text_of p "reason");
  revoke_certificate now serial actor why.

(** ** Requests *)

(** [peer]: [str(peer["subject"])] of the verified client certificate, if one
    was presented; [body]: what [json.loads] makes of the text. *)
Record ZtpRequest := { zr_path : string; zr_peer : option string; zr_length : option string; zr_body : result json }.

Definition zreply : Type := Z * dict string json.
Definition said (key text : string) : dict string json := [(key, JStr text)].

Definition ztp_body (r : ZtpRequest) : result payload :=
  length ← py_int (JStr (default "0" (zr_length r)));
  _ ← raise_if ((length <=? 0) || (256000 <? length)) ValueError "invalid request length";
  value ← zr_body r;
  match value with JObj d => Ok d | _ => raise ValueError "JSON body must be an object" end.

(** ["sdwan-admin" in subject.lower()] *)
Definition is_admin (r : ZtpRequest) : bool := contains "sdwan-admin" (lower (default "" (zr_peer r))).

Definition ztp_admin_actor (r : ZtpRequest) : result string :=
  _ ← raise_if (negb (is_admin r)) PermissionError "administrator mTLS certificate is required";
  Ok "mtls:sdwan-admin".

Definition ztp_route (r : ZtpRequest) : M Ztp zreply :=
  p ← lift (ztp_body r);
  if String.eqb (zr_path r) "/v1/enroll" then result ← enroll p; mret (201, result)
  else
    actor ← lift (ztp_admin_actor r);
    if String.eqb (zr_path r) "/v1/admin/stage" then _ ← admin_stage p actor; mret (200, said "status" "staged")
    else if String.eqb (zr_path r) "/v1/admin/claims" then c ← admin_claim p actor; mret (201, c)
    else if String.eqb (zr_path r) "/v1/admin/revoke" then _ ← admin_revoke p actor; mret (200, said "status" "revoked")
    else mret (404, said "error" "not found").

(** The classes [except (ClaimRejected, CertificateError, KeyError, ValueError)]
    catches, of those the handler can meet. *)
Definition refusals : list exn_class := [ClaimRejected; CertificateError; KeyError; ValueError].

Definition error_reply (e : exn) : zreply :=
  if bool_decide (exn_cls e = PermissionError) then (403, said "error" (exn_msg e))
  else if inb (exn_cls e) refusals then (400, said "error" (exn_msg e))
  else (500, said "error" "enrollment processing failed").

Definition ztp_POST (r : ZtpRequest) (d : Ztp) : zreply * Ztp :=
  match ztp_route r d with
  | (Ok reply, d') => (reply, d')
  | (Err e, d') => (error_reply e, d')
  end.

(** [integrity]: the SQLite check; [schema]: the newest migration. *)
Definition ztp_GET (integrity : result unit) (schema : Z) (r : ZtpRequest) : zreply :=
  if String.eqb (zr_path r) "/healthz" then
    match integrity with
    | Ok _ => (200, [("status", JStr "ok"); ("schema_version", JInt schema)])
    | Err _ => (503, said "status" "unhealthy")
    end
  else (404, said "error" "not found").
End service.

(** * What the enrollment service guarantees

    Which requests change the provisioning database and how: a valid enrolment,
    an administrator's call, or nothing but a rejected attempt. *)

(** The tables but for one rejected attempt. *)
Definition only_refused (d d' : Ztp) : Prop :=
  d' = d ∨ ∃ a, at_result a = "REJECTED" ∧ d' = set_attempts d (attempts d ++ [a]).

#[local] Ltac run_store :=
  cbv [transaction query execute execute_checked ztp_audit mbind M_bind mret M_ret get put lift raise_if of_option raise];
  cbn beta iota zeta.

Section operations.
Context (pbkdf2 : string → string → string) (nonce_fingerprint : string → string) (now : Z).

Lemma consume_claim_cases id secret device nonce issue request d res d' :
  consume_claim pbkdf2 nonce_fingerprint now id secret device nonce issue request d = (res, d') →
  match res with
  | Err _ => only_refused d d'
  | Ok x => ∃ c i devs, presented pbkdf2 now d id secret device nonce c ∧ issue (cl_site c) = Ok i ∧
      x = (cl_site c, ce_serial (issued_certificate c i), ce_fingerprint (issued_certificate c i), ce_pem (issued_certificate c i)) ∧
      d' = accepted_state nonce_fingerprint now d id device nonce request c devs (issued_certificate c i)
  end.
Proof.
  unfold consume_claim. destruct (consume_transaction _ _ _ _ _ _ _ _ _ d) as [[x|e] d1] eqn:E; apply consume_effect in E.
  - intros [= <- <-]. destruct E as (c & i & devs & Hp & Hi & _ & _ & _ & -> & ->). by exists c, i, devs.
  - subst d1. destruct (bool_decide _); [|intros [= <- <-]; by left]. intros [= <- <-]. right.
    by exists (rejection nonce_fingerprint now id device nonce e).
Qed.

(** What each call of an administrator does when it is answered. *)
Definition staged_only (device site : string) (d d' : Ztp) : Prop :=
  claims d' = claims d ∧ certificates d' = certificates d ∧ sessions d' = sessions d ∧ attempts d' = attempts d ∧
  revocations d' = revocations d ∧
  ((devices d' = devices d ∧ staged (devices d) device site) ∨
   ∃ v, devices d' = devices d ++ [v] ∧ dv_id v = device ∧ dv_site v = site ∧ dv_status v = "STAGED" ∧ dv_fingerprint v = None).

Definition claimed_only (device site : string) (d d' : Ztp) : Prop :=
  devices d' = devices d ∧ certificates d' = certificates d ∧ sessions d' = sessions d ∧ attempts d' = attempts d ∧
  revocations d' = revocations d ∧ staged (devices d) device site ∧
  ∃ c, claims d' = claims d ++ [c] ∧ cl_device c = device ∧ cl_site c = site ∧ cl_status c = "ACTIVE" ∧ cl_uses c = 0 ∧
       cl_maximum c = 1 ∧ now < cl_expires c.

Definition revoked_only (serial : string) (d d' : Ztp) : Prop :=
  claims d' = claims d ∧ sessions d' = sessions d ∧ attempts d' = attempts d ∧
  (∀ site, certificate_is_active d' serial site = false) ∧
  (∀ other site, other ≠ serial → certificate_is_active d' other site = certificate_is_active d other site) ∧
  map (λ v, (dv_id v, dv_site v)) (devices d') = map (λ v, (dv_id v, dv_site v)) (devices d).

Lemma stage_device_cases device site actor d res d' : stage_device now device site actor d = (res, d') →
  match res with Err _ => d' = d | Ok _ => staged_only device site d d' end.
Proof.
  unfold stage_device, staged_only. run_store.
  destruct (find (is_device device) (devices d)) as [v|] eqn:Hf.
  - destruct (String.eqb_spec (dv_site v) site) as [Hs|]; cbn; [|by intros [= <- <-]].
    apply find_elem in Hf as [Hv Hid%String.eqb_eq]. intros [= <- <-]. cbn. split_and!; try done. left. split; [done|by exists v].
  - cbn. destruct (insert_row device_clash _ (devices d)) as [rows|e] eqn:Hi; cbn; intros [= <- <-]; [|done]. cbn.
    apply insert_row_ok in Hi as [-> _]. split_and!; try done. right. eexists. split_and!; reflexivity.
Qed.

Lemma create_claim_cases id secret salt device site life actor uses d res d' :
  create_claim pbkdf2 now id secret salt device site life actor uses d = (res, d') →
  match res with Err _ => d' = d | Ok x => x = (id, secret) ∧ claimed_only device site d d' end.
Proof.
  unfold create_claim, claimed_only. run_store. destruct (Z.leb_spec life 0) as [|Hl]; cbn [orb]; [by intros [= <- <-]|].
  destruct (Z.eqb_spec uses 1) as [->|]; cbn [negb]; [|by intros [= <- <-]].
  destruct (find (is_device device) (devices d)) as [v|] eqn:Hf; [|by intros [= <- <-]].
  destruct (String.eqb_spec (dv_site v) site) as [Hs|]; [|by intros [= <- <-]].
  destruct (negb (inb _ _)); [by intros [= <- <-]|]. cbn [negb orb]. destruct (insert_row claim_clash _ (claims d)) as [rows|e] eqn:Hi; cbn; intros [= <- <-]; [|done].
  cbn. apply insert_row_ok in Hi as [-> _]. apply find_elem in Hf as [Hv Hid%String.eqb_eq].
  split_and!; try done; [by exists v|]. eexists. split_and!; try reflexivity. cbn. lia.
Qed.

Lemma revoke_certificate_cases serial actor why d res d' : revoke_certificate now serial actor why d = (res, d') →
  match res with Err _ => d' = d | Ok _ => revoked_only serial d d' end.
Proof.
  unfold revoke_certificate, revoked_only. run_store.
  destruct (find (is_certificate serial) (certificates d)) as [x|] eqn:Hf; cbn; intros [= <- <-]; [|done]. cbn.
  split_and!; try done.
  - intros site. unfold certificate_is_active. cbn. by erewrite find_update_hit.
  - intros other site Ho. unfold certificate_is_active. cbn. rewrite find_update_other; [done|].
    intros y Ey%String.eqb_eq. unfold is_certificate. cbn. rewrite Ey. by split; apply String.eqb_neq, not_eq_sym.
  - by apply update_rows_map.
Qed.
End operations.

(** ** The handlers *)

Section service.
Context `{Ssl : OpenSSL} (ca_initialize : result unit) `{Repr : PyRepr} (pbkdf2 : string → string → string).
Context (nonce_fingerprint : string → string).

Section request.
Context (now : Z) (claim_id secret salt : string).

Notation POST := (ztp_POST ca_initialize pbkdf2 nonce_fingerprint now claim_id secret salt).

(** An administrator's request that was answered. *)
Inductive administered (r : ZtpRequest) (p : payload) (d d' : Ztp) : Prop :=
  | did_stage device site : zr_path r = "/v1/admin/stage" → text_of p "device_id" = Ok device → text_of p "site" = Ok site →
      device ≠ "" → site ≠ "" → staged_only device site d d' → administered r p d d'
  | did_claim device site : zr_path r = "/v1/admin/claims" → text_of p "device_id" = Ok device → text_of p "site" = Ok site →
      claimed_only now device site d d' → administered r p d d'
  | did_revoke serial : zr_path r = "/v1/admin/revoke" → text_of p "serial" = Ok serial → revoked_only serial d d' →
      administered r p d d'.

(** An enrolment that was answered: the claim presented, the names in the CSR. *)
Record admitted (p : payload) (reply : dict string json) (d d' : Ztp) : Prop := {
  ad_proof : ∃ id s device nonce csr request c i devs,
    map (text_of p) enroll_fields = map Ok [id; s; device; nonce; csr; request] ∧
    presented pbkdf2 now d id s device nonce c ∧ issue ca_initialize csr device (cl_site c) = Ok i ∧
    d' = accepted_state nonce_fingerprint now d id device nonce request c devs (issued_certificate c i) ∧
    dget reply "site" = Some (JStr (cl_site c)) ∧ dget reply "certificate_pem" = Some (JStr (ce_pem (issued_certificate c i)))
}.

Lemma refused_same d : only_refused d d.
Proof. by left. Qed.

#[local] Ltac step_lift H :=
  apply lift_cases in H as [(? & _ & -> & ->)|(? & ? & H)]; [apply refused_same|].

Lemma enroll_cases p d res d' : enroll ca_initialize pbkdf2 nonce_fingerprint now p d = (res, d') →
  match res with Err _ => only_refused d d' | Ok reply => admitted p reply d d' end.
Proof.
  unfold enroll. intros Hrun. do 7 step_lift Hrun.
  apply bind_cases in Hrun as [(e & Hrun & ->)|([[[site serial] fp] pem] & d1 & Hrun & Hk)].
  - by apply consume_claim_cases in Hrun.
  - apply consume_claim_cases in Hrun as (c & i & devs & Hp & Hi & [= -> -> -> ->] & ->). injection Hk as <- <-.
    split. do 9 eexists. split_and!; [|exact Hp|exact Hi|reflexivity|reflexivity|reflexivity].
    cbn [map enroll_fields]. repeat match goal with E : text_of _ _ = Ok _ |- _ => rewrite E; clear E end. reflexivity.
Qed.

Lemma admin_route r p act d reply d' :
  (if String.eqb (zr_path r) "/v1/admin/stage" then _ ← admin_stage now p act; mret (200, said "status" "staged")
   else if String.eqb (zr_path r) "/v1/admin/claims" then c ← admin_claim pbkdf2 now claim_id secret salt p act; mret (201, c)
   else if String.eqb (zr_path r) "/v1/admin/revoke" then _ ← admin_revoke now p act; mret (200, said "status" "revoked")
   else mret (404, said "error" "not found")) d = (reply, d') →
  match reply with
  | Err _ => d' = d
  | Ok (404, _) => d' = d
  | Ok (code, _) => (code = 200 ∨ code = 201) ∧ administered r p d d'
  end.
Proof.
  destruct (String.eqb_spec (zr_path r) "/v1/admin/stage") as [Hp|_]; [|destruct (String.eqb_spec (zr_path r) "/v1/admin/claims") as [Hp|_];
    [|destruct (String.eqb_spec (zr_path r) "/v1/admin/revoke") as [Hp|_]; [|by intros [= <- <-]]]].
  - intros H. apply bind_cases in H as [(e & H & ->)|(u & d1 & H & [= <- <-])]; unfold admin_stage in H.
    + do 3 (apply lift_cases in H as [(? & _ & _ & ->)|(? & _ & H)]; [done|]). by apply stage_device_cases in H.
    + apply lift_bind_run in H as (device & Hd & H). apply lift_bind_run in H as (site & Hs & H).
      apply lift_bind_run in H as ([] & Hg & H). apply stage_device_cases in H. split; [by left|].
      unfold raise_if in Hg. destruct (negb (nonempty device) || negb (nonempty site)) eqn:Hne; [done|].
      apply orb_false_iff in Hne as [H1 H2]. apply (did_stage _ _ _ _ device site); try done; intros ->; done.
  - intros H. apply bind_cases in H as [(e & H & ->)|(c & d1 & H & [= <- <-])]; unfold admin_claim in H.
    + do 3 (apply lift_cases in H as [(? & _ & _ & ->)|(? & _ & H)]; [done|]).
      apply bind_cases in H as [(? & H & _)|(? & ? & _ & [=])]. by apply create_claim_cases in H.
    + apply lift_bind_run in H as (device & Hd & H). apply lift_bind_run in H as (site & Hs & H).
      apply lift_bind_run in H as (life & Hl & H). apply bind_run in H as (x & d2 & H & [= <- <-]).
      apply create_claim_cases in H as [_ H]. split; [by right|]. by apply (did_claim _ _ _ _ device site).
  - intros H. apply bind_cases in H as [(e & H & ->)|(c & d1 & H & [= <- <-])]; unfold admin_revoke in H.
    + do 2 (apply lift_cases in H as [(? & _ & _ & ->)|(? & _ & H)]; [done|]). by apply revoke_certificate_cases in H.
    + apply lift_bind_run in H as (serial & Hs & H). apply lift_bind_run in H as (why & Hw & H).
      apply revoke_certificate_cases in H. split; [by left|]. by apply (did_revoke _ _ _ _ serial).
Qed.


(** Every request is a step of the store's histories, so what ZtpFacts shows of
    histories holds of a service that answers any requests. *)
Lemma post_history r d : rtc (ztp_step pbkdf2 nonce_fingerprint) d (POST r d).2.
Proof.
  unfold ztp_POST. assert (Hm : moves (rtc (ztp_step pbkdf2 nonce_fingerprint))
    (ztp_route ca_initialize pbkdf2 nonce_fingerprint now claim_id secret salt r)).
  { unfold ztp_route, enroll, admin_stage, admin_claim, admin_revoke. apply (moves_lift_bind _). intros p _. case_match.
    all: repeat first [intros d0; apply rtc_once; first [exact (step_consume _ _ d0 _ _ _ _ _ _ _)|exact (step_device _ _ d0 _ _ _ _)
        |exact (step_claim _ _ d0 _ _ _ _ _ _ _ _ _)|exact (step_revoke _ _ d0 _ _ _ _)]
      | apply (moves_lift_bind _); intros ? _ | apply (moves_ret _) | case_match | apply (moves_bind _); [|intros ?]]. }
  specialize (Hm d). by destruct (ztp_route _ _ _ _ _ _ _ r d) as [[?|?] ?].
Qed.
End request.
End service.

(** ** Concrete requests *)

Module Examples.

(** A certificate keeps the subject of its CSR; here a CSR is its subject line. *)
#[local] Instance toy_openssl : OpenSSL := {|
  req_verify := λ _, Ok "verify OK"; req_subject := λ csr, Ok csr; x509_sign := λ csr ext, Ok ("PEM " +:+ csr);
  x509_serial := λ _, Ok (line "serial=01"); x509_fingerprint := λ _, Ok (line "sha256 Fingerprint=AA:BB");
  x509_startdate := λ _, Ok (line "notBefore=2026"); x509_enddate := λ _, Ok (line "notAfter=2027") |}.
#[local] Instance toy_repr : PyRepr := {| repr_float := λ _, "1.0"; repr_container := λ _, "{}" |}.

Definition post (r : ZtpRequest) (d : Ztp) : zreply * Ztp := ztp_POST (Ok tt) kdf print 60 "c9" "s9" "09" r d.

Definition request (path : string) (peer : option string) (body : dict string json) : ZtpRequest :=
  {| zr_path := path; zr_peer := peer; zr_length := Some "300"; zr_body := Ok (JObj body) |}.

Definition enrolment (csr : string) : ZtpRequest := request "/v1/enroll" None
  [("claim_id", JStr "c1"); ("claim_secret", JStr "s1"); ("device_id", JStr "dev-1"); ("nonce", JStr "n1"); ("csr_pem", JStr csr);
   ("request_id", JStr "r1")].

Definition plain : ZtpRequest := enrolment (line "subject=CN = dev-1").
Definition stage_dev2 (peer : option string) : ZtpRequest :=
  request "/v1/admin/stage" peer [("device_id", JStr "dev-2"); ("site", JStr "site2")].


(** The authority only looks for the device name inside the subject line, and
    the handlers only for "sdwan-admin" inside the subject's text: a device that
    enrols with a subject naming such an organisation may stage devices. *)
Lemma enrolled_device_is_administrator :
  let enrolled := post (enrolment (line "subject=CN = dev-1, O = sdwan-admin")) ztp3 in
  let peer := Some "((('commonName', 'dev-1'),), (('organizationName', 'sdwan-admin'),))" in
  enrolled.1.1 = 201 ∧ (post (stage_dev2 peer) enrolled.2).1 = (200, said "status" "staged").
Proof. vm_compute. by split_and!. Qed.

(** And a device enrols under the name of any device whose name extends its own. *)
Lemma enrols_under_longer_name :
  (post (enrolment (line "subject=CN = dev-17")) ztp3).1.1 = 201 ∧
  map ce_device (certificates (post (enrolment (line "subject=CN = dev-17")) ztp3).2) = ["dev-1"].
Proof. vm_compute. by split_and!. Qed.
End Examples.
