(* ===== verification/ZtpThreads.v ===== *)
(** * Enrolments on a shared connection

    [consume_claim] statement by statement: alone it is the transaction of
    ZtpStore.  The service handles requests in threads that share one
    connection without a lock ([ThreadingHTTPServer] over one [SQLiteStore]),
    and then it need not be. *)
From S2P Require Import Prelude Net Sql SqlConnection ZtpStore ZtpFacts.
Local Open Scope string_scope.
Local Open Scope list_scope.
Local Open Scope Z_scope.

Section script.
Context (pbkdf2 : string → string → string) (nonce_fingerprint : string → string) (now : Z).

Definition read {S X A} (f : S → X) (k : X → Script S A) : Script S A := Exec Ok (λ s, k (f s)).
Definition write {S A} (f : S → S) (k : Script S A) : Script S A := Exec (λ s, Ok (f s)) (λ _, k).
Definition write_checked {S R A} (table : S → list R) (set : S → list R → S) (f : list R → result (list R)) (k : Script S A)
    : Script S A := Exec (λ s, rows ← f (table s); Ok (set s rows)) (λ _, k).
Definition otherwise {S X A} (r : result X) (k : X → Script S A) : Script S A :=
  match r with Ok x => k x | Err e => Done (Err e) end.

(** The statements of [consume_claim]'s transaction. *)
Definition consume_script (claim_id secret device_id nonce : string) (issue : string → result issued) (request_id : string)
    : Script Ztp enrolled :=
  read (λ d, find (is_claim claim_id) (claims d)) (λ row,
  otherwise (of_option row ClaimRejected "unknown claim") (λ claim,
  otherwise (raise_if (negb (String.eqb (cl_device claim) device_id)) ClaimRejected "claim device mismatch") (λ _,
  otherwise (raise_if (negb (String.eqb (cl_status claim) "ACTIVE") || (cl_maximum claim <=? cl_uses claim)) ClaimRejected
               "claim is not reusable") (λ _,
  if cl_expires claim <=? now then
    write (λ d, set_claims d (update_rows (is_claim claim_id) (with_claim_status "EXPIRED") (claims d)))
      (Done (raise ClaimRejected "claim expired"))
  else
  otherwise (verify_secret pbkdf2 secret (cl_hash claim)) (λ valid,
  otherwise (raise_if (negb valid) ClaimRejected "claim secret rejected") (λ _,
  read (λ d, existsb (λ s, String.eqb (se_device s) device_id && String.eqb (se_nonce s) nonce) (sessions d)) (λ duplicate,
  otherwise (raise_if duplicate ClaimRejected "enrollment nonce replay") (λ _,
  otherwise (issue (cl_site claim)) (λ certificate,
  let '(serial, fingerprint, not_before, not_after, certificate_pem) := certificate in
  write_checked sessions set_sessions (insert_row session_clash
    {| se_device := device_id; se_nonce := nonce; se_state := "AUTHENTICATED"; se_updated := now |})
  (Exec (λ d, _ ← raise_if (negb (existsb (is_device device_id) (devices d))) IntegrityError "FOREIGN KEY constraint failed";
              rows ← insert_row certificate_clash
                {| ce_serial := serial; ce_fingerprint := fingerprint; ce_device := device_id; ce_site := cl_site claim;
                   ce_not_before := not_before; ce_not_after := not_after; ce_status := "ACTIVE"; ce_pem := certificate_pem |}
                (certificates d);
              Ok (set_certificates d rows)) (λ _,
  write (λ d, set_claims d (update_rows (is_claim claim_id) (consumed_claim now) (claims d)))
  (write_checked devices set_devices (update_checked device_clash (is_device device_id) (activated_device now fingerprint) [])
  (write (λ d, set_attempts d (attempts d ++
     [{| at_device := device_id; at_claim := Some claim_id; at_nonce := nonce_fingerprint nonce; at_result := "ACCEPTED";
         at_reason := "claim consumed"; at_created := now |}]))
  (write (λ d, set_ztp_audits d (ztp_audits d ++
     [{| za_actor := device_id; za_action := "ENROLL"; za_target := device_id; za_request := "ok"; za_result := "accepted";
         za_reason := request_id; za_at := now |}]))
  (Done (Ok (cl_site claim, serial, fingerprint, certificate_pem))))))))))))))))).

#[local] Ltac run_both :=
  cbv [transaction consume_transaction check_claim query execute execute_checked ztp_audit mbind M_bind result_bind mret M_ret get
       put lift raise_if of_option raise consume_script read write write_checked otherwise denote];
  cbn beta iota zeta.

(** Run alone, the statements are the transaction. *)
Lemma consume_script_denotes id secret device nonce issue request d :
  transaction (denote (consume_script id secret device nonce issue request)) d =
  consume_transaction pbkdf2 nonce_fingerprint now id secret device nonce issue request d.
Proof.
  run_both. destruct (find (is_claim id) (claims d)) as [c|]; run_both; [|done].
  destruct (negb (String.eqb (cl_device c) device)); [done|]. run_both.
  destruct (negb (String.eqb (cl_status c) "ACTIVE") || (cl_maximum c <=? cl_uses c)); [done|]. run_both.
  destruct (cl_expires c <=? now); [done|]. destruct (verify_secret pbkdf2 secret (cl_hash c)) as [[]|]; cbn [negb]; run_both; try done.
  destruct (existsb _ (sessions d)); run_both; [done|].
  destruct (issue (cl_site c)) as [[[[[serial f] nb] na] pem]|]; run_both; [|done].
  destruct (insert_row session_clash _ _); run_both; [|done]. cbn.
  destruct (existsb (is_device device) (devices d)); cbn; [|done].
  destruct (insert_row certificate_clash _ _); cbn; [|done].
  by destruct (update_checked _ _ _ _ _).
Qed.
End script.

(** ** Two requests at the same time *)

Module Race.

(** A second device is staged and holds a claim. *)
Definition staged2 : Ztp := (stage_device 11 "dev-2" "site2" "admin" ztp2).2.
Definition ready : Ztp := (create_claim kdf 22 "c2" "s2" "01" "dev-2" "site2" 900 "admin" 1 staged2).2.

Definition first : Script Ztp enrolled := consume_script kdf print 30 "c1" "s1" "dev-1" "nonce-1" (ca "serial-1") "r1".
Definition second : Script Ztp enrolled := consume_script kdf print 30 "c2" "s2" "dev-2" "nonce-2" (ca "serial-2") "r2".
Definition requests : Threads Ztp enrolled := ({| committed := ready; pending := None |}, map Starting [first; second]).

(** The second thread begins when the first has stored its certificate: its
    BEGIN fails and its ROLLBACK undoes the first thread's work so far. *)
Definition torn : list nat := repeat 0%nat 5 ++ [1; 1]%nat ++ repeat 0%nat 8.

(** The claim is used up and the attempt recorded as accepted, the device is
    ACTIVE, but there is no certificate, and both requests fail. *)
Lemma torn_enrolment :
  let '(c, ts) := run_schedule torn requests in
  map cl_status (claims (committed c)) = ["CONSUMED"; "ACTIVE"] ∧ certificates (committed c) = [] ∧
  map at_result (attempts (committed c)) = ["ACCEPTED"] ∧ map dv_status (devices (committed c)) = ["ACTIVE"; "STAGED"] ∧
  ts = [Finished (raise OperationalError "cannot commit - no transaction is active");
        Finished (raise OperationalError "cannot start a transaction within a transaction")] ∧
  exclusive torn requests = false.
Proof. vm_compute. by split_and!. Qed.
End Race.
