(* ===== verification/LivePlan.v ===== *)
(** * The physical topology ([topology_v5.py])

    The plan of switches, containers, links and base routes derived from the
    configuration, its validation, and the commands that configure it once the
    containers run.  Starting Containernet, Docker and the workloads is outside
    ([launch_live]).  [hexdigest] is SHA-256 in hexadecimal. *)
From Stdlib Require Import Ascii.
From S2P Require Import Prelude Net Marks PathSelection Model Json.
Local Open Scope string_scope.
Local Open Scope list_scope.
Local Open Scope Z_scope.

(** ** The plan *)

Record TopologyPlan := {
  routers : list string; branch_switches : list string; underlay_switches : list string; data_center_nodes : list string;
  saas_nodes : list string; cloud_nodes : list string
}.

Definition expected_openflow_datapaths (p : TopologyPlan) : nat :=
  (length (branch_switches p) + length (underlay_switches p))%nat.

Record SwitchSpec := { sw_name : string; openflow : bool; sw_dpid : option Z }.

Record DockerNodeSpec := { dn_name : string; dn_image : string; dn_role : string; persistent_identity : bool }.

Record LinkSpec := {
  node1 : string; node2 : string; intf1 : string; intf2 : string; address1 : option string; address2 : option string;
  ln_transport : option string
}.

Record RouteSpec := { rt_node : string; rt_gateway : addr; rt_interface : string }.

Record LiveTopologyPlan := {
  lp_inventory : TopologyPlan; lp_switches : list SwitchSpec; docker_nodes : list DockerNodeSpec; links : list LinkSpec;
  host_default_routes : list RouteSpec; forwarding_nodes : list string; nginx_nodes : list string
}.

Definition cidr (a : addr) (n : network) : string := addr_str a +:+ "/" +:+ str_Z (prefixlen n).

(** [s.isdigit()] on ASCII text *)
Fixpoint all_digits (s : string) : bool :=
  match s with EmptyString => true | String a s' => match digit_of a with Some _ => all_digits s' | None => false end end.
Definition isdigit (s : string) : bool := nonempty s && all_digits s.

(** [s.isidentifier()] on ASCII text *)
Definition letter (a : ascii) : bool :=
  let n := N_of_ascii a in (((65 <=? n) && (n <=? 90)) || ((97 <=? n) && (n <=? 122)) || (n =? 95))%N.
Fixpoint all_word (s : string) : bool :=
  match s with
  | EmptyString => true
  | String a s' => (letter a || match digit_of a with Some _ => true | None => false end) && all_word s'
  end.
Definition isidentifier (s : string) : bool := match s with String a s' => letter a && all_word s' | EmptyString => false end.

(** [s[n:]] *)
Definition skip (n : nat) (s : string) : string := String.substring n (String.length s - n) s.

Definition bridge_port (bridge_name suffix : string) : result string :=
  let interface := bridge_name +:+ "-" +:+ suffix in
  if (15 <? String.length interface)%nat
  then raise ValueError ("LinuxBridge port name exceeds Linux's 15-character limit: " +:+ interface) else Ok interface.

Definition link (n1 n2 i1 i2 : string) (a1 : option string) : LinkSpec :=
  {| node1 := n1; node2 := n2; intf1 := i1; intf2 := i2; address1 := a1; address2 := None; ln_transport := None |}.

Section plan.
Context (hexdigest : string → string) (c : TopologyConfig).

Definition short_name (name : string) : string :=
  if String.eqb name "hub1" then "h1" else if String.eqb name "hub2" then "h2"
  else if String.eqb name "cloud_gw1" then "c1" else if String.eqb name "cloud_gw2" then "c2"
  else if String.prefix "node" name && isdigit (skip 4 name) then "n" +:+ skip 4 name
  else "s" +:+ String.substring 0 6 (hexdigest name).

Definition build_plan : TopologyPlan := {|
  routers := runtime_node_names c;
  branch_switches := map lan_switch (site_list c);
  underlay_switches := map tr_switch (transport_list c);
  data_center_nodes := [data_center_switch c; data_center_app_name c];
  saas_nodes := [saas_switch c; saas_gateway_name c; saas_app_name c];
  cloud_nodes := if vpc_enabled (cloud_vpc c) then active_gateways (cloud_vpc c) ++ [vpc_app_name (cloud_vpc c)] else []
|}.

(** ** Switches and containers *)

Definition active_cloud_gateways : list string := if vpc_enabled (cloud_vpc c) then active_gateways (cloud_vpc c) else [].

Definition plan_switches : list SwitchSpec :=
  map (λ t, {| sw_name := tr_switch t; openflow := true; sw_dpid := Some (dpid t) |}) (transport_list c) ++
  map (λ s, {| sw_name := lan_switch s; openflow := true; sw_dpid := Some (lan_dpid s) |}) (site_list c) ++
  map (λ n, {| sw_name := n; openflow := false; sw_dpid := None |}) [management_switch c; data_center_switch c; saas_switch c] ++
  (if vpc_enabled (cloud_vpc c) then [{| sw_name := vpc_switch (cloud_vpc c); openflow := false; sw_dpid := None |}] else []).

Definition docker (name image role : string) : DockerNodeSpec :=
  {| dn_name := name; dn_image := image; dn_role := role; persistent_identity := false |}.

Definition plan_docker_nodes : list DockerNodeSpec :=
  map (λ n, {| dn_name := n; dn_image := edge_image c; dn_role := "edge-router"; persistent_identity := true |})
    (runtime_node_names c) ++
  map (λ n, docker n (edge_image c) "cloud-gateway") active_cloud_gateways ++
  map (λ s, docker (host_name s) (host_image c) "branch-client") (site_list c) ++
  [docker (data_center_app_name c) (host_image c) "data-center-app";
   docker (saas_gateway_name c) (edge_image c) "internet-gateway";
   docker (saas_app_name c) (host_image c) "saas-app"] ++
  (if vpc_enabled (cloud_vpc c) then [docker (vpc_app_name (cloud_vpc c)) (host_image c) "cloud-app"] else []).

(** ** Links *)

Definition management_root_link : result LinkSpec :=
  port ← bridge_port (management_switch c) "root";
  Ok (link "mgmtroot" (management_switch c) "mgmt-root" port (Some (management_address (controller c)))).

Definition node_management_ip (name : string) : result addr :=
  match dget (hubs c) name with
  | Some h => Ok (hub_management_ip h)
  | None => site ← logical_site c name; s ← get_site c site; Ok (management_ip s)
  end.

Definition management_link (name : string) : result LinkSpec :=
  ip ← node_management_ip name;
  port ← bridge_port (management_switch c) (short_name name);
  Ok (link name (management_switch c) (name +:+ "-mgmt") port (Some (cidr ip (management_network c)))).

Definition transport_link (name : string) (t : Transport) : result LinkSpec :=
  a ← underlay_interface_cidr c name (tr_name t);
  Ok {| node1 := name; node2 := tr_switch t; intf1 := name +:+ "-" +:+ tr_name t;
        intf2 := tr_switch t +:+ "-" +:+ short_name name; address1 := Some a; address2 := None;
        ln_transport := Some (tr_name t) |}.

Definition transport_links (name : string) : result (list LinkSpec) := mapM_result (transport_link name) (transport_list c).

Definition client_interface (s : Site) : string := host_name s +:+ "-lan".

Definition lan_links (s : Site) : list LinkSpec :=
  [link (s_edge_node s) (lan_switch s) (s_edge_node s +:+ "-lan") (lan_switch s +:+ "-r") (Some (cidr (lan_gateway s) (lan_network s)));
   link (host_name s) (lan_switch s) (client_interface s) (lan_switch s +:+ "-h") (Some (cidr (host_ip s) (lan_network s)))].

Definition hub_dc_link (hub : string) : result LinkSpec :=
  port ← bridge_port (data_center_switch c) (short_name hub);
  ip ← of_option (dget (data_center_hub_ips c) hub) KeyError hub;
  Ok (link hub (data_center_switch c) (hub +:+ "-dc") port (Some (cidr ip (data_center_network c)))).

Definition dc_app_link : result LinkSpec :=
  port ← bridge_port (data_center_switch c) "app";
  Ok (link (data_center_app_name c) (data_center_switch c) (data_center_app_name c +:+ "-net") port
        (Some (cidr (data_center_app_ip c) (data_center_network c)))).

Definition saas_links : result (list LinkSpec) :=
  app ← bridge_port (saas_switch c) "saas";
  gw ← bridge_port (saas_switch c) "gw";
  Ok [link (saas_app_name c) (saas_switch c) "saas-inet" app (Some (cidr (saas_ip c) (saas_network c)));
      link (saas_gateway_name c) (saas_switch c) "inet-public" gw (Some (cidr (saas_gateway_ip c) (saas_network c)))].

Definition internet_link (transport : string) : result LinkSpec :=
  t ← get_transport c transport;
  a ← underlay_interface_cidr c (saas_gateway_name c) transport;
  Ok {| node1 := saas_gateway_name c; node2 := tr_switch t; intf1 := "inet-" +:+ transport; intf2 := tr_switch t +:+ "-inet";
        address1 := Some a; address2 := None; ln_transport := Some transport |}.

Definition cloud_vpc_link (gateway : string) : result LinkSpec :=
  let v := cloud_vpc c in
  port ← bridge_port (vpc_switch v) (short_name gateway);
  ip ← of_option (dget (gateway_ips v) gateway) KeyError gateway;
  Ok (link gateway (vpc_switch v) (gateway +:+ "-vpc") port (Some (cidr ip (vpc_network v)))).

Definition transit_link (hub gateway : string) : result LinkSpec :=
  let v := cloud_vpc c in
  n ← transit_network v hub gateway;
  at_hub ← transit_ip v hub gateway hub;
  at_gateway ← transit_ip v hub gateway gateway;
  Ok {| node1 := hub; node2 := gateway; intf1 := short_name hub +:+ "-" +:+ short_name gateway;
        intf2 := short_name gateway +:+ "-" +:+ short_name hub; address1 := Some (cidr at_hub n);
        address2 := Some (cidr at_gateway n); ln_transport := None |}.

Definition cloud_links : result (list LinkSpec) :=
  let v := cloud_vpc c in
  if vpc_enabled v then
    vpc ← mapM_result cloud_vpc_link (active_gateways v);
    transit ← mapM_result (λ p, transit_link p.1 p.2) (flat_map (λ h, map (λ g, (h, g)) (active_gateways v)) HUBS);
    port ← bridge_port (vpc_switch v) "app";
    Ok (vpc ++ transit ++
        [link (vpc_app_name v) (vpc_switch v) (vpc_app_name v +:+ "-vpc") port (Some (cidr (vpc_app_ip v) (vpc_network v)))])
  else Ok [].

Definition plan_links : result (list LinkSpec) :=
  root ← management_root_link;
  management ← mapM_result management_link (runtime_node_names c);
  underlay ← mapM_result transport_links (runtime_node_names c);
  dc ← mapM_result hub_dc_link HUBS;
  dc_app ← dc_app_link;
  saas ← saas_links;
  internet ← mapM_result internet_link (dkeys (saas_transport_ips c));
  cloud ← cloud_links;
  Ok (root :: management ++ concat underlay ++ concat (map lan_links (site_list c)) ++ dc ++ dc_app :: saas ++ internet ++ cloud).

Definition plan_routes : list RouteSpec :=
  map (λ s, {| rt_node := host_name s; rt_gateway := lan_gateway s; rt_interface := client_interface s |}) (site_list c) ++
  [{| rt_node := saas_app_name c; rt_gateway := saas_gateway_ip c; rt_interface := "saas-inet" |}].

(** ** Validation *)

Definition switch_names (p : LiveTopologyPlan) : list string := map sw_name (lp_switches p).
Definition plan_names (p : LiveTopologyPlan) : list string := "mgmtroot" :: switch_names p ++ map dn_name (docker_nodes p).
Definition bridges (p : LiveTopologyPlan) : list string := map sw_name (List.filter (λ s, negb (openflow s)) (lp_switches p)).

Definition link_ends (l : LinkSpec) : list (string * string) := [(node1 l, intf1 l); (node2 l, intf2 l)].

(** One end of a link, with the ends seen before it. *)
Definition validate_end (p : LiveTopologyPlan) (seen : list (string * string)) (e : string * string) : result (list (string * string)) :=
  let '(node, interface) := e in
  _ ← raise_if (negb (inb node (plan_names p))) ValueError ("link references unknown node " +:+ node);
  _ ← raise_if (negb (nonempty interface) || (15 <? String.length interface)%nat) ValueError
        ("interface name is invalid for " +:+ node +:+ ": " +:+ interface);
  _ ← raise_if (inb node (bridges p) && negb (contains node interface)) ValueError
        ("LinuxBridge port name must contain its bridge name: " +:+ node +:+ "/" +:+ interface);
  _ ← raise_if (inb e seen) ValueError ("interface name is reused: " +:+ node +:+ "/" +:+ interface);
  Ok (e :: seen).

Definition validate_live_plan (p : LiveTopologyPlan) : result unit :=
  let flows := List.filter openflow (lp_switches p) in
  _ ← raise_if (negb (Nat.eqb (length flows) (expected_openflow_datapaths (lp_inventory p)))) ValueError
        "live topology does not match the configured OpenFlow datapath count";
  let dpids := map sw_dpid flows in
  _ ← raise_if (inb None dpids || negb (uniqueb dpids)) ValueError "OpenFlow DPIDs must be present and unique";
  _ ← raise_if (negb (uniqueb (plan_names p))) ValueError "a physical topology node or switch name is duplicated";
  _ ← raise_if (negb (forallb isidentifier (plan_names p))) ValueError
        "Containernet CLI node and switch names must be valid Python identifiers";
  _ ← foldM (validate_end p) [] (flat_map link_ends (links p)); Ok tt.

Definition build_live_plan : result LiveTopologyPlan :=
  ls ← plan_links;
  let plan := {|
    lp_inventory := build_plan; lp_switches := plan_switches; docker_nodes := plan_docker_nodes; links := ls;
    host_default_routes := plan_routes;
    forwarding_nodes := runtime_node_names c ++ active_cloud_gateways ++ [saas_gateway_name c];
    nginx_nodes := if vpc_enabled (cloud_vpc c) then [vpc_app_name (cloud_vpc c)] else [] |} in
  _ ← validate_live_plan plan; Ok plan.
End plan.

(** [validate_plan] over a loaded configuration *)
Definition validate_plan (hexdigest : string → string) (c : TopologyConfig) : result TopologyPlan :=
  let plan := build_plan c in
  _ ← raise_if (negb (Nat.eqb (length (routers plan)) (length (runtime_node_names c)))
                || negb (Nat.eqb (expected_openflow_datapaths plan) (length (sites c) + length (transports c)))) ValueError
        "topology plan does not reflect the configured dynamic inventory";
  _ ← build_live_plan hexdigest c; Ok plan.

(** ** Configuration of the running network *)

Definition node_command : Type := string * list string.
(** The commands that succeeded so far, with the node each ran on. *)
Definition Lab : Type := list node_command.

Section configure.
Context `{PyRepr} (hexdigest : string → string) (c : TopologyConfig).
(** [node.pexec(command)]: the status and the text of a command that failed. *)
Context (exec : Lab → string → list string → option (Z * string)).
(** The containers and switches of the running network. *)
Context (nodes : list string).

Definition node_of (name : string) : M Lab unit := lift (raise_if (negb (inb name nodes)) KeyError name).

Definition failed_text (node : string) (command : list string) (status : Z) (detail : string) : string :=
  node +:+ ": " +:+ join " " command +:+ " failed (" +:+ str_Z status +:+ "): " +:+ strip detail.

Definition run_checked (node : string) (command : list string) : M Lab unit :=
  _ ← node_of node;
  h ← get;
  match exec h node command with
  | None => put (h ++ [(node, command)])
  | Some (status, detail) => lift (raise RuntimeError (failed_text node command status detail))
  end.

Definition flush_route_table_if_present (node : string) (table : Z) : M Lab unit :=
  let command := ["ip"; "route"; "flush"; "table"; str_Z table] in
  h ← get;
  match exec h node command with
  | None => put (h ++ [(node, command)])
  | Some (status, detail) =>
      if contains "FIB table does not exist" (strip detail) then mret tt
      else lift (raise RuntimeError (failed_text node command status detail))
  end.

(** [ip route replace] and [ip neigh replace] towards the provider *)
Definition provider_route (node interface : string) (t : Transport) (gateway : addr) (gateway_mac : string) : M Lab unit :=
  _ ← run_checked node ["ip"; "route"; "replace"; network_str (tr_network t); "via"; addr_str gateway; "dev"; interface; "onlink"];
  run_checked node ["ip"; "neigh"; "replace"; addr_str gateway; "lladdr"; gateway_mac; "nud"; "permanent"; "dev"; interface].

Definition provider_routes_of (p : string * Transport) : M Lab unit :=
  let '(name, t) := p in
  gateway ← lift (underlay_gateway_ip c name);
  gateway_mac ← lift (underlay_gateway_mac c name);
  _ ← forM (λ site, provider_route site (site +:+ "-" +:+ name) t gateway gateway_mac) (runtime_node_names c);
  if internet_capable t then provider_route (saas_gateway_name c) ("inet-" +:+ name) t gateway gateway_mac else mret tt.

Definition configure_provider_routes : M Lab unit := forM provider_routes_of (transports c).

Definition set_address (node interface address : string) : M Lab unit :=
  _ ← run_checked node ["ip"; "address"; "replace"; address; "dev"; interface];
  run_checked node ["ip"; "link"; "set"; "dev"; interface; "up"].

Definition configure_link (l : LinkSpec) : M Lab unit :=
  _ ← match ln_transport l with
      | Some t => _ ← node_of (node1 l); mac ← lift (underlay_mac c (node1 l) t);
                  run_checked (node1 l) ["ip"; "link"; "set"; "dev"; intf1 l; "address"; mac]
      | None => mret tt
      end;
  _ ← match address1 l with Some a => set_address (node1 l) (intf1 l) a | None => mret tt end;
  match address2 l with Some a => set_address (node2 l) (intf2 l) a | None => mret tt end.

Definition configure_host_route (r : RouteSpec) : M Lab unit :=
  run_checked (rt_node r) ["ip"; "route"; "replace"; "default"; "via"; addr_str (rt_gateway r); "dev"; rt_interface r].

(** The data centre returns to a branch through its preferred hub. *)
Definition configure_branch_return (s : Site) : M Lab unit :=
  _ ← node_of (data_center_app_name c);
  ip ← lift (of_option (dget (data_center_hub_ips c) (preferred_hub s)) KeyError (preferred_hub s));
  run_checked (data_center_app_name c)
    ["ip"; "route"; "replace"; network_str (lan_network s); "via"; addr_str ip; "dev"; data_center_app_name c +:+ "-net"].

(** ** The Cloud VPC *)

(** [for priority, x in enumerate(xs)] *)
Fixpoint enumerated {A} (n : Z) (f : Z → A → M Lab unit) (l : list A) : M Lab unit :=
  match l with [] => mret tt | x :: l' => _ ← f n x; enumerated (n + 1) f l' end.

Definition metric (priority : Z) : string := str_Z (100 + priority * 100).

(** hub1 prefers the first gateway, hub2 the last. *)
Definition gateway_orders (gateways : list string) : dict string (list string) :=
  [("hub1", gateways);
   ("hub2", match List.rev gateways with g :: rest => g :: List.rev rest | [] => [] end)].

Definition hub_cloud_route (hub : string) (priority : Z) (gateway : string) : M Lab unit :=
  let v := cloud_vpc c in
  _ ← node_of hub;
  ip ← lift (transit_ip v hub gateway gateway);
  run_checked hub ["ip"; "route"; "replace"; network_str (vpc_network v); "via"; addr_str ip; "dev";
                   short_name hexdigest hub +:+ "-" +:+ short_name hexdigest gateway; "metric"; metric priority].

Definition gateway_branch_route (gateway : string) (s : Site) (priority : Z) (hub : string) : M Lab unit :=
  _ ← node_of gateway;
  ip ← lift (transit_ip (cloud_vpc c) hub gateway hub);
  run_checked gateway ["ip"; "route"; "replace"; network_str (lan_network s); "via"; addr_str ip; "dev";
                       short_name hexdigest gateway +:+ "-" +:+ short_name hexdigest hub; "metric"; metric priority].

Definition app_branch_route (s : Site) (priority : Z) (gateway : string) : M Lab unit :=
  let v := cloud_vpc c in
  _ ← node_of (vpc_app_name v);
  ip ← lift (of_option (dget (gateway_ips v) gateway) KeyError gateway);
  run_checked (vpc_app_name v) ["ip"; "route"; "replace"; network_str (lan_network s); "via"; addr_str ip; "dev";
                                vpc_app_name v +:+ "-vpc"; "metric"; metric priority].

(** ** Return affinity at the cloud gateways *)

Definition ingress_chain : string := "SDWAN_V5_CLOUD_RPA_IN".
Definition egress_chain : string := "SDWAN_V5_CLOUD_RPA_OUT".
Definition nat_chain : string := "SDWAN_V5_CLOUD_SNAT".

Definition affinity_mark (hub : string) : Z :=
  let m := marks (settings c) in
  Z.lor (if String.eqb hub "hub1" then hub1_bit m else hub2_bit m) (cloud_gateway_bit m).
Definition stamped_mark (hub : string) : Z := Z.lor (affinity_mark hub) (terminal_bit (marks (settings c))).
Definition stamp_mask : Z := let m := marks (settings c) in Z.lor (affinity_mask m) (terminal_bit m).
Definition cloud_route_mask : Z := let m := marks (settings c) in Z.lor (target_hub_mask m) (egress_mask m).

Definition fresh_chain (gateway : string) (p : string * string) : M Lab unit :=
  _ ← run_checked gateway ["sh"; "-c"; "iptables -t " +:+ p.1 +:+ " -N " +:+ p.2 +:+ " 2>/dev/null || true"];
  run_checked gateway ["iptables"; "-t"; p.1; "-F"; p.2].

Definition hook_chain (gateway table hook chain : string) : M Lab unit :=
  run_checked gateway ["sh"; "-c";
    "iptables -t " +:+ table +:+ " -C " +:+ hook +:+ " -j " +:+ chain +:+ " 2>/dev/null || " +:+
    "iptables -t " +:+ table +:+ " -A " +:+ hook +:+ " -j " +:+ chain].

Definition in_mangle (chain : string) (rule : list string) : list string := ["iptables"; "-t"; "mangle"; "-A"; chain] ++ rule.

Definition whole_mark (action : string) : list string :=
  let mask := py_hex (connection_mask (marks (settings c))) in
  ["-j"; "CONNMARK"; action; "--nfmask"; mask; "--ctmask"; mask].

Definition cloud_interface (gateway hub : string) : string := short_name hexdigest gateway +:+ "-" +:+ short_name hexdigest hub.

Definition stamp_ingress (gateway hub : string) : list string := in_mangle ingress_chain
  ["-i"; cloud_interface gateway hub; "-m"; "conntrack"; "--ctstate"; "NEW";
   "-m"; "mark"; "--mark"; "0/" +:+ py_hex (affinity_mask (marks (settings c)));
   "-j"; "MARK"; "--set-xmark"; py_hex (stamped_mark hub) +:+ "/" +:+ py_hex stamp_mask].

Definition stamp_egress (gateway hub : string) : list (list string) :=
  let mask := py_hex (connection_mask (marks (settings c))) in
  [in_mangle egress_chain
     ["-o"; cloud_interface gateway hub; "-m"; "conntrack"; "--ctstate"; "NEW";
      "-m"; "mark"; "--mark"; "0/" +:+ py_hex (affinity_mask (marks (settings c)));
      "-j"; "MARK"; "--set-xmark"; py_hex (stamped_mark hub) +:+ "/" +:+ py_hex stamp_mask];
   in_mangle egress_chain
     ["-o"; cloud_interface gateway hub; "-m"; "conntrack"; "--ctstate"; "NEW";
      "-m"; "mark"; "--mark"; py_hex (stamped_mark hub) +:+ "/" +:+ py_hex stamp_mask;
      "-j"; "CONNMARK"; "--save-mark"; "--nfmask"; mask; "--ctmask"; mask]].

Definition hub_table (hub : string) : Z * Z := if String.eqb hub "hub1" then (3101, 1301) else (3102, 1302).

(** The table that sends reverse traffic of [hub] back through it. *)
Definition hub_return_table (gateway hub : string) : M Lab unit :=
  let '(table, priority) := hub_table hub in
  next_hop ← lift (transit_ip (cloud_vpc c) hub gateway hub);
  _ ← flush_route_table_if_present gateway table;
  _ ← forM (λ s, run_checked gateway ["ip"; "route"; "replace"; network_str (lan_network s); "via"; addr_str next_hop; "dev";
                                      cloud_interface gateway hub; "table"; str_Z table]) (site_list c);
  _ ← run_checked gateway ["sh"; "-c"; "ip rule del priority " +:+ str_Z priority +:+ " 2>/dev/null || true"];
  run_checked gateway ["ip"; "rule"; "add"; "priority"; str_Z priority; "fwmark";
                       str_Z (affinity_mark hub) +:+ "/" +:+ str_Z cloud_route_mask; "lookup"; str_Z table].

Definition snat_branch (gateway : string) (s : Site) : M Lab unit :=
  let v := cloud_vpc c in
  ip ← lift (of_option (dget (gateway_ips v) gateway) KeyError gateway);
  run_checked gateway ["iptables"; "-t"; "nat"; "-A"; nat_chain; "-s"; network_str (lan_network s); "-d"; network_str (vpc_network v);
                       "-o"; gateway +:+ "-vpc"; "-j"; "SNAT"; "--to-source"; addr_str ip].

Definition gateway_affinity (gateway : string) : M Lab unit :=
  _ ← node_of gateway;
  _ ← forM (fresh_chain gateway) [("mangle", ingress_chain); ("mangle", egress_chain); ("nat", nat_chain)];
  _ ← hook_chain gateway "mangle" "PREROUTING" ingress_chain;
  _ ← hook_chain gateway "mangle" "POSTROUTING" egress_chain;
  _ ← hook_chain gateway "nat" "POSTROUTING" nat_chain;
  _ ← run_checked gateway (in_mangle ingress_chain (whole_mark "--restore-mark"));
  _ ← forM (λ hub, run_checked gateway (stamp_ingress gateway hub)) HUBS;
  _ ← run_checked gateway (in_mangle ingress_chain (whole_mark "--save-mark"));
  _ ← forM (λ hub, forM (run_checked gateway) (stamp_egress gateway hub)) HUBS;
  _ ← forM (hub_return_table gateway) HUBS;
  forM (snat_branch gateway) (site_list c).

Definition configure_cloud_return_affinity : M Lab unit :=
  if vpc_enabled (cloud_vpc c) then forM gateway_affinity (active_gateways (cloud_vpc c)) else mret tt.

Definition configure_cloud : M Lab unit :=
  let gateways := active_gateways (cloud_vpc c) in
  _ ← lift (raise_if (bool_decide (gateways = [])) RuntimeError "Cloud VPC is enabled without an active gateway");
  let orders := gateway_orders gateways in
  _ ← forM (λ p, enumerated 0 (hub_cloud_route p.1) p.2) orders;
  _ ← forM (λ g, forM (λ s, enumerated 0 (gateway_branch_route g s) [preferred_hub s; standby_hub s]) (site_list c)) gateways;
  _ ← forM (λ s, order ← lift (of_option (dget orders (preferred_hub s)) KeyError (preferred_hub s));
                 enumerated 0 (app_branch_route s) order) (site_list c);
  configure_cloud_return_affinity.

(** ** The whole configuration *)

Definition configure_addresses (plan : LiveTopologyPlan) : M Lab unit :=
  _ ← forM configure_link (links plan);
  _ ← configure_provider_routes;
  _ ← forM configure_host_route (host_default_routes plan);
  _ ← forM configure_branch_return (site_list c);
  _ ← (if vpc_enabled (cloud_vpc c) then configure_cloud else mret tt);
  forM (λ n, run_checked n ["sysctl"; "-w"; "net.ipv4.ip_forward=1"]) (forwarding_nodes plan).

(** [f"{value}unit"] for a float *)
Definition quantity (q : Q) (unit : string) : string := repr_float q +:+ unit.

(** The three [tc] commands that shape one interface. *)
Definition shaping (t : Transport) (interface : string) : list (list string) :=
  let rate := quantity (bandwidth_mbps t) "Mbit" in
  [["tc"; "qdisc"; "replace"; "dev"; interface; "root"; "handle"; "5:0"; "hfsc"; "default"; "1"];
   ["tc"; "class"; "replace"; "dev"; interface; "parent"; "5:0"; "classid"; "5:1"; "hfsc"; "sc"; "rate"; rate; "ul"; "rate"; rate];
   ["tc"; "qdisc"; "replace"; "dev"; interface; "parent"; "5:1"; "handle"; "10:"; "netem"] ++
     (if Qeqb (delay_ms t) 0 then []
      else ["delay"; quantity (delay_ms t) "ms"] ++ (if Qeqb (tr_jitter_ms t) 0 then [] else [quantity (tr_jitter_ms t) "ms"])) ++
     (if Qeqb (tr_loss_pct t) 0 then [] else ["loss"; quantity (tr_loss_pct t) "%"])].

Definition configure_transport_qdiscs (plan : LiveTopologyPlan) : M Lab unit :=
  forM (λ l, match ln_transport l with
             | None => mret tt
             | Some name =>
                 t ← lift (get_transport c name);
                 forM (λ e, forM (run_checked e.1) (shaping t e.2)) (link_ends l)
             end) (links plan).
End configure.
