(* ===== verification/LivePlanFacts.v ===== *)
(** * What the physical topology guarantees

    The plan names every attachment the controller's registry expects, and the
    commands that configure the network give every planned interface exactly
    the addresses of the plan and the MAC the controller admits. *)
From S2P Require Import Prelude Net Marks PathSelection Model ModelValidate Json ModelParse CoreTopology TopologyFacts Underlay LivePlan.
Local Open Scope string_scope.
Local Open Scope list_scope.
Local Open Scope Z_scope.

(** ** Validated plans *)

Record plan_ok (p : LiveTopologyPlan) : Prop := {
  po_names : NoDup (plan_names p);
  po_dpids : NoDup (map sw_dpid (List.filter openflow (lp_switches p))) ∧ None ∉ map sw_dpid (List.filter openflow (lp_switches p));
  po_ends : NoDup (flat_map link_ends (links p));
  po_known : ∀ e, e ∈ flat_map link_ends (links p) → e.1 ∈ plan_names p ∧ (1 ≤ String.length e.2 ≤ 15)%nat ∧
      (e.1 ∈ bridges p → contains e.1 e.2 = true)
}.

Lemma validate_end_ok p seen e out : validate_end p seen e = Ok out →
  out = e :: seen ∧ e ∉ seen ∧ e.1 ∈ plan_names p ∧ (1 ≤ String.length e.2 ≤ 15)%nat ∧ (e.1 ∈ bridges p → contains e.1 e.2 = true).
Proof.
  destruct e as [n i]. unfold validate_end. intros H. inv_ok. btrue. cbn [fst snd].
  apply inb_true in Heqb. apply inb_false in Heqb2.
  split_and!; try done.
  - destruct i; [done|cbn; lia].
  - by apply Nat.ltb_ge.
  - intros Hb%inb_true. rewrite Hb in Heqb1. by apply andb_false_iff in Heqb1 as [?|?%negb_false_iff].
Qed.

Lemma validate_ends_ok p es : ∀ seen out, foldM (validate_end p) seen es = Ok out → NoDup seen →
  NoDup (es ++ seen) ∧ ∀ e, e ∈ es → e.1 ∈ plan_names p ∧ (1 ≤ String.length e.2 ≤ 15)%nat ∧ (e.1 ∈ bridges p → contains e.1 e.2 = true).
Proof.
  induction es as [|e es IH]; intros seen out; cbn [foldM].
  - intros _ Hn. split; [done|]. by intros ? ?%elem_of_nil.
  - intros H Hn. apply bind_Ok in H as (s1 & He & H). apply validate_end_ok in He as (-> & Hfresh & Hk).
    apply IH in H as [Hnd Hall]; [|by constructor]. split.
    + by rewrite <- Permutation_middle in Hnd.
    + intros x [->|Hx]%elem_of_cons; [done|by apply Hall].
Qed.

Lemma validate_live_plan_ok p : validate_live_plan p = Ok tt → plan_ok p.
Proof.
  unfold validate_live_plan. intros H. inv_ok. btrue.
  match goal with E : foldM _ _ _ = Ok _ |- _ => apply validate_ends_ok in E as [He Hk]; [|constructor] end.
  rewrite app_nil_r in He.
  repeat match goal with E : uniqueb _ = true |- _ => apply uniqueb_true in E | E : inb _ _ = false |- _ => apply inb_false in E end.
  split; [done|by split|done|done].
Qed.

Lemma build_live_plan_ok hexdigest c p : build_live_plan hexdigest c = Ok p → plan_ok p ∧ plan_links hexdigest c = Ok (links p).
Proof. unfold build_live_plan. intros H. inv_ok. split; [|done]. apply validate_live_plan_ok. by destruct a0. Qed.

(** ** Links and attachments *)

(** What a link of a provider network tells the controller: the node and its
    port on the provider switch. *)
Definition carried (name : string) (l : LinkSpec) : option (string * string * string * option string) :=
  match ln_transport l with
  | Some t => if String.eqb t name then Some (node1 l, node2 l, intf2 l, address1 l) else None
  | None => None
  end.
Definition expected (a : UnderlayAttachment) : string * string * string * option string :=
  (at_site a, at_switch a, port_name a, Some (addr_str (at_address a) +:+ "/32")).

Lemma omap_none {A B} (f : A → option B) l : (∀ x, x ∈ l → f x = None) → omap f l = [].
Proof.
  induction l as [|x l IH]; intros Hf; [done|]. cbn. rewrite (Hf x) by constructor. apply IH. intros y Hy. apply Hf. by constructor.
Qed.

Lemma omap_app {A B} (f : A → option B) l k : omap f (l ++ k) = omap f l ++ omap f k.
Proof. induction l as [|x l IH]; [done|]. cbn. destruct (f x); cbn; by rewrite IH. Qed.

Lemma omap_concat {A B} (f : A → option B) ls : omap f (concat ls) = concat (map (omap f) ls).
Proof. induction ls as [|l ls IH]; [done|]. cbn. by rewrite omap_app, IH. Qed.

Section select.
Context {A B C : Type} (f : A → result B) (g : B → option C) (h : B → C) (key : A → string) (name : string).
Hypothesis Hg : ∀ x y, f x = Ok y → g y = if String.eqb (key x) name then Some (h y) else None.

Lemma omap_absent xs ys : mapM_result f xs = Ok ys → name ∉ map key xs → omap g ys = [].
Proof.
  intros Hm%mapM_result_Forall2. induction Hm as [|x y xs ys Hx _ IH]; [done|]. cbn. rewrite not_elem_of_cons. intros [Hne Hn].
  rewrite (Hg _ _ Hx). destruct (String.eqb_spec (key x) name); [congruence|]. by apply IH.
Qed.

(** Exactly one element carries the name. *)
Lemma omap_present xs ys t : mapM_result f xs = Ok ys → NoDup (map key xs) → t ∈ xs → key t = name →
  ∃ y, f t = Ok y ∧ omap g ys = [h y].
Proof.
  intros Hm%mapM_result_Forall2. induction Hm as [|x y xs ys Hx Hm IH]; [by intros _ ?%elem_of_nil|].
  cbn. intros [Hx2 Hn]%NoDup_cons [->|Ht]%elem_of_cons Hk.
  - exists y. split; [done|]. rewrite (Hg _ _ Hx), Hk, String.eqb_refl. f_equal.
    eapply omap_absent; [by apply mapM_result_Forall2|by rewrite <- Hk].
  - rewrite (Hg _ _ Hx). destruct (String.eqb_spec (key x) name) as [E|]; [|by apply IH].
    destruct Hx2. rewrite E, <- Hk. apply elem_of_map. by exists t.
Qed.
End select.

Lemma mapM_result_Forall {A B} (P : B → Prop) (f : A → result B) xs ys :
  (∀ x y, f x = Ok y → P y) → mapM_result f xs = Ok ys → Forall P ys.
Proof. intros Hf Hm%mapM_result_Forall2. induction Hm; constructor; eauto. Qed.

Lemma omap_Forall_none {A B} (f : A → option B) l : Forall (λ x, f x = None) l → omap f l = [].
Proof. intros H. apply omap_none. intros x Hx. by eapply Forall_forall in H. Qed.

(** The dictionary of transports is keyed by their names, and no key repeats. *)
Record coherent (c : TopologyConfig) : Prop := {
  co_named : ∀ n t, (n, t) ∈ transports c → tr_name t = n;
  co_gateway : dict_wf (saas_transport_ips c)
}.

Section match_registry.
Context (hexdigest : string → string) (c : TopologyConfig).
Hypothesis Hv : validate_config c = Ok tt.
Hypothesis Hco : coherent c.

Lemma transport_keys : dkeys (transports c) = TRANSPORTS.
Proof.
  pose proof (v_transports _ (proj1 (validate_config_iff c) Hv)) as Ht. unfold check_transports in Ht.
  rewrite bind_unit_ok, reject_ok in Ht. destruct Ht as [Ht _]. by apply negb_false_iff, bool_decide_eq_true in Ht.
Qed.

Lemma transports_wf : dict_wf (transports c).
Proof. unfold dict_wf. rewrite transport_keys. apply uniqueb_true. reflexivity. Qed.

Lemma transport_names : map tr_name (transport_list c) = dkeys (transports c).
Proof.
  unfold transport_list, dvals, dkeys. rewrite map_map. apply map_ext_in. intros [n t] Hin%list_elem_of_In. by apply (co_named _ Hco).
Qed.

Lemma gateway_not_a_node : saas_gateway_name c ∉ runtime_node_names c.
Proof.
  pose proof (v_endpoints _ (proj1 (validate_config_iff c) Hv)) as Ht. unfold check_endpoints in Ht.
  rewrite bind_unit_ok, reject_ok in Ht. destruct Ht as [Ht _]. apply orb_false_iff in Ht as [_ Ht].
  apply negb_false_iff, uniqueb_true in Ht. unfold physical_names in Ht. apply NoDup_app in Ht as (_ & Hd & _).
  intros Hin. apply (Hd _ Hin). apply elem_of_app. right. apply elem_of_app. left. by do 5 right; left.
Qed.

Lemma gateway_serves name t : dget (transports c) name = Some t →
  (internet_capable t = true ↔ name ∈ dkeys (saas_transport_ips c)).
Proof.
  intros Hn. pose proof (v_endpoints _ (proj1 (validate_config_iff c) Hv)) as Ht. unfold check_endpoints in Ht.
  rewrite !bind_unit_ok, !reject_ok in Ht. destruct Ht as (_ & _ & _ & _ & _ & Ht & _).
  apply negb_false_iff in Ht. pose proof (proj1 (same_setb_true _ _) Ht name) as Hs. rewrite Hs, elem_of_map. split.
  - intros Hi. exists (name, t). split; [done|]. apply list_elem_of_In, filter_In. split; [|done].
    by apply list_elem_of_In, dget_In.
  - intros ([n t'] & -> & [Hin%list_elem_of_In Hi]%list_elem_of_In%filter_In). cbn in *.
    apply (dget_wf_In _ _ _ transports_wf) in Hin. congruence.
Qed.

Lemma carried_transport_link name n t l : n ∈ runtime_node_names c → transport_link hexdigest c n t = Ok l →
  carried name l = if String.eqb (tr_name t) name then Some (n, tr_switch t, tr_switch t +:+ "-" +:+ short_name hexdigest n, address1 l) else None.
Proof.
  intros Hn H. unfold transport_link in H. apply bind_Ok in H as (a & Ha & H). injection H as <-. unfold carried. cbn.
  by destruct (String.eqb_spec (tr_name t) name).
Qed.

(** The provider links of one node. *)
Lemma node_matches name t n ls a (authorized : option (list string)) : dget (transports c) name = Some t → n ∈ runtime_node_names c →
  short_attachment_name c n = Ok (short_name hexdigest n) →
  transport_links hexdigest c n = Ok ls →
  node_attachment (UnderlayRegistry_init c authorized) name t n = Ok a →
  omap (carried name) ls = [expected a].
Proof.
  intros Ht Hn Hs Hls Ha. unfold transport_links in Hls.
  assert (Hin : t ∈ transport_list c) by by eapply dget_dvals.
  assert (Hname : tr_name t = name) by by apply (co_named _ Hco), dget_In.
  destruct (omap_present (transport_link hexdigest c n) (carried name)
    (λ l, (n, node2 l, intf2 l, address1 l)) tr_name name) with (xs := transport_list c) (ys := ls) (t := t) as (l & Hl & ->); try done.
  - intros x y Hxy. rewrite (carried_transport_link name n x y) by done. unfold transport_link in Hxy.
    apply bind_Ok in Hxy as (b & Hb & Hxy). injection Hxy as <-. by destruct (String.eqb _ _).
  - rewrite transport_names. apply transports_wf.
  - unfold transport_link, underlay_interface_cidr in Hl. unfold node_attachment in Ha. cbn in Ha. rewrite Hs in Ha. cbn in Ha.
    rewrite (proj2 (String.eqb_neq n (saas_gateway_name c))), Hname in Hl by (intros ->; by apply gateway_not_a_node).
    destruct (underlay_ip c n name) as [ip|]; [|done]. destruct (underlay_mac c n name) as [mac|]; [|done].
    apply Ok_inj in Hl as <-. apply Ok_inj in Ha as <-. reflexivity.
Qed.

Lemma nodes_match name t authorized nodes lss as_ : dget (transports c) name = Some t → (∀ n, n ∈ nodes → n ∈ runtime_node_names c) →
  (∀ n, n ∈ nodes → short_attachment_name c n = Ok (short_name hexdigest n)) →
  mapM_result (transport_links hexdigest c) nodes = Ok lss →
  mapM_result (node_attachment (UnderlayRegistry_init c authorized) name t) nodes = Ok as_ →
  omap (carried name) (concat lss) = map expected as_.
Proof.
  intros Ht Hn Hs Hl%mapM_result_Forall2 Ha%mapM_result_Forall2. revert as_ Ha. induction Hl as [|n ls nodes lss Hls _ IH]; intros as_ Ha.
  - inversion Ha. done.
  - inversion Ha as [|? a ? as' Hat Has]; subst. cbn. rewrite omap_app, IH with (as_ := as').
    + rewrite (node_matches name t n ls a authorized); try done; [apply Hn; constructor|apply Hs; constructor].
    + intros m Hm. apply Hn. by constructor.
    + intros m Hm. apply Hs. by constructor.
    + done.
Qed.

Lemma internet_matches name t authorized links : dget (transports c) name = Some t →
  mapM_result (internet_link c) (dkeys (saas_transport_ips c)) = Ok links →
  (internet_capable t = true → ∀ a, gateway_attachment (UnderlayRegistry_init c authorized) name t = Ok a →
     omap (carried name) links = [expected a]) ∧
  (internet_capable t = false → omap (carried name) links = []).
Proof.
  intros Ht Hl. assert (Hg : ∀ x y, internet_link c x = Ok y → carried name y =
    if String.eqb x name then Some (saas_gateway_name c, node2 y, intf2 y, address1 y) else None).
  { intros x y Hx. unfold internet_link in Hx. inv_bind. unfold carried. cbn. by destruct (String.eqb_spec x name). }
  split.
  - intros Hi a Ha. destruct (omap_present (internet_link c) (carried name) (λ y, (saas_gateway_name c, node2 y, intf2 y, address1 y))
      (λ x, x) name) with (xs := dkeys (saas_transport_ips c)) (ys := links) (t := name) as (l & Hl2 & ->); try done.
    + rewrite map_id. apply (co_gateway _ Hco).
    + by apply (gateway_serves _ _ Ht).
    + unfold internet_link, get_transport, underlay_interface_cidr in Hl2. rewrite Ht, String.eqb_refl in Hl2. cbn in Hl2.
      unfold gateway_attachment in Ha. cbn in Ha. destruct (dget (saas_transport_ips c) name) as [ip|]; [|done]. cbn in Hl2, Ha.
      apply Ok_inj in Hl2 as <-. apply bind_Ok in Ha as (mac & _ & Ha). apply Ok_inj in Ha as <-. reflexivity.
  - intros Hi. eapply (omap_absent (internet_link c) (carried name) _ (λ x, x) name Hg); [done|].
    rewrite map_id. intros Hin. apply (gateway_serves _ _ Ht) in Hin. congruence.
Qed.
End match_registry.

(** ** Every other link is off the provider networks *)

Section plain.
Context (hexdigest : string → string) (c : TopologyConfig) (name : string).

Definition plain (l : LinkSpec) : Prop := carried name l = None.

Lemma plain_link n1 n2 i1 i2 a : plain (link n1 n2 i1 i2 a).
Proof. reflexivity. Qed.

Lemma plain_mapM {A} (f : A → result LinkSpec) xs ys : (∀ x y, f x = Ok y → ln_transport y = None) → mapM_result f xs = Ok ys →
  omap (carried name) ys = [].
Proof.
  intros Hf Hm. apply omap_Forall_none. eapply mapM_result_Forall; [|done]. intros x y Hx. unfold carried. by rewrite (Hf x y Hx).
Qed.

Lemma lan_plain : omap (carried name) (concat (map lan_links (site_list c))) = [].
Proof. rewrite omap_concat, map_map. induction (site_list c) as [|s ss IH]; [done|exact IH]. Qed.

Lemma cloud_plain ls : cloud_links hexdigest c = Ok ls → omap (carried name) ls = [].
Proof.
  unfold cloud_links. destruct (vpc_enabled _); [|by intros [= <-]]. intros H.
  apply bind_Ok in H as (vpc & Hvpc & H). apply bind_Ok in H as (transit & Htr & H). apply bind_Ok in H as (port & _ & H).
  apply Ok_inj in H as <-. apply plain_mapM in Hvpc; [|intros x y Hx; unfold cloud_vpc_link in Hx; by inv_bind].
  apply plain_mapM in Htr; [|intros x y Hx; unfold transit_link in Hx; by inv_bind]. by rewrite !omap_app, Hvpc, Htr.
Qed.
End plain.

(** C26: the provider ports of the physical plan are the attachments the
    controller's registry admits: where the short node names agree with the
    registry's suffixes, the links of a provider network are, in order, exactly
    its attachments, with their node, switch port and address. *)
Theorem plan_matches_registry hexdigest c p authorized name t as_ :
  validate_config c = Ok tt → coherent c →
  (∀ n, n ∈ runtime_node_names c → short_attachment_name c n = Ok (short_name hexdigest n)) →
  build_live_plan hexdigest c = Ok p → dget (transports c) name = Some t →
  attachments (UnderlayRegistry_init c authorized) name = Ok as_ →
  omap (carried name) (links p) = map expected as_.
Proof.
  intros Hv Hco Hs [_ Hl]%build_live_plan_ok Ht Ha. unfold plan_links in Hl.
  apply bind_Ok in Hl as (root & Hroot & Hl). apply bind_Ok in Hl as (mgmt & Hm & Hl). apply bind_Ok in Hl as (lss & Hu & Hl).
  apply bind_Ok in Hl as (dc & Hdc & Hl). apply bind_Ok in Hl as (dca & Happ & Hl). apply bind_Ok in Hl as (saas & Hsaas & Hl).
  apply bind_Ok in Hl as (inet & Hinet & Hl). apply bind_Ok in Hl as (cloud & Hcloud & Hl). apply Ok_inj in Hl as <-.
  unfold attachments, get_transport in Ha. cbn [reg_config UnderlayRegistry_init] in Ha. rewrite Ht in Ha.
  apply bind_Ok in Ha as (item & Hitem & Ha). apply Ok_inj in Hitem as <-. apply bind_Ok in Ha as (nodes & Hnodes & Ha).
  assert (Hroot2 : carried name root = None) by (unfold management_root_link in Hroot; by inv_bind).
  assert (Happ2 : carried name dca = None) by (unfold dc_app_link in Happ; by inv_bind).
  assert (Hsaas2 : omap (carried name) saas = []) by (unfold saas_links in Hsaas; by inv_bind).
  assert (Hm2 : omap (carried name) mgmt = []).
  { eapply plain_mapM; [|done]. intros x y Hx. unfold management_link in Hx. by inv_bind. }
  assert (Hdc2 : omap (carried name) dc = []).
  { eapply plain_mapM; [|done]. intros x y Hx. unfold hub_dc_link in Hx. by inv_bind. }
  change (root :: mgmt ++ ?rest) with ([root] ++ mgmt ++ rest). change (dca :: saas ++ ?rest) with ([dca] ++ saas ++ rest).
  rewrite !omap_app. cbn [omap list_omap]. rewrite Hroot2, Happ2, Hm2, Hdc2, Hsaas2, lan_plain, (cloud_plain _ _ _ _ Hcloud).
  cbn [app]. rewrite app_nil_r.
  rewrite (nodes_match hexdigest c Hv Hco name t authorized (runtime_node_names c) lss nodes); try done.
  destruct (internet_matches c Hv Hco name t authorized inet Ht Hinet) as [Hcap Hno].
  destruct (internet_capable t) eqn:Hi.
  - apply bind_Ok in Ha as (g & Hg & Ha). apply Ok_inj in Ha as <-. rewrite (Hcap eq_refl g Hg). by rewrite map_app.
  - apply Ok_inj in Ha as <-. by rewrite (Hno eq_refl), app_nil_r.
Qed.

(** ** What the configuration commands do to the interfaces *)

(** [ip address replace ADDRESS dev INTERFACE] and
    [ip link set dev INTERFACE address MAC]: node, interface and value. *)
Definition address_set (e : node_command) : option (string * string * string) :=
  match e.2 with
  | [w1; w2; w3; a; w4; i] =>
      if String.eqb w1 "ip" && String.eqb w2 "address" && String.eqb w3 "replace" && String.eqb w4 "dev" then Some (e.1, i, a) else None
  | _ => None
  end.
Definition mac_set (e : node_command) : option (string * string * string) :=
  match e.2 with
  | [w1; w2; w3; w4; i; w5; m] =>
      if String.eqb w1 "ip" && String.eqb w2 "link" && String.eqb w5 "address" then Some (e.1, i, m) else None
  | _ => None
  end.

(** The values one interface was given, in order. *)
Definition given_to (f : node_command → option (string * string * string)) (n i : string) (h : Lab) : list string :=
  omap (λ e, match f e with Some (n', i', v) => if String.eqb n' n && String.eqb i' i then Some v else None | None => None end) h.
Definition addresses_of := given_to address_set.
Definition macs_of := given_to mac_set.

Definition quiet (h : Lab) : Prop := ∀ n i, addresses_of n i h = [] ∧ macs_of n i h = [].

Lemma given_app f n i h k : given_to f n i (h ++ k) = given_to f n i h ++ given_to f n i k.
Proof. apply omap_app. Qed.

Lemma quiet_nil : quiet [].
Proof. by intros n i. Qed.

Lemma quiet_app h k : quiet h → quiet k → quiet (h ++ k).
Proof.
  intros Hh Hk n i. destruct (Hh n i) as [A1 A2], (Hk n i) as [B1 B2]. unfold addresses_of, macs_of in *.
  by rewrite !given_app, A1, A2, B1, B2.
Qed.

Lemma quiet_map {A} (f : A → node_command) l : (∀ x, quiet [f x]) → quiet (map f l).
Proof. intros Hf. induction l as [|x l IH]; [apply quiet_nil|]. by apply (quiet_app [_]). Qed.

(** A computation that only adds commands, which satisfy [R]. *)
Definition appends (R : Lab → Prop) (m : M Lab unit) : Prop := ∀ h h', m h = (Ok tt, h') → ∃ k, h' = h ++ k ∧ R k.

Section commands.
Context `{PyRepr} (hexdigest : string → string) (c : TopologyConfig) (exec : Lab → string → list string → option (Z * string))
  (nodes : list string).

Lemma run_checked_ok node cmd h h' : run_checked exec nodes node cmd h = (Ok tt, h') → h' = h ++ [(node, cmd)].
Proof.
  unfold run_checked. intros Hr. apply lift_bind_run in Hr as (_ & _ & Hr). cbn in Hr. unfold mbind, M_bind, get, put, lift in Hr.
  destruct (exec h node cmd) as [[st d]|]; [done|by injection Hr].
Qed.

Lemma appends_run (R : Lab → Prop) node cmd : R [(node, cmd)] → appends R (run_checked exec nodes node cmd).
Proof. intros HR h h' Hr%run_checked_ok. by eexists. Qed.

Lemma appends_ret (R : Lab → Prop) : R [] → appends R (mret tt).
Proof. intros HR h h' [= <-]. exists []. by rewrite app_nil_r. Qed.

Lemma appends_bind (R1 R2 R : Lab → Prop) (m : M Lab unit) (k : unit → M Lab unit) :
  (∀ a b, R1 a → R2 b → R (a ++ b)) → appends R1 m → appends R2 (k tt) → appends R (m ≫= k).
Proof.
  intros HR Hm Hk h h' Hr. apply bind_run in Hr as ([] & h1 & H1 & H2). apply Hm in H1 as (a & -> & Ha).
  apply Hk in H2 as (b & -> & Hb). exists (a ++ b). rewrite app_assoc. split; [done|by apply HR].
Qed.

Lemma appends_lift (R : Lab → Prop) {A} (r : result A) (k : A → M Lab unit) : (∀ x, r = Ok x → appends R (k x)) → appends R (lift r ≫= k).
Proof. intros Hk h h' Hr. apply lift_bind_run in Hr as (x & Hx & Hr). by eapply Hk. Qed.

Lemma appends_quiet (m : M Lab unit) (k : unit → M Lab unit) : appends quiet m → appends quiet (k tt) → appends quiet (m ≫= k).
Proof. apply appends_bind, quiet_app. Qed.

Lemma quiet_forM {A} (f : A → M Lab unit) l : (∀ x, appends quiet (f x)) → appends quiet (forM f l).
Proof.
  intros Hf. induction l as [|x l IH]; [apply appends_ret, quiet_nil|]. by apply appends_quiet.
Qed.

Lemma quiet_enumerated {A} (f : Z → A → M Lab unit) l n : (∀ n x, appends quiet (f n x)) → appends quiet (enumerated n f l).
Proof.
  intros Hf. revert n. induction l as [|x l IH]; intros n; [apply appends_ret, quiet_nil|]. by apply appends_quiet.
Qed.

Lemma flush_quiet node table : appends quiet (flush_route_table_if_present exec node table).
Proof.
  intros h h'. unfold flush_route_table_if_present, mbind, M_bind, get, put, lift. destruct (exec h node _) as [[st d]|].
  - destruct (contains _ _); [|done]. intros [= <-]. exists []. rewrite app_nil_r. split; [done|apply quiet_nil].
  - intros [= <-]. eexists. split; [done|]. by intros n i.
Qed.

#[local] Ltac hush1 := first
  [ apply flush_quiet | apply appends_run; intros ? ?; split; reflexivity | apply appends_ret, quiet_nil | apply appends_lift; intros ? _
  | apply quiet_forM; intros ? | apply quiet_enumerated; intros ? ? | apply appends_quiet | case_match ].
#[local] Ltac hush := repeat hush1.

Lemma provider_routes_quiet : appends quiet (configure_provider_routes c exec nodes).
Proof. unfold configure_provider_routes, provider_routes_of, provider_route. hush. Qed.

Lemma stamps_quiet gateway hub : appends quiet (forM (run_checked exec nodes gateway) (stamp_egress hexdigest c gateway hub)).
Proof. unfold stamp_egress, in_mangle. cbn [forM]. hush. Qed.

Lemma cloud_quiet : appends quiet (configure_cloud hexdigest c exec nodes).
Proof.
  unfold configure_cloud, configure_cloud_return_affinity, gateway_affinity, hub_cloud_route, gateway_branch_route, app_branch_route,
    node_of, fresh_chain, hook_chain, hub_return_table, snat_branch.
  repeat first [apply stamps_quiet | hush1].
Qed.

Lemma forM_run_ok {A} (node : A → string) (cmd : A → list string) l h h' :
  forM (λ x, run_checked exec nodes (node x) (cmd x)) l h = (Ok tt, h') → h' = h ++ map (λ x, (node x, cmd x)) l.
Proof.
  revert h. induction l as [|x l IH]; intros h; cbn [forM]; [intros [= <-]; by rewrite app_nil_r|].
  intros Hr. apply bind_run in Hr as ([] & h1 & H1%run_checked_ok & H2). apply IH in H2. subst. by rewrite <- app_assoc.
Qed.

Lemma returns_quiet : appends quiet (forM (configure_branch_return c exec nodes) (site_list c)).
Proof. unfold configure_branch_return, node_of. hush. Qed.
End commands.

(** ** One link *)

Definition at_end (e : string * string) (n i : string) (v : option string) : list string :=
  if bool_decide (e = (n, i)) then option_list v else [].

Section configured.
Context `{PyRepr} (hexdigest : string → string) (c : TopologyConfig) (exec : Lab → string → list string → option (Z * string))
  (nodes : list string).

(** The MAC the configuration gives the first end of a link. *)
Definition planned_mac (l : LinkSpec) (v : option string) : Prop :=
  match ln_transport l with Some t => ∃ m, underlay_mac c (node1 l) t = Ok m ∧ v = Some m | None => v = None end.

Definition link_run (l : LinkSpec) (k : Lab) : Prop := ∃ mac, planned_mac l mac ∧ ∀ n i,
  addresses_of n i k = at_end (node1 l, intf1 l) n i (address1 l) ++ at_end (node2 l, intf2 l) n i (address2 l) ∧
  macs_of n i k = at_end (node1 l, intf1 l) n i mac.

Lemma at_end_eqb n1 i1 n i (v : string) : (if String.eqb n1 n && String.eqb i1 i then [v] else []) = at_end (n1, i1) n i (Some v).
Proof.
  unfold at_end. destruct (String.eqb_spec n1 n) as [->|], (String.eqb_spec i1 i) as [->|]; cbn.
  - by rewrite bool_decide_true.
  - rewrite bool_decide_false; [done|congruence].
  - rewrite bool_decide_false; [done|congruence].
  - rewrite bool_decide_false; [done|congruence].
Qed.

Lemma at_end_none e n i : at_end e n i None = [].
Proof. unfold at_end. by case_bool_decide. Qed.

Definition gives (e : string * string) (a m : option string) (k : Lab) : Prop :=
  ∀ n i, addresses_of n i k = at_end e n i a ∧ macs_of n i k = at_end e n i m.

Lemma set_address_gives node i a : appends (gives (node, i) (Some a) None) (set_address exec nodes node i a).
Proof.
  eapply (appends_bind (gives (node, i) (Some a) None) quiet).
  - intros x y Hx Hy n j. destruct (Hx n j) as [A1 A2], (Hy n j) as [B1 B2]. unfold addresses_of, macs_of in *.
    by rewrite !given_app, A1, A2, B1, B2, !app_nil_r.
  - apply appends_run. intros n j. unfold addresses_of, macs_of, given_to. cbn. rewrite <- at_end_eqb, at_end_none.
    by destruct (String.eqb node n && String.eqb i j).
  - apply appends_run. by intros n j.
Qed.

Lemma optional_address_gives node i a :
  appends (gives (node, i) a None) (match a with Some a => set_address exec nodes node i a | None => mret tt end).
Proof.
  destruct a as [a|]; [apply set_address_gives|]. apply appends_ret. intros n j. by rewrite !at_end_none.
Qed.

Lemma configure_link_run l : appends (link_run l) (configure_link c exec nodes l).
Proof.
  eapply (appends_bind (λ k, ∃ mac, planned_mac l mac ∧ gives (node1 l, intf1 l) None mac k)
    (λ k, ∀ n i, addresses_of n i k = at_end (node1 l, intf1 l) n i (address1 l) ++ at_end (node2 l, intf2 l) n i (address2 l) ∧ macs_of n i k = [])).
  - intros a b (mac & Hm & Ha) Hb. exists mac. split; [done|]. intros n i. destruct (Ha n i) as [A1 A2], (Hb n i) as [B1 B2].
    unfold addresses_of, macs_of in *. by rewrite !given_app, A1, A2, B1, B2, at_end_none, app_nil_r.
  - unfold planned_mac. destruct (ln_transport l) as [t|].
    + apply appends_lift. intros _ _. apply appends_lift. intros mac Hmac. apply appends_run. exists (Some mac).
      split; [by exists mac|]. intros n i. unfold addresses_of, macs_of, given_to. cbn. rewrite <- at_end_eqb, at_end_none.
      by destruct (String.eqb (node1 l) n && String.eqb (intf1 l) i).
    + apply appends_ret. exists None. split; [done|]. intros n i. by rewrite !at_end_none.
  - cbn beta. eapply (appends_bind (gives (node1 l, intf1 l) (address1 l) None) (gives (node2 l, intf2 l) (address2 l) None)).
    + intros a b Ha Hb n i. destruct (Ha n i) as [A1 A2], (Hb n i) as [B1 B2].
      unfold addresses_of, macs_of in *. by rewrite !given_app, A1, A2, B1, B2, !at_end_none.
    + apply optional_address_gives.
    + apply optional_address_gives.
Qed.

Lemma links_run ls : appends (λ k, ∃ ks, Forall2 link_run ls ks ∧ k = concat ks) (forM (configure_link c exec nodes) ls).
Proof.
  induction ls as [|l ls IH]; cbn [forM]; [apply appends_ret; by exists []|].
  eapply appends_bind; [|apply configure_link_run|exact IH]. intros a b Ha (ks & Hks & ->). exists (a :: ks).
  split; [by constructor|done].
Qed.

(** Where no interface is named twice, each gets what its link says. *)
Lemma off_link l k n i : link_run l k → (n, i) ∉ link_ends l → addresses_of n i k = [] ∧ macs_of n i k = [].
Proof.
  intros (mac & _ & Hk) Hni. destruct (Hk n i) as [-> ->]. unfold link_ends in Hni. rewrite !not_elem_of_cons in Hni.
  destruct Hni as (H1 & H2 & _). unfold at_end. rewrite !bool_decide_false by congruence. done.
Qed.

Lemma off_links ls ks n i : Forall2 link_run ls ks → (n, i) ∉ flat_map link_ends ls →
  addresses_of n i (concat ks) = [] ∧ macs_of n i (concat ks) = [].
Proof.
  induction 1 as [|l k ls ks Hl _ IH]; [done|]. cbn [flat_map concat]. rewrite not_elem_of_app. intros [H1 H2].
  destruct (off_link l k n i Hl H1) as [A1 A2], (IH H2) as [B1 B2]. unfold addresses_of, macs_of in *.
  by rewrite !given_app, A1, A2, B1, B2.
Qed.

Lemma on_link ls ks l : Forall2 link_run ls ks → NoDup (flat_map link_ends ls) → l ∈ ls →
  addresses_of (node1 l) (intf1 l) (concat ks) = option_list (address1 l) ∧
  addresses_of (node2 l) (intf2 l) (concat ks) = option_list (address2 l) ∧
  ∃ mac, planned_mac l mac ∧ macs_of (node1 l) (intf1 l) (concat ks) = option_list mac.
Proof.
  intros Hr. induction Hr as [|l0 k ls ks Hl Hls IH]; [by intros _ ?%elem_of_nil|]. cbn [flat_map concat].
  intros (Hn0 & Hdis & Hn)%NoDup_app [->|Hin]%elem_of_cons.
  - assert (H1 : (node1 l0, intf1 l0) ∈ link_ends l0) by (unfold link_ends; constructor).
    assert (H2 : (node2 l0, intf2 l0) ∈ link_ends l0) by (unfold link_ends; constructor; constructor).
    destruct (off_links ls ks (node1 l0) (intf1 l0) Hls) as [A1 A2]; [intros Hi; by apply (Hdis _ H1)|].
    destruct (off_links ls ks (node2 l0) (intf2 l0) Hls) as [B1 _]; [intros Hi; by apply (Hdis _ H2)|].
    destruct Hl as (mac & Hm & Hl). destruct (Hl (node1 l0) (intf1 l0)) as [C1 C2], (Hl (node2 l0) (intf2 l0)) as [D1 _].
    unfold link_ends in Hn0. apply NoDup_cons in Hn0 as [Hne _].
    assert (Hne2 : (node1 l0, intf1 l0) ≠ (node2 l0, intf2 l0)) by (intros E; apply Hne; rewrite E; constructor).
    unfold addresses_of, macs_of in *. rewrite !given_app, A1, A2, B1, C1, C2, D1. unfold at_end.
    rewrite (bool_decide_true ((node1 l0, intf1 l0) = (node1 l0, intf1 l0))), (bool_decide_true ((node2 l0, intf2 l0) = (node2 l0, intf2 l0))) by done.
    rewrite (bool_decide_false ((node2 l0, intf2 l0) = _)) by congruence.
    rewrite (bool_decide_false ((node1 l0, intf1 l0) = (node2 l0, intf2 l0))) by done. rewrite !app_nil_r.
    split_and!; try done. by exists mac.
  - destruct (IH Hn Hin) as (A1 & A2 & mac & Hm & A3).
    assert (Hoff : ∀ e, e ∈ link_ends l → e ∉ link_ends l0).
    { intros e He He0. apply (Hdis e He0). apply list_elem_of_In, in_flat_map. exists l. by split; apply list_elem_of_In. }
    destruct (off_link l0 k (node1 l) (intf1 l) Hl) as [B1 B3]; [apply Hoff; unfold link_ends; constructor|].
    destruct (off_link l0 k (node2 l) (intf2 l) Hl) as [B2 _]; [apply Hoff; unfold link_ends; constructor; constructor|].
    unfold addresses_of, macs_of in *. rewrite !given_app, A1, A2, A3, B1, B2, B3. split_and!; try done. by exists mac.
Qed.

(** a completed configuration of the running network gives every interface
    of the plan exactly the address the plan states and every provider interface
    exactly the MAC address derived for its node, gives no other interface an
    address, routes every host by its LAN gateway and lets exactly the planned
    nodes forward. *)
Theorem configured_interfaces p h : build_live_plan hexdigest c = Ok p →
  configure_addresses hexdigest c exec nodes p [] = (Ok tt, h) →
  (∀ l, l ∈ links p →
     addresses_of (node1 l) (intf1 l) h = option_list (address1 l) ∧
     addresses_of (node2 l) (intf2 l) h = option_list (address2 l) ∧
     ∃ mac, planned_mac l mac ∧ macs_of (node1 l) (intf1 l) h = option_list mac) ∧
  (∀ n i, (n, i) ∉ flat_map link_ends (links p) → addresses_of n i h = [] ∧ macs_of n i h = []) ∧
  (∀ r, r ∈ host_default_routes p →
     (rt_node r, ["ip"; "route"; "replace"; "default"; "via"; addr_str (rt_gateway r); "dev"; rt_interface r]) ∈ h) ∧
  (∀ n, n ∈ forwarding_nodes p → (n, ["sysctl"; "-w"; "net.ipv4.ip_forward=1"]) ∈ h).
Proof.
  intros [[_ _ Hends _] _]%build_live_plan_ok Hr. unfold configure_addresses in Hr.
  apply bind_run in Hr as ([] & h1 & H1 & Hr). apply links_run in H1 as (k1 & -> & ks & Hks & ->).
  apply bind_run in Hr as ([] & h2 & H2 & Hr). apply provider_routes_quiet in H2 as (k2 & -> & Q2).
  apply bind_run in Hr as ([] & h3 & H3 & Hr).
  apply (forM_run_ok exec nodes rt_node (λ r, ["ip"; "route"; "replace"; "default"; "via"; addr_str (rt_gateway r); "dev"; rt_interface r]))
    in H3. subst h3.
  apply bind_run in Hr as ([] & h4 & H4 & Hr). apply returns_quiet in H4 as (k4 & -> & Q4).
  apply bind_run in Hr as ([] & h5 & H5 & Hr).
  assert (∃ k5, h5 = ((([] ++ concat ks) ++ k2) ++ map (λ r, (rt_node r, ["ip"; "route"; "replace"; "default"; "via"; addr_str (rt_gateway r); "dev"; rt_interface r]))
    (host_default_routes p) ++ k4) ++ k5 ∧ quiet k5) as (k5 & -> & Q5).
  { destruct (vpc_enabled (cloud_vpc c)); [apply cloud_quiet in H5 as (k5 & -> & Q5)|injection H5 as <-].
    - exists k5. by rewrite <- !app_assoc.
    - exists []. rewrite app_nil_r, <- !app_assoc. split; [done|apply quiet_nil]. }
  apply (forM_run_ok exec nodes (λ n, n) (λ _, ["sysctl"; "-w"; "net.ipv4.ip_forward=1"])) in Hr. subst h.
  set (routes := map _ (host_default_routes p)). set (sysctls := map _ (forwarding_nodes p)).
  assert (Qr : quiet routes) by by apply quiet_map.
  assert (Qs : quiet sysctls) by by apply quiet_map.
  pose proof (quiet_app _ _ Q2 (quiet_app _ _ Qr (quiet_app _ _ Q4 (quiet_app _ _ Q5 Qs)))) as Q. cbn [app].
  assert (Hrest : ∀ n i, addresses_of n i (((((concat ks ++ k2) ++ routes ++ k4) ++ k5) ++ sysctls)) = addresses_of n i (concat ks) ∧
    macs_of n i (((((concat ks ++ k2) ++ routes ++ k4) ++ k5) ++ sysctls)) = macs_of n i (concat ks)).
  { intros n i. rewrite <- !app_assoc. destruct (Q n i) as [E1 E2]. unfold addresses_of, macs_of in *.
    split; rewrite given_app.
    - etrans; [exact (f_equal (List.app (given_to address_set n i (concat ks))) E1)|apply app_nil_r].
    - etrans; [exact (f_equal (List.app (given_to mac_set n i (concat ks))) E2)|apply app_nil_r]. }
  split_and!.
  - intros l Hl. destruct (on_link _ _ _ Hks Hends Hl) as (A1 & A2 & mac & Hm & A3).
    destruct (Hrest (node1 l) (intf1 l)) as [-> ->], (Hrest (node2 l) (intf2 l)) as [-> _]. split_and!; try done. by exists mac.
  - intros n i Hni. destruct (Hrest n i) as [-> ->]. by eapply off_links.
  - intros r Hrr. rewrite !elem_of_app. do 2 left. right. left. unfold routes. apply elem_of_map. by exists r.
  - intros n Hn. rewrite !elem_of_app. right. unfold sysctls. apply elem_of_map. by exists n.
Qed.
End configured.

(** ** The shipped topology *)

Module Examples.

Definition toy_digest (s : string) : string := "0123456789abcdef".

Definition no_plan : LiveTopologyPlan := {|
  lp_inventory := build_plan core_config; lp_switches := []; docker_nodes := []; links := []; host_default_routes := [];
  forwarding_nodes := []; nginx_nodes := [] |}.

Definition core_plan : LiveTopologyPlan := Eval vm_compute in
  match build_live_plan toy_digest core_config with Ok p => p | Err _ => no_plan end.

Lemma core_plan_built : build_live_plan toy_digest core_config = Ok core_plan.
Proof. vm_compute. reflexivity. Qed.

Lemma core_coherent : coherent core_config.
Proof.
  split.
  - intros n t Hin. vm_compute in Hin. repeat (apply elem_of_cons in Hin as [E|Hin]; [injection E as -> ->; vm_compute; reflexivity|]).
    by apply elem_of_nil in Hin.
  - apply uniqueb_true. vm_compute. reflexivity.
Qed.

Lemma core_valid : validate_config core_config = Ok tt.
Proof. pose proof core_accepted as H. by apply config_from_mapping_inv in H as (_ & _ & _ & Hv). Qed.

Lemma core_names_agree n : n ∈ runtime_node_names core_config → short_attachment_name core_config n = Ok (short_name toy_digest n).
Proof.
  intros Hn. vm_compute in Hn. repeat (apply elem_of_cons in Hn as [->|Hn]; [vm_compute; reflexivity|]). by apply elem_of_nil in Hn.
Qed.

Definition bb : Transport := Eval vm_compute in
  match dget (transports core_config) "bb" with Some t => t | None => match transport_list core_config with t :: _ => t | [] => {|
    tr_name := ""; tr_switch := ""; dpid := 0; tr_network := {| net_addr := 0; prefixlen := 0 |}; bandwidth_mbps := 0; delay_ms := 0;
    tr_jitter_ms := 0; tr_loss_pct := 0; tr_cost := 0; internet_capable := false; route_slot := 0; tr_route_table := 0 |} end end.
Definition bb_attachments : list UnderlayAttachment := Eval vm_compute in
  match attachments (UnderlayRegistry_init core_config None) "bb" with Ok l => l | Err _ => [] end.

Lemma plan_matches_registry_witness :
  length bb_attachments = 8%nat ∧ omap (carried "bb") (links core_plan) = map expected bb_attachments.
Proof.
  split; [vm_compute; reflexivity|].
  apply (plan_matches_registry toy_digest core_config core_plan None "bb" bb bb_attachments core_valid core_coherent core_names_agree
    core_plan_built).
  - vm_compute. reflexivity.
  - vm_compute. reflexivity.
Defined.

Definition quiet_exec : Lab → string → list string → option (Z * string) := λ _ _ _, None.
Definition core_commands : Lab := Eval vm_compute in
  (configure_addresses toy_digest core_config quiet_exec (plan_names core_plan) core_plan []).2.

Lemma configured_interfaces_witness :
  addresses_of "node1" "node1-bb" core_commands = ["192.168.20.11/32"] ∧
  (∃ mac, macs_of "node1" "node1-bb" core_commands = option_list mac ∧ mac ≠ None) ∧
  addresses_of "s_bb" "s_bb-n1" core_commands = [].
Proof.
  destruct (configured_interfaces toy_digest core_config quiet_exec (plan_names core_plan) core_plan core_commands) as (H & _);
    [exact core_plan_built|vm_compute; reflexivity|].
  destruct (H {| node1 := "node1"; node2 := "s_bb"; intf1 := "node1-bb"; intf2 := "s_bb-n1"; address1 := Some "192.168.20.11/32";
                 address2 := None; ln_transport := Some "bb" |}) as (H1 & H2 & mac & (m & _ & ->) & H3).
  - apply (list_elem_of_lookup_2 _ 15). vm_compute. reflexivity.
  - split; [exact H1|]. split; [exists (Some m); split; [exact H3|discriminate]|exact H2].
Defined.

(** The registry names a site's port by its [interface_suffix], by default its
    position in the document, the plan by the number in its edge node's name, and
    the validator does not compare them: the plan of an accepted topology may
    have ports the controller never admits. *)
Definition other_suffix (s : Site) : Site := {|
  site_name := site_name s; s_edge_node := s_edge_node s; address_id := address_id s; management_ip := management_ip s;
  lan_network := lan_network s; lan_gateway := lan_gateway s; lan_switch := lan_switch s; lan_dpid := lan_dpid s;
  host_name := host_name s; host_ip := host_ip s; preferred_hub := preferred_hub s; standby_hub := standby_hub s;
  s_device_id := s_device_id s; wireguard_index := wireguard_index s; interface_suffix := "west" |}.

Definition suffixed : TopologyConfig := replace_sites core_config (dmap other_suffix (take 1 (sites core_config))).

Lemma suffix_not_compared :
  validate_config suffixed = Ok tt ∧
  match build_live_plan toy_digest suffixed, attachments (UnderlayRegistry_init suffixed None) "bb" with
  | Ok p, Ok as_ => map (λ a, existsb (λ l, String.eqb (intf2 l) (port_name a)) (links p)) as_ = [true; true; false; true]
  | _, _ => False
  end.
Proof. vm_compute. by split_and!. Qed.
End Examples.
