(* ===== verification/SiteProfile.v ===== *)
(** * Inventory records received as documents
      ([dynamic_profile.py], [runtime_restore.py])

    The site records an edge gets with its desired state and the topology
    restores from the policy database: reading one back, overlaying it on the
    configured topology, and restoring the dynamic branches at start-up. *)
From Stdlib Require Import Ascii.
From S2P Require Import Prelude Net Marks PathSelection Model ModelValidate Json DesiredState Inventory Sql PolicyStore DynamicInventory IntentCompiler.
From S2P Require Import PolicyService CoreTopology.
Local Open Scope string_scope.
Local Open Scope list_scope.
Local Open Scope Z_scope.

(** ** [InventorySite( **value)] *)

Definition site_fields : list string :=
  ["site"; "edge_node"; "device_id"; "lifecycle"; "address_id"; "wireguard_index"; "management_ip"; "lan_prefix"; "lan_gateway";
   "lan_switch"; "lan_dpid"; "host_name"; "host_ip"; "interface_suffix"; "preferred_hub"; "standby_hub"; "runtime_status";
   "last_error"; "failure_stage"; "recoverable"; "created_at"; "updated_at"; "deleted_at"].

(** The fields with the types the dataclass annotates. *)
Definition text_value (d : dict string json) (k : string) : result string :=
  match dget d k with Some (JStr s) => Ok s | _ => raise TypeError k end.
Definition int_value (d : dict string json) (k : string) : result Z :=
  match dget d k with Some (JInt z) => Ok z | _ => raise TypeError k end.
Definition opt_value (d : dict string json) (k : string) : result (option string) :=
  match dget d k with Some (JStr s) => Ok (Some s) | Some JNull => Ok None | _ => raise TypeError k end.

Definition site_record (d : dict string json) : result InventorySite :=
  _ ← raise_if (negb (same_setb (dkeys d) site_fields)) TypeError "unexpected or missing keyword argument";
  site ← text_value d "site"; edge ← text_value d "edge_node"; device ← text_value d "device_id"; cycle ← text_value d "lifecycle";
  address ← int_value d "address_id"; wg ← int_value d "wireguard_index"; mip ← text_value d "management_ip";
  lan ← text_value d "lan_prefix"; gw ← text_value d "lan_gateway"; switch ← text_value d "lan_switch"; lid ← int_value d "lan_dpid";
  host ← text_value d "host_name"; hip ← text_value d "host_ip"; suffix ← text_value d "interface_suffix";
  pref ← text_value d "preferred_hub"; stand ← text_value d "standby_hub"; status ← text_value d "runtime_status";
  error ← opt_value d "last_error"; stage ← opt_value d "failure_stage"; rec ← int_value d "recoverable";
  created ← text_value d "created_at"; updated ← text_value d "updated_at"; deleted ← opt_value d "deleted_at";
  Ok {| iv_site := site; iv_edge_node := edge; iv_device_id := device; lifecycle := cycle; iv_address_id := address;
        iv_wireguard_index := wg; iv_management_ip := mip; iv_lan_prefix := lan; iv_lan_gateway := gw; iv_lan_switch := switch;
        iv_lan_dpid := lid; iv_host_name := host; iv_host_ip := hip; iv_interface_suffix := suffix; iv_preferred_hub := pref;
        iv_standby_hub := stand; runtime_status := status; last_error := error; failure_stage := stage; recoverable := rec;
        created_at := created; updated_at := updated; deleted_at := deleted |}.

(** ** Overlays *)

(** [value.setdefault(key, v)] *)
Definition setdefault (d : dict string json) (k : string) (v : json) : dict string json := if dmem d k then d else dset d k v.

(** [re.fullmatch(r"node([1-9][0-9]*)", name)]: the number's text *)
Definition node_number (name : string) : option string :=
  if String.prefix "node" name then
    match String.substring 4 (String.length name - 4) name with
    | String a rest =>
        match digit_of a, digits_go rest 0 with
        | Some d, Some _ => if 0 <? d then Some (String a rest) else None
        | _, _ => None
        end
    | EmptyString => None
    end
  else None.

Section overlay.
Context `{PyRepr}.

(** [_legacy_profile]; the lookup of an unknown name raises [KeyError]. *)
Definition legacy_profile (value : dict string json) (requested_site : string) (c : TopologyConfig) : result (dict string json) :=
  let profile_site := py_str (default (JStr requested_site) (dget value "site")) in
  match logical_site c profile_site with
  | Ok logical =>
      let raw := dset value "site" (JStr logical) in
      if dmem raw "edge_node" then _ ← edge_node c logical; Ok raw
      else e ← edge_node c logical; Ok (dset raw "edge_node" (JStr e))
  | Err _ =>
      match node_number profile_site with
      | Some n => Ok (setdefault (dset value "site" (JStr ("site" +:+ n))) "edge_node" (JStr profile_site))
      | None => Ok (setdefault value "edge_node" (JStr profile_site))
      end
  end.

(** [try: ... except (TypeError, ValueError) as exc: raise ValueError(msg)] *)
Definition or_invalid {A} (r : result A) (msg : string) : result A :=
  match r with
  | Err e => if inb (exn_cls e) [TypeError; ValueError; ConfigurationError; AddressValueError] then raise ValueError msg else Err e
  | r => r
  end.

Definition provisionable : list string := ["PROVISIONING"; "PENDING_HUBS"; "RECONCILING"; "ACTIVE"].

Definition overlay_site_profile (c : TopologyConfig) (site : string) (value : option json) : result TopologyConfig :=
  let logical := match logical_site c site with Ok l => l | Err _ => site end in
  if dmem (sites c) logical || dmem (hubs c) logical then Ok c
  else
    match value with
    | Some (JObj v) =>
        let logical := if String.eqb (py_str (default (JStr "") (dget v "edge_node"))) site
                       then py_str (default (JStr logical) (dget v "site")) else logical in
        profile ← or_invalid (raw ← legacy_profile v logical c; site_record raw) "dynamic edge site profile is invalid";
        _ ← raise_if (negb (String.eqb (iv_site profile) logical) || negb (inb (lifecycle profile) provisionable)) ValueError
              "dynamic edge site profile is not provisionable";
        s ← to_site profile;
        with_sites c (dset (sites c) (iv_site profile) s)
    | _ => raise ValueError "dynamic edge desired state does not include a site profile"
    end.

Definition overlay_value (c : TopologyConfig) (acc : dict string Site) (value : json) : result (dict string Site) :=
  match value with
  | JObj v =>
      profile ← or_invalid (raw ← legacy_profile v (py_str (default (JStr "") (dget v "site"))) c; site_record raw)
                  "desired-state inventory profile is invalid";
      if inb (lifecycle profile) AUTHORIZED_LIFECYCLES
      then s ← to_site profile; Ok (dset acc (iv_site profile) s) else Ok acc
  | _ => raise ValueError "desired-state inventory profile is invalid"
  end.

Definition overlay_inventory (c : TopologyConfig) (values : json) : result TopologyConfig :=
  ss ← foldM (overlay_value c) (sites c) (match values with JList l => l | _ => [] end);
  with_sites c ss.
End overlay.

(** ** Restoration at start-up *)

(** [load_active_dynamic_sites]: [None] where the database or its table is
    missing; a column the record needs and the table lacks is an error. *)
Definition load_active_dynamic_sites (columns : list string) (rows : option (list InventorySite)) (configured : list string)
    : result (list InventorySite) :=
  match rows with
  | None => Ok []
  | Some rows =>
      let active := sort_by (λ a b, String.leb (iv_site a) (iv_site b)) (List.filter (λ i, same_text (lifecycle i) "ACTIVE") rows) in
      records ← foldM (λ acc i,
        _ ← raise_if (negb (subsetb site_fields columns)) RuntimeError "persistent site inventory is missing required columns";
        if inb (iv_site i) configured then Ok acc else _ ← to_site i; Ok (acc ++ [i])) [] active;
      Ok records
  end.

(** [tuple(dict.fromkeys(xs))] *)
Fixpoint fromkeys (seen : list string) (l : list string) : list string :=
  match l with [] => [] | x :: l' => if inb x seen then fromkeys seen l' else x :: fromkeys (seen ++ [x]) l' end.

Definition persistent_reconciliation_targets (hub_names configured_sites : list string) (restored : list InventorySite) : list string :=
  fromkeys [] (hub_names ++ configured_sites ++ map iv_edge_node restored).

(** ** [PersistentSiteReconciler._run] *)

(** What happens at one pass of the inner loop: shutdown was asked for, the
    call raised or answered PENDING, or it answered another state. *)
Inductive pass := Stopped | Failed (text : string) | Answered (state : string).

Inductive event := Called (target : string) | Reported (text : string).

Section reconciler.
(** The passes over time, and the most that are looked at. *)
Context (world : nat → pass).

(** One target: passes until it answers or the reconciler is stopped.  [clock]
    counts the passes; [fuel] bounds them. *)
Fixpoint reconcile_target (target : string) (fuel clock : nat) (failures : Z) : option (list event * nat) :=
  match fuel with
  | O => None
  | S fuel =>
      match world clock with
      | Stopped => Some ([], S clock)
      | Failed text =>
          let failures := failures + 1 in
          let report := if (failures =? 1) || (failures mod 12 =? 0)
                        then [Reported ("Persistent reconciliation waiting for " +:+ target +:+ ": " +:+ text)] else [] in
          '(es, k) ← reconcile_target target fuel (S clock) failures;
          Some (Called target :: report ++ es, k)
      | Answered state =>
          if String.eqb state "PENDING" then
            let failures := failures + 1 in
            let report := if (failures =? 1) || (failures mod 12 =? 0)
                          then [Reported ("Persistent reconciliation waiting for " +:+ target +:+ ": desired state is pending")] else [] in
            '(es, k) ← reconcile_target target fuel (S clock) failures;
            Some (Called target :: report ++ es, k)
          else Some ([Called target; Reported ("Persistent reconciliation completed for " +:+ target +:+ ": " +:+ state)], S clock)
      end
  end.

Fixpoint reconcile_targets (fuel clock : nat) (targets : list string) : option (list event) :=
  match targets with
  | [] => Some []
  | t :: rest => '(es, k) ← reconcile_target t fuel clock 0; more ← reconcile_targets fuel k rest; Some (es ++ more)
  end.
End reconciler.

(** * Facts about received inventory records

    A record the policy service delivers is read back as it was sent and
    overlaid as the topology entry the policy service itself uses; start-up
    restoration serves its targets one after the other. *)

(** ** Records *)

Lemma opt_value_json d k o : dget d k = Some (opt_json o) → opt_value d k = Ok o.
Proof. unfold opt_value. intros ->. by destruct o. Qed.

(** [InventorySite( **record.__dict__)] is the record. *)
Lemma site_record_profile i : site_record (site_profile i) = Ok i.
Proof.
  unfold site_record, site_profile. set (d := _ : dict string json).
  replace (same_setb (dkeys d) site_fields) with true by (subst d; vm_compute; reflexivity).
  rewrite (opt_value_json d "last_error" (last_error i)) by reflexivity.
  rewrite (opt_value_json d "failure_stage" (failure_stage i)) by reflexivity.
  rewrite (opt_value_json d "deleted_at" (deleted_at i)) by reflexivity.
  subst d. cbn. by destruct i.
Qed.

Section overlay.
Context `{PyRepr}.

(** Names the configured topology does not know. *)
Record fresh_for (c : TopologyConfig) (i : InventorySite) : Prop := {
  fresh_site : is_ok (logical_site c (iv_site i)) = false;
  fresh_edge : is_ok (logical_site c (iv_edge_node i)) = false;
  fresh_hub : dmem (hubs c) (iv_site i) = false;
  fresh_edge_hub : dmem (hubs c) (iv_edge_node i) = false;
  (** [check_request] refuses sites named [nodeN]. *)
  fresh_name : node_number (iv_site i) = None
}.

Lemma unknown_site c name : is_ok (logical_site c name) = false → dmem (sites c) name = false.
Proof. unfold logical_site. by destruct (dmem (sites c) name). Qed.

Lemma legacy_profile_record c i requested : fresh_for c i → legacy_profile (site_profile i) requested c = Ok (site_profile i).
Proof.
  intros [Hs _ _ _ Hn]. unfold legacy_profile. change (py_str (default (JStr requested) (dget (site_profile i) "site"))) with (iv_site i).
  cbv zeta. destruct (logical_site c (iv_site i)); [done|]. by rewrite Hn.
Qed.

Lemma overlay_profile c i s name : fresh_for c i → inb (lifecycle i) provisionable = true → to_site i = Ok s →
  name = iv_site i ∨ name = iv_edge_node i →
  overlay_site_profile c name (Some (JObj (site_profile i))) = with_sites c (dset (sites c) (iv_site i) s).
Proof.
  intros Hf Hp Hs Hname. pose proof Hf as [Hl He Hh Heh Hn]. unfold overlay_site_profile.
  change (py_str (default (JStr "") (dget (site_profile i) "edge_node"))) with (iv_edge_node i).
  assert (is_ok (logical_site c name) = false ∧ dmem (hubs c) name = false) as [Hu Hd] by (destruct Hname; by subst).
  pose proof (unknown_site c name Hu) as Hm. destruct (logical_site c name); [done|]. rewrite Hm, Hd. cbn [orb].
  change (py_str (default (JStr name) (dget (site_profile i) "site"))) with (iv_site i).
  assert ((if String.eqb (iv_edge_node i) name then iv_site i else name) = iv_site i) as ->.
  { destruct Hname as [-> | ->]; [by destruct (String.eqb _ _)|by rewrite String.eqb_refl]. }
  rewrite legacy_profile_record by done. cbn [mbind result_bind or_invalid]. rewrite site_record_profile. cbn [or_invalid mbind result_bind].
  rewrite String.eqb_refl, Hp. cbn [negb orb raise_if mbind result_bind]. rewrite Hs. reflexivity.
Qed.

(** a site the policy service delivers is the site the edge configures.
    Whatever state the policy service answers for a site in service, overlaying
    the profile it carries on the edge's configured topology, under the site's
    name or under its edge node's name, adds exactly the topology entry the
    policy service derives from its own row ([to_site]), and is rejected only
    where the extended topology is not valid. *)
Theorem delivered_profile_overlays c d i s name state :
  get_site_row (iv_site i) d = Some i → desired_state_for (iv_site i) d = Some state →
  fresh_for c i → inb (lifecycle i) provisionable = true → to_site i = Ok s →
  name = iv_site i ∨ name = iv_edge_node i →
  overlay_site_profile c name (dget state "site_profile") = with_sites c (dset (sites c) (iv_site i) s).
Proof.
  intros Hi Hd Hf Hp Hs Hn. unfold desired_state_for in Hd. rewrite Hi in Hd.
  destruct (latest_desired_state d (iv_site i)) as [st|]; [|done]. injection Hd as <-.
  rewrite dget_dset_eq. by apply overlay_profile.
Qed.
End overlay.

(** ** Restoration *)

Lemma fromkeys_spec l seen : NoDup (fromkeys seen l) ∧ ∀ x, x ∈ fromkeys seen l ↔ x ∈ l ∧ x ∉ seen.
Proof.
  revert seen. induction l as [|y l IH]; intros seen; cbn [fromkeys].
  - split; [constructor|]. intros x. set_solver.
  - destruct (inb y seen) eqn:E.
    + apply inb_true in E. destruct (IH seen) as [Hn Hx]. split; [done|]. intros x. rewrite Hx. set_solver.
    + apply inb_false in E. destruct (IH (seen ++ [y])) as [Hn Hx]. split.
      * constructor; [|done]. rewrite Hx. set_solver.
      * intros x. rewrite elem_of_cons, Hx. destruct (decide (x = y)); set_solver.
Qed.

Section reconciler.
Context (world : nat → pass).

(** What the events of one served target are: calls of it, with reports of the
    failures, and the last call with the report of its state. *)
Definition completed (target state : string) : event :=
  Reported ("Persistent reconciliation completed for " +:+ target +:+ ": " +:+ state).
Definition concerns (target : string) (e : event) : Prop := match e with Called t => t = target | Reported _ => True end.
Definition served (target : string) (es : list event) : Prop :=
  ∃ waiting state, state ≠ "PENDING" ∧ es = waiting ++ [Called target; completed target state] ∧ Forall (concerns target) waiting.

Definition answers (p : pass) : bool := match p with Answered st => negb (String.eqb st "PENDING") | _ => false end.

(** Without a shutdown, a target that is eventually answered is served, the
    first answer ends it, and enough fuel finds it. *)
Lemma target_served target n : ∀ clock failures,
  (∀ k, world k ≠ Stopped) → answers (world (clock + n)%nat) = true →
  ∃ es k, (∀ fuel, (n < fuel)%nat → reconcile_target world target fuel clock failures = Some (es, k)) ∧
    served target es ∧ (clock < k ≤ clock + S n)%nat ∧ (∀ j, (clock ≤ j < pred k)%nat → answers (world j) = false).
Proof.
  induction n as [|n IH]; intros clock failures Hw Ha.
  - rewrite Nat.add_0_r in Ha. destruct (world clock) as [|t|st] eqn:E; try done. cbn [answers] in Ha. apply negb_true_iff in Ha.
    exists [Called target; completed target st], (S clock). split_and!; [|by exists [], st; rewrite String.eqb_neq in Ha|lia..].
    intros [|fuel] Hf; [lia|]. cbn [reconcile_target]. by rewrite E, Ha.
  - replace (clock + S n)%nat with (S clock + n)%nat in Ha by lia.
    destruct (answers (world clock)) eqn:E.
    + destruct (world clock) as [|t|st] eqn:Ew; try done. cbn [answers] in E. apply negb_true_iff in E.
      exists [Called target; completed target st], (S clock). split_and!; [|by exists [], st; rewrite String.eqb_neq in E|lia..].
      intros [|fuel] Hf; [lia|]. cbn [reconcile_target]. by rewrite Ew, E.
    + destruct (IH (S clock) (failures + 1) Hw Ha) as (es & k & Hr & (waiting & st & Hst & -> & Hc) & Hk & Hj).
      assert (∃ report, Forall (concerns target) report ∧ ∀ fuel, (S n < fuel)%nat → reconcile_target world target fuel clock failures =
        Some (Called target :: report ++ waiting ++ [Called target; completed target st], k)) as (report & Hrep & Heq).
      { destruct (world clock) as [|t|st'] eqn:Ew; [by destruct (Hw clock)| |].
        - eexists. split; [|intros [|fuel] Hf; [lia|]; cbn [reconcile_target]; rewrite Ew, Hr by lia; reflexivity].
          by case_match; repeat constructor.
        - cbn [answers] in E. apply negb_false_iff in E.
          eexists. split; [|intros [|fuel] Hf; [lia|]; cbn [reconcile_target]; rewrite Ew, E, Hr by lia; reflexivity].
          by case_match; repeat constructor. }
      eexists _, k. split; [exact Heq|]. split; [|split; [lia|]].
      * exists (Called target :: report ++ waiting), st. split_and!; [done|by rewrite app_comm_cons, app_assoc|].
        constructor; [done|]. by apply Forall_app.
      * intros j Hjk. destruct (decide (j = clock)) as [->|]; [done|]. apply Hj. lia.
Qed.

(** start-up restoration serves every target, in dependency order.  The
    targets are the configured hubs, then the configured nodes, then the restored
    branches, each once; unless it is shut down, and as long as some later pass
    always answers, the reconciler serves all of them, one after the other: it
    calls a target only after every earlier one has been answered with a state
    other than PENDING. *)
Theorem restoration_serves_in_order hub_names configured restored :
  (∀ k, world k ≠ Stopped) → (∀ k, ∃ n, answers (world (k + n)%nat) = true) →
  let targets := persistent_reconciliation_targets hub_names configured restored in
  NoDup targets ∧ (∀ t, t ∈ targets ↔ t ∈ hub_names ∨ t ∈ configured ∨ ∃ i, i ∈ restored ∧ t = iv_edge_node i) ∧
  ∃ fuel segments, reconcile_targets world fuel 0 targets = Some (concat segments) ∧ Forall2 served targets segments.
Proof.
  intros Hw Ha targets. destruct (fromkeys_spec (hub_names ++ configured ++ map iv_edge_node restored) []) as [Hn Hx].
  split; [done|]. split.
  { intros t. unfold targets, persistent_reconciliation_targets. rewrite Hx, !elem_of_app, list_elem_of_fmap.
    split; [intros [[?|[?|(i & -> & ?)]] _]; eauto|intros [?|[?|(i & ? & ->)]]; (split; [eauto|by apply not_elem_of_nil])]. }
  assert (∀ l clock, ∃ fuel0 segments, (∀ fuel, (fuel0 ≤ fuel)%nat → reconcile_targets world fuel clock l = Some (concat segments)) ∧
    Forall2 served l segments) as H.
  { induction l as [|t l IH]; intros clock.
    - exists 0%nat, []. split; [done|constructor].
    - destruct (Ha clock) as [n Hans].
      destruct (target_served t n clock 0 Hw Hans) as (es & k & Hr & Hs & _).
      destruct (IH k) as (f0 & segs & Hf & Hs'). exists (S n + f0)%nat, (es :: segs). split; [|by constructor].
      intros fuel Hfuel. cbn [reconcile_targets concat]. rewrite Hr by lia. cbn [mbind option_bind]. rewrite Hf by lia. reflexivity. }
  destruct (H targets 0%nat) as (fuel & segs & Hf & Hs). exists fuel, segs. auto.
Qed.
End reconciler.

Module Examples.
(** The first branch beyond the configured ones. *)
Definition branch : InventorySite :=
  with_lifecycle (allocated_record "t0" "site6" "dev-6" "hub1" "hub2" 16 6 7 106) "PROVISIONING" "RUNNING" None None 1 "t1" None.
Definition state6 : DesiredRow := {|
  dr_site := "site6"; dr_version := 1; dr_digest := "d"; dr_schema := 5; dr_generation := "g"; dr_route_version := 1;
  dr_epoch := 1; dr_contents := [("site", JStr "site6")]; dr_created := "t1"; dr_created_by := "policy";
  dr_delivery := "PENDING"; dr_applied := "PENDING"; dr_verification := "PENDING"; dr_superseded_by := None |}.
Definition policy_db : Db := set_desired_rows (set_inventory_rows empty_db [branch]) [state6].
Definition branch_site : Site := Eval vm_compute in
  match to_site branch as r return is_ok r = true → Site with Ok s => λ _, s | Err _ => λ E, False_rect _ (Bool.diff_false_true E) end eq_refl.

Lemma delivered_profile_overlays_witness :
  is_ok (overlay_site_profile core_config "node6" (Some (JObj (site_profile branch)))) = true ∧
  overlay_site_profile core_config "node6" (Some (JObj (site_profile branch))) = with_sites core_config (dset (sites core_config) "site6" branch_site).
Proof.
  assert (Ed : dget (dset (dr_contents state6) "site_profile" (JObj (site_profile branch))) "site_profile" =
               Some (JObj (site_profile branch))) by reflexivity.
  rewrite <- Ed.
  assert (E : overlay_site_profile core_config "node6" (dget (dset (dr_contents state6) "site_profile" (JObj (site_profile branch)))
                "site_profile") = with_sites core_config (dset (sites core_config) (iv_site branch) branch_site)).
  { apply (delivered_profile_overlays core_config policy_db branch branch_site "node6").
    - vm_compute. reflexivity.
    - vm_compute. reflexivity.
    - split; vm_compute; reflexivity.
    - vm_compute. reflexivity.
    - vm_compute. reflexivity.
    - right. reflexivity. }
  split; [rewrite E; vm_compute; reflexivity|exact E].
Defined.

(** The first target answers at its third pass, the second at once. *)
Definition passes (k : nat) : pass :=
  match k with 0%nat => Failed "refused" | 1%nat => Answered "PENDING" | _ => Answered "ACTIVE" end.

Lemma restoration_serves_in_order_witness :
  persistent_reconciliation_targets ["hub1"; "hub2"] ["hub1"; "hub2"; "node1"] [branch] = ["hub1"; "hub2"; "node1"; "node6"] ∧
  reconcile_targets passes 3 0 ["hub1"; "hub2"] =
    Some [Called "hub1"; Reported "Persistent reconciliation waiting for hub1: refused"; Called "hub1"; Called "hub1";
          Reported "Persistent reconciliation completed for hub1: ACTIVE"; Called "hub2";
          Reported "Persistent reconciliation completed for hub2: ACTIVE"] ∧
  ∃ fuel segments, reconcile_targets passes fuel 0 (persistent_reconciliation_targets ["hub1"; "hub2"] ["hub1"; "hub2"; "node1"] [branch])
    = Some (concat segments).
Proof.
  split; [vm_compute; reflexivity|]. split; [vm_compute; reflexivity|].
  destruct (restoration_serves_in_order passes ["hub1"; "hub2"] ["hub1"; "hub2"; "node1"] [branch]) as (_ & _ & fuel & segs & E & _).
  - intros [|[|k]]; discriminate.
  - intros k. exists 2%nat. rewrite Nat.add_comm. reflexivity.
  - exists fuel, segs. exact E.
Defined.
End Examples.
