(* ===== verification/ContainernetRuntime.v ===== *)
(** * Branches of the running topology ([containernet_runtime.py])

    Creating and removing the containers, switch and links of one allocated
    branch while the network runs, and the enrolment and reconciliation commands
    of its edge.  Containernet's own calls may be refused at any point
    ([refuses]); the commands and [docker exec] are oracles, too.  Each operation
    holds the runtime's lock and is one step. *)
From S2P Require Import Prelude Net Marks PathSelection Model ModelValidate Json DesiredState Inventory Sql PolicyStore.
From S2P Require Import DynamicInventory IntentCompiler PolicyService ZtpStore Lifecycle LivePlan.
Local Open Scope string_scope.
Local Open Scope list_scope.
Local Open Scope Z_scope.

(** ** The running network *)

(** The calls of Containernet the module makes. *)
Inductive net_call :=
  | AddSwitch (name : string) (datapath : Z)
  | AddDocker (name image : string) (edge : bool)
  | AddLink (l : LinkSpec)
  | Attach (switch interface : string)
  | StartSwitch (name : string)
  | DelNode (name : string).

(** A [docker exec -i] with the text on its input. *)
Record docker_call := { dk_container : string; dk_arguments : list string; dk_input : option string }.

Record Live := {
  network_nodes : list string;               (** nodes Containernet has *)
  lab_nodes : list string;                   (** the names in [self.nodes] *)
  lab_links : list LinkSpec;
  switch_ports : list (string * string);     (** the interfaces each running switch forwards on *)
  managed : dict string (list string);       (** [self._managed] *)
  executed : Lab;                            (** commands that succeeded *)
  dockered : list docker_call                (** [docker exec] calls that were made *)
}.

Definition set_network (s : Live) (nodes : list string) (ls : list LinkSpec) (ports : list (string * string)) : Live :=
  {| network_nodes := nodes; lab_nodes := lab_nodes s; lab_links := ls; switch_ports := ports; managed := managed s;
     executed := executed s; dockered := dockered s |}.
Definition set_lab_nodes (s : Live) (l : list string) : Live :=
  {| network_nodes := network_nodes s; lab_nodes := l; lab_links := lab_links s; switch_ports := switch_ports s;
     managed := managed s; executed := executed s; dockered := dockered s |}.
Definition set_managed (s : Live) (d : dict string (list string)) : Live :=
  {| network_nodes := network_nodes s; lab_nodes := lab_nodes s; lab_links := lab_links s; switch_ports := switch_ports s;
     managed := d; executed := executed s; dockered := dockered s |}.
Definition set_executed (s : Live) (h : Lab) : Live :=
  {| network_nodes := network_nodes s; lab_nodes := lab_nodes s; lab_links := lab_links s; switch_ports := switch_ports s;
     managed := managed s; executed := h; dockered := dockered s |}.
Definition set_dockered (s : Live) (l : list docker_call) : Live :=
  {| network_nodes := network_nodes s; lab_nodes := lab_nodes s; lab_links := lab_links s; switch_ports := switch_ports s;
     managed := managed s; executed := executed s; dockered := l |}.

Definition touches (name : string) (l : LinkSpec) : bool := String.eqb (node1 l) name || String.eqb (node2 l) name.
Definition without (name : string) (l : list string) : list string := List.filter (λ n, negb (String.eqb n name)) l.

(** The interface of a link at a switch, which is its second end. *)
Definition ports_at (name : string) (ls : list LinkSpec) : list (string * string) :=
  map (λ l, (name, intf2 l)) (List.filter (λ l, String.eqb (node2 l) name) ls).
Definition port_kept (name : string) (ls : list LinkSpec) (p : string * string) : bool :=
  negb (String.eqb p.1 name) && negb (existsb (λ l, touches name l && String.eqb (node2 l) p.1 && String.eqb (intf2 l) p.2) ls).

(** What an accepted call does. *)
Definition net_effect (k : net_call) (s : Live) : Live :=
  match k with
  | AddSwitch name _ | AddDocker name _ _ => set_network s (network_nodes s ++ [name]) (lab_links s) (switch_ports s)
  | AddLink l => set_network s (network_nodes s) (lab_links s ++ [l]) (switch_ports s)
  | Attach switch interface => set_network s (network_nodes s) (lab_links s) (switch_ports s ++ [(switch, interface)])
  | StartSwitch name => set_network s (network_nodes s) (lab_links s) (switch_ports s ++ ports_at name (lab_links s))
  | DelNode name => set_network s (without name (network_nodes s)) (List.filter (λ l, negb (touches name l)) (lab_links s))
                      (List.filter (port_kept name (lab_links s)) (switch_ports s))
  end.

Section runtime.
Context `{PyRepr} (c : TopologyConfig).
Context (refuses : Live → net_call → option string).
Context (exec : Lab → string → list string → option (Z * string)).
(** [docker exec]: the standard output, or the text of a failure. *)
Context (docker : list docker_call → docker_call → string + string).
(** [json.loads] and [json.dumps]. *)
Context (loads : string → option json) (dumps : dict string string → string).

Definition net (k : net_call) : M Live unit :=
  s ← get;
  match refuses s k with
  | Some why => lift (raise RuntimeError why)
  | None => put (net_effect k s)
  end.

(** [self.nodes[name]] *)
Definition node (name : string) : M Live unit := s ← get; lift (raise_if (negb (inb name (lab_nodes s))) KeyError name).

Definition run_in (name : string) (command : list string) : M Live unit :=
  s ← get;
  match exec (executed s) name command with
  | Some (_, detail) => lift (raise RuntimeError (name +:+ ": " +:+ join " " command +:+ " failed: " +:+ strip detail))
  | None => put (set_executed s (executed s ++ [(name, command)]))
  end.

(** [try: m except Exception: handler; raise] *)
Definition cleanup_on_error {A} (m : M Live A) (handler : M Live unit) : M Live A := λ s,
  match m s with
  | (Err e, s1) => match handler s1 with (Ok _, s2) => (Err e, s2) | (Err e', s2) => (Err e', s2) end
  | r => r
  end.

(** [try: m finally: last] *)
Definition finally {A} (m : M Live A) (last : M Live unit) : M Live A := λ s,
  let '(r, s1) := m s in
  match last s1 with (Ok _, s2) => (r, s2) | (Err e, s2) => (Err e, s2) end.

Definition dynamic_port (bridge suffix : string) : result string :=
  let value := bridge +:+ "-" +:+ suffix in
  if (15 <? String.length value)%nat then raise ValueError ("dynamic bridge port is too long: " +:+ value) else Ok value.

(** ** Creating *)

Definition remove_node (name : string) : M Live unit :=
  s ← get;
  if inb name (lab_nodes s) then
    _ ← net (DelNode name);
    s ← get; put (set_lab_nodes s (without name (lab_nodes s)))
  else mret tt.

Definition remove_managed_nodes (names : list string) : M Live unit := forM remove_node (List.rev names).

Definition branch_names (site : Site) : list string := [s_edge_node site; host_name site; lan_switch site].

Definition suffix_of (site : Site) : string :=
  if nonempty (interface_suffix site) then interface_suffix site else "n" +:+ str_Z (address_id site).

Definition edge_link (site : Site) (t : Transport) : LinkSpec :=
  link (s_edge_node site) (tr_switch t) (s_edge_node site +:+ "-" +:+ tr_name t) (tr_switch t +:+ "-" +:+ suffix_of site) None.

Definition lan_link_edge (site : Site) : LinkSpec :=
  link (s_edge_node site) (lan_switch site) (s_edge_node site +:+ "-lan") (lan_switch site +:+ "-r") None.
Definition lan_link_host (site : Site) : LinkSpec :=
  link (host_name site) (lan_switch site) (host_name site +:+ "-lan") (lan_switch site +:+ "-h") None.

(** [net.addLink(edge, self.nodes[switch], ...)], then [_attach_running_switch] *)
Definition attach_link (l : LinkSpec) : M Live unit :=
  _ ← node (node2 l); _ ← net (AddLink l); net (Attach (node2 l) (intf2 l)).

(** The [try] block: the links, then the start of the branch's switch. *)
Definition wire_branch (site : Site) : M Live unit :=
  _ ← node (management_switch c);
  port ← lift (dynamic_port (management_switch c) (suffix_of site));
  _ ← attach_link (link (s_edge_node site) (management_switch c) (s_edge_node site +:+ "-mgmt") port None);
  _ ← forM (λ t, attach_link (edge_link site t)) (transport_list c);
  _ ← net (AddLink (lan_link_edge site));
  _ ← net (AddLink (lan_link_host site));
  net (StartSwitch (lan_switch site)).

(** Commands of one provider interface. *)
Definition configure_transport (extended : TopologyConfig) (site : Site) (t : Transport) : M Live unit :=
  let edge := s_edge_node site in let interface := edge +:+ "-" +:+ tr_name t in
  mac ← lift (underlay_mac extended (site_name site) (tr_name t));
  _ ← run_in edge ["ip"; "link"; "set"; "dev"; interface; "address"; mac];
  address ← lift (underlay_interface_cidr extended (site_name site) (tr_name t));
  _ ← run_in edge ["ip"; "address"; "replace"; address; "dev"; interface];
  _ ← run_in edge ["ip"; "link"; "set"; "dev"; interface; "up"];
  gateway ← lift (underlay_gateway_ip extended (tr_name t));
  _ ← run_in edge ["ip"; "route"; "replace"; network_str (tr_network t); "via"; addr_str gateway; "dev"; interface; "onlink"];
  gateway_mac ← lift (underlay_gateway_mac extended (tr_name t));
  _ ← run_in edge ["ip"; "neigh"; "replace"; addr_str gateway; "lladdr"; gateway_mac; "nud"; "permanent"; "dev"; interface];
  profile ← lift (get_transport c (tr_name t));
  forM (run_in edge) (shaping profile interface).

Definition configure_branch (extended : TopologyConfig) (site : Site) : M Live unit :=
  let edge := s_edge_node site in let host := host_name site in
  _ ← run_in edge ["ip"; "address"; "replace"; cidr (management_ip site) (management_network c); "dev";
                   edge +:+ "-mgmt"];
  _ ← run_in edge ["ip"; "link"; "set"; "dev"; edge +:+ "-mgmt"; "up"];
  _ ← forM (configure_transport extended site) (transport_list c);
  _ ← run_in edge ["ip"; "address"; "replace"; cidr (lan_gateway site) (lan_network site); "dev"; edge +:+ "-lan"];
  _ ← run_in edge ["ip"; "link"; "set"; "dev"; edge +:+ "-lan"; "up"];
  _ ← run_in host ["ip"; "address"; "replace"; cidr (host_ip site) (lan_network site); "dev"; host +:+ "-lan"];
  _ ← run_in host ["ip"; "link"; "set"; "dev"; host +:+ "-lan"; "up"];
  _ ← run_in host ["ip"; "route"; "replace"; "default"; "via"; addr_str (lan_gateway site); "dev"; host +:+ "-lan"];
  _ ← run_in edge ["sysctl"; "-w"; "net.ipv4.ip_forward=1"];
  _ ← node (data_center_app_name c);
  ip ← lift (of_option (dget (data_center_hub_ips c) (Model.preferred_hub site)) KeyError (Model.preferred_hub site));
  run_in (data_center_app_name c)
    ["ip"; "route"; "replace"; network_str (lan_network site); "via"; addr_str ip; "dev"; data_center_app_name c +:+ "-net"].

(** A previous request's leftovers: all three nodes, or none. *)
Definition clear_leftovers (names : list string) : M Live unit :=
  s ← get;
  if existsb (λ n, inb n (lab_nodes s)) names then
    if forallb (λ n, inb n (lab_nodes s)) names then remove_managed_nodes names
    else lift (raise ValueError "dynamic site collides with an existing live node")
  else mret tt.

Definition create_site (record : InventorySite) : M Live unit :=
  site ← lift (to_site record);
  extended ← lift (with_sites c (dset (sites c) (site_name site) site));
  s ← get;
  if dmem (managed s) (iv_site record) then mret tt
  else
    let names := branch_names site in
    _ ← clear_leftovers names;
    _ ← lift (raise_if (10 <? String.length (iv_edge_node record))%nat ValueError
                "dynamic edge-node name is too long for Linux interfaces");
    _ ← net (AddSwitch (lan_switch site) (lan_dpid site));
    _ ← net (AddDocker (s_edge_node site) (edge_image c) true);
    _ ← net (AddDocker (host_name site) (host_image c) false);
    s ← get; _ ← put (set_lab_nodes s (lab_nodes s ++ [lan_switch site; s_edge_node site; host_name site]));
    s ← get; _ ← put (set_managed s (dset (managed s) (iv_site record) names));
    _ ← cleanup_on_error (wire_branch site)
          (_ ← remove_managed_nodes names; s ← get; put (set_managed s (ddel (managed s) (iv_site record))));
    configure_branch extended site.

(** ** Removing *)

Definition delete_site (record : InventorySite) : M Live unit :=
  s ← get;
  match dget (managed s) (iv_site record) with
  | None => mret tt
  | Some names =>
      _ ← remove_managed_nodes names;
      s ← get; put (set_managed s (ddel (managed s) (iv_site record)))
  end.

(** ** The commands of an edge *)

Definition docker_exec (container : string) (arguments : list string) (input : option string) : M Live string :=
  s ← get;
  let k := {| dk_container := container; dk_arguments := arguments; dk_input := input |} in
  _ ← put (set_dockered s (dockered s ++ [k]));
  match docker (dockered s) k with
  | inl output => mret output
  | inr text => lift (raise RuntimeError (container +:+ ": lifecycle command failed: " +:+ bounded_error 800 text))
  end.

Definition write_program : string :=
  "import os,sys; from pathlib import Path; path=Path(sys.argv[1]); path.parent.mkdir(parents=True,exist_ok=True); "
  +:+ "fd=os.open(str(path),os.O_WRONLY|os.O_CREAT|os.O_TRUNC,0o600); "
  +:+ "os.write(fd,sys.stdin.buffer.read()); os.close(fd); os.chmod(path,0o600)".

Definition write_protected (container destination contents : string) : M Live unit :=
  _ ← docker_exec container ["python3"; "-c"; write_program; destination] (Some contents); mret tt.

Definition edge_result (output site : string) : result (dict string string) :=
  match loads output with
  | None => raise RuntimeError (site +:+ ": edge lifecycle returned invalid JSON")
  | Some (JObj v) => Ok (omap (λ k, (λ x, (k, py_str x)) <$> dget v k) ["site"; "state"; "registration"; "route_version"; "serial"])
  | Some _ => raise RuntimeError (site +:+ ": edge lifecycle returned invalid result")
  end.

(** [bootstrap[key]] *)
Definition field (bootstrap : dict string string) (k : string) : M Live string := lift (of_option (dget bootstrap k) KeyError k).

Definition remove_claim : list string :=
  ["python3"; "-c"; "from pathlib import Path; Path('/run/sdwan/claim.json').unlink(missing_ok=True)"].

Definition enroll_edge (container device : string) (bootstrap : dict string string) : M Live string :=
  ztp ← field bootstrap "ztp_url";
  host ← field bootstrap "management_host";
  policy ← field bootstrap "policy_url";
  docker_exec container
    ["python3"; "-m"; "sdwan.edge_bootstrap"; "enroll"; "--device-id"; device; "--claim-file"; "/run/sdwan/claim.json";
     "--ztp-url"; ztp; "--ztp-connect-host"; host; "--policy-url"; policy; "--policy-connect-host"; host] None.

Definition bootstrap_site (record : InventorySite) (bootstrap : dict string string) : M Live (dict string string) :=
  s ← get;
  _ ← lift (raise_if (negb (dmem (managed s) (iv_site record))) ValueError "dynamic site is not managed by this live topology");
  let container := "mn." +:+ iv_edge_node record in
  ca ← field bootstrap "bootstrap_ca_pem";
  _ ← write_protected container "/var/lib/sdwan/bootstrap-ca.pem" ca;
  id ← field bootstrap "claim_id";
  secret ← field bootstrap "claim_secret";
  _ ← write_protected container "/run/sdwan/claim.json" (dumps [("claim_id", id); ("claim_secret", secret)]);
  output ← finally (enroll_edge container (iv_device_id record) bootstrap)
             (_ ← docker_exec container remove_claim None; mret tt);
  lift (edge_result output (iv_site record)).

Definition reconcile_site (target : string) (bootstrap : dict string string) : M Live (dict string string) :=
  s ← get;
  _ ← lift (raise_if (negb (inb target (lab_nodes s))) ValueError "site is not present in this live topology");
  let container := "mn." +:+ target in
  ca ← field bootstrap "bootstrap_ca_pem";
  _ ← write_protected container "/var/lib/sdwan/bootstrap-ca.pem" ca;
  policy ← field bootstrap "policy_url";
  host ← field bootstrap "management_host";
  output ← docker_exec container
    ["python3"; "-m"; "sdwan.edge_bootstrap"; "reconcile"; "--policy-url"; policy; "--policy-connect-host"; host] None;
  lift (edge_result output target).
End runtime.
