(* ===== verification/ContainernetFacts.v ===== *)
(** * Facts about branches of the running topology

    A created branch has the links, ports, addresses and MAC addresses the
    controller's registry of the extended topology states; removing it undoes
    its creation. *)
From S2P Require Import Prelude Net Marks PathSelection Model ModelValidate Json DesiredState Inventory Sql PolicyStore.
From S2P Require Import DynamicInventory IntentCompiler PolicyService ZtpStore Lifecycle TopologyFacts CoreTopology Underlay.
From S2P Require Import LivePlan LivePlanFacts SiteProfile ContainernetRuntime.
Local Open Scope string_scope.
Local Open Scope list_scope.
Local Open Scope Z_scope.

Lemma append_cancel a b d : a +:+ b = a +:+ d → b = d.
Proof. induction a as [|x a IH]; [done|]. intros [= E]. auto. Qed.

(** ** Commands that address interfaces *)

(** An interface with the address and the MAC it is given. *)
Definition piece : Type := string * string * option string * option string.
Definition piece_end (p : piece) : string * string := p.1.1.
Definition piece_run (p : piece) (k : Lab) : Prop := gives (piece_end p) p.1.2 p.2 k.

Lemma gives_off e a m k n i : gives e a m k → e ≠ (n, i) → addresses_of n i k = [] ∧ macs_of n i k = [].
Proof. intros Hg Hne. destruct (Hg n i) as [-> ->]. unfold at_end. by rewrite !bool_decide_false. Qed.

Lemma gives_on n i a m k : gives (n, i) a m k → addresses_of n i k = option_list a ∧ macs_of n i k = option_list m.
Proof. intros Hg. destruct (Hg n i) as [-> ->]. unfold at_end. by rewrite !bool_decide_true. Qed.

Lemma quiet_gives e k : quiet k → gives e None None k.
Proof. intros Q n i. destruct (Q n i) as [-> ->]. by rewrite !at_end_none. Qed.

Lemma gives_quiet e a m k l : gives e a m k → quiet l → gives e a m (k ++ l).
Proof.
  intros Hg Q n i. destruct (Hg n i) as [A1 A2], (Q n i) as [B1 B2]. unfold addresses_of, macs_of in *.
  by rewrite !given_app, A1, A2, B1, B2, !app_nil_r.
Qed.

Lemma quiet_gives_app e a m k l : quiet k → gives e a m l → gives e a m (k ++ l).
Proof.
  intros Q Hg n i. destruct (Q n i) as [A1 A2], (Hg n i) as [B1 B2]. unfold addresses_of, macs_of in *.
  by rewrite !given_app, A1, A2, B1, B2.
Qed.

Lemma pieces_off ps ks n i : Forall2 piece_run ps ks → (n, i) ∉ map piece_end ps →
  addresses_of n i (concat ks) = [] ∧ macs_of n i (concat ks) = [].
Proof.
  induction 1 as [|p k ps ks Hp _ IH]; [done|]. cbn [map concat]. rewrite not_elem_of_cons. intros [H1 H2].
  destruct (gives_off _ _ _ k n i Hp) as [A1 A2]; [congruence|]. destruct (IH H2) as [B1 B2]. unfold addresses_of, macs_of in *.
  by rewrite !given_app, A1, A2, B1, B2.
Qed.

(** Where no interface occurs twice, each gets what its piece says. *)
Lemma pieces_on ps ks n i a m : Forall2 piece_run ps ks → NoDup (map piece_end ps) → (n, i, a, m) ∈ ps →
  addresses_of n i (concat ks) = option_list a ∧ macs_of n i (concat ks) = option_list m.
Proof.
  induction 1 as [|p k ps ks Hp Hps IH]; [by intros _ ?%elem_of_nil|]. cbn [map concat].
  intros [Hn Hd]%NoDup_cons [<-|Hin]%elem_of_cons.
  - destruct (gives_on _ _ _ _ _ Hp) as [A1 A2]. destruct (pieces_off ps ks n i Hps Hn) as [B1 B2]. unfold addresses_of, macs_of in *.
    by rewrite !given_app, A1, A2, B1, B2, !app_nil_r.
  - destruct (IH Hd Hin) as [B1 B2]. destruct (gives_off _ _ _ k n i Hp) as [A1 A2].
    { intros E. apply Hn. rewrite E. apply elem_of_map. by exists (n, i, a, m). }
    unfold addresses_of, macs_of in *. by rewrite !given_app, A1, A2, B1, B2.
Qed.

(** ** What the operations do when they succeed *)

Section success.
Context `{PyRepr} (c : TopologyConfig) (refuses : Live → net_call → option string) (exec : Lab → string → list string → option (Z * string)).

Lemma live_get {A} (k : Live → M Live A) s r : (s0 ← get; k s0) s = r → k s s = r.
Proof. done. Qed.

Lemma net_ok k s s' : net refuses k s = (Ok tt, s') → s' = net_effect k s.
Proof. unfold net. intros Hr%live_get. destruct (refuses s k); [done|]. by injection Hr. Qed.

Lemma node_ok n s s' : node n s = (Ok tt, s') → s' = s.
Proof. unfold node. intros Hr%live_get. by injection Hr. Qed.

Lemma run_in_ok n cmd s s' : run_in exec n cmd s = (Ok tt, s') → s' = set_executed s (executed s ++ [(n, cmd)]).
Proof. unfold run_in. intros Hr%live_get. destruct (exec _ _ _) as [[]|]; [done|]. by injection Hr. Qed.

Lemma cleanup_ok {A} (m : M Live A) h s x s' : cleanup_on_error m h s = (Ok x, s') → m s = (Ok x, s').
Proof. unfold cleanup_on_error. destruct (m s) as [[y|e] s1]; [done|]. by destruct (h s1) as [[]]. Qed.

(** A computation that only runs commands, which satisfy [R]. *)
Definition commands (R : Lab → Prop) (m : M Live unit) : Prop :=
  ∀ s s', m s = (Ok tt, s') → ∃ k, s' = set_executed s (executed s ++ k) ∧ R k.

Lemma commands_run (R : Lab → Prop) n cmd : R [(n, cmd)] → commands R (run_in exec n cmd).
Proof. intros HR s s' ->%run_in_ok. by eexists. Qed.

Lemma commands_ret (R : Lab → Prop) : R [] → commands R (mret tt).
Proof. intros HR s s' [= <-]. exists []. rewrite app_nil_r. split; [by destruct s|done]. Qed.

Lemma commands_node n : commands (λ k, k = []) (node n).
Proof. intros s s' ->%node_ok. exists []. rewrite app_nil_r. by destruct s. Qed.

Lemma commands_bind (R1 R2 R : Lab → Prop) (m : M Live unit) (k : unit → M Live unit) :
  (∀ a b, R1 a → R2 b → R (a ++ b)) → commands R1 m → commands R2 (k tt) → commands R (m ≫= k).
Proof.
  intros HR Hm Hk s s' Hr. apply bind_run in Hr as ([] & s1 & H1 & H2). apply Hm in H1 as (a & -> & Ha).
  apply Hk in H2 as (b & -> & Hb). exists (a ++ b). cbn. rewrite app_assoc. split; [done|by apply HR].
Qed.

Lemma commands_lift (R : Lab → Prop) {A} (r : result A) (k : A → M Live unit) : (∀ x, r = Ok x → commands R (k x)) → commands R (lift r ≫= k).
Proof. intros Hk s s' Hr. apply lift_bind_run in Hr as (x & Hx & Hr). by eapply Hk. Qed.

Lemma commands_gives_quiet e a m (x : M Live unit) (k : unit → M Live unit) :
  commands (gives e a m) x → commands quiet (k tt) → commands (gives e a m) (x ≫= k).
Proof. apply commands_bind. intros. by apply gives_quiet. Qed.

Lemma commands_quiet_gives e a m (x : M Live unit) (k : unit → M Live unit) :
  commands quiet x → commands (gives e a m) (k tt) → commands (gives e a m) (x ≫= k).
Proof. apply commands_bind. intros. by apply quiet_gives_app. Qed.

Lemma commands_quiet (x : M Live unit) (k : unit → M Live unit) : commands quiet x → commands quiet (k tt) → commands quiet (x ≫= k).
Proof. apply commands_bind, quiet_app. Qed.

Lemma commands_quiet_forM {A} (f : A → M Live unit) l : (∀ x, commands quiet (f x)) → commands quiet (forM f l).
Proof. intros Hf. induction l as [|x l IH]; [apply commands_ret, quiet_nil|]. by apply commands_quiet. Qed.

Lemma quiet_run n cmd : quiet [(n, cmd)] → commands quiet (run_in exec n cmd).
Proof. apply commands_run. Qed.

(** [ip address replace] on one interface *)
Lemma address_run n i a : commands (gives (n, i) (Some a) None) (run_in exec n ["ip"; "address"; "replace"; a; "dev"; i]).
Proof.
  apply commands_run. intros n' i'. unfold addresses_of, macs_of, given_to. cbn. rewrite <- at_end_eqb, at_end_none.
  by destruct (String.eqb n n' && String.eqb i i').
Qed.

Lemma mac_run n i m : commands (gives (n, i) None (Some m)) (run_in exec n ["ip"; "link"; "set"; "dev"; i; "address"; m]).
Proof.
  apply commands_run. intros n' i'. unfold addresses_of, macs_of, given_to. cbn. rewrite <- at_end_eqb, at_end_none.
  by destruct (String.eqb n n' && String.eqb i i').
Qed.

Lemma shaping_quiet n t i : commands quiet (forM (run_in exec n) (shaping t i)).
Proof.
  unfold shaping. cbn [forM]. repeat first [apply commands_quiet | apply quiet_run | apply commands_ret, quiet_nil].
  - by intros ? ?.
  - by intros ? ?.
  - intros ? ?. by destruct (Qeqb (delay_ms t) 0), (Qeqb (tr_jitter_ms t) 0), (Qeqb (tr_loss_pct t) 0).
Qed.

#[local] Ltac silent := intros ? ?; split; reflexivity.

Lemma transport_run extended site t :
  commands (λ k, ∃ mac address, underlay_mac extended (site_name site) (tr_name t) = Ok mac ∧
              underlay_interface_cidr extended (site_name site) (tr_name t) = Ok address ∧
              gives (s_edge_node site, s_edge_node site +:+ "-" +:+ tr_name t) (Some address) (Some mac) k)
    (configure_transport c exec extended site t).
Proof.
  unfold configure_transport. apply commands_lift. intros mac Hmac.
  eapply (commands_bind (gives (s_edge_node site, s_edge_node site +:+ "-" +:+ tr_name t) None (Some mac)) (λ k, ∃ address,
    underlay_interface_cidr extended (site_name site) (tr_name t) = Ok address ∧
    gives (s_edge_node site, s_edge_node site +:+ "-" +:+ tr_name t) (Some address) None k)).
  - intros a b Ha (address & Hb & Hg). exists mac, address. split_and!; try done. intros n i.
    destruct (Ha n i) as [A1 A2], (Hg n i) as [B1 B2]. unfold addresses_of, macs_of in *.
    rewrite !given_app, A1, A2, B1, B2, !at_end_none, app_nil_r. done.
  - apply mac_run.
  - apply commands_lift. intros address Ha.
    eapply (commands_bind (gives (s_edge_node site, s_edge_node site +:+ "-" +:+ tr_name t) (Some address) None) quiet).
    + intros a b Hg Hq. exists address. split; [done|]. by apply gives_quiet.
    + apply address_run.
    + apply commands_quiet; [apply quiet_run; silent|]. apply commands_lift. intros gateway _.
      apply commands_quiet; [apply quiet_run; silent|]. apply commands_lift. intros gateway_mac _.
      apply commands_quiet; [apply quiet_run; silent|]. apply commands_lift. intros profile _. apply shaping_quiet.
Qed.

(** The pieces of one transport, as the extended topology derives them. *)
Definition transport_piece (extended : TopologyConfig) (site : Site) (t : Transport) (p : piece) : Prop :=
  ∃ mac address, underlay_mac extended (site_name site) (tr_name t) = Ok mac ∧
    underlay_interface_cidr extended (site_name site) (tr_name t) = Ok address ∧
    p = (s_edge_node site, s_edge_node site +:+ "-" +:+ tr_name t, Some address, Some mac).

Lemma transports_run extended site ts :
  commands (λ k, ∃ ps ks, Forall2 (transport_piece extended site) ts ps ∧ Forall2 piece_run ps ks ∧ k = concat ks)
    (forM (configure_transport c exec extended site) ts).
Proof.
  induction ts as [|t ts IH]; cbn [forM]; [apply commands_ret; exists [], []; split_and!; constructor|].
  eapply commands_bind; [|apply transport_run|exact IH].
  intros a b (mac & address & Hm & Ha & Hg) (ps & ks & Hps & Hks & ->).
  exists ((s_edge_node site, s_edge_node site +:+ "-" +:+ tr_name t, Some address, Some mac) :: ps), (a :: ks).
  split_and!; [|by constructor|done]. constructor; [|done]. by exists mac, address.
Qed.

Definition management_piece (site : Site) : piece :=
  (s_edge_node site, s_edge_node site +:+ "-mgmt", Some (cidr (management_ip site) (management_network c)), None).
Definition gateway_piece (site : Site) : piece :=
  (s_edge_node site, s_edge_node site +:+ "-lan", Some (cidr (lan_gateway site) (lan_network site)), None).
Definition host_piece (site : Site) : piece :=
  (host_name site, host_name site +:+ "-lan", Some (cidr (host_ip site) (lan_network site)), None).

Definition branch_run (extended : TopologyConfig) (site : Site) (k : Lab) : Prop :=
  ∃ tps ks, Forall2 (transport_piece extended site) (transport_list c) tps ∧ k = concat ks ∧
    Forall2 piece_run (management_piece site :: tps ++ [gateway_piece site; host_piece site]) ks.

Lemma branch_commands extended site : commands (branch_run extended site) (configure_branch c exec extended site).
Proof.
  unfold configure_branch.
  eapply (commands_bind (piece_run (management_piece site)) (λ k, ∃ tps ks, Forall2 (transport_piece extended site) (transport_list c) tps ∧
    k = concat ks ∧ Forall2 piece_run (tps ++ [gateway_piece site; host_piece site]) ks)).
  { intros a b Ha (tps & ks & Ht & -> & Hk). exists tps, (a :: ks). split_and!; try done. by constructor. }
  { apply address_run. }
  cbn beta. eapply (commands_bind quiet (λ k, ∃ tps ks, Forall2 (transport_piece extended site) (transport_list c) tps ∧
    k = concat ks ∧ Forall2 piece_run (tps ++ [gateway_piece site; host_piece site]) ks)).
  { intros a b Q (tps & ks & Ht & -> & Hk). destruct ks as [|k ks].
    - inversion Hk as [E|]. symmetry in E. by apply app_nil in E as [_ E].
    - inversion Hk as [|p ? ps ? Hp Hps E1 E2]. exists tps, ((a ++ k) :: ks). split_and!; [done|cbn; by rewrite app_assoc|].
      rewrite <- E1. constructor; [by apply quiet_gives_app|done]. }
  { apply quiet_run. silent. }
  eapply (commands_bind _ (λ k, ∃ k1 k2, piece_run (gateway_piece site) k1 ∧ piece_run (host_piece site) k2 ∧ k = k1 ++ k2)).
  2: apply transports_run.
  { intros a b (ps & ks & Hps & Hks & ->) (k1 & k2 & H1 & H2 & ->). exists ps, (ks ++ [k1; k2]).
    split_and!; [done|by rewrite concat_app; cbn; rewrite app_nil_r|]. apply Forall2_app; [done|]. constructor; [exact H1|]. constructor; [exact H2|constructor]. }
  eapply (commands_bind (piece_run (gateway_piece site)) (piece_run (host_piece site))).
  { intros a b Ha Hb. by exists a, b. }
  { apply address_run. }
  apply commands_quiet_gives; [apply quiet_run; silent|].
  apply commands_gives_quiet; [apply address_run|].
  apply commands_quiet; [apply quiet_run; silent|]. apply commands_quiet; [apply quiet_run; silent|].
  apply commands_quiet; [apply quiet_run; silent|].
  apply commands_quiet; [intros s s' (k & -> & ->)%commands_node; exists []; split; [done|apply quiet_nil]|].
  apply commands_lift. intros ip _. apply quiet_run. silent.
Qed.
End success.

(** ** The network after a creation or a removal *)

Section wiring.
Context `{PyRepr} (c : TopologyConfig) (refuses : Live → net_call → option string) (exec : Lab → string → list string → option (Z * string)).

Definition second_end (l : LinkSpec) : string * string := (node2 l, intf2 l).

Lemma attach_ok l s s' : attach_link refuses l s = (Ok tt, s') →
  s' = set_network s (network_nodes s) (lab_links s ++ [l]) (switch_ports s ++ [second_end l]).
Proof.
  unfold attach_link. intros Hr. apply bind_run in Hr as ([] & s1 & ->%node_ok & Hr).
  apply bind_run in Hr as ([] & s2 & ->%net_ok & ->%net_ok). done.
Qed.

Lemma attach_all_ok {A} (f : A → LinkSpec) xs s s' : forM (λ x, attach_link refuses (f x)) xs s = (Ok tt, s') →
  s' = set_network s (network_nodes s) (lab_links s ++ map f xs) (switch_ports s ++ map second_end (map f xs)).
Proof.
  revert s. induction xs as [|x xs IH]; intros s; cbn [forM map].
  - intros [= <-]. rewrite !app_nil_r. by destruct s.
  - intros Hr. apply bind_run in Hr as ([] & s1 & ->%attach_ok & Hr%IH). rewrite Hr. unfold set_network. cbn. by rewrite <- !app_assoc.
Qed.

(** The links of a branch that switches outside it carry. *)
Definition outer_links (site : Site) (port : string) : list LinkSpec :=
  link (s_edge_node site) (management_switch c) (s_edge_node site +:+ "-mgmt") port None :: map (edge_link site) (transport_list c).
Definition branch_links (site : Site) (port : string) : list LinkSpec :=
  outer_links site port ++ [lan_link_edge site; lan_link_host site].

Definition wired (site : Site) (port : string) (s : Live) : Live :=
  let ls := lab_links s ++ branch_links site port in
  set_network s (network_nodes s) ls (switch_ports s ++ map second_end (outer_links site port) ++ ports_at (lan_switch site) ls).

Lemma wire_ok site s s' : wire_branch c refuses site s = (Ok tt, s') →
  ∃ port, dynamic_port (management_switch c) (suffix_of site) = Ok port ∧ s' = wired site port s.
Proof.
  unfold wire_branch. intros Hr. apply bind_run in Hr as ([] & s1 & ->%node_ok & Hr). apply lift_bind_run in Hr as (port & Hp & Hr).
  exists port. split; [done|]. apply bind_run in Hr as ([] & s1 & ->%attach_ok & Hr).
  apply bind_run in Hr as ([] & s2 & ->%attach_all_ok & Hr). apply bind_run in Hr as ([] & s3 & ->%net_ok & Hr).
  apply bind_run in Hr as ([] & s4 & ->%net_ok & Hr). apply net_ok in Hr. subst s'. unfold wired, branch_links, outer_links.
  cbn [net_effect]. unfold set_network. cbn. by rewrite <- !app_assoc.
Qed.

(** What a removal leaves alone. *)
Definition kept_by_removal (s s' : Live) : Prop :=
  managed s' = managed s ∧ executed s' = executed s ∧ dockered s' = dockered s.

Definition removed (n : string) (s : Live) : Live :=
  if inb n (lab_nodes s) then set_lab_nodes (net_effect (DelNode n) s) (without n (lab_nodes s)) else s.

Lemma remove_ok n s s' : remove_node refuses n s = (Ok tt, s') → s' = removed n s.
Proof.
  unfold remove_node, removed. intros Hr%live_get. destruct (inb n (lab_nodes s)); [|by injection Hr].
  apply bind_run in Hr as ([] & s1 & ->%net_ok & Hr). by injection Hr.
Qed.

Lemma remove_all_ok names s s' : remove_managed_nodes refuses names s = (Ok tt, s') → s' = fold_left (λ s n, removed n s) (List.rev names) s.
Proof.
  unfold remove_managed_nodes. generalize (List.rev names). intros l. revert s. induction l as [|n l IH]; intros s; cbn [forM fold_left].
  - by intros [= <-].
  - intros Hr. by apply bind_run in Hr as ([] & s1 & ->%remove_ok & Hr%IH).
Qed.

Lemma removed_keeps n s : kept_by_removal s (removed n s).
Proof. unfold removed. by destruct (inb n (lab_nodes s)). Qed.

Lemma removed_link n s l : l ∈ lab_links s → touches n l = false → l ∈ lab_links (removed n s).
Proof.
  intros Hl Ht. unfold removed. destruct (inb n (lab_nodes s)); [|done]. cbn. apply list_elem_of_In, filter_In.
  split; [by apply list_elem_of_In|by rewrite Ht].
Qed.

Lemma removed_all ns : ∀ s, let s' := fold_left (λ s n, removed n s) ns s in
  kept_by_removal s s' ∧ ∀ l, l ∈ lab_links s → (∀ n, n ∈ ns → touches n l = false) → l ∈ lab_links s'.
Proof.
  induction ns as [|n ns IH]; intros s; cbn [fold_left]; [done|]. destruct (IH (removed n s)) as [(K1 & K2 & K3) Hl].
  destruct (removed_keeps n s) as (L1 & L2 & L3). split; [unfold kept_by_removal; by rewrite K1, K2, K3|].
  intros l Hin Ht. apply Hl.
  - apply removed_link; [done|apply Ht; constructor].
  - intros m Hm. apply Ht. by constructor.
Qed.

Lemma clear_ok names s s' : clear_leftovers refuses names s = (Ok tt, s') →
  (s' = s ∧ ∀ n, n ∈ names → n ∉ lab_nodes s) ∨ s' = fold_left (λ s n, removed n s) (List.rev names) s.
Proof.
  unfold clear_leftovers. intros Hr%live_get. destruct (existsb _ names) eqn:E.
  - destruct (forallb _ names); [|done]. right. by apply remove_all_ok.
  - injection Hr as <-. left. split; [done|]. intros n Hn Hin. assert (Ht : existsb (λ n, inb n (lab_nodes s)) names = true); [|congruence].
    apply existsb_exists. exists n. split; [by apply list_elem_of_In|by apply inb_true].
Qed.

(** The state after a creation that succeeded from [s1], the state without
    leftovers. *)
Definition created (record : InventorySite) (site : Site) (port : string) (k : Lab) (s1 : Live) : Live :=
  let nodes := [lan_switch site; s_edge_node site; host_name site] in
  let ls := lab_links s1 ++ branch_links site port in
  {| network_nodes := network_nodes s1 ++ nodes; lab_nodes := lab_nodes s1 ++ nodes; lab_links := ls;
     switch_ports := switch_ports s1 ++ map second_end (outer_links site port) ++ ports_at (lan_switch site) ls;
     managed := dset (managed s1) (iv_site record) (branch_names site); executed := executed s1 ++ k; dockered := dockered s1 |}.

Lemma create_ok record s s' : create_site c refuses exec record s = (Ok tt, s') → dmem (managed s) (iv_site record) = false →
  ∃ site extended port s1 k, to_site record = Ok site ∧ with_sites c (dset (sites c) (site_name site) site) = Ok extended ∧
    dynamic_port (management_switch c) (suffix_of site) = Ok port ∧
    clear_leftovers refuses (branch_names site) s = (Ok tt, s1) ∧ branch_run c extended site k ∧ s' = created record site port k s1.
Proof.
  unfold create_site. intros Hr Hm. apply lift_bind_run in Hr as (site & Hs & Hr). apply lift_bind_run in Hr as (extended & He & Hr).
  apply live_get in Hr. rewrite Hm in Hr. apply bind_run in Hr as ([] & s1 & Hc & Hr). apply lift_bind_run in Hr as ([] & _ & Hr).
  apply bind_run in Hr as ([] & s2 & ->%net_ok & Hr). apply bind_run in Hr as ([] & s3 & ->%net_ok & Hr).
  apply bind_run in Hr as ([] & s4 & ->%net_ok & Hr). apply live_get in Hr. apply bind_run in Hr as ([] & s5 & [= <-] & Hr).
  apply live_get in Hr. apply bind_run in Hr as ([] & s6 & [= <-] & Hr). apply bind_run in Hr as ([] & s7 & Hw & Hr).
  apply cleanup_ok, wire_ok in Hw as (port & Hp & ->). apply branch_commands in Hr as (k & -> & Hk).
  exists site, extended, port, s1, k. split_and!; try done. unfold created, wired. cbn. unfold set_network. cbn. by rewrite <- !app_assoc.
Qed.
End wiring.

(** ** The extended topology *)

(** The site's name and its edge node's name resolve to it alone. *)
Record addressable (x : TopologyConfig) (site : Site) : Prop := {
  ad_edge : logical_site x (s_edge_node site) = Ok (site_name site);
  ad_name_hub : dget (hubs x) (site_name site) = None;
  ad_name_gateway : site_name site ≠ saas_gateway_name x;
  ad_name_cloud : dget (gateway_address_ids (cloud_vpc x)) (site_name site) = None;
  ad_edge_cloud : dget (gateway_address_ids (cloud_vpc x)) (s_edge_node site) = None
}.

Section extended.
Context (c extended : TopologyConfig) (site : Site).
Hypothesis Hext : with_sites c (dset (sites c) (site_name site) site) = Ok extended.

Lemma extended_eq : extended = replace_sites c (dset (sites c) (site_name site) site).
Proof. unfold with_sites in Hext. by apply bind_unit_ok in Hext as [_ [= <-]]. Qed.

Lemma extended_valid : validate_config extended = Ok tt.
Proof. pose proof Hext as Hx. unfold with_sites in Hx. by apply bind_unit_ok in Hx as [Hv [= <-]]. Qed.

Lemma extended_site : dget (sites extended) (site_name site) = Some site.
Proof. rewrite extended_eq. apply dget_dset_eq. Qed.

Lemma extended_member : site ∈ site_list extended.
Proof. eapply dget_dvals, extended_site. Qed.

Lemma edge_runs : s_edge_node site ∈ runtime_node_names extended.
Proof. unfold runtime_node_names, edge_nodes. apply elem_of_app. right. apply elem_of_map. exists site. split; [done|apply extended_member]. Qed.

Lemma physical_unique : NoDup (physical_names extended).
Proof.
  pose proof (v_endpoints _ (proj1 (validate_config_iff _) extended_valid)) as Ht. unfold check_endpoints in Ht.
  rewrite bind_unit_ok, reject_ok in Ht. destruct Ht as [Ht _]. apply orb_false_iff in Ht as [_ Ht].
  by apply negb_false_iff, uniqueb_true in Ht.
Qed.

Lemma edge_not_host : s_edge_node site ≠ host_name site.
Proof.
  pose proof physical_unique as Hn. unfold physical_names in Hn. apply NoDup_app in Hn as (_ & Hd & _). intros E.
  apply (Hd _ edge_runs). apply elem_of_app. left. apply elem_of_map. exists site. split; [done|apply extended_member].
Qed.

Lemma edge_not_hub : dget (hubs extended) (s_edge_node site) = None.
Proof.
  pose proof (v_sites _ (proj1 (validate_config_iff _) extended_valid)) as Hs. unfold check_sites in Hs.
  rewrite !bind_unit_ok, !reject_ok in Hs. destruct Hs as (_ & _ & Hs & _).
  destruct (dget (hubs extended) (s_edge_node site)) as [h|] eqn:E; [|done]. exfalso.
  assert (existsb (λ s, negb (nonempty (s_edge_node s)) || dmem (hubs extended) (s_edge_node s)) (site_list extended) = true) as Ht; [|congruence].
  apply existsb_exists. exists site. split; [apply list_elem_of_In, extended_member|]. unfold dmem. rewrite E. by rewrite orb_true_r.
Qed.

Lemma hub_names : dkeys (hubs extended) = HUBS.
Proof.
  pose proof (v_transports _ (proj1 (validate_config_iff _) extended_valid)) as Ht. unfold check_transports in Ht.
  rewrite !bind_unit_ok, !reject_ok in Ht. destruct Ht as (_ & Ht & _). apply orb_false_iff in Ht as [Ht _].
  by apply negb_false_iff, bool_decide_eq_true in Ht.
Qed.

Lemma edge_not_HUBS : s_edge_node site ∉ HUBS.
Proof. rewrite <- hub_names. apply dget_None, edge_not_hub. Qed.

Lemma edge_not_gateway : s_edge_node site ≠ saas_gateway_name extended.
Proof. intros E. eapply gateway_not_a_node; [apply extended_valid|]. rewrite <- E. apply edge_runs. Qed.

Hypothesis Had : addressable extended site.

Lemma name_resolves : logical_site extended (site_name site) = Ok (site_name site).
Proof. unfold logical_site, dmem. by rewrite extended_site. Qed.

Lemma edge_suffix : short_attachment_name extended (s_edge_node site) = Ok (interface_suffix site).
Proof.
  pose proof edge_not_HUBS as Hh. unfold HUBS in Hh. rewrite !not_elem_of_cons in Hh. destruct Hh as (H1 & H2 & _).
  unfold short_attachment_name. rewrite (proj2 (String.eqb_neq _ _) H1), (proj2 (String.eqb_neq _ _) H2).
  rewrite (proj2 (String.eqb_neq _ _) edge_not_gateway), (ad_edge _ _ Had). cbn. by rewrite extended_site.
Qed.

(** The runtime derives addresses from the site's name, the registry from the
    edge node's. *)
Lemma edge_ip t : underlay_ip extended (s_edge_node site) t = underlay_ip extended (site_name site) t.
Proof.
  unfold underlay_ip. by rewrite edge_not_hub, (ad_name_hub _ _ Had), (ad_edge_cloud _ _ Had), (ad_name_cloud _ _ Had), (ad_edge _ _ Had), name_resolves.
Qed.

Lemma edge_mac t : underlay_mac extended (s_edge_node site) t = underlay_mac extended (site_name site) t.
Proof.
  unfold underlay_mac. rewrite (proj2 (String.eqb_neq _ _) edge_not_gateway), (proj2 (String.eqb_neq _ _) (ad_name_gateway _ _ Had)).
  by rewrite edge_not_hub, (ad_name_hub _ _ Had), (ad_edge _ _ Had), name_resolves.
Qed.

(** The registry's attachment of the new edge to one transport. *)
Lemma attachment_of_edge t a (who : option (list string)) :
  node_attachment (UnderlayRegistry_init extended who) (tr_name t) t (s_edge_node site) = Ok a →
  at_site a = s_edge_node site ∧ at_switch a = tr_switch t ∧ port_name a = tr_switch t +:+ "-" +:+ interface_suffix site ∧
  underlay_interface_cidr extended (site_name site) (tr_name t) = Ok (addr_str (at_address a) +:+ "/32") ∧
  underlay_mac extended (site_name site) (tr_name t) = Ok (expected_mac a).
Proof.
  unfold node_attachment. cbn [reg_config UnderlayRegistry_init]. rewrite edge_suffix, edge_ip, edge_mac. cbn [mbind result_bind].
  intros Hr. apply bind_Ok in Hr as (ip & Hip & Hr). apply bind_Ok in Hr as (mac & Hmac & Hr). apply Ok_inj in Hr as <-.
  cbn. split_and!; try done. unfold underlay_interface_cidr.
  by rewrite (proj2 (String.eqb_neq _ _) (ad_name_gateway _ _ Had)), Hip.
Qed.
End extended.

(** ** Creation and removal *)

Section branches.
Context `{PyRepr} (c : TopologyConfig) (refuses : Live → net_call → option string) (exec : Lab → string → list string → option (Z * string)).

Lemma piece_ends_unique extended site tps : with_sites c (dset (sites c) (site_name site) site) = Ok extended → coherent c →
  Forall2 (transport_piece extended site) (transport_list c) tps →
  NoDup (map piece_end (management_piece c site :: tps ++ [gateway_piece site; host_piece site])).
Proof.
  intros He Hco Ht. pose proof (edge_not_host c extended site He) as Hne.
  assert (Hn : map tr_name (transport_list c) = TRANSPORTS).
  { rewrite (transport_names c Hco). pose proof (transport_keys extended (extended_valid c extended site He)) as Hk.
    by rewrite (extended_eq c extended site He) in Hk. }
  set (on := λ x, (s_edge_node site, s_edge_node site +:+ "-" +:+ x)).
  assert (Hp : map piece_end tps = map on (map tr_name (transport_list c))).
  { clear Hn Hco. induction Ht as [|t p ts ps (mac & a & _ & _ & ->) _ IH]; [done|]. cbn [map]. by rewrite IH. }
  rewrite map_cons, map_app, Hp, Hn.
  change (NoDup (map on ["mgmt"; "mpls"; "bb"; "lte"; "lan"] ++ [(host_name site, host_name site +:+ "-lan")])).
  apply NoDup_app. split_and!.
  - assert (Inj eq eq on) by (intros x y [= E]; by apply append_cancel, append_cancel in E).
    apply (NoDup_fmap_2 on), uniqueb_true. reflexivity.
  - intros [n i] (x & E & _)%elem_of_map Hin. apply list_elem_of_singleton in Hin. unfold on in E. congruence.
  - apply NoDup_singleton.
Qed.

End branches.

Module Examples.

Definition accept : Live → net_call → option string := λ _ _, None.
Definition succeed : Lab → string → list string → option (Z * string) := λ _ _ _, None.
(** The host's container has no [ip] program. *)
Definition no_ip_on_host : Lab → string → list string → option (Z * string) :=
  λ _ node _, if String.eqb node "node6_host" then Some (127, "not found") else None.

(** The running core topology, and the first branch beyond it. *)
Definition running : Live := {|
  network_nodes := plan_names LivePlanFacts.Examples.core_plan; lab_nodes := plan_names LivePlanFacts.Examples.core_plan;
  lab_links := links LivePlanFacts.Examples.core_plan; switch_ports := []; managed := []; executed := []; dockered := [] |}.
Definition branch : InventorySite := SiteProfile.Examples.branch.
Definition site6 : Site := SiteProfile.Examples.branch_site.
Definition extended6 : TopologyConfig := replace_sites core_config (dset (sites core_config) "site6" site6).
Definition after_creation : Live := (create_site core_config accept succeed branch running).2.
Definition bb_attachment : result UnderlayAttachment :=
  node_attachment (UnderlayRegistry_init extended6 None) "bb" LivePlanFacts.Examples.bb "node6".


(** A command that fails after the links are up leaves the site recorded as
    managed, so the retry returns at once: it reports success, and the branch
    stays without its host address and its route from the data centre. *)
Lemma retry_skips_configuration :
  let '(first_reply, s1) := create_site core_config accept no_ip_on_host branch running in
  let '(second_reply, s2) := create_site core_config accept succeed branch s1 in
  is_ok first_reply = false ∧ second_reply = Ok tt ∧ s2 = s1 ∧
  addresses_of "node6_host" "node6_host-lan" (executed s2) = [] ∧
  existsb (λ e, String.eqb e.1 "dc_app") (executed s2) = false.
Proof.
  destruct (create_site core_config accept no_ip_on_host branch running) as [r1 s1] eqn:E1.
  destruct (create_site core_config accept succeed branch s1) as [r2 s2] eqn:E2.
  vm_compute in E1. injection E1 as <- <-. vm_compute in E2. injection E2 as <- <-. vm_compute. by split_and!.
Qed.
End Examples.
