(* ===== verification/TopologyControl.v ===== *)
(** * The topology control channel ([lab_runtime.py])

    The local socket by which the management service has branches created,
    enrolled, reconciled and removed: what the server makes of one request, and
    what the client makes of the answer.  Bytes travel outside: a request is
    what [json.loads] returned for the text received, [None] if it raised. *)
From S2P Require Import Prelude Net Marks PathSelection Model ModelValidate Json DesiredState Inventory Sql PolicyStore DynamicInventory IntentCompiler.
From S2P Require Import PolicyService ZtpStore Lifecycle CoreTopology SiteProfile LivePlan LivePlanFacts ContainernetRuntime ContainernetFacts.
Local Open Scope string_scope.
Local Open Scope list_scope.
Local Open Scope Z_scope.

(** ** Operations *)

Inductive operation :=
  | CreateSite (record : InventorySite)
  | DeleteSite (record : InventorySite)
  | BootstrapSite (record : InventorySite) (bootstrap : dict string string)
  | ReconcileSite (target : string) (bootstrap : dict string string).

Definition operation_name (o : operation) : string :=
  match o with
  | CreateSite _ => "create_site" | DeleteSite _ => "delete_site" | BootstrapSite _ _ => "bootstrap_site" | ReconcileSite _ _ => "reconcile_site"
  end.

(** The site or target a reply names. *)
Definition operation_site (o : operation) : string :=
  match o with CreateSite r | DeleteSite r | BootstrapSite r _ => iv_site r | ReconcileSite t _ => t end.

Definition OPERATIONS : list string := ["create_site"; "delete_site"; "bootstrap_site"; "reconcile_site"].
Definition ENROLL_KEYS : list string := ["claim_id"; "claim_secret"; "bootstrap_ca_pem"; "ztp_url"; "policy_url"; "management_host"].
Definition RECONCILE_KEYS : list string := ["bootstrap_ca_pem"; "policy_url"; "management_host"].

(** ** Server *)

(** [all(isinstance(value, str) and value for value in bootstrap.values())], and the texts *)
Definition text_entries (d : dict string json) : option (dict string string) :=
  mapM (λ p, match p.2 with JStr s => if nonempty s then Some (p.1, s) else None | _ => None end) d.

Definition read_bootstrap (request : dict string json) (required : list string) : result (dict string string) :=
  match dget request "bootstrap" with
  | Some (JObj b) =>
      if same_setb (dkeys b) required then of_option (text_entries b) ValueError "invalid typed bootstrap request"
      else raise ValueError "invalid typed bootstrap request"
  | _ => raise ValueError "invalid typed bootstrap request"
  end.

(** [_record] *)
Definition read_record (request : dict string json) : result InventorySite :=
  match dget request "site" with
  | Some (JObj v) => _ ← raise_if (negb (same_setb (dkeys v) site_fields)) ValueError "invalid dynamic site record"; site_record v
  | _ => raise ValueError "invalid dynamic site record"
  end.

Definition read_target (request : dict string json) : result string :=
  match dget request "target" with
  | Some (JStr t) => if negb (nonempty t) || (64 <? String.length t)%nat then raise ValueError "invalid reconcile target" else Ok t
  | _ => raise ValueError "invalid reconcile target"
  end.

(** The checks on a request, in the server's order; [supports]: whether the
    topology has the edge handlers. *)
Definition read_request (supports : bool) (request : option json) : result operation :=
  match request with
  | None => raise ValueError "invalid JSON"
  | Some (JObj d) =>
      match dget d "operation" with
      | Some (JStr name) =>
          _ ← raise_if (negb (inb name OPERATIONS)) ValueError "invalid topology operation";
          let unsupported := raise_if (negb supports) ValueError "topology does not support edge lifecycle operations" in
          if String.eqb name "reconcile_site" then
            b ← read_bootstrap d RECONCILE_KEYS; _ ← unsupported; t ← read_target d; Ok (ReconcileSite t b)
          else
            record ← read_record d;
            if String.eqb name "create_site" then Ok (CreateSite record)
            else if String.eqb name "delete_site" then Ok (DeleteSite record)
            else b ← read_bootstrap d ENROLL_KEYS; _ ← unsupported; Ok (BootstrapSite record b)
      | Some (JList _) => raise TypeError "unhashable type: 'list'"
      | Some (JObj _) => raise TypeError "unhashable type: 'dict'"
      | _ => raise ValueError "invalid topology operation"
      end
  | Some _ => raise ValueError "invalid topology operation"
  end.

(** The callbacks the server was built with. *)
Record Callbacks (S : Type) := {
  on_create : InventorySite → M S unit;
  on_delete : InventorySite → M S unit;
  on_edge : option ((InventorySite → dict string string → M S (dict string json)) * (string → dict string string → M S (dict string json)))
}.
Arguments on_create {S} _ _.
Arguments on_delete {S} _ _.
Arguments on_edge {S} _.

(** [{**reply, **detail}] *)
Definition merged (r detail : reply) : reply := fold_left (λ r p, dset r p.1 p.2) detail r.

Section server.
Context {S : Type} (callbacks : Callbacks S).

Definition call (o : operation) : M S (dict string json) :=
  match o, on_edge callbacks with
  | CreateSite r, _ => _ ← on_create callbacks r; mret []
  | DeleteSite r, _ => _ ← on_delete callbacks r; mret []
  | BootstrapSite r b, Some h => h.1 r b
  | ReconcileSite t b, Some h => h.2 t b
  | _, None => lift (raise ValueError "topology does not support edge lifecycle operations")
  end.

Definition perform (o : operation) : M S reply :=
  detail ← call o;
  mret (merged [("available", JBool true); ("operation", JStr (operation_name o)); ("site", JStr (operation_site o))] detail).

Definition refusal (limit : nat) (prefix text : string) : reply :=
  [("available", JBool false); ("reason", JStr (prefix +:+ bounded_error limit text))].

(** One connection of [_serve]. *)
Definition serve (request : option json) (s : S) : reply * S :=
  match (o ← lift (read_request (bool_decide (is_Some (on_edge callbacks))) request); perform o) s with
  | (Ok r, s') => (r, s')
  | (Err e, s') => (refusal 800 "" (exn_msg e), s')
  end.
End server.

(** ** Client *)

Definition texts (b : dict string string) : dict string json := dmap JStr b.

(** The document [_request] sends. *)
Definition payload (o : operation) : dict string json :=
  ("operation", JStr (operation_name o)) ::
  match o with
  | CreateSite r | DeleteSite r => [("site", JObj (site_profile r))]
  | BootstrapSite r b => [("site", JObj (site_profile r)); ("bootstrap", JObj (texts b))]
  | ReconcileSite t b => [("target", JStr t); ("bootstrap", JObj (texts b))]
  end.

(** What the socket gave: none is there, an error or a timeout (the server may
    have performed the request all the same), or the document received. *)
Inductive answer := NoSocket | Broken (text : string) | Document (value : option json).

Definition read_answer (a : answer) : reply :=
  match a with
  | NoSocket => [("available", JBool false); ("reason", JStr "no active Containernet control socket")]
  | Broken text => refusal 240 "topology control unavailable: " text
  | Document (Some (JObj v)) => v
  | Document (Some _) => refusal 240 "topology control unavailable: " "invalid topology response"
  | Document None => refusal 240 "topology control unavailable: " "invalid JSON"
  end.

Definition request {S} (exchange : dict string json → S → answer * S) (o : operation) (s : S) : reply * S :=
  let '(a, s') := exchange (payload o) s in (read_answer a, s').

(** A client connected to a server. *)
Definition connected {S} (callbacks : Callbacks S) (d : dict string json) (s : S) : answer * S :=
  let '(r, s') := serve callbacks (Some (JObj d)) s in (Document (Some (JObj r)), s').

(** ** The server of the running topology *)

Section topology.
Context `{PyRepr} (c : TopologyConfig) (refuses : Live → net_call → option string).
Context (exec : Lab → string → list string → option (Z * string)) (docker : list docker_call → docker_call → string + string).
Context (loads : string → option json) (dumps : dict string string → string).

Definition topology_callbacks : Callbacks Live := {|
  on_create := ContainernetRuntime.create_site c refuses exec;
  on_delete := ContainernetRuntime.delete_site refuses;
  on_edge := Some (λ r b, d ← ContainernetRuntime.bootstrap_site docker loads dumps r b; mret (texts d),
                   λ t b, d ← ContainernetRuntime.reconcile_site docker loads t b; mret (texts d)) |}.

(** Requests one after the other: one connection is served at a time. *)
Definition serve_all (requests : list (option json)) (s : Live) : Live :=
  fold_left (λ s r, (serve topology_callbacks r s).2) requests s.
End topology.

(** * Facts about the topology control channel

    A client's call is the server's callback with the same arguments, and
    whatever is sent on the socket, the running topology only runs the commands
    of the typed operations. *)

(** ** Requests *)

Lemma text_entries_texts b : Forall (λ p, nonempty p.2 = true) b → text_entries (texts b) = Some b.
Proof.
  unfold text_entries, texts, dmap. induction 1 as [|[k v] b Hv _ IH]; [done|]. cbn in *. rewrite Hv. cbn. by rewrite IH.
Qed.

(** The calls a client makes: non-empty texts under exactly the keys the
    operation needs, and a bounded target. *)
Definition bootstrap_ok (keys : list string) (b : dict string string) : Prop :=
  same_setb (dkeys b) keys = true ∧ Forall (λ p, nonempty p.2 = true) b.
Definition operation_ok (o : operation) : Prop :=
  match o with
  | CreateSite _ | DeleteSite _ => True
  | BootstrapSite _ b => bootstrap_ok ENROLL_KEYS b
  | ReconcileSite t b => bootstrap_ok RECONCILE_KEYS b ∧ nonempty t = true ∧ (String.length t ≤ 64)%nat
  end.

Lemma read_record_payload r rest : read_record (("operation", JStr "x") :: ("site", JObj (site_profile r)) :: rest) = Ok r.
Proof. unfold read_record. cbn [dget]. change (site_record (site_profile r) = Ok r). apply site_record_profile. Qed.

Lemma read_record_any name r rest : read_record (("operation", JStr name) :: ("site", JObj (site_profile r)) :: rest) = Ok r.
Proof. etrans; [|apply (read_record_payload r rest)]. reflexivity. Qed.

Lemma read_bootstrap_texts d keys b : dget d "bootstrap" = Some (JObj (texts b)) → bootstrap_ok keys b → read_bootstrap d keys = Ok b.
Proof.
  intros Hd [Hk Hn]. unfold read_bootstrap. rewrite Hd. unfold texts at 1. rewrite dkeys_dmap, Hk, text_entries_texts by done. done.
Qed.

(** What the server reads is what the client sent. *)
Lemma read_payload o : operation_ok o → read_request true (Some (JObj (payload o))) = Ok o.
Proof.
  destruct o as [r|r|r b|t b]; intros Ho.
  - change (read_record (payload (CreateSite r)) ≫= (λ record, Ok (CreateSite record)) = Ok (CreateSite r)).
    unfold payload. cbn [operation_name]. by rewrite read_record_any.
  - change (read_record (payload (DeleteSite r)) ≫= (λ record, Ok (DeleteSite record)) = Ok (DeleteSite r)).
    unfold payload. cbn [operation_name]. by rewrite read_record_any.
  - change (read_record (payload (BootstrapSite r b)) ≫= (λ record, read_bootstrap (payload (BootstrapSite r b)) ENROLL_KEYS ≫= (λ b, Ok (BootstrapSite record b)))
              = Ok (BootstrapSite r b)).
    assert (Er : read_record (payload (BootstrapSite r b)) = Ok r) by apply read_record_any.
    rewrite Er. cbn [mbind result_bind]. by rewrite (read_bootstrap_texts _ _ b).
  - destruct Ho as (Hb & Hn & Hl).
    change (read_bootstrap (payload (ReconcileSite t b)) RECONCILE_KEYS ≫= (λ b, read_target (payload (ReconcileSite t b)) ≫= (λ t, Ok (ReconcileSite t b)))
              = Ok (ReconcileSite t b)).
    rewrite (read_bootstrap_texts _ _ b) by done. cbn [mbind result_bind].
    change (read_target (payload (ReconcileSite t b))) with
      (if negb (nonempty t) || (64 <? String.length t)%nat then raise (A := string) ValueError "invalid reconcile target" else Ok t).
    rewrite Hn. cbn [negb orb]. by rewrite (proj2 (Nat.ltb_ge _ _) Hl).
Qed.

(** a call through the control channel is the call of the runtime.  For
    every well-formed operation, the client of a server with edge handlers gets
    the reply of the server's own callback with the very record, target and
    texts it was given, and the state is the one that callback left; an
    exception arrives as an unavailable reply with its bounded text. *)
Theorem channel_transparent {S} (callbacks : Callbacks S) o s :
  is_Some (on_edge callbacks) → operation_ok o →
  request (connected callbacks) o s =
    match perform callbacks o s with
    | (Ok r, s') => (r, s')
    | (Err e, s') => ([("available", JBool false); ("reason", JStr (bounded_error 800 (exn_msg e)))], s')
    end.
Proof.
  intros He Ho. unfold request, connected, serve. rewrite bool_decide_true by done. unfold mbind, M_bind, lift. rewrite read_payload by done.
  by destruct (perform callbacks o s) as [[r|e] s'].
Qed.

(** ** Commands of the running topology *)

Definition network_command (e : node_command) : Prop := ∃ words, e.2 = "ip" :: words ∨ e.2 = "tc" :: words ∨ e.2 = "sysctl" :: words.

(** The programs that run in an edge. *)
Definition edge_command (k : docker_call) : Prop :=
  (∃ node, dk_container k = "mn." +:+ node) ∧
  ((dk_arguments k = ["python3"; "-c"; write_program; "/var/lib/sdwan/bootstrap-ca.pem"] ∧ is_Some (dk_input k)) ∨
   (dk_arguments k = ["python3"; "-c"; write_program; "/run/sdwan/claim.json"] ∧ is_Some (dk_input k)) ∨
   (dk_arguments k = remove_claim ∧ dk_input k = None) ∨
   (dk_input k = None ∧ ∃ device ztp host policy, dk_arguments k =
      ["python3"; "-m"; "sdwan.edge_bootstrap"; "enroll"; "--device-id"; device; "--claim-file"; "/run/sdwan/claim.json";
       "--ztp-url"; ztp; "--ztp-connect-host"; host; "--policy-url"; policy; "--policy-connect-host"; host]) ∨
   (dk_input k = None ∧ ∃ host policy, dk_arguments k =
      ["python3"; "-m"; "sdwan.edge_bootstrap"; "reconcile"; "--policy-url"; policy; "--policy-connect-host"; host])).

Definition typed (s s' : Live) : Prop :=
  ∃ k d, executed s' = executed s ++ k ∧ Forall network_command k ∧ dockered s' = dockered s ++ d ∧ Forall edge_command d.

#[export] Instance typed_preorder : PreOrder typed.
Proof.
  split.
  - intros s. exists [], []. rewrite !app_nil_r. split_and!; try done; constructor.
  - intros s s1 s2 (k1 & d1 & K1 & P1 & D1 & Q1) (k2 & d2 & K2 & P2 & D2 & Q2). exists (k1 ++ k2), (d1 ++ d2).
    rewrite K2, K1, D2, D1, !app_assoc. split_and!; try done; by apply Forall_app.
Qed.

Lemma typed_same s s' : executed s' = executed s → dockered s' = dockered s → typed s s'.
Proof. intros Hx Hd. exists [], []. rewrite !app_nil_r. split_and!; try done; constructor. Qed.

Section commands.
Context `{PyRepr} (c : TopologyConfig) (refuses : Live → net_call → option string).
Context (exec : Lab → string → list string → option (Z * string)) (docker : list docker_call → docker_call → string + string).
Context (loads : string → option json) (dumps : dict string string → string).

Lemma typed_update f : (∀ s, executed (f s) = executed s ∧ dockered (f s) = dockered s) → moves typed (s ← get; put (f s)).
Proof. intros Hf s. destruct (Hf s). by apply typed_same. Qed.

Lemma typed_update_bind {A} f (k : M Live A) : (∀ s, executed (f s) = executed s ∧ dockered (f s) = dockered s) → moves typed k →
  moves typed (s ← get; _ ← put (f s); k).
Proof. intros Hf Hk s. destruct (Hf s). etrans; [by apply (typed_same s (f s))|apply Hk]. Qed.

Lemma typed_net k : moves typed (net refuses k).
Proof. intros s. unfold net, mbind, M_bind, get. destruct (refuses s k); [reflexivity|]. apply typed_same; by destruct k. Qed.

Lemma typed_node n : moves typed (node n).
Proof. intros s. reflexivity. Qed.

Lemma typed_run n cmd : network_command (n, cmd) → moves typed (run_in exec n cmd).
Proof.
  intros Hc s. unfold run_in, mbind, M_bind, get. destruct (exec _ _ _) as [[]|]; [reflexivity|].
  exists [(n, cmd)], []. rewrite app_nil_r. split_and!; try done; by repeat constructor.
Qed.

Lemma typed_docker n args input : edge_command {| dk_container := n; dk_arguments := args; dk_input := input |} →
  moves typed (docker_exec docker n args input).
Proof.
  intros Hc s. set (k := {| dk_container := n; dk_arguments := args; dk_input := input |}) in *.
  assert (E : (docker_exec docker n args input s).2 = set_dockered s (dockered s ++ [k])).
  { unfold docker_exec, mbind, M_bind, get, put. fold k. by destruct (docker (dockered s) k). }
  rewrite E. exists [], [k]. rewrite app_nil_r. split_and!; try done. by apply Forall_singleton.
Qed.

Lemma typed_cleanup {A} (m : M Live A) h : moves typed m → moves typed h → moves typed (cleanup_on_error m h).
Proof.
  intros Hm Hh s. unfold cleanup_on_error. specialize (Hm s). destruct (m s) as [[x|e] s1]; [done|]. specialize (Hh s1).
  etrans; [exact Hm|]. by destruct (h s1) as [[]].
Qed.

Lemma typed_finally {A} (m : M Live A) h : moves typed m → moves typed h → moves typed (finally m h).
Proof.
  intros Hm Hh s. unfold finally. specialize (Hm s). destruct (m s) as [r s1]. specialize (Hh s1).
  etrans; [exact Hm|]. by destruct (h s1) as [[]].
Qed.

#[local] Ltac shaped := first
  [ lazymatch goal with
    | |- moves _ (get ≫= (λ s, put _)) => apply typed_update; by intros ?
    | |- moves _ (get ≫= (λ s, put _ ≫= _)) => apply typed_update_bind; [by intros ?|]
    end | apply typed_net | apply typed_node | apply typed_cleanup | apply typed_finally
  | apply typed_run; eexists; first [left; reflexivity | right; left; reflexivity | right; right; reflexivity] ].

Lemma typed_remove n : moves typed (remove_node refuses n).
Proof. unfold remove_node. repeat first [shaped | moves_step]. Qed.

Lemma typed_remove_all names : moves typed (remove_managed_nodes refuses names).
Proof. unfold remove_managed_nodes. moves_step. apply typed_remove. Qed.

Lemma typed_clear names : moves typed (clear_leftovers refuses names).
Proof. unfold clear_leftovers. repeat first [apply typed_remove_all | moves_step]. Qed.

Lemma typed_wire site : moves typed (wire_branch c refuses site).
Proof. unfold wire_branch, attach_link. repeat first [shaped | moves_step]. Qed.

Lemma typed_shaping n t i : moves typed (forM (run_in exec n) (shaping t i)).
Proof. unfold shaping. cbn [forM]. repeat first [shaped | moves_step]. Qed.

Lemma typed_configure extended site : moves typed (configure_branch c exec extended site).
Proof. unfold configure_branch, configure_transport. repeat first [apply typed_shaping | shaped | moves_step]. Qed.

Lemma typed_create r : moves typed (ContainernetRuntime.create_site c refuses exec r).
Proof.
  unfold ContainernetRuntime.create_site.
  repeat first [apply typed_clear | apply typed_wire | apply typed_configure | apply typed_remove_all | shaped | moves_step].
Qed.

Lemma typed_delete r : moves typed (ContainernetRuntime.delete_site refuses r).
Proof. unfold ContainernetRuntime.delete_site. repeat first [apply typed_remove_all | shaped | moves_step]. Qed.

#[local] Ltac edge_shaped := first
  [ apply typed_finally | apply typed_docker; split; [by eexists|]; cbn [dk_arguments dk_input]; naive_solver ].

Lemma typed_bootstrap r b : moves typed (ContainernetRuntime.bootstrap_site docker loads dumps r b).
Proof.
  unfold ContainernetRuntime.bootstrap_site, enroll_edge, write_protected, field. repeat first [edge_shaped | moves_step].
Qed.

Lemma typed_reconcile t b : moves typed (ContainernetRuntime.reconcile_site docker loads t b).
Proof. unfold ContainernetRuntime.reconcile_site, write_protected, field. repeat first [edge_shaped | moves_step]. Qed.

Definition served_callbacks : Callbacks Live := topology_callbacks c refuses exec docker loads dumps.

Lemma typed_perform o : moves typed (perform served_callbacks o).
Proof.
  unfold perform, call. destruct o; cbn [served_callbacks topology_callbacks on_edge on_create on_delete fst snd];
    repeat first [apply typed_create | apply typed_delete | apply typed_bootstrap | apply typed_reconcile | moves_step].
Qed.

Lemma typed_serve r s : typed s (serve served_callbacks r s).2.
Proof.
  assert (Hm : moves typed (o ← lift (read_request (bool_decide (is_Some (on_edge served_callbacks))) r); perform served_callbacks o)).
  { moves_step. apply typed_perform. }
  specialize (Hm s). unfold serve. revert Hm. match goal with |- typed s ?x.2 → _ => destruct x as [[?|?] ?] end; done.
Qed.

End commands.

Module Examples.
Import ContainernetFacts.Examples.

Definition silent : list docker_call → docker_call → string + string := λ _ _, inl "{}".
Definition empty_object : string → option json := λ _, Some (JObj []).
Definition claim_text : dict string string → string := λ _, "{}".
Definition lab_callbacks : Callbacks Live := topology_callbacks core_config accept succeed silent empty_object claim_text.

Definition enrollment : dict string string :=
  [("claim_id", "c"); ("claim_secret", "s"); ("bootstrap_ca_pem", "pem"); ("ztp_url", "https://ztp"); ("policy_url", "https://policy");
   ("management_host", "172.30.0.254")].

Lemma channel_transparent_witness :
  operation_ok (BootstrapSite branch enrollment) ∧
  request (connected lab_callbacks) (BootstrapSite branch enrollment) after_creation =
    ([("available", JBool true); ("operation", JStr "bootstrap_site"); ("site", JStr "site6")],
     set_dockered after_creation (dockered (request (connected lab_callbacks) (BootstrapSite branch enrollment) after_creation).2)).
Proof.
  assert (Ho : operation_ok (BootstrapSite branch enrollment)).
  { split; [vm_compute; reflexivity|]. repeat constructor. }
  split; [exact Ho|]. rewrite (channel_transparent lab_callbacks (BootstrapSite branch enrollment) after_creation).
  - vm_compute. reflexivity.
  - exists (λ r b, d ← ContainernetRuntime.bootstrap_site silent empty_object claim_text r b; mret (texts d),
            λ t b, d ← ContainernetRuntime.reconcile_site silent empty_object t b; mret (texts d)). reflexivity.
  - exact Ho.
Defined.

(** The runtime removes the three nodes of a configured branch and builds them
    again when it is asked to create that branch, although it means never to
    touch the configured topology; the branch is then managed, and removing it
    removes the configured branch for good. *)
Definition configured_site1 : InventorySite :=
  match dget (sites core_config) "site1" with Some s => seed_record "t0" s | None => branch end.

Lemma configured_branch_removed :
  let '(r1, s1) := request (connected lab_callbacks) (CreateSite configured_site1) running in
  let '(r2, s2) := request (connected lab_callbacks) (DeleteSite configured_site1) s1 in
  inb "site1" (dkeys (sites core_config)) = true ∧ inb "node1" (lab_nodes running) = true ∧
  available r1 = true ∧ available r2 = true ∧
  map (λ n, inb n (lab_nodes s2)) ["node1"; "node1_host"; "lsw1"; "node2"] = [false; false; false; true].
Proof.
  destruct (request (connected lab_callbacks) (CreateSite configured_site1) running) as [r1 s1] eqn:E1.
  destruct (request (connected lab_callbacks) (DeleteSite configured_site1) s1) as [r2 s2] eqn:E2.
  vm_compute in E1. injection E1 as <- <-. vm_compute in E2. injection E2 as <- <-. vm_compute. by split_and!.
Qed.
End Examples.
