(* ===== verification/ManagementAuth.v ===== *)
(** * Authentication of the management service ([management/auth.py], [admin_api.py])

    Roles, scopes, the signed access tokens and the agent contexts derived from
    them, and the guards of the write routes.  Signing is a library's:
    [seal] and [unseal] stand for [URLSafeTimedSerializer]'s [dumps] and [loads],
    by secret and salt; [unseal] answers [None] where [loads] raises, and is given
    the greatest age allowed, if any. *)
From Stdlib Require Import Ascii.
From S2P Require Import Prelude Net Marks PathSelection Model Json.
Local Open Scope string_scope.
Local Open Scope list_scope.
Local Open Scope Z_scope.

(** ** Roles and scopes *)

Definition ROLES : list string := ["VIEWER"; "NETWORK_OPERATOR"; "ADMIN"].
Definition ROLE_SCOPES : dict string (list string) :=
  [("VIEWER", ["network:read"; "site:read"; "policy:read"; "ztp:read"; "mcp:read"]);
   ("NETWORK_OPERATOR", ["network:read"; "network:operate"; "site:read"; "site:write"; "policy:read"; "policy:write"; "ztp:read";
                         "ztp:operate"; "audit:read"; "mcp:read"; "mcp:operate"]);
   ("ADMIN", ["*"])].

Record Principal := { subject : string; principal_role : string; scopes : list string }.

(** [ROLE_SCOPES.get(role, set())] *)
Definition role_scopes (role : string) : list string := default [] (dget ROLE_SCOPES role).
Definition scopes_for (role : string) : list string := sort_by String.leb (role_scopes role).

Definition parse_user (users : dict string (string * string)) (item : string) : result (dict string (string * string)) :=
  match split_on ":"%char item with
  | [name; password; role] =>
      if inb role ROLES then Ok (dset users name (password, role))
      else raise ValueError "SDWAN_MANAGEMENT_USERS must use user:password:ROLE"
  | _ => raise ValueError "SDWAN_MANAGEMENT_USERS must use user:password:ROLE"
  end.
Definition parse_users (value : string) : result (dict string (string * string)) :=
  foldM parse_user [] (List.filter nonempty (split_on ","%char value)).

Definition allowed (p : Principal) (required : string) : bool :=
  String.eqb (principal_role p) "ADMIN" || inb "*" (scopes p) || inb required (scopes p).

(** What a guarded route answers: an HTTP error, or the endpoint's own result. *)
Inductive answered (A : Type) := Refused (status : Z) | Served (result : A).
Arguments Refused {A} _.
Arguments Served {A} _.

(** ** Tokens *)

Section tokens.
(** The text of a token is the library's. *)
Context `{PyRepr} {Token : Type} (seal : string → string → dict string json → Token) (unseal : string → string → option Z → Token → option json).

(** [_serializer(secret, purpose)]'s salt *)
Definition salt (purpose : string) : string := "sdwan-v5-" +:+ purpose.
Definition with_secret (secret : string) : result unit := raise_if (negb (nonempty secret)) ValueError "SDWAN_MANAGEMENT_SECRET is required".

Definition scope_list (p : Principal) : json := JList (map JStr (scopes p)).

Definition issue (secret : string) (p : Principal) (now lifetime : Z) : result Token :=
  _ ← with_secret secret;
  Ok (seal secret (salt "access")
        [("sub", JStr (subject p)); ("role", JStr (principal_role p)); ("scopes", scope_list p); ("exp", JInt (now + lifetime))]).

(** [payload.get("role") not in ROLES], which raises for a list or an object *)
Definition known_role (payload : json) : result (option string) :=
  r ← get_opt payload "role";
  match r with
  | Some (JStr role) => Ok (if inb role ROLES then Some role else None)
  | Some (JList _) => raise TypeError "unhashable type: 'list'"
  | Some (JObj _) => raise TypeError "unhashable type: 'dict'"
  | _ => Ok None
  end.

(** [tuple(str(x) for x in payload.get("scopes", []))] *)
Definition text_scopes (payload : json) : result (list string) :=
  v ← get_default payload "scopes" (JList []); xs ← items_of v; Ok (map py_str xs).

(** [time]: the clock; the scopes may not exceed the role's. *)
Definition verify (secret : string) (token : Token) (time : Q) : result Principal :=
  _ ← with_secret secret;
  payload ← of_option (unseal secret (salt "access") None token) ValueError "invalid token";
  exp ← get_default payload "exp" (JInt 0);
  exp ← py_int exp;
  if Qltb (inject_Z exp) time then raise ValueError "expired token"
  else
    role ← known_role payload;
    role ← of_option role ValueError "expired token";
    ss ← text_scopes payload;
    _ ← raise_if (negb (subsetb ss (role_scopes role))) ValueError "invalid scopes";
    sub ← getitem payload "sub";
    Ok {| subject := py_str sub; principal_role := role; scopes := ss |}.

Definition issue_agent_context (secret : string) (p : Principal) (session audience : string) (now : Z) (jti : string) : result Token :=
  _ ← with_secret secret;
  Ok (seal secret (salt "agent-context")
        [("sub", JStr (subject p)); ("role", JStr (principal_role p)); ("scopes", scope_list p); ("sid", JStr session);
         ("aud", JStr audience); ("iat", JInt now); ("jti", JStr jti)]).

Definition verify_agent_context (secret : string) (token : Token) (session audience : string) (max_age : Z) : result Principal :=
  _ ← with_secret secret;
  payload ← of_option (unseal secret (salt "agent-context") (Some max_age) token) ValueError "invalid agent context";
  aud ← get_opt payload "aud";
  sid ← get_opt payload "sid";
  _ ← raise_if (negb (match aud with Some (JStr a) => String.eqb a audience | _ => false end)
                || negb (String.eqb (py_str (default JNull sid)) session)) ValueError "agent context audience or session mismatch";
  sub ← get_default payload "sub" (JStr "");
  role ← get_default payload "role" (JStr "");
  ss ← text_scopes payload;
  let p := {| subject := py_str sub; principal_role := py_str role; scopes := ss |} in
  _ ← raise_if (negb (nonempty (subject p)) || negb (inb (principal_role p) ROLES)
                || negb (subsetb (scopes p) (role_scopes (principal_role p)))) ValueError "invalid agent context";
  Ok p.

(** ** Requests *)

(** [principal] and [require(scope)]: any exception of [verify] is 401. *)
Definition authenticate (secret : string) (credentials : option Token) (time : Q) : Z + Principal :=
  match credentials with
  | None => inl 401
  | Some token => match verify secret token time with Ok p => inr p | Err _ => inl 401 end
  end.

Definition guarded {S A} (secret : string) (time : Q) (scope : string) (credentials : option Token) (endpoint : Principal → S → A * S) (s : S)
    : answered A * S :=
  match authenticate secret credentials time with
  | inl status => (Refused status, s)
  | inr p => if allowed p scope then let '(a, s') := endpoint p s in (Served a, s') else (Refused 403, s)
  end.

(** [login]: the configured users, and a token for the user's role. *)
Definition login (users secret : string) (now : Z) (username password : string) : result (answered (Token * string * list string)) :=
  known ← parse_users users;
  match dget known username with
  | Some (stored, role) =>
      if String.eqb stored password then
        let p := {| subject := username; principal_role := role; scopes := scopes_for role |} in
        token ← issue secret p now 3600; Ok (Served (token, role, scopes p))
      else Ok (Refused 401)
  | None => Ok (Refused 401)
  end.
End tokens.

(** The write routes with the scopes that guard them. *)
Definition WRITE_SCOPES : dict (string * string) string :=
  [(("POST", "/api/v1/sites"), "site:write"); (("DELETE", "/api/v1/sites/{site}"), "site:write");
   (("POST", "/api/v1/intents"), "policy:write"); (("PUT", "/api/v1/intents/{intent_id}"), "policy:write");
   (("DELETE", "/api/v1/intents/{intent_id}"), "policy:write")].
