(* ===== verification/AuditStore.v ===== *)
(** * The management store and its chat sessions
      ([management/repository.py] [AuditStore], the chat routes of [management/app.py])

    Audit events, hub flow records, chat sessions with their messages, and the
    evidence bundles an answer is bound to.  Each method opens its own connection
    and commits once; identifiers are SQLite row identifiers: the largest present
    plus one.  Columns of JSON text hold the value. *)
From Stdlib Require Import Ascii.
From S2P Require Import Prelude Net Marks PathSelection Model Json Sql PolicyStore.
Local Open Scope string_scope.
Local Open Scope list_scope.
Local Open Scope Z_scope.

(** ** Rows *)

Record AuditRow := { au_id : Z; au_created : string; au_actor : string; au_action : string; au_target : string; au_outcome : string;
                     au_detail : string }.
Record FlowRow := { fl_id : string; fl_hub : string; fl_source : string; fl_destination : string; fl_protocol : string;
                    fl_first_seen : string; fl_payload : dict string json }.
Record SessionRow := { ss_id : Z; ss_actor : string; ss_created : string }.
Record MessageRow := { ms_id : Z; ms_session : Z; ms_actor : string; ms_content : string; ms_created : string }.

(** The payload of a bundle: the five lists it is created with. *)
Record Payload := { tool_calls : list json; facts : list json; sources : list json; unknowns : list json; limitations : list json }.
Definition empty_payload : Payload := {| tool_calls := []; facts := []; sources := []; unknowns := []; limitations := [] |}.

Record BundleRow := {
  bn_id : string; bn_session : Z; bn_message : Z; bn_actor : string; bn_created : string; bn_finalized : Z; bn_payload : Payload;
  bn_validation : option json
}.

Record Store := {
  audit_events : list AuditRow; flow_records : list FlowRow; sessions : list SessionRow; messages_of_chat : list MessageRow;
  bundles : list BundleRow
}.

Definition set_audit (s : Store) (l : list AuditRow) : Store :=
  {| audit_events := l; flow_records := flow_records s; sessions := sessions s; messages_of_chat := messages_of_chat s; bundles := bundles s |}.
Definition set_flows (s : Store) (l : list FlowRow) : Store :=
  {| audit_events := audit_events s; flow_records := l; sessions := sessions s; messages_of_chat := messages_of_chat s; bundles := bundles s |}.
Definition set_sessions (s : Store) (l : list SessionRow) : Store :=
  {| audit_events := audit_events s; flow_records := flow_records s; sessions := l; messages_of_chat := messages_of_chat s; bundles := bundles s |}.
Definition set_messages (s : Store) (l : list MessageRow) : Store :=
  {| audit_events := audit_events s; flow_records := flow_records s; sessions := sessions s; messages_of_chat := l; bundles := bundles s |}.
Definition set_bundles (s : Store) (l : list BundleRow) : Store :=
  {| audit_events := audit_events s; flow_records := flow_records s; sessions := sessions s; messages_of_chat := messages_of_chat s; bundles := l |}.

Definition empty_store : Store := {| audit_events := []; flow_records := []; sessions := []; messages_of_chat := []; bundles := [] |}.

(** [text[:n]] *)
Definition clipped (n : nat) (s : string) : string := String.substring 0 n s.

Definition next_id {A} (key : A → Z) (rows : list A) : Z := max_key key rows + 1.

Section store.
Context `{PyRepr} (now : string).

(** ** Audit events *)

Definition add (actor action target outcome detail : string) : M Store unit :=
  transaction (execute (λ s, set_audit s (audit_events s ++
    [{| au_id := next_id au_id (audit_events s); au_created := now; au_actor := actor; au_action := action; au_target := target;
        au_outcome := outcome; au_detail := clipped 512 detail |}]))).

(** ORDER BY id DESC LIMIT 200 *)
Definition list_events (s : Store) : list AuditRow := take 200 (sort_by (λ a b, au_id b <=? au_id a) (audit_events s)).

(** ** Hub flows *)

Definition FLOW_FIELDS : list string := ["flow_id"; "hub_id"; "source_ip"; "destination_ip"; "protocol"; "first_seen"].

(** [str(event[key])], for a key that is present *)
Definition event_text (event : dict string json) (k : string) : string := py_str (default JNull (dget event k)).

Definition flow_row (event : dict string json) : FlowRow := {|
  fl_id := event_text event "flow_id"; fl_hub := event_text event "hub_id"; fl_source := event_text event "source_ip";
  fl_destination := event_text event "destination_ip"; fl_protocol := event_text event "protocol";
  fl_first_seen := event_text event "first_seen"; fl_payload := event |}.

(** INSERT OR IGNORE *)
Definition ingest_hub_flow (event : dict string json) : M Store bool :=
  if negb (subsetb FLOW_FIELDS (dkeys event)) || negb (inb (event_text event "hub_id") ["hub1"; "hub2"]) then mret false
  else transaction (
    known ← query (λ s, existsb (λ r, same_text (fl_id r) (event_text event "flow_id")) (flow_records s));
    if known : bool then mret false
    else _ ← execute (λ s, set_flows s (flow_records s ++ [flow_row event])); mret true).

(** ORDER BY first_seen DESC LIMIT 500 *)
Definition hub_flows (hub : option string) (s : Store) : list (dict string json) :=
  let rows := match hub with Some h => List.filter (λ r, same_text (fl_hub r) h) (flow_records s) | None => flow_records s end in
  map fl_payload (take 500 (sort_by (λ a b, String.leb (fl_first_seen b) (fl_first_seen a)) rows)).

(** ** Sessions *)

Definition create_session (actor : string) : M Store Z :=
  transaction (
    id ← query (λ s, next_id ss_id (sessions s));
    _ ← execute (λ s, set_sessions s (sessions s ++ [{| ss_id := id; ss_actor := actor; ss_created := now |}]));
    mret id).

Definition add_message (session : Z) (actor content : string) : M Store Z :=
  transaction (
    id ← query (λ s, next_id ms_id (messages_of_chat s));
    _ ← execute (λ s, set_messages s (messages_of_chat s ++
          [{| ms_id := id; ms_session := session; ms_actor := actor; ms_content := clipped 4000 content; ms_created := now |}]));
    mret id).

Definition is_session (session : Z) (r : SessionRow) : bool := ss_id r =? session.

Definition owns_session (session : Z) (actor : string) (s : Store) : bool :=
  match find (is_session session) (sessions s) with Some r => same_text (ss_actor r) actor | None => false end.

(** ORDER BY id *)
Definition messages (session : Z) (s : Store) : list MessageRow :=
  sort_by (λ a b, ms_id a <=? ms_id b) (List.filter (λ r, ms_session r =? session) (messages_of_chat s)).

Definition delete_session (session : Z) (actor : string) : M Store bool :=
  transaction (
    mine ← query (owns_session session actor);
    if negb mine then mret false
    else
      _ ← execute (λ s, set_messages s (List.filter (λ r, negb (ms_session r =? session)) (messages_of_chat s)));
      _ ← execute (λ s, set_sessions s (List.filter (λ r, negb (is_session session r)) (sessions s)));
      mret true).

(** ** Evidence *)

Definition is_bundle (id : string) (r : BundleRow) : bool := same_text (bn_id r) id.
Definition bundle_clash (a b : BundleRow) : bool := same_text (bn_id a) (bn_id b).

Definition with_payload (p : Payload) (r : BundleRow) : BundleRow :=
  {| bn_id := bn_id r; bn_session := bn_session r; bn_message := bn_message r; bn_actor := bn_actor r; bn_created := bn_created r;
     bn_finalized := bn_finalized r; bn_payload := p; bn_validation := bn_validation r |}.
Definition with_validation (v : json) (r : BundleRow) : BundleRow :=
  {| bn_id := bn_id r; bn_session := bn_session r; bn_message := bn_message r; bn_actor := bn_actor r; bn_created := bn_created r;
     bn_finalized := 1; bn_payload := bn_payload r; bn_validation := Some v |}.

Definition create_evidence_bundle (id : string) (session message : Z) (actor : string) : M Store unit :=
  transaction (execute_checked bundles set_bundles (insert_row bundle_clash
    {| bn_id := id; bn_session := session; bn_message := message; bn_actor := actor; bn_created := now; bn_finalized := 0;
       bn_payload := empty_payload; bn_validation := None |})).

(** [reply.get("meta", {}).get(key, [])] *)
Definition meta_items (reply : dict string json) (k : string) : result (list json) :=
  v ← get_default (default (JObj []) (dget reply "meta")) k (JList []); items_of v.

(** The payload with one tool's result. *)
Definition extended_payload (p : Payload) (tool : string) (arguments reply : dict string json) : result Payload :=
  request ← get_default (default (JObj []) (dget reply "meta")) "request_id" JNull;
  fs ← items_of (default (JList []) (dget reply "facts"));
  ss ← meta_items reply "sources"; us ← meta_items reply "unknowns"; ls ← meta_items reply "limitations";
  Ok {| tool_calls := tool_calls p ++ [JObj [("tool", JStr tool); ("arguments", JObj arguments); ("request_id", request)]];
        facts := facts p ++ fs; sources := sources p ++ ss; unknowns := unknowns p ++ us; limitations := limitations p ++ ls |}.

(** The two statements of [append_evidence_tool]: the payload it will write, and
    the write. *)
Definition append_read (id tool : string) (arguments reply : dict string json) : M Store (option Payload) :=
  row ← query (λ s, find (is_bundle id) (bundles s));
  match row with
  | None => mret None
  | Some r => if negb (bn_finalized r =? 0) then mret None
              else p ← lift (extended_payload (bn_payload r) tool arguments reply); mret (Some p)
  end.
Definition append_write (id : string) (p : option Payload) : M Store unit :=
  match p with
  | None => mret tt
  | Some p => execute (λ s, set_bundles s (update_rows (is_bundle id) (with_payload p) (bundles s)))
  end.
Definition append_evidence_tool (id tool : string) (arguments reply : dict string json) : M Store unit :=
  transaction (p ← append_read id tool arguments reply; append_write id p).

Definition evidence_bundle (id : string) (session : Z) (actor : string) (s : Store) : option BundleRow :=
  match find (is_bundle id) (bundles s) with
  | Some r => if (bn_session r =? session) && same_text (bn_actor r) actor then Some r else None
  | None => None
  end.

Definition finalize_evidence_bundle (id : string) (session : Z) (actor : string) (validation : json) : M Store bool :=
  transaction (
    row ← query (λ s, find (is_bundle id) (bundles s));
    match row with
    | None => mret false
    | Some r =>
        if negb (bn_session r =? session) || negb (same_text (bn_actor r) actor) || negb (bn_finalized r =? 0) then mret false
        else _ ← execute (λ s, set_bundles s (update_rows (is_bundle id) (with_validation validation) (bundles s))); mret true
    end).
End store.

(** ** Chat sessions of the web application *)

(** What a task works on. *)
Record Task := { tk_session : Z; tk_bundle : string; tk_actor : string }.

(** The store, the event queues by session and the tasks that are running. *)
Record Chat := { chat_store : Store; event_queues : dict Z (list (string * json)); active_tasks : dict Z Task }.

Definition in_store {A} (m : M Store A) : M Chat A := λ c,
  let '(r, s) := m (chat_store c) in (r, {| chat_store := s; event_queues := event_queues c; active_tasks := active_tasks c |}).

(** HTTP errors the routes raise. *)
Definition http {A} (status : string) (detail : string) : result A := raise LookupError (status +:+ " " +:+ detail).

Definition put_event (session : Z) (kind : string) (data : json) : M Chat unit :=
  c ← get;
  put {| chat_store := chat_store c; event_queues := dset (event_queues c) session (default [] (dget (event_queues c) session) ++ [(kind, data)]);
         active_tasks := active_tasks c |}.

Section chat.
Context `{PyRepr} (now : string).

Definition create_chat (actor : string) : M Chat Z := in_store (create_session now actor).

Definition own (session : Z) (actor : string) : M Chat unit :=
  c ← get; lift (if owns_session session actor (chat_store c) then Ok tt else http "404" "session not found").

Definition chat_messages (session : Z) (actor : string) : M Chat (list MessageRow) :=
  _ ← own session actor; c ← get; mret (messages session (chat_store c)).

(** [chat]: [bundle] is the drawn identifier; the task starts once the route has
    answered. *)
Definition post_message (session : Z) (actor text bundle : string) : M Chat Z :=
  _ ← own session actor;
  c ← get;
  _ ← lift (if dmem (active_tasks c) session then http "409" "a message is already running for this session" else Ok tt);
  let prompt := strip text in
  _ ← lift (if negb (nonempty prompt) || (4000 <? String.length prompt)%nat then http "422" "message must be 1..4000 characters" else Ok tt);
  message ← in_store (add_message now session actor prompt);
  _ ← in_store (create_evidence_bundle now bundle session message actor);
  c ← get;
  _ ← put {| chat_store := chat_store c; event_queues := dset (event_queues c) session (default [] (dget (event_queues c) session));
             active_tasks := dset (active_tasks c) session {| tk_session := session; tk_bundle := bundle; tk_actor := actor |} |};
  mret message.

Definition fallback_text : string := "The current evidence is insufficient to provide a verified operational answer.".

(** [validate_final] with the validator's outcome and, for a valid one, the
    rendered answer.  Of an event's data only the bundle and the text are kept. *)
Definition validate_final (t : Task) (outcome : json) (rendered : option string) : M Chat unit :=
  let id := tk_bundle t in let session := tk_session t in
  _ ← put_event session "answer_validation_started" (JObj [("bundle_id", JStr id)]);
  c ← get;
  let bundle := evidence_bundle id session (tk_actor t) (chat_store c) in
  _ ← in_store (finalize_evidence_bundle id session (tk_actor t) outcome);
  let '(text, done, outcome_name, detail) :=
    match rendered, bundle with
    | Some text, Some _ => (text, "answer_validation_completed", "verified", "evidence-bound response")
    | _, _ => (fallback_text, "answer_validation_failed", "unavailable", "evidence validation failed")
    end in
  _ ← in_store (add_message now session "management" text);
  _ ← put_event session done (JObj [("bundle_id", JStr id)]);
  _ ← put_event session "verified_answer" (JObj [("bundle_id", JStr id); ("markdown", JStr text)]);
  in_store (add now (tk_actor t) "CHAT" (str_Z session) outcome_name detail).

(** The task ends: the stream is closed and the session is free again. *)
Definition finish_task (t : Task) (outcome : json) (rendered : option string) : M Chat unit :=
  _ ← validate_final t outcome rendered;
  _ ← put_event (tk_session t) "stream_closed" (JObj []);
  c ← get; put {| chat_store := chat_store c; event_queues := event_queues c; active_tasks := ddel (active_tasks c) (tk_session t) |}.

(** [chat_events]: the events that are waiting, up to the end of one stream. *)
Fixpoint stream (queue : list (string * json)) : list (string * json) * list (string * json) :=
  match queue with
  | [] => ([], [])
  | e :: rest => if String.eqb e.1 "stream_closed" then ([], rest) else let '(a, b) := stream rest in (e :: a, b)
  end.
Definition chat_events (session : Z) (actor : string) : M Chat (list (string * json)) :=
  _ ← own session actor;
  c ← get;
  let '(events, rest) := stream (default [] (dget (event_queues c) session)) in
  _ ← put {| chat_store := chat_store c; event_queues := dset (event_queues c) session rest; active_tasks := active_tasks c |};
  mret events.

Definition delete_chat (session : Z) (actor : string) : M Chat unit :=
  deleted ← in_store (delete_session session actor);
  lift (if deleted : bool then Ok tt else http "404" "session not found").
End chat.
