(* ===== verification/AuditStoreFacts.v ===== *)
(** * Facts about the management store

    A finalised evidence bundle is never changed by operations that run one at a
    time, and is read by its own actor only; where the statements of two
    connections interleave, and where a session identifier is used again, that
    breaks. *)
From S2P Require Import Prelude Net Marks PathSelection Model Json Sql PolicyStore CoreTopology AuditStore.
Local Open Scope string_scope.
Local Open Scope list_scope.
Local Open Scope Z_scope.

(** ** Bundles over time *)

Definition extends (p q : Payload) : Prop :=
  tool_calls p `prefix_of` tool_calls q ∧ facts p `prefix_of` facts q ∧ sources p `prefix_of` sources q ∧
  unknowns p `prefix_of` unknowns q ∧ limitations p `prefix_of` limitations q.

#[export] Instance extends_preorder : PreOrder extends.
Proof. split; [intros p; split_and!; done|]. intros p q r (?&?&?&?&?) (?&?&?&?&?). split_and!; by etrans. Qed.

(** The keys stay, the payload is extended, and a finalised bundle is kept as it is. *)
Definition grown (r r' : BundleRow) : Prop :=
  (bn_id r', bn_session r', bn_message r', bn_actor r', bn_created r') = (bn_id r, bn_session r, bn_message r, bn_actor r, bn_created r) ∧
  extends (bn_payload r) (bn_payload r') ∧ (bn_finalized r ≠ 0 → r' = r).

#[export] Instance grown_preorder : PreOrder grown.
Proof.
  split; [intros r; by split_and!|]. intros a b c (E1 & P1 & F1) (E2 & P2 & F2). split_and!; [congruence|by etrans|].
  intros Hf. specialize (F1 Hf). subst b. by apply F2.
Qed.

Definition bundle_of (id : string) (s : Store) : option BundleRow := find (is_bundle id) (bundles s).

Definition sealed : relation Store := λ s s', no_clash bundle_clash (bundles s) →
  no_clash bundle_clash (bundles s') ∧ ∀ id r, bundle_of id s = Some r → ∃ r', bundle_of id s' = Some r' ∧ grown r r'.

#[export] Instance sealed_preorder : PreOrder sealed.
Proof.
  split.
  - intros s Hn. split; [done|]. intros id r Hr. by exists r.
  - intros a b c H1 H2 Hn. destruct (H1 Hn) as [Hb G1]. destruct (H2 Hb) as [Hc G2]. split; [done|]. intros id r Hr.
    destruct (G1 id r Hr) as (r1 & Hr1 & ?). destruct (G2 id r1 Hr1) as (r2 & ? & ?). exists r2. split; [done|]. by etrans.
Qed.

Lemma sealed_same s s' : bundles s' = bundles s → sealed s s'.
Proof. intros E Hn. unfold bundle_of. rewrite E. split; [done|]. intros id r Hr. by exists r. Qed.

Lemma is_bundle_id id r : is_bundle id r = true ↔ bn_id r = id.
Proof. unfold is_bundle, same_text. apply String.eqb_eq. Qed.

Lemma find_app_some {A} (p : A → bool) l k x : find p l = Some x → find p (l ++ k) = Some x.
Proof. induction l as [|y l IH]; [done|]. cbn. by destruct (p y). Qed.

Lemma find_updated (p q : BundleRow → bool) f rows : (∀ r, q (f r) = q r) →
  find q (update_rows p f rows) = (λ r, if p r then f r else r) <$> find q rows.
Proof.
  intros Hf. unfold update_rows. induction rows as [|r rows IH]; [done|]. cbn [map find].
  assert (q (if p r then f r else r) = q r) as -> by (by destruct (p r)). destruct (q r); [done|exact IH].
Qed.

Lemma no_clash_updated p f rows : (∀ r, bn_id (f r) = bn_id r) → no_clash bundle_clash rows → no_clash bundle_clash (update_rows p f rows).
Proof.
  intros Hf. assert (Hid : ∀ r, bn_id (if p r then f r else r) = bn_id r) by (intros r; by destruct (p r)).
  induction rows as [|r rows IH]; [done|]. intros [Hr Hn]. split; [|by apply IH].
  intros x (y & Hy & ->)%update_rows_elem. unfold bundle_clash, same_text. rewrite !Hid. by apply Hr.
Qed.

(** A change of the rows of one bundle. *)
Lemma sealed_update id f s : (∀ r, bn_id (f r) = bn_id r) → (∀ r, bundle_of id s = Some r → grown r (f r)) →
  sealed s (set_bundles s (update_rows (is_bundle id) f (bundles s))).
Proof.
  intros Hf Hg Hn. split; [by apply no_clash_updated|]. intros id' r Hr. unfold bundle_of in *. cbn [bundles set_bundles].
  rewrite find_updated, Hr by (intros x; unfold is_bundle, same_text; by rewrite Hf). cbn. eexists. split; [done|].
  destruct (is_bundle id r) eqn:E; [|done]. apply is_bundle_id in E. apply Hg. apply find_some in Hr as Hr'.
  destruct Hr' as [_ E'%is_bundle_id]. by rewrite <- E, E'.
Qed.

Section operations.
Context `{PyRepr} (now : string).

Lemma sealed_other {A} (m : M Store A) : moves (keeps bundles) m → moves sealed m.
Proof. apply moves_impl. intros s s' E. by apply sealed_same. Qed.

Lemma keeps_transaction {A} (m : M Store A) : moves (keeps bundles) m → moves (keeps bundles) (transaction m).
Proof. intros Hm s. unfold transaction. specialize (Hm s). by destruct (m s) as [[x|e] s1]. Qed.

#[local] Ltac off_bundles := apply sealed_other; repeat first [apply keeps_transaction | moves_step | (intros s; reflexivity)].

Lemma sealed_add a b c d e : moves sealed (add now a b c d e).
Proof. unfold add. off_bundles. Qed.

Lemma sealed_ingest e : moves sealed (ingest_hub_flow e).
Proof. unfold ingest_hub_flow. off_bundles. Qed.

Lemma sealed_create_session a : moves sealed (create_session now a).
Proof. unfold create_session. off_bundles. Qed.

Lemma sealed_add_message i a t : moves sealed (add_message now i a t).
Proof. unfold add_message. off_bundles. Qed.

Lemma sealed_delete_session i a : moves sealed (delete_session i a).
Proof. unfold delete_session. off_bundles. Qed.

Lemma sealed_transaction {A} (m : M Store A) : moves sealed m → moves sealed (transaction m).
Proof. intros Hm s. unfold transaction. specialize (Hm s). by destruct (m s) as [[x|e] s1]. Qed.

Lemma sealed_create_bundle id session message actor : moves sealed (create_evidence_bundle now id session message actor).
Proof.
  unfold create_evidence_bundle. apply sealed_transaction. intros s. unfold execute_checked, mbind, M_bind, get, lift, put.
  destruct (insert_row _ _ _) as [rows|e] eqn:E; [|reflexivity]. apply insert_row_ok in E as [-> Hc]. intros Hn. cbn. split.
  - clear -Hn Hc. induction (bundles s) as [|r rows IH]; cbn; [split; [by intros ? ?%elem_of_nil|done]|].
    destruct Hn as [Hr Hn]. split; [|apply IH; try done; intros x Hx; apply Hc; by constructor].
    intros x [Hx|Hx%list_elem_of_singleton]%elem_of_app; [by apply Hr|]. subst x.
    specialize (Hc r (list_elem_of_here _ _)). split; [|done]. unfold bundle_clash, same_text in *. by rewrite String.eqb_sym.
  - intros id' r Hr. exists r. split; [by apply find_app_some|reflexivity].
Qed.

Lemma extended_payload_extends p tool args result q : extended_payload p tool args result = Ok q → extends p q.
Proof.
  unfold extended_payload. intros Hr. apply bind_Ok in Hr as (? & _ & Hr). apply bind_Ok in Hr as (? & _ & Hr).
  apply bind_Ok in Hr as (? & _ & Hr). apply bind_Ok in Hr as (? & _ & Hr). apply bind_Ok in Hr as (? & _ & Hr).
  apply Ok_inj in Hr as <-. unfold extends; cbn; split_and!; by eexists.
Qed.

Lemma sealed_append id tool args result : moves sealed (append_evidence_tool id tool args result).
Proof.
  unfold append_evidence_tool. apply sealed_transaction. intros s. unfold append_read, append_write, query, execute, mbind, M_bind, get, mret, M_ret.
  destruct (find (is_bundle id) (bundles s)) as [r|] eqn:Hr; [|reflexivity].
  destruct (bn_finalized r =? 0) eqn:Hf; [|reflexivity]. cbn [negb]. unfold lift.
  destruct (extended_payload _ _ _ _) as [q|e] eqn:Hq; [|reflexivity]. unfold put. cbn [snd]. apply sealed_update; [done|].
  intros r' Hr'. unfold bundle_of in Hr'. rewrite Hr in Hr'. injection Hr' as <-. apply extended_payload_extends in Hq.
  split_and!; [done|done|]. apply Z.eqb_eq in Hf. lia.
Qed.

Lemma sealed_finalize id session actor v : moves sealed (finalize_evidence_bundle id session actor v).
Proof.
  unfold finalize_evidence_bundle. apply sealed_transaction. intros s. unfold query, execute, mbind, M_bind, get, mret, M_ret, put.
  destruct (find (is_bundle id) (bundles s)) as [r|] eqn:Hr; [|reflexivity].
  destruct (negb (bn_session r =? session) || negb (same_text (bn_actor r) actor) || negb (bn_finalized r =? 0)) eqn:Hf; [reflexivity|].
  cbn [snd]. apply sealed_update; [done|]. intros r' Hr'. unfold bundle_of in Hr'. rewrite Hr in Hr'. injection Hr' as <-.
  apply orb_false_iff in Hf as [_ Hf]. apply negb_false_iff, Z.eqb_eq in Hf. split_and!; [done|done|lia].
Qed.

(** Every operation of the store, with its reply left out. *)
Inductive store_step : relation Store :=
  | step_add s a b c d e : store_step s (add now a b c d e s).2
  | step_ingest s event : store_step s (ingest_hub_flow event s).2
  | step_create_session s actor : store_step s (create_session now actor s).2
  | step_add_message s session actor content : store_step s (add_message now session actor content s).2
  | step_delete_session s session actor : store_step s (delete_session session actor s).2
  | step_create_bundle s id session message actor : store_step s (create_evidence_bundle now id session message actor s).2
  | step_append s id tool args result : store_step s (append_evidence_tool id tool args result s).2
  | step_finalize s id session actor v : store_step s (finalize_evidence_bundle id session actor v s).2.

Lemma step_sealed s s' : store_step s s' → sealed s s'.
Proof.
  destruct 1; [apply sealed_add|apply sealed_ingest|apply sealed_create_session|apply sealed_add_message|apply sealed_delete_session
              |apply sealed_create_bundle|apply sealed_append|apply sealed_finalize].
Qed.

Lemma steps_sealed s s' : rtc store_step s s' → sealed s s'.
Proof. induction 1 as [s|a b c Hab _ IH]; [reflexivity|]. etrans; [by apply step_sealed|exact IH]. Qed.

(** C28: evidence an answer was validated against stays as it was.  Through any
    sequence of operations of the store, a bundle that is readable stays readable
    under the same session and actor and under no other; its lists are only ever
    extended, and once it is finalised neither its payload nor its validation
    changes: no later tool result is added and no second validation recorded. *)
Theorem evidence_sealed s s' id session actor r :
  no_clash bundle_clash (bundles s) → rtc store_step s s' → evidence_bundle id session actor s = Some r →
  ∃ r', evidence_bundle id session actor s' = Some r' ∧ extends (bn_payload r) (bn_payload r') ∧ (bn_finalized r ≠ 0 → r' = r) ∧
    (∀ session' actor', evidence_bundle id session' actor' s' ≠ None → session' = session ∧ actor' = actor) ∧
    (bn_finalized r ≠ 0 → ∀ session' actor' v, finalize_evidence_bundle id session' actor' v s' = (Ok false, s')).
Proof.
  intros Hn Hs He. destruct (steps_sealed s s' Hs Hn) as [_ Hg]. unfold evidence_bundle in *.
  fold (bundle_of id s) in He. fold (bundle_of id s'). destruct (bundle_of id s) as [x|] eqn:Ex; [|done].
  destruct ((bn_session x =? session) && same_text (bn_actor x) actor) eqn:Ea; [|done]. injection He as ->.
  destruct (Hg id r Ex) as (r' & Er' & E & Hext & Hfin). rewrite Er'. injection E as _ E2 _ E4 _.
  apply andb_true_iff in Ea as [E5%Z.eqb_eq E6%String.eqb_eq]. exists r'. split_and!; try done.
  - by rewrite E2, E4, E5, E6, Z.eqb_refl, (proj2 (String.eqb_eq _ _) eq_refl).
  - intros session' actor'. destruct ((bn_session r' =? session') && same_text (bn_actor r') actor') eqn:Eb; [|done]. intros _.
    apply andb_true_iff in Eb as [E7%Z.eqb_eq E8%String.eqb_eq]. split; congruence.
  - intros Hf session' actor' v. rewrite (Hfin Hf) in Er'. unfold finalize_evidence_bundle, transaction, query, mbind, M_bind, get, mret, M_ret.
    unfold bundle_of in Er'. rewrite Er'. apply Z.eqb_neq in Hf. rewrite Hf. cbn [negb]. by rewrite orb_true_r.
Qed.
End operations.

Module Examples.

Definition tool_result : dict string json :=
  [("facts", JList [JStr "late fact"]); ("meta", JObj [("request_id", JStr "q1")])].
Definition started : Store := (create_evidence_bundle "t0" "b1" 1 1 "alice" empty_store).2.
Definition finished : Store := (finalize_evidence_bundle "b1" 1 "alice" (JBool true) started).2.

Lemma evidence_sealed_witness :
  ∃ r r', evidence_bundle "b1" 1 "alice" finished = Some r ∧ bn_finalized r = 1 ∧
    evidence_bundle "b1" 1 "alice" (append_evidence_tool "b1" "get_routes" [] tool_result finished).2 = Some r' ∧ r' = r.
Proof.
  destruct (evidence_bundle "b1" 1 "alice" finished) as [r|] eqn:E; [|vm_compute in E; discriminate E].
  assert (Ef : bn_finalized r = 1) by (vm_compute in E; injection E as <-; reflexivity).
  destruct (evidence_sealed "t1" finished (append_evidence_tool "b1" "get_routes" [] tool_result finished).2 "b1" 1 "alice" r)
    as (r' & Er & _ & Hf & _).
  - vm_compute. split; [intros ? Hx; inversion Hx|exact I].
  - apply rtc_once. apply (step_append "t1" finished "b1" "get_routes" [] tool_result).
  - exact E.
  - exists r, r'. split; [reflexivity|]. split; [exact Ef|]. split; [exact Er|]. apply Hf. rewrite Ef. discriminate.
Defined.

(** Each method opens its own connection, and its SELECT is not part of the
    transaction its UPDATE begins: between the two statements of one
    [append_evidence_tool] another connection may finalise the bundle, which is
    then extended although it was validated without the new fact. *)
Lemma finalized_bundle_rewritten :
  let '(read, s1) := append_read "b1" "get_routes" [] tool_result started in
  let '(sealed_reply, s2) := finalize_evidence_bundle "b1" 1 "alice" (JBool true) s1 in
  let s3 := match read with Ok p => (append_write "b1" p s2).2 | Err _ => s2 end in
  sealed_reply = Ok true ∧
  (λ r, (bn_finalized r, facts (bn_payload r))) <$> evidence_bundle "b1" 1 "alice" s2 = Some (1, []) ∧
  (λ r, (bn_finalized r, facts (bn_payload r))) <$> evidence_bundle "b1" 1 "alice" s3 = Some (1, [JStr "late fact"]).
Proof. vm_compute. by split_and!. Qed.

(** A session identifier is used again once the last session is deleted, while
    the task of the deleted session still runs: its answer is delivered to the
    next owner, as a message and as an event. *)
Definition quiet_chat : Chat := {| chat_store := empty_store; event_queues := []; active_tasks := [] |}.

Lemma answer_reaches_next_owner :
  let '(first_session, c1) := create_chat "t0" "alice" quiet_chat in
  let '(posted, c2) := post_message "t1" 1 "alice" "route from node1 to node2" "b1" c1 in
  let '(deleted, c3) := delete_chat 1 "alice" c2 in
  let '(second_session, c4) := create_chat "t2" "bob" c3 in
  let '(_, c5) := finish_task "t3" {| tk_session := 1; tk_bundle := "b1"; tk_actor := "alice" |} (JBool true) (Some "alice's answer") c4 in
  first_session = Ok 1 ∧ posted = Ok 1 ∧ deleted = Ok tt ∧ second_session = Ok 1 ∧
  (map ms_content <$> (chat_messages 1 "bob" c5).1) = Ok ["alice's answer"] ∧
  (map fst <$> (chat_events 1 "bob" c5).1) = Ok ["answer_validation_started"; "answer_validation_completed"; "verified_answer"].
Proof. vm_compute. by split_and!. Qed.
End Examples.
