(* ===== verification/Evidence.v ===== *)
(** * Validation of operational answers ([management/evidence.py],
      [sdwan_mcp/models/answers.py])

    An answer of the language model is accepted only if every claim in it cites
    facts the tools collected.  The text the rendering makes of one fact is left
    out: only which facts it looks up. *)
From Stdlib Require Import Ascii.
From S2P Require Import Prelude Net Marks PathSelection Model Json Sql PolicyStore CoreTopology AuditStore.
Local Open Scope string_scope.
Local Open Scope list_scope.
Local Open Scope Z_scope.

(** ** Answers *)

Inductive AnswerType := conceptual | operational | mixed.
#[export] Instance AnswerType_eq_dec : EqDecision AnswerType.
Proof. solve_decision. Defined.

Record AnswerClaim := { claim_id : string; claim_type : string; fact_ids : list string; explanation : option string }.
Record AgentAnswer := {
  answer_type : AnswerType; summary : string; claims : list AnswerClaim; answer_unknowns : list string; answer_limitations : list string
}.

(** Which kinds of facts support a claim. *)
Definition compatible : dict string (list string) := [
  ("system_health", ["status"; "mode"; "sources"]);
  ("topology", ["management_network"; "hubs"; "sites"; "transports"; "nodes"; "links"; "cloud_vpc"; "data_center"; "saas"]);
  ("endpoint", ["endpoint"; "endpoints"; "source"; "destination"]);
  ("endpoint_route", ["source"; "destination"; "host_access"; "edge_route"; "policy_candidates"; "configured_path_candidates"]);
  ("flow_route", ["source"; "destination"; "flow_observation"; "selected_live_route"; "observed_mark_policy"; "configured_path_candidates"]);
  ("transport", ["transports"]);
  ("site_status", ["sites"; "site"; "lan_prefix"; "preferred_hub"; "standby_hub"; "status"; "configured"; "desired"; "runtime"; "links";
                   "tunnels"; "routes"; "rules"; "failover"; "classifier"]);
  ("hub_status", ["hub"; "management_ip"; "address_id"; "configured"; "runtime"]);
  ("cloud_gateway", ["gateway"; "enabled"; "active"; "vpc_ip"; "management_ip"; "address_id"; "vpc_network"; "application"; "transits"; "gateways"]);
  ("data_center", ["network"; "application"; "hub_ips"]); ("saas", ["network"; "application"; "gateway"; "transport_ips"]);
  ("tunnel_status", ["tunnels"]); ("runtime_interfaces", ["interfaces"]); ("failover_status", ["failover"]);
  ("classifier_status", ["classifier"]); ("routing_rule", ["routing_rules"; "matched_rule"]);
  ("routing_table", ["selected_routing_table"; "route_groups"]); ("route", ["matched_route"; "routes"; "route_groups"; "edge_route"]);
  ("next_hop", ["next_hop"; "matched_route"]); ("output_interface", ["output_interface"; "matched_route"; "route_groups"]);
  ("selected_hub", ["derived"]); ("selected_transport", ["derived"]); ("route_ownership", ["ownership"]);
  ("desired_state", ["desired_states"]); ("policy_version", ["policy_versions"]); ("destination_policy", ["destination_policy"]);
  ("device_enrollment", ["devices"]); ("state_comparison", ["comparisons"]); ("event", ["events"]); ("limitation", ["limitations"])].

(** [AnswerClaim] and [AgentAnswer]: [None] for a document the schema refuses. *)
Definition text_within (lo hi : nat) (v : json) : option string :=
  match v with JStr s => if (lo <=? String.length s)%nat && (String.length s <=? hi)%nat then Some s else None | _ => None end.
Definition texts_within (hi : nat) (v : option json) : option (list string) :=
  match v with
  | None => Some []
  | Some (JList l) => if (length l <=? hi)%nat then mapM (λ x, match x with JStr s => Some s | _ => None end) l else None
  | Some _ => None
  end.

Definition read_claim (v : json) : option AnswerClaim :=
  match v with
  | JObj d =>
      if negb (subsetb (dkeys d) ["claim_id"; "claim_type"; "fact_ids"; "explanation"]) then None
      else
        id ← dget d "claim_id" ≫= text_within 1 128;
        kind ← dget d "claim_type" ≫= text_within 0 64;
        if negb (dmem compatible kind) then None
        else
          ids ← texts_within 64 (dget d "fact_ids");
          why ← match dget d "explanation" with
                | None | Some JNull => Some None
                | Some e => Some <$> text_within 0 1000 e
                end;
          Some {| claim_id := id; claim_type := kind; fact_ids := ids; explanation := why |}
  | _ => None
  end.

Definition read_type (v : json) : option AnswerType :=
  match v with
  | JStr s => if String.eqb s "conceptual" then Some conceptual else if String.eqb s "operational" then Some operational
              else if String.eqb s "mixed" then Some mixed else None
  | _ => None
  end.

Definition model_validate (v : json) : option AgentAnswer :=
  match v with
  | JObj d =>
      if negb (subsetb (dkeys d) ["answer_type"; "summary"; "claims"; "unknowns"; "limitations"]) then None
      else
        kind ← dget d "answer_type" ≫= read_type;
        text ← dget d "summary" ≫= text_within 1 2000;
        cs ← match dget d "claims" with
             | None => Some []
             | Some (JList l) => if (length l <=? 64)%nat then mapM read_claim l else None
             | Some _ => None
             end;
        us ← texts_within 64 (dget d "unknowns"); ls ← texts_within 64 (dget d "limitations");
        Some {| answer_type := kind; summary := text; claims := cs; answer_unknowns := us; answer_limitations := ls |}
  | _ => None
  end.

(** ** Validation *)

Definition COMPLETE : list string := ["endpoint_route"; "flow_route"; "tunnel_status"].

Inductive problem :=
  | SchemaInvalid
  | ClaimsRequired
  | NoEvidence
  | Rejected (code claim : string).

Record Validation := { valid : bool; validated_answer : option AgentAnswer; validated_claims : list string; problems : list problem }.

Definition rejected_claims (v : Validation) : list string :=
  omap (λ p, match p with Rejected _ c => if nonempty c then Some c else None | _ => None end) (problems v).

Section validator.
Context `{PyRepr}.

(** [{str(item.get("fact_id")): item for item in facts if item.get("fact_id")}] *)
Definition index_fact (acc : dict string json) (item : json) : result (dict string json) :=
  id ← get_opt item "fact_id";
  match id with
  | Some v => Ok (if py_truth v then dset acc (py_str v) item else acc)
  | None => Ok acc
  end.
Definition index_facts (facts : list json) : result (dict string json) := foldM index_fact [] facts.

(** [fact.get("fact_kind") in kinds], over texts *)
Definition kind_in (fact : json) (kinds : list string) : bool :=
  match get_opt fact "fact_kind" with Ok (Some (JStr k)) => inb k kinds | _ => false end.

Definition compatible_with (kind : string) : list string := default [] (dget compatible kind).

(** The facts a claim is held to: for a path, all compatible ones. *)
Definition claimed_ids (known : dict string json) (c : AnswerClaim) : list string :=
  if inb (claim_type c) COMPLETE
  then map fst (List.filter (λ p, kind_in p.2 (compatible_with (claim_type c))) known)
  else fact_ids c.

Definition with_fact_ids (c : AnswerClaim) (ids : list string) : AnswerClaim :=
  {| claim_id := claim_id c; claim_type := claim_type c; fact_ids := ids; explanation := explanation c |}.

(** One claim: the claim as it is left, and the problem found, if any. *)
Definition check_claim (known : dict string json) (kind : AnswerType) (c : AnswerClaim) : AnswerClaim * option problem :=
  if bool_decide (kind = conceptual) then (c, Some (Rejected "CONCEPTUAL_ANSWER_HAS_OPERATIONAL_CLAIM" (claim_id c)))
  else
    let ids := claimed_ids known c in
    let c := with_fact_ids c ids in
    if bool_decide (ids = []) then (c, Some (Rejected "CLAIM_EVIDENCE_REQUIRED" (claim_id c)))
    else if negb (forallb (dmem known) ids) then (c, Some (Rejected "UNKNOWN_FACT_ID" (claim_id c)))
    else if negb (forallb (λ i, match dget known i with Some f => kind_in f (compatible_with (claim_type c)) | None => false end) ids)
         then (c, Some (Rejected "CLAIM_FACT_KIND_MISMATCH" (claim_id c)))
    else (c, None).

Definition validate (answer : json) (facts : list json) : result Validation :=
  match model_validate answer with
  | None => Ok {| valid := false; validated_answer := None; validated_claims := []; problems := [SchemaInvalid] |}
  | Some a =>
      known ← index_facts facts;
      let factual := bool_decide (answer_type a ≠ conceptual) in
      let checked := map (check_claim known (answer_type a)) (claims a) in
      let errors := (if factual && bool_decide (claims a = []) then [ClaimsRequired] else []) ++ omap snd checked ++
                    (if factual && bool_decide (known = []) then [NoEvidence] else []) in
      Ok {| valid := bool_decide (errors = []);
            validated_answer := Some {| answer_type := answer_type a; summary := summary a; claims := map fst checked;
                                        answer_unknowns := answer_unknowns a; answer_limitations := answer_limitations a |};
            validated_claims := omap (λ p, match p.2 with None => Some (claim_id p.1) | Some _ => None end) checked;
            problems := errors |}
  end.

(** ** Rendering *)

(** [facts[fact_id]] for every citation, in the order of the text. *)
Definition render_claim (known : dict string json) (c : AnswerClaim) : result (list json) :=
  mapM_result (λ i, of_option (dget known i) KeyError i) (fact_ids c).

Definition rendered_facts (v : Validation) (facts : list json) : result (list json) :=
  match validated_answer v with
  | None => raise KeyError "answer"
  | Some a =>
      if bool_decide (answer_type a = conceptual) then Ok []
      else known ← index_facts facts; ls ← mapM_result (render_claim known) (claims a); Ok (concat ls)
  end.
End validator.

(** * Facts about answer validation

    What the validator lets through cites collected facts of the right kinds,
    and all of them where a claim is about completeness. *)

Section facts.
Context `{PyRepr}.

(** What an accepted claim cites. *)
Record supported (known : dict string json) (c : AnswerClaim) : Prop := {
  su_cites : fact_ids c ≠ [];
  su_known : ∀ i, i ∈ fact_ids c → ∃ f, dget known i = Some f ∧ kind_in f (compatible_with (claim_type c)) = true;
  su_complete : claim_type c ∈ COMPLETE → ∀ i f, (i, f) ∈ known → kind_in f (compatible_with (claim_type c)) = true → i ∈ fact_ids c
}.

Lemma checked_claim_supported known kind c c' : check_claim known kind c = (c', None) →
  kind ≠ conceptual ∧ claim_id c' = claim_id c ∧ claim_type c' = claim_type c ∧ supported known c'.
Proof.
  unfold check_claim. case_bool_decide as Hk; [done|]. case_bool_decide as Hi; [done|].
  destruct (forallb (dmem known) (claimed_ids known c)) eqn:Hd; cbn [negb]; [|done].
  destruct (forallb _ (claimed_ids known c)) eqn:Hc in |- *; cbn [negb]; [|done]. intros [= <-]. split_and!; try done.
  split; cbn [fact_ids claim_type with_fact_ids].
  - done.
  - intros i Hin. assert (Hx := proj1 (forallb_forall _ _) Hc i (proj1 (list_elem_of_In _ _) Hin)). cbn in Hx.
    destruct (dget known i) as [f|]; [|done]. by exists f.
  - intros Hcomp i f Hin Hf. unfold claimed_ids. apply inb_true in Hcomp. rewrite Hcomp. apply elem_of_map. exists (i, f). split; [done|].
    apply list_elem_of_In, filter_In. split; [by apply list_elem_of_In|exact Hf].
Qed.

Lemma mapM_result_ok {A B} (f : A → result B) l : (∀ x, x ∈ l → ∃ y, f x = Ok y) → ∃ ys, mapM_result f l = Ok ys.
Proof.
  induction l as [|x l IH]; intros Hf; [by exists []|]. destruct (Hf x (list_elem_of_here _ _)) as [y Hy].
  destruct IH as [ys Hys]; [intros z Hz; apply Hf; by constructor|]. exists (y :: ys). cbn. by rewrite Hy; cbn; rewrite Hys.
Qed.

(** Claims without a problem are supported. *)
Lemma all_checked_supported known kind cs : Forall (λ p, p.2 = None) (map (check_claim known kind) cs) →
  let checked := map (check_claim known kind) cs in
  Forall (supported known) (map fst checked) ∧ (cs ≠ [] → kind ≠ conceptual) ∧
  omap (λ p, match p.2 with None => Some (claim_id p.1) | Some _ => None end) checked = map claim_id (map fst checked).
Proof.
  cbv zeta. induction cs as [|c cs IH]; intros Hall; [by split_and!; [constructor| |]|]. cbn [map] in *.
  apply Forall_cons in Hall as [Hc Hall]. destruct (IH Hall) as (I1 & I2 & I3).
  destruct (check_claim known kind c) as [c' p] eqn:E. cbn in Hc. subst p.
  apply checked_claim_supported in E as (Hk & _ & _ & Hsup). split_and!; [by constructor|done|]. cbn. by rewrite I3.
Qed.

(** What the outcome of a valid answer holds. *)
Lemma valid_checked answer collected v : validate answer collected = Ok v → valid v = true →
  ∃ a known, model_validate answer = Some a ∧ index_facts collected = Ok known ∧
    let checked := map (check_claim known (answer_type a)) (claims a) in
    Forall (λ p, p.2 = None) checked ∧ (answer_type a ≠ conceptual → claims a ≠ []) ∧
    validated_answer v = Some {| answer_type := answer_type a; summary := summary a; claims := map fst checked;
                                 answer_unknowns := answer_unknowns a; answer_limitations := answer_limitations a |} ∧
    validated_claims v = omap (λ p, match p.2 with None => Some (claim_id p.1) | Some _ => None end) checked.
Proof.
  unfold validate. destruct (model_validate answer) as [a|] eqn:Em; [|by intros Hv; apply Ok_inj in Hv as <-].
  intros Hv Hok. apply bind_Ok in Hv as (known & Hknown & Hv). cbv zeta in Hv. apply Ok_inj in Hv as <-. cbn in Hok.
  apply bool_decide_eq_true, app_eq_nil in Hok as [Hreq Hok]. apply app_eq_nil in Hok as [Hcl _].
  exists a, known. cbv zeta. split_and!; try done.
  - apply Forall_forall. intros p Hp. destruct (p.2) as [q|] eqn:E; [|done]. exfalso.
    assert (Hin : q ∈ omap snd (map (check_claim known (answer_type a)) (claims a))) by (apply list_elem_of_omap; by exists p).
    rewrite Hcl in Hin. by apply elem_of_nil in Hin.
  - intros Hc Hnil. by rewrite !bool_decide_true in Hreq.
Qed.

(** What is rendered was collected. *)
Lemma index_facts_collected collected known i f : index_facts collected = Ok known → (i, f) ∈ known → f ∈ collected.
Proof.
  assert (Hg : ∀ l acc acc', foldM index_fact acc l = Ok acc' → ∀ j g, (j, g) ∈ acc' → (j, g) ∈ acc ∨ g ∈ l).
  { induction l as [|x l IH]; intros acc acc' Hf j g Hjg; [apply Ok_inj in Hf as <-; by left|]. cbn [foldM] in Hf.
    apply bind_Ok in Hf as (acc1 & Hx & Hf). destruct (IH _ _ Hf j g Hjg) as [Hj|]; [|right; by constructor].
    unfold index_fact in Hx. apply bind_Ok in Hx as ([v|] & _ & Hx); apply Ok_inj in Hx as <-; [|by left].
    destruct (py_truth v); [|by left]. apply elem_dset in Hj as [[= -> ->]|Hj]; [right; constructor|by left]. }
  intros Hk Hif. destruct (Hg _ _ _ Hk _ _ Hif) as [Hn|]; [by apply elem_of_nil in Hn|done].
Qed.

Lemma rendered_collected v collected fs f : rendered_facts v collected = Ok fs → f ∈ fs → f ∈ collected.
Proof.
  unfold rendered_facts. destruct (validated_answer v) as [a|]; [|done]. case_bool_decide; [by intros E; apply Ok_inj in E as <-; intros ?%elem_of_nil|].
  intros Hr Hf. apply bind_Ok in Hr as (known & Hk & Hr). apply bind_Ok in Hr as (ls & Hls & Hr). apply Ok_inj in Hr as <-.
  apply elem_of_concat in Hf as (l & Hl & Hf). apply mapM_result_Forall2 in Hls. destruct (Forall2_elem_r _ _ _ _ Hls Hl) as (c & _ & Hc). cbn beta in Hc.
  apply mapM_result_Forall2 in Hc. destruct (Forall2_elem_r _ _ _ _ Hc Hf) as (i & _ & Hi). cbn beta in Hi. destruct (dget known i) as [g|] eqn:E; [|done]. apply Ok_inj in Hi as ->.
  apply dget_In in E. by eapply index_facts_collected.
Qed.

Lemma supported_rendered known cs : Forall (supported known) cs → ∃ ls, mapM_result (render_claim known) cs = Ok ls.
Proof.
  intros Hs. apply mapM_result_ok. intros c Hc. apply mapM_result_ok. intros i Hi.
  destruct (proj1 (Forall_forall _ _) Hs c Hc) as [_ Hk _]. destruct (Hk i Hi) as (f & Hf & _). exists f. by rewrite Hf.
Qed.

(** The rendering of a valid answer finds every fact it cites. *)
Lemma valid_rendered answer collected v : validate answer collected = Ok v → valid v = true → ∃ fs, rendered_facts v collected = Ok fs.
Proof.
  intros Hv Hok. destruct (valid_checked _ _ _ Hv Hok) as (a & known & _ & Hknown & Hall & _ & Ha & _).
  destruct (all_checked_supported _ _ _ Hall) as (Hsup & _ & _). unfold rendered_facts. rewrite Ha. cbn [answer_type claims].
  case_bool_decide; [by eexists|]. rewrite Hknown. cbn [mbind result_bind]. destruct (supported_rendered _ _ Hsup) as [ys ->]. by eexists.
Qed.

(** C31: a verified answer is bound to the evidence.  When an answer is accepted
    against the facts of a bundle, a conceptual one makes no claim and any other
    makes at least one; every claim cites at least one fact, every citation is a
    fact of the bundle whose kind supports that claim, and a claim about a path
    cites every such fact there is, so no candidate is left out; the rendering of
    the answer then finds every fact it cites. *)
Theorem answers_bound_to_evidence answer collected v : validate answer collected = Ok v → valid v = true →
  ∃ a known, validated_answer v = Some a ∧ index_facts collected = Ok known ∧
    (answer_type a = conceptual → claims a = []) ∧ (answer_type a ≠ conceptual → claims a ≠ []) ∧
    Forall (supported known) (claims a) ∧ validated_claims v = map claim_id (claims a) ∧
    is_ok (rendered_facts v collected) = true.
Proof.
  intros Hv Hok. destruct (valid_checked _ _ _ Hv Hok) as (a & known & _ & Hknown & Hall & Hne & Ha & Hids).
  destruct (all_checked_supported _ _ _ Hall) as (Hsup & Hconc & Hmap). eexists _, known. split; [exact Ha|].
  cbn [claims answer_type]. split_and!; [done| | |done|by rewrite Hids, Hmap|].
  - intros Hc. destruct (claims a); [done|]. by destruct (Hconc ltac:(done)).
  - intros Hc. specialize (Hne Hc). by destruct (claims a).
  - by destruct (valid_rendered _ _ _ Hv Hok) as [fs ->].
Qed.
End facts.

Module Examples.

Definition route_facts : list json :=
  [JObj [("fact_id", JStr "f1"); ("fact_kind", JStr "source"); ("value", JStr "node1")];
   JObj [("fact_id", JStr "f2"); ("fact_kind", JStr "edge_route"); ("value", JStr "wg-bb")];
   JObj [("fact_id", JStr "f3"); ("fact_kind", JStr "request_metadata")]].
(** The model cites one fact only; the validator holds it to all of the path. *)
Definition route_answer : json :=
  JObj [("answer_type", JStr "operational"); ("summary", JStr "the route");
        ("claims", JList [JObj [("claim_id", JStr "c1"); ("claim_type", JStr "endpoint_route"); ("fact_ids", JList [JStr "f2"])]])].
Definition invented_answer : json :=
  JObj [("answer_type", JStr "operational"); ("summary", JStr "all is well");
        ("claims", JList [JObj [("claim_id", JStr "c1"); ("claim_type", JStr "next_hop"); ("fact_ids", JList [JStr "f9"])]])].

Lemma answers_bound_to_evidence_witness :
  (valid <$> validate invented_answer route_facts) = Ok false ∧
  ∃ a, (validated_answer <$> validate route_answer route_facts) = Ok (Some a) ∧ map fact_ids (claims a) = [["f1"; "f2"]] ∧
       Forall (λ c, fact_ids c ≠ []) (claims a).
Proof.
  split; [vm_compute; reflexivity|].
  destruct (validate route_answer route_facts) as [v|e] eqn:E; [|vm_compute in E; discriminate E].
  destruct (answers_bound_to_evidence route_answer route_facts v E) as (a & known & Ha & _ & _ & _ & Hs & _).
  - vm_compute in E. apply Ok_inj in E as <-. reflexivity.
  - exists a. split; [cbn; by rewrite Ha|]. split.
    + vm_compute in E. apply Ok_inj in E as <-. cbn in Ha. injection Ha as <-. reflexivity.
    + eapply Forall_impl; [exact Hs|]. intros c [Hc _ _]. exact Hc.
Defined.
End Examples.
