(* ===== verification/EdgeBootstrap.v ===== *)
(** * Bringing an edge up ([edge_bootstrap.py], [ztp_client.py],
      [https_client.py], [identity_store.py])

    The two commands an edge container runs: [enroll] (claim, certificate,
    WireGuard key, registration) and [reconcile] (one pass of the agent over the
    desired state the policy service answers with).  The state is the edge's own
    disk and kernel together with whatever is at the other end of its requests
    ([W], reached by [send]); OpenSSL, [wg] and the processes it starts are
    oracles, file permissions are left out but for the claim file's. *)
From Stdlib Require Import Ascii.
From S2P Require Import Prelude Net Marks PathSelection Model Json LocalFailover EdgeAgent SiteProfile.
Local Open Scope string_scope.
Local Open Scope list_scope.
Local Open Scope Z_scope.

(** ** The private files ([IdentityStore]) *)

Record Disk := {
  device_private_key : bool; csr_file : option string; certificate_file : option string; enrollment : option (dict string json);
  wireguard_key : option string; last_confirmed : option LocalState; events_file : list LocalFailoverEvent;
  steering_file : option Steering; desired_file : option json; profile_file : option json; snapshot_file : option json;
  monitor_file : option (Z * string); kernel : list command
}.

Definition empty_disk : Disk := {|
  device_private_key := false; csr_file := None; certificate_file := None; enrollment := None; wireguard_key := None;
  last_confirmed := None; events_file := []; steering_file := None; desired_file := None; profile_file := None;
  snapshot_file := None; monitor_file := None; kernel := [] |}.

(** What the agent leaves behind: its files and the kernel's state. *)
Definition saved_by (a : Agent) (d : Disk) : Disk := {|
  device_private_key := device_private_key d; csr_file := csr_file d; certificate_file := certificate_file d;
  enrollment := enrollment d; wireguard_key := wireguard_key d; last_confirmed := saved_state a; events_file := event_queue a;
  steering_file := steering a; desired_file := desired_file d; profile_file := profile_file d; snapshot_file := snapshot_file d;
  monitor_file := monitor_file d; kernel := commands a |}.

Definition store_certificate (pem site serial fingerprint : string) (d : Disk) : Disk := {|
  device_private_key := device_private_key d; csr_file := csr_file d; certificate_file := Some pem;
  enrollment := Some [("site", JStr site); ("serial", JStr serial); ("fingerprint", JStr fingerprint)];
  wireguard_key := wireguard_key d; last_confirmed := last_confirmed d; events_file := events_file d;
  steering_file := steering_file d; desired_file := desired_file d; profile_file := profile_file d; snapshot_file := snapshot_file d;
  monitor_file := monitor_file d; kernel := kernel d |}.

Definition set_csr (csr : string) (d : Disk) : Disk := {|
  device_private_key := device_private_key d; csr_file := Some csr; certificate_file := certificate_file d;
  enrollment := enrollment d; wireguard_key := wireguard_key d; last_confirmed := last_confirmed d; events_file := events_file d;
  steering_file := steering_file d; desired_file := desired_file d; profile_file := profile_file d; snapshot_file := snapshot_file d;
  monitor_file := monitor_file d; kernel := kernel d |}.

Definition set_private_key (d : Disk) : Disk := {|
  device_private_key := true; csr_file := csr_file d; certificate_file := certificate_file d;
  enrollment := enrollment d; wireguard_key := wireguard_key d; last_confirmed := last_confirmed d; events_file := events_file d;
  steering_file := steering_file d; desired_file := desired_file d; profile_file := profile_file d; snapshot_file := snapshot_file d;
  monitor_file := monitor_file d; kernel := kernel d |}.

Definition set_wireguard_key (key : string) (d : Disk) : Disk := {|
  device_private_key := device_private_key d; csr_file := csr_file d; certificate_file := certificate_file d;
  enrollment := enrollment d; wireguard_key := Some key; last_confirmed := last_confirmed d; events_file := events_file d;
  steering_file := steering_file d; desired_file := desired_file d; profile_file := profile_file d; snapshot_file := snapshot_file d;
  monitor_file := monitor_file d; kernel := kernel d |}.

(** [desired-state.json], [site-profile.json], [policy-snapshot.json] *)
Definition persist_pass (desired profile snapshot : json) (d : Disk) : Disk := {|
  device_private_key := device_private_key d; csr_file := csr_file d; certificate_file := certificate_file d;
  enrollment := enrollment d; wireguard_key := wireguard_key d; last_confirmed := last_confirmed d; events_file := events_file d;
  steering_file := steering_file d; desired_file := Some desired; profile_file := Some profile; snapshot_file := Some snapshot;
  monitor_file := monitor_file d; kernel := kernel d |}.

Definition set_monitor (pid : Z) (site : string) (d : Disk) : Disk := {|
  device_private_key := device_private_key d; csr_file := csr_file d; certificate_file := certificate_file d;
  enrollment := enrollment d; wireguard_key := wireguard_key d; last_confirmed := last_confirmed d; events_file := events_file d;
  steering_file := steering_file d; desired_file := desired_file d; profile_file := profile_file d; snapshot_file := snapshot_file d;
  monitor_file := Some (pid, site); kernel := kernel d |}.

(** ** Texts *)

Definition base64_char (a : ascii) : bool :=
  let n := Z.of_nat (nat_of_ascii a) in
  ((65 <=? n) && (n <=? 90)) || ((97 <=? n) && (n <=? 122)) || ((48 <=? n) && (n <=? 57)) || (n =? 43) || (n =? 47).

(** [len(base64.b64decode(text, validate=True)) == 32]: 43 characters of the
    alphabet and one [=]. *)
Definition is_wireguard_key (text : string) : bool :=
  let l := String.list_ascii_of_string text in
  Nat.eqb (length l) 44 && forallb base64_char (take 43 l) && bool_decide (drop 43 l = ["="%char]).

(** The claim file: its permission bits and what [json.loads] makes of it. *)
Record ClaimFile := { permissions : Z; claim : result json }.

(** The status of an HTTP answer, and its body as [json.loads] reads it ([{}]
    for an empty one); [None]: not JSON. *)
Record Answer := { status_code : Z; decoded : option json }.

Section edge.
Context `{PyRepr} {W : Type}.
(** One exchange over TLS; no answer is [OSError] or a TLS failure. *)
Context (send : string → string → option (dict string json) → M W (option Answer)).

Record Edge := { disk : Disk; world : W }.

Definition on_disk (f : Disk → Disk) : M Edge unit := λ s, (Ok tt, {| disk := f (disk s); world := world s |}).
Definition ask_disk {A} (f : Disk → A) : M Edge A := λ s, (Ok (f (disk s)), s).
Definition outside {A} (m : M W A) : M Edge A := λ s, let '(r, w) := m (world s) in (r, {| disk := disk s; world := w |}).

(** ** [https_client.request_json] *)

Definition read_answer (a : option Answer) : result (dict string json) :=
  match a with
  | None => raise HTTPSClientError "control-plane request failed"
  | Some a =>
      match decoded a with
      | None => raise HTTPSClientError "service returned invalid JSON"
      | Some (JObj d) =>
          if (status_code a <? 200) || (300 <=? status_code a)
          then raise HTTPSClientError ("service rejected request (" +:+ str_Z (status_code a) +:+ "): "
                                         +:+ py_str (default (JStr "request rejected") (dget d "error")))
          else Ok d
      | Some _ => raise HTTPSClientError "service returned a non-object JSON response"
      end
  end.

Definition request_json (method path : string) (payload : option (dict string json)) : M Edge (dict string json) :=
  _ ← guard (negb (String.prefix "/" path)) HTTPSClientError "request path must begin with '/'";
  answer ← outside (send method path payload);
  lift (read_answer answer).

(** ** [ztp_client.enroll] *)

Definition read_claim (f : ClaimFile) : result (string * string) :=
  _ ← raise_if (truthy (Z.land (permissions f) 63)) PermissionError "claim file must not be group/world-readable";
  value ← claim f; id ← getitem value "claim_id"; secret ← getitem value "claim_secret"; Ok (py_str id, py_str secret).

(** [generate_device_csr]: OpenSSL creates the key once and signs a request;
    [openssl] answers [Err] when its command fails. *)
Definition generate_device_csr (openssl : string → result string) (device_id : string) : M Edge string :=
  present ← ask_disk device_private_key;
  _ ← (if present : bool then mret tt else _ ← lift (openssl "genpkey"); on_disk set_private_key);
  csr ← lift (openssl ("/CN=" +:+ device_id));
  _ ← on_disk (set_csr csr); mret csr.

Record Enrolled := { en_site : string; en_serial : string; en_fingerprint : string }.

Definition enroll (openssl : string → result string) (device_id nonce request_id : string) (f : ClaimFile) : M Edge Enrolled :=
  c ← lift (read_claim f);
  csr ← generate_device_csr openssl device_id;
  answer ← request_json "POST" "/v1/enroll" (Some
    [("claim_id", JStr c.1); ("claim_secret", JStr c.2); ("device_id", JStr device_id); ("nonce", JStr nonce);
     ("csr_pem", JStr csr); ("request_id", JStr request_id)]);
  pem ← lift (getitem (JObj answer) "certificate_pem"); site ← lift (getitem (JObj answer) "site");
  serial ← lift (getitem (JObj answer) "serial"); print ← lift (getitem (JObj answer) "fingerprint");
  _ ← on_disk (store_certificate (py_str pem) (py_str site) (py_str serial) (py_str print));
  mret {| en_site := py_str site; en_serial := py_str serial; en_fingerprint := py_str print |}.

(** ** [edge_bootstrap.bootstrap] *)

(** The output of [wg genkey], and of [wg pubkey] for a private key; [None] when
    the command fails. *)
Context (genkey : option string) (pubkey : string → option string).

Definition wireguard_public_key : M Edge string :=
  key ← ask_disk wireguard_key;
  key ← match key with
        | Some key => mret key
        | None =>
            generated ← lift (of_option genkey BootstrapError "could not generate local WireGuard private key");
            _ ← guard (negb (nonempty (strip generated))) BootstrapError "could not generate local WireGuard private key";
            let text := strip generated +:+ String "010" EmptyString in
            _ ← on_disk (set_wireguard_key text); mret text
        end;
  public ← lift (of_option (pubkey key) BootstrapError "could not derive WireGuard public key");
  _ ← guard (negb (is_wireguard_key (strip public))) BootstrapError "generated WireGuard public key is invalid";
  mret (strip public).

(** The certificate and the key are loaded for every request to the policy service. *)
Definition policy_request (method path : string) (payload : option (dict string json)) : M Edge (dict string json) :=
  _ ← guard (negb (String.prefix "/" path)) HTTPSClientError "request path must begin with '/'";
  present ← ask_disk (λ d, device_private_key d && match certificate_file d with Some _ => true | None => false end);
  _ ← guard (negb present) FileNotFoundError "No such file or directory";
  request_json method path payload.

Record Summary := { su_site : string; su_serial : string; su_registration : string; su_state : string }.

Definition bootstrap (openssl : string → result string) (device_id nonce request_id : string) (f : ClaimFile) : M Edge Summary :=
  enrolled ← enroll openssl device_id nonce request_id f;
  key ← wireguard_public_key;
  registration ← policy_request "POST" "/v1/edge/register" (Some [("wireguard_public_key", JStr key)]);
  reg ← lift (getitem (JObj registration) "registration"); state ← lift (getitem (JObj registration) "state");
  mret {| su_site := en_site enrolled; su_serial := en_serial enrolled; su_registration := py_str reg; su_state := py_str state |}.

(** ** [edge_bootstrap.reconcile] *)

Context (exec : list command → command → option string) (start_classifier : Z → result unit) (start_collector : result unit).
(** Whether the process of that number runs the monitor; the number of a new one. *)
Context (monitors : Z → bool) (new_pid : Z).
(** [load_config(arguments.config)] *)
Context (base : TopologyConfig).

Definition start_spoke_failover (site : string) : M Edge unit :=
  running ← ask_disk monitor_file;
  match running with
  | Some (pid, _) => if monitors pid then mret tt else on_disk (set_monitor new_pid site)
  | None => on_disk (set_monitor new_pid site)
  end.

Definition key_path : string := "/var/lib/sdwan/wireguard/device.key".

(** [EdgeAgent(site, config, identity_root, SystemRunner())] on the files and
    the kernel as they are. *)
Definition open_agent (site : string) (c : TopologyConfig) (d : Disk) : result Agent :=
  a ← EdgeAgent_init site c true key_path (match wireguard_key d with Some _ => true | None => false end)
        (last_confirmed d) (events_file d) (steering_file d);
  Ok (set_commands a (kernel d)).

(** A method of the agent; its files and the kernel keep what was done when it raises. *)
Definition act {A} (m : M Agent A) (a : Agent) : M Edge (A * Agent) := λ s,
  let '(r, a') := m a in (x ← r; Ok (x, a'), {| disk := saved_by a' (disk s); world := world s |}).

Record Pass := { ps_site : string; ps_state : string; ps_route_version : option Z }.

Definition settled (status : string) : bool := inb status ["VERIFIED"; "MATCHED"].

Definition ack_payload (o : ReconciliationResult) (dig : string) : dict string json :=
  [("desired_state_version", JInt (rr_desired_state_version o)); ("configuration_digest", JStr dig);
   ("route_version", JInt (rr_route_version o));
   ("status", JStr (if settled (rr_status o) then "VERIFIED" else rr_status o)); ("detail", JStr (rr_detail o))].

(** [value or {}] *)
Definition or_empty (v : option json) : json := match v with Some j => if py_truth j then j else JObj [] | None => JObj [] end.

(** The data plane of a settled pass. *)
Definition install_pass (site : string) (desired : dict string json) (agent : Agent) : M Edge unit :=
  if dmem (sites (ag_config agent)) site then
    snapshot ← policy_request "GET" ("/v1/edge/policy/" +:+ site) None;
    _ ← act (install_spoke_dataplane exec start_classifier (JObj desired) (JObj snapshot)) agent;
    _ ← on_disk (persist_pass (JObj desired) (or_empty (dget desired "site_profile")) (JObj snapshot));
    start_spoke_failover site
  else
    _ ← act (install_hub_backhaul exec start_collector (Some (JObj desired))) agent; mret tt.

Definition reconcile : M Edge Pass :=
  enrolled ← ask_disk enrollment;
  enrolled ← lift (of_option enrolled BootstrapError "edge is not enrolled");
  desired ← policy_request "GET" "/v1/edge/desired" None;
  if is_text (dget desired "status") "PENDING" then
    site ← lift (getitem (JObj enrolled) "site");
    mret {| ps_site := py_str site; ps_state := "PENDING"; ps_route_version := None |}
  else
    site ← lift (getitem (JObj enrolled) "site"); let site := py_str site in
    c ← lift (overlay_site_profile base site (dget desired "site_profile"));
    d ← ask_disk (λ d, d);
    agent ← lift (open_agent site c d);
    let logical_site := ag_site agent in
    outcome ← act (EdgeAgent.reconcile exec (JObj desired)) agent;
    let '(o, agent) := outcome in
    _ ← (if settled (rr_status o) then install_pass logical_site desired agent else mret tt);
    dig ← lift (getitem (JObj desired) "configuration_digest");
    _ ← policy_request "POST" "/v1/edge/ack" (Some (ack_payload o (py_str dig)));
    mret {| ps_site := logical_site; ps_state := rr_status o; ps_route_version := Some (rr_route_version o) |}.
End edge.
Arguments Edge W : clear implicits.
