(* ===== verification/EdgeBootstrapFacts.v ===== *)
(** * What an edge reports

    A pass that tells the policy service VERIFIED has applied the document the
    service answered with, installed the data plane and stored what its monitor
    runs on; and edge and service then agree on version and digest. *)
From Stdlib Require Import Ascii.
From S2P Require Import Prelude Net Marks PathSelection Model Json LocalFailover EdgeAgent SiteProfile EdgeBootstrap.
Local Open Scope string_scope.
Local Open Scope list_scope.
Local Open Scope Z_scope.

(** ** Requests and the log of them *)

Definition message : Type := string * string * option (dict string json).

(** The other end, with a log of what was sent to it. *)
Definition logged {W} (send : string → string → option (dict string json) → M W (option Answer)) (method path : string)
    (payload : option (dict string json)) : M (list message * W) (option Answer) := λ lw,
  let '(r, w) := send method path payload lw.2 in (r, (lw.1 ++ [(method, path, payload)], w)).

Definition sent {W} (s : Edge (list message * W)) : list message := (world s).1.

Definition may_request (d : Disk) : bool := device_private_key d && match certificate_file d with Some _ => true | None => false end.

(** What the monitor of a spoke runs on. *)
Definition documents (d : Disk) := (desired_file d, profile_file d, snapshot_file d, monitor_file d).

Definition credentials (d : Disk) := (device_private_key d, certificate_file d, enrollment d).

Lemma saved_by_credentials a d : credentials (saved_by a d) = credentials d. Proof. done. Qed.
Lemma may_request_credentials d d' : credentials d' = credentials d → may_request d' = may_request d.
Proof. unfold credentials, may_request. by intros [= -> -> _]. Qed.

Definition is_verified_ack (q : message) : bool :=
  String.eqb q.1.2 "/v1/edge/ack" && match q.2 with Some b => is_text (dget b "status") "VERIFIED" | None => false end.

Section pass.
Context `{PyRepr} {W : Type} (send : string → string → option (dict string json) → M W (option Answer)).
Context (exec : list command → command → option string) (start_classifier : Z → result unit) (start_collector : result unit).
Context (monitors : Z → bool) (new_pid : Z) (base : TopologyConfig).

Notation policy_request := (policy_request (logged send)).

Lemma request_run method path payload (s s' : Edge (list message * W)) r : String.prefix "/" path = true →
  policy_request method path payload s = (r, s') → disk s' = disk s ∧
    (if may_request (disk s) then sent s' = sent s ++ [(method, path, payload)] else is_ok r = false ∧ s' = s).
Proof.
  intros Hp. unfold EdgeBootstrap.policy_request, request_json, guard, raise_if, ask_disk, outside, logged, lift, mbind, M_bind, raise, sent.
  rewrite Hp. cbn [negb]. fold (may_request (disk s)). destruct (may_request (disk s)); cbn [negb]; [|by intros [= <- <-]].
  destruct (send method path payload (world s).2) as [[a|e] w]; intros [= <- <-]; done.
Qed.

(** ** The agent's part *)

Lemma spoke_dataplane_keeps desired snapshot a : same_identity a (install_spoke_dataplane exec start_classifier desired snapshot a).2.
Proof. apply (emits_spoke_dataplane exec start_classifier (ag_config a) (λ _, True)); done. Qed.

Lemma hub_backhaul_keeps desired a : same_identity a (install_hub_backhaul exec start_collector desired a).2.
Proof.
  assert (emits (ag_config a) (λ _, True) (install_hub_backhaul exec start_collector desired)) as He; [|by apply He].
  unfold install_hub_backhaul, install_hub_policy_rules, install_hub_return_affinity. emits_all;
    first [by apply emits_replace_owned_rule|by apply emits_return_path|by apply emits_ensure_chain|by apply emits_ensure_rule].
Qed.

(** What the agent remembers is what is on its disk. *)
Definition remembers (a : Agent) : Prop := local_state a = default initial_state (saved_state a).

Lemma opened_agent site c d a : open_agent site c d = Ok a → remembers a ∧ saved_state a = last_confirmed d ∧ commands a = kernel d.
Proof.
  unfold open_agent. intros (a0 & Ha & [= <-])%bind_Ok. unfold EdgeAgent_init in Ha. cbv zeta in Ha.
  apply bind_unit_ok in Ha as [_ Ha]. by apply bind_Ok in Ha as (node & _ & [= <-]).
Qed.

(** A settled outcome: the commands of the document ran, and its version and
    digest are the agent's. *)
Lemma settled_run desired a o a1 : remembers a → EdgeAgent.reconcile exec desired a = (Ok o, a1) → settled (rr_status o) = true →
  ∃ dig applied, read_header (ag_site a) desired = Ok (rr_desired_state_version o, rr_route_version o, dig) ∧
    apply_desired exec desired a = (Ok tt, applied) ∧ commands a1 = commands applied ∧
    recorded (local_state a1) (rr_desired_state_version o) dig = true ∧ remembers a1 ∧ ag_site a1 = ag_site a ∧ ag_config a1 = ag_config a.
Proof.
  intros Hm Hrun Hset. destruct (read_header (ag_site a) desired) as [[[v r] dig]|e] eqn:Hh.
  2: { unfold EdgeAgent.reconcile, get, lift, mbind, M_bind in Hrun. by rewrite Hh in Hrun. }
  rewrite (reconcile_cases _ _ _ _ _ _ Hh) in Hrun. destruct (v <? _); [by injection Hrun as <- _|].
  destruct (r <? _); [by injection Hrun as <- _|]. destruct (apply_desired_frame exec desired a) as [Hi _].
  destruct (apply_desired exec desired a) as [[[]|e] applied]; [|done]. destruct Hi as (Hs & Hc & _ & _ & _ & _ & Hl & Hv & _).
  exists dig, applied. cbn [snd] in Hs, Hc, Hl, Hv. destruct (recorded (local_state a) v dig) eqn:Er; injection Hrun as <- <-; cbn.
  - rewrite Hl. split_and!; try done. unfold remembers. by rewrite Hl, Hv.
  - split_and!; try done. unfold recorded. cbn. by rewrite Z.eqb_refl, String.eqb_refl.
Qed.

(** The data plane is in place, and for a spoke the documents are stored. *)
Definition installed (desired : dict string json) (agent : Agent) (before after : Disk) : Prop :=
  if dmem (sites (ag_config agent)) (ag_site agent) then
    ∃ snapshot agent', install_spoke_dataplane exec start_classifier (JObj desired) (JObj snapshot) agent = (Ok tt, agent') ∧
      kernel after = commands agent' ∧ steering_file after = steering agent' ∧ last_confirmed after = saved_state agent' ∧
      desired_file after = Some (JObj desired) ∧ snapshot_file after = Some (JObj snapshot) ∧ is_Some (monitor_file after)
  else
    ∃ agent', install_hub_backhaul exec start_collector (Some (JObj desired)) agent = (Ok tt, agent') ∧
      kernel after = commands agent' ∧ last_confirmed after = saved_state agent' ∧ documents after = documents before.

Lemma install_pass_run desired agent (s s' : Edge (list message * W)) r :
  install_pass (logged send) exec start_classifier start_collector monitors new_pid (ag_site agent) desired agent s = (r, s') →
  credentials (disk s') = credentials (disk s) ∧ (∀ q, q ∈ sent s' → q ∈ sent s ∨ is_verified_ack q = false) ∧
  match r with Ok _ => installed desired agent (disk s) (disk s') | Err _ => documents (disk s') = documents (disk s) end.
Proof.
  unfold install_pass, installed. destruct (dmem (sites (ag_config agent)) (ag_site agent)).
  - unfold mbind at 1, M_bind at 1. destruct (policy_request _ _ _ s) as [[snapshot|e] s1] eqn:Hreq.
    all: pose proof (request_run "GET" ("/v1/edge/policy/" +:+ ag_site agent) None s s1 _ eq_refl Hreq) as [Hd Hs].
    all: assert (∀ q, q ∈ sent s1 → q ∈ sent s ∨ is_verified_ack q = false) as Hq
      by (destruct (may_request (disk s)); [rewrite Hs; intros q [?|Hq]%elem_of_app; [by left|apply list_elem_of_singleton in Hq as ->; by right]|destruct Hs as [_ ->]; auto]).
    2: { intros [= <- <-]. rewrite Hd. done. }
    unfold mbind, M_bind, act. destruct (install_spoke_dataplane _ _ _ _ agent) as [[[]|e] agent'] eqn:Hi.
    2: { intros [= <- <-]. cbn. rewrite Hd. done. }
    cbn. unfold start_spoke_failover, mbind, M_bind, ask_disk, on_disk. cbn.
    intros Hrun. assert (r = Ok tt ∧ ∃ m, is_Some m ∧ disk s' = {|
      device_private_key := device_private_key (disk s); csr_file := csr_file (disk s); certificate_file := certificate_file (disk s);
      enrollment := enrollment (disk s); wireguard_key := wireguard_key (disk s); last_confirmed := saved_state agent';
      events_file := event_queue agent'; steering_file := steering agent'; desired_file := Some (JObj desired);
      profile_file := Some (or_empty (dget desired "site_profile")); snapshot_file := Some (JObj snapshot);
      monitor_file := m; kernel := commands agent' |} ∧ world s' = world s1) as (-> & m & Hm & Hdisk & Hw).
    { rewrite Hd in Hrun. destruct (monitor_file (disk s)) as [[pid p]|] eqn:Em; [destruct (monitors pid)|];
        injection Hrun as <- <-; (split; [done|]); eexists; (split; [|split; [reflexivity|done]]);
        first [by eexists|cbn; rewrite Em; by eexists]. }
    split_and!; [by rewrite Hdisk|by unfold sent; rewrite Hw|]. exists snapshot, agent'. rewrite Hdisk. done.
  - unfold mbind, M_bind, act. destruct (install_hub_backhaul _ _ _ agent) as [[[]|e] agent'] eqn:Hi; intros [= <- <-].
    + split_and!; [done|auto|]. by exists agent'.
    + split_and!; [done|auto|done].
Qed.

Lemma header_digest site desired v r dig : read_header site desired = Ok (v, r, dig) →
  ∃ d, getitem desired "configuration_digest" = Ok d ∧ py_str d = dig.
Proof.
  unfold read_header. cbv zeta. intros (s & _ & Hrun)%bind_Ok. destruct (negb _); [done|]. apply bind_Ok in Hrun as (sv & _ & Hrun).
  apply bind_Ok in Hrun as (sv' & _ & Hrun). destruct (negb _); [done|]. apply bind_Ok in Hrun as (v1 & _ & Hrun).
  apply bind_Ok in Hrun as (v2 & _ & Hrun). apply bind_Ok in Hrun as (r1 & _ & Hrun). apply bind_Ok in Hrun as (r2 & _ & Hrun).
  apply bind_Ok in Hrun as (d & Hd & Hrun). exists d. split; [done|]. by injection Hrun as _ _ <-.
Qed.

Lemma reconcile_header desired a o a1 : EdgeAgent.reconcile exec desired a = (Ok o, a1) →
  ∃ v r dig, read_header (ag_site a) desired = Ok (v, r, dig).
Proof.
  unfold EdgeAgent.reconcile, get, lift, mbind, M_bind. destruct (read_header (ag_site a) desired) as [[[v r] dig]|e]; [eauto|done].
Qed.

Lemma reconcile_site desired a o a1 : EdgeAgent.reconcile exec desired a = (Ok o, a1) → ag_site a1 = ag_site a.
Proof.
  intros Hr. destruct (reconcile_header _ _ _ _ Hr) as (v & r & dig & Hh). rewrite (reconcile_cases _ _ _ _ _ _ Hh) in Hr.
  destruct (v <? _); [by injection Hr as _ <-|]. destruct (r <? _); [by injection Hr as _ <-|].
  destruct (apply_desired_frame exec desired a) as [(Hs & _) _].
  destruct (apply_desired exec desired a) as [[[]|e] a2]; [|done]. cbn [snd] in Hs. by destruct (recorded _ _ _); injection Hr as _ <-.
Qed.

(** ** The whole pass *)

Notation pass := (EdgeBootstrap.reconcile (logged send) exec start_classifier start_collector monitors new_pid base).

Lemma fresh_log (s : Edge (list message * W)) q :
  (∀ x, x ∈ sent s → is_verified_ack x = false) → is_verified_ack q = false → ∀ x, x ∈ sent s ++ [q] → is_verified_ack x = false.
Proof. intros Hs Hq x [Hx|Hx]%elem_of_app; [auto|]. by apply list_elem_of_singleton in Hx as ->. Qed.

Lemma ack_unsettled o dig : settled (rr_status o) = false → is_verified_ack ("POST", "/v1/edge/ack", Some (ack_payload o dig)) = false.
Proof.
  intros Ho. change (String.eqb (if settled (rr_status o) then "VERIFIED" else rr_status o) "VERIFIED" = false). rewrite Ho.
  destruct (String.eqb_spec (rr_status o) "VERIFIED") as [E|]; [|done]. by rewrite E in Ho.
Qed.

(** Nothing about a settled state was sent, and the documents are the old ones. *)
Definition quiet (s s' : Edge (list message * W)) (r : result Pass) : Prop :=
  (∀ q, q ∈ sent s' → is_verified_ack q = false) ∧ documents (disk s') = documents (disk s) ∧
  match r with Ok p => settled (ps_state p) = false | Err _ => True end.

Definition ack_request (o : ReconciliationResult) (dig : json) : message := ("POST", "/v1/edge/ack", Some (ack_payload o (py_str dig))).

(** The end of a pass for a settled outcome: the data plane, then the report. *)
Definition concluded (desired : dict string json) (o : ReconciliationResult) (agent1 : Agent) (s s' : Edge (list message * W)) (r : result Pass)
    : Prop :=
  installed desired agent1 (disk s) (disk s') ∧
  ∃ dig mid, getitem (JObj desired) "configuration_digest" = Ok dig ∧ (∀ q, q ∈ sent mid → is_verified_ack q = false) ∧
    sent s' = sent mid ++ [ack_request o dig] ∧
    match r with
    | Ok p => p = {| ps_site := ag_site agent1; ps_state := rr_status o; ps_route_version := Some (rr_route_version o) |} ∧
              ∃ reply, policy_request "POST" "/v1/edge/ack" (Some (ack_payload o (py_str dig))) mid = (Ok reply, s')
    | Err _ => True
    end.

(** A pass with a settled outcome, from its first request on. *)
Definition reported (s s' : Edge (list message * W)) (r : result Pass) : Prop :=
  ∃ e site desired c agent o agent1,
    (∃ answer w, send "GET" "/v1/edge/desired" None (world s).2 = (Ok answer, w) ∧ read_answer answer = Ok desired) ∧
    enrollment (disk s) = Some e ∧ getitem (JObj e) "site" = Ok site ∧
    overlay_site_profile base (py_str site) (dget desired "site_profile") = Ok c ∧ open_agent (py_str site) c (disk s) = Ok agent ∧
    EdgeAgent.reconcile exec (JObj desired) agent = (Ok o, agent1) ∧ settled (rr_status o) = true ∧
    concluded desired o agent1 s s' r.

Lemma desired_run s (s' : Edge (list message * W)) desired : policy_request "GET" "/v1/edge/desired" None s = (Ok desired, s') →
  ∃ answer w, send "GET" "/v1/edge/desired" None (world s).2 = (Ok answer, w) ∧ read_answer answer = Ok desired.
Proof.
  unfold EdgeBootstrap.policy_request, request_json, guard, raise_if, ask_disk, outside, logged, lift, mbind, M_bind, raise. cbn.
  destruct (negb _); [done|]. destruct (send "GET" "/v1/edge/desired" None (world s).2) as [[answer|e] w]; [|done].
  intros [= Hr _]. by exists answer, w.
Qed.

(** What follows the agent's own reconciliation. *)
Definition conclude (desired : dict string json) (o : ReconciliationResult) (site : string) (agent1 : Agent) : M (Edge (list message * W)) Pass :=
  _ ← (if settled (rr_status o)
       then install_pass (logged send) exec start_classifier start_collector monitors new_pid site desired agent1 else mret tt);
  dig ← lift (getitem (JObj desired) "configuration_digest");
  _ ← policy_request "POST" "/v1/edge/ack" (Some (ack_payload o (py_str dig)));
  mret {| ps_site := site; ps_state := rr_status o; ps_route_version := Some (rr_route_version o) |}.

Lemma conclude_run desired o agent1 s s2 r s' dig : (∀ q, q ∈ sent s2 → is_verified_ack q = false) →
  documents (disk s2) = documents (disk s) → may_request (disk s2) = true → getitem (JObj desired) "configuration_digest" = Ok dig →
  conclude desired o (ag_site agent1) agent1 s2 = (r, s') →
  quiet s s' r ∨ settled (rr_status o) = true ∧ concluded desired o agent1 s s' r.
Proof.
  intros Hq2 Hdoc2 Hmay Hdig Hrun. unfold conclude in Hrun. unfold mbind at 1, M_bind at 1 in Hrun. rewrite Hdig in Hrun.
  assert (∃ ir s3, (if settled (rr_status o) then install_pass (logged send) exec start_classifier start_collector monitors new_pid
    (ag_site agent1) desired agent1 else mret tt) s2 = (ir, s3)) as (ir & s3 & Hi) by (eexists _, _; apply surjective_pairing).
  rewrite Hi in Hrun. assert (credentials (disk s3) = credentials (disk s2) ∧ (∀ q, q ∈ sent s3 → is_verified_ack q = false) ∧
    match ir with Ok _ => if settled (rr_status o) then installed desired agent1 (disk s2) (disk s3) else documents (disk s3) = documents (disk s2)
                | Err _ => documents (disk s3) = documents (disk s2) end) as (Hid3 & Hq3 & Hin).
  { destruct (settled (rr_status o)); [|injection Hi as <- <-; done]. apply install_pass_run in Hi as (? & Hq & ?).
    split_and!; try done. intros q [?|?]%Hq; auto. }
  destruct ir as [[]|x]; [|injection Hrun as <- <-; left; split_and!; [done|congruence|done]].
  unfold lift, mbind, M_bind in Hrun. destruct (policy_request "POST" "/v1/edge/ack" _ s3) as [ar s4] eqn:Hack.
  pose proof (request_run "POST" "/v1/edge/ack" _ s3 s4 _ eq_refl Hack) as [Hd4 Hs4].
  rewrite (may_request_credentials (disk s2)), Hmay in Hs4 by done.
  assert (s' = s4) as -> by (destruct ar; by injection Hrun as _ <-). destruct (settled (rr_status o)) eqn:Hset.
  - right. split; [done|]. split; [unfold installed in *; by rewrite Hd4, <- Hdoc2|]. exists dig, s3. split_and!; try done.
    destruct ar as [reply|]; injection Hrun as <-; [|done]. split; [done|]. by exists reply.
  - left. split_and!; [rewrite Hs4; by apply fresh_log, ack_unsettled|congruence|]. by destruct ar; injection Hrun as <-.
Qed.

Lemma pass_run s s' r : sent s = [] → pass s = (r, s') → quiet s s' r ∨ reported s s' r.
Proof.
  intros H0 Hrun. assert (Hnil : ∀ q, q ∈ sent s → is_verified_ack q = false) by (rewrite H0; by intros q ?%not_elem_of_nil).
  unfold EdgeBootstrap.reconcile in Hrun. unfold mbind at 1, M_bind at 1, ask_disk at 1 in Hrun.
  destruct (enrollment (disk s)) as [e|] eqn:He; [|by injection Hrun as <- <-; left]. unfold of_option in Hrun.
  unfold mbind at 1, M_bind at 1, lift at 1 in Hrun. unfold mbind at 1, M_bind at 1 in Hrun.
  destruct (policy_request "GET" "/v1/edge/desired" None s) as [got s1] eqn:Hget.
  pose proof (request_run "GET" "/v1/edge/desired" None s s1 _ eq_refl Hget) as [Hd1 Hs1].
  assert (Hq1 : ∀ q, q ∈ sent s1 → is_verified_ack q = false).
  { destruct (may_request (disk s)); [rewrite Hs1; by apply fresh_log|by destruct Hs1 as [_ ->]]. }
  assert (Hstill : ∀ x, quiet s s1 (Err x)) by (intros x; split_and!; [done|by rewrite Hd1|done]).
  destruct got as [desired|x]; [|by injection Hrun as <- <-; left].
  assert (Hmay : may_request (disk s) = true) by (destruct (may_request (disk s)); [done|by destruct Hs1]).
  destruct (is_text (dget desired "status") "PENDING").
  { left. destruct (getitem (JObj e) "site") as [v|x]; cbn in Hrun; injection Hrun as <- <-; [|by apply Hstill].
    split_and!; [done|by rewrite Hd1|done]. }
  unfold mbind at 1, M_bind at 1, lift at 1 in Hrun.
  destruct (getitem (JObj e) "site") as [site|x] eqn:Hsite; [|by injection Hrun as <- <-; left].
  cbv zeta in Hrun. unfold mbind at 1, M_bind at 1, lift at 1 in Hrun.
  destruct (overlay_site_profile base (py_str site) _) as [c|x] eqn:Hc; [|by injection Hrun as <- <-; left].
  unfold mbind at 1, M_bind at 1, ask_disk at 1 in Hrun. rewrite Hd1 in Hrun. unfold mbind at 1, M_bind at 1, lift at 1 in Hrun.
  destruct (open_agent (py_str site) c (disk s)) as [agent|x] eqn:Ha; [|by injection Hrun as <- <-; left].
  unfold mbind at 1, M_bind at 1, act at 1 in Hrun.
  destruct (EdgeAgent.reconcile exec (JObj desired) agent) as [[o|x] agent1] eqn:Hr; cbn [mbind result_bind] in Hrun.
  2: { injection Hrun as <- <-. left. split_and!; [done|cbn; by rewrite Hd1|done]. }
  set (s2 := {| disk := saved_by agent1 (disk s1); world := world s1 |}) in Hrun.
  assert (Hdoc2 : documents (disk s2) = documents (disk s)) by (cbn; by rewrite Hd1).
  assert (Hid2 : credentials (disk s2) = credentials (disk s)) by (cbn; by rewrite Hd1).
  destruct (reconcile_header _ _ _ _ Hr) as (v & rv & d & Hh). apply header_digest in Hh as (dig & Hdig & _).
  change (conclude desired o (ag_site agent) agent1 s2 = (r, s')) in Hrun. rewrite <- (reconcile_site _ _ _ _ Hr) in Hrun.
  apply (conclude_run desired o agent1 s s2 r s' dig Hq1 Hdoc2) in Hrun as [Hrun|[Hset Hrun]]; [by left| |by rewrite (may_request_credentials (disk s))|done].
  right. exists e, site, desired, c, agent, o, agent1. split_and!; try done. by eapply desired_run.
Qed.

Lemma installed_records desired a before after v dig : remembers a → recorded (local_state a) v dig = true →
  installed desired a before after → recorded (default initial_state (last_confirmed after)) v dig = true.
Proof.
  intros Hm Hr. unfold installed. destruct (dmem _ _).
  - intros (snapshot & a' & Hi & _ & _ & -> & _). pose proof (spoke_dataplane_keeps (JObj desired) (JObj snapshot) a) as Hk.
    rewrite Hi in Hk. destruct Hk as (_ & _ & _ & _ & _ & _ & _ & Hs & _). cbn [snd] in Hs. rewrite Hs. by unfold remembers in Hm; rewrite <- Hm.
  - intros (a' & Hi & _ & -> & _). pose proof (hub_backhaul_keeps (Some (JObj desired)) a) as Hk.
    rewrite Hi in Hk. destruct Hk as (_ & _ & _ & _ & _ & _ & _ & Hs & _). cbn [snd] in Hs. rewrite Hs. by unfold remembers in Hm; rewrite <- Hm.
Qed.

(** C17: an edge never claims more than it did.  Whatever the service answers
    and whichever commands fail, when a pass tells the service that a desired
    state is VERIFIED, the document came from the service in this pass and is for
    this edge, every command it calls for has run, the data plane was installed
    afterwards (for a spoke with a policy snapshot received in this pass), the
    version and digest told are the document's and are what the edge has recorded
    on its disk.  A pass that tells nothing of the kind leaves the documents the
    failover monitor runs on as they were. *)
Theorem edge_reports_truthfully s s' r : sent s = [] → pass s = (r, s') →
  (∀ b, ("POST", "/v1/edge/ack", Some b) ∈ sent s' → is_text (dget b "status") "VERIFIED" = true →
     ∃ e site desired c agent agent1 v route dig applied,
       (∃ answer w, send "GET" "/v1/edge/desired" None (world s).2 = (Ok answer, w) ∧ read_answer answer = Ok desired) ∧
       enrollment (disk s) = Some e ∧ getitem (JObj e) "site" = Ok site ∧ open_agent (py_str site) c (disk s) = Ok agent ∧
       read_header (ag_site agent) (JObj desired) = Ok (v, route, dig) ∧
       apply_desired exec (JObj desired) agent = (Ok tt, applied) ∧ commands agent1 = commands applied ∧
       installed desired agent1 (disk s) (disk s') ∧
       dget b "desired_state_version" = Some (JInt v) ∧ dget b "configuration_digest" = Some (JStr dig) ∧
       recorded (default initial_state (last_confirmed (disk s'))) v dig = true) ∧
  ((∀ q, q ∈ sent s' → is_verified_ack q = false) → documents (disk s') = documents (disk s)).
Proof.
  intros H0 Hrun. apply pass_run in Hrun as [(Hq & Hd & _)|Hrun]; [|destruct Hrun as (e & site & desired & c & agent & o & agent1 & Hget & Hen & Hsite & _
    & Ha & Hr & Hset & Hi & digest & mid & Hdig & Hmid & Hsent & _)|done].
  { split; [|done]. intros b Hb Hv. apply Hq in Hb. unfold is_verified_ack in Hb. cbn in Hb. by rewrite Hv in Hb. }
  destruct (opened_agent _ _ _ _ Ha) as (Hm & _ & Hk).
  destruct (settled_run _ _ _ _ Hm Hr Hset) as (dig & applied & Hh & Happ & Hcmd & Hrec & Hm1 & _).
  destruct (header_digest _ _ _ _ _ Hh) as (digest' & Hdig' & Hpd). rewrite Hdig in Hdig'. injection Hdig' as <-.
  assert (Hack : is_verified_ack (ack_request o digest) = true) by (unfold is_verified_ack, ack_request, ack_payload; rewrite Hset; done).
  split.
  - intros b Hb Hv. rewrite Hsent in Hb. apply elem_of_app in Hb as [Hb|Hb].
    { apply Hmid in Hb. unfold is_verified_ack in Hb. cbn in Hb. by rewrite Hv in Hb. }
    apply list_elem_of_singleton in Hb. injection Hb as ->. exists e, site, desired, c, agent, agent1, (rr_desired_state_version o), (rr_route_version o), dig, applied.
    split_and!; try done.
    + by cbn; rewrite Hpd.
    + by eapply installed_records.
  - intros Hq. rewrite (Hq (ack_request o digest)) in Hack; [done|]. rewrite Hsent. apply elem_of_app. right. by left.
Qed.

(** ** Enrolment *)

Context (genkey : option string) (pubkey : string → option string).

(** What [bootstrap] may send: the claim with a certificate request, and the
    public half of the WireGuard key. *)
Definition bootstrap_request (f : ClaimFile) (device_id nonce request_id : string) (d : Disk) (q : message) : Prop :=
  (∃ id secret csr, read_claim f = Ok (id, secret) ∧
     q = ("POST", "/v1/enroll", Some [("claim_id", JStr id); ("claim_secret", JStr secret); ("device_id", JStr device_id);
                                      ("nonce", JStr nonce); ("csr_pem", JStr csr); ("request_id", JStr request_id)])) ∨
  (∃ key public, wireguard_key d = Some key ∧ pubkey key = Some public ∧ is_wireguard_key (strip public) = true ∧
     q = ("POST", "/v1/edge/register", Some [("wireguard_public_key", JStr (strip public))])).

Lemma csr_run openssl device_id (s s' : Edge (list message * W)) r : generate_device_csr openssl device_id s = (r, s') →
  world s' = world s ∧ wireguard_key (disk s') = wireguard_key (disk s) ∧ enrollment (disk s') = enrollment (disk s) ∧
  certificate_file (disk s') = certificate_file (disk s).
Proof.
  unfold generate_device_csr, ask_disk, on_disk, lift, mbind, M_bind, mret, M_ret.
  destruct (device_private_key (disk s)); [|destruct (openssl "genpkey") as [x|e]; [|by intros [= _ <-]]];
    (destruct (openssl _) as [csr|e']; by intros [= _ <-]).
Qed.

Lemma json_run method path payload (s s' : Edge (list message * W)) r : request_json (logged send) method path payload s = (r, s') →
  disk s' = disk s ∧ (sent s' = sent s ∨ sent s' = sent s ++ [(method, path, payload)]) ∧
  (∀ d, r = Ok d → ∃ answer w, send method path payload (world s).2 = (Ok answer, w) ∧ read_answer answer = Ok d).
Proof.
  unfold request_json, guard, raise_if, outside, logged, lift, mbind, M_bind, raise, sent.
  destruct (negb _); [intros [= <- <-]; split_and!; auto; discriminate|].
  destruct (send method path payload (world s).2) as [[a|e] w] eqn:E; intros [= <- <-]; (split_and!; [done|by right|]); [|discriminate].
  intros d Hd. by exists a, w.
Qed.

Definition stored (answer : dict string json) (d : Disk) : Prop :=
  ∃ pem site serial print, getitem (JObj answer) "certificate_pem" = Ok pem ∧ getitem (JObj answer) "site" = Ok site ∧
    getitem (JObj answer) "serial" = Ok serial ∧ getitem (JObj answer) "fingerprint" = Ok print ∧ certificate_file d = Some (py_str pem) ∧
    enrollment d = Some [("site", JStr (py_str site)); ("serial", JStr (py_str serial)); ("fingerprint", JStr (py_str print))].

(** The identity of a disk is the one of another, or was given by an answer of the service. *)
Definition identity_given (d d' : Disk) : Prop :=
  (certificate_file d' = certificate_file d ∧ enrollment d' = enrollment d) ∨
  ∃ payload answer w w' content, send "POST" "/v1/enroll" payload w = (Ok answer, w') ∧ read_answer answer = Ok content ∧ stored content d'.

Lemma enroll_run openssl device_id nonce request_id f (s s' : Edge (list message * W)) r :
  enroll (logged send) openssl device_id nonce request_id f s = (r, s') →
  (∀ q, q ∈ sent s' → q ∈ sent s ∨ bootstrap_request f device_id nonce request_id (disk s') q) ∧
  wireguard_key (disk s') = wireguard_key (disk s) ∧ identity_given (disk s) (disk s') ∧
  ∀ x, r = Ok x → ∃ p g, enrollment (disk s') = Some [("site", JStr (en_site x)); ("serial", p); ("fingerprint", g)].
Proof.
  unfold enroll. unfold mbind at 1, M_bind at 1, lift at 1. destruct (read_claim f) as [[id secret]|e] eqn:Hc.
  2: { intros [= <- <-]. split_and!; auto; [by left|discriminate]. }
  unfold mbind at 1, M_bind at 1. destruct (generate_device_csr openssl device_id s) as [[csr|e] s1] eqn:Hcsr; apply csr_run in Hcsr as (Hw & Hk & He & Hf).
  2: { intros [= <- <-]. unfold sent. rewrite Hw, Hk. split_and!; auto; [by left|discriminate]. }
  unfold mbind at 1, M_bind at 1. destruct (request_json _ _ _ _ s1) as [[answer|e] s2] eqn:Hreq; apply json_run in Hreq as (Hd & Hs & Ha).
  all: assert (∀ d q, q ∈ sent s2 → q ∈ sent s ∨ bootstrap_request f device_id nonce request_id d q) as Hq
    by (unfold sent in *; rewrite Hw in Hs; intros d q Hin; destruct Hs as [->| ->] in Hin; [by left|];
        apply elem_of_app in Hin as [Hin|Hin]; [by left|]; apply list_elem_of_singleton in Hin as ->; right; left; by exists id, secret, csr).
  all: assert (Hfail : ∀ x, (Err x, s2) = (r, s') → (∀ q, q ∈ sent s' → q ∈ sent s ∨ bootstrap_request f device_id nonce request_id (disk s') q) ∧
         wireguard_key (disk s') = wireguard_key (disk s) ∧ identity_given (disk s) (disk s') ∧
         ∀ x, r = Ok x → ∃ p g, enrollment (disk s') = Some [("site", JStr (en_site x)); ("serial", p); ("fingerprint", g)])
    by (intros x [= <- <-]; rewrite Hd, Hk; split_and!; [by apply Hq|done|left; by rewrite Hf, He|discriminate]).
  2: by apply Hfail.
  unfold lift, mbind, M_bind, on_disk, mret, M_ret.
  destruct (getitem (JObj answer) "certificate_pem") as [pem|x] eqn:E1; [|by apply Hfail].
  destruct (getitem (JObj answer) "site") as [site|x] eqn:E2; [|by apply Hfail].
  destruct (getitem (JObj answer) "serial") as [serial|x] eqn:E3; [|by apply Hfail].
  destruct (getitem (JObj answer) "fingerprint") as [print|x] eqn:E4; [|by apply Hfail].
  intros [= <- <-]. cbn. rewrite Hd, Hk. split_and!; [by apply Hq|done| |].
  - right. destruct (Ha answer eq_refl) as (a & w & Hsend & Hread). eexists _, a, _, w, answer. split_and!; [done..|].
    exists pem, site, serial, print. done.
  - intros x [= <-]. cbn. eauto.
Qed.

Lemma public_key_run (s s' : Edge (list message * W)) r : wireguard_public_key genkey pubkey s = (r, s') →
  world s' = world s ∧ certificate_file (disk s') = certificate_file (disk s) ∧ enrollment (disk s') = enrollment (disk s) ∧
  (∀ k, wireguard_key (disk s) = Some k → wireguard_key (disk s') = Some k) ∧
  ∀ key, r = Ok key → ∃ private public, wireguard_key (disk s') = Some private ∧ pubkey private = Some public ∧
    is_wireguard_key (strip public) = true ∧ key = strip public.
Proof.
  assert (Hfinish : ∀ key (t : Edge (list message * W)) r' t', wireguard_key (disk t) = Some key →
    (public ← lift (of_option (pubkey key) BootstrapError "could not derive WireGuard public key");
     _ ← guard (negb (is_wireguard_key (strip public))) BootstrapError "generated WireGuard public key is invalid"; mret (strip public)) t = (r', t') →
    t' = t ∧ ∀ k, r' = Ok k → ∃ private public, wireguard_key (disk t) = Some private ∧ pubkey private = Some public ∧
      is_wireguard_key (strip public) = true ∧ k = strip public).
  { intros key t r' t' Hkey. unfold guard, raise_if, raise, of_option, lift, mbind, M_bind, mret, M_ret.
    destruct (pubkey key) as [public|] eqn:Hp; [|intros [= <- <-]; split; [done|discriminate]].
    destruct (is_wireguard_key (strip public)) eqn:Hw; cbn [negb]; intros [= <- <-]; (split; [done|]); [|discriminate].
    intros k [= <-]. by exists key, public. }
  unfold wireguard_public_key. unfold mbind at 1, M_bind at 1, ask_disk. destruct (wireguard_key (disk s)) as [key|] eqn:Hkey.
  - unfold mbind at 1, M_bind at 1, mret at 1, M_ret at 1. intros Hrun. apply (Hfinish key) in Hrun as [-> Hr]; [|done].
    rewrite Hkey in *. split_and!; auto.
  - unfold mbind at 1, M_bind at 1. destruct genkey as [generated|]; [|intros [= <- <-]; split_and!; auto; discriminate].
    unfold of_option at 1, guard at 1, raise_if at 1, lift, mbind at 1, M_bind at 1. unfold mbind at 1, M_bind at 1.
    destruct (nonempty (strip generated)); cbn [negb]; [|intros [= <- <-]; split_and!; auto; discriminate].
    unfold on_disk, mbind at 1, M_bind at 1, mret at 1, M_ret at 1. intros Hrun. apply (Hfinish (strip generated +:+ String "010" EmptyString)) in Hrun as [-> Hr]; [|done].
    split_and!; auto. discriminate.
Qed.

(** What enrolling discloses and keeps.  Whatever the services answer and
    whichever command fails, the edge sends the claim with its certificate
    request and, later, the public half of the WireGuard key on its disk, and
    nothing else; a WireGuard key once generated is never replaced; the
    certificate and the site of the edge are the ones it had or come from one
    answer of the provisioning service; and the site it reports is the stored one. *)
Theorem bootstrap_discloses openssl device_id nonce request_id f s s' r : sent s = [] →
  bootstrap (logged send) genkey pubkey openssl device_id nonce request_id f s = (r, s') →
  (∀ q, q ∈ sent s' → bootstrap_request f device_id nonce request_id (disk s') q) ∧
  (∀ k, wireguard_key (disk s) = Some k → wireguard_key (disk s') = Some k) ∧ identity_given (disk s) (disk s') ∧
  ∀ x, r = Ok x → ∃ p g, enrollment (disk s') = Some [("site", JStr (su_site x)); ("serial", p); ("fingerprint", g)].
Proof.
  intros H0. unfold bootstrap. unfold mbind at 1, M_bind at 1. destruct (enroll _ _ _ _ _ f s) as [er s1] eqn:He.
  apply enroll_run in He as (Hq & Hk & Hid & Hsite).
  assert (Hq1 : ∀ q, q ∈ sent s1 → bootstrap_request f device_id nonce request_id (disk s1) q)
    by (intros q [Hin|Hin]%Hq; [by rewrite H0 in Hin; apply not_elem_of_nil in Hin|done]).
  destruct er as [enrolled|e]; [|intros [= <- <-]; split_and!; [done|by rewrite Hk|done|discriminate]].
  destruct (Hsite enrolled eq_refl) as (p & g & Hen). unfold mbind at 1, M_bind at 1.
  destruct (wireguard_public_key genkey pubkey s1) as [kr s2] eqn:Hkey. apply public_key_run in Hkey as (Hw2 & Hf2 & He2 & Hk2 & Hr2).
  assert (Hgrow : ∀ q, bootstrap_request f device_id nonce request_id (disk s1) q → bootstrap_request f device_id nonce request_id (disk s2) q).
  { intros q [?|(key & public & Hkey & ?)]; [by left|]. right. exists key, public. split; [by apply Hk2|done]. }
  assert (Hid2 : identity_given (disk s) (disk s2)).
  { destruct Hid as [[Ea Eb]|(? & ? & ? & ? & ct & Hs & Hr & pem & site & serial & print & E1 & E2 & E3 & E4 & E5 & E6)].
    - left. split; congruence.
    - right. do 5 eexists. split_and!; [done|done|]. exists pem, site, serial, print. split_and!; congruence. }
  destruct kr as [key|e]; [|intros [= <- <-]; split_and!;
    [unfold sent; rewrite Hw2; intros q ?%Hq1; by apply Hgrow|intros k ?; apply Hk2; by rewrite Hk|done|discriminate]].
  destruct (Hr2 key eq_refl) as (private & public & Hp1 & Hp2 & Hp3 & ->). unfold mbind at 1, M_bind at 1.
  destruct (policy_request "POST" "/v1/edge/register" _ s2) as [rr s3] eqn:Hreg.
  pose proof (request_run "POST" "/v1/edge/register" _ s2 s3 _ eq_refl Hreg) as [Hd3 Hs3].
  assert (Hq3 : ∀ q, q ∈ sent s3 → bootstrap_request f device_id nonce request_id (disk s3) q).
  { rewrite Hd3. assert (Hq2 : ∀ q, q ∈ sent s2 → bootstrap_request f device_id nonce request_id (disk s2) q)
      by (unfold sent; rewrite Hw2; intros q ?%Hq1; by apply Hgrow).
    destruct (may_request (disk s2)); [|by destruct Hs3 as [_ ->]]. rewrite Hs3. intros q [Hin|Hin]%elem_of_app; [by apply Hq2|].
    apply list_elem_of_singleton in Hin as ->. right. by exists private, public. }
  intros Hrun. assert (s' = s3 ∧ ∀ x, r = Ok x → su_site x = en_site enrolled) as [-> Hx].
  { unfold lift, mbind, M_bind, mret, M_ret in Hrun. destruct rr as [registration|e]; [|by injection Hrun as <- <-].
    destruct (getitem (JObj registration) "registration") as [reg|e]; [|by injection Hrun as <- <-].
    destruct (getitem (JObj registration) "state") as [st|e]; [|by injection Hrun as <- <-]. injection Hrun as <- <-. split; [done|]. by intros x [= <-]. }
  rewrite Hd3. split_and!; [by rewrite <- Hd3|intros k ?; apply Hk2; by rewrite Hk|done|].
  intros x Hok. exists p, g. rewrite He2, Hen. by rewrite (Hx x Hok).
Qed.
End pass.
