(* ===== verification/EdgeService.v ===== *)
(** * An edge and the policy service together

    The edge's requests answered by the policy service's handlers ([PolicyHttp])
    over the wire: JSON texts with sorted keys, a client certificate of the
    device.  After a pass that reports a settled state, edge and service agree. *)
From S2P Require Import Prelude Net Marks PathSelection Model ModelValidate Json DesiredState DestinationModels Inventory Sql PolicyStore.
From S2P Require Import PolicyStoreFacts StoreHistory DynamicInventory IntentCompiler CompilerFacts PolicyService ServiceFacts.
From S2P Require Import CoreTopology PolicyHttp PolicyHttpFacts.
From S2P Require Import LocalFailover EdgeAgent SiteProfile EdgeBootstrap EdgeBootstrapFacts.
Local Open Scope string_scope.
Local Open Scope list_scope.
Local Open Scope Z_scope.

Section wire.
Context `{PyRepr} (sha256 : dict string json → string) (key_hash : string → string).
Context (input_digest : list InventorySite → list IntentRow → list InputRow → string) (clock : nat → string) (base : TopologyConfig).
Context (conf : Documents) (integrity : result unit) (schema : Z).
(** The common name of the device's certificate, and the length of a body. *)
Context (device : string) (content_length : dict string json → Z).

(** [json.dumps(value, sort_keys=True)] read back *)
Definition wire (d : dict string json) : json := canonical (JObj d).

(** What [request_json] and [http.server] make of one request; a handler that
    raises closes the connection. *)
Definition policy_send (method path : string) (payload : option (dict string json)) : M App (option Answer) := λ s,
  let r := {| path := path; subject := [[("commonName", device)]]; length_header := (λ d, str_Z (content_length d)) <$> payload;
              body := match payload with Some d => Ok (wire d) | None => raise ValueError "Expecting value" end |} in
  let '(reply, s') := if String.eqb method "GET" then do_GET clock base conf integrity schema r s
                      else do_POST sha256 key_hash input_digest clock base conf r s in
  (Ok (match reply with
       | Ok (code, content) => Some {| status_code := code; decoded := Some (wire content) |}
       | Err _ => None
       end), s').

(** ** An acknowledgement that is answered *)

(** What is said of a state: which it is, and whether it was verified. *)
Definition claim_of (r : DesiredRow) := (identity r, dr_verification r).

(** Acknowledgements stay, and so do the states with what is said of them. *)
Definition recalls (d d' : Db) : Prop :=
  ack_rows d' = ack_rows d ∧ ∀ r, r ∈ desired_rows d → ∃ r', r' ∈ desired_rows d' ∧ claim_of r' = claim_of r.

#[local] Instance recalls_preorder : PreOrder recalls.
Proof.
  split; [by intros d; split; [done|]; eauto|]. intros a b c [E1 H1] [E2 H2]. split; [congruence|].
  intros r (r' & Hr' & E)%H1. apply H2 in Hr' as (r'' & Hr'' & E'). exists r''. split; [done|congruence].
Qed.

Lemma recalls_same d d' : ack_rows d' = ack_rows d → desired_rows d' = desired_rows d → recalls d d'.
Proof. intros Ea Ed. split; [done|]. rewrite Ed. eauto. Qed.

Lemma put_recalls now s actor : moves recalls (put_desired_state sha256 now s actor).
Proof.
  intros d. destruct (put_effect sha256 now s actor d) as [[-> _]|(site & v & dig & g & x & y & z & _ & _ & _ & _ & E & audits & Hd)]; [done|].
  split; [by rewrite Hd|]. intros r Hr. rewrite E.
  assert (claim_of r ∈ map claim_of (supersede site v (desired_rows d))) as (r' & Er & Hr')%elem_of_map.
  { assert (map claim_of (supersede site v (desired_rows d)) = map claim_of (desired_rows d)) as ->.
    { unfold supersede. destruct (latest_by _ _); [|done]. by apply update_rows_map. }
    apply elem_of_map. by exists r. }
  exists r'. split; [apply elem_of_app; by left|done].
Qed.

Lemma transition_recalls now site cycle actor error op stage rec : moves recalls (transition now site cycle actor error op stage rec).
Proof.
  assert (moves (keeps (λ d, (ack_rows d, desired_rows d))) (transition now site cycle actor error op stage rec)) as Hm.
  { unfold transition. cbv zeta. repeat first [moves_step | apply (transaction_moves _) | by intros ?
      | intros d0; unfold get_or_fail, query, get, lift, raise_if, raise, of_option, mbind, M_bind, mret, M_ret; by destruct (get_site_row site d0)]. }
  intros d. specialize (Hm d). injection Hm as Ea Ed. by apply recalls_same.
Qed.

Lemma compile_recalls now actor trigger : moves recalls (compile sha256 input_digest now base actor trigger).
Proof.
  assert (Hpub : ∀ build site ch, moves recalls (publish sha256 now build site actor ch)).
  { intros build site ch. unfold publish. repeat first [moves_step | by intros ?]. apply put_recalls. }
  intros d. destruct (topology base d) as [c|e] eqn:Hc.
  - apply (compile_moves _ _ _ recalls _ _ _ _ c); [|done|..]; [|by intros..]. intros a b E. unfold core in E. apply recalls_same; congruence.
  - unfold compile, get, lift, mbind, M_bind. by rewrite Hc.
Qed.

Lemma transition_site_recalls site cycle actor error op stage rec s :
  recalls (database s) (database (transition_site sha256 input_digest clock base site cycle actor error op stage rec s).2).
Proof.
  set (R := λ s s' : Service, recalls (database s) (database s')).
  assert (PreOrder R) as Hpre by (split; unfold R; [by intros ?|intros a b c; apply transitivity]).
  assert (moves R (transition_site sha256 input_digest clock base site cycle actor error op stage rec)) as Hm; [|exact (Hm s)].
  unfold transition_site, compile_now. repeat first [moves_step | by intros ?]; intros s0.
  - unfold on_db. pose proof (transition_recalls (clock (ticks s0)) site cycle actor error op stage rec (database s0)) as Hk.
    destruct (transition _ _ _ _ _ _ _ _ _) as [r d]. exact Hk.
  - unfold R, refresh_config, get, lift, put, mbind, M_bind. destruct (topology base (database s0)); cbn; reflexivity.
  - unfold on_db. pose proof (compile_recalls (clock (ticks s0)) "policy-compiler" None (database s0)) as Hk.
    destruct (compile _ _ _ _ _ _ _) as [r d]. exact Hk.
Qed.

(** The service holds the state and the word of the edge that it is verified. *)
Definition on_record (site : string) (version : Z) (dig : string) (route : Z) (d : Db) : Prop :=
  (∃ row, row ∈ desired_rows d ∧ dr_site row = site ∧ dr_version row = version ∧ dr_digest row = dig ∧ dr_verification row = "VERIFIED") ∧
  ∃ a, a ∈ ack_rows d ∧ ak_site a = site ∧ ak_version a = version ∧ ak_digest a = dig ∧ ak_route_version a = route ∧
       ak_status a = "VERIFIED".

Lemma on_record_recalled site version dig route d d' : recalls d d' → on_record site version dig route d → on_record site version dig route d'.
Proof.
  intros [Ea Hd] [(row & Hrow & E1 & E2 & E3 & E4) Ha]. split; [|by rewrite Ea].
  apply Hd in Hrow as (row' & Hrow' & [= F1 F2 F3 F4 F5]). exists row'. split_and!; congruence.
Qed.

Lemma put_ack_present a rows : a ∈ put_ack a rows.
Proof.
  unfold put_ack. destruct (existsb (is_ack (ak_site a) (ak_version a)) rows) eqn:E; [|by apply elem_of_app; right; left].
  apply existsb_exists in E as (x & Hx & Ex). apply list_elem_of_In in Hx. unfold update_rows. apply elem_of_map. exists x. by rewrite Ex.
Qed.

Lemma ack_recorded now site version dig route detail d d' :
  ack_desired_state now site version dig route "VERIFIED" detail d = (Ok tt, d') → on_record site version dig route d'.
Proof.
  intros Hrun. destruct (ack_effect now site version dig route "VERIFIED" detail d) as [(_ & Hf & _)|(_ & (row & Hrow & Hd) & E)].
  { by rewrite Hrun in Hf. }
  rewrite Hrun in E. cbn [snd] in E. change (same_text "VERIFIED" "VERIFIED") with true in E. cbv iota in E. subst d'. split.
  - apply find_some in Hrow as [Hin His]. apply list_elem_of_In in Hin. exists (verified row). cbn.
    unfold is_state in His. apply andb_true_iff in His as [Hs%String.eqb_eq Hv%Z.eqb_eq]. split_and!; try done.
    unfold update_rows. apply elem_of_map. exists row. split; [|done].
    assert (is_state site version row = true) as -> by (unfold is_state; by rewrite Hs, Hv, Z.eqb_refl; unfold same_text; rewrite String.eqb_refl). done.
  - exists (ack_row now site version dig route "VERIFIED" detail). split; [apply put_ack_present|done].
Qed.

Lemma acknowledge_run site version dig route detail s s' :
  acknowledge_edge sha256 input_digest clock base site version dig route "VERIFIED" detail s = (Ok tt, s') →
  on_record site version dig route (database s') ∧
  ∀ j, get_site_row site (database s') = Some j → lifecycle j ∉ ["PROVISIONING"; "RECONCILING"].
Proof.
  unfold acknowledge_edge. intros ([] & s1 & H1 & Hrun)%bind_run.
  destruct (on_db_run clock (λ now, ack_desired_state now site version dig route "VERIFIED" detail) s) as (r & d & E1 & E2).
  rewrite E2 in H1. injection H1 as -> <-. apply ack_recorded in E1.
  apply bind_run in Hrun as (record & s2 & Hask & Hrun). unfold ask in Hask. apply bind_run in Hask as (s3 & s4 & [= <- <-] & [= <- <-]).
  cbn [database] in Hrun. destruct (get_site_row site d) as [i|] eqn:Hi.
  2: { injection Hrun as <-. split; [done|]. intros j. cbn [database]. by rewrite Hi. }
  destruct (same_text "VERIFIED" "VERIFIED" && inb (lifecycle i) ["PROVISIONING"; "RECONCILING"]) eqn:Hl.
  - apply bind_run in Hrun as (i' & s3 & Ht & [= <-]).
    pose proof (transition_site_recalls site "ACTIVE" "policy" None None None true
      {| database := d; PolicyService.config := PolicyService.config s; ticks := S (ticks s) |}) as Hk. rewrite Ht in Hk.
    split; [by eapply on_record_recalled|]. apply transition_site_run in Ht as ((j & Hj & Hact) & _ & _).
    intros j'. rewrite Hj. intros [= <-]. rewrite Hact. rewrite !not_elem_of_cons. split_and!; [done..|by apply not_elem_of_nil].
  - injection Hrun as <-. split; [done|]. intros j. cbn [database]. rewrite Hi. intros [= <-].
    intros Hin%inb_true. by rewrite Hin in Hl.
Qed.

(** The request the edge sends at the end of a pass, when the service accepts it. *)
Lemma ack_accepted o dig s s' a reply : settled (rr_status o) = true →
  policy_send "POST" "/v1/edge/ack" (Some (ack_payload o dig)) s = (Ok a, s') → read_answer a = Ok reply →
  ∃ site before, site_of_device conf device (database before) = Ok site ∧
    acknowledge_edge sha256 input_digest clock base site (rr_desired_state_version o) dig (rr_route_version o) "VERIFIED" (rr_detail o) before =
      (Ok tt, service s').
Proof.
  intros Hset. unfold policy_send. cbv zeta. change (String.eqb "POST" "GET") with false. cbv iota. unfold do_POST, answered.
  match goal with |- context [match ?m s with _ => _ end] => set (body := m) end.
  destruct (body s) as [[[code content]|e] s1] eqn:Hb.
  2: { destruct (bool_decide _); [|destruct (_ || _)]; intros [= <- <-]; try discriminate; cbn; discriminate. }
  intros [= <- <-] _. unfold body in Hb. apply lift_bind_run in Hb as (value & Hv & Hb).
  assert (value = [("configuration_digest", JStr dig); ("desired_state_version", JInt (rr_desired_state_version o));
    ("detail", JStr (rr_detail o)); ("route_version", JInt (rr_route_version o)); ("status", JStr "VERIFIED")]) as ->.
  { unfold json_body in Hv. apply bind_Ok in Hv as (n & _ & Hv). apply bind_unit_ok in Hv as [_ Hv]. cbn [PolicyHttp.body] in Hv.
    unfold ack_payload in Hv. rewrite Hset in Hv. by injection Hv as <-. }
  cbn [PolicyHttp.path] in Hb. change (same_text "/v1/edge/ack" "/v1/edge/register") with false in Hb.
  change (same_text "/v1/edge/ack" "/v1/edge/ack") with true in Hb. cbv iota in Hb.
  apply bind_run in Hb as (site & before & Hsite & Hb). apply lift_bind_run in Hb as (v & [= <-] & Hb).
  apply lift_bind_run in Hb as (dg & [= <-] & Hb). apply lift_bind_run in Hb as (rt & [= <-] & Hb).
  apply lift_bind_run in Hb as (st & [= <-] & Hb). apply bind_run in Hb as ([] & after & Hk & [= _ _ <-]).
  exists site, (service before). split.
  - unfold edge_site, site_for_device in Hsite. apply lift_bind_run in Hsite as (cn & [= <-] & Hsite).
    apply bind_run in Hsite as ([] & s2 & _ & Hsite). apply bind_run in Hsite as (s3 & s4 & [= <- <-] & Hsite).
    unfold lift in Hsite. by injection Hsite as Hs <-.
  - unfold serve in Hk. destruct (acknowledge_edge _ _ _ _ _ _ _ _ _ _ (service before)) as [r sv] eqn:Hrun. by injection Hk as -> <-.
Qed.

(** ** Passes against the service *)

Context (exec : list command → command → option string) (start_classifier : Z → result unit) (start_collector : result unit).
Context (monitors : Z → bool) (new_pid : Z) (edge_base : TopologyConfig).

Notation service_pass := (EdgeBootstrap.reconcile (logged policy_send) exec start_classifier start_collector monitors new_pid edge_base).

Definition served_by (s : Edge (list message * App)) : Service := service (world s).2.

Lemma request_answered method path payload (s s' : Edge (list message * App)) reply :
  policy_request (logged policy_send) method path payload s = (Ok reply, s') →
  ∃ a, policy_send method path payload (world s).2 = (Ok a, (world s').2) ∧ read_answer a = Ok reply.
Proof.
  unfold policy_request, request_json, guard, raise_if, ask_disk, outside, logged, lift, mbind, M_bind, raise.
  destruct (negb (String.prefix "/" path)); [done|]. destruct (negb _); [done|].
  destruct (policy_send method path payload (world s).2) as [[a|e] w]; [|done]. intros [= Hr <-]. by exists a.
Qed.

(** C19: after a pass, edge and service agree.  When a pass against the policy
    service ends with a settled state, the service has taken the edge's report
    for the site its certificate stands for: it holds a desired state of that
    site with the very version and digest the edge has recorded on its disk,
    marked VERIFIED, and the acknowledgement of it with the edge's route version,
    and the site is no longer waiting for its edge. *)
Theorem edge_and_service_agree s s' p : sent s = [] → service_pass s = (Ok p, s') → settled (ps_state p) = true →
  ∃ site before detail version dig route,
    site_of_device conf device (database before) = Ok site ∧
    acknowledge_edge sha256 input_digest clock base site version dig route "VERIFIED" detail before = (Ok tt, served_by s') ∧
    ps_route_version p = Some route ∧ recorded (default initial_state (last_confirmed (disk s'))) version dig = true ∧
    on_record site version dig route (database (served_by s')) ∧
    ∀ j, get_site_row site (database (served_by s')) = Some j → lifecycle j ∉ ["PROVISIONING"; "RECONCILING"].
Proof.
  intros H0 Hrun Hset. apply pass_run in Hrun as [(_ & _ & Hn)|Hrun]; [by rewrite Hset in Hn| |done].
  destruct Hrun as (e & es & desired & c & agent & o & agent1 & _ & _ & _ & _ & Ha & Hr & Ho & Hi & digest & mid & Hdig & _ & _ & -> & reply & Hack).
  destruct (opened_agent _ _ _ _ Ha) as (Hm & _). destruct (settled_run _ _ _ _ _ Hm Hr Ho) as (dig & applied & Hh & _ & _ & Hrec & Hm1 & _).
  destruct (header_digest _ _ _ _ _ Hh) as (digest' & Hdig' & Hpd). rewrite Hdig in Hdig'. injection Hdig' as <-. rewrite Hpd in Hack.
  apply request_answered in Hack as (a & Hsend & Hread). destruct (ack_accepted o dig _ _ a reply Ho Hsend Hread) as (site & before & Hsite & Hk).
  exists site, before, (rr_detail o), (rr_desired_state_version o), dig, (rr_route_version o).
  apply acknowledge_run in Hk as Hk'. destruct Hk' as [Hon Hlife]. split_and!; try done. by eapply installed_records.
Qed.
End wire.

(** ** The shipped laboratory comes up *)

Module Examples.
Import PolicyHttpFacts.Examples.

Definition body_length (d : dict string json) : Z := 100.

(** A device that has enrolled for a site. *)
Definition enrolled_disk (site : string) : Disk := {|
  device_private_key := true; csr_file := None; certificate_file := Some "PEM"; enrollment := Some [("site", JStr site)];
  wireguard_key := Some "key"; last_confirmed := None; events_file := []; steering_file := None; desired_file := None;
  profile_file := None; snapshot_file := None; monitor_file := None; kernel := [] |}.

(** One pass of a device, every command succeeding. *)
Notation lab_pass device := (EdgeBootstrap.reconcile
  (logged (policy_send text_hash plain_hash inputs ticking core_config documents (Ok tt) 4 device body_length)) (λ _ _, None) (λ _, Ok tt) (Ok tt) (λ _, false) 77 core_config).

Definition facing (d : Disk) (app : App) : Edge (list message * App) := {| disk := d; world := ([], app) |}.

Definition service_after (s : Edge (list message * App)) : App := (world s).2.

Definition registered : App :=
  (posted (register "edge-node1-2d67aa8b" "key-site1")
    (posted (register "edge-hub2" "key-hub2") (posted (register "edge-hub1" "key-hub1") start.2).2).2).2.

Definition hub1_pass := lab_pass "edge-hub1" (facing (enrolled_disk "hub1") registered).
Definition hub2_pass := lab_pass "edge-hub2" (facing (enrolled_disk "hub2") (service_after hub1_pass.2)).
Definition activated := posted (activate "sdwan-admin") (service_after hub2_pass.2).
Definition site_start := facing (enrolled_disk "node1") activated.2.
Notation site_pass := (lab_pass "edge-node1-2d67aa8b" site_start).
Definition later_pass := lab_pass "edge-node1-2d67aa8b" (facing (disk site_pass.2) (service_after site_pass.2)).

Definition site_result : Pass := {| ps_site := "site1"; ps_state := "VERIFIED"; ps_route_version := Some 1 |}.

(** Hubs first, then the spoke: activation finds the hubs verified, the spoke
    applies what it is sent and is ACTIVE; the next pass changes nothing. *)
Lemma laboratory_comes_up :
  hub1_pass.1 = Ok {| ps_site := "hub1"; ps_state := "VERIFIED"; ps_route_version := Some 2 |} ∧
  hub2_pass.1 = Ok {| ps_site := "hub2"; ps_state := "VERIFIED"; ps_route_version := Some 2 |} ∧
  code activated = Some OK ∧ site_pass.1 = Ok site_result ∧
  (lifecycle <$> get_site_row "site1" (database (service (service_after site_pass.2)))) = Some "ACTIVE" ∧
  map (λ q, q.1) (sent site_pass.2) = [("GET", "/v1/edge/desired"); ("GET", "/v1/edge/policy/site1"); ("POST", "/v1/edge/ack")] ∧
  later_pass.1 = Ok {| ps_site := "site1"; ps_state := "MATCHED"; ps_route_version := Some 1 |}.
Proof. vm_compute. by split_and!. Qed.

(** Before the hubs are verified an edge is told to wait. *)
Lemma edge_waits : (lab_pass "edge-node1-2d67aa8b" (facing (enrolled_disk "node1") registered)).1 =
  Ok {| ps_site := "node1"; ps_state := "PENDING"; ps_route_version := None |}.
Proof. vm_compute. reflexivity. Qed.
Lemma edge_and_service_agree_witness : ∃ site version dig,
  on_record site version dig 1 (database (served_by site_pass.2)) ∧
  recorded (default initial_state (last_confirmed (disk site_pass.2))) version dig = true.
Proof.
  destruct site_pass as [r s'] eqn:Hrun. assert (r = Ok site_result) as ->.
  { change r with (r, s').1. rewrite <- Hrun. vm_compute. reflexivity. }
  apply edge_and_service_agree in Hrun as (site & before & detail & version & dig & route & _ & _ & E & Hrec & Hon & _); [|reflexivity..].
  injection E as <-.
  by exists site, version, dig.
Defined.

Lemma edge_reports_truthfully_witness : ∃ b v dig,
  ("POST", "/v1/edge/ack", Some b) ∈ sent site_pass.2 ∧ dget b "desired_state_version" = Some (JInt v) ∧
  recorded (default initial_state (last_confirmed (disk site_pass.2))) v dig = true.
Proof.
  destruct site_pass as [r s'] eqn:Hrun.
  assert (∃ b, ("POST", "/v1/edge/ack", Some b) ∈ sent s' ∧ is_text (dget b "status") "VERIFIED" = true) as (b & Hb & Hv).
  { change s' with (r, s').2. rewrite <- Hrun. eexists. split; [|shelve]. vm_compute. right. right. left. Unshelve. vm_compute. reflexivity. }
  apply edge_reports_truthfully in Hrun as [H _]; [|reflexivity].
  destruct (H b Hb Hv) as (e & site & desired & c & agent & agent1 & v & route & dig & applied & _ & _ & _ & _ & _ & _ & _ & _ & Hver & _ & Hrec).
  by exists b, v, dig.
Defined.
End Examples.
