(* ===== verification/DependencyGraph.v ===== *)
(** * The dependency graph of the management service
      ([management/graph.py], the graph queries of [management/service.py])

    A graph of components built from the topology, the administrative intents
    and the controller's published state, its searches, and the endpoint names
    an operator may use.  pydantic checks the fields of an [EvidenceFact]:
    [valid_fact] says whether it accepts one. *)
From Stdlib Require Import Ascii.
From S2P Require Import Prelude Net Marks PathSelection Model Json Sql PolicyStore.
Local Open Scope string_scope.
Local Open Scope list_scope.
Local Open Scope Z_scope.

(** ** Nodes, edges, facts *)

Inductive StateKind := CONFIGURED | DESIRED | OBSERVED | DERIVED.

Inductive NodeType :=
  | SITE | WAN_EDGE | HUB | HOST | INTERFACE | UNDERLAY | OVS_DATAPATH | RYU_CONTROLLER | UNDERLAY_ATTACHMENT | WIREGUARD_TUNNEL
  | ROUTING_TABLE | APPLICATION_POLICY | SLA_PROFILE | DATA_CENTER | SAAS_DESTINATION | CLOUD_APPLICATION | FACT | COMPONENT.

Inductive RelationType :=
  | HOSTS | REPRESENTED_BY | CONNECTED_TO | HAS_INTERFACE | BELONGS_TO_UNDERLAY | CONTROLLED_BY | HAS_ATTACHMENT | AUTHORIZED_AS
  | USES_TUNNEL | TUNNELED_TO | SELECTS_TABLE | GOVERNED_BY | HAS_SLA | ATTACHED_TO | OWNED_BY | OBSERVES | SUPPORTS | AFFECTS.

Definition relation_value (r : RelationType) : string :=
  match r with
  | HOSTS => "HOSTS" | REPRESENTED_BY => "REPRESENTED_BY" | CONNECTED_TO => "CONNECTED_TO" | HAS_INTERFACE => "HAS_INTERFACE"
  | BELONGS_TO_UNDERLAY => "BELONGS_TO_UNDERLAY" | CONTROLLED_BY => "CONTROLLED_BY" | HAS_ATTACHMENT => "HAS_ATTACHMENT"
  | AUTHORIZED_AS => "AUTHORIZED_AS" | USES_TUNNEL => "USES_TUNNEL" | TUNNELED_TO => "TUNNELED_TO" | SELECTS_TABLE => "SELECTS_TABLE"
  | GOVERNED_BY => "GOVERNED_BY" | HAS_SLA => "HAS_SLA" | ATTACHED_TO => "ATTACHED_TO" | OWNED_BY => "OWNED_BY" | OBSERVES => "OBSERVES"
  | SUPPORTS => "SUPPORTS" | AFFECTS => "AFFECTS"
  end.

Record GraphNode := { node_id : string; node_type : NodeType; attributes : dict string json; node_sources : list string }.
Record GraphEdge := {
  edge_id : string; source_id : string; target_id : string; relation_type : RelationType; state_kind : StateKind; edge_sources : list string
}.
Record EvidenceFact := {
  fact_id : string; component_id : string; fact_type : string; fact_value : json; fact_source : string; observed_at : json;
  fact_state : StateKind
}.

(** [DependencyGraph]: dictionaries in insertion order. *)
Record DependencyGraph := { nodes : dict string GraphNode; edges : dict string GraphEdge; facts : dict string EvidenceFact }.

Definition empty_graph : DependencyGraph := {| nodes := []; edges := []; facts := [] |}.
Definition edge_list (g : DependencyGraph) : list GraphEdge := dvals (edges g).

Definition add_node (n : GraphNode) : M DependencyGraph unit :=
  g ← get; put {| nodes := dset (nodes g) (node_id n) n; edges := edges g; facts := facts g |}.

Definition add_edge (e : GraphEdge) : M DependencyGraph unit :=
  g ← get;
  _ ← lift (raise_if (negb (dmem (nodes g) (source_id e)) || negb (dmem (nodes g) (target_id e))) ValueError
              "graph edge references an unknown node");
  put {| nodes := nodes g; edges := dset (edges g) (edge_id e) e; facts := facts g |}.

Definition add_fact (f : EvidenceFact) : M DependencyGraph unit :=
  g ← get; put {| nodes := nodes g; edges := edges g; facts := dset (facts g) (fact_id f) f |}.

Definition component (g : DependencyGraph) (id : string) : option GraphNode := dget (nodes g) id.

(** ** Searches *)

Inductive Direction := Outgoing | Incoming | Both.
Definition follows (d : Direction) : bool * bool :=
  match d with Outgoing => (true, false) | Incoming => (false, true) | Both => (true, true) end.

(** One edge of a pass: whether it is selected, and the node it leads to. *)
Definition expand_edge (d : Direction) (frontier : gset string) (acc : list GraphEdge * gset string) (e : GraphEdge)
    : list GraphEdge * gset string :=
  let acc := if (follows d).1 && bool_decide (source_id e ∈ frontier) then (acc.1 ++ [e], {[target_id e]} ∪ acc.2) else acc in
  if (follows d).2 && bool_decide (target_id e ∈ frontier) then (acc.1 ++ [e], {[source_id e]} ∪ acc.2) else acc.

Definition expand_pass (d : Direction) (es : list GraphEdge) (frontier : gset string) : list GraphEdge * gset string :=
  fold_left (expand_edge d frontier) es ([], ∅).

Fixpoint expand_loop (d : Direction) (es : list GraphEdge) (depth : nat) (visited frontier : gset string) (selected : list GraphEdge)
    : gset string * list GraphEdge :=
  match depth with
  | O => (visited, selected)
  | S depth =>
      let '(more, next) := expand_pass d es frontier in
      let next := next ∖ visited in
      if bool_decide (next = ∅) then (visited, selected ++ more)
      else expand_loop d es depth (visited ∪ next) next (selected ++ more)
  end.

(** [depth = max(0, min(depth, 8))] *)
Definition bounded_depth (depth : Z) : nat := Z.to_nat (Z.max 0 (Z.min depth 8)).

(** [None]: an unknown component. *)
Definition expand (g : DependencyGraph) (id : string) (d : Direction) (depth : Z) : option (list string * list GraphEdge) :=
  if negb (dmem (nodes g) id) then None
  else
    let '(visited, selected) := expand_loop d (edge_list g) (bounded_depth depth) {[id]} {[id]} [] in
    Some (sort_by String.leb (elements visited), selected).

Definition impact_scope (g : DependencyGraph) (id : string) : option (list string) :=
  match expand g id Incoming 8 with
  | Some (visited, _) => Some (List.filter (λ n, negb (String.eqb n id)) visited)
  | None => None
  end.

(** [for edge in self.edges.values(): ...] for one node taken from the queue *)
Definition enqueue (es : list GraphEdge) (current : string) (path : list GraphEdge) (queue : list (string * list GraphEdge)) (seen : list string)
    : list (string * list GraphEdge) * list string :=
  fold_left (λ acc e,
    if String.eqb (source_id e) current && negb (inb (target_id e) acc.2)
    then (acc.1 ++ [(target_id e, path ++ [e])], acc.2 ++ [target_id e]) else acc) es (queue, seen).

(** The [while] loop; [None] is out of fuel, [Some None] an empty queue. *)
Fixpoint search (es : list GraphEdge) (target : string) (fuel : nat) (queue : list (string * list GraphEdge)) (seen : list string)
    : option (option (list GraphEdge)) :=
  match fuel with
  | O => None
  | S fuel =>
      match queue with
      | [] => Some None
      | (current, path) :: rest =>
          if String.eqb current target then Some (Some path)
          else let '(queue, seen) := enqueue es current path rest seen in search es target fuel queue seen
      end
  end.

Inductive PathAnswer := UnknownEnds | NoPath | Found (path : list GraphEdge).

(** Every node is queued at most once: that many rounds and one more. *)
Definition find_path (g : DependencyGraph) (source target : string) : option PathAnswer :=
  if negb (dmem (nodes g) source) || negb (dmem (nodes g) target) then Some UnknownEnds
  else match search (edge_list g) target (S (length (nodes g))) [(source, [])] [source] with
       | Some (Some p) => Some (Found p)
       | Some None => Some NoPath
       | None => None
       end.

(** ** Building the graph *)

(** The entries of [ManagementService.topology_view]. *)
Definition hub_entry (h : Hub) : dict string json := [("name", JStr (hub_name h)); ("management_ip", JStr (addr_str (hub_management_ip h)))].
Definition site_entry (s : Site) : dict string json :=
  [("name", JStr (site_name s)); ("edge_node", JStr (s_edge_node s)); ("host_name", JStr (host_name s));
   ("lan", JStr (network_str (lan_network s))); ("preferred_hub", JStr (Model.preferred_hub s)); ("standby_hub", JStr (Model.standby_hub s))].
Definition transport_entry (t : Transport) : dict string json :=
  [("name", JStr (tr_name t)); ("network", JStr (network_str (tr_network t))); ("internet_capable", JBool (internet_capable t));
   ("table", JInt (tr_route_table t))].
Definition data_center_entry (c : TopologyConfig) : dict string json :=
  [("network", JStr (network_str (data_center_network c))); ("app_ip", JStr (addr_str (data_center_app_ip c)))].
Definition saas_entry (c : TopologyConfig) : dict string json :=
  [("network", JStr (network_str (saas_network c))); ("app_ip", JStr (addr_str (saas_ip c)))].
Definition cloud_entry (c : TopologyConfig) : dict string json :=
  [("enabled", JBool (vpc_enabled (cloud_vpc c))); ("network", JStr (network_str (vpc_network (cloud_vpc c))))].

Definition topology_view (c : TopologyConfig) : dict string json :=
  [("management_network", JStr (network_str (management_network c))); ("hubs", JList (map (λ h, JObj (hub_entry h)) (dvals (hubs c))));
   ("sites", JList (map (λ s, JObj (site_entry s)) (site_list c)));
   ("transports", JList (map (λ t, JObj (transport_entry t)) (transport_list c)));
   ("data_center", JObj (data_center_entry c)); ("saas", JObj (saas_entry c)); ("cloud_vpc", JObj (cloud_entry c))].

(** A row of [inventory.intents()] *)
Definition intent_entry (r : IntentRow) : dict string json :=
  [("intent_id", JStr (in_id r)); ("intent_type", JStr (in_type r)); ("target", JStr (in_target r)); ("digest", JStr (in_digest r));
   ("status", JStr (in_status r)); ("created_by", JStr (in_created_by r)); ("created_at", JStr (in_created r));
   ("updated_at", JStr (in_updated r)); ("contents", JObj (in_contents r))].

(** The file the controller publishes its state in. *)
Inductive StateFile := Missing | Unreadable | Published (state : json).

Definition underlay_state (f : StateFile) : dict string json :=
  match f with
  | Published s => [("availability", JStr "AVAILABLE"); ("state", s)]
  | Missing => [("availability", JStr "UNAVAILABLE"); ("reason", JStr "underlay controller state has not been published")]
  | Unreadable => [("availability", JStr "UNAVAILABLE"); ("reason", JStr "underlay controller state is unreadable")]
  end.

Section build.
Context `{PyRepr} (valid_fact : EvidenceFact → bool).

(** [DependencyGraphBuilder.node] and [.edge] *)
Definition node (id : string) (type : NodeType) (attrs : dict string json) (source : string) : M DependencyGraph unit :=
  add_node {| node_id := id; node_type := type; attributes := attrs; node_sources := [source] |}.

Definition edge (source target : string) (relation : RelationType) (state : StateKind) (from : string) : M DependencyGraph unit :=
  let id := source +:+ ":" +:+ relation_value relation +:+ ":" +:+ target in
  g ← get;
  if dmem (edges g) id then mret tt
  else add_edge {| edge_id := id; source_id := source; target_id := target; relation_type := relation; state_kind := state;
                   edge_sources := [from] |}.

Definition has_node (id : string) : M DependencyGraph bool := g ← get; mret (dmem (nodes g) id).

Definition hub_id (name : string) : string := "hub:" +:+ name.
Definition site_id (name : string) : string := "site:" +:+ name.
Definition edge_node_id (name : string) : string := "edge:" +:+ name.
Definition host_id (name : string) : string := "host:" +:+ name.
Definition underlay_id (name : string) : string := "underlay:" +:+ name.
Definition interface_id (edge_node transport : string) : string := "interface:" +:+ edge_node +:+ ":" +:+ transport.

Definition build_hub (h : Hub) : M DependencyGraph unit :=
  _ ← node (hub_id (hub_name h)) HUB (hub_entry h) "topology";
  edge (hub_id (hub_name h)) "component:edge" OWNED_BY CONFIGURED "architecture".

Definition build_transport (t : Transport) : M DependencyGraph unit :=
  _ ← node (underlay_id (tr_name t)) UNDERLAY (transport_entry t) "topology";
  edge (underlay_id (tr_name t)) "component:ryu" CONTROLLED_BY CONFIGURED "architecture".

Definition build_interface (s : Site) (t : Transport) : M DependencyGraph unit :=
  let id := interface_id (s_edge_node s) (tr_name t) in
  _ ← node id INTERFACE [("site", JStr (site_name s)); ("edge_node", JStr (s_edge_node s)); ("transport", JStr (tr_name t))] "topology";
  _ ← edge (edge_node_id (s_edge_node s)) id HAS_INTERFACE CONFIGURED "topology";
  edge id (underlay_id (tr_name t)) BELONGS_TO_UNDERLAY CONFIGURED "topology".

Definition build_tunnels (s : Site) (hub : string) : M DependencyGraph unit :=
  if nonempty hub then
    _ ← edge (site_id (site_name s)) (hub_id hub) CONNECTED_TO DESIRED "site inventory";
    edge (hub_id hub) (site_id (site_name s)) TUNNELED_TO DESIRED "site inventory"
  else mret tt.

Definition build_site (ts : list Transport) (s : Site) : M DependencyGraph unit :=
  let sid := site_id (site_name s) in let eid := edge_node_id (s_edge_node s) in let hid := host_id (host_name s) in
  _ ← node sid SITE (site_entry s) "topology";
  _ ← edge sid "component:edge" OWNED_BY CONFIGURED "architecture";
  _ ← node eid WAN_EDGE [("edge_node", JStr (s_edge_node s)); ("site", JStr (site_name s))] "topology";
  _ ← edge sid eid REPRESENTED_BY CONFIGURED "topology";
  _ ← edge eid sid REPRESENTED_BY CONFIGURED "topology";
  _ ← edge eid "component:edge" OWNED_BY CONFIGURED "architecture";
  _ ← node hid HOST [("site", JStr (site_name s)); ("edge_node", JStr (s_edge_node s)); ("lan", JStr (network_str (lan_network s)))] "topology";
  _ ← edge eid hid HOSTS CONFIGURED "topology";
  _ ← edge hid eid ATTACHED_TO CONFIGURED "topology";
  _ ← forM (build_tunnels s) [Model.preferred_hub s; Model.standby_hub s];
  forM (build_interface s) ts.

Definition build_saas (s : Site) (transport : string) : M DependencyGraph unit :=
  let id := interface_id (s_edge_node s) transport in
  known ← has_node id;
  if known : bool then edge id "destination:public-saas" CONNECTED_TO CONFIGURED "saas direct-internet policy" else mret tt.

Definition build_topology (c : TopologyConfig) : M DependencyGraph unit :=
  _ ← node "component:edge" COMPONENT [("owner", JStr "SD-WAN Edge")] "management";
  _ ← node "component:ryu" RYU_CONTROLLER [("owner", JStr "Ryu centralized L3 underlay control")] "management";
  _ ← node "component:policy" COMPONENT [("owner", JStr "Policy Service")] "management";
  _ ← node "component:ztp" COMPONENT [("owner", JStr "ZTP Service")] "management";
  _ ← forM build_hub (dvals (hubs c));
  _ ← forM build_transport (transport_list c);
  _ ← forM (build_site (transport_list c)) (site_list c);
  _ ← node "destination:data-center" DATA_CENTER (data_center_entry c) "topology";
  _ ← node "destination:public-saas" SAAS_DESTINATION (saas_entry c) "topology";
  _ ← forM (λ h, edge (hub_id (hub_name h)) "destination:data-center" CONNECTED_TO CONFIGURED "topology") (dvals (hubs c));
  _ ← forM (λ s, forM (build_saas s) ["bb"; "lte"]) (site_list c);
  if vpc_enabled (cloud_vpc c) then node "destination:cloud" CLOUD_APPLICATION (cloud_entry c) "topology" else mret tt.

Definition build_intent (r : IntentRow) : M DependencyGraph unit :=
  let id := "intent:" +:+ in_id r in
  _ ← node id APPLICATION_POLICY (intent_entry r) "policy-db"; edge id "component:policy" OWNED_BY DESIRED "policy-db".

(** [x or y] on the values of a mapping *)
Definition py_or (x y : json) : json := if py_truth x then x else y.
Definition value_of (item : json) (k : string) : result json := get_default item k JNull.

Definition build_attachment (transport : string) (item : json) : M DependencyGraph unit :=
  site ← lift (value_of item "site"); other ← lift (value_of item "node"); address ← lift (value_of item "address");
  attrs ← lift (match item with JObj d => Ok d | _ => raise ValueError "validation error" end);
  let id := "attachment:" +:+ transport +:+ ":" +:+ py_str (py_or site (py_or other (py_or address (JStr "attachment")))) in
  _ ← node id UNDERLAY_ATTACHMENT attrs "ryu-underlay-state";
  known ← has_node (underlay_id transport);
  _ ← (if known : bool then edge (underlay_id transport) id HAS_ATTACHMENT OBSERVED "ryu-underlay-state" else mret tt);
  let site := py_or site other in
  known ← has_node (site_id (py_str site));
  if py_truth site && known then edge id (site_id (py_str site)) AUTHORIZED_AS OBSERVED "ryu-underlay-state" else mret tt.

Definition build_event (numbered : nat * json) : M DependencyGraph unit :=
  let event := numbered.2 in
  transport ← lift (get_default event "transport" (JStr "unknown"));
  let component := underlay_id (py_str transport) in
  known ← has_node component;
  if negb known then mret tt
  else
    type ← lift (get_default event "type" (JStr "underlay_event")); time ← lift (value_of event "timestamp");
    let fact := {| fact_id := "underlay-event:" +:+ str_Z (Z.of_nat numbered.1); component_id := component; fact_type := py_str type;
                   fact_value := event; fact_source := "ryu-underlay-state"; observed_at := time; fact_state := OBSERVED |} in
    _ ← lift (raise_if (negb (valid_fact fact)) ValueError "validation error for EvidenceFact"); add_fact fact.

(** [enumerate(items)] *)
Fixpoint enumerate {A} (n : nat) (l : list A) : list (nat * A) :=
  match l with [] => [] | x :: l' => (n, x) :: enumerate (S n) l' end.

Definition mapping_items (j : json) : result (dict string json) :=
  match j with JObj d => Ok d | _ => raise AttributeError "object has no attribute 'items'" end.

(** [events[-100:]], then its items; a mapping cannot be sliced *)
Definition last_events (j : json) : result (list json) :=
  match j with JObj _ => raise TypeError "unhashable type: 'slice'" | _ => items ← items_of j; Ok (lastn 100 items) end.

Definition build_observed (state : json) : M DependencyGraph unit :=
  ats ← lift (get_default state "attachments" (JObj [])); ats ← lift (mapping_items ats);
  _ ← forM (λ p : string * json, items ← lift (items_of p.2); forM (build_attachment p.1) items) ats;
  events ← lift (get_default state "events" (JList [])); events ← lift (last_events events);
  forM build_event (enumerate 0 events).

Definition build (c : TopologyConfig) (intents : list IntentRow) (f : StateFile) : result DependencyGraph :=
  match (_ ← build_topology c; _ ← forM build_intent intents;
         match f with Published state => build_observed state | _ => mret tt end) empty_graph with
  | (Ok _, g) => Ok g
  | (Err e, _) => Err e
  end.

(** ** Endpoint names *)

Record Endpoint := {
  ep_name : string; ep_kind : string; ep_ip : addr; ep_site : option string; ep_edge_node : option string; ep_aliases : list string;
  ep_management_ip : option addr
}.

(** [character.isalnum()] and [.isdigit()] on ASCII *)
Definition is_digit (a : ascii) : bool := let n := N_of_ascii a in ((48 <=? n) && (n <=? 57))%N.
Definition is_alnum (a : ascii) : bool :=
  let n := N_of_ascii a in is_digit a || ((65 <=? n) && (n <=? 90))%N || ((97 <=? n) && (n <=? 122))%N.

Fixpoint keep_chars (p : ascii → bool) (s : string) : string :=
  match s with EmptyString => EmptyString | String a s' => if p a then String a (keep_chars p s') else keep_chars p s' end.

Definition endpoint_key (value : string) : string := keep_chars is_alnum (lower value).

Definition branch_endpoints (s : Site) : list Endpoint :=
  [{| ep_name := host_name s; ep_kind := "branch_host"; ep_ip := host_ip s; ep_site := Some (site_name s);
      ep_edge_node := Some (s_edge_node s);
      ep_aliases := [host_name s; site_name s +:+ "-host"; "node_host" +:+ keep_chars is_digit (site_name s)];
      ep_management_ip := None |};
   {| ep_name := s_edge_node s; ep_kind := "branch_edge"; ep_ip := lan_gateway s; ep_site := Some (site_name s);
      ep_edge_node := Some (s_edge_node s); ep_aliases := [s_edge_node s; site_name s]; ep_management_ip := None |}].

Definition plain_endpoint (name kind : string) (ip : addr) (aliases : list string) : Endpoint := {|
  ep_name := name; ep_kind := kind; ep_ip := ip; ep_site := None; ep_edge_node := None; ep_aliases := aliases; ep_management_ip := None |}.

Definition gateway_endpoint (v : CloudVPC) (g : string) : result Endpoint :=
  ip ← of_option (dget (gateway_ips v) g) KeyError g; management ← of_option (dget (gateway_management_ips v) g) KeyError g;
  Ok {| ep_name := g; ep_kind := "cloud_gateway"; ep_ip := ip; ep_site := None; ep_edge_node := None; ep_aliases := [g];
        ep_management_ip := Some management |}.

Definition endpoint_inventory (c : TopologyConfig) : result (list Endpoint) :=
  let v := cloud_vpc c in
  gateways ← (if vpc_enabled v then mapM_result (gateway_endpoint v) (active_gateways v) else Ok []);
  Ok (flat_map branch_endpoints (site_list c) ++
      map (λ h, plain_endpoint (hub_name h) "hub" (hub_management_ip h) [hub_name h]) (dvals (hubs c)) ++
      [plain_endpoint (data_center_app_name c) "data_center_application" (data_center_app_ip c)
         [data_center_app_name c; "data_center"; "data-center"; "dc"];
       plain_endpoint (saas_app_name c) "saas_application" (saas_ip c) [saas_app_name c; "public_saas"; "saas"]] ++
      (if vpc_enabled v then [plain_endpoint (vpc_app_name v) "cloud_application" (vpc_app_ip v) [vpc_app_name v; "cloud_app"; "cloud"]] else []) ++
      gateways).

Definition names_endpoint (key : string) (e : Endpoint) : bool := inb key (map endpoint_key (ep_aliases e)).

Definition resolve_endpoint (c : TopologyConfig) (value : string) : result (option Endpoint) :=
  es ← endpoint_inventory c; Ok (find (names_endpoint (endpoint_key value)) es).

(** ** Expected paths *)

Inductive Expected := NoExpectation (reason : string) | Candidates (source destination : Endpoint) (paths : list (list string)).

Definition expected_paths (c : TopologyConfig) (source destination : Endpoint) : result Expected :=
  if negb (String.eqb (ep_kind source) "branch_host") then Ok (NoExpectation "expected path currently starts at a branch host")
  else
    site ← of_option (ep_site source) KeyError "site";
    let start := [host_id (ep_name source); site_id site] in
    let kind := ep_kind destination in
    if String.eqb kind "data_center_application" then
      p ← get_site c site;
      Ok (Candidates source destination (map (λ h, start ++ [hub_id h; "destination:data-center"]) [Model.preferred_hub p; Model.standby_hub p]))
    else if String.eqb kind "branch_host" then
      other ← of_option (ep_site destination) KeyError "site";
      p ← get_site c site; q ← get_site c other;
      let hubs := List.filter (λ h, inb h [Model.preferred_hub q; Model.standby_hub q]) [Model.preferred_hub p; Model.standby_hub p] in
      Ok (Candidates source destination (map (λ h, start ++ [hub_id h; site_id other; host_id (ep_name destination)]) hubs))
    else if String.eqb kind "saas_application" then
      node ← edge_node c site;
      Ok (Candidates source destination (map (λ t, start ++ [interface_id node t; "destination:public-saas"]) ["bb"; "lte"]))
    else Ok (NoExpectation "no deterministic expected-path template for destination kind").

Definition graph_expected_traffic_path (c : TopologyConfig) (source destination : string) : result Expected :=
  s ← resolve_endpoint c source; d ← resolve_endpoint c destination;
  match s, d with
  | Some s, Some d => expected_paths c s d
  | _, _ => Ok (NoExpectation "unresolved source or destination endpoint")
  end.

Definition graph_evidence (g : DependencyGraph) (wanted : list string) : list EvidenceFact :=
  List.filter (λ f, bool_decide (wanted = []) || inb (component_id f) wanted) (dvals (facts g)).
End build.
