(* ===== verification/DependencyGraphFacts.v ===== *)
(** * Facts about the dependency graph

    The searches are the graph-theoretic notions: [find_path] gives a shortest
    directed path or there is none, [expand] the nodes within its depth; and the
    graph of an accepted topology has the paths its traffic takes. *)
From S2P Require Import Prelude Net Marks PathSelection Model ModelValidate Json Sql PolicyStore ModelParse CoreTopology TopologyFacts.
From S2P Require Import DesiredState Inventory DynamicInventory Underlay Controller DependencyGraph.
Local Open Scope string_scope.
Local Open Scope list_scope.
Local Open Scope Z_scope.

(** ** Paths *)

Fixpoint chain (es : list GraphEdge) (s : string) (p : list GraphEdge) (t : string) : Prop :=
  match p with [] => s = t | e :: p => e ∈ es ∧ source_id e = s ∧ chain es (target_id e) p t end.

Lemma chain_snoc es s p e t : chain es s (p ++ [e]) t ↔ chain es s p (source_id e) ∧ e ∈ es ∧ target_id e = t.
Proof.
  revert s. induction p as [|x p IH]; intros s; simpl.
  - naive_solver.
  - rewrite IH. naive_solver.
Qed.

Lemma chain_cases es s p t : chain es s p t → (p = [] ∧ t = s) ∨ ∃ q e, p = q ++ [e] ∧ chain es s q (source_id e) ∧ e ∈ es ∧ target_id e = t.
Proof.
  destruct p as [|e q _] using rev_ind; [by left|]. intros H%chain_snoc. right. by exists q, e.
Qed.

(** ** [find_path] *)

Section search.
Context (es : list GraphEdge) (s t : string) (universe : list string).
Context (Hclosed : ∀ e, e ∈ es → target_id e ∈ universe).

Lemma enqueue_spec current path queue seen : ∃ fresh,
  enqueue es current path queue seen = (queue ++ fresh, seen ++ map fst fresh) ∧ NoDup (map fst fresh) ∧
  (∀ y p, (y, p) ∈ fresh → y ∉ seen ∧ ∃ e, e ∈ es ∧ source_id e = current ∧ target_id e = y ∧ p = path ++ [e]) ∧
  ∀ e, e ∈ es → source_id e = current → target_id e ∈ seen ++ map fst fresh.
Proof.
  unfold enqueue. clear Hclosed. revert queue seen. induction es as [|e l IH]; intros queue seen; cbn [fold_left].
  - exists []. rewrite !app_nil_r. split_and!; [done|constructor|by intros ? ? ?%not_elem_of_nil|by intros ? ?%not_elem_of_nil].
  - destruct (String.eqb_spec (source_id e) current) as [Hs|Hs]; cbn [andb fst snd].
    2: { destruct (IH queue seen) as (fresh & E & Hn & Hf & Hc). exists fresh. split_and!; [done|done| |].
      - intros y p (Hy & e' & He' & ?)%Hf. split; [done|]. exists e'. split; [by right|done].
      - intros e' [->|He']%elem_of_cons; [done|by apply Hc]. }
    destruct (inb (target_id e) seen) eqn:Hseen; cbn [negb].
    + destruct (IH queue seen) as (fresh & E & Hn & Hf & Hc). exists fresh. split_and!; [done|done| |].
      * intros y p (Hy & e' & He' & ?)%Hf. split; [done|]. exists e'. split; [by right|done].
      * intros e' [->|He']%elem_of_cons Hs'; [|by apply Hc]. apply elem_of_app. left. by apply inb_true.
    + apply inb_false in Hseen. destruct (IH (queue ++ [(target_id e, path ++ [e])]) (seen ++ [target_id e])) as (fresh & E & Hn & Hf & Hc).
      exists ((target_id e, path ++ [e]) :: fresh). rewrite E. cbn [map fst]. rewrite <- !app_assoc. split_and!; [done| | |].
      * constructor; [|done]. intros ([y p] & Ey & Hy)%elem_of_map. simpl in Ey. subst y. apply Hf in Hy as [Hy _]. apply Hy, elem_of_app. right. by left.
      * intros y p [[= -> ->]|Hy]%elem_of_cons.
        -- split; [done|]. exists e. split_and!; [by left|done..].
        -- apply Hf in Hy as (Hy & e' & He' & ?). split; [intros ?; apply Hy, elem_of_app; by left|]. exists e'. split; [by right|done].
      * intros e' [->|He']%elem_of_cons Hs'; [apply elem_of_app; right; by left|]. specialize (Hc e' He' Hs').
        by rewrite <- app_assoc in Hc.
Qed.

(** The queue holds shortest paths of two consecutive lengths, and every node
    nearer than the first is known; a known node is queued or done. *)
Record searching (k : nat) (queue : list (string * list GraphEdge)) (seen : list string) : Prop := {
  sr_levels : ∃ a b, queue = a ++ b ∧ (∀ x, x ∈ a → length x.2 = k) ∧ ∀ x, x ∈ b → length x.2 = S k;
  sr_chain : ∀ x, x ∈ queue → chain es s x.2 x.1;
  sr_least : ∀ x q, x ∈ queue → chain es s q x.1 → (length x.2 ≤ length q)%nat;
  sr_near : ∀ q x, chain es s q x → (length q ≤ k)%nat → x ∈ seen;
  sr_done : ∀ x, x ∈ seen → x ∈ map fst queue ∨ (x ≠ t ∧ ∀ e, e ∈ es → source_id e = x → target_id e ∈ seen);
  sr_nodup : NoDup seen;
  sr_universe : seen ⊆ universe
}.

(** When no path of length [k] is left, the next length starts. *)
Lemma searching_advance k queue seen : searching k queue seen → (∀ x, x ∈ queue → length x.2 = S k) → searching (S k) queue seen.
Proof.
  intros [Hl Hc Hm Hn Hd Hu Hv] Hq. split; try done.
  - exists queue, []. rewrite app_nil_r. split_and!; [done|done|by intros ? ?%not_elem_of_nil].
  - intros q x Hx Hlen. destruct (decide (length q ≤ k)%nat) as [|Hgt]; [by eapply Hn|].
    apply chain_cases in Hx as [[-> _]|(q' & e & -> & Hq' & He & <-)]; [simpl in Hgt; lia|]. rewrite length_app in Hgt, Hlen. simpl in *.
    assert (source_id e ∈ seen) as Hin by (eapply Hn; [done|lia]). apply Hd in Hin as [(y & Ey & Hy)%elem_of_map|[_ Hall]]; [|by apply Hall].
    rewrite Ey in Hq'. pose proof (Hm _ _ Hy Hq'). rewrite (Hq _ Hy) in *. lia.
Qed.

Lemma searching_pop k current path rest seen : searching k ((current, path) :: rest) seen → length path = k → current ≠ t →
  let '(queue, seen') := enqueue es current path rest seen in
  searching k queue seen' ∧ (length queue + length seen = length rest + length seen')%nat.
Proof.
  intros [(a & b & Hab & Ha & Hb) Hc Hm Hn Hd Hu Hv] Hk Ht. destruct (enqueue_spec current path rest seen) as (fresh & -> & Hnf & Hf & Hall).
  split; [|rewrite !length_app, length_map; lia]. destruct a as [|x a].
  { exfalso. assert ((current, path) ∈ b) as Hin by (simpl in Hab; rewrite <- Hab; by left). apply Hb in Hin. simpl in *. lia. }
  simpl in Hab. injection Hab as <- ->.
  assert (Hfresh : ∀ y p, (y, p) ∈ fresh → length p = S k ∧ chain es s p y ∧ y ∉ seen).
  { intros y p (Hy & e & He & Es & Et & ->)%Hf. split_and!; [rewrite length_app; simpl; lia| |done].
    apply chain_snoc. split_and!; [|done|done]. rewrite Es. apply (Hc (current, path)). by left. }
  split.
  - exists a, (b ++ fresh). rewrite (assoc_L (++)). split_and!; [done|by intros ? ?; apply Ha; right|].
    intros [y p] [?|?%Hfresh]%elem_of_app; [by apply Hb|]. naive_solver.
  - intros [y p] [?|?%Hfresh]%elem_of_app; [apply (Hc (y, p)); by right|naive_solver].
  - intros [y p] q [?|(Hlen & _ & Hy)%Hfresh]%elem_of_app Hq; [apply (Hm (y, p)); [by right|done]|]. simpl in *.
    destruct (decide (length q ≤ k)%nat) as [?|?]; [|lia]. exfalso. apply Hy. by eapply Hn.
  - intros q x Hx Hlen. apply elem_of_app. left. by eapply Hn.
  - intros x [Hx|Hx]%elem_of_app.
    + apply Hd in Hx as [Hx|[Hx Hx']]; [|right; split; [done|]; intros e He Hs; apply elem_of_app; left; by apply Hx'].
      cbn [map fst] in Hx. apply elem_of_cons in Hx as [->|Hx]; [by right|]. left. rewrite map_app. apply elem_of_app. by left.
    + left. rewrite map_app. apply elem_of_app. by right.
  - apply NoDup_app. split_and!; [done| |done]. intros x Hx ([y p] & -> & Hy)%elem_of_map. by apply Hf in Hy as [Hy _].
  - intros x [Hx|([y p] & -> & Hy)%elem_of_map]%elem_of_app; [by apply Hv|]. apply Hf in Hy as (_ & e & He & _ & <- & _). by apply Hclosed.
Qed.

Lemma reachable_seen k seen q x : searching k [] seen → chain es s q x → x ∈ seen ∧ x ≠ t.
Proof.
  intros [_ _ _ Hn Hd _ _]. assert (Hs : s ∈ seen) by (apply (Hn [] s); [done|simpl; lia]).
  revert x. induction q as [|e q IH] using rev_ind; intros x.
  - intros <-. split; [done|]. apply Hd in Hs as [Hs%not_elem_of_nil|[? _]]; done.
  - intros (Hq & He & <-)%chain_snoc. apply IH in Hq as [Hq _]. apply Hd in Hq as [Hq%not_elem_of_nil|[_ Hq]]; [done|].
    specialize (Hq e He eq_refl). split; [done|]. by apply Hd in Hq as [Hq%not_elem_of_nil|[? _]].
Qed.

(** A shortest path to the target, or none exists. *)
Definition answers (r : option (list GraphEdge)) : Prop :=
  match r with Some p => chain es s p t ∧ ∀ q, chain es s q t → (length p ≤ length q)%nat | None => ∀ q, ¬ chain es s q t end.

Lemma search_spec fuel k queue seen : searching k queue seen → (length universe - length seen + length queue < fuel)%nat →
  ∃ r, search es t fuel queue seen = Some r ∧ answers r.
Proof.
  revert k queue seen. induction fuel as [|fuel IH]; intros k queue seen Hinv Hfuel; [lia|]. cbn [search].
  destruct queue as [|[current path] rest].
  { exists None. split; [done|]. intros q Hq. by destruct (reachable_seen _ _ _ _ Hinv Hq). }
  assert (∃ k', searching k' ((current, path) :: rest) seen ∧ length path = k') as (k' & Hinv' & Hk).
  { destruct (sr_levels _ _ _ Hinv) as (a & b & Hab & Ha & Hb). destruct a as [|x a].
    - exists (S k). simpl in Hab. subst b. split; [by apply searching_advance|]. apply (Hb (current, path)). by left.
    - injection Hab as <- _. exists k. split; [done|]. apply (Ha (current, path)). by left. }
  destruct (String.eqb_spec current t) as [->|Ht].
  { exists (Some path). split; [done|]. split; [apply (sr_chain _ _ _ Hinv' (t, path)); by left|].
    intros q Hq. apply (sr_least _ _ _ Hinv' (t, path)); [by left|done]. }
  pose proof (searching_pop _ _ _ _ _ Hinv' Hk Ht) as Hpop. destruct (enqueue es current path rest seen) as [queue seen'].
  destruct Hpop as [Hnext Hlen]. apply (IH k' queue seen' Hnext).
  assert (length seen' ≤ length universe)%nat by (apply submseteq_length, NoDup_submseteq; [by apply (sr_nodup _ _ _ Hnext)|by apply (sr_universe _ _ _ Hnext)]).
  simpl in Hfuel. lia.
Qed.
End search.

(** ** [expand] *)

Section expand.
Context (d : Direction) (es : list GraphEdge) (s : string).

Definition step (x y : string) : Prop :=
  ∃ e, e ∈ es ∧ (((follows d).1 = true ∧ source_id e = x ∧ target_id e = y) ∨ ((follows d).2 = true ∧ target_id e = x ∧ source_id e = y)).

(** At most [n] steps from [s]. *)
Fixpoint within (n : nat) (x : string) : Prop :=
  match n with O => x = s | S n => within n x ∨ ∃ y, within n y ∧ step y x end.

Lemma expand_fold frontier y l sel acc : y ∈ (fold_left (expand_edge d frontier) l (sel, acc)).2 ↔
  y ∈ acc ∨ ∃ x e, x ∈ frontier ∧ e ∈ l ∧ (((follows d).1 = true ∧ source_id e = x ∧ target_id e = y) ∨
                                           ((follows d).2 = true ∧ target_id e = x ∧ source_id e = y)).
Proof.
  revert sel acc. induction l as [|e l IH]; intros sel acc; cbn [fold_left].
  { split; [by left|]. intros [?|(x & e & _ & ?%not_elem_of_nil & _)]; done. }
  destruct (expand_edge d frontier (sel, acc) e) as [sel' acc'] eqn:Ea. rewrite IH.
  assert (y ∈ acc' ↔ y ∈ acc ∨ ((follows d).1 = true ∧ source_id e ∈ frontier ∧ target_id e = y) ∨
    ((follows d).2 = true ∧ target_id e ∈ frontier ∧ source_id e = y)) as ->.
  { revert Ea. unfold expand_edge. destruct (follows d) as [o i]; cbn [fst snd].
    destruct o, i; cbn [andb]; repeat case_bool_decide; intros [= <- <-]; set_solver. }
  setoid_rewrite elem_of_cons. naive_solver.
Qed.

Lemma expand_pass_spec frontier y : y ∈ (expand_pass d es frontier).2 ↔ ∃ x, x ∈ frontier ∧ step x y.
Proof. unfold expand_pass, step. rewrite expand_fold. set_solver. Qed.

Lemma within_mono n m x : within n x → (n ≤ m)%nat → within m x.
Proof. intros Hx. induction 1; [done|]. by left. Qed.

(** Nothing new after [n] steps is nothing new at all. *)
Lemma within_closed n m x : (∀ x y, within n x → step x y → within n y) → within (n + m) x → within n x.
Proof.
  intros Hc. revert x. induction m as [|m IH]; intros x; [by rewrite Nat.add_0_r|].
  rewrite Nat.add_succ_r. intros [Hx|(y & Hy & Hs)]; [by apply IH|]. eapply Hc; [by apply IH|done].
Qed.

Lemma expand_loop_spec depth i visited frontier selected :
  (∀ x, x ∈ visited ↔ within i x) → frontier ⊆ visited → (∀ x y, x ∈ visited → x ∉ frontier → step x y → y ∈ visited) →
  ∀ x, x ∈ (expand_loop d es depth visited frontier selected).1 ↔ within (i + depth) x.
Proof.
  revert i visited frontier selected. induction depth as [|depth IH]; intros i visited frontier selected Hv Hf Hc x; cbn [expand_loop].
  { by rewrite Nat.add_0_r, Hv. }
  destruct (expand_pass d es frontier) as [more next] eqn:Ep.
  assert (Hn : ∀ y, y ∈ next ↔ ∃ x, x ∈ frontier ∧ step x y) by (intros y; rewrite <- expand_pass_spec, Ep; done).
  assert (Hstep : ∀ y, y ∈ visited ∪ next ∖ visited ↔ within (S i) y).
  { intros y. rewrite elem_of_union, elem_of_difference, Hn, Hv. cbn [within]. split.
    - intros [?|[(z & Hz & ?) _]]; [by left|]. right. exists z. split; [by apply Hv, Hf|done].
    - intros [?|(z & Hz & Hs)]; [by left|]. destruct (decide (y ∈ visited)) as [Hy|Hy]; [left; by apply Hv|]. right.
      rewrite <- Hv. split; [|done]. exists z. split; [|done]. destruct (decide (z ∈ frontier)); [done|].
      exfalso. apply Hy. eapply Hc; [by apply Hv|done|done]. }
  case_bool_decide as He.
  - cbn [fst]. rewrite Hv. split; [intros ?; eapply within_mono; [done|lia]|]. apply within_closed.
    intros z y Hz Hs. apply Hv. destruct (decide (z ∈ frontier)) as [Hzf|]; [|eapply Hc; [by apply Hv|done|done]].
    destruct (decide (y ∈ visited)); [done|]. exfalso. assert (y ∈ next ∖ visited) by (apply elem_of_difference; split; [apply Hn; eauto|done]). set_solver.
  - rewrite (IH (S i)); [by rewrite Nat.add_succ_r|done|set_solver|].
    intros z y Hz Hzn Hs. destruct (decide (z ∈ frontier)) as [Hzf|Hzf].
    + destruct (decide (y ∈ visited)); [set_solver|]. apply elem_of_union. right. apply elem_of_difference. split; [apply Hn; eauto|done].
    + apply elem_of_union. left. apply (Hc z); [set_solver|done|done].
Qed.
End expand.

(** ** Well-formed graphs *)

Record graph_ok (g : DependencyGraph) : Prop := {
  go_nodes : dict_wf (nodes g);
  go_ends : ∀ e, e ∈ edge_list g → dmem (nodes g) (source_id e) = true ∧ dmem (nodes g) (target_id e) = true
}.

(** What the builder may do: known nodes stay known, edges join known nodes. *)
Definition extends (g g' : DependencyGraph) : Prop :=
  (∀ id, dmem (nodes g) id = true → dmem (nodes g') id = true) ∧ (graph_ok g → graph_ok g').

#[local] Instance extends_preorder : PreOrder extends.
Proof. split; unfold extends; [by intros g|]. intros a b c [N1 O1] [N2 O2]. auto. Qed.

Lemma dmem_dset {V} (d : dict string V) k v k' : dmem (dset d k v) k' = String.eqb k k' || dmem d k'.
Proof.
  unfold dmem. destruct (String.eqb_spec k k') as [->|Hk]; [by rewrite dget_dset_eq|by rewrite dget_dset_ne].
Qed.

Lemma add_node_extends n : moves extends (add_node n).
Proof.
  intros g. unfold add_node, get, put, mbind, M_bind. cbn [snd]. split; cbn [nodes].
  - intros id Hid. by rewrite dmem_dset, Hid, orb_true_r.
  - intros [Hn He]. split; cbn [nodes]; [by apply dset_wf|]. intros e Hin. apply He in Hin as [H1 H2]. by rewrite !dmem_dset, H1, H2, !orb_true_r.
Qed.

Lemma add_edge_extends e : moves extends (add_edge e).
Proof.
  intros g. unfold add_edge, get, put, lift, raise_if, mbind, M_bind. destruct (negb _ || negb _) eqn:Hk; [done|]. cbn [snd].
  apply orb_false_iff in Hk as [Hs%negb_false_iff Ht%negb_false_iff].
  split; [done|]. intros [Hn He]. split; [done|]. intros e' Hin. unfold edge_list in Hin. cbn [edges] in Hin.
  assert (Forall (λ x, x = e ∨ x ∈ edge_list g) (dvals (dset (edges g) (edge_id e) e))) as Hall.
  { apply dvals_dset_Forall; [|by left]. apply Forall_forall. by right. }
  rewrite Forall_forall in Hall. apply Hall in Hin as [->|Hin]; [done|]. by apply He.
Qed.

Lemma add_fact_extends f : moves extends (add_fact f).
Proof. intros g. unfold add_fact, get, put, mbind, M_bind. cbn [snd]. split; [done|]. intros [Hn He]. by split. Qed.

Ltac extends_step :=
  first [apply add_node_extends | apply add_edge_extends | apply add_fact_extends | moves_step].

Lemma node_extends id type attrs source : moves extends (node id type attrs source).
Proof. apply add_node_extends. Qed.
Lemma edge_extends a b r st from : moves extends (edge a b r st from).
Proof. unfold edge. cbv zeta. repeat extends_step. Qed.

Section built.
Context `{PyRepr} (valid_fact : EvidenceFact → bool).

Lemma build_topology_extends c : moves extends (build_topology c).
Proof.
  unfold build_topology, build_hub, build_transport, build_site, build_tunnels, build_interface, build_saas, has_node. cbv zeta.
  repeat first [apply node_extends | apply edge_extends | moves_step].
Qed.

Lemma build_intent_extends r : moves extends (build_intent r).
Proof. unfold build_intent. cbv zeta. repeat first [apply node_extends | apply edge_extends | moves_step]. Qed.

Lemma build_observed_extends state : moves extends (build_observed valid_fact state).
Proof.
  unfold build_observed, build_attachment, build_event, has_node. cbv zeta.
  repeat first [apply node_extends | apply edge_extends | apply add_fact_extends | moves_step].
Qed.

Lemma build_ok c intents f g : build valid_fact c intents f = Ok g → graph_ok g.
Proof.
  unfold build. match goal with |- match ?m empty_graph with _ => _ end = _ → _ => set (b := m); assert (moves extends b) as Hm end.
  { apply (moves_bind extends); [apply build_topology_extends|intros _]. apply (moves_bind extends); [|intros _].
    - apply (moves_forM extends). intros. apply build_intent_extends.
    - destruct f; [apply (moves_ret extends)..|apply build_observed_extends]. }
  specialize (Hm empty_graph). destruct (b empty_graph) as [[[]|e] g']; [|done]. intros [= <-]. apply Hm.
  split; [constructor|by intros e ?%not_elem_of_nil].
Qed.
End built.

(** ** Building always succeeds on the configuration *)

Definition knows (ids : list string) (g : DependencyGraph) : Prop := ∀ id, id ∈ ids → dmem (nodes g) id = true.

(** From a graph that knows [ids], [m] succeeds, forgets nothing and adds [new]. *)
Definition brings (ids : list string) (m : M DependencyGraph unit) (new : list string) : Prop :=
  ∀ g, knows ids g → ∃ g', m g = (Ok tt, g') ∧ (∀ id, dmem (nodes g) id = true → dmem (nodes g') id = true) ∧ knows new g'.

Lemma brings_node ids id type attrs source : brings ids (node id type attrs source) [id].
Proof.
  intros g _. eexists. split; [reflexivity|]. cbn [nodes]. split.
  - intros i Hi. by rewrite dmem_dset, Hi, orb_true_r.
  - intros i ->%list_elem_of_singleton. cbn [nodes]. rewrite dmem_dset. cbn. by rewrite String.eqb_refl.
Qed.

Lemma brings_edge ids a b r st from : a ∈ ids → b ∈ ids → brings ids (edge a b r st from) [].
Proof.
  intros Ha Hb g Hg. unfold edge, add_edge, get, put, lift, raise_if, mbind, M_bind, mret, M_ret. destruct (dmem (edges g) _).
  - exists g. split_and!; [done|done|by intros ? ?%not_elem_of_nil].
  - cbn [source_id target_id]. rewrite (Hg a Ha), (Hg b Hb). cbn. eexists. split_and!; [done|done|by intros ? ?%not_elem_of_nil].
Qed.

Lemma brings_seq ids m new k more : brings ids m new → brings (new ++ ids) k more → brings ids (_ ← m; k) (new ++ more).
Proof.
  intros Hm Hk g Hg. destruct (Hm g Hg) as (g1 & E1 & M1 & K1). destruct (Hk g1) as (g2 & E2 & M2 & K2).
  { intros id [?|?]%elem_of_app; auto. }
  exists g2. unfold mbind, M_bind. rewrite E1. split_and!; [done|auto|]. intros id [?|?]%elem_of_app; auto.
Qed.

Lemma brings_more ids ids' m new new' : ids ⊆ ids' → new' ⊆ new → brings ids m new → brings ids' m new'.
Proof. intros Hi Hn Hm g Hg. destruct (Hm g) as (g' & E & M & K); [intros id ?; auto|]. exists g'. split_and!; auto. intros id ?; auto. Qed.

Lemma brings_forM {A} ids (f : A → M DependencyGraph unit) (new : A → list string) l :
  (∀ x, x ∈ l → brings ids (f x) (new x)) → brings ids (forM f l) (flat_map new l).
Proof.
  induction l as [|x l IH]; intros Hf; simpl.
  - intros g _. exists g. split_and!; [done|done|by intros ? ?%not_elem_of_nil].
  - apply brings_seq; [apply Hf; by left|]. apply (brings_more ids _ _ (flat_map new l)); [set_solver|done|]. apply IH. intros y ?. apply Hf. by right.
Qed.

Lemma brings_nothing {A} ids (f : A → M DependencyGraph unit) l : (∀ x, x ∈ l → brings ids (f x) []) → brings ids (forM f l) [].
Proof. intros Hf. apply (brings_more ids _ _ (flat_map (λ _, []) l)); [done|set_solver|]. by apply brings_forM. Qed.

(** What the builder relies on in the configuration. *)
Record graph_ready (c : TopologyConfig) : Prop := {
  gr_hubs : ∀ n h, (n, h) ∈ hubs c → hub_name h = n;
  gr_sites : ∀ s, s ∈ site_list c → Model.preferred_hub s ∈ dkeys (hubs c) ∧ Model.standby_hub s ∈ dkeys (hubs c)
}.

Ltac known := first [by left | by apply elem_of_app; left; known | by apply elem_of_app; right; known | right; known].

Definition hub_ids (c : TopologyConfig) : list string := map (λ h, hub_id (hub_name h)) (dvals (hubs c)).
Definition underlay_ids (c : TopologyConfig) : list string := map (λ t, underlay_id (tr_name t)) (transport_list c).
Definition site_ids (s : Site) : list string := [site_id (site_name s); edge_node_id (s_edge_node s); host_id (host_name s)].

Lemma brings_hub ids h : "component:edge" ∈ ids → brings ids (build_hub h) [hub_id (hub_name h)].
Proof.
  intros Hc. unfold build_hub. apply (brings_more ids _ _ ([hub_id (hub_name h)] ++ [])); [done|done|].
  apply brings_seq; [apply brings_node|]. apply brings_edge; set_solver.
Qed.

Lemma brings_transport ids t : "component:ryu" ∈ ids → brings ids (build_transport t) [underlay_id (tr_name t)].
Proof.
  intros Hc. unfold build_transport. apply (brings_more ids _ _ ([underlay_id (tr_name t)] ++ [])); [done|done|].
  apply brings_seq; [apply brings_node|]. apply brings_edge; set_solver.
Qed.

Lemma brings_interface ids s t : edge_node_id (s_edge_node s) ∈ ids → underlay_id (tr_name t) ∈ ids →
  brings ids (build_interface s t) [interface_id (s_edge_node s) (tr_name t)].
Proof.
  intros He Hu. unfold build_interface. cbv zeta. apply (brings_more ids _ _ ([interface_id (s_edge_node s) (tr_name t)] ++ [] ++ [])); [done|done|].
  repeat (apply brings_seq; [first [apply brings_node|apply brings_edge; set_solver]|]). apply brings_edge; set_solver.
Qed.

Lemma brings_tunnels ids s h : site_id (site_name s) ∈ ids → hub_id h ∈ ids → brings ids (build_tunnels s h) [].
Proof.
  intros Hs Hh. unfold build_tunnels. destruct (nonempty h).
  - apply (brings_seq ids _ [] _ []); apply brings_edge; set_solver.
  - intros g _. exists g. split_and!; [done|done|by intros ? ?%not_elem_of_nil].
Qed.

Lemma brings_site ids ts s : "component:edge" ∈ ids → hub_id (Model.preferred_hub s) ∈ ids → hub_id (Model.standby_hub s) ∈ ids →
  (∀ t, t ∈ ts → underlay_id (tr_name t) ∈ ids) → brings ids (build_site ts s) (site_ids s).
Proof.
  intros Hc Hp Ht Hu. unfold build_site, site_ids. cbv zeta.
  set (sid := site_id (site_name s)). set (eid := edge_node_id (s_edge_node s)). set (hid := host_id (host_name s)).
  apply (brings_more ids _ _ ([sid] ++ [] ++ [eid] ++ [] ++ [] ++ [] ++ [hid] ++ [] ++ [] ++ [] ++ flat_map (λ t, [interface_id (s_edge_node s) (tr_name t)]) ts)); [done|set_solver|].
  repeat (apply brings_seq; [first [apply brings_node|apply brings_edge; set_solver|
    apply brings_nothing; intros h Hh; apply brings_tunnels; set_solver]|]).
  apply brings_forM. intros t Hin. apply brings_interface; [set_solver|]. apply Hu in Hin. set_solver.
Qed.

Lemma brings_saas ids s t : "destination:public-saas" ∈ ids → brings ids (build_saas s t) [].
Proof.
  intros Hd g Hg. unfold build_saas, has_node. cbv zeta. unfold get at 1. unfold mbind at 1, M_bind at 1. unfold mbind at 1, M_bind at 1.
  unfold mret at 1, M_ret at 1. destruct (dmem (nodes g) (interface_id (s_edge_node s) t)) eqn:Hi.
  - destruct (brings_edge (interface_id (s_edge_node s) t :: ids) (interface_id (s_edge_node s) t) "destination:public-saas" CONNECTED_TO CONFIGURED
      "saas direct-internet policy" ltac:(by left) ltac:(by right) g) as (g' & E & ? & ?); [|by exists g'].
    intros id [->|?]%elem_of_cons; auto.
  - exists g. split_and!; [done|done|by intros ? ?%not_elem_of_nil].
Qed.

Lemma brings_topology c : graph_ready c → brings [] (build_topology c) ("component:policy" :: hub_ids c ++ flat_map site_ids (site_list c)).
Proof.
  intros [Hhubs Hsites]. unfold build_topology. cbv zeta.
  set (hs := flat_map (λ h, [hub_id (hub_name h)]) (dvals (hubs c))). set (us := flat_map (λ t, [underlay_id (tr_name t)]) (transport_list c)).
  assert (Hknown : ∀ n, n ∈ dkeys (hubs c) → hub_id n ∈ hs).
  { intros n ([k h] & -> & Hin)%elem_of_map. unfold hs. rewrite list_elem_of_In, in_flat_map. exists h. cbn [fst]. split.
    - apply list_elem_of_In, elem_of_map. by exists (k, h).
    - left. by rewrite (Hhubs k h). }
  assert (Hdest : ∀ ids, "destination:data-center" ∈ ids → hs ⊆ ids →
    brings ids (forM (λ h, edge (hub_id (hub_name h)) "destination:data-center" CONNECTED_TO CONFIGURED "topology") (dvals (hubs c))) []).
  { intros ids Hd Hh. apply brings_nothing. intros h Hin. apply brings_edge; [|done]. apply Hh. unfold hs.
    rewrite list_elem_of_In, in_flat_map. exists h. split; [by apply list_elem_of_In|by left]. }
  apply (brings_more [] _ _ (["component:edge"] ++ ["component:ryu"] ++ ["component:policy"] ++ ["component:ztp"] ++ hs ++ us ++
    flat_map site_ids (site_list c) ++ ["destination:data-center"] ++ ["destination:public-saas"] ++ [] ++ flat_map (λ _, []) (site_list c) ++ [])); [done| |].
  { unfold hub_ids. assert (map (λ h, hub_id (hub_name h)) (dvals (hubs c)) = hs) as -> by (unfold hs; clear; induction (dvals (hubs c)) as [|h l IH]; simpl; by f_equal).
    set_solver. }
  do 4 (apply brings_seq; [apply brings_node|]).
  apply brings_seq; [apply brings_forM; intros h _; apply brings_hub; set_solver|].
  apply brings_seq; [apply brings_forM; intros t _; apply brings_transport; set_solver|].
  apply brings_seq.
  { apply brings_forM. intros s Hs. destruct (Hsites s Hs) as [Hp Ht]. apply Hknown in Hp, Ht. apply brings_site; [set_solver..|].
    intros t Hin. assert (underlay_id (tr_name t) ∈ us); [|set_solver]. unfold us. rewrite list_elem_of_In, in_flat_map.
    exists t. split; [by apply list_elem_of_In|by left]. }
  do 2 (apply brings_seq; [apply brings_node|]). apply brings_seq; [apply Hdest; set_solver|].
  apply brings_seq.
  { apply brings_forM. intros s _. apply brings_nothing. intros t _. apply brings_saas. set_solver. }
  destruct (vpc_enabled (cloud_vpc c)).
  - eapply brings_more; [done| |apply brings_node]. set_solver.
  - intros g _. exists g. split_and!; [done|done|by intros ? ?%not_elem_of_nil].
Qed.

Lemma dict_comp_keys {V} (f : string → json → result V) j d k v : dict_comp f j = Ok d → (k, v) ∈ d → ∃ w, f k w = Ok v.
Proof.
  unfold dict_comp. intros (l & _ & Hd)%bind_Ok Hin. apply mapM_result_Forall2 in Hd. apply (Forall2_elem_r _ _ _ _ Hd) in Hin as (p & _ & Hp).
  apply bind_Ok in Hp as (w & Hw & [= <- <-]). by exists p.2.
Qed.

Lemma accepted_ready `{PyRepr} raw source c : config_from_mapping raw source = Ok c → graph_ready c.
Proof.
  intros (_ & _ & Hp & Hv)%config_from_mapping_inv. apply validate_config_iff in Hv. split.
  - unfold parse_config in Hp. intros n h Hin. inv_ok. cbn in Hin.
    match goal with Hh : dict_comp read_hub _ = Ok _ |- _ => apply (dict_comp_keys _ _ _ _ _ Hh) in Hin as (w & Hw) end.
    unfold read_hub in Hw. by inv_ok.
  - intros s Hs. pose proof (v_sites _ Hv) as Hc. unfold check_sites in Hc. rewrite bind_unit_ok, reject_ok in Hc. destruct Hc as [Hc _].
    assert (¬ (negb (dmem (hubs c) (Model.preferred_hub s)) || negb (dmem (hubs c) (Model.standby_hub s)) ||
      String.eqb (Model.preferred_hub s) (Model.standby_hub s)) = true) as Hn.
    { intros Ht. rewrite <- not_true_iff_false, existsb_exists in Hc. apply Hc. exists s. split; [by apply list_elem_of_In|done]. }
    rewrite <- !dmem_true. destruct (dmem (hubs c) (Model.preferred_hub s)), (dmem (hubs c) (Model.standby_hub s)); naive_solver.
Qed.

(** ** Theorems *)

Section theorems.
Context `{PyRepr} (valid_fact : EvidenceFact → bool).

(** C34: the graph's path search is exact.  In a graph the builder returned,
    [find_path] terminates for any two names; it says they are unknown exactly
    when one of them is not a node, otherwise it returns a directed path from the
    one to the other of the least possible length, and says there is none only if
    there is none. *)
Theorem find_path_shortest c intents f g s t : build valid_fact c intents f = Ok g →
  ∃ answer, find_path g s t = Some answer ∧
    match answer with
    | UnknownEnds => dmem (nodes g) s = false ∨ dmem (nodes g) t = false
    | NoPath => s ∈ dkeys (nodes g) ∧ t ∈ dkeys (nodes g) ∧ ∀ q, ¬ chain (edge_list g) s q t
    | Found p => s ∈ dkeys (nodes g) ∧ t ∈ dkeys (nodes g) ∧ chain (edge_list g) s p t ∧
        ∀ q, chain (edge_list g) s q t → (length p ≤ length q)%nat
    end.
Proof.
  intros [Hwf Hends]%build_ok. unfold find_path. destruct (dmem (nodes g) s) eqn:Hs; cbn [negb orb]; [|exists UnknownEnds; auto].
  destruct (dmem (nodes g) t) eqn:Ht; cbn [negb]; [|exists UnknownEnds; auto]. apply dmem_true in Hs as Hs', Ht as Ht'.
  destruct (search_spec (edge_list g) s t (dkeys (nodes g))) with (fuel := S (length (nodes g))) (k := 0%nat) (queue := [(s, [] : list GraphEdge)])
    (seen := [s]) as (r & -> & Hr).
  - intros e He. apply dmem_true. by apply Hends.
  - split.
    + exists [(s, [])], []. split_and!; [done|by intros x ->%list_elem_of_singleton|by intros ? ?%not_elem_of_nil].
    + by intros x ->%list_elem_of_singleton.
    + intros x q ->%list_elem_of_singleton _. simpl. lia.
    + intros q x Hq Hlen. destruct q; [|simpl in Hlen; lia]. simpl in Hq. subst. by left.
    + intros x ->%list_elem_of_singleton. left. by left.
    + apply NoDup_singleton.
    + intros x ->%list_elem_of_singleton. done.
  - unfold dkeys. rewrite length_map. simpl. destruct (nodes g) as [|n l] eqn:En; [by apply not_elem_of_nil in Hs'|simpl; lia].
  - destruct r as [p|]; [destruct Hr as [Hc Hm]; exists (Found p)|exists NoPath]; (split; [reflexivity|]); split_and!; assumption.
Qed.

(** the nodes [expand] returns are those within its depth, at most eight steps. *)
Theorem expand_within g id d depth visited selected : expand g id d depth = Some (visited, selected) →
  ∀ x, x ∈ visited ↔ within d (edge_list g) id (bounded_depth depth) x.
Proof.
  unfold expand. destruct (negb _); [done|]. destruct (expand_loop _ _ _ _ _ _) as [v sel] eqn:E. intros [= <- <-] x.
  rewrite sort_by_elem, elem_of_elements. replace v with (expand_loop d (edge_list g) (bounded_depth depth) {[id]} {[id]} []).1 by (by rewrite E).
  rewrite (expand_loop_spec d (edge_list g) id (bounded_depth depth) 0); [done| |done|set_solver].
  intros y. simpl. set_solver.
Qed.

(** Every accepted topology has a graph: without a published state of the
    controller the builder succeeds whatever the intents, and the graph knows
    every hub and every site with its edge and host. *)
Theorem graph_of_accepted raw source c intents f : config_from_mapping raw source = Ok c → (∀ state, f ≠ Published state) →
  ∃ g, build valid_fact c intents f = Ok g ∧ graph_ok g ∧ knows (hub_ids c ++ flat_map site_ids (site_list c)) g.
Proof.
  intros Hacc Hf. destruct (brings_topology c (accepted_ready _ _ _ Hacc) empty_graph) as (g1 & E1 & M1 & K1); [by intros ? ?%not_elem_of_nil|].
  destruct (brings_nothing ["component:policy"] build_intent intents) with (g := g1) as (g2 & E2 & M2 & _).
  { intros r _. unfold build_intent. cbv zeta. apply (brings_more ["component:policy"] _ _ (["intent:" +:+ in_id r] ++ [])); [done|set_solver|].
    apply brings_seq; [apply brings_node|]. apply brings_edge; set_solver. }
  { intros id ->%list_elem_of_singleton. apply K1. by left. }
  assert (build valid_fact c intents f = Ok g2) as Hb.
  { unfold build, mbind, M_bind. rewrite E1, E2. destruct f as [| |state]; [done..|]. by destruct (Hf state). }
  exists g2. split_and!; [done|by eapply build_ok|]. intros id Hid. apply M2, K1. by right.
Qed.
End theorems.

(** ** The shipped topology *)

Module Examples.
Definition accepts (f : EvidenceFact) : bool := match observed_at f with JNull | JStr _ => true | _ => false end.

Definition core_graph : DependencyGraph := Eval vm_compute in
  match build accepts core_config [] Missing with Ok g => g | Err _ => empty_graph end.

Lemma core_graph_eq : build accepts core_config [] Missing = Ok core_graph.
Proof. vm_compute. reflexivity. Qed.

Definition relations (a : option PathAnswer) : option (list RelationType) :=
  match a with Some (Found p) => Some (map relation_type p) | _ => None end.

(** From a host to the host of another site, and to the data center. *)
Lemma core_paths :
  relations (find_path core_graph "host:node1_host" "host:node3_host") =
    Some [ATTACHED_TO; REPRESENTED_BY; CONNECTED_TO; TUNNELED_TO; REPRESENTED_BY; HOSTS] ∧
  relations (find_path core_graph "host:node1_host" "destination:data-center") = Some [ATTACHED_TO; REPRESENTED_BY; CONNECTED_TO; CONNECTED_TO] ∧
  find_path core_graph "destination:data-center" "host:node1_host" = Some NoPath ∧
  find_path core_graph "host:node1_host" "host:nowhere" = Some UnknownEnds.
Proof. vm_compute. by split_and!. Qed.

(** *** The candidates of an expected path are not paths of the graph *)

Definition linked (g : DependencyGraph) (a b : string) : bool :=
  existsb (λ e, String.eqb (source_id e) a && String.eqb (target_id e) b) (edge_list g).

Lemma candidates_not_in_graph :
  match graph_expected_traffic_path core_config "node1_host" "dc" with
  | Ok (Candidates _ _ paths) => paths = [["host:node1_host"; "site:site1"; "hub:hub1"; "destination:data-center"];
                                          ["host:node1_host"; "site:site1"; "hub:hub2"; "destination:data-center"]]
  | _ => False
  end ∧
  linked core_graph "host:node1_host" "site:site1" = false ∧ linked core_graph "site:site1" "interface:node1:bb" = false.
Proof. vm_compute. by split_and!. Qed.

(** *** The controller's published state *)

Definition env : Env := {| rows := None; wall := 1700000000; monotonic := 0; disk_ok := true |}.
Definition started : UnderlayController := UnderlayController_init env core_config ENFORCE.

(** After the first reconciliation of a transport. *)
Definition reconciled : UnderlayController :=
  (record_event env "RECONCILE" [("transport", JStr "mpls"); ("mode", JStr "ENFORCE"); ("added", JInt 0); ("removed", JInt 0)] started).2.

Definition published (u : UnderlayController) : StateFile :=
  match state_json u core_config (UnderlayRegistry_init core_config None) with Ok s => Published s | Err _ => Unreadable end.

(** The events carry [time.time()], which a text field refuses. *)
Lemma events_break_the_graph :
  is_ok (build accepts core_config [] (published started)) = true ∧
  build accepts core_config [] (published reconciled) = raise ValueError "validation error for EvidenceFact".
Proof. vm_compute. by split_and!. Qed.

(** Attachments name the physical node, site components the logical site: no
    attachment of a branch is ever joined to its site, and every event is an
    [underlay_event]. *)
Lemma attachments_stay_unlinked :
  match build (λ _, true) core_config [] (published reconciled) with
  | Ok g => length (List.filter (λ e, bool_decide (relation_value (relation_type e) = "HAS_ATTACHMENT")) (edge_list g)) = 23%nat ∧
            List.filter (λ e, bool_decide (relation_value (relation_type e) = "AUTHORIZED_AS")) (edge_list g) = [] ∧
            map fact_type (dvals (facts g)) = ["underlay_event"]
  | Err _ => False
  end.
Proof. vm_compute. by split_and!. Qed.

(** *** Endpoint names *)

(** The topology with one more branch, created by the inventory. *)
Definition with_branch (name : string) : option TopologyConfig :=
  let d := (seed_from_config "t" core_config "admin" empty_db).2 in
  match allocate "t" name "edge-extra" "hub1" "hub2" "admin" d with
  | (Ok _, d) =>
      match transition "t" name "TOPOLOGY_CREATED" "admin" None None None true d with
      | (Ok _, d) => match DynamicInventory.topology core_config d with Ok c => Some c | Err _ => None end
      | _ => None
      end
  | _ => None
  end.

Definition resolved (name text : string) : option (string * option string) :=
  match with_branch name with
  | Some c => match resolve_endpoint c text with Ok (Some e) => Some (ep_kind e, ep_site e) | _ => None end
  | None => None
  end.

(** A branch called dc takes the data center's name, and a branch called site-1
    the name of site1. *)
Lemma endpoint_names_collide :
  resolved "branch-a" "dc" = Some ("data_center_application", None) ∧ resolved "dc" "dc" = Some ("branch_edge", Some "dc") ∧
  resolved "site-1" "site1" = Some ("branch_edge", Some "site-1").
Proof. vm_compute. by split_and!. Qed.
End Examples.

Lemma find_path_shortest_witness : ∃ p, chain (edge_list Examples.core_graph) "host:node1_host" p "host:node3_host" ∧
  length p = 6%nat ∧ ∀ q, chain (edge_list Examples.core_graph) "host:node1_host" q "host:node3_host" → (6 ≤ length q)%nat.
Proof.
  destruct (find_path_shortest Examples.accepts core_config [] Missing Examples.core_graph "host:node1_host" "host:node3_host" Examples.core_graph_eq)
    as (answer & Ha & Hc).
  assert (Examples.relations (find_path Examples.core_graph "host:node1_host" "host:node3_host") =
    Some [ATTACHED_TO; REPRESENTED_BY; CONNECTED_TO; TUNNELED_TO; REPRESENTED_BY; HOSTS]) as Hr by (vm_compute; reflexivity).
  rewrite Ha in Hr. destruct answer as [| |p]; [discriminate Hr|discriminate Hr|]. injection Hr as Hr. apply (f_equal length) in Hr.
  rewrite length_map in Hr. destruct Hc as (_ & _ & Hc & Hm). exists p. split; [exact Hc|]. split; [exact Hr|]. intros q Hq.
  apply Hm in Hq. rewrite Hr in Hq. exact Hq.
Defined.
