(* ===== verification/RuntimeProbe.v ===== *)
(** * Live probes of the laboratory ([management/runtime.py])

    Commands run in the containers of the topology, never commands of a client,
    and the readers of their output.  [docker] says what [docker exec] gives for
    a container and a command, [loads] is [json.loads]; both are arguments. *)
From Stdlib Require Import Ascii.
From S2P Require Import Prelude Net Marks PathSelection Model Json.
Local Open Scope string_scope.
Local Open Scope list_scope.
Local Open Scope Z_scope.

(** ** Text *)

(** [text.splitlines()] on ASCII *)
Definition is_newline (a : ascii) : bool :=
  let n := N_of_ascii a in ((10 <=? n) && (n <=? 13) || (28 <=? n) && (n <=? 30))%N.

Fixpoint lines_from (s : string) : list string :=
  match s with
  | EmptyString => [""]
  | String "013"%char (String "010"%char s') => "" :: lines_from s'
  | String a s' =>
      if is_newline a then "" :: lines_from s'
      else match lines_from s' with w :: ws => String a w :: ws | [] => [String a ""] end
  end.

(** The part after the last line end is a line if it is not empty. *)
Fixpoint drop_last_empty (l : list string) : list string :=
  match l with [] => [] | [x] => if nonempty x then [x] else [] | x :: l' => x :: drop_last_empty l' end.

Definition splitlines (s : string) : list string := drop_last_empty (lines_from s).

Fixpoint skip_chars (n : nat) (s : string) : string :=
  match n, s with S n, String _ s' => skip_chars n s' | _, _ => s end.

(** [line.split(": ", 1)[1]] of a line that starts with the label *)
Definition after_label (label line : string) : string := skip_chars (String.length label) line.

(** A character of [[0-9A-Fa-f]] and its value. *)
Definition hex_digit (a : ascii) : option Z :=
  let n := Z.of_N (N_of_ascii a) in
  if (48 <=? n) && (n <=? 57) then Some (n - 48)
  else if (97 <=? n) && (n <=? 102) then Some (n - 87)
  else if (65 <=? n) && (n <=? 70) then Some (n - 55) else None.

(** ** Observations *)

Inductive Observed (A : Type) := Available (value : A) | Unavailable (reason : string).
Arguments Available {A} value.
Arguments Unavailable {A} reason.

Inductive Exec := NotInstalled | TimedOut | OSError (text : string) | Finished (code : Z) (out err : string).

Definition is_available {A} (o : Observed A) : bool := match o with Available _ => true | Unavailable _ => false end.

(** [text[:240]] *)
Definition brief (s : string) : string := String.substring 0 240 s.

Section probe.
Context (docker : string → list string → Exec) (loads : string → result json) (c : TopologyConfig).

Definition runtime_node (node : string) : string := match edge_node c node with Ok n => n | Err _ => node end.

Definition allowed (node : string) : bool :=
  inb node (site_names c ++ dkeys (hubs c) ++ [data_center_app_name c; saas_app_name c] ++
    (if vpc_enabled (cloud_vpc c) then active_gateways (cloud_vpc c) ++ [vpc_app_name (cloud_vpc c)] else [])).

Definition run (node : string) (command : list string) : Observed string :=
  if negb (allowed node) then Unavailable "unknown or disabled topology node"
  else match docker ("mn." +:+ runtime_node node) command with
       | NotInstalled => Unavailable "docker executable is not installed"
       | TimedOut => Unavailable "runtime inspection timed out"
       | OSError text => Unavailable (brief text)
       | Finished code out err =>
           if negb (code =? 0) then
             Unavailable (if nonempty (brief (strip err)) then brief (strip err) else "runtime inspection failed")
           else Available out
       end.

(** [json.loads] raises ValueErrors only. *)
Definition probe_json (node : string) (command : list string) : Observed json :=
  match run node command with
  | Unavailable r => Unavailable r
  | Available text => match loads text with Ok v => Available v | Err _ => Unavailable "runtime returned malformed JSON" end
  end.

Definition tunnels (node : string) : Observed string := run node ["wg"; "show"].
Definition routes (node : string) : Observed json := probe_json node ["ip"; "-j"; "route"; "show"; "table"; "all"].
Definition ip_rules (node : string) : Observed json := probe_json node ["ip"; "-j"; "rule"; "show"].
Definition links (node : string) : Observed json := probe_json node ["ip"; "-j"; "link"; "show"].

Definition route_lookup (node destination : string) (source : option string) (fwmark : option Z) : Observed json :=
  probe_json node (["ip"; "-j"; "route"; "get"; destination] ++ match source with Some s => ["from"; s] | None => [] end ++
    match fwmark with Some m => ["mark"; str_Z m] | None => [] end).

Definition failover (node : string) : Observed string := run node ["cat"; "/var/lib/sdwan/state/failover-status.json"].
Definition classifier (node : string) : Observed string :=
  run node ["tail"; "-n"; "50"; "/var/lib/sdwan/state/classifier-events.jsonl"].

Definition STATE_FILES : list string := ["path-metrics.json"; "path-decisions.json"; "path-events.json"].

Definition state (node name : string) : Observed json :=
  if negb (inb name STATE_FILES) then Unavailable "state file is not approved"
  else probe_json node ["cat"; "/var/lib/sdwan/state/" +:+ name].

Definition workload_health (node : string) : Observed string :=
  if String.eqb node (data_center_app_name c) then
    run node ["curl"; "--insecure"; "--fail"; "--silent"; "https://10.100.0.10:8443/healthz"]
  else if String.eqb node (saas_app_name c) then
    run node ["curl"; "--insecure"; "--fail"; "--silent"; "https://198.18.0.10/healthz"]
  else Unavailable "unknown workload".

(** The lines that are JSON *)
Definition parsed_lines (text : string) : list json :=
  flat_map (λ line, match loads line with Ok v => [v] | Err _ => [] end) (splitlines text).

Definition hub_flow_events (hub : string) : Observed (list json) :=
  if negb (dmem (hubs c) hub) then Unavailable "unknown hub"
  else match run hub ["tail"; "-n"; "500"; "/var/lib/sdwan/state/hub-flow-events.jsonl"] with
       | Unavailable r => Unavailable r
       | Available text => Available (parsed_lines text)
       end.

(** ** Marks of connections *)

(** [\w] on ASCII *)
Definition is_word (a : ascii) : bool :=
  let n := N_of_ascii a in
  ((48 <=? n) && (n <=? 57) || (65 <=? n) && (n <=? 90) || (n =? 95) || (97 <=? n) && (n <=? 122))%N.

Fixpoint leading (p : ascii → bool) (s : string) : string :=
  match s with String a s' => if p a then String a (leading p s') else "" | EmptyString => "" end.

Definition is_hex (a : ascii) : bool := match hex_digit a with Some _ => true | None => false end.
Definition is_decimal (a : ascii) : bool := match digit_of a with Some _ => true | None => false end.

(** [0x[0-9A-Fa-f]+|[0-9]+] at the start of a text *)
Definition mark_text (s : string) : option string :=
  let hex := if String.prefix "0x" s then leading is_hex (skip_chars 2 s) else "" in
  if nonempty hex then Some ("0x" +:+ hex)
  else if nonempty (leading is_decimal s) then Some (leading is_decimal s) else None.

(** [re.search(r"\bmark=(0x[0-9A-Fa-f]+|[0-9]+)", line)]: the first place after
    a character that is not of a word *)
Fixpoint search_mark (boundary : bool) (s : string) : option string :=
  match (if boundary && String.prefix "mark=" s then mark_text (skip_chars 5 s) else None) with
  | Some m => Some m
  | None => match s with EmptyString => None | String a s' => search_mark (negb (is_word a)) s' end
  end.

(** Digits of a base with single underscores between them. *)
Fixpoint based_digits (base : Z) (s : string) (acc : Z) (may_end : bool) : option Z :=
  match s with
  | EmptyString => if may_end then Some acc else None
  | String a s' =>
      if Ascii.eqb a "_"%char then (if may_end then based_digits base s' acc false else None)
      else match hex_digit a with
           | Some d => if d <? base then based_digits base s' (base * acc + d) true else None
           | None => None
           end
  end.

Definition prefixed (base : Z) (s : string) : option Z := if nonempty s then based_digits base s 0 true else None.

(** [int(text, 0)]: the base is read from the text, and a decimal number other
    than zero has no leading zeros. *)
Definition unsigned_literal (s : string) : option Z :=
  if String.prefix "0x" s || String.prefix "0X" s then prefixed 16 (skip_chars 2 s)
  else if String.prefix "0o" s || String.prefix "0O" s then prefixed 8 (skip_chars 2 s)
  else if String.prefix "0b" s || String.prefix "0B" s then prefixed 2 (skip_chars 2 s)
  else match based_digits 10 s 0 false with
       | Some n => if String.prefix "0" s && negb (n =? 0) then None else Some n
       | None => None
       end.

Definition literal_value (s : string) : option Z := signed unsigned_literal Z.opp (strip s).

Example literal_ex : literal_value "0x2103" = Some 8451 ∧ literal_value "-1" = Some (-1) ∧ literal_value "010" = None ∧
  literal_value "0xffff_ffff" = Some (2 ^ 32 - 1) ∧ literal_value "00" = Some 0 ∧ literal_value "None" = None.
Proof. by vm_compute. Qed.

Definition matches_flow (source destination line : string) : bool :=
  contains ("src=" +:+ source) line && contains ("dst=" +:+ destination) line.

Record ObservedMark := { om_mark : Z; om_raw : string }.

Definition line_mark (source destination line : string) : list ObservedMark :=
  if negb (matches_flow source destination line) then []
  else match search_mark true line with
       | None => []
       | Some raw => match literal_value raw with Some m => [{| om_mark := m; om_raw := raw |}] | None => [] end
       end.

Definition connection_marks (node source destination : string) : Observed (list ObservedMark) :=
  match run node ["conntrack"; "-L"; "-o"; "extended"] with
  | Unavailable r => Unavailable r
  | Available text => Available (take 32 (flat_map (line_mark source destination) (splitlines text)))
  end.

(** ** WireGuard *)

Inductive Transfer := Counted (received sent : string) | Reported (text : string).
Record Peer := {
  pe_public_key : string; pe_endpoint : option string; pe_allowed_ips : option (list string); pe_handshake : option string;
  pe_keepalive : option string; pe_transfer : option Transfer
}.
Inductive Port := PortNumber (n : Z) | PortText (s : string).
Record Interface := { if_name : string; if_peers : list Peer; if_public_key : option string; if_listening_port : option Port }.

(** [interfaces], [interface], [peer] *)
Record Scan := { sc_done : list Interface; sc_interface : option Interface; sc_peer : option Peer }.

Definition start_scan : Scan := {| sc_done := []; sc_interface := None; sc_peer := None |}.

Definition finish_peer (s : Scan) : Scan :=
  match sc_peer s, sc_interface s with
  | Some p, Some i =>
      {| sc_done := sc_done s; sc_peer := None;
         sc_interface := Some {| if_name := if_name i; if_peers := if_peers i ++ [p]; if_public_key := if_public_key i;
                                 if_listening_port := if_listening_port i |} |}
  | _, i => {| sc_done := sc_done s; sc_interface := i; sc_peer := None |}
  end.

Definition finish_interface (s : Scan) : Scan :=
  let s := finish_peer s in
  {| sc_done := sc_done s ++ match sc_interface s with Some i => [i] | None => [] end; sc_interface := None; sc_peer := sc_peer s |}.

Definition new_peer (key : string) : Peer := {|
  pe_public_key := key; pe_endpoint := None; pe_allowed_ips := None; pe_handshake := None; pe_keepalive := None; pe_transfer := None |}.
Definition new_interface (name : string) : Interface := {|
  if_name := name; if_peers := []; if_public_key := None; if_listening_port := None |}.

(** [re.match(r"^(.*) received, (.*) sent$", value)]: the last separator that
    leaves " sent" at the end *)
Fixpoint last_split (sep s : string) : option (string * string) :=
  match s with
  | EmptyString => None
  | String a s' =>
      match last_split sep s' with
      | Some (x, y) => Some (String a x, y)
      | None => if String.prefix sep s then Some ("", skip_chars (String.length sep) s) else None
      end
  end.

Definition transfer_of (value : string) : Transfer :=
  match last_split " sent" value with
  | Some (rest, "") => match last_split " received, " rest with Some (r, s) => Counted r s | None => Reported value end
  | _ => Reported value
  end.

Definition interface_line (line : string) (i : Interface) : Interface :=
  if String.prefix "public key: " line then
    {| if_name := if_name i; if_peers := if_peers i; if_public_key := Some (after_label "public key: " line);
       if_listening_port := if_listening_port i |}
  else if String.prefix "listening port: " line then
    let value := after_label "listening port: " line in
    {| if_name := if_name i; if_peers := if_peers i; if_public_key := if_public_key i;
       if_listening_port := Some match parse_int value with Some n => PortNumber n | None => PortText value end |}
  else i.

Definition peer_line (line : string) (p : Peer) : Peer :=
  let with_fields e a h k t := {| pe_public_key := pe_public_key p; pe_endpoint := e; pe_allowed_ips := a; pe_handshake := h;
                                  pe_keepalive := k; pe_transfer := t |} in
  let e := pe_endpoint p in let a := pe_allowed_ips p in let h := pe_handshake p in let k := pe_keepalive p in let t := pe_transfer p in
  if String.prefix "endpoint: " line then with_fields (Some (after_label "endpoint: " line)) a h k t
  else if String.prefix "allowed ips: " line then
    with_fields e (Some (List.filter nonempty (map strip (split_on ","%char (after_label "allowed ips: " line))))) h k t
  else if String.prefix "latest handshake: " line then with_fields e a (Some (after_label "latest handshake: " line)) k t
  else if String.prefix "persistent keepalive: " line then with_fields e a h (Some (after_label "persistent keepalive: " line)) t
  else if String.prefix "transfer: " line then with_fields e a h k (Some (transfer_of (after_label "transfer: " line)))
  else p.

Definition scan_line (s : Scan) (raw_line : string) : Scan :=
  let line := strip raw_line in
  if negb (nonempty line) then s
  else if String.prefix "interface: " line then
    let s := finish_interface s in
    {| sc_done := sc_done s; sc_interface := Some (new_interface (after_label "interface: " line)); sc_peer := sc_peer s |}
  else match sc_interface s with
       | None => s
       | Some i =>
           if String.prefix "peer: " line then
             let s := finish_peer s in
             {| sc_done := sc_done s; sc_interface := sc_interface s; sc_peer := Some (new_peer (after_label "peer: " line)) |}
           else match sc_peer s with
                | None => {| sc_done := sc_done s; sc_interface := Some (interface_line line i); sc_peer := None |}
                | Some p => {| sc_done := sc_done s; sc_interface := Some i; sc_peer := Some (peer_line line p) |}
                end
       end.

Definition parse_lines (ls : list string) : list Interface := sc_done (finish_interface (fold_left scan_line ls start_scan)).
Definition parse_wireguard_show (output : string) : list Interface := parse_lines (splitlines output).

Record TunnelStatus := {
  ts_available : bool; ts_site : option string; ts_edge_node : string; ts_interfaces : list Interface; ts_reason : option string
}.

Definition tunnel_status (node : string) : TunnelStatus :=
  let site := if dmem (sites c) node then Some node else None in
  match tunnels node with
  | Unavailable r => {| ts_available := false; ts_site := site; ts_edge_node := runtime_node node; ts_interfaces := []; ts_reason := Some r |}
  | Available text => {| ts_available := true; ts_site := site; ts_edge_node := runtime_node node;
                         ts_interfaces := parse_wireguard_show text; ts_reason := None |}
  end.
End probe.

(** ** Facts *)

Lemma prefix_split p s : String.prefix p s = true → ∃ r, s = p +:+ r.
Proof.
  revert s. induction p as [|a p IH]; intros s Hp; [by exists s|]. destruct s as [|b s]; [done|].
  simpl in Hp. destruct (ascii_dec a b) as [->|]; [|done]. destruct (IH s Hp) as (r & ->). by exists r.
Qed.

(** A line with a private key leaves the reader where it is. *)
Lemma private_key_line s line : String.prefix "private key: " (strip line) = true → scan_line s line = s.
Proof.
  intros (r & Hr)%prefix_split. unfold scan_line. rewrite Hr. destruct s as [d [i|] [p|]]; cbn; [by destruct p|by destruct i|done|done].
Qed.

Definition is_private (line : string) : bool := String.prefix "private key: " (strip line).

(** Private keys are never read: what the structured status says of any output
    is what it says of the output without its private-key lines. *)
Theorem private_keys_ignored ls : parse_lines ls = parse_lines (List.filter (λ l, negb (is_private l)) ls).
Proof.
  unfold parse_lines. f_equal. f_equal. generalize start_scan. induction ls as [|l ls IH]; intros s; [done|]. simpl.
  unfold is_private at 1. destruct (String.prefix _ (strip l)) eqn:Hp; simpl; [by rewrite private_key_line|apply IH].
Qed.

(** One interface per line that names one, in order. *)
Definition names_interface (line : string) : option string :=
  if String.prefix "interface: " (strip line) then Some (after_label "interface: " (strip line)) else None.

Definition opened (s : Scan) : list string := map if_name (sc_done s) ++ match sc_interface s with Some i => [if_name i] | None => [] end.

Lemma opened_finish_peer s : opened (finish_peer s) = opened s.
Proof. by destruct s as [d [i|] [p|]]. Qed.

Lemma opened_finish s : opened (finish_interface s) = opened s ∧ sc_interface (finish_interface s) = None.
Proof.
  split; [|done]. rewrite <- (opened_finish_peer s). unfold finish_interface, opened at 1. simpl. rewrite map_app, app_nil_r.
  unfold opened. by destruct (sc_interface (finish_peer s)).
Qed.

Lemma scan_line_opened s line : opened (scan_line s line) = opened s ++ match names_interface line with Some n => [n] | None => [] end.
Proof.
  unfold scan_line, names_interface. destruct (nonempty (strip line)) eqn:Hn; simpl.
  2: { destruct (strip line); [|done]. by rewrite app_nil_r. }
  destruct (String.prefix "interface: " (strip line)); simpl.
  { destruct (opened_finish s) as [E Hi]. rewrite <- E. unfold opened at 2. rewrite Hi, app_nil_r. done. }
  rewrite app_nil_r. destruct s as [d [i|] p]; [|done]. simpl. destruct (String.prefix "peer: " _); [by destruct p|].
  destruct p; [done|]. unfold opened; simpl. f_equal. f_equal. unfold interface_line. by repeat case_match.
Qed.

Theorem interfaces_listed ls : map if_name (parse_lines ls) = omap names_interface ls.
Proof.
  unfold parse_lines. destruct (opened_finish (fold_left scan_line ls start_scan)) as [E Hi].
  transitivity (opened (finish_interface (fold_left scan_line ls start_scan))); [unfold opened at 1; by rewrite Hi, app_nil_r|].
  rewrite E. clear E Hi. transitivity (opened start_scan ++ omap names_interface ls); [|done]. generalize start_scan.
  induction ls as [|l ls IH]; intros s; simpl; [by rewrite app_nil_r|]. rewrite IH, scan_line_opened, <- app_assoc. f_equal.
  by destruct (names_interface l).
Qed.
