(* ===== verification/PolicyRouting.v ===== *)
(** * Policy routing at the edge

    The rule list that the [ip rule] commands of an edge or hub agent
    ([edge_agent_v5.py]) leave in the kernel, and which of its rules a packet
    mark ([common/marks.py]) takes: the rule of its transport, or of its
    transport and hub, and with it the table of that tunnel.  The list follows
    the documentation of ip-rule(8): deleting removes the first rule of a
    priority, rules are tried by priority, and a mark takes a rule when they
    agree under the rule's mask. *)
From Stdlib Require Import Ascii.
From S2P Require Import Prelude Net Marks PathSelection Model ModelValidate Json ModelParse CoreTopology TopologyFacts DesiredFacts LivePlanFacts EdgeAgent.
Local Open Scope string_scope.
Local Open Scope list_scope.
Local Open Scope Z_scope.

(** ** Numbers in commands *)

Lemma digit_of_pretty n : (n < 10)%N → digit_of (pretty_N_char n) = Some (Z.of_N n).
Proof.
  intros Hn. assert (forallb (λ k, bool_decide (digit_of (pretty_N_char (N.of_nat k)) = Some (Z.of_nat k))) (seq 0 10) = true) as Hf by (vm_compute; reflexivity).
  rewrite forallb_forall in Hf. specialize (Hf (N.to_nat n)). rewrite in_seq in Hf. specialize (Hf ltac:(lia)).
  apply bool_decide_eq_true in Hf. rewrite N2Nat.id in Hf. rewrite Hf. f_equal. lia.
Qed.

Lemma digits_go_pretty n : ∀ s, digits_go (pretty_N_go n s) 0 = digits_go s (Z.of_N n).
Proof.
  induction n as [n IH] using (well_founded_induction N.lt_wf_0). intros s.
  destruct (decide (n = 0)%N) as [->|Hn]; [done|]. rewrite pretty_N_go_step by lia. rewrite IH by (apply N.div_lt; lia). simpl.
  rewrite digit_of_pretty by (apply N.mod_lt; lia). f_equal. pose proof (N.div_mod n 10). lia.
Qed.

Lemma has_char_pretty c n : digit_of c = None → ∀ s, has_char c (pretty_N_go n s) = has_char c s.
Proof.
  intros Hc. induction n as [n IH] using (well_founded_induction N.lt_wf_0). intros s.
  destruct (decide (n = 0)%N) as [->|Hn]; [done|]. rewrite pretty_N_go_step by lia. rewrite IH by (apply N.div_lt; lia). simpl.
  destruct (Ascii.eqb_spec (pretty_N_char (n `mod` 10)) c) as [<-|]; [|done].
  rewrite digit_of_pretty in Hc by (apply N.mod_lt; lia). discriminate.
Qed.

Lemma str_Z_pos z : 0 < z → str_Z z = pretty_N_go (Z.to_N z) "".
Proof. intros Hz. destruct z as [|p|p]; [lia| |lia]. unfold str_Z, pretty, pretty_Z. simpl. done. Qed.

Lemma parse_str_Z z : 0 <= z → parse_digits (str_Z z) = Some z ∧ has_char "/"%char (str_Z z) = false.
Proof.
  intros Hz. destruct (decide (z = 0)) as [->|]; [done|]. rewrite str_Z_pos by lia. split.
  - unfold parse_digits. pose proof (digits_go_pretty (Z.to_N z) "") as Hd. rewrite Z2N.id in Hd by lia.
    destruct (pretty_N_go (Z.to_N z) ""); [|exact Hd]. simpl in Hd. injection Hd. lia.
  - by rewrite has_char_pretty.
Qed.

(** ** The rule list *)

Record Rule := { prio : Z; value : Z; mask : Z; table : Z }.

Definition hits (v : Z) (r : Rule) : bool := Z.land v (mask r) =? Z.land (value r) (mask r).

(** The rule a mark takes. *)
Definition first_rule (rs : list Rule) (v : Z) : option Rule :=
  head (sort_by (λ a b, prio a <=? prio b) (List.filter (hits v) rs)).

Fixpoint delete_first (p : Z) (rs : list Rule) : list Rule :=
  match rs with [] => [] | r :: rs => if prio r =? p then rs else r :: delete_first p rs end.

(** [VALUE/MASK] *)
Definition read_mark (s : string) : option (Z * Z) :=
  match split_on "/"%char s with
  | [v; m] => match parse_digits v, parse_digits m with Some v, Some m => Some (v, m) | _, _ => None end
  | _ => None
  end.

Definition apply_command (rs : list Rule) (cmd : command) : list Rule :=
  match cmd with
  | ["ip"; "rule"; "del"; "priority"; p] => match parse_digits p with Some p => delete_first p rs | None => rs end
  | ["ip"; "rule"; "add"; "priority"; p; "fwmark"; m; "lookup"; t] =>
      match parse_digits p, read_mark m, parse_digits t with
      | Some p, Some (v, m), Some t => rs ++ [{| prio := p; value := v; mask := m; table := t |}]
      | _, _, _ => rs
      end
  | _ => rs
  end.

(** ** Changes of the list *)

Inductive change := Del (p : Z) | Set_ (r : Rule).

Definition touches (x : change) : Z := match x with Del p => p | Set_ r => prio r end.
Definition without (p : Z) (rs : list Rule) : list Rule := List.filter (λ r, negb (prio r =? p)) rs.
Definition apply (rs : list Rule) (x : change) : list Rule :=
  without (touches x) rs ++ match x with Set_ r => [r] | Del _ => [] end.
Definition apply_all (xs : list change) (rs : list Rule) : list Rule := fold_left apply xs rs.

Definition prios (rs : list Rule) : list Z := map prio rs.

Lemma in_without r p rs : r ∈ without p rs ↔ r ∈ rs ∧ prio r ≠ p.
Proof. unfold without. rewrite !list_elem_of_In, filter_In, negb_true_iff, Z.eqb_neq. done. Qed.

Lemma without_nodup p rs : NoDup (prios rs) → NoDup (prios (without p rs)).
Proof.
  unfold prios, without. induction rs as [|r rs IH]; simpl; [done|]. intros [Hn Hd]%NoDup_cons.
  destruct (negb (prio r =? p)); simpl; [|by apply IH]. apply NoDup_cons. split; [|by apply IH].
  rewrite !list_elem_of_In, !in_map_iff in Hn |- *. intros (x & Ex & Hx). apply Hn. exists x. split; [done|]. by apply filter_In in Hx as [Hx _].
Qed.

Lemma apply_nodup x rs : NoDup (prios rs) → NoDup (prios (apply rs x)).
Proof.
  intros Hd. unfold apply, prios. rewrite map_app. apply NoDup_app. split_and!; [by apply without_nodup| |].
  - intros p Hp Hx. destruct x as [q|r]; simpl in Hx; [by apply not_elem_of_nil in Hx|]. apply list_elem_of_singleton in Hx as ->.
    rewrite list_elem_of_In in Hp. apply in_map_iff in Hp as (r' & E & Hr'). rewrite <- list_elem_of_In, in_without in Hr'. naive_solver.
  - destruct x; simpl; [constructor|apply NoDup_singleton].
Qed.

Lemma apply_all_nodup xs rs : NoDup (prios rs) → NoDup (prios (apply_all xs rs)).
Proof. revert rs. induction xs as [|x xs IH]; intros rs Hd; simpl; [done|]. by apply IH, apply_nodup. Qed.

(** A rule of the final list was set, or was there and nothing touched it. *)
Lemma apply_all_origin xs rs r : r ∈ apply_all xs rs → Set_ r ∈ xs ∨ (r ∈ rs ∧ prio r ∉ map touches xs).
Proof.
  revert rs. induction xs as [|x xs IH]; intros rs Hr; simpl in *; [right; split; [done|apply not_elem_of_nil]|].
  apply IH in Hr as [Hr|[Hr Hn]]; [left; by right|]. unfold apply in Hr. apply elem_of_app in Hr as [[Hr Hp]%in_without|Hr].
  - right. split; [done|]. by rewrite not_elem_of_cons.
  - left. destruct x as [p|r']; [by apply not_elem_of_nil in Hr|]. apply list_elem_of_singleton in Hr as ->. left.
Qed.

(** A rule that was set stays when every change of its priority sets it. *)
Lemma apply_all_kept xs rs r : (Set_ r ∈ xs ∨ r ∈ rs) → (∀ x, x ∈ xs → touches x = prio r → x = Set_ r) → r ∈ apply_all xs rs.
Proof.
  revert rs. induction xs as [|x xs IH]; intros rs Hr Hx; simpl; [destruct Hr as [Hr|]; [by apply not_elem_of_nil in Hr|done]|].
  apply IH; [|intros y Hy; apply Hx; by right].
  destruct Hr as [[<-|Hr]%elem_of_cons|Hr]; [right|by left|right].
  - unfold apply. apply elem_of_app. right. by apply list_elem_of_singleton.
  - unfold apply. apply elem_of_app. destruct (decide (touches x = prio r)) as [E|E].
    + right. rewrite (Hx x) by (done || left). by apply list_elem_of_singleton.
    + left. apply in_without. split; [done|congruence].
Qed.

(** The least priority that a mark hits. *)
Lemma first_rule_least rs v r : r ∈ rs → hits v r = true → (∀ r', r' ∈ rs → hits v r' = true → r' = r ∨ prio r < prio r') →
  first_rule rs v = Some r.
Proof.
  intros Hr Hh Hm. unfold first_rule. set (l := List.filter (hits v) rs).
  assert (Hin : ∀ x, x ∈ l ↔ x ∈ rs ∧ hits v x = true) by (intros x; unfold l; by rewrite !list_elem_of_In, filter_In).
  destruct (sort_by (λ a b, prio a <=? prio b) l) as [|x l'] eqn:E.
  - apply sort_by_nil in E. assert (r ∈ l) as Hl by by apply Hin. rewrite E in Hl. by apply not_elem_of_nil in Hl.
  - apply sort_by_head in E as [[Hx Hv]%Hin Hle]; [|apply _]. simpl. destruct (Hm x Hx Hv) as [->|Hlt]; [done|].
    specialize (Hle r (proj2 (Hin r) (conj Hr Hh))). lia.
Qed.

(** ** What the agent's commands do to the list *)

Section agent.
Context (exec : list command → command → option string) (c : TopologyConfig) (R0 : list Rule).

Definition rules_of (cs : list command) : list Rule := fold_left apply_command cs R0.

Definition del_command (p : Z) : command := ["ip"; "rule"; "del"; "priority"; str_Z p].

(** [ip rule del] says that a rule is missing only when there is none. *)
Definition honest : Prop := ∀ cs p text, exec cs (del_command p) = Some text →
  contains "No such file" text || contains "Cannot find" text = true → p ∉ prios (rules_of cs).

Context (Hexec : honest).

Lemma delete_first_without p rs : NoDup (prios rs) → delete_first p rs = without p rs.
Proof.
  unfold prios, without. induction rs as [|r rs IH]; simpl; [done|]. intros [Hn Hd]%NoDup_cons.
  destruct (Z.eqb_spec (prio r) p) as [<-|]; simpl; [|by rewrite IH].
  clear IH Hd. induction rs as [|q rs IH]; simpl; [done|]. simpl in Hn. apply not_elem_of_cons in Hn as [Hq Hn].
  destruct (Z.eqb_spec (prio q) (prio r)); [by destruct Hq|]. simpl. f_equal. by apply IH.
Qed.

Lemma without_absent p rs : p ∉ prios rs → without p rs = rs.
Proof.
  unfold prios, without. induction rs as [|r rs IH]; simpl; [done|]. intros [Hp Hn]%not_elem_of_cons.
  destruct (Z.eqb_spec (prio r) p); [by destruct Hp|]. simpl. f_equal. by apply IH.
Qed.

(** [m], when it returns, makes the changes [xs]. *)
Definition makes {A} (xs : list change) (m : M Agent A) : Prop := ∀ a r a', ag_config a = c → NoDup (prios (rules_of (commands a))) →
  m a = (Ok r, a') → ag_config a' = c ∧ rules_of (commands a') = apply_all xs (rules_of (commands a)).

Lemma makes_bind {A B} xs ys (m : M Agent A) (k : A → M Agent B) : makes xs m → (∀ r, makes ys (k r)) → makes (xs ++ ys) (m ≫= k).
Proof.
  intros Hm Hk a r a' Hc Hd E. unfold mbind, M_bind in E. destruct (m a) as [[x|] s] eqn:Em; [|done].
  destruct (Hm _ _ _ Hc Hd Em) as [Hc' Hr']. assert (Hd' : NoDup (prios (rules_of (commands s)))) by (rewrite Hr'; by apply apply_all_nodup).
  destruct (Hk x _ _ _ Hc' Hd' E) as [? ->]. split; [done|]. rewrite Hr'. unfold apply_all. by rewrite fold_left_app.
Qed.

Lemma makes_forM {A} (f : A → list change) (g : A → M Agent unit) l : (∀ x, x ∈ l → makes (f x) (g x)) → makes (flat_map f l) (forM g l).
Proof.
  induction l as [|x l IH]; intros H; [intros a r a' Hc Hd [= <- <-]; done|]. simpl. apply makes_bind; [apply H; left|].
  intros _. apply IH. intros y Hy. apply H. by right.
Qed.

Lemma makes_lift {A B} xs (r : result A) (k : A → M Agent B) : (∀ x, r = Ok x → makes xs (k x)) → makes xs (lift r ≫= k).
Proof. intros H a y a' Hc Hd E. unfold mbind, M_bind, lift in E. destruct r as [x|]; [|done]. by apply (H x eq_refl a y). Qed.

Lemma run_commands cmd a r a' : run exec cmd a = (Ok r, a') → ag_config a' = ag_config a ∧ commands a' = commands a ++ [cmd].
Proof. unfold run. destruct (exec _ _); [done|]. intros [= <- <-]. done. Qed.

Lemma makes_delete p : 0 <= p → makes [Del p] (delete_rule exec p).
Proof.
  intros Hp a r a' Hc Hd E. unfold delete_rule, catch_command in E. change ["ip"; "rule"; "del"; "priority"; str_Z p] with (del_command p) in E.
  assert (Hgoal : apply_all [Del p] (rules_of (commands a)) = without p (rules_of (commands a))) by (unfold apply_all, apply; simpl; apply app_nil_r).
  rewrite Hgoal. clear Hgoal. unfold run in E. destruct (exec (commands a) (del_command p)) as [text|] eqn:Ex.
  - simpl in E. unfold ignore_missing in E. destruct (negb _ && negb _) eqn:Hm; [discriminate E|]. injection E as <- <-. split; [done|].
    rewrite without_absent; [done|]. apply (Hexec _ _ _ Ex). by destruct (contains "No such file" text), (contains "Cannot find" text).
  - injection E as <- <-. split; [done|]. simpl. unfold rules_of. rewrite fold_left_app. fold (rules_of (commands a)). cbn [fold_left].
    unfold del_command. simpl. rewrite (proj1 (parse_str_Z p Hp)). by apply delete_first_without.
Qed.

Definition mark_str (v m : Z) : string := str_Z v +:+ "/" +:+ str_Z m.

Lemma makes_replace p v m t : 0 <= p → 0 <= v → 0 <= m → 0 <= t →
  makes [Set_ {| prio := p; value := v; mask := m; table := t |}] (replace_owned_rule exec p (mark_str v m) t).
Proof.
  intros Hp Hv Hm Ht a r a' Hc Hd E. unfold replace_owned_rule in E. unfold mbind, M_bind in E.
  destruct (delete_rule exec p a) as [[[]|] s] eqn:Ed; [|done]. destruct (makes_delete p Hp _ _ _ Hc Hd Ed) as [Hc' Hr].
  apply run_commands in E as [Hc'' ->]. split; [congruence|]. unfold rules_of. rewrite fold_left_app. fold (rules_of (commands s)). cbn [fold_left].
  rewrite Hr. simpl. rewrite (proj1 (parse_str_Z p Hp)), (proj1 (parse_str_Z t Ht)).
  unfold read_mark, mark_str. destruct (parse_str_Z v Hv) as [Pv Fv], (parse_str_Z m Hm) as [Pm Fm].
  rewrite split_on_app by done. rewrite split_on_free by done. rewrite Pv, Pm. unfold apply. simpl. by rewrite app_nil_r.
Qed.
End agent.

(** ** The rules of a topology *)

Definition generic_rule (m : MarkLayout) (t : Transport) : Rule := {|
  prio := 2000 + route_slot t; value := route_slot t; mask := route_mask m; table := tr_route_table t |}.
Definition hub_rule (m : MarkLayout) (hub : string) (t : Transport) (tg : TunnelTarget) : Rule := {|
  prio := tt_route_table tg; value := Z.lor (route_slot t) (hub_bit m hub); mask := Z.lor (route_mask m) (target_hub_mask m);
  table := tt_route_table tg |}.

(** What the agent takes for granted of the tables of the tunnels: the rule of a
    tunnel comes before the rules of the transports (2001 to 2003), and deleting
    the legacy priority 1000 + table removes none of them. *)
Definition rules_ready (c : TopologyConfig) : bool :=
  (0 <=? route_mask (marks (settings c))) &&
  forallb (λ tg, (1003 <? tt_route_table tg) && (tt_route_table tg <=? 2000)) (dvals (targets c)).

Definition pair_changes (c : TopologyConfig) (hub : string) (t : Transport) : list change :=
  match Model.target c hub (tr_name t) with
  | Ok tg => [Del (1000 + tt_route_table tg); Set_ (hub_rule (marks (settings c)) hub t tg)]
  | Err _ => []
  end.
Definition spoke_changes (c : TopologyConfig) : list change :=
  flat_map (λ t, [Set_ (generic_rule (marks (settings c)) t)]) (transport_list c) ++
  flat_map (λ h, flat_map (pair_changes c h) (transport_list c)) HUBS.

Section tables.
Context (c : TopologyConfig) (Hv : validate_config c = Ok tt) (Hco : coherent c) (Hready : rules_ready c = true).

Notation layout := (marks (settings c)).

Lemma route_mask_nonneg : 0 <= route_mask layout.
Proof. unfold rules_ready in Hready. btrue. lia. Qed.

Lemma transports_checked : layout_ok layout ∧ map route_slot (transport_list c) = [1; 2; 3] ∧
  map tr_route_table (transport_list c) = [101; 102; 103].
Proof.
  pose proof (v_transports _ (proj1 (validate_config_iff c) Hv)) as Ht. unfold check_transports in Ht.
  rewrite !bind_unit_ok, !reject_ok, !negb_false_iff, !bool_decide_eq_true in Ht. destruct Ht as (_ & _ & _ & Hm & Hs & Ht).
  split_and!; [by eapply validate_layout_ok|done|done].
Qed.

Lemma slot_range t : t ∈ transport_list c → 1 <= route_slot t <= 3 ∧ 0 <= tr_route_table t.
Proof.
  intros Ht. destruct transports_checked as (_ & Hs & Hr).
  assert (Forall (λ z, 1 <= z <= 3) (map route_slot (transport_list c))) as H1 by (rewrite Hs; repeat constructor; lia).
  assert (Forall (λ z, 0 <= z) (map tr_route_table (transport_list c))) as H2 by (rewrite Hr; repeat constructor; lia).
  rewrite Forall_map, Forall_forall in H1, H2. by split; [apply H1|apply H2].
Qed.

Lemma slot_inj t t' : t ∈ transport_list c → t' ∈ transport_list c → route_slot t = route_slot t' → t = t'.
Proof.
  apply NoDup_map_inj. destruct transports_checked as (_ & -> & _). by apply uniqueb_true.
Qed.

Lemma name_inj t t' : t ∈ transport_list c → t' ∈ transport_list c → tr_name t = tr_name t' → t = t'.
Proof.
  apply NoDup_map_inj. rewrite (transport_names c Hco), (transport_keys c Hv). by apply uniqueb_true.
Qed.

Lemma target_In h tr tg : Model.target c h tr = Ok tg → ((h, tr), tg) ∈ targets c.
Proof. unfold Model.target, of_option. destruct (dget (targets c) (h, tr)) as [x|] eqn:E; [|done]. intros [= <-]. by apply dget_In. Qed.

Lemma table_range h tr tg : Model.target c h tr = Ok tg → 1003 < tt_route_table tg <= 2000.
Proof.
  intros Ht%target_In. unfold rules_ready in Hready. apply andb_true_iff in Hready as [_ Hf]. rewrite forallb_forall in Hf.
  specialize (Hf tg). unfold dvals in Hf. rewrite in_map_iff in Hf. specialize (Hf ltac:(exists (h, tr, tg); rewrite <- list_elem_of_In; done)). lia.
Qed.

Lemma table_inj h tr tg h' tr' tg' : Model.target c h tr = Ok tg → Model.target c h' tr' = Ok tg' →
  tt_route_table tg = tt_route_table tg' → (h, tr, tg) = (h', tr', tg').
Proof.
  intros H1%target_In H2%target_In. pose proof (v_wireguard _ (proj1 (validate_config_iff c) Hv)) as Hw. unfold check_wireguard in Hw.
  destruct (wireguard_ports c) as [ports|]; [|done]. cbn in Hw. unfold mbind at 1, result_bind at 1 in Hw. destruct (reject (negb (uniqueb ports) || _) _); [|done].
  unfold mbind at 1, result_bind at 1 in Hw. destruct (reject (negb (uniqueb (map tt_route_table (dvals (targets c))))) _) as [[]|] eqn:E; [|done].
  rewrite reject_ok, negb_false_iff, uniqueb_true in E. unfold dvals in E. rewrite map_map in E.
  exact (NoDup_map_inj (λ p, tt_route_table p.2) (targets c) (h, tr, tg) (h', tr', tg') E H1 H2).
Qed.

Lemma in_spoke_changes x : x ∈ spoke_changes c ↔
  (∃ t, t ∈ transport_list c ∧ x = Set_ (generic_rule layout t)) ∨
  (∃ h t tg, h ∈ HUBS ∧ t ∈ transport_list c ∧ Model.target c h (tr_name t) = Ok tg ∧ (x = Del (1000 + tt_route_table tg) ∨ x = Set_ (hub_rule layout h t tg))).
Proof.
  unfold spoke_changes. rewrite elem_of_app, !list_elem_of_In, !in_flat_map. split.
  - intros [(t & Ht & [<-|[]])|(h & Hh & (t & Ht & Hx)%in_flat_map)]; [left; exists t; by rewrite list_elem_of_In|].
    right. unfold pair_changes in Hx. destruct (Model.target c h (tr_name t)) as [tg|] eqn:E; [|done]. exists h, t, tg. rewrite !list_elem_of_In.
    destruct Hx as [<-|[<-|[]]]; auto.
  - intros [(t & Ht & ->)|(h & t & tg & Hh & Ht & E & Hx)]; [left; exists t; rewrite <- list_elem_of_In; simpl; auto|].
    right. exists h. rewrite <- list_elem_of_In. split; [done|]. apply in_flat_map. exists t. rewrite <- list_elem_of_In. split; [done|].
    unfold pair_changes. rewrite E. simpl. naive_solver.
Qed.

(** Every change of a priority sets the one rule of that priority. *)
Lemma set_once r x : Set_ r ∈ spoke_changes c → x ∈ spoke_changes c → touches x = prio r → x = Set_ r.
Proof.
  intros Hr Hx E. apply in_spoke_changes in Hr, Hx.
  destruct Hr as [(t & Ht & [= ->])|(h & t & tg & Hh & Ht & Etg & [?|[= ->]])]; [|done|];
    destruct Hx as [(t' & Ht' & ->)|(h' & t' & tg' & Hh' & Ht' & Etg' & [->| ->])]; simpl in E;
    try pose proof (slot_range _ Ht); try pose proof (slot_range _ Ht'); try pose proof (table_range _ _ _ Etg);
    try pose proof (table_range _ _ _ Etg'); try lia.
  - by rewrite (slot_inj t' t) by (done || lia).
  - pose proof (table_inj _ _ _ _ _ _ Etg' Etg E) as [= -> Ename ->]. by rewrite (name_inj t' t).
Qed.

(** ** What a mark hits *)

Lemma marks_hit t st em hub eg v : t ∈ transport_list c → encode layout (route_slot t) st em hub eg = Ok v →
  known_hub hub ∧ Z.land v (route_mask layout) = route_slot t ∧ Z.land v (target_hub_mask layout) = hub_part layout hub.
Proof.
  intros Ht (Hb & Hk & ->)%encode_parts. destruct transports_checked as (Hl & _). split; [done|].
  rewrite <- (Z.lor_assoc (route_slot t)).
  destruct (mask_fields layout Hl (route_slot t) (Z.lor (stage_part layout st) (emergency_part layout em)) (hub_part layout hub) (egress_part layout eg))
    as (E1 & _ & E3 & _); [by apply transport_within| |by apply hub_part_within|by apply egress_part_within|done].
  apply within_lor; [by apply stage_part_within|by apply emergency_part_within].
Qed.

(** The slots fit the route mask. *)
Lemma slot_fits t : t ∈ transport_list c → within (route_slot t) (route_mask layout).
Proof.
  intros Ht. pose proof (v_transports _ (proj1 (validate_config_iff c) Hv)) as Hc. unfold check_transports in Hc.
  rewrite !bind_unit_ok in Hc. destruct Hc as (_ & _ & _ & Hm & _). unfold validate in Hm. rewrite bind_unit_ok in Hm. destruct Hm as (_ & Hm).
  unfold mbind at 1, result_bind at 1, raise_if at 1 in Hm. destruct (existsb _ _) eqn:E; [done|]. clear Hm.
  apply transport_within. apply not_true_iff_false. intros Hb. apply not_true_iff_false in E. apply E, existsb_exists. exists (route_slot t).
  split; [|done]. unfold slot_marks, dvals, dmap. rewrite map_map. unfold transport_list, dvals in Ht.
  rewrite list_elem_of_In, in_map_iff in Ht. destruct Ht as (p & <- & Hp). apply in_map_iff. by exists p.
Qed.

Lemma hits_generic t' v t h : t' ∈ transport_list c → Z.land v (route_mask layout) = route_slot t → Z.land v (target_hub_mask layout) = h →
  hits v (generic_rule layout t') = (route_slot t =? route_slot t').
Proof. intros Ht' E1 _. unfold hits, generic_rule. cbn [mask value]. rewrite E1. by rewrite (slot_fits t' Ht'). Qed.

Lemma hub_bit_fits h : hub_bit layout h = hub_part layout (Some (if String.eqb h "hub1" then "hub1" else "hub2")).
Proof. unfold hub_bit, hub_part. by destruct (String.eqb h "hub1"). Qed.

Lemma hits_hub h' t' tg v t p : t' ∈ transport_list c → Z.land v (route_mask layout) = route_slot t → Z.land v (target_hub_mask layout) = p →
  hits v (hub_rule layout h' t' tg) = (route_slot t =? route_slot t') && (p =? hub_bit layout h').
Proof.
  intros Ht' E1 E2. destruct transports_checked as (Hl & _). unfold hits, hub_rule. cbn [mask value].
  assert (Ev : Z.land v (Z.lor (route_mask layout) (target_hub_mask layout)) = Z.lor (route_slot t) p) by (by rewrite Z.land_lor_distr_r, E1, E2).
  assert (Hs : within (route_slot t') (route_mask layout)) by by apply slot_fits.
  assert (Hb : within (hub_bit layout h') (target_hub_mask layout)) by (rewrite hub_bit_fits; by apply hub_part_within).
  pose proof (lo_route_hub _ Hl) as D. pose proof D as D'. rewrite Z.land_comm in D'.
  assert (Er : Z.land (Z.lor (route_slot t') (hub_bit layout h')) (Z.lor (route_mask layout) (target_hub_mask layout)) = Z.lor (route_slot t') (hub_bit layout h')).
  { rewrite Z.land_lor_distr_r, !Z.land_lor_distr_l, Hs, Hb, (within_disjoint _ _ _ Hs D), (within_disjoint _ _ _ Hb D'). by rewrite Z.lor_0_r, Z.lor_0_l. }
  rewrite Ev, Er. destruct (Z.eqb_spec (route_slot t) (route_slot t')) as [->|Hne], (Z.eqb_spec p (hub_bit layout h')) as [->|Hnp]; simpl; try apply Z.eqb_refl;
    apply Z.eqb_neq; intros E.
  - apply Hnp. apply (f_equal (λ z, Z.land z (target_hub_mask layout))) in E. rewrite !Z.land_lor_distr_l, (within_disjoint _ _ _ Hs D), Hb in E.
    rewrite <- E2 in E |- *. rewrite <- Z.land_assoc, Z.land_diag in E. by rewrite !Z.lor_0_l in E.
  - apply Hne. apply (f_equal (λ z, Z.land z (route_mask layout))) in E. rewrite !Z.land_lor_distr_l, Hs, (within_disjoint _ _ _ Hb D') in E.
    rewrite <- E1 in E |- *. rewrite <- Z.land_assoc, Z.land_diag in E. by rewrite !Z.lor_0_r in E.
  - apply Hne. apply (f_equal (λ z, Z.land z (route_mask layout))) in E. rewrite !Z.land_lor_distr_l, Hs, (within_disjoint _ _ _ Hb D') in E.
    rewrite <- E1 in E |- *. rewrite <- E2 in E. rewrite <- !Z.land_assoc, Z.land_diag, D', Z.land_0_r in E. by rewrite !Z.lor_0_r in E.
Qed.

Lemma target_known h t : h ∈ HUBS → t ∈ transport_list c → ∃ tg, Model.target c h (tr_name t) = Ok tg.
Proof.
  intros Hh Ht. pose proof (v_transports _ (proj1 (validate_config_iff c) Hv)) as Hc. unfold check_transports in Hc.
  rewrite !bind_unit_ok, !reject_ok, !negb_false_iff, !bool_decide_eq_true in Hc. destruct Hc as (_ & _ & Hk & _). apply same_setb_true with (x := (h, tr_name t)) in Hk.
  assert (tr_name t ∈ TRANSPORTS).
  { rewrite <- (transport_keys c Hv), <- (transport_names c Hco), list_elem_of_In. apply in_map. by rewrite <- list_elem_of_In. }
  assert ((h, tr_name t) ∈ dkeys (targets c)) as Hd by (by apply Hk, pair_parts).
  apply dmem_true in Hd. unfold dmem in Hd. unfold Model.target. destruct (dget (targets c) (h, tr_name t)) as [tg|]; [by exists tg|done].
Qed.

(** The rule a mark with these fields takes among the agent's own. *)
Lemma selected_rule t hub v : t ∈ transport_list c → known_hub hub → Z.land v (route_mask layout) = route_slot t →
  Z.land v (target_hub_mask layout) = hub_part layout hub →
  ∃ r, Set_ r ∈ spoke_changes c ∧ hits v r = true ∧ prio r <= 2003 ∧
    (∀ r', Set_ r' ∈ spoke_changes c → hits v r' = true → r' = r ∨ prio r < prio r') ∧
    match hub with
    | None => r = generic_rule layout t
    | Some h => ∃ tg, Model.target c h (tr_name t) = Ok tg ∧ r = hub_rule layout h t tg
    end.
Proof.
  intros Ht Hk E1 E2. pose proof (slot_range t Ht) as [Hslot _].
  assert (Hhits : ∀ r', Set_ r' ∈ spoke_changes c → hits v r' = true → r' = generic_rule layout t ∨
    ∃ h' tg', h' ∈ HUBS ∧ Model.target c h' (tr_name t) = Ok tg' ∧ hub_part layout hub = hub_bit layout h' ∧ r' = hub_rule layout h' t tg').
  { intros r' [(t' & Ht' & [= ->])|(h' & t' & tg' & Hh' & Ht' & Etg' & [?|[= ->]])]%in_spoke_changes Hhit; [left|done|right].
    - rewrite (hits_generic t' v t _ Ht' E1 E2) in Hhit. by rewrite (slot_inj t t') by (done || lia).
    - rewrite (hits_hub h' t' tg' v t _ Ht' E1 E2) in Hhit. apply andb_true_iff in Hhit as [Hs Hb].
      assert (t' = t) as -> by (symmetry; apply slot_inj; done || lia). exists h', tg'. split_and!; [done|done|lia|done]. }
  destruct transports_checked as (Hl & _). pose proof (lo_pos _ Hl) as P. repeat (apply Forall_cons in P as [? P]). pose proof (lo_hub_ne _ Hl) as Hne.
  assert (Hgen : hits v (generic_rule layout t) = true) by (rewrite (hits_generic t v t _ Ht E1 E2); lia).
  destruct hub as [h|].
  - assert (Hh : h ∈ HUBS) by (destruct Hk as [|[[= ->]|[= ->]]]; [done|left|right; left]).
    assert (Hpart : hub_part layout (Some h) = hub_bit layout h) by (by destruct Hk as [|[[= ->]|[= ->]]]).
    destruct (target_known h t Hh Ht) as (tg & Etg). pose proof (table_range _ _ _ Etg) as Hr. exists (hub_rule layout h t tg). split_and!.
    + apply in_spoke_changes. right. exists h, t, tg. auto.
    + rewrite (hits_hub h t tg v t _ Ht E1 E2). lia.
    + simpl. lia.
    + intros r' Hin Hhit. destruct (Hhits r' Hin Hhit) as [->|(h' & tg' & Hh' & Etg' & Eb & ->)]; [right; simpl; lia|left].
      assert (h' = h) as ->; [|rewrite Etg in Etg'; by injection Etg' as ->]. rewrite Hpart in Eb. unfold hub_bit in Eb.
      unfold HUBS in Hh, Hh'. rewrite !elem_of_cons in Hh, Hh'.
      destruct Hh as [->|[->|?%not_elem_of_nil]], Hh' as [->|[->|?%not_elem_of_nil]]; simpl in Eb; done || congruence.
    + by exists tg.
  - exists (generic_rule layout t). split_and!; [apply in_spoke_changes; left; by exists t|done|simpl; lia| |done].
    intros r' Hin Hhit. destruct (Hhits r' Hin Hhit) as [->|(h' & tg' & _ & _ & Eb & _)]; [by left|].
    simpl in Eb. unfold hub_bit in Eb. destruct (String.eqb h' "hub1"); lia.
Qed.
End tables.

(** ** Installation *)

Section install.
Context (exec : list command → command → option string) (c : TopologyConfig) (R0 : list Rule) (Hexec : honest exec R0).
Context (Hv : validate_config c = Ok tt) (Hco : coherent c) (Hready : rules_ready c = true).

Lemma makes_config {A} xs (k : TopologyConfig → M Agent A) : makes c R0 xs (k c) → makes c R0 xs (config ≫= k).
Proof. intros H a r a' Hc Hd E. unfold config, mbind, M_bind, get in E. cbn in E. rewrite Hc in E. by apply (H a r). Qed.

Lemma hub_bit_nonneg h : 0 <= hub_bit (marks (settings c)) h ∧ 0 <= target_hub_mask (marks (settings c)).
Proof.
  destruct (transports_checked c Hv) as (Hl & _). pose proof (lo_pos _ Hl) as P. repeat (apply Forall_cons in P as [? P]).
  split; [unfold hub_bit; case_match; lia|]. rewrite (lo_hub _ Hl). apply Z.lor_nonneg. lia.
Qed.

Lemma makes_generic t : t ∈ transport_list c →
  makes c R0 [Set_ (generic_rule (marks (settings c)) t)]
    (replace_owned_rule exec (2000 + route_slot t) (mark_str (route_slot t) (route_mask (marks (settings c)))) (tr_route_table t)).
Proof.
  intros Ht. pose proof (slot_range c Hv t Ht). pose proof (route_mask_nonneg c Hready). apply makes_replace; lia || done.
Qed.

Lemma makes_hub h t tg : t ∈ transport_list c → Model.target c h (tr_name t) = Ok tg →
  makes c R0 [Set_ (hub_rule (marks (settings c)) h t tg)]
    (replace_owned_rule exec (tt_route_table tg) (hub_rule_mark (marks (settings c)) h t) (tt_route_table tg)).
Proof.
  intros Ht Etg. pose proof (slot_range c Hv t Ht). pose proof (table_range c Hready _ _ _ Etg). pose proof (route_mask_nonneg c Hready).
  pose proof (hub_bit_nonneg h) as [? ?]. apply makes_replace; try done; try lia; apply Z.lor_nonneg; lia.
Qed.

Lemma makes_policy_rules : makes c R0 (spoke_changes c) (install_policy_rules exec).
Proof.
  unfold install_policy_rules, spoke_changes. apply makes_config. cbv zeta. apply makes_bind.
  - apply makes_forM. intros t Ht. by apply makes_generic.
  - intros _. apply makes_forM. intros h Hh. apply makes_forM. intros t Ht. apply makes_lift. intros tg Etg. unfold pair_changes. rewrite Etg.
    apply (makes_bind c R0 [_] [_]); [|intros _; by apply makes_hub]. pose proof (table_range c Hready _ _ _ Etg). apply makes_delete; [done|lia].
Qed.

(** The priorities the agent owns. *)
Definition owned (p : Z) : Prop := p ∈ map touches (spoke_changes c).

(** The rules that are not the agent's come after its own. *)
Definition leaves_room (rs : list Rule) : Prop := NoDup (prios rs) ∧ ∀ r, r ∈ rs → owned (prio r) ∨ 2003 < prio r.

(** The first rule of the changed list for a mark with these fields. *)
Lemma selected_after t hub v R : t ∈ transport_list c → known_hub hub → Z.land v (route_mask (marks (settings c))) = route_slot t →
  Z.land v (target_hub_mask (marks (settings c))) = hub_part (marks (settings c)) hub → (∀ r, r ∈ R → owned (prio r) ∨ 2003 < prio r) →
  ∃ r, first_rule (apply_all (spoke_changes c) R) v = Some r ∧
    match hub with
    | None => r = generic_rule (marks (settings c)) t
    | Some h => ∃ tg, Model.target c h (tr_name t) = Ok tg ∧ r = hub_rule (marks (settings c)) h t tg
    end.
Proof.
  intros Ht Hk E1 E2 Hroom. destruct (selected_rule c Hv Hco Hready t hub v Ht Hk E1 E2) as (r & Hset & Hhit & Hlow & Hmin & Hr).
  exists r. split; [|done]. apply first_rule_least; [|done|].
  - apply apply_all_kept; [by left|]. intros x Hx Ex. by apply (set_once c Hv Hco Hready).
  - intros r' [Hin|[Hin Hnot]]%apply_all_origin Hh'; [by apply Hmin|]. destruct (Hroom r' Hin) as [Ho|]; [by destruct Hnot|]. right. lia.
Qed.


(** On a hub: the rules of its own tunnels only. *)
Definition hub_changes (hub : string) : list change :=
  flat_map (λ t, match Model.target c hub (tr_name t) with Ok tg => [Set_ (hub_rule (marks (settings c)) hub t tg)] | Err _ => [] end)
    (transport_list c).

Lemma makes_hub_rules a r a' : ag_config a = c → NoDup (prios (rules_of R0 (commands a))) → install_hub_policy_rules exec a = (Ok r, a') →
  ag_site a ∈ HUBS ∧ rules_of R0 (commands a') = apply_all (hub_changes (ag_site a)) (rules_of R0 (commands a)).
Proof.
  intros Hc Hd E. unfold install_hub_policy_rules, config, mbind, M_bind, get in E. cbn in E. rewrite Hc in E. unfold guard, lift, raise_if in E.
  destruct (negb (dmem (hubs c) (ag_site a))) eqn:Hh; [done|]. apply negb_false_iff, dmem_true in Hh.
  pose proof (v_transports _ (proj1 (validate_config_iff c) Hv)) as Hk. unfold check_transports in Hk. rewrite !bind_unit_ok, !reject_ok in Hk.
  destruct Hk as (_ & Hk & _). apply orb_false_iff in Hk as [Hk _]. rewrite negb_false_iff, bool_decide_eq_true in Hk. rewrite Hk in Hh.
  split; [done|]. refine (proj2 (makes_forM c R0 _ _ _ _ _ _ _ Hc Hd E)). intros t Ht. apply makes_lift. intros tg Etg. rewrite Etg. by apply makes_hub.
Qed.

(** The same on a hub: a mark that the hub's return traffic carries takes the
    table of the tunnel it came through. *)
Theorem hub_marks_select_tables a a' t st em eg v : ag_config a = c → NoDup (prios (rules_of R0 (commands a))) →
  (∀ r, r ∈ rules_of R0 (commands a) → 2000 < prio r) → install_hub_policy_rules exec a = (Ok tt, a') → t ∈ transport_list c →
  encode (marks (settings c)) (route_slot t) st em (Some (ag_site a)) eg = Ok v →
  ∃ tg, Model.target c (ag_site a) (tr_name t) = Ok tg ∧
    first_rule (rules_of R0 (commands a')) v = Some (hub_rule (marks (settings c)) (ag_site a) t tg).
Proof.
  intros Hc Hd Hroom E Ht Hm. destruct (makes_hub_rules _ _ _ Hc Hd E) as [Hh ->].
  assert (Hsub : ∀ x, x ∈ hub_changes (ag_site a) → x ∈ spoke_changes c ∧ ∃ r, x = Set_ r).
  { intros x (t' & Ht' & Hx)%list_elem_of_In%in_flat_map. destruct (Model.target _ _ _) as [tg'|] eqn:Etg'; [|done]. destruct Hx as [<-|[]].
    split; [|by eexists]. apply in_spoke_changes. right. exists (ag_site a), t', tg'.
    split_and!; [done|by apply list_elem_of_In|done|by right]. }
  destruct (marks_hit c Hv t st em _ eg v Ht Hm) as (Hk & E1 & E2).
  destruct (selected_rule c Hv Hco Hready t (Some (ag_site a)) v Ht Hk E1 E2) as (r & Hset & Hhit & _ & Hmin & tg & Etg & ->).
  exists tg. split; [done|]. pose proof (table_range c Hready _ _ _ Etg) as Hr.
  assert (Hin : Set_ (hub_rule (marks (settings c)) (ag_site a) t tg) ∈ hub_changes (ag_site a)).
  { apply list_elem_of_In, in_flat_map. exists t. rewrite <- list_elem_of_In, Etg. simpl. auto. }
  apply first_rule_least; [|done|].
  - apply apply_all_kept; [by left|]. intros x Hx Ex. apply (set_once c Hv Hco Hready); [done|by apply Hsub|done].
  - intros r' [Hin'|[Hin' _]]%apply_all_origin Hh'; [apply Hmin; [by apply Hsub|done]|]. right. specialize (Hroom r' Hin'). simpl. lia.
Qed.
End install.

(** ** The shipped topology, and tables that break the rules *)

Module Examples.
(** A kernel with the local, main and default rules. *)
Definition boot_rules : list Rule := [
  {| prio := 32766; value := 0; mask := 0; table := 254 |}; {| prio := 32767; value := 0; mask := 0; table := 253 |}].

Definition kernel (cs : list command) (cmd : command) : option string :=
  match cmd with
  | ["ip"; "rule"; "del"; "priority"; p] =>
      match parse_digits p with
      | Some n => if existsb (λ r, prio r =? n) (rules_of boot_rules cs) then None else Some "RTNETLINK answers: No such file or directory"
      | None => None
      end
  | _ => None
  end.

Lemma kernel_honest : honest kernel boot_rules.
Proof.
  intros cs p text E _. unfold kernel, del_command in E. destruct (parse_digits (str_Z p)) as [n|] eqn:Ep; [|done].
  destruct (existsb _ _) eqn:Ex; [done|]. clear E. assert (n = p) as ->.
  { destruct (decide (0 <= p)) as [Hp|Hp]; [rewrite (proj1 (parse_str_Z p Hp)) in Ep; congruence|]. destruct p as [|q|q]; [lia|lia|]. unfold str_Z, pretty, pretty_Z in Ep. discriminate. }
  intros Hp. apply not_true_iff_false in Ex. apply Ex, existsb_exists. unfold prios in Hp. rewrite list_elem_of_In, in_map_iff in Hp.
  destruct Hp as (r & <- & Hr). exists r. split; [done|]. by apply Z.eqb_eq.
Qed.

Definition agent_on (c : TopologyConfig) (node : string) : Agent := {|
  ag_site := node; ag_config := c; ag_edge_node := node; system_runner := true; private_key := "/etc/sdwan/wireguard.key";
  private_key_exists := true; local_state := initial_state; saved_state := None; event_queue := []; steering := None; commands := [] |}.

Definition installed (c : TopologyConfig) : list Rule := rules_of boot_rules (commands (install_policy_rules kernel (agent_on c "site1")).2).

(** The topology with other tables for the tunnels. *)
Definition with_tables (f : string * string → Z) : TopologyConfig := {|
  cfg_source := cfg_source core_config; edge_image := edge_image core_config; host_image := host_image core_config;
  controller := controller core_config; management_network := management_network core_config;
  management_switch := management_switch core_config; transports := transports core_config;
  targets := map (λ p : string * string * TunnelTarget, (p.1, {| tt_hub := tt_hub p.2; tt_transport := tt_transport p.2;
    overlay_network := overlay_network p.2; tt_route_table := f p.1 |})) (targets core_config);
  hubs := hubs core_config; sites := sites core_config; settings := settings core_config; features := features core_config;
  cfg_measurement := cfg_measurement core_config; application_slas := application_slas core_config;
  path_scoring := path_scoring core_config; path_selection := path_selection core_config;
  data_center_network := data_center_network core_config; data_center_app_ip := data_center_app_ip core_config;
  data_center_switch := data_center_switch core_config; data_center_app_name := data_center_app_name core_config;
  data_center_hub_ips := data_center_hub_ips core_config; saas_network := saas_network core_config; saas_ip := saas_ip core_config;
  saas_switch := saas_switch core_config; saas_app_name := saas_app_name core_config; saas_gateway_name := saas_gateway_name core_config;
  saas_gateway_ip := saas_gateway_ip core_config; saas_transport_ips := saas_transport_ips core_config; cloud_vpc := cloud_vpc core_config; interhub_networks := interhub_networks core_config |}.

Definition base_table (p : string * string) : Z := (if String.eqb p.1 "hub1" then 1100 else 1200) +
  (if String.eqb p.2 "mpls" then 1 else if String.eqb p.2 "bb" then 2 else 3).

Definition low (p : string * string) : Z := if bool_decide (p = ("hub1", "bb")) then 1002 else base_table p.
Definition high (p : string * string) : Z := 2000 + base_table p.

(** The mark of direct Internet traffic over broadband, and of MPLS traffic
    through hub2. *)
Definition saas_mark : Z := Z.lor 2 0x4000.
Definition hub2_mark : Z := Z.lor 1 0x2000.

Definition table_of (c : TopologyConfig) (v : Z) : option Z := table <$> first_rule (List.filter (λ r, negb (mask r =? 0)) (installed c)) v.

(** Both are accepted by [validate_config].  With table 1002 for a tunnel, the
    agent deletes the rule of broadband, and direct traffic has no rule; with
    tables above 2003 the rules of the transports come first, and traffic for
    hub2 takes the table of the transport instead of the tunnel's. *)
Lemma tables_break_rules :
  map (λ f, is_ok (validate_config (with_tables f))) [base_table; low; high] = [true; true; true] ∧
  map (λ f, table_of (with_tables f) saas_mark) [base_table; low; high] = [Some 102; None; Some 102] ∧
  map (λ f, table_of (with_tables f) hub2_mark) [base_table; low; high] = [Some 1201; Some 1201; Some 101].
Proof. vm_compute. by split_and!. Qed.

Definition lte : Transport := Eval vm_compute in default (Build_Transport "" "" 0 {| net_addr := 0; prefixlen := 0 |} 0 0 0 0 0 false 0 0)
  (dget (transports core_config) "lte").
Lemma lte_in : lte ∈ transport_list core_config.
Proof. apply list_elem_of_In. vm_compute. auto. Qed.

Lemma pair_of_first {A B} (p : A * B) x : p.1 = x → p = (x, p.2).
Proof. intros <-. apply surjective_pairing. Qed.

Lemma start_leaves_room : leaves_room core_config (rules_of boot_rules []).
Proof.
  split; [apply uniqueb_true; reflexivity|]. intros r Hr. right.
  assert (Forall (λ r, 2003 < prio r) (rules_of boot_rules [])) as F by (repeat constructor). rewrite Forall_forall in F. by apply F.
Qed.
End Examples.

