(* ===== verification/RouteEvidence.v ===== *)
(** * Route evidence of the management service ([management/service.py])

    What the service says about routes: summaries of a node's tables and rules,
    the rule a packet mark takes, the answer of the kernel's route lookup, and
    the marks of connections between two endpoints.  The routes, rules and
    connections themselves come from RuntimeProbe.  [fwmark_table], a copy of a
    route's table, and the fixed limitation texts are left out. *)
From Stdlib Require Import Ascii.
From S2P Require Import Prelude Net Marks PathSelection Model ModelValidate Json ModelParse CoreTopology TopologyFacts DesiredFacts LivePlanFacts.
From S2P Require Import EdgeAgent Sql PolicyStore PolicyRouting RuntimeProbe DependencyGraph.
Local Open Scope string_scope.
Local Open Scope list_scope.
Local Open Scope Z_scope.

(** [except (TypeError, ValueError): continue] *)
Definition or_skip {A} (default : A) (r : result A) : result A :=
  match r with
  | Err e => if bool_decide (exn_cls e = TypeError) || bool_decide (exn_cls e = ValueError) then Ok default else r
  | _ => r
  end.

Definition first_of {A} (o : Observed A) : option A := match o with Available v => Some v | Unavailable _ => None end.

(** ** Rows *)

Record RouteLine := {
  rl_destination : string; rl_table : string; rl_next_hop : json; rl_interface : string; rl_hub : option string;
  rl_transport : option string; rl_egress_mode : string
}.
Record RouteGroup := {
  rg_table : string; rg_next_hop : json; rg_interface : string; rg_hub : option string; rg_transport : option string;
  rg_egress_mode : string; rg_destinations : list string
}.
Inductive Summary :=
  | NoSummary (reason : string)
  | RouteSummary (site node : string) (route_groups : list RouteGroup) (routing_rules : list (dict string json)).

(** The hub and transport a tunnel interface is named after: [wg-h1-mpls] *)
Definition interface_hub (dev : string) : option string :=
  match split_on "-"%char dev with
  | _ :: hub :: _ :: _ => if String.prefix "h" hub then Some ("hub" +:+ skip_chars 1 hub) else None
  | _ => None
  end.
Definition interface_transport (dev : string) : option string :=
  match split_on "-"%char dev with _ :: _ :: transport :: _ => Some transport | _ => None end.

Record MatchedRule := { mr_priority : json; mr_table : json; mr_fwmark : json; mr_fwmask : json }.

(** Candidates of a destination among the installed routes. *)
Record Candidate := {
  ca_table : string; ca_destinations : list string; ca_interface : string; ca_hub : option string; ca_transport : option string;
  ca_next_hop : json; ca_rules : list (dict string json)
}.

Record Lookup := {
  lu_edge_node : string; lu_matched_route : dict string json; lu_table : json; lu_next_hop : json; lu_interface : json;
  lu_hub : option string; lu_transport : option string; lu_unknowns : list (string * string); lu_found : bool
}.
Inductive Report :=
  | NoReport (reason : string)
  | LookupFailed (reason site destination : string) (source : option string) (packet_mark : option Z) (matched : option MatchedRule)
  | Reported (site destination : string) (source : option string) (packet_mark : option Z) (matched : option MatchedRule) (lookup : Lookup).

Section evidence.
Context `{PyRepr} (docker : string → list string → Exec) (loads : string → result json) (c : TopologyConfig).

Definition logical (value : string) : result string := if dmem (hubs c) value then Ok value else logical_site c value.

(** [self.topology.edge_node(site) if site in self.topology.sites else site] *)
Definition shown_edge_node (site : string) : result string := if dmem (sites c) site then edge_node c site else Ok site.

(** ** Route summaries *)

Definition read_route (site : string) (route : json) : result (option RouteLine) :=
  dev ← get_default route "dev" (JStr ""); table ← get_default route "table" (JStr ""); dst ← get_default route "dst" (JStr "default");
  let dev := py_str dev in let table := py_str table in let dst := py_str dst in
  let is_overlay := String.prefix "wg-" dev in
  is_direct ← (if inb table (map (λ t, str_Z (tr_route_table t)) (transport_list c))
               then node ← edge_node c site; Ok (inb dev [node +:+ "-bb"; node +:+ "-lte"]) else Ok false);
  if negb (nonempty table) || negb (is_overlay || is_direct) then Ok None
  else
    type ← value_of route "type";
    if contains ":" dst || match type with JStr t => inb t ["local"; "broadcast"; "multicast"] | _ => false end then Ok None
    else
      gateway ← value_of route "gateway";
      Ok (Some {| rl_destination := dst; rl_table := table; rl_next_hop := gateway; rl_interface := dev;
                  rl_hub := if is_overlay then interface_hub dev else None;
                  rl_transport := if is_overlay && bool_decide (is_Some (interface_transport dev)) then interface_transport dev
                                  else if is_direct : bool then last (split_on "-"%char dev) else None;
                  rl_egress_mode := if is_overlay then "hub_overlay" else "direct_internet" |}).

Definition kept {A} (f : json → result (option A)) (items : list json) : result (list A) :=
  match mapM_result f items with Ok os => Ok (flat_map (λ o, match o with Some x => [x] | None => [] end) os) | Err e => Err e end.

(** Sorting by table, then destination. *)
Definition line_before (a b : RouteLine) : bool :=
  if String.eqb (rl_table a) (rl_table b) then String.leb (rl_destination a) (rl_destination b) else String.leb (rl_table a) (rl_table b).

Definition new_group (r : RouteLine) : RouteGroup := {|
  rg_table := rl_table r; rg_next_hop := rl_next_hop r; rg_interface := rl_interface r; rg_hub := rl_hub r;
  rg_transport := rl_transport r; rg_egress_mode := rl_egress_mode r; rg_destinations := [] |}.

Definition with_destination (g : RouteGroup) (d : string) : RouteGroup := {|
  rg_table := rg_table g; rg_next_hop := rg_next_hop g; rg_interface := rg_interface g; rg_hub := rg_hub g;
  rg_transport := rg_transport g; rg_egress_mode := rg_egress_mode g; rg_destinations := rg_destinations g ++ [d] |}.

(** One group per table and interface; the group keeps the fields of its first
    route. *)
Definition add_to_group (groups : dict (string * string) RouteGroup) (r : RouteLine) : dict (string * string) RouteGroup :=
  let key := (rl_table r, rl_interface r) in
  dset groups key (with_destination (match dget groups key with Some g => g | None => new_group r end) (rl_destination r)).

Definition group_routes (selected : list RouteLine) : list RouteGroup :=
  take 64 (dvals (fold_left add_to_group (sort_by line_before selected) [])).

(** [{key: rule.get(key) for key in keys if rule.get(key) is not None}] *)
Definition present_fields (keys : list string) (item : json) : result (dict string json) :=
  vs ← mapM_result (λ k, v ← value_of item k; Ok (k, v)) keys;
  Ok (List.filter (λ p : string * json, match p.2 with JNull => false | _ => true end) vs).

Definition read_rule (rule : json) : result (option (dict string json)) :=
  mark ← value_of rule "fwmark"; table ← get_default rule "table" (JStr "");
  let named := match mark with JNull => false | _ => true end in
  if named || String.prefix "11" (py_str table) || String.prefix "12" (py_str table)
  then d ← present_fields ["priority"; "fwmark"; "fwmask"; "table"; "src"; "dst"] rule; Ok (Some d) else Ok None.

Definition route_summary (name : string) : result Summary :=
  site ← logical name;
  if negb (inb site (site_names c)) then Ok (NoSummary "unknown site")
  else match routes docker loads c site with
       | Unavailable reason => Ok (NoSummary reason)
       | Available value =>
           items ← items_of value; selected ← kept (read_route site) items;
           rules ← match ip_rules docker loads c site with
                   | Available value => items ← items_of value; kept read_rule items
                   | Unavailable _ => Ok []
                   end;
           node ← shown_edge_node site;
           Ok (RouteSummary site node (group_routes selected) (take 128 rules))
       end.

(** ** The rule of a packet mark *)

(** [int(candidate["priority"] or 2**31)] *)
Definition priority_of (m : MatchedRule) : result Z := py_int (py_or (mr_priority m) (JInt (2 ^ 31))).

Definition rule_text (rule : json) (key default : string) : result string :=
  v ← get_default rule key (JStr default); Ok (py_str v).
Definition rule_literal (rule : json) (key default : string) : result Z :=
  s ← rule_text rule key default; of_option (literal_value s) ValueError ("invalid literal for int() with base 0: " +:+ s).

Definition better_rule (fwmark : Z) (matched : option MatchedRule) (rule : json) : result (option MatchedRule) :=
  mark ← rule_literal rule "fwmark" "-1"; mask ← rule_literal rule "fwmask" "0xffffffff";
  if Z.land fwmark mask =? Z.land mark mask then
    p ← value_of rule "priority"; t ← value_of rule "table"; f ← value_of rule "fwmark"; k ← value_of rule "fwmask";
    let candidate := {| mr_priority := p; mr_table := t; mr_fwmark := f; mr_fwmask := k |} in
    match matched with
    | None => Ok (Some candidate)
    | Some m => n ← priority_of candidate; n' ← priority_of m; Ok (if n <? n' then Some candidate else matched)
    end
  else Ok matched.

Definition matching_policy_rule (rules : Observed json) (fwmark : option Z) : result (option MatchedRule) :=
  match fwmark, rules with
  | Some mark, Available value =>
      items ← items_of value; foldM (λ matched rule, or_skip matched (better_rule mark matched rule)) None items
  | _, _ => Ok None
  end.

(** ** The decision report *)

Definition is_null (j : json) : bool := match j with JNull => true | _ => false end.

(** The selected route, the empty mapping when there is none. *)
Definition selected_route (values : json) : json := match values with JList (v :: _) => v | _ => JObj [] end.

Definition read_lookup (site : string) (fwmark : option Z) (values : json) : result Lookup :=
  let selected := selected_route values in
  dev ← value_of selected "dev"; table ← value_of selected "table"; gateway ← value_of selected "gateway";
  node ← shown_edge_node site; matched ← present_fields ["dst"; "gateway"; "dev"; "prefsrc"; "type"] selected;
  let tunnel := match dev with JStr d => if String.prefix "wg-" d then interface_hub d else None | _ => None end in
  let missing (field : string) (v : json) := if is_null v then [(field, "not reported by the current routing adapter")] else [] in
  Ok {| lu_edge_node := node; lu_matched_route := matched; lu_table := table; lu_next_hop := gateway; lu_interface := dev;
        lu_hub := tunnel;
        lu_transport := match tunnel, dev with Some _, JStr d => interface_transport d | _, _ => None end;
        lu_unknowns := match fwmark with None => [("matched_rule", "no packet fwmark was supplied")] | Some _ => [] end ++
          (if py_truth selected then [] else [("matched_route", "runtime lookup returned no route record")]) ++
          missing "selected_routing_table" table ++ missing "next_hop" gateway ++ missing "output_interface" dev ++
          missing "connection_mark" JNull;
        lu_found := py_truth selected |}.

Definition route_decision_report (name destination : string) (source : option string) (fwmark : option Z) : result Report :=
  site ← logical name;
  if negb (inb site (site_names c)) then Ok (NoReport "unknown site")
  else if negb (is_ok (ip_address destination)) || match source with Some s => negb (is_ok (ip_address s)) | None => false end
  then Ok (NoReport "invalid destination or source")
  else
    matched ← matching_policy_rule (ip_rules docker loads c site) fwmark;
    match route_lookup docker loads c site destination source fwmark with
    | Unavailable reason => Ok (LookupFailed reason site destination source fwmark matched)
    | Available values => l ← read_lookup site fwmark values; Ok (Reported site destination source fwmark matched l)
    end.

(** ** Candidates *)

(** [address in ip_network(prefix, strict=False)]; texts that are no network,
    such as [default], hold nothing. *)
Definition prefix_holds (a : addr) (prefix : string) : bool :=
  match ip_interface prefix with Ok (_, n) => in_network a n | Err _ => false end.

Definition rules_of_table (rules : list (dict string json)) (table : string) : list (dict string json) :=
  let field (r : dict string json) (k : string) := default JNull (dget r k) in
  map (λ r, map (λ k, (k, field r k)) ["priority"; "fwmark"; "fwmask"; "table"])
    (List.filter (λ r, String.eqb (py_str (field r "table")) table) rules).

Definition group_candidate (a : addr) (rules : list (dict string json)) (g : RouteGroup) : list Candidate :=
  let matching := List.filter (prefix_holds a) (rg_destinations g) in
  if bool_decide (matching = []) then []
  else [{| ca_table := rg_table g; ca_destinations := matching; ca_interface := rg_interface g; ca_hub := rg_hub g;
           ca_transport := rg_transport g; ca_next_hop := rg_next_hop g; ca_rules := rules_of_table rules (rg_table g) |}].

Definition policy_route_candidates (site destination : string) : result (list Candidate) :=
  match ip_address destination with
  | Err _ => Ok []
  | Ok a =>
      match route_summary site with
      | Err e => if bool_decide (exn_cls e = AttributeError) then Ok [] else Err e
      | Ok (NoSummary _) => Ok []
      | Ok (RouteSummary _ _ groups rules) => Ok (flat_map (group_candidate a rules) groups)
      end
  end.

(** ** Endpoints *)

Record HostAccess := {
  ha_source_host : string; ha_source_ip : addr; ha_edge_site : string; ha_edge_node : string; ha_lan_gateway : addr; ha_lan_network : network
}.
Inductive EndpointRoute :=
  | Unresolved (missing : list string) (source destination : string)
  | UnknownSite
  | NoHostRoute (source destination : Endpoint) (fwmark : option Z)
  | HostRoute (source destination : Endpoint) (fwmark : option Z) (access : HostAccess) (edge_route : Report) (candidates : option (list Candidate)).

Definition endpoint_route (source destination : string) (fwmark : option Z) : result EndpointRoute :=
  s ← resolve_endpoint c source; d ← resolve_endpoint c destination;
  match s, d with
  | Some s, Some d =>
      if negb (String.eqb (ep_kind s) "branch_host") then Ok (NoHostRoute s d fwmark)
      else
        name ← of_option (ep_site s) KeyError "site"; site ← get_site c name;
        report ← route_decision_report (site_name site) (addr_str (ep_ip d)) (Some (addr_str (ep_ip s))) fwmark;
        cs ← match fwmark with
             | None => cs ← policy_route_candidates (site_name site) (addr_str (ep_ip d)); Ok (Some cs)
             | Some _ => Ok None
             end;
        Ok (HostRoute s d fwmark {| ha_source_host := ep_name s; ha_source_ip := ep_ip s; ha_edge_site := site_name site;
                             ha_edge_node := s_edge_node site; ha_lan_gateway := lan_gateway site; ha_lan_network := lan_network site |}
              report cs)
  | _, _ => Ok (Unresolved ((if bool_decide (s = None) then ["source endpoint"] else []) ++
                            (if bool_decide (d = None) then ["destination endpoint"] else [])) source destination)
  end.

Definition site_host_route (name destination : string) (fwmark : option Z) : result EndpointRoute :=
  site ← logical name;
  if negb (inb site (site_names c)) then Ok UnknownSite
  else s ← get_site c site; endpoint_route (host_name s) destination fwmark.

Inductive FlowObservation :=
  | NoFlow (reason : string)
  | Flow (source destination : Endpoint) (marks : list ObservedMark) (expected : Expected) (selected : option Report)
         (mark_policy : option (ObservedMark * MatchedRule * list Candidate)).

(** The matched rule of a report that names no interface. *)
Definition only_rule (r : Report) : option MatchedRule :=
  match r with
  | NoReport _ => None
  | LookupFailed _ _ _ _ _ matched => matched
  | Reported _ _ _ _ matched l => if is_null (lu_interface l) then matched else None
  end.

Definition observe_endpoint_flow (source destination : string) : result FlowObservation :=
  s ← resolve_endpoint c source; d ← resolve_endpoint c destination;
  match s, d with
  | Some s, Some d =>
      if negb (String.eqb (ep_kind s) "branch_host") then Ok (NoFlow "source must resolve to a branch host")
      else
        name ← of_option (ep_site s) KeyError "site"; site ← get_site c name;
        let src := addr_str (ep_ip s) in let dst := addr_str (ep_ip d) in
        match connection_marks docker c (site_name site) src dst with
        | Unavailable reason => Ok (NoFlow reason)
        | Available marks =>
            expected ← graph_expected_traffic_path c source destination;
            match marks with
            | [] => Ok (Flow s d [] expected None None)
            | m :: _ =>
                report ← route_decision_report (site_name site) dst (Some src) (Some (om_mark m));
                match only_rule report with
                | None => Ok (Flow s d marks expected (Some report) None)
                | Some rule =>
                    cs ← policy_route_candidates (site_name site) dst;
                    Ok (Flow s d marks expected (Some report)
                          (Some (m, rule, List.filter (λ x, String.eqb (ca_table x) (py_str (mr_table rule))) cs)))
                end
            end
        end
  | _, _ => Ok (NoFlow "unresolved endpoint")
  end.
End evidence.

(** ** Documents

    The dictionaries the service returns, in the order of their keys. *)

Definition text_or_null (o : option string) : json := match o with Some s => JStr s | None => JNull end.
Definition number_or_null (o : option Z) : json := match o with Some n => JInt n | None => JNull end.
Definition texts (l : list string) : json := JList (map JStr l).

Definition endpoint_document (e : Endpoint) : json := JObj (
  [("name", JStr (ep_name e)); ("kind", JStr (ep_kind e)); ("ip", JStr (addr_str (ep_ip e)))] ++
  match ep_site e with Some s => [("site", JStr s); ("edge_node", text_or_null (ep_edge_node e))] | None => [] end ++
  match ep_management_ip e with Some a => [("management_ip", JStr (addr_str a))] | None => [] end ++
  [("aliases", texts (ep_aliases e))]).

Definition rule_document (o : option MatchedRule) : json :=
  match o with
  | Some m => JObj [("priority", mr_priority m); ("table", mr_table m); ("fwmark", mr_fwmark m); ("fwmask", mr_fwmask m)]
  | None => JNull
  end.

Definition unknown_document (u : string * string) : json := JObj [("field", JStr u.1); ("reason", JStr u.2)].
Definition derived_document (hub transport : option string) : json := JObj [("hub", text_or_null hub); ("transport", text_or_null transport)].

Definition LOOKUP_LIMITATION : string := "The route lookup reflects the supplied destination, optional source, and optional fwmark only.".

(** Whether a field was observed, derived, or is not there. *)
Definition kind_of (kind : string) (there : bool) : json := JStr (if there then kind else "unavailable").
Definition given {A} (o : option A) : bool := match o with Some _ => true | None => false end.

Definition report_document (r : Report) : dict string json :=
  match r with
  | NoReport reason => [("available", JBool false); ("reason", JStr reason)]
  | LookupFailed reason site destination source mark matched => [
      ("available", JBool false); ("reason", JStr reason); ("lookup_status", JStr "lookup unavailable"); ("site", JStr site);
      ("destination", JStr destination); ("source", text_or_null source); ("packet_mark", number_or_null mark);
      ("matched_rule", rule_document matched); ("selected_routing_table", JNull); ("next_hop", JNull); ("output_interface", JNull);
      ("derived", derived_document None None);
      ("unknowns", JList [unknown_document ("matched_route", "marked runtime lookup was unavailable")]); ("limitations", texts [LOOKUP_LIMITATION])]
  | Reported site destination source mark matched l => [
      ("available", JBool true); ("site", JStr site); ("edge_node", JStr (lu_edge_node l)); ("destination", JStr destination);
      ("source", text_or_null source); ("packet_mark", number_or_null mark); ("matched_rule", rule_document matched);
      ("selected_routing_table", lu_table l);
      ("matched_route", match lu_matched_route l with [] => JNull | d => JObj d end);
      ("lookup_status", JStr (if lu_found l then "route record returned" else "no route record returned"));
      ("next_hop", lu_next_hop l); ("output_interface", lu_interface l); ("connection_mark", JNull);
      ("derived", derived_document (lu_hub l) (lu_transport l));
      ("state_kind", JObj [("packet_mark", kind_of "observed" (given mark)); ("matched_rule", kind_of "derived" (given matched));
         ("matched_route", kind_of "observed" (lu_found l)); ("hub", kind_of "derived" (match lu_hub l with Some h => nonempty h | None => false end));
         ("transport", kind_of "derived" (match lu_transport l with Some t => nonempty t | None => false end))]);
      ("unknowns", JList (map unknown_document (lu_unknowns l)));
      ("limitations", texts [LOOKUP_LIMITATION; "A connection mark is not exposed by the current routing adapter."]); ("warnings", JList [])]
  end.

Definition candidate_document (x : Candidate) : json := JObj [
  ("table", JStr (ca_table x)); ("matching_destinations", texts (ca_destinations x)); ("output_interface", JStr (ca_interface x));
  ("hub", text_or_null (ca_hub x)); ("transport", text_or_null (ca_transport x)); ("next_hop", ca_next_hop x);
  ("policy_rules", JList (map JObj (ca_rules x)))].

Definition access_document (h : HostAccess) : json := JObj [
  ("source_host", JStr (ha_source_host h)); ("source_ip", JStr (addr_str (ha_source_ip h))); ("edge_site", JStr (ha_edge_site h));
  ("edge_node", JStr (ha_edge_node h)); ("lan_gateway", JStr (addr_str (ha_lan_gateway h))); ("lan_network", JStr (network_str (ha_lan_network h)))].

Definition HOST_LIMITATIONS : list string := [
  "The host-to-LAN-gateway hop is configured topology evidence. The edge route lookup reflects the supplied destination, source, and optional fwmark.";
  "Policy candidates are matching installed rules and routes; without an observed or supplied fwmark they do not prove the selected path."].

Definition endpoint_route_document (r : EndpointRoute) : dict string json :=
  match r with
  | Unresolved missing source destination => [("available", JBool false); ("reason", JStr ("unresolved " +:+ join " and " missing));
                                              ("source", JStr source); ("destination", JStr destination)]
  | UnknownSite => [("available", JBool false); ("reason", JStr "unknown site")]
  | NoHostRoute s d mark => [
      ("available", JBool true); ("source", endpoint_document s); ("destination", endpoint_document d); ("fwmark", number_or_null mark);
      ("limitations", texts ["The source resolves to a configured endpoint, but this tool currently performs an observed edge route lookup only for a branch host source."])]
  | HostRoute s d mark access report candidates => [
      ("available", JBool true); ("source", endpoint_document s); ("destination", endpoint_document d); ("fwmark", number_or_null mark);
      ("host_access", access_document access); ("edge_route", JObj (report_document report))] ++
      match candidates with Some cs => [("policy_candidates", JList (map candidate_document cs))] | None => [] end ++
      [("limitations", texts HOST_LIMITATIONS)]
  end.

(** The candidate paths; their fixed limitation text depends on the kind of the
    destination. *)
Definition expected_limitation (destination : Endpoint) : string :=
  if String.eqb (ep_kind destination) "data_center_application" then "No hub or transport is claimed selected without flow or route evidence."
  else if String.eqb (ep_kind destination) "branch_host" then
    "These are configured branch-overlay candidates. No hub, transport, or observed flow is claimed selected without runtime evidence."
  else "Public SaaS candidates are direct-internet only; this is configured policy, not an observed packet trace.".

Definition expected_document (e : Expected) : json :=
  match e with
  | NoExpectation reason => JObj [("available", JBool false); ("reason", JStr reason)]
  | Candidates s d paths => JObj [
      ("available", JBool true); ("path_kind", JStr "EXPECTED_CONFIGURED_CANDIDATES"); ("source", endpoint_document s);
      ("destination", endpoint_document d); ("candidates", JList (map texts paths)); ("limitations", texts [expected_limitation d])]
  end.

Definition mark_document (m : ObservedMark) : json := JObj [("mark", JInt (om_mark m)); ("raw_mark", JStr (om_raw m))].

Definition FLOW_LIMITATIONS : list string := [
  "Only an existing conntrack flow matching the resolved source and destination can provide an observed mark.";
  "When multiple matching flows exist, only the first bounded observed mark is used for the marked route lookup.";
  "If the marked kernel lookup returns no route record, the observed-mark policy section reports only the matching installed rule and route candidate; it is not a kernel lookup result."].

Definition flow_document (f : FlowObservation) : dict string json :=
  match f with
  | NoFlow reason => [("available", JBool false); ("reason", JStr reason)]
  | Flow s d marks expected selected policy => [
      ("available", JBool true); ("source", endpoint_document s); ("destination", endpoint_document d);
      ("flow_observation", JObj [("flow_count", JInt (Z.of_nat (length marks))); ("marks", JList (map mark_document marks))]);
      ("configured_path_candidates", expected_document expected)] ++
      match selected with Some r => [("selected_live_route", JObj (report_document r))] | None => [] end ++
      match policy with
      | Some (m, rule, cs) => [("observed_mark_policy", JObj [("observed_mark", mark_document m); ("matched_rule", rule_document (Some rule));
                                                             ("matching_route_candidates", JList (map candidate_document cs))])]
      | None => []
      end ++
      [("limitations", texts ((match marks with
         | [] => ["No matching runtime flow was observed; configured path candidates are possible graph paths, not a selected data-plane path."]
         | _ => [] end) ++ FLOW_LIMITATIONS))]
  end.

(** * Facts about route evidence

    The rule the service names for a packet mark is the rule the kernel's list
    gives it, hence the rule of the tunnel or transport the mark encodes; the
    names of tunnel interfaces give back hub and transport.  The examples show
    where observed flows are taken for others. *)

(** ** The least rule, from the left and from the right *)

Definition best (a b : option Rule) : option Rule :=
  match a, b with Some x, Some y => Some (if prio y <? prio x then y else x) | None, o | o, None => o end.

Lemma best_assoc a b c : best (best a b) c = best a (best b c).
Proof.
  destruct a as [x|], b as [y|], c as [z|]; try done; simpl; f_equal;
    destruct (Z.ltb_spec (prio y) (prio x)), (Z.ltb_spec (prio z) (prio y));
    repeat match goal with |- context [?p <? ?q] => destruct (Z.ltb_spec p q) end; done || lia.
Qed.

Lemma first_rule_cons r rs v : first_rule (r :: rs) v = if hits v r then best (Some r) (first_rule rs v) else first_rule rs v.
Proof.
  unfold first_rule. simpl. destruct (hits v r); [|done]. simpl. destruct (sort_by _ (List.filter (hits v) rs)) as [|x l]; [done|]. simpl.
  destruct (Z.leb_spec (prio r) (prio x)), (Z.ltb_spec (prio x) (prio r)); done || lia.
Qed.

(** ** Listings *)

(** What [ip -j rule show] prints of a rule: numbers, the mark and a mask other
    than the full one as hexadecimal texts, the table as a text; rules of
    another kind have no mark. *)
Definition prints (d : dict string json) (k : string) (n : Z) : Prop := ∃ s, dget d k = Some (JStr s) ∧ literal_value s = Some n.

Definition lists (r : Rule) (j : json) : Prop := ∃ d, j = JObj d ∧ dget d "priority" = Some (JInt (prio r)) ∧
  dget d "table" = Some (JStr (str_Z (table r))) ∧ prints d "fwmark" (value r) ∧
  (prints d "fwmask" (mask r) ∨ (dget d "fwmask" = None ∧ mask r = 2 ^ 32 - 1)).
Definition plain (j : json) : Prop := ∃ d, j = JObj d ∧ dget d "fwmark" = None ∧ dget d "fwmask" = None.

Inductive listing : list Rule → list json → Prop :=
  | listing_nil : listing [] []
  | listing_rule r j rs js : lists r j → listing rs js → listing (r :: rs) (j :: js)
  | listing_plain j rs js : plain j → listing rs js → listing rs (j :: js).

(** ** The rule of a mark *)

Section facts.
Context `{PyRepr}.

(** The reported rule is this one. *)
Definition reports (o : option Rule) (m : option MatchedRule) : Prop :=
  match o, m with
  | Some r, Some m => mr_priority m = JInt (prio r) ∧ mr_table m = JStr (str_Z (table r))
  | None, None => True
  | _, _ => False
  end.

Lemma literal_printed d k n default : prints d k n → rule_literal (JObj d) k default = Ok n.
Proof. intros (s & Ed & El). unfold rule_literal, rule_text, get_default, get_opt. simpl. rewrite Ed. simpl. by rewrite El. Qed.

Lemma literal_default d k n default : dget d k = None → literal_value default = Some n → rule_literal (JObj d) k default = Ok n.
Proof. intros Ed El. unfold rule_literal, rule_text, get_default, get_opt. simpl. rewrite Ed. simpl. by rewrite El. Qed.

Lemma priority_kept m p : mr_priority m = JInt p → 0 < p → priority_of m = Ok p.
Proof. intros E Hp. unfold priority_of, py_or. rewrite E. simpl. destruct (Z.eqb_spec p 0); [lia|done]. Qed.

Lemma better_rule_listed v r j o m : lists r j → (∀ x, o = Some x → 0 < prio x) → 0 < prio r → reports o m →
  ∃ m', or_skip m (better_rule v m j) = Ok m' ∧ reports (if hits v r then best o (Some r) else o) m'.
Proof.
  intros (d & -> & Ep & Et & Ef & Ek) Ho Hr Hrep. assert (Em : rule_literal (JObj d) "fwmark" "-1" = Ok (value r)) by by apply literal_printed.
  assert (Es : rule_literal (JObj d) "fwmask" "0xffffffff" = Ok (mask r)).
  { destruct Ek as [Ek|[Ek ->]]; [by apply literal_printed|]. by apply literal_default. }
  destruct Ef as (f & Ef & _). unfold better_rule. rewrite Em. cbn [mbind result_bind]. rewrite Es. cbn [mbind result_bind]. fold (hits v r).
  unfold hits at 1. destruct (Z.eqb_spec (Z.land v (mask r)) (Z.land (value r) (mask r))) as [Eh|Eh].
  2: { exists m. split; [done|]. unfold hits. by rewrite (proj2 (Z.eqb_neq _ _) Eh). }
  unfold hits. rewrite (proj2 (Z.eqb_eq _ _) Eh).
  unfold value_of, get_default, get_opt. simpl. rewrite Ep, Et, Ef. simpl. set (k := match dget d "fwmask" with Some v => v | None => JNull end).
  destruct o as [x|], m as [mx|]; try done; simpl; [|by eexists].
  destruct Hrep as [Px Tx]. match goal with |- context [priority_of (Build_MatchedRule ?p ?t ?f ?k)] => rewrite (priority_kept (Build_MatchedRule p t f k) (prio r) eq_refl Hr) end.
  simpl. rewrite (priority_kept mx (prio x) Px) by by apply Ho. simpl.
  destruct (prio r <? prio x); by eexists.
Qed.

Lemma better_rule_plain v j m : plain j → 0 <= v < 2 ^ 32 - 1 → or_skip m (better_rule v m j) = Ok m.
Proof.
  intros (d & -> & Ef & Ek) Hv. unfold better_rule. rewrite (literal_default d "fwmark" (-1)), (literal_default d "fwmask" (2 ^ 32 - 1)) by done.
  cbn [mbind result_bind]. change (2 ^ 32 - 1) with (Z.ones 32). rewrite (Z.land_ones v) by lia. rewrite Z.mod_small by lia.
  destruct (Z.eqb_spec v (Z.land (-1) (Z.ones 32))) as [E|]; [|done]. change (Z.land (-1) (Z.ones 32)) with (2 ^ 32 - 1) in E. lia.
Qed.

Lemma matching_fold v rs js : listing rs js → 0 <= v < 2 ^ 32 - 1 → (∀ r, r ∈ rs → 0 < prio r) → ∀ o m, (∀ x, o = Some x → 0 < prio x) → reports o m →
  ∃ m', foldM (λ matched rule, or_skip matched (better_rule v matched rule)) m js = Ok m' ∧ reports (best o (first_rule rs v)) m'.
Proof.
  intros Hl Hv. induction Hl as [|r j rs js Hj Hl IH|j rs js Hj Hl IH]; intros Hpos o m Ho Hm; simpl.
  - exists m. split; [done|]. by destruct o.
  - assert (Hr : 0 < prio r) by (apply Hpos; left). destruct (better_rule_listed v r j o m Hj Ho Hr Hm) as (m1 & E1 & H1). rewrite E1. simpl.
    rewrite first_rule_cons. destruct (hits v r).
    + rewrite <- best_assoc. apply IH; [intros; apply Hpos; by right| |done]. intros x Ex. destruct o as [y|]; simpl in Ex; injection Ex as <-; [|done].
      case_match; [done|by apply Ho].
    + apply IH; [intros; apply Hpos; by right|done|done].
  - rewrite better_rule_plain by done. simpl. by apply IH.
Qed.

(** C33: the service names the rule the kernel uses.  For every list of rules of
    positive priority, listed in its order among rules of other kinds, the rule
    reported for a packet mark is the first one by priority that the mark hits
    under the rule's mask, and none is reported only when the mark hits none. *)
Theorem report_names_selected_rule rs js v : listing rs js → (∀ r, r ∈ rs → 0 < prio r) → 0 <= v < 2 ^ 32 - 1 →
  ∃ m, matching_policy_rule (Available (JList js)) (Some v) = Ok m ∧ reports (first_rule rs v) m.
Proof. intros Hl Hp Hv. apply (matching_fold v rs js Hl Hv Hp None None); done. Qed.

(** What the agent installed is what the service reports: the rule of the
    transport, or of the hub and transport, that the mark encodes. *)
Theorem installed_rules_reported exec c R0 a a' t st em hub eg v js :
  honest exec R0 → validate_config c = Ok tt → coherent c → rules_ready c = true → ag_config a = c →
  leaves_room c (rules_of R0 (commands a)) → install_policy_rules exec a = (Ok tt, a') → t ∈ transport_list c →
  encode (marks (settings c)) (route_slot t) st em hub eg = Ok v → 0 <= v < 2 ^ 32 - 1 →
  listing (rules_of R0 (commands a')) js → (∀ r, r ∈ rules_of R0 (commands a') → 0 < prio r) →
  ∃ m, matching_policy_rule (Available (JList js)) (Some v) = Ok (Some m) ∧
    match hub with
    | None => mr_table m = JStr (str_Z (tr_route_table t))
    | Some h => ∃ tg, Model.target c h (tr_name t) = Ok tg ∧ mr_table m = JStr (str_Z (tt_route_table tg))
    end.
Proof.
  intros Hex Hv Hco Hready Hc [Hd Hroom] E Ht Hm Hrange Hl Hpos.
  destruct (makes_policy_rules exec c R0 Hex Hv Hready _ _ _ Hc Hd E) as [_ Er].
  destruct (marks_hit c Hv t st em hub eg v Ht Hm) as (Hk & E1 & E2).
  destruct (selected_after c Hv Hco Hready t hub v (rules_of R0 (commands a)) Ht Hk E1 E2 Hroom) as (r & Hr & Hwhich).
  destruct (matching_fold v _ js Hl Hrange Hpos None None) as (m & Em & Hrep); [done..|]. rewrite Er, Hr in Hrep. destruct m as [m|]; [|done].
  exists m. split; [exact Em|]. destruct Hrep as [_ ->]. destruct hub as [h|]; [|by rewrite Hwhich].
  destruct Hwhich as (tg & Etg & ->). by exists tg.
Qed.

(** ** Interface names *)

(** The names of the tunnels' interfaces give back their hub and transport. *)
Theorem interface_names_read c h tr tg : targets_named c → h ∈ HUBS → tr ∈ TRANSPORTS → Model.target c h tr = Ok tg →
  interface_hub (interface_name tg) = Some h ∧ interface_transport (interface_name tg) = Some tr.
Proof.
  intros [_ Hn] Hh Htr Ht. unfold Model.target, of_option in Ht. destruct (dget (targets c) (h, tr)) as [x|] eqn:E; [|done]. injection Ht as <-.
  apply Hn in E as [= <- <-]. unfold interface_name. unfold HUBS in Hh. unfold TRANSPORTS in Htr. rewrite !elem_of_cons in Hh. rewrite !elem_of_cons in Htr.
  destruct Hh as [->|[->|?%not_elem_of_nil]], Htr as [->|[->|[->|?%not_elem_of_nil]]]; done.
Qed.

(** A name that is no site, hub or edge node raises before the answers for
    unknown sites are reached. *)
Theorem unknown_site_raises docker loads c name : dmem (hubs c) name = false → dmem (sites c) name = false →
  (∀ s, s ∈ site_list c → s_edge_node s ≠ name) →
  route_summary docker loads c name = raise KeyError name ∧
  ∀ d s m, route_decision_report docker loads c name d s m = raise KeyError name.
Proof.
  intros Hh Hs He. assert (El : logical c name = raise KeyError name).
  { unfold logical, logical_site. rewrite Hh, Hs. replace (List.filter _ (site_list c)) with (@nil Site); [done|]. symmetry.
    clear Hs. induction (site_list c) as [|s l IH]; simpl; [done|]. destruct (String.eqb_spec (s_edge_node s) name) as [Ee|]; [|apply IH; intros; apply He; by right].
    destruct (He s); [left|done]. }
  split; [|intros d s m]; [unfold route_summary|unfold route_decision_report]; by rewrite El.
Qed.
End facts.

(** ** Examples *)

Module Examples.
#[export] Instance sample_repr : PyRepr := {| repr_float := λ _, "0.0"; repr_container := λ _, "{}" |}.

(** A listing as the kernel of a spoke prints it, with the local rule. *)
Definition rule_json (p : Z) (mark mask table : string) : json := JObj [("priority", JInt p); ("src", JStr "all"); ("fwmark", JStr mark);
  ("fwmask", JStr mask); ("table", JStr table)].
Definition local_rule (p : Z) (table : string) : json := JObj [("priority", JInt p); ("src", JStr "all"); ("table", JStr table)].

Definition spoke_rules : list Rule := [
  {| prio := 1103; value := 0x1003; mask := 0x30ff; table := 1103 |}; {| prio := 1203; value := 0x2003; mask := 0x30ff; table := 1203 |};
  {| prio := 2003; value := 3; mask := 0xff; table := 103 |}].
Definition spoke_listing : list json := [
  local_rule 0 "local"; rule_json 1103 "0x1003" "0x30ff" "1103"; rule_json 1203 "0x2003" "0x30ff" "1203"; rule_json 2003 "0x3" "0xff" "103";
  local_rule 32766 "main"].

Lemma spoke_listed : listing spoke_rules spoke_listing.
Proof.
  unfold spoke_rules, spoke_listing. apply listing_plain; [by eexists|].
  repeat (apply listing_rule; [eexists; split_and!; [reflexivity..| |left]; eexists; split; reflexivity|]).
  apply listing_plain; [by eexists|constructor].
Qed.

(** Priority zero, the first of all, counts as the last. *)
Lemma priority_zero_is_last :
  match matching_policy_rule (Available (JList [rule_json 0 "0x3" "0xff" "7"; rule_json 2003 "0x3" "0xff" "103"])) (Some 3) with
  | Ok (Some m) => mr_table m = JStr "103"
  | _ => False
  end.
Proof. vm_compute. reflexivity. Qed.

(** A connection of another host, whose address the source's is a prefix of, and
    a connection in the other direction. *)
Definition other_host : string := "tcp 6 431999 ESTABLISHED src=10.10.1.100 dst=10.100.0.10 sport=51000 dport=8443 src=10.100.0.10 dst=10.10.1.100 sport=8443 dport=51000 [ASSURED] mark=8451 use=1".
Definition reverse_flow : string := "tcp 6 431999 ESTABLISHED src=10.100.0.10 dst=10.10.1.10 sport=40000 dport=22 src=10.10.1.10 dst=10.100.0.10 sport=22 dport=40000 [ASSURED] mark=0x1001 use=1".

Lemma other_flows_observed :
  line_mark "10.10.1.10" "10.100.0.10" other_host = [{| om_mark := 8451; om_raw := "8451" |}] ∧
  line_mark "10.10.1.10" "10.100.0.10" reverse_flow = [{| om_mark := 0x1001; om_raw := "0x1001" |}].
Proof. vm_compute. by split. Qed.
End Examples.

Lemma report_names_selected_rule_witness : ∃ m, matching_policy_rule (H := Examples.sample_repr) (Available (JList Examples.spoke_listing)) (Some 0x2103) = Ok (Some m) ∧
  mr_table m = JStr "1203".
Proof.
  destruct (report_names_selected_rule Examples.spoke_rules Examples.spoke_listing 0x2103 Examples.spoke_listed) as (m & Em & Hr).
  - intros r Hr. assert (Forall (λ r, 0 < prio r) Examples.spoke_rules) as F by (repeat constructor). rewrite Forall_forall in F. by apply F.
  - lia.
  - destruct m as [m|]; [|destruct Hr]. exists m. split; [exact Em|]. exact (proj2 Hr).
Defined.
