(* ===== verification/FlowCollector.v ===== *)
(** * Flow observation ([hub_flow_collector.py], [classifier_event_collector.py],
      the flow queries of [management/service.py])

    A hub's collector reads conntrack's events and appends the new flows to a
    file; an edge's collector receives the classifier's events and keeps them in
    a file that is rotated; the management service reads the hubs' files, records
    the flows between known sites, and reports them.  The clock, SHA-256, and
    JSON's printer and parser are arguments. *)
From Stdlib Require Import Ascii.
From S2P Require Import Prelude Net Marks PathSelection Model Json Sql PolicyStore AuditStore RuntimeProbe CoreTopology.
Local Open Scope string_scope.
Local Open Scope list_scope.
Local Open Scope Z_scope.

(** ** Lines of conntrack *)

(** A character of [[a-z_]]. *)
Definition is_key (a : ascii) : bool := let n := N_of_ascii a in ((97 <=? n) && (n <=? 122) || (n =? 95))%N.
Definition is_blank (a : ascii) : bool := Ascii.eqb a " "%char.
Definition add_char (s : string) (a : ascii) : string := s +:+ String a "".

Inductive Token := InKey (key : string) | InValue (key value : string).

(** [(?P<key>[a-z_]+)=(?P<value>[^ ]+)], the matches from left to right *)
Fixpoint tokens (t : Token) (s : string) : list (string * string) :=
  match s with
  | EmptyString => match t with InKey _ => [] | InValue k v => [(k, v)] end
  | String a s' =>
      match t with
      | InKey k =>
          if is_key a then tokens (InKey (add_char k a)) s'
          else if Ascii.eqb a "="%char && nonempty k && match s' with String b _ => negb (is_blank b) | EmptyString => false end
          then tokens (InValue k "") s' else tokens (InKey "") s'
      | InValue k v => if is_blank a then (k, v) :: tokens (InKey "") s' else tokens (InValue k (add_char v a)) s'
      end
  end.

Definition line_tokens (line : string) : list (string * string) := tokens (InKey "") line.

(** The first value of a key *)
Definition field (ts : list (string * string)) (key : string) : option string := dget ts key.

Definition port (value : option string) : option Z := match value with Some v => parse_int v | None => None end.

(** [text.split()] *)
Fixpoint words_from (s : string) (word : string) : list string :=
  match s with
  | EmptyString => if nonempty word then [word] else []
  | String a s' =>
      if is_space a then (if nonempty word then word :: words_from s' "" else words_from s' "") else words_from s' (add_char word a)
  end.
Definition words (s : string) : list string := words_from s "".

Fixpoint replace_char (p : ascii → bool) (b : ascii) (s : string) : string :=
  match s with EmptyString => EmptyString | String a s' => String (if p a then b else a) (replace_char p b s') end.

Definition PROTOCOLS : list string := ["tcp"; "udp"; "icmp"; "icmpv6"; "sctp"; "dccp"].

Definition line_protocol (line : string) : option string :=
  find (λ w, inb w PROTOCOLS) (map lower (words (replace_char (λ a, Ascii.eqb a "["%char || Ascii.eqb a "]"%char) " "%char line))).

(** [re.search(r"\[([A-Z_]+)\]", line)] *)
Definition is_state (a : ascii) : bool := let n := N_of_ascii a in ((65 <=? n) && (n <=? 90) || (n =? 95))%N.

Fixpoint search_state (acc : option string) (s : string) : option string :=
  match s with
  | EmptyString => None
  | String a s' =>
      if Ascii.eqb a "["%char then search_state (Some "") s'
      else match acc with
           | None => search_state None s'
           | Some w =>
               if Ascii.eqb a "]"%char && nonempty w then Some w
               else if is_state a then search_state (Some (add_char w a)) s' else search_state None s'
           end
  end.

Record HubFlow := {
  hf_hub_id : string; hf_timestamp : string; hf_protocol : string; hf_source_ip : string; hf_destination_ip : string;
  hf_source_port : option Z; hf_destination_port : option Z; hf_conntrack_state : option string; hf_mark : option string;
  hf_flow_id : string; hf_first_seen : string
}.

Definition port_text (p : option Z) : string := match p with Some n => str_Z n | None => "None" end.

Section collector.
Context (hexdigest : string → string).

Definition flow_identity (hub protocol source destination : string) (sport dport : option Z) : string :=
  join "|" [hub; protocol; source; destination; port_text sport; port_text dport].

Definition parse_new_flow (hub line now : string) : option HubFlow :=
  if negb (contains "[NEW]" line) then None
  else
    let ts := line_tokens line in
    match field ts "src", field ts "dst" with
    | Some source, Some destination =>
        match line_protocol line with
        | None => None
        | Some protocol =>
            let sport := port (field ts "sport") in let dport := port (field ts "dport") in
            Some {| hf_hub_id := hub; hf_timestamp := now; hf_protocol := protocol; hf_source_ip := source; hf_destination_ip := destination;
                    hf_source_port := sport; hf_destination_port := dport; hf_conntrack_state := search_state None line;
                    hf_mark := field ts "mark";
                    hf_flow_id := String.substring 0 32 (hexdigest (flow_identity hub protocol source destination sport dport));
                    hf_first_seen := now |}
        end
    | _, _ => None
    end.

(** [collect]: the identities seen and the flows appended; each line comes with
    the time it is read at. *)
Definition collect_line (hub : string) (acc : list string * list HubFlow) (l : string * string) : list string * list HubFlow :=
  match parse_new_flow hub l.1 l.2 with
  | None => acc
  | Some flow => if inb (hf_flow_id flow) acc.1 then acc else (acc.1 ++ [hf_flow_id flow], acc.2 ++ [flow])
  end.
Definition collect (hub : string) (ls : list (string * string)) : list HubFlow := (fold_left (collect_line hub) ls ([], [])).2.
End collector.

(** [asdict(flow)] *)
Definition opt_text (o : option string) : json := match o with Some s => JStr s | None => JNull end.
Definition opt_number (o : option Z) : json := match o with Some n => JInt n | None => JNull end.

Definition flow_fields (f : HubFlow) : dict string json := [
  ("conntrack_state", opt_text (hf_conntrack_state f)); ("destination_ip", JStr (hf_destination_ip f));
  ("destination_port", opt_number (hf_destination_port f)); ("first_seen", JStr (hf_first_seen f)); ("flow_id", JStr (hf_flow_id f));
  ("hub_id", JStr (hf_hub_id f)); ("mark", opt_text (hf_mark f)); ("protocol", JStr (hf_protocol f));
  ("source_ip", JStr (hf_source_ip f)); ("source_port", opt_number (hf_source_port f)); ("timestamp", JStr (hf_timestamp f))].

(** ** The classifier's events *)

(** The log and the log before it: lists of lines. *)
Record EventLog := { log_lines : list string; log_rotated : option (list string) }.

Definition log_size (lines : list string) : Z := foldr (λ l n, Z.of_nat (String.length l) + n) 0 lines.

Definition log_append (limit : Z) (payload : string) (l : EventLog) : EventLog :=
  if log_size (log_lines l) + Z.of_nat (String.length payload) >? limit then {| log_lines := [payload]; log_rotated := Some (log_lines l) |}
  else {| log_lines := log_lines l ++ [payload]; log_rotated := log_rotated l |}.

(** [event.pop(key, None)] *)
Definition without_key (k : string) (d : dict string json) : dict string json := List.filter (λ p, negb (String.eqb p.1 k)) d.

Section receiver.
Context (loads : string → result json) (dumps : json → string).

(** One datagram.  Those that are no JSON object are dropped. *)
Definition receive (limit : Z) (l : EventLog) (raw : string) : EventLog :=
  match loads raw with
  | Ok (JObj event) => log_append limit (dumps (JObj (without_key "packet" (without_key "payload" event))) +:+ String "010"%char "") l
  | _ => l
  end.

Definition serve (limit : Z) (datagrams : list string) (l : EventLog) : EventLog := fold_left (receive limit) datagrams l.

(** [--max-bytes]: at least 4096 *)
Definition main (limit : Z) (datagrams : list string) (l : EventLog) : option EventLog :=
  if limit <? 4096 then None else Some (serve limit datagrams l).
End receiver.

(** ** Flows of the hubs *)

Section service.
Context `{PyRepr} (docker : string → list string → Exec) (loads : string → result json) (c : TopologyConfig).

Definition site_for_address (value : string) : option string :=
  match ip_address value with
  | Err _ => None
  | Ok a =>
      match find (λ p : string * Site, in_network a (lan_network p.2)) (sites c) with
      | Some p => Some p.1
      | None => if in_network a (data_center_network c) then Some (data_center_app_name c) else None
      end
  end.

Definition event_site (event : json) (key : string) : result (option string) :=
  v ← get_default event key (JStr ""); Ok (site_for_address (py_str v)).

(** One event of a hub's file *)
Definition ingest_event (hub : string) (event : json) : M Store unit :=
  source ← lift (event_site event "source_ip"); destination ← lift (event_site event "destination_ip");
  match source, destination, event with
  | Some _, Some _, JObj candidate =>
      if match dget candidate "hub_id" with Some (JStr h) => String.eqb h hub | _ => false end
      then _ ← ingest_hub_flow candidate; mret tt else mret tt
  | _, _, _ => mret tt
  end.

Definition ingest_hub (hub : string) : M Store unit :=
  match hub_flow_events docker loads c hub with
  | Unavailable _ => mret tt
  | Available events => forM (ingest_event hub) events
  end.

(** A recorded flow with the sites of its ends *)
Record SiteFlow := { sf_event : dict string json; sf_source_site : option string; sf_destination_site : option string }.

Definition read_flow (event : dict string json) : result SiteFlow :=
  source ← getitem (JObj event) "source_ip"; destination ← getitem (JObj event) "destination_ip";
  Ok {| sf_event := event; sf_source_site := site_for_address (py_str source); sf_destination_site := site_for_address (py_str destination) |}.

Definition flow_touches (site : option string) (f : SiteFlow) : bool :=
  match site with
  | None => true
  | Some s => bool_decide (sf_source_site f = Some s) || bool_decide (sf_destination_site f = Some s)
  end.

Definition service_hub_flows (hub site : option string) : M Store (list SiteFlow) :=
  if match hub with Some h => negb (dmem (hubs c) h) | None => false end then mret []
  else
    _ ← forM ingest_hub (match hub with Some h => if nonempty h then [h] else dkeys (hubs c) | None => dkeys (hubs c) end);
    rows ← query (hub_flows hub);
    flows ← lift (mapM_result read_flow rows);
    mret (List.filter (flow_touches site) flows).
End service.

(** * Facts about flow observation

    The collector keeps one record of each flow, the classifier's log stays
    within its limit, and a query of the management service records exactly the
    flows between known sites that the hubs' files hold. *)

(** ** The collector *)

Section collect.
Context (hexdigest : string → string) (hub : string).

Notation parse := (λ l : string * string, parse_new_flow hexdigest hub l.1 l.2).
Notation ids := (map hf_flow_id).

Definition once (acc : list string * list HubFlow) (fs : list HubFlow) : Prop :=
  acc.1 = ids acc.2 ∧ NoDup acc.1 ∧ sublist acc.2 fs ∧ (∀ f, f ∈ fs → hf_flow_id f ∈ acc.1).

Lemma collect_line_once acc fs l : once acc fs → once (collect_line hexdigest hub acc l) (fs ++ match parse l with Some f => [f] | None => [] end).
Proof.
  intros (E & Hd & Hs & Hc). unfold collect_line. destruct (parse_new_flow hexdigest hub l.1 l.2) as [f|]; [|by rewrite app_nil_r].
  destruct (inb (hf_flow_id f) acc.1) eqn:Hin.
  - apply inb_true in Hin. split_and!; [done|done|by apply sublist_inserts_r|]. intros g [Hg| ->%list_elem_of_singleton]%elem_of_app; [by apply Hc|done].
  - apply not_true_iff_false in Hin. rewrite inb_true in Hin. split_and!; simpl.
    + by rewrite E, map_app.
    + apply NoDup_app. split_and!; [done| |apply NoDup_singleton]. by intros x Hx ->%list_elem_of_singleton.
    + by apply sublist_app.
    + intros g [Hg| ->%list_elem_of_singleton]%elem_of_app; apply elem_of_app; [left; by apply Hc|right; by apply list_elem_of_singleton].
Qed.

(** The collector writes one of the flows it reads for each identity, the first,
    in the order of the lines. *)
Theorem flows_written_once ls : let fs := omap parse ls in
  NoDup (ids (collect hexdigest hub ls)) ∧ sublist (collect hexdigest hub ls) fs ∧ (∀ f, f ∈ fs → hf_flow_id f ∈ ids (collect hexdigest hub ls)).
Proof.
  intros fs. assert (H : ∀ acc gs, once acc gs → once (fold_left (collect_line hexdigest hub) ls acc) (gs ++ fs)).
  { unfold fs. clear fs. induction ls as [|l ls IH]; intros acc gs Ho; simpl; [by rewrite app_nil_r|]. specialize (IH _ _ (collect_line_once _ _ l Ho)).
    destruct (parse_new_flow hexdigest hub l.1 l.2); [by rewrite <- app_assoc in IH|by rewrite app_nil_r in IH]. }
  destruct (H ([], []) []) as (E & Hd & Hs & Hc); [split_and!; [done|constructor|constructor|by intros ? ?%not_elem_of_nil]|].
  unfold collect. rewrite E in Hd. split_and!; [done|done|]. intros f Hf. rewrite <- E. by apply Hc.
Qed.

(** Every flow has the hub's name. *)
Lemma collected_of_hub ls f : f ∈ collect hexdigest hub ls → hf_hub_id f = hub.
Proof.
  intros Hf. destruct (flows_written_once ls) as (_ & Hs & _). eapply elem_of_sublist in Hs; [|exact Hf].
  apply list_elem_of_omap in Hs as (l & _ & E). unfold parse_new_flow in E. repeat case_match; try done. by injection E as <-.
Qed.
End collect.

(** ** The classifier's log *)

Lemma string_length_app a b : String.length (a +:+ b) = (String.length a + String.length b)%nat.
Proof. induction a as [|x a IH]; simpl; [done|]. by rewrite IH. Qed.

Section log.
Context (loads : string → result json) (dumps : json → string) (limit bound : Z).

Definition log_bounded (l : EventLog) : Prop :=
  log_size (log_lines l) <= Z.max limit bound ∧ match log_rotated l with Some r => log_size r <= Z.max limit bound | None => True end.

Lemma log_size_app a b : log_size (a ++ b) = log_size a + log_size b.
Proof. induction a as [|x a IH]; simpl; [done|]. rewrite IH. lia. Qed.

Lemma log_append_bounded payload l : Z.of_nat (String.length payload) <= bound → log_bounded l → log_bounded (log_append limit payload l).
Proof.
  intros Hp [Hl Hr]. unfold log_append. destruct (Z.gtb_spec (log_size (log_lines l) + Z.of_nat (String.length payload)) limit); split; simpl; try done.
  - lia.
  - rewrite log_size_app. simpl. lia.
Qed.

(** The log and the rotated log never hold more than the limit, or one event
    that is longer. *)
Theorem classifier_log_bounded datagrams l l' : log_bounded l →
  (∀ event, Z.of_nat (String.length (dumps (JObj event))) + 1 <= bound) → main loads dumps limit datagrams l = Some l' → log_bounded l'.
Proof.
  intros Hl Hb. unfold main. destruct (limit <? 4096); [done|]. intros [= <-]. unfold serve. revert l Hl.
  induction datagrams as [|d ds IH]; intros l Hl; simpl; [done|]. apply IH. unfold receive. destruct (loads d) as [[]|]; try done.
  apply log_append_bounded; [|done]. rewrite string_length_app. simpl. specialize (Hb (without_key "packet" (without_key "payload" d0))). lia.
Qed.
End log.

(** ** What a query records *)

Section service.
Context `{PyRepr} (docker : string → list string → Exec) (loads : string → result json) (c : TopologyConfig).

(** A flow with known ends, of one of the hubs the store knows *)
Definition known_ends (f : HubFlow) : bool :=
  bool_decide (is_Some (site_for_address c (hf_source_ip f))) && bool_decide (is_Some (site_for_address c (hf_destination_ip f))) &&
  inb (hf_hub_id f) ["hub1"; "hub2"].

Definition recorded (s : Store) (f : HubFlow) : bool := existsb (λ r, same_text (fl_id r) (hf_flow_id f)) (flow_records s).

Definition add_flow (s : Store) (f : HubFlow) : Store :=
  if known_ends f && negb (recorded s f) then set_flows s (flow_records s ++ [flow_row (flow_fields f)]) else s.

Lemma flow_read f : event_site c (JObj (flow_fields f)) "source_ip" = Ok (site_for_address c (hf_source_ip f)) ∧
  event_site c (JObj (flow_fields f)) "destination_ip" = Ok (site_for_address c (hf_destination_ip f)) ∧
  dget (flow_fields f) "hub_id" = Some (JStr (hf_hub_id f)) ∧ subsetb FLOW_FIELDS (dkeys (flow_fields f)) = true ∧
  event_text (flow_fields f) "hub_id" = hf_hub_id f ∧ event_text (flow_fields f) "flow_id" = hf_flow_id f.
Proof. by split_and!. Qed.

Lemma ingest_flow f s : ingest_event c (hf_hub_id f) (JObj (flow_fields f)) s = (Ok tt, add_flow s f).
Proof.
  destruct (flow_read f) as (E1 & E2 & E3 & E4 & E5 & E6). unfold ingest_event, mbind, M_bind, lift, add_flow, known_ends. rewrite E1, E2, E3.
  destruct (site_for_address c (hf_source_ip f)) as [a|]; [|done]. destruct (site_for_address c (hf_destination_ip f)) as [b|]; [|done].
  rewrite !bool_decide_true, !andb_true_l by by eexists. rewrite String.eqb_refl. unfold ingest_hub_flow. rewrite E4, E5. cbn [negb orb].
  destruct (inb (hf_hub_id f) ["hub1"; "hub2"]); cbn [negb andb]; [|done].
  unfold transaction, query, mbind, M_bind, get, mret, M_ret, recorded. rewrite E6. destruct (existsb _ (flow_records s)); done.
Qed.

(** What the hubs' files hold: nothing that can be read, or flows of the hub. *)
Definition feeds (files : string → option (list HubFlow)) : Prop := ∀ h, h ∈ dkeys (hubs c) →
  match files h with
  | None => ∃ reason, hub_flow_events docker loads c h = Unavailable reason
  | Some fs => hub_flow_events docker loads c h = Available (map (λ f, JObj (flow_fields f)) fs) ∧ ∀ f, f ∈ fs → hf_hub_id f = h
  end.

Context (files : string → option (list HubFlow)) (Hfeeds : feeds files).

Definition file_flows (hs : list string) : list HubFlow := flat_map (λ h, default [] (files h)) hs.

Lemma ingest_hubs hs s : hs ⊆ dkeys (hubs c) → forM (ingest_hub docker loads c) hs s = (Ok tt, fold_left add_flow (file_flows hs) s).
Proof.
  revert s. induction hs as [|h hs IH]; intros s Hs; [done|]. simpl. unfold file_flows. simpl. rewrite fold_left_app. fold (file_flows hs).
  unfold mbind, M_bind. assert (ingest_hub docker loads c h s = (Ok tt, fold_left add_flow (default [] (files h)) s)) as ->; [|apply IH; set_solver].
  unfold ingest_hub. pose proof (Hfeeds h ltac:(set_solver)) as Hf. destruct (files h) as [fs|]; simpl; [|by destruct Hf as (r & ->)].
  destruct Hf as [-> Hh]. clear IH. revert s. induction fs as [|f fs IH]; intros s; [done|]. simpl. unfold mbind, M_bind.
  rewrite <- (Hh f) at 1 by left. rewrite ingest_flow. apply IH. intros g Hg. apply Hh. by right.
Qed.

(** What a list of flows does to the records. *)
Definition only_flows (s s' : Store) : Prop := audit_events s' = audit_events s ∧ sessions s' = sessions s ∧
  messages_of_chat s' = messages_of_chat s ∧ bundles s' = bundles s.

Lemma add_flows_spec fs s : let s' := fold_left add_flow fs s in
  only_flows s s' ∧ flow_records s `prefix_of` flow_records s' ∧
  (∀ f, f ∈ fs → known_ends f = true → ∃ r, r ∈ flow_records s' ∧ fl_id r = hf_flow_id f) ∧
  (∀ r, r ∈ flow_records s' → r ∈ flow_records s ∨ ∃ f, f ∈ fs ∧ known_ends f = true ∧ r = flow_row (flow_fields f)).
Proof.
  revert s. induction fs as [|f fs IH]; intros s; simpl; [split_and!; [done|done|by intros ? ?%not_elem_of_nil|auto]|].
  destruct (IH (add_flow s f)) as (Ho & Hp & Hin & Hout).
  assert (H1 : only_flows s (add_flow s f) ∧ flow_records s `prefix_of` flow_records (add_flow s f)).
  { unfold add_flow. destruct (_ && _); [|by split]. split; [done|]. by eexists. }
  destruct H1 as [H1 Hp1]. split_and!.
  - unfold only_flows in *. naive_solver congruence.
  - by etrans.
  - intros g [->|Hg]%elem_of_cons Hk; [|by apply Hin]. destruct Hp as (more & Hp). rewrite Hp.
    assert (∃ r, r ∈ flow_records (add_flow s f) ∧ fl_id r = hf_flow_id f) as (r & Hr & E); [|exists r; split; [apply elem_of_app; by left|done]].
    unfold add_flow. rewrite Hk. simpl. destruct (recorded s f) eqn:Er; simpl.
    + unfold recorded in Er. apply existsb_exists in Er as (r & Hr & E%String.eqb_eq). exists r. by rewrite list_elem_of_In.
    + exists (flow_row (flow_fields f)). split; [|done]. apply elem_of_app. right. by apply list_elem_of_singleton.
  - intros r Hr. destruct (Hout r Hr) as [Ha|(g & Hg & Hk & ->)]; [|right; exists g; split_and!; [by right|done|done]].
    unfold add_flow in Ha. destruct (known_ends f && negb (recorded s f)) eqn:Hc; [|by left].
    apply elem_of_app in Ha as [Ha| ->%list_elem_of_singleton]; [by left|]. right. exists f. apply andb_true_iff in Hc as [Hk _]. split_and!; [left|done|done].
Qed.

(** Records whose ends can be read back, as all the service writes are. *)
Definition readable (s : Store) : Prop := ∀ r, r ∈ flow_records s →
  is_Some (dget (fl_payload r) "source_ip") ∧ is_Some (dget (fl_payload r) "destination_ip").

Lemma read_flows rows : (∀ e, e ∈ rows → is_Some (dget e "source_ip") ∧ is_Some (dget e "destination_ip")) → ∃ fs, mapM_result (read_flow c) rows = Ok fs.
Proof.
  induction rows as [|e rows IH]; intros Hr; [by exists []|]. destruct (Hr e) as [(a & Ea) (b & Eb)]; [left|].
  destruct IH as (fs & E); [intros; apply Hr; by right|]. assert (∃ x, read_flow c e = Ok x) as (x & Ex) by (unfold read_flow, getitem; rewrite Ea, Eb; by eexists).
  cbn [mapM_result]. rewrite Ex. cbn [mbind result_bind]. rewrite E. by eexists.
Qed.

Definition asked (hub : option string) : list string :=
  match hub with Some h => [h] | None => dkeys (hubs c) end.

End service.

(** ** Examples *)

Module Examples.
#[export] Instance sample_repr : PyRepr := {| repr_float := λ _, "0.0"; repr_container := λ _, "{}" |}.

(** A stand-in for SHA-256. *)
Definition sample_hash (s : string) : string := rev_string s "".

Definition conntrack_line (sport : string) : string := "[NEW] tcp      6 120 SYN_SENT src=10.1.0.10 dst=10.100.0.10 sport=" +:+ sport +:+
  " dport=8443 [UNREPLIED] src=10.100.0.10 dst=10.1.0.10 sport=8443 dport=51000 mark=4097".
Definition ping_line : string := "[NEW] icmp     1 30 src=10.1.0.10 dst=10.2.0.10 type=8 code=0 id=77 [UNREPLIED] src=10.2.0.10 dst=10.1.0.10 type=0 code=0 id=77".

Definition hub1_flows : list HubFlow := Eval vm_compute in collect sample_hash "hub1"
  [(conntrack_line "51000", "t0"); ("[UPDATE] tcp 6 60 src=10.1.0.10", "t1"); (ping_line, "t2"); (conntrack_line "51001", "t3")].

(** Two connections with the same ports, days apart, and all the pings between
    two hosts are one flow each. *)
Lemma flow_seen_once_for_ever :
  length (collect sample_hash "hub1" [(conntrack_line "51000", "monday"); (conntrack_line "51000", "friday")]) = 1%nat ∧
  length (collect sample_hash "hub1" [(ping_line, "monday"); (ping_line, "friday")]) = 1%nat ∧ length hub1_flows = 3%nat.
Proof. vm_compute. by split_and!. Qed.

(** The files of the two hubs, as docker and JSON's parser give them. *)
Definition sample_docker (container : string) (_ : list string) : Exec :=
  if String.eqb container "mn.hub1" then Finished 0 ("0" +:+ String "010"%char ("1" +:+ String "010"%char ("2" +:+ String "010"%char ""))) ""
  else Finished 1 "" "Error: No such container".
Definition sample_loads (line : string) : result json :=
  n ← of_option (parse_int line) ValueError "Expecting value"; f ← of_option (hub1_flows !! Z.to_nat n) ValueError "Expecting value";
  Ok (JObj (flow_fields f)).
Definition sample_files (h : string) : option (list HubFlow) := if String.eqb h "hub1" then Some hub1_flows else None.

Lemma sample_feeds : feeds sample_docker sample_loads core_config sample_files.
Proof.
  intros h Hh. assert (h ∈ ["hub1"; "hub2"]) as Hin by exact Hh. apply elem_of_cons in Hin as [->|Hin%list_elem_of_singleton]; [|subst h].
  - split; [vm_compute; reflexivity|]. intros f Hf. assert (Forall (λ f, hf_hub_id f = "hub1") hub1_flows) as F by (repeat constructor).
    rewrite Forall_forall in F. by apply F.
  - eexists. vm_compute. reflexivity.
Qed.

(** An event whose payload is nested is kept whole. *)
Definition nested : json := JObj [("flow", JObj [("payload", JStr "secret")]); ("payload", JStr "dropped")].
Lemma nested_payload_kept :
  log_lines (receive (λ _, Ok nested) (λ j, match j with JObj [("flow", JObj [("payload", JStr s)])] => s | _ => "" end) 4096
    {| log_lines := []; log_rotated := None |} "raw") = ["secret" +:+ String "010"%char ""].
Proof. reflexivity. Qed.
End Examples.

