(* ===== verification/EvidenceRendering.v ===== *)
(** * Rendering of verified answers ([management/evidence.py])

    The Markdown a verified answer is shown as: a section for each cited fact,
    most of them tables.  JSON's printer (with sorted keys) is an argument. *)
From Stdlib Require Import Ascii.
From S2P Require Import Prelude Net Marks PathSelection Model Json Sql PolicyStore AuditStore Evidence RuntimeProbe.
Local Open Scope string_scope.
Local Open Scope list_scope.
Local Open Scope Z_scope.

Definition newline : string := String "010"%char "".

(** [text.replace(c, by)] for a single character *)
Fixpoint replace_text (c : ascii) (by_ : string) (s : string) : string :=
  match s with EmptyString => EmptyString | String a s' => (if Ascii.eqb a c then by_ else String a "") +:+ replace_text c by_ s' end.

Definition row (cells : list string) : string := "| " +:+ join " | " cells +:+ " |".
Definition separator (n : nat) : string := "|" +:+ String.concat "" (repeat "---|" n).
Definition table (headings : list string) (rows : list string) : list string := row headings :: separator (length headings) :: rows.

Definition or_text (s default : string) : string := if nonempty s then s else default.

Section rendering.
Context `{PyRepr} (dumps : json → string).

(** [_markdown] *)
Definition markdown (v : json) : string :=
  match v with JNull => "not reported" | _ => replace_text "010"%char " " (replace_text "|"%char "\|" (py_str v)) end.

Definition value_at (d : dict string json) (k : string) : json := default JNull (dget d k).
Definition item_texts (l : list json) : string := join ", " (map markdown l).

(** ** Tables *)

Definition route_group_row (group : json) : string :=
  match group with
  | JObj d =>
      let destinations := match default (JList []) (dget d "destinations") with JList l => item_texts l | other => markdown other end in
      row [markdown (value_at d "table"); markdown (value_at d "output_interface"); markdown (value_at d "hub"); markdown (value_at d "transport");
           markdown (value_at d "next_hop"); or_text destinations "not reported"]
  | _ => row ["not reported"; "not reported"; "not reported"; "not reported"; "not reported"; "`" +:+ markdown group +:+ "`"]
  end.

Definition printed (name : string) (v : json) : string := "- **" +:+ name +:+ "**: `" +:+ dumps v +:+ "`".

Definition route_groups_table (groups : json) : list string :=
  match groups with
  | JList l => table ["Table"; "Interface"; "Hub"; "Transport"; "Next hop"; "Destinations"] (map route_group_row l)
  | _ => [printed "route_groups" groups]
  end.

Definition rule_marks (rules : list json) : string :=
  join ", " (omap (λ r, match r with JObj d => Some (markdown (value_at d "fwmark")) | _ => None end) rules).

(** Values that are no object pass the guards but not the last line. *)
Definition candidate_row (candidate : json) : result string :=
  match candidate with
  | JObj d =>
      rules ← items_of (default (JList []) (dget d "policy_rules"));
      destinations ← items_of (default (JList []) (dget d "matching_destinations"));
      Ok (row [markdown (value_at d "table"); or_text (rule_marks rules) "not reported"; markdown (value_at d "output_interface"); markdown (value_at d "hub");
               markdown (value_at d "transport"); item_texts destinations])
  | _ => raise AttributeError "object has no attribute 'get'"
  end.

Definition policy_candidates_table (candidates : json) : result (list string) :=
  match candidates with
  | JList [] => Ok ["- No matching installed policy-route candidates were reported."]
  | JList l =>
      rows ← mapM_result candidate_row l;
      Ok (table ["Table"; "Rule marks"; "Interface"; "Hub"; "Transport"; "Matching destination"] rows)
  | _ => Ok [printed "policy_candidates" candidates]
  end.

Definition routing_rule_row (rule : json) : string :=
  match rule with
  | JObj d => row (map (λ k, markdown (value_at d k)) ["priority"; "fwmark"; "fwmask"; "table"; "src"])
  | _ => row (repeat "not reported" 5)
  end.
Definition routing_rules_table (rules : json) : list string :=
  match rules with
  | JList l => table ["Priority"; "FWMark"; "Mask"; "Table"; "Source"] (map routing_rule_row l)
  | _ => [printed "routing_rules" rules]
  end.

(** The peers of [wg show]: the rows that are done, the interface and the row
    that are open. *)
Definition PEER_LABELS : list (string * string) := [("endpoint: ", "endpoint"); ("latest handshake: ", "handshake"); ("transfer: ", "transfer");
  ("persistent keepalive: ", "keepalive"); ("allowed ips: ", "allowed_ips")].

Record PeerScan := { ps_rows : list (dict string json); ps_interface : option string; ps_current : option (dict string json) }.

Definition close_row (s : PeerScan) : list (dict string json) := ps_rows s ++ match ps_current s with Some r => [r] | None => [] end.

Definition scan_peer (s : PeerScan) (line : string) : PeerScan :=
  let text := strip line in
  if String.prefix "interface: " text then
    {| ps_rows := close_row s; ps_interface := Some (after_label "interface: " text); ps_current := None |}
  else
    match String.prefix "peer: " text, ps_interface s with
    | true, Some i => {| ps_rows := close_row s; ps_interface := ps_interface s; ps_current := Some [("interface", JStr i)] |}
    | _, _ =>
        match ps_current s with
        | Some r =>
            {| ps_rows := ps_rows s; ps_interface := ps_interface s;
               ps_current := Some match find (λ p, String.prefix p.1 text) PEER_LABELS with
                                  | Some p => dset r p.2 (JStr (after_label p.1 text))
                                  | None => r
                                  end |}
        | None => s
        end
    end.

Definition peer_rows (text : string) : list (dict string json) :=
  close_row (fold_left scan_peer (splitlines text) {| ps_rows := []; ps_interface := None; ps_current := None |}).

Definition peer_row (d : dict string json) : string :=
  row (map (λ k, markdown (value_at d k)) ["interface"; "endpoint"; "handshake"; "transfer"; "keepalive"; "allowed_ips"]).

Definition wireguard_tunnels_table (v : json) : list string :=
  match v with
  | JObj d =>
      let availability := default (JStr "not reported") (dget d "availability") in
      match availability, dget d "value" with
      | JStr a, Some (JStr raw) =>
          if String.eqb a "AVAILABLE" then
            match peer_rows raw with
            | [] => ["- **availability**: `AVAILABLE`"; "- Tunnel output was present but did not contain an interface record."]
            | rows => table ["Interface"; "Endpoint"; "Latest handshake"; "Transfer"; "Keepalive"; "Allowed IPs"] (map peer_row rows)
            end
          else ["- **availability**: `" +:+ markdown availability +:+ "`"]
      | _, _ => ["- **availability**: `" +:+ markdown availability +:+ "`"]
      end
  | _ => [printed "tunnels" v]
  end.

Definition cell_of (v : json) : string := match v with JObj _ | JList _ => markdown (JStr (dumps v)) | _ => markdown v end.

Definition key_value_table (v : json) (keys : list (string * string)) : list string :=
  match v with
  | JObj d => table ["Field"; "Value"] (omap (λ k, (λ x, row [k.2; cell_of x]) <$> dget d k.1) keys)
  | _ => ["- `" +:+ dumps v +:+ "`"]
  end.

(** ** Facts *)

Definition FLOW_KEYS : list (string * string) := [("flow_count", "Observed matching flows"); ("marks", "Observed marks")].
Definition LIVE_KEYS : list (string * string) := [("available", "Lookup availability"); ("lookup_status", "Lookup result"); ("reason", "Lookup error");
  ("packet_mark", "Observed fwmark"); ("matched_rule", "Matching policy rule"); ("selected_routing_table", "Selected table");
  ("next_hop", "Next hop"); ("output_interface", "Output interface"); ("derived", "Derived interface metadata")].
Definition MARK_KEYS : list (string * string) := [("observed_mark", "Observed conntrack mark"); ("matched_rule", "Matching installed policy rule")].
Definition ENDPOINT_KEYS : list (string * string) := [("name", "Name"); ("kind", "Kind"); ("ip", "IP address"); ("site", "Site");
  ("management_ip", "Management IP"); ("aliases", "Aliases")].
Definition ACCESS_KEYS : list (string * string) := [("source_host", "Source host"); ("source_ip", "Source IP"); ("edge_site", "Edge site");
  ("lan_gateway", "LAN gateway"); ("lan_network", "LAN network")].
Definition EDGE_KEYS : list (string * string) := [("available", "Lookup availability"); ("reason", "Lookup result"); ("site", "Edge site");
  ("destination", "Destination"); ("source", "Source"); ("packet_mark", "Supplied fwmark"); ("selected_routing_table", "Selected table");
  ("next_hop", "Next hop"); ("output_interface", "Output interface"); ("derived", "Derived interface metadata")].

Definition path_row (p : Z * json) : string :=
  let chain := match p.2 with JList l => join " -> " (map markdown l) | other => markdown other end in row [str_Z p.1; chain].
Fixpoint numbered_from (n : Z) (l : list json) : list (Z * json) := match l with [] => [] | x :: l' => (n, x) :: numbered_from (n + 1) l' end.

Definition configured_paths (v : json) : result (list string) :=
  match v with
  | JObj d =>
      let candidates := default (JList []) (dget d "candidates") in
      body ← (if py_truth candidates then items ← items_of candidates; Ok (table ["Candidate"; "Component chain"] (map path_row (numbered_from 1 items)))
              else Ok ["- No configured candidate path was reported."]);
      Ok (["### Configured path candidates"] ++ body ++ ["- **Evidence kind**: `" +:+ markdown (value_at d "path_kind") +:+ "`"])
  | _ => Ok ["### Configured path candidates"; "- not reported"]
  end.

Definition mark_policy (v : json) : result (list string) :=
  match v with
  | JObj d =>
      candidates ← policy_candidates_table (value_at d "matching_route_candidates");
      Ok (["### Observed-mark policy evidence"] ++ key_value_table v MARK_KEYS ++ ["#### Matching installed route candidates"] ++ candidates)
  | _ => Ok ["### Observed-mark policy evidence"; "- not reported"]
  end.

Definition endpoint_title (kind : string) : string :=
  if String.eqb kind "endpoint" then "Configured endpoint" else if String.eqb kind "source" then "Resolved source endpoint"
  else "Resolved destination endpoint".

(** A section by the kind of the fact *)
Definition render_value (kind : string) (v : json) : result (list string) :=
  if String.eqb kind "route_groups" then Ok ("### Installed route groups" :: route_groups_table v)
  else if String.eqb kind "routing_rules" then Ok ("### Installed policy rules" :: routing_rules_table v)
  else if String.eqb kind "policy_candidates" then ls ← policy_candidates_table v; Ok ("### Matching policy-route candidates" :: ls)
  else if String.eqb kind "flow_observation" then Ok ("### Observed matching flow" :: key_value_table v FLOW_KEYS)
  else if String.eqb kind "selected_live_route" then Ok ("### Route lookup using observed flow mark" :: key_value_table v LIVE_KEYS)
  else if String.eqb kind "observed_mark_policy" then mark_policy v
  else if String.eqb kind "configured_path_candidates" then configured_paths v
  else if String.eqb kind "tunnels" then Ok ("### Observed WireGuard tunnels" :: wireguard_tunnels_table v)
  else if inb kind ["endpoint"; "source"; "destination"] then Ok (("### " +:+ endpoint_title kind) :: key_value_table v ENDPOINT_KEYS)
  else if String.eqb kind "host_access" then Ok ("### Configured host access" :: key_value_table v ACCESS_KEYS)
  else if String.eqb kind "edge_route" then Ok ("### Observed edge route lookup" :: key_value_table v EDGE_KEYS)
  else Ok [printed kind v].

Definition render_fact (fact : json) : result (list string) :=
  kind ← get_default fact "fact_kind" (JStr "evidence"); v ← get_default fact "value" JNull; render_value (py_str kind) v.

(** ** The answer *)

Definition fact_section (claim_kind : string) (rendered : list string) : list string :=
  match rendered with
  | first :: rest => if String.prefix "###" first then (newline +:+ first) :: rest else (newline +:+ "### " +:+ claim_kind) :: rendered
  | [] => [newline +:+ "### " +:+ claim_kind]
  end.

Definition claim_lines (known : dict string json) (c : AnswerClaim) : result (list string) :=
  ls ← mapM_result (λ i, fact ← of_option (dget known i) KeyError i; ls ← render_fact fact; Ok (fact_section (claim_type c) ls)) (fact_ids c);
  Ok (concat ls).

Definition unknown_line (item : json) : result string :=
  field ← get_default item "field" JNull; reason ← get_default item "reason" JNull; Ok ("- " +:+ py_str field +:+ ": " +:+ py_str reason).

Definition render_verified_answer (v : Validation) (b : BundleRow) : result string :=
  a ← of_option (validated_answer v) KeyError "answer";
  if bool_decide (answer_type a = conceptual) then Ok ("## Conceptual explanation" +:+ newline +:+ newline +:+ summary a)
  else
    known ← index_facts (AuditStore.facts (bn_payload b));
    sections ← mapM_result (claim_lines known) (claims a);
    us ← mapM_result unknown_line (take 32 (unknowns (bn_payload b)));
    let ls := map (λ x, "- " +:+ py_str x) (take 32 (limitations (bn_payload b))) in
    Ok (join newline (
      ["## Verified operational facts"] ++ concat sections ++
      (if bool_decide (us = []) then [] else (newline +:+ "## Unknown or unavailable information") :: us) ++
      (if bool_decide (ls = []) then [] else (newline +:+ "## Evidence limitations") :: ls) ++
      [newline +:+ "Evidence bundle: `" +:+ bn_id b +:+ "`"])).
End rendering.
