(* ===== verification/EvidenceRenderingFacts.v ===== *)
(** * Facts about the rendering of answers

    An accepted answer is rendered whenever its facts can be, and no value a tool
    reports adds a cell or a line to the table it is shown in. *)
From Stdlib Require Import Ascii.
From S2P Require Import Prelude Net Marks PathSelection Model Json Sql PolicyStore AuditStore Evidence RuntimeProbe PolicyRouting EvidenceRendering CoreTopology.
Local Open Scope string_scope.
Local Open Scope list_scope.
Local Open Scope Z_scope.

(** ** Rendering succeeds *)

Section total.
Context `{PyRepr} (dumps : json → string).

(** The kinds whose rendering may raise *)
Definition TABLE_KINDS : list string := ["policy_candidates"; "observed_mark_policy"; "configured_path_candidates"].

Definition renderable (fact : json) : Prop := is_ok (render_fact dumps fact) = true.

Lemma plain_kind_rendered kind v : kind ∉ TABLE_KINDS → is_ok (render_value dumps kind v) = true.
Proof.
  intros Hk. unfold TABLE_KINDS in Hk. rewrite !not_elem_of_cons in Hk. destruct Hk as (H1 & H2 & H3 & _). unfold render_value.
  apply String.eqb_neq in H1, H2, H3. rewrite H1, H2, H3. by repeat case_match.
Qed.

Lemma candidates_rendered l : (∀ x, x ∈ l → is_ok (candidate_row x) = true) → is_ok (policy_candidates_table dumps (JList l)) = true.
Proof.
  intros Hl. unfold policy_candidates_table. destruct l as [|x l]; [done|].
  destruct (mapM_result_ok candidate_row (x :: l)) as [ys ->]; [|done]. intros y Hy. specialize (Hl y Hy). destruct (candidate_row y); [by eexists|done].
Qed.

Lemma paths_rendered d : (∀ l, default (JList []) (dget d "candidates") = l → ∃ xs, l = JList xs) → is_ok (configured_paths (JObj d)) = true.
Proof. intros Hd. unfold configured_paths. destruct (Hd _ eq_refl) as [xs ->]. by destruct (py_truth (JList xs)). Qed.

(** An accepted answer is rendered, whatever it cites. *)
Lemma valid_answer_rendered answer v (b : BundleRow) : validate answer (AuditStore.facts (bn_payload b)) = Ok v → valid v = true →
  (∀ f, f ∈ AuditStore.facts (bn_payload b) → renderable f) → unknowns (bn_payload b) = [] →
  ∃ text, render_verified_answer dumps v b = Ok text.
Proof.
  intros Hv Hok Hf Hu. destruct (valid_checked _ _ _ Hv Hok) as (a & known & _ & Hknown & Hall & _ & Ha & _).
  destruct (all_checked_supported _ _ _ Hall) as (Hsup & _ & _). unfold render_verified_answer. rewrite Ha. cbn [mbind result_bind of_option answer_type claims].
  case_bool_decide; [by eexists|]. rewrite Hknown. cbn [mbind result_bind].
  destruct (mapM_result_ok (claim_lines dumps known) (map fst (map (check_claim known (answer_type a)) (claims a)))) as [ss ->].
  { intros c Hc. unfold claim_lines. destruct (mapM_result_ok (λ i, fact ← of_option (dget known i) KeyError i; ls ← render_fact dumps fact;
      Ok (fact_section (claim_type c) ls)) (fact_ids c)) as [ls ->]; [|by eexists].
    intros i Hi. destruct (proj1 (Forall_forall _ _) Hsup c Hc) as [_ Hk _]. destruct (Hk i Hi) as (f & Hg & _). rewrite Hg. cbn [mbind result_bind of_option].
    apply dget_In in Hg. pose proof (Hf f (index_facts_collected _ _ _ _ Hknown Hg)) as Hr. unfold renderable in Hr.
    destruct (render_fact dumps f); [by eexists|done]. }
  cbn [mbind result_bind]. rewrite Hu. cbn. by eexists.
Qed.
End total.

(** ** Tables *)

(** Bars that are not escaped, given whether the character before is a backslash. *)
Fixpoint bars (escaped : bool) (s : string) : nat :=
  match s with
  | EmptyString => 0
  | String a s' => ((if Ascii.eqb a "|"%char && negb escaped then 1 else 0) + bars (Ascii.eqb a "\"%char) s')%nat
  end.

Definition one_line (s : string) : Prop := has_char "010"%char s = false.

(** The text adds no bar, whatever is around it. *)
Definition contained (s : string) : Prop := ∀ e c t, c ≠ "|"%char → bars e (s +:+ String c t) = bars false (String c t).
Definition cell_ok (s : string) : Prop := contained s ∧ one_line s.

Lemma bars_other e c t : c ≠ "|"%char → bars e (String c t) = bars false (String c t).
Proof. intros Hc. cbn. by rewrite (proj2 (Ascii.eqb_neq _ _) Hc). Qed.

Lemma one_line_app a b : one_line a → one_line b → one_line (a +:+ b).
Proof. unfold one_line. intros Ha Hb. by rewrite has_char_app, Ha, Hb. Qed.

Lemma string_app_assoc (a b c : string) : (a +:+ b) +:+ c = a +:+ (b +:+ c).
Proof. induction a as [|x a IH]; [done|]. change (String x ((a +:+ b) +:+ c) = String x (a +:+ (b +:+ c))). by rewrite IH. Qed.

Lemma contained_starts s d s' : contained s → s = String d s' → d ≠ "|"%char.
Proof. intros Hs -> ->. specialize (Hs false " "%char "" ltac:(done)).
  change (S (bars false (s' +:+ " ")) = 0%nat) in Hs. lia. Qed.

Lemma cell_ok_app a b : cell_ok a → cell_ok b → cell_ok (a +:+ b).
Proof.
  intros [Ha La] [Hb Lb]. split; [|by apply one_line_app]. intros e c t Hc. rewrite string_app_assoc.
  destruct b as [|d b']; [by apply Ha|]. change (String d b' +:+ String c t) with (String d (b' +:+ String c t)). rewrite Ha by (by eapply contained_starts). exact (Hb false c t Hc).
Qed.

Lemma cell_ok_char a : a ≠ "|"%char → a ≠ "010"%char → cell_ok (String a "").
Proof.
  intros Hb Hn. apply Ascii.eqb_neq in Hb, Hn. split; [|unfold one_line; cbn; by rewrite Hn]. intros e c t Hc. change (String a "" +:+ String c t) with (String a (String c t)). rewrite bars_other by (by apply Ascii.eqb_neq).
  cbn [bars]. rewrite Hb. by apply bars_other.
Qed.

Lemma cell_ok_nil : cell_ok "".
Proof. split; [|done]. intros e c t Hc. by apply bars_other. Qed.

Lemma cell_ok_plain s : has_char "|"%char s = false → has_char "010"%char s = false → cell_ok s.
Proof.
  induction s as [|a s IH]; [intros _ _; apply cell_ok_nil|]. simpl. rewrite !orb_false_iff. intros [Hb Hs] [Hn Hs'].
  apply (cell_ok_app (String a "") s); [|by apply IH]. apply cell_ok_char; by apply Ascii.eqb_neq.
Qed.

Lemma cell_ok_replaced s : cell_ok (replace_text "010"%char " " (replace_text "|"%char "\|" s)).
Proof.
  induction s as [|a s IH]; [apply cell_ok_nil|]. cbn [replace_text]. destruct (Ascii.eqb_spec a "|"%char) as [->|Hb].
  - apply (cell_ok_app "\|"); [|exact IH]. split; [|done]. intros e c t Hc. reflexivity.
  - change (cell_ok (replace_text "010"%char " " (String a (replace_text "|"%char "\|" s)))). cbn [replace_text]. destruct (Ascii.eqb_spec a "010"%char) as [->|Hn].
    + apply (cell_ok_app " "); [by apply cell_ok_plain|exact IH].
    + apply (cell_ok_app (String a "")); [by apply cell_ok_char|exact IH].
Qed.

(** ** Rows *)

(** A line of a table of [n] columns *)
Definition intact (n : nat) (line : string) : Prop := bars false line = S n ∧ one_line line.

Lemma intact_row cells : cells ≠ [] → (∀ x, x ∈ cells → cell_ok x) → intact (length cells) (row cells).
Proof.
  intros Hne Hok. assert (H : bars false (join " | " cells +:+ " |") = length cells ∧ one_line (join " | " cells)).
  { induction cells as [|x cells IH]; [done|]. clear Hne. destruct (Hok x (list_elem_of_here _ _)) as [Hx Lx].
    destruct cells as [|y cells]; [split; [exact (Hx false " "%char "|" ltac:(done))|exact Lx]|].
    destruct IH as [Hb Hl]; [done|intros z Hz; apply Hok; by constructor|].
    change (join " | " (x :: y :: cells)) with (x +:+ (" | " +:+ join " | " (y :: cells))). split; [|by apply one_line_app; [|apply one_line_app]].
    rewrite !string_app_assoc. etrans; [exact (Hx false " "%char ("| " +:+ (join " | " (y :: cells) +:+ " |")) ltac:(done))|].
    change (S (bars false (join " | " (y :: cells) +:+ " |")) = length (x :: y :: cells)). by rewrite Hb. }
  destruct H as [Hb Hl]. split; [|unfold row; apply one_line_app; [done|by apply one_line_app]].
  change (S (bars false (join " | " cells +:+ " |")) = S (length cells)). by rewrite Hb.
Qed.

Lemma cell_ok_join sep l : cell_ok sep → (∀ x, x ∈ l → cell_ok x) → cell_ok (join sep l).
Proof.
  intros Hs. induction l as [|x l IH]; intros Hl; [apply cell_ok_nil|]. destruct l as [|y l]; [apply Hl, list_elem_of_here|].
  change (join sep (x :: y :: l)) with (x +:+ (sep +:+ join sep (y :: l))). apply cell_ok_app; [apply Hl, list_elem_of_here|].
  apply cell_ok_app; [done|]. apply IH. intros z Hz. apply Hl. by constructor.
Qed.

Section tables.
Context `{PyRepr} (dumps : json → string).

Lemma markdown_ok v : cell_ok (markdown v).
Proof. destruct v; try apply cell_ok_replaced. by apply cell_ok_plain. Qed.

Lemma item_texts_ok l : cell_ok (item_texts l).
Proof. apply cell_ok_join; [by apply cell_ok_plain|]. intros x (y & -> & _)%elem_of_map. apply markdown_ok. Qed.

Lemma or_text_ok s d : cell_ok s → cell_ok d → cell_ok (or_text s d).
Proof. unfold or_text. by destruct (nonempty s). Qed.

#[local] Hint Resolve markdown_ok item_texts_ok or_text_ok cell_ok_app : rendering.
#[local] Hint Extern 1 (cell_ok (String _ _)) => (apply cell_ok_plain; reflexivity) : rendering.

(** A row whose cells are all listed *)
#[local] Ltac listed_row := apply intact_row; [done|let x := fresh in let Hx := fresh in intros x Hx; rewrite ?elem_of_cons in Hx;
  repeat (destruct Hx as [-> | Hx]; [eauto with rendering|]); by apply elem_of_nil in Hx].

Lemma route_group_intact g : intact 6 (route_group_row g).
Proof. unfold route_group_row. destruct g as [| | | | | |d]; [listed_row..|]. destruct (default (JList []) (dget d "destinations")); listed_row. Qed.

Lemma routing_rule_intact r : intact 5 (routing_rule_row r).
Proof. unfold routing_rule_row. destruct r as [| | | | | |d]; cbn [repeat map]; listed_row. Qed.

Lemma rule_marks_ok l : cell_ok (rule_marks l).
Proof.
  apply cell_ok_join; [by apply cell_ok_plain|]. intros x (r & _ & Hr)%list_elem_of_omap. destruct r; try discriminate Hr. injection Hr as <-. apply markdown_ok.
Qed.

Lemma candidate_intact x line : candidate_row x = Ok line → intact 6 line.
Proof.
  unfold candidate_row. destruct x as [| | | | | |d]; try done. intros Hr. apply bind_Ok in Hr as (rules & _ & Hr). apply bind_Ok in Hr as (ds & _ & Hr).
  apply Ok_inj in Hr as <-. pose proof (rule_marks_ok rules). listed_row.
Qed.

Lemma peer_intact d : intact 6 (peer_row d).
Proof. unfold peer_row. cbn [map]. listed_row. Qed.

Lemma path_intact n v : 0 < n → intact 2 (path_row (n, v)).
Proof.
  intros Hn. unfold path_row. cbn [fst snd]. assert (Hz : cell_ok (str_Z n)).
  { rewrite str_Z_pos by done. apply cell_ok_plain; by rewrite has_char_pretty. }
  destruct v; try listed_row. assert (cell_ok (join " -> " (map markdown l))); [|listed_row].
  apply cell_ok_join; [by apply cell_ok_plain|]. intros x (y & -> & _)%elem_of_map. apply markdown_ok.
Qed.

Lemma cell_of_ok v : cell_ok (cell_of dumps v).
Proof. destruct v; apply markdown_ok. Qed.

(** ** Sections *)

(** Every line that begins with a bar is one line, with as many cells as the
    line of the table before it. *)
Fixpoint tables_ok (columns : option nat) (ls : list string) : Prop :=
  match ls with
  | [] => True
  | l :: ls' =>
      if String.prefix "|" l
      then one_line l ∧ match columns with Some n => bars false l = S n | None => True end ∧ tables_ok (Some (pred (bars false l))) ls'
      else tables_ok None ls'
  end.

Lemma tables_ok_rows n rows rest columns : (∀ l, l ∈ rows → intact n l) → columns = None ∨ columns = Some n →
  (∀ c, c = None ∨ c = Some n → tables_ok c rest) → tables_ok columns (rows ++ rest).
Proof.
  intros Hr Hc Hrest. revert columns Hc. induction rows as [|l rows IH]; intros columns Hc; [by apply Hrest|]. cbn [app tables_ok].
  destruct (Hr l (list_elem_of_here _ _)) as [Hb Hl]. specialize (IH (λ x Hx, Hr x (list_elem_of_further _ _ _ Hx))).
  destruct (String.prefix "|" l); [|apply IH; by left]. split; [done|]. split; [destruct Hc as [-> | ->]; done|]. rewrite Hb. apply IH. by right.
Qed.

Lemma tables_ok_table n headings rows rest : length headings = n → (∀ x, x ∈ headings → cell_ok x) → headings ≠ [] →
  intact n (separator n) → (∀ l, l ∈ rows → intact n l) → (∀ c, c = None ∨ c = Some n → tables_ok c rest) →
  tables_ok None (table headings rows ++ rest).
Proof.
  intros <- Hh Hne Hsep Hr Hrest. apply (tables_ok_rows (length headings)); [|by left|done].
  intros l [-> | [-> | Hl]%elem_of_cons]%elem_of_cons; [by apply intact_row|done|by apply Hr].
Qed.

#[local] Ltac a_table n := apply (tables_ok_table n); [done|
  let x := fresh in let Hx := fresh in intros x Hx; rewrite ?elem_of_cons in Hx; repeat (destruct Hx as [-> | Hx]; [by apply cell_ok_plain|]);
  by apply elem_of_nil in Hx|done|done| |].

Lemma candidates_ok v ls rest : policy_candidates_table dumps v = Ok ls → (∀ c, c = None ∨ c = Some 6%nat → tables_ok c rest) →
  tables_ok None (ls ++ rest).
Proof.
  intros Hv Hrest. assert (Hn : tables_ok None rest) by (apply Hrest; by left). destruct v as [| | | | |[|x l]|d]; try (by apply Ok_inj in Hv as <-).
  cbn [policy_candidates_table] in Hv. apply bind_Ok in Hv as (rows & Hrows & Hv). apply Ok_inj in Hv as <-. a_table 6%nat; [|done].
  intros line Hl. apply mapM_result_Forall2 in Hrows. destruct (Forall2_elem_r _ _ _ _ Hrows Hl) as (y & _ & Hy). by eapply candidate_intact.
Qed.

Lemma key_values_ok v keys rest : Forall (λ k, cell_ok k.2) keys → (∀ c, c = None ∨ c = Some 2%nat → tables_ok c rest) →
  tables_ok None (key_value_table dumps v keys ++ rest).
Proof.
  intros Hk Hrest. assert (Hn : tables_ok None rest) by (apply Hrest; by left). destruct v as [| | | | | |d]; try exact Hn.
  unfold key_value_table. a_table 2%nat; [|done]. intros l (k & Hin & Hl)%list_elem_of_omap. rewrite Forall_forall in Hk. specialize (Hk k Hin).
  destruct (dget d k.1) as [x|]; [|done]. injection Hl as <-. pose proof (cell_of_ok x). listed_row.
Qed.

Lemma nothing_left n c : c = None ∨ c = Some n → tables_ok c [].
Proof. done. Qed.

Lemma keys_plain keys : forallb (λ k : string * string, negb (has_char "|"%char k.2) && negb (has_char "010"%char k.2)) keys = true →
  Forall (λ k, cell_ok k.2) keys.
Proof.
  intros Hk. apply Forall_forall. intros k Hin. rewrite forallb_forall in Hk. specialize (Hk k (proj1 (list_elem_of_In _ _) Hin)).
  apply andb_true_iff in Hk as [H1%negb_true_iff H2%negb_true_iff]. by apply cell_ok_plain.
Qed.

(** A title, then one table of fields and values. *)
Lemma titled_keys_ok title v keys : String.prefix "|" title = false →
  forallb (λ k : string * string, negb (has_char "|"%char k.2) && negb (has_char "010"%char k.2)) keys = true →
  tables_ok None (title :: key_value_table dumps v keys).
Proof.
  intros Ht Hk. cbn [tables_ok]. rewrite Ht, <- (app_nil_r (key_value_table dumps v keys)). apply key_values_ok; [by apply keys_plain|done].
Qed.

Lemma attempt_numbers_positive n l p : 0 < n → p ∈ numbered_from n l → 0 < p.1.
Proof.
  revert n. induction l as [|x l IH]; intros n Hn; [by intros ?%elem_of_nil|]. intros [-> |Hp]%elem_of_cons; [done|]. apply (IH (n + 1)); [lia|done].
Qed.

Lemma paths_ok v ls : configured_paths v = Ok ls → tables_ok None ls.
Proof.
  destruct v as [| | | | | |d]; try (by intros Hl; apply Ok_inj in Hl as <-). unfold configured_paths. intros Hl.
  apply bind_Ok in Hl as (body & Hb & Hl). apply Ok_inj in Hl as <-. cbn [app tables_ok String.prefix Ascii.eqb]. 
  destruct (py_truth _); [|by apply Ok_inj in Hb as <-]. apply bind_Ok in Hb as (items & _ & Hb). apply Ok_inj in Hb as <-.
  change (tables_ok None (table ["Candidate"; "Component chain"] (map path_row (numbered_from 1 items)) ++
    ["- **Evidence kind**: `" +:+ markdown (value_at d "path_kind") +:+ "`"])). a_table 2%nat; [|by intros c _].
  intros l ([n x] & -> & Hp)%elem_of_map. apply path_intact. by apply (attempt_numbers_positive 1) in Hp.
Qed.

Lemma tunnels_ok v : tables_ok None (wireguard_tunnels_table dumps v).
Proof.
  unfold wireguard_tunnels_table. destruct v as [| | | | | |d]; try done. cbv zeta.
  destruct (default (JStr "not reported") (dget d "availability")); try done. destruct (dget d "value") as [[]|]; try done.
  destruct (String.eqb _ _); [|done]. destruct (peer_rows _) as [|r rs]; [done|]. rewrite <- app_nil_r. a_table 6%nat; [|done].
  intros l (x & -> & _)%elem_of_map. apply peer_intact.
Qed.

(** C32: evidence cannot forge evidence.  Whatever value a fact of any kind has, if
    it is rendered at all, every line of its section that begins with a bar is a
    single line with as many cells as the heading of its table: no text that a
    tool reports adds a cell, a row or a table of its own. *)
Theorem tables_intact kind v ls : render_value dumps kind v = Ok ls → tables_ok None ls.
Proof.
  unfold render_value. intros Hr.
  destruct (String.eqb kind "route_groups").
  { apply Ok_inj in Hr as <-. destruct v as [| | | | |l|]; try done. change (tables_ok None (route_groups_table dumps (JList l))).
    cbn [route_groups_table]. rewrite <- app_nil_r. a_table 6%nat; [|done]. intros x (g & -> & _)%elem_of_map. apply route_group_intact. }
  destruct (String.eqb kind "routing_rules").
  { apply Ok_inj in Hr as <-. destruct v as [| | | | |l|]; try done. change (tables_ok None (routing_rules_table dumps (JList l))).
    cbn [routing_rules_table]. rewrite <- app_nil_r. a_table 5%nat; [|done]. intros x (g & -> & _)%elem_of_map. apply routing_rule_intact. }
  destruct (String.eqb kind "policy_candidates").
  { apply bind_Ok in Hr as (rows & Hrows & Hr). apply Ok_inj in Hr as <-. change (tables_ok None rows). rewrite <- (app_nil_r rows).
    by apply (candidates_ok v). }
  destruct (String.eqb kind "flow_observation"); [apply Ok_inj in Hr as <-; by apply titled_keys_ok|].
  destruct (String.eqb kind "selected_live_route"); [apply Ok_inj in Hr as <-; by apply titled_keys_ok|].
  destruct (String.eqb kind "observed_mark_policy").
  { destruct v as [| | | | | |d]; try (by apply Ok_inj in Hr as <-). unfold mark_policy in Hr. apply bind_Ok in Hr as (rows & Hrows & Hr).
    apply Ok_inj in Hr as <-. change (tables_ok None (key_value_table dumps (JObj d) MARK_KEYS ++ ("#### Matching installed route candidates" :: rows))).
    apply key_values_ok; [by apply keys_plain|]. intros c _. change (tables_ok None rows). rewrite <- (app_nil_r rows). by apply (candidates_ok _ _ _ Hrows). }
  destruct (String.eqb kind "configured_path_candidates"); [by apply (paths_ok v)|].
  destruct (String.eqb kind "tunnels"); [apply Ok_inj in Hr as <-; apply tunnels_ok|].
  destruct (inb kind _).
  { apply Ok_inj in Hr as <-. by apply titled_keys_ok. }
  destruct (String.eqb kind "host_access"); [apply Ok_inj in Hr as <-; by apply titled_keys_ok|].
  destruct (String.eqb kind "edge_route"); [apply Ok_inj in Hr as <-; by apply titled_keys_ok|].
  by apply Ok_inj in Hr as <-.
Qed.
End tables.

(** ** Examples *)

Module Examples.
#[export] Instance sample_repr : PyRepr := {| repr_float := λ _, "0.0"; repr_container := λ _, "{}" |}.

(** A name that tries to be a row of its own. *)
Definition forged : json := JObj [("name", JStr ("host |" +:+ newline +:+ "| Selected table | 103 |")); ("kind", JStr "branch_host")].

Lemma forged_shown : render_value (λ _, "{}") "source" forged = Ok ["### Resolved source endpoint"; "| Field | Value |"; "|---|---|";
  "| Name | host \| \| Selected table \| 103 \| |"; "| Kind | branch_host |"].
Proof. vm_compute. reflexivity. Qed.

(** The rows of candidates guard against values that are no object, and then use
    them as one. *)
Lemma odd_candidate_raises :
  (exn_cls <$> match policy_candidates_table (λ _, "{}") (JList [JStr "wg-h1-bb"]) with Err e => Some e | Ok _ => None end) = Some AttributeError.
Proof. vm_compute. reflexivity. Qed.

Lemma tables_intact_witness : ∃ ls, render_value (λ _, "{}") "source" forged = Ok ls ∧ length ls = 5%nat ∧ tables_ok None ls.
Proof.
  destruct (render_value (λ _, "{}") "source" forged) as [ls|e] eqn:E; [|vm_compute in E; discriminate E].
  exists ls. split; [reflexivity|]. split; [|exact (tables_intact (λ _, "{}") "source" forged ls E)].
  vm_compute in E. apply Ok_inj in E as <-. reflexivity.
Defined.
End Examples.
