(* ===== verification/EvidencePlanner.v ===== *)
(** * Prefetched evidence and the turn of a chat
      ([management/evidence_planner.py], [sdwan_mcp/models/common.py],
       [execute] in [management/app.py])

    A question that names two endpoints is answered by the server itself: the
    route is looked up, its document becomes the facts of the answer.  Other
    questions go to the language model, whose final texts are an argument, as are
    the printer and parser of JSON, drawn identifiers, the clock, and the order
    in which Python walks a set. *)
From Stdlib Require Import Ascii.
From S2P Require Import Prelude Net Marks PathSelection Model Json Sql PolicyStore AuditStore Evidence RuntimeProbe EvidenceRendering DependencyGraph RouteEvidence.
Local Open Scope string_scope.
Local Open Scope list_scope.
Local Open Scope Z_scope.

(** ** Results as evidence *)

Definition pad3 (n : Z) : string := (if n <? 10 then "00" else if n <? 100 then "0" else "") +:+ str_Z n.

Definition LIVE_SOURCES : list string := ["runtime_command"; "linux_namespace"; "wireguard"; "routing_table"; "audit_log"].

Definition fact_document (id kind state source : string) (observed value : json) : json := JObj [
  ("fact_id", JStr id); ("fact_kind", JStr kind); ("state_kind", JStr state); ("value", value); ("source_ids", JList [JStr source]);
  ("observed_at", observed)].

Definition fact_name (request : string) (index : nat) : string := request +:+ ":fact:" +:+ pad3 (Z.of_nat index).

(** [for index, (field, value) in enumerate(payload.items())] *)
Definition payload_facts (request state : string) (observed : json) (payload : dict string json) : list json :=
  flat_map (λ p : nat * (string * json),
    if inb p.2.1 ["meta"; "facts"] then []
    else [fact_document (fact_name request p.1) p.2.1 state (request +:+ ":source") observed p.2.2])
    (enumerate 0 payload).

(** [result_from_payload(...).model_dump(mode="json")], with all its arguments;
    the counts are those of the facts. *)
Definition operational_result (request now tool : string) (payload : dict string json) (source_type state : string) (available : bool)
    (limitations warnings unknowns : list json) : dict string json :=
  let observed := if inb source_type LIVE_SOURCES then JStr now else JNull in
  let source := JObj [("source_id", JStr (request +:+ ":source")); ("source_type", JStr source_type); ("description", JStr (tool +:+ " result"));
                      ("observed_at", observed)] in
  let facts := payload_facts request state observed payload in
  [("meta", JObj [("schema_version", JStr "1.0"); ("request_id", JStr request); ("available", JBool available); ("observed_at", observed);
      ("freshness_seconds", if inb source_type LIVE_SOURCES then JFloat 0 else JNull); ("stale", JBool false); ("source_kind", JStr source_type);
      ("sources", JList [source]); ("unknowns", JList unknowns); ("limitations", JList limitations); ("warnings", JList warnings)]);
   ("facts", JList facts); ("payload", JObj payload); ("truncated", JBool false); ("returned_count", JInt (Z.of_nat (length facts)));
   ("total_count", JInt (Z.of_nat (length facts))); ("next_cursor", JNull)].

(** As the planner calls it *)
Definition result_from_payload (request now tool : string) (payload : dict string json) (source_type state : string) (limitations : list json)
    : dict string json := operational_result request now tool payload source_type state true limitations [] [].

(** ** Endpoints named in a question *)

(** A character of [[a-z0-9]]. *)
Definition is_name_char (a : ascii) : bool := let n := N_of_ascii a in ((97 <=? n) && (n <=? 122) || (48 <=? n) && (n <=? 57))%N.
Definition starts (p : ascii → bool) (s : string) : bool := match s with String a _ => p a | EmptyString => false end.

Record Mention := { mn_start : nat; mn_end : nat; mn_name : string }.

(** [(?<![a-z0-9])alias(?![a-z0-9])]: where it matches, from left to right; the
    characters of a match are skipped. *)
Fixpoint occurrences (alias : string) (inside : bool) (s : string) (pos skip : nat) : list nat :=
  let hit := Nat.eqb skip 0 && negb inside && String.prefix alias s && negb (starts is_name_char (skip_chars (String.length alias) s)) in
  (if hit then [pos] else []) ++
  match s with
  | EmptyString => []
  | String a s' => occurrences alias (is_name_char a) s' (S pos) (if hit then pred (String.length alias) else pred skip)
  end.

(** [host\s+(?:of|in)\s+(?:site|node)\d+\b] at the start of a text *)
Definition host_phrase_at (s : string) : bool :=
  let r := skip_chars 4 s in let r' := skip_chars 2 (lstrip r) in let r'' := skip_chars 4 (lstrip r') in
  let digits := leading is_decimal r'' in
  String.prefix "host" s && starts is_space r && (String.prefix "of" (lstrip r) || String.prefix "in" (lstrip r)) &&
  starts is_space r' && (String.prefix "site" (lstrip r') || String.prefix "node" (lstrip r')) &&
  nonempty digits && negb (starts is_word (skip_chars (String.length digits) r'')).

Fixpoint has_host_phrase (boundary : bool) (s : string) : bool :=
  (boundary && host_phrase_at s) || match s with String a s' => has_host_phrase (negb (is_word a)) s' | EmptyString => false end.

(** [not (candidate[1] <= old[0] or candidate[0] >= old[1])] *)
Definition overlaps_mention (a b : Mention) : bool := negb ((mn_end a <=? mn_start b)%nat || (mn_end b <=? mn_start a)%nat).

Definition take_mention (matches : list Mention) (m : Mention) : list Mention := if existsb (overlaps_mention m) matches then matches else matches ++ [m].

Definition alias_mentions (text : string) (matches : list Mention) (alias : string * string) : list Mention :=
  fold_left take_mention
    (map (λ pos, {| mn_start := pos; mn_end := pos + String.length alias.1; mn_name := alias.2 |}) (occurrences alias.1 false text 0 0)) matches.

Definition mention_before (a b : Mention) : bool :=
  if Nat.eqb (mn_start a) (mn_start b) then
    (if Nat.eqb (mn_end a) (mn_end b) then String.leb (mn_name a) (mn_name b) else (mn_end a <=? mn_end b)%nat)
  else (mn_start a <=? mn_start b)%nat.

Definition endpoint_aliases (e : Endpoint) : list (string * string) := map (λ a, (lower a, ep_name e)) (ep_aliases e).

Section planner.
Context (set_order : list (string * string) → list (string * string)).

(** [sorted(set(aliases), key=len of the alias, reverse=True)] *)
Definition longest_first (aliases : list (string * string)) : list (string * string) :=
  sort_by (λ a b, (String.length b.1 <=? String.length a.1)%nat) (set_order (remove_dups aliases)).

Definition endpoint_mentions (c : TopologyConfig) (prompt : string) : result (list Mention) :=
  let text := lower prompt in
  es ← endpoint_inventory c;
  _ ← raise_if (has_host_phrase true text) IndexError "no such group";
  Ok (sort_by mention_before (fold_left (alias_mentions text) (longest_first (flat_map endpoint_aliases es)) [])).

(** The names in the order they are mentioned *)
Fixpoint distinct (seen l : list string) : list string :=
  match l with [] => seen | x :: l => distinct (if inb x seen then seen else seen ++ [x]) l end.

Record PreparedEvidence := {
  pr_tool : string; pr_arguments : dict string json; pr_result : dict string json; pr_fallback : dict string json
}.

(** Which fields of a document support the claim. *)
Definition ROUTE_FIELDS : list string := ["source"; "destination"; "host_access"; "edge_route"; "policy_candidates"; "configured_path_candidates"].
Definition FLOW_FIELDS : list string := ["source"; "destination"; "flow_observation"; "selected_live_route"; "observed_mark_policy"; "configured_path_candidates"].

Definition fact_kind_in (kinds : list string) (fact : json) : bool :=
  match getitem fact "fact_kind" with Ok (JStr k) => inb k kinds | _ => false end.
Definition fact_id_of (fact : json) : result json := getitem fact "fact_id".

Definition fallback_answer (claim : string) (ids : list json) : dict string json := [
  ("answer_type", JStr "operational"); ("summary", JStr "The management backend prepared verified route evidence.");
  ("claims", JList [JObj [("claim_id", JStr "server-prepared-route-evidence"); ("claim_type", JStr claim); ("fact_ids", JList ids);
                          ("explanation", JNull)]]);
  ("unknowns", JList []); ("limitations", JList [])].

Definition document_available (d : dict string json) : bool := match dget d "available" with Some v => py_truth v | None => false end.
Definition document_items (d : dict string json) (k : string) : list json := match dget d k with Some (JList l) => l | _ => [] end.

(** The document as evidence for a claim *)
Definition evidence_of (request now tool source destination claim state source_type : string) (kinds : list string) (payload : dict string json)
    : result (option PreparedEvidence) :=
  if negb (document_available payload) then Ok None
  else
    let reply := result_from_payload request now tool payload source_type state (document_items payload "limitations") in
    ids ← mapM_result fact_id_of (List.filter (fact_kind_in kinds) (document_items reply "facts"));
    Ok (Some {| pr_tool := tool; pr_arguments := [("source", JStr source); ("destination", JStr destination)]; pr_result := reply;
                pr_fallback := fallback_answer claim ids |}).

Context `{PyRepr} (docker : string → list string → Exec) (loads : string → result json) (c : TopologyConfig) (request now : string).

Definition prepare_route_evidence (prompt : string) : result (option PreparedEvidence) :=
  let lowered := lower prompt in
  if negb (contains "route" lowered || contains "path" lowered) then Ok None
  else
    ms ← endpoint_mentions c prompt;
    match distinct [] (map mn_name ms) with
    | [source; destination] =>
        if contains "observed" lowered || contains "current flow" lowered || contains "live flow" lowered then
          f ← observe_endpoint_flow docker loads c source destination;
          evidence_of request now "server_prefetch_observe_endpoint_flow" source destination "flow_route" "observed" "routing_table" FLOW_FIELDS
            (flow_document f)
        else
          r ← endpoint_route docker loads c source destination None;
          evidence_of request now "server_prefetch_explain_endpoint_route" source destination "endpoint_route" "derived" "derived" ROUTE_FIELDS
            (endpoint_route_document r)
    | _ => Ok None
    end.
End planner.

(** ** The turn *)

Section turn.
Context `{PyRepr} (now : string) (loads : string → result json) (dumps dumps_sorted : json → string) (show_outcome : Validation → json).

Fixpoint after_newline (s : string) : option string :=
  match s with EmptyString => None | String a s' => if Ascii.eqb a "010"%char then Some s' else after_newline s' end.

(** The text without a fence of backquotes around it *)
Definition unfenced (text : string) : string :=
  let s := strip text in
  if String.prefix "```" s then
    let body := default s (after_newline s) in strip (match last_split "```" body with Some (before, _) => before | None => body end)
  else s.

Definition NO_ANSWER : json := JObj [("answer_type", JStr "operational"); ("summary", JStr ""); ("claims", JList []); ("unknowns", JList []);
                                     ("limitations", JList [])].
Definition parsed_answer (text : string) : json := match loads (unfenced text) with Ok v => v | Err _ => NO_ANSWER end.

Definition bundle_facts (b : option BundleRow) : list json := match b with Some r => AuditStore.facts (bn_payload r) | None => [] end.

(** [outcome], for the text and for the prepared answer when that is refused *)
Definition outcome_of (b : option BundleRow) (prepared : option PreparedEvidence) (text : string) : result Validation :=
  v ← validate (parsed_answer text) (bundle_facts b);
  match prepared with
  | Some p => if valid v then Ok v else validate (JObj (pr_fallback p)) (bundle_facts b)
  | None => Ok v
  end.

(** The rendered answer of a valid outcome *)
Definition rendered_answer (v : Validation) (b : option BundleRow) : result (option string) :=
  match b with
  | Some r => if valid v then text ← render_verified_answer dumps_sorted v r; Ok (Some text) else Ok None
  | None => Ok None
  end.

(** [validate_final(text)].  Whatever raises in it does so after the first
    event; a rendering that raises, after the bundle is finalised. *)
Definition started (t : Task) : M Chat unit := put_event (tk_session t) "answer_validation_started" (JObj [("bundle_id", JStr (tk_bundle t))]).

Definition conclude (t : Task) (prepared : option PreparedEvidence) (text : string) : M Chat unit :=
  c ← get;
  let b := evidence_bundle (tk_bundle t) (tk_session t) (tk_actor t) (chat_store c) in
  match outcome_of b prepared text with
  | Err e => _ ← started t; lift (Err e)
  | Ok v =>
      match rendered_answer v b with
      | Ok rendered => validate_final now t (show_outcome v) rendered
      | Err e =>
          _ ← started t;
          _ ← in_store (finalize_evidence_bundle (tk_bundle t) (tk_session t) (tk_actor t) (show_outcome v)); lift (Err e)
      end
  end.

(** The final texts of the attempts: a second one only if the first is empty. *)
Definition final_text (attempts : list string) : string :=
  match attempts with
  | first :: rest => if nonempty first then first else match rest with second :: _ => second | [] => "" end
  | [] => ""
  end.

(** [except Exception] *)
Definition catch_all {S} (m handler : M S unit) : M S unit := λ s, match m s with (Err _, s') => handler s' | r => r end.

(** However a task ends, the session is free again. *)
Definition ends_task (t : Task) (m : M Chat unit) : M Chat unit := λ c,
  let '(r, c) := m c in (r, {| chat_store := chat_store c; event_queues := event_queues c; active_tasks := ddel (active_tasks c) (tk_session t) |}).

Definition say (t : Task) (kind : string) (data : dict string json) : M Chat unit := put_event (tk_session t) kind (JObj data).

(** [execute], with what [prepare_route_evidence] gave and the final texts of
    the agent's attempts.  The agent's own events are left out. *)
Definition execute_prepared (t : Task) (p : PreparedEvidence) : M Chat unit :=
  _ ← in_store (append_evidence_tool (tk_bundle t) (pr_tool p) (pr_arguments p) (pr_result p));
  _ ← say t "evidence_prefetched" [("tool", JStr (pr_tool p)); ("arguments", JObj (pr_arguments p))];
  _ ← say t "session_started" [("session_id", JInt (tk_session t))];
  _ ← say t "evidence_bundle_created" [("bundle_id", JStr (tk_bundle t))];
  _ ← say t "server_evidence_answering" [("tool", JStr (pr_tool p))];
  _ ← conclude t (Some p) (dumps (JObj (pr_fallback p)));
  say t "stream_closed" [].

Definition execute_agent (t : Task) (attempts : result (list string)) : M Chat unit :=
  _ ← say t "session_started" [("session_id", JInt (tk_session t))];
  _ ← say t "evidence_bundle_created" [("bundle_id", JStr (tk_bundle t))];
  _ ← say t "agent_starting" [];
  _ ← catch_all (texts ← lift attempts; conclude t None (final_text texts)) (say t "agent_error" [("reason", JStr "agent gateway failed")]);
  say t "stream_closed" [].

Definition execute_turn (t : Task) (prepared : result (option PreparedEvidence)) (attempts : result (list string)) : M Chat unit :=
  ends_task t (p ← lift prepared; match p with Some p => execute_prepared t p | None => execute_agent t attempts end).
End turn.
