(* ===== verification/EvidencePlannerFacts.v ===== *)
(** * Facts about prepared answers

    Two endpoints mentioned in a question do not overlap; a question whose
    evidence the server prepares is answered from that evidence, whatever the
    JSON text of the answer reads as. *)
From Stdlib Require Import Ascii.
From S2P Require Import Prelude Net Marks PathSelection Model Json Sql PolicyStore CoreTopology AuditStore AuditStoreFacts Evidence RuntimeProbe EvidenceRendering EvidenceRenderingFacts DestinationModels DependencyGraph RouteEvidence EvidencePlanner.
Local Open Scope string_scope.
Local Open Scope list_scope.
Local Open Scope Z_scope.

(** ** Mentions *)

Definition disjoint_mentions (l : list Mention) : Prop := ∀ i j a b, (i < j)%nat → l !! i = Some a → l !! j = Some b → overlaps_mention b a = false.

Lemma disjoint_take l m : disjoint_mentions l → disjoint_mentions (take_mention l m).
Proof.
  intros Hl. unfold take_mention. destruct (existsb (overlaps_mention m) l) eqn:E; [done|]. intros i j a b Hij Ha Hb.
  apply lookup_app_Some in Hb as [Hb|[Hj Hb]].
  - apply lookup_app_Some in Ha as [Ha|[Hi _]]; [by apply (Hl i j)|]. apply lookup_lt_Some in Hb. lia.
  - apply list_lookup_singleton_Some in Hb as [Hj0 <-]. apply lookup_app_Some in Ha as [Ha|[Hi _]]; [|lia].
    apply (existsb_false_elem _ _ _ E). by apply list_elem_of_lookup_2 in Ha.
Qed.

Lemma mentions_disjoint text aliases : disjoint_mentions (fold_left (alias_mentions text) aliases []).
Proof.
  assert (Hd : ∀ l ms, disjoint_mentions ms → disjoint_mentions (fold_left take_mention l ms)).
  { induction l as [|m l IH]; [done|]. intros ms Hms. apply IH. by apply disjoint_take. }
  assert (Ha : ∀ l ms, disjoint_mentions ms → disjoint_mentions (fold_left (alias_mentions text) l ms)).
  { induction l as [|a l IH]; [done|]. intros ms Hms. apply IH. by apply Hd. }
  apply Ha. by intros i j a b _ Hx.
Qed.

(** ** Facts of a document *)

(** A document that can be answered from *)
Record answerable (payload : dict string json) : Prop := {
  an_keys : NoDup (dkeys payload); an_small : (length payload ≤ 64)%nat; an_source : "source" ∈ dkeys payload
}.

Lemma endpoint_route_answerable r : document_available (endpoint_route_document r) = true → answerable (endpoint_route_document r).
Proof.
  destruct r as [m s d| |s d m|s d m h rep [cs|]]; intros Hd; try (by vm_compute in Hd);
    (split; [apply uniqueb_true; reflexivity|cbn; lia|apply inb_true; reflexivity]).
Qed.

Lemma flow_answerable f : document_available (flow_document f) = true → answerable (flow_document f).
Proof.
  destruct f as [r|s d ms e [rep|] [[[m rule] cs]|]]; intros Hd; try (by vm_compute in Hd);
    (split; [apply uniqueb_true; reflexivity|cbn; lia|apply inb_true; reflexivity]).
Qed.

Lemma string_app_inj (s a b : string) : s +:+ a = s +:+ b → a = b.
Proof. induction s as [|x s IH]; [done|]. cbn. intros E. injection E as E. by apply IH. Qed.

Lemma string_app_nil (a b : string) : a +:+ b = "" → a = "".
Proof. by destruct a. Qed.

Lemma pad3_distinct i j : (i < 64)%nat → (j < 64)%nat → pad3 (Z.of_nat i) = pad3 (Z.of_nat j) → i = j.
Proof.
  intros Hi Hj E. assert (H : forallb (λ i, forallb (λ j, implb (String.eqb (pad3 (Z.of_nat i)) (pad3 (Z.of_nat j))) (Nat.eqb i j)) (seq 0 64)) (seq 0 64) = true)
    by (vm_compute; reflexivity).
  rewrite forallb_forall in H. specialize (H i (proj2 (in_seq _ _ _) (conj (Nat.le_0_l _) Hi))). rewrite forallb_forall in H.
  specialize (H j (proj2 (in_seq _ _ _) (conj (Nat.le_0_l _) Hj))). rewrite E, String.eqb_refl in H. by apply Nat.eqb_eq.
Qed.

Lemma fact_name_distinct request i j : (i < 64)%nat → (j < 64)%nat → fact_name request i = fact_name request j → i = j.
Proof. intros Hi Hj E. unfold fact_name in E. apply string_app_inj, string_app_inj in E. by apply pad3_distinct. Qed.

Lemma fact_name_nonempty request i : nonempty (fact_name request i) = true.
Proof. apply nonempty_true. unfold fact_name. intros E. destruct request; cbn in E; discriminate E. Qed.

Lemma enumerate_elem {A} (l : list A) k i x : (i, x) ∈ enumerate k l → (k ≤ i < k + length l)%nat ∧ x ∈ l.
Proof.
  revert k. induction l as [|y l IH]; intros k; [by intros ?%elem_of_nil|]. cbn [enumerate length].
  intros [[= -> ->]|Hx]%elem_of_cons; [split; [lia|constructor]|]. apply IH in Hx as [? ?]. split; [lia|by constructor].
Qed.

Section facts.
Context `{PyRepr}.

Definition fact_pairs (request state : string) (observed : json) (k : nat) (payload : dict string json) : dict string json :=
  flat_map (λ p : nat * (string * json),
    if inb p.2.1 ["meta"; "facts"] then []
    else [(fact_name request p.1, fact_document (fact_name request p.1) p.2.1 state (request +:+ ":source") observed p.2.2)])
    (enumerate k payload).

Lemma payload_facts_pairs request state observed payload :
  payload_facts request state observed payload = map snd (fact_pairs request state observed 0 payload).
Proof.
  unfold payload_facts, fact_pairs. generalize 0%nat. induction payload as [|x l IH]; [done|]. intros k. cbn [enumerate flat_map].
  rewrite map_app, (IH (S k)). by destruct (inb _ _).
Qed.

Lemma fact_pairs_elem request state observed k payload i f : (i, f) ∈ fact_pairs request state observed k payload ↔
  ∃ n key v, (n, (key, v)) ∈ enumerate k payload ∧ inb key ["meta"; "facts"] = false ∧ i = fact_name request n ∧
    f = fact_document (fact_name request n) key state (request +:+ ":source") observed v.
Proof.
  unfold fact_pairs. rewrite list_elem_of_In, in_flat_map. split.
  - intros ([n [key v]] & Hn & Hi). cbn [fst snd] in Hi. destruct (inb key _) eqn:E; [done|]. destruct Hi as [[= <- <-]|[]].
    exists n, key, v. split_and!; try done. by apply list_elem_of_In.
  - intros (n & key & v & Hn & E & -> & ->). exists (n, (key, v)). split; [by apply list_elem_of_In|]. cbn [fst snd]. rewrite E. by left.
Qed.

Lemma fact_pairs_wf request state observed payload k : (k + length payload ≤ 64)%nat → dict_wf (fact_pairs request state observed k payload).
Proof.
  unfold dict_wf, dkeys. revert k. induction payload as [|[key v] l IH]; intros k Hk; [constructor|]. cbn [length] in Hk.
  specialize (IH (S k) ltac:(lia)). unfold fact_pairs. cbn [enumerate flat_map]. rewrite map_app. fold (fact_pairs request state observed (S k) l).
  destruct (inb _ _); [exact IH|]. constructor; [|exact IH]. intros ([i f] & E & Hx)%elem_of_map. cbn in E. subst i.
  apply fact_pairs_elem in Hx as (n & key' & v' & Hn & _ & E & _). apply enumerate_elem in Hn as [Hn _].
  apply fact_name_distinct in E; cbn [length] in *; lia.
Qed.

Lemma index_fact_new acc i f : get_opt f "fact_id" = Ok (Some (JStr i)) → nonempty i = true → i ∉ dkeys acc → index_fact acc f = Ok (acc ++ [(i, f)]).
Proof.
  intros Hf Hi Hn. unfold index_fact. rewrite Hf. cbn [mbind result_bind py_truth py_str]. rewrite Hi. by rewrite DestinationModels.dset_new.
Qed.

Lemma index_distinct l : ∀ acc, dict_wf (acc ++ l) →
  (∀ i f, (i, f) ∈ l → get_opt f "fact_id" = Ok (Some (JStr i)) ∧ nonempty i = true) → foldM index_fact acc (map snd l) = Ok (acc ++ l).
Proof.
  induction l as [|[i f] l IH]; intros acc Hwf Hl; [by rewrite app_nil_r|]. cbn [map snd foldM].
  destruct (Hl i f (list_elem_of_here _ _)) as [Hf Hi].
  assert (Hn : i ∉ dkeys acc).
  { unfold dict_wf, dkeys in Hwf. rewrite map_app in Hwf. apply NoDup_app in Hwf as (_ & Hd & _). intros Hin. by apply (Hd i Hin), list_elem_of_here. }
  rewrite (index_fact_new acc i f Hf Hi Hn). cbn [mbind result_bind]. rewrite IH; [by rewrite <- app_assoc|by rewrite <- app_assoc|].
  intros j g Hg. apply Hl. by constructor.
Qed.

Lemma payload_index request state observed payload : (length payload ≤ 64)%nat →
  index_facts (payload_facts request state observed payload) = Ok (fact_pairs request state observed 0 payload).
Proof.
  intros Hlen. rewrite payload_facts_pairs. unfold index_facts. apply index_distinct; [by apply fact_pairs_wf|].
  intros i f (n & key & v & _ & _ & -> & ->)%fact_pairs_elem. split; [reflexivity|apply fact_name_nonempty].
Qed.
(** ** The prepared answer *)

Definition prepared_claim (claim : string) (ids : list string) : AnswerClaim :=
  {| claim_id := "server-prepared-route-evidence"; claim_type := claim; fact_ids := ids; explanation := None |}.

Lemma route_claim claim : claim ∈ ["flow_route"; "endpoint_route"] → claim = "flow_route" ∨ claim = "endpoint_route".
Proof. by rewrite elem_of_cons, list_elem_of_singleton. Qed.

Lemma texts_of l : mapM (λ x, match x with JStr s => Some s | _ => None end) (map JStr l) = Some l.
Proof. induction l as [|s l IH]; [done|]. cbn. by rewrite IH. Qed.

Lemma fallback_read claim ids : claim ∈ ["flow_route"; "endpoint_route"] → (length ids ≤ 64)%nat →
  ∃ a, model_validate (JObj (fallback_answer claim (map JStr ids))) = Some a ∧ answer_type a = operational ∧ claims a = [prepared_claim claim ids].
Proof.
  intros Hc Hlen. assert (Ht : texts_within 64 (Some (JList (map JStr ids))) = Some ids).
  { cbn. rewrite length_map, (proj2 (Nat.leb_le _ _) Hlen). apply texts_of. }
  assert (Hr : read_claim (JObj [("claim_id", JStr "server-prepared-route-evidence"); ("claim_type", JStr claim); ("fact_ids", JList (map JStr ids));
    ("explanation", JNull)]) = Some (prepared_claim claim ids)).
  { unfold read_claim. change (dget _ "fact_ids") with (Some (JList (map JStr ids))). rewrite Ht.
    destruct (route_claim _ Hc) as [-> | ->]; reflexivity. }
  eexists. unfold model_validate, fallback_answer. change (dget _ "claims") with (Some (JList [JObj [("claim_id", JStr "server-prepared-route-evidence");
    ("claim_type", JStr claim); ("fact_ids", JList (map JStr ids)); ("explanation", JNull)]])). cbn [length Nat.leb mapM]. rewrite Hr. by split.
Qed.

Lemma complete_claim_accepted known c kind i f : kind ≠ conceptual → claim_type c ∈ COMPLETE → dict_wf known → (i, f) ∈ known →
  kind_in f (compatible_with (claim_type c)) = true → (check_claim known kind c).2 = None.
Proof.
  intros Hk Hc Hwf Hif Hf. unfold check_claim. rewrite bool_decide_false by done. cbv zeta. cbn [claim_type with_fact_ids claim_id].
  assert (E : claimed_ids known c = map fst (List.filter (λ p, kind_in p.2 (compatible_with (claim_type c))) known)).
  { unfold claimed_ids. by rewrite (proj2 (inb_true _ _) Hc). }
  assert (Hin : ∀ x, x ∈ claimed_ids known c → ∃ g, dget known x = Some g ∧ kind_in g (compatible_with (claim_type c)) = true).
  { intros x. rewrite E. intros ([y g] & -> & Hg)%elem_of_map. apply filter_elem in Hg as [Hg Hk']. exists g.
    split; [by apply dget_wf_In|exact Hk']. }
  rewrite bool_decide_false; [|intros En; assert (Hx : i ∈ claimed_ids known c); [|rewrite En in Hx; by apply elem_of_nil in Hx];
    rewrite E; apply elem_of_map; exists (i, f); split; [done|by apply filter_elem]].
  assert (forallb (dmem known) (claimed_ids known c) = true) as ->.
  { apply forallb_forall. intros x Hx%list_elem_of_In. destruct (Hin x Hx) as (g & Hg & _). unfold dmem. by rewrite Hg. }
  cbn [negb]. assert (forallb (λ i, match dget known i with Some f => kind_in f (compatible_with (claim_type c)) | None => false end)
    (claimed_ids known c) = true) as ->; [|done].
  apply forallb_forall. intros x Hx%list_elem_of_In. destruct (Hin x Hx) as (g & -> & Hg). exact Hg.
Qed.

Lemma fallback_valid claim ids collected known i f : claim ∈ ["flow_route"; "endpoint_route"] → (length ids ≤ 64)%nat →
  index_facts collected = Ok known → dict_wf known → (i, f) ∈ known → kind_in f (compatible_with claim) = true →
  ∃ v, validate (JObj (fallback_answer claim (map JStr ids))) collected = Ok v ∧ valid v = true.
Proof.
  intros Hc Hlen Hk Hwf Hif Hf. destruct (fallback_read claim ids Hc Hlen) as (a & Ha & Ht & Hcl). unfold validate. rewrite Ha, Hk.
  cbn [mbind result_bind]. eexists. split; [done|]. cbn [valid]. rewrite Ht, Hcl. cbn [map].
  assert (Hcomp : claim ∈ COMPLETE) by (destruct (route_claim _ Hc) as [-> | ->]; apply inb_true; reflexivity).
  destruct (check_claim known operational (prepared_claim claim ids)) as [c' p] eqn:E.
  assert (p = None) as ->.
  { change p with ((c', p).2). rewrite <- E. by apply (complete_claim_accepted known (prepared_claim claim ids) operational i f). }
  rewrite (bool_decide_false (known = [])) by (intros ->; by apply elem_of_nil in Hif). apply bool_decide_eq_true. cbn. by rewrite andb_false_r.
Qed.

Context (dumps_sorted : json → string).

(** What prepared evidence offers: its facts, which can be shown, and an answer
    they support. *)
Definition sound_evidence (p : PreparedEvidence) : Prop :=
  ∃ q v, extended_payload empty_payload (pr_tool p) (pr_arguments p) (pr_result p) = Ok q ∧
    AuditStore.facts q = document_items (pr_result p) "facts" ∧ unknowns q = [] ∧ (∀ f, f ∈ AuditStore.facts q → renderable dumps_sorted f) ∧
    validate (JObj (pr_fallback p)) (AuditStore.facts q) = Ok v ∧ valid v = true.

Lemma fact_ids_texts l ids : (∀ f, f ∈ l → ∃ i, fact_id_of f = Ok (JStr i)) → mapM_result fact_id_of l = Ok ids →
  ∃ names, ids = map JStr names ∧ length names = length l.
Proof.
  revert ids. induction l as [|f l IH]; intros ids Hl Hids; [apply Ok_inj in Hids as <-; by exists []|]. cbn in Hids.
  destruct (Hl f (list_elem_of_here _ _)) as [i Hi]. rewrite Hi in Hids. cbn in Hids. apply bind_Ok in Hids as (ys & Hys & Hids).
  apply Ok_inj in Hids as <-. destruct (IH ys) as (names & -> & Hlen); [intros g Hg; apply Hl; by constructor|done|].
  exists (i :: names). split; [done|]. cbn. by rewrite Hlen.
Qed.

Lemma fact_pairs_length request state observed payload : ∀ k, (length (fact_pairs request state observed k payload) ≤ length payload)%nat.
Proof.
  induction payload as [|x l IH]; intros k; [done|]. unfold fact_pairs. cbn [enumerate flat_map]. rewrite length_app. specialize (IH (S k)).
  unfold fact_pairs in IH. destruct (inb _ _); cbn [length]; lia.
Qed.

Lemma filter_length_le {A} (f : A → bool) l : (length (List.filter f l) ≤ length l)%nat.
Proof. induction l as [|x l IH]; [done|]. cbn. destruct (f x); cbn; lia. Qed.

Lemma enumerate_has {A} (l : list A) x : x ∈ l → ∀ k, ∃ n, (n, x) ∈ enumerate k l.
Proof.
  induction 1 as [x l|x y l _ IH]; intros k; [exists k; constructor|]. destruct (IH (S k)) as [n Hn]. exists n. by constructor.
Qed.

Lemma evidence_sound request now tool source destination claim state source_type kinds payload p :
  claim ∈ ["flow_route"; "endpoint_route"] → answerable payload → (∀ key v, (key, v) ∈ payload → is_ok (render_value dumps_sorted key v) = true) →
  evidence_of request now tool source destination claim state source_type kinds payload = Ok (Some p) → sound_evidence p.
Proof.
  intros Hc [_ Hsmall Hsource] Hshow Hp. unfold evidence_of in Hp. destruct (document_available payload); [|done]. cbn [negb] in Hp. cbv zeta in Hp.
  set (observed := if inb source_type LIVE_SOURCES then JStr now else JNull).
  set (fs := payload_facts request state observed payload).
  change (document_items (result_from_payload _ _ _ _ _ _ _) "facts") with fs in Hp. apply bind_Ok in Hp as (ids & Hids & Hp).
  apply Ok_inj in Hp. injection Hp as <-. assert (Hpairs : fs = map snd (fact_pairs request state observed 0 payload)) by apply payload_facts_pairs.
  apply fact_ids_texts in Hids as (names & -> & Hlen).
  2:{ intros f [Hf _]%filter_elem. rewrite Hpairs in Hf. apply elem_of_map in Hf as ([i g] & -> & Hf).
      apply fact_pairs_elem in Hf as (n & key & v & _ & _ & _ & ->). by eexists. }
  unfold dkeys in Hsource. apply elem_of_map in Hsource as ([key v] & E & Hv). cbn in E. subst key.
  destruct (enumerate_has _ _ Hv 0%nat) as [n Hn].
  destruct (fallback_valid claim names fs (fact_pairs request state observed 0 payload) (fact_name request n)
    (fact_document (fact_name request n) "source" state (request +:+ ":source") observed v)) as (w & Hw & Hok); try done.
  - rewrite Hlen. etrans; [apply filter_length_le|]. rewrite Hpairs, length_map. etrans; [apply fact_pairs_length|done].
  - by apply payload_index.
  - by apply fact_pairs_wf.
  - apply fact_pairs_elem. by exists n, "source", v.
  - by destruct (route_claim _ Hc) as [-> | ->].
  - eexists _, w. split; [reflexivity|]. split; [reflexivity|]. split; [reflexivity|]. split; [|by split]. intros f Hf.
    change (f ∈ fs) in Hf. rewrite Hpairs in Hf. apply elem_of_map in Hf as ([i g] & -> & Hf).
    apply fact_pairs_elem in Hf as (m & key & x & Hm & _ & _ & ->). apply enumerate_elem in Hm as [_ Hm]. exact (Hshow key x Hm).
Qed.

(** The documents of the two lookups can be shown. *)
Lemma candidate_rendered x : is_ok (candidate_row (candidate_document x)) = true.
Proof. reflexivity. Qed.

Lemma candidates_document_rendered cs : is_ok (policy_candidates_table dumps_sorted (JList (map candidate_document cs))) = true.
Proof. apply candidates_rendered. intros y (x & -> & _)%elem_of_map. apply candidate_rendered. Qed.

Lemma endpoint_route_rendered r key v : (key, v) ∈ endpoint_route_document r → is_ok (render_value dumps_sorted key v) = true.
Proof.
  intros Hin. destruct (decide (key ∈ TABLE_KINDS)) as [Hk|Hk]; [|by apply plain_kind_rendered].
  assert (Hc : key = "policy_candidates" ∧ ∃ cs, v = JList (map candidate_document cs)).
  { destruct r as [m s d| |s d m|s d m h rep [cs|]]; cbn [endpoint_route_document app] in Hin; rewrite ?elem_of_cons in Hin;
      repeat (destruct Hin as [[= -> ->]|Hin]; [first [by split; [|eexists]|exfalso; apply inb_true in Hk; discriminate Hk]|]);
      by apply elem_of_nil in Hin. }
  destruct Hc as [-> [cs ->]]. unfold render_value. cbn [String.eqb Ascii.eqb Bool.eqb]. pose proof (candidates_document_rendered cs) as Hr.
  by destruct (policy_candidates_table _ _).
Qed.

Lemma flow_rendered f key v : (key, v) ∈ flow_document f → is_ok (render_value dumps_sorted key v) = true.
Proof.
  intros Hin. destruct (decide (key ∈ TABLE_KINDS)) as [Hk|Hk]; [|by apply plain_kind_rendered].
  assert (Hc : (∃ e, key = "configured_path_candidates" ∧ v = expected_document e) ∨
    ∃ d cs, key = "observed_mark_policy" ∧ v = JObj d ∧ value_at d "matching_route_candidates" = JList (map candidate_document cs)).
  { destruct f as [r|s d ms e [rep|] [[[m rule] cs]|]]; cbn [flow_document app] in Hin; rewrite ?elem_of_cons in Hin;
      repeat (destruct Hin as [[= -> ->]|Hin];
        [first [by left; eexists|by right; eexists _, cs; split_and!|exfalso; apply inb_true in Hk; discriminate Hk]|]);
      by apply elem_of_nil in Hin. }
  destruct Hc as [(e & -> & ->)|(d & cs & -> & -> & E)].
  - destruct e as [r|s d ps]; [done|]. unfold render_value. cbn [String.eqb Ascii.eqb Bool.eqb expected_document]. apply paths_rendered.
    intros l <-. by eexists.
  - unfold render_value. cbn [String.eqb Ascii.eqb Bool.eqb]. unfold mark_policy. rewrite E. pose proof (candidates_document_rendered cs) as Hr.
    by destruct (policy_candidates_table _ _).
Qed.

Theorem prepared_sound set_order docker loads c request now prompt p :
  prepare_route_evidence set_order docker loads c request now prompt = Ok (Some p) → sound_evidence p.
Proof.
  unfold prepare_route_evidence. cbv zeta. destruct (negb _); [done|]. intros Hp. apply bind_Ok in Hp as (ms & _ & Hp).
  destruct (distinct [] (map mn_name ms)) as [|s [|d [|? ?]]]; try done.
  destruct (contains "observed" _ || _ || _); apply bind_Ok in Hp as (r & _ & Hp).
  - eapply evidence_sound; [| | |exact Hp]; [by apply inb_true| |apply flow_rendered]. apply flow_answerable. unfold evidence_of in Hp. by destruct (document_available _).
  - eapply evidence_sound; [| | |exact Hp]; [by apply inb_true| |apply endpoint_route_rendered]. apply endpoint_route_answerable. unfold evidence_of in Hp. by destruct (document_available _).
Qed.
End facts.

(** ** The turn of a prepared answer *)

Definition queue_of (c : Chat) (session : Z) : list (string * json) := default [] (dget (event_queues c) session).

Definition with_event (session : Z) (kind : string) (data : json) (c : Chat) : Chat :=
  {| chat_store := chat_store c; event_queues := dset (event_queues c) session (queue_of c session ++ [(kind, data)]); active_tasks := active_tasks c |}.
Definition with_store (s : Store) (c : Chat) : Chat := {| chat_store := s; event_queues := event_queues c; active_tasks := active_tasks c |}.

Lemma queue_with_event session kind data c : queue_of (with_event session kind data c) session = queue_of c session ++ [(kind, data)].
Proof. unfold queue_of, with_event. cbn [event_queues]. by rewrite dget_dset_eq. Qed.

Lemma queue_with_store s c session : queue_of (with_store s c) session = queue_of c session.
Proof. reflexivity. Qed.

Lemma event_bind {B} session kind data (k : unit → M Chat B) c : (put_event session kind data ≫= k) c = k tt (with_event session kind data c).
Proof. reflexivity. Qed.

Lemma store_bind {A B} (m : M Store A) (k : A → M Chat B) c x s : m (chat_store c) = (Ok x, s) → (in_store m ≫= k) c = k x (with_store s c).
Proof. intros Hm. unfold in_store, mbind, M_bind. by rewrite Hm. Qed.

Section turn.
Context `{PyRepr}.

Definition holds_bundle (t : Task) (r : BundleRow) (s : Store) : Prop := evidence_bundle (tk_bundle t) (tk_session t) (tk_actor t) s = Some r.

Lemma holds_bundle_found t r s : holds_bundle t r s ↔
  find (is_bundle (tk_bundle t)) (bundles s) = Some r ∧ bn_session r = tk_session t ∧ bn_actor r = tk_actor t.
Proof.
  unfold holds_bundle, evidence_bundle. destruct (find _ _) as [x|]; [|by split; [|intros [? _]]]. split.
  - destruct ((bn_session x =? tk_session t) && same_text (bn_actor x) (tk_actor t)) eqn:E; [|done]. intros [= <-].
    by apply andb_true_iff in E as [?%Z.eqb_eq ?%String.eqb_eq].
  - intros ([= <-] & -> & ->). rewrite Z.eqb_refl. unfold same_text. by rewrite String.eqb_refl.
Qed.

(** The row of a bundle is changed in place. *)
Lemma holds_bundle_updated t r s f : (∀ x, (bn_id (f x), bn_session (f x), bn_actor (f x)) = (bn_id x, bn_session x, bn_actor x)) →
  holds_bundle t r s → holds_bundle t (f r) (set_bundles s (update_rows (is_bundle (tk_bundle t)) f (bundles s))).
Proof.
  intros Hf. rewrite !holds_bundle_found. intros (Hr & Hs & Ha). cbn [bundles set_bundles]. pose proof (Hf r) as [= Hid Hs' Ha'].
  split_and!; [|congruence|congruence]. rewrite find_updated by (intros x; pose proof (Hf x) as [= E _ _]; unfold is_bundle; by rewrite E).
  rewrite Hr. cbn. apply find_some in Hr as [_ ->]. done.
Qed.

Lemma append_runs t r s tool arguments reply q : holds_bundle t r s → bn_finalized r = 0 →
  extended_payload (bn_payload r) tool arguments reply = Ok q →
  append_evidence_tool (tk_bundle t) tool arguments reply s =
    (Ok tt, set_bundles s (update_rows (is_bundle (tk_bundle t)) (with_payload q) (bundles s))).
Proof.
  rewrite holds_bundle_found. intros (Hr & _) Hf Hq. unfold append_evidence_tool, transaction, append_read, query, execute, mbind, M_bind, get, mret, M_ret.
  rewrite Hr, Hf. cbn [negb Z.eqb]. unfold lift. by rewrite Hq.
Qed.

Lemma finalize_runs t r s v : holds_bundle t r s → bn_finalized r = 0 →
  finalize_evidence_bundle (tk_bundle t) (tk_session t) (tk_actor t) v s =
    (Ok true, set_bundles s (update_rows (is_bundle (tk_bundle t)) (with_validation v) (bundles s))).
Proof.
  rewrite holds_bundle_found. intros (Hr & Hs & Ha) Hf. unfold finalize_evidence_bundle, transaction, query, execute, mbind, M_bind, get, mret, M_ret.
  rewrite Hr, Hf, Hs, Ha, Z.eqb_refl. unfold same_text. by rewrite String.eqb_refl.
Qed.

(** A message that is accepted leaves a fresh bundle for its task. *)
Lemma posted_bundle now session actor text bundle c m c' : post_message now session actor text bundle c = (Ok m, c') →
  ∃ r, holds_bundle {| tk_session := session; tk_bundle := bundle; tk_actor := actor |} r (chat_store c') ∧
    bn_finalized r = 0 ∧ bn_payload r = empty_payload.
Proof.
  unfold post_message, own. intros Hp. apply M_bind_ok in Hp as ([] & c0 & Hown & Hp). apply M_bind_ok in Hp as (c0' & c0'' & Hg & Hp).
  injection Hg as <- <-. apply M_bind_ok in Hp as ([] & c1 & H1 & Hp). cbv zeta in Hp. apply M_bind_ok in Hp as ([] & c2 & H2 & Hp).
  apply M_bind_ok in Hp as (m' & c3 & H3 & Hp). apply M_bind_ok in Hp as ([] & c4 & H4 & Hp). apply M_bind_ok in Hp as (c4' & c4'' & Hg & Hp).
  injection Hg as <- <-. injection Hp as _ <-. cbn [chat_store]. unfold in_store in H4.
  destruct (create_evidence_bundle now bundle session m' actor (chat_store c3)) as [o s] eqn:E. injection H4 as -> <-. cbn [chat_store].
  unfold create_evidence_bundle in E. rewrite transaction_ok in E. unfold execute_checked, mbind, M_bind, get, lift, put in E.
  destruct (insert_row _ _ _) as [rows|e] eqn:Ei; [|done]. injection E as <-. apply insert_row_ok in Ei as [-> Hc].
  match type of Hc with ∀ r, _ → bundle_clash ?x r = false => exists x end. rewrite holds_bundle_found. cbn [bundles set_bundles tk_bundle tk_session tk_actor]. split_and!; try done.
  clear -Hc. induction (bundles (chat_store c3)) as [|r rows IH]; cbn [app find is_bundle bn_id].
  - unfold is_bundle, same_text. cbn. by rewrite String.eqb_refl.
  - assert (is_bundle bundle r = false) as ->; [|apply IH; intros x Hx; apply Hc; by constructor].
    specialize (Hc r (list_elem_of_here _ _)). unfold bundle_clash, is_bundle, same_text in *. cbn in Hc. rewrite String.eqb_sym. exact Hc.
Qed.

Lemma outcome_valid loads r p text v0 : validate (JObj (pr_fallback p)) (AuditStore.facts (bn_payload r)) = Ok v0 → valid v0 = true →
  ∃ a v, outcome_of loads (Some r) (Some p) text = Ok v ∧ validate a (AuditStore.facts (bn_payload r)) = Ok v ∧ valid v = true.
Proof.
  intros Hv0 Hok. destruct (valid_checked _ _ _ Hv0 Hok) as (_ & known & _ & Hk & _).
  assert (Ht : ∃ v, validate (parsed_answer loads text) (AuditStore.facts (bn_payload r)) = Ok v).
  { unfold validate. destruct (model_validate _); [rewrite Hk|]; by eexists. }
  destruct Ht as [v Hv]. unfold outcome_of. cbn [bundle_facts]. rewrite Hv. cbn [mbind result_bind].
  destruct (valid v) eqn:E; [by exists (parsed_answer loads text), v|by exists (JObj (pr_fallback p)), v0].
Qed.

Context (later : string) (loads : string → result json) (dumps dumps_sorted : json → string) (show_outcome : Validation → json).

(** What is left once an answer is delivered. *)
Record delivered (t : Task) (r : BundleRow) (answer : string) (v : Validation) (c c' : Chat) : Prop := {
  de_bundle : holds_bundle t (with_validation (show_outcome v) r) (chat_store c');
  de_message : ms_session <$> last (messages_of_chat (chat_store c')) = Some (tk_session t) ∧
               ms_actor <$> last (messages_of_chat (chat_store c')) = Some "management" ∧
               ms_content <$> last (messages_of_chat (chat_store c')) = Some (clipped 4000 answer);
  de_events : ∃ before, queue_of c' (tk_session t) =
    queue_of c (tk_session t) ++ before ++ [("verified_answer", JObj [("bundle_id", JStr (tk_bundle t)); ("markdown", JStr answer)])];
  de_task : active_tasks c' = active_tasks c
}.

Lemma validate_final_delivers t r v answer c : holds_bundle t r (chat_store c) → bn_finalized r = 0 →
  ∃ c', validate_final later t (show_outcome v) (Some answer) c = (Ok tt, c') ∧ delivered t r answer v c c'.
Proof.
  intros Hr Hf. unfold validate_final. cbv zeta. rewrite event_bind.
  set (c1 := with_event _ _ _ c). assert (Hr1 : holds_bundle t r (chat_store c1)) by exact Hr.
  change ((get ≫= ?k) c1) with (k c1 c1). cbv beta. rewrite (store_bind _ _ _ _ _ (finalize_runs t r _ (show_outcome v) Hr1 Hf)).
  rewrite Hr1. cbv beta iota. rewrite (store_bind (add_message later (tk_session t) "management" answer) _ _ _ _ eq_refl), !event_bind.
  match goal with |- ∃ c', in_store ?m ?cc = _ ∧ _ => exists (with_store ((m (chat_store cc)).2) cc) end. split; [reflexivity|].
  split.
  - apply (holds_bundle_updated t r _ (with_validation (show_outcome v))) in Hr1; [|done]. exact Hr1.
  - match goal with |- context [last ?l] => assert (El : ∃ l0 x, l = l0 ++ [x] ∧ ms_session x = tk_session t ∧ ms_actor x = "management" ∧
      ms_content x = clipped 4000 answer) by (do 2 eexists; split; [reflexivity|by split_and!]) end.
    destruct El as (l0 & x & -> & Hx1 & Hx2 & Hx3). rewrite last_snoc. cbn. by rewrite Hx1, Hx2, Hx3.
  - rewrite !queue_with_store, !queue_with_event, !queue_with_store. subst c1. rewrite queue_with_event. eexists [_; _]. by rewrite <- !app_assoc.
  - reflexivity.
Qed.

(** The answer that is delivered, and what it rests on. *)
Definition answered (t : Task) (r : BundleRow) (c c' : Chat) : Prop :=
  ∃ a v text, validate a (AuditStore.facts (bn_payload r)) = Ok v ∧ valid v = true ∧ render_verified_answer dumps_sorted v r = Ok text ∧
    delivered t r text v c c'.

Lemma conclude_answers t p text r v0 c : holds_bundle t r (chat_store c) → bn_finalized r = 0 →
  unknowns (bn_payload r) = [] → (∀ f, f ∈ AuditStore.facts (bn_payload r) → renderable dumps_sorted f) →
  validate (JObj (pr_fallback p)) (AuditStore.facts (bn_payload r)) = Ok v0 → valid v0 = true →
  ∃ c', conclude later loads dumps_sorted show_outcome t (Some p) text c = (Ok tt, c') ∧ answered t r c c'.
Proof.
  intros Hr Hf Hu Hshow Hv0 Hok0. destruct (outcome_valid loads r p text v0 Hv0 Hok0) as (a & v & Ho & Hv & Hok).
  destruct (valid_answer_rendered dumps_sorted a v r Hv Hok Hshow Hu) as [answer Hc].
  destruct (validate_final_delivers t r v answer c Hr Hf) as (c' & Hrun & Hd).
  exists c'. split; [|by exists a, v, answer]. unfold conclude. change ((get ≫= ?k) c) with (k c c). cbv beta zeta. rewrite Hr, Ho.
  unfold rendered_answer. rewrite Hok, Hc. exact Hrun.
Qed.

Lemma prepared_turn t p r c attempts : holds_bundle t r (chat_store c) → bn_finalized r = 0 → bn_payload r = empty_payload → sound_evidence dumps_sorted p →
  ∃ q c', execute_turn later loads dumps dumps_sorted show_outcome t (Ok (Some p)) attempts c = (Ok tt, c') ∧
    AuditStore.facts (bn_payload q) = document_items (pr_result p) "facts" ∧ bn_finalized q = 0 ∧
    (∃ c1, answered t q c c1 ∧ chat_store c' = chat_store c1 ∧
      queue_of c' (tk_session t) = queue_of c1 (tk_session t) ++ [("stream_closed", JObj [])]) ∧
    dget (active_tasks c') (tk_session t) = None.
Proof.
  intros Hr Hf Hp (pl & v0 & Hq & Hfs & Hu & Hshow & Hv0 & Hok0). rewrite <- Hp in Hq.
  unfold execute_turn, ends_task. change ((lift (Ok ?x) ≫= ?k) c) with (k x c). cbv beta iota. unfold execute_prepared.
  rewrite (store_bind _ _ _ _ _ (append_runs t r _ _ _ _ pl Hr Hf Hq)). unfold say. rewrite !event_bind.
  match goal with |- context [(conclude _ _ _ _ _ _ _ ≫= _) ?cc] => set (c0 := cc) end.
  destruct (conclude_answers t p (dumps (JObj (pr_fallback p))) (with_payload pl r) v0 c0) as (c1 & Hrun & Ha); try done.
  { apply (holds_bundle_updated t r _ (with_payload pl)) in Hr; [|done]. exact Hr. }
  unfold mbind, M_bind. rewrite Hrun. eexists (with_payload pl r), _. split; [reflexivity|]. split; [exact Hfs|]. split; [exact Hf|].
  split; [|cbn [active_tasks]; by rewrite dget_ddel_eq]. exists c1. split; [|split; [reflexivity|apply queue_with_event]].
  destruct Ha as (a & v & answer & Hv & Hok & Hc & [Hb Hm [before He] Ht]). exists a, v, answer. split_and!; try done. split; try done.
  exists (drop (length (queue_of c (tk_session t))) (queue_of c0 (tk_session t)) ++ before). rewrite He. unfold c0.
  rewrite !queue_with_event, queue_with_store, <- !app_assoc, drop_app_length. done.
Qed.

End turn.

(** ** Examples *)

Module Examples.
#[export] Instance sample_repr : PyRepr := {| repr_float := λ _, "0.0"; repr_container := λ _, "{}" |}.

(** A quiet kernel, and a JSON library that reads nothing else. *)
Definition quiet_docker (_ : string) (_ : list string) : Exec := Finished 0 "[]" "".
Definition reads_empty (s : string) : result json := if String.eqb s "[]" then Ok (JList []) else raise ValueError "no JSON".
Definition shown (v : Validation) : json := JBool (valid v).
Definition quiet : Chat := {| chat_store := (create_session "t0" "alice" empty_store).2; event_queues := []; active_tasks := [] |}.
Definition question : string := " Which path does node1_host take to the data-center? ".

Definition prepared (prompt : string) : result (option PreparedEvidence) :=
  prepare_route_evidence (λ l, l) quiet_docker reads_empty core_config "q1" "t2" prompt.

(** The two ends are found under their longest names. *)
Lemma question_mentions : map mn_name <$> endpoint_mentions (λ l, l) core_config question = Ok ["node1_host"; "dc_app"].
Proof. vm_compute. reflexivity. Qed.

(** A prompt that names a host by its site is accepted as a message, but its
    task raises before its first event: nothing is answered, and the reader of
    the stream is never told that it ended. *)
Definition natural_question : string := "show the route from the host of site1 to the dc".

Lemma natural_question_unanswered :
  let '(posted, c1) := post_message "t1" 1 "alice" natural_question "b1" quiet in
  let task := {| tk_session := 1; tk_bundle := "b1"; tk_actor := "alice" |} in
  let '(reply, c2) := execute_turn "t2" reads_empty (λ _, "") (λ _, "") shown task (prepared natural_question) (Ok ["unused"]) c1 in
  is_ok posted = true ∧ reply = raise IndexError "no such group" ∧ queue_of c2 1 = [] ∧ dget (active_tasks c2) 1 = None.
Proof. vm_compute. by split_and!. Qed.
End Examples.

