(* ===== verification/ManagementApi.v ===== *)
(** * Administration over HTTP ([management/service.py], [management/admin_api.py],
      the middleware and guards of [management/app.py])

    The writing operations of the management service, the routes that call them,
    and what each request leaves in the audit trail.  Requests run one at a time;
    a body comes as its typed fields, [None] where a field has another type or
    an unknown one is present.  An exception no route catches passes the
    middleware before it records anything. *)
From S2P Require Import Prelude Net Marks PathSelection Model Json Inventory Sql PolicyStore DynamicInventory IntentCompiler PolicyService ZtpStore Lifecycle.
From S2P Require Import ManagementAuth AuditStore.
Local Open Scope string_scope.
Local Open Scope list_scope.
Local Open Scope Z_scope.

(** ** The service *)

(** The policy service and the provisioning database, the audit store, the
    topology the queries read, and how often the audit clock was read. *)
Record Server := { sv_world : World; sv_audit : Store; sv_topology : TopologyConfig; sv_ticks : nat }.

Definition at_world {A} (m : M World A) : M Server A := λ s,
  let '(r, w) := m (sv_world s) in (r, {| sv_world := w; sv_audit := sv_audit s; sv_topology := sv_topology s; sv_ticks := sv_ticks s |}).

(** [self.topology = self.policy.config] *)
Definition refresh_topology : M Server unit := λ s,
  (Ok tt, {| sv_world := sv_world s; sv_audit := sv_audit s; sv_topology := config (policy (sv_world s)); sv_ticks := sv_ticks s |}).

(** ** Requests *)

Record SiteRequest := { sr_site : string; sr_role : string; sr_device : option string; sr_preferred : string; sr_standby : string }.
Record IntentRequest := { ir_id : string; ir_type : string; ir_target : string; ir_contents : dict string json }.

Definition length_within (lo hi : nat) (s : string) : bool := (lo <=? String.length s)%nat && (String.length s <=? hi)%nat.

Definition site_request_ok (r : SiteRequest) : bool :=
  length_within 1 32 (sr_site r) && String.eqb (sr_role r) "spoke" &&
  match sr_device r with Some d => length_within 0 128 d | None => true end.
Definition intent_request_ok (r : IntentRequest) : bool := length_within 1 128 (ir_id r) && length_within 1 128 (ir_target r).

Inductive Request :=
  | PostSite (body : option SiteRequest)
  | DeleteSite (site : string)
  | GetOperation (id : string)
  | GetIntents
  | PostIntent (query : option string) (body : option IntentRequest)
  | PutIntent (id : string) (body : option IntentRequest)
  | DeleteIntent (id : string).

(** The path, and the scope [require] is given. *)
Definition path_of (r : Request) : string :=
  match r with
  | PostSite _ => "/api/v1/sites"
  | DeleteSite site => "/api/v1/sites/" +:+ site
  | GetOperation id => "/api/v1/operations/" +:+ id
  | GetIntents | PostIntent _ _ => "/api/v1/intents"
  | PutIntent id _ | DeleteIntent id => "/api/v1/intents/" +:+ id
  end.
Definition scope_of (r : Request) : string :=
  match r with
  | PostSite _ | DeleteSite _ => "site:write"
  | GetOperation _ => "site:read"
  | GetIntents => "policy:read"
  | PostIntent _ _ | PutIntent _ _ | DeleteIntent _ => "policy:write"
  end.

Inductive Body :=
  | SiteReply (r : reply)
  | OperationReply (o : OperationRow)
  | IntentItems (l : list IntentRow)
  | IntentReply (id : string) (changed : bool) (c : compilation)
  | IntentDeleted (id : string)
  | ErrorDetail (detail : string).

(** The status and the body; [Err] is an exception no handler catches. *)
Definition Answer : Type := Z * Body.

Section server.
Context `{PyRepr} (sha256 : dict string json → string).
Context (input_digest : list InventorySite → list IntentRow → list InputRow → string) (clock : nat → string) (base : TopologyConfig).
Context (pbkdf2 : string → string → string) (ztp_clock : nat → Z) (uuid_hex secret_of salt_of : nat → string).
Context `{LabRuntime} (bootstrap_ca : option string) (ztp_url policy_url management_host : string).
(** The readings of the audit store's clock, and the identifiers of requests. *)
Context (audit_clock request_id : nat → string).

Definition audited (actor action target outcome : string) (detail : nat → string) : M Server unit := λ s,
  let '(r, a) := add (audit_clock (sv_ticks s)) actor action target outcome (detail (sv_ticks s)) (sv_audit s) in
  (r, {| sv_world := sv_world s; sv_audit := a; sv_topology := sv_topology s; sv_ticks := S (sv_ticks s) |}).
Definition note (actor action target outcome : string) : M Server unit := audited actor action target outcome (λ _, "").

(** [result.get("state", "UNKNOWN")] *)
Definition state_text (r : reply) : string := py_str (default (JStr "UNKNOWN") (dget r "state")).

Definition service_create_site (site device_id preferred standby actor : string) : M Server reply :=
  r ← at_world (create sha256 input_digest clock base pbkdf2 ztp_clock uuid_hex secret_of salt_of bootstrap_ca ztp_url policy_url
                       management_host site device_id preferred standby actor);
  _ ← refresh_topology; _ ← note actor "CREATE_SITE" site (state_text r); mret r.

Definition service_delete_site (site actor : string) : M Server reply :=
  r ← at_world (delete sha256 input_digest clock base ztp_clock uuid_hex site actor);
  _ ← refresh_topology; _ ← note actor "DELETE_SITE" site (state_text r); mret r.

Definition in_policy {A} (m : M Service A) : M Server A := at_world (at_policy m).
Definition compile_state (actor : string) : M Server compilation :=
  in_policy (PolicyService.compile_control_state sha256 input_digest clock base actor).

Definition service_operation (id : string) : M Server (option OperationRow) := in_policy (ask (operation id)).
Definition service_inventory : M Server (list InventorySite) := in_policy (ask (list_sites true)).
Definition administrative_intents : M Server (list IntentRow) := in_policy (ask intents).
Definition network_state_inputs : M Server (list InputRow) := in_policy (ask network_state).

Definition service_delete_intent (id actor : string) : M Server bool :=
  changed ← in_policy (on_db clock (λ now, delete_intent now id actor));
  _ ← (if changed : bool then _ ← compile_state actor; _ ← refresh_topology; note actor "DELETE_INTENT" id "ok" else mret tt);
  mret changed.

Definition change_text (changed : bool) : string := if changed then "changed" else "idempotent".

Definition service_upsert_intent (id intent_type target : string) (contents : dict string json) (actor : string)
    : M Server (bool * compilation) :=
  changed ← in_policy (on_db clock (λ now, upsert_intent sha256 now id intent_type target contents actor));
  c ← compile_state actor;
  _ ← refresh_topology; _ ← note actor "UPSERT_INTENT" id (change_text changed); mret (changed, c).

Definition service_put_network_state (key : string) (value : dict string json) (source actor : string)
    : M Server (bool * option compilation) :=
  changed ← in_policy (on_db clock (λ now, put_network_state sha256 now key value source));
  c ← (if changed : bool then c ← compile_state actor; mret (Some c) else mret None);
  _ ← refresh_topology; _ ← note actor "NETWORK_STATE" key (change_text changed); mret (changed, c).

Definition service_compile (actor : string) : M Server compilation := c ← compile_state actor; _ ← refresh_topology; mret c.

(** ** The routes *)

(** [except InventoryError as exc: raise HTTPException(...)] *)
Definition on_inventory_error (status : exn → Z) (m : M Server Answer) : M Server Answer := λ s,
  match m s with
  | (Err e, s') => if bool_decide (exn_cls e = InventoryError) then (Ok (status e, ErrorDetail (exn_msg e)), s') else (Err e, s')
  | r => r
  end.
(** [_error] *)
Definition site_error (e : exn) : Z := if String.eqb (exn_msg e) "unknown site" then 404 else 409.

Definition invalid : M Server Answer := mret (422, ErrorDetail "validation error").

(** [upsert_intent], for both methods: the identifier of a POST is a query
    parameter that may be left out. *)
Definition route_upsert (id : option string) (r : IntentRequest) (actor : string) : M Server Answer :=
  if negb (intent_request_ok r) then invalid
  else if match id with Some i => negb (String.eqb i (ir_id r)) | None => false end then mret (422, ErrorDetail "intent_id path and body must match")
  else on_inventory_error (λ _, 422) (
    p ← service_upsert_intent (ir_id r) (ir_type r) (ir_target r) (ir_contents r) actor; mret (202, IntentReply (ir_id r) p.1 p.2)).

Definition route (p : Principal) (req : Request) : M Server Answer :=
  match req with
  | PostSite (Some r) =>
      if site_request_ok r then
        on_inventory_error site_error (
          x ← service_create_site (sr_site r) (match sr_device r with Some d => if nonempty d then d else sr_site r +:+ "-edge" | None => sr_site r +:+ "-edge" end)
                (sr_preferred r) (sr_standby r) (subject p);
          mret (202, SiteReply x))
      else invalid
  | DeleteSite site => on_inventory_error site_error (x ← service_delete_site site (subject p); mret (202, SiteReply x))
  | GetOperation id =>
      o ← service_operation id; mret (match o with Some o => (200, OperationReply o) | None => (404, ErrorDetail "operation not found") end)
  | GetIntents => l ← administrative_intents; mret (200, IntentItems l)
  | PostIntent id (Some r) => route_upsert id r (subject p)
  | PutIntent id (Some r) => route_upsert (Some id) r (subject p)
  | DeleteIntent id =>
      changed ← service_delete_intent id (subject p);
      mret (if changed : bool then (202, IntentDeleted id) else (404, ErrorDetail "intent not found"))
  | PostSite None | PostIntent _ None | PutIntent _ None => invalid
  end.

(** ** A request *)

Context {Token : Type} (unseal : string → string → option Z → Token → option json) (secret : string).

(** [audit_request]: answered requests of a known actor are recorded. *)
Definition record_request {B} (time : Q) (credentials : option Token) (path : string) (a : Z * B) : M Server (Z * B) :=
  match authenticate unseal secret credentials time with
  | inl _ => mret a
  | inr p => _ ← audited (subject p) "API_READ" path (str_Z a.1) request_id; mret a
  end.

(** The guard, the route, and the middleware *)
Definition handle (time : Q) (credentials : option Token) (req : Request) : M Server Answer := λ s,
  let '(r, s1) := guarded unseal secret time (scope_of req) credentials (λ p, route p req) s in
  match r with
  | Refused status => record_request time credentials (path_of req) (status, ErrorDetail "refused") s1
  | Served (Ok a) => record_request time credentials (path_of req) a s1
  | Served (Err e) => (Err e, s1)
  end.

(** Requests one after the other *)
Definition serve_all (l : list (Q * option Token * Request)) (s : Server) : list (result Answer) * Server :=
  fold_left (λ acc x, let '(r, s) := handle x.1.1 x.1.2 x.2 acc.2 in (acc.1 ++ [r], s)) l ([], s).

(** [ManagementService(config)] over an opened policy service *)
Definition open_server (w : World) (audit : Store) : Server :=
  {| sv_world := w; sv_audit := audit; sv_topology := config (policy w); sv_ticks := 0 |}.
End server.
