(* ===== verification/ManagementApiFacts.v ===== *)
(** * Facts about administration over HTTP

    Whatever is sent, the audit trail holds exactly one entry for each operation
    that was carried out and one for each request that was answered to a known
    actor, and the network changes only for those whose role allows it. *)
From S2P Require Import Prelude Net Marks PathSelection Model Json CoreTopology Inventory Sql PolicyStore DynamicInventory IntentCompiler PolicyService ZtpStore.
From S2P Require Import StoreHistory CompilerFacts ServiceFacts ZtpFacts Lifecycle LifecycleFacts ManagementAuth ManagementAuthFacts AuditStore ManagementApi.
Local Open Scope string_scope.
Local Open Scope list_scope.
Local Open Scope Z_scope.

(** ** The trail *)

(** Who did what to what, and with which outcome. *)
Definition entry : Type := string * string * string * string.
Definition entry_of (r : AuditRow) : entry := (au_actor r, au_action r, au_target r, au_outcome r).
Definition rows_of (s : Server) : list AuditRow := audit_events (sv_audit s).

(** The entry of the operation behind an answer *)
Definition operation_entry `{PyRepr} (p : Principal) (req : Request) (a : Answer) : list entry :=
  match req, a.2 with
  | PostSite (Some r), SiteReply x => [(subject p, "CREATE_SITE", sr_site r, state_text x)]
  | DeleteSite site, SiteReply x => [(subject p, "DELETE_SITE", site, state_text x)]
  | (PostIntent _ _ | PutIntent _ _), IntentReply id changed _ => [(subject p, "UPSERT_INTENT", id, change_text changed)]
  | DeleteIntent id, IntentDeleted _ => [(subject p, "DELETE_INTENT", id, "ok")]
  | _, _ => []
  end.

Definition writes (req : Request) : bool := match req with GetOperation _ | GetIntents => false | _ => true end.

(** The queries read the topology the policy service works with. *)
Definition up_to_date (s : Server) : Prop := sv_topology s = config (policy (sv_world s)).

Definition logged (es : list entry) (s s' : Server) : Prop := ∃ rows, rows_of s' = rows_of s ++ rows ∧ map entry_of rows = es.

(** What a step records when it returns, and whether the topology is then up to
    date; a step that raises records nothing. *)
Definition logs {A} (es : A → list entry) (fresh : A → Prop) (m : M Server A) : Prop := ∀ s,
  match m s with (Ok x, s') => logged (es x) s s' ∧ (fresh x → up_to_date s') | (Err _, s') => sv_audit s' = sv_audit s end.
Definition silent {A} (m : M Server A) : Prop := ∀ s, sv_audit (m s).2 = sv_audit s.

Lemma silent_world {A} (m : M World A) : silent (at_world m).
Proof. intros s. unfold at_world. by destruct (m (sv_world s)). Qed.

Lemma logged_none s s' : sv_audit s' = sv_audit s → logged [] s s'.
Proof. intros E. exists []. unfold rows_of. by rewrite E, app_nil_r. Qed.

Lemma logs_silent {A} (m : M Server A) : silent m → logs (λ _, []) (λ _, False) m.
Proof. intros Hm s. specialize (Hm s). destruct (m s) as [[x|e] s']; [|done]. split; [by apply logged_none|done]. Qed.

Lemma logs_after {A B} (m : M Server A) (k : A → M Server B) es fresh : silent m → (∀ x, logs es fresh (k x)) → logs es fresh (m ≫= k).
Proof.
  intros Hm Hk s. unfold mbind, M_bind. specialize (Hm s). destruct (m s) as [[x|e] s1]; [|done]. cbn in Hm. specialize (Hk x s1).
  unfold logged, rows_of in *. rewrite Hm in Hk. exact Hk.
Qed.

Lemma logs_then {A B} (m : M Server A) (f : A → B) es fresh es' fresh' : logs es fresh m →
  (∀ x, es' (f x) = es x ∧ (fresh' (f x) → fresh x)) → logs es' fresh' (x ← m; mret (f x)).
Proof.
  intros Hm Hf s. unfold mbind, M_bind, mret, M_ret. specialize (Hm s). destruct (m s) as [[x|e] s1]; [|done].
  destruct (Hf x) as [-> Hx]. destruct Hm as [Hl Hu]. split; [done|]. intros Hx'. by apply Hu, Hx.
Qed.

Lemma logs_weaken {A} (m : M Server A) es (fresh fresh' : A → Prop) : logs es fresh m → (∀ x, fresh' x → fresh x) → logs es fresh' m.
Proof. intros Hm Hf s. specialize (Hm s). destruct (m s) as [[x|e] s1]; [|done]. destruct Hm as [? Hu]. split; [done|]. intros Hx. by apply Hu, Hf. Qed.

Section server.
Context `{PyRepr} (sha256 : dict string json → string).
Context (input_digest : list InventorySite → list IntentRow → list InputRow → string) (clock : nat → string) (base : TopologyConfig).
Context (pbkdf2 : string → string → string) (ztp_clock : nat → Z) (uuid_hex secret_of salt_of : nat → string).
Context `{LabRuntime} (bootstrap_ca : option string) (ztp_url policy_url management_host : string).
Context (audit_clock request_id : nat → string).

Notation route := (route sha256 input_digest clock base pbkdf2 ztp_clock uuid_hex secret_of salt_of bootstrap_ca ztp_url policy_url
  management_host audit_clock).

Lemma logs_note actor action target outcome :
  logs (λ _, [(actor, action, target, outcome)]) (λ _, True) (_ ← refresh_topology; note audit_clock actor action target outcome).
Proof. intros s. cbn. split; [|done]. eexists [_]. by split. Qed.

(** An operation, then the refresh and its entry *)
Lemma logs_operation {A B} (m : M Server A) (f : A → B) es actor action target outcome : silent m →
  (∀ x, es (f x) = [(actor, action, target, outcome x)]) →
  logs es (λ _, True) (x ← m; _ ← refresh_topology; _ ← note audit_clock actor action target (outcome x); mret (f x)).
Proof.
  intros Hm He. apply logs_after; [done|]. intros x s. split; [|done]. rewrite He. eexists [_]. by split.
Qed.

Lemma logs_ret {A} (x : A) es fresh : es x = [] → ¬ fresh x → logs es fresh (mret x).
Proof. intros E Hf s. split; [rewrite E; by apply logged_none|done]. Qed.

Lemma logs_caught status m es fresh : logs es fresh m → (∀ e d, es (status e, ErrorDetail d) = [] ∧ ¬ fresh (status e, ErrorDetail d)) →
  logs es fresh (on_inventory_error status m).
Proof.
  intros Hm He s. unfold on_inventory_error. specialize (Hm s). destruct (m s) as [[a|e] s1]; [done|].
  case_bool_decide; [|done]. destruct (He e (exn_msg e)) as [-> Hf]. split; [by apply logged_none|done].
Qed.

Lemma logs_create site device preferred standby actor :
  logs (λ r, [(actor, "CREATE_SITE", site, state_text r)]) (λ _, True)
    (service_create_site sha256 input_digest clock base pbkdf2 ztp_clock uuid_hex secret_of salt_of bootstrap_ca ztp_url policy_url
       management_host audit_clock site device preferred standby actor).
Proof. apply (logs_operation _ (λ r, r)); [apply silent_world|done]. Qed.

Lemma logs_delete site actor :
  logs (λ r, [(actor, "DELETE_SITE", site, state_text r)]) (λ _, True)
    (service_delete_site sha256 input_digest clock base ztp_clock uuid_hex audit_clock site actor).
Proof. apply (logs_operation _ (λ r, r)); [apply silent_world|done]. Qed.

Lemma logs_upsert id type target contents actor :
  logs (λ p, [(actor, "UPSERT_INTENT", id, change_text p.1)]) (λ _, True)
    (service_upsert_intent sha256 input_digest clock base audit_clock id type target contents actor).
Proof. apply logs_after; [apply silent_world|]. intros b. apply (logs_operation _ (λ c, (b, c))); [apply silent_world|done]. Qed.

Lemma logs_delete_intent id actor :
  logs (λ b : bool, if b then [(actor, "DELETE_INTENT", id, "ok")] else []) (λ b, b = true)
    (service_delete_intent sha256 input_digest clock base audit_clock id actor).
Proof.
  apply logs_after; [apply silent_world|]. intros [|]; [|by apply logs_ret].
  apply (logs_then _ (λ _, true) (λ _, [(actor, "DELETE_INTENT", id, "ok")]) (λ _, True)); [|done].
  apply logs_after; [apply silent_world|]. intros c. apply logs_note.
Qed.

(** What a route records. *)
Lemma route_logs p req : logs (operation_entry p req) (λ a, a.1 = 202) (route p req).
Proof.
  assert (Hinv : ∀ es : Answer → list entry, es (422, ErrorDetail "validation error") = [] → logs es (λ a, a.1 = 202) invalid).
  { intros es He. by apply logs_ret. }
  assert (Hup : ∀ id r, logs (operation_entry p (PostIntent id (Some r))) (λ a, a.1 = 202)
    (route_upsert sha256 input_digest clock base audit_clock id r (subject p))).
  { intros id r. unfold route_upsert. destruct (intent_request_ok r); [|by apply Hinv]. cbn [negb].
    destruct (match id with Some i => _ | None => _ end); [by apply logs_ret|].
    apply logs_caught; [|by intros e d; split].
    eapply (logs_then _ (λ x, (202, IntentReply (ir_id r) x.1 x.2))); [apply logs_upsert|]. by intros x. }
  destruct req as [[r|]|site|id| |q [r|]|id [r|]|id]; cbn [ManagementApi.route]; try by apply Hinv.
  - destruct (site_request_ok r); [|by apply Hinv]. apply logs_caught; [|intros e d; split; [done|]; unfold site_error; cbn; by destruct (String.eqb _ _)].
    eapply (logs_then _ (λ x, (202, SiteReply x))); [apply logs_create|]. by intros x.
  - apply logs_caught; [|intros e d; split; [done|]; unfold site_error; cbn; by destruct (String.eqb _ _)]. eapply (logs_then _ (λ x, (202, SiteReply x))); [apply logs_delete|]. by intros x.
  - apply (logs_then _ (λ o, match o with Some o => (200, OperationReply o) | None => (404, ErrorDetail "operation not found") end) (λ _, []) (λ _, False)).
    + apply logs_silent, silent_world.
    + by intros [o|].
  - apply (logs_then _ (λ l, (200, IntentItems l)) (λ _, []) (λ _, False)); [apply logs_silent, silent_world|by intros l; split].
  - apply Hup.
  - apply (Hup (Some id)).
  - eapply (logs_then _ (λ b : bool, if b then (202, IntentDeleted id) else (404, ErrorDetail "intent not found"))); [apply logs_delete_intent|].
    by intros [|].
Qed.

(** ** Requests *)

Context {Token : Type} (unseal : string → string → option Z → Token → option json) (secret : string).

Notation handle := (handle sha256 input_digest clock base pbkdf2 ztp_clock uuid_hex secret_of salt_of bootstrap_ca ztp_url policy_url
  management_host audit_clock request_id unseal secret).
Notation serve_all := (serve_all sha256 input_digest clock base pbkdf2 ztp_clock uuid_hex secret_of salt_of bootstrap_ca ztp_url policy_url
  management_host audit_clock request_id unseal secret).

(** What a request leaves in the trail, given its answer. *)
Definition trail (time : Q) (credentials : option Token) (req : Request) (r : result Answer) : list entry :=
  match r, authenticate unseal secret credentials time with
  | Ok a, inr p => operation_entry p req a ++ [(subject p, "API_READ", path_of req, str_Z a.1)]
  | _, _ => []
  end.

Lemma route_reads p req s : writes req = false → sv_world (route p req s).2 = sv_world s.
Proof.
  assert (Hask : ∀ {A} (f : Db → A), sv_world (in_policy (ask f) s).2 = sv_world s) by (intros A f; by destruct s as [[? ? ? ?] ? ? ?]).
  destruct req as [[r|]|site|id| |q [r|]|id [r|]|id]; intros Hw; try discriminate Hw; cbn [ManagementApi.route].
  - unfold service_operation, mbind, M_bind. specialize (Hask _ (operation id)). by destruct (in_policy _ s) as [[o|e] s1].
  - unfold administrative_intents, mbind, M_bind. specialize (Hask _ intents). by destruct (in_policy _ s) as [[o|e] s1].
Qed.

Lemma record_known {B} time credentials path (a : Z * B) s p : authenticate unseal secret credentials time = inr p →
  ∃ s', record_request audit_clock request_id unseal secret time credentials path a s = (Ok a, s') ∧
    logged [(subject p, "API_READ", path, str_Z a.1)] s s' ∧ sv_world s' = sv_world s ∧ sv_topology s' = sv_topology s.
Proof.
  intros Hp. unfold record_request. rewrite Hp. eexists. split; [reflexivity|]. split_and!; try done. eexists [_]. by split.
Qed.

Lemma logged_trans es es' s s1 s' : logged es s s1 → logged es' s1 s' → logged (es ++ es') s s'.
Proof. intros (r1 & E1 & <-) (r2 & E2 & <-). exists (r1 ++ r2). by rewrite E2, E1, map_app, app_assoc. Qed.

Lemma handle_accounted time credentials req s r s' : handle time credentials req s = (r, s') →
  logged (trail time credentials req r) s s' ∧ (∀ a, r = Ok a → a.1 = 202 → up_to_date s') ∧
  (sv_world s' = sv_world s ∨ ∃ token p, credentials = Some token ∧ verify unseal secret token time = Ok p ∧ writes req = true ∧
    allowed p (scope_of req) = true).
Proof.
  unfold handle, guarded, trail. destruct (authenticate unseal secret credentials time) as [status|p] eqn:Ha.
  - unfold record_request. rewrite Ha. intros [= <- <-]. split_and!; [by apply logged_none| |by left]. intros a [= <-].
    unfold authenticate in Ha. destruct credentials as [t|]; [destruct (verify _ _ _ _); [done|]|]; by injection Ha as <-.
  - destruct (allowed p (scope_of req)) eqn:Hal.
    + pose proof (route_logs p req s) as Hl. pose proof (route_reads p req s) as Hw.
      destruct (route p req s) as [[a|e] s1].
      * destruct Hl as [Hl Hu]. destruct (record_known time credentials (path_of req) a s1 p Ha) as (s2 & -> & Hr & E1 & E2). intros [= <- <-].
        split_and!; [by eapply logged_trans|intros a' [= <-] H202; unfold up_to_date; rewrite E1, E2; by apply Hu|].
        destruct (writes req); [right|left; rewrite E1; by apply Hw]. unfold authenticate in Ha. destruct credentials as [t|]; [|done].
        exists t, p. destruct (verify _ _ _ _) as [p'|]; [|done]. by injection Ha as ->.
      * intros [= <- <-]. split_and!; [by apply logged_none|done|]. destruct (writes req); [right|left; by apply Hw].
        unfold authenticate in Ha. destruct credentials as [t|]; [|done]. exists t, p. destruct (verify _ _ _ _) as [p'|]; [|done]. by injection Ha as ->.
    + destruct (record_known time credentials (path_of req) (403, ErrorDetail "refused") s p Ha) as (s2 & -> & Hr & E1 & E2). intros [= <- <-].
      split_and!; [|by intros a [= <-]|by left].
      assert (operation_entry p req (403, ErrorDetail "refused") = []) as -> by (by destruct req as [[]| | | |? []|? []|]). exact Hr.
Qed.

Lemma serve_all_snoc l x s : serve_all (l ++ [x]) s =
  (let '(rs, s1) := serve_all l s in let '(r, s2) := handle x.1.1 x.1.2 x.2 s1 in (rs ++ [r], s2)).
Proof. unfold ManagementApi.serve_all. rewrite fold_left_app. cbn. by destruct (fold_left _ l ([], s)) as [rs s1]. Qed.

(** C10: the audit trail accounts for the administration.  Over any sequence of
    requests, with any credentials at any time and whatever the runtime does, the
    trail is extended by exactly one entry for each operation that was carried
    out and one for each request answered to a known actor, with its path and
    status, in their order, and nothing else; sites, keys, intents and
    provisioning stay as they were unless a request was made with an unexpired
    token whose role is granted the scope of its route, and never that of a
    viewer; and after an operation that was carried out the queries read the
    topology the policy service has compiled. *)
Theorem administration_accounted l s answers s' : serve_all l s = (answers, s') →
  length answers = length l ∧
  logged (concat (zip_with (λ x r, trail x.1.1 x.1.2 x.2 r) l answers)) s s' ∧
  (sv_world s' = sv_world s ∨ ∃ time token req p, (time, Some token, req) ∈ l ∧ verify unseal secret token time = Ok p ∧ writes req = true ∧
    (principal_role p = "ADMIN" ∨ scope_of req ∈ role_scopes (principal_role p)) ∧ principal_role p ≠ "VIEWER") ∧
  (∀ a, last answers = Some (Ok a) → a.1 = 202 → up_to_date s').
Proof.
  revert answers s'. induction l as [|[[time credentials] req] l IH] using rev_ind; intros answers s' Hs.
  { injection Hs as <- <-. split_and!; [done|by apply logged_none|by left|done]. }
  rewrite serve_all_snoc in Hs. destruct (serve_all l s) as [rs s1]. destruct (IH rs s1 eq_refl) as (Hlen & Hlog & Hw & _). clear IH.
  cbn [fst snd] in Hs. destruct (handle time credentials req s1) as [r s2] eqn:Eh. injection Hs as <- <-.
  apply handle_accounted in Eh as (Hl & Hu & Hc). split_and!.
  - rewrite !length_app. cbn. lia.
  - rewrite zip_with_app by done. rewrite concat_app. cbn. rewrite app_nil_r. by eapply logged_trans.
  - destruct Hc as [E|(token & p & -> & Hv & Hwr & Hal)].
    + rewrite E. destruct Hw as [Hw|(t & k & q & p & Hin & ?)]; [by left|right]. exists t, k, q, p. split; [apply elem_of_app; by left|done].
    + right. exists time, token, req, p. split; [apply elem_of_app; right; by apply list_elem_of_singleton|].
      pose proof (verify_ok _ _ _ _ _ Hv) as (_ & Hrole & Hsc & _). pose proof (allowed_role p _ Hrole Hsc Hal) as Hg. split_and!; try done.
      intros Hview. rewrite Hview in Hg. destruct Hg as [Hg|Hg]; [discriminate Hg|].
      destruct req; try discriminate Hwr; apply inb_true in Hg; vm_compute in Hg; discriminate Hg.
  - intros a Ha H202. rewrite last_snoc in Ha. injection Ha as ->. by apply (Hu a).
Qed.
End server.

(** ** A branch by its requests *)

Module Examples.
Import LifecycleFacts.Examples.

Notation serving l s :=
  (@serve_all plain_repr StoreHistory.text_hash CompilerFacts.inputs ServiceFacts.ticking core_config
    ZtpFacts.kdf Z.of_nat (drawn_text "id") (drawn_text "secret") (drawn_text "salt") lab (Some "PEM") "https://ztp:8443"
    "https://policy:8080" "172.30.0.254" (drawn_text "a") (drawn_text "q") ManagementAuthFacts.Examples.Sealed
    ManagementAuthFacts.Examples.toy_unseal "k" l s).

Definition started : Server := open_server hubs_up empty_store.
Definition eve : option ManagementAuthFacts.Examples.Sealed := ManagementAuthFacts.Examples.session_of "eve" "secret".
Definition olga : option ManagementAuthFacts.Examples.Sealed := ManagementAuthFacts.Examples.session_of "olga" "key".
Definition branch : Request :=
  PostSite (Some {| sr_site := "branch-a"; sr_role := "spoke"; sr_device := Some "dev-a"; sr_preferred := "hub1"; sr_standby := "hub2" |}).

Definition day : list (Q * option ManagementAuthFacts.Examples.Sealed * Request) :=
  [(1000%Q, eve, branch); (1000%Q, olga, branch); (1000%Q, None, DeleteSite "branch-a"); (1000%Q, olga, DeleteSite "branch-b")].

Lemma day_served :
  let '(answers, s) := serving day started in
  map (λ r, match r with Ok (st, _) => st | Err _ => 500 end) answers = [403; 202; 401; 404] ∧
  map entry_of (rows_of s) = [("eve", "API_READ", "/api/v1/sites", "403"); ("olga", "CREATE_SITE", "branch-a", "ACTIVE");
    ("olga", "API_READ", "/api/v1/sites", "202"); ("olga", "API_READ", "/api/v1/sites/branch-b", "404")].
Proof. vm_compute. by split. Qed.

(** Two intents with the same contents: the second is neither refused nor
    recorded, the client gets a server error and the trail does not show the
    request. *)
Definition prefer (id : string) : Request := PostIntent None (Some {| ir_id := id; ir_type := "routing_preference"; ir_target := "site1";
  ir_contents := [("preferred_hub", JStr "hub2")] |}).

Lemma repeated_contents_unanswered :
  let '(answers, s) := serving [(1000%Q, olga, prefer "intent-1"); (1000%Q, olga, prefer "intent-2")] started in
  map (λ r, match r with Ok (st, _) => inl st | Err e => inr (exn_cls e) end) answers = [inl 202; inr IntegrityError] ∧
  map entry_of (rows_of s) = [("olga", "UPSERT_INTENT", "intent-1", "changed"); ("olga", "API_READ", "/api/v1/intents", "202")].
Proof. vm_compute. by split. Qed.

Lemma administration_accounted_witness :
  let '(answers, s) := serving day started in
  length answers = 4%nat ∧ sv_world s ≠ sv_world started ∧
  ∃ time token req p, (time, Some token, req) ∈ day ∧
    verify ManagementAuthFacts.Examples.toy_unseal "k" token time = Ok p ∧ principal_role p ≠ "VIEWER".
Proof.
  destruct (serving day started) as [answers s] eqn:E.
  assert (Hw : sv_world s ≠ sv_world started).
  { assert (Ht : length (inventory_rows (LifecycleFacts.pdb (sv_world s))) = 6%nat).
    { change s with ((answers, s).2). rewrite <- E. vm_compute. reflexivity. }
    intros Hs. rewrite Hs in Ht. vm_compute in Ht. discriminate Ht. }
  destruct (administration_accounted _ _ _ _ _ _ _ _ _ _ _ _ _ _ _ _ _ _ _ _ _ E) as (Hlen & _ & [Hsame|(time & token & req & p & Hin & Hv & _ & _ & Hr)] & _);
    [by destruct Hw|].
  split; [exact Hlen|]. split; [exact Hw|]. exists time, token, req, p. split; [exact Hin|]. split; [exact Hv|exact Hr].
Defined.
End Examples.
