(* ===== verification/ManagementViews.v ===== *)
(** * The queries of the management service ([management/service.py])

    What the REST routes and the MCP tools read: rows of the two databases,
    fields of the topology, and probes of the running containers, as the
    documents the service returns.  The databases may be missing
    ([ReadOnlyState]), the controller's file may be unreadable, and any probe
    may fail. *)
From Stdlib Require Import Ascii.
From S2P Require Import Sql PolicyStore ZtpStore LivePlan RuntimeProbe FlowCollector Prelude Net Marks PathSelection Model Json CoreTopology Underlay.
From S2P Require Import Inventory Controller ControllerFacts DynamicInventory AuditStore RouteEvidence DependencyGraph DependencyGraphFacts.
Local Open Scope string_scope.
Local Open Scope list_scope.
Local Open Scope Z_scope.

Definition object : Type := dict string json.

(** ** Sources *)

(** The files the service reads: the databases, the table [policy_versions] of
    the policy database (which no operation of [PolicyStore] writes), the state
    the controller published, and the socket of the topology. *)
Record Sources := {
  policy_file : bool; policy_db : Db; version_rows : list PolicyVersionRow; ztp_file : bool; ztp_db : Ztp;
  underlay_file : StateFile; control_socket : bool
}.

(** [ReadOnlyState.rows]: a database that is not there has no rows. *)
Definition rows_of (there : bool) (l : list object) : list object := if there then l else [].
Definition json_rows (l : list object) : json := JList (map JObj l).

(** ** Documents *)

(** What a probe returns *)
Definition probe_fields {A} (show : A → json) (o : Observed A) : object :=
  match o with
  | Available v => [("availability", JStr "AVAILABLE"); ("value", show v)]
  | Unavailable r => [("availability", JStr "UNAVAILABLE"); ("reason", JStr r)]
  end.
Definition probe_text (o : Observed string) : json := JObj (probe_fields JStr o).
Definition probe_value (o : Observed json) : json := JObj (probe_fields (λ v, v) o).
Definition unavailable (reason : string) : object := [("availability", JStr "UNAVAILABLE"); ("reason", JStr reason)].
Definition not_available (reason : string) : object := [("available", JBool false); ("reason", JStr reason)].

(** [d.get(key)] *)
Definition field (d : object) (k : string) : json := default JNull (dget d k).

Definition state_value (s : StateKind) : string :=
  match s with CONFIGURED => "CONFIGURED" | DESIRED => "DESIRED" | OBSERVED => "OBSERVED" | DERIVED => "DERIVED" end.
Definition type_value (t : NodeType) : string :=
  match t with
  | SITE => "SITE" | WAN_EDGE => "WAN_EDGE" | HUB => "HUB" | HOST => "HOST" | INTERFACE => "INTERFACE" | UNDERLAY => "UNDERLAY"
  | OVS_DATAPATH => "OVS_DATAPATH" | RYU_CONTROLLER => "RYU_CONTROLLER" | UNDERLAY_ATTACHMENT => "UNDERLAY_ATTACHMENT"
  | WIREGUARD_TUNNEL => "WIREGUARD_TUNNEL" | ROUTING_TABLE => "ROUTING_TABLE" | APPLICATION_POLICY => "APPLICATION_POLICY"
  | SLA_PROFILE => "SLA_PROFILE" | DATA_CENTER => "DATA_CENTER" | SAAS_DESTINATION => "SAAS_DESTINATION"
  | CLOUD_APPLICATION => "CLOUD_APPLICATION" | FACT => "FACT" | COMPONENT => "COMPONENT"
  end.

(** [model_dump(mode="json")] of the graph's records *)
Definition node_document (n : GraphNode) : json := JObj [
  ("node_id", JStr (node_id n)); ("node_type", JStr (type_value (node_type n))); ("attributes", JObj (attributes n));
  ("source_ids", texts (node_sources n))].
Definition edge_document (e : GraphEdge) : json := JObj [
  ("edge_id", JStr (edge_id e)); ("source_id", JStr (source_id e)); ("target_id", JStr (target_id e));
  ("relation_type", JStr (relation_value (relation_type e))); ("state_kind", JStr (state_value (state_kind e)));
  ("source_ids", texts (edge_sources e))].
Definition fact_entry (f : EvidenceFact) : json := JObj [
  ("fact_id", JStr (fact_id f)); ("component_id", JStr (component_id f)); ("fact_type", JStr (fact_type f)); ("value", fact_value f);
  ("source", JStr (fact_source f)); ("observed_at", observed_at f); ("state_kind", JStr (state_value (fact_state f)));
  ("availability", JStr "AVAILABLE")].

(** The texts of [direction]; any other follows no edge. *)
Definition read_direction (s : string) : option Direction :=
  if String.eqb s "outgoing" then Some Outgoing else if String.eqb s "incoming" then Some Incoming
  else if String.eqb s "both" then Some Both else None.

Definition expand_text (g : DependencyGraph) (id direction : string) (depth : Z) : option (list string * list GraphEdge) :=
  match read_direction direction with
  | Some d => expand g id d depth
  | None => if dmem (DependencyGraph.nodes g) id then Some ([id], []) else None
  end.

(** ** Rows *)

Section queries.
Context (s : Sources) (instant : Z → string).

Definition site_entry_of (r : SiteRow) : object := [
  ("site", JStr (sr_site r)); ("device_id", JStr (sr_device r)); ("lan_prefix", JStr (sr_lan r)); ("preferred_hub", JStr (sr_preferred r));
  ("standby_hub", JStr (sr_standby r)); ("status", JStr (sr_status r)); ("updated_at", JStr (sr_updated r))].
Definition site_rows_read : list object :=
  rows_of (policy_file s) (map site_entry_of (sort_by (λ a b, String.leb (sr_site a) (sr_site b)) (site_rows (policy_db s)))).

Definition owner_entry (r : OwnerRow) : object :=
  let o := ow_record r in [
  ("prefix", JStr (PolicyStore.prefix o)); ("spoke", JStr (spoke o)); ("preferred_hub", JStr (PolicyStore.preferred_hub o));
  ("standby_hub", JStr (PolicyStore.standby_hub o)); ("current_owner_hub", JStr (current_owner_hub o));
  ("previous_owner_hub", text_or_null (previous_owner_hub o)); ("owner_epoch", JInt (owner_epoch o));
  ("route_version", JInt (PolicyStore.route_version o)); ("state", JStr (PolicyStore.state o)); ("reason", JStr (reason o));
  ("updated_at", JStr (ow_updated r)); ("pending_reconciliation", JInt (if pending_reconciliation o then 1 else 0))].
Definition ownership : list object :=
  rows_of (policy_file s) (map owner_entry
    (sort_by (λ a b, String.leb (spoke (ow_record a)) (spoke (ow_record b))) (owner_rows (policy_db s)))).

Definition desired_entry (r : DesiredRow) : object := [
  ("site", JStr (dr_site r)); ("version", JInt (dr_version r)); ("digest", JStr (dr_digest r)); ("route_version", JInt (dr_route_version r));
  ("ownership_epoch", JInt (dr_epoch r)); ("created_at", JStr (dr_created r)); ("delivery_status", JStr (dr_delivery r));
  ("applied_status", JStr (dr_applied r)); ("verification_status", JStr (dr_verification r))].
Definition desired_of (site : string) : list DesiredRow :=
  sort_by (λ a b, dr_version b <=? dr_version a) (List.filter (λ r, same_text (dr_site r) site) (desired_rows (policy_db s))).
Definition desired (site : string) : list object := rows_of (policy_file s) (map desired_entry (desired_of site)).

Definition version_entry (r : PolicyVersionRow) : object := [
  ("version", JInt (pv_version r)); ("digest", JStr (pv_digest r)); ("created_at", JStr (pv_created r)); ("created_by", JStr (pv_created_by r))].
Definition policy_versions : list object :=
  rows_of (policy_file s) (map version_entry (sort_by (λ a b, pv_version b <=? pv_version a) (version_rows s))).

(** The activation joined with the version it activates *)
Definition activation_entry (a : ActivationRow) (v : PolicyVersionRow) : object :=
  version_entry v ++ [("activated_at", JStr (ac_at a)); ("activated_by", JStr (ac_by a))].
Definition destination_policy : list object :=
  rows_of (policy_file s) (flat_map (λ a, map (activation_entry a)
    (List.filter (λ v, pv_version v =? ac_version a) (policy_rows (policy_db s)))) (activation_rows (policy_db s))).

Definition max_text (l : list string) : string := foldr (λ a b, if String.leb b a then a else b) "" l.
Definition summary_entry (site : string) : object :=
  let rs := desired_of site in [
  ("site", JStr site); ("latest_version", JInt (max_key dr_version rs)); ("latest_route_version", JInt (max_key dr_route_version rs));
  ("last_created", JStr (max_text (map dr_created rs)))].
Definition desired_summary : list object :=
  rows_of (policy_file s) (map summary_entry (sort_by String.leb (remove_dups (map dr_site (desired_rows (policy_db s)))))).

Definition device_entry (r : DeviceRow) : object := [
  ("device_id", JStr (dv_id r)); ("assigned_site", JStr (dv_site r)); ("status", JStr (dv_status r));
  ("public_key_fingerprint", text_or_null (dv_fingerprint r)); ("created_at", JStr (instant (dv_created r)));
  ("updated_at", JStr (instant (dv_updated r)))].
Definition ztp_devices : list object :=
  rows_of (ztp_file s) (map device_entry (sort_by (λ a b, String.leb (dv_site a) (dv_site b)) (devices (ztp_db s)))).
Definition ztp_device (id : string) : option object :=
  find (λ d, match dget d "device_id" with Some (JStr i) => String.eqb i id | _ => false end) ztp_devices.

(** The last 200 events, the newest first *)
Definition event_entry (r : PolicyStore.AuditRow) : object := [
  ("actor", JStr (PolicyStore.au_actor r)); ("action", JStr (PolicyStore.au_action r)); ("target", JStr (PolicyStore.au_target r));
  ("reason", JStr (au_reason r)); ("result", JStr (au_result r)); ("before_version", number_or_null (au_before r));
  ("after_version", number_or_null (au_after r)); ("created_at", JStr (au_at r))].
Definition events : list object := rows_of (policy_file s) (map event_entry (take 200 (rev (audit_rows (policy_db s))))).

Definition policy_view : object := [
  ("active_versions", json_rows policy_versions); ("destination_policy", json_rows destination_policy);
  ("intents", json_rows (map intent_entry (intents (policy_db s)))); ("route_ownership", json_rows ownership)].

Definition health : object :=
  let there (b : bool) := JStr (if b then "AVAILABLE" else "UNAVAILABLE") in [
  ("status", JStr "ok"); ("mode", JStr "typed-administration-and-observability");
  ("sources", JObj [("topology", JStr "AVAILABLE"); ("policy_db", there (policy_file s)); ("ztp_db", there (ztp_file s));
                    ("runtime_control", JStr (if control_socket s then "AVAILABLE" else "NOT_CONNECTED"))])].
End queries.

(** The management store's own events *)
Definition audit_entry (r : AuditStore.AuditRow) : object := [
  ("id", JInt (AuditStore.au_id r)); ("created_at", JStr (au_created r)); ("actor", JStr (AuditStore.au_actor r));
  ("action", JStr (AuditStore.au_action r)); ("target", JStr (AuditStore.au_target r)); ("outcome", JStr (au_outcome r));
  ("detail", JStr (au_detail r))].
Definition combined_events (s : Sources) (a : Store) : list object :=
  events s ++ map (λ r, [("source", JStr "management"); ("event", JObj (audit_entry r))]) (list_events a).

(** ** Topology and runtime *)

Section views.
Context `{PyRepr} (docker : string → list string → Exec) (loads : string → result json) (hexdigest : string → string) (c : TopologyConfig).
Context (s : Sources) (instant : Z → string).

Definition with_edge_node (row : object) : object :=
  match dget (sites c) (py_str (field row "site")) with Some p => dset row "edge_node" (JStr (s_edge_node p)) | None => row end.
Definition site_list_view : list object := map with_edge_node (site_rows_read s).

(** [next((row for row in self.sites() if row.get("site") == site), None)] *)
Definition is_site_row (site : string) (row : object) : bool :=
  match dget row "site" with Some (JStr n) => String.eqb n site | _ => false end.

Definition configured_record (site : string) : result object :=
  p ← get_site c site;
  Ok [("site", JStr site); ("lan_prefix", JStr (network_str (lan_network p))); ("preferred_hub", JStr (Model.preferred_hub p));
      ("standby_hub", JStr (Model.standby_hub p)); ("status", JStr "CONFIGURED")].

Definition STATUS_FIELDS : list string := ["site"; "lan_prefix"; "preferred_hub"; "standby_hub"; "status"; "updated_at"].

Definition site_status (name : string) : result object :=
  site ← logical c name;
  record ← (match find (is_site_row site) site_list_view with Some row => Ok row | None => configured_record site end);
  kept ← present_fields STATUS_FIELDS (JObj record);
  node ← edge_node c site;
  Ok (dset kept "edge_node" (JStr node)).

Definition runtime_view (name : string) : result object :=
  site ← logical c name;
  if negb (inb site (site_names c)) then Ok (unavailable "unknown site")
  else
    node ← shown_edge_node c site;
    Ok [("site", JStr site); ("edge_node", JStr node); ("links", probe_value (RuntimeProbe.links docker loads c site));
        ("tunnels", probe_text (tunnels docker c site)); ("routes", probe_value (RuntimeProbe.routes docker loads c site));
        ("rules", probe_value (ip_rules docker loads c site)); ("failover", probe_text (failover docker c site));
        ("classifier", probe_text (classifier docker c site));
        ("path_metrics", probe_value (RuntimeProbe.state docker loads c site "path-metrics.json"));
        ("path_decisions", probe_value (RuntimeProbe.state docker loads c site "path-decisions.json"))].

(** The items of one field of a state file, over all sites *)
Definition site_path_items (filename key : string) (site : string) : result (list json) :=
  match RuntimeProbe.state docker loads c site filename with
  | Available v => items ← get_default v key (JList []); items_of items
  | Unavailable _ => Ok []
  end.
Definition path_state (filename key : string) : result (list json) :=
  ls ← mapM_result (site_path_items filename key) (dkeys (sites c)); Ok (concat ls).

Definition path_metrics : result (list json) := path_state "path-metrics.json" "paths".
Definition path_decisions : result (list json) := path_state "path-decisions.json" "decisions".
Definition path_events : result (list json) := path_state "path-events.json" "events".

Definition paths : result object :=
  ms ← path_metrics; ds ← path_decisions;
  let t := cfg_measurement c in
  Ok [("paths", JList ms); ("decisions", JList ds);
      ("measurement", JObj [("interval_seconds", JFloat (interval_seconds t)); ("ewma_alpha", JFloat (ewma_alpha t));
                            ("stale_after_seconds", JFloat (stale_after_seconds t)); ("loss_window_samples", JInt (loss_window_samples t))])].

(** *** Provider networks *)

Definition snapshot : object := underlay_state (underlay_file s).
(** [state.get("state", {}) if available else {}] *)
Definition observed_state : json := match underlay_file s with Published v => v | _ => JObj [] end.

Definition event_of (transport : string) (event : json) : result (option json) :=
  t ← value_of event "transport";
  Ok (match t with JStr t => if String.eqb t transport then Some event else None | _ => None end).

Definition underlay_of (observed : json) (p : string * Transport) : result object :=
  let '(transport, profile) := p in
  datapaths ← get_default observed "datapaths" (JObj []); datapath ← get_default datapaths transport (JObj []);
  datapath ← as_dict datapath;
  attachments ← get_default observed "attachments" (JObj []); attachments ← get_default attachments transport (JList []);
  forwarding ← get_default observed "forwarding" (JObj []); entries ← value_of forwarding transport;
  counters ← get_default observed "security_counters" (JObj []);
  events ← get_default observed "events" (JList []); events ← items_of events;
  mine ← kept (event_of transport) events;
  Ok [("transport", JStr transport); ("service_type", JStr (if internet_capable profile then "INTERNET" else "PRIVATE"));
      ("internet_capable", JBool (internet_capable profile)); ("network", JStr (network_str (tr_network profile)));
      ("switch", JStr (tr_switch profile)); ("dpid", JInt (dpid profile));
      ("state", JStr (if py_truth (field datapath "connected") then "CONNECTED" else "UNAVAILABLE"));
      ("attachments", attachments); ("fib_entry_count", entries); ("security_counters", counters); ("events", JList (lastn 20 mine))].

Definition underlay (transport : string) : result (option object) :=
  match dget (transports c) transport with
  | None => Ok None
  | Some profile => d ← underlay_of observed_state (transport, profile); Ok (Some d)
  end.

Definition underlays : result object :=
  items ← mapM_result (underlay_of observed_state) (transports c);
  Ok [("availability", field snapshot "availability"); ("items", json_rows items); ("reason", field snapshot "reason")].

(** *** The dependency graph *)

Context (valid_fact : EvidenceFact → bool).

Definition dependency_graph : result DependencyGraph :=
  build valid_fact c (intents (policy_db s)) (underlay_file s).

Definition graph_component (id : string) : result object :=
  g ← dependency_graph;
  Ok (match component g id with
      | Some n => [("available", JBool true); ("component", node_document n); ("reason", JNull)]
      | None => [("available", JBool false); ("component", JNull); ("reason", JStr "unknown component")]
      end).

(** [self.nodes[key]] for the names that were visited *)
Definition node_documents (g : DependencyGraph) (ids : list string) : result (list json) :=
  mapM_result (λ id, n ← of_option (component g id) KeyError id; Ok (node_document n)) ids.

Definition unknown_component : object :=
  not_available "unknown component" ++ [("nodes", JList []); ("edges", JList [])].

Definition expanded (g : DependencyGraph) (answer : option (list string * list GraphEdge)) : result object :=
  match answer with
  | None => Ok unknown_component
  | Some (ids, es) =>
      ns ← node_documents g ids;
      Ok [("available", JBool true); ("nodes", JList ns); ("edges", JList (map edge_document es))]
  end.

Definition graph_expand (id direction : string) (depth : Z) : result object :=
  g ← dependency_graph; expanded g (expand_text g id direction depth).

Definition path_answer (a : PathAnswer) : object :=
  match a with
  | UnknownEnds => not_available "unknown source or target" ++ [("path", JList [])]
  | NoPath => [("available", JBool true); ("path", JList []); ("reason", JStr "no directed dependency path")]
  | Found es => [("available", JBool true); ("path", JList (map edge_document es))]
  end.
(** The search ends within its fuel ([find_path_shortest]). *)
Definition graph_path (source target : string) : result object :=
  g ← dependency_graph; a ← of_option (find_path g source target) RuntimeError "out of fuel"; Ok (path_answer a).

(** [impact_scope]: the incoming expansion, and the nodes other than the one. *)
Definition affected (id : string) (answer : option (list string * list GraphEdge)) : list string :=
  match answer with Some (ids, _) => List.filter (λ n, negb (String.eqb n id)) ids | None => [] end.
Definition graph_impact (id : string) : result object :=
  g ← dependency_graph;
  d ← expanded g (expand g id Incoming 8);
  Ok (d ++ [("affected_component_ids", texts (affected id (expand g id Incoming 8)))]).

Definition graph_evidence_view (ids : list string) : result object :=
  g ← dependency_graph;
  Ok [("available", JBool true); ("facts", JList (map fact_entry (graph_evidence g ids)))].

(** *** Physical topology and workloads *)

Definition number_of (o : option Z) : json := number_or_null o.
Definition switch_document (w : SwitchSpec) : object := [
  ("name", JStr (sw_name w)); ("kind", JStr "switch"); ("openflow", JBool (openflow w)); ("dpid", number_of (sw_dpid w))].
Definition docker_document (n : DockerNodeSpec) : object := [
  ("name", JStr (dn_name n)); ("kind", JStr "docker"); ("role", JStr (dn_role n)); ("image", JStr (dn_image n))].
Definition topology_nodes : result (list object) :=
  p ← build_live_plan hexdigest c; Ok (map switch_document (lp_switches p) ++ map docker_document (docker_nodes p)).

Definition link_document (l : LinkSpec) : object := [
  ("node1", JStr (node1 l)); ("node2", JStr (node2 l)); ("interface1", JStr (intf1 l)); ("interface2", JStr (intf2 l));
  ("address1", text_or_null (address1 l)); ("address2", text_or_null (address2 l)); ("transport", text_or_null (ln_transport l))].
Definition topology_links : result (list object) := p ← build_live_plan hexdigest c; Ok (map link_document (LivePlan.links p)).

Definition topology_resource : result object :=
  ns ← topology_nodes; ls ← topology_links;
  Ok [("configuration", JObj (topology_view c)); ("nodes", json_rows ns); ("links", json_rows ls)].

Definition workloads : list object := [
  [("id", JStr "branch_rtp"); ("application_class", JStr "REALTIME_RTP"); ("source", JStr "node1_host"); ("destination", JStr "node2_host");
   ("protocol", JStr "real RTP/UDP"); ("port", JInt 5004); ("egress", JStr "HUB_OVERLAY")];
  [("id", JStr "central_backup"); ("application_class", JStr "CENTRAL_BACKUP"); ("source", JStr "branch hosts");
   ("destination", JStr (data_center_app_name c)); ("address", JStr ("https://" +:+ addr_str (data_center_app_ip c) +:+ ":8443"));
   ("egress", JStr "HUB_OVERLAY"); ("health", probe_text (workload_health docker c (data_center_app_name c)))];
  [("id", JStr "public_saas"); ("application_classes", texts ["SAAS_INTERACTIVE"; "SAAS_FILE_TRANSFER"]); ("source", JStr "branch hosts");
   ("destination", JStr (saas_app_name c)); ("address", JStr ("https://" +:+ addr_str (saas_ip c))); ("egress", JStr "DIRECT_INTERNET");
   ("candidate_transports", texts ["bb"; "lte"]); ("health", probe_text (workload_health docker c (saas_app_name c)))]].

Definition dashboard : result object :=
  decisions ← path_decisions;
  Ok [("health", JObj (health s)); ("topology", JObj (topology_view c)); ("sites", json_rows site_list_view);
      ("desired", json_rows (desired_summary s)); ("ownership", json_rows (ownership s)); ("devices", json_rows (ztp_devices s instant));
      ("destination_policy", json_rows (destination_policy s)); ("path_decisions", JList decisions); ("underlay", JObj snapshot);
      ("workloads", json_rows workloads)].

(** *** Routes *)

Definition group_document (g : RouteGroup) : json := JObj [
  ("table", JStr (rg_table g)); ("fwmark_table", JStr (rg_table g)); ("next_hop", rg_next_hop g); ("output_interface", JStr (rg_interface g));
  ("hub", text_or_null (rg_hub g)); ("transport", text_or_null (rg_transport g)); ("egress_mode", JStr (rg_egress_mode g));
  ("destinations", texts (rg_destinations g))].

Definition AFFINITY : json := JObj [
  ("configuration", JStr "connmark-based; routes are selected by persistent connection mark and policy rule");
  ("evidence", JStr "inspect the listed fwmark policy rules and selected WireGuard output interface")].

Definition summary_document (x : Summary) : object :=
  match x with
  | NoSummary reason => not_available reason
  | RouteSummary site node groups rules => [
      ("available", JBool true); ("site", JStr site); ("edge_node", JStr node); ("route_groups", JList (map group_document groups));
      ("routing_rules", json_rows rules); ("return_affinity", AFFINITY)]
  end.
Definition route_summary_view (name : string) : result object := x ← route_summary docker loads c name; Ok (summary_document x).

(** The summary never has [routes]. *)
Definition routing (name : string) : result object :=
  x ← route_summary docker loads c name;
  Ok (match x with
      | NoSummary reason => not_available reason
      | RouteSummary site node groups rules => [
          ("site", JStr site); ("edge_node", JStr node); ("rules", json_rows rules); ("tables", JList (map group_document groups));
          ("routes", JList []); ("return_affinity", AFFINITY)]
      end).

(** *** Desired against observed *)

Definition is_up (runtime : object) (k : string) : bool :=
  match dget runtime k with
  | Some (JObj d) => match dget d "availability" with Some (JStr a) => String.eqb a "AVAILABLE" | _ => false end
  | Some _ => false
  | None => true
  end.
Definition runtime_available (runtime : object) : bool := forallb (is_up runtime) ["links"; "routes"; "rules"; "tunnels"].

Definition compare_desired_actual (name : string) : result object :=
  site ← logical c name;
  if negb (inb site (site_names c)) then Ok (not_available "unknown site")
  else
    runtime ← runtime_view site;
    let latest := head (desired s site) in
    let some := given latest in let up := runtime_available runtime in
    node ← shown_edge_node c site;
    Ok [("available", JBool true); ("site", JStr site); ("edge_node", JStr node);
        ("comparisons", JList [
           JObj [("field", JStr "desired_state_record"); ("desired_value", JBool some); ("observed_value", JNull);
                 ("comparison_status", JStr (if some then "desired_only" else "unavailable"));
                 ("reason", JStr "desired-state records and runtime namespace values are not the same semantic field")];
           JObj [("field", JStr "runtime_adapter"); ("desired_value", JNull); ("observed_value", JStr (if up then "AVAILABLE" else "UNAVAILABLE"));
                 ("comparison_status", JStr "observed_only");
                 ("reason", JStr "runtime availability is observed independently of desired state")]]);
        ("desired_record", match latest with Some d => JObj d | None => JNull end); ("runtime_available", JBool up);
        ("limitations", texts ["No field is labeled match or mismatch unless desired and observed values have identical semantics."])].

(** *** Hubs, destinations, and transports *)

Definition hub_tunnels (hub : string) : object :=
  if negb (dmem (hubs c) hub) then not_available "unknown hub"
  else [("available", JBool true); ("hub", JStr hub); ("tunnels", probe_text (tunnels docker c hub))].

Definition hub_view (hub : string) : result object :=
  match dget (hubs c) hub with
  | None => Ok (unavailable "unknown hub")
  | Some h =>
      runtime ← runtime_view hub;
      Ok [("hub", JStr hub); ("configured", JObj [("management_ip", JStr (addr_str (hub_management_ip h)))]); ("runtime", JObj runtime)]
  end.

Definition network_view (kind : string) : object :=
  let v := cloud_vpc c in
  if String.eqb kind "data-center" then [
    ("network", JStr (network_str (data_center_network c))); ("endpoint", JStr (addr_str (data_center_app_ip c)));
    ("name", JStr (data_center_app_name c)); ("egress", JStr "hub overlay only"); ("return_affinity", JStr "explicit return routes plus connmark")]
  else if String.eqb kind "saas" then [
    ("network", JStr (network_str (saas_network c))); ("endpoint", JStr (addr_str (saas_ip c))); ("name", JStr (saas_app_name c));
    ("egress", JStr "direct internet only"); ("candidate_transports", texts ["bb"; "lte"])]
  else if String.eqb kind "cloud-vpc" then [
    ("enabled", JBool (vpc_enabled v)); ("network", JStr (network_str (vpc_network v))); ("endpoint", JStr (addr_str (vpc_app_ip v)));
    ("gateways", texts (active_gateways v)); ("availability", JStr (if vpc_enabled v then "CONFIGURED" else "DISABLED"))]
  else unavailable "unknown network view".

Definition endpoint_view (name : string) : result object :=
  e ← resolve_endpoint c name;
  Ok (match e with
      | None => not_available "unknown configured endpoint"
      | Some e => [("available", JBool true); ("endpoint", endpoint_document e)]
      end).
Definition endpoints_view : result (list json) := es ← endpoint_inventory c; Ok (map endpoint_document es).

Definition transport_document (t : Transport) : object := [
  ("name", JStr (tr_name t)); ("network", JStr (network_str (tr_network t))); ("switch", JStr (tr_switch t)); ("dpid", JInt (dpid t));
  ("bandwidth_mbps", JFloat (bandwidth_mbps t)); ("delay_ms", JFloat (delay_ms t)); ("internet_capable", JBool (internet_capable t));
  ("route_table", JInt (tr_route_table t))].
Definition transport_inventory : list object := map transport_document (transport_list c).

Definition hub_configuration (hub : string) : result object :=
  h ← of_option (dget (hubs c) hub) KeyError hub;
  Ok [("hub", JStr hub); ("management_ip", JStr (addr_str (hub_management_ip h))); ("address_id", JInt (hub_address_id h))].

Definition gateway_row (name : string) : result object :=
  let v := cloud_vpc c in
  vpc ← of_option (dget (gateway_ips v) name) KeyError name; management ← of_option (dget (gateway_management_ips v) name) KeyError name;
  id ← of_option (dget (gateway_address_ids v) name) KeyError name;
  Ok [("gateway", JStr name); ("active", JBool (inb name (active_gateways v))); ("vpc_ip", JStr (addr_str vpc));
      ("management_ip", JStr (addr_str management)); ("address_id", JInt id)].
Definition cloud_gateways : result (list object) := mapM_result gateway_row (gateway_names (cloud_vpc c)).

Definition transit_row (gateway hub : string) : result object :=
  let v := cloud_vpc c in
  n ← transit_network v hub gateway; a ← transit_ip v hub gateway hub; b ← transit_ip v hub gateway gateway;
  Ok [("hub", JStr hub); ("network", JStr (network_str n)); ("hub_ip", JStr (addr_str a)); ("gateway_ip", JStr (addr_str b))].
Definition cloud_gateway (gateway : string) : result object :=
  let v := cloud_vpc c in
  if negb (inb gateway (gateway_names v)) then Ok (not_available "unknown cloud gateway")
  else
    ts ← mapM_result (transit_row gateway) (dkeys (hubs c));
    vpc ← of_option (dget (gateway_ips v) gateway) KeyError gateway;
    management ← of_option (dget (gateway_management_ips v) gateway) KeyError gateway;
    id ← of_option (dget (gateway_address_ids v) gateway) KeyError gateway;
    Ok [("available", JBool true); ("gateway", JStr gateway); ("enabled", JBool (vpc_enabled v));
        ("active", JBool (inb gateway (active_gateways v))); ("vpc_ip", JStr (addr_str vpc)); ("management_ip", JStr (addr_str management));
        ("address_id", JInt id); ("vpc_network", JStr (network_str (vpc_network v)));
        ("application", JObj [("name", JStr (vpc_app_name v)); ("ip", JStr (addr_str (vpc_app_ip v)))]); ("transits", json_rows ts)].

Definition addresses (d : dict string addr) : json := JObj (dmap (λ a, JStr (addr_str a)) d).
Definition data_center_configuration : object := [
  ("network", JStr (network_str (data_center_network c)));
  ("application", JObj [("name", JStr (data_center_app_name c)); ("ip", JStr (addr_str (data_center_app_ip c)))]);
  ("hub_ips", addresses (data_center_hub_ips c))].
Definition saas_configuration : object := [
  ("network", JStr (network_str (saas_network c)));
  ("application", JObj [("name", JStr (saas_app_name c)); ("ip", JStr (addr_str (saas_ip c)))]);
  ("gateway", JObj [("name", JStr (saas_gateway_name c)); ("ip", JStr (addr_str (saas_gateway_ip c))); ("transport_ips", addresses (saas_transport_ips c))]);
  ("transport_ips", addresses (saas_transport_ips c))].

(** *** One site *)

Definition site_interfaces (site : string) : object := [
  ("site", JStr site); ("interfaces", probe_value (RuntimeProbe.links docker loads c site))].

Definition site_failover (site : string) : object := [
  ("site", JStr site);
  ("failover", match failover docker c site with
     | Unavailable r => JObj (unavailable r)
     | Available text => JObj [("availability", JStr "AVAILABLE");
         ("value", match loads text with Ok v => v | Err _ => JObj [("raw_status", JStr text)] end)]
     end)].

(** The last line that is not blank; it counts although it is no JSON. *)
Definition site_classifier (site : string) : object := [
  ("site", JStr site);
  ("classifier", match classifier docker c site with
     | Unavailable r => JObj (unavailable r)
     | Available text =>
         let lines := List.filter (λ l, nonempty (strip l)) (splitlines text) in
         JObj [("availability", JStr "AVAILABLE");
           ("latest_event", match last lines with Some l => match loads l with Ok v => v | Err _ => JNull end | None => JNull end);
           ("line_count", JInt (Z.of_nat (length lines)))]
     end)].
End views.

(** * Facts about the queries of the management service

    The view of a provider network reads back what its controller published. *)

(** ** The events of the controller *)

Definition named_event (k : string) (ev : dict string json) : Prop := dget ev "event" = Some (JStr k).
(** An event that names a provider network is one of its reconciliation. *)
Definition well_named (ev : dict string json) : Prop := is_Some (dget ev "transport") → named_event "RECONCILE" ev.
(** Steps that record such events only. *)
Definition names_well : relation UnderlayController := λ u u',
  Forall well_named (underlay_events u) → Forall well_named (underlay_events u').
#[export] Instance names_well_preorder : PreOrder names_well.
Proof. split; [intros u Hu; exact Hu|]. intros a b c H1 H2 H. apply H2, H1, H. Qed.

Lemma record_names e k fs : (dget fs "transport" = None ∨ k = "RECONCILE") → moves names_well (record_event e k fs).
Proof.
  intros Hk u Hu. cbn. apply lastn_Forall, Forall_app. split; [done|]. constructor; [|constructor].
  intros [v Hv]. destruct Hk as [Hk| ->]; [|reflexivity]. cbn in Hv. by rewrite Hk in Hv.
Qed.

Lemma modify_names f : (∀ u, underlay_events (f u) = underlay_events u) → moves names_well (modify f).
Proof. intros Hf u Hu. unfold modify, get, put, mbind, M_bind. cbn. by rewrite Hf. Qed.
Lemma send_names dp m : moves names_well (send dp m).
Proof. by apply modify_names. Qed.
Lemma write_names e : moves names_well (write_state e).
Proof.
  intros u Hu. unfold write_state, Controller.topology, get, put, lift, mret, M_ret, mbind, M_bind.
  destruct (Inventory.load _ _) as [[c auth]|]; [|done]. simpl. destruct (Controller.state_json _ _ _); [|done]. by destruct (disk_ok e).
Qed.
Lemma drop_names e dp i r : moves names_well (record_drop e dp i r).
Proof.
  intros u Hu. unfold record_drop. unfold mbind at 1, M_bind, get. destruct (Qltb _ _); [done|]. unfold mbind at 1, M_bind, lift.
  destruct (of_option _ _ _); [|done]. unfold mbind, M_bind, put. by apply record_names; [left|].
Qed.

Ltac names_step :=
  lazymatch goal with
  | |- moves names_well (record_event _ _ _) => apply record_names; first [by left | by right]
  | |- moves names_well (modify _) => by apply modify_names
  | |- moves names_well (forget_program _) => by apply modify_names
  | |- moves names_well (send _ _) => apply send_names
  | |- moves names_well (add_flow _ _ _ _ _ _) => apply send_names
  | |- moves names_well (write_state _) => apply write_names
  | |- moves names_well (record_drop _ _ _ _) => apply drop_names
  | _ => moves_step
  end.

Lemma reconcile_names e dp : moves names_well (reconcile_datapath e dp).
Proof.
  unfold reconcile_datapath, Controller.topology, reconcile_transport, install_program, install_default_drop, admit_attachment, install_route.
  repeat names_step.
Qed.

Lemma learn_names dp i f : moves names_well (learn_lan_packet dp i f).
Proof.
  intros u Hu. unfold learn_lan_packet. destruct f as [f|]; [|done]. destruct (_ =? _); [done|]. unfold mbind at 1, M_bind, get.
  unfold mbind at 1, M_bind, put. destruct (dget _ _); [|exact Hu]. exact Hu.
Qed.

Lemma step_names u u' : ControllerFacts.step u u' → names_well u u'.
Proof.
  intros Hs. destruct Hs.
  - apply reconcile_names.
  - intros Hu. unfold reconcile_round. pose proof (moves_forM names_well (reconcile_datapath e) (dkeys (datapaths u)) (λ x _, reconcile_names e x) u Hu) as Hr.
    by destruct (forM _ _ u) as [[]].
  - enough (moves names_well (switch_features e dp)) as Hm by apply Hm. unfold switch_features, Controller.topology, install_lan_table_miss. repeat names_step.
  - enough (moves names_well (port_desc_reply e dp body)) as Hm by apply Hm. unfold port_desc_reply. repeat first [apply reconcile_names | names_step].
  - enough (moves names_well (port_status e dp n why)) as Hm by apply Hm. unfold port_status. repeat names_step.
  - enough (moves names_well (datapath_dead e dp)) as Hm by apply Hm. unfold datapath_dead. repeat names_step.
  - enough (moves names_well (packet_in e dp i t f q)) as Hm by apply Hm. unfold packet_in, Controller.topology.
    repeat first [apply learn_names | names_step].
Qed.

Lemma reachable_named base m u : ControllerFacts.reachable base m u → Forall well_named (underlay_events u).
Proof.
  induction 1 as [e|u u' _ IH Hs]; [|by eapply step_names].
  change (Forall well_named (record_event e "CONTROLLER_MODE" [("mode", JStr (mode_value m))]
    {| uc_base := base; uc_mode := m; datapaths := []; port_names := []; lan_mac_to_port := []; underlay_events := [];
       drop_counters := [("unauthorized_attachment_drops", 0); ("source_validation_drops", 0);
                         ("reachability_policy_drops", 0); ("unknown_endpoint_drops", 0)];
       last_drop := []; programmed := []; state_file := None; sent := [] |}).2.(underlay_events)).
  apply record_names; [by left|constructor].
Qed.

(** ** The view *)

Lemma mapM_result_ext {A B} (f g : A → result B) l : (∀ x, f x = g x) → mapM_result f l = mapM_result g l.
Proof. intros Hfg. induction l as [|x l IH]; [done|]. cbn. by rewrite Hfg, IH. Qed.

Lemma dget_mapM {A B} (f : A → result B) (ks : list A) `{EqDecision A} ys k :
  mapM_result (λ k, v ← f k; Ok (k, v)) ks = Ok ys → k ∈ ks → ∃ v, f k = Ok v ∧ dget ys k = Some v.
Proof.
  revert ys. induction ks as [|x ks IH]; intros ys Hm Hk; [by apply elem_of_nil in Hk|]. cbn [mapM_result] in Hm.
  apply bind_Ok in Hm as ([y v] & Hx & Hm). apply bind_Ok in Hx as (v' & Hf & [= -> ->]). apply bind_Ok in Hm as (ys' & Hys & [= <-]).
  cbn. case_decide as Hd; [subst; by exists v|]. apply elem_of_cons in Hk as [->|Hk]; [done|]. by apply IH.
Qed.

(** An event of the list is of the network that its field names. *)
Definition of_network (t : string) (ev : dict string json) : bool :=
  match dget ev "transport" with Some (JStr n) => String.eqb n t | _ => false end.

Lemma kept_events t evs : kept (event_of t) (map JObj evs) = Ok (map JObj (List.filter (of_network t) evs)).
Proof.
  unfold kept. assert (Hm : mapM_result (event_of t) (map JObj evs) = Ok (map (λ ev, if of_network t ev then Some (JObj ev) else None) evs)).
  { induction evs as [|ev evs IH]; [done|]. cbn [map mapM_result]. rewrite IH. unfold event_of, value_of, get_default, get_opt, of_network.
    cbn. destruct (dget ev "transport") as [[]|]; done. }
  rewrite Hm. f_equal. clear Hm. induction evs as [|ev evs IH]; [done|]. cbn. rewrite IH. by destruct (of_network t ev).
Qed.

Lemma lastn_map {A B} (f : A → B) n l : lastn n (map f l) = map f (lastn n l).
Proof. unfold lastn. rewrite length_map. apply skipn_map. Qed.

Lemma field_read d k v : get_default (JObj d) k v = Ok (default v (dget d k)).
Proof. reflexivity. Qed.

(** What the view shows of a network *)
Record shows (u : UnderlayController) (r : UnderlayRegistry) (t : string) (profile : Transport) (d : object) : Prop := {
  sh_state : field d "state" = JStr (if dmem (datapaths u) (dpid profile) then "CONNECTED" else "UNAVAILABLE");
  sh_attachments : ∃ items, attachments r t = Ok items ∧ field d "attachments" = JList (map attachment_json items);
  sh_routes : ∃ routes, fib r t = Ok routes ∧ field d "fib_entry_count" = JInt (Z.of_nat (length routes));
  sh_counters : field d "security_counters" = JObj (dmap JInt (drop_counters u));
  sh_events : ∃ evs, field d "events" = JList (map JObj evs) ∧ Forall (named_event "RECONCILE") evs ∧
    evs = lastn 20 (List.filter (of_network t) (underlay_events u))
}.

(** C24: the view of a provider network is the controller's own.  Whatever packets,
    port changes, losses and reconciliations the controller has been through, if
    the service reads the state the controller publishes, then for each provider
    network of the topology the view exists and says: connected if and only if
    the network's switch is among the controller's datapaths; the attachments and
    the number of forwarding entries of the registry the controller enforces; its
    counters of dropped packets; and the last twenty events that name the
    network, which are its reconciliations: no loss of a switch, change of a port
    or dropped packet is ever shown there. *)
Theorem underlay_reads_back base m u r c s st t profile : ControllerFacts.reachable base m u → Controller.state_json u c r = Ok st → underlay_file s = Published st →
  dget (transports c) t = Some profile → ∃ d, underlay c s t = Ok (Some d) ∧ shows u r t profile d.
Proof.
  intros Hu Hst Hs Hp. unfold Controller.state_json in Hst. apply bind_Ok in Hst as (ats & Hats & Hst). apply bind_Ok in Hst as (fwd & Hfwd & [= <-]).
  assert (Hk : t ∈ dkeys (transports c)) by (apply dmem_true; unfold dmem; by rewrite Hp).
  pose proof (dget_mapM (λ t, items ← attachments r t; Ok (JList (map attachment_json items))) (dkeys (transports c)) ats t) as Ha.
  destruct Ha as (va & Ha & Hga); [|done|].
  { rewrite <- Hats. apply mapM_result_ext. intros x. by destruct (attachments r x). }
  pose proof (dget_mapM (λ t, routes ← fib r t; Ok (JInt (Z.of_nat (length routes)))) (dkeys (transports c)) fwd t) as Hf.
  destruct Hf as (vf & Hf & Hgf); [|done|].
  { rewrite <- Hfwd. apply mapM_result_ext. intros x. by destruct (fib r x). }
  apply bind_Ok in Ha as (items & Hitems & [= <-]). apply bind_Ok in Hf as (routes & Hroutes & [= <-]).
  set (st := [_; _; _; _; _; _]) in Hs.
  assert (Hd : dget st "datapaths" = Some (JObj (dmap (λ t, JObj [("dpid", JInt (dpid t)); ("connected", JBool (dmem (datapaths u) (dpid t)))])
    (transports c)))) by reflexivity.
  assert (Hat : dget st "attachments" = Some (JObj ats)) by reflexivity. assert (Hfo : dget st "forwarding" = Some (JObj fwd)) by reflexivity.
  assert (Hco : dget st "security_counters" = Some (JObj (dmap JInt (drop_counters u)))) by reflexivity.
  assert (Hev : dget st "events" = Some (JList (map JObj (underlay_events u)))) by reflexivity. clearbody st.
  unfold underlay. rewrite Hp. unfold underlay_of, observed_state. rewrite Hs. unfold value_of. rewrite !field_read, Hd, Hat, Hfo, Hco, Hev.
  cbn [default from_option id mbind result_bind]. unfold from_option, id. rewrite !field_read, dget_dmap, Hp, Hga, Hgf.
  cbn [default from_option id mbind result_bind as_dict items_of fmap option_fmap option_map].
  rewrite kept_events. cbn. eexists. split; [reflexivity|]. split.
  - cbn. by destruct (dmem (datapaths u) (dpid profile)).
  - by exists items.
  - by exists routes.
  - done.
  - exists (lastn 20 (List.filter (of_network t) (underlay_events u))). split; [by rewrite <- lastn_map|]. split; [|done].
    apply lastn_Forall, Forall_forall. intros ev Hin. apply list_elem_of_In, filter_In in Hin as [Hin Ht].
    apply (proj1 (Forall_forall _ _) (reachable_named base m u Hu) ev); [by apply list_elem_of_In|].
    unfold of_network in Ht. by destruct (dget ev "transport").
Qed.

Module Examples.
Import DependencyGraphFacts.Examples.

(** The controller after the switch of the private network has connected *)
Definition switch_up : UnderlayController := (switch_features env 1 started).2.
Definition registry : UnderlayRegistry := UnderlayRegistry_init core_config None.
Definition published_state : json := match Controller.state_json switch_up core_config registry with Ok st => st | Err _ => JNull end.
Definition lab_sources : Sources := {|
  policy_file := false; policy_db := PolicyStore.empty_db; version_rows := []; ztp_file := false; ztp_db := ZtpStore.empty_ztp;
  underlay_file := Published published_state; control_socket := false |}.

(** The network is shown as connected; the event of its switch, which names the
    datapath only, is not shown. *)
Lemma underlay_reads_back_witness :
  length (underlay_events switch_up) = 2%nat ∧
  ∃ profile d, dget (transports core_config) "mpls" = Some profile ∧ underlay core_config lab_sources "mpls" = Ok (Some d) ∧
    field d "state" = JStr "CONNECTED" ∧ ∃ evs, field d "events" = JList (map JObj evs) ∧ length evs = 0%nat.
Proof.
  split; [vm_compute; reflexivity|].
  assert (Hp : is_Some (dget (transports core_config) "mpls")) by (vm_compute; by eexists). destruct Hp as [profile Hp].
  destruct (underlay_reads_back core_config ENFORCE switch_up registry core_config lab_sources published_state "mpls" profile) as (d & Hd & Hs).
  - eapply ControllerFacts.reachable_step; [apply (ControllerFacts.reachable_init _ _ env)|]. apply ControllerFacts.step_features.
  - vm_compute. reflexivity.
  - reflexivity.
  - exact Hp.
  - exists profile, d. split; [exact Hp|]. split; [exact Hd|]. destruct Hs as [Hst _ _ _ (evs & He & _ & Hl)]. split.
    + rewrite Hst. assert (dget (transports core_config) "mpls" = Some profile → dmem (datapaths switch_up) (dpid profile) = true) as Hm; [|by rewrite Hm].
      vm_compute. by intros [= <-].
    + exists evs. split; [exact He|]. rewrite Hl. vm_compute. reflexivity.
Defined.
End Examples.
