(* ===== verification/McpServer.v ===== *)
(** * The MCP server ([sdwan_mcp/server.py])

    The tools a language model may call: what each demands of the principal and
    of its arguments, which operation of the management service it runs, and how
    the result is bounded, recorded, and added to the evidence of the message.
    The protocol that carries the calls is not modelled; a call that raises is
    answered with the error. *)
From Stdlib Require Import Ascii.
From S2P Require Import Prelude Net Marks PathSelection Model Json Inventory Sql PolicyStore DynamicInventory IntentCompiler PolicyService ZtpStore Lifecycle.
From S2P Require Import ManagementAuth AuditStore LivePlan RuntimeProbe DependencyGraph RouteEvidence EvidencePlanner ManagementViews ManagementApi.
Local Open Scope string_scope.
Local Open Scope list_scope.
Local Open Scope Z_scope.

(** ** Bounded payloads *)

Definition MAX_ITEMS : nat := 100.

(** [_bounded]: the value, whether a list of it was cut, and the length of its
    longest list.  The items of a list are left as they are. *)
Fixpoint bounded (v : json) : json * bool * Z :=
  match v with
  | JList l => (JList (take MAX_ITEMS l), (MAX_ITEMS <? length l)%nat, Z.of_nat (length l))
  | JObj d => (JObj (map (λ p, (p.1, (bounded p.2).1.1)) d), existsb (λ p, (bounded p.2).1.2) d, foldr (λ p n, Z.max (bounded p.2).2 n) 0 d)
  | _ => (v, false, 0)
  end.

Definition bounded_object (d : object) : object := map (λ p : string * json, (p.1, (bounded p.2).1.1)) d.

(** ** Calls *)

Inductive ToolCall :=
  | create_site (site : string) (device : option string) (preferred standby : string)
  | delete_site (site : string)
  | upsert_intent (id intent_type target : string) (contents : object)
  | delete_intent (id : string)
  | get_dashboard_summary | list_sites
  | get_site_status (site : string) | get_site_tunnels (site : string) | get_site_routes (site : string)
  | get_topology | get_hub_status (hub : string) | get_cloud_status | get_saas_status
  | compare_site (site : string)
  | explain_route_decision (site destination : string) (source : option string) (fwmark : option Z)
  | get_recent_events | get_system_health | get_topology_nodes | get_topology_links | get_endpoint_inventory
  | get_endpoint (endpoint : string)
  | explain_endpoint_route (source destination : string) (fwmark : option Z)
  | explain_site_host_route (site destination : string) (fwmark : option Z)
  | observe_flow (source destination : string)
  | get_transport_inventory | get_hub_tunnels (hub : string) | get_hub_configuration (hub : string)
  | list_cloud_gateways | get_cloud_gateway (gateway : string) | get_data_center_configuration | get_saas_configuration
  | get_route_ownership | get_site_desired_state (site : string) | list_policy_versions | get_destination_policy | list_ztp_devices
  | get_site_interfaces (site : string) | get_site_failover_status (site : string) | get_site_classifier_status (site : string)
  | graph_get_component (id : string)
  | graph_expand_dependencies (id direction : string) (depth : Z)
  | graph_find_path (source target : string)
  | graph_get_expected_traffic_path (source destination : string)
  | graph_calculate_impact_scope (id : string)
  | evidence_get_for_components (ids : list string).

Definition tool_name (t : ToolCall) : string :=
  match t with
  | create_site _ _ _ _ => "create_site" | delete_site _ => "delete_site" | upsert_intent _ _ _ _ => "upsert_intent"
  | delete_intent _ => "delete_intent" | get_dashboard_summary => "get_dashboard_summary" | list_sites => "list_sites"
  | get_site_status _ => "get_site_status" | get_site_tunnels _ => "get_site_tunnels" | get_site_routes _ => "get_site_routes"
  | get_topology => "get_topology" | get_hub_status _ => "get_hub_status" | get_cloud_status => "get_cloud_status"
  | get_saas_status => "get_saas_status" | compare_site _ => "compare_desired_actual"
  | explain_route_decision _ _ _ _ => "explain_route_decision" | get_recent_events => "get_recent_events"
  | get_system_health => "get_system_health" | get_topology_nodes => "get_topology_nodes" | get_topology_links => "get_topology_links"
  | get_endpoint_inventory => "get_endpoint_inventory" | get_endpoint _ => "get_endpoint"
  | explain_endpoint_route _ _ _ => "explain_endpoint_route" | explain_site_host_route _ _ _ => "explain_site_host_route"
  | observe_flow _ _ => "observe_endpoint_flow" | get_transport_inventory => "get_transport_inventory"
  | get_hub_tunnels _ => "get_hub_tunnels" | get_hub_configuration _ => "get_hub_configuration"
  | list_cloud_gateways => "list_cloud_gateways" | get_cloud_gateway _ => "get_cloud_gateway"
  | get_data_center_configuration => "get_data_center_configuration" | get_saas_configuration => "get_saas_configuration"
  | get_route_ownership => "get_route_ownership" | get_site_desired_state _ => "get_site_desired_state"
  | list_policy_versions => "list_policy_versions" | get_destination_policy => "get_destination_policy"
  | list_ztp_devices => "list_ztp_devices" | get_site_interfaces _ => "get_site_interfaces"
  | get_site_failover_status _ => "get_site_failover_status" | get_site_classifier_status _ => "get_site_classifier_status"
  | graph_get_component _ => "graph_get_component" | graph_expand_dependencies _ _ _ => "graph_expand_dependencies"
  | graph_find_path _ _ => "graph_find_path" | graph_get_expected_traffic_path _ _ => "graph_get_expected_traffic_path"
  | graph_calculate_impact_scope _ => "graph_calculate_impact_scope" | evidence_get_for_components _ => "evidence_get_for_components"
  end.

(** The fields' constraints *)
Definition short (s : string) : bool := length_within 1 64 s.
Definition identifier (s : string) : bool := length_within 1 160 s.
Definition mark_ok (m : option Z) : bool := match m with Some n => 0 <=? n | None => true end.
Definition hub_name_ok (s : string) : bool := inb s ["hub1"; "hub2"].

Definition arguments_ok (t : ToolCall) : bool :=
  match t with
  | create_site site _ preferred standby => length_within 1 32 site && hub_name_ok preferred && hub_name_ok standby
  | delete_site site => length_within 1 32 site
  | upsert_intent id intent_type target _ =>
      length_within 1 128 id && inb intent_type ["destination_policy"; "site_policy"; "routing_preference"] && length_within 1 128 target
  | delete_intent id => length_within 1 128 id
  | get_site_status x | get_site_tunnels x | get_site_routes x | get_hub_status x | compare_site x | get_endpoint x | get_hub_tunnels x
  | get_hub_configuration x | get_cloud_gateway x | get_site_desired_state x | get_site_interfaces x | get_site_failover_status x
  | get_site_classifier_status x => short x
  | explain_route_decision site destination source mark =>
      short site && is_ok (ip_address destination) && match source with Some a => is_ok (ip_address a) | None => true end && mark_ok mark
  | explain_endpoint_route x y mark | explain_site_host_route x y mark => short x && short y && mark_ok mark
  | observe_flow x y | graph_get_expected_traffic_path x y => short x && short y
  | graph_get_component id | graph_calculate_impact_scope id => identifier id
  | graph_expand_dependencies id direction depth =>
      identifier id && inb direction ["outgoing"; "incoming"; "both"] && (1 <=? depth) && (depth <=? 8)
  | graph_find_path x y => identifier x && identifier y
  | evidence_get_for_components ids => forallb identifier ids
  | _ => true
  end.

(** Whether a tool writes, and the scope it requires. *)
Definition writes_state (t : ToolCall) : bool :=
  match t with create_site _ _ _ _ | delete_site _ | upsert_intent _ _ _ _ | delete_intent _ => true | _ => false end.
Definition tool_scope (t : ToolCall) : string :=
  match t with
  | create_site _ _ _ _ | delete_site _ => "site:write"
  | upsert_intent _ _ _ _ | delete_intent _ => "policy:write"
  | get_recent_events => "audit:read"
  | _ => "network:read"
  end.

(** [_require] and [_require_write] *)
Definition require_scopes (p : Principal) (write : bool) (scope : string) : result unit :=
  raise_if (negb (ManagementAuth.allowed p (if write then "mcp:operate" else "mcp:read")) || negb (ManagementAuth.allowed p scope)) PermissionError
    (if write then "PERMISSION_DENIED: required controlled-write scope is not granted" else "PERMISSION_DENIED: required read-only scope is not granted").

(** [_site] and [_hub] *)
Definition site_known (c : TopologyConfig) (name : string) : result unit :=
  match logical_site c name with Ok _ => Ok tt | Err _ => raise ValueError "UNKNOWN_SITE: requested site is not configured; use list_sites" end.
Definition hub_known (c : TopologyConfig) (name : string) : result unit :=
  raise_if (negb (dmem (hubs c) name)) ValueError "UNKNOWN_HUB: requested hub is not configured".

(** [if not data.get("available"): raise ValueError(prefix + reason)] *)
Definition demand `{PyRepr} (error : object → string) (d : result object) : result object :=
  d ← d; _ ← raise_if (negb (py_truth (field d "available"))) ValueError (error d); Ok d.
Definition reason_text `{PyRepr} (d : object) (default_text : string) : string := py_str (default (JStr default_text) (dget d "reason")).

(** [str(destination)] of a parsed address *)
Definition address_text (s : string) : string := match ip_address s with Ok a => addr_str a | Err _ => s end.

(** ** Results *)

(** An item of [unknowns] that has both fields *)
Definition unknown_field `{PyRepr} (item : json) : list json :=
  match item with
  | JObj d =>
      if py_truth (field d "field") && py_truth (field d "reason")
      then [JObj [("field", JStr (py_str (field d "field"))); ("reason", JStr (py_str (field d "reason")))]] else []
  | _ => []
  end.
Definition unknowns_of `{PyRepr} (d : object) (reason : option string) : result (list json) :=
  items ← items_of (default (JList []) (dget d "unknowns"));
  Ok (flat_map unknown_field items ++ match reason with
      | Some r => if nonempty r then [JObj [("field", JStr "result"); ("reason", JStr r)]] else []
      | None => []
      end).

(** A field of texts; pydantic refuses other items. *)
Definition text_field (d : object) (k : string) : result (list json) :=
  items ← items_of (default (JList []) (dget d k));
  _ ← raise_if (existsb (λ v, match v with JStr _ => false | _ => true end) items) ValueError "validation error for OperationalResultMeta"; Ok items.

(** [x in (False, "UNAVAILABLE")] *)
Definition says_unavailable (v : json) : bool :=
  match v with
  | JBool b => negb b
  | JInt n => n =? 0
  | JFloat q => Qeqb q 0
  | JStr t => String.eqb t "UNAVAILABLE"
  | _ => false
  end.
Definition is_available_payload (payload : object) (reason : option string) : bool :=
  match reason with
  | Some _ => false
  | None => negb (says_unavailable (default (default (JStr "AVAILABLE") (dget payload "availability")) (dget payload "available")))
  end.

(** [value.get("failure_reason") if value.get("state") == "FAILED" else None] *)
Definition failure_of (value : object) : option string :=
  match dget value "state", dget value "failure_reason" with
  | Some (JStr st), Some (JStr r) => if String.eqb st "FAILED" then Some r else None
  | _, _ => None
  end.

Definition compilation_document (x : compilation) : json := JObj [
  ("input_digest", JStr (in_digest_of x)); ("output_digest", JStr (out_digest_of x)); ("changed", JBool (was_changed x));
  ("changed_sites", texts (changed_sites x))].

(** ** The tools *)

Section server.
Context `{PyRepr} (sha256 : dict string json → string).
Context (input_digest : list InventorySite → list IntentRow → list InputRow → string) (clock : nat → string) (base : TopologyConfig).
Context (pbkdf2 : string → string → string) (ztp_clock : nat → Z) (uuid_hex secret_of salt_of : nat → string).
Context `{LabRuntime} (bootstrap_ca : option string) (ztp_url policy_url management_host : string).
Context (audit_clock : nat → string).
(** The containers, JSON's parser, the hash of interface names, how instants are
    written, and pydantic's check of a fact. *)
Context (docker : string → list string → Exec) (loads : string → result json) (hexdigest : string → string) (instant : Z → string)
  (valid_fact : EvidenceFact → bool).
(** The files other programs write, the identifiers of results and their times. *)
Context (version_rows : list PolicyVersionRow) (underlay_file : StateFile) (control_socket : bool) (request_uuid now_of : nat → string).
(** The environment's bundle, empty if there is none, and the principal. *)
Context (bundle : string) (p : Principal).

(** What the service reads: its databases were opened, so they are there. *)
Definition sources_of (s : Server) : Sources := {|
  policy_file := true; policy_db := database (policy (sv_world s)); ManagementViews.version_rows := version_rows; ztp_file := true;
  ManagementViews.ztp_db := ztp (sv_world s); ManagementViews.underlay_file := underlay_file; ManagementViews.control_socket := control_socket |}.

(** What a reading tool checks, what it returns, and how its facts are labelled. *)
Record Reading := { rd_check : result unit; rd_payload : result object; rd_source : string; rd_kind : string }.

Definition read_any (payload : result object) (source kind : string) : Reading :=
  {| rd_check := Ok tt; rd_payload := payload; rd_source := source; rd_kind := kind |}.
Definition read_site (c : TopologyConfig) (site : string) (payload : result object) (source kind : string) : Reading :=
  {| rd_check := site_known c site; rd_payload := payload; rd_source := source; rd_kind := kind |}.
Definition read_hub (c : TopologyConfig) (hub : string) (payload : result object) (source kind : string) : Reading :=
  {| rd_check := hub_known c hub; rd_payload := payload; rd_source := source; rd_kind := kind |}.

Definition listing (k : string) (l : result (list object)) : result object := l ← l; Ok [(k, json_rows l)].

Definition graph_error (prefix default_text : string) (d : object) : string := prefix +:+ reason_text d default_text.

(** The tools that read; [c] is the topology of the service. *)
Definition reading (c : TopologyConfig) (s : Sources) (audit : Store) (t : ToolCall) : option Reading :=
  match t with
  | create_site _ _ _ _ | delete_site _ | upsert_intent _ _ _ _ | delete_intent _ => None
  | get_dashboard_summary => Some (read_any (dashboard docker loads c s instant) "database" "configured")
  | list_sites => Some (read_any (listing "sites" (Ok (site_list_view c s))) "database" "configured")
  | get_site_status site => Some (read_site c site (site_status c s site) "database" "configured")
  | get_site_tunnels site => Some (read_site c site (
      v ← runtime_view docker loads c site; Ok [("site", JStr site); ("tunnels", field v "tunnels")]) "wireguard" "observed")
  | get_site_routes site => Some (read_site c site (route_summary_view docker loads c site) "routing_table" "observed")
  | get_topology => Some (read_any (Ok (topology_view c)) "configuration" "configured")
  | get_hub_status hub => Some (read_hub c hub (hub_view docker loads c hub) "runtime_command" "observed")
  | get_cloud_status => Some (read_any (Ok (network_view c "cloud-vpc")) "configuration" "configured")
  | get_saas_status => Some (read_any (Ok (network_view c "saas")) "configuration" "configured")
  | compare_site site => Some (read_site c site (compare_desired_actual docker loads c s site) "derived" "derived")
  | explain_route_decision site destination source mark => Some (read_site c site (
      demand (λ d, "RUNTIME_UNAVAILABLE: " +:+ reason_text d "route lookup unavailable") (
        r ← route_decision_report docker loads c site (address_text destination) (address_text <$> source) mark; Ok (report_document r)))
      "routing_table" "observed")
  | get_recent_events => Some (read_any (listing "events" (Ok (combined_events s audit))) "audit_log" "observed")
  | get_system_health => Some (read_any (Ok (health s)) "management" "observed")
  | get_topology_nodes => Some (read_any (listing "nodes" (topology_nodes hexdigest c)) "configuration" "configured")
  | get_topology_links => Some (read_any (listing "links" (topology_links hexdigest c)) "configuration" "configured")
  | get_endpoint_inventory => Some (read_any (l ← endpoints_view c; Ok [("endpoints", JList l)]) "configuration" "configured")
  | get_endpoint endpoint => Some (read_any (
      demand (λ d, "UNKNOWN_ENDPOINT: " +:+ reason_text d "use get_endpoint_inventory") (endpoint_view c endpoint)) "configuration" "configured")
  | explain_endpoint_route source destination mark => Some (read_any (
      demand (λ d, "UNKNOWN_ENDPOINT: " +:+ reason_text d "use get_endpoint_inventory") (
        r ← endpoint_route docker loads c source destination mark; Ok (endpoint_route_document r))) "derived" "derived")
  | explain_site_host_route site destination mark => Some (read_site c site (
      demand (λ d, "UNKNOWN_ENDPOINT: " +:+ reason_text d "use get_endpoint_inventory") (
        r ← site_host_route docker loads c site destination mark; Ok (endpoint_route_document r))) "derived" "derived")
  | observe_flow source destination => Some (read_any (
      demand (λ d, "FLOW_OBSERVATION_UNAVAILABLE: " +:+ reason_text d "runtime observation unavailable") (
        f ← observe_endpoint_flow docker loads c source destination; Ok (flow_document f))) "routing_table" "observed")
  | get_transport_inventory => Some (read_any (listing "transports" (Ok (transport_inventory c))) "configuration" "configured")
  | get_hub_tunnels hub => Some (read_hub c hub (Ok (hub_tunnels docker c hub)) "wireguard" "observed")
  | get_hub_configuration hub => Some (read_hub c hub (hub_configuration c hub) "configuration" "configured")
  | list_cloud_gateways => Some (read_any (listing "gateways" (cloud_gateways c)) "configuration" "configured")
  | get_cloud_gateway gateway => Some (read_any (
      demand (λ _, "UNKNOWN_CLOUD_GATEWAY: use list_cloud_gateways") (cloud_gateway c gateway)) "configuration" "configured")
  | get_data_center_configuration => Some (read_any (Ok (data_center_configuration c)) "configuration" "configured")
  | get_saas_configuration => Some (read_any (Ok (saas_configuration c)) "configuration" "configured")
  | get_route_ownership => Some (read_any (listing "ownership" (Ok (ownership s))) "database" "desired")
  | get_site_desired_state site => Some (read_site c site (
      Ok [("site", JStr site); ("desired_states", json_rows (desired s site))]) "database" "desired")
  | list_policy_versions => Some (read_any (listing "policy_versions" (Ok (policy_versions s))) "database" "desired")
  | get_destination_policy => Some (read_any (listing "destination_policy" (Ok (destination_policy s))) "database" "desired")
  | list_ztp_devices => Some (read_any (listing "devices" (Ok (ztp_devices s instant))) "database" "configured")
  | get_site_interfaces site => Some (read_site c site (Ok (site_interfaces docker loads c site)) "linux_namespace" "observed")
  | get_site_failover_status site => Some (read_site c site (Ok (site_failover docker loads c site)) "runtime_command" "observed")
  | get_site_classifier_status site => Some (read_site c site (Ok (site_classifier docker loads c site)) "runtime_command" "observed")
  | graph_get_component id => Some (read_any (
      demand (graph_error "UNKNOWN_COMPONENT: " id) (graph_component c s valid_fact id)) "dependency_graph" "derived")
  | graph_expand_dependencies id direction depth => Some (read_any (
      demand (graph_error "UNKNOWN_COMPONENT: " id) (graph_expand c s valid_fact id direction depth)) "dependency_graph" "derived")
  | graph_find_path source target => Some (read_any (
      demand (graph_error "UNKNOWN_COMPONENT: " "source or target") (graph_path c s valid_fact source target)) "dependency_graph" "derived")
  | graph_get_expected_traffic_path source destination => Some (read_any (
      demand (graph_error "EXPECTED_PATH_UNAVAILABLE: " "unknown") (
        e ← graph_expected_traffic_path c source destination; as_dict (expected_document e))) "dependency_graph" "derived")
  | graph_calculate_impact_scope id => Some (read_any (
      demand (graph_error "UNKNOWN_COMPONENT: " id) (graph_impact c s valid_fact id)) "dependency_graph" "derived")
  | evidence_get_for_components ids => Some (read_any (graph_evidence_view c s valid_fact ids) "evidence_graph" "observed")
  end.

(** ** A call *)

Definition in_audit {A} (m : M Store A) : M Server A := λ s,
  let '(r, a) := m (sv_audit s) in (r, {| sv_world := sv_world s; sv_audit := a; sv_topology := sv_topology s; sv_ticks := sv_ticks s |}).

(** [_tool_result] *)
Definition sized (total : Z) (truncated : bool) (doc : object) : object :=
  let facts := Z.of_nat (length (document_items doc "facts")) in
  dset (dset (dset (dset doc "truncated" (JBool truncated))
    "returned_count" (JInt (if total =? 0 then facts else Z.min total (Z.of_nat MAX_ITEMS))))
    "total_count" (JInt (if total =? 0 then facts else total)))
    "next_cursor" (if truncated then JStr ("offset:" +:+ str_Z (Z.of_nat MAX_ITEMS)) else JNull).

Definition tool_document (name : string) (payload : object) (source_type kind : string) (reason : option string) (tick : nat) : result object :=
  let small := bounded_object payload in
  unknowns ← unknowns_of small reason; limitations ← text_field payload "limitations"; warnings ← text_field payload "warnings";
  let doc := operational_result (request_uuid tick) (now_of tick) name small source_type kind (is_available_payload payload reason)
    limitations warnings unknowns in
  _ ← raise_if (512 <? length (document_items doc "facts"))%nat ValueError "validation error for OperationalResult";
  Ok (sized (bounded (JObj payload)).2 (bounded (JObj payload)).1.2 doc).

Definition tool_result (name : string) (payload : object) (source_type kind : string) (reason : option string) : M Server object :=
  s ← get;
  doc ← lift (tool_document name payload source_type kind reason (sv_ticks s));
  _ ← note audit_clock (subject p) "MCP_TOOL" name (if is_available_payload payload reason then "200" else "UNAVAILABLE");
  _ ← (if nonempty bundle then in_audit (append_evidence_tool bundle name [] doc) else mret tt);
  mret doc.

Definition write_tool (t : ToolCall) : M Server object :=
  match t with
  | create_site site device preferred standby =>
      v ← service_create_site sha256 input_digest clock base pbkdf2 ztp_clock uuid_hex secret_of salt_of bootstrap_ca ztp_url policy_url
            management_host audit_clock site
            (match device with Some d => if nonempty d then d else site +:+ "-edge" | None => site +:+ "-edge" end) preferred standby (subject p);
      tool_result "create_site" v "management_lifecycle" "desired" (failure_of v)
  | delete_site site =>
      v ← service_delete_site sha256 input_digest clock base ztp_clock uuid_hex audit_clock site (subject p);
      tool_result "delete_site" v "management_lifecycle" "desired" (failure_of v)
  | upsert_intent id intent_type target contents =>
      v ← service_upsert_intent sha256 input_digest clock base audit_clock id intent_type target contents (subject p);
      tool_result "upsert_intent" [("changed", JBool v.1); ("compilation", compilation_document v.2)] "policy_intent" "desired" None
  | delete_intent id =>
      changed ← service_delete_intent sha256 input_digest clock base audit_clock id (subject p);
      tool_result "delete_intent" [("intent_id", JStr id); ("deleted", JBool changed)] "policy_intent" "desired"
        (if changed then None else Some "intent not found")
  | _ => lift (raise ValueError "not a writing tool")
  end.

Definition read_tool (name : string) (r : Reading) : M Server object :=
  _ ← lift (rd_check r); payload ← lift (rd_payload r); tool_result name payload (rd_source r) (rd_kind r) None.

(** A call: the arguments are checked before the tool runs, the scopes first in it. *)
Definition call_tool (t : ToolCall) : M Server object :=
  _ ← lift (raise_if (negb (arguments_ok t)) ValueError "validation error for arguments");
  _ ← lift (require_scopes p (writes_state t) (tool_scope t));
  s ← get;
  match reading (sv_topology s) (sources_of s) (sv_audit s) t with
  | Some r => read_tool (tool_name t) r
  | None => write_tool t
  end.

Definition call_all (l : list ToolCall) (s : Server) : list (result object) * Server :=
  fold_left (λ acc t, let '(r, s) := call_tool t acc.2 in (acc.1 ++ [r], s)) l ([], s).
End server.

(** [main]: the principal of the environment's context token; without one the
    process ends with status 2 ([None]) and serves nothing. *)
Definition main `{PyRepr} {Token} (unseal : string → string → option Z → Token → option json) (secret : string) (token : Token) (session audience : string)
    (max_age : Z) (serve : Principal → Server → list (result object) * Server) (s : Server) : result (option (list (result object))) * Server :=
  match verify_agent_context unseal secret token session audience max_age with
  | Ok p => let '(rs, s) := serve p s in (Ok (Some rs), s)
  | Err e => (if bool_decide (exn_cls e = ValueError) then Ok None else Err e, s)
  end.
