(* ===== verification/McpServerFacts.v ===== *)
(** * Facts about the MCP server

    An agent that acts for a viewer changes nothing but the audit trail and the
    evidence of its message, and what its calls returned is what was recorded. *)
From S2P Require Import Prelude Net Marks PathSelection Model Json CoreTopology Inventory Sql PolicyStore DynamicInventory IntentCompiler PolicyService ZtpStore.
From S2P Require Import StoreHistory CompilerFacts Lifecycle ManagementAuth ManagementAuthFacts AuditStore AuditStoreFacts LivePlan RuntimeProbe DependencyGraph RouteEvidence.
From S2P Require Import EvidencePlanner ManagementViews ManagementApi ManagementApiFacts McpServer.
Local Open Scope string_scope.
Local Open Scope list_scope.
Local Open Scope Z_scope.

(** ** Bounds *)

(** A payload has no list of more than [MAX_ITEMS] items, other than inside the
    items of a list. *)
Fixpoint within_bound (v : json) : bool :=
  match v with
  | JList l => (length l <=? MAX_ITEMS)%nat
  | JObj d => forallb (λ p, within_bound p.2) d
  | _ => true
  end.


Lemma bounded_spec v : within_bound (bounded v).1.1 = true ∧ 0 <= (bounded v).2 ∧
  ((bounded v).1.2 = true ↔ Z.of_nat MAX_ITEMS < (bounded v).2) ∧ ((bounded v).1.2 = false → (bounded v).1.1 = v).
Proof.
  induction v as [| | | | |l _|d IH] using json_nested_ind; try (split_and!; cbn; done).
  - cbn [bounded within_bound fst snd]. rewrite length_take. split_and!; [apply Nat.leb_le; lia|lia|rewrite Nat.ltb_lt; lia|].
    intros Hl%Nat.ltb_ge. by rewrite take_ge.
  - cbn [bounded within_bound fst snd]. induction IH as [|[k v] d (Hw & Hn & Ht & Hs) _ (IHw & IHn & IHt & IHs)]; [by split_and!|].
    cbn [map forallb existsb foldr fst snd] in *. split_and!.
    + by rewrite Hw, IHw.
    + lia.
    + rewrite orb_true_iff, Ht, IHt. lia.
    + intros [H1 H2]%orb_false_iff. rewrite (Hs H1). specialize (IHs H2). injection IHs as IHs. by rewrite IHs.
Qed.

(** Only the lists of a payload are cut: those inside the items stay. *)
Lemma nested_lists_kept : ∃ v, (bounded v).1.2 = false ∧ (bounded v).1.1 = v ∧
  match v with JObj [(_, JList [JObj [(_, JList l)]])] => (MAX_ITEMS < length l)%nat | _ => False end.
Proof.
  exists (JObj [("route_groups", JList [JObj [("destinations", JList (repeat JNull 101))]])]). by vm_compute.
Qed.

(** ** One call *)

Section server.
Context `{PyRepr} (sha256 : dict string json → string).
Context (input_digest : list InventorySite → list IntentRow → list InputRow → string) (clock : nat → string) (base : TopologyConfig).
Context (pbkdf2 : string → string → string) (ztp_clock : nat → Z) (uuid_hex secret_of salt_of : nat → string).
Context `{LabRuntime} (bootstrap_ca : option string) (ztp_url policy_url management_host : string).
Context (audit_clock : nat → string).
Context (docker : string → list string → Exec) (loads : string → result json) (hexdigest : string → string) (instant : Z → string)
  (valid_fact : EvidenceFact → bool).
Context (version_rows : list PolicyVersionRow) (underlay_file : StateFile) (control_socket : bool) (request_uuid now_of : nat → string).
Context (bundle : string).

Notation tool_document := (tool_document request_uuid now_of).
Notation tool_result p := (tool_result audit_clock request_uuid now_of bundle p).
Notation reading := (reading docker loads hexdigest instant valid_fact).
Notation sources_of := (sources_of version_rows underlay_file control_socket).
Notation call_tool p := (call_tool sha256 input_digest clock base pbkdf2 ztp_clock uuid_hex secret_of salt_of bootstrap_ca ztp_url policy_url
  management_host audit_clock docker loads hexdigest instant valid_fact version_rows underlay_file control_socket request_uuid now_of bundle p).
Notation call_all p := (call_all sha256 input_digest clock base pbkdf2 ztp_clock uuid_hex secret_of salt_of bootstrap_ca ztp_url policy_url
  management_host audit_clock docker loads hexdigest instant valid_fact version_rows underlay_file control_socket request_uuid now_of bundle p).

(** What a document says about itself *)
Definition doc_facts (d : object) : list json := document_items d "facts".
Definition doc_outcome (d : object) : string :=
  match field d "meta" with
  | JObj m => match dget m "available" with Some (JBool true) => "200" | _ => "UNAVAILABLE" end
  | _ => "UNAVAILABLE"
  end.

Lemma tool_document_shape name payload source kind reason tick doc : tool_document name payload source kind reason tick = Ok doc →
  doc_outcome doc = (if is_available_payload payload reason then "200" else "UNAVAILABLE") ∧
  ∃ meta facts, doc = ("meta", JObj meta) :: ("facts", JList facts) :: drop 2 doc ∧
    ∃ request sources unknowns limitations, dget meta "request_id" = Some request ∧ dget meta "sources" = Some (JList sources) ∧
      dget meta "unknowns" = Some (JList unknowns) ∧ dget meta "limitations" = Some (JList limitations).
Proof.
  unfold McpServer.tool_document. intros Hd. inv_ok. unfold sized, operational_result. cbn. split; [by destruct (is_available_payload payload reason)|].
  eexists _, _. split; [reflexivity|]. eexists _, _, _, _. by split_and!.
Qed.

(** What [append_evidence_tool] adds for a document of that shape. *)
Definition learned (r : BundleRow) (facts : list json) (r' : BundleRow) : Prop :=
  bn_finalized r' = bn_finalized r ∧
  AuditStore.facts (bn_payload r') = (if bn_finalized r =? 0 then AuditStore.facts (bn_payload r) ++ facts else AuditStore.facts (bn_payload r)).

Lemma extended_shape p name meta facts rest request sources unknowns limitations : dget meta "request_id" = Some request →
  dget meta "sources" = Some (JList sources) → dget meta "unknowns" = Some (JList unknowns) → dget meta "limitations" = Some (JList limitations) →
  ∃ q, extended_payload p name [] (("meta", JObj meta) :: ("facts", JList facts) :: rest) = Ok q ∧
    AuditStore.facts q = AuditStore.facts p ++ facts.
Proof.
  intros Hr Hs Hu Hl. unfold extended_payload, meta_items, get_default, get_opt. set (doc := _ :: _).
  assert (Hm : dget doc "meta" = Some (JObj meta)) by reflexivity. assert (Hf : dget doc "facts" = Some (JList facts)) by reflexivity.
  rewrite Hm, Hf. cbn [default mbind result_bind items_of]. unfold from_option, id, mbind, result_bind. rewrite Hr, Hs, Hu, Hl. by eexists.
Qed.

(** What a call that returns leaves behind *)
Record recorded (p : Principal) (name : string) (doc : object) (s s' : Server) : Prop := {
  rc_world : sv_world s' = sv_world s; rc_topology : sv_topology s' = sv_topology s;
  rc_flows : flow_records (sv_audit s') = flow_records (sv_audit s); rc_sessions : sessions (sv_audit s') = sessions (sv_audit s);
  rc_messages : messages_of_chat (sv_audit s') = messages_of_chat (sv_audit s);
  rc_entry : logged [(subject p, "MCP_TOOL", name, doc_outcome doc)] s s';
  rc_sealed : sealed (sv_audit s) (sv_audit s');
  rc_others : ∀ id, id ≠ bundle → bundle_of id (sv_audit s') = bundle_of id (sv_audit s);
  rc_learned : ∀ r, bundle ≠ "" → bundle_of bundle (sv_audit s) = Some r → ∃ r', bundle_of bundle (sv_audit s') = Some r' ∧ learned r (doc_facts doc) r'
}.

Lemma append_learns name meta facts rest request sources unknowns limitations st : dget meta "request_id" = Some request →
  dget meta "sources" = Some (JList sources) → dget meta "unknowns" = Some (JList unknowns) → dget meta "limitations" = Some (JList limitations) →
  let doc := ("meta", JObj meta) :: ("facts", JList facts) :: rest in
  ∃ st', append_evidence_tool bundle name [] doc st = (Ok tt, st') ∧
    (∃ rows, st' = set_bundles st rows) ∧ (∀ id, id ≠ bundle → bundle_of id st' = bundle_of id st) ∧
    ∀ r, bundle_of bundle st = Some r → ∃ r', bundle_of bundle st' = Some r' ∧ learned r facts r'.
Proof.
  intros Hr Hs Hu Hl doc. unfold append_evidence_tool, transaction, append_read, append_write, query, execute, mbind, M_bind, get, put, mret, M_ret.
  assert (Hst : st = set_bundles st (bundles st)) by (by destruct st).
  destruct (find (is_bundle bundle) (bundles st)) as [r|] eqn:Hf; [|exists st; split_and!; [done|by eexists|done|]; intros r Hb;
    unfold bundle_of in Hb; rewrite Hf in Hb; discriminate Hb].
  destruct (bn_finalized r =? 0) eqn:Hz; cbn [negb].
  - destruct (extended_shape (bn_payload r) name meta facts rest _ _ _ _ Hr Hs Hu Hl) as (q & Hq & Hqf). unfold lift. fold doc in Hq. rewrite Hq.
    eexists. split; [reflexivity|]. split; [by eexists|]. unfold bundle_of. cbn [bundles set_bundles]. split.
    + intros id Hid. rewrite find_updated by (by intros []). destruct (find (is_bundle id) (bundles st)) as [x|] eqn:Hx; [|done]. cbn.
      destruct (is_bundle bundle x) eqn:Hb; [|done]. apply is_bundle_id in Hb. apply find_some in Hx as [_ Hx%is_bundle_id]. congruence.
    + intros r0 Hr0. rewrite Hf in Hr0. injection Hr0 as <-. rewrite find_updated, Hf by (by intros []). cbn.
      apply find_some in Hf as [_ Hb]. rewrite Hb. eexists. split; [done|]. split; [done|]. cbn. by rewrite Hz, Hqf.
  - exists st. split_and!; [done|by eexists|done|]. intros r0 Hr0. exists r0. split; [done|]. unfold bundle_of in Hr0. rewrite Hf in Hr0.
    injection Hr0 as <-. split; [done|]. by rewrite Hz.
Qed.

Lemma tool_result_spec p name payload source kind reason s :
  match tool_result p name payload source kind reason s with
  | (Ok doc, s') => recorded p name doc s s'
  | (Err _, s') => s' = s
  end.
Proof.
  unfold McpServer.tool_result, mbind, M_bind, get, lift, mret, M_ret.
  destruct (tool_document name payload source kind reason (sv_ticks s)) as [doc|e] eqn:Hd; [|done].
  destruct (tool_document_shape _ _ _ _ _ _ _ Hd) as (Ho & meta & facts & Hdoc & request & ss & us & ls & H1 & H2 & H3 & H4).
  unfold note, audited, add, transaction, execute, mbind, M_bind, get, put.
  set (row := {| AuditStore.au_id := _; au_created := _; AuditStore.au_actor := _; AuditStore.au_action := _; AuditStore.au_target := _;
    au_outcome := _; au_detail := _ |}).
  assert (Hentry : entry_of row = (subject p, "MCP_TOOL", name, doc_outcome doc)) by (unfold entry_of, row; cbn; by rewrite Ho).
  set (st := set_audit (sv_audit s) (audit_events (sv_audit s) ++ [row])).
  destruct (nonempty bundle) eqn:Hn.
  - destruct (append_learns name meta facts (drop 2 doc) _ _ _ _ st H1 H2 H3 H4) as (st' & Hrun & (rows & Hst) & Hother & Hheld).
    assert (Hrun' : append_evidence_tool bundle name [] doc st = (Ok tt, st')) by (rewrite Hdoc; exact Hrun). clear Hrun. rename Hrun' into Hrun.
    unfold in_audit. cbn [sv_audit]. fold st. rewrite Hrun.
    assert (Hfacts : doc_facts doc = facts) by (rewrite Hdoc; reflexivity).
    assert (Hsl : sealed (sv_audit s) st').
    { etrans; [apply (sealed_same _ st); done|]. pose proof (sealed_append bundle name [] doc st) as Hs. by rewrite Hrun in Hs. }
    subst st'. split; cbn; try done.
    + by exists [row]; split; [|cbn; rewrite Hentry].
    + intros r _ Hr. rewrite Hfacts. by apply Hheld.
  - split; cbn; try done.
    + by exists [row]; split; [|cbn; rewrite Hentry].
    + by apply sealed_same.
    + intros r Hb. exfalso. apply Hb. by destruct bundle.
Qed.

(** A call whose scopes are not granted is answered with an error, and that is
    all: not even the audit trail shows it. *)
Lemma call_refused p t s :
  ManagementAuth.allowed p (if writes_state t then "mcp:operate" else "mcp:read") && ManagementAuth.allowed p (tool_scope t) = false →
  ∃ e, call_tool p t s = (Err e, s) ∧ (arguments_ok t = true → exn_cls e = PermissionError).
Proof.
  intros Ha. unfold McpServer.call_tool, lift, mbind, M_bind. destruct (arguments_ok t); cbn; [|by eexists].
  unfold require_scopes. rewrite <- negb_andb, Ha. cbn. by eexists.
Qed.

Lemma call_reads p t s : writes_state t = false →
  match call_tool p t s with (Ok doc, s') => recorded p (tool_name t) doc s s' | (Err _, s') => s' = s end.
Proof.
  intros Hw. unfold McpServer.call_tool, lift, mbind, M_bind, get. destruct (raise_if _ _ _); [|done].
  destruct (require_scopes p (writes_state t) (tool_scope t)); [|done].
  destruct (reading (sv_topology s) (sources_of s) (sv_audit s) t) as [r|] eqn:Hr; [|by destruct t].
  unfold read_tool, lift, mbind, M_bind. destruct (rd_check r); [|done]. destruct (rd_payload r); [|done]. apply tool_result_spec.
Qed.

(** The entries and the documents of the calls that were answered *)
Definition call_entries (p : Principal) (calls : list ToolCall) (rs : list (result object)) : list entry :=
  flat_map (λ x : ToolCall * result object,
    match x.2 with Ok d => [(subject p, "MCP_TOOL", tool_name x.1, doc_outcome d)] | Err _ => [] end) (zip calls rs).
Definition answered (rs : list (result object)) : list object := flat_map (λ r, match r with Ok d => [d] | Err _ => [] end) rs.

Lemma call_all_cons p t l s : call_all p (t :: l) s =
  let '(r, s1) := call_tool p t s in let '(rs, s2) := call_all p l s1 in (r :: rs, s2).
Proof.
  unfold McpServer.call_all. cbn [fold_left fst snd app]. destruct (call_tool p t s) as [r s1].
  assert (Hacc : ∀ l acc s, fold_left (λ acc t, let '(r, s) := call_tool p t acc.2 in (acc.1 ++ [r], s)) l (acc, s) =
    let '(rs, s2) := fold_left (λ acc t, let '(r, s) := call_tool p t acc.2 in (acc.1 ++ [r], s)) l ([], s) in (acc ++ rs, s2)).
  { clear. induction l as [|t l IH]; intros acc s; cbn [fold_left fst snd app]; [by rewrite app_nil_r|].
    destruct (call_tool p t s) as [r s1]. rewrite IH, (IH [r]). destruct (fold_left _ l ([], s1)) as [rs s2]. by rewrite <- app_assoc. }
  rewrite Hacc. by destruct (fold_left _ l ([], s1)).
Qed.

(** What the calls of a principal who may only read leave behind *)
Record confined (p : Principal) (calls : list ToolCall) (rs : list (result object)) (s s' : Server) : Prop := {
  cf_length : length rs = length calls;
  cf_world : sv_world s' = sv_world s; cf_topology : sv_topology s' = sv_topology s;
  cf_flows : flow_records (sv_audit s') = flow_records (sv_audit s); cf_sessions : sessions (sv_audit s') = sessions (sv_audit s);
  cf_messages : messages_of_chat (sv_audit s') = messages_of_chat (sv_audit s);
  cf_entries : logged (call_entries p calls rs) s s';
  cf_refused : ∀ i t, calls !! i = Some t → writes_state t = true ∨ ManagementAuth.allowed p (tool_scope t) = false → ∃ e, rs !! i = Some (Err e);
  cf_sealed : sealed (sv_audit s) (sv_audit s');
  cf_others : ∀ id, id ≠ bundle → bundle_of id (sv_audit s') = bundle_of id (sv_audit s);
  cf_learned : ∀ r, bundle ≠ "" → bundle_of bundle (sv_audit s) = Some r → ∃ r', bundle_of bundle (sv_audit s') = Some r' ∧
    learned r (flat_map doc_facts (answered rs)) r'
}.

Lemma learned_trans r f r1 g r2 : learned r f r1 → learned r1 g r2 → learned r (f ++ g) r2.
Proof. intros [F1 P1] [F2 P2]. split; [congruence|]. rewrite P2, F1, P1. destruct (bn_finalized r =? 0); [by rewrite app_assoc|done]. Qed.

Lemma learned_none r : learned r [] r.
Proof. split; [done|]. rewrite app_nil_r. by destruct (bn_finalized r =? 0). Qed.

Lemma calls_confined p calls : ManagementAuth.allowed p "mcp:operate" = false → ∀ s,
  let '(rs, s') := call_all p calls s in confined p calls rs s s'.
Proof.
  intros Ho. induction calls as [|t calls IH]; intros s.
  { split; try done; [by exists []; rewrite app_nil_r|]. intros r _ Hr. exists r. split; [done|apply learned_none]. }
  rewrite call_all_cons.
  assert (Ht : match call_tool p t s with (Ok doc, s') => recorded p (tool_name t) doc s s' | (Err _, s') => s' = s end).
  { destruct (writes_state t) eqn:Hw; [|by apply call_reads]. destruct (call_refused p t s) as (e & -> & _); [by rewrite Hw, Ho|done]. }
  assert (Href : writes_state t = true ∨ ManagementAuth.allowed p (tool_scope t) = false → ∃ e, (call_tool p t s).1 = Err e).
  { intros Hor. destruct (call_refused p t s) as (e & He & _); [|by exists e; rewrite He].
    destruct Hor as [Hw|Hw]; rewrite Hw; [by rewrite Ho|by rewrite andb_false_r]. }
  destruct (call_tool p t s) as [r s1]. cbn [fst] in Href. specialize (IH s1). destruct (call_all p calls s1) as [rs s2].
  destruct IH as [Hl Hw Htp Hf Hs Hm He Hr Hse Ho' Hle]. destruct r as [doc|e].
  - destruct Ht as [tw tt tf ts tm te tse to tl]. split; try congruence.
    + cbn. by rewrite Hl.
    + change (call_entries p (t :: calls) (Ok doc :: rs)) with ([(subject p, "MCP_TOOL", tool_name t, doc_outcome doc)] ++ call_entries p calls rs).
      by eapply logged_trans.
    + intros [|i] t'; [|apply Hr]. intros [= <-] Hor. by apply Href in Hor as (e & [=]).
    + by etrans.
    + intros id Hid. by rewrite Ho', to.
    + intros b Hb Hh. destruct (tl b Hb Hh) as (b1 & Hh1 & L1). destruct (Hle b1 Hb Hh1) as (b2 & Hh2 & L2). exists b2. split; [done|].
      cbn [answered flat_map app]. by eapply learned_trans.
  - subst s1. split; try done; [cbn; by rewrite Hl|]. intros [|i] t'; [|apply Hr]. intros [= <-] Hor. cbn. by eexists.
Qed.

(** ** The process of an agent *)

Context {Token : Type} (seal : string → string → dict string json → Token) (unseal : string → string → option Z → Token → option json).
(** What [loads] gives for a context token that [dumps] made: its contents while
    it is young enough. *)
Hypothesis context_law : ∀ secret age d,
  unseal secret (salt "agent-context") (Some age) (seal secret (salt "agent-context") d) = None ∨
  unseal secret (salt "agent-context") (Some age) (seal secret (salt "agent-context") d) = Some (JObj d).

Lemma issued_principal secret p session audience now jti token session' audience' age q :
  issue_agent_context seal secret p session audience now jti = Ok token →
  verify_agent_context unseal secret token session' audience' age = Ok q →
  subject q = subject p ∧ principal_role q = principal_role p ∧ scopes q = scopes p ∧ session' = session ∧ audience' = audience ∧
  principal_role p ∈ ROLES ∧ scopes p ⊆ role_scopes (principal_role p).
Proof.
  unfold issue_agent_context, verify_agent_context, with_secret. intros Hi Hv. apply bind_unit_ok in Hi as [_ Hi]. apply Ok_inj in Hi as <-.
  apply bind_unit_ok in Hv as [_ Hv]. apply bind_Ok in Hv as (payload & Hp & Hv).
  match type of Hp with context [seal secret _ ?d0] => set (d := d0) in *; destruct (context_law secret age d) as [Hn|Hs] end.
  { rewrite Hn in Hp. discriminate Hp. }
  rewrite Hs in Hp. apply Ok_inj in Hp as <-.
  apply bind_Ok in Hv as (aud & Ha & Hv). apply bind_Ok in Hv as (sid & Hsid & Hv). apply bind_unit_ok in Hv as [Hm Hv].
  apply bind_Ok in Hv as (sub & Hsub & Hv). apply bind_Ok in Hv as (role & Hrole & Hv). apply bind_Ok in Hv as (ss & Hss & Hv).
  cbv zeta in Hv. apply bind_unit_ok in Hv as [Hg Hv]. apply Ok_inj in Hv as <-. cbn [subject principal_role scopes] in *.
  change (Ok (Some (JStr audience)) = Ok aud) in Ha. change (Ok (Some (JStr session)) = Ok sid) in Hsid.
  change (Ok (JStr (subject p)) = Ok sub) in Hsub. change (Ok (JStr (principal_role p)) = Ok role) in Hrole.
  apply Ok_inj in Ha as <-. apply Ok_inj in Hsid as <-. apply Ok_inj in Hsub as <-. apply Ok_inj in Hrole as <-.
  assert (Hsc : ss = scopes p).
  { change (Ok (map py_str (map JStr (scopes p))) = Ok ss) in Hss. apply Ok_inj in Hss as <-. apply texts_back. }
  subst ss. apply raise_if_ok, orb_false_iff in Hm as [Ha%negb_false_iff Hse%negb_false_iff]. cbn [default py_str] in Ha, Hse. unfold from_option, id in Hse.
  apply String.eqb_eq in Ha, Hse. apply raise_if_ok, orb_false_iff in Hg as [Hg Hgs%negb_false_iff].
  apply orb_false_iff in Hg as [_ Hgr%negb_false_iff]. cbn [py_str] in *. apply inb_true in Hgr. apply subsetb_true in Hgs. by split_and!.
Qed.

End server.

(** ** A message and its tools *)

Module Examples.
Import LifecycleFacts.Examples.
Import ManagementAuthFacts.Examples.

Definition quiet_docker (_ : string) (_ : list string) : Exec := Finished 0 "[]" "".
Definition no_json (_ : string) : result json := raise ValueError "no JSON".

Notation agent_process secret token calls s :=
  (@main plain_repr Sealed toy_unseal secret token "7" "sdwan-mcp-stdio" 120
    (λ q, @call_all plain_repr StoreHistory.text_hash CompilerFacts.inputs ServiceFacts.ticking core_config ZtpFacts.kdf Z.of_nat
      (drawn_text "id") (drawn_text "secret") (drawn_text "salt") lab (Some "PEM") "https://ztp:8443" "https://policy:8080" "172.30.0.254"
      (drawn_text "a") quiet_docker no_json (λ x, x) str_Z (λ _, true) [] Missing false (drawn_text "request") (drawn_text "now") "b1" q calls) s).

Lemma toy_context_law secret (age : Z) d :
  toy_unseal secret (salt "agent-context") (Some age) (toy_seal secret (salt "agent-context") d) = None ∨
  toy_unseal secret (salt "agent-context") (Some age) (toy_seal secret (salt "agent-context") d) = Some (JObj d).
Proof. right. unfold toy_unseal, toy_seal. cbn [fst snd]. by rewrite !String.eqb_refl. Qed.

Definition eve : Principal := {| subject := "eve"; principal_role := "VIEWER"; scopes := scopes_for "VIEWER" |}.
Definition olga : Principal := {| subject := "olga"; principal_role := "NETWORK_OPERATOR"; scopes := scopes_for "NETWORK_OPERATOR" |}.
Definition context_of (p : Principal) : Sealed :=
  match issue_agent_context toy_seal "k" p "7" "sdwan-mcp-stdio" 1000 "j1" with Ok t => t | Err _ => toy_seal "" "" [] end.

Definition asked : Server :=
  {| sv_world := hubs_up; sv_audit := (create_evidence_bundle "t0" "b1" 7 1 "eve" empty_store).2; sv_topology := core_config; sv_ticks := 0 |}.
Definition calls : list ToolCall := [
  upsert_intent "i1" "routing_preference" "site1" [("preferred_hub", JStr "hub2")]; get_saas_configuration; get_recent_events;
  list_policy_versions; get_site_status "nowhere"].

(** The writing tool, the audit log and the unknown site are refused. *)
Lemma viewer_calls :
  let '(r, s) := agent_process "k" (context_of eve) calls asked in
  match r with
  | Ok (Some rs) => map is_ok rs = [false; true; false; true; false] ∧ call_entries eve calls rs =
      [("eve", "MCP_TOOL", "get_saas_configuration", "200"); ("eve", "MCP_TOOL", "list_policy_versions", "200")] ∧
      length (flat_map doc_facts (answered rs)) = 5%nat
  | _ => False
  end.
Proof. vm_compute. by split_and!. Qed.

(** The server describes itself as read-only, but an agent that acts for an
    operator may write: here it stores an intent. *)
Lemma operator_agent_writes :
  let '(r, s) := agent_process "k" (context_of olga) calls asked in
  match r with Ok (Some (first :: _)) => is_ok first = true | _ => False end ∧
  length (intent_rows (database (policy (sv_world s)))) = S (length (intent_rows (database (policy (sv_world asked))))).
Proof. vm_compute. by split. Qed.

End Examples.
