(* ===== verification/ManagementRoutes.v ===== *)
(** * Reading over HTTP ([management/config.py], the GET routes of [management/app.py])

    The settings of the management process, the queries a client may send, the
    document each is answered with, and what the guard and the middleware do
    around it.  A query comes with its parameters as typed values; the answer is
    a status and the JSON of the body.  An exception that is no [HTTPException]
    is answered by the server and is not recorded. *)
From Stdlib Require Import Ascii.
From S2P Require Import Prelude Net Marks PathSelection Model Json CoreTopology Underlay Controller Inventory Sql PolicyStore DynamicInventory.
From S2P Require Import IntentCompiler PolicyService ZtpStore StoreHistory CompilerFacts Lifecycle LifecycleFacts ManagementAuth ManagementAuthFacts.
From S2P Require Import AuditStore LivePlan RuntimeProbe DependencyGraph RouteEvidence FlowCollector EvidencePlanner ManagementViews ManagementApi.
From S2P Require Import ManagementApiFacts McpServer.
Local Open Scope string_scope.
Local Open Scope list_scope.
Local Open Scope Z_scope.

(** ** Settings *)

(** [str(Path(text))] *)
Definition path_text (s : string) : string :=
  let parts := List.filter (λ p, nonempty p && negb (String.eqb p ".")) (split_on "/"%char s) in
  let root := if String.prefix "/" s then (if String.prefix "//" s && negb (String.prefix "///" s) then "//" else "/") else "" in
  if nonempty root || negb (bool_decide (length parts = 0%nat)) then root +:+ String.concat "/" parts else ".".
(** [str(directory / name)], for a relative name *)
Definition child (directory name : string) : string := path_text (directory +:+ "/" +:+ name).

Record ManagementConfig := {
  mc_topology : string; mc_policy_db : string; mc_ztp_db : string; mc_state_dir : string; mc_signing_secret : string; mc_users : string;
  mc_agent_command : string; mc_project_root : string; mc_ollama_executable : string; mc_ollama_model : string; mc_claude_home : string;
  mc_agent_path : string; mc_claude_timeout : Z; mc_claude_max_output : Z; mc_mcp_config : string; mc_claude_settings : string;
  mc_context_audience : string; mc_context_ttl : Z; mc_ztp_url : string; mc_policy_url : string; mc_connect_host : string
}.

Definition environ : Type := dict string string.
Definition setting (env : environ) (name default_text : string) : string := default default_text (dget env name).
Definition path_setting (env : environ) (name default_text : string) : string := path_text (setting env name default_text).
Definition number_setting (env : environ) (name default_text : string) : result Z :=
  let text := setting env name default_text in match parse_int text with Some n => Ok n | None => invalid_int text end.

(** The agent's command is not among the settings. *)
Definition from_env (env : environ) : result ManagementConfig :=
  let project := path_setting env "SDWAN_PROJECT_ROOT" "/mnt/data/sdwan-lab/sdwan" in
  let root := path_setting env "SDWAN_STATE_ROOT" "/mnt/data/sdwan-state" in
  timeout ← number_setting env "CLAUDE_TIMEOUT_SECONDS" "120";
  max_output ← number_setting env "CLAUDE_MAX_OUTPUT_BYTES" "262144";
  ttl ← number_setting env "AGENT_CONTEXT_TTL_SECONDS" "120";
  Ok {| mc_topology := path_setting env "SDWAN_TOPOLOGY_CONFIG" (child project "config/topology.yaml");
        mc_policy_db := path_setting env "SDWAN_POLICY_DB" (child root "policy/policy.db");
        mc_ztp_db := path_setting env "SDWAN_ZTP_DB" (child root "ztp/ztp.db");
        mc_state_dir := path_setting env "SDWAN_MANAGEMENT_STATE" (child root "management");
        mc_signing_secret := setting env "SDWAN_MANAGEMENT_SECRET" ""; mc_users := setting env "SDWAN_MANAGEMENT_USERS" "";
        mc_agent_command := ""; mc_project_root := project;
        mc_ollama_executable := setting env "OLLAMA_EXECUTABLE" "/usr/local/bin/ollama";
        mc_ollama_model := setting env "OLLAMA_MODEL" "gpt-oss:20b-cloud"; mc_claude_home := setting env "AGENT_HOME" "/home/joubran";
        mc_agent_path := setting env "AGENT_SUBPROCESS_PATH" "/home/joubran/.local/bin:/usr/local/bin:/usr/bin:/bin";
        mc_claude_timeout := timeout; mc_claude_max_output := max_output;
        mc_mcp_config := path_setting env "SDWAN_MCP_CONFIG_PATH" (child project "config/mcp.sdwan.json");
        mc_claude_settings := path_setting env "CLAUDE_SETTINGS_PATH" (child project "config/claude.sdwan.settings.json");
        mc_context_audience := setting env "AGENT_CONTEXT_AUDIENCE" "sdwan-mcp-stdio"; mc_context_ttl := ttl;
        mc_ztp_url := setting env "SDWAN_ZTP_URL" "https://ztp:8443"; mc_policy_url := setting env "SDWAN_POLICY_URL" "https://policy:8080";
        mc_connect_host := setting env "SDWAN_MANAGEMENT_CONNECT_HOST" "172.30.0.254" |}.

Definition topology_control_socket (env : environ) (config : ManagementConfig) : string :=
  path_setting env "SDWAN_TOPOLOGY_CONTROL_SOCKET" (child (mc_state_dir config) "topology-control.sock").

(** ** Queries *)

Inductive Query :=
  | GetSystem | GetVersion | GetHealth | GetConfig | GetCapabilities
  | GetDashboard (summary : bool)
  | GetTopology | GetNodes | GetLinks
  | GetUnderlays | GetUnderlay (transport : string) | GetUnderlayState (state : bool)
  | GetPaths | GetPathMetrics | GetPathDecisions | GetPathEvents
  | GetComponent (id : string) | GetExpansion (id direction : string) (depth : Z) | GetGraphPath (source target : string)
  | GetImpact (id : string) | GetGraphEvidence (ids : list string)
  | GetWorkloads
  | GetFlows (hub site : option string) | GetHubFlows (hub : string) (site : option string)
  | GetSites | GetSite (site : string) | GetDesired (site : string) | GetDesiredState (site : string) | GetAppliedState (site : string)
  | GetActualState (site : string) | GetSiteEvents (site : string) | GetRuntime (site : string)
  | GetTunnels (plural : bool) (site : string) | GetRouting (site : string) | GetRoutes (site : string)
  | GetRules (long : bool) (site : string) | GetRoutingTables (site : string) | GetSiteAffinity (site : string)
  | GetHubs | GetHub (hub : string) | GetHubTunnels (hub : string) | GetHubRoutes (hub : string) | GetHubAffinity (hub : string)
  | GetGateways | GetGateway (gateway : string) | GetGatewayRoutes (gateway : string) | GetGatewayAffinity (gateway : string)
  | GetDataCenter | GetDataCenterRoutes | GetDataCenterAffinity
  | GetSaas | GetDestinations | GetDestination (destination : string) | GetReachability (destination : string)
  | GetCloud
  | GetOwnership | GetPolicy | GetPolicyVersions | GetDestinationPolicy | GetDesiredSummary
  | GetDevices | GetDevice (id : string)
  | GetEvents | GetAudit (events : bool).

Definition site_path (site rest : string) : string := "/api/v1/sites/" +:+ site +:+ rest.
Definition hub_path (hub rest : string) : string := "/api/v1/hubs/" +:+ hub +:+ rest.
Definition gateway_path (gateway rest : string) : string := "/api/v1/cloud-vpc/gateways/" +:+ gateway +:+ rest.

(** [request.url.path]: without the parameters after the question mark *)
Definition query_path (q : Query) : string :=
  match q with
  | GetSystem => "/api/v1/system" | GetVersion => "/api/v1/system/version" | GetHealth => "/api/v1/system/health"
  | GetConfig => "/api/v1/system/config" | GetCapabilities => "/api/v1/system/capabilities"
  | GetDashboard summary => if summary then "/api/v1/dashboard/summary" else "/api/v1/dashboard"
  | GetTopology => "/api/v1/topology" | GetNodes => "/api/v1/topology/nodes" | GetLinks => "/api/v1/topology/links"
  | GetUnderlays => "/api/v1/underlays" | GetUnderlay t => "/api/v1/underlays/" +:+ t
  | GetUnderlayState state => if state then "/api/v1/underlay/state" else "/api/v1/underlay"
  | GetPaths => "/api/v1/paths" | GetPathMetrics => "/api/v1/path-metrics" | GetPathDecisions => "/api/v1/path-decisions"
  | GetPathEvents => "/api/v1/path-events"
  | GetComponent id => "/api/v1/graph/components/" +:+ id | GetExpansion id _ _ => "/api/v1/graph/expand/" +:+ id
  | GetGraphPath _ _ => "/api/v1/graph/path" | GetImpact id => "/api/v1/graph/impact/" +:+ id
  | GetGraphEvidence _ => "/api/v1/graph/evidence" | GetWorkloads => "/api/v1/workloads"
  | GetFlows _ _ => "/api/v1/traffic/flows" | GetHubFlows hub _ => hub_path hub "/flows"
  | GetSites => "/api/v1/sites" | GetSite s => site_path s "" | GetDesired s => site_path s "/desired"
  | GetDesiredState s => site_path s "/desired-state" | GetAppliedState s => site_path s "/applied-state"
  | GetActualState s => site_path s "/actual-state" | GetSiteEvents s => site_path s "/events" | GetRuntime s => site_path s "/runtime"
  | GetTunnels plural s => site_path s (if plural then "/tunnels" else "/tunnel") | GetRouting s => site_path s "/routing"
  | GetRoutes s => site_path s "/routes" | GetRules long s => site_path s (if long then "/routing-rules" else "/rules")
  | GetRoutingTables s => site_path s "/routing-tables" | GetSiteAffinity s => site_path s "/return-affinity"
  | GetHubs => "/api/v1/hubs" | GetHub h => hub_path h "" | GetHubTunnels h => hub_path h "/tunnels" | GetHubRoutes h => hub_path h "/routes"
  | GetHubAffinity h => hub_path h "/return-affinity"
  | GetGateways => "/api/v1/cloud-vpc/gateways" | GetGateway g => gateway_path g "" | GetGatewayRoutes g => gateway_path g "/routes"
  | GetGatewayAffinity g => gateway_path g "/return-affinity"
  | GetDataCenter => "/api/v1/data-center" | GetDataCenterRoutes => "/api/v1/data-center/routes"
  | GetDataCenterAffinity => "/api/v1/data-center/return-affinity"
  | GetSaas => "/api/v1/saas" | GetDestinations => "/api/v1/saas/destinations" | GetDestination d => "/api/v1/saas/destinations/" +:+ d
  | GetReachability d => "/api/v1/saas/destinations/" +:+ d +:+ "/reachability" | GetCloud => "/api/v1/cloud-vpc"
  | GetOwnership => "/api/v1/routes/ownership" | GetPolicy => "/api/v1/policy" | GetPolicyVersions => "/api/v1/policy/versions"
  | GetDestinationPolicy => "/api/v1/policy/destination" | GetDesiredSummary => "/api/v1/desired-state/summary"
  | GetDevices => "/api/v1/ztp/devices" | GetDevice id => "/api/v1/ztp/devices/" +:+ id
  | GetEvents => "/api/v1/events" | GetAudit events => if events then "/api/v1/audit/events" else "/api/v1/audit"
  end.

Definition query_scope (q : Query) : string :=
  match q with
  | GetPolicy => "policy:read" | GetDevices | GetDevice _ => "ztp:read" | GetAudit _ => "audit:read" | _ => "network:read"
  end.

(** ** Documents *)

Definition optional {A} (k : string) (f : A → json) (o : option A) : object := match o with Some v => [(k, f v)] | None => [] end.

Definition transfer_document (t : Transfer) : json :=
  match t with
  | RuntimeProbe.Counted received sent => JObj [("received", JStr received); ("sent", JStr sent)]
  | RuntimeProbe.Reported text => JObj [("reported", JStr text)]
  end.
(** The keys of a peer and of an interface come in the order of the output's
    lines; objects are compared without their order. *)
Definition peer_document (p : Peer) : json := JObj (
  [("public_key", JStr (pe_public_key p))] ++ optional "endpoint" JStr (pe_endpoint p) ++ optional "allowed_ips" texts (pe_allowed_ips p) ++
  optional "latest_handshake" JStr (pe_handshake p) ++ optional "persistent_keepalive" JStr (pe_keepalive p) ++
  optional "transfer" transfer_document (pe_transfer p)).
Definition port_document (p : Port) : json := match p with PortNumber n => JInt n | PortText s => JStr s end.
Definition interface_document (i : Interface) : json := JObj (
  [("name", JStr (if_name i)); ("peers", JList (map peer_document (if_peers i)))] ++ optional "public_key" JStr (if_public_key i) ++
  optional "listening_port" port_document (if_listening_port i)).
Definition tunnel_document (t : TunnelStatus) : object :=
  [("availability", JStr (if ts_available t then "AVAILABLE" else "UNAVAILABLE")); ("site", text_or_null (ts_site t));
   ("edge_node", JStr (ts_edge_node t)); ("interfaces", JList (map interface_document (ts_interfaces t)))] ++
  optional "reason" JStr (ts_reason t).

Definition flow_entry (f : SiteFlow) : object :=
  dset (dset (sf_event f) "source_site" (text_or_null (sf_source_site f))) "destination_site" (text_or_null (sf_destination_site f)).

Definition READ_ONLY_MODE : string := "typed-administration-and-observability".
Definition system_document (health : object) : object := [
  ("api_version", JStr "v1"); ("service_version", JStr "1.0.0"); ("operational_mode", JStr READ_ONLY_MODE); ("health", JObj health);
  ("capabilities", JObj [("management_lifecycle", JBool true); ("underlay_read_only", JBool true); ("mcp", JStr "local-stdio")])].
Definition version_document : object := [("api_version", JStr "v1"); ("service_version", JStr "1.0.0"); ("mode", JStr "read-only")].
Definition capabilities_document : object := [
  ("read_only", JBool true); ("rest", JStr "available"); ("mcp", JStr "available: local stdio only; no HTTP endpoint");
  ("agent_gateway", JStr "partially_available");
  ("unsupported", texts ["policy writes"; "ztp writes"; "routing writes"; "docker exec from browser"])].
Definition config_document (config : ManagementConfig) : object := [
  ("topology_config", JStr (mc_topology config)); ("policy_db_configured", JStr (mc_policy_db config));
  ("ztp_db_configured", JStr (mc_ztp_db config));
  ("agent_gateway", JStr (if nonempty (mc_agent_command config) then "configured but fail-closed" else "disabled"))].

Definition partially (design : string) : object := [("availability", JStr "PARTIALLY_AVAILABLE"); ("design", JStr design)].
Definition stated (state : list object) : object := [("availability", JStr "AVAILABLE"); ("state", json_rows state)].

Definition destination_known (c : TopologyConfig) (d : string) : bool := inb d [saas_app_name c; "public_saas"; addr_str (saas_ip c)].
Definition destination_entry (c : TopologyConfig) : object := [
  ("name", JStr (saas_app_name c)); ("ip", JStr (addr_str (saas_ip c))); ("type", JStr "public-collaboration-service");
  ("egress", JStr "DIRECT_INTERNET"); ("candidate_transports", texts ["bb"; "lte"])].
Definition destination_document (c : TopologyConfig) : object := [
  ("availability", JStr "CONFIGURED"); ("destination", JStr (saas_app_name c)); ("ip", JStr (addr_str (saas_ip c)));
  ("egress", JStr "DIRECT_INTERNET"); ("candidate_transports", texts ["bb"; "lte"])].
Definition gateway_entry (c : TopologyConfig) (name : string) : object := [
  ("name", JStr name); ("availability", JStr (if vpc_enabled (cloud_vpc c) then "CONFIGURED" else "DISABLED"))].

(** ** Answers *)

Definition Reply : Type := Z * json.
Definition ok_object (d : result object) : result Reply := d ← d; Ok (200, JObj d).
Definition ok_rows (l : list object) : result Reply := Ok (200, json_rows l).
Definition ok_items (l : result (list json)) : result Reply := l ← l; Ok (200, JList l).
Definition ok_list (l : result (list object)) : result Reply := l ← l; ok_rows l.
Definition not_found (detail : json) : result Reply := Ok (404, JObj [("detail", detail)]).

(** A document that says it is not available is answered with 404. *)
Definition if_available `{PyRepr} (d : result object) : result Reply :=
  d ← d; if py_truth (field d "available") then Ok (200, JObj d) else not_found (default (JStr "unknown component") (dget d "reason")).

Section routes.
Context `{PyRepr} (docker : string → list string → Exec) (loads : string → result json) (hexdigest : string → string) (instant : Z → string)
  (valid_fact : EvidenceFact → bool) (config : ManagementConfig).

(** A field of a runtime view that may be missing *)
Definition runtime_field (c : TopologyConfig) (node key : string) : result Reply :=
  v ← runtime_view docker loads c node; Ok (200, field v key).
(** A list of a route summary, empty if there is none *)
Definition summary_list (c : TopologyConfig) (site key : string) : result Reply :=
  v ← route_summary_view docker loads c site; Ok (200, default (JList []) (dget v key)).

Definition site_answer (c : TopologyConfig) (s : Sources) (site : string) : result Reply :=
  match find (is_site_row site) (site_list_view c s) with
  | None => not_found (JStr "site not found")
  | Some row =>
      observed ← runtime_view docker loads c site;
      Ok (200, JObj [("configured", JObj row); ("desired", json_rows (desired s site)); ("observed", JObj observed)])
  end.

Definition is_event_of (site : string) (e : object) : bool :=
  match dget e "target" with Some (JStr t) => String.eqb t site | _ => false end.

(** The queries that only read; [None] is for those of the hubs' flows. *)
Definition view (c : TopologyConfig) (s : Sources) (audit : Store) (q : Query) : option (result Reply) :=
  match q with
  | GetFlows _ _ | GetHubFlows _ _ => None
  | GetSystem => Some (ok_object (Ok (system_document (health s))))
  | GetVersion => Some (ok_object (Ok version_document))
  | GetHealth => Some (ok_object (Ok (health s)))
  | GetConfig => Some (ok_object (Ok (config_document config)))
  | GetCapabilities => Some (ok_object (Ok capabilities_document))
  | GetDashboard _ => Some (ok_object (dashboard docker loads c s instant))
  | GetTopology => Some (ok_object (topology_resource hexdigest c))
  | GetNodes => Some (ok_list (topology_nodes hexdigest c))
  | GetLinks => Some (ok_list (topology_links hexdigest c))
  | GetUnderlays => Some (ok_object (underlays c s))
  | GetUnderlay t => Some (v ← underlay c s t; match v with Some d => Ok (200, JObj d) | None => not_found (JStr "underlay not found") end)
  | GetUnderlayState _ => Some (ok_object (Ok (snapshot s)))
  | GetPaths => Some (ok_object (paths docker loads c))
  | GetPathMetrics => Some (ok_items (path_metrics docker loads c))
  | GetPathDecisions => Some (ok_items (path_decisions docker loads c))
  | GetPathEvents => Some (ok_items (path_events docker loads c))
  | GetComponent id => Some (if_available (graph_component c s valid_fact id))
  | GetExpansion id direction depth => Some (if_available (graph_expand c s valid_fact id direction depth))
  | GetGraphPath source target => Some (ok_object (graph_path c s valid_fact source target))
  | GetImpact id => Some (if_available (graph_impact c s valid_fact id))
  | GetGraphEvidence ids => Some (ok_object (graph_evidence_view c s valid_fact ids))
  | GetWorkloads => Some (ok_rows (workloads docker c))
  | GetSites => Some (ok_rows (site_list_view c s))
  | GetSite site => Some (site_answer c s site)
  | GetDesired site => Some (ok_rows (desired s site))
  | GetDesiredState site | GetAppliedState site => Some (ok_object (Ok (stated (desired s site))))
  | GetActualState site | GetRuntime site => Some (ok_object (runtime_view docker loads c site))
  | GetSiteEvents site => Some (ok_rows (List.filter (is_event_of site) (events s)))
  | GetTunnels _ site => Some (ok_object (Ok (tunnel_document (tunnel_status docker c site))))
  | GetRouting site => Some (ok_object (routing docker loads c site))
  | GetRoutes site => Some (ok_object (route_summary_view docker loads c site))
  | GetRules _ site => Some (summary_list c site "routing_rules")
  | GetRoutingTables site => Some (summary_list c site "route_groups")
  | GetSiteAffinity _ => Some (ok_object (Ok [("available", JBool true);
      ("configuration", JStr "connmark-based return-path affinity; live evidence is included in routing rules")]))
  | GetHubs => Some (ok_list (mapM_result (hub_view docker loads c) (dkeys (hubs c))))
  | GetHub hub => Some (ok_object (hub_view docker loads c hub))
  | GetHubTunnels hub => Some (runtime_field c hub "tunnels")
  | GetHubRoutes hub => Some (runtime_field c hub "routes")
  | GetHubAffinity _ => Some (ok_object (Ok (partially "connmark return-affinity; inspect runtime rules endpoint")))
  | GetGateways => Some (ok_rows (map (gateway_entry c) (gateway_names (cloud_vpc c))))
  | GetGateway gateway => Some (
      v ← (if vpc_enabled (cloud_vpc c) then runtime_view docker loads c gateway else Ok [("availability", JStr "DISABLED")]);
      Ok (200, JObj [("gateway", JStr gateway); ("runtime", JObj v)]))
  | GetGatewayRoutes _ => Some (ok_object (Ok [
      ("availability", JStr (if vpc_enabled (cloud_vpc c) then "UNAVAILABLE" else "DISABLED"));
      ("reason", JStr "enable cloud topology for live runtime")]))
  | GetGatewayAffinity _ => Some (ok_object (Ok (partially "gateway connmark and scoped SNAT when Cloud VPC enabled")))
  | GetDataCenterRoutes => Some (ok_object (Ok (unavailable "no Data Center router runtime adapter")))
  | GetDataCenterAffinity => Some (ok_object (Ok (partially "hub scoped SNAT plus connmark")))
  | GetDataCenter => Some (ok_object (Ok (network_view c "data-center")))
  | GetDestinations => Some (ok_rows [destination_entry c])
  | GetDestination d => Some (if destination_known c d then ok_object (Ok (destination_document c)) else not_found (JStr "SaaS destination not found"))
  | GetReachability d => Some (
      if destination_known c d then ok_object (Ok (probe_fields JStr (workload_health docker c (saas_app_name c))))
      else not_found (JStr "SaaS destination not found"))
  | GetSaas => Some (ok_object (Ok (network_view c "saas")))
  | GetCloud => Some (ok_object (Ok (network_view c "cloud-vpc")))
  | GetOwnership => Some (ok_rows (ownership s))
  | GetPolicy => Some (ok_object (Ok (policy_view s)))
  | GetPolicyVersions => Some (ok_rows (policy_versions s))
  | GetDestinationPolicy => Some (ok_rows (destination_policy s))
  | GetDesiredSummary => Some (ok_rows (desired_summary s))
  | GetDevices => Some (ok_rows (ztp_devices s instant))
  | GetDevice id => Some (match ztp_device s instant id with Some d => Ok (200, JObj d) | None => not_found (JStr "device not found") end)
  | GetEvents => Some (ok_rows (events s))
  | GetAudit _ => Some (ok_rows (map audit_entry (list_events audit)))
  end.

(** The query of the flows first takes up what the hubs have seen. *)
Definition flows_answer (c : TopologyConfig) (hub site : option string) : M Server Reply :=
  fs ← in_audit (service_hub_flows docker loads c hub site);
  mret (200, JObj [("items", json_rows (map flow_entry fs)); ("scope", JStr "hub-transited private flows only")]).

Context (version_rows : list PolicyVersionRow) (underlay_file : StateFile) (control_socket : bool).

Definition answer_query (q : Query) : M Server Reply :=
  s ← get;
  match view (sv_topology s) (sources_of version_rows underlay_file control_socket s) (sv_audit s) q, q with
  | Some r, _ => lift r
  | None, GetFlows hub site => flows_answer (sv_topology s) hub site
  | None, GetHubFlows hub site => flows_answer (sv_topology s) (Some hub) site
  | None, _ => lift (raise RuntimeError "no route")
  end.

(** ** A query with its guard and its record *)

Context (audit_clock request_id : nat → string) {Token : Type} (unseal : string → string → option Z → Token → option json) (secret : string).

Definition handle_query (time : Q) (credentials : option Token) (q : Query) : M Server Reply := λ s,
  let '(r, s1) := guarded unseal secret time (query_scope q) credentials (λ _, answer_query q) s in
  match r with
  | Refused status => record_request audit_clock request_id unseal secret time credentials (query_path q) (status, JObj [("detail", JStr "refused")]) s1
  | Served (Ok a) => record_request audit_clock request_id unseal secret time credentials (query_path q) a s1
  | Served (Err e) => (Err e, s1)
  end.

Definition read_all (l : list (Q * option Token * Query)) (s : Server) : list (result Reply) * Server :=
  fold_left (λ acc x, let '(r, s) := handle_query x.1.1 x.1.2 x.2 acc.2 in (acc.1 ++ [r], s)) l ([], s).
End routes.

(** [generate] of [/api/v1/events/stream]: a snapshot when it differs from the
    last one, a comment otherwise. *)
Fixpoint snapshots (previous : option string) (encoded : list string) : list string :=
  match encoded with
  | [] => []
  | e :: rest =>
      (if match previous with Some p => String.eqb e p | None => false end then ": keepalive" +:+ String "010" (String "010" "")
       else "event: snapshot" +:+ String "010" "data: " +:+ e +:+ String "010" (String "010" "")) :: snapshots (Some e) rest
  end.
Definition event_stream (encoded : list string) : list string := snapshots None (take 30 encoded).

(** * Facts about reading over HTTP

    What queries can change, who they are answered for, and that the view of a
    provider network says what its controller published. *)

(** ** What the query of the flows writes *)

(** Flow records were added, nothing else. *)
Definition fed : relation Store := λ s s', only_flows s s' ∧ flow_records s `prefix_of` flow_records s'.
#[export] Instance fed_preorder : PreOrder fed.
Proof.
  split; [by intros s; split|]. intros a b c [(A1 & A2 & A3 & A4) P] [(B1 & B2 & B3 & B4) Q]. split; [|by etrans].
  split_and!; congruence.
Qed.

Section flows.
Context `{PyRepr} (docker : string → list string → Exec) (loads : string → result json) (c : TopologyConfig).

Lemma ingest_feeds event : moves fed (ingest_hub_flow event).
Proof.
  intros s. unfold ingest_hub_flow. destruct (_ || _); [done|]. unfold transaction, query, execute, mbind, M_bind, get, put, mret, M_ret.
  destruct (existsb _ _); [done|]. split; [done|]. cbn. by eexists.
Qed.

Lemma ingest_event_feeds hub event : moves fed (ingest_event c hub event).
Proof.
  unfold ingest_event. do 2 moves_step. destruct x as [x|], x0 as [x0|], event as [| | | | | |candidate]; cbv beta iota; try apply moves_ret; try typeclasses eauto.
  destruct (match dget candidate "hub_id" with Some (JStr h) => String.eqb h hub | _ => false end); [|apply moves_ret; typeclasses eauto].
  moves_step; [apply ingest_feeds|moves_step].
Qed.

Lemma service_flows_feed hub site : moves fed (service_hub_flows docker loads c hub site).
Proof.
  unfold service_hub_flows, ingest_hub, query. repeat moves_step; apply ingest_event_feeds.
Qed.
End flows.

(** ** Queries *)

Definition of_flows (q : Query) : bool := match q with GetFlows _ _ | GetHubFlows _ _ => true | _ => false end.
Definition of_audit (q : Query) : bool := match q with GetAudit _ => true | _ => false end.

Section routes.
Context `{PyRepr} (docker : string → list string → Exec) (loads : string → result json) (hexdigest : string → string) (instant : Z → string)
  (valid_fact : EvidenceFact → bool) (config : ManagementConfig).
Context (version_rows : list PolicyVersionRow) (underlay_file : StateFile) (control_socket : bool).
Context (audit_clock request_id : nat → string) {Token : Type} (unseal : string → string → option Z → Token → option json) (secret : string).

Notation view := (view docker loads hexdigest instant valid_fact config).
Notation sources_of := (sources_of version_rows underlay_file control_socket).
Notation answer_query := (answer_query docker loads hexdigest instant valid_fact config version_rows underlay_file control_socket).
Notation handle_query := (handle_query docker loads hexdigest instant valid_fact config version_rows underlay_file control_socket audit_clock request_id
  unseal secret).
Notation read_all := (read_all docker loads hexdigest instant valid_fact config version_rows underlay_file control_socket audit_clock request_id
  unseal secret).

(** Every query but those of the flows has a view. *)
Lemma view_some c s audit q : of_flows q = false → is_Some (view c s audit q).
Proof. destruct q; intros Hq; try discriminate Hq; by eexists. Qed.

(** Only the audit log's view depends on the audit store. *)
Lemma view_audit c s a a' q : of_audit q = false → view c s a q = view c s a' q.
Proof. by destruct q. Qed.

(** What a query may change: the flow records, if it asks for flows. *)
Record untouched (q : Query) (s s' : Server) : Prop := {
  ut_world : sv_world s' = sv_world s; ut_topology : sv_topology s' = sv_topology s; ut_store : fed (sv_audit s) (sv_audit s');
  ut_same : of_flows q = false → s' = s
}.

Lemma answer_untouched q s : untouched q s (answer_query q s).2.
Proof.
  assert (Hf : ∀ hub site, of_flows q = true → untouched q s (flows_answer docker loads (sv_topology s) hub site s).2).
  { intros hub site Hq. unfold flows_answer, in_audit, mbind, M_bind, mret, M_ret.
    pose proof (service_flows_feed docker loads (sv_topology s) hub site (sv_audit s)) as Hfed.
    destruct (service_hub_flows _ _ _ _ _ _) as [[fs|e] a]; (split; [done..|exact Hfed|by rewrite Hq]). }
  destruct (of_flows q) eqn:Hq; [destruct q; try discriminate Hq; by apply Hf|].
  destruct (view_some (sv_topology s) (sources_of s) (sv_audit s) q Hq) as [r Hr].
  unfold ManagementRoutes.answer_query, mbind, M_bind, get. rewrite Hr. by split.
Qed.

(** ** One query *)

Definition read_trail (time : Q) (credentials : option Token) (q : Query) (r : result Reply) : list entry :=
  match r, authenticate unseal secret credentials time with
  | Ok a, inr p => [(subject p, "API_READ", query_path q, str_Z a.1)]
  | _, _ => []
  end.

Definition refusal (status : Z) : result Reply := Ok (status, JObj [("detail", JStr "refused")]).

(** The answer of a query: a refusal, or the view of [s]. *)
Definition answers (s : Server) (time : Q) (credentials : option Token) (q : Query) (r : result Reply) : Prop :=
  match authenticate unseal secret credentials time with
  | inl _ => r = refusal 401
  | inr p =>
      if ManagementAuth.allowed p (query_scope q) then
        of_flows q = true ∨ of_audit q = true ∨ view (sv_topology s) (sources_of s) (sv_audit s) q = Some r
      else r = refusal 403
  end.

(** What was changed: audit entries, and flows if they were asked for. *)
Record only_read (may_feed : bool) (s s' : Server) : Prop := {
  or_world : sv_world s' = sv_world s; or_topology : sv_topology s' = sv_topology s;
  or_sessions : sessions (sv_audit s') = sessions (sv_audit s); or_messages : messages_of_chat (sv_audit s') = messages_of_chat (sv_audit s);
  or_bundles : bundles (sv_audit s') = bundles (sv_audit s);
  or_flows : flow_records (sv_audit s) `prefix_of` flow_records (sv_audit s');
  or_kept : may_feed = false → flow_records (sv_audit s') = flow_records (sv_audit s)
}.

Lemma only_read_refl b s : only_read b s s.
Proof. by split. Qed.
Lemma only_read_trans b1 b2 s1 s2 s3 : only_read b1 s1 s2 → only_read b2 s2 s3 → only_read (b1 || b2) s1 s3.
Proof.
  intros [] []. split; try congruence; [by etrans|]. intros [-> ->]%orb_false_iff. rewrite or_kept1, or_kept0; done.
Qed.
Lemma untouched_only q s s' : untouched q s s' → only_read (of_flows q) s s' ∧ rows_of s' = rows_of s.
Proof.
  intros [Hw Ht [(H1 & H2 & H3 & H4) Hp] Hs]. split; [|exact H1]. split; try done. intros Hq. by rewrite (Hs Hq).
Qed.
Lemma recorded_only actor action target outcome detail s : let s' := (audited audit_clock actor action target outcome detail s).2 in
  only_read false s s' ∧ logged [(actor, action, target, outcome)] s s'.
Proof. split; [by split|]. by eexists [_]. Qed.

Lemma record_only {B} time credentials path (a : Z * B) s p : authenticate unseal secret credentials time = inr p →
  ∃ s', record_request audit_clock request_id unseal secret time credentials path a s = (Ok a, s') ∧ only_read false s s' ∧
    logged [(subject p, "API_READ", path, str_Z a.1)] s s'.
Proof.
  intros Hp. unfold record_request. rewrite Hp. eexists. split; [reflexivity|]. exact (recorded_only (subject p) "API_READ" path (str_Z a.1) request_id s).
Qed.

Lemma authenticate_401 time credentials status : authenticate unseal secret credentials time = inl status → status = 401.
Proof. unfold authenticate. destruct credentials as [t|]; [destruct (verify _ _ _ _)|]; by intros [= <-]. Qed.

(** Whether a query was let through to the hubs' flows. *)
Definition feeds_flows (time : Q) (credentials : option Token) (q : Query) : bool :=
  of_flows q && match authenticate unseal secret credentials time with inr p => ManagementAuth.allowed p "network:read" | inl _ => false end.

Lemma handle_query_spec time credentials q s r s' : handle_query time credentials q s = (r, s') →
  only_read (feeds_flows time credentials q) s s' ∧ logged (read_trail time credentials q r) s s' ∧ answers s time credentials q r.
Proof.
  unfold ManagementRoutes.handle_query, guarded, read_trail, answers, feeds_flows.
  destruct (authenticate unseal secret credentials time) as [status|p] eqn:Ha.
  - unfold record_request. rewrite Ha. intros [= <- <-]. rewrite (authenticate_401 _ _ _ Ha). split; [apply only_read_refl|]. split; [by apply logged_none|done].
  - assert (Hb : of_flows q && ManagementAuth.allowed p "network:read" = of_flows q && ManagementAuth.allowed p (query_scope q)) by (by destruct q).
    rewrite Hb. destruct (ManagementAuth.allowed p (query_scope q)).
    + rewrite andb_true_r. pose proof (answer_untouched q s) as Hu.
      assert (Hr : of_flows q = true ∨ of_audit q = true ∨ view (sv_topology s) (sources_of s) (sv_audit s) q = Some (answer_query q s).1).
      { destruct (of_flows q) eqn:Hq; [by left|right; right].
        destruct (view_some (sv_topology s) (sources_of s) (sv_audit s) q Hq) as [x Hx].
        unfold ManagementRoutes.answer_query, mbind, M_bind, get. by rewrite Hx. }
      destruct (answer_query q s) as [x s1]. cbn [fst snd] in Hu, Hr. apply untouched_only in Hu as [Hu Hrows]. destruct x as [a|e].
      * destruct (record_only time credentials (query_path q) a s1 p Ha) as (s2 & -> & Hs & Hl). intros [= <- <-].
        split; [by rewrite <- (orb_false_r (of_flows q)); eapply only_read_trans|]. split; [|exact Hr].
        destruct Hl as (rows & E & Em). exists rows. by rewrite E, Hrows.
      * intros [= <- <-]. split; [exact Hu|]. split; [|exact Hr]. exists []. by rewrite app_nil_r.
    + rewrite andb_false_r. destruct (record_only time credentials (query_path q) (403, JObj [("detail", JStr "refused")]) s p Ha) as (s2 & -> & Hs & Hl).
      intros [= <- <-]. by split_and!.
Qed.

Lemma read_all_snoc l x s : read_all (l ++ [x]) s =
  (let '(rs, s1) := read_all l s in let '(r, s2) := handle_query x.1.1 x.1.2 x.2 s1 in (rs ++ [r], s2)).
Proof. unfold ManagementRoutes.read_all. rewrite fold_left_app. cbn. by destruct (fold_left _ l ([], s)) as [rs s1]. Qed.

(** An answer is the same whatever was only read before it. *)
Lemma answers_later b s s1 time credentials q r : only_read b s s1 → answers s1 time credentials q r → answers s time credentials q r.
Proof.
  intros [Hw Ht _ _ _ _ _]. unfold answers. destruct (authenticate _ _ _ _) as [|p]; [done|]. destruct (ManagementAuth.allowed _ _); [|done].
  intros [Hq|[Hq|Hv]]; [by left|by right; left|]. destruct (of_audit q) eqn:Hq; [by right; left|]. right; right. rewrite <- Hv, Ht.
  assert (sources_of s1 = sources_of s) as -> by (unfold McpServer.sources_of; by rewrite Hw). by apply view_audit.
Qed.

End routes.

(** ** Names the topology does not know *)

Section unknown.
Context `{PyRepr} (docker : string → list string → Exec) (loads : string → result json) (c : TopologyConfig).

(** The branch of [runtime_view] for an unknown site is never taken: the name is
    looked up before, and raises. *)
Lemma unknown_raises name : dmem (hubs c) name = false → is_ok (logical_site c name) = false →
  ∃ e, runtime_view docker loads c name = Err e.
Proof.
  intros Hh Hl. unfold runtime_view, RouteEvidence.logical. rewrite Hh. destruct (logical_site c name) as [n|e]; [done|]. by exists e.
Qed.

End unknown.

Module Examples.
Import LifecycleFacts.Examples.
Import ManagementApiFacts.Examples.

Definition quiet_docker (_ : string) (_ : list string) : Exec := Finished 0 "[]" "".
Definition no_json (_ : string) : result json := raise ValueError "no JSON".
(** The settings without an environment *)
Definition lab_settings : ManagementConfig :=
  match from_env [] with Ok config => config | Err _ => Build_ManagementConfig "" "" "" "" "" "" "" "" "" "" "" "" 0 0 "" "" "" 0 "" "" "" end.

Notation reading l s :=
  (@read_all plain_repr quiet_docker no_json (λ x, x) str_Z (λ _, true) lab_settings [] Missing false (drawn_text "a") (drawn_text "q")
    ManagementAuthFacts.Examples.Sealed ManagementAuthFacts.Examples.toy_unseal "k" l s).

Definition outcomes (rs : list (result Reply)) : list (Z + exn_class) := map (λ r, match r with Ok a => inl a.1 | Err e => inr (exn_cls e) end) rs.

Lemma default_settings : from_env [] = Ok lab_settings ∧ mc_policy_db lab_settings = "/mnt/data/sdwan-state/policy/policy.db" ∧
  from_env [("CLAUDE_TIMEOUT_SECONDS", "soon")] = invalid_int "soon" ∧
  mc_topology <$> from_env [("SDWAN_PROJECT_ROOT", "//srv/./lab/")] = Ok "//srv/lab/config/topology.yaml".
Proof. vm_compute. by split_and!. Qed.

(** The page that tells of the settings says that the agent is disabled. *)
Lemma agent_shown_disabled env config : from_env env = Ok config → dget (config_document config) "agent_gateway" = Some (JStr "disabled").
Proof. unfold from_env. intros Hc. apply bind_Ok in Hc as (t & _ & Hc). apply bind_Ok in Hc as (m & _ & Hc). by apply bind_Ok in Hc as (a & _ & [= <-]). Qed.

Definition inspection : list (Q * option ManagementAuthFacts.Examples.Sealed * Query) :=
  [(1000%Q, None, GetHealth); (1000%Q, eve, GetHealth); (1000%Q, eve, GetAudit false); (1000%Q, olga, GetAudit false);
   (1000%Q, eve, GetDevice "none"); (1000%Q, eve, GetActualState "nowhere"); (9000%Q, eve, GetSites); (1000%Q, eve, GetFlows None None)].

(** Without a token, with one, out of scope, and of an unknown site, which is
    neither answered nor recorded *)
Lemma inspection_answered :
  let '(rs, s) := reading inspection started in
  outcomes rs = [inl 401; inl 200; inl 403; inl 200; inl 404; inr KeyError; inl 401; inl 200] ∧
  map entry_of (rows_of s) = [("eve", "API_READ", "/api/v1/system/health", "200"); ("eve", "API_READ", "/api/v1/audit", "403");
    ("olga", "API_READ", "/api/v1/audit", "200"); ("eve", "API_READ", "/api/v1/ztp/devices/none", "404");
    ("eve", "API_READ", "/api/v1/traffic/flows", "200")].
Proof. vm_compute. by split. Qed.

(** A branch that was deleted is listed, but its page raises. *)
Lemma deleted_site_unreadable :
  let s := (serving [(1000%Q, olga, branch); (1000%Q, olga, DeleteSite "branch-a")] started).2 in
  outcomes (reading [(1000%Q, eve, GetSites); (1000%Q, eve, GetSite "branch-a"); (1000%Q, eve, GetDesired "branch-a")] s).1 =
    [inl 200; inr KeyError; inl 200].
Proof. vm_compute. reflexivity. Qed.

End Examples.
