(* ===== verification/AgentRunner.v ===== *)
(** * The agent process ([management/agent.py], [execute] in [management/app.py])

    The command and the environment a language model process is started with,
    the events its output becomes, and the turn of a chat that runs it.  What the
    process prints, how long it is silent and how it ends are arguments; JSON's
    parser answers for lines that are no UTF-8 as well. *)
From Stdlib Require Import Ascii.
From S2P Require Import Prelude Net Marks PathSelection Model Json Sql PolicyStore ManagementAuth ManagementAuthFacts AuditStore AuditStoreFacts.
From S2P Require Import Evidence RuntimeProbe EvidenceRendering DependencyGraph RouteEvidence EvidencePlanner EvidencePlannerFacts McpServer.
Local Open Scope string_scope.
Local Open Scope list_scope.
Local Open Scope Z_scope.

(** ** Starting the process *)

(** The fields of [ManagementConfig] the runner reads; paths are their texts. *)
Record RunnerConfig := {
  ollama_executable : string; ollama_model : string; mcp_config : string; claude_settings : string; claude_home : string; agent_path : string;
  project_root : string; signing_secret : string; agent_context_audience : string; claude_timeout_seconds : Z; claude_max_output_bytes : Z
}.

(** [str(path.parent)] of a path without empty or dot components *)
Definition parent_text (path : string) : string :=
  match last_split "/" path with Some (dir, _) => if nonempty dir then dir else "/" | None => "." end.

Definition command_for (config : RunnerConfig) (prompt session_id : string) (resume : bool) : list string :=
  [ollama_executable config; "launch"; "claude"; "--model"; ollama_model config; "--yes"; "--"; "-p"; prompt; "--output-format"; "stream-json";
   "--verbose"; "--include-partial-messages"; "--mcp-config"; mcp_config config; "--strict-mcp-config"; "--settings"; claude_settings config] ++
  (if resume then ["--resume"; session_id] else ["--session-id"; session_id]).

Definition restricted_environment (config : RunnerConfig) (context_token session_id message_id bundle_id : string) : dict string string := [
  ("HOME", claude_home config); ("PATH", agent_path config); ("SDWAN_PROJECT_ROOT", project_root config);
  ("PYTHONPATH", parent_text (project_root config)); ("SDWAN_AGENT_CONTEXT_TOKEN", context_token); ("SDWAN_CHAT_SESSION_ID", session_id);
  ("SDWAN_CHAT_MESSAGE_ID", message_id); ("SDWAN_EVIDENCE_BUNDLE_ID", bundle_id); ("SDWAN_MANAGEMENT_SECRET", signing_secret config);
  ("SDWAN_AGENT_CONTEXT_AUDIENCE", agent_context_audience config)].

(** The instructions given with a question *)
Definition factual_prompt (prompt : string) : string :=
  "You are a read-only SD-WAN diagnostic assistant. Use approved SD-WAN MCP tools for every current-lab claim. " +:+
  "For a current operational or mixed question, call at least one relevant MCP tool. Never invent facts, values, route types, selected paths, or unavailable fields. " +:+
  "Your final response MUST be one JSON object matching this schema: {answer_type: conceptual|operational|mixed, summary: string, claims: [{claim_id:string, claim_type:system_health|topology|endpoint|endpoint_route|flow_route|transport|site_status|hub_status|cloud_gateway|data_center|saas|tunnel_status|runtime_interfaces|failover_status|classifier_status|routing_rule|routing_table|route|next_hop|output_interface|selected_hub|selected_transport|route_ownership|desired_state|policy_version|destination_policy|device_enrollment|state_comparison|event|limitation, fact_ids:[string], explanation:string|null}], unknowns:[string], limitations:[string]}. " +:+
  "Use site_status for configured site listings and site status. Never use invented claim types such as observed, configured, or derived. " +:+
  "For operational or mixed answers, every claim must reference fact_ids returned by MCP in this message. Do not put operational values in summary or explanation; FastAPI renders values from evidence. " +:+
  "For conceptual answers, claims must be empty. Never suggest or perform configuration changes. " +:+
  "The approved MCP tools cover system health, topology nodes and links, transports, configured sites and hubs, Cloud VPC gateways, data center, SaaS, route ownership, desired state, policy versions, destination policy, ZTP devices, observed interfaces, WireGuard tunnels, failover, classifier status, routes, destination-aware route decisions, comparisons, and audit events. For a Cloud gateway IP question, call mcp__sdwan__get_cloud_gateway. For an IP or identity question about one named endpoint, call mcp__sdwan__get_endpoint; use mcp__sdwan__get_endpoint_inventory only when the endpoint name is unknown or ambiguous. " +:+
  "Use mcp__sdwan__get_site_status for configured site records (including LAN prefixes and hub assignments), mcp__sdwan__get_site_tunnels for a branch-site WireGuard status, mcp__sdwan__get_hub_tunnels for a hub WireGuard status, mcp__sdwan__get_site_routes for installed route data, and mcp__sdwan__explain_route_decision for a specific destination. For a tunnel_status claim, cite tunnel facts only. " +:+
  "For a question requesting a site route table without a destination, call mcp__sdwan__get_site_routes. For a WireGuard tunnel question, call mcp__sdwan__get_site_tunnels. For a question phrased as a route from the host of a named site (for example 'host of site2'), call mcp__sdwan__explain_site_host_route with site=site2; never substitute the edge endpoint node2 for its host. For a route from one otherwise named endpoint to another, call mcp__sdwan__explain_endpoint_route. For the route actually selected by currently active traffic between named endpoints, call mcp__sdwan__observe_endpoint_flow and use claim_type flow_route. That result also contains configured_path_candidates from the dependency graph; when flow_count is zero, report those only as configured candidates and explicitly state that no runtime path was observed. When using explain_endpoint_route, use claim_type endpoint_route and cite its source, destination, host_access, edge_route, and policy_candidates facts when returned. If its edge_route fact reports available=false or a lookup error and no fwmark was supplied, do not say there is no route: report only that the observed unmarked edge lookup did not produce a selected route. Do not use generic claim_type route for endpoint-route evidence. Do not use a bare tool name and do not claim a tool is unavailable before attempting the relevant approved tool." +:+
  String "010" (String "010" "User question: ") +:+ prompt.

(** ** Events *)

Record AgentEvent := { ev_type : string; ev_data : dict string json }.
Definition event (type : string) (data : dict string json) : AgentEvent := {| ev_type := type; ev_data := data |}.
Definition ignore : AgentEvent := event "ignore" [].

(** [x if isinstance(x, dict) else {}] of [d.get(key, {})] *)
Definition sub_object (d : dict string json) (k : string) : dict string json := match dget d k with Some (JObj o) => o | _ => [] end.
Definition text_of `{PyRepr} (d : dict string json) (k default_text : string) : string := py_str (default (JStr default_text) (dget d k)).
Definition has_text (d : dict string json) (k value : string) : bool :=
  match dget d k with Some (JStr s) => String.eqb s value | _ => false end.

Definition normalized_event `{PyRepr} (raw : dict string json) : AgentEvent :=
  let kind := text_of raw "type" "" in
  if String.eqb kind "result" || negb (String.eqb kind "stream_event") then ignore
  else
    let e := sub_object raw "event" in
    let event_type := text_of e "type" "" in
    if String.eqb event_type "content_block_delta" && has_text (sub_object e "delta") "type" "text_delta"
       && py_truth (default JNull (dget (sub_object e "delta") "text"))
    then event "assistant_delta" [("text", JStr (clipped 8192 (text_of (sub_object e "delta") "text" "")))]
    else if String.eqb event_type "content_block_start" && has_text (sub_object e "content_block") "type" "tool_use"
    then event "tool_call_started" [("tool", JStr (clipped 120 (text_of (sub_object e "content_block") "name" "sdwan")))]
    else if String.eqb event_type "content_block_stop" then event "tool_call_completed" []
    else ignore.

(** ** The output *)

(** What one read of the output gives: a line with its newline (the last one may
    have none), or nothing for as long as the runner waits. *)
Inductive Read := Line (bytes : string) | Silence.

(** The process: its reads up to the end of the output, the size of what its
    error output holds, and its exit code; [None] where they do not come in
    time. *)
Record Process := { reads : list Read; error_output : option Z; exit_code : option Z }.

(** [readline] raises for a line of more than 64 KiB. *)
Definition LINE_LIMIT : Z := 65536.
Definition newline : ascii := "010"%char.
Fixpoint ends_with_newline (s : string) : bool :=
  match s with EmptyString => false | String a EmptyString => Ascii.eqb a newline | String _ s' => ends_with_newline s' end.
Definition content_length (s : string) : Z := Z.of_nat (if ends_with_newline s then pred (String.length s) else String.length s).

(** How reading ended: at the end of the output (whether a final result came),
    at a bound or a silence, or with an exception the runner does not catch. *)
Inductive Ending := Finished_reading (result_received : bool) | Bound_exceeded | Raised (e : exn).

Section runner.
Context `{PyRepr} (loads : string → result json) (config : RunnerConfig).

Definition final_event (raw : dict string json) : list AgentEvent :=
  if has_text raw "type" "result" && nonempty (text_of raw "result" "")
  then [event "agent_final" [("text", JStr (clipped 16384 (text_of raw "result" "")))]] else [].
Definition shown_event (raw : dict string json) : list AgentEvent :=
  let e := normalized_event raw in if String.eqb (ev_type e) "ignore" then [] else [e].

(** What a line contributes; lines that are no JSON object are skipped. *)
Definition line_events (line : string) : list AgentEvent :=
  match loads line with Ok (JObj raw) => final_event raw ++ shown_event raw | _ => [] end.
Definition is_final (e : AgentEvent) : bool := String.eqb (ev_type e) "agent_final".

Fixpoint read_output (rs : list Read) (collected : Z) (received : bool) : list AgentEvent * Ending :=
  match rs with
  | [] => ([], Finished_reading received)
  | Silence :: _ => ([], Bound_exceeded)
  | Line bytes :: rs =>
      if negb (nonempty bytes) then ([], Finished_reading received)
      else if LINE_LIMIT <? content_length bytes then ([], Raised (Exn ValueError "Separator is found, but chunk is longer than limit"))
      else
        let collected := collected + Z.of_nat (String.length bytes) in
        if claude_max_output_bytes config <? collected then ([], Bound_exceeded)
        else
          let es := line_events bytes in
          let '(more, ending) := read_output rs collected (received || existsb is_final es) in (es ++ more, ending)
  end.

Definition agent_error (reason : string) : AgentEvent := event "agent_error" [("reason", JStr reason)].
Definition OUT_OF_BOUNDS : AgentEvent := agent_error "agent execution timed out or exceeded bounds".

(** After the output *)
Definition closing (p : Process) (session_id : string) (received : bool) : list AgentEvent :=
  match error_output p, exit_code p with
  | Some n, Some code =>
      if (claude_max_output_bytes config <? n) || negb (code =? 0) then
        [event "agent_error" [("reason", JStr "agent process did not complete successfully"); ("exit_code", JInt code)]]
      else (if received then [] else [agent_error "agent completed without a final result"]) ++
           [event "agent_completed" [("session_id", JStr session_id)]]
  | _, _ => [OUT_OF_BOUNDS]
  end.

(** The events of a run, and the exception that ends it if one does. *)
Definition run_process (p : Process) (session_id : string) : list AgentEvent * result unit :=
  match read_output (reads p) 0 false with
  | (es, Finished_reading received) => (es ++ closing p session_id received, Ok tt)
  | (es, Bound_exceeded) => (es ++ [OUT_OF_BOUNDS], Ok tt)
  | (es, Raised e) => (es, Err e)
  end.

(** [OllamaClaudeRunner.run]: the token is issued first; [launched] is [None]
    when the process cannot be started. *)
Definition run_agent {Token} (issued : result Token) (configured : bool) (launched : option Process) (session_id : string)
    : list AgentEvent * result unit :=
  match issued with
  | Err e => ([], Err e)
  | Ok _ =>
      if negb configured then ([agent_error "agent configuration is unavailable"], Ok tt)
      else match launched with
           | None => ([agent_error "agent runtime is unavailable"], Ok tt)
           | Some p => run_process p session_id
           end
  end.
End runner.

(** ** The turn *)

Section turn.
Context `{PyRepr} (now : string) (loads : string → result json) (dumps_sorted : json → string) (show_outcome : Validation → json).

(** What a run leaves in [final_text] *)
Definition final_of (es : list AgentEvent) : string :=
  fold_left (λ acc e, if is_final e then text_of (ev_data e) "text" "" else acc) es "".

Definition forward (t : Task) (es : list AgentEvent) : M Chat unit := forM (λ e, say t (ev_type e) (ev_data e)) es.

Definition attempt (t : Task) (r : list AgentEvent * result unit) : M Chat string :=
  _ ← forward t r.1; _ ← lift r.2; mret (final_of r.1).

(** The second attempt is made only if the first left no text. *)
Definition attempts (t : Task) (first second : list AgentEvent * result unit) : M Chat string :=
  text ← attempt t first;
  if nonempty text then mret text
  else
    _ ← say t "agent_retrying" [("reason", JStr "agent completed without a final result")];
    attempt t second.

Definition agent_turn (t : Task) (first second : list AgentEvent * result unit) : M Chat unit :=
  ends_task t (
    _ ← say t "session_started" [("session_id", JInt (tk_session t))];
    _ ← say t "evidence_bundle_created" [("bundle_id", JStr (tk_bundle t))];
    _ ← say t "agent_starting" [];
    _ ← catch_all (text ← attempts t first second; conclude now loads dumps_sorted show_outcome t None text)
          (say t "agent_error" [("reason", JStr "agent gateway failed")]);
    say t "stream_closed" []).
End turn.

(** * Facts about the agent process

    Whatever the process prints and however it ends, the turn of the chat ends,
    what it shows comes from texts and tool names of the output, and what is
    validated and stored is the process's final result and nothing else. *)

(** ** The instructions *)

(** The words that follow a marker in a text *)
Fixpoint words_after (marker s : string) : list string :=
  (if String.prefix marker s then [leading is_word (skip_chars (String.length marker) s)] else []) ++
  match s with String _ s' => words_after marker s' | EmptyString => [] end.

(** The alternatives that follow a marker, up to a comma *)
Fixpoint alternatives_after (marker s : string) : list string :=
  if String.prefix marker s
  then split_on "|"%char (leading (λ a, negb (Ascii.eqb a ","%char)) (skip_chars (String.length marker) s))
  else match s with String _ s' => alternatives_after marker s' | EmptyString => [] end.

(** One call of every tool *)
Definition every_tool : list ToolCall := [
  create_site "" None "" ""; delete_site ""; upsert_intent "" "" "" []; delete_intent ""; get_dashboard_summary; list_sites; get_site_status "";
  get_site_tunnels ""; get_site_routes ""; get_topology; get_hub_status ""; get_cloud_status; get_saas_status; compare_site "";
  explain_route_decision "" "" None None; get_recent_events; get_system_health; get_topology_nodes; get_topology_links; get_endpoint_inventory;
  get_endpoint ""; explain_endpoint_route "" "" None; explain_site_host_route "" "" None; observe_flow "" ""; get_transport_inventory;
  get_hub_tunnels ""; get_hub_configuration ""; list_cloud_gateways; get_cloud_gateway ""; get_data_center_configuration; get_saas_configuration;
  get_route_ownership; get_site_desired_state ""; list_policy_versions; get_destination_policy; list_ztp_devices; get_site_interfaces "";
  get_site_failover_status ""; get_site_classifier_status ""; graph_get_component ""; graph_expand_dependencies "" "" 0; graph_find_path "" "";
  graph_get_expected_traffic_path "" ""; graph_calculate_impact_scope ""; evidence_get_for_components []].

Lemma every_tool_complete t : tool_name t ∈ map tool_name every_tool.
Proof. apply list_elem_of_In. destruct t; vm_compute; tauto. Qed.

Lemma tool_names_distinct : NoDup (map tool_name every_tool).
Proof. apply (bool_decide_unpack _). vm_compute. exact I. Qed.

(** The instructions name tools the server has, and exactly the claim types the
    answer schema admits. *)
Lemma instructions_agree : (∀ n, n ∈ words_after "mcp__sdwan__" (factual_prompt "") → ∃ t, tool_name t = n) ∧
  length (words_after "mcp__sdwan__" (factual_prompt "")) = 13%nat ∧
  alternatives_after "claim_type:" (factual_prompt "") = dkeys compatible.
Proof.
  split; [|by vm_compute]. intros n Hn.
  assert (Hsub : forallb (λ n, inb n (map tool_name every_tool)) (words_after "mcp__sdwan__" (factual_prompt "")) = true) by (by vm_compute).
  rewrite forallb_forall in Hsub. apply list_elem_of_In in Hn. specialize (Hsub n Hn). apply inb_true, list_elem_of_In, in_map_iff in Hsub.
  destruct Hsub as (t & Ht & _). by exists t.
Qed.

(** ** What is shown *)

Section runner.
Context `{PyRepr} (loads : string → result json) (config : RunnerConfig).

(** The records of the output up to where reading ends *)
Definition record_of (line : string) : list (dict string json) := match loads line with Ok (JObj raw) => [raw] | _ => [] end.
Definition size_of (ls : list string) : Z := foldr (λ l n, Z.of_nat (String.length l) + n) 0 ls.
Definition lines_of (rs : list Read) : list string := flat_map (λ r, match r with Line l => [l] | Silence => [] end) rs.

(** Where an event comes from: a text of the answer, the name of a tool, the
    final result, or the runner itself. *)
Definition from_record (e : AgentEvent) (raw : dict string json) : Prop :=
  (ev_type e = "assistant_delta" ∧ ∃ delta v, sub_object (sub_object raw "event") "delta" = delta ∧ has_text delta "type" "text_delta" = true ∧
     dget delta "text" = Some v ∧ ev_data e = [("text", JStr (clipped 8192 (py_str v)))]) ∨
  (ev_type e = "tool_call_started" ∧ ∃ block, sub_object (sub_object raw "event") "content_block" = block ∧
     has_text block "type" "tool_use" = true ∧ ev_data e = [("tool", JStr (clipped 120 (text_of block "name" "sdwan")))]) ∨
  (ev_type e = "tool_call_completed" ∧ ev_data e = []) ∨
  (ev_type e = "agent_final" ∧ has_text raw "type" "result" = true ∧ ev_data e = [("text", JStr (clipped 16384 (text_of raw "result" "")))]).
Definition from_runner (e : AgentEvent) : Prop := ev_type e = "agent_error" ∨ ev_type e = "agent_completed".

Lemma normalized_event_from raw : ev_type (normalized_event raw) ≠ "ignore" → from_record (normalized_event raw) raw.
Proof.
  unfold normalized_event. destruct (_ || _); [intros Hi; by destruct Hi|]. set (e := sub_object raw "event"). cbv zeta.
  destruct (String.eqb (text_of e "type" "") "content_block_delta" && has_text (sub_object e "delta") "type" "text_delta" &&
    py_truth (default JNull (dget (sub_object e "delta") "text"))) eqn:E.
  - intros _. left. split; [done|]. apply andb_true_iff in E as [[_ Ht]%andb_true_iff Hx]. exists (sub_object e "delta").
    unfold text_of. destruct (dget (sub_object e "delta") "text") as [v|]; [|discriminate Hx]. by exists v.
  - destruct (String.eqb (text_of e "type" "") "content_block_start" && has_text (sub_object e "content_block") "type" "tool_use") eqn:E'.
    + intros _. right; left. split; [done|]. apply andb_true_iff in E' as [_ Ht]. by exists (sub_object e "content_block").
    + destruct (String.eqb (text_of e "type" "") "content_block_stop"); [intros _; by right; right; left|intros Hi; by destruct Hi].
Qed.

Lemma line_events_from line e : e ∈ line_events loads line → ∃ raw, loads line = Ok (JObj raw) ∧ from_record e raw.
Proof.
  unfold line_events. destruct (loads line) as [[| | | | | |raw]|]; try by intros ?%elem_of_nil. intros [Hf|Hs]%elem_of_app; exists raw; split; try done.
  - unfold final_event in Hf. destruct (_ && _) eqn:E; [|by apply elem_of_nil in Hf]. apply list_elem_of_singleton in Hf as ->.
    right; right; right. apply andb_true_iff in E as [E _]. by split_and!.
  - unfold shown_event in Hs. destruct (String.eqb_spec (ev_type (normalized_event raw)) "ignore"); [by apply elem_of_nil in Hs|].
    apply list_elem_of_singleton in Hs as ->. by apply normalized_event_from.
Qed.

(** What was read before reading ended, and its size *)
Lemma read_output_prefix rs : ∀ n b, ∃ k,
  (read_output loads config rs n b).1 = flat_map (line_events loads) (take k (lines_of rs)) ∧
  n + size_of (take k (lines_of rs)) <= Z.max n (claude_max_output_bytes config) ∧
  (∀ b', (read_output loads config rs n b).2 = Finished_reading b' →
     b' = b || existsb is_final (read_output loads config rs n b).1).
Proof.
  induction rs as [|[l|] rs IH]; intros n b.
  - exists 0%nat. cbn. split_and!; [done|lia|]. intros b' [= <-]. by rewrite orb_false_r.
  - cbn [read_output]. destruct (nonempty l) eqn:Hl; cbn [negb].
    2:{ exists 0%nat. cbn. split_and!; [done|lia|]. intros b' [= <-]. by rewrite orb_false_r. }
    destruct (LINE_LIMIT <? content_length l); [exists 0%nat; cbn; split_and!; [done|lia|done]|].
    destruct (claude_max_output_bytes config <? n + Z.of_nat (String.length l)) eqn:Hm; [exists 0%nat; cbn; split_and!; [done|lia|done]|].
    apply Z.ltb_ge in Hm. destruct (IH (n + Z.of_nat (String.length l)) (b || existsb is_final (line_events loads l))) as (k & Hk & Hs & Hb).
    destruct (read_output loads config rs _ _) as [more ending]. cbn [fst snd] in *. exists (S k).
    change (lines_of (Line l :: rs)) with (l :: lines_of rs). cbn [take flat_map]. split_and!.
    + by rewrite Hk.
    + assert (size_of (l :: take k (lines_of rs)) = Z.of_nat (String.length l) + size_of (take k (lines_of rs))) as -> by done. lia.
    + intros b' Hb'. rewrite (Hb b' Hb'), existsb_app. by rewrite orb_assoc.
  - exists 0%nat. rewrite take_0. cbn [size_of foldr flat_map]. split_and!; [done|unfold size_of; cbn; lia|done].
Qed.

Lemma closing_from_runner p session b e : e ∈ closing config p session b → from_runner e.
Proof.
  unfold closing, from_runner. destruct (error_output p); [|intros ->%list_elem_of_singleton; by left].
  destruct (exit_code p); [|intros ->%list_elem_of_singleton; by left].
  destruct (_ || _); [intros ->%list_elem_of_singleton; by left|].
  intros [He|He]%elem_of_app; [|apply list_elem_of_singleton in He as ->; by right].
  destruct b; [by apply elem_of_nil in He|]. apply list_elem_of_singleton in He as ->. by left.
Qed.

(** Nothing else of the output is shown: no reasoning, no tool result. *)
Lemma shown_events_traced p session e : e ∈ (run_process loads config p session).1 →
  from_runner e ∨ ∃ line raw, line ∈ lines_of (reads p) ∧ loads line = Ok (JObj raw) ∧ from_record e raw.
Proof.
  assert (Hread : e ∈ (read_output loads config (reads p) 0 false).1 →
    ∃ line raw, line ∈ lines_of (reads p) ∧ loads line = Ok (JObj raw) ∧ from_record e raw).
  { destruct (read_output_prefix (reads p) 0 false) as (k & -> & _). intros (line & Hl & He)%list_elem_of_In%in_flat_map.
    apply list_elem_of_In in He, Hl. apply line_events_from in He as (raw & Hr & Hf). exists line, raw. split; [|done].
    rewrite <- (take_drop k (lines_of (reads p))). apply elem_of_app. by left. }
  unfold run_process. destruct (read_output loads config (reads p) 0 false) as [es [b| |ex]]; cbn [fst] in *.
  - intros [He|He]%elem_of_app; [right; by apply Hread|left; by eapply closing_from_runner].
  - intros [He|He]%elem_of_app; [right; by apply Hread|left]. apply list_elem_of_singleton in He as ->. by left.
  - intros He. right. by apply Hread.
Qed.

(** The final results among lines, as the runner passes them on *)
Definition results_in (ls : list string) : list string :=
  flat_map (λ l, flat_map (λ raw, if has_text raw "type" "result" && nonempty (text_of raw "result" "")
                                  then [clipped 16384 (text_of raw "result" "")] else []) (record_of l)) ls.

Definition final_texts (es : list AgentEvent) : list string :=
  flat_map (λ e, if is_final e then [text_of (ev_data e) "text" ""] else []) es.

Lemma final_of_last es : final_of es = default "" (last (final_texts es)).
Proof.
  unfold final_of. enough (Hacc : ∀ acc, fold_left (λ acc e, if is_final e then text_of (ev_data e) "text" "" else acc) es acc =
    default acc (last (final_texts es))) by apply Hacc.
  induction es as [|e es IH]; intros acc; [done|]. cbn [fold_left]. rewrite IH. unfold final_texts. cbn [flat_map].
  destruct (is_final e); [|done]. cbn [app]. by destruct (last (flat_map _ es)) eqn:El; rewrite last_cons, El.
Qed.

Lemma normalized_not_final raw : is_final (normalized_event raw) = false.
Proof.
  unfold normalized_event. destruct (_ || _); [done|]. destruct (_ && _); [done|]. destruct (_ && _); [done|]. by destruct (String.eqb _ _).
Qed.

Lemma final_texts_lines ls : final_texts (flat_map (line_events loads) ls) = results_in ls.
Proof.
  unfold final_texts, results_in. induction ls as [|l ls IH]; [done|]. cbn [flat_map]. rewrite flat_map_app, IH. f_equal.
  unfold line_events, record_of. destruct (loads l) as [[| | | | | |raw]|]; try done. cbn [flat_map]. rewrite flat_map_app, app_nil_r.
  assert (Hs : flat_map (λ e, if is_final e then [text_of (ev_data e) "text" ""] else []) (shown_event raw) = []).
  { unfold shown_event. destruct (String.eqb _ _); [done|]. cbn. by rewrite normalized_not_final. }
  rewrite Hs, app_nil_r. unfold final_event. by destruct (_ && _).
Qed.

Lemma final_texts_none es : (∀ e, e ∈ es → from_runner e) → final_texts es = [].
Proof.
  intros Hf. induction es as [|e es IH]; [done|]. unfold final_texts in *. cbn [flat_map]. rewrite IH by (intros x Hx; apply Hf; by right).
  assert (is_final e = false) as ->; [|done]. unfold is_final. destruct (Hf e) as [->| ->]; [by left|done|done].
Qed.

(** The text a run leaves is its last final result: texts that were streamed
    before it are never taken for the answer. *)
Lemma run_final_text p session : ∃ k, final_of (run_process loads config p session).1 = default "" (last (results_in (take k (lines_of (reads p))))).
Proof.
  destruct (read_output_prefix (reads p) 0 false) as (k & Hk & _). exists k. rewrite final_of_last. f_equal. f_equal. unfold run_process.
  destruct (read_output loads config (reads p) 0 false) as [es [b| |ex]]; cbn [fst] in *; subst es.
  - unfold final_texts. rewrite flat_map_app. fold (final_texts (flat_map (line_events loads) (take k (lines_of (reads p))))).
    fold (final_texts (closing config p session b)). rewrite final_texts_lines, (final_texts_none (closing _ _ _ _)), app_nil_r; [done|].
    intros e. apply closing_from_runner.
  - unfold final_texts. rewrite flat_map_app. fold (final_texts (flat_map (line_events loads) (take k (lines_of (reads p))))).
    rewrite final_texts_lines. cbn. by rewrite app_nil_r.
  - apply final_texts_lines.
Qed.

(** An output within the bounds is read to its end. *)
Lemma complete_output ls : ∀ n b, (∀ l, l ∈ ls → nonempty l = true ∧ content_length l <= LINE_LIMIT) →
  n + size_of ls <= claude_max_output_bytes config →
  read_output loads config (map Line ls) n b =
    (flat_map (line_events loads) ls, Finished_reading (b || existsb is_final (flat_map (line_events loads) ls))).
Proof.
  induction ls as [|l ls IH]; intros n b Hl Hs; [by rewrite orb_false_r|]. destruct (Hl l) as [Hn Hc]; [by left|].
  cbn [map read_output]. rewrite Hn. cbn [negb].
  assert (Hsz : size_of (l :: ls) = Z.of_nat (String.length l) + size_of ls) by done. rewrite Hsz in Hs.
  assert (Hpos : 0 <= size_of ls) by (clear; induction ls as [|x ls IH]; unfold size_of in *; cbn; lia).
  rewrite (proj2 (Z.ltb_ge _ _) Hc). assert (claude_max_output_bytes config <? n + Z.of_nat (String.length l) = false) as -> by (apply Z.ltb_ge; lia).
  rewrite IH by (try lia; intros x Hx; apply Hl; by right). cbn [flat_map]. by rewrite existsb_app, orb_assoc.
Qed.
End runner.

(** ** The turn *)

(** Chats that differ in their queues only *)
Definition same_store : relation Chat := λ c c', chat_store c = chat_store c' ∧ active_tasks c = active_tasks c'.
(** Steps that write events and the store, never a task. *)
Definition speaks (session : Z) : relation Chat := λ c c',
  queue_of c session `prefix_of` queue_of c' session ∧ active_tasks c' = active_tasks c.

#[export] Instance same_store_equivalence : Equivalence same_store.
Proof. split; [done|by intros ?? []|]. intros ??? [] []. split; congruence. Qed.
#[export] Instance speaks_preorder session : PreOrder (speaks session).
Proof. split; [by intros c; split|]. intros a b c [P1 T1] [P2 T2]. split; [by etrans|congruence]. Qed.

(** A step whose result and writes do not depend on the queues. *)
Definition blind {A} (m : M Chat A) : Prop := ∀ c1 c2, same_store c1 c2 → (m c1).1 = (m c2).1 ∧ same_store (m c1).2 (m c2).2.

Lemma blind_bind {A B} (m : M Chat A) (k : A → M Chat B) : blind m → (∀ x, blind (k x)) → blind (m ≫= k).
Proof.
  intros Hm Hk c1 c2 Hs. unfold mbind, M_bind. destruct (Hm c1 c2 Hs) as [Hr Hss]. destruct (m c1) as [r1 d1], (m c2) as [r2 d2].
  cbn in Hr, Hss. subst r2. destruct r1 as [x|e]; [by apply Hk|done].
Qed.
Lemma blind_event session kind data : blind (put_event session kind data).
Proof. intros c1 c2 [Hs Ht]. by repeat split. Qed.
Lemma blind_store {A} (m : M Store A) : blind (in_store m).
Proof. intros c1 c2 [Hs Ht]. unfold in_store. rewrite Hs. destruct (m (chat_store c2)). by repeat split. Qed.
Lemma blind_lift {A} (r : result A) : blind (lift r).
Proof. intros c1 c2 Hs. by destruct r. Qed.
Lemma blind_get {B} (k : Chat → M Chat B) : (∀ c1 c2, same_store c1 c2 → k c1 = k c2) → (∀ c, blind (k c)) → blind (get ≫= k).
Proof. intros Hk Hb c1 c2 Hs. unfold mbind, M_bind, get. rewrite (Hk c1 c2 Hs). by apply Hb. Qed.

Lemma event_speaks session kind data : moves (speaks session) (put_event session kind data).
Proof. intros c. split; [|done]. change ((put_event session kind data c).2) with (with_event session kind data c). rewrite queue_with_event. by eexists. Qed.
Lemma store_speaks session {A} (m : M Store A) : moves (speaks session) (in_store m).
Proof. intros c. unfold in_store. by destruct (m (chat_store c)). Qed.

Section turn.
Context `{PyRepr} (now : string) (loads : string → result json) (dumps dumps_sorted : json → string) (show_outcome : Validation → json).

Lemma blind_validate t outcome rendered : blind (validate_final now t outcome rendered).
Proof.
  unfold validate_final. apply blind_bind; [apply blind_event|]. intros _. apply blind_get; [by intros c1 c2 [-> _]|]. intros c.
  apply blind_bind; [apply blind_store|]. intros _. destruct rendered as [text|]; [destruct (evidence_bundle _ _ _ _)|];
    (apply blind_bind; [apply blind_store|intros _]; apply blind_bind; [apply blind_event|intros _]; apply blind_bind; [apply blind_event|intros _];
     apply blind_store).
Qed.

Lemma blind_conclude t prepared text : blind (conclude now loads dumps_sorted show_outcome t prepared text).
Proof.
  unfold conclude. apply blind_get; [by intros c1 c2 [-> _]|]. intros c. destruct (outcome_of _ _ _ _) as [v|e].
  - destruct (rendered_answer _ _ _) as [r|e]; [apply blind_validate|]. apply blind_bind; [apply blind_event|]. intros _.
    apply blind_bind; [apply blind_store|]. intros _. apply blind_lift.
  - apply blind_bind; [apply blind_event|]. intros _. apply blind_lift.
Qed.

Lemma conclude_speaks t prepared text : moves (speaks (tk_session t)) (conclude now loads dumps_sorted show_outcome t prepared text).
Proof.
  unfold conclude, validate_final, started. repeat lazymatch goal with
  | |- moves _ (put_event _ _ _) => apply event_speaks
  | |- moves _ (in_store _) => apply store_speaks
  | _ => moves_step
  end.
Qed.

(** Forwarding events always succeeds and changes a queue only. *)
Lemma forward_spec t es c : ∃ c', forward t es c = (Ok tt, c') ∧ same_store c c' ∧ speaks (tk_session t) c c'.
Proof.
  revert c. induction es as [|e es IH]; intros c; [by exists c|]. unfold forward. cbn [forM].
  change ((_ ← say t (ev_type e) (ev_data e); forM (λ e, say t (ev_type e) (ev_data e)) es) c) with (forward t es (with_event (tk_session t) (ev_type e) (JObj (ev_data e)) c)).
  destruct (IH (with_event (tk_session t) (ev_type e) (JObj (ev_data e)) c)) as (c' & -> & Hs & Hg). exists c'. split; [done|]. split.
  - etrans; [|exact Hs]. done.
  - etrans; [|exact Hg]. apply (event_speaks (tk_session t) (ev_type e) (JObj (ev_data e)) c).
Qed.

(** The text the attempts leave, or the exception of a run *)
Definition text_left (first second : list AgentEvent * result unit) : result string :=
  _ ← first.2;
  if nonempty (final_of first.1) then Ok (final_of first.1) else _ ← second.2; Ok (final_of second.1).

Lemma attempt_spec t r c : ∃ c', attempt t r c = ((_ ← r.2; Ok (final_of r.1)), c') ∧ same_store c c' ∧ speaks (tk_session t) c c'.
Proof.
  unfold attempt. unfold mbind at 1, M_bind. destruct (forward_spec t r.1 c) as (c' & -> & Hs & Hg). exists c'. split; [|done].
  unfold lift, mbind, M_bind, mret, M_ret. by destruct r.2.
Qed.

Lemma attempts_spec t first second c : ∃ c', attempts t first second c = (text_left first second, c') ∧ same_store c c' ∧ speaks (tk_session t) c c'.
Proof.
  unfold attempts, text_left. unfold mbind at 1, M_bind. destruct (attempt_spec t first c) as (c1 & -> & Hs1 & Hg1).
  destruct first.2 as [[]|e]; [|by exists c1]. cbn [mbind result_bind]. destruct (nonempty (final_of first.1)); [by exists c1|].
  change ((_ ← say t "agent_retrying" _; attempt t second) c1) with (attempt t second (with_event (tk_session t) "agent_retrying"
    (JObj [("reason", JStr "agent completed without a final result")]) c1)).
  set (c1' := with_event _ _ _ c1). destruct (attempt_spec t second c1') as (c2 & -> & Hs2 & Hg2). exists c2. split; [done|]. split.
  - etrans; [exact Hs1|]. etrans; [|exact Hs2]. done.
  - etrans; [exact Hg1|]. etrans; [exact (event_speaks (tk_session t) "agent_retrying" (JObj [("reason", JStr "agent completed without a final result")]) c1)|exact Hg2].
Qed.

(** What ends a turn, whatever the first part did *)
Definition guarded_turn (t : Task) (body : M Chat unit) : M Chat unit :=
  ends_task t (
    _ ← say t "session_started" [("session_id", JInt (tk_session t))];
    _ ← say t "evidence_bundle_created" [("bundle_id", JStr (tk_bundle t))];
    _ ← say t "agent_starting" [];
    _ ← catch_all body (say t "agent_error" [("reason", JStr "agent gateway failed")]);
    say t "stream_closed" []).

Lemma guarded_turn_ends t body c : moves (speaks (tk_session t)) body →
  ∃ c', guarded_turn t body c = (Ok tt, c') ∧ active_tasks c' = ddel (active_tasks c) (tk_session t) ∧
    ∃ events, queue_of c' (tk_session t) = queue_of c (tk_session t) ++ events ++ [("stream_closed", JObj [])].
Proof.
  intros Hb. unfold guarded_turn, ends_task. set (d := with_event (tk_session t) "agent_starting" (JObj []) (with_event (tk_session t)
    "evidence_bundle_created" (JObj [("bundle_id", JStr (tk_bundle t))]) (with_event (tk_session t) "session_started"
    (JObj [("session_id", JInt (tk_session t))]) c))).
  assert (Hd : speaks (tk_session t) c d).
  { split; [|done]. unfold d. rewrite !queue_with_event, <- !app_assoc. by eexists. }
  assert (Hc : ∃ c1, catch_all body (say t "agent_error" [("reason", JStr "agent gateway failed")]) d = (Ok tt, c1) ∧ speaks (tk_session t) d c1).
  { unfold catch_all. specialize (Hb d). destruct (body d) as [[[]|e] c1]; [by exists c1|]. eexists. split; [reflexivity|].
    etrans; [exact Hb|]. exact (event_speaks (tk_session t) "agent_error" (JObj [("reason", JStr "agent gateway failed")]) c1). }
  destruct Hc as (c1 & Hc & Hg).
  match goal with |- context [let '(_, _) := ?m c in _] => assert (Hrun : m c = (Ok tt, with_event (tk_session t) "stream_closed" (JObj []) c1)) end.
  { change ((_ ← catch_all body (say t "agent_error" [("reason", JStr "agent gateway failed")]); say t "stream_closed" []) d =
      (Ok tt, with_event (tk_session t) "stream_closed" (JObj []) c1)). unfold mbind, M_bind. by rewrite Hc. }
  rewrite Hrun. eexists. split; [reflexivity|]. assert (Hcc : speaks (tk_session t) c c1) by (by etrans). destruct Hcc as [(events & Hq) Ht].
  split; [cbn; by rewrite Ht|]. exists events.
  change (queue_of (with_event (tk_session t) "stream_closed" (JObj []) c1) (tk_session t) =
    queue_of c (tk_session t) ++ events ++ [("stream_closed", JObj [])]).
  by rewrite queue_with_event, Hq, <- app_assoc.
Qed.

Lemma attempts_speak t first second : moves (speaks (tk_session t)) (attempts t first second).
Proof. intros c. destruct (attempts_spec t first second c) as (c' & -> & _ & Hg). exact Hg. Qed.

(** The store after a turn depends on the text that was left and on nothing else
    the process said. *)
Lemma agent_turn_store t first second c :
  chat_store (agent_turn now loads dumps_sorted show_outcome t first second c).2 =
  chat_store (execute_turn now loads dumps dumps_sorted show_outcome t (Ok None) ((λ x, [x]) <$> text_left first second) c).2.
Proof.
  set (d := with_event (tk_session t) "agent_starting" (JObj []) (with_event (tk_session t)
    "evidence_bundle_created" (JObj [("bundle_id", JStr (tk_bundle t))]) (with_event (tk_session t) "session_started"
    (JObj [("session_id", JInt (tk_session t))]) c))).
  set (fail := say t "agent_error" [("reason", JStr "agent gateway failed")]).
  set (body1 := text ← attempts t first second; conclude now loads dumps_sorted show_outcome t None text).
  set (body2 := texts ← lift ((λ x, [x]) <$> text_left first second); conclude now loads dumps_sorted show_outcome t None (EvidencePlanner.final_text texts)).
  change (chat_store (guarded_turn t body1 c).2 = chat_store (guarded_turn t body2 c).2).
  assert (Hstore : ∀ body, chat_store (guarded_turn t body c).2 = chat_store (catch_all body fail d).2).
  { intros body. unfold guarded_turn, ends_task.
    match goal with |- context [let '(_, _) := ?m c in _] => change (m c) with ((_ ← catch_all body fail; say t "stream_closed" []) d) end.
    unfold mbind, M_bind. by destruct (catch_all body fail d) as [[[]|e] c1]. }
  rewrite !Hstore. unfold catch_all, body1, body2, lift. unfold mbind, M_bind.
  destruct (attempts_spec t first second d) as (c1 & -> & Hs & _). destruct (text_left first second) as [text|e].
  - cbn [fmap result_fmap]. assert (Htext : EvidencePlanner.final_text [text] = text).
    { unfold EvidencePlanner.final_text. destruct (nonempty text) eqn:E; [done|]. by destruct text. }
    unfold fmap, result_fmap. rewrite Htext. destruct (blind_conclude t None text c1 d) as [Hr Hsame]; [by symmetry|].
    destruct (conclude _ _ _ _ t None text c1) as [r1 e1], (conclude _ _ _ _ t None text d) as [r2 e2]. cbn in Hr, Hsame. subst r2.
    destruct Hsame as [Hst _]. by destruct r1 as [[]|].
  - destruct Hs as [Hst _]. symmetry. exact Hst.
Qed.

(** An output the runner reads to its end *)
Definition within_limits (config : RunnerConfig) (ls : list string) : Prop :=
  (∀ l, l ∈ ls → nonempty l = true ∧ content_length l <= LINE_LIMIT) ∧ size_of ls <= claude_max_output_bytes config.

End turn.

(** ** Where it falls short *)

(** A line above [readline]'s own limit raises, far below the runner's bound. *)
Lemma long_line_raises `{PyRepr} loads config l rs p session : LINE_LIMIT < content_length l → reads p = Line l :: rs →
  ∃ e, run_process loads config p session = ([], Err e) ∧ exn_cls e = ValueError.
Proof.
  intros Hl Hp. unfold run_process. rewrite Hp. cbn [read_output]. assert (nonempty l = true) as -> by (destruct l; [exfalso; unfold LINE_LIMIT, content_length in Hl; cbn in Hl; lia|done]).
  cbn [negb]. rewrite (proj2 (Z.ltb_lt _ _) Hl). by eexists.
Qed.

(** A run that raises leaves the question without any answer, not even the one
    that says the evidence is insufficient. *)
Lemma raised_run_stores_nothing `{PyRepr} now loads dumps_sorted show_outcome t es e second c :
  chat_store (agent_turn now loads dumps_sorted show_outcome t (es, Err e) second c).2 = chat_store c.
Proof. by rewrite (agent_turn_store now loads (λ _, "") dumps_sorted show_outcome). Qed.

(** The environment of the agent holds the secret access tokens are sealed with,
    so what runs in it can issue itself the token of an administrator. *)
Lemma agent_may_mint_tokens `{PyRepr} {Token : Type} (seal : string → string → dict string json → Token) unseal
    (unseal_seal : ∀ secret d, unseal secret (salt "access") None (seal secret (salt "access") d) = Some (JObj d)) config context session message bundle now :
  nonempty (signing_secret config) = true →
  let environment := restricted_environment config context session message bundle in
  let admin := {| subject := "agent"; principal_role := "ADMIN"; scopes := scopes_for "ADMIN" |} in
  ∃ token, issue seal (default "" (dget environment "SDWAN_MANAGEMENT_SECRET")) admin now 3600 = Ok token ∧
    ∀ time, (time <= inject_Z (now + 3600))%Q → verify unseal (signing_secret config) token time = Ok admin.
Proof.
  intros Hn environment admin. change (default "" (dget environment "SDWAN_MANAGEMENT_SECRET")) with (signing_secret config).
  destruct (issue seal (signing_secret config) admin now 3600) as [token|e] eqn:E.
  2:{ unfold issue, with_secret in E. rewrite Hn in E. discriminate E. }
  exists token. split; [done|]. intros time Ht.
  assert (HR : principal_role admin ∈ ROLES) by (by apply inb_true). assert (HS : scopes admin ⊆ role_scopes (principal_role admin)) by apply scopes_for_bounded.
  rewrite (verify_issue seal unseal unseal_seal (signing_secret config) admin now 3600 token time HR HS E).
  destruct (Qltb (inject_Z (now + 3600)) time) eqn:Hq; [|done]. apply Qltb_true in Hq. exfalso. lra.
Qed.

Module Examples.
Import EvidencePlannerFacts.Examples.

Definition stream_record (event_type : string) (more : dict string json) : json :=
  JObj [("type", JStr "stream_event"); ("event", JObj (("type", JStr event_type) :: more))].
Definition text_delta (s : string) : json :=
  stream_record "content_block_delta" [("delta", JObj [("type", JStr "text_delta"); ("text", JStr s)])].
Definition thinking_delta (s : string) : json :=
  stream_record "content_block_delta" [("delta", JObj [("type", JStr "thinking_delta"); ("thinking", JStr s)])].
Definition final_result (s : string) : json := JObj [("type", JStr "result"); ("result", JStr s)].

(** A JSON library for the lines below. *)
Definition reads_lines (s : string) : result json :=
  if String.eqb s "think" then Ok (thinking_delta "a secret") else if String.eqb s "text" then Ok (text_delta "Perhaps")
  else if String.eqb s "start" then Ok (stream_record "content_block_start" [("content_block", JObj [("type", JStr "text")])])
  else if String.eqb s "stop" then Ok (stream_record "content_block_stop" []) else if String.eqb s "early" then Ok (final_result "early")
  else if String.eqb s "late" then Ok (final_result "late") else raise ValueError "no JSON".

Definition lab_config : RunnerConfig := {|
  ollama_executable := "/usr/local/bin/ollama"; ollama_model := "m"; mcp_config := "/c/mcp.json"; claude_settings := "/c/claude.json";
  claude_home := "/home/a"; agent_path := "/bin"; project_root := "/lab/sdwan"; signing_secret := "k"; agent_context_audience := "sdwan-mcp-stdio";
  claude_timeout_seconds := 120; claude_max_output_bytes := 262144 |}.
Definition process (ls : list string) (code : Z) : Process := {| reads := map Line ls; error_output := Some 0; exit_code := Some code |}.

(** No reasoning is shown; the end of a block of text is announced as the end of
    a tool call. *)
Lemma text_block_ends_as_tool : (run_process reads_lines lab_config (process ["think"; "start"; "text"; "stop"] 0) "1").1 =
  [event "assistant_delta" [("text", JStr "Perhaps")]; event "tool_call_completed" [];
   agent_error "agent completed without a final result"; event "agent_completed" [("session_id", JStr "1")]].
Proof. vm_compute. reflexivity. Qed.

(** The agent streams a text and ends without a result; the second run fails
    after two results, the later of which is the text that is validated. *)
Definition lab_task : Task := {| tk_session := 1; tk_bundle := "b1"; tk_actor := "alice" |}.
Definition asked : Chat := (post_message "t1" 1 "alice" "What is MPLS?" "b1" quiet).2.
Definition silent_run : Process := process ["think"; "text"; "stop"] 0.
Definition result_lines : list string := ["early"; "text"; "late"].
Definition result_run : Process := process result_lines 1.

Lemma result_lines_fit : within_limits lab_config result_lines.
Proof.
  split; [|vm_compute; discriminate]. intros l Hl. unfold result_lines in Hl. rewrite !elem_of_cons in Hl.
  destruct Hl as [->|[->|[->|Hl%elem_of_nil]]]; [..|done]; (split; [reflexivity|]; vm_compute; discriminate).
Qed.

End Examples.
